(* ===== verification/_CoqProject ===== *)
-Q . S2P
Prelude.v
Text.v
Money.v
Contract.v
MissionTypes.v
WorkProduct.v
Effect.v
Checkpoint.v
Terminal.v
Mission.v
MissionMachine.v
MissionFixture.v
MissionSafety.v
MissionLedger.v
MissionOutcome.v
MissionDag.v
MissionReload.v
Digest.v
Schedule.v
ScheduleSafety.v
LoopState.v
LoopDecision.v
LoopTransition.v
LoopScopes.v
LoopChoice.v
LoopSteps.v
LoopSafety.v
LoopFixture.v
LoopGuarantees.v
LoopProgress.v
Connection.v
ConnectionSafety.v
Deletion.v
DeletionSafety.v
RuntimeTurn.v
TurnSafety.v
TurnStream.v
Truth.v
Context.v
Worker.v
WorkerSteps.v
WorkerFixture.v
MailboxSafety.v
WorkerGuarantees.v
ContextSafety.v
Foundation.v
Recovery.v
FoundationFixture.v
FoundationSafety.v
RecoverySafety.v
ProcessSafety.v
Identity.v
IdentitySafety.v
Keys.v
KeysSafety.v
DeviceSafety.v
Conversation.v
ConversationSafety.v
Campaign.v
CampaignSafety.v
Opportunity.v
CreatorHiring.v
HiringSafety.v
