(* ===== verification/Prelude.v ===== *)
(** * The Hartevo domain kernel: a verification library

    Hartevo runs Missions: long-lived pieces of work that an agent plans,
    executes through approved external effects, verifies and repeats on a
    schedule. The rules of the system are the crate
    [hartevo-rs/domain-kernel]; the other crates store its records, call
    providers and draw the user interface. This library models the kernel and
    proves the guarantees the rest of the system relies on.

    ** How the code is modelled

    - A Rust [Result] is [result] with a third outcome [Panic] for the panics
      the language or a library documents. A method on [&mut self] is a
      computation in [SR S E A]: it keeps the state on every outcome, so a write
      that precedes a failing check stays visible.
    - Integers are [Z] within their width; checked, saturating and wrapping
      arithmetic is written out ([checked_add], [saturating_add],
      [wrapping_succ_u64] for [+ 1] in the release profile).
    - A string is its UTF-8 bytes; [trim] removes what Unicode calls white space.
      Ordered sets and maps are [gset] and [gmap], iterated in byte order.
    - An instant or a duration is a number of nanoseconds.
    - Identifier newtypes ([ids.rs]) are strings. Enum and struct names are the
      source's; fields carry a two-letter prefix per record.

    Code that is not in the repository is a parameter with the laws its
    documentation states: chrono ([Chrono], [ChronoLaws]), SHA-256 ([Sha256],
    [Sha256Laws]: 64 lower-case hexadecimal digits, nothing about collisions),
    and the JSON bytes serde produces ([SerdeScope] and [TextLaws] for the names
    under an approval digest, [LoopSerde] for loop states and receipts,
    [DeletionSerde], [TurnSerde], [TruthSerde], [ContextSerde],
    [FoundationSerde], [KeySerde], [ConversationSerde], [CampaignSerde]).
    [Prelude.Fixture] and the fixture files instantiate them for the concrete
    examples.

    ** The parts

    - Prelude, Text: results, the state monad and its inversion tactics, field
      updates, integers, options, ordered collections, text, time, hashing.
    - Money ([money.rs]): currencies, amounts and FX quotes in checked [i64].
    - Contract ([mission.rs], [OperatingContract]): cadences and their next due
      instant, approval policies, bootstrap and validation.
    - MissionTypes, WorkProduct, Effect, Checkpoint, Terminal, Mission
      ([mission.rs], with the next-contract resolution of [outcome.rs]): the
      Mission aggregate. [Effect] holds the proposal, approvals, receipts and
      [approval_digest]; [Checkpoint] the catalog definition and its routes;
      [Terminal] the typed valid terminals; [Mission] every method of
      [impl Mission].
    - MissionMachine: the calls on a Mission as one command type, runs of
      commands that may fail, and reachability. MissionSafety (effects),
      MissionLedger (revisions, failing calls, terminal stages),
      MissionOutcome (outcomes and cycles), MissionDag and MissionReload
      (checkpoint order and reload validation) prove the guarantees;
      MissionFixture holds concrete Missions.
    - Digest: the length-prefixed encoding under the approval digest and the
      digest of application evidence, and what an approval digest binds.
    - Schedule ([mission_schedule.rs]) and ScheduleSafety: the leased life cycle
      of one scheduled cycle, and its interplay with [start_scheduled_cycle] of
      the Mission it triggers.
    - LoopState, LoopDecision, LoopTransition ([mission_loop/mod.rs],
      [decision.rs], [transition.rs]): the bounded work loop that hands todos of
      a Mission to agents. LoopScopes (write scopes), LoopChoice (selection),
      LoopSteps (which command changes what), LoopSafety, LoopGuarantees and
      LoopProgress prove its guarantees; LoopFixture holds a concrete loop.
    - Connection ([connection.rs]) and ConnectionSafety: provider accounts, their
      probes and persisted snapshots.
    - Deletion ([deletion.rs]) and DeletionSafety: tombstones, worker receipts
      and the record of the surfaces a deletion has to reach.
    - RuntimeTurn ([runtime_turn.rs]), TurnSafety and TurnStream: one turn of
      the agent runtime, its append-only ledger and its private text stream.
    - Truth ([truth.rs]): facts with their epistemic status and revisions.
    - Context ([context.rs]): budgets, workspaces, branches, worker leases and
      the capsules that hand a worker one task; Worker
      ([context_collaboration.rs]): branch merges, worker handles, usage and
      mailboxes. WorkerSteps (calls and their steps), MailboxSafety (the queue a
      mailbox implements), WorkerGuarantees (append checks, budget, recovery)
      and ContextSafety (leases, capsules, authority) prove their guarantees;
      WorkerFixture holds a concrete worker.
    - Foundation ([context_foundation.rs]): working sets, continuation ledgers,
      the block captured from a Mission, compaction records and checkpoints;
      Recovery ([runtime_recovery.rs], [runtime_process.rs]): the attempts to
      bring a detached worker's runtime back and the claims on its processes.
      FoundationSafety, RecoverySafety and ProcessSafety prove their guarantees;
      FoundationFixture holds a concrete checkpoint and recovery.
    - Identity ([identity.rs]) and IdentitySafety: people, companies, partners,
      links to external identities and consent records.
    - Keys ([key_management.rs]): the keyring of a project, the public keys of
      devices, the handoff of a key to a device and the attachment that ends it.
      KeysSafety (keyrings) and DeviceSafety (devices) prove their guarantees.
    - Conversation, Campaign, Opportunity ([relationship.rs]): messages with a
      person under agent or human control, mailings under consent and a
      frequency cap, and sales opportunities. ConversationSafety,
      CampaignSafety and the end of Opportunity prove their guarantees.
    - CreatorHiring ([creator_hiring.rs]) and HiringSafety: a task offered to
      creators, the invitations and applications, and the award.

    ** What is proved

    - Effects: an effect past approval was approved by a decision bound to
      exactly its content, which lapses with the first of policy, effect and
      contract; it is dispatched at most once; it
      is verified only on an independent confirmation of its receipt; and
      every run of calls refines the abstract effect life cycle.
    - Missions: revisions advance without wrapping, failing calls and settled
      Missions change nothing (with the exceptions stated), outcomes are
      ordered, and a catalog Mission whose ids are not blank stays loadable with
      its checkpoints in order.
    - Schedules and loops: claims are exclusive, stale leases are fenced, slots
      stay within quota, evidence is spent once, revocation puts claims in
      doubt; agents cannot govern nor touch the work others hold, though a gate
      on a todo holds up whoever works on it; commands are atomic and states
      stay valid; and work that is offered can be claimed.
    - Connections, deletion and turns: permitted scopes rest on a live probe,
      snapshots restore and follow each other; a complete deletion is proven on
      every surface by receipts that were validated, and valid receipts are
      accepted; storage accepts exactly the turns that successful calls leave
      (two calls named there apart), an accepted turn was sent once,
      and the last chain digest of a text stream determines the stream.
    - Workers: authority only narrows from the contract through workspace and
      capsule to the worker; usage stays within budget; a mailbox is a queue
      whose messages are handled once and in order; an old attachment is
      fenced and the message it held is delivered by the next one; results meet
      their return contract, a capsule comes to an end, and the append checks
      of leases, capsules, handles and mailboxes accept what the calls produce.
    - Checkpoints and recovery: a compaction record lists every unfinished task
      and effect, a checkpoint validates only against the state it was taken
      from, ledgers only grow and working sets stay bounded; the retries of a
      recovery are numbered exactly and come to an end, a recovery that goes
      well reattaches the worker under the next epoch, and process claims end
      with evidence.
    - Identity and keys: consent permits exactly what was granted until it
      ends, a withdrawn partner stays withdrawn; a revoked recipient is locked
      out of every key version and the active key stays blocked until a
      rotation, workers hold keys for minutes and only while the
      team has opted in, a handoff reaches its device in time; and the append
      checks of links, keyrings, device keys and attachments accept what the
      calls produce.
    - Relationships: a handover stops the agent for good and only a reply it
      left uncertain may still be reconciled, a reply that may be
      sent answers a message judged safe, and the append check of conversations
      accepts what the calls produce; no recipient of a campaign gets more than
      the cap in any window and an authorisation is used once under consent in
      force; a sale reaches its end in at most five steps.
    - Hiring: an award goes to an application that accepted the offer over a
      verified channel and is final, invitations rest on permission, and an
      awarded hiring passes the check of another device.
    - Encodings and equivalences: the length-prefixed encoding decodes, the textual
      overlap test of write scopes means a common path.

    A theorem about "reachable" states quantifies over every finite sequence of
    calls; where failing calls are included the statement says so. Liveness
    theorems state that a call succeeds and what it leaves.

    ** Bounds and fuel

    Loops of the code are structural recursions over lists, so nothing runs out
    of fuel; [decode_fields] in Digest takes the number of fields to read,
    and the round trip holds for every number that is large enough. History
    and ledger limits (five schedule failures, the loop history, 4096 ledger
    entries, 32 failures, 4 MiB of private text) are the constants of the code.

    ** Not modelled

    The JSON and SQL representation of the records, [Debug] output and error
    messages; the kernel modules on teams, the work of creators, outcome reviews,
    attribution, media and mission conversations, which have the same shape as the
    modelled ones and are the next to follow; and the other crates, which are
    storage, provider calls, process supervision and user interface around the
    kernel. *)
From stdpp Require Export base tactics option list gmap sets fin_maps strings sorting pretty.
From Stdlib Require Export ZArith Lia.
From Stdlib Require Import Ascii.

#[global] Open Scope Z_scope.
#[global] Set Warnings "-clear-no-such-hyp".

(** ** Results with panics

    [Result<A, E>] of Rust, plus the third outcome a call can have: a panic
    raised by the language or by a library whose documentation says so. *)
Inductive result (E A : Type) : Type :=
| Ok (a : A)
| Err (e : E)
| Panic.
Arguments Ok {E A} a.
Arguments Err {E A} e.
Arguments Panic {E A}.

#[export] Instance result_mret E : MRet (result E) := fun A a => Ok a.
#[export] Instance result_mbind E : MBind (result E) := fun A B f r =>
  match r with Ok a => f a | Err e => Err e | Panic => Panic end.

Definition is_ok {E A} (r : result E A) : bool :=
  match r with Ok _ => true | _ => false end.
Definition is_err {E A} (r : result E A) : bool :=
  match r with Err _ => true | _ => false end.

(** [opt.ok_or(e)?] *)
Definition ok_or {E A} (o : option A) (e : E) : result E A :=
  match o with Some a => Ok a | None => Err e end.

(** [opt.expect(..)]: the documented panic when the option is [None]. *)
Definition expect {E A} (o : option A) : result E A :=
  match o with Some a => Ok a | None => Panic end.

(** [#[from]] conversions of [thiserror]. *)
Definition map_err {E F A} (f : E -> F) (r : result E A) : result F A :=
  match r with Ok a => Ok a | Err e => Err (f e) | Panic => Panic end.

(** [if cond { return Err(e) }] *)
Definition reject_if {E} (b : bool) (e : E) : result E unit :=
  if b then Err e else Ok tt.

(** ** Methods on [&mut self]

    A method returning [Result] may already have changed [self] when it
    returns [Err]; the model keeps the state on every outcome. *)
Record SR (S E A : Type) : Type := mkSR { run : S -> result E A * S }.
Arguments mkSR {S E A} run.
Arguments run {S E A} m s : rename.

#[export] Instance SR_mret S E : MRet (SR S E) := fun A a => mkSR (fun s => (Ok a, s)).
#[export] Instance SR_mbind S E : MBind (SR S E) := fun A B f m =>
  mkSR (fun s => match run m s with
                 | (Ok a, s1) => run (f a) s1
                 | (Err e, s1) => (Err e, s1)
                 | (Panic, s1) => (Panic, s1)
                 end).

Definition get {S E} : SR S E S := mkSR (fun s => (Ok s, s)).
Definition put {S E} (s' : S) : SR S E unit := mkSR (fun _ => (Ok tt, s')).
Definition modify {S E} (f : S -> S) : SR S E unit := mkSR (fun s => (Ok tt, f s)).
Definition lift {S E A} (r : result E A) : SR S E A := mkSR (fun s => (r, s)).
Definition fail {S E A} (e : E) : SR S E A := mkSR (fun s => (Err e, s)).
Definition reject {S E} (b : bool) (e : E) : SR S E unit := lift (reject_if b e).

(** [let mut copy = self.clone(); .. on copy ..; *self = copy;]: the copy is
    published only when every step on it succeeded. *)
Definition on_clone {S E A} (m : SR S E A) : SR S E A :=
  mkSR (fun self => match run m self with
                    | (Ok a, copy) => (Ok a, copy)
                    | (Err e, _) => (Err e, self)
                    | (Panic, _) => (Panic, self)
                    end).

(** ** Field updates: [r <| field := v |>]

    [Eta R] lists the fields of [R] once; [build_updater] derives from it the
    function that changes one field and copies the others. *)
Class Eta (R : Type) := eta : R -> R.
Class Updater {R T : Type} (field : R -> T) := update : (T -> T) -> R -> R.
#[global] Arguments update {R T} field {_} f r / : rename.

Ltac build_updater field :=
  match type of field with
  | ?R -> ?T =>
    let inst := constr:(_ : Eta R) in
    let body := eval hnf in inst in
    let abs := eval pattern field in body in
    match abs with
    | ?f _ =>
      let upd := eval cbv beta in
        (fun (g : T -> T) (r : R) => f (fun x => g (field x)) r) in
      exact upd
    end
  end.
#[export] Hint Extern 1 (Updater ?field) => build_updater field : typeclass_instances.

Declare Scope rec_scope.
Delimit Scope rec_scope with rec.
#[warnings="-postfix-notation-not-level-1"]
Notation "r <| f := v |>" := (update f (fun _ => v) r)
  (at level 12, left associativity, f at level 9, v at level 200) : rec_scope.
#[warnings="-postfix-notation-not-level-1"]
Notation "r <| f ::= g |>" := (update f g r)
  (at level 12, left associativity, f at level 9, g at level 200) : rec_scope.
#[global] Open Scope rec_scope.

(** ** Running stateful methods: inversion lemmas *)
Section running.
Context {S E A B : Type}.
Implicit Types (s t : S) (e : E).

Lemma bind_Ok (m : result E A) (f : A -> result E B) b :
  m ≫= f = Ok b <-> exists a, m = Ok a /\ f a = Ok b.
Proof.
  split; [|by intros (a & -> & ?)].
  destruct m as [a|e|]; [by exists a|discriminate..].
Qed.

Lemma mret_Ok (a b : A) : mret (M:=result E) a = Ok b <-> b = a.
Proof. split; [by intros [=]|by intros ->]. Qed.

Lemma ok_or_Ok (o : option A) e a : ok_or o e = Ok a <-> o = Some a.
Proof. destruct o; split; intros [=]; by subst. Qed.

Lemma expect_Ok (o : option A) a : expect (E:=E) o = Ok a <-> o = Some a.
Proof. destruct o; split; intros [=]; by subst. Qed.

Lemma map_err_Ok {F} (f : E -> F) (r : result E A) a : map_err f r = Ok a <-> r = Ok a.
Proof. destruct r; split; intros [=]; by subst. Qed.

Lemma reject_if_Ok (b : bool) e u : reject_if b e = Ok u <-> b = false.
Proof. destruct b, u; split; intros H; done. Qed.

Lemma reject_if_seq (b : bool) e (k : result E A) a :
  (reject_if b e;; k) = Ok a <-> b = false /\ k = Ok a.
Proof. destruct b; split; [done|by intros [? _]|done|by intros [_ ?]]. Qed.

Lemma run_mret s (a a' : A) t :
  run (E:=E) (mret a) s = (Ok a', t) <-> a' = a /\ t = s.
Proof. split; [by intros [=]|by intros [-> ->]]. Qed.

Lemma run_bind_Ok (m : SR S E A) (f : A -> SR S E B) s b t :
  run (m ≫= f) s = (Ok b, t) <->
  exists a s1, run m s = (Ok a, s1) /\ run (f a) s1 = (Ok b, t).
Proof.
  unfold mbind, SR_mbind; cbn. split.
  - destruct (run m s) as [[a|e|] s1]; [by eauto|discriminate..].
  - by intros (a & s1 & -> & ?).
Qed.

Lemma run_get_Ok s (x t : S) : run (E:=E) get s = (Ok x, t) <-> x = s /\ t = s.
Proof. split; [by intros [=]|by intros [-> ->]]. Qed.

Lemma run_put_Ok s (x t : S) u : run (E:=E) (put x) s = (Ok u, t) <-> t = x.
Proof. destruct u. split; [by intros [=]|by intros ->]. Qed.

Lemma run_modify_Ok (f : S -> S) s t u : run (E:=E) (modify f) s = (Ok u, t) <-> t = f s.
Proof. destruct u. split; [by intros [=]|by intros ->]. Qed.

Lemma run_lift_Ok (r : result E A) s a t : run (lift r) s = (Ok a, t) <-> r = Ok a /\ t = s.
Proof. split; [by intros [=]|by intros [-> ->]]. Qed.

Lemma run_on_clone_Ok (m : SR S E A) s a t :
  run (on_clone m) s = (Ok a, t) <-> run m s = (Ok a, t).
Proof. unfold on_clone; cbn. destruct (run m s) as [[]]; split; intros Hr; by inversion Hr. Qed.

Lemma run_fail_Ok e s (a : A) t : run (S:=S) (fail e) s = (Ok a, t) <-> False.
Proof. split; [by intros [=]|done]. Qed.

Lemma run_reject_Ok (b : bool) e s u t :
  run (reject b e) s = (Ok u, t) <-> b = false /\ t = s.
Proof. destruct b, u; split; [by intros [=]|by intros [[=] _]|by intros [=]|by intros [_ ->]]. Qed.
End running.

(** Running through a step whose outcome is known. *)
Lemma run_modify_bind {S E B} (f : S -> S) (k : unit -> SR S E B) s :
  run (modify f ≫= k) s = run (k tt) (f s).
Proof. done. Qed.
Lemma run_get_bind {S E B} (k : S -> SR S E B) s : run (get ≫= k) s = run (k s) s.
Proof. done. Qed.
Lemma run_known_bind {S E A B} (m : SR S E A) (k : A -> SR S E B) s a t :
  run m s = (Ok a, t) -> run (m ≫= k) s = run (k a) t.
Proof. unfold mbind, SR_mbind; cbn. by intros ->. Qed.

Lemma run_reject_bind {S E B} (g : bool) (e : E) (k : unit -> SR S E B) s :
  run (reject g e ≫= k) s = if g then (Err e, s) else run (k tt) s.
Proof. by destruct g. Qed.
Lemma run_mret_bind {S E A B} (x : A) (k : A -> SR S E B) s : run (mret x ≫= k) s = run (k x) s.
Proof. done. Qed.
Lemma run_bind_assoc {S E A B C} (m : SR S E A) (f : A -> SR S E B) (k : B -> SR S E C) s :
  run ((m ≫= f) ≫= k) s = run (m ≫= fun x => f x ≫= k) s.
Proof. unfold mbind, SR_mbind; cbn. by destruct (run m s) as [[]]. Qed.

(** Splits a successful run into the runs of its steps and the conditions its
    guards established. *)
Ltac same_state H :=
  match type of H with
  | ?t = ?t => clear H
  | ?t = _ => is_var t; subst t
  | _ => idtac
  end.
Ltac step_inv H :=
  first
  [ rewrite reject_if_seq in H; destruct H as [? H]
  | rewrite bind_Ok in H; destruct H as (? & ? & H)
  | rewrite mret_Ok in H
  | rewrite run_bind_Ok in H; destruct H as (? & ? & ? & H)
  | rewrite run_mret in H; destruct H as [-> H]; same_state H
  | rewrite run_get_Ok in H; destruct H as [-> H]; same_state H
  | rewrite run_put_Ok in H
  | rewrite run_modify_Ok in H
  | rewrite run_reject_Ok in H; destruct H as [? ?]
  | rewrite run_lift_Ok in H; destruct H as [? ?]
  | rewrite run_on_clone_Ok in H
  | rewrite run_fail_Ok in H; destruct H
  | rewrite reject_if_Ok in H
  | rewrite ok_or_Ok in H
  | rewrite expect_Ok in H
  | rewrite map_err_Ok in H ].

Ltac inv_ok :=
  repeat (match goal with
          | H : _ = Ok _ |- _ => step_inv H
          | H : run _ _ = (Ok _, _) |- _ => step_inv H
          | H : @Ok _ _ _ = @Ok _ _ _ |- _ => injection H as H
          end; simplify_eq).

(** Boolean guards as facts. *)
Lemma orb_false_split a b : a || b = false -> a = false /\ b = false.
Proof. apply orb_false_elim. Qed.

Ltac split_guard H :=
  lazymatch type of H with
  | _ || _ = false => apply orb_false_split in H; let H1 := fresh H in destruct H as [H1 H]; split_guard H1; split_guard H
  | _ && _ = true => apply andb_prop in H; let H1 := fresh H in destruct H as [H1 H]; split_guard H1; split_guard H
  | negb _ = false => apply negb_false_iff in H; split_guard H
  | negb _ = true => apply negb_true_iff in H; split_guard H
  | bool_decide _ = true => apply bool_decide_eq_true_1 in H
  | bool_decide _ = false => apply bool_decide_eq_false_1 in H
  | _ => idtac
  end.
Ltac split_guards :=
  repeat match goal with
  | H : _ || _ = false |- _ => split_guard H
  | H : _ && _ = true |- _ => split_guard H
  | H : negb _ = _ |- _ => split_guard H
  | H : bool_decide _ = _ |- _ => split_guard H
  end.

(** ** Methods that leave the state alone

    [ReadOnly m]: [m] never changes the state. [Atomic m]: when [m] does not
    succeed, the state is the one it started from. *)
Class ReadOnly {S E A} (m : SR S E A) : Prop :=
  read_only : forall s, (run m s).2 = s.
Class Atomic {S E A} (m : SR S E A) : Prop :=
  atomic : forall s, is_ok (run m s).1 = false -> (run m s).2 = s.

#[export] Instance lift_read_only {S E A} (r : result E A) : ReadOnly (S:=S) (lift r).
Proof. done. Qed.
#[export] Instance get_read_only {S E} : ReadOnly (S:=S) (E:=E) get.
Proof. done. Qed.
#[export] Instance mret_read_only {S E A} (a : A) : ReadOnly (S:=S) (E:=E) (mret a).
Proof. done. Qed.
#[export] Instance fail_read_only {S E A} (e : E) : ReadOnly (S:=S) (A:=A) (fail e).
Proof. done. Qed.
#[export] Instance reject_read_only {S E} b (e : E) : ReadOnly (S:=S) (reject b e).
Proof. done. Qed.
#[export] Instance bind_read_only {S E A B} (m : SR S E A) (f : A -> SR S E B) :
  ReadOnly m -> (forall a, ReadOnly (f a)) -> ReadOnly (m ≫= f).
Proof.
  intros Hm Hf s. specialize (Hm s). unfold mbind, SR_mbind; cbn.
  destruct (run m s) as [[a|e|] s1]; cbn in *; subst; [apply Hf|done..].
Qed.
#[export] Instance if_read_only {S E A} (b : bool) (m n : SR S E A) :
  ReadOnly m -> ReadOnly n -> ReadOnly (if b then m else n).
Proof. by destruct b. Qed.

#[export] Instance read_only_atomic {S E A} (m : SR S E A) : ReadOnly m -> Atomic m | 10.
Proof. intros H s _. apply H. Qed.
#[export] Instance modify_atomic {S E} (f : S -> S) : Atomic (E:=E) (modify f).
Proof. intros s H. discriminate H. Qed.
#[export] Instance put_atomic {S E} (x : S) : Atomic (E:=E) (put x).
Proof. intros s H. discriminate H. Qed.
#[export] Instance bind_atomic {S E A B} (m : SR S E A) (f : A -> SR S E B) :
  ReadOnly m -> (forall a, Atomic (f a)) -> Atomic (m ≫= f).
Proof.
  intros Hm Hf s. specialize (Hm s). unfold mbind, SR_mbind; cbn.
  destruct (run m s) as [[a|e|] s1]; cbn in *; subst; [apply Hf|done..].
Qed.
(** An infallible last step after an update keeps atomicity. *)
#[export] Instance bind_modify_mret_atomic {S E A} (f : S -> S) (a : A) :
  Atomic (E:=E) (modify f ≫= fun _ => mret a).
Proof. intros s H. discriminate H. Qed.
Lemma bind_mret_atomic {S E A B} (m : SR S E A) (y : B) : Atomic m -> Atomic (m ≫= fun _ => mret y).
Proof.
  intros Hm s Hr. specialize (Hm s). unfold mbind, SR_mbind in *; cbn in *.
  destruct (run m s) as [[a|e|] s1]; cbn in *; [done|by apply Hm..].
Qed.
#[export] Instance if_atomic {S E A} (b : bool) (m n : SR S E A) :
  Atomic m -> Atomic n -> Atomic (if b then m else n).
Proof. by destruct b. Qed.

#[export] Instance on_clone_atomic {S E A} (m : SR S E A) : Atomic (on_clone m).
Proof. intros s. unfold on_clone; cbn. by destruct (run m s) as [[]]. Qed.

Lemma read_only_run {S E A} (m : SR S E A) `{!ReadOnly m} s r t : run m s = (r, t) -> t = s.
Proof. intros Hr. pose proof (read_only (m:=m) s) as Ht. by rewrite Hr in Ht. Qed.

(** [inv_ok] through guards packaged as definitions and through the tuples
    they return. *)
Ltac inv_run :=
  repeat first
  [ progress inv_ok
  | match goal with
    | H : run (match ?x with (_, _) => _ end) _ = (Ok _, _) |- _ => destruct x
    | H : run (let '(_, _) := ?x in _) _ = (Ok _, _) |- _ => destruct x
    | H : run _ ?s = (Ok _, ?t) |- _ =>
      is_var t; assert_fails (constr_eq s t); apply read_only_run in H as ?; [|apply _]; subst t
    | u : unit |- _ => destruct u
    end ].

Lemma atomic_Err {S E A} (m : SR S E A) `{!Atomic m} s e t :
  run m s = (Err e, t) -> t = s.
Proof. intros H. pose proof (atomic (m:=m) s) as Ha. rewrite H in Ha. by apply Ha. Qed.
(** An atomic method either succeeded or left the state alone. *)
Lemma atomic_cases {S E A} (m : SR S E A) `{!Atomic m} s :
  (exists a, run m s = (Ok a, (run m s).2)) \/ (is_ok (run m s).1 = false /\ (run m s).2 = s).
Proof.
  pose proof (atomic (m:=m) s) as Ha. destruct (run m s) as [[a|e|] t]; cbn in *; [left; by exists a|right; auto..].
Qed.

(** ** Which part of the state a computation leaves alone *)
Class Preserves {S E A X} (f : S -> X) (m : SR S E A) : Prop :=
  preserves : forall s, f (run m s).2 = f s.

#[export] Instance read_only_preserves {S E A X} (f : S -> X) (m : SR S E A) :
  ReadOnly m -> Preserves f m | 5.
Proof. intros Hm s. by rewrite Hm. Qed.
#[export] Instance bind_preserves {S E A B X} (f : S -> X) (m : SR S E A) (k : A -> SR S E B) :
  Preserves f m -> (forall a, Preserves f (k a)) -> Preserves f (m ≫= k) | 10.
Proof.
  intros Hm Hk s. specialize (Hm s). unfold mbind, SR_mbind; cbn.
  destruct (run m s) as [[a|e|] s1]; cbn in *; [by rewrite Hk|done..].
Qed.
#[export] Instance if_preserves {S E A X} (f : S -> X) (b : bool) (m n : SR S E A) :
  Preserves f m -> Preserves f n -> Preserves f (if b then m else n) | 5.
Proof. by destruct b. Qed.
#[export] Instance on_clone_preserves {S E A X} (f : S -> X) (m : SR S E A) :
  Preserves f m -> Preserves f (on_clone m).
Proof.
  intros Hm s. specialize (Hm s). unfold on_clone; cbn. by destruct (run m s) as [[]].
Qed.
Lemma modify_preserves {S E X} (f : S -> X) (g : S -> S) :
  (forall s, f (g s) = f s) -> Preserves (E:=E) f (modify g).
Proof. intros Hg s. apply Hg. Qed.
#[export] Hint Extern 5 (Preserves _ (modify _)) =>
  (apply modify_preserves; intros; reflexivity) : typeclass_instances.

(** Walking through a computation: guards first, then the one update. *)
Lemma walk_pair {S E A B} (Q : result E B * S -> Prop) (m : SR S E A) (k : A -> SR S E B) s :
  ReadOnly m -> (forall r, is_ok r = false -> Q (r, s)) ->
  (forall a, run m s = (Ok a, s) -> Q (run (k a) s)) -> Q (run (m ≫= k) s).
Proof.
  intros Hm He Hk. specialize (Hm s). unfold mbind, SR_mbind; cbn.
  destruct (run m s) as [[a|e|] s1] eqn:Hr; cbn in *; subst; [by apply Hk|by apply He..].
Qed.
Lemma walk_read_only {S E A B} (R : S -> S -> Prop) (m : SR S E A) (k : A -> SR S E B) s :
  ReadOnly m -> R s s -> (forall a, run m s = (Ok a, s) -> R s (run (k a) s).2) ->
  R s (run (m ≫= k) s).2.
Proof.
  intros Hm Hs Hk. specialize (Hm s). unfold mbind, SR_mbind; cbn.
  destruct (run m s) as [[a|e|] s1] eqn:Hr; cbn in *; subst; auto.
Qed.

#[export] Hint Extern 8 (ReadOnly (match ?x with _ => _ end)) => destruct x : typeclass_instances.
#[export] Hint Extern 8 (Preserves _ (match ?x with _ => _ end)) => destruct x : typeclass_instances.
#[export] Hint Extern 8 (Atomic (match ?x with _ => _ end)) => destruct x : typeclass_instances.

(** ** Fixed-width integers

    An [u64] (or [i64], [u32], [u16]) value is a [Z] within its range. *)
Definition u64_max : Z := 2 ^ 64 - 1.
Definition u32_max : Z := 2 ^ 32 - 1.
Definition u16_max : Z := 2 ^ 16 - 1.
Definition i64_min : Z := - 2 ^ 63.
Definition i64_max : Z := 2 ^ 63 - 1.

Definition in_i64 (n : Z) : bool := (i64_min <=? n) && (n <=? i64_max).

(** [a.checked_add(b)] on unsigned operands of the width with maximum [mx]. *)
Definition checked_add (mx a b : Z) : option Z := if a + b <=? mx then Some (a + b) else None.
Definition checked_add_i64 (a b : Z) : option Z := if in_i64 (a + b) then Some (a + b) else None.
Definition checked_sub_i64 (a b : Z) : option Z := if in_i64 (a - b) then Some (a - b) else None.
Definition checked_mul_i64 (a b : Z) : option Z := if in_i64 (a * b) then Some (a * b) else None.
(** [i64::checked_div]: truncated division, [None] on a zero divisor or on
    [i64::MIN / -1]. *)
Definition checked_div_i64 (a b : Z) : option Z :=
  if b =? 0 then None else if in_i64 (Z.quot a b) then Some (Z.quot a b) else None.
Definition saturating_add (mx a b : Z) : Z := Z.min mx (a + b).
Definition saturating_sub (a b : Z) : Z := Z.max 0 (a - b).
(** [x += 1] on [u64] in the release profile, which has no overflow checks. *)
Definition wrapping_succ_u64 (a : Z) : Z := (a + 1) mod 2 ^ 64.
(** [i64::try_from(u64)] *)
Definition i64_try_from (a : Z) : option Z := if a <=? i64_max then Some a else None.
(** [uN::try_from(usize)] *)
Definition try_from_usize (mx : Z) (n : nat) : option Z :=
  if Z.of_nat n <=? mx then Some (Z.of_nat n) else None.

Lemma checked_add_Some mx a b c : checked_add mx a b = Some c <-> c = a + b /\ a + b <= mx.
Proof. unfold checked_add. destruct (Z.leb_spec (a + b) mx); split; intros; simplify_eq; lia || (f_equal; lia) || done. Qed.
Ltac known_revision :=
  repeat match goal with Hx : checked_add _ _ _ = Some _ |- _ => apply checked_add_Some in Hx as [-> ?] end.

Lemma wrapping_succ_small a : 0 <= a < u64_max -> wrapping_succ_u64 a = a + 1.
Proof. unfold wrapping_succ_u64, u64_max. intros. apply Z.mod_small. lia. Qed.

(** ** Options, as the code tests them *)
Definition is_some_and {A} (f : A -> bool) (o : option A) : bool :=
  match o with Some a => f a | None => false end.
Definition is_none_or {A} (f : A -> bool) (o : option A) : bool :=
  match o with Some a => f a | None => true end.
Definition is_some {A} (o : option A) : bool := match o with Some _ => true | None => false end.
Definition is_none {A} (o : option A) : bool := negb (is_some o).

Lemma is_some_and_false {A} (f : A -> bool) o :
  is_some_and f o = false <-> forall a, o = Some a -> f a = false.
Proof. destruct o; cbn; naive_solver. Qed.
Lemma is_some_and_true {A} (f : A -> bool) o :
  is_some_and f o = true <-> exists a, o = Some a /\ f a = true.
Proof. destruct o; cbn; naive_solver. Qed.

(** ** Ordered sets and maps

    [BTreeSet<String>] is a [gset string] and [BTreeMap<String, V>] a
    [gmap string V]; their iterators follow the byte order of the keys. *)
Definition btree_iter (X : gset string) : list string := merge_sort String.le (elements X).
Definition btree_values {V} (m : gmap string V) : list V :=
  omap (fun k => m !! k) (btree_iter (dom m)).
Definition set_any (f : string -> bool) (X : gset string) : bool := existsb f (btree_iter X).
Definition set_all (f : string -> bool) (X : gset string) : bool := forallb f (btree_iter X).
Definition map_any {V} (f : V -> bool) (m : gmap string V) : bool := existsb f (btree_values m).
Definition contains (X : gset string) (x : string) : bool := bool_decide (x ∈ X).
Definition contains_key {V} (m : gmap string V) (k : string) : bool := is_some (m !! k).
Definition set_is_empty (X : gset string) : bool := bool_decide (X = ∅).

Lemma elem_of_btree_iter X x : x ∈ btree_iter X <-> x ∈ X.
Proof. unfold btree_iter. rewrite merge_sort_Permutation. apply elem_of_elements. Qed.

Lemma elem_of_btree_values {V} (m : gmap string V) v :
  v ∈ btree_values m <-> exists k, m !! k = Some v.
Proof.
  unfold btree_values. rewrite list_elem_of_omap. split.
  - intros (k & _ & ?). eauto.
  - intros (k & Hk). exists k. split; [|done].
    apply elem_of_btree_iter, elem_of_dom. eauto.
Qed.

Lemma existsb_elem_of {A} (f : A -> bool) l :
  existsb f l = true <-> exists x, x ∈ l /\ f x = true.
Proof. rewrite existsb_exists. by setoid_rewrite list_elem_of_In. Qed.
Lemma existsb_false {A} (f : A -> bool) l :
  existsb f l = false <-> forall x, x ∈ l -> f x = false.
Proof.
  split.
  - intros H x Hx. destruct (f x) eqn:Hf; [|done].
    assert (existsb f l = true) by (apply existsb_elem_of; eauto). congruence.
  - intros H. destruct (existsb f l) eqn:He; [|done].
    apply existsb_elem_of in He as (x & Hx & Hf). rewrite (H _ Hx) in Hf. done.
Qed.
Lemma forallb_elem_of {A} (f : A -> bool) l :
  forallb f l = true <-> forall x, x ∈ l -> f x = true.
Proof. rewrite forallb_forall. by setoid_rewrite list_elem_of_In. Qed.

Lemma set_any_false f X : set_any f X = false <-> forall x, x ∈ X -> f x = false.
Proof. unfold set_any. rewrite existsb_false. by setoid_rewrite elem_of_btree_iter. Qed.
Lemma set_any_ext f g X : (forall x, f x = g x) -> set_any f X = set_any g X.
Proof. intros Hfg. unfold set_any. induction (btree_iter X) as [|x l IH]; cbn; [done|]. by rewrite Hfg, IH. Qed.
Lemma set_any_true f X : set_any f X = true <-> exists x, x ∈ X /\ f x = true.
Proof. unfold set_any. rewrite existsb_elem_of. by setoid_rewrite elem_of_btree_iter. Qed.
Lemma set_all_true f X : set_all f X = true <-> forall x, x ∈ X -> f x = true.
Proof. unfold set_all. rewrite forallb_elem_of. by setoid_rewrite elem_of_btree_iter. Qed.
Lemma map_any_false {V} f (m : gmap string V) :
  map_any f m = false <-> forall k v, m !! k = Some v -> f v = false.
Proof. unfold map_any. rewrite existsb_false. setoid_rewrite elem_of_btree_values. naive_solver. Qed.
Lemma map_any_true {V} f (m : gmap string V) :
  map_any f m = true <-> exists k v, m !! k = Some v /\ f v = true.
Proof. unfold map_any. rewrite existsb_elem_of. setoid_rewrite elem_of_btree_values. naive_solver. Qed.

(** The iterator visits every value exactly once. *)
Lemma btree_values_Permutation {V} (m : gmap string V) :
  btree_values m ≡ₚ (map_to_list m).*2.
Proof.
  unfold btree_values, btree_iter. rewrite merge_sort_Permutation.
  transitivity (omap (fun k => m !! k) ((map_to_list m).*1)).
  - apply omap_Permutation. apply NoDup_Permutation.
    + apply NoDup_elements.
    + apply NoDup_fst_map_to_list.
    + intros k. rewrite elem_of_elements, elem_of_dom, list_elem_of_fmap. split.
      * intros [v Hv]. exists (k, v). by rewrite elem_of_map_to_list.
      * intros ([k' v] & -> & Hv%elem_of_map_to_list). by eexists.
  - assert (forall l, l ⊆ map_to_list m ->
      omap (fun k => m !! k) (l.*1) = l.*2) as Hl; [|by rewrite Hl].
    induction l as [|[k v] l IH]; intros Hsub; [done|]; cbn.
    assert (m !! k = Some v) as ->.
    { apply elem_of_map_to_list, Hsub. left. }
    rewrite IH; [done|]. intros x Hx. apply Hsub. by right.
Qed.

(** Iteration over a map with its keys, and a [for] loop that returns at the
    first error. *)
Definition btree_pairs {V} (m : gmap string V) : list (string * V) :=
  omap (fun k => pair k <$> m !! k) (btree_iter (dom m)).
Fixpoint for_each {E A} (f : A -> result E unit) (l : list A) : result E unit :=
  match l with
  | [] => Ok tt
  | x :: l => f x;; for_each f l
  end.

Lemma elem_of_btree_pairs {V} (m : gmap string V) k v :
  (k, v) ∈ btree_pairs m <-> m !! k = Some v.
Proof.
  unfold btree_pairs. rewrite list_elem_of_omap. split.
  - intros (k' & _ & (v' & Hv & [= -> ->])%fmap_Some). done.
  - intros Hk. exists k. rewrite Hk. split; [|done]. apply elem_of_btree_iter, elem_of_dom. eauto.
Qed.
Lemma Forall_cons_elem {A} (P : A -> Prop) y l :
  (forall x, x ∈ y :: l -> P x) <-> P y /\ forall x, x ∈ l -> P x.
Proof. setoid_rewrite elem_of_cons. naive_solver. Qed.
Lemma for_each_Ok {E A} (f : A -> result E unit) l u :
  for_each f l = Ok u <-> forall x, x ∈ l -> f x = Ok tt.
Proof.
  destruct u. induction l as [|x l IH]; cbn.
  - split; [intros _ x Hx; by apply not_elem_of_nil in Hx|done].
  - rewrite bind_Ok, Forall_cons_elem, <-IH. split; [intros ([] & ? & ?)|intros [? ?]; exists tt]; done.
Qed.
Lemma for_pairs_Ok {E V} (f : string * V -> result E unit) (m : gmap string V) u :
  for_each f (btree_pairs m) = Ok u <-> forall k v, m !! k = Some v -> f (k, v) = Ok tt.
Proof.
  rewrite for_each_Ok. split.
  - intros Hf k v Hk. by apply Hf, elem_of_btree_pairs.
  - intros Hf [k v] Hk%elem_of_btree_pairs. by apply Hf.
Qed.

(** How many values satisfy a test, and how an update changes the count. *)
Definition count_values {V} (f : V -> bool) (m : gmap string V) : nat :=
  length (List.filter f (btree_values m)).

Lemma count_values_insert {V} (f : V -> bool) (m : gmap string V) k v :
  (count_values f (<[k:=v]> m) + from_option (fun w => Nat.b2n (f w)) 0 (m !! k)
   = count_values f m + Nat.b2n (f v))%nat.
Proof.
  assert (forall n : gmap string V, n !! k = None -> forall w,
    count_values f (<[k:=w]> n) = (count_values f n + Nat.b2n (f w))%nat) as Hfresh.
  { intros n Hn w. unfold count_values.
    assert (forall l l' : list V, l ≡ₚ l' -> length (List.filter f l) = length (List.filter f l')) as Hp.
    { induction 1; cbn; repeat case_match; cbn; congruence. }
    rewrite (Hp _ _ (btree_values_Permutation (<[k:=w]> n))).
    rewrite (Hp _ ((w :: (map_to_list n).*2))).
    2: { by rewrite map_to_list_insert. }
    cbn. rewrite (Hp _ _ (btree_values_Permutation n)).
    destruct (f w); cbn; lia. }
  destruct (m !! k) as [w|] eqn:Hk; cbn.
  - rewrite <-(insert_delete_eq m k v), (Hfresh _ (lookup_delete_eq m k)).
    pose proof (Hfresh _ (lookup_delete_eq m k) w) as Hm.
    rewrite (insert_delete_id m k w Hk) in Hm. lia.
  - rewrite (Hfresh _ Hk). lia.
Qed.

(** The count as the size of a map, and what follows for two maps. *)
Lemma count_values_size {V} (f : V -> bool) (m : gmap string V) :
  count_values f m = size (filter (fun kv => f kv.2 = true) m).
Proof.
  induction m as [|k v m Hk IH] using map_ind.
  - unfold count_values, btree_values. rewrite dom_empty_L, map_filter_empty, map_size_empty. done.
  - pose proof (count_values_insert f m k v) as Hc. rewrite Hk in Hc. cbn in Hc.
    destruct (f v) eqn:Hf; cbn in Hc.
    + rewrite map_filter_insert_True by done. rewrite map_size_insert_None; [lia|].
      by rewrite map_lookup_filter, Hk.
    + rewrite map_filter_insert_False by (cbn; congruence). rewrite (delete_id m k Hk). lia.
Qed.
Lemma count_values_mono {V W} (f : V -> bool) (g : W -> bool) (m : gmap string V) (n : gmap string W) :
  (forall k v, m !! k = Some v -> f v = true -> exists w, n !! k = Some w /\ g w = true) ->
  (count_values f m <= count_values g n)%nat.
Proof.
  intros Hmn. rewrite !count_values_size, <-!size_dom.
  apply subseteq_size. intros k [v Hv]%elem_of_dom. apply map_lookup_filter_Some in Hv as [Hv Hf].
  destruct (Hmn k v Hv Hf) as (w & Hw & Hg). apply elem_of_dom. exists w. by apply map_lookup_filter_Some.
Qed.
Lemma count_values_same {V W} (f : V -> bool) (h : W -> V) (n : gmap string W) :
  count_values f (h <$> n) = count_values (fun w => f (h w)) n.
Proof.
  apply Nat.le_antisymm; apply count_values_mono; intros k.
  - intros v Hv Hf. rewrite lookup_fmap in Hv. apply fmap_Some in Hv as (w & Hw & ->). eauto.
  - intros w Hw Hf. exists (h w). by rewrite lookup_fmap, Hw.
Qed.

(** ** Text

    A Rust [String] is its UTF-8 bytes, one [ascii] per byte, so [len] is
    [String.length]. [char_blank] recognises the code points with the
    White_Space property at the head of the bytes, which is what [trim] uses. *)
Definition byte (c : ascii) : Z := Z.of_N (N_of_ascii c).

Definition blank1 (a : Z) : bool := ((9 <=? a) && (a <=? 13)) || (a =? 32).
Definition blank2 (a b : Z) : bool := (a =? 194) && ((b =? 133) || (b =? 160)).
Definition blank3 (a b c : Z) : bool :=
  ((a =? 225) && (b =? 154) && (c =? 128))
  || ((a =? 226) && (b =? 128)
      && (((128 <=? c) && (c <=? 138)) || (c =? 168) || (c =? 169) || (c =? 175)))
  || ((a =? 226) && (b =? 129) && (c =? 159))
  || ((a =? 227) && (b =? 128) && (c =? 128)).

(** [trim_start] *)
Fixpoint trim_start (s : string) : string :=
  match s with
  | EmptyString => s
  | String c1 r1 =>
    if blank1 (byte c1) then trim_start r1 else
    match r1 with
    | EmptyString => s
    | String c2 r2 =>
      if blank2 (byte c1) (byte c2) then trim_start r2 else
      match r2 with
      | EmptyString => s
      | String c3 r3 => if blank3 (byte c1) (byte c2) (byte c3) then trim_start r3 else s
      end
    end
  end.

(** [value.trim().is_empty()] *)
Definition trim_is_empty (s : string) : bool := String.eqb (trim_start s) "".

Fixpoint trim_end (s : string) : string :=
  if trim_is_empty s then "" else
  match s with EmptyString => "" | String c r => String c (trim_end r) end.

Definition trim (s : string) : string := trim_end (trim_start s).

Fixpoint all_bytes (f : Z -> bool) (s : string) : bool :=
  match s with EmptyString => true | String c r => f (byte c) && all_bytes f r end.

Definition is_ascii_digit (b : Z) : bool := (48 <=? b) && (b <=? 57).
Definition is_ascii_uppercase (b : Z) : bool := (65 <=? b) && (b <=? 90).
Definition is_ascii_lowercase (b : Z) : bool := (97 <=? b) && (b <=? 122).
Definition is_ascii_alphanumeric (b : Z) : bool :=
  is_ascii_digit b || is_ascii_uppercase b || is_ascii_lowercase b.
Definition is_ascii_hexdigit (b : Z) : bool :=
  is_ascii_digit b || ((65 <=? b) && (b <=? 70)) || ((97 <=? b) && (b <=? 102)).

Definition str_len (s : string) : Z := Z.of_nat (String.length s).

(** The private [is_sha256] each kernel module repeats. *)
Definition is_sha256 (value : string) : bool :=
  (str_len value =? 64) && all_bytes is_ascii_hexdigit value.

(** Entity identifiers ([ids.rs]) are newtypes over [String]. *)
Abbreviation Id := string (only parsing).

(** ** Time

    An instant is its nanosecond count from the Unix epoch and a duration a
    nanosecond count, so comparison, [min] and difference are those of [Z].
    What the kernel calls from chrono is an interface with the behaviour its
    documentation states. *)
Abbreviation DateTime := Z (only parsing).
Abbreviation Duration := Z (only parsing).
Definition nanos_per_second : Z := 10 ^ 9.

Class Chrono := {
  (** [DateTime::checked_add_signed]; [None] outside the calendar. *)
  checked_add_signed : DateTime -> Duration -> option DateTime;
  (** [Duration::seconds]; [None] stands for its documented panic. *)
  duration_seconds : Z -> option Duration;
  (** [Duration::num_seconds] *)
  num_seconds : Duration -> Z;
  (** [DateTime::to_rfc3339] *)
  to_rfc3339 : DateTime -> string;
}.

Class ChronoLaws `{Chrono} : Prop := {
  add_signed_exact t d u : checked_add_signed t d = Some u -> u = t + d;
  duration_seconds_exact n d : duration_seconds n = Some d -> d = n * nanos_per_second;
  duration_seconds_total n :
    - (i64_max / 1000) <= n <= i64_max / 1000 -> is_Some (duration_seconds n);
  duration_seconds_panics n : i64_max / 1000 < n -> duration_seconds n = None;
  num_seconds_truncates d : num_seconds d = Z.quot d nanos_per_second;
}.

(** ** SHA-256

    [format!("{:x}", Sha256::digest(bytes))] *)
Class Sha256 := sha256_hex : string -> string.
Definition is_lower_hex (b : Z) : bool := is_ascii_digit b || ((97 <=? b) && (b <=? 102)).
Class Sha256Laws `{Sha256} : Prop :=
  sha256_hex_shape s : str_len (sha256_hex s) = 64 /\ all_bytes is_lower_hex (sha256_hex s) = true.

Lemma all_bytes_mono f g s :
  (forall b, f b = true -> g b = true) -> all_bytes f s = true -> all_bytes g s = true.
Proof.
  intros Hfg. induction s as [|c s IH]; [done|]; cbn.
  intros [Hc Hs]%andb_prop. by rewrite (Hfg _ Hc), IH.
Qed.

Lemma is_sha256_hex `{Sha256Laws} s : is_sha256 (sha256_hex s) = true.
Proof.
  destruct (sha256_hex_shape s) as [Hlen Hhex]. unfold is_sha256. rewrite Hlen; cbn.
  revert Hhex. apply all_bytes_mono. unfold is_lower_hex, is_ascii_hexdigit, is_ascii_digit. lia.
Qed.

(** Facts the components discharge with [auto with kernel]. *)
Create HintDb kernel.
#[export] Hint Resolve is_sha256_hex : kernel.

(** ** Lists updated in place, and lists without repetition *)
(** Two elements of a list without repeated keys are the same when their keys are. *)
Lemma nodup_key {A B} (f : A -> B) (l : list A) x y : NoDup (f <$> l) -> x ∈ l -> y ∈ l -> f x = f y -> x = y.
Proof.
  induction l as [|z l IH]; intros Hn Hx Hy Heq; [by apply not_elem_of_nil in Hx|].
  rewrite fmap_cons in Hn. apply NoDup_cons in Hn as [Hz Hn]. apply elem_of_cons in Hx as [->|Hx], Hy as [->|Hy]; [done|..|by apply IH].
  - destruct Hz. apply list_elem_of_fmap. by exists y.
  - destruct Hz. apply list_elem_of_fmap. by exists x.
Qed.
Lemma nodup_snoc {A} (l : list A) x : NoDup l -> x ∉ l -> NoDup (l ++ [x]).
Proof. intros Hl Hx. apply NoDup_app. split_and!; [done| |apply NoDup_singleton]. intros y Hy ->%list_elem_of_singleton. done. Qed.
(** A list scanned for a match has none. *)
Lemma none_matches {A} (f : A -> bool) l x : existsb f l = false -> x ∈ l -> f x = false.
Proof. intros Hf Hx. by rewrite existsb_false in Hf; apply Hf. Qed.
Lemma find_unique {A} (f : A -> bool) l x : x ∈ l -> f x = true -> (forall y, y ∈ l -> f y = true -> y = x) -> List.find f l = Some x.
Proof.
  intros Hx Hf Hu. destruct (List.find f l) as [y|] eqn:Hy.
  - apply List.find_some in Hy as [Hin Hy]. apply list_elem_of_In in Hin. by rewrite (Hu y Hin Hy).
  - eapply List.find_none in Hy; [|by apply list_elem_of_In]. congruence.
Qed.
Lemma filter_none {A} (f : A -> bool) l : (forall y, y ∈ l -> f y = false) -> List.filter f l = [].
Proof.
  induction l as [|y l IH]; intros Hn; [done|]. cbn. rewrite Hn by apply list_elem_of_here. apply IH. intros z Hz. by apply Hn, list_elem_of_further.
Qed.
Lemma filter_unique {A B} (key : A -> B) (f : A -> bool) l x :
  NoDup (key <$> l) -> x ∈ l -> f x = true -> (forall y, y ∈ l -> f y = true -> y = x) -> List.filter f l = [x].
Proof.
  induction l as [|z l IH]; intros Hn Hx Hf Hu; [by apply not_elem_of_nil in Hx|]. rewrite fmap_cons in Hn. apply NoDup_cons in Hn as [Hz Hn].
  assert (z ∉ l) as Hzl by (intros Hzl; apply Hz; by apply list_elem_of_fmap_2). cbn. apply elem_of_cons in Hx as [->|Hx].
  - rewrite Hf. f_equal. apply filter_none. intros y Hy. apply not_true_is_false. intros Hfy.
    by rewrite (Hu y (list_elem_of_further _ _ _ Hy) Hfy) in Hy.
  - destruct (f z) eqn:Hfz; [by rewrite (Hu z (list_elem_of_here _ _) Hfz) in Hzl|]. apply IH; try done.
    intros y Hy. by apply Hu, list_elem_of_further.
Qed.
Lemma alter_key {A B} (f : A -> B) g i (l : list A) : (forall x, f (g x) = f x) -> f <$> alter g i l = f <$> l.
Proof.
  intros Hf. apply list_eq. intros j. rewrite !list_lookup_fmap. destruct (decide (i = j)) as [->|Hne].
  - rewrite list_lookup_alter_eq. destruct (l !! j) as [x|]; [|done]. cbn. f_equal. apply Hf.
  - by rewrite list_lookup_alter_ne.
Qed.
Lemma elem_of_alter {A} (f : A -> A) i (l : list A) x : x ∈ alter f i l -> x ∈ l \/ exists y, l !! i = Some y /\ x = f y.
Proof.
  intros (j & Hj)%list_elem_of_lookup. destruct (decide (i = j)) as [->|Hne].
  - rewrite list_lookup_alter_eq in Hj. destruct (l !! j) as [y|] eqn:Hy; [|done]. injection Hj as <-. right. by exists y.
  - rewrite list_lookup_alter_ne in Hj by done. left. by eapply list_elem_of_lookup_2.
Qed.
Lemma size_list_to_set_le (l : list string) : (size (list_to_set (C := gset string) l) <= length l)%nat.
Proof.
  induction l as [|x l IH]; cbn; [by rewrite size_empty|]. rewrite size_union_alt, size_singleton.
  pose proof (subseteq_size (list_to_set l ∖ {[x]}) (list_to_set (C := gset string) l) ltac:(set_solver)). lia.
Qed.
Lemma distinct_list (l : list string) : size (list_to_set (C := gset string) l) = length l -> NoDup l.
Proof.
  induction l as [|x l IH]; intros Hs; [constructor|]. cbn in Hs. pose proof (size_list_to_set_le l) as Hle.
  destruct (decide (x ∈ l)) as [Hx|Hx].
  - assert ({[x]} ∪ list_to_set l = list_to_set (C := gset string) l) as Heq by set_solver. rewrite Heq in Hs. lia.
  - constructor; [done|]. apply IH. rewrite size_union in Hs by set_solver. rewrite size_singleton in Hs. lia.
Qed.

(** ** Concrete instances, for evaluating the definitions on examples *)
Module Fixture.
(** The calendar bounds chrono documents for [DateTime::MIN_UTC] and
    [DateTime::MAX_UTC], in nanoseconds. *)
Definition min_utc : Z := -8334601228800 * nanos_per_second.
Definition max_utc : Z := 8210266876799 * nanos_per_second + 999999999.
#[export] Instance chrono : Chrono := {|
  checked_add_signed t d :=
    if (min_utc <=? t + d) && (t + d <=? max_utc) then Some (t + d) else None;
  duration_seconds n :=
    if (- (i64_max / 1000) <=? n) && (n <=? i64_max / 1000)
    then Some (n * nanos_per_second) else None;
  num_seconds d := Z.quot d nanos_per_second;
  to_rfc3339 t := pretty t;
|}.
#[export] Instance chrono_laws : ChronoLaws.
Proof.
  split; cbn.
  - intros t d u. case_match; naive_solver.
  - intros n d. case_match; naive_solver.
  - intros n Hn. rewrite (proj2 (andb_true_iff _ _)); [by eexists|]. lia.
  - intros n Hn. rewrite (proj2 (andb_false_iff _ _)); [done|]. right. lia.
  - done.
Qed.
(** A stand-in for the hash with its output shape, not its cryptography. *)
Definition zeros64 : string := "0000000000000000000000000000000000000000000000000000000000000000".
#[export] Instance sha256 : Sha256 := fun _ => zeros64.
#[export] Instance sha256_laws : Sha256Laws.
Proof. intros s. by vm_compute. Qed.
End Fixture.
