(* ===== verification/Text.v ===== *)
(** * Trimming

    [str::trim] on the UTF-8 bytes of a string: what it removes is blank, and
    trimming twice is trimming once, so normalised text stays as it is. *)
From S2P Require Import Prelude.

Lemma string_length_ind (P : string -> Prop) :
  (forall s, (forall t, (String.length t < String.length s)%nat -> P t) -> P s) -> forall s, P s.
Proof.
  intros Hs s. remember (String.length s) as n eqn:Hn. revert s Hn.
  induction (lt_wf n) as [n _ IH]. intros s ->. apply Hs. intros t Ht. by eapply IH.
Qed.

Lemma append_String c a b : String.append (String c a) b = String c (String.append a b).
Proof. reflexivity. Qed.
Lemma append_empty a : String.append a "" = a.
Proof. induction a as [|c a IH]; [done|]. by rewrite append_String, IH. Qed.
Lemma append_append a b c : String.append (String.append a b) c = String.append a (String.append b c).
Proof. induction a as [|x a IH]; [done|]. by rewrite !append_String, IH. Qed.

(** The bytes at the head of [s] that form one blank character. *)
Definition blank_head (s : string) : option string :=
  match s with
  | EmptyString => None
  | String c1 r1 =>
    if blank1 (byte c1) then Some r1 else
    match r1 with
    | EmptyString => None
    | String c2 r2 =>
      if blank2 (byte c1) (byte c2) then Some r2 else
      match r2 with
      | EmptyString => None
      | String c3 r3 => if blank3 (byte c1) (byte c2) (byte c3) then Some r3 else None
      end
    end
  end.

Lemma trim_start_head s :
  trim_start s = match blank_head s with Some r => trim_start r | None => s end.
Proof.
  destruct s as [|c1 [|c2 [|c3 r]]]; cbn; [done|..]; destruct (blank1 _); try done;
    destruct (blank2 _ _); try done. by destruct (blank3 _ _ _).
Qed.

Lemma blank_head_shorter s r : blank_head s = Some r -> (String.length r < String.length s)%nat.
Proof. destruct s as [|c1 [|c2 [|c3 t]]]; cbn; intros Hr; repeat case_match; simplify_eq; cbn; lia. Qed.

Lemma blank_head_app s t r : blank_head s = Some r -> blank_head (String.append s t) = Some (String.append r t).
Proof.
  destruct s as [|c1 [|c2 [|c3 u]]]; rewrite ?append_String; cbn; intros Hr; repeat case_match; simplify_eq;
    rewrite ?append_String in *; simplify_eq; done.
Qed.

Lemma trim_start_length s : (String.length (trim_start s) <= String.length s)%nat.
Proof.
  induction s as [s IH] using string_length_ind. rewrite trim_start_head.
  destruct (blank_head s) as [r|] eqn:Hr; [|done]. pose proof (blank_head_shorter _ _ Hr). specialize (IH r ltac:(done)). lia.
Qed.

Lemma trim_start_fixed s : trim_start s = s <-> blank_head s = None.
Proof.
  rewrite trim_start_head. destruct (blank_head s) as [r|] eqn:Hr; [|done]. split; [|done]. intros He.
  pose proof (blank_head_shorter _ _ Hr). pose proof (trim_start_length r). rewrite He in *. lia.
Qed.

Lemma trim_start_idem s : trim_start (trim_start s) = trim_start s.
Proof.
  induction s as [s IH] using string_length_ind. rewrite (trim_start_head s).
  destruct (blank_head s) as [r|] eqn:Hr; [by apply IH, (blank_head_shorter s)|by apply trim_start_fixed].
Qed.

Lemma trim_start_app a b : trim_start a = "" -> trim_start (String.append a b) = trim_start b.
Proof.
  induction a as [a IH] using string_length_ind. rewrite (trim_start_head a), (trim_start_head (String.append a b)).
  destruct (blank_head a) as [r|] eqn:Hr.
  - rewrite (blank_head_app _ _ _ Hr). apply IH. by apply blank_head_shorter.
  - intros ->. by rewrite <-trim_start_head.
Qed.

Lemma trim_is_empty_spec s : trim_is_empty s = true <-> trim_start s = "".
Proof. apply String.eqb_eq. Qed.

Lemma trim_end_suffix s : exists w, s = String.append (trim_end s) w /\ trim_start w = "".
Proof.
  induction s as [|c s (w & Hs & Hw)]; [by exists ""|]. cbn [trim_end].
  destruct (trim_is_empty (String c s)) eqn:He.
  - exists (String c s). split; [done|by apply trim_is_empty_spec].
  - exists w. split; [|done]. by rewrite append_String, <-Hs.
Qed.

Lemma trim_end_cons c s : trim_is_empty (String c s) = false -> trim_end (String c s) = String c (trim_end s).
Proof. cbn [trim_end]. by intros ->. Qed.

Lemma trim_end_idem s : trim_end (trim_end s) = trim_end s.
Proof.
  induction s as [|c s IH]; [done|]. destruct (trim_is_empty (String c s)) eqn:He.
  - cbn [trim_end]. by rewrite He.
  - rewrite (trim_end_cons _ _ He). destruct (trim_is_empty (String c (trim_end s))) eqn:He'.
    + apply trim_is_empty_spec in He'. destruct (trim_end_suffix s) as (w & Hs & Hw).
      assert (trim_start (String c s) = "") as Hx; [|apply trim_is_empty_spec in Hx; congruence].
      rewrite Hs, <-append_String, trim_start_app by done. done.
    + by rewrite (trim_end_cons _ _ He'), IH.
Qed.

Lemma trim_idem s : trim (trim s) = trim s.
Proof.
  unfold trim. set (t := trim_start s). assert (trim_start t = t) as Ht by apply trim_start_idem.
  destruct (trim_end_suffix t) as (w & Hw & _).
  assert (trim_start (trim_end t) = trim_end t) as ->; [|apply trim_end_idem].
  apply trim_start_fixed. apply trim_start_fixed in Ht. destruct (blank_head (trim_end t)) as [r|] eqn:Hr; [|done].
  apply (blank_head_app _ w) in Hr. rewrite <-Hw in Hr. congruence.
Qed.

Lemma trim_blank s : trim_is_empty (trim s) = String.eqb (trim s) "".
Proof.
  apply eq_bool_prop_intro. rewrite !Is_true_true, trim_is_empty_spec, String.eqb_eq. split; [|by intros ->].
  intros He. rewrite <-trim_idem. unfold trim at 1. by rewrite He.
Qed.
(** Trimming keeps what is not blank. *)
Lemma trim_not_blank s : trim_is_empty s = false -> trim_is_empty (trim s) = false.
Proof.
  rewrite trim_blank. intros Hs. apply not_true_is_false. intros He%String.eqb_eq.
  assert (trim_start s = "") as Hx; [|apply trim_is_empty_spec in Hx; congruence].
  rewrite <-trim_start_idem. unfold trim in He. destruct (trim_end_suffix (trim_start s)) as (w & Hw & Hb). by rewrite Hw, He.
Qed.

(** ** Searching

    [value.contains(needle)] and [value.split_once(needle)] *)
Fixpoint str_contains (needle s : string) : bool :=
  String.prefix needle s || match s with EmptyString => false | String _ r => str_contains needle r end.

Fixpoint split_once (needle s : string) : option (string * string) :=
  if String.prefix needle s
  then Some ("", String.substring (String.length needle) (String.length s - String.length needle) s)
  else match s with
       | EmptyString => None
       | String c r => '(head, tail) ← split_once needle r; Some (String c head, tail)
       end.

Example split_once_example : split_once "://" "cas://a://b" = Some ("cas", "a://b").
Proof. by vm_compute. Qed.
