(* ===== verification/Money.v ===== *)
(** * Money: exact minor-unit amounts in one currency

    Models [domain-kernel/src/money.rs]: currency codes, checked [i64]
    arithmetic that never mixes currencies, and FX quotes. *)
From S2P Require Import Prelude.

(** [struct CurrencyCode(String)] *)
Abbreviation CurrencyCode := string (only parsing).

Record Money : Type := mkMoney { amount_minor : Z; currency : CurrencyCode }.
#[export] Instance Money_eq_dec : EqDecision Money.
Proof. solve_decision. Defined.

Inductive MoneyError : Type :=
| InvalidCurrency (value : string)
| CurrencyMismatch (left right : CurrencyCode)
| MoneyOverflow
| InvalidFxRate
| MissingFxSource.

Definition CurrencyCode_parse (value : string) : result MoneyError CurrencyCode :=
  if negb (str_len value =? 3) || negb (all_bytes is_ascii_uppercase value)
  then Err (InvalidCurrency value) else Ok value.

Definition zero (c : CurrencyCode) : Money := mkMoney 0 c.

Definition require_same_currency (self other : Money) : result MoneyError unit :=
  if bool_decide (currency self = currency other) then Ok tt
  else Err (CurrencyMismatch (currency self) (currency other)).

Definition money_checked_add (self other : Money) : result MoneyError Money :=
  require_same_currency self other;;
  amount ← ok_or (checked_add_i64 (amount_minor self) (amount_minor other)) MoneyOverflow;
  mret (mkMoney amount (currency self)).

Definition money_checked_sub (self other : Money) : result MoneyError Money :=
  require_same_currency self other;;
  amount ← ok_or (checked_sub_i64 (amount_minor self) (amount_minor other)) MoneyOverflow;
  mret (mkMoney amount (currency self)).

Definition is_positive (self : Money) : bool := 0 <? amount_minor self.

(** [rust_decimal::Decimal]: a mantissa over a power of ten; its sign is the
    mantissa's. *)
Record Decimal : Type := mkDecimal { dec_mantissa : Z; dec_scale : Z }.

Record FxQuote : Type := mkFxQuote {
  fx_base : CurrencyCode;
  fx_quote : CurrencyCode;
  fx_rate : Decimal;
  fx_source : string;
  fx_observed_at : DateTime;
}.

Definition FxQuote_new (base quote : CurrencyCode) (rate : Decimal) (source : string)
    (observed_at : DateTime) : result MoneyError FxQuote :=
  if dec_mantissa rate <=? 0 then Err InvalidFxRate else
  if trim_is_empty source then Err MissingFxSource else
  Ok (mkFxQuote base quote rate source observed_at).

(** ** Lemmas *)
Lemma in_i64_spec n : in_i64 n = true <-> i64_min <= n <= i64_max.
Proof. unfold in_i64. lia. Qed.

Lemma require_same_currency_Ok a b u :
  require_same_currency a b = Ok u <-> currency a = currency b.
Proof. unfold require_same_currency. destruct u. case_bool_decide; naive_solver. Qed.

Lemma money_checked_add_Ok a b c :
  money_checked_add a b = Ok c <->
  currency a = currency b /\ i64_min <= amount_minor a + amount_minor b <= i64_max /\
  c = mkMoney (amount_minor a + amount_minor b) (currency a).
Proof.
  unfold money_checked_add, require_same_currency, checked_add_i64.
  case_bool_decide as Hc; [destruct (in_i64 _) eqn:Hi|]; cbn.
  - apply in_i64_spec in Hi. split; [by intros [= <-]|by intros (_ & _ & ->)].
  - split; [done|]. intros (_ & Hr & _). apply in_i64_spec in Hr. congruence.
  - split; [done|]. by intros (? & _).
Qed.

(** Successful addition is exact, is undone by subtraction, and it
    fails exactly when the currencies differ or the sum leaves [i64]. *)
Theorem money_add_exact (a b : Money) (Ha : in_i64 (amount_minor a) = true) :
  (forall c, money_checked_add a b = Ok c ->
     amount_minor c = amount_minor a + amount_minor b /\ currency c = currency a /\
     money_checked_sub c b = Ok a) /\
  (money_checked_add a b = Err MoneyOverflow <->
     currency a = currency b /\ in_i64 (amount_minor a + amount_minor b) = false) /\
  (forall l r, money_checked_add a b = Err (CurrencyMismatch l r) <->
     l = currency a /\ r = currency b /\ l <> r).
Proof.
  split_and!.
  - intros c (Hcur & Hrange & ->)%money_checked_add_Ok; cbn. split_and!; try done.
    unfold money_checked_sub, require_same_currency, checked_sub_i64; cbn.
    rewrite bool_decide_true by done; cbn.
    replace (amount_minor a + amount_minor b - amount_minor b) with (amount_minor a) by lia.
    rewrite Ha; cbn. by destruct a.
  - unfold money_checked_add, require_same_currency, checked_add_i64.
    case_bool_decide; [|by split; [|intros [? _]]].
    destruct (in_i64 (_ + _)); cbn; (split; [intros H1|intros (H1 & H2)]); done.
  - intros l r. unfold money_checked_add, require_same_currency, checked_add_i64.
    case_bool_decide; cbn.
    + destruct (in_i64 (_ + _)); cbn; split; [done|intros (-> & -> & ?)|done|intros (-> & -> & ?)]; done.
    + split; [by intros [= <- <-]|by intros (-> & -> & _)].
Qed.

Lemma money_add_exact_witness :
  money_checked_sub (mkMoney 1250 "USD") (mkMoney 250 "USD") = Ok (mkMoney 1000 "USD").
Proof.
  refine (proj2 (proj2 (proj1 (money_add_exact (mkMoney 1000 "USD") (mkMoney 250 "USD") _) _ _))).
  - reflexivity.
  - reflexivity.
Defined.
