(* ===== verification/Contract.v ===== *)
(** * The Operating Contract a Mission runs under

    Models the contract part of [domain-kernel/src/mission.rs]: cadences and
    their next due instant, KPI and approval policies, [bootstrap] and
    [validate]. *)
From S2P Require Import Prelude Money.

Inductive EffectClass : Type :=
| Read | LocalWrite | ExternalWrite | Outreach | Spend | Payment.
#[export] Instance EffectClass_eq_dec : EqDecision EffectClass.
Proof. solve_decision. Defined.
Definition EffectClass_index (c : EffectClass) : nat :=
  match c with
  | Read => 0 | LocalWrite => 1 | ExternalWrite => 2 | Outreach => 3 | Spend => 4 | Payment => 5
  end%nat.
Definition EffectClass_of_index (n : nat) : EffectClass :=
  match n with
  | 0 => Read | 1 => LocalWrite | 2 => ExternalWrite | 3 => Outreach | 4 => Spend | _ => Payment
  end%nat.
#[export] Instance EffectClass_countable : Countable EffectClass.
Proof. refine (inj_countable' EffectClass_index EffectClass_of_index _). by intros []. Defined.

Inductive Constraint_ : Type :=
| RequireApproval (effect_classes : list EffectClass)
| Budget (amount_minor : Z) (currency : string)
| Market (value : string)
| StopCondition (description : string)
| UserInstruction (description : string).

Inductive OperatingMode : Type :=
| BuildOnce | ContinuousOperator | Campaign | ContinuousRelationship | OneOffDecision.
#[export] Instance OperatingMode_eq_dec : EqDecision OperatingMode.
Proof. solve_decision. Defined.

Inductive AutonomyLevel : Type :=
| Disabled | DraftOnly | ApprovalRequired | AutonomousLowRisk.
#[export] Instance AutonomyLevel_eq_dec : EqDecision AutonomyLevel.
Proof. solve_decision. Defined.

Inductive CadenceTriggerKind : Type := Interval | EventDriven | IntervalOrEvent.
#[export] Instance CadenceTriggerKind_eq_dec : EqDecision CadenceTriggerKind.
Proof. solve_decision. Defined.

Record Cadence : Type := mkCadence {
  cad_interval_seconds : Z; (* u64 *)
  cad_anchor_at : DateTime;
  cad_trigger : CadenceTriggerKind;
  cad_event_topics : gset string;
}.

Inductive KpiDirection : Type := AtLeast | AtMost.
Record KpiContract : Type := mkKpi {
  kpi_baseline : option Decimal;
  kpi_target : Decimal;
  kpi_unit : string;
  kpi_direction : KpiDirection;
}.

Record ApprovalPolicy : Type := mkApprovalPolicy {
  ap_required_effect_classes : gset EffectClass;
  ap_validity_seconds : Z; (* u64 *)
  ap_exact_scope_required : bool;
}.

Record OperatingContract : Type := mkContract {
  oc_version : Z; (* u64 *)
  oc_mode : OperatingMode;
  oc_parent_mission_id : option Id;
  oc_goal : string;
  oc_non_goals : list string;
  oc_market : string;
  oc_language : string;
  oc_audience : string;
  oc_kpis : gmap string KpiContract;
  oc_budget : Money;
  oc_timezone : string;
  oc_cadence : option Cadence;
  oc_autonomy_by_capability : gmap string AutonomyLevel;
  oc_consent_requirements : gset string;
  oc_approval_policy : ApprovalPolicy;
  oc_stop_conditions : list string;
  oc_completion_conditions : list string;
  oc_valid_from : DateTime;
  oc_valid_until : DateTime;
  oc_constraints : list Constraint_;
  oc_enabled_capabilities : gset string;
  oc_forbidden_capabilities : gset string;
}.

Inductive OperatingContractError : Type :=
| Incomplete | InvalidValidity | NegativeBudget | UnsafeApprovalPolicy | MissingCadence
| InvalidCadence | InvalidKpi | CapabilityConflict | AutonomyMismatch.

Section contract.
Context `{Chrono}.

(** [next_interval_due_at]: the first instant of the cadence grid after
    [after]. [Duration::seconds] panics beyond its documented range. *)
Definition next_interval_due_at {E} (cadence : Cadence) (after : DateTime)
    : result E (option DateTime) :=
  if bool_decide (cad_trigger cadence = EventDriven) then Ok None else
  match i64_try_from (cad_interval_seconds cadence) with
  | None => Ok None
  | Some interval =>
    if negb (0 <? interval) then Ok None else
    if after <? cad_anchor_at cadence then Ok (Some (cad_anchor_at cadence)) else
    let elapsed := num_seconds (after - cad_anchor_at cadence) in
    let seconds :=
      q ← checked_div_i64 elapsed interval;
      steps ← checked_add_i64 q 1;
      checked_mul_i64 interval steps in
    match seconds with
    | None => Ok None
    | Some seconds =>
      duration ← expect (duration_seconds seconds);
      mret (checked_add_signed (cad_anchor_at cadence) duration)
    end
  end.

Definition bootstrap {E} (goal : string) (enabled_capabilities : gset string) (now : DateTime)
    : result E OperatingContract :=
  month ← expect (duration_seconds (30 * 86400));
  valid_until ← expect (checked_add_signed now month);
  mret {|
    oc_version := 1;
    oc_mode := BuildOnce;
    oc_parent_mission_id := None;
    oc_goal := goal;
    oc_non_goals := [];
    oc_market := "unspecified";
    oc_language := "und";
    oc_audience := "unspecified";
    oc_kpis := ∅;
    oc_budget := zero "USD";
    oc_timezone := "UTC";
    oc_cadence := None;
    oc_autonomy_by_capability := gset_to_gmap ApprovalRequired enabled_capabilities;
    oc_consent_requirements := ∅;
    oc_approval_policy := {|
      ap_required_effect_classes := {[ ExternalWrite; Outreach; Spend; Payment ]};
      ap_validity_seconds := 3600;
      ap_exact_scope_required := true |};
    oc_stop_conditions := ["user_cancelled"];
    oc_completion_conditions := ["mission_oracle_satisfied"];
    oc_valid_from := now;
    oc_valid_until := valid_until;
    oc_constraints := [];
    oc_enabled_capabilities := enabled_capabilities;
    oc_forbidden_capabilities := ∅;
  |}.

Definition cadence_is_invalid (cadence : Cadence) : bool :=
  set_any trim_is_empty (cad_event_topics cadence)
  || match cad_trigger cadence with
     | Interval => (cad_interval_seconds cadence =? 0) || negb (set_is_empty (cad_event_topics cadence))
     | EventDriven => negb (cad_interval_seconds cadence =? 0) || set_is_empty (cad_event_topics cadence)
     | IntervalOrEvent => (cad_interval_seconds cadence =? 0) || set_is_empty (cad_event_topics cadence)
     end.

Definition level_enabled (level : AutonomyLevel) : bool := negb (bool_decide (level = Disabled)).

Definition autonomous_capabilities (m : gmap string AutonomyLevel) : gset string :=
  dom (filter (fun kv => level_enabled kv.2 = true) m).

Definition contract_validate (self : OperatingContract) (now : DateTime)
    : result OperatingContractError unit :=
  reject_if ((oc_version self =? 0)
    || is_some_and trim_is_empty (oc_parent_mission_id self)
    || trim_is_empty (oc_goal self)
    || trim_is_empty (oc_market self)
    || trim_is_empty (oc_language self)
    || trim_is_empty (oc_audience self)
    || trim_is_empty (oc_timezone self)
    || forallb trim_is_empty (oc_stop_conditions self)
    || forallb trim_is_empty (oc_completion_conditions self)) Incomplete;;
  reject_if ((now <? oc_valid_from self)
    || (oc_valid_until self <=? now)
    || (oc_valid_until self <=? oc_valid_from self)) InvalidValidity;;
  reject_if (amount_minor (oc_budget self) <? 0) NegativeBudget;;
  reject_if ((ap_validity_seconds (oc_approval_policy self) =? 0)
    || negb (ap_exact_scope_required (oc_approval_policy self))) UnsafeApprovalPolicy;;
  reject_if (match oc_mode self with
             | ContinuousOperator | ContinuousRelationship => is_none (oc_cadence self)
             | _ => false
             end) MissingCadence;;
  reject_if (is_some_and cadence_is_invalid (oc_cadence self)) InvalidCadence;;
  reject_if (set_any (fun name =>
      trim_is_empty name
      || is_some_and (fun kpi => trim_is_empty (kpi_unit kpi)) (oc_kpis self !! name))
    (dom (oc_kpis self))) InvalidKpi;;
  reject_if (set_any trim_is_empty (oc_enabled_capabilities self)
    || negb (bool_decide (oc_enabled_capabilities self ## oc_forbidden_capabilities self)))
    CapabilityConflict;;
  reject_if (negb (bool_decide (autonomous_capabilities (oc_autonomy_by_capability self)
                                = oc_enabled_capabilities self))
    || set_any (fun capability =>
         is_some_and level_enabled (oc_autonomy_by_capability self !! capability))
       (oc_forbidden_capabilities self)) AutonomyMismatch.

End contract.

(** ** Lemmas *)
Section contract_lemmas.
Context `{ChronoLaws}.
Implicit Types (c : Cadence) (oc : OperatingContract) (t now : DateTime).

(** Length of one cadence step. *)
Definition step_nanos (c : Cadence) : Z := cad_interval_seconds c * nanos_per_second.

Lemma num_seconds_bounds d : 0 <= d ->
  num_seconds d * nanos_per_second <= d < (num_seconds d + 1) * nanos_per_second.
Proof.
  intros Hd. rewrite num_seconds_truncates. rewrite Z.quot_div_nonneg by (unfold nanos_per_second; lia).
  unfold nanos_per_second. pose proof (Z.div_mod d (10^9)). pose proof (Z.mod_pos_bound d (10^9)). lia.
Qed.

(** The whole-seconds grid [anchor + k * interval]: from the elapsed seconds
    to the first grid instant after [after]. Shared by cadences and monitors. *)
Lemma next_grid_step anchor after interval :
  0 < interval -> anchor <= after ->
  let k := Z.quot (num_seconds (after - anchor)) interval + 1 in
  1 <= k /\ after < anchor + interval * k * nanos_per_second /\
  anchor + interval * (k - 1) * nanos_per_second <= after.
Proof.
  intros Hi Ha. pose proof (num_seconds_bounds (after - anchor) ltac:(lia)) as Hs.
  set (e := num_seconds (after - anchor)) in *. cbn zeta.
  assert (0 <= e) by (unfold nanos_per_second in *; lia).
  rewrite Z.quot_div_nonneg by lia.
  pose proof (Z.div_mod e interval). pose proof (Z.mod_pos_bound e interval).
  pose proof (Z.div_pos e interval). unfold nanos_per_second in *. nia.
Qed.

Lemma next_interval_due_at_Some {E} c t due :
  next_interval_due_at (E:=E) c t = Ok (Some due) ->
  cad_trigger c <> EventDriven /\ 0 < cad_interval_seconds c /\
  ((t < cad_anchor_at c /\ due = cad_anchor_at c) \/
   (cad_anchor_at c <= t /\
    due = cad_anchor_at c
          + cad_interval_seconds c
            * (Z.quot (num_seconds (t - cad_anchor_at c)) (cad_interval_seconds c) + 1)
            * nanos_per_second)).
Proof.
  unfold next_interval_due_at, i64_try_from.
  case_bool_decide; [done|].
  destruct (Z.leb_spec (cad_interval_seconds c) i64_max); [|done].
  destruct (Z.ltb_spec 0 (cad_interval_seconds c)); [|done]; cbn.
  destruct (Z.ltb_spec t (cad_anchor_at c)).
  { intros [= <-]. eauto 10. }
  unfold checked_div_i64, checked_add_i64, checked_mul_i64.
  destruct (Z.eqb_spec (cad_interval_seconds c) 0); [lia|].
  destruct (in_i64 (Z.quot _ _)); cbn; [|done].
  destruct (in_i64 (_ + 1)); cbn; [|done].
  destruct (in_i64 (_ * _)); cbn; [|done].
  intros Hok. inv_ok.
  match goal with
  | Hd : duration_seconds _ = Some _, Ha : Some _ = checked_add_signed _ _ |- _ =>
    apply duration_seconds_exact in Hd; symmetry in Ha; apply add_signed_exact in Ha; subst
  end. eauto 10.
Qed.

Lemma next_due_grid {E} c t due :
  next_interval_due_at (E:=E) c t = Ok (Some due) ->
  t < due /\
  (exists k, 0 <= k /\ due = cad_anchor_at c + k * step_nanos c) /\
  (forall k, 0 <= k -> t < cad_anchor_at c + k * step_nanos c ->
     due <= cad_anchor_at c + k * step_nanos c).
Proof.
  intros (_ & Hi & [[Hlt ->]|[Hle ->]])%next_interval_due_at_Some.
  - split_and!; [done|exists 0; lia|].
    intros k Hk _. unfold step_nanos, nanos_per_second. nia.
  - pose proof (next_grid_step (cad_anchor_at c) t _ Hi Hle) as (Hk1 & Hgt & Hprev); cbn zeta in *.
    set (k := Z.quot _ _ + 1) in *. unfold step_nanos, nanos_per_second in *.
    split_and!; [lia|exists k; lia|].
    intros k' Hk' Ht. assert (k - 1 < k') by nia. nia.
Qed.

(** The next due instant of an interval cadence is strictly later than
    the reference instant, lies on the grid [anchor + k * interval], and no
    earlier grid instant is. *)
Theorem next_due_is_least_future_grid_point {E} c t due :
  next_interval_due_at (E:=E) c t = Ok (Some due) ->
  t < due /\
  (exists k, 0 <= k /\ due = cad_anchor_at c + k * step_nanos c) /\
  (forall k, 0 <= k -> t < cad_anchor_at c + k * step_nanos c ->
     due <= cad_anchor_at c + k * step_nanos c).
Proof. apply next_due_grid. Qed.

Lemma autonomous_capabilities_constant (X : gset string) :
  autonomous_capabilities (gset_to_gmap ApprovalRequired X) = X.
Proof.
  unfold autonomous_capabilities. apply set_eq. intros x.
  rewrite elem_of_dom. split.
  - intros [l Hl]. apply map_lookup_filter_Some in Hl as [Hl _].
    by apply lookup_gset_to_gmap_Some in Hl as [? _].
  - intros Hx. exists ApprovalRequired. apply map_lookup_filter_Some.
    split; [by apply lookup_gset_to_gmap_Some|done].
Qed.

(** A bootstrapped contract passes its own validation for the whole
    thirty days it is issued for, whatever (non-blank) goal and capabilities
    it is given, and no longer. *)
Theorem bootstrap_validates {E} goal caps now oc t :
  trim_is_empty goal = false ->
  set_any trim_is_empty caps = false ->
  bootstrap (E:=E) goal caps now = Ok oc ->
  contract_validate oc t = Ok tt <-> now <= t < now + 30 * 86400 * nanos_per_second.
Proof.
  intros Hgoal Hcaps Hboot. unfold bootstrap in Hboot. inv_ok.
  match goal with
  | Hd : duration_seconds _ = Some _, Ha : checked_add_signed _ _ = Some _ |- _ =>
    apply duration_seconds_exact in Hd; apply add_signed_exact in Ha; subst
  end.
  unfold contract_validate. rewrite !reject_if_seq, reject_if_Ok.
  cbn [oc_version oc_mode oc_parent_mission_id oc_goal oc_market oc_language oc_audience
       oc_kpis oc_budget oc_timezone oc_cadence oc_autonomy_by_capability oc_approval_policy
       oc_stop_conditions oc_completion_conditions oc_valid_from oc_valid_until
       oc_enabled_capabilities oc_forbidden_capabilities ap_validity_seconds
       ap_exact_scope_required is_some_and].
  rewrite Hgoal, Hcaps, autonomous_capabilities_constant, (bool_decide_true (_ ## _)) by set_solver.
  rewrite bool_decide_true by done.
  assert (forall f, set_any f ∅ = false) as Hempty by (intros f; apply set_any_false; set_solver).
  rewrite dom_empty_L, 2!Hempty.
  split.
  - intros (_ & Hwindow & _). unfold nanos_per_second in *. lia.
  - intros Ht. split_and!; try reflexivity. unfold nanos_per_second in *. lia.
Qed.
End contract_lemmas.

(** ** Witnesses *)
Import Prelude.Fixture.

Lemma next_due_is_least_future_grid_point_witness :
  let hourly := mkCadence 3600 0 Interval ∅ in
  let now := 5000 * nanos_per_second in
  next_interval_due_at (E:=OperatingContractError) hourly now = Ok (Some (7200 * nanos_per_second)) /\
  now < 7200 * nanos_per_second.
Proof.
  cbn zeta. split; [by vm_compute|].
  apply (next_due_is_least_future_grid_point (E:=OperatingContractError) (mkCadence 3600 0 Interval ∅)
           (5000 * nanos_per_second)).
  by vm_compute.
Defined.

Definition bootstrapped : result OperatingContractError OperatingContract :=
  bootstrap "publish the launch page" {["web.publish"]} 0.
Lemma bootstrap_validates_witness :
  match bootstrapped with
  | Ok oc => contract_validate oc (86400 * nanos_per_second) = Ok tt
  | _ => False
  end.
Proof.
  destruct bootstrapped as [oc|e|] eqn:Hb; [|by vm_compute in Hb..].
  apply (bootstrap_validates (E:=OperatingContractError) "publish the launch page" {["web.publish"]} 0);
    [by vm_compute|by vm_compute|exact Hb|unfold nanos_per_second; lia].
Defined.
