(* ===== verification/MissionTypes.v ===== *)
(** * Data types of the Mission aggregate

    Models the enumerations, the small records and the error type of
    [domain-kernel/src/mission.rs]. *)
From S2P Require Import Prelude Money Contract.

Inductive MissionStage : Type :=
| StDraft | StReady | StRunning | StBlocked | StWaitingUser | StWaitingApproval | StVerifying
| StCycleReviewed | StScheduled | StCompleted | StPartial | StExpectedRefusal | StFailed
| StCancelled.
#[export] Instance MissionStage_eq_dec : EqDecision MissionStage.
Proof. solve_decision. Defined.

Definition stage_is_terminal (s : MissionStage) : bool :=
  match s with
  | StCompleted | StPartial | StExpectedRefusal | StFailed | StCancelled => true
  | _ => false
  end.

Inductive MissionTerminalDisposition : Type :=
| DCompleted | DPartial | DExpectedRefusal | DFailed | DCancelled.
#[export] Instance MissionTerminalDisposition_eq_dec : EqDecision MissionTerminalDisposition.
Proof. solve_decision. Defined.

Record MissionBlock : Type := mkBlock {
  mb_code : string;
  mb_detail : string;
  mb_recoverable : bool;
  mb_observed_at : DateTime;
}.
#[export] Instance MissionBlock_eq_dec : EqDecision MissionBlock.
Proof. solve_decision. Defined.

Inductive TaskStatus : Type := TReady | TRunning | TBlocked | TCompleted | TCancelled.
#[export] Instance TaskStatus_eq_dec : EqDecision TaskStatus.
Proof. solve_decision. Defined.

Record Task : Type := mkTask {
  tk_id : Id;
  tk_title : string;
  tk_status : TaskStatus;
  tk_capability : string;
}.
#[export] Instance Task_eta : Eta Task :=
  fun t => mkTask (tk_id t) (tk_title t) (tk_status t) (tk_capability t).

Inductive EvidenceStatus : Type := EvCandidate | EvConfirmed | EvConflicted | EvInvalidated.
#[export] Instance EvidenceStatus_eq_dec : EqDecision EvidenceStatus.
Proof. solve_decision. Defined.

Record Evidence : Type := mkEvidence {
  ev_id : Id;
  ev_title : string;
  ev_source_uri : string;
  ev_observed_at : DateTime;
  ev_confidence_bits : Z; (* the IEEE bits of the f32; never computed with here *)
  ev_status : EvidenceStatus;
  ev_content_digest : string;
}.

Inductive EffectRisk : Type := RiskLow | RiskMedium | RiskHigh | RiskCritical.
Inductive ConsentState : Type := CNotRequired | CConfirmed | CMissing | CWithdrawn.

Inductive EffectStatus : Type :=
| EProposed | EApproved | ERejected | ECancelled | EExecuting | EReceiptRecorded
| EVerificationRequired | EVerified | EReconciled | EDeadLetter | EFailed | EExpired.
#[export] Instance EffectStatus_eq_dec : EqDecision EffectStatus.
Proof. solve_decision. Defined.

Inductive DurableProviderState : Type :=
| DpRejected | DpUncertain | DpReconciledNotExecuted | DpDeadLetter.

Inductive MissionCheckpointStatus : Type :=
| CkPending | CkReady | CkRunning | CkBlocked | CkWaitingUser | CkWaitingApproval | CkVerifying
| CkCompleted | CkSkipped.
#[export] Instance MissionCheckpointStatus_eq_dec : EqDecision MissionCheckpointStatus.
Proof. solve_decision. Defined.

Definition ck_is_active (s : MissionCheckpointStatus) : bool :=
  match s with
  | CkRunning | CkBlocked | CkWaitingUser | CkWaitingApproval | CkVerifying => true
  | _ => false
  end.
Definition ck_is_terminal (s : MissionCheckpointStatus) : bool :=
  match s with CkCompleted | CkSkipped => true | _ => false end.

Inductive OutcomeDecision : Type := ODContinue | ODStop | ODScale | ODTest.
#[export] Instance OutcomeDecision_eq_dec : EqDecision OutcomeDecision.
Proof. solve_decision. Defined.

Inductive MetricValue : Type :=
| MCount (value : Z)
| MMoney (value : Money)
| MDecimal (value : Decimal) (unit : string).

Record Outcome : Type := mkOutcome {
  ou_summary : string;
  ou_decision : OutcomeDecision;
  ou_metrics : gmap string MetricValue;
  ou_observed_at : DateTime;
}.

Inductive MissionError : Type :=
| OperatingContractErr (e : OperatingContractError)
| EmptyMission
| InvalidMissionDefinition
| MissionDefinitionContractMismatch
| InvalidMissionCycle (expected actual : Z)
| MissionCycleCheckpointIncomplete
| MissionDefinitionRequired
| MissionCheckpointNotFound (id : string)
| InvalidCheckpointTransition (checkpoint_id : string) (from to : MissionCheckpointStatus)
| CheckpointDependencyIncomplete (id : string)
| InvalidCheckpointCompletion (id : string)
| MissionCheckpointTaskMismatch (checkpoint_id expected_capability : string)
| InvalidMissionStage (actual : MissionStage) (expected : list MissionStage)
| DuplicateEvidence (id : Id)
| UnknownEvidence (id : Id)
| InvalidWorkProduct (id : Id)
| DuplicateWorkProduct (id : Id)
| UnknownWorkProduct (id : Id)
| InvalidWorkProductTransition (id : Id)
| UnknownEffect (id : Id)
| EmptyIdempotencyKey
| DuplicateIdempotencyKey (key : string)
| CapabilityNotEnabled (capability : string)
| NegativeCostLimit
| PaymentAmountNotPositive
| InvalidEffectScope
| ConsentRecordMismatch
| InvalidEffectTransition (from to : EffectStatus)
| ApprovalScopeChanged
| InvalidApproval
| MissingApproval
| EffectExpired
| ApprovalExpired
| ReceiptScopeMismatch
| DurableReceiptRecoveryMismatch
| DurableProviderRecoveryMismatch
| VerificationReceiptMismatch
| InvalidOutcome
| JourneyContinuationNotReady
| InvalidBlock
| BlockNotRecoverable
| AlreadyTerminal
| Vm04ValidTerminalResolutionRequired
| Vm07ReplanOrTerminalResolutionRequired
| Vm11ValidTerminalResolutionRequired
| Vm11NextContractResolutionRequired
| Vm11CandidateLearningTerminalResolutionRequired
| RevisionOverflow.
