(* ===== verification/WorkProduct.v ===== *)
(** * Work products and their revisions

    Models [struct WorkProduct] of [domain-kernel/src/mission.rs]: content
    digests, the revision and status rules of [follows], and the operations
    built on them. *)
From S2P Require Import Prelude Contract MissionTypes.

Inductive WorkProductStatus : Type := WpDraft | WpReadyForReview | WpAccepted | WpSuperseded.
#[export] Instance WorkProductStatus_eq_dec : EqDecision WorkProductStatus.
Proof. solve_decision. Defined.

Record WorkProduct : Type := mkWorkProduct {
  wp_id : Id;
  wp_title : string;
  wp_body : string;
  wp_evidence_ids : gset Id;
  wp_revision : Z; (* u64 *)
  wp_status : WorkProductStatus;
  wp_content_digest : string;
}.
#[export] Instance WorkProduct_eta : Eta WorkProduct := fun w =>
  mkWorkProduct (wp_id w) (wp_title w) (wp_body w) (wp_evidence_ids w) (wp_revision w)
    (wp_status w) (wp_content_digest w).

Section work_product.
Context `{Sha256}.

(** [format!("{title}\n{body}")] *)
Definition content_bytes (title body : string) : string :=
  String.append title (String (Ascii.ascii_of_nat 10) body).

Definition draft (id : Id) (title body : string) (evidence_ids : gset Id) : WorkProduct := {|
  wp_id := id;
  wp_title := title;
  wp_body := body;
  wp_evidence_ids := evidence_ids;
  wp_revision := 1;
  wp_status := WpDraft;
  wp_content_digest := sha256_hex (content_bytes title body);
|}.

Definition work_product_validate (self : WorkProduct) : result MissionError unit :=
  reject_if (trim_is_empty (wp_id self)
    || trim_is_empty (wp_title self)
    || trim_is_empty (wp_body self)
    || (wp_revision self =? 0)
    || set_any trim_is_empty (wp_evidence_ids self)
    || negb (bool_decide (wp_content_digest self
                          = sha256_hex (content_bytes (wp_title self) (wp_body self)))))
    (InvalidWorkProduct (wp_id self)).

Definition transition_allowed (previous next : WorkProductStatus) : bool :=
  match previous, next with
  | WpDraft, (WpDraft | WpReadyForReview) => true
  | WpReadyForReview, (WpReadyForReview | WpAccepted | WpSuperseded) => true
  | WpAccepted, WpSuperseded => true
  | _, _ => false
  end.

Definition follows (self previous : WorkProduct) : result MissionError bool :=
  work_product_validate self;;
  work_product_validate previous;;
  mret (bool_decide (wp_id self = wp_id previous)
        && bool_decide (checked_add u64_max (wp_revision previous) 1 = Some (wp_revision self))
        && transition_allowed (wp_status previous) (wp_status self)).

Definition revise_content (self : WorkProduct) (title body : string) (evidence_ids : gset Id)
    : result MissionError WorkProduct :=
  work_product_validate self;;
  reject_if (negb (bool_decide (wp_status self = WpReadyForReview)))
    (InvalidWorkProductTransition (wp_id self));;
  revision ← ok_or (checked_add u64_max (wp_revision self) 1) RevisionOverflow;
  let revised := {|
    wp_id := wp_id self;
    wp_title := title;
    wp_body := body;
    wp_evidence_ids := evidence_ids;
    wp_revision := revision;
    wp_status := WpReadyForReview;
    wp_content_digest := sha256_hex (content_bytes title body);
  |} in
  ok ← follows revised self;
  reject_if (negb ok) (InvalidWorkProductTransition (wp_id self));;
  mret revised.

Definition transition_to (self : WorkProduct) (status : WorkProductStatus)
    : result MissionError WorkProduct :=
  revision ← ok_or (checked_add u64_max (wp_revision self) 1) RevisionOverflow;
  let transitioned := self <| wp_revision := revision |> <| wp_status := status |> in
  ok ← follows transitioned self;
  reject_if (negb ok) (InvalidWorkProductTransition (wp_id self));;
  mret transitioned.

Definition accept (self : WorkProduct) : result MissionError WorkProduct :=
  transition_to self WpAccepted.
Definition supersede (self : WorkProduct) : result MissionError WorkProduct :=
  transition_to self WpSuperseded.

(** ** Lemmas *)
Lemma follows_true w p :
  follows w p = Ok true <->
  work_product_validate w = Ok tt /\ work_product_validate p = Ok tt /\
  wp_id w = wp_id p /\ checked_add u64_max (wp_revision p) 1 = Some (wp_revision w) /\
  transition_allowed (wp_status p) (wp_status w) = true.
Proof.
  unfold follows. rewrite bind_Ok. setoid_rewrite bind_Ok. setoid_rewrite mret_Ok. split.
  - intros ([] & ? & [] & ? & Hb). symmetry in Hb. split_guards. done.
  - intros (? & ? & ? & ? & ?). exists tt. split; [done|]. exists tt. split; [done|].
    symmetry. by rewrite !andb_true_iff, !bool_decide_eq_true.
Qed.

Lemma transition_to_Ok w status w' :
  transition_to w status = Ok w' ->
  follows w' w = Ok true /\ w' = w <| wp_revision := wp_revision w + 1 |> <| wp_status := status |>.
Proof.
  unfold transition_to. intros Ht. inv_ok. split_guards. subst.
  rewrite checked_add_Some in *. destruct_and?. by subst.
Qed.

Lemma revise_content_Ok w title body evidence w' :
  revise_content w title body evidence = Ok w' ->
  follows w' w = Ok true /\ wp_title w' = title /\ wp_body w' = body /\
  wp_evidence_ids w' = evidence /\ wp_status w' = WpReadyForReview.
Proof. unfold revise_content. intros Ht. inv_ok. split_guards. by subst. Qed.

(** A chain of recorded revisions of one work product, oldest first. *)
Inductive lineage : WorkProduct -> nat -> WorkProduct -> Prop :=
| lineage_refl w : lineage w 0 w
| lineage_step p n w w' : lineage p n w -> follows w' w = Ok true -> lineage p (S n) w'.

Definition status_rank (s : WorkProductStatus) : Z :=
  match s with WpDraft => 0 | WpReadyForReview => 1 | WpAccepted => 2 | WpSuperseded => 3 end.

Lemma follows_rank w p : follows w p = Ok true -> status_rank (wp_status p) <= status_rank (wp_status w).
Proof.
  intros (_ & _ & _ & _ & Ht)%follows_true. revert Ht.
  by destruct (wp_status p), (wp_status w); cbn; intros; try lia.
Qed.

(** Along any chain of accepted revisions the identity is fixed, the
    revision number grows by exactly one per step and never wraps, the review
    status never goes back, and a superseded product is final. *)
Theorem work_product_lineage_monotone p n w :
  lineage p n w ->
  wp_id w = wp_id p /\ wp_revision w = wp_revision p + Z.of_nat n /\
  status_rank (wp_status p) <= status_rank (wp_status w) /\
  (n <> 0%nat -> wp_revision w <= u64_max) /\
  (wp_status p = WpSuperseded -> n = 0%nat).
Proof.
  induction 1 as [w|p n w w' _ IH Hf]; [split_and!; (done || lia)|].
  destruct IH as (Hid & Hrev & Hrank & _ & Hsup). pose proof (follows_rank _ _ Hf) as Hr.
  apply follows_true in Hf as (_ & _ & Hid' & Hadd & Hallow).
  apply checked_add_Some in Hadd as [Hadd Hmax].
  split_and!; [congruence|lia|lia|lia|]. intros Hp.
  specialize (Hsup Hp) as ->. rewrite Hp in Hrank. cbn in *.
  destruct (wp_status w); cbn in *; (lia || done).
Qed.

(** A revision is exactly what the caller supplied, under the digest of
    that content, and it is the next revision of the product it revises;
    accepting or superseding changes nothing but status and revision. *)
Theorem work_product_operations_follow w :
  (forall title body evidence w', revise_content w title body evidence = Ok w' ->
     lineage w 1 w' /\ wp_title w' = title /\ wp_body w' = body /\
     wp_evidence_ids w' = evidence /\
     wp_content_digest w' = sha256_hex (content_bytes title body)) /\
  (forall w', accept w = Ok w' \/ supersede w = Ok w' ->
     lineage w 1 w' /\ wp_title w' = wp_title w /\ wp_body w' = wp_body w /\
     wp_evidence_ids w' = wp_evidence_ids w /\ wp_content_digest w' = wp_content_digest w).
Proof.
  assert (forall w', follows w' w = Ok true -> lineage w 1 w') as Hstep.
  { intros w' Hf. by apply lineage_step with w; [constructor|]. }
  split.
  - intros title body evidence w' Hr. unfold revise_content in Hr. inv_ok. split_guards. subst.
    split_and!; auto.
  - intros w' [Ht|Ht]; apply transition_to_Ok in Ht as [Hf ->]; split_and!; auto.
Qed.
End work_product.

Module WorkProductExamples.
Import Fixture.
Definition plan : WorkProduct := (draft "wp" "Plan" "Body" {[ "ev" ]}) <| wp_status := WpReadyForReview |>.

Lemma work_product_lineage_monotone_witness :
  wp_revision (plan <| wp_revision := 2 |> <| wp_status := WpAccepted |>) = 2.
Proof.
  refine (proj1 (proj2 (work_product_lineage_monotone plan 1 _ _))).
  apply lineage_step with plan; [constructor|]. vm_compute. reflexivity.
Defined.
End WorkProductExamples.
