(* ===== verification/Effect.v ===== *)
(** * External effects: scope, approval, receipt, verification

    Models the effect records of [domain-kernel/src/mission.rs], the digest an
    approval is bound to ([Effect::approval_digest]) and the checks a proposed
    effect has to pass. *)
From S2P Require Import Prelude Money Contract MissionTypes.

Inductive ConsentPurpose : Type :=
| EmailMarketing | DirectOutreach | AutomatedReply | PartnerContact | DataSync | Attribution.
Inductive ContactChannel : Type := ChEmail | ChPhone | ChSocialDirectMessage | ChChat.

Record ConsentRequirement : Type := mkConsentRequirement {
  cr_person_id : Id;
  cr_purpose : ConsentPurpose;
  cr_channel : ContactChannel;
  cr_market : string;
}.
Definition consent_requirement_validate (self : ConsentRequirement) : bool :=
  negb (trim_is_empty (cr_person_id self)) && negb (trim_is_empty (cr_market self)).

Record ConversationEffectGuard : Type := mkConversationGuard {
  cg_conversation_id : Id;
  cg_control_generation : Z; (* u64 *)
  cg_scope_digest : string;
}.
Record CreatorContactEffectGuard : Type := mkCreatorGuard {
  kg_hiring_id : Id;
  kg_creator_id : Id;
  kg_partner_id : Id;
  kg_scope_digest : string;
  kg_permission_evidence_digest : string;
}.

(** The fields [EffectSpec] and [Effect] share, in the order of the source. *)
Record EffectSpec : Type := mkSpec {
  es_id : Id;
  es_actor_id : Id;
  es_capability : string;
  es_provider : string;
  es_connection_id : option Id;
  es_account_id : option Id;
  es_required_scopes : gset string;
  es_effect_class : EffectClass;
  es_description : string;
  es_target_resource : string;
  es_audience_digest : option string;
  es_payload_digest : string;
  es_asset_digests : gset string;
  es_scheduled_for : option DateTime;
  es_timezone : string;
  es_consent : ConsentState;
  es_consent_record_id : option Id;
  es_consent_requirement : option ConsentRequirement;
  es_conversation_guard : option ConversationEffectGuard;
  es_creator_contact_guard : option CreatorContactEffectGuard;
  es_policy_version : string;
  es_risk : EffectRisk;
  es_idempotency_key : string;
  es_amount : Money;
  es_expires_at : DateTime;
}.

Inductive ApprovalDecision : Type := ADApproved | ADRejected.
#[export] Instance ApprovalDecision_eq_dec : EqDecision ApprovalDecision.
Proof. solve_decision. Defined.

Record Approval : Type := mkApproval {
  apr_id : Id;
  apr_decision : ApprovalDecision;
  apr_decided_by : Id;
  apr_decided_at : DateTime;
  apr_valid_until : DateTime;
  apr_scope_digest : string;
  apr_permission_digest : string;
}.

Record Receipt : Type := mkReceipt {
  rc_id : Id;
  rc_provider : string;
  rc_external_id : string;
  rc_accepted_at : DateTime;
  rc_request_digest : string;
  rc_response_digest : string;
}.
#[export] Instance Receipt_eq_dec : EqDecision Receipt.
Proof. solve_decision. Defined.

Inductive VerificationStatus : Type := VConfirmed | VRejected | VInconclusive.
Record Verification : Type := mkVerification {
  vf_id : Id;
  vf_status : VerificationStatus;
  vf_verifier : string;
  vf_independent : bool;
  vf_observed_at : DateTime;
  vf_evidence_digest : string;
  vf_receipt_id : Id;
}.

(** [struct Effect]: the proposed scope is copied field by field from its
    [EffectSpec] ([propose_effect]), so it is kept here as one component. *)
Record Effect : Type := mkEffect {
  ef_tenant_id : Id;
  ef_project_id : Id;
  ef_mission_id : Id;
  ef_spec : EffectSpec;
  ef_status : EffectStatus;
  ef_approval : option Approval;
  ef_receipt : option Receipt;
  ef_verification : option Verification;
}.
#[export] Instance Effect_eta : Eta Effect := fun e =>
  mkEffect (ef_tenant_id e) (ef_project_id e) (ef_mission_id e) (ef_spec e) (ef_status e)
    (ef_approval e) (ef_receipt e) (ef_verification e).
Definition ef_id (e : Effect) : Id := es_id (ef_spec e).
Definition ef_expires_at (e : Effect) : DateTime := es_expires_at (ef_spec e).
Definition ef_idempotency_key (e : Effect) : string := es_idempotency_key (ef_spec e).

(** [serde_json::to_string] on the two enums the digest serialises. *)
Class SerdeScope := {
  json_purpose : ConsentPurpose -> string;
  json_channel : ContactChannel -> string;
}.

Definition effect_class_name (value : EffectClass) : string :=
  match value with
  | Read => "read"
  | LocalWrite => "local_write"
  | ExternalWrite => "external_write"
  | Outreach => "outreach"
  | Spend => "spend"
  | Payment => "payment"
  end.
Definition consent_name (value : ConsentState) : string :=
  match value with
  | CNotRequired => "not_required"
  | CConfirmed => "confirmed"
  | CMissing => "missing"
  | CWithdrawn => "withdrawn"
  end.
Definition risk_name (value : EffectRisk) : string :=
  match value with
  | RiskLow => "low" | RiskMedium => "medium" | RiskHigh => "high" | RiskCritical => "critical"
  end.

(** [usize::to_be_bytes] on a 64-bit target. *)
Definition be_byte (n k : Z) : Ascii.ascii := Ascii.ascii_of_N (Z.to_N ((n / 2 ^ (8 * k)) mod 256)).
Definition to_be_bytes (n : Z) : string :=
  String (be_byte n 7) (String (be_byte n 6) (String (be_byte n 5) (String (be_byte n 4)
  (String (be_byte n 3) (String (be_byte n 2) (String (be_byte n 1) (String (be_byte n 0) ""))))))).

(** [hash_field]: a length-prefixed field. The hasher is fed the fields one
    after the other, which hashes their concatenation. *)
Definition hash_field (value : string) : string :=
  String.append (to_be_bytes (str_len value)) value.
Definition hash_optional (value : option string) : list string :=
  match value with Some value => ["some"; value] | None => ["none"] end.
Definition hash_fields (fields : list string) : string :=
  foldr (fun f rest => String.append (hash_field f) rest) "" fields.

Section effect.
Context `{Chrono} `{Sha256} `{SerdeScope}.

(** The fields [Effect::approval_digest] feeds to the hasher, in order. *)
Definition approval_fields (self : Effect) : list string :=
  let spec := ef_spec self in
  [ef_tenant_id self; ef_project_id self; ef_mission_id self; es_id spec; es_actor_id spec;
   es_capability spec; es_provider spec]
  ++ hash_optional (es_connection_id spec)
  ++ hash_optional (es_account_id spec)
  ++ btree_iter (es_required_scopes spec)
  ++ [effect_class_name (es_effect_class spec); es_description spec; es_target_resource spec]
  ++ hash_optional (es_audience_digest spec)
  ++ [es_payload_digest spec]
  ++ btree_iter (es_asset_digests spec)
  ++ hash_optional (to_rfc3339 <$> es_scheduled_for spec)
  ++ [es_timezone spec; consent_name (es_consent spec)]
  ++ hash_optional (es_consent_record_id spec)
  ++ match es_consent_requirement spec with
     | Some requirement =>
       ["consent_requirement"; cr_person_id requirement; json_purpose (cr_purpose requirement);
        json_channel (cr_channel requirement); cr_market requirement]
     | None => ["no_consent_requirement"]
     end
  ++ match es_conversation_guard spec with
     | Some guard =>
       ["conversation_guard"; cg_conversation_id guard; pretty (cg_control_generation guard);
        cg_scope_digest guard]
     | None => ["no_conversation_guard"]
     end
  ++ match es_creator_contact_guard spec with
     | Some guard =>
       ["creator_contact_guard"; kg_hiring_id guard; kg_creator_id guard; kg_partner_id guard;
        kg_scope_digest guard; kg_permission_evidence_digest guard]
     | None => ["no_creator_contact_guard"]
     end
  ++ [es_policy_version spec; risk_name (es_risk spec); es_idempotency_key spec;
      pretty (amount_minor (es_amount spec)); currency (es_amount spec);
      to_rfc3339 (es_expires_at spec)].

Definition approval_digest (self : Effect) : string := sha256_hex (hash_fields (approval_fields self)).

Definition validate_effect_connection_scope (spec : EffectSpec) : result MissionError unit :=
  let has_connection := is_some (es_connection_id spec) || is_some (es_account_id spec) in
  reject_if (xorb (is_some (es_connection_id spec)) (is_some (es_account_id spec))
    || (has_connection && set_is_empty (es_required_scopes spec))
    || (negb has_connection && negb (set_is_empty (es_required_scopes spec)))
    || set_any trim_is_empty (es_required_scopes spec)) InvalidEffectScope.

Definition conversation_guard_is_invalid (guard : ConversationEffectGuard) : bool :=
  trim_is_empty (cg_conversation_id guard)
  || (cg_control_generation guard =? 0)
  || negb (is_sha256 (cg_scope_digest guard)).

Definition creator_guard_is_invalid (payload_digest : string) (guard : CreatorContactEffectGuard) : bool :=
  trim_is_empty (kg_hiring_id guard)
  || trim_is_empty (kg_creator_id guard)
  || trim_is_empty (kg_partner_id guard)
  || negb (is_sha256 (kg_scope_digest guard))
  || negb (is_sha256 (kg_permission_evidence_digest guard))
  || negb (bool_decide (kg_scope_digest guard = payload_digest)).

Definition validate_effect_content_scope (spec : EffectSpec) (now : DateTime)
    : result MissionError unit :=
  reject_if (trim_is_empty (es_capability spec)
    || trim_is_empty (es_provider spec)
    || trim_is_empty (es_description spec)
    || trim_is_empty (es_target_resource spec)
    || trim_is_empty (es_timezone spec)
    || trim_is_empty (es_policy_version spec)
    || negb (is_sha256 (es_payload_digest spec))
    || is_some_and (fun digest => negb (is_sha256 digest)) (es_audience_digest spec)
    || set_any (fun digest => negb (is_sha256 digest)) (es_asset_digests spec)
    || (es_expires_at spec <=? now)
    || is_some_and (fun scheduled => (scheduled <? now) || (es_expires_at spec <=? scheduled))
         (es_scheduled_for spec)
    || is_some_and trim_is_empty (es_connection_id spec)
    || is_some_and trim_is_empty (es_account_id spec)
    || is_some_and conversation_guard_is_invalid (es_conversation_guard spec)
    || is_some_and (creator_guard_is_invalid (es_payload_digest spec))
         (es_creator_contact_guard spec)) InvalidEffectScope.

Definition validate_effect_consent_scope (spec : EffectSpec) : result MissionError unit :=
  let valid :=
    match es_consent spec with
    | CNotRequired => is_none (es_consent_record_id spec) && is_none (es_consent_requirement spec)
    | CConfirmed | CWithdrawn =>
      is_some (es_consent_record_id spec)
      && is_some_and consent_requirement_validate (es_consent_requirement spec)
    | CMissing =>
      is_none (es_consent_record_id spec)
      && is_some_and consent_requirement_validate (es_consent_requirement spec)
    end in
  if valid then Ok tt else Err ConsentRecordMismatch.

Definition validate_receipt_scope (effect : Effect) (receipt : Receipt) : result MissionError unit :=
  reject_if (negb (bool_decide (rc_provider receipt = es_provider (ef_spec effect)))
    || trim_is_empty (rc_external_id receipt)
    || negb (bool_decide (rc_request_digest receipt = approval_digest effect))
    || negb (is_sha256 (rc_response_digest receipt))
    || (ef_expires_at effect <=? rc_accepted_at receipt)
    || is_none_or (fun approval => rc_accepted_at receipt <? apr_decided_at approval)
         (ef_approval effect)) ReceiptScopeMismatch.

Definition durable_execution_start_is_valid (effect : Effect) (approval : Approval)
    (execution_started_at : DateTime) : bool :=
  bool_decide (apr_scope_digest approval = approval_digest effect)
  && (apr_decided_at approval <=? execution_started_at)
  && (execution_started_at <? apr_valid_until approval)
  && (execution_started_at <? ef_expires_at effect).

(** The digest depends on the scope only: approvals, receipts, verifications
    and status changes keep it. *)
Lemma approval_digest_scope e e' :
  ef_tenant_id e = ef_tenant_id e' -> ef_project_id e = ef_project_id e' ->
  ef_mission_id e = ef_mission_id e' -> ef_spec e = ef_spec e' ->
  approval_digest e = approval_digest e'.
Proof. unfold approval_digest, approval_fields. by intros -> -> -> ->. Qed.
End effect.
