(* ===== verification/Checkpoint.v ===== *)
(** * Catalog Mission definitions and their checkpoint DAG

    Models [MissionDefinition], [MissionCheckpoint], their routes and the
    content-free application evidence of [domain-kernel/src/mission.rs]. *)
From S2P Require Import Prelude Money Contract MissionTypes Effect.

Inductive MissionCheckpointExecutor : Type := ExApplication | ExRuntime | ExEffectBroker | ExHuman.
#[export] Instance MissionCheckpointExecutor_eq_dec : EqDecision MissionCheckpointExecutor.
Proof. solve_decision. Defined.

Inductive MissionCheckpointCompletionPolicy : Type :=
| CpDeterministicEvidence | CpWorkProduct | CpVerifiedEffect | CpEffectReadbackV2
| CpHumanConfirmation.
#[export] Instance MissionCheckpointCompletionPolicy_eq_dec : EqDecision MissionCheckpointCompletionPolicy.
Proof. solve_decision. Defined.

(** [impl TryFrom<&str>] for the two route enums. *)
Definition completion_policy_try_from (value : string)
    : result MissionError MissionCheckpointCompletionPolicy :=
  if String.eqb value "deterministic_evidence" then Ok CpDeterministicEvidence else
  if String.eqb value "work_product" then Ok CpWorkProduct else
  if String.eqb value "verified_effect" then Ok CpVerifiedEffect else
  if String.eqb value "effect_readback_v2" then Ok CpEffectReadbackV2 else
  if String.eqb value "human_confirmation" then Ok CpHumanConfirmation else
  Err InvalidMissionDefinition.
Definition executor_try_from (value : string) : result MissionError MissionCheckpointExecutor :=
  if String.eqb value "application" then Ok ExApplication else
  if String.eqb value "runtime" then Ok ExRuntime else
  if String.eqb value "effect_broker" then Ok ExEffectBroker else
  if String.eqb value "human" then Ok ExHuman else
  Err InvalidMissionDefinition.

Definition checkpoint_executor_name (value : MissionCheckpointExecutor) : string :=
  match value with
  | ExApplication => "application"
  | ExRuntime => "runtime"
  | ExEffectBroker => "effect_broker"
  | ExHuman => "human"
  end.
Definition checkpoint_completion_policy_name (value : MissionCheckpointCompletionPolicy) : string :=
  match value with
  | CpDeterministicEvidence => "deterministic_evidence"
  | CpWorkProduct => "work_product"
  | CpVerifiedEffect => "verified_effect"
  | CpEffectReadbackV2 => "effect_readback_v2"
  | CpHumanConfirmation => "human_confirmation"
  end.

Record MissionCheckpointRoute : Type := mkRoute {
  rt_capability_id : string;
  rt_executor : MissionCheckpointExecutor;
  rt_oracle_ids : gset string;
  rt_completion_policy : option MissionCheckpointCompletionPolicy;
}.

(** A [BTreeSet] of sources is kept as its ascending enumeration. *)
Record MissionCheckpointOracleSource : Type := mkSource {
  so_source_kind : string;
  so_source_id : string;
  so_source_revision : Z; (* u64 *)
  so_projection_digest : string;
  so_oracle_ids : gset string;
}.

Record MissionCheckpointApplicationEvidence : Type := mkAppEvidence {
  ae_schema_version : Z;
  ae_handler_id : string;
  ae_tenant_id : Id;
  ae_project_id : Id;
  ae_mission_id : Id;
  ae_manifest_id : string;
  ae_manifest_version : Z;
  ae_catalog_digest : string;
  ae_cycle : Z;
  ae_checkpoint_id : string;
  ae_dispatch_mission_revision : Z;
  ae_dispatch_checkpoint_revision : Z;
  ae_verification_mission_revision : Z;
  ae_verification_checkpoint_revision : Z;
  ae_capability_id : string;
  ae_executor : MissionCheckpointExecutor;
  ae_completion_policy : MissionCheckpointCompletionPolicy;
  ae_sources : list MissionCheckpointOracleSource;
  ae_observed_at : DateTime;
}.

Record MissionCheckpointCompletion : Type := mkCompletion {
  co_oracle_ids : gset string;
  co_work_product_ids : gset Id;
  co_effect_ids : gset Id;
  co_application_evidence : option MissionCheckpointApplicationEvidence;
  co_evidence_digest : string;
  co_verified_at : DateTime;
}.

Record MissionCheckpoint : Type := mkCheckpoint {
  ck_id : string;
  ck_depends_on : gset string;
  ck_route : option MissionCheckpointRoute;
  ck_status : MissionCheckpointStatus;
  ck_revision : Z; (* u64 *)
  ck_attempt : Z; (* u32 *)
  ck_started_at : option DateTime;
  ck_block : option MissionBlock;
  ck_completion : option MissionCheckpointCompletion;
}.
#[export] Instance MissionCheckpoint_eta : Eta MissionCheckpoint := fun c =>
  mkCheckpoint (ck_id c) (ck_depends_on c) (ck_route c) (ck_status c) (ck_revision c)
    (ck_attempt c) (ck_started_at c) (ck_block c) (ck_completion c).

Record MissionDefinition : Type := mkDefinition {
  df_manifest_id : string;
  df_manifest_version : Z; (* u32 *)
  df_catalog_digest : string;
  df_operating_mode : OperatingMode;
  df_capability_ids : gset string;
  df_required_artifact_types : gset string;
  df_oracle_ids : gset string;
  df_checkpoints : list MissionCheckpoint;
  df_cycle : Z; (* u64 *)
}.
#[export] Instance MissionDefinition_eta : Eta MissionDefinition := fun d =>
  mkDefinition (df_manifest_id d) (df_manifest_version d) (df_catalog_digest d)
    (df_operating_mode d) (df_capability_ids d) (df_required_artifact_types d) (df_oracle_ids d)
    (df_checkpoints d) (df_cycle d).

Definition is_contracted (self : MissionCheckpointRoute) : bool :=
  negb (set_is_empty (rt_oracle_ids self)) && is_some (rt_completion_policy self).

Definition executor_accepts (executor : MissionCheckpointExecutor)
    (policy : MissionCheckpointCompletionPolicy) : bool :=
  match executor, policy with
  | ExApplication, CpDeterministicEvidence => true
  | ExRuntime, CpWorkProduct => true
  | ExEffectBroker, (CpVerifiedEffect | CpEffectReadbackV2) => true
  | ExHuman, CpHumanConfirmation => true
  | _, _ => false
  end.

Definition route_validate (self : MissionCheckpointRoute) : result MissionError unit :=
  reject_if (trim_is_empty (rt_capability_id self)
    || set_any trim_is_empty (rt_oracle_ids self)
    || xorb (set_is_empty (rt_oracle_ids self)) (is_none (rt_completion_policy self))
    || is_some_and (fun policy => negb (executor_accepts (rt_executor self) policy))
         (rt_completion_policy self)) InvalidMissionDefinition.

Definition route_new (capability_id : string) (executor : MissionCheckpointExecutor)
    : result MissionError MissionCheckpointRoute :=
  let route := mkRoute capability_id executor ∅ None in
  route_validate route;; mret route.

Definition route_contracted (capability_id : string) (executor : MissionCheckpointExecutor)
    (oracle_ids : gset string) (completion_policy : MissionCheckpointCompletionPolicy)
    : result MissionError MissionCheckpointRoute :=
  let route := mkRoute capability_id executor oracle_ids (Some completion_policy) in
  route_validate route;; mret route.

(** [checkpoints.iter().find(|checkpoint| ..)] and its [iter_mut] form. *)
Definition find_checkpoint (p : MissionCheckpoint -> bool) (l : list MissionCheckpoint)
    : option (nat * MissionCheckpoint) := list_find (fun c => p c = true) l.
Definition with_id (checkpoint_id : string) (c : MissionCheckpoint) : bool :=
  bool_decide (ck_id c = checkpoint_id).

Section checkpoint.
Context `{Chrono} `{Sha256}.

Definition source_fields (source : MissionCheckpointOracleSource) : list string :=
  [so_source_kind source; so_source_id source; pretty (so_source_revision source);
   so_projection_digest source; pretty (size (so_oracle_ids source))]
  ++ btree_iter (so_oracle_ids source).

Definition application_evidence_digest (self : MissionCheckpointApplicationEvidence) : string :=
  sha256_hex (hash_fields (
    ["hartevo-application-checkpoint-evidence/v1"; pretty (ae_schema_version self);
     ae_handler_id self; ae_tenant_id self; ae_project_id self; ae_mission_id self;
     ae_manifest_id self; pretty (ae_manifest_version self); ae_catalog_digest self;
     pretty (ae_cycle self); ae_checkpoint_id self; pretty (ae_dispatch_mission_revision self);
     pretty (ae_dispatch_checkpoint_revision self);
     pretty (ae_verification_mission_revision self);
     pretty (ae_verification_checkpoint_revision self); ae_capability_id self;
     checkpoint_executor_name (ae_executor self);
     checkpoint_completion_policy_name (ae_completion_policy self);
     pretty (length (ae_sources self))]
    ++ concat (source_fields <$> ae_sources self)
    ++ [to_rfc3339 (ae_observed_at self)])).

(** [MissionCheckpointApplicationEvidence::SCHEMA_VERSION] *)
Definition evidence_schema_version : Z := 1.

Definition oracle_union (sources : list MissionCheckpointOracleSource) : gset string :=
  ⋃ (so_oracle_ids <$> sources).

Definition source_is_valid (route : MissionCheckpointRoute) (source : MissionCheckpointOracleSource) : bool :=
  negb (trim_is_empty (so_source_kind source))
  && negb (trim_is_empty (so_source_id source))
  && (0 <? so_source_revision source)
  && is_sha256 (so_projection_digest source)
  && negb (set_is_empty (so_oracle_ids source))
  && bool_decide (so_oracle_ids source ⊆ rt_oracle_ids route).

(** The caller has established [route.is_contracted()], so the [expect] on the
    completion policy sees [Some]. *)
Definition valid_persisted_application_checkpoint_evidence (definition : MissionDefinition)
    (checkpoint : MissionCheckpoint) (route : MissionCheckpointRoute)
    (completion : MissionCheckpointCompletion) : bool :=
  if negb (bool_decide (rt_executor route = ExApplication))
  then is_none (co_application_evidence completion) else
  match co_application_evidence completion with
  | None => false
  | Some evidence =>
    (ae_schema_version evidence =? evidence_schema_version)
    && negb (trim_is_empty (ae_handler_id evidence))
    && negb (trim_is_empty (ae_tenant_id evidence))
    && negb (trim_is_empty (ae_project_id evidence))
    && negb (trim_is_empty (ae_mission_id evidence))
    && bool_decide (ae_manifest_id evidence = df_manifest_id definition)
    && (ae_manifest_version evidence =? df_manifest_version definition)
    && bool_decide (ae_catalog_digest evidence = df_catalog_digest definition)
    && (ae_cycle evidence =? df_cycle definition)
    && bool_decide (ae_checkpoint_id evidence = ck_id checkpoint)
    && (0 <? ae_dispatch_mission_revision evidence)
    && (ae_dispatch_mission_revision evidence <=? ae_verification_mission_revision evidence)
    && (0 <? ae_dispatch_checkpoint_revision evidence)
    && (ae_dispatch_checkpoint_revision evidence <=? ae_verification_checkpoint_revision evidence)
    && bool_decide (checked_add u64_max (ae_verification_checkpoint_revision evidence) 1
                    = Some (ck_revision checkpoint))
    && bool_decide (ae_capability_id evidence = rt_capability_id route)
    && bool_decide (ae_executor evidence = rt_executor route)
    && bool_decide (Some (ae_completion_policy evidence) = rt_completion_policy route)
    && (ae_observed_at evidence =? co_verified_at completion)
    && negb (bool_decide (length (ae_sources evidence) = 0%nat))
    && forallb (source_is_valid route) (ae_sources evidence)
    && bool_decide (oracle_union (ae_sources evidence) = rt_oracle_ids route)
    && bool_decide (application_evidence_digest evidence = co_evidence_digest completion)
  end.

Definition completion_is_valid (self : MissionDefinition) (checkpoint : MissionCheckpoint)
    (completion : MissionCheckpointCompletion) : bool :=
  negb (set_is_empty (co_oracle_ids completion))
  && set_all (contains (df_oracle_ids self)) (co_oracle_ids completion)
  && is_sha256 (co_evidence_digest completion)
  && is_some_and (fun started_at => started_at <=? co_verified_at completion)
       (ck_started_at checkpoint)
  && is_none_or (fun route =>
       is_contracted route
       && bool_decide (co_oracle_ids completion = rt_oracle_ids route)
       && negb (bool_decide (rt_completion_policy route = Some CpEffectReadbackV2))
       && valid_persisted_application_checkpoint_evidence self checkpoint route completion
       && (negb (contains (rt_oracle_ids route) "work_product")
           || negb (set_is_empty (co_work_product_ids completion)))
       && (negb (bool_decide (rt_completion_policy route = Some CpVerifiedEffect))
           || negb (set_is_empty (co_effect_ids completion))))
     (ck_route checkpoint).

Definition checkpoint_is_valid (self : MissionDefinition) (checkpoint : MissionCheckpoint)
    (seen : gset string) : bool :=
  if trim_is_empty (ck_id checkpoint)
     || (ck_revision checkpoint =? 0)
     || is_some_and (fun route =>
          is_err (route_validate route)
          || negb (contains (df_capability_ids self) (rt_capability_id route))
          || negb (set_all (contains (df_oracle_ids self)) (rt_oracle_ids route)))
        (ck_route checkpoint)
     || contains (ck_depends_on checkpoint) (ck_id checkpoint)
     || negb (set_all (contains seen) (ck_depends_on checkpoint))
     || ((ck_attempt checkpoint =? 0) && is_some (ck_started_at checkpoint))
     || (bool_decide (ck_status checkpoint = CkPending)
         && (is_some (ck_started_at checkpoint) || is_some (ck_block checkpoint)
             || is_some (ck_completion checkpoint)))
     || (bool_decide (ck_status checkpoint = CkReady)
         && (is_some (ck_block checkpoint) || is_some (ck_completion checkpoint)))
     || (bool_decide (ck_status checkpoint = CkCompleted) && is_none (ck_completion checkpoint))
     || (negb (bool_decide (ck_status checkpoint = CkCompleted))
         && is_some (ck_completion checkpoint))
     || xorb (match ck_status checkpoint with
              | CkBlocked | CkWaitingUser | CkWaitingApproval => true
              | _ => false
              end) (is_some (ck_block checkpoint))
  then false
  else is_none_or (completion_is_valid self checkpoint) (ck_completion checkpoint).

(** The loop of [validate]: the ids seen so far, the Ready and the active
    checkpoints counted. *)
Fixpoint validate_checkpoints (self : MissionDefinition) (seen : gset string)
    (ready active : nat) (l : list MissionCheckpoint) : option (nat * nat) :=
  match l with
  | [] => Some (ready, active)
  | c :: rest =>
    if checkpoint_is_valid self c seen
    then validate_checkpoints self ({[ck_id c]} ∪ seen)
           (ready + Nat.b2n (bool_decide (ck_status c = CkReady)))
           (active + Nat.b2n (ck_is_active (ck_status c))) rest
    else None
  end.

Definition definition_validate (self : MissionDefinition) : result MissionError unit :=
  let ids : gset string := list_to_set (ck_id <$> df_checkpoints self) in
  let n := length (df_checkpoints self) in
  reject_if (trim_is_empty (df_manifest_id self)
    || (df_manifest_version self =? 0)
    || negb (is_sha256 (df_catalog_digest self))
    || set_is_empty (df_capability_ids self)
    || set_is_empty (df_required_artifact_types self)
    || set_is_empty (df_oracle_ids self)
    || bool_decide (n = 0%nat)
    || (df_cycle self =? 0)
    || negb (bool_decide (size ids = n))
    || set_any trim_is_empty (df_capability_ids self)
    || set_any trim_is_empty (df_required_artifact_types self)
    || set_any trim_is_empty (df_oracle_ids self)) InvalidMissionDefinition;;
  let routes := omap ck_route (df_checkpoints self) in
  let routed := length routes in
  reject_if (negb (bool_decide (routed = 0%nat)) && negb (bool_decide (routed = n)))
    InvalidMissionDefinition;;
  let contracted := length (List.filter is_contracted routes) in
  reject_if (bool_decide (routed = n)
    && (negb (bool_decide (list_to_set (rt_capability_id <$> routes) = df_capability_ids self))
        || (negb (bool_decide (contracted = 0%nat)) && negb (bool_decide (contracted = routed)))
        || (bool_decide (contracted = routed)
            && negb (bool_decide (⋃ (rt_oracle_ids <$> routes) = df_oracle_ids self)))))
    InvalidMissionDefinition;;
  counts ← ok_or (validate_checkpoints self ∅ 0 0 (df_checkpoints self)) InvalidMissionDefinition;
  reject_if ((1 <? Z.of_nat counts.1) || (1 <? Z.of_nat counts.2)) InvalidMissionDefinition.

(** ** Building a linear manifest *)
Definition manifest_checkpoint (first : bool) (previous : option string)
    (id : string) (route : option MissionCheckpointRoute) : MissionCheckpoint := {|
  ck_id := id;
  ck_depends_on := match previous with Some p => {[p]} | None => ∅ end;
  ck_route := route;
  ck_status := if first then CkReady else CkPending;
  ck_revision := 1;
  ck_attempt := 0;
  ck_started_at := None;
  ck_block := None;
  ck_completion := None;
|}.

Fixpoint manifest_checkpoints (first : bool) (previous : option string)
    (routes : list (string * option MissionCheckpointRoute)) : list MissionCheckpoint :=
  match routes with
  | [] => []
  | (id, route) :: rest =>
    manifest_checkpoint first previous id route :: manifest_checkpoints false (Some id) rest
  end.

Definition from_manifest_parts (manifest_id : string) (manifest_version : Z)
    (catalog_digest : string) (operating_mode : OperatingMode)
    (capability_ids required_artifact_types oracle_ids : gset string)
    (checkpoint_routes : list (string * option MissionCheckpointRoute))
    : result MissionError MissionDefinition :=
  let definition := {|
    df_manifest_id := manifest_id;
    df_manifest_version := manifest_version;
    df_catalog_digest := catalog_digest;
    df_operating_mode := operating_mode;
    df_capability_ids := capability_ids;
    df_required_artifact_types := required_artifact_types;
    df_oracle_ids := oracle_ids;
    df_checkpoints := manifest_checkpoints true None checkpoint_routes;
    df_cycle := 1;
  |} in
  definition_validate definition;; mret definition.

Definition from_linear_manifest (manifest_id : string) (manifest_version : Z)
    (catalog_digest : string) (operating_mode : OperatingMode)
    (capability_ids required_artifact_types oracle_ids : gset string)
    (checkpoint_ids : list string) : result MissionError MissionDefinition :=
  from_manifest_parts manifest_id manifest_version catalog_digest operating_mode capability_ids
    required_artifact_types oracle_ids ((fun id => (id, None)) <$> checkpoint_ids).

Definition from_routed_linear_manifest (manifest_id : string) (manifest_version : Z)
    (catalog_digest : string) (operating_mode : OperatingMode)
    (capability_ids required_artifact_types oracle_ids : gset string)
    (checkpoint_routes : list (string * MissionCheckpointRoute))
    : result MissionError MissionDefinition :=
  from_manifest_parts manifest_id manifest_version catalog_digest operating_mode capability_ids
    required_artifact_types oracle_ids ((fun '(id, route) => (id, Some route)) <$> checkpoint_routes).

(** ** Reading and moving the DAG *)
Definition active_checkpoint (self : MissionDefinition) : option MissionCheckpoint :=
  snd <$> find_checkpoint (fun c => ck_is_active (ck_status c)) (df_checkpoints self).
Definition current_checkpoint (self : MissionDefinition) : option MissionCheckpoint :=
  match active_checkpoint self with
  | Some c => Some c
  | None => snd <$> find_checkpoint (fun c => bool_decide (ck_status c = CkReady)) (df_checkpoints self)
  end.

Definition validate_first_checkpoint_tasks (self : MissionDefinition) (tasks : list Task)
    : result MissionError unit :=
  match df_checkpoints self with
  | [] => Err InvalidMissionDefinition
  | checkpoint :: _ =>
    match ck_route checkpoint with
    | None => Ok tt
    | Some route =>
      reject_if (bool_decide (length tasks = 0%nat)
        || existsb (fun task => negb (bool_decide (tk_status task = TRunning))
                                || trim_is_empty (tk_title task)
                                || negb (bool_decide (tk_capability task = rt_capability_id route))) tasks
        || negb (bool_decide (size (list_to_set (tk_id <$> tasks) : gset string) = length tasks)))
        (MissionCheckpointTaskMismatch (ck_id checkpoint) (rt_capability_id route))
    end
  end.

Definition start_first_checkpoint (now : DateTime) : SR MissionDefinition MissionError unit :=
  self ← get;
  match df_checkpoints self with
  | [] => fail InvalidMissionDefinition
  | checkpoint :: rest =>
    reject (negb (bool_decide (ck_status checkpoint = CkReady))
      || negb (ck_attempt checkpoint =? 0)
      || is_some (ck_started_at checkpoint))
      (InvalidCheckpointTransition (ck_id checkpoint) (ck_status checkpoint) CkRunning);;
    put (self <| df_checkpoints :=
      checkpoint <| ck_status := CkRunning |> <| ck_attempt := 1 |>
                 <| ck_started_at := Some now |>
                 <| ck_revision := wrapping_succ_u64 (ck_revision checkpoint) |> :: rest |>)
  end.

(** The loop of [reset_for_next_cycle]; a revision overflow leaves the
    checkpoints visited so far already reset. *)
Fixpoint reset_checkpoints (first : bool) (l : list MissionCheckpoint)
    : result MissionError unit * list MissionCheckpoint :=
  match l with
  | [] => (Ok tt, [])
  | c :: rest =>
    let c1 := c <| ck_status := if first then CkReady else CkPending |> in
    match checked_add u64_max (ck_revision c) 1 with
    | None => (Err RevisionOverflow, c1 :: rest)
    | Some revision =>
      let c2 := c1 <| ck_revision := revision |> <| ck_attempt := 0 |> <| ck_started_at := None |>
                   <| ck_block := None |> <| ck_completion := None |> in
      let '(r, rest') := reset_checkpoints false rest in (r, c2 :: rest')
    end
  end.

Definition reset_for_next_cycle (cycle : Z) : SR MissionDefinition MissionError unit :=
  self ← get;
  reject (negb (bool_decide (checked_add u64_max (df_cycle self) 1 = Some cycle))
    || negb (forallb (fun c => ck_is_terminal (ck_status c)) (df_checkpoints self)))
    MissionCycleCheckpointIncomplete;;
  mkSR (fun self =>
    let '(r, l) := reset_checkpoints true (df_checkpoints self) in
    (r, self <| df_checkpoints := l |>));;
  modify (fun self => self <| df_cycle := cycle |>);;
  self ← get;
  lift (definition_validate self).

(** Status and block are assigned before the revision is checked. *)
Definition set_active_status (status : MissionCheckpointStatus) (block : option MissionBlock)
    : SR MissionDefinition MissionError unit :=
  self ← get;
  match find_checkpoint (fun c => ck_is_active (ck_status c)) (df_checkpoints self) with
  | None => fail InvalidMissionDefinition
  | Some (i, c) =>
    let c1 := c <| ck_status := status |> <| ck_block := block |> in
    put (self <| df_checkpoints := <[i := c1]> (df_checkpoints self) |>);;
    revision ← lift (ok_or (checked_add u64_max (ck_revision c) 1) RevisionOverflow);
    put (self <| df_checkpoints := <[i := c1 <| ck_revision := revision |>]> (df_checkpoints self) |>)
  end.

End checkpoint.
