(* ===== verification/Terminal.v ===== *)
(** * The Mission record and its typed terminal resolutions

    Models [struct Mission] and the predicates of [domain-kernel/src/mission.rs]
    that decide when a VM-04, VM-07 or VM-11 Mission may become Completed. *)
From S2P Require Import Prelude Money Contract MissionTypes WorkProduct Effect Checkpoint.

Record Mission : Type := mkMission {
  ms_tenant_id : Id;
  ms_id : Id;
  ms_project_id : Id;
  ms_title : string;
  ms_contract : OperatingContract;
  ms_definition : option MissionDefinition;
  ms_stage : MissionStage;
  ms_tasks : list Task;
  ms_evidence : list Evidence;
  ms_work_products : list WorkProduct;
  ms_effects : list Effect;
  ms_outcome_history : list Outcome;
  ms_outcome : option Outcome;
  ms_block : option MissionBlock;
  ms_created_at : DateTime;
  ms_updated_at : DateTime;
  ms_revision : Z; (* u64 *)
}.
#[export] Instance Mission_eta : Eta Mission := fun m =>
  mkMission (ms_tenant_id m) (ms_id m) (ms_project_id m) (ms_title m) (ms_contract m)
    (ms_definition m) (ms_stage m) (ms_tasks m) (ms_evidence m) (ms_work_products m)
    (ms_effects m) (ms_outcome_history m) (ms_outcome m) (ms_block m) (ms_created_at m)
    (ms_updated_at m) (ms_revision m).

(** [s.ends_with(suffix)] *)
Definition ends_with (s suffix : string) : bool :=
  let n := String.length s in
  let k := String.length suffix in
  Nat.leb k n && String.eqb (String.substring (n - k) k s) suffix.

Definition set_of (l : list string) : gset string := list_to_set l.
Definition source_kinds (sources : list MissionCheckpointOracleSource) : gset string :=
  list_to_set (so_source_kind <$> sources).
Definition source_of_kind (kind : string) (sources : list MissionCheckpointOracleSource)
    : option MissionCheckpointOracleSource :=
  List.find (fun source => bool_decide (so_source_kind source = kind)) sources.
Definition checkpoint_of_id (id : string) (definition : MissionDefinition)
    : option MissionCheckpoint := snd <$> find_checkpoint (with_id id) (df_checkpoints definition).
Definition all_completed (definition : MissionDefinition) : bool :=
  forallb (fun c => bool_decide (ck_status c = CkCompleted)) (df_checkpoints definition).
Definition manifest_is (id : string) (self : Mission) : bool :=
  is_some_and (fun definition => bool_decide (df_manifest_id definition = id)) (ms_definition self).

(** From [domain-kernel/src/outcome.rs]. *)
Inductive OutcomeReviewNextContractIntent : Type :=
| ValidTerminal | ContinueCurrentContract | ScaleWithRevisedContract | TestWithNewExperiment.
#[export] Instance OutcomeReviewNextContractIntent_eq_dec : EqDecision OutcomeReviewNextContractIntent.
Proof. solve_decision. Defined.

Record OutcomeReviewNextContractResolution : Type := mkResolution {
  nr_schema_version : Z;
  nr_tenant_id : Id;
  nr_project_id : Id;
  nr_mission_id : Id;
  nr_cycle : Z;
  nr_decision_digest : string;
  nr_action : OutcomeDecision;
  nr_next_contract_intent : OutcomeReviewNextContractIntent;
  nr_source_mission_id : Id;
  nr_source_mission_revision : Z;
  nr_source_contract_digest : string;
  nr_continued_contract_digest : option string;
  nr_terminal_disposition : option MissionTerminalDisposition;
  nr_resolved_at : DateTime;
}.

Definition outcome_decision_name (action : OutcomeDecision) : string :=
  match action with
  | ODContinue => "continue" | ODStop => "stop" | ODScale => "scale" | ODTest => "test"
  end.
Definition next_contract_intent_name (intent : OutcomeReviewNextContractIntent) : string :=
  match intent with
  | ValidTerminal => "valid_terminal"
  | ContinueCurrentContract => "continue_current_contract"
  | ScaleWithRevisedContract => "scale_with_revised_contract"
  | TestWithNewExperiment => "test_with_new_experiment"
  end.
Definition decision_source_id (self : OutcomeReviewNextContractResolution) : string :=
  String.append (nr_mission_id self) (String.append ":cycle:" (String.append (pretty (nr_cycle self))
    (String.append ":" (String.append (outcome_decision_name (nr_action self))
      (String.append ":" (next_contract_intent_name (nr_next_contract_intent self))))))).

(** [OutcomeReviewNextContractResolution::HANDLER_ID] *)
Definition next_contract_handler_id : string := "vm11.next-contract-or-valid-terminal/v1".

Section terminal.
Context `{Chrono} `{Sha256}.

Definition validate_vm11_next_contract_completion_sources (mission : Mission)
    (resolution : OutcomeReviewNextContractResolution) (completion : MissionCheckpointCompletion)
    : result MissionError unit :=
  let checkpoint_id := "next_contract_or_valid_terminal" in
  definition ← ok_or (ms_definition mission) MissionDefinitionRequired;
  checkpoint ← ok_or (checkpoint_of_id checkpoint_id definition)
    (MissionCheckpointNotFound checkpoint_id);
  evidence ← ok_or (co_application_evidence completion) (InvalidCheckpointCompletion checkpoint_id);
  let parent_source := source_of_kind "parent_mission_contract" (ae_sources evidence) in
  let decision_source := source_of_kind "outcome_review_decision" (ae_sources evidence) in
  let checkpoint_source := source_of_kind "mission_checkpoint" (ae_sources evidence) in
  reject_if (negb (bool_decide (df_manifest_id definition = "VM-11"))
    || negb (df_cycle definition =? nr_cycle resolution)
    || negb (bool_decide (ck_status checkpoint = CkVerifying))
    || negb (bool_decide (nr_tenant_id resolution = ms_tenant_id mission))
    || negb (bool_decide (nr_project_id resolution = ms_project_id mission))
    || negb (bool_decide (nr_mission_id resolution = ms_id mission))
    || negb (nr_resolved_at resolution =? co_verified_at completion)
    || negb (bool_decide (ae_handler_id evidence = next_contract_handler_id))
    || negb (ae_observed_at evidence =? nr_resolved_at resolution)
    || negb (bool_decide (source_kinds (ae_sources evidence)
         = set_of ["mission_checkpoint"; "outcome_review_decision"; "parent_mission_contract"]))
    || is_none_or (fun source =>
         negb (bool_decide (so_source_id source
               = String.append (ms_id mission) (String.append ":" (ck_id checkpoint))))
         || negb (bool_decide (so_oracle_ids source = {["operating_state"]}))) checkpoint_source
    || is_none_or (fun source =>
         negb (bool_decide (so_source_id source = nr_source_mission_id resolution))
         || negb (so_source_revision source =? nr_source_mission_revision resolution)
         || negb (bool_decide (so_projection_digest source = nr_source_contract_digest resolution))
         || negb (bool_decide (so_oracle_ids source = {["goal"]}))) parent_source
    || is_none_or (fun source =>
         negb (bool_decide (so_source_id source = decision_source_id resolution))
         || negb (so_source_revision source =? nr_cycle resolution)
         || negb (bool_decide (so_projection_digest source = nr_decision_digest resolution))
         || negb (bool_decide (so_oracle_ids source = {["outcome"]}))) decision_source)
    (InvalidCheckpointCompletion checkpoint_id).

Definition validate_vm11_stop_resolution (resolution : OutcomeReviewNextContractResolution)
    : result MissionError unit :=
  reject_if (negb (bool_decide (nr_action resolution = ODStop))
    || negb (bool_decide (nr_terminal_disposition resolution = Some DCompleted))
    || is_some (nr_continued_contract_digest resolution)) Vm11ValidTerminalResolutionRequired.

Definition validate_vm11_continue_resolution (resolution : OutcomeReviewNextContractResolution)
    : result MissionError unit :=
  reject_if (negb (bool_decide (nr_action resolution = ODContinue))
    || negb (bool_decide (nr_next_contract_intent resolution = ContinueCurrentContract))
    || negb (bool_decide (nr_continued_contract_digest resolution
                          = Some (nr_source_contract_digest resolution)))
    || is_some (nr_terminal_disposition resolution))
    (InvalidCheckpointCompletion "next_contract_or_valid_terminal").

Definition vm04_valid_terminal_is_typed (mission : Mission) : bool :=
  match ms_definition mission with
  | None => false
  | Some definition =>
    bool_decide (df_manifest_id definition = "VM-04")
    && (df_manifest_version definition =? 3)
    && all_completed definition
    && match (c ← checkpoint_of_id "channel_rebalance" definition;
              completion ← ck_completion c; co_application_evidence completion) with
       | None => false
       | Some evidence =>
         bool_decide (ae_handler_id evidence = "vm04.channel-rebalance/v1")
         && bool_decide (ae_checkpoint_id evidence = "channel_rebalance")
         && bool_decide (source_kinds (ae_sources evidence)
              = set_of ["channel_rebalance"; "engagement_review"; "mission_checkpoint"; "mission_contract"])
       end
  end.

Definition vm11_candidate_learning_valid_terminal_is_typed (mission : Mission) : bool :=
  match ms_definition mission with
  | None => false
  | Some definition =>
    bool_decide (df_manifest_id definition = "VM-11")
    && (df_manifest_version definition =? 3)
    && all_completed definition
    && match (
         next_checkpoint ← checkpoint_of_id "next_contract_or_valid_terminal" definition;
         next_completion ← ck_completion next_checkpoint;
         next_evidence ← co_application_evidence next_completion;
         next_decision_source ← source_of_kind "outcome_review_decision" (ae_sources next_evidence);
         candidate_checkpoint ← checkpoint_of_id "candidate_learning" definition;
         candidate_completion ← ck_completion candidate_checkpoint;
         candidate_evidence ← co_application_evidence candidate_completion;
         Some (
           bool_decide (ae_handler_id next_evidence = next_contract_handler_id)
           && ends_with (so_source_id next_decision_source) ":continue:continue_current_contract"
           && bool_decide (ae_handler_id candidate_evidence = "vm11.candidate-learning/v1")
           && bool_decide (ae_checkpoint_id candidate_evidence = "candidate_learning")
           && bool_decide (source_kinds (ae_sources candidate_evidence)
                = set_of ["candidate_learning_proposal"; "mission_checkpoint"; "next_contract_resolution"])
           && bool_decide (size (co_work_product_ids candidate_completion) = 1%nat)
           && is_some_and (fun source =>
                (so_source_revision source =? 1)
                && bool_decide (so_oracle_ids source = {["work_product"]})
                && contains (co_work_product_ids candidate_completion) (so_source_id source))
              (source_of_kind "candidate_learning_proposal" (ae_sources candidate_evidence))
           && is_some_and (fun source =>
                bool_decide (so_source_id source = so_source_id next_decision_source)
                && (so_source_revision source =? so_source_revision next_decision_source)
                && bool_decide (so_projection_digest source = co_evidence_digest next_completion)
                && bool_decide (so_oracle_ids source = {["decision"]}))
              (source_of_kind "next_contract_resolution" (ae_sources candidate_evidence)))) with
       | Some typed => typed
       | None => false
       end
  end.

Definition vm11_valid_terminal_is_typed (mission : Mission) : bool :=
  match ms_definition mission with
  | None => false
  | Some definition =>
    bool_decide (df_manifest_id definition = "VM-11")
    && (df_manifest_version definition =? 3)
    && match (
         checkpoint ← checkpoint_of_id "next_contract_or_valid_terminal" definition;
         candidate ← checkpoint_of_id "candidate_learning" definition;
         completion ← ck_completion checkpoint;
         evidence ← co_application_evidence completion;
         Some (
           (bool_decide (ck_status checkpoint = CkCompleted)
            && bool_decide (ck_status candidate = CkSkipped)
            && bool_decide (ae_handler_id evidence = next_contract_handler_id)
            && existsb (fun source =>
                 bool_decide (so_source_kind source = "outcome_review_decision")
                 && ends_with (so_source_id source) ":stop:valid_terminal"
                 && bool_decide (so_oracle_ids source = {["outcome"]})) (ae_sources evidence))
           || vm11_candidate_learning_valid_terminal_is_typed mission)) with
       | Some typed => typed
       | None => false
       end
  end.

Definition vm07_replan_or_terminal_valid_terminal_is_typed (mission : Mission) : bool :=
  match ms_definition mission with
  | None => false
  | Some definition =>
    bool_decide (df_manifest_id definition = "VM-07")
    && (df_manifest_version definition =? 3)
    && all_completed definition
    && match (
         prioritized ← checkpoint_of_id "prioritized_experiments" definition;
         prioritized_completion ← ck_completion prioritized;
         prioritized_evidence ← co_application_evidence prioritized_completion;
         plan_work_product_id ← match btree_iter (co_work_product_ids prioritized_completion) with
                                | [id] => Some id
                                | _ => None
                                end;
         plan ← List.find (fun w => bool_decide (wp_id w = plan_work_product_id)) (ms_work_products mission);
         final_checkpoint ← checkpoint_of_id "replan_or_terminal" definition;
         final_completion ← ck_completion final_checkpoint;
         final_evidence ← co_application_evidence final_completion;
         Some (
           bool_decide (ae_handler_id prioritized_evidence = "vm07.prioritized-experiments/v1")
           && bool_decide (application_evidence_digest prioritized_evidence
                           = co_evidence_digest prioritized_completion)
           && set_is_empty (co_effect_ids prioritized_completion)
           && set_is_empty (co_work_product_ids final_completion)
           && set_is_empty (co_effect_ids final_completion)
           && bool_decide (co_oracle_ids final_completion
                           = set_of ["decision"; "goal"; "operating_state"; "outcome"])
           && bool_decide (application_evidence_digest final_evidence
                           = co_evidence_digest final_completion)
           && bool_decide (ae_handler_id final_evidence = "vm07.replan-or-terminal/v1")
           && bool_decide (ae_checkpoint_id final_evidence = "replan_or_terminal")
           && bool_decide (source_kinds (ae_sources final_evidence)
                = set_of ["budgeted_experiment_plan"; "mission_checkpoint"; "mission_contract";
                          "prioritized_experiments"])
           && is_some_and (fun source =>
                bool_decide (so_source_id source
                             = String.append (ms_id mission) ":prioritized_experiments")
                && (so_source_revision source =? ck_revision prioritized)
                && bool_decide (so_projection_digest source
                                = co_evidence_digest prioritized_completion)
                && bool_decide (so_oracle_ids source = {["decision"]}))
              (source_of_kind "prioritized_experiments" (ae_sources final_evidence))
           && is_some_and (fun source =>
                bool_decide (so_source_id source = wp_id plan)
                && (so_source_revision source =? wp_revision plan)
                && bool_decide (so_projection_digest source = wp_content_digest plan)
                && bool_decide (so_oracle_ids source = {["outcome"]}))
              (source_of_kind "budgeted_experiment_plan" (ae_sources final_evidence))
           && is_some_and (fun source =>
                bool_decide (so_source_id source = ms_id mission)
                && bool_decide (so_oracle_ids source = {["goal"]}))
              (source_of_kind "mission_contract" (ae_sources final_evidence)))) with
       | Some typed => typed
       | None => false
       end
  end.

End terminal.
