(* ===== verification/Mission.v ===== *)
(** * The Mission aggregate

    Models every operation of [impl Mission] in
    [domain-kernel/src/mission.rs]. A method on [&mut self] is a computation in
    [SR Mission MissionError], so what a failing call has already written is
    part of the model. *)
From S2P Require Import Prelude Money Contract MissionTypes WorkProduct Effect Checkpoint.
From S2P Require Import Terminal.

Abbreviation op := (SR Mission MissionError) (only parsing).

Section mission.
Context `{Chrono} `{Sha256} `{SerdeScope}.

(** ** Helpers *)
Definition require_stage (expected : list MissionStage) : op unit :=
  self ← get;
  reject (negb (bool_decide (ms_stage self ∈ expected)))
    (InvalidMissionStage (ms_stage self) expected).

Definition ensure_touchable : op unit :=
  self ← get;
  lift (ok_or (checked_add u64_max (ms_revision self) 1) RevisionOverflow);;
  mret tt.

Definition touch (now : DateTime) (self : Mission) : Mission :=
  self <| ms_updated_at := now |> <| ms_revision ::= wrapping_succ_u64 |>.

Definition effect (self : Mission) (effect_id : Id) : result MissionError Effect :=
  ok_or (snd <$> list_find (fun e => ef_id e = effect_id) (ms_effects self))
    (UnknownEffect effect_id).

(** [effect_mut]: the position and value of the effect; writes go through
    [set_effect]. *)
Definition effect_mut (effect_id : Id) : op (nat * Effect) :=
  self ← get;
  lift (ok_or (list_find (fun e => ef_id e = effect_id) (ms_effects self))
    (UnknownEffect effect_id)).
Definition set_effect (i : nat) (e : Effect) (self : Mission) : Mission :=
  self <| ms_effects ::= <[i := e]> |>.

Definition on_definition {A} (definition : MissionDefinition)
    (m : SR MissionDefinition MissionError A) : op A :=
  mkSR (fun self => let '(r, definition') := run m definition in
                    (r, self <| ms_definition := Some definition' |>)).

Definition set_catalog_checkpoint_status (status : MissionCheckpointStatus)
    (block : option MissionBlock) : op unit :=
  self ← get;
  match ms_definition self with
  | Some definition => on_definition definition (set_active_status status block)
  | None => mret tt
  end.

(** The effects that still need a decision, an execution or a verification. *)
Definition effect_is_pending (status : EffectStatus) : bool :=
  match status with
  | EProposed | EApproved | EExecuting | EReceiptRecorded | EVerificationRequired => true
  | _ => false
  end.

Definition checkpoint_status_for_mission_stage (stage : MissionStage)
    : result MissionError MissionCheckpointStatus :=
  match stage with
  | StBlocked => Ok CkBlocked
  | StWaitingUser => Ok CkWaitingUser
  | StWaitingApproval => Ok CkWaitingApproval
  | _ => Err InvalidBlock
  end.

Definition cadence_has_future_authority {E} (contract : OperatingContract) (observed_at : DateTime)
    : result E bool :=
  if oc_valid_until contract <=? observed_at then Ok false else
  match oc_cadence contract with
  | None => Ok false
  | Some cadence =>
    match cad_trigger cadence with
    | EventDriven | IntervalOrEvent => Ok true
    | Interval =>
      due ← next_interval_due_at cadence observed_at;
      mret (is_some_and (fun due_at => due_at <? oc_valid_until contract) due)
    end
  end.

Definition next_stage_after_outcome {E} (contract : OperatingContract) (decision : OutcomeDecision)
    (observed_at : DateTime) : result E MissionStage :=
  if bool_decide (decision = ODStop) then Ok StCompleted else
  match oc_mode contract with
  | BuildOnce | OneOffDecision => Ok StCompleted
  | ContinuousOperator | ContinuousRelationship =>
    future ← cadence_has_future_authority contract observed_at;
    mret (if (future : bool) then StScheduled else StCompleted)
  | Campaign =>
    future ← cadence_has_future_authority contract observed_at;
    mret (if (future : bool) then StScheduled
          else if is_some (oc_cadence contract) then StCompleted else StCycleReviewed)
  end.

(** ** Construction *)
Definition compile (tenant_id id project_id : Id) (title : string) (contract : OperatingContract)
    (now : DateTime) : result MissionError Mission :=
  let title := trim title in
  reject_if (bool_decide (title = "") || trim_is_empty (oc_goal contract)) EmptyMission;;
  map_err OperatingContractErr (contract_validate contract now);;
  mret {|
    ms_tenant_id := tenant_id;
    ms_id := id;
    ms_project_id := project_id;
    ms_title := title;
    ms_contract := contract;
    ms_definition := None;
    ms_stage := StReady;
    ms_tasks := [];
    ms_evidence := [];
    ms_work_products := [];
    ms_effects := [];
    ms_outcome_history := [];
    ms_outcome := None;
    ms_block := None;
    ms_created_at := now;
    ms_updated_at := now;
    ms_revision := 1;
  |}.

Definition compile_catalog (tenant_id id project_id : Id) (title : string)
    (contract : OperatingContract) (definition : MissionDefinition) (now : DateTime)
    : result MissionError Mission :=
  definition_validate definition;;
  reject_if (negb (bool_decide (df_operating_mode definition = oc_mode contract))
    || negb (bool_decide (df_capability_ids definition = oc_enabled_capabilities contract))
    || negb (bool_decide (df_capability_ids definition ## oc_forbidden_capabilities contract)))
    MissionDefinitionContractMismatch;;
  mission ← compile tenant_id id project_id title contract now;
  mret (mission <| ms_definition := Some definition |>).

Definition evidence_scope_mismatch (self : Mission) (checkpoint : MissionCheckpoint) : bool :=
  match ck_completion checkpoint ≫= co_application_evidence with
  | None => false
  | Some evidence =>
    negb (bool_decide (ae_tenant_id evidence = ms_tenant_id self))
    || negb (bool_decide (ae_project_id evidence = ms_project_id self))
    || negb (bool_decide (ae_mission_id evidence = ms_id self))
    || (ms_revision self <=? ae_verification_mission_revision evidence)
  end.

Definition validate_checkpoint_evidence_scope (self : Mission) : result MissionError unit :=
  match ms_definition self with
  | None => Ok tt
  | Some definition =>
    definition_validate definition;;
    match find_checkpoint (evidence_scope_mismatch self) (df_checkpoints definition) with
    | Some (_, checkpoint) => Err (InvalidCheckpointCompletion (ck_id checkpoint))
    | None => Ok tt
    end
  end.

(** ** Starting work *)
Definition start_running (tasks : list Task) (now : DateTime) (self : Mission) : Mission :=
  touch now (self <| ms_tasks ::= fun l => l ++ tasks |> <| ms_stage := StRunning |>
                  <| ms_block := None |>).

Definition validate_tasks_for_definition (tasks : list Task) : op unit :=
  self ← get;
  match ms_definition self with
  | Some definition => lift (validate_first_checkpoint_tasks definition tasks)
  | None => mret tt
  end.

Definition start_research (tasks : list Task) (now : DateTime) : op unit :=
  require_stage [StReady];;
  validate_tasks_for_definition tasks;;
  ensure_touchable;;
  self ← get;
  match ms_definition self with
  | Some definition => on_definition definition (start_first_checkpoint now)
  | None => mret tt
  end;;
  modify (start_running tasks now).

Definition start_scheduled_cycle (cycle : Z) (tasks : list Task) (now : DateTime) : op unit :=
  require_stage [StScheduled];;
  self ← get;
  lift (map_err OperatingContractErr (contract_validate (ms_contract self) now));;
  expected_cycle ← lift (ok_or (
    value ← try_from_usize u64_max (length (ms_outcome_history self)); checked_add u64_max value 1)
    RevisionOverflow);
  reject (negb (cycle =? expected_cycle) || (cycle <? 2))
    (InvalidMissionCycle expected_cycle cycle);;
  validate_tasks_for_definition tasks;;
  ensure_touchable;;
  match ms_definition self with
  | Some definition =>
    on_definition definition (reset_for_next_cycle cycle;; start_first_checkpoint now)
  | None => mret tt
  end;;
  modify (start_running tasks now).

(** ** Evidence and work products *)
Definition record_evidence (evidence : Evidence) (now : DateTime) : op unit :=
  require_stage [StRunning];;
  self ← get;
  reject (existsb (fun item => bool_decide (ev_id item = ev_id evidence)) (ms_evidence self))
    (DuplicateEvidence (ev_id evidence));;
  ensure_touchable;;
  modify (fun self => touch now (self <| ms_evidence ::= fun l => l ++ [evidence] |>)).

Definition knows_evidence (self : Mission) (id : Id) : bool :=
  existsb (fun item => bool_decide (ev_id item = id)) (ms_evidence self).

(** The first unknown evidence id in iteration order is the one reported. *)
Definition require_known_evidence (work_product : WorkProduct) : op unit :=
  self ← get;
  match List.find (fun id => negb (knows_evidence self id)) (btree_iter (wp_evidence_ids work_product)) with
  | Some evidence_id => fail (UnknownEvidence evidence_id)
  | None => mret tt
  end.

Definition record_work_product (work_product : WorkProduct) (now : DateTime) : op unit :=
  require_stage [StRunning];;
  lift (work_product_validate work_product);;
  reject (negb (wp_revision work_product =? 1)
    || negb (bool_decide (wp_status work_product = WpDraft)))
    (InvalidWorkProduct (wp_id work_product));;
  self ← get;
  reject (existsb (fun item => bool_decide (wp_id item = wp_id work_product)) (ms_work_products self))
    (DuplicateWorkProduct (wp_id work_product));;
  require_known_evidence work_product;;
  ensure_touchable;;
  modify (fun self => touch now (self <| ms_work_products ::= fun l =>
    l ++ [work_product <| wp_status := WpReadyForReview |>] |>)).

Definition revise_work_product (work_product : WorkProduct) (now : DateTime) : op unit :=
  require_stage [StRunning; StWaitingUser; StWaitingApproval; StVerifying];;
  self ← get;
  found ← lift (ok_or (list_find (fun item => wp_id item = wp_id work_product) (ms_work_products self))
    (UnknownWorkProduct (wp_id work_product)));
  ok ← lift (follows work_product found.2);
  reject (negb ok) (InvalidWorkProductTransition (wp_id work_product));;
  require_known_evidence work_product;;
  ensure_touchable;;
  modify (fun self => touch now (self <| ms_work_products ::= <[found.1 := work_product]> |>)).

(** ** Checkpoints *)
Definition checkpoint_route_of (self : Mission) (checkpoint_id : string)
    : option MissionCheckpointRoute :=
  definition ← ms_definition self;
  found ← find_checkpoint (with_id checkpoint_id) (df_checkpoints definition);
  ck_route found.2.

Definition completed_ids (l : list MissionCheckpoint) : gset string :=
  list_to_set (ck_id <$> List.filter (fun c => bool_decide (ck_status c = CkCompleted)) l).

(** [definition.as_mut()] followed by [checkpoints.iter_mut().find(by id)]. *)
Definition checkpoint_mut (checkpoint_id : string)
    : op (MissionDefinition * nat * MissionCheckpoint) :=
  self ← get;
  definition ← lift (ok_or (ms_definition self) MissionDefinitionRequired);
  found ← lift (ok_or (find_checkpoint (with_id checkpoint_id) (df_checkpoints definition))
    (MissionCheckpointNotFound checkpoint_id));
  mret (definition, found.1, found.2).
Definition set_checkpoint (i : nat) (c : MissionCheckpoint) (self : Mission) : Mission :=
  self <| ms_definition ::= fmap (fun d => d <| df_checkpoints ::= <[i := c]> |>) |>.

Definition begin_checkpoint_transition (checkpoint_id : string) (now : DateTime) : op unit :=
  require_stage [StRunning];;
  ensure_touchable;;
  found ← checkpoint_mut checkpoint_id;
  let '(definition, i, checkpoint) := found in
  reject (negb (bool_decide (ck_status checkpoint = CkReady)))
    (InvalidCheckpointTransition (ck_id checkpoint) (ck_status checkpoint) CkRunning);;
  reject (negb (set_all (contains (completed_ids (df_checkpoints definition)))
                  (ck_depends_on checkpoint)))
    (CheckpointDependencyIncomplete (ck_id checkpoint));;
  let c1 := checkpoint <| ck_status := CkRunning |> in
  modify (set_checkpoint i c1);;
  attempt ← lift (ok_or (checked_add u32_max (ck_attempt checkpoint) 1) InvalidMissionDefinition);
  let c2 := c1 <| ck_attempt := attempt |> <| ck_started_at := Some now |> <| ck_block := None |> in
  modify (set_checkpoint i c2);;
  revision ← lift (ok_or (checked_add u64_max (ck_revision checkpoint) 1) RevisionOverflow);
  modify (fun self => touch now (set_checkpoint i (c2 <| ck_revision := revision |>) self)).

Definition begin_checkpoint (checkpoint_id : string) (now : DateTime) : op unit :=
  self ← get;
  match checkpoint_route_of self checkpoint_id with
  | Some route => fail (MissionCheckpointTaskMismatch checkpoint_id (rt_capability_id route))
  | None => begin_checkpoint_transition checkpoint_id now
  end.

Definition begin_checkpoint_with_task (checkpoint_id : string) (task : Task) (now : DateTime) : op unit :=
  self ← get;
  route ← lift (ok_or (checkpoint_route_of self checkpoint_id) MissionDefinitionRequired);
  reject (negb (bool_decide (tk_status task = TRunning))
    || trim_is_empty (tk_title task)
    || negb (bool_decide (tk_capability task = rt_capability_id route))
    || existsb (fun existing => bool_decide (tk_id existing = tk_id task)) (ms_tasks self))
    (MissionCheckpointTaskMismatch checkpoint_id (rt_capability_id route));;
  begin_checkpoint_transition checkpoint_id now;;
  modify (fun self => self <| ms_tasks ::= fun l => l ++ [task] |>).

Definition begin_checkpoint_verification (checkpoint_id : string) (now : DateTime) : op unit :=
  require_stage [StRunning];;
  self ← get;
  reject (existsb (fun effect => effect_is_pending (ef_status effect)) (ms_effects self))
    JourneyContinuationNotReady;;
  ensure_touchable;;
  found ← checkpoint_mut checkpoint_id;
  let '(definition, i, checkpoint) := found in
  reject (negb (bool_decide (ck_status checkpoint = CkRunning)))
    (InvalidCheckpointTransition (ck_id checkpoint) (ck_status checkpoint) CkVerifying);;
  let c1 := checkpoint <| ck_status := CkVerifying |> in
  modify (set_checkpoint i c1);;
  revision ← lift (ok_or (checked_add u64_max (ck_revision checkpoint) 1) RevisionOverflow);
  modify (fun self => touch now
    (set_checkpoint i (c1 <| ck_revision := revision |>) self <| ms_stage := StVerifying |>)).

(** See [valid_persisted_application_checkpoint_evidence] for the [expect]. *)
Definition valid_application_checkpoint_evidence (mission : Mission) (definition : MissionDefinition)
    (checkpoint : MissionCheckpoint) (route : MissionCheckpointRoute)
    (completion : MissionCheckpointCompletion) : bool :=
  if negb (bool_decide (rt_executor route = ExApplication))
  then is_none (co_application_evidence completion) else
  match co_application_evidence completion with
  | None => false
  | Some evidence =>
    (ae_schema_version evidence =? evidence_schema_version)
    && negb (trim_is_empty (ae_handler_id evidence))
    && bool_decide (ae_tenant_id evidence = ms_tenant_id mission)
    && bool_decide (ae_project_id evidence = ms_project_id mission)
    && bool_decide (ae_mission_id evidence = ms_id mission)
    && bool_decide (ae_manifest_id evidence = df_manifest_id definition)
    && (ae_manifest_version evidence =? df_manifest_version definition)
    && bool_decide (ae_catalog_digest evidence = df_catalog_digest definition)
    && (ae_cycle evidence =? df_cycle definition)
    && bool_decide (ae_checkpoint_id evidence = ck_id checkpoint)
    && (0 <? ae_dispatch_mission_revision evidence)
    && (ae_dispatch_mission_revision evidence <=? ae_verification_mission_revision evidence)
    && (0 <? ae_dispatch_checkpoint_revision evidence)
    && (ae_dispatch_checkpoint_revision evidence <=? ae_verification_checkpoint_revision evidence)
    && (ae_verification_mission_revision evidence =? ms_revision mission)
    && (ae_verification_checkpoint_revision evidence =? ck_revision checkpoint)
    && bool_decide (ae_capability_id evidence = rt_capability_id route)
    && bool_decide (ae_executor evidence = rt_executor route)
    && bool_decide (Some (ae_completion_policy evidence) = rt_completion_policy route)
    && (ae_observed_at evidence =? co_verified_at completion)
    && negb (bool_decide (length (ae_sources evidence) = 0%nat))
    && forallb (source_is_valid route) (ae_sources evidence)
    && bool_decide (oracle_union (ae_sources evidence) = rt_oracle_ids route)
    && bool_decide (application_evidence_digest evidence = co_evidence_digest completion)
  end.

Definition completion_is_invalid (self : Mission) (definition : MissionDefinition)
    (checkpoint : MissionCheckpoint) (completion : MissionCheckpointCompletion) : bool :=
  set_is_empty (co_oracle_ids completion)
  || negb (set_all (contains (df_oracle_ids definition)) (co_oracle_ids completion))
  || negb (is_sha256 (co_evidence_digest completion))
  || negb (set_all (fun id => existsb (fun w => bool_decide (wp_id w = id)) (ms_work_products self))
             (co_work_product_ids completion))
  || negb (set_all (fun id => existsb (fun e => bool_decide (ef_id e = id)
                                                && bool_decide (ef_status e = EVerified)) (ms_effects self))
             (co_effect_ids completion))
  || is_some_and (fun route =>
       negb (is_contracted route)
       || negb (bool_decide (co_oracle_ids completion = rt_oracle_ids route))
       || negb (valid_application_checkpoint_evidence self definition checkpoint route completion)
       || (contains (rt_oracle_ids route) "work_product" && set_is_empty (co_work_product_ids completion))
       || bool_decide (rt_completion_policy route = Some CpEffectReadbackV2)
       || (bool_decide (rt_completion_policy route = Some CpVerifiedEffect)
           && set_is_empty (co_effect_ids completion))
       || negb (existsb (fun task => bool_decide (tk_status task = TRunning)
                                     && bool_decide (tk_capability task = rt_capability_id route))
                  (ms_tasks self)))
     (ck_route checkpoint).

Definition validated_checkpoint_completion_route (self : Mission) (checkpoint_id : string)
    (completion : MissionCheckpointCompletion) : result MissionError (option MissionCheckpointRoute) :=
  definition ← ok_or (ms_definition self) MissionDefinitionRequired;
  found ← ok_or (find_checkpoint (with_id checkpoint_id) (df_checkpoints definition))
    (MissionCheckpointNotFound checkpoint_id);
  reject_if (completion_is_invalid self definition found.2 completion)
    (InvalidCheckpointCompletion checkpoint_id);;
  mret (ck_route found.2).

Definition complete_route_tasks (route : option MissionCheckpointRoute) (tasks : list Task) : list Task :=
  match route with
  | None => tasks
  | Some route => (fun task =>
      if bool_decide (tk_status task = TRunning) && bool_decide (tk_capability task = rt_capability_id route)
      then task <| tk_status := TCompleted |> else task) <$> tasks
  end.

Definition is_next_pending (completed : gset string) (candidate : MissionCheckpoint) : bool :=
  bool_decide (ck_status candidate = CkPending)
  && set_all (contains completed) (ck_depends_on candidate).

Definition complete_checkpoint_validated (checkpoint_id : string)
    (completion : MissionCheckpointCompletion) : op unit :=
  require_stage [StVerifying];;
  self ← get;
  checkpoint_route ← lift (validated_checkpoint_completion_route self checkpoint_id completion);
  ensure_touchable;;
  found ← checkpoint_mut checkpoint_id;
  let '(definition, i, checkpoint) := found in
  reject (negb (bool_decide (ck_status checkpoint = CkVerifying))
    || is_none_or (fun started_at => co_verified_at completion <? started_at) (ck_started_at checkpoint))
    (InvalidCheckpointTransition (ck_id checkpoint) (ck_status checkpoint) CkCompleted);;
  let c1 := checkpoint <| ck_status := CkCompleted |> <| ck_completion := Some completion |>
                       <| ck_block := None |> in
  modify (set_checkpoint i c1);;
  revision ← lift (ok_or (checked_add u64_max (ck_revision checkpoint) 1) RevisionOverflow);
  let c2 := c1 <| ck_revision := revision |> in
  modify (fun self => set_checkpoint i c2 self <| ms_tasks ::= complete_route_tasks checkpoint_route |>);;
  let checkpoints := <[i := c2]> (df_checkpoints definition) in
  match find_checkpoint (is_next_pending (completed_ids checkpoints)) checkpoints with
  | Some (j, next) =>
    let next1 := next <| ck_status := CkReady |> in
    modify (set_checkpoint j next1);;
    revision ← lift (ok_or (checked_add u64_max (ck_revision next) 1) RevisionOverflow);
    modify (fun self => set_checkpoint j (next1 <| ck_revision := revision |>) self
                        <| ms_stage := StRunning |>)
  | None => modify (fun self => self <| ms_stage := StVerifying |>)
  end;;
  modify (touch (co_verified_at completion)).

Definition complete_checkpoint (checkpoint_id : string) (completion : MissionCheckpointCompletion)
    : op unit :=
  self ← get;
  reject (String.eqb checkpoint_id "replan_or_terminal" && manifest_is "VM-07" self)
    Vm07ReplanOrTerminalResolutionRequired;;
  reject (String.eqb checkpoint_id "channel_rebalance" && manifest_is "VM-04" self)
    Vm04ValidTerminalResolutionRequired;;
  reject (String.eqb checkpoint_id "next_contract_or_valid_terminal" && manifest_is "VM-11" self)
    Vm11NextContractResolutionRequired;;
  reject (String.eqb checkpoint_id "candidate_learning" && manifest_is "VM-11" self)
    Vm11CandidateLearningTerminalResolutionRequired;;
  complete_checkpoint_validated checkpoint_id completion.

Definition block_checkpoint (checkpoint_id : string) (block : MissionBlock) (waiting_stage : MissionStage)
    : op unit :=
  reject (negb (bool_decide (waiting_stage ∈ [StBlocked; StWaitingUser; StWaitingApproval]))
    || trim_is_empty (mb_code block) || trim_is_empty (mb_detail block)) InvalidBlock;;
  require_stage [StRunning; StVerifying];;
  ensure_touchable;;
  found ← checkpoint_mut checkpoint_id;
  let '(definition, i, checkpoint) := found in
  status ← lift (checkpoint_status_for_mission_stage waiting_stage);
  reject (negb (bool_decide (ck_status checkpoint ∈ [CkRunning; CkVerifying])))
    (InvalidCheckpointTransition (ck_id checkpoint) (ck_status checkpoint) status);;
  let c1 := checkpoint <| ck_status := status |> <| ck_block := Some block |> in
  modify (set_checkpoint i c1);;
  revision ← lift (ok_or (checked_add u64_max (ck_revision checkpoint) 1) RevisionOverflow);
  modify (fun self => touch (mb_observed_at block)
    (set_checkpoint i (c1 <| ck_revision := revision |>) self
     <| ms_block := Some block |> <| ms_stage := waiting_stage |>)).

(** ** Effects *)
Definition validate_effect_spec (self : Mission) (spec : EffectSpec) (now : DateTime)
    : result MissionError unit :=
  reject_if (contains (oc_forbidden_capabilities (ms_contract self)) (es_capability spec)
    || negb (contains (oc_enabled_capabilities (ms_contract self)) (es_capability spec)))
    (CapabilityNotEnabled (es_capability spec));;
  reject_if (trim_is_empty (es_idempotency_key spec)) EmptyIdempotencyKey;;
  reject_if (amount_minor (es_amount spec) <? 0) NegativeCostLimit;;
  reject_if (bool_decide (es_effect_class spec = Payment) && negb (is_positive (es_amount spec)))
    PaymentAmountNotPositive;;
  reject_if (bool_decide (es_effect_class spec = Payment)
    && (is_none (es_connection_id spec) || is_none (es_account_id spec))) InvalidEffectScope;;
  validate_effect_connection_scope spec;;
  validate_effect_content_scope spec now;;
  validate_effect_consent_scope spec;;
  reject_if (existsb (fun effect => bool_decide (ef_idempotency_key effect = es_idempotency_key spec))
               (ms_effects self)) (DuplicateIdempotencyKey (es_idempotency_key spec)).

Definition effect_of_spec (self : Mission) (spec : EffectSpec) : Effect := {|
  ef_tenant_id := ms_tenant_id self;
  ef_project_id := ms_project_id self;
  ef_mission_id := ms_id self;
  ef_spec := spec;
  ef_status := EProposed;
  ef_approval := None;
  ef_receipt := None;
  ef_verification := None;
|}.

Definition propose_effect (spec : EffectSpec) (now : DateTime) : op Id :=
  require_stage [StRunning; StWaitingApproval];;
  self ← get;
  lift (validate_effect_spec self spec now);;
  ensure_touchable;;
  modify (fun self => self <| ms_effects ::= fun l => l ++ [effect_of_spec self spec] |>);;
  (if is_some (ms_definition self) then
     let block := {|
       mb_code := "effect_approval_required";
       mb_detail := String.append "effect " (String.append (es_id spec)
                      " requires an exact, time-bounded approval");
       mb_recoverable := true;
       mb_observed_at := now |} in
     set_catalog_checkpoint_status CkWaitingApproval (Some block);;
     modify (fun self => self <| ms_block := Some block |>)
   else mret tt);;
  modify (fun self => touch now (self <| ms_stage := StWaitingApproval |>));;
  mret (es_id spec).

Definition approval_valid_until (self : Mission) (effect_id : Id) (decided_at : DateTime)
    : result MissionError DateTime :=
  effect ← effect self effect_id;
  validity_seconds ← ok_or (i64_try_from (ap_validity_seconds (oc_approval_policy (ms_contract self))))
    InvalidApproval;
  validity ← expect (duration_seconds validity_seconds);
  policy_deadline ← ok_or (checked_add_signed decided_at validity) InvalidApproval;
  let valid_until := Z.min (Z.min policy_deadline (ef_expires_at effect))
                           (oc_valid_until (ms_contract self)) in
  reject_if ((validity_seconds <=? 0) || (valid_until <=? decided_at)) InvalidApproval;;
  mret valid_until.

(** After an approval or a cancellation: wait while an effect is still
    proposed, run again otherwise. *)
Definition settle_decision_stage (now : DateTime) : op unit :=
  modify (fun self => self <| ms_stage :=
    if existsb (fun effect => bool_decide (ef_status effect = EProposed)) (ms_effects self)
    then StWaitingApproval else StRunning |>);;
  self ← get;
  (if is_some (ms_definition self) && bool_decide (ms_stage self = StRunning) then
     set_catalog_checkpoint_status CkRunning None;;
     modify (fun self => self <| ms_block := None |>)
   else mret tt);;
  modify (touch now).

Definition approve_effect (effect_id : Id) (approval : Approval) : op unit :=
  ensure_touchable;;
  self ← get;
  expected_valid_until ← lift (approval_valid_until self effect_id (apr_decided_at approval));
  found ← effect_mut effect_id;
  let '(i, effect) := found in
  reject (negb (bool_decide (ef_status effect = EProposed)))
    (InvalidEffectTransition (ef_status effect) EApproved);;
  reject (negb (bool_decide (apr_scope_digest approval = approval_digest effect))) ApprovalScopeChanged;;
  reject (trim_is_empty (apr_id approval)
    || negb (is_sha256 (apr_permission_digest approval))
    || (ef_expires_at effect <=? apr_decided_at approval)
    || negb (apr_valid_until approval =? expected_valid_until)) InvalidApproval;;
  modify (set_effect i (effect
    <| ef_status := if bool_decide (apr_decision approval = ADRejected) then ERejected else EApproved |>
    <| ef_approval := Some approval |>));;
  settle_decision_stage (apr_decided_at approval).

Definition cancel_effect (effect_id : Id) (now : DateTime) : op unit :=
  ensure_touchable;;
  found ← effect_mut effect_id;
  let '(i, effect) := found in
  reject (negb (bool_decide (ef_status effect ∈ [EProposed; EApproved])))
    (InvalidEffectTransition (ef_status effect) ECancelled);;
  modify (set_effect i (effect <| ef_status := ECancelled |>));;
  settle_decision_stage now.

Definition begin_effect (effect_id : Id) (now : DateTime) : op unit :=
  ensure_touchable;;
  found ← effect_mut effect_id;
  let '(i, effect) := found in
  reject (negb (bool_decide (ef_status effect = EApproved)))
    (InvalidEffectTransition (ef_status effect) EExecuting);;
  approval ← lift (ok_or (ef_approval effect) MissingApproval);
  reject (negb (bool_decide (apr_scope_digest approval = approval_digest effect))) ApprovalScopeChanged;;
  if apr_valid_until approval <=? now then
    modify (set_effect i (effect <| ef_status := EExpired |>));; fail ApprovalExpired
  else if ef_expires_at effect <=? now then
    modify (set_effect i (effect <| ef_status := EExpired |>));; fail EffectExpired
  else
    modify (fun self => touch now (set_effect i (effect <| ef_status := EExecuting |>) self
                                   <| ms_stage := StRunning |>)).

Definition record_receipt (effect_id : Id) (receipt : Receipt) : op unit :=
  ensure_touchable;;
  found ← effect_mut effect_id;
  let '(i, effect) := found in
  reject (negb (bool_decide (ef_status effect = EExecuting)))
    (InvalidEffectTransition (ef_status effect) EReceiptRecorded);;
  lift (validate_receipt_scope effect receipt);;
  modify (fun self => set_effect i (effect <| ef_receipt := Some receipt |>
                                           <| ef_status := EReceiptRecorded |>) self
                      <| ms_stage := StVerifying |>);;
  set_catalog_checkpoint_status CkVerifying None;;
  modify (touch (rc_accepted_at receipt)).

Definition reconcile_durable_receipt (effect_id : Id) (receipt : Receipt)
    (execution_started_at : DateTime) : op unit :=
  ensure_touchable;;
  found ← effect_mut effect_id;
  let '(i, effect) := found in
  reject (negb (bool_decide (ef_status effect
            ∈ [EApproved; EExecuting; EReceiptRecorded; EVerificationRequired])))
    (InvalidEffectTransition (ef_status effect) EReceiptRecorded);;
  approval ← lift (ok_or (ef_approval effect) MissingApproval);
  reject (negb (durable_execution_start_is_valid effect approval execution_started_at)
    || (rc_accepted_at receipt <? execution_started_at)) DurableReceiptRecoveryMismatch;;
  lift (validate_receipt_scope effect receipt);;
  if bool_decide (ef_status effect = EReceiptRecorded) then
    reject (negb (bool_decide (ef_receipt effect = Some receipt))) DurableReceiptRecoveryMismatch
  else
    modify (fun self => touch (rc_accepted_at receipt)
      (set_effect i (effect <| ef_receipt := Some receipt |> <| ef_status := EReceiptRecorded |>) self
       <| ms_stage := StVerifying |>)).

Definition durable_target (durable_state : DurableProviderState) : EffectStatus :=
  match durable_state with
  | DpRejected => EFailed
  | DpUncertain => EVerificationRequired
  | DpReconciledNotExecuted => EReconciled
  | DpDeadLetter => EDeadLetter
  end.
Definition durable_sources (durable_state : DurableProviderState) : list EffectStatus :=
  match durable_state with
  | DpRejected => [EApproved; EExecuting; EVerificationRequired; EFailed]
  | DpUncertain => [EApproved; EExecuting; EVerificationRequired]
  | DpReconciledNotExecuted => [EApproved; EExecuting; EVerificationRequired; EReconciled]
  | DpDeadLetter => [EVerificationRequired; EDeadLetter]
  end.
Definition durable_block (durable_state : DurableProviderState) (effect_id : Id)
    (recorded_at : DateTime) : option MissionBlock :=
  let blocked code detail :=
    Some (mkBlock code (String.append "effect " (String.append effect_id detail)) true recorded_at) in
  match durable_state with
  | DpRejected =>
    blocked "effect_failed" " requires recovery or an explicit terminal decision"
  | DpUncertain => None
  | DpReconciledNotExecuted =>
    blocked "effect_reconciled_not_executed"
      " was independently reconciled as not executed; any retry requires a new exact effect and approval"
  | DpDeadLetter =>
    blocked "effect_reconciliation_dead_letter"
      " exhausted bounded reconciliation and requires explicit support review"
  end.

Definition reconcile_durable_provider_state (effect_id : Id) (durable_state : DurableProviderState)
    (execution_started_at recorded_at : DateTime) : op unit :=
  ensure_touchable;;
  let target := durable_target durable_state in
  found ← effect_mut effect_id;
  let '(i, effect) := found in
  reject (negb (bool_decide (ef_status effect ∈ durable_sources durable_state)))
    (InvalidEffectTransition (ef_status effect) target);;
  approval ← lift (ok_or (ef_approval effect) MissingApproval);
  reject (negb (durable_execution_start_is_valid effect approval execution_started_at)
    || (recorded_at <? execution_started_at)) DurableProviderRecoveryMismatch;;
  if bool_decide (ef_status effect = target) then mret tt else
  modify (fun self =>
    let self1 := set_effect i (effect <| ef_status := target |>) self in
    touch recorded_at
      match durable_block durable_state effect_id recorded_at with
      | Some block => self1 <| ms_stage := StBlocked |> <| ms_block := Some block |>
      | None => self1 <| ms_stage := StVerifying |>
      end).

Definition mark_effect_uncertain (effect_id : Id) (now : DateTime) : op unit :=
  ensure_touchable;;
  found ← effect_mut effect_id;
  let '(i, effect) := found in
  reject (negb (bool_decide (ef_status effect ∈ [EExecuting; EReceiptRecorded])))
    (InvalidEffectTransition (ef_status effect) EVerificationRequired);;
  modify (fun self => set_effect i (effect <| ef_status := EVerificationRequired |>) self
                      <| ms_stage := StVerifying |>);;
  set_catalog_checkpoint_status CkVerifying None;;
  modify (touch now).

Definition mark_effect_failed (effect_id : Id) (now : DateTime) : op unit :=
  ensure_touchable;;
  found ← effect_mut effect_id;
  let '(i, effect) := found in
  reject (negb (bool_decide (ef_status effect = EExecuting)))
    (InvalidEffectTransition (ef_status effect) EFailed);;
  modify (fun self => set_effect i (effect <| ef_status := EFailed |>) self <| ms_stage := StBlocked |>);;
  let block := mkBlock "effect_failed" (String.append "effect " (String.append effect_id
                 " requires recovery or an explicit terminal decision")) true now in
  set_catalog_checkpoint_status CkBlocked (Some block);;
  modify (fun self => touch now (self <| ms_block := Some block |>)).

Definition verification_target (status : VerificationStatus) : EffectStatus :=
  match status with
  | VConfirmed => EVerified
  | VRejected => EFailed
  | VInconclusive => EVerificationRequired
  end.

Definition record_verification (effect_id : Id) (verification : Verification) : op unit :=
  ensure_touchable;;
  let now := vf_observed_at verification in
  found ← effect_mut effect_id;
  let '(i, effect) := found in
  reject (negb (bool_decide (ef_status effect ∈ [EReceiptRecorded; EVerificationRequired])))
    (InvalidEffectTransition (ef_status effect) EVerified);;
  receipt ← lift (ok_or (ef_receipt effect) VerificationReceiptMismatch);
  reject (negb (bool_decide (rc_id receipt = vf_receipt_id verification))
    || trim_is_empty (vf_verifier verification)
    || negb (vf_independent verification)
    || negb (is_sha256 (vf_evidence_digest verification))
    || (vf_observed_at verification <? rc_accepted_at receipt)) VerificationReceiptMismatch;;
  modify (set_effect i (effect <| ef_status := verification_target (vf_status verification) |>
                               <| ef_verification := Some verification |>));;
  modify (fun self => self <| ms_stage :=
    if existsb (fun item => bool_decide (ef_status item = EFailed)) (ms_effects self)
    then StBlocked else StVerifying |>);;
  self ← get;
  (if bool_decide (ms_stage self = StBlocked) then
     let block := mkBlock "verification_rejected"
       "independent verification rejected at least one provider effect" true now in
     set_catalog_checkpoint_status CkBlocked (Some block);;
     modify (fun self => self <| ms_block := Some block |>)
   else set_catalog_checkpoint_status CkVerifying None);;
  modify (touch now).

Definition continue_after_verified_effect (effect_id : Id) (now : DateTime) : op unit :=
  require_stage [StVerifying];;
  self ← get;
  named ← lift (effect self effect_id);
  reject (negb (bool_decide (ef_status named = EVerified))
    || existsb (fun effect => effect_is_pending (ef_status effect)
                              || bool_decide (ef_status effect = EFailed)) (ms_effects self))
    JourneyContinuationNotReady;;
  ensure_touchable;;
  modify (fun self => self <| ms_stage := StRunning |>);;
  set_catalog_checkpoint_status CkRunning None;;
  modify (touch now).

(** ** Outcomes, blocks and termination *)
Definition record_outcome (outcome : Outcome) : op unit :=
  require_stage [StRunning; StVerifying; StCycleReviewed];;
  self ← get;
  reject (trim_is_empty (ou_summary outcome)
    || is_some_and (fun previous => ou_observed_at outcome <=? ou_observed_at previous)
         (last (ms_outcome_history self))
    || existsb (fun effect => effect_is_pending (ef_status effect)) (ms_effects self)
    || is_some_and (fun definition =>
         negb (forallb (fun c => ck_is_terminal (ck_status c)) (df_checkpoints definition)))
         (ms_definition self)) InvalidOutcome;;
  ensure_touchable;;
  next_stage ← lift (next_stage_after_outcome (ms_contract self) (ou_decision outcome)
                       (ou_observed_at outcome));
  modify (fun self => touch (ou_observed_at outcome)
    (self <| ms_outcome_history ::= fun l => l ++ [outcome] |>
          <| ms_outcome := Some outcome |>
          <| ms_stage := next_stage |>
          <| ms_block := None |>
          <| ms_tasks ::= fmap (fun task =>
               if bool_decide (tk_status task = TCancelled) then task
               else task <| tk_status := TCompleted |>) |>)).

Definition block (b : MissionBlock) (waiting_stage : MissionStage) : op unit :=
  self ← get;
  reject (stage_is_terminal (ms_stage self)
    || negb (bool_decide (waiting_stage ∈ [StBlocked; StWaitingUser; StWaitingApproval]))
    || trim_is_empty (mb_code b) || trim_is_empty (mb_detail b)) InvalidBlock;;
  ensure_touchable;;
  (if is_some (ms_definition self) then
     status ← lift (checkpoint_status_for_mission_stage waiting_stage);
     set_catalog_checkpoint_status status (Some b)
   else mret tt);;
  modify (fun self => touch (mb_observed_at b)
    (self <| ms_block := Some b |> <| ms_stage := waiting_stage |>)).

Definition resume (now : DateTime) : op unit :=
  require_stage [StBlocked; StWaitingUser];;
  self ← get;
  reject (is_some_and (fun b => negb (mb_recoverable b)) (ms_block self)) BlockNotRecoverable;;
  ensure_touchable;;
  set_catalog_checkpoint_status CkRunning None;;
  modify (fun self => touch now (self <| ms_block := None |> <| ms_stage := StRunning |>)).

Definition disposition_stage (disposition : MissionTerminalDisposition) : MissionStage :=
  match disposition with
  | DCompleted => StCompleted
  | DPartial => StPartial
  | DExpectedRefusal => StExpectedRefusal
  | DFailed => StFailed
  | DCancelled => StCancelled
  end.

Definition terminate (disposition : MissionTerminalDisposition) (now : DateTime) : op unit :=
  self ← get;
  reject (stage_is_terminal (ms_stage self)) AlreadyTerminal;;
  reject (bool_decide (disposition = DCompleted) && manifest_is "VM-04" self
    && negb (vm04_valid_terminal_is_typed self)) Vm04ValidTerminalResolutionRequired;;
  reject (bool_decide (disposition = DCompleted) && manifest_is "VM-11" self
    && negb (vm11_valid_terminal_is_typed self)) Vm11ValidTerminalResolutionRequired;;
  ensure_touchable;;
  let stage := disposition_stage disposition in
  modify (fun self => touch now
    (self <| ms_stage := stage |> <| ms_block := None |>
          <| ms_tasks ::= fmap (fun task => task <| tk_status :=
               if bool_decide (stage = StCancelled) then TCancelled else TCompleted |>) |>)).

(** The typed VM terminals work on a clone and publish it only at the end. *)
Definition complete_typed_terminal (checkpoint_id : string) (is_typed : Mission -> bool)
    (e : MissionError) (completion : MissionCheckpointCompletion) : op unit :=
  on_clone (
    complete_checkpoint_validated checkpoint_id completion;;
    resolved ← get;
    reject (negb (is_typed resolved)) e;;
    terminate DCompleted (co_verified_at completion)).
Definition complete_vm04_channel_rebalance_terminal : MissionCheckpointCompletion -> op unit :=
  complete_typed_terminal "channel_rebalance" vm04_valid_terminal_is_typed
    Vm04ValidTerminalResolutionRequired.
Definition complete_vm07_replan_or_terminal_terminal : MissionCheckpointCompletion -> op unit :=
  complete_typed_terminal "replan_or_terminal" vm07_replan_or_terminal_valid_terminal_is_typed
    Vm07ReplanOrTerminalResolutionRequired.
Definition complete_vm11_candidate_learning_terminal : MissionCheckpointCompletion -> op unit :=
  complete_typed_terminal "candidate_learning" vm11_candidate_learning_valid_terminal_is_typed
    Vm11CandidateLearningTerminalResolutionRequired.

Definition skip_vm11_candidate_learning : op unit :=
  found ← checkpoint_mut "candidate_learning";
  let '(definition, i, candidate) := found in
  reject (negb (bool_decide (ck_status candidate = CkReady))
    || is_some (ck_completion candidate) || is_some (ck_block candidate))
    Vm11ValidTerminalResolutionRequired;;
  let c1 := candidate <| ck_status := CkSkipped |> in
  modify (set_checkpoint i c1);;
  revision ← lift (ok_or (checked_add u64_max (ck_revision candidate) 1) RevisionOverflow);
  modify (set_checkpoint i (c1 <| ck_revision := revision |>)).

Definition complete_vm11_next_contract_resolution (resolution : OutcomeReviewNextContractResolution)
    (completion : MissionCheckpointCompletion) : op unit :=
  self ← get;
  lift (validate_vm11_next_contract_completion_sources self resolution completion);;
  on_clone (
    complete_checkpoint_validated "next_contract_or_valid_terminal" completion;;
    if bool_decide (nr_next_contract_intent resolution = ValidTerminal) then
      lift (validate_vm11_stop_resolution resolution);;
      skip_vm11_candidate_learning;;
      terminate DCompleted (nr_resolved_at resolution)
    else lift (validate_vm11_continue_resolution resolution)).

End mission.
