(* ===== verification/MissionMachine.v ===== *)
(** * Commands on a Mission, and the effect machine they refine

    [exec] dispatches every operation of [impl Mission]. [effect_step] is the
    abstract life cycle of one effect; [exec_evolves] shows that whatever a
    command does, succeed or fail, it moves at most one effect and only along
    that life cycle. *)
From S2P Require Import Prelude Money Contract MissionTypes WorkProduct Effect Checkpoint.
From S2P Require Import Terminal Mission.

Inductive Command : Type :=
| StartResearch (tasks : list Task) (now : DateTime)
| StartScheduledCycle (cycle : Z) (tasks : list Task) (now : DateTime)
| RecordEvidence (evidence : Evidence) (now : DateTime)
| RecordWorkProduct (work_product : WorkProduct) (now : DateTime)
| ReviseWorkProduct (work_product : WorkProduct) (now : DateTime)
| BeginCheckpoint (checkpoint_id : string) (now : DateTime)
| BeginCheckpointWithTask (checkpoint_id : string) (task : Task) (now : DateTime)
| BeginCheckpointVerification (checkpoint_id : string) (now : DateTime)
| CompleteCheckpoint (checkpoint_id : string) (completion : MissionCheckpointCompletion)
| CompleteVm04ChannelRebalance (completion : MissionCheckpointCompletion)
| CompleteVm07ReplanOrTerminal (completion : MissionCheckpointCompletion)
| CompleteVm11CandidateLearning (completion : MissionCheckpointCompletion)
| CompleteVm11NextContract (resolution : OutcomeReviewNextContractResolution)
    (completion : MissionCheckpointCompletion)
| BlockCheckpoint (checkpoint_id : string) (b : MissionBlock) (waiting_stage : MissionStage)
| ProposeEffect (spec : EffectSpec) (now : DateTime)
| ApproveEffect (effect_id : Id) (approval : Approval)
| CancelEffect (effect_id : Id) (now : DateTime)
| BeginEffect (effect_id : Id) (now : DateTime)
| RecordReceipt (effect_id : Id) (receipt : Receipt)
| ReconcileDurableReceipt (effect_id : Id) (receipt : Receipt) (execution_started_at : DateTime)
| ReconcileDurableProviderState (effect_id : Id) (durable_state : DurableProviderState)
    (execution_started_at recorded_at : DateTime)
| MarkEffectUncertain (effect_id : Id) (now : DateTime)
| MarkEffectFailed (effect_id : Id) (now : DateTime)
| RecordVerification (effect_id : Id) (verification : Verification)
| ContinueAfterVerifiedEffect (effect_id : Id) (now : DateTime)
| RecordOutcome (outcome : Outcome)
| Block (b : MissionBlock) (waiting_stage : MissionStage)
| Resume (now : DateTime)
| Terminate (disposition : MissionTerminalDisposition) (now : DateTime).

Section machine.
Context `{Chrono} `{Sha256} `{SerdeScope}.

Definition exec (c : Command) : SR Mission MissionError unit :=
  match c with
  | StartResearch tasks now => start_research tasks now
  | StartScheduledCycle cycle tasks now => start_scheduled_cycle cycle tasks now
  | RecordEvidence evidence now => record_evidence evidence now
  | RecordWorkProduct work_product now => record_work_product work_product now
  | ReviseWorkProduct work_product now => revise_work_product work_product now
  | BeginCheckpoint id now => begin_checkpoint id now
  | BeginCheckpointWithTask id task now => begin_checkpoint_with_task id task now
  | BeginCheckpointVerification id now => begin_checkpoint_verification id now
  | CompleteCheckpoint id completion => complete_checkpoint id completion
  | CompleteVm04ChannelRebalance completion => complete_vm04_channel_rebalance_terminal completion
  | CompleteVm07ReplanOrTerminal completion => complete_vm07_replan_or_terminal_terminal completion
  | CompleteVm11CandidateLearning completion => complete_vm11_candidate_learning_terminal completion
  | CompleteVm11NextContract resolution completion =>
      complete_vm11_next_contract_resolution resolution completion
  | BlockCheckpoint id b stage => block_checkpoint id b stage
  | ProposeEffect spec now => propose_effect spec now;; mret tt
  | ApproveEffect id approval => approve_effect id approval
  | CancelEffect id now => cancel_effect id now
  | BeginEffect id now => begin_effect id now
  | RecordReceipt id receipt => record_receipt id receipt
  | ReconcileDurableReceipt id receipt started => reconcile_durable_receipt id receipt started
  | ReconcileDurableProviderState id state started recorded =>
      reconcile_durable_provider_state id state started recorded
  | MarkEffectUncertain id now => mark_effect_uncertain id now
  | MarkEffectFailed id now => mark_effect_failed id now
  | RecordVerification id verification => record_verification id verification
  | ContinueAfterVerifiedEffect id now => continue_after_verified_effect id now
  | RecordOutcome outcome => record_outcome outcome
  | Block b stage => block b stage
  | Resume now => resume now
  | Terminate disposition now => terminate disposition now
  end.

(** When the approval policy of the contract lets a decision lapse. *)
Definition policy_deadline (contract : OperatingContract) (decided_at deadline : DateTime) : Prop :=
  exists validity,
    duration_seconds (ap_validity_seconds (oc_approval_policy contract)) = Some validity /\
    checked_add_signed decided_at validity = Some deadline.

(** ** The life cycle of one effect *)
Inductive effect_step (contract : OperatingContract) (e : Effect) : Effect -> Prop :=
| step_decide a deadline :
    ef_status e = EProposed ->
    apr_scope_digest a = approval_digest e -> is_sha256 (apr_permission_digest a) = true ->
    policy_deadline contract (apr_decided_at a) deadline -> apr_decided_at a < apr_valid_until a ->
    apr_valid_until a = Z.min (Z.min deadline (ef_expires_at e)) (oc_valid_until contract) ->
    effect_step contract e
      (e <| ef_status := if bool_decide (apr_decision a = ADRejected) then ERejected else EApproved |>
         <| ef_approval := Some a |>)
| step_cancel :
    ef_status e ∈ [EProposed; EApproved] ->
    effect_step contract e (e <| ef_status := ECancelled |>)
| step_expire a now :
    ef_status e = EApproved -> ef_approval e = Some a ->
    apr_valid_until a <= now \/ ef_expires_at e <= now ->
    effect_step contract e (e <| ef_status := EExpired |>)
| step_begin a now :
    ef_status e = EApproved -> ef_approval e = Some a ->
    apr_scope_digest a = approval_digest e ->
    now < apr_valid_until a -> now < ef_expires_at e ->
    effect_step contract e (e <| ef_status := EExecuting |>)
| step_receipt r :
    ef_status e = EExecuting -> validate_receipt_scope e r = Ok tt ->
    effect_step contract e (e <| ef_receipt := Some r |> <| ef_status := EReceiptRecorded |>)
| step_durable_receipt r a started :
    ef_status e ∈ [EApproved; EExecuting; EVerificationRequired] -> ef_approval e = Some a ->
    durable_execution_start_is_valid e a started = true -> started <= rc_accepted_at r ->
    validate_receipt_scope e r = Ok tt ->
    effect_step contract e (e <| ef_receipt := Some r |> <| ef_status := EReceiptRecorded |>)
| step_durable_state ds a started :
    ef_status e ∈ durable_sources ds -> ef_status e <> durable_target ds ->
    ef_approval e = Some a -> durable_execution_start_is_valid e a started = true ->
    effect_step contract e (e <| ef_status := durable_target ds |>)
| step_uncertain :
    ef_status e ∈ [EExecuting; EReceiptRecorded] ->
    effect_step contract e (e <| ef_status := EVerificationRequired |>)
| step_failed :
    ef_status e = EExecuting ->
    effect_step contract e (e <| ef_status := EFailed |>)
| step_verify r v :
    ef_status e ∈ [EReceiptRecorded; EVerificationRequired] -> ef_receipt e = Some r ->
    rc_id r = vf_receipt_id v -> vf_independent v = true ->
    trim_is_empty (vf_verifier v) = false -> is_sha256 (vf_evidence_digest v) = true ->
    rc_accepted_at r <= vf_observed_at v ->
    effect_step contract e
      (e <| ef_status := verification_target (vf_status v) |> <| ef_verification := Some v |>).

(** What a command, successful or not, does to the effects of a Mission. *)
Inductive evolves (m : Mission) : list Effect -> Prop :=
| evolves_same : evolves m (ms_effects m)
| evolves_propose spec now :
    validate_effect_spec m spec now = Ok tt ->
    evolves m (ms_effects m ++ [effect_of_spec m spec])
| evolves_step i e e' :
    ms_effects m !! i = Some e -> effect_step (ms_contract m) e e' ->
    evolves m (<[i := e']> (ms_effects m)).

(** The parts of a Mission no command ever changes. *)
Definition frame (m : Mission) : Id * Id * Id * OperatingContract * DateTime :=
  (ms_tenant_id m, ms_project_id m, ms_id m, ms_contract m, ms_created_at m).
Definition frame_and_effects (m : Mission) := (frame m, ms_effects m).

Definition moves (m m' : Mission) : Prop := frame m' = frame m /\ evolves m (ms_effects m').

Lemma moves_refl m : moves m m.
Proof. split; [done|constructor]. Qed.

Lemma moves_preserves {A} (m : SR Mission MissionError A) s0 s :
  Preserves frame_and_effects m -> moves s0 s -> moves s0 (run m s).2.
Proof.
  intros Hm [Hf He]. specialize (Hm s).
  pose proof (f_equal fst Hm) as Hframe. pose proof (f_equal snd Hm) as Heff. cbn in *.
  split; [congruence|by rewrite Heff].
Qed.

(** Read-only and effect-preserving building blocks. *)
#[export] Instance require_stage_read_only l : ReadOnly (require_stage l).
Proof. unfold require_stage. apply _. Qed.
#[export] Instance ensure_touchable_read_only : ReadOnly ensure_touchable.
Proof. unfold ensure_touchable. apply _. Qed.
#[export] Instance effect_mut_read_only id : ReadOnly (effect_mut id).
Proof. unfold effect_mut. apply _. Qed.
#[export] Instance checkpoint_mut_read_only id : ReadOnly (checkpoint_mut id).
Proof. unfold checkpoint_mut. apply _. Qed.
#[export] Instance require_known_evidence_read_only w : ReadOnly (require_known_evidence w).
Proof. unfold require_known_evidence. apply _. Qed.
#[export] Instance validate_tasks_read_only tasks : ReadOnly (validate_tasks_for_definition tasks).
Proof. unfold validate_tasks_for_definition. apply _. Qed.

Lemma on_definition_preserves {A X} (f : Mission -> X) d (m : SR MissionDefinition MissionError A) :
  (forall s d', f (s <| ms_definition := Some d' |>) = f s) -> Preserves f (on_definition d m).
Proof. intros Hf s. unfold on_definition; cbn. destruct (run m d) as [r d']. apply Hf. Qed.
#[local] Hint Extern 5 (Preserves _ (on_definition _ _)) =>
  (apply on_definition_preserves; intros; reflexivity) : typeclass_instances.

Lemma run_on_definition {A} (d : MissionDefinition) (f : SR MissionDefinition MissionError A) (s : Mission) a s' :
  run (on_definition d f) s = (Ok a, s') ->
  exists d', run f d = (Ok a, d') /\ s' = s <| ms_definition := Some d' |>.
Proof.
  unfold on_definition; cbn [run]. destruct (run f d) as [r d'] eqn:Hf. intros Hr.
  exists d'. by simplify_eq.
Qed.

(** The operations that never touch an effect. *)
#[export] Instance set_catalog_preserves st b :
  Preserves frame_and_effects (set_catalog_checkpoint_status st b).
Proof. unfold set_catalog_checkpoint_status. apply _. Qed.
#[export] Instance begin_checkpoint_transition_preserves id now :
  Preserves frame_and_effects (begin_checkpoint_transition id now).
Proof. unfold begin_checkpoint_transition. apply _. Qed.
#[export] Instance complete_checkpoint_validated_preserves id c :
  Preserves frame_and_effects (complete_checkpoint_validated id c).
Proof. unfold complete_checkpoint_validated. apply _. Qed.
#[export] Instance terminate_preserves d now : Preserves frame_and_effects (terminate d now).
Proof. unfold terminate. apply _. Qed.
#[export] Instance skip_candidate_preserves : Preserves frame_and_effects skip_vm11_candidate_learning.
Proof. unfold skip_vm11_candidate_learning. apply _. Qed.
#[export] Instance settle_decision_stage_preserves now :
  Preserves frame_and_effects (settle_decision_stage now).
Proof. unfold settle_decision_stage. apply _. Qed.

(** Symbolic execution up to the first update, collecting the guards. *)
Ltac walk :=
  repeat (apply walk_read_only; [apply _|apply moves_refl|];
          let r := fresh "r" in let Hr := fresh "Hr" in intros r Hr;
          inv_ok; try match goal with
                      | p : (_ * _)%type |- _ => destruct p
                      | u : unit |- _ => destruct u
                      end).
Ltac untouched := apply moves_preserves; [apply _|apply moves_refl].

Lemma set_effect_moves m m' i e e' :
  ms_effects m !! i = Some e -> effect_step (ms_contract m) e e' ->
  frame m' = frame m -> ms_effects m' = <[i := e']> (ms_effects m) ->
  moves m m'.
Proof. intros Hi Hs Hf He. split; [done|]. rewrite He. by econstructor. Qed.

Lemma moves_bind {A B} (m : SR Mission MissionError A) (k : A -> SR Mission MissionError B) s :
  moves s (run m s).2 -> (forall a, Preserves frame_and_effects (k a)) -> moves s (run (m ≫= k) s).2.
Proof.
  intros Hm Hk. unfold mbind, SR_mbind; cbn.
  destruct (run m s) as [[a|e|] s1]; cbn in *; [by apply moves_preserves|done..].
Qed.

Lemma effect_mut_Ok id m i e t :
  run (effect_mut id) m = (Ok (i, e), t) ->
  ms_effects m !! i = Some e /\ ef_id e = id /\ effect m id = Ok e.
Proof.
  unfold effect_mut. intros Hr. inv_ok.
  match goal with Hf : list_find _ _ = _ |- _ => rename Hf into Hfind end.
  unfold effect. rewrite Hfind.
  by apply list_find_Some in Hfind as (Hi & Hid & _).
Qed.

Lemma approval_valid_until_Ok m id decided v :
  approval_valid_until m id decided = Ok v ->
  exists e deadline, effect m id = Ok e /\ policy_deadline (ms_contract m) decided deadline /\
    decided < v /\ v = Z.min (Z.min deadline (ef_expires_at e)) (oc_valid_until (ms_contract m)).
Proof.
  unfold approval_valid_until. intros Hv. inv_ok. split_guards.
  match goal with Hx : i64_try_from _ = _ |- _ => unfold i64_try_from in Hx; case_match; simplify_eq end.
  eexists _, _. split_and!; [done|by eexists|lia|done].
Qed.

(** Finishes a command that has walked to its update of one effect. *)
Tactic Notation "step_effect" uconstr(rule) :=
  lazymatch goal with
  | Hr : run (effect_mut _) _ = (Ok (?i, ?e), _) |- _ =>
    let Hi := fresh "Hi" in
    pose proof (effect_mut_Ok _ _ _ _ _ Hr) as (Hi & ? & ?);
    eapply (set_effect_moves _ _ i e _ Hi); [|reflexivity|reflexivity];
    split_guards; eapply rule; eauto
  end.

Lemma approve_effect_moves id a m : moves m (run (approve_effect id a) m).2.
Proof.
  unfold approve_effect. walk. rewrite run_modify_bind. apply moves_preserves; [apply _|].
  match goal with Hv : approval_valid_until _ _ _ = Ok _ |- _ =>
    apply approval_valid_until_Ok in Hv as (e' & deadline & ? & ? & ? & ?) end.
  step_effect (step_decide _ _ a deadline); assert (e' = e) by congruence; subst; lia.
Qed.

Lemma cancel_effect_moves id now m : moves m (run (cancel_effect id now) m).2.
Proof.
  unfold cancel_effect. walk. rewrite run_modify_bind. apply moves_preserves; [apply _|].
  step_effect step_cancel.
Qed.

Lemma begin_effect_moves id now m : moves m (run (begin_effect id now) m).2.
Proof.
  unfold begin_effect. walk. repeat case_match; rewrite ?run_modify_bind; cbn [run fail modify snd].
  - step_effect (step_expire _ _ _ now). lia.
  - step_effect (step_expire _ _ _ now). lia.
  - step_effect (step_begin _ _ _ now); lia.
Qed.

Lemma record_receipt_moves id r m : moves m (run (record_receipt id r) m).2.
Proof.
  unfold record_receipt. walk. rewrite run_modify_bind. apply moves_preserves; [apply _|].
  step_effect step_receipt.
Qed.

Lemma mark_effect_uncertain_moves id now m : moves m (run (mark_effect_uncertain id now) m).2.
Proof.
  unfold mark_effect_uncertain. walk. rewrite run_modify_bind. apply moves_preserves; [apply _|].
  step_effect step_uncertain.
Qed.

Lemma mark_effect_failed_moves id now m : moves m (run (mark_effect_failed id now) m).2.
Proof.
  unfold mark_effect_failed. walk. rewrite run_modify_bind. apply moves_preserves; [apply _|].
  step_effect step_failed.
Qed.

Lemma record_verification_moves id v m : moves m (run (record_verification id v) m).2.
Proof.
  unfold record_verification. walk. rewrite run_modify_bind. apply moves_preserves; [apply _|].
  step_effect step_verify. lia.
Qed.

Lemma reconcile_durable_receipt_moves id r started m :
  moves m (run (reconcile_durable_receipt id r started) m).2.
Proof.
  unfold reconcile_durable_receipt. walk. case_match; [apply moves_refl|].
  step_effect step_durable_receipt; [set_solver|lia].
Qed.

Lemma reconcile_durable_provider_state_moves id ds started now m :
  moves m (run (reconcile_durable_provider_state id ds started now) m).2.
Proof.
  unfold reconcile_durable_provider_state. walk. case_match; [apply moves_refl|].
  destruct ds; step_effect (step_durable_state _ _ _ _ started).
Qed.

Lemma propose_effect_moves spec now m :
  moves m (run (propose_effect spec now;; mret tt) m).2.
Proof.
  apply moves_bind; [|apply _]. unfold propose_effect. walk. rewrite run_modify_bind.
  apply moves_preserves; [apply _|]. split; [done|]. by econstructor.
Qed.

Lemma exec_moves c m : moves m (run (exec c) m).2.
Proof.
  destruct c; cbn [exec];
    auto using approve_effect_moves, cancel_effect_moves, begin_effect_moves, record_receipt_moves,
      mark_effect_uncertain_moves, mark_effect_failed_moves, record_verification_moves,
      reconcile_durable_receipt_moves, reconcile_durable_provider_state_moves, propose_effect_moves.
  all: apply moves_preserves; [|apply moves_refl].
  all: first [ unfold start_research | unfold start_scheduled_cycle | unfold record_evidence
             | unfold record_work_product | unfold revise_work_product | unfold begin_checkpoint
             | unfold begin_checkpoint_with_task | unfold begin_checkpoint_verification
             | unfold complete_checkpoint | unfold complete_vm04_channel_rebalance_terminal
             | unfold complete_vm07_replan_or_terminal_terminal
             | unfold complete_vm11_candidate_learning_terminal
             | unfold complete_vm11_next_contract_resolution | unfold block_checkpoint
             | unfold continue_after_verified_effect | unfold record_outcome | unfold block
             | unfold resume | idtac ];
       try unfold complete_typed_terminal; apply _.
Qed.

(** ** Reachable Missions *)
Definition exec_all (cs : list Command) (m : Mission) : Mission :=
  foldl (fun m c => (run (exec c) m).2) m cs.

Inductive compiled : Mission -> Prop :=
| by_compile tenant id project title contract now m :
    compile tenant id project title contract now = Ok m -> compiled m
| by_compile_catalog tenant id project title contract definition now m :
    compile_catalog tenant id project title contract definition now = Ok m -> compiled m.

(** Whatever the answers of the calls were, failed calls included. *)
Inductive reachable : Mission -> Prop :=
| reach_compiled m : compiled m -> reachable m
| reach_exec m c : reachable m -> reachable (run (exec c) m).2.

Lemma compiled_fresh m :
  compiled m -> ms_effects m = [] /\ ms_outcome_history m = [] /\ ms_revision m = 1 /\
    ms_stage m = StReady.
Proof.
  destruct 1 as [? ? ? ? ? ? ? Hc|? ? ? ? ? ? ? ? Hc];
    unfold compile_catalog, compile in Hc; by inv_ok.
Qed.

Lemma compiled_outcome m : compiled m -> ms_outcome_history m = [] /\ ms_outcome m = None.
Proof.
  destruct 1 as [? ? ? ? ? ? ? Hc|? ? ? ? ? ? ? ? Hc];
    unfold compile_catalog, compile in Hc; by inv_ok.
Qed.

Lemma exec_all_reachable cs m : reachable m -> reachable (exec_all cs m).
Proof. revert m. induction cs as [|c cs IH]; intros m Hm; [done|]. apply IH. by constructor. Qed.
End machine.

#[export] Hint Extern 5 (Preserves _ (on_definition _ _)) =>
  (apply on_definition_preserves; intros; reflexivity) : typeclass_instances.
