(* ===== verification/MissionFixture.v ===== *)
(** * A concrete Mission, for evaluating the model

    A bootstrap contract, a research Mission with one publishing effect, and
    the commands that take the effect through its life cycle. *)
From S2P Require Import Prelude Money Contract MissionTypes WorkProduct Effect Checkpoint.
From S2P Require Import Terminal Mission MissionMachine.
Import Prelude.Fixture.

#[export] Instance serde_scope : SerdeScope := {|
  json_purpose p := match p with
    | EmailMarketing => "email_marketing" | DirectOutreach => "direct_outreach"
    | AutomatedReply => "automated_reply" | PartnerContact => "partner_contact"
    | DataSync => "data_sync" | Attribution => "attribution" end;
  json_channel c := match c with
    | ChEmail => "email" | ChPhone => "phone" | ChSocialDirectMessage => "social_direct_message"
    | ChChat => "chat" end;
|}.

Module Demo.
Definition t0 : DateTime := 1000 * nanos_per_second.
Definition hour : Duration := 3600 * nanos_per_second.

Definition blank_contract : OperatingContract := {|
  oc_version := 0; oc_mode := BuildOnce; oc_parent_mission_id := None; oc_goal := "";
  oc_non_goals := []; oc_market := ""; oc_language := ""; oc_audience := ""; oc_kpis := ∅;
  oc_budget := zero "USD"; oc_timezone := ""; oc_cadence := None; oc_autonomy_by_capability := ∅;
  oc_consent_requirements := ∅;
  oc_approval_policy := {| ap_required_effect_classes := ∅; ap_validity_seconds := 0;
                           ap_exact_scope_required := false |};
  oc_stop_conditions := []; oc_completion_conditions := []; oc_valid_from := 0; oc_valid_until := 0;
  oc_constraints := []; oc_enabled_capabilities := ∅; oc_forbidden_capabilities := ∅ |}.
Definition contract : OperatingContract :=
  match bootstrap (E:=MissionError) "publish the launch page" {["web.publish"]} t0 with
  | Ok c => c
  | _ => blank_contract
  end.

Definition mission_of (r : result MissionError Mission) : Mission :=
  match r with
  | Ok m => m
  | _ => mkMission "" "" "" "" contract None StDraft [] [] [] [] [] None None 0 0 0
  end.
Definition mission : Mission := mission_of (compile "tenant" "mission" "project" "Launch" contract t0).

Definition spec : EffectSpec := {|
  es_id := "effect"; es_actor_id := "actor"; es_capability := "web.publish"; es_provider := "cms";
  es_connection_id := Some "connection"; es_account_id := Some "account";
  es_required_scopes := {["pages:write"]}; es_effect_class := ExternalWrite;
  es_description := "publish page"; es_target_resource := "pages/launch";
  es_audience_digest := None; es_payload_digest := zeros64; es_asset_digests := ∅;
  es_scheduled_for := None; es_timezone := "UTC"; es_consent := CNotRequired;
  es_consent_record_id := None; es_consent_requirement := None; es_conversation_guard := None;
  es_creator_contact_guard := None; es_policy_version := "v1"; es_risk := RiskLow;
  es_idempotency_key := "key"; es_amount := zero "USD"; es_expires_at := t0 + 2 * hour |}.

Definition approval : Approval := {|
  apr_id := "approval"; apr_decision := ADApproved; apr_decided_by := "owner";
  apr_decided_at := t0 + 2; apr_valid_until := t0 + 2 + hour; apr_scope_digest := zeros64;
  apr_permission_digest := zeros64 |}.
Definition receipt : Receipt := {|
  rc_id := "receipt"; rc_provider := "cms"; rc_external_id := "ext"; rc_accepted_at := t0 + 4;
  rc_request_digest := zeros64; rc_response_digest := zeros64 |}.
Definition verification : Verification := {|
  vf_id := "verification"; vf_status := VConfirmed; vf_verifier := "readback";
  vf_independent := true; vf_observed_at := t0 + 5; vf_evidence_digest := zeros64;
  vf_receipt_id := "receipt" |}.

Definition proposing : list Command := [StartResearch [] t0; ProposeEffect spec (t0 + 1)].
Definition approving : list Command := proposing ++ [ApproveEffect "effect" approval].
Definition verifying : list Command :=
  approving ++ [BeginEffect "effect" (t0 + 3); RecordReceipt "effect" receipt;
                RecordVerification "effect" verification].

Definition proposed : Mission := exec_all proposing mission.
Definition approved : Mission := exec_all approving mission.
Definition verified : Mission := exec_all verifying mission.

Example verified_runs :
  (ef_status <$> ms_effects verified) = [EVerified] /\ ms_stage verified = StVerifying /\
  ms_revision verified = 7.
Proof. by vm_compute. Qed.

(** The first effect of a Mission. *)
Definition the_effect (m : Mission) : Effect :=
  match ms_effects m with e :: _ => e | [] => effect_of_spec m spec end.
Lemma the_effect_first m : length (ms_effects m) <> 0%nat -> ms_effects m !! 0%nat = Some (the_effect m).
Proof. unfold the_effect. by destruct (ms_effects m). Qed.

Lemma mission_compiled : compiled mission.
Proof. apply (by_compile "tenant" "mission" "project" "Launch" contract t0). by vm_compute. Qed.

Lemma mission_runs_reachable cs : reachable (exec_all cs mission).
Proof. apply exec_all_reachable. constructor. apply mission_compiled. Qed.

(** ** A catalog Mission with two checkpoints *)
Definition route (executor : MissionCheckpointExecutor) (oracle : string)
    (policy : MissionCheckpointCompletionPolicy) : MissionCheckpointRoute :=
  mkRoute "web.publish" executor {[oracle]} (Some policy).
Definition routes : list (string * MissionCheckpointRoute) :=
  [("gather", route ExApplication "o1" CpDeterministicEvidence);
   ("review", route ExHuman "o2" CpHumanConfirmation)].
Definition blank_definition : MissionDefinition :=
  mkDefinition "" 0 "" BuildOnce ∅ ∅ ∅ [] 0.
Definition definition_of (r : result MissionError MissionDefinition) : MissionDefinition :=
  match r with Ok d => d | _ => blank_definition end.
Definition definition : MissionDefinition :=
  definition_of (from_routed_linear_manifest "VM-01" 1 zeros64 BuildOnce {["web.publish"]}
    {["page"]} {["o1"; "o2"]} routes).
Definition catalog : Mission :=
  mission_of (compile_catalog "tenant" "mission" "project" "Launch" contract definition t0).

Definition evidence (tenant : Id) (capability : string) : MissionCheckpointApplicationEvidence := {|
  ae_schema_version := 1; ae_handler_id := "handler"; ae_tenant_id := tenant;
  ae_project_id := "project"; ae_mission_id := "mission"; ae_manifest_id := "VM-01";
  ae_manifest_version := 1; ae_catalog_digest := zeros64; ae_cycle := 1; ae_checkpoint_id := "gather";
  ae_dispatch_mission_revision := 2; ae_dispatch_checkpoint_revision := 2;
  ae_verification_mission_revision := 3; ae_verification_checkpoint_revision := 3;
  ae_capability_id := capability; ae_executor := ExApplication;
  ae_completion_policy := CpDeterministicEvidence;
  ae_sources := [mkSource "store" "source" 1 zeros64 {["o1"]}]; ae_observed_at := t0 + 2 |}.
Definition completion (tenant : Id) : MissionCheckpointCompletion := {|
  co_oracle_ids := {["o1"]}; co_work_product_ids := ∅; co_effect_ids := ∅;
  co_application_evidence := Some (evidence tenant "web.publish");
  co_evidence_digest := zeros64; co_verified_at := t0 + 2 |}.
Definition gathering : list Command :=
  [StartResearch [mkTask "task" "Gather" TRunning "web.publish"] t0;
   BeginCheckpointVerification "gather" (t0 + 1); CompleteCheckpoint "gather" (completion "tenant")].
Definition gathered : Mission := exec_all gathering catalog.

Example gathered_runs :
  (ck_status <$> from_option df_checkpoints [] (ms_definition gathered)) = [CkCompleted; CkReady] /\
  ms_stage gathered = StRunning /\ ms_revision gathered = 4.
Proof. by vm_compute. Qed.

(** The same checkpoints without routes. *)
Definition unrouted : Mission :=
  mission_of (compile_catalog "tenant" "mission" "project" "Launch" contract
    (definition_of (from_linear_manifest "VM-01" 1 zeros64 BuildOnce {["web.publish"]}
      {["page"]} {["o1"; "o2"]} ["gather"; "review"])) t0).
End Demo.
