(* ===== verification/MissionSafety.v ===== *)
(** * What holds of every effect of every reachable Mission

    The invariant of the effect life cycle, its preservation by every command,
    and the safety theorems of [domain-kernel/src/mission.rs] that follow. *)
From S2P Require Import Prelude Money Contract MissionTypes WorkProduct Effect Checkpoint.
From S2P Require Import Terminal Mission MissionMachine MissionFixture.

Section safety.
Context `{Chrono} `{Sha256} `{SerdeScope}.

(** An approval that covers exactly this effect and lapses at the first of
    the deadline of the approval policy, the end of the effect and the end of
    the operating contract. *)
Definition authorised (contract : OperatingContract) (e : Effect) : Prop :=
  exists a deadline, ef_approval e = Some a /\ apr_decision a = ADApproved /\
    apr_scope_digest a = approval_digest e /\ policy_deadline contract (apr_decided_at a) deadline /\
    apr_decided_at a < apr_valid_until a /\
    apr_valid_until a = Z.min (Z.min deadline (ef_expires_at e)) (oc_valid_until contract).

Definition past_approval (status : EffectStatus) : bool :=
  match status with EProposed | ERejected | ECancelled => false | _ => true end.

(** An independent confirmation of the receipt the provider returned. *)
Definition independently_verified (e : Effect) : Prop :=
  exists r v, ef_receipt e = Some r /\ ef_verification e = Some v /\
    vf_status v = VConfirmed /\ vf_receipt_id v = rc_id r /\ vf_independent v = true /\
    trim_is_empty (vf_verifier v) = false /\ is_sha256 (vf_evidence_digest v) = true /\
    rc_accepted_at r <= vf_observed_at v.

Record effect_inv (contract : OperatingContract) (e : Effect) : Prop := {
  inv_fresh : ef_status e = EProposed -> ef_approval e = None /\ ef_receipt e = None;
  inv_authorised : past_approval (ef_status e) = true -> authorised contract e;
  inv_receipt r : ef_receipt e = Some r -> validate_receipt_scope e r = Ok tt;
  inv_recorded : ef_status e = EReceiptRecorded -> is_Some (ef_receipt e);
  inv_verified : ef_status e = EVerified -> independently_verified e;
}.

Lemma authorised_update contract e e' :
  ef_approval e' = ef_approval e -> approval_digest e' = approval_digest e ->
  ef_expires_at e' = ef_expires_at e -> authorised contract e -> authorised contract e'.
Proof. unfold authorised. by intros -> -> ->. Qed.

(** A step that changes the status and keeps approval and receipt. *)
Lemma effect_inv_status contract e st :
  effect_inv contract e -> past_approval (ef_status e) = true ->
  st ∉ [EProposed; EReceiptRecorded; EVerified] ->
  effect_inv contract (e <| ef_status := st |>).
Proof.
  intros Hinv Hpast Hst. split; cbn.
  - intros ->. set_solver.
  - intros _. apply (authorised_update _ e); [done..|]. by apply Hinv.
  - apply Hinv.
  - intros ->. set_solver.
  - intros ->. set_solver.
Qed.

Lemma effect_inv_receipt contract e r :
  effect_inv contract e -> past_approval (ef_status e) = true ->
  validate_receipt_scope e r = Ok tt ->
  effect_inv contract (e <| ef_receipt := Some r |> <| ef_status := EReceiptRecorded |>).
Proof.
  intros Hinv Hpast Hr. split; cbn; try done.
  - intros _. apply (authorised_update _ e); [done..|]. by apply Hinv.
  - intros r' [= <-]. exact Hr.
Qed.

Lemma effect_inv_cancel contract e :
  effect_inv contract e -> effect_inv contract (e <| ef_status := ECancelled |>).
Proof. intros Hinv. split; cbn; try done. apply Hinv. Qed.

Lemma effect_inv_decide contract e a deadline :
  effect_inv contract e -> ef_status e = EProposed ->
  apr_scope_digest a = approval_digest e -> policy_deadline contract (apr_decided_at a) deadline ->
  apr_decided_at a < apr_valid_until a ->
  apr_valid_until a = Z.min (Z.min deadline (ef_expires_at e)) (oc_valid_until contract) ->
  effect_inv contract
    (e <| ef_status := if bool_decide (apr_decision a = ADRejected) then ERejected else EApproved |>
       <| ef_approval := Some a |>).
Proof.
  intros Hinv Hst Hd Hp Hv He. destruct (inv_fresh _ _ Hinv Hst) as [_ Hnone].
  split; cbn; case_bool_decide as Hdec; try done.
  - intros _. exists a, deadline. split_and!; try done. by destruct (apr_decision a).
  - intros r. by rewrite Hnone.
  - intros r. by rewrite Hnone.
Qed.

Lemma effect_inv_verify contract e r v :
  effect_inv contract e -> past_approval (ef_status e) = true -> ef_receipt e = Some r ->
  rc_id r = vf_receipt_id v -> vf_independent v = true -> trim_is_empty (vf_verifier v) = false ->
  is_sha256 (vf_evidence_digest v) = true -> rc_accepted_at r <= vf_observed_at v ->
  effect_inv contract
    (e <| ef_status := verification_target (vf_status v) |> <| ef_verification := Some v |>).
Proof.
  intros Hinv Hpast Hr Hid Hind Htrim Hsha Hobs. split; cbn.
  - by destruct (vf_status v).
  - intros _. apply (authorised_update _ e); [done..|]. by apply Hinv.
  - apply Hinv.
  - by destruct (vf_status v).
  - intros Hv. exists r, v. split_and!; try done. by destruct (vf_status v).
Qed.

Lemma effect_step_inv contract e e' :
  effect_step contract e e' -> effect_inv contract e -> effect_inv contract e'.
Proof.
  assert (forall l, ef_status e ∈ l -> forallb past_approval l = true -> past_approval (ef_status e) = true)
    as Hin by (intros l Hl Hall; rewrite forallb_elem_of in Hall; auto).
  destruct 1; intros Hinv.
  - by eapply effect_inv_decide.
  - by apply effect_inv_cancel.
  - apply effect_inv_status; [done|by rewrite H2|set_solver].
  - apply effect_inv_status; [done|by rewrite H2|set_solver].
  - apply effect_inv_receipt; [done|by rewrite H2|done].
  - apply effect_inv_receipt; [done|by eapply Hin|done].
  - apply effect_inv_status; [done| |destruct ds; set_solver]. eapply Hin; [done|by destruct ds].
  - apply effect_inv_status; [done|by eapply Hin|set_solver].
  - apply effect_inv_status; [done|by rewrite H2|set_solver].
  - eapply effect_inv_verify; try done. by eapply Hin.
Qed.

Lemma effect_step_spec contract e e' :
  effect_step contract e e' ->
  ef_spec e' = ef_spec e /\ ef_tenant_id e' = ef_tenant_id e /\
  ef_project_id e' = ef_project_id e /\ ef_mission_id e' = ef_mission_id e.
Proof. by destruct 1. Qed.

(** ** The invariant of a Mission *)
Record mission_inv (m : Mission) : Prop := {
  minv_effects : Forall (effect_inv (ms_contract m)) (ms_effects m);
  minv_scope : Forall (fun e => ef_tenant_id e = ms_tenant_id m /\ ef_project_id e = ms_project_id m
                                /\ ef_mission_id e = ms_id m) (ms_effects m);
  minv_keys : NoDup (ef_idempotency_key <$> ms_effects m);
}.

Lemma validate_effect_spec_fresh_key m spec now :
  validate_effect_spec m spec now = Ok tt ->
  es_idempotency_key spec ∉ ef_idempotency_key <$> ms_effects m.
Proof.
  unfold validate_effect_spec. intros Hv. inv_ok.
  match goal with Hx : existsb _ _ = false |- _ => rewrite existsb_false in Hx; rename Hx into Hno end.
  intros (e & He & Hin)%list_elem_of_fmap. specialize (Hno e Hin). by case_bool_decide.
Qed.

Lemma evolves_inv m effects :
  evolves m effects -> mission_inv m -> mission_inv (m <| ms_effects := effects |>).
Proof.
  intros He [Heff Hscope Hkeys]. destruct He as [|spec now Hv|i e e' Hi Hs]; split; cbn; try done.
  - apply Forall_app_2; [done|]. apply Forall_singleton. by split.
  - apply Forall_app_2; [done|]. by apply Forall_singleton.
  - rewrite fmap_app. apply NoDup_app. split_and!; [done| |apply NoDup_singleton].
    intros k Hk ->%list_elem_of_singleton. by apply (validate_effect_spec_fresh_key m spec now).
  - apply Forall_insert; [done|]. eapply effect_step_inv; [done|]. by eapply Forall_lookup_1 in Heff.
  - apply Forall_insert; [done|]. destruct (effect_step_spec _ _ _ Hs) as (_ & -> & -> & ->).
    by eapply Forall_lookup_1 in Hscope.
  - rewrite list_fmap_insert, list_insert_id; [done|]. rewrite list_lookup_fmap, Hi; cbn.
    unfold ef_idempotency_key. by destruct (effect_step_spec _ _ _ Hs) as (-> & _).
Qed.

Lemma moves_inv m m' : moves m m' -> mission_inv m -> mission_inv m'.
Proof.
  intros [Hf He] Hm. apply (evolves_inv _ _ He) in Hm as [Heff Hscope Hkeys].
  injection Hf as Ht Hp Hi Hc Hcr. cbn in *. split; [by rewrite Hc|by rewrite Ht, Hp, Hi|done].
Qed.

Lemma reachable_inv m : reachable m -> mission_inv m.
Proof.
  induction 1 as [m Hc|m c Hr IH].
  - apply compiled_fresh in Hc as (He & _). split; rewrite He; constructor.
  - by apply (moves_inv m), IH; apply exec_moves.
Qed.

(** ** Effects along a run *)
Lemma moves_effect m m' i e :
  moves m m' -> ms_effects m !! i = Some e ->
  exists e', ms_effects m' !! i = Some e' /\ rtc (effect_step (ms_contract m)) e e'.
Proof.
  intros [_ He] Hi. destruct He as [|spec now Hv|j f f' Hj Hs].
  - exists e. split; [done|apply rtc_refl].
  - exists e. split; [by apply lookup_app_l_Some|apply rtc_refl].
  - destruct (decide (i = j)) as [->|Hne].
    + simplify_eq. exists f'. split; [apply list_lookup_insert_eq; by eapply lookup_lt_Some|by apply rtc_once].
    + exists e. split; [by rewrite list_lookup_insert_ne|apply rtc_refl].
Qed.

Lemma exec_all_frame cs m : frame (exec_all cs m) = frame m.
Proof.
  revert m. induction cs as [|c cs IH]; intros m; [done|]; cbn.
  etransitivity; [apply IH|]. by destruct (exec_moves c m).
Qed.

Lemma exec_all_effect cs m i e :
  ms_effects m !! i = Some e ->
  exists e', ms_effects (exec_all cs m) !! i = Some e' /\ rtc (effect_step (ms_contract m)) e e'.
Proof.
  revert m e. induction cs as [|c cs IH]; intros m e Hi; [by exists e|].
  pose proof (exec_moves c m) as Hm.
  destruct (moves_effect _ _ _ _ Hm Hi) as (e1 & Hi1 & Hs1).
  destruct (IH _ _ Hi1) as (e2 & Hi2 & Hs2). exists e2. split; [done|].
  destruct Hm as [Hf _]. injection Hf as _ _ _ Hc _. rewrite Hc in Hs2. by etransitivity.
Qed.

(** How far an effect has advanced. *)
Definition status_rank (status : EffectStatus) : nat :=
  match status with
  | EProposed => 0
  | EApproved => 1
  | EExecuting => 2
  | EReceiptRecorded | EVerificationRequired => 3
  | _ => 4
  end.
Definition status_is_final (status : EffectStatus) : bool := negb (effect_is_pending status).

(** Case analysis on the status a step starts from. *)
Ltac split_status :=
  repeat match goal with
  | Hin : ef_status _ ∈ durable_sources ?ds |- _ => destruct ds; cbn in *
  | Hin : ef_status _ ∈ _ :: _ |- _ => apply elem_of_cons in Hin as [Hin|Hin]
  | Hin : ef_status _ ∈ [] |- _ => by apply elem_of_nil in Hin
  end.

Ltac case_status :=
  repeat match goal with Hs : ef_status _ = _ |- _ => rewrite Hs in *; clear Hs end.

Lemma effect_step_rank contract e e' :
  effect_step contract e e' ->
  (status_rank (ef_status e) <= status_rank (ef_status e'))%nat /\
  ((status_rank (ef_status e) < 3)%nat -> (status_rank (ef_status e) < status_rank (ef_status e'))%nat).
Proof.
  destruct 1; split_status; cbn; case_status; unfold verification_target;
    repeat case_match; cbn in *; try done; lia.
Qed.

Lemma effect_step_final contract e e' :
  effect_step contract e e' -> status_is_final (ef_status e) = false.
Proof.
  unfold status_is_final.
  destruct 1; split_status; cbn in *; by case_status.
Qed.

Lemma effect_steps_rank contract e e' :
  rtc (effect_step contract) e e' -> (status_rank (ef_status e) <= status_rank (ef_status e'))%nat.
Proof. induction 1 as [|? ? ? Hs _ IH]; [lia|]. apply effect_step_rank in Hs. lia. Qed.

Lemma effect_steps_spec contract e e' : rtc (effect_step contract) e e' -> ef_spec e' = ef_spec e.
Proof. induction 1 as [|? ? ? Hs _ IH]; [done|]. rewrite IH. by destruct (effect_step_spec _ _ _ Hs). Qed.

Lemma effect_steps_final contract e e' :
  rtc (effect_step contract) e e' -> status_is_final (ef_status e) = true -> e' = e.
Proof. destruct 1 as [|? ? ? Hs]; [done|]. apply effect_step_final in Hs. congruence. Qed.

(** The effect an id denotes stays the one at its position. *)
Lemma exec_all_find cs m id i e :
  list_find (fun e => ef_id e = id) (ms_effects m) = Some (i, e) ->
  exists e', list_find (fun e => ef_id e = id) (ms_effects (exec_all cs m)) = Some (i, e') /\
    rtc (effect_step (ms_contract m)) e e'.
Proof.
  intros (Hi & Hid & Hfirst)%list_find_Some.
  destruct (exec_all_effect cs _ _ _ Hi) as (e' & Hi' & Hs'). exists e'. split; [|done].
  apply list_find_Some. split_and!; [done| |].
  - unfold ef_id in *. by rewrite (effect_steps_spec _ _ _ Hs').
  - intros j y Hj Hlt. assert (j < length (ms_effects m))%nat as [y0 Hy0]%lookup_lt_is_Some.
    { apply lookup_lt_Some in Hi. lia. }
    destruct (exec_all_effect cs _ _ _ Hy0) as (y1 & Hy1 & Hs1).
    assert (y1 = y) as -> by congruence.
    unfold ef_id. rewrite (effect_steps_spec _ _ _ Hs1). by apply (Hfirst j).
Qed.

Lemma run_effect_mut id m :
  run (effect_mut id) m =
  (ok_or (list_find (fun e => ef_id e = id) (ms_effects m)) (UnknownEffect id), m).
Proof. done. Qed.

Lemma begin_effect_Ok id now m u m' :
  run (begin_effect id now) m = (Ok u, m') ->
  exists i e, list_find (fun e => ef_id e = id) (ms_effects m) = Some (i, e) /\
    ef_status e = EApproved /\
    ms_effects m' = <[i := e <| ef_status := EExecuting |>]> (ms_effects m).
Proof.
  unfold begin_effect. intros Hr. inv_run. rewrite run_effect_mut in *.
  destruct (apr_valid_until _ <=? now); [inv_run|].
  destruct (ef_expires_at _ <=? now); inv_run.
  split_guards. eauto 10.
Qed.

(** Once executing, the effect its id denotes never is approved again. *)
Lemma begin_effect_advances id now m u m' cs :
  run (begin_effect id now) m = (Ok u, m') ->
  exists i e, list_find (fun e => ef_id e = id) (ms_effects (exec_all cs m')) = Some (i, e) /\
    (2 <= status_rank (ef_status e))%nat.
Proof.
  intros (i & e & (Hi & Hid & Hfirst)%list_find_Some & _ & Heff)%begin_effect_Ok.
  assert (list_find (fun e => ef_id e = id) (ms_effects m')
          = Some (i, e <| ef_status := EExecuting |>)) as Hfind.
  { rewrite Heff. apply list_find_Some. split_and!.
    - apply list_lookup_insert_eq. by eapply lookup_lt_Some.
    - done.
    - intros j y Hj Hlt. rewrite list_lookup_insert_ne in Hj by lia. by eapply Hfirst. }
  destruct (exec_all_find cs _ _ _ _ Hfind) as (e' & Hf' & Hs').
  exists i, e'. split; [done|]. by apply effect_steps_rank in Hs'.
Qed.

(** ** Theorems *)

(** C1: in every reachable Mission, whatever calls were made and whichever of
    them failed, an effect that has been approved or has gone any further
    carries an approval with decision Approved whose digest is the digest of
    exactly this effect, decided before it lapses, and lapsing exactly at the
    first of: the seconds of validity the contract's approval policy gives a
    decision, the end of the effect, the end of the operating contract. *)
Theorem effects_past_approval_are_authorised `{!ChronoLaws} m e :
  reachable m -> e ∈ ms_effects m -> past_approval (ef_status e) = true ->
  exists a, ef_approval e = Some a /\ apr_decision a = ADApproved /\
    apr_scope_digest a = approval_digest e /\ apr_decided_at a < apr_valid_until a /\
    let policy := oc_approval_policy (ms_contract m) in
    apr_valid_until a =
      Z.min (Z.min (apr_decided_at a + ap_validity_seconds policy * nanos_per_second) (ef_expires_at e))
            (oc_valid_until (ms_contract m)).
Proof.
  intros Hm He Hpast. apply reachable_inv in Hm as [Heff _ _].
  rewrite Forall_forall in Heff.
  destruct (inv_authorised _ _ (Heff e He) Hpast) as (a & d & ? & ? & ? & (v & Hv & Hd) & ? & ?).
  apply duration_seconds_exact in Hv as ->. apply add_signed_exact in Hd as ->. by exists a.
Qed.

(** C2: in every reachable Mission a Verified effect has a provider receipt
    for exactly its approved digest and an independent, non-anonymous
    confirmation of that very receipt, observed no earlier than the receipt
    was accepted. *)
Theorem verified_effects_are_independently_confirmed m e :
  reachable m -> e ∈ ms_effects m -> ef_status e = EVerified ->
  independently_verified e /\
  exists r, ef_receipt e = Some r /\ rc_request_digest r = approval_digest e /\
    rc_provider r = es_provider (ef_spec e) /\ rc_accepted_at r < ef_expires_at e.
Proof.
  intros Hm He Hv. apply reachable_inv in Hm as [Heff _ _].
  rewrite Forall_forall in Heff. specialize (Heff e He). split; [by apply Heff|].
  destruct (inv_verified _ _ Heff Hv) as (r & v & Hr & _). exists r. split; [done|].
  pose proof (inv_receipt _ _ Heff r Hr) as Hok. unfold validate_receipt_scope in Hok.
  inv_ok. split_guards. split_and!; [done..|lia].
Qed.

(** C3: along any sequence of commands from any Mission, successful or not,
    the effects recorded so far stay at their positions with their exact
    scope, each moves only along the effect life cycle, and one that was
    cancelled, rejected, failed, expired, verified, reconciled or
    dead-lettered never changes again. *)
Theorem commands_refine_effect_life_cycle cs m i e :
  ms_effects m !! i = Some e ->
  exists e', ms_effects (exec_all cs m) !! i = Some e' /\
    rtc (effect_step (ms_contract m)) e e' /\ ef_spec e' = ef_spec e /\
    (status_is_final (ef_status e) = true -> e' = e).
Proof.
  intros Hi. destruct (exec_all_effect cs m i e Hi) as (e' & Hi' & Hs).
  exists e'. split_and!; [done..|by eapply effect_steps_spec|by eapply effect_steps_final].
Qed.

(** C4: an effect is dispatched at most once: after [begin_effect] has
    succeeded for an id, it fails for that id in every later state. *)
Theorem effect_dispatched_at_most_once id now now' m u m' cs :
  run (begin_effect id now) m = (Ok u, m') ->
  is_ok (run (begin_effect id now') (exec_all cs m')).1 = false.
Proof.
  intros Hb. destruct (begin_effect_advances _ _ _ _ _ cs Hb) as (i & e & Hfind & Hrank).
  destruct (run (begin_effect id now') (exec_all cs m')) as [[u'|err|] m2] eqn:Hr; [|done..].
  apply begin_effect_Ok in Hr as (i' & e' & Hfind' & Hst & _).
  simplify_eq. rewrite Hst in Hrank. cbn in Hrank. lia.
Qed.

(** In every reachable Mission no two effects share an idempotency key,
    and every effect belongs to the Mission's own tenant and project. *)
Theorem idempotency_keys_are_unique m :
  reachable m ->
  NoDup (ef_idempotency_key <$> ms_effects m) /\
  Forall (fun e => ef_tenant_id e = ms_tenant_id m /\ ef_project_id e = ms_project_id m
                   /\ ef_mission_id e = ms_id m) (ms_effects m).
Proof. intros Hm. by apply reachable_inv in Hm as [_ Hscope Hkeys]. Qed.
End safety.

(** ** Witnesses *)
Import Prelude.Fixture.

Lemma effects_past_approval_are_authorised_witness :
  exists a, ef_approval (Demo.the_effect Demo.approved) = Some a /\
    apr_valid_until a <= ef_expires_at (Demo.the_effect Demo.approved).
Proof.
  destruct (effects_past_approval_are_authorised Demo.approved (Demo.the_effect Demo.approved))
    as (a & Ha & _ & _ & _ & Hv).
  - apply Demo.mission_runs_reachable.
  - apply (list_elem_of_lookup_2 _ 0%nat), Demo.the_effect_first. by vm_compute.
  - by vm_compute.
  - exists a. split; [exact Ha|]. cbn zeta in Hv. rewrite Hv.
    etransitivity; [apply Z.le_min_l|apply Z.le_min_r].
Defined.

Lemma verified_effects_are_independently_confirmed_witness :
  independently_verified (Demo.the_effect Demo.verified).
Proof.
  apply (verified_effects_are_independently_confirmed Demo.verified).
  - apply Demo.mission_runs_reachable.
  - apply (list_elem_of_lookup_2 _ 0%nat), Demo.the_effect_first. by vm_compute.
  - by vm_compute.
Defined.

Lemma commands_refine_effect_life_cycle_witness :
  exists e', ms_effects (exec_all [CancelEffect "effect" Demo.t0] Demo.verified) !! 0%nat = Some e' /\
    e' = Demo.the_effect Demo.verified.
Proof.
  destruct (commands_refine_effect_life_cycle [CancelEffect "effect" Demo.t0] Demo.verified 0%nat
              (Demo.the_effect Demo.verified)) as (e' & He' & _ & _ & Hfinal).
  - apply Demo.the_effect_first. by vm_compute.
  - exists e'. split; [done|]. apply Hfinal. by vm_compute.
Defined.

Lemma effect_dispatched_at_most_once_witness :
  is_ok (run (begin_effect "effect" (Demo.t0 + 3)) Demo.approved).1 = true /\
  is_ok (run (begin_effect "effect" (Demo.t0 + 4))
           (exec_all [MarkEffectUncertain "effect" (Demo.t0 + 4)]
              (run (begin_effect "effect" (Demo.t0 + 3)) Demo.approved).2)).1 = false.
Proof.
  split; [by vm_compute|].
  apply (effect_dispatched_at_most_once "effect" (Demo.t0 + 3) (Demo.t0 + 4) Demo.approved tt).
  by vm_compute.
Defined.

Lemma idempotency_keys_are_unique_witness :
  NoDup (ef_idempotency_key <$> ms_effects Demo.verified).
Proof. apply idempotency_keys_are_unique. apply Demo.mission_runs_reachable. Defined.
