(* ===== verification/MissionLedger.v ===== *)
(** * Revisions, failed calls, finality and outcomes

    How the commands of [domain-kernel/src/mission.rs] use the revision that
    callers compare and swap on, what failed calls leave behind, when a Mission
    can no longer change, and the order of its outcomes. *)
From S2P Require Import Prelude Money Contract MissionTypes WorkProduct Effect Checkpoint.
From S2P Require Import Terminal Mission MissionMachine MissionFixture.

(** ** One revision per successful call *)
Class Bumps {A} (m : SR Mission MissionError A) : Prop :=
  bumps : forall s, ms_revision (run m s).2 =
    if is_ok (run m s).1 then wrapping_succ_u64 (ms_revision s) else ms_revision s.
Class Guarded {A} (m : SR Mission MissionError A) : Prop :=
  guarded : forall s, is_ok (run m s).1 = true -> ms_revision s < u64_max.
Class Infallible {S E A} (m : SR S E A) : Prop := infallible : forall s, is_ok (run m s).1 = true.

Section revision.
Context {A B : Type}.
Implicit Types (m : SR Mission MissionError A) (k : A -> SR Mission MissionError B).

#[global] Instance fail_bumps e : Bumps (A:=A) (fail e).
Proof. done. Qed.
#[global] Instance bind_bumps m k :
  Preserves ms_revision m -> (forall a, Bumps (k a)) -> Bumps (m ≫= k) | 5.
Proof.
  intros Hm Hk s. specialize (Hm s). unfold mbind, SR_mbind; cbn.
  destruct (run m s) as [[a|e|] s1]; cbn in *; [by rewrite Hk, Hm|done..].
Qed.
#[global] Instance bumps_bind m k :
  Bumps m -> (forall a, Infallible (k a)) -> (forall a, Preserves ms_revision (k a)) ->
  Bumps (m ≫= k) | 10.
Proof.
  intros Hm Hk Hp s. specialize (Hm s). unfold mbind, SR_mbind; cbn.
  destruct (run m s) as [[a|e|] s1]; cbn in *; [|done..]. by rewrite Hk, Hp.
Qed.
#[global] Instance on_clone_bumps m : Bumps m -> Bumps (on_clone m).
Proof. intros Hm s. specialize (Hm s). unfold on_clone; cbn. by destruct (run m s) as [[]]. Qed.
#[global] Instance bind_guarded m k : Guarded m -> Guarded (m ≫= k) | 5.
Proof.
  intros Hm s. specialize (Hm s). unfold mbind, SR_mbind; cbn.
  destruct (run m s) as [[a|e|] s1]; cbn in *; auto; done.
Qed.
#[global] Instance preserves_guarded m k :
  Preserves ms_revision m -> (forall a, Guarded (k a)) -> Guarded (m ≫= k) | 10.
Proof.
  intros Hm Hk s. specialize (Hm s). unfold mbind, SR_mbind; cbn.
  destruct (run m s) as [[a|e|] s1]; cbn in *; [|done..]. intros Hok. rewrite <-Hm. by apply Hk in Hok.
Qed.
#[global] Instance fail_guarded e : Guarded (A:=A) (fail e).
Proof. done. Qed.
#[global] Instance on_clone_guarded m : Guarded m -> Guarded (on_clone m).
Proof. intros Hm s. specialize (Hm s). unfold on_clone; cbn. by destruct (run m s) as [[]]. Qed.
End revision.

#[export] Instance modify_infallible {S E} (f : S -> S) : Infallible (E:=E) (modify f).
Proof. done. Qed.
#[export] Instance mret_infallible {S E A} (a : A) : Infallible (S:=S) (E:=E) (mret a).
Proof. done. Qed.
#[export] Instance ensure_touchable_guarded : Guarded ensure_touchable.
Proof.
  intros s Hok. destruct (run ensure_touchable s) as [[u|e|] t] eqn:Hr; [|done..].
  unfold ensure_touchable in Hr. inv_ok.
  match goal with Hc : checked_add _ _ _ = Some _ |- _ => apply checked_add_Some in Hc end. lia.
Qed.
#[export] Hint Extern 5 (Bumps (modify _)) => (intros ?; reflexivity) : typeclass_instances.
#[export] Hint Extern 8 (Bumps (match ?x with _ => _ end)) => destruct x : typeclass_instances.
#[export] Hint Extern 8 (Guarded (match ?x with _ => _ end)) => destruct x : typeclass_instances.

(** On a Mission with no catalog definition the checkpoint bookkeeping that
    follows an update cannot fail. *)
Class Settles {A} (m : SR Mission MissionError A) : Prop :=
  settles : forall s, ms_definition s = None ->
    is_ok (run m s).1 = true /\ ms_definition (run m s).2 = None.
#[export] Instance bind_settles {A B} (m : SR Mission MissionError A) (k : A -> SR Mission MissionError B) :
  Settles m -> (forall a, Settles (k a)) -> Settles (m ≫= k).
Proof.
  intros Hm Hk s Hs. destruct (Hm s Hs) as [Hok Hd]. unfold mbind, SR_mbind; cbn.
  destruct (run m s) as [[a|e|] s1]; cbn in *; [by apply Hk|done..].
Qed.
#[export] Instance get_settles : Settles get.
Proof. by intros s Hs. Qed.
#[export] Instance mret_settles {A} (a : A) : Settles (mret a).
Proof. by intros s Hs. Qed.
Lemma modify_settles f : (forall s, ms_definition (f s) = ms_definition s) -> Settles (modify f).
Proof. intros Hf s Hs. split; [done|]; cbn. by rewrite Hf. Qed.
#[export] Hint Extern 5 (Settles (modify _)) =>
  (apply modify_settles; intros; reflexivity) : typeclass_instances.
#[export] Hint Extern 8 (Settles (match ?x with _ => _ end)) => destruct x : typeclass_instances.

(** Opens one operation of the aggregate. *)
Ltac open_op :=
  first
  [ progress unfold start_research | progress unfold start_scheduled_cycle | progress unfold record_evidence
  | progress unfold record_work_product | progress unfold revise_work_product | progress unfold begin_checkpoint
  | progress unfold begin_checkpoint_with_task | progress unfold begin_checkpoint_verification
  | progress unfold complete_checkpoint | progress unfold complete_vm04_channel_rebalance_terminal
  | progress unfold complete_vm07_replan_or_terminal_terminal
  | progress unfold complete_vm11_candidate_learning_terminal
  | progress unfold complete_vm11_next_contract_resolution | progress unfold block_checkpoint
  | progress unfold propose_effect | progress unfold approve_effect | progress unfold cancel_effect | progress unfold begin_effect
  | progress unfold record_receipt | progress unfold reconcile_durable_receipt
  | progress unfold reconcile_durable_provider_state | progress unfold mark_effect_uncertain
  | progress unfold mark_effect_failed | progress unfold record_verification
  | progress unfold continue_after_verified_effect | progress unfold record_outcome | progress unfold block
  | progress unfold resume | progress unfold terminate ];
  try unfold complete_typed_terminal.

Section ledger.
Context `{Chrono} `{Sha256} `{SerdeScope}.

#[export] Instance set_catalog_revision st b :
  Preserves ms_revision (set_catalog_checkpoint_status st b).
Proof. unfold set_catalog_checkpoint_status. apply _. Qed.
#[export] Instance skip_candidate_revision : Preserves ms_revision skip_vm11_candidate_learning.
Proof. unfold skip_vm11_candidate_learning. apply _. Qed.
#[export] Instance settle_bumps now : Bumps (settle_decision_stage now).
Proof. unfold settle_decision_stage. apply _. Qed.
#[export] Instance transition_bumps id now : Bumps (begin_checkpoint_transition id now).
Proof. unfold begin_checkpoint_transition. apply _. Qed.
#[export] Instance transition_guarded id now : Guarded (begin_checkpoint_transition id now).
Proof. unfold begin_checkpoint_transition. apply _. Qed.
#[export] Instance complete_bumps id c : Bumps (complete_checkpoint_validated id c).
Proof. unfold complete_checkpoint_validated. apply _. Qed.
#[export] Instance complete_guarded id c : Guarded (complete_checkpoint_validated id c).
Proof. unfold complete_checkpoint_validated. apply _. Qed.
#[export] Instance terminate_bumps d now : Bumps (terminate d now).
Proof. unfold terminate. apply _. Qed.
#[export] Instance terminate_guarded d now : Guarded (terminate d now).
Proof. unfold terminate. apply _. Qed.

Definition bumps_once (c : Command) : bool :=
  match c with
  | CompleteVm04ChannelRebalance _ | CompleteVm07ReplanOrTerminal _
  | CompleteVm11CandidateLearning _ | CompleteVm11NextContract _ _
  | ReconcileDurableReceipt _ _ _ | ReconcileDurableProviderState _ _ _ _ => false
  | _ => true
  end.

Lemma exec_bumps c : bumps_once c = true -> Bumps (exec c) /\ Guarded (exec c).
Proof. destruct c; cbn [exec bumps_once]; intros Hc; try done; clear Hc; open_op; split; apply _. Qed.
(** What one call does to the revision: nothing when it fails; when it
    succeeds it changes nothing at all or moves the revision up, without
    wrapping. *)
Definition revision_post (s : Mission) (p : result MissionError unit * Mission) : Prop :=
  if is_ok p.1
  then p.2 = s \/ ms_revision s < ms_revision p.2 <= Z.min u64_max (ms_revision s + 2)
  else ms_revision p.2 = ms_revision s.

Lemma bumps_post (m : SR Mission MissionError unit) s :
  Bumps m -> Guarded m -> 0 <= ms_revision s -> revision_post s (run m s).
Proof.
  intros Hb Hg Hs. specialize (Hb s). specialize (Hg s). unfold revision_post.
  destruct (is_ok _); [|done]. specialize (Hg eq_refl). right.
  rewrite Hb, wrapping_succ_small by (unfold u64_max in *; lia). unfold u64_max in *. lia.
Qed.

Lemma bumps_twice_post (m n : SR Mission MissionError unit) s :
  Bumps m -> Guarded m -> Bumps n -> Guarded n -> 0 <= ms_revision s ->
  revision_post s (run (on_clone (m;; n)) s).
Proof.
  intros Hm Hgm Hn Hgn Hs. specialize (Hm s). specialize (Hgm s).
  unfold revision_post, on_clone, mbind, SR_mbind; cbn.
  destruct (run m s) as [[u|e|] s1]; cbn in *; [|done..].
  specialize (Hn s1). specialize (Hgn s1). specialize (Hgm eq_refl).
  rewrite wrapping_succ_small in Hm by lia.
  destruct (run n s1) as [[u'|e|] s2]; cbn in *; [|done..]. right.
  specialize (Hgn eq_refl). rewrite wrapping_succ_small in Hn by lia. unfold u64_max in *. lia.
Qed.

Lemma bumps_then_check_post (m n : SR Mission MissionError unit) s :
  Bumps m -> Guarded m -> ReadOnly n -> 0 <= ms_revision s ->
  revision_post s (run (on_clone (m;; n)) s).
Proof.
  intros Hm Hgm Hn Hs. pose proof (bumps_post m s Hm Hgm Hs) as Hp.
  unfold revision_post, on_clone, mbind, SR_mbind in *; cbn.
  destruct (run m s) as [[u|e|] s1]; cbn in *; [|done..].
  specialize (Hn s1). by destruct (run n s1) as [[u'|e|] s2]; cbn in *; subst.
Qed.

Lemma bumps_guarded_modify f s :
  run ensure_touchable s = (Ok tt, s) -> 0 <= ms_revision s ->
  ms_revision (f s) = wrapping_succ_u64 (ms_revision s) ->
  revision_post s (run (modify f) s).
Proof.
  intros Ht Hs Hf. pose proof (ensure_touchable_guarded s) as Hg. rewrite Ht in Hg.
  specialize (Hg eq_refl). right. cbn.
  rewrite Hf, wrapping_succ_small by lia. unfold u64_max in *. lia.
Qed.

Ltac walk_ledger :=
  repeat (apply (walk_pair (revision_post _)); [apply _|by intros [] ?|];
          let r := fresh "r" in let Hr := fresh "Hr" in intros r Hr; inv_ok;
          try match goal with
              | p : (_ * _)%type |- _ => destruct p
              | u : unit |- _ => destruct u
              end).

Lemma exec_revision c s : 0 <= ms_revision s -> revision_post s (run (exec c) s).
Proof.
  intros Hs. destruct (bumps_once c) eqn:Hc.
  { destruct (exec_bumps c Hc). by apply bumps_post. }
  destruct c; cbn [exec]; try discriminate Hc; open_op.
  1-3: apply bumps_twice_post; try apply _; done.
  - walk_ledger. case_match.
    + apply bumps_twice_post; try apply _; done.
    + apply bumps_then_check_post; try apply _; done.
  - walk_ledger. case_match.
    + unfold revision_post. destruct (is_ok _); [by left|done].
    + by apply bumps_guarded_modify.
  - walk_ledger. case_match; [by left|].
    apply bumps_guarded_modify; [done..|]. by destruct durable_state.
Qed.

(** ** Runs of successful calls *)
Inductive commits : Mission -> Mission -> Prop :=
| commit_call m c m' : run (exec c) m = (Ok tt, m') -> commits m m'.

Fixpoint all_succeed (cs : list Command) (m : Mission) : bool :=
  match cs with
  | [] => true
  | c :: cs => is_ok (run (exec c) m).1 && all_succeed cs (run (exec c) m).2
  end.
Lemma exec_all_commits cs m : all_succeed cs m = true -> rtc commits m (exec_all cs m).
Proof.
  revert m. induction cs as [|c cs IH]; intros m Hok; [apply rtc_refl|].
  cbn [all_succeed] in Hok. apply andb_prop in Hok as [Hc Hcs].
  apply rtc_l with (run (exec c) m).2; [|by apply IH].
  apply (commit_call m c). destruct (run (exec c) m) as [[[]|e|] m1]; done.
Qed.

Lemma commits_revision m m' :
  commits m m' -> 0 <= ms_revision m ->
  m' = m \/ ms_revision m < ms_revision m' <= Z.min u64_max (ms_revision m + 2).
Proof.
  intros [? c ? Hr] Hm. pose proof (exec_revision c _ Hm) as Hp. unfold revision_post in Hp.
  rewrite Hr in Hp. exact Hp.
Qed.

Lemma commits_monotone m m' :
  rtc commits m m' -> 0 <= ms_revision m ->
  m' = m \/ ms_revision m < ms_revision m'.
Proof.
  induction 1 as [|m m1 m' Hc _ IH]; intros Hm; [by left|].
  destruct (commits_revision _ _ Hc Hm) as [->|Hlt]; [auto|].
  destruct IH as [->|Hlt']; [lia|right; lia..].
Qed.

(** The revision identifies the state: along any run of successful calls
    it never decreases, and a later state with the same revision is the same
    state, so comparing revisions before writing detects every intervening
    change. *)
Theorem equal_revision_means_equal_state m m' :
  rtc commits m m' -> 0 <= ms_revision m ->
  ms_revision m <= ms_revision m' /\ (ms_revision m' = ms_revision m -> m' = m).
Proof. intros Hr Hm. destruct (commits_monotone m m' Hr Hm) as [->|Hlt]; [done|lia]. Qed.

(** A call never wraps the revision: it fails with the revision unchanged,
    or succeeds changing nothing, or moves the revision up by one or two and
    stays within [u64]. *)
Theorem calls_advance_revision_without_wrapping c m :
  0 <= ms_revision m <= u64_max ->
  let '(r, m') := run (exec c) m in
  ms_revision m' <= u64_max /\
  if is_ok r then m' = m \/ ms_revision m < ms_revision m' <= ms_revision m + 2
  else ms_revision m' = ms_revision m.
Proof.
  intros Hm. pose proof (exec_revision c m ltac:(lia)) as Hp. unfold revision_post in Hp.
  destruct (run (exec c) m) as [r m']; cbn in Hp. destruct (is_ok r).
  - destruct Hp as [->|Hp]; [split; [lia|by left]|]. split; [lia|right; lia].
  - lia.
Qed.
(** ** Failed calls *)
Definition clean_failure {A} (s : Mission) (p : result MissionError A * Mission) : Prop :=
  if is_ok p.1 then True else p.2 = s.

Ltac walk_failure :=
  repeat (apply (walk_pair (clean_failure _)); [apply _|by intros []|];
          let r := fresh "r" in let Hr := fresh "Hr" in intros r Hr; inv_run;
          try match goal with p : (_ * _)%type |- _ => destruct p end).

Lemma atomic_clean {A} (m : SR Mission MissionError A) s : Atomic m -> clean_failure s (run m s).
Proof. intros Hm. specialize (Hm s). unfold clean_failure. destruct (is_ok _); auto. Qed.

Lemma settles_clean {A} (m : SR Mission MissionError A) s :
  ms_definition s = None -> Settles m -> clean_failure s (run m s).
Proof. intros Hs Hm. destruct (Hm s Hs) as [Hok _]. unfold clean_failure. by rewrite Hok. Qed.

#[export] Instance set_catalog_settles st b : Settles (set_catalog_checkpoint_status st b).
Proof. intros s Hs. unfold set_catalog_checkpoint_status; cbn. by rewrite Hs. Qed.
#[export] Instance settle_decision_settles now : Settles (settle_decision_stage now).
Proof. unfold settle_decision_stage. apply _. Qed.

Lemma checkpoint_mut_none id s p t :
  ms_definition s = None -> run (checkpoint_mut id) s = (Ok p, t) -> False.
Proof. unfold checkpoint_mut. intros Hs Hr. by inv_ok. Qed.

Ltac no_checkpoint :=
  match goal with
  | Hn : ms_definition ?s = None, Hr : run (checkpoint_mut _) ?s = _ |- _ =>
    destruct (checkpoint_mut_none _ _ _ _ Hn Hr)
  end.

Lemma begin_checkpoint_transition_none id now s :
  ms_definition s = None -> is_ok (run (begin_checkpoint_transition id now) s).1 = false /\
                            (run (begin_checkpoint_transition id now) s).2 = s.
Proof.
  intros Hnone. unfold begin_checkpoint_transition.
  apply (walk_pair (fun p => is_ok p.1 = false /\ p.2 = s)); [apply _|done|intros _ _].
  apply (walk_pair (fun p => is_ok p.1 = false /\ p.2 = s)); [apply _|done|intros _ _].
  apply (walk_pair (fun p => is_ok p.1 = false /\ p.2 = s)); [apply _|done|intros p Hp].
  no_checkpoint.
Qed.

Lemma clean_discard {A} (m : SR Mission MissionError A) s :
  clean_failure s (run m s) -> clean_failure s (run (m;; mret tt) s).
Proof. unfold clean_failure, mbind, SR_mbind; cbn. by destruct (run m s) as [[] s1]. Qed.

Lemma propose_effect_clean spec now s :
  ms_definition s = None -> clean_failure s (run (propose_effect spec now;; mret tt) s).
Proof.
  intros Hnone. apply clean_discard. unfold propose_effect. walk_failure.
  apply settles_clean; [done|apply _].
Qed.

Definition is_begin_effect (c : Command) : bool :=
  match c with BeginEffect _ _ => true | _ => false end.

Lemma exec_failure c s :
  ms_definition s = None -> is_begin_effect c = false -> clean_failure s (run (exec c) s).
Proof.
  intros Hnone Hc. destruct c; cbn [exec]; try discriminate Hc; clear Hc;
    first [by apply propose_effect_clean|open_op];
    try (apply atomic_clean; apply _).
  all: walk_failure; try no_checkpoint; rewrite ?Hnone.
  all: try (apply settles_clean; [done|apply _]).
  - unfold checkpoint_route_of. rewrite Hnone; cbn [mbind option_bind].
    destruct (begin_checkpoint_transition_none checkpoint_id now s Hnone) as [Hf Hs].
    unfold clean_failure. by rewrite Hf.
  - unfold checkpoint_route_of in *. by rewrite Hnone in *.
Qed.

(** ** Finality *)
Definition settled (m : Mission) : Prop :=
  stage_is_terminal (ms_stage m) = true /\
  forall e, e ∈ ms_effects m -> effect_is_pending (ef_status e) = false.

Lemma settled_stage m l :
  settled m -> forallb (fun st => negb (stage_is_terminal st)) l = true ->
  is_ok (run (require_stage l) m).1 = false.
Proof.
  intros [Hm _] Hl. destruct (run (require_stage l) m) as [[u|e|] t] eqn:Hr; [|done..].
  unfold require_stage in Hr. inv_ok. split_guards. rewrite forallb_elem_of in Hl.
  match goal with Hin : _ ∈ l |- _ => specialize (Hl _ Hin); by rewrite Hm in Hl end.
Qed.

Lemma settled_effect id m i e :
  settled m -> run (effect_mut id) m = (Ok (i, e), m) -> effect_is_pending (ef_status e) = false.
Proof. intros [_ Hm] Hr. apply Hm. apply effect_mut_Ok in Hr as [Hi _]. by eapply list_elem_of_lookup_2. Qed.

(** Calls that a settled Mission refuses before they write anything. *)
Class Refused {A} (m : SR Mission MissionError A) : Prop :=
  refused : forall s, settled s -> is_ok (run m s).1 = false /\ (run m s).2 = s.
#[local] Instance bind_refused {A B} (m : SR Mission MissionError A) (k : A -> SR Mission MissionError B) :
  Refused m -> Refused (m ≫= k) | 5.
Proof.
  intros Hm s Hs. specialize (Hm s Hs). unfold mbind, SR_mbind; cbn.
  by destruct (run m s) as [[a|e|] s1]; cbn in *; destruct Hm.
Qed.
#[local] Instance read_only_refused {A B} (m : SR Mission MissionError A) (k : A -> SR Mission MissionError B) :
  ReadOnly m -> (forall a, Refused (k a)) -> Refused (m ≫= k) | 10.
Proof.
  intros Hm Hk s Hs. specialize (Hm s). unfold mbind, SR_mbind; cbn.
  destruct (run m s) as [[a|e|] s1]; cbn in *; subst; [by apply Hk|done..].
Qed.
#[local] Instance on_clone_refused {A} (m : SR Mission MissionError A) : Refused m -> Refused (on_clone m).
Proof. intros Hm s Hs. specialize (Hm s Hs). unfold on_clone; cbn. by destruct (run m s) as [[]], Hm. Qed.
#[local] Instance fail_refused {A} e : Refused (A:=A) (fail e).
Proof. done. Qed.
#[local] Hint Extern 5 (Refused (require_stage _)) =>
  (intros ? ?; split; [by apply settled_stage|apply read_only]) : typeclass_instances.
#[local] Hint Extern 8 (Refused (match ?x with _ => _ end)) => destruct x : typeclass_instances.
#[local] Instance transition_refused id now : Refused (begin_checkpoint_transition id now).
Proof. unfold begin_checkpoint_transition. apply _. Qed.
#[local] Instance complete_refused id c : Refused (complete_checkpoint_validated id c).
Proof. unfold complete_checkpoint_validated. apply _. Qed.
#[local] Instance propose_refused spec now : Refused (propose_effect spec now).
Proof. unfold propose_effect. apply _. Qed.

Lemma refused_unchanged (m : SR Mission MissionError unit) s : settled s -> Refused m -> (run m s).2 = s.
Proof. intros Hs Hm. apply Hm, Hs. Qed.

Lemma pending_status l st :
  forallb effect_is_pending l = true -> st ∈ l -> effect_is_pending st = false -> False.
Proof. intros Hl Hin Hst. rewrite forallb_elem_of in Hl. rewrite (Hl _ Hin) in Hst. done. Qed.

Lemma durable_sources_pending ds st :
  st ∈ durable_sources ds -> effect_is_pending st = false -> st = durable_target ds.
Proof. destruct ds; cbn; rewrite !elem_of_cons, elem_of_nil; intros; destruct_or?; by subst. Qed.

Ltac walk_settled :=
  repeat (apply (walk_read_only (fun s s' => s' = s)); [apply _|done|];
          let r := fresh "r" in let Hr := fresh "Hr" in intros r Hr; inv_run;
          try match goal with
              | p : (_ * _)%type |- _ => destruct p
              | Hs : settled ?m, Hr : run (effect_mut _) ?m = (Ok (_, ?e), _) |- _ =>
                pose proof (settled_effect _ _ _ _ Hs Hr); clear Hr
              end).

Lemma exec_settled c m : settled m -> (run (exec c) m).2 = m.
Proof.
  intros Hm. destruct c; cbn [exec]; try open_op;
    try (apply refused_unchanged; [done|unfold complete_vm04_channel_rebalance_terminal,
      complete_vm07_replan_or_terminal_terminal, complete_vm11_candidate_learning_terminal,
      complete_typed_terminal; apply _]).
  all: walk_settled; split_guards.
  all: try match goal with
    | Hp : effect_is_pending (ef_status ?e) = false, Hs : ef_status ?e = _ |- _ => by rewrite Hs in Hp
    | Hp : effect_is_pending (ef_status ?e) = false, Hs : ef_status ?e ∈ ?l |- _ =>
      destruct (pending_status l _ eq_refl Hs Hp) end.
  - rewrite bool_decide_true; [done|]. by apply durable_sources_pending.
  - destruct Hm as [Hm _]. congruence.
  - destruct Hm as [Hm _]. congruence.
Qed.

(** C17: a call that fails leaves a Mission without a catalog definition
    exactly as it was, for every operation except [begin_effect] (which
    records the expiry of an approval while it fails). *)
Theorem failed_calls_leave_no_trace c m :
  ms_definition m = None -> is_begin_effect c = false ->
  is_ok (run (exec c) m).1 = false -> (run (exec c) m).2 = m.
Proof.
  intros Hnone Hc Hf. pose proof (exec_failure c m Hnone Hc) as Hp. unfold clean_failure in Hp.
  by rewrite Hf in Hp.
Qed.

(** A Mission in a terminal stage with no effect left to decide, execute
    or verify is final: no call changes anything about it. *)
Theorem settled_mission_is_final c m : settled m -> (run (exec c) m).2 = m.
Proof. apply exec_settled. Qed.
End ledger.

(** ** Witnesses and concrete failures *)
Import Prelude.Fixture.

Lemma equal_revision_means_equal_state_witness :
  ms_revision Demo.mission <= ms_revision (run (exec (StartResearch [] Demo.t0)) Demo.mission).2.
Proof.
  apply equal_revision_means_equal_state.
  - apply rtc_once, (commit_call _ (StartResearch [] Demo.t0)). by vm_compute.
  - by vm_compute.
Defined.

Lemma calls_advance_revision_without_wrapping_witness :
  ms_revision (run (exec (CancelEffect "effect" Demo.t0)) Demo.proposed).2 <= u64_max.
Proof.
  pose proof (calls_advance_revision_without_wrapping (CancelEffect "effect" Demo.t0) Demo.proposed) as Hc.
  destruct (run _ Demo.proposed) as [r m']. apply Hc. by vm_compute.
Defined.

Lemma failed_calls_leave_no_trace_witness :
  (run (exec (Resume Demo.t0)) Demo.proposed).2 = Demo.proposed.
Proof. apply failed_calls_leave_no_trace; by vm_compute. Defined.

Definition delivered : Mission :=
  (run (exec (RecordOutcome (mkOutcome "delivered" ODStop ∅ (Demo.t0 + 6)))) Demo.verified).2.

Lemma settled_mission_is_final_witness :
  ms_stage delivered = StCompleted /\
  (run (exec (CancelEffect "effect" (Demo.t0 + 7))) delivered).2 = delivered.
Proof.
  split; [by vm_compute|]. apply settled_mission_is_final. split; [by vm_compute|].
  intros e He. assert (forallb (fun e => negb (effect_is_pending (ef_status e))) (ms_effects delivered) = true)
    as Hall by (by vm_compute).
  rewrite forallb_elem_of in Hall. by apply negb_true_iff, Hall.
Defined.

(** Terminating does not settle the effects: a Mission that was cancelled
    while an effect was still proposed is Running again, with a fresh
    revision, as soon as that effect is cancelled or approved. *)
Theorem cancelled_mission_is_reopened :
  let cancelled := (run (exec (Terminate DCancelled (Demo.t0 + 2))) Demo.proposed).2 in
  ms_stage cancelled = StCancelled /\
  ms_stage (run (exec (CancelEffect "effect" (Demo.t0 + 3))) cancelled).2 = StRunning /\
  ms_stage (run (exec (ApproveEffect "effect" Demo.approval)) cancelled).2 = StRunning /\
  is_ok (run (exec (BeginEffect "effect" (Demo.t0 + 3)))
           (run (exec (ApproveEffect "effect" Demo.approval)) cancelled).2).1 = true.
Proof. by vm_compute. Qed.

(** [begin_effect] on a lapsed approval fails, yet the effect is now
    Expired while the revision is unchanged. *)
Theorem lapsed_begin_writes_without_revision :
  let '(r, m) := run (exec (BeginEffect "effect" (Demo.t0 + 2 * Demo.hour))) Demo.approved in
  is_err r = true /\ (ef_status <$> ms_effects m) = [EExpired] /\
  (ef_status <$> ms_effects Demo.approved) = [EApproved] /\
  ms_revision m = ms_revision Demo.approved.
Proof. by vm_compute. Qed.
