(* ===== verification/MissionOutcome.v ===== *)
(** * Outcomes and cycles

    The order of the outcome history, what has to be true when an outcome is
    recorded, and which stage the Mission enters next
    ([record_outcome], [next_stage_after_outcome], [start_scheduled_cycle] of
    [domain-kernel/src/mission.rs]). *)
From S2P Require Import Prelude Money Contract MissionTypes WorkProduct Effect Checkpoint.
From S2P Require Import Terminal Mission MissionMachine MissionFixture MissionLedger.

Definition history (m : Mission) : list Outcome * option Outcome := (ms_outcome_history m, ms_outcome m).

Section outcome.
Context `{Chrono} `{Sha256} `{SerdeScope}.

#[local] Instance set_catalog_history st b : Preserves history (set_catalog_checkpoint_status st b).
Proof. unfold set_catalog_checkpoint_status. apply _. Qed.
#[local] Instance skip_history : Preserves history skip_vm11_candidate_learning.
Proof. unfold skip_vm11_candidate_learning. apply _. Qed.
#[local] Instance settle_history now : Preserves history (settle_decision_stage now).
Proof. unfold settle_decision_stage. apply _. Qed.
#[local] Instance transition_history id now : Preserves history (begin_checkpoint_transition id now).
Proof. unfold begin_checkpoint_transition. apply _. Qed.
#[local] Instance complete_history id c : Preserves history (complete_checkpoint_validated id c).
Proof. unfold complete_checkpoint_validated. apply _. Qed.
#[local] Instance terminate_history d now : Preserves history (terminate d now).
Proof. unfold terminate. apply _. Qed.

#[local] Hint Extern 4 (Preserves history (modify _)) =>
  (apply modify_preserves; intros ?; try case_match; reflexivity) : typeclass_instances.

Lemma exec_history c :
  (forall o, c <> RecordOutcome o) -> Preserves history (exec c).
Proof.
  intros Hc. destruct c; try (exfalso; by eapply Hc); clear Hc; cbn [exec]; try open_op;
    unfold complete_vm04_channel_rebalance_terminal, complete_vm07_replan_or_terminal_terminal,
      complete_vm11_candidate_learning_terminal, complete_typed_terminal, propose_effect; apply _.
Qed.
(** The conditions under which an outcome is accepted, and what it writes. *)
Record outcome_accepted (o : Outcome) (m m' : Mission) : Prop := {
  oa_stage : ms_stage m ∈ [StRunning; StVerifying; StCycleReviewed];
  oa_summary : trim_is_empty (ou_summary o) = false;
  oa_later : forall p, last (ms_outcome_history m) = Some p -> ou_observed_at p < ou_observed_at o;
  oa_effects : forall e, e ∈ ms_effects m -> effect_is_pending (ef_status e) = false;
  oa_checkpoints : forall d c, ms_definition m = Some d -> c ∈ df_checkpoints d ->
    ck_is_terminal (ck_status c) = true;
  oa_next : next_stage_after_outcome (E:=MissionError) (ms_contract m) (ou_decision o)
    (ou_observed_at o) = Ok (ms_stage m');
  oa_history : ms_outcome_history m' = ms_outcome_history m ++ [o];
  oa_current : ms_outcome m' = Some o;
  oa_tasks : Forall (fun t => tk_status t = TCompleted \/ tk_status t = TCancelled) (ms_tasks m');
}.

Lemma record_outcome_Ok o m m' :
  run (record_outcome o) m = (Ok tt, m') -> outcome_accepted o m m'.
Proof.
  unfold record_outcome. intros Hr. inv_run.
  match goal with Hs : run (require_stage _) _ = _ |- _ => unfold require_stage in Hs; inv_ok end.
  split_guards. split; cbn; try done.
  - intros p Hp. match goal with Hl : is_some_and _ (last _) = false |- _ => rewrite Hp in Hl; cbn in Hl end. lia.
  - by rewrite existsb_false in *.
  - intros d c Hd Hc. rewrite Hd in *. cbn in *. split_guards.
    rewrite forallb_elem_of in *. auto.
  - rewrite Forall_fmap. apply Forall_forall. intros t _. cbn. case_bool_decide; [by right|by left].
Qed.

Lemma future_authority contract at_ :
  cadence_has_future_authority (E:=MissionError) contract at_ = Ok true ->
  at_ < oc_valid_until contract /\
  exists cadence, oc_cadence contract = Some cadence /\
    (cad_trigger cadence = Interval ->
     exists due, next_interval_due_at (E:=MissionError) cadence at_ = Ok (Some due) /\
       due < oc_valid_until contract).
Proof.
  unfold cadence_has_future_authority. destruct (Z.leb_spec (oc_valid_until contract) at_); [done|].
  destruct (oc_cadence contract) as [cadence|]; [|done]. intros Hf. split; [done|].
  exists cadence. split; [done|]. intros Ht. rewrite Ht in Hf. inv_ok.
  match goal with Hd : next_interval_due_at _ _ = Ok ?d |- _ => destruct d as [due|] end; [|done].
  exists due. split; [done|]. cbn in *. lia.
Qed.

Lemma next_stage_scheduled contract d at_ :
  next_stage_after_outcome (E:=MissionError) contract d at_ = Ok StScheduled ->
  d <> ODStop /\ at_ < oc_valid_until contract /\
  oc_mode contract ∈ [Campaign; ContinuousOperator; ContinuousRelationship] /\
  exists cadence, oc_cadence contract = Some cadence /\
    (cad_trigger cadence = Interval ->
     exists due, next_interval_due_at (E:=MissionError) cadence at_ = Ok (Some due) /\
       due < oc_valid_until contract).
Proof.
  unfold next_stage_after_outcome. case_bool_decide as Hd; [done|]. intros Hn.
  assert (cadence_has_future_authority (E:=MissionError) contract at_ = Ok true) as Hf.
  { destruct (oc_mode contract); inv_ok; repeat case_match; congruence. }
  apply future_authority in Hf as [Hv Hc]. split_and!; try done.
  destruct (oc_mode contract); [..|done]; inv_ok; set_solver.
Qed.

Definition chronological (m : Mission) : Prop :=
  StronglySorted Z.lt (ou_observed_at <$> ms_outcome_history m) /\
  ms_outcome m = last (ms_outcome_history m).

Lemma StronglySorted_snoc (l : list Z) x :
  StronglySorted Z.lt l -> (forall y, last l = Some y -> y < x) -> StronglySorted Z.lt (l ++ [x]).
Proof.
  induction 1 as [|a l Hl IH Ha]; intros Hx; cbn; [repeat constructor|].
  destruct (last l) as [z|] eqn:Hz.
  - constructor.
    + apply IH. intros y [= <-]. apply Hx. by rewrite last_cons, Hz.
    + apply Forall_app_2; [done|]. apply Forall_singleton. rewrite Forall_forall in Ha.
      transitivity z; [apply Ha; by eapply last_Some_elem_of|]. apply Hx. by rewrite last_cons, Hz.
  - apply last_None in Hz as ->. cbn. repeat constructor. by apply Hx.
Qed.

Definition outcome_of (c : Command) : option Outcome :=
  match c with RecordOutcome o => Some o | _ => None end.

Lemma record_outcome_cases o m :
  (run (record_outcome o) m).2 = m \/
  outcome_accepted o m (run (record_outcome o) m).2.
Proof.
  assert (Atomic (record_outcome o)) as Ha by (unfold record_outcome; apply _).
  specialize (Ha m). destruct (run (record_outcome o) m) as [[[]|e|] m'] eqn:Hr; cbn in *.
  - right. by apply record_outcome_Ok.
  - left. by apply Ha.
  - left. by apply Ha.
Qed.

Lemma exec_outcome_cases c m :
  history (run (exec c) m).2 = history m \/
  exists o, c = RecordOutcome o /\ outcome_accepted o m (run (exec c) m).2.
Proof.
  destruct (outcome_of c) as [o|] eqn:Ho.
  - destruct c; try discriminate Ho. injection Ho as ->. cbn [exec].
    destruct (record_outcome_cases o m) as [->|Ha]; [by left|right; eauto].
  - left. apply exec_history. intros o ->. discriminate Ho.
Qed.

Lemma exec_chronological c m : chronological m -> chronological (run (exec c) m).2.
Proof.
  intros [Hs Hl]. destruct (exec_outcome_cases c m) as [Hh|(o & _ & Ha)].
  - pose proof (f_equal fst Hh) as Hh1. pose proof (f_equal snd Hh) as Hh2. cbn [fst snd history] in *.
    by split; rewrite ?Hh1, ?Hh2.
  - destruct Ha. split.
    + rewrite oa_history0, fmap_app. apply StronglySorted_snoc; [done|].
      intros y. rewrite fmap_last. intros (p & Hp & ->)%fmap_Some. auto.
    + by rewrite oa_current0, oa_history0, last_snoc.
Qed.

Lemma exec_history_prefix c m : ms_outcome_history m `prefix_of` ms_outcome_history (run (exec c) m).2.
Proof.
  destruct (exec_outcome_cases c m) as [Hh|(o & _ & Ha)].
  - pose proof (f_equal fst Hh) as Hh1. cbn [fst history] in Hh1. by rewrite Hh1.
  - rewrite (oa_history _ _ _ Ha). by eexists.
Qed.

(** The outcome history of every reachable Mission is strictly ordered by
    observation time, its last entry is the current outcome, and no later call
    removes or rewrites an entry. *)
Theorem outcome_history_is_chronological m cs :
  reachable m ->
  StronglySorted Z.lt (ou_observed_at <$> ms_outcome_history m) /\
  ms_outcome m = last (ms_outcome_history m) /\
  ms_outcome_history m `prefix_of` ms_outcome_history (exec_all cs m).
Proof.
  intros Hm. assert (chronological m) as [Hs Hl].
  { induction Hm as [m Hc|m c _ IH]; [|by apply exec_chronological].
    apply compiled_outcome in Hc as [Hh Ho]. unfold chronological. rewrite Hh, Ho. repeat constructor. }
  split_and!; [done..|]. clear Hm Hs Hl. revert m.
  induction cs as [|c cs IH]; intros m; [done|]; cbn.
  etransitivity; [apply exec_history_prefix|apply IH].
Qed.

(** [record_outcome] succeeds only with every effect decided and settled
    and every checkpoint completed or skipped; it appends the outcome and
    closes every task. The Mission is scheduled for another cycle only when
    the decision is not to stop, the mode is not a one-off, the contract is
    still in force, and an interval cadence comes due before it lapses. *)
Theorem recorded_outcome_closes_cycle o m m' :
  run (record_outcome o) m = (Ok tt, m') ->
  outcome_accepted o m m' /\
  (ms_stage m' = StScheduled ->
     ou_decision o <> ODStop /\ ou_observed_at o < oc_valid_until (ms_contract m) /\
     oc_mode (ms_contract m) ∈ [Campaign; ContinuousOperator; ContinuousRelationship] /\
     exists cadence, oc_cadence (ms_contract m) = Some cadence /\
       (cad_trigger cadence = Interval ->
        exists due, next_interval_due_at (E:=MissionError) cadence (ou_observed_at o) = Ok (Some due) /\
          due < oc_valid_until (ms_contract m))).
Proof.
  intros Hr. apply record_outcome_Ok in Hr as Ha. split; [done|]. intros Hst.
  pose proof (oa_next _ _ _ Ha) as Hn. rewrite Hst in Hn. by apply next_stage_scheduled.
Qed.
End outcome.

(** ** Witnesses *)
Import Prelude.Fixture.

Lemma outcome_history_is_chronological_witness :
  length (ms_outcome_history delivered) = 1%nat /\
  ms_outcome delivered = last (ms_outcome_history delivered).
Proof.
  split; [by vm_compute|]. apply (outcome_history_is_chronological delivered []).
  apply reach_exec, Demo.mission_runs_reachable.
Defined.

(** A campaign with an hourly cadence. *)
Definition campaign : OperatingContract :=
  mkContract 1 Campaign None "grow" [] "us" "en" "founders" ∅ (zero "USD") "UTC"
    (Some (mkCadence 3600 Demo.t0 Interval ∅)) (gset_to_gmap ApprovalRequired {["web.publish"]}) ∅
    (oc_approval_policy Demo.contract) ["stop"] ["done"] Demo.t0 (Demo.t0 + 3 * Demo.hour) []
    {["web.publish"]} ∅.
Definition campaign_mission : Mission :=
  exec_all [StartResearch [] Demo.t0]
    (Demo.mission_of (compile "tenant" "mission" "project" "Grow" campaign Demo.t0)).
Definition reviewed : Outcome := mkOutcome "cycle reviewed" ODContinue ∅ (Demo.t0 + 10).

Lemma recorded_outcome_closes_cycle_witness :
  let m' := (run (record_outcome reviewed) campaign_mission).2 in
  ms_stage m' = StScheduled /\ outcome_accepted reviewed campaign_mission m' /\
  Demo.t0 + 10 < oc_valid_until campaign.
Proof.
  cbn zeta.
  destruct (recorded_outcome_closes_cycle reviewed campaign_mission
              (run (record_outcome reviewed) campaign_mission).2) as [Ha Hs]; [by vm_compute|].
  split_and!; [by vm_compute|done|]. apply Hs. by vm_compute.
Defined.
