(* ===== verification/MissionDag.v ===== *)
(** * The checkpoint DAG of a catalog Mission

    A Mission compiled from a manifest is reloaded through
    [validate_checkpoint_evidence_scope] of [domain-kernel/src/mission.rs].
    This file shows that whatever sequence of successful calls was made, that
    check passes, at most one checkpoint is ready or under way, and no
    checkpoint has left Pending before its dependencies completed. *)
From S2P Require Import Prelude Money Contract MissionTypes WorkProduct Effect Checkpoint.
From S2P Require Import Terminal Mission MissionMachine MissionFixture MissionLedger.

Section dag.
Context `{Chrono} `{Sha256} `{SerdeScope}.
Implicit Types (d : MissionDefinition) (c : MissionCheckpoint) (l : list MissionCheckpoint).

(** ** Splitting [definition_validate]

    [blank] forgets the progress of a checkpoint; what is left of a definition
    is what its manifest fixed. *)
Definition blank c : MissionCheckpoint :=
  mkCheckpoint (ck_id c) (ck_depends_on c) (ck_route c) CkPending 1 0 None None None.
Definition skeleton d : MissionDefinition :=
  d <| df_checkpoints ::= fmap blank |> <| df_cycle := 1 |>.

(** The conditions on the progress of one checkpoint. *)
Definition waits (status : MissionCheckpointStatus) : bool :=
  match status with CkBlocked | CkWaitingUser | CkWaitingApproval => true | _ => false end.
Definition progress_ok d c : bool :=
  negb (ck_revision c =? 0)
  && negb ((ck_attempt c =? 0) && is_some (ck_started_at c))
  && negb (bool_decide (ck_status c = CkPending)
           && (is_some (ck_started_at c) || is_some (ck_block c) || is_some (ck_completion c)))
  && negb (bool_decide (ck_status c = CkReady) && (is_some (ck_block c) || is_some (ck_completion c)))
  && negb (bool_decide (ck_status c = CkCompleted) && is_none (ck_completion c))
  && negb (negb (bool_decide (ck_status c = CkCompleted)) && is_some (ck_completion c))
  && negb (xorb (waits (ck_status c)) (is_some (ck_block c)))
  && is_none_or (completion_is_valid d c) (ck_completion c).

Lemma checkpoint_is_valid_split d c seen :
  checkpoint_is_valid d c seen = checkpoint_is_valid (skeleton d) (blank c) seen && progress_ok d c.
Proof.
  unfold checkpoint_is_valid, progress_ok, blank, waits.
  cbn [ck_id ck_depends_on ck_route ck_status ck_revision ck_attempt ck_started_at ck_block
       ck_completion skeleton df_capability_ids df_oracle_ids is_some is_none is_none_or].
  rewrite !andb_false_r, !orb_false_r.
  destruct (trim_is_empty (ck_id c)); [done|].
  destruct (is_some_and _ (ck_route c)); [by rewrite !orb_true_r|].
  destruct (contains (ck_depends_on c) (ck_id c)); [by rewrite !orb_true_r|].
  destruct (set_all _ (ck_depends_on c)); [|by rewrite !orb_true_r].
  rewrite !orb_false_r; cbn. rewrite <-!negb_orb.
  by match goal with |- (if ?b then _ else _) = _ => destruct b end.
Qed.

(** The numbers of ready and of active checkpoints. *)
Definition count (p : MissionCheckpoint -> bool) (l : list MissionCheckpoint) : nat :=
  length (List.filter p l).
#[local] Arguments count : simpl never.
Definition is_ready c : bool := bool_decide (ck_status c = CkReady).
Definition is_active c : bool := ck_is_active (ck_status c).

Lemma count_cons p c l : count p (c :: l) = (Nat.b2n (p c) + count p l)%nat.
Proof. unfold count; cbn. by destruct (p c). Qed.

Lemma validate_checkpoints_split d seen r a l res :
  validate_checkpoints d seen r a l = Some res <->
  is_some (validate_checkpoints (skeleton d) seen 0 0 (blank <$> l)) = true /\
  Forall (fun c => progress_ok d c = true) l /\
  res = (r + count is_ready l, a + count is_active l)%nat.
Proof.
  revert seen r a. induction l as [|c l IH]; intros seen r a.
  { cbn. rewrite !Nat.add_0_r. split; [intros [= <-]; by repeat constructor|by intros (_ & _ & ->)]. }
  cbn [validate_checkpoints fmap list_fmap]. rewrite checkpoint_is_valid_split, Forall_cons, !count_cons.
  destruct (checkpoint_is_valid (skeleton d) (blank c) seen); cbn [andb].
  2: { split; [done|by intros [? _]]. }
  destruct (progress_ok d c) eqn:Hp; [|split; [done|naive_solver]].
  rewrite IH. cbn [blank ck_id ck_status]. unfold is_ready, is_active.
  rewrite !Nat.add_assoc. cbn. naive_solver.
Qed.

Definition shape_ok d : Prop := definition_validate (skeleton d) = Ok tt.

Lemma blank_ids (l : list MissionCheckpoint) : ck_id <$> (blank <$> l) = ck_id <$> l.
Proof. by rewrite <-list_fmap_compose. Qed.
Lemma blank_routes (l : list MissionCheckpoint) : omap ck_route (blank <$> l) = omap ck_route l.
Proof. induction l as [|c l IH]; [done|]; cbn. by rewrite IH. Qed.
Lemma blank_count p (l : list MissionCheckpoint) : (forall c, p (blank c) = false) -> count p (blank <$> l) = 0%nat.
Proof. intros Hp. induction l as [|c l IH]; [done|]. cbn [fmap list_fmap]. by rewrite count_cons, Hp. Qed.

Lemma validate_skeleton d :
  (exists a, validate_checkpoints (skeleton d) ∅ 0 0 (blank <$> df_checkpoints d) = Some a /\
             (1 <? Z.of_nat a.1) || (1 <? Z.of_nat a.2) = false) <->
  is_some (validate_checkpoints (skeleton d) ∅ 0 0 (blank <$> df_checkpoints d)) = true.
Proof.
  destruct (validate_checkpoints (skeleton d) ∅ 0 0 (blank <$> df_checkpoints d)) as [a|] eqn:Hv; cbn.
  2: split; [by intros (? & ? & _)|done].
  split; [done|intros _]. exists a. split; [done|].
  apply validate_checkpoints_split in Hv as (_ & _ & ->). by rewrite !blank_count.
Qed.

Lemma validate_counts d :
  (exists a, validate_checkpoints d ∅ 0 0 (df_checkpoints d) = Some a /\
             (1 <? Z.of_nat a.1) || (1 <? Z.of_nat a.2) = false) <->
  is_some (validate_checkpoints (skeleton d) ∅ 0 0 (blank <$> df_checkpoints d)) = true /\
  Forall (fun c => progress_ok d c = true) (df_checkpoints d) /\
  (count is_ready (df_checkpoints d) <= 1)%nat /\ (count is_active (df_checkpoints d) <= 1)%nat.
Proof.
  setoid_rewrite validate_checkpoints_split. split.
  - intros (a & (Hs & Hp & ->) & Hc). cbn in Hc. split_and!; [done..|lia|lia].
  - intros (Hs & Hp & Hr & Ha). eexists. split; [done|]. cbn. lia.
Qed.

Lemma definition_validate_split d :
  definition_validate d = Ok tt <->
  shape_ok d /\ df_cycle d <> 0 /\ Forall (fun c => progress_ok d c = true) (df_checkpoints d) /\
  (count is_ready (df_checkpoints d) <= 1)%nat /\ (count is_active (df_checkpoints d) <= 1)%nat.
Proof.
  unfold shape_ok, definition_validate. rewrite !reject_if_seq, !bind_Ok.
  setoid_rewrite ok_or_Ok. setoid_rewrite reject_if_Ok.
  change (df_checkpoints (skeleton d)) with (blank <$> df_checkpoints d).
  rewrite validate_skeleton, validate_counts, !length_fmap, blank_ids, blank_routes.
  cbn [skeleton df_manifest_id df_manifest_version df_catalog_digest df_operating_mode
    df_capability_ids df_required_artifact_types df_oracle_ids df_cycle update].
  rewrite !orb_false_iff. assert ((1 =? 0) = false) by done. rewrite (Z.eqb_neq (df_cycle d) 0). tauto.
Qed.
(** ** The invariant of a catalog definition

    [t], [p] and [id] are the identity of the Mission and [R] its revision. *)
Definition in_flight c : bool := is_ready c || is_active c.
Definition evidence_in_scope (t p id : Id) (R : Z) c : Prop :=
  forall evidence, ck_completion c ≫= co_application_evidence = Some evidence ->
    ae_tenant_id evidence = t /\ ae_project_id evidence = p /\ ae_mission_id evidence = id /\
    ae_verification_mission_revision evidence < R.

Section invariant.
Context (t p id : Id).

Record def_inv (R : Z) d : Prop := {
  di_valid : definition_validate d = Ok tt;
  di_single : (count in_flight (df_checkpoints d) <= 1)%nat;
  di_order c : c ∈ df_checkpoints d -> ck_status c <> CkPending ->
    ck_depends_on c ⊆ completed_ids (df_checkpoints d);
  di_scope c : c ∈ df_checkpoints d -> evidence_in_scope t p id R c;
  di_revision c : c ∈ df_checkpoints d -> 1 <= ck_revision c <= R;
  di_routed c : c ∈ df_checkpoints d -> is_Some (ck_route c);
  di_attempt c : c ∈ df_checkpoints d -> 0 <= ck_attempt c; (* a u32 *)
}.

Lemma count_insert f l i c c' :
  l !! i = Some c -> (count f (<[i:=c']> l) + Nat.b2n (f c) = count f l + Nat.b2n (f c'))%nat.
Proof.
  revert i. induction l as [|x l IH]; intros [|i] Hi; try done.
  - injection Hi as ->. change (<[0%nat:=c']> (c :: l)) with (c' :: l). rewrite !count_cons. lia.
  - change (<[S i:=c']> (x :: l)) with (x :: <[i:=c']> l). rewrite !count_cons.
    specialize (IH i Hi). lia.
Qed.

Lemma count_flight l : (count is_ready l <= count in_flight l)%nat /\ (count is_active l <= count in_flight l)%nat.
Proof.
  induction l as [|c l IH]; [done|]. rewrite !count_cons. unfold in_flight at 1 3.
  destruct (is_ready c), (is_active c); cbn; lia.
Qed.

Lemma count_zero f l c : count f l = 0%nat -> c ∈ l -> f c = false.
Proof.
  intros Hz Hc. induction l as [|x l IH]; [by apply elem_of_nil in Hc|].
  rewrite count_cons in Hz. apply elem_of_cons in Hc as [->|Hc].
  - destruct (f x); [cbn in Hz; lia|done].
  - apply IH; [lia|done].
Qed.

Lemma elem_of_completed_ids x l :
  x ∈ completed_ids l <-> exists c, c ∈ l /\ ck_status c = CkCompleted /\ ck_id c = x.
Proof.
  unfold completed_ids. rewrite elem_of_list_to_set, list_elem_of_fmap. split.
  - intros (c & -> & Hc). apply list_elem_of_In, filter_In in Hc as [Hc Hs].
    exists c. rewrite bool_decide_eq_true in Hs. by rewrite list_elem_of_In.
  - intros (c & Hc & Hs & <-). exists c. split; [done|]. apply list_elem_of_In, filter_In.
    by rewrite <-list_elem_of_In, bool_decide_eq_true.
Qed.

Lemma completed_ids_insert l i c c' :
  l !! i = Some c -> ck_status c <> CkCompleted -> completed_ids l ⊆ completed_ids (<[i:=c']> l).
Proof.
  intros Hi Hc x. rewrite !elem_of_completed_ids. intros (y & Hy & Hs & Hx).
  exists y. split_and!; [|done..]. apply list_elem_of_lookup in Hy as [j Hj].
  assert (i <> j) by (intros ->; congruence).
  apply (list_elem_of_lookup_2 _ j). by rewrite list_lookup_insert_ne.
Qed.

Lemma elem_of_insert l (i : nat) c c' x : l !! i = Some c -> x ∈ <[i:=c']> l -> x = c' \/ x ∈ l.
Proof.
  intros Hi [j Hj]%list_elem_of_lookup. destruct (decide (i = j)) as [->|Hne].
  - rewrite list_lookup_insert_eq in Hj by (by eapply lookup_lt_Some). left. congruence.
  - rewrite list_lookup_insert_ne in Hj by done. right. by eapply list_elem_of_lookup_2.
Qed.

(** Replacing one checkpoint that was not completed yet. *)
Lemma def_inv_update R R' d i c c' :
  def_inv R d -> df_checkpoints d !! i = Some c ->
  blank c' = blank c -> progress_ok d c' = true -> ck_status c <> CkCompleted ->
  R <= R' -> ck_revision c' <= R' -> evidence_in_scope t p id R' c' ->
  (in_flight c' = true -> in_flight c = true \/ count in_flight (df_checkpoints d) = 0%nat) ->
  (ck_status c' <> CkPending -> ck_depends_on c' ⊆ completed_ids (df_checkpoints d)) ->
  1 <= ck_revision c' -> 0 <= ck_attempt c' ->
  def_inv R' (d <| df_checkpoints ::= <[i:=c']> |>).
Proof.
  intros [Hv Hs Ho He Hr Hrt Hat] Hi Hb Hp Hc HR Hr' He' Hf' Ho' H1' Ha'.
  pose proof (count_insert in_flight _ _ _ c' Hi) as Hcount.
  assert (count in_flight (<[i:=c']> (df_checkpoints d)) <= 1)%nat as Hs'.
  { destruct (in_flight c'); [|cbn in *; lia].
    destruct Hf' as [Hf|Hf]; [done|rewrite Hf in Hcount; cbn in *; lia|cbn in *; lia]. }
  split; cbn.
  - apply definition_validate_split in Hv as (Hsh & Hcy & Hall & _).
    apply definition_validate_split. pose proof (count_flight (<[i:=c']> (df_checkpoints d))). cbn.
    split_and!; [|done| |lia..].
    + unfold shape_ok in *. replace (skeleton _) with (skeleton d); [done|].
      unfold skeleton; cbn. f_equal. rewrite list_fmap_insert, Hb. symmetry. apply list_insert_id.
      by rewrite list_lookup_fmap, Hi.
    + by apply Forall_insert.
  - done.
  - intros x Hx Hst. etransitivity; [|by eapply completed_ids_insert].
    destruct (elem_of_insert _ _ _ _ _ Hi Hx) as [->|Hx']; auto.
  - intros x Hx ev Hev. destruct (elem_of_insert _ _ _ _ _ Hi Hx) as [->|Hx']; [auto|].
    destruct (He x Hx' ev Hev) as (? & ? & ? & ?). split_and!; [done..|lia].
  - intros x Hx. destruct (elem_of_insert _ _ _ _ _ Hi Hx) as [->|Hx']; [lia|].
    specialize (Hr x Hx'). lia.
  - intros x Hx. destruct (elem_of_insert _ _ _ _ _ Hi Hx) as [->|Hx']; [|auto].
    injection Hb as _ _ ->. apply Hrt. by eapply list_elem_of_lookup_2.
  - intros x Hx. destruct (elem_of_insert _ _ _ _ _ Hi Hx) as [->|Hx']; auto.
Qed.

Lemma def_inv_mono R R' d : R <= R' -> def_inv R d -> def_inv R' d.
Proof.
  intros HR [Hv Hs Ho He Hr Hrt Hat]. split; try done.
  - intros c Hc ev Hev. destruct (He c Hc ev Hev) as (? & ? & ? & ?). split_and!; [done..|lia].
  - intros c Hc. specialize (Hr c Hc). lia.
Qed.
(** ** Progress, by the shape of the checkpoint *)
Lemma progress_none d c :
  ck_completion c = None ->
  progress_ok d c = true <->
  ck_revision c <> 0 /\ (ck_attempt c = 0 -> ck_started_at c = None) /\
  ck_status c <> CkCompleted /\ (ck_status c = CkPending -> ck_started_at c = None) /\
  waits (ck_status c) = is_some (ck_block c).
Proof.
  intros Hc. unfold progress_ok. rewrite Hc. destruct c as [i dep rt st rev att sta blk co].
  cbn [ck_status ck_revision ck_attempt ck_started_at ck_block is_none_or].
  destruct (Z.eqb_spec rev 0), (Z.eqb_spec att 0), st, sta, blk; vm_compute; intuition congruence.
Qed.

Lemma progress_some d c completion :
  ck_completion c = Some completion ->
  progress_ok d c = true <->
  ck_revision c <> 0 /\ (ck_attempt c = 0 -> ck_started_at c = None) /\
  ck_status c = CkCompleted /\ ck_block c = None /\ completion_is_valid d c completion = true.
Proof.
  intros Hc. unfold progress_ok. rewrite Hc. cbn [is_none_or].
  generalize (completion_is_valid d c completion) as v. destruct c as [i dep rt st rev att sta blk co].
  cbn [ck_status ck_revision ck_attempt ck_started_at ck_block].
  destruct (Z.eqb_spec rev 0), (Z.eqb_spec att 0), st, sta, blk, v; vm_compute; intuition congruence.
Qed.

Lemma progress_of R d c : def_inv R d -> c ∈ df_checkpoints d -> progress_ok d c = true.
Proof.
  intros [Hv _ _ _ _ _ _] Hc. apply definition_validate_split in Hv as (_ & _ & Hall & _).
  rewrite Forall_forall in Hall. auto.
Qed.

(** Only completed checkpoints carry a completion. *)
Lemma no_completion R d c :
  def_inv R d -> c ∈ df_checkpoints d -> ck_status c <> CkCompleted -> ck_completion c = None.
Proof.
  intros Hd Hc Hs. pose proof (progress_of _ _ _ Hd Hc) as Hp.
  destruct (ck_completion c) eqn:Hco; [|done].
  apply (progress_some d c _ Hco) in Hp. by destruct Hp as (_ & _ & Hst & _).
Qed.

Lemma evidence_in_scope_none R c : ck_completion c = None -> evidence_in_scope t p id R c.
Proof. intros Hc ev. by rewrite Hc. Qed.

Lemma find_checkpoint_Some f l i c :
  find_checkpoint f l = Some (i, c) -> l !! i = Some c /\ f c = true.
Proof. by intros (? & ? & _)%list_find_Some. Qed.

(** A move of a checkpoint that carries no completion before or after. *)
Lemma def_inv_move R R' d i c c' :
  def_inv R d -> df_checkpoints d !! i = Some c ->
  blank c' = blank c -> ck_status c <> CkCompleted -> ck_completion c' = ck_completion c ->
  ck_status c' <> CkCompleted -> (ck_attempt c' = 0 -> ck_started_at c' = None) ->
  (ck_status c' = CkPending -> ck_started_at c' = None) ->
  waits (ck_status c') = is_some (ck_block c') ->
  (in_flight c' = true -> in_flight c = true \/ count in_flight (df_checkpoints d) = 0%nat) ->
  (ck_status c' <> CkPending -> ck_depends_on c' ⊆ completed_ids (df_checkpoints d)) ->
  ck_revision c' = ck_revision c + 1 -> R <= R' -> ck_revision c' <= R' -> 0 <= ck_attempt c' ->
  def_inv R' (d <| df_checkpoints ::= <[i:=c']> |>).
Proof.
  intros Hd Hi Hb Hc Hco Hc' Ha Hs Hw Hf Ho Hr HR HR' Hat.
  pose proof (list_elem_of_lookup_2 _ _ _ Hi) as Hin.
  pose proof (no_completion _ _ _ Hd Hin Hc) as Hnone.
  pose proof (di_revision _ _ Hd c Hin) as Hrev.
  apply (def_inv_update R R' d i c); try done.
  - apply progress_none; [congruence|]. split_and!; try done. lia.
  - apply evidence_in_scope_none. congruence.
  - lia.
Qed.

(** What the invariant says of a checkpoint that is not completed. *)
Lemma open_checkpoint R d i c :
  def_inv R d -> df_checkpoints d !! i = Some c -> ck_status c <> CkCompleted ->
  ck_completion c = None /\ (ck_attempt c = 0 -> ck_started_at c = None) /\
  waits (ck_status c) = is_some (ck_block c) /\
  (ck_status c <> CkPending -> ck_depends_on c ⊆ completed_ids (df_checkpoints d)) /\
  1 <= ck_revision c <= R /\ 0 <= ck_attempt c.
Proof.
  intros Hd Hi Hc. pose proof (list_elem_of_lookup_2 _ _ _ Hi) as Hin.
  pose proof (no_completion _ _ _ Hd Hin Hc) as Hnone.
  pose proof (progress_of _ _ _ Hd Hin) as Hp. apply progress_none in Hp as (_ & ? & _ & _ & ?); [|done].
  split_and!; try done.
  - by apply (di_order _ _ Hd).
  - by apply (di_revision _ _ Hd c Hin).
  - by apply (di_revision _ _ Hd c Hin).
  - by apply (di_attempt _ _ Hd).
Qed.

Lemma set_active_status_inv R d st b d' :
  run (set_active_status st b) d = (Ok tt, d') -> ck_is_active st = true -> waits st = is_some b ->
  def_inv R d -> def_inv (R + 1) d'.
Proof.
  unfold set_active_status. intros Hr Ha Hw Hd. inv_ok.
  destruct (find_checkpoint _ _) as [[i c]|] eqn:Hf; [|inv_ok].
  apply find_checkpoint_Some in Hf as [Hi Hact]. inv_ok.
  match goal with Hx : checked_add _ _ _ = Some _ |- _ => apply checked_add_Some in Hx as [-> _] end.
  assert (ck_status c <> CkCompleted) as Hc by (intros Hs; by rewrite Hs in Hact).
  destruct (open_checkpoint _ _ _ _ Hd Hi Hc) as (Hno & Hat & _ & Hdep & Hrev & Hatt).
  apply (def_inv_move R (R + 1) d i c); try done; cbn; try lia.
  - by destruct st.
  - by destruct st.
  - intros _. left. unfold in_flight, is_active. by rewrite Hact, orb_true_r.
  - intros _. apply Hdep. intros Hs. by rewrite Hs in Hact.
Qed.

Lemma first_has_no_dependency d c l :
  definition_validate d = Ok tt -> df_checkpoints d = c :: l -> ck_depends_on c = ∅.
Proof.
  unfold definition_validate. intros Hv Hl. inv_ok.
  match goal with Hx : validate_checkpoints _ _ _ _ _ = Some _ |- _ => rename Hx into Hc end.
  rewrite Hl in Hc. cbn [validate_checkpoints] in Hc. destruct (checkpoint_is_valid d c ∅) eqn:Hok; [|done].
  unfold checkpoint_is_valid in Hok. case_match; [done|]. split_guards.
  match goal with Hx : set_all _ (ck_depends_on c) = true |- _ => rewrite set_all_true in Hx; rename Hx into Hall end.
  apply set_eq. intros y. split; [|set_solver]. intros Hy. apply Hall in Hy.
  unfold contains in Hy. by split_guards.
Qed.

Lemma definition_not_empty d : definition_validate d = Ok tt -> df_checkpoints d <> [].
Proof.
  unfold definition_validate. rewrite reject_if_seq. intros [Hg _] Hl. split_guards.
  rewrite Hl in *. done.
Qed.

Lemma start_first_checkpoint_inv R d now d' :
  run (start_first_checkpoint now) d = (Ok tt, d') -> R < u64_max ->
  def_inv R d -> def_inv (R + 1) d'.
Proof.
  unfold start_first_checkpoint. intros Hr HR Hd. inv_ok.
  destruct (df_checkpoints d) as [|c l] eqn:Hl; inv_ok. split_guards.
  assert (df_checkpoints d !! 0%nat = Some c) as Hi by (by rewrite Hl).
  assert (ck_status c = CkReady) as Hready by done.
  destruct (open_checkpoint _ _ _ _ Hd Hi ltac:(congruence)) as (Hno & Hat & Hw & Hdep & Hrev & Hatt).
  rewrite wrapping_succ_small by lia.
  pose proof (first_has_no_dependency _ _ _ (di_valid _ _ Hd) Hl) as Hnodep.
  match goal with |- def_inv _ ?d2 => replace d2 with (d <| df_checkpoints ::= <[0%nat :=
    c <| ck_status := CkRunning |> <| ck_attempt := 1 |> <| ck_started_at := Some now |>
      <| ck_revision := ck_revision c + 1 |>]> |>) end.
  2: { unfold update, update; cbn. by rewrite Hl. }
  apply (def_inv_move R (R + 1) d 0%nat c); try done; cbn; try lia; try congruence.
  - by rewrite <-Hw, Hready.
  - intros _. left. unfold in_flight, is_ready. by rewrite Hready.
  - set_solver.
Qed.

(** ** The next cycle *)
Lemma reset_checkpoints_tail l l' :
  reset_checkpoints false l = (Ok tt, l') ->
  Forall (fun c => ck_status c = CkPending /\ ck_completion c = None /\ ck_attempt c = 0) l' /\
  Forall2 (fun c c' => ck_revision c' = ck_revision c + 1 /\ blank c' = blank c) l l'.
Proof.
  revert l'. induction l as [|c l IH]; intros l' Hr; cbn in Hr.
  { injection Hr as <-. by split. }
  destruct (checked_add _ _ _) as [rev|] eqn:Hrev; [|done].
  apply checked_add_Some in Hrev as [-> _].
  destruct (reset_checkpoints false l) as [r l2]. injection Hr as -> <-.
  destruct (IH l2 eq_refl) as [Hp Hrv]. split; by constructor.
Qed.

Lemma reset_checkpoints_head c l l' :
  reset_checkpoints true (c :: l) = (Ok tt, l') ->
  exists c' l2, l' = c' :: l2 /\ ck_status c' = CkReady /\ ck_completion c' = None /\ ck_attempt c' = 0 /\
    ck_revision c' = ck_revision c + 1 /\ blank c' = blank c /\
    Forall (fun c => ck_status c = CkPending /\ ck_completion c = None /\ ck_attempt c = 0) l2 /\
    Forall2 (fun c c' => ck_revision c' = ck_revision c + 1 /\ blank c' = blank c) l l2.
Proof.
  cbn. intros Hr. destruct (checked_add _ _ _) as [rev|] eqn:Hrev; [|done].
  apply checked_add_Some in Hrev as [-> _].
  destruct (reset_checkpoints false l) as [r l2] eqn:Ht. injection Hr as -> <-.
  apply reset_checkpoints_tail in Ht as [? ?]. eexists _, l2. by split_and!.
Qed.

Lemma count_pending l :
  Forall (fun c => ck_status c = CkPending /\ ck_completion c = None /\ ck_attempt c = 0) l -> count in_flight l = 0%nat.
Proof.
  induction 1 as [|c l [Hc _] _ IH]; [done|]. rewrite count_cons, IH. unfold in_flight, is_ready, is_active.
  by rewrite Hc.
Qed.

Lemma reset_for_next_cycle_inv R d cycle d' :
  run (reset_for_next_cycle cycle) d = (Ok tt, d') ->
  (forall c, c ∈ df_checkpoints d -> 1 <= ck_revision c < R /\ is_Some (ck_route c)) -> def_inv R d'.
Proof.
  unfold reset_for_next_cycle. intros Hr Hrev. inv_run.
  match goal with Hx : run (mkSR _) _ = _ |- _ => cbn in Hx; rename Hx into Hreset end.
  destruct (reset_checkpoints true (df_checkpoints d)) as [r l'] eqn:Hl. injection Hreset as -> <-.
  match goal with |- def_inv R ?d2 => set (d' := d2) end.
  assert (definition_validate d' = Ok tt) as Hv by done.
  destruct (df_checkpoints d) as [|c l] eqn:Hcks.
  { cbn in Hl. injection Hl as <-. by destruct (definition_not_empty _ Hv). }
  apply reset_checkpoints_head in Hl as (c' & l2 & -> & Hs & Hco & Hat & Hr' & Hb & Hp & Hrs).
  assert (df_checkpoints d' = c' :: l2) as Hd' by done.
  split; rewrite ?Hd'; try done.
  - rewrite count_cons, count_pending by done. destruct (in_flight c'); cbn; lia.
  - intros x [->|Hx]%elem_of_cons Hst.
    + rewrite (first_has_no_dependency _ _ _ Hv Hd'). set_solver.
    + rewrite Forall_forall in Hp. by destruct (Hp x Hx).
  - intros x [->|Hx]%elem_of_cons; apply evidence_in_scope_none; [done|].
    rewrite Forall_forall in Hp. by destruct (Hp x Hx) as (_ & ? & _).
  - intros x [->|Hx]%elem_of_cons; [pose proof (Hrev c ltac:(left)); lia|].
    apply list_elem_of_lookup in Hx as [j Hj].
    destruct (Forall2_lookup_r _ _ _ _ _ Hrs Hj) as (y & Hy & Hxy & _).
    pose proof (Hrev y ltac:(right; by eapply list_elem_of_lookup_2)). lia.
  - intros x [->|Hx]%elem_of_cons; [injection Hb as _ _ ->; apply Hrev; left|].
    apply list_elem_of_lookup in Hx as [j Hj].
    destruct (Forall2_lookup_r _ _ _ _ _ Hrs Hj) as (y & Hy & _ & Hbx).
    injection Hbx as _ _ ->. apply Hrev. right. by eapply list_elem_of_lookup_2.
  - intros x [->|Hx]%elem_of_cons; [lia|].
    rewrite Forall_forall in Hp. destruct (Hp x Hx) as (_ & _ & ->). lia.
Qed.
(** ** Completing a checkpoint *)
Definition ids_present : Prop :=
  trim_is_empty t = false /\ trim_is_empty p = false /\ trim_is_empty id = false.

Definition mission_has_ids (m : Mission) : Prop :=
  ms_tenant_id m = t /\ ms_project_id m = p /\ ms_id m = id.

Definition completed_checkpoint c completion (revision : Z) : MissionCheckpoint :=
  c <| ck_status := CkCompleted |> <| ck_completion := Some completion |> <| ck_block := None |>
    <| ck_revision := revision |>.

(** The evidence checked when the checkpoint completes is the evidence checked
    when the Mission is loaded again. *)
Lemma evidence_persists m d c route completion :
  ids_present -> mission_has_ids m -> ck_revision c + 1 <= u64_max ->
  valid_application_checkpoint_evidence m d c route completion = true ->
  valid_persisted_application_checkpoint_evidence d
    (completed_checkpoint c completion (ck_revision c + 1)) route completion = true.
Proof.
  intros (Ht & Hp & Hi) (Et & Ep & Ei) Hrev.
  unfold valid_application_checkpoint_evidence, valid_persisted_application_checkpoint_evidence.
  destruct (negb _); [done|]. destruct (co_application_evidence completion) as [ev|]; [|done].
  intros Hv. split_guards.
  repeat match goal with Hx : ?a = true |- context [?a] => rewrite Hx; clear Hx end.
  rewrite !andb_true_iff, !bool_decide_eq_true, !negb_true_iff, !bool_decide_eq_false.
  split_and!; try done; try congruence.
  apply checked_add_Some; cbn. lia.
Qed.

Lemma completion_persists m d c completion R :
  ids_present -> mission_has_ids m -> ck_revision c + 1 <= u64_max -> ms_revision m < R ->
  is_Some (ck_route c) -> completion_is_invalid m d c completion = false ->
  is_none_or (fun started_at => co_verified_at completion <? started_at) (ck_started_at c) = false ->
  let c' := completed_checkpoint c completion (ck_revision c + 1) in
  completion_is_valid d c' completion = true /\ evidence_in_scope t p id R c'.
Proof.
  intros Hids Hm Hrev HR [route Hroute] Hinv Hst c'. unfold completion_is_invalid in Hinv. split_guards.
  destruct (ck_started_at c) as [started|] eqn:Hs; [|done].
  assert (is_some_and (fun s => s <=? co_verified_at completion) (ck_started_at c') = true) as Hs'
    by (cbn; rewrite Hs; cbn in *; lia).
  unfold completion_is_valid. rewrite Hs'.
  change (ck_route c') with (ck_route c). unfold evidence_in_scope; cbn [ck_completion c' completed_checkpoint update mbind option_bind].
  rewrite Hroute in *; cbn [is_some_and is_none_or] in *; split_guards. split.
  - repeat match goal with Hx : ?a = true |- context [?a] => rewrite Hx; clear Hx end.
    unfold c'. rewrite (evidence_persists m d c route completion) by done.
    rewrite !andb_true_iff, <-!negb_andb, !negb_true_iff, !bool_decide_eq_true, !bool_decide_eq_false.
    by split_and!.
  - intros ev Hev. match goal with Hx : valid_application_checkpoint_evidence _ _ _ _ _ = true |- _ =>
      unfold valid_application_checkpoint_evidence in Hx; rewrite Hev in Hx; rename Hx into Hx0 end.
    destruct (negb _); [done|]. destruct Hm as (<- & <- & <-). split_guards. split_and!; [done..|lia].
Qed.
(** ** The operations on the checkpoints of a Mission *)
Lemma ready_in_flight c : ck_status c = CkReady -> in_flight c = true.
Proof. unfold in_flight, is_ready. by intros ->. Qed.
Lemma active_in_flight c : ck_is_active (ck_status c) = true -> in_flight c = true.
Proof. unfold in_flight, is_active. intros ->. apply orb_true_r. Qed.

Lemma checkpoint_mut_Ok cid m d i c s :
  run (checkpoint_mut cid) m = (Ok (d, i, c), s) ->
  ms_definition m = Some d /\ df_checkpoints d !! i = Some c /\
  find_checkpoint (with_id cid) (df_checkpoints d) = Some (i, c).
Proof.
  unfold checkpoint_mut. intros Hr. inv_ok.
  match goal with Hf : find_checkpoint _ _ = Some ?x |- _ => destruct x as [j y]; cbn in *; simplify_eq end.
  match goal with Hf : find_checkpoint _ _ = Some _ |- _ => apply find_checkpoint_Some in Hf as Hj end.
  by destruct Hj.
Qed.

Ltac checkpoint_found :=
  match goal with
  | Hr : run (checkpoint_mut _) ?m = (Ok (?d, ?i, ?c), _), Hd : ms_definition ?m = Some _ |- _ =>
    apply checkpoint_mut_Ok in Hr as (Hd' & Hi & Hfind); rewrite Hd in Hd'; injection Hd' as <-
  end.
Ltac next_revisions :=
  repeat match goal with
  | Hx : checked_add _ _ _ = Some _ |- _ => apply checked_add_Some in Hx as [-> Hx]
  end.

Lemma begin_checkpoint_transition_inv R cid now m m' d :
  run (begin_checkpoint_transition cid now) m = (Ok tt, m') -> ms_definition m = Some d ->
  def_inv R d ->
  ms_stage m' = StRunning /\ exists d', ms_definition m' = Some d' /\ def_inv (R + 1) d'.
Proof.
  unfold begin_checkpoint_transition. intros Hr Hd Hinv. inv_run.
  match goal with Hs : run (require_stage _) _ = _ |- _ => unfold require_stage in Hs; inv_ok end.
  checkpoint_found. next_revisions. split_guards. split; [cbn; set_solver|].
  eexists. split; [cbn; by rewrite Hd|]. cbn. rewrite !list_insert_insert_eq.
  rename m0 into c.
  destruct (open_checkpoint _ _ _ _ Hinv Hi ltac:(congruence)) as (Hno & Hat & Hw & Hdep & Hrev & Hatt).
  apply (def_inv_move R (R + 1) d n c); try done; cbn; try lia; try congruence.
  - intros _. left. by apply ready_in_flight.
  - intros _. apply Hdep. congruence.
Qed.
Lemma begin_checkpoint_verification_inv R cid now m m' d :
  run (begin_checkpoint_verification cid now) m = (Ok tt, m') -> ms_definition m = Some d ->
  def_inv R d ->
  ms_stage m' = StVerifying /\ exists d', ms_definition m' = Some d' /\ def_inv (R + 1) d'.
Proof.
  unfold begin_checkpoint_verification. intros Hr Hd Hinv. inv_run.
  checkpoint_found. next_revisions. split_guards. split; [done|].
  eexists. split; [cbn; by rewrite Hd|]. cbn. rewrite !list_insert_insert_eq. rename m0 into c.
  assert (ck_status c = CkRunning) as Hrun by done.
  destruct (open_checkpoint _ _ _ _ Hinv Hi ltac:(congruence)) as (Hno & Hat & Hw & Hdep & Hrev & Hatt).
  apply (def_inv_move R (R + 1) d n c); try done; cbn; try lia; try congruence.
  - by rewrite <-Hw, Hrun.
  - intros _. left. apply active_in_flight. by rewrite Hrun.
  - intros _. apply Hdep. congruence.
Qed.

Lemma checkpoint_status_for_mission_stage_Ok stage status :
  checkpoint_status_for_mission_stage stage = Ok status ->
  ck_is_active status = true /\ waits status = true /\ stage <> StScheduled.
Proof. destruct stage; try discriminate; by intros [= <-]. Qed.

Lemma block_checkpoint_inv R cid b stage m m' d :
  run (block_checkpoint cid b stage) m = (Ok tt, m') -> ms_definition m = Some d -> def_inv R d ->
  ms_stage m' <> StScheduled /\ exists d', ms_definition m' = Some d' /\ def_inv (R + 1) d'.
Proof.
  unfold block_checkpoint. intros Hr Hd Hinv. inv_run.
  checkpoint_found. next_revisions. split_guards. rename m0 into c.
  match goal with Hs : checkpoint_status_for_mission_stage _ = Ok _ |- _ =>
    apply checkpoint_status_for_mission_stage_Ok in Hs as (Hact & Hwait & Hst) end.
  split; [done|]. eexists. split; [cbn; by rewrite Hd|]. cbn. rewrite !list_insert_insert_eq.
  assert (ck_is_active (ck_status c) = true) as Ha.
  { match goal with Hin : ck_status c ∈ _ |- _ =>
      rewrite !elem_of_cons, elem_of_nil in Hin; destruct Hin as [->|[->|[]]] end; done. }
  destruct (open_checkpoint _ _ _ _ Hinv Hi) as (Hno & Hat & Hw & Hdep & Hrev & Hatt).
  { intros Hs. by rewrite Hs in Ha. }
  apply (def_inv_move R (R + 1) d n c); try done; cbn; try lia.
  - intros Hs. by rewrite Hs in Ha.
  - intros Hs. by rewrite Hs in Hact.
  - intros Hs. by rewrite Hs in Hact.
  - intros _. left. by apply active_in_flight.
  - intros _. apply Hdep. intros Hs. by rewrite Hs in Ha.
Qed.

Lemma skip_vm11_candidate_learning_inv R m m' d :
  run skip_vm11_candidate_learning m = (Ok tt, m') -> ms_definition m = Some d -> def_inv R d ->
  exists d', ms_definition m' = Some d' /\ def_inv (R + 1) d'.
Proof.
  unfold skip_vm11_candidate_learning. intros Hr Hd Hinv. inv_run.
  checkpoint_found. next_revisions. split_guards. rename m0 into c.
  eexists. split; [cbn; by rewrite Hd|]. cbn. rewrite !list_insert_insert_eq.
  assert (ck_status c = CkReady) as Hready by done.
  destruct (open_checkpoint _ _ _ _ Hinv Hi ltac:(congruence)) as (Hno & Hat & Hw & Hdep & Hrev & Hatt).
  apply (def_inv_move R (R + 1) d n c); try done; cbn; try lia; try congruence.
  intros _. apply Hdep. congruence.
Qed.

Lemma validated_completion m cid completion route d i c :
  validated_checkpoint_completion_route m cid completion = Ok route -> ms_definition m = Some d ->
  find_checkpoint (with_id cid) (df_checkpoints d) = Some (i, c) ->
  completion_is_invalid m d c completion = false.
Proof.
  unfold validated_checkpoint_completion_route. intros Hv Hd Hf. by inv_ok.
Qed.

(** The verified checkpoint becomes Completed. *)
Lemma complete_first_inv R d i c completion :
  def_inv R d -> df_checkpoints d !! i = Some c -> ck_status c = CkVerifying ->
  let c' := completed_checkpoint c completion (ck_revision c + 1) in
  completion_is_valid d c' completion = true -> evidence_in_scope t p id (R + 1) c' ->
  def_inv (R + 1) (d <| df_checkpoints ::= <[i:=c']> |>) /\
  count in_flight (<[i:=c']> (df_checkpoints d)) = 0%nat.
Proof.
  intros Hinv Hi Hver c' Hvalid Hscope.
  destruct (open_checkpoint _ _ _ _ Hinv Hi ltac:(congruence)) as (Hno & Hat & Hw & Hdep & Hrev & Hatt).
  assert (in_flight c = true) as Hfl by (apply active_in_flight; by rewrite Hver).
  split.
  - apply (def_inv_update R (R + 1) d i c); try done; cbn; try lia; try congruence.
    + apply (progress_some d c' completion); [done|]. split_and!; try done. cbn. lia.
    + intros _. apply Hdep. congruence.
  - pose proof (count_insert in_flight _ _ _ c' Hi) as Hc. rewrite Hfl in Hc.
    pose proof (di_single _ _ Hinv). assert (in_flight c' = false) as Hc' by done.
    rewrite Hc' in Hc. cbn in Hc. lia.
Qed.

(** The next pending checkpoint becomes Ready. *)
Lemma complete_next_inv R d j next :
  def_inv R d -> df_checkpoints d !! j = Some next ->
  is_next_pending (completed_ids (df_checkpoints d)) next = true ->
  count in_flight (df_checkpoints d) = 0%nat -> ck_revision next < R ->
  def_inv R (d <| df_checkpoints ::= <[j := next <| ck_status := CkReady |>
                                             <| ck_revision := ck_revision next + 1 |>]> |>).
Proof.
  intros Hinv Hj Hn Hz Hr. unfold is_next_pending in Hn. split_guards.
  assert (ck_status next = CkPending) as Hp by done.
  destruct (open_checkpoint _ _ _ _ Hinv Hj ltac:(congruence)) as (Hno & Hat & Hw & Hdep & Hrev & Hatt).
  apply (def_inv_move R R d j next); try done; cbn; try lia; try congruence.
  - by rewrite <-Hw, Hp.
  - intros _ x Hx. match goal with Hs : set_all _ _ = true |- _ =>
      rewrite set_all_true in Hs; specialize (Hs x Hx); unfold contains in Hs; by split_guards end.
Qed.

Lemma complete_checkpoint_validated_inv R cid completion m m' d :
  run (complete_checkpoint_validated cid completion) m = (Ok tt, m') -> ms_definition m = Some d ->
  ids_present -> mission_has_ids m -> R = ms_revision m -> def_inv R d ->
  ms_stage m' <> StScheduled /\ exists d', ms_definition m' = Some d' /\ def_inv (R + 1) d'.
Proof.
  unfold complete_checkpoint_validated. intros Hr Hd Hids Hm HR Hinv. inv_run. rename m0 into c.
  checkpoint_found. next_revisions. split_guards.
  match goal with Hv : validated_checkpoint_completion_route _ _ _ = Ok _ |- _ =>
    pose proof (validated_completion _ _ _ _ _ _ _ Hv Hd Hfind) as Hvalid end.
  assert (is_Some (ck_route c)) as Hroute by (apply (di_routed _ _ Hinv); by eapply list_elem_of_lookup_2).
  destruct (completion_persists m d c completion (ms_revision m + 1)) as [Hcv Hsc]; [done..|lia| |done|done|].
  { done. }
  destruct (complete_first_inv _ d n c completion Hinv Hi) as [Hinv1 Hz]; [done..|].
  set (c2 := completed_checkpoint c completion (ck_revision c + 1)) in *.
  match goal with Hx : run (match find_checkpoint _ (<[n := ?x]> _) with _ => _ end) _ = _ |- _ =>
    change x with c2 in Hx; rename Hx into Hrest end.
  match type of Hrest with context [find_checkpoint ?f ?l] =>
    destruct (find_checkpoint f l) as [[j next]|] eqn:Hnext end; inv_run; cbn.
  - apply find_checkpoint_Some in Hnext as [Hj Hpend]. next_revisions. split; [done|].
    assert (j <> n) as Hne.
    { intros ->. rewrite list_lookup_insert_eq in Hj by (by eapply lookup_lt_Some).
      injection Hj as <-. by vm_compute in Hpend. }
    assert (ck_revision next <= ms_revision m) as Hrn.
    { rewrite list_lookup_insert_ne in Hj by done.
      apply (di_revision _ _ Hinv). by eapply list_elem_of_lookup_2. }
    eexists. split; [by rewrite Hd|]. cbn. rewrite !list_insert_insert_eq.
    exact (complete_next_inv (ms_revision m + 1) (d <| df_checkpoints ::= <[n:=c2]> |>) j next
             Hinv1 Hj Hpend Hz ltac:(lia)).
  - split; [done|]. eexists. split; [by rewrite Hd|]. cbn. by rewrite !list_insert_insert_eq.
Qed.
End invariant.
End dag.
#[global] Arguments count : simpl never.
