(* ===== verification/MissionReload.v ===== *)
(** * Catalog Missions stay loadable

    Every successful command keeps the invariant of [MissionDag], so a Mission
    compiled from a routed manifest always passes
    [validate_checkpoint_evidence_scope], the check made when it is loaded. *)
From S2P Require Import Prelude Money Contract MissionTypes WorkProduct Effect Checkpoint.
From S2P Require Import Terminal Mission MissionMachine MissionFixture MissionLedger.
From S2P Require Import MissionDag.

Section reload.
Context `{Chrono} `{Sha256} `{SerdeScope}.
Implicit Types (m : Mission) (d : MissionDefinition).

Definition mission_def_inv m : Z -> MissionDefinition -> Prop :=
  def_inv (ms_tenant_id m) (ms_project_id m) (ms_id m).

(** The revisions of the checkpoints never run ahead of the Mission's, and are
    strictly behind it between two cycles. *)
Record catalog_ok m d : Prop := {
  co_inv : mission_def_inv m (ms_revision m) d;
  co_idle : ms_stage m = StScheduled ->
    forall c, c ∈ df_checkpoints d -> ck_revision c < ms_revision m;
  co_ids : ids_present (ms_tenant_id m) (ms_project_id m) (ms_id m);
}.

(** What a successful command does to the definition. *)
Definition advances m m' : Prop :=
  forall d, ms_definition m = Some d -> catalog_ok m d ->
    ms_definition m' = Some d \/
    (ms_stage m' <> StScheduled /\
     exists d' K, ms_definition m' = Some d' /\ K <= ms_revision m' /\ mission_def_inv m K d').

Lemma advances_same m m' : ms_definition m' = ms_definition m -> advances m m'.
Proof. intros Hs d Hd _. left. congruence. Qed.

Lemma advances_by m m' :
  ms_revision m < ms_revision m' ->
  (forall d, ms_definition m = Some d -> catalog_ok m d -> ms_stage m' <> StScheduled /\
    exists d', ms_definition m' = Some d' /\ mission_def_inv m (ms_revision m + 1) d') ->
  advances m m'.
Proof.
  intros HR Hd' d Hd Hok. right. destruct (Hd' d Hd Hok) as (? & d' & ? & ?).
  split; [done|]. exists d', (ms_revision m + 1). split_and!; [done|lia|done].
Qed.

Lemma set_catalog_inv t p id R st b s s' d :
  run (set_catalog_checkpoint_status st b) s = (Ok tt, s') -> ms_definition s = Some d ->
  ck_is_active st = true -> waits st = is_some b -> def_inv t p id R d ->
  ms_stage s' = ms_stage s /\ ms_revision s' = ms_revision s /\
  exists d', ms_definition s' = Some d' /\ def_inv t p id (R + 1) d'.
Proof.
  unfold set_catalog_checkpoint_status. intros Hr Hd Ha Hw Hinv. inv_ok. rewrite Hd in *.
  apply run_on_definition in Hr as (d' & Hset & ->). split_and!; [done..|].
  exists d'. split; [done|]. by eapply set_active_status_inv.
Qed.

Lemma set_catalog_stage st b s s' u :
  run (set_catalog_checkpoint_status st b) s = (Ok u, s') ->
  ms_stage s' = ms_stage s /\ (ms_definition s = None -> s' = s).
Proof.
  unfold set_catalog_checkpoint_status. intros Hr. inv_ok.
  destruct (ms_definition s); [|by inv_ok]. by apply run_on_definition in Hr as (d' & Hset & ->).
Qed.

(** One status change of the active checkpoint, at any point of a command. *)
Lemma set_catalog_advances m s s' m' st b :
  run (set_catalog_checkpoint_status st b) s = (Ok tt, s') ->
  ck_is_active st = true -> waits st = is_some b ->
  ms_definition s = ms_definition m -> ms_definition m' = ms_definition s' ->
  ms_stage m' <> StScheduled -> ms_revision m < ms_revision m' -> advances m m'.
Proof.
  intros Hr Ha Hw Hs Hs' Hst HR. apply advances_by; [done|]. intros d Hd Hinv. split; [done|].
  destruct (set_catalog_inv _ _ _ _ _ _ _ _ d Hr ltac:(congruence) Ha Hw (co_inv _ _ Hinv)) as (_ & _ & d' & Hd' & Hi').
  exists d'. split; [congruence|done].
Qed.

Ltac by_set_catalog :=
  match goal with
  | Hr : run (set_catalog_checkpoint_status _ _) ?s = (Ok tt, ?s') |- _ =>
    eapply (set_catalog_advances _ s s'); [exact Hr|done|done|first [reflexivity|assumption]|reflexivity| |done];
    apply set_catalog_stage in Hr as [? _]; cbn in *; try congruence
  end.

Lemma record_receipt_advances id r m m' :
  run (record_receipt id r) m = (Ok tt, m') -> ms_revision m < ms_revision m' -> advances m m'.
Proof. unfold record_receipt. intros Hr HR. inv_run. by_set_catalog. Qed.

Lemma mark_effect_uncertain_advances id now m m' :
  run (mark_effect_uncertain id now) m = (Ok tt, m') -> ms_revision m < ms_revision m' -> advances m m'.
Proof. unfold mark_effect_uncertain. intros Hr HR. inv_run. by_set_catalog. Qed.

Lemma mark_effect_failed_advances id now m m' :
  run (mark_effect_failed id now) m = (Ok tt, m') -> ms_revision m < ms_revision m' -> advances m m'.
Proof. unfold mark_effect_failed. intros Hr HR. inv_run. by_set_catalog. Qed.

Lemma continue_advances id now m m' :
  run (continue_after_verified_effect id now) m = (Ok tt, m') -> ms_revision m < ms_revision m' ->
  advances m m'.
Proof. unfold continue_after_verified_effect. intros Hr HR. inv_run. by_set_catalog. Qed.

Lemma resume_advances now m m' :
  run (resume now) m = (Ok tt, m') -> ms_revision m < ms_revision m' -> advances m m'.
Proof. unfold resume. intros Hr HR. inv_run. by_set_catalog. Qed.

Lemma record_verification_advances id v m m' :
  run (record_verification id v) m = (Ok tt, m') -> ms_revision m < ms_revision m' -> advances m m'.
Proof.
  unfold record_verification. intros Hr HR. cbn zeta in Hr. inv_run.
  match goal with Hx : run (if bool_decide ?b then _ else _) _ = _ |- _ => destruct (bool_decide b) eqn:Hb end;
    inv_run.
    all: by_set_catalog.
  all: (case_match; congruence).
Qed.

Lemma propose_effect_advances spec now u m m' :
  run (propose_effect spec now) m = (Ok u, m') -> ms_revision m < ms_revision m' -> advances m m'.
Proof.
  unfold propose_effect. intros Hr HR. cbn zeta in Hr. inv_run.
  match goal with Hx : run (if is_some ?b then _ else _) _ = _ |- _ => destruct (is_some b) eqn:Hb end; inv_run.
  - by_set_catalog.
  - by apply advances_same.
Qed.

Lemma block_advances b stage m m' :
  run (block b stage) m = (Ok tt, m') -> ms_revision m < ms_revision m' -> advances m m'.
Proof.
  unfold block. intros Hr HR. inv_run. split_guards.
  match goal with Hx : run (if is_some ?b then _ else _) _ = _ |- _ => destruct (is_some b) eqn:Hb end; inv_run.
  - match goal with Hs : checkpoint_status_for_mission_stage _ = Ok _ |- _ =>
      apply checkpoint_status_for_mission_stage_Ok in Hs as (Hact & Hwait & Hst) end.
    by_set_catalog.
  - by apply advances_same.
Qed.

Lemma settle_decision_advances now s m m' :
  run (settle_decision_stage now) s = (Ok tt, m') -> ms_definition s = ms_definition m ->
  ms_revision m < ms_revision m' -> advances m m'.
Proof.
  unfold settle_decision_stage. intros Hr Hs HR. inv_run.
  match goal with Hx : run (if ?b then _ else _) _ = _ |- _ => destruct b eqn:Hb end; inv_run.
  - split_guards. by_set_catalog.
  - by apply advances_same.
Qed.

Lemma approve_effect_advances id a m m' :
  run (approve_effect id a) m = (Ok tt, m') -> ms_revision m < ms_revision m' -> advances m m'.
Proof.
  unfold approve_effect. intros Hr HR. inv_run. by eapply settle_decision_advances.
Qed.
Lemma cancel_effect_advances id now m m' :
  run (cancel_effect id now) m = (Ok tt, m') -> ms_revision m < ms_revision m' -> advances m m'.
Proof.
  unfold cancel_effect. intros Hr HR. inv_run. by eapply settle_decision_advances.
Qed.

(** ** Commands on the checkpoints *)
Lemma ensure_touchable_Ok m : run ensure_touchable m = (Ok tt, m) -> ms_revision m < u64_max.
Proof. intros Hr. apply ensure_touchable_guarded. by rewrite Hr. Qed.

Ltac stage_known :=
  match goal with Hx : run (require_stage _) _ = _ |- _ => unfold require_stage in Hx; inv_ok; split_guards end.

Lemma start_research_advances tasks now m m' :
  run (start_research tasks now) m = (Ok tt, m') -> ms_revision m < ms_revision m' -> advances m m'.
Proof.
  unfold start_research. intros Hr HR. inv_run. apply advances_by; [done|]. intros d Hd Hok.
  rewrite Hd in *. split; [done|].
  match goal with Hx : run (on_definition _ _) _ = _ |- _ => apply run_on_definition in Hx as (d' & Hs & ->) end.
  exists d'. split; [done|].
  eapply start_first_checkpoint_inv; [done|by apply ensure_touchable_Ok|apply Hok].
Qed.

Lemma start_scheduled_cycle_advances cycle tasks now m m' :
  run (start_scheduled_cycle cycle tasks now) m = (Ok tt, m') -> ms_revision m < ms_revision m' ->
  advances m m'.
Proof.
  unfold start_scheduled_cycle. intros Hr HR. inv_run. stage_known. apply advances_by; [done|]. intros d Hd Hok.
  rewrite Hd in *. split; [done|].
  match goal with Hx : run (on_definition _ _) _ = _ |- _ => apply run_on_definition in Hx as (d' & Hs & ->) end.
  exists d'. split; [done|]. inv_run.
  eapply start_first_checkpoint_inv; [done|by apply ensure_touchable_Ok|].
  eapply reset_for_next_cycle_inv; [done|]. destruct Hok as [Hinv Hidle _]. intros c Hc.
  pose proof (di_revision _ _ _ _ _ Hinv c Hc). pose proof (di_routed _ _ _ _ _ Hinv c Hc).
  specialize (Hidle ltac:(set_solver) c Hc). split; [lia|done].
Qed.

Lemma transition_advances cid now m m' :
  run (begin_checkpoint_transition cid now) m = (Ok tt, m') -> ms_revision m < ms_revision m' ->
  advances m m'.
Proof.
  intros Hr HR. apply advances_by; [done|]. intros d Hd Hok.
  destruct (begin_checkpoint_transition_inv _ _ _ _ _ _ _ _ _ Hr Hd (co_inv _ _ Hok)) as (-> & d' & ? & ?).
  split; [done|]. by exists d'.
Qed.

Lemma begin_checkpoint_advances cid now m m' :
  run (begin_checkpoint cid now) m = (Ok tt, m') -> ms_revision m < ms_revision m' -> advances m m'.
Proof.
  unfold begin_checkpoint. intros Hr HR. inv_run. destruct (checkpoint_route_of _ _); [inv_run|].
  by eapply transition_advances.
Qed.

Lemma begin_checkpoint_with_task_advances cid task now m m' :
  run (begin_checkpoint_with_task cid task now) m = (Ok tt, m') -> ms_revision m < ms_revision m' ->
  advances m m'.
Proof.
  unfold begin_checkpoint_with_task. intros Hr HR. inv_run.
  match goal with Hx : run (begin_checkpoint_transition _ _) ?m = (_, ?s) |- _ =>
    apply (transition_advances _ _ m s Hx); exact HR end.
Qed.

Lemma verification_advances cid now m m' :
  run (begin_checkpoint_verification cid now) m = (Ok tt, m') -> ms_revision m < ms_revision m' ->
  advances m m'.
Proof.
  intros Hr HR. apply advances_by; [done|]. intros d Hd Hok.
  destruct (begin_checkpoint_verification_inv _ _ _ _ _ _ _ _ _ Hr Hd (co_inv _ _ Hok)) as (-> & d' & ? & ?).
  split; [done|]. by exists d'.
Qed.

Lemma block_checkpoint_advances cid b stage m m' :
  run (block_checkpoint cid b stage) m = (Ok tt, m') -> ms_revision m < ms_revision m' -> advances m m'.
Proof.
  intros Hr HR. apply advances_by; [done|]. intros d Hd Hok.
  by destruct (block_checkpoint_inv _ _ _ _ _ _ _ _ _ _ Hr Hd (co_inv _ _ Hok)).
Qed.

Lemma complete_validated_advances cid completion m m' :
  run (complete_checkpoint_validated cid completion) m = (Ok tt, m') -> ms_revision m < ms_revision m' ->
  advances m m'.
Proof.
  intros Hr HR. apply advances_by; [done|]. intros d Hd Hok.
  by destruct (complete_checkpoint_validated_inv _ _ _ _ _ _ _ _ _ Hr Hd (co_ids _ _ Hok) ltac:(done) eq_refl
    (co_inv _ _ Hok)).
Qed.

Lemma complete_checkpoint_advances cid completion m m' :
  run (complete_checkpoint cid completion) m = (Ok tt, m') -> ms_revision m < ms_revision m' ->
  advances m m'.
Proof.
  unfold complete_checkpoint. intros Hr HR. inv_run. by eapply complete_validated_advances.
Qed.

(** ** Typed terminals *)
Lemma bumps_Ok {A} (f : SR Mission MissionError A) `{!Bumps f} `{!Guarded f} m a m' :
  run f m = (Ok a, m') -> 0 <= ms_revision m -> ms_revision m' = ms_revision m + 1.
Proof.
  intros Hr Hm. pose proof (bumps (m:=f) m) as Hb. pose proof (guarded (m:=f) m) as Hg.
  rewrite Hr in *. cbn in *. rewrite Hb. apply wrapping_succ_small. specialize (Hg eq_refl). lia.
Qed.

Lemma terminate_Ok disposition now m m' :
  run (terminate disposition now) m = (Ok tt, m') ->
  ms_definition m' = ms_definition m /\ ms_stage m' = disposition_stage disposition.
Proof. unfold terminate. intros Hr. inv_run. done. Qed.

Lemma typed_terminal_advances cid typed e completion m m' :
  run (complete_typed_terminal cid typed e completion) m = (Ok tt, m') ->
  ms_revision m < ms_revision m' -> advances m m'.
Proof.
  unfold complete_typed_terminal. intros Hr HR. inv_run. apply terminate_Ok in Hr as [Hd' Hst].
  apply advances_by; [done|]. intros d Hd Hok. rewrite Hst, Hd'. split; [done|].
  match goal with Hc : run (complete_checkpoint_validated _ _) _ = _ |- _ =>
    by destruct (complete_checkpoint_validated_inv _ _ _ _ _ _ _ _ _ Hc Hd (co_ids _ _ Hok) ltac:(done)
      eq_refl (co_inv _ _ Hok)) as (_ & ?) end.
Qed.

Lemma next_contract_advances resolution completion m m' :
  run (complete_vm11_next_contract_resolution resolution completion) m = (Ok tt, m') ->
  0 <= ms_revision m < ms_revision m' -> advances m m'.
Proof.
  unfold complete_vm11_next_contract_resolution. intros Hr HR. inv_run.
  match goal with Hc : run (complete_checkpoint_validated _ _) _ = _ |- _ => rename Hc into Hcomplete end.
  case_match; inv_run; [|by apply (complete_validated_advances _ _ _ _ Hcomplete); lia].
  intros d Hd Hok. right.
  destruct (complete_checkpoint_validated_inv _ _ _ _ _ _ _ _ _ Hcomplete Hd (co_ids _ _ Hok) ltac:(done)
    eq_refl (co_inv _ _ Hok)) as (_ & d1 & Hd1 & Hinv1).
  match goal with Hs : run skip_vm11_candidate_learning ?s1 = (_, ?s2) |- _ =>
    destruct (skip_vm11_candidate_learning_inv _ _ _ _ _ _ _ Hs Hd1 Hinv1) as (d2 & Hd2 & Hinv2);
    pose proof (skip_candidate_revision s1) as Hrev; rewrite Hs in Hrev; cbn in Hrev end.
  apply terminate_Ok in Hr as Ht. destruct Ht as [Hd' Hst]. rewrite Hst. split; [done|].
  exists d2, (ms_revision m + 1 + 1). split_and!; [congruence| |done].
  pose proof (bumps_Ok _ _ _ _ Hcomplete ltac:(lia)) as Hr1.
  pose proof (bumps_Ok _ _ _ _ Hr ltac:(lia)) as Hr2. lia.
Qed.

(** ** Every successful command *)
Lemma same_definition (f : SR Mission MissionError unit) m m' :
  Preserves ms_definition f -> run f m = (Ok tt, m') -> advances m m'.
Proof. intros Hf Hr. apply advances_same. specialize (Hf m). by rewrite Hr in Hf. Qed.

#[local] Instance terminate_definition disposition now : Preserves ms_definition (terminate disposition now).
Proof. unfold terminate. apply _. Qed.

Lemma exec_advances c m m' :
  run (exec c) m = (Ok tt, m') -> 0 <= ms_revision m < ms_revision m' -> advances m m'.
Proof.
  intros Hr HR. assert (ms_revision m < ms_revision m') as HR' by lia. destruct c; cbn [exec] in Hr.
  all: lazymatch type of Hr with
  | run (start_research _ _) _ = _ => exact (start_research_advances _ _ _ _ Hr HR')
  | run (start_scheduled_cycle _ _ _) _ = _ => exact (start_scheduled_cycle_advances _ _ _ _ _ Hr HR')
  | run (begin_checkpoint _ _) _ = _ => exact (begin_checkpoint_advances _ _ _ _ Hr HR')
  | run (begin_checkpoint_with_task _ _ _) _ = _ =>
    exact (begin_checkpoint_with_task_advances _ _ _ _ _ Hr HR')
  | run (begin_checkpoint_verification _ _) _ = _ => exact (verification_advances _ _ _ _ Hr HR')
  | run (complete_checkpoint _ _) _ = _ => exact (complete_checkpoint_advances _ _ _ _ Hr HR')
  | run (block_checkpoint _ _ _) _ = _ => exact (block_checkpoint_advances _ _ _ _ _ Hr HR')
  | run (approve_effect _ _) _ = _ => exact (approve_effect_advances _ _ _ _ Hr HR')
  | run (cancel_effect _ _) _ = _ => exact (cancel_effect_advances _ _ _ _ Hr HR')
  | run (record_receipt _ _) _ = _ => exact (record_receipt_advances _ _ _ _ Hr HR')
  | run (mark_effect_uncertain _ _) _ = _ => exact (mark_effect_uncertain_advances _ _ _ _ Hr HR')
  | run (mark_effect_failed _ _) _ = _ => exact (mark_effect_failed_advances _ _ _ _ Hr HR')
  | run (record_verification _ _) _ = _ => exact (record_verification_advances _ _ _ _ Hr HR')
  | run (continue_after_verified_effect _ _) _ = _ => exact (continue_advances _ _ _ _ Hr HR')
  | run (block _ _) _ = _ => exact (block_advances _ _ _ _ Hr HR')
  | run (resume _) _ = _ => exact (resume_advances _ _ _ Hr HR')
  | run (complete_vm11_next_contract_resolution _ _) _ = _ => exact (next_contract_advances _ _ _ _ Hr HR)
  | run (complete_vm04_channel_rebalance_terminal _) _ = _ =>
    exact (typed_terminal_advances _ _ _ _ _ _ Hr HR')
  | run (complete_vm07_replan_or_terminal_terminal _) _ = _ =>
    exact (typed_terminal_advances _ _ _ _ _ _ Hr HR')
  | run (complete_vm11_candidate_learning_terminal _) _ = _ =>
    exact (typed_terminal_advances _ _ _ _ _ _ Hr HR')
  | run (propose_effect _ _ ≫= _) _ = _ =>
    step_inv Hr; inv_run; by eapply propose_effect_advances
  | run (reconcile_durable_provider_state _ ?state _ _) _ = _ =>
    destruct state; notypeclasses refine (same_definition _ _ _ _ Hr); open_op; apply _
  | _ => notypeclasses refine (same_definition _ _ _ _ Hr); open_op; apply _
  end.
Qed.

Lemma commits_catalog m m' d :
  commits m m' -> 0 <= ms_revision m -> ms_definition m = Some d -> catalog_ok m d ->
  exists d', ms_definition m' = Some d' /\ catalog_ok m' d'.
Proof.
  intros Hc Hm Hd Hok. destruct (commits_revision _ _ Hc Hm) as [->|HR]; [by exists d|].
  destruct Hc as [m c m' Hr]. assert (frame m' = frame m) as Hf.
  { pose proof (exec_moves c m) as Hmv. rewrite Hr in Hmv. apply Hmv. }
  injection Hf as Ht Hp Hi _ _.
  assert (advances m m') as Ha by (eapply exec_advances; [done|lia]).
  pose proof Hok as [Hinv Hidle Hids].
  destruct (Ha d Hd Hok) as [Hd'|(Hst & d' & K & Hd' & HK & Hinv')].
  - exists d. split; [done|]. split; unfold mission_def_inv in *; rewrite ?Ht, ?Hp, ?Hi; try done.
    + eapply def_inv_mono; [|done]. lia.
    + intros _ c0 Hc0. pose proof (di_revision _ _ _ _ _ Hinv c0 Hc0). lia.
  - exists d'. split; [done|]. split; unfold mission_def_inv in *; rewrite ?Ht, ?Hp, ?Hi; try done.
    by eapply def_inv_mono.
Qed.

(** ** From the manifest *)
Definition compiled_from_manifest m : Prop :=
  exists tenant id project title contract now manifest version digest mode caps artifacts oracles routes d,
    from_routed_linear_manifest manifest version digest mode caps artifacts oracles routes = Ok d /\
    compile_catalog tenant id project title contract d now = Ok m.

Lemma manifest_tail previous routes :
  Forall (fun c => ck_status c = CkPending /\ ck_completion c = None /\ ck_attempt c = 0)
    (manifest_checkpoints false previous routes) /\
  Forall (fun c => ck_revision c = 1) (manifest_checkpoints false previous routes).
Proof.
  revert previous. induction routes as [|[id route] routes IH]; intros previous; [done|].
  destruct (IH (Some id)). split; by constructor.
Qed.

Lemma manifest_routed first previous (routes : list (string * MissionCheckpointRoute)) c :
  c ∈ manifest_checkpoints first previous ((fun '(id, route) => (id, Some route)) <$> routes) ->
  is_Some (ck_route c).
Proof.
  revert first previous. induction routes as [|[id route] routes IH]; intros first previous; cbn.
  - by intros ?%elem_of_nil.
  - intros [->|Hc]%elem_of_cons; [by eexists|]. by eapply IH.
Qed.

Lemma manifest_def_inv t p i manifest version digest mode caps artifacts oracles routes d :
  from_routed_linear_manifest manifest version digest mode caps artifacts oracles routes = Ok d ->
  def_inv t p i 1 d.
Proof.
  unfold from_routed_linear_manifest, from_manifest_parts. intros Hm. inv_ok.
  match goal with |- def_inv _ _ _ _ ?d => set (def := d) end.
  assert (definition_validate def = Ok tt) as Hv by (by destruct x).
  destruct routes as [|[id route] routes]; [by destruct (definition_not_empty _ Hv)|].
  destruct (manifest_tail (Some id) ((fun '(id, route) => (id, Some route)) <$> routes)) as [Hp Hr].
  split; try done.
  - cbn. rewrite count_cons, count_pending by done. by vm_compute.
  - intros c [->|Hc]%elem_of_cons Hst; [set_solver|].
    rewrite Forall_forall in Hp. by destruct (Hp c Hc).
  - intros c [->|Hc]%elem_of_cons; apply evidence_in_scope_none; [done|].
    rewrite Forall_forall in Hp. by destruct (Hp c Hc) as (_ & ? & _).
  - intros c [->|Hc]%elem_of_cons; [cbn; lia|]. rewrite Forall_forall in Hr. rewrite (Hr c Hc). lia.
  - apply (manifest_routed true None ((id, route) :: routes)).
  - intros c [->|Hc]%elem_of_cons; [cbn; lia|]. rewrite Forall_forall in Hp.
    destruct (Hp c Hc) as (_ & _ & ->). lia.
Qed.

(** Compiling does not check that the three ids are not blank. *)
Definition has_ids m : Prop := ids_present (ms_tenant_id m) (ms_project_id m) (ms_id m).

Lemma compiled_catalog_ok m :
  compiled_from_manifest m -> has_ids m -> exists d, ms_definition m = Some d /\ catalog_ok m d /\ ms_revision m = 1.
Proof.
  intros (tenant & id & project & title & contract & now & manifest & version & digest & mode & caps
          & artifacts & oracles & routes & d & Hd & Hm) Hids.
  unfold compile_catalog, compile in Hm. inv_ok. exists d. split_and!; try done. split; try done.
  by eapply manifest_def_inv.
Qed.

Lemma committed_catalog m m' :
  compiled_from_manifest m -> has_ids m -> rtc commits m m' ->
  exists d, ms_definition m' = Some d /\ catalog_ok m' d.
Proof.
  intros Hm Hids Hr. destruct (compiled_catalog_ok m Hm Hids) as (d & Hd & Hok & Hrev).
  assert (0 <= ms_revision m) as H0' by lia. clear Hm Hids Hrev. revert d Hd Hok H0'.
  induction Hr as [m|m m1 m' Hc Hr IH]; intros d Hd Hok Hnn; [by exists d|].
  destruct (commits_catalog _ _ _ Hc Hnn Hd Hok) as (d1 & Hd1 & Hok1).
  apply (IH d1); [done..|]. destruct (commits_revision _ _ Hc Hnn) as [->|]; lia.
Qed.

(** C12: a Mission compiled from a routed manifest, with tenant, project and
    Mission ids that are not blank, passes after any sequence of successful
    calls the check made when it is loaded again: its definition validates and
    every piece of checkpoint evidence belongs to this Mission and to an
    earlier revision of it. The condition on the ids is the caller's:
    compiling does not check them, and [blank_ids_break_reload] shows that the
    conclusion fails without it. *)
Theorem catalog_missions_stay_loadable m m' :
  compiled_from_manifest m ->
  trim_is_empty (ms_tenant_id m) = false -> trim_is_empty (ms_project_id m) = false ->
  trim_is_empty (ms_id m) = false ->
  rtc commits m m' -> validate_checkpoint_evidence_scope m' = Ok tt.
Proof.
  intros Hm Hit Hip Him Hr. destruct (committed_catalog m m' Hm ltac:(by split_and!) Hr) as (d & Hd & [Hinv _ _]).
  unfold validate_checkpoint_evidence_scope. rewrite Hd, (di_valid _ _ _ _ _ Hinv). cbn [mbind result_mbind].
  destruct (find_checkpoint _ _) as [[i c]|] eqn:Hf; [|done].
  apply find_checkpoint_Some in Hf as [Hi Hbad]. exfalso. unfold evidence_scope_mismatch in Hbad.
  destruct (ck_completion c ≫= co_application_evidence) as [ev|] eqn:Hev; [|done].
  destruct (di_scope _ _ _ _ _ Hinv c ltac:(by eapply list_elem_of_lookup_2) ev Hev) as (Ht & Hp & Hid & Hlt).
  rewrite !bool_decide_true in Hbad by done. cbn in Hbad. lia.
Qed.

(** Along the same runs, from ids that are not blank, the checkpoint DAG is
    respected: at most one
    checkpoint is ready or under way, and a checkpoint that has left Pending
    has all its dependencies completed. *)
Theorem checkpoint_order_is_respected m m' d :
  compiled_from_manifest m -> has_ids m -> rtc commits m m' -> ms_definition m' = Some d ->
  (count in_flight (df_checkpoints d) <= 1)%nat /\
  forall c, c ∈ df_checkpoints d -> ck_status c <> CkPending ->
    ck_depends_on c ⊆ completed_ids (df_checkpoints d).
Proof.
  intros Hm Hids Hr Hd. destruct (committed_catalog m m' Hm Hids Hr) as (d' & Hd' & [Hinv _ _]).
  simplify_eq. split; [by apply (di_single _ _ _ _ _ Hinv)|by apply (di_order _ _ _ _ _ Hinv)].
Qed.
End reload.

(** ** Witnesses and concrete runs *)
Import Prelude.Fixture.

Lemma catalog_compiled : compiled_from_manifest Demo.catalog.
Proof.
  exists "tenant", "mission", "project", "Launch", Demo.contract, Demo.t0, "VM-01", 1, zeros64, BuildOnce,
    {["web.publish"]}, {["page"]}, {["o1"; "o2"]}, Demo.routes, Demo.definition.
  split_and!; by vm_compute.
Qed.

Lemma catalog_has_ids : has_ids Demo.catalog.
Proof. by vm_compute. Qed.

Lemma gathered_committed : rtc commits Demo.catalog Demo.gathered.
Proof. apply exec_all_commits. by vm_compute. Qed.

Lemma catalog_missions_stay_loadable_witness :
  validate_checkpoint_evidence_scope Demo.gathered = Ok tt.
Proof.
  apply (catalog_missions_stay_loadable Demo.catalog).
  - apply catalog_compiled.
  - by vm_compute.
  - by vm_compute.
  - by vm_compute.
  - apply gathered_committed.
Defined.

Lemma checkpoint_order_is_respected_witness :
  exists d, ms_definition Demo.gathered = Some d /\ (count in_flight (df_checkpoints d) <= 1)%nat.
Proof.
  destruct (ms_definition Demo.gathered) as [d|] eqn:Hd; [|by vm_compute in Hd].
  exists d. split; [done|].
  apply (checkpoint_order_is_respected Demo.catalog Demo.gathered d catalog_compiled catalog_has_ids gathered_committed Hd).
Defined.

(** A blank tenant compiles, and the Mission runs until a checkpoint completes
    with evidence of that tenant: every call succeeds, and the result fails
    the check made when it is loaded. *)
Theorem blank_ids_break_reload :
  let blank := Demo.mission_of
    (compile_catalog "" "mission" "project" "Launch" Demo.contract Demo.definition Demo.t0) in
  let calls := take 2 Demo.gathering ++ [CompleteCheckpoint "gather" (Demo.completion "")] in
  ms_tenant_id blank = "" /\ all_succeed calls blank = true /\
  is_ok (validate_checkpoint_evidence_scope blank) = true /\
  is_ok (validate_checkpoint_evidence_scope (exec_all calls blank)) = false.
Proof. by vm_compute. Qed.

(** On a checkpoint without a route the application evidence of a
    completion is not checked: evidence of another tenant is accepted, and
    the Mission then fails the check made when it is loaded. *)
Theorem unrouted_completion_breaks_reload :
  let '(r, m) := run (exec (CompleteCheckpoint "gather" (Demo.completion "intruder")))
    (exec_all [StartResearch [] Demo.t0; BeginCheckpointVerification "gather" (Demo.t0 + 1)]
       Demo.unrouted) in
  r = Ok tt /\ validate_checkpoint_evidence_scope m = Err (InvalidCheckpointCompletion "gather").
Proof. by vm_compute. Qed.

(** [propose_effect] on a catalog Mission with no active checkpoint fails
    after it has recorded the effect, so the failed call leaves a proposed
    effect behind, with the revision unchanged. *)
Theorem failed_proposal_leaves_effect :
  let '(r, m) := run (exec (ProposeEffect Demo.spec (Demo.t0 + 3))) Demo.gathered in
  r = Err InvalidMissionDefinition /\ (ef_status <$> ms_effects m) = [EProposed] /\
  ms_effects Demo.gathered = [] /\ ms_revision m = ms_revision Demo.gathered.
Proof. by vm_compute. Qed.
