(* ===== verification/Digest.v ===== *)
(** * What a digest binds

    The approval digest of an effect and the digest of a checkpoint's
    application evidence hash a sequence of length-prefixed fields
    ([hash_field] of [mission.rs]); other digests of the kernel hash text or
    JSON and are not covered here. The encoding can be decoded, so it is
    injective, and the preimage of an approval digest determines the effect
    that was approved. *)
From S2P Require Import Prelude Money Contract MissionTypes WorkProduct Effect Checkpoint.
From S2P Require Import Terminal Mission MissionMachine MissionFixture Text.
Import Prelude.Fixture.

(** ** Decoding length-prefixed fields *)
Fixpoint split_at (n : nat) (s : string) : option (string * string) :=
  match n, s with
  | O, _ => Some ("", s)
  | S n, String c s => '(a, b) ← split_at n s; Some (String c a, b)
  | S _, EmptyString => None
  end.

(** The number a big-endian byte string stands for. *)
Fixpoint from_be_bytes (acc : Z) (s : string) : Z :=
  match s with
  | EmptyString => acc
  | String c s => from_be_bytes (acc * 256 + byte c) s
  end.

Fixpoint decode_fields (fuel : nat) (s : string) : option (list string) :=
  match fuel, s with
  | _, EmptyString => Some []
  | O, _ => None
  | S fuel, _ =>
    '(len, rest) ← split_at 8 s;
    '(field, rest) ← split_at (Z.to_nat (from_be_bytes 0 len)) rest;
    fields ← decode_fields fuel rest;
    Some (field :: fields)
  end.

Lemma split_at_app a b : split_at (String.length a) (String.append a b) = Some (a, b).
Proof.
  induction a as [|c a IH]; [done|]. change (String.append (String c a) b) with (String c (String.append a b)).
  cbn [split_at String.length]. by rewrite IH.
Qed.

Lemma byte_be_byte n k : byte (be_byte n k) = (n / 2 ^ (8 * k)) mod 256.
Proof.
  unfold byte, be_byte. pose proof (Z.mod_pos_bound (n / 2 ^ (8 * k)) 256 ltac:(lia)).
  rewrite Ascii.N_ascii_embedding by lia. lia.
Qed.

Lemma from_to_be_bytes n : 0 <= n < 2 ^ 64 -> from_be_bytes 0 (to_be_bytes n) = n.
Proof.
  intros Hn. unfold to_be_bytes. cbn [from_be_bytes]. rewrite !byte_be_byte. cbn -[Z.div Z.modulo Z.pow Z.mul Z.add].
  change (2 ^ (8 * 7)) with (2^56). change (2 ^ (8 * 6)) with (2^48). change (2 ^ (8 * 5)) with (2^40).
  change (2 ^ (8 * 4)) with (2^32). change (2 ^ (8 * 3)) with (2^24). change (2 ^ (8 * 2)) with (2^16).
  change (2 ^ (8 * 1)) with (2^8). change (2 ^ (8 * 0)) with 1.
  Z.div_mod_to_equations. lia.
Qed.

Definition short (s : string) : Prop := str_len s < 2 ^ 64.
#[export] Instance short_dec s : Decision (short s).
Proof. unfold short. apply _. Defined.

Lemma decode_step fuel n rest :
  decode_fields (S fuel) (String.append (to_be_bytes n) rest) =
  ('(field, rest) ← split_at (Z.to_nat (from_be_bytes 0 (to_be_bytes n))) rest;
   fields ← decode_fields fuel rest; Some (field :: fields)).
Proof. reflexivity. Qed.

Lemma decode_hash_fields fields fuel :
  Forall short fields -> (length fields <= fuel)%nat -> decode_fields fuel (hash_fields fields) = Some fields.
Proof.
  intros Hs. revert fuel. induction Hs as [|f fields Hf Hs IH]; intros fuel Hfuel; [by destruct fuel|].
  destruct fuel as [|fuel]; [cbn in Hfuel; lia|].
  assert (0 <= str_len f < 2 ^ 64) as Hlen by (unfold short, str_len in *; lia).
  change (hash_fields (f :: fields)) with (String.append (hash_field f) (hash_fields fields)).
  unfold hash_field. rewrite append_append, decode_step, (from_to_be_bytes _ Hlen).
  unfold str_len. rewrite Nat2Z.id, split_at_app. cbn [mbind option_bind]. rewrite IH by (cbn in Hfuel; lia). done.
Qed.

(** C15: the bytes hashed for an approval digest or for the digest of a
    checkpoint's application evidence can be read back. Decoding the
    concatenation of length-prefixed fields, each shorter than 2^64 bytes,
    returns exactly those fields, so no two sequences of fields give the same
    bytes. *)
Theorem hash_fields_decode fields fuel :
  Forall short fields -> (length fields <= fuel)%nat -> decode_fields fuel (hash_fields fields) = Some fields.
Proof. apply decode_hash_fields. Qed.

Lemma hash_fields_inj fs gs : Forall short fs -> Forall short gs -> hash_fields fs = hash_fields gs -> fs = gs.
Proof.
  intros Hf Hg He. set (n := (length fs + length gs)%nat).
  pose proof (decode_hash_fields fs n Hf ltac:(lia)) as H1. pose proof (decode_hash_fields gs n Hg ltac:(lia)) as H2.
  rewrite He, H2 in H1. by injection H1.
Qed.

(** ** Segments of a field list *)
Lemma hash_optional_inj a b l l' : hash_optional a ++ l = hash_optional b ++ l' -> a = b /\ l = l'.
Proof. destruct a, b; cbn; intros He; by simplify_eq. Qed.

Lemma btree_iter_inj X Y : btree_iter X = btree_iter Y -> X = Y.
Proof. intros He. apply set_eq. intros x. by rewrite <-!elem_of_btree_iter, He. Qed.

Lemma length_btree_iter X : length (btree_iter X) = size X.
Proof. unfold btree_iter. by rewrite (Permutation_length (merge_sort_Permutation _ _)). Qed.

Lemma counted_set_inj X Y l l' :
  size X = size Y -> btree_iter X ++ l = btree_iter Y ++ l' -> X = Y /\ l = l'.
Proof.
  intros Hs He. apply app_inj_1 in He as [He ->]; [|by rewrite !length_btree_iter].
  split; [by apply btree_iter_inj|done].
Qed.

Lemma marked_app_inj {A} (P : A -> Prop) (l1 l2 : list A) x y r1 r2 :
  Forall P l1 -> Forall P l2 -> ~ P x -> ~ P y -> l1 ++ x :: r1 = l2 ++ y :: r2 ->
  l1 = l2 /\ x :: r1 = y :: r2.
Proof.
  intros H1. revert l2. induction H1 as [|a l1 Ha H1 IH]; intros l2 H2 Hx Hy He; destruct H2 as [|b l2 Hb H2]; cbn in *.
  - done.
  - by injection He as -> _.
  - by injection He as <- _.
  - injection He as -> He. destruct (IH l2 H2 Hx Hy He) as [-> ?]. done.
Qed.

Lemma option_tag o l : exists tag rest, hash_optional o ++ l = tag :: rest /\ is_sha256 tag = false.
Proof. destruct o; cbn; do 2 eexists; by split. Qed.

(** Digests followed by an optional field: the tag of the option ends them. *)
Lemma digests_inj X Y a b l l' :
  (forall d, d ∈ X -> is_sha256 d = true) -> (forall d, d ∈ Y -> is_sha256 d = true) ->
  btree_iter X ++ hash_optional a ++ l = btree_iter Y ++ hash_optional b ++ l' -> X = Y /\ a = b /\ l = l'.
Proof.
  intros HX HY He. destruct (option_tag a l) as (t1 & r1 & E1 & N1), (option_tag b l') as (t2 & r2 & E2 & N2).
  rewrite E1, E2 in He. apply (marked_app_inj (fun d => is_sha256 d = true)) in He as [He Hr].
  - rewrite <-E1, <-E2 in Hr. apply hash_optional_inj in Hr as [-> ->]. split; [by apply btree_iter_inj|done].
  - apply Forall_forall. intros d Hd. by apply HX, elem_of_btree_iter.
  - apply Forall_forall. intros d Hd. by apply HY, elem_of_btree_iter.
  - by rewrite N1.
  - by rewrite N2.
Qed.

(** ** Approvals

    Formatting an instant and naming an enum lose nothing. *)
Class TextLaws `{Chrono} `{SerdeScope} : Prop := {
  to_rfc3339_inj t u : to_rfc3339 t = to_rfc3339 u -> t = u;
  json_purpose_inj p q : json_purpose p = json_purpose q -> p = q;
  json_channel_inj c d : json_channel c = json_channel d -> c = d;
}.

Section approvals.
Context `{TextLaws} `{Sha256}.
Implicit Types e : Effect.

Lemma effect_class_name_inj a b : effect_class_name a = effect_class_name b -> a = b.
Proof. by destruct a, b. Qed.
Lemma consent_name_inj a b : consent_name a = consent_name b -> a = b.
Proof. by destruct a, b. Qed.
Lemma risk_name_inj a b : risk_name a = risk_name b -> a = b.
Proof. by destruct a, b. Qed.

Definition requirement_fields (o : option ConsentRequirement) : list string :=
  match o with
  | Some requirement =>
    ["consent_requirement"; cr_person_id requirement; json_purpose (cr_purpose requirement);
     json_channel (cr_channel requirement); cr_market requirement]
  | None => ["no_consent_requirement"]
  end.
Definition conversation_fields (o : option ConversationEffectGuard) : list string :=
  match o with
  | Some guard =>
    ["conversation_guard"; cg_conversation_id guard; pretty (cg_control_generation guard); cg_scope_digest guard]
  | None => ["no_conversation_guard"]
  end.
Definition creator_fields (o : option CreatorContactEffectGuard) : list string :=
  match o with
  | Some guard =>
    ["creator_contact_guard"; kg_hiring_id guard; kg_creator_id guard; kg_partner_id guard;
     kg_scope_digest guard; kg_permission_evidence_digest guard]
  | None => ["no_creator_contact_guard"]
  end.

Lemma requirement_fields_inj a b l l' :
  requirement_fields a ++ l = requirement_fields b ++ l' -> a = b /\ l = l'.
Proof.
  destruct a as [[]|], b as [[]|]; cbn; intros He; simplify_eq; [|done].
  repeat match goal with
  | Hx : json_purpose _ = json_purpose _ |- _ => apply json_purpose_inj in Hx
  | Hx : json_channel _ = json_channel _ |- _ => apply json_channel_inj in Hx
  end. by subst.
Qed.
Lemma conversation_fields_inj a b l l' :
  conversation_fields a ++ l = conversation_fields b ++ l' -> a = b /\ l = l'.
Proof. destruct a as [[]|], b as [[]|]; cbn; intros He; by simplify_eq. Qed.
Lemma creator_fields_inj a b l l' : creator_fields a ++ l = creator_fields b ++ l' -> a = b /\ l = l'.
Proof. destruct a as [[]|], b as [[]|]; cbn; intros He; by simplify_eq. Qed.

Lemma rfc3339_option_inj (a b : option DateTime) : to_rfc3339 <$> a = to_rfc3339 <$> b -> a = b.
Proof. destruct a, b; cbn; intros He; simplify_eq; [f_equal; by apply to_rfc3339_inj|done]. Qed.

(** What the digest is about: the scope of the effect and all that was proposed. *)
Definition proposal e := (ef_tenant_id e, ef_project_id e, ef_mission_id e, ef_spec e).
Definition digests_hold e : Prop := forall d, d ∈ es_asset_digests (ef_spec e) -> is_sha256 d = true.

Lemma approval_fields_inj e e' :
  size (es_required_scopes (ef_spec e)) = size (es_required_scopes (ef_spec e')) ->
  digests_hold e -> digests_hold e' -> approval_fields e = approval_fields e' -> proposal e = proposal e'.
Proof.
  destruct e as [t1 p1 m1 s1 ? ? ? ?], e' as [t2 p2 m2 s2 ? ? ? ?]. unfold digests_hold, proposal, approval_fields.
  cbn [ef_tenant_id ef_project_id ef_mission_id ef_spec app]. intros Hsize Hd1 Hd2 He.
  injection He as -> -> -> E1 E2 E3 E4 He.
  apply hash_optional_inj in He as [E5 He]. apply hash_optional_inj in He as [E6 He].
  apply counted_set_inj in He as [E7 He]; [|done]. injection He as E8%effect_class_name_inj E9 E10 He.
  apply hash_optional_inj in He as [E11 He]. injection He as E12 He.
  apply digests_inj in He as (E13 & E14%rfc3339_option_inj & He); [|done..]. injection He as E15 E16%consent_name_inj He.
  apply hash_optional_inj in He as [E17 He]. apply requirement_fields_inj in He as [E18 He].
  apply conversation_fields_inj in He as [E19 He]. apply creator_fields_inj in He as [E20 He].
  injection He as E21 E22%risk_name_inj E23 E24%(inj pretty) E25 E26%to_rfc3339_inj.
  f_equal. destruct s1 as [? ? ? ? ? ? ? ? ? ? ? ? ? ? ? ? ? ? ? ? ? ? ? [] ?], s2 as [? ? ? ? ? ? ? ? ? ? ? ? ? ? ? ? ? ? ? ? ? ? ? [] ?].
  cbn in *. by subst.
Qed.

(** C14: an approval is bound to everything it approves. When two effects with
    valid asset digests and equally many required scopes have the same approval
    digest, they propose exactly the same thing in the same Mission - or their
    two encodings are a collision of SHA-256. *)
Theorem approval_digest_binds_proposal e e' :
  Forall short (approval_fields e) -> Forall short (approval_fields e') ->
  size (es_required_scopes (ef_spec e)) = size (es_required_scopes (ef_spec e')) ->
  digests_hold e -> digests_hold e' -> approval_digest e = approval_digest e' ->
  proposal e = proposal e' \/
  (hash_fields (approval_fields e) <> hash_fields (approval_fields e') /\
   sha256_hex (hash_fields (approval_fields e)) = sha256_hex (hash_fields (approval_fields e'))).
Proof.
  intros Hs Hs' Hsize Hd Hd' He. destruct (decide (hash_fields (approval_fields e) = hash_fields (approval_fields e'))) as [Hx|Hx].
  - left. by apply approval_fields_inj, hash_fields_inj.
  - right. done.
Qed.
End approvals.

Lemma hash_fields_decode_witness : decode_fields 2 (hash_fields ["some"; "a"]) = Some ["some"; "a"].
Proof.
  apply (hash_fields_decode ["some"; "a"] 2); [|cbn; lia]. refine (bool_decide_unpack _ _). by vm_compute.
Defined.

#[export] Instance fixture_text : TextLaws.
Proof. split; cbn; [intros t u He; by apply (inj pretty) in He|by intros [] []|by intros [] []]. Qed.

(** The effect as proposed and after its approval. *)
Lemma approval_digest_binds_proposal_witness :
  let e := Demo.the_effect Demo.proposed in let e' := Demo.the_effect Demo.approved in
  proposal e = proposal e' \/
  (hash_fields (approval_fields e) <> hash_fields (approval_fields e') /\
   sha256_hex (hash_fields (approval_fields e)) = sha256_hex (hash_fields (approval_fields e'))).
Proof.
  refine (approval_digest_binds_proposal (Demo.the_effect Demo.proposed) (Demo.the_effect Demo.approved) _ _ _ _ _ _).
  - refine (bool_decide_unpack _ _). by vm_compute.
  - refine (bool_decide_unpack _ _). by vm_compute.
  - by vm_compute.
  - unfold digests_hold. apply set_all_true. by vm_compute.
  - unfold digests_hold. apply set_all_true. by vm_compute.
  - by vm_compute.
Defined.
