(* ===== verification/Schedule.v ===== *)
(** * The schedule of a future Mission cycle

    Models [MissionSchedule] of [domain-kernel/src/mission_schedule.rs]: the
    record, its validation, and the leased life cycle by which exactly one
    worker triggers the next cycle of a Mission. *)
From S2P Require Import Prelude Money Contract MissionTypes WorkProduct Effect Checkpoint.
From S2P Require Import Terminal Mission.

Definition max_failures : nat := 5.
Definition max_lease_seconds : Z := 15 * 60.

Inductive MissionScheduleStatus : Type :=
| SPending | SLeased | STriggered | SCancelled | SExpired | SDeadLetter.
#[export] Instance MissionScheduleStatus_eq_dec : EqDecision MissionScheduleStatus.
Proof. solve_decision. Defined.

Inductive MissionScheduleFailureClass : Type :=
| FcLeaseExpired | FcCoordinatorRestart | FcRuntimeUnavailable | FcMissionConflict | FcInvalidTrigger.

Record MissionScheduleSignal : Type := mkSignal {
  sg_topic : string;
  sg_event_id_digest : string;
  sg_payload_digest : string;
  sg_observed_at : DateTime;
}.
#[export] Instance MissionScheduleSignal_eq_dec : EqDecision MissionScheduleSignal.
Proof. solve_decision. Defined.

Record MissionScheduleLease : Type := mkLease {
  sl_owner_digest : string;
  sl_token_digest : string;
  sl_generation : Z; (* u64 *)
  sl_claimed_at : DateTime;
  sl_heartbeat_at : DateTime;
  sl_expires_at : DateTime;
}.
#[export] Instance MissionScheduleLease_eta : Eta MissionScheduleLease := fun l =>
  mkLease (sl_owner_digest l) (sl_token_digest l) (sl_generation l) (sl_claimed_at l)
    (sl_heartbeat_at l) (sl_expires_at l).

Record MissionScheduleFailure : Type := mkFailure {
  sf_sequence : Z; (* u32 *)
  sf_class : MissionScheduleFailureClass;
  sf_evidence_digest : string;
  sf_retryable : bool;
  sf_observed_at : DateTime;
}.

Record MissionSchedule : Type := mkSchedule {
  sc_id : Id;
  sc_tenant_id : Id;
  sc_project_id : Id;
  sc_mission_id : Id;
  sc_cycle : Z; (* u64 *)
  sc_scheduled_from_mission_revision : Z; (* u64 *)
  sc_contract_version : Z; (* u64 *)
  sc_definition_cycle : option Z;
  sc_trigger : CadenceTriggerKind;
  sc_interval_seconds : Z; (* u64 *)
  sc_anchor_at : DateTime;
  sc_event_topics : gset string;
  sc_due_at : option DateTime;
  sc_retry_not_before : option DateTime;
  sc_contract_valid_until : DateTime;
  sc_signal : option MissionScheduleSignal;
  sc_status : MissionScheduleStatus;
  sc_lease_generation : Z; (* u64 *)
  sc_lease : option MissionScheduleLease;
  sc_failures : list MissionScheduleFailure;
  sc_revision : Z; (* u64 *)
  sc_created_at : DateTime;
  sc_updated_at : DateTime;
}.
#[export] Instance MissionSchedule_eta : Eta MissionSchedule := fun s =>
  mkSchedule (sc_id s) (sc_tenant_id s) (sc_project_id s) (sc_mission_id s) (sc_cycle s)
    (sc_scheduled_from_mission_revision s) (sc_contract_version s) (sc_definition_cycle s)
    (sc_trigger s) (sc_interval_seconds s) (sc_anchor_at s) (sc_event_topics s) (sc_due_at s)
    (sc_retry_not_before s) (sc_contract_valid_until s) (sc_signal s) (sc_status s)
    (sc_lease_generation s) (sc_lease s) (sc_failures s) (sc_revision s) (sc_created_at s)
    (sc_updated_at s).

Inductive MissionScheduleError : Type :=
| ScOperatingContract (e : OperatingContractError)
| MissionNotScheduled | CadenceMissing | CadenceInvalid | OutcomeMissing | OutsideContractWindow
| CycleOverflow | CycleMismatch | InvalidRecord | NotSignalable | InvalidSignal | SignalAlreadyBound
| NotDue | InvalidLease | LeaseActive | LeaseLost | InvalidFailure | FailureLimitReached
| NotCancellable | NotExpirable | ScRevisionOverflow.

(** ** Validation *)
Definition trigger_shape_is_valid (schedule : MissionSchedule) : bool :=
  match sc_trigger schedule with
  | Interval =>
    (0 <? sc_interval_seconds schedule) && set_is_empty (sc_event_topics schedule)
    && is_some (sc_due_at schedule) && is_none (sc_signal schedule)
  | EventDriven =>
    (sc_interval_seconds schedule =? 0) && negb (set_is_empty (sc_event_topics schedule))
    && is_none (sc_due_at schedule)
  | IntervalOrEvent =>
    (0 <? sc_interval_seconds schedule) && negb (set_is_empty (sc_event_topics schedule))
    && is_some (sc_due_at schedule)
  end.

Definition signal_is_invalid (self : MissionSchedule) (signal : MissionScheduleSignal) : bool :=
  negb (contains (sc_event_topics self) (sg_topic signal))
  || negb (is_sha256 (sg_event_id_digest signal))
  || negb (is_sha256 (sg_payload_digest signal))
  || (sg_observed_at signal <? sc_created_at self)
  || (sc_contract_valid_until self <=? sg_observed_at signal).

(** [failures.iter().enumerate().any(..)], from index [n]. *)
Fixpoint failures_invalid (self : MissionSchedule) (n : Z) (l : list MissionScheduleFailure) : bool :=
  match l with
  | [] => false
  | failure :: rest =>
    negb (sf_sequence failure =? n + 1)
    || negb (is_sha256 (sf_evidence_digest failure))
    || (sf_observed_at failure <? sc_created_at self)
    || failures_invalid self (n + 1) rest
  end.

Definition record_is_invalid (self : MissionSchedule) : bool :=
  trim_is_empty (sc_id self)
  || trim_is_empty (sc_tenant_id self)
  || trim_is_empty (sc_project_id self)
  || trim_is_empty (sc_mission_id self)
  || (sc_cycle self <? 2)
  || (sc_scheduled_from_mission_revision self =? 0)
  || (sc_contract_version self =? 0)
  || is_some_and (fun cycle => negb (bool_decide (checked_add u64_max cycle 1 = Some (sc_cycle self))))
       (sc_definition_cycle self)
  || (sc_contract_valid_until self <=? sc_created_at self)
  || (sc_updated_at self <? sc_created_at self)
  || (sc_revision self =? 0)
  || set_any trim_is_empty (sc_event_topics self)
  || negb (trigger_shape_is_valid self)
  || is_some_and (fun value => sc_contract_valid_until self <=? value) (sc_retry_not_before self)
  || is_some_and (signal_is_invalid self) (sc_signal self)
  || Nat.ltb max_failures (length (sc_failures self))
  || failures_invalid self 0 (sc_failures self).

Definition lease_is_invalid (self : MissionSchedule) (lease : MissionScheduleLease) : bool :=
  negb (sl_generation lease =? sc_lease_generation self)
  || (sl_generation lease =? 0)
  || negb (is_sha256 (sl_owner_digest lease))
  || negb (is_sha256 (sl_token_digest lease))
  || (sl_claimed_at lease <? sc_created_at self)
  || (sl_heartbeat_at lease <? sl_claimed_at lease)
  || (sl_expires_at lease <=? sl_heartbeat_at lease).

Definition schedule_validate (self : MissionSchedule) : result MissionScheduleError unit :=
  reject_if (record_is_invalid self) InvalidRecord;;
  match sc_status self with
  | SPending | SCancelled | SExpired | SDeadLetter => reject_if (is_some (sc_lease self)) InvalidRecord
  | SLeased | STriggered =>
    lease ← ok_or (sc_lease self) InvalidRecord;
    reject_if (lease_is_invalid self lease) InvalidRecord
  end.

Definition is_due (self : MissionSchedule) (now : DateTime) : bool :=
  bool_decide (sc_status self = SPending)
  && (now <? sc_contract_valid_until self)
  && is_none_or (fun retry_at => retry_at <=? now) (sc_retry_not_before self)
  && (is_some (sc_signal self) || is_some_and (fun due_at => due_at <=? now) (sc_due_at self)).

Abbreviation sched_op := (SR MissionSchedule MissionScheduleError) (only parsing).

Section schedule.
Context `{Chrono} `{Sha256}.

(** ** Preparing the next cycle *)
Definition prepare_due_at (cadence : Cadence) (now : DateTime)
    : result MissionScheduleError (option DateTime) :=
  if bool_decide (cad_trigger cadence = EventDriven) then Ok None
  else
    due ← next_interval_due_at cadence now;
    due ← ok_or due CycleOverflow;
    mret (Some due).

Definition prepare (mission : Mission) (now : DateTime) : result MissionScheduleError MissionSchedule :=
  reject_if (negb (bool_decide (ms_stage mission = StScheduled))) MissionNotScheduled;;
  map_err ScOperatingContract (contract_validate (ms_contract mission) now);;
  cadence ← ok_or (oc_cadence (ms_contract mission)) CadenceMissing;
  outcome ← ok_or (last (ms_outcome_history mission)) OutcomeMissing;
  reject_if ((now <? ou_observed_at outcome) || (oc_valid_until (ms_contract mission) <=? now))
    OutsideContractWindow;;
  cycle ← ok_or (value ← try_from_usize u64_max (length (ms_outcome_history mission));
                 checked_add u64_max value 1) CycleOverflow;
  reject_if ((cycle <? 2)
    || is_some_and (fun definition =>
         negb (bool_decide (checked_add u64_max (df_cycle definition) 1 = Some cycle)))
       (ms_definition mission)) CycleMismatch;;
  due_at ← prepare_due_at cadence now;
  reject_if (bool_decide (cad_trigger cadence = Interval)
    && is_some_and (fun due => oc_valid_until (ms_contract mission) <=? due) due_at)
    OutsideContractWindow;;
  let schedule := {|
    sc_id := String.append "mission-schedule:"
               (String.append (ms_id mission) (String.append ":cycle:" (pretty cycle)));
    sc_tenant_id := ms_tenant_id mission;
    sc_project_id := ms_project_id mission;
    sc_mission_id := ms_id mission;
    sc_cycle := cycle;
    sc_scheduled_from_mission_revision := ms_revision mission;
    sc_contract_version := oc_version (ms_contract mission);
    sc_definition_cycle := df_cycle <$> ms_definition mission;
    sc_trigger := cad_trigger cadence;
    sc_interval_seconds := cad_interval_seconds cadence;
    sc_anchor_at := cad_anchor_at cadence;
    sc_event_topics := cad_event_topics cadence;
    sc_due_at := due_at;
    sc_retry_not_before := None;
    sc_contract_valid_until := oc_valid_until (ms_contract mission);
    sc_signal := None;
    sc_status := SPending;
    sc_lease_generation := 0;
    sc_lease := None;
    sc_failures := [];
    sc_revision := 1;
    sc_created_at := now;
    sc_updated_at := now;
  |} in
  schedule_validate schedule;;
  mret schedule.

(** ** Operations *)
Definition sched_validate : sched_op unit := self ← get; lift (schedule_validate self).
Definition sched_ensure_touchable : sched_op unit :=
  self ← get; lift (ok_or (checked_add u64_max (sc_revision self) 1) ScRevisionOverflow);; mret tt.
Definition sched_touch (now : DateTime) (self : MissionSchedule) : MissionSchedule :=
  self <| sc_revision ::= wrapping_succ_u64 |> <| sc_updated_at := now |>.

Definition verify_lease (owner_digest token_digest : string) (generation : Z) (now : DateTime)
    : sched_op unit :=
  self ← get;
  lease ← lift (ok_or (sc_lease self) LeaseLost);
  reject (negb (bool_decide (sc_status self = SLeased))
    || negb (bool_decide (sl_owner_digest lease = owner_digest))
    || negb (bool_decide (sl_token_digest lease = token_digest))
    || negb (sl_generation lease =? generation)
    || (sl_expires_at lease <=? now)) LeaseLost.

Definition signal_event (topic event_id_digest payload_digest : string) (observed_at : DateTime)
    : sched_op bool :=
  sched_validate;;
  self ← get;
  reject (negb (bool_decide (sc_status self = SPending))) NotSignalable;;
  let candidate := mkSignal topic event_id_digest payload_digest observed_at in
  reject (signal_is_invalid self candidate) InvalidSignal;;
  if bool_decide (sc_signal self = Some candidate) then mret false else
  reject (is_some (sc_signal self)) SignalAlreadyBound;;
  sched_ensure_touchable;;
  modify (fun self => sched_touch observed_at (self <| sc_signal := Some candidate |>));;
  sched_validate;;
  mret true.

Definition lease_seconds_invalid (lease_duration : Duration) : bool :=
  negb ((1 <=? num_seconds lease_duration) && (num_seconds lease_duration <=? max_lease_seconds)).

(** The failure recorded when an expired lease is taken over. *)
Definition lease_expired_failure (self : MissionSchedule) (previous : MissionScheduleLease)
    (now : DateTime) : result MissionScheduleError MissionScheduleFailure :=
  sequence ← ok_or (try_from_usize u32_max (length (sc_failures self) + 1)) FailureLimitReached;
  mret (mkFailure sequence FcLeaseExpired
    (sha256_hex (String.append (sl_owner_digest previous) (String.append ":"
      (String.append (sl_token_digest previous) (String.append ":" (pretty (sl_generation previous)))))))
    true now).

Definition claim_takeover (now : DateTime) : sched_op unit :=
  self ← get;
  previous ← lift (ok_or (sc_lease self) InvalidRecord);
  reject (now <? sl_expires_at previous) LeaseActive;;
  failure ← lift (lease_expired_failure self previous now);
  modify (fun self => self <| sc_failures ::= fun l => l ++ [failure] |>);;
  self ← get;
  if Nat.leb max_failures (length (sc_failures self)) then
    sched_ensure_touchable;;
    modify (fun self => sched_touch now (self <| sc_status := SDeadLetter |> <| sc_lease := None |>));;
    fail FailureLimitReached
  else mret tt.

(** The second half of [claim]: issue the lease of the next generation. *)
Definition claim_grant (owner_digest token_digest : string) (lease_duration : Duration) (now : DateTime)
    : sched_op MissionScheduleLease :=
  self ← get;
  generation ← lift (ok_or (checked_add u64_max (sc_lease_generation self) 1) ScRevisionOverflow);
  expires_at ← lift (ok_or (checked_add_signed now lease_duration) InvalidLease);
  reject (sc_contract_valid_until self <=? expires_at) InvalidLease;;
  sched_ensure_touchable;;
  let lease := mkLease owner_digest token_digest generation now now expires_at in
  modify (fun self => sched_touch now
    (self <| sc_status := SLeased |> <| sc_lease_generation := generation |>
          <| sc_lease := Some lease |> <| sc_retry_not_before := None |>));;
  sched_validate;;
  mret lease.

Definition claim (owner_digest token_digest : string) (lease_duration : Duration) (now : DateTime)
    : sched_op MissionScheduleLease :=
  sched_validate;;
  self ← get;
  reject (negb (is_sha256 owner_digest)
    || negb (is_sha256 token_digest)
    || lease_seconds_invalid lease_duration
    || (sc_contract_valid_until self <=? now)) InvalidLease;;
  (if bool_decide (sc_status self = SLeased) then claim_takeover now
   else reject (negb (is_due self now)) NotDue);;
  claim_grant owner_digest token_digest lease_duration now.

Definition heartbeat (owner_digest token_digest : string) (generation : Z) (lease_duration : Duration)
    (now : DateTime) : sched_op unit :=
  sched_validate;;
  verify_lease owner_digest token_digest generation now;;
  reject (lease_seconds_invalid lease_duration) InvalidLease;;
  expires_at ← lift (ok_or (checked_add_signed now lease_duration) InvalidLease);
  self ← get;
  reject (sc_contract_valid_until self <=? expires_at) InvalidLease;;
  sched_ensure_touchable;;
  lease ← lift (ok_or (sc_lease self) InvalidRecord);
  modify (fun self => sched_touch now
    (self <| sc_lease := Some (lease <| sl_heartbeat_at := now |> <| sl_expires_at := expires_at |>) |>));;
  sched_validate.

Definition mark_triggered (owner_digest token_digest : string) (generation : Z) (mission : Mission)
    (now : DateTime) : sched_op unit :=
  sched_validate;;
  verify_lease owner_digest token_digest generation now;;
  self ← get;
  reject (negb (bool_decide (ms_tenant_id mission = sc_tenant_id self))
    || negb (bool_decide (ms_project_id mission = sc_project_id self))
    || negb (bool_decide (ms_id mission = sc_mission_id self))
    || negb (bool_decide (ms_stage mission = StRunning))
    || negb (bool_decide ((value ← try_from_usize u64_max (length (ms_outcome_history mission));
                           checked_add u64_max value 1) = Some (sc_cycle self)))
    || is_some_and (fun definition => negb (df_cycle definition =? sc_cycle self))
         (ms_definition mission)) CycleMismatch;;
  sched_ensure_touchable;;
  modify (fun self => sched_touch now (self <| sc_status := STriggered |>));;
  sched_validate.

Definition record_failure (owner_digest token_digest : string) (generation : Z)
    (class : MissionScheduleFailureClass) (evidence_digest : string) (retryable : bool)
    (retry_at : option DateTime) (now : DateTime) : sched_op unit :=
  sched_validate;;
  verify_lease owner_digest token_digest generation now;;
  self ← get;
  reject (negb (is_sha256 evidence_digest)
    || negb (Bool.eqb retryable
         (is_some_and (fun retry_at => (now <? retry_at) && (retry_at <? sc_contract_valid_until self))
            retry_at))) InvalidFailure;;
  reject (Nat.leb max_failures (length (sc_failures self))) FailureLimitReached;;
  sched_ensure_touchable;;
  sequence ← lift (ok_or (try_from_usize u32_max (length (sc_failures self) + 1)) FailureLimitReached);
  modify (fun self =>
    let self := self <| sc_failures ::= fun l =>
      l ++ [mkFailure sequence class evidence_digest retryable now] |> in
    let self :=
      if retryable && Nat.ltb (length (sc_failures self)) max_failures
      then self <| sc_status := SPending |> <| sc_retry_not_before := retry_at |>
      else self <| sc_status := SDeadLetter |> <| sc_retry_not_before := None |> in
    sched_touch now (self <| sc_lease := None |>));;
  sched_validate.

Definition close_as (status : MissionScheduleStatus) (now : DateTime) (self : MissionSchedule)
    : MissionSchedule :=
  sched_touch now (self <| sc_status := status |> <| sc_lease := None |> <| sc_retry_not_before := None |>).

Definition cancel (evidence_digest : string) (now : DateTime) : sched_op unit :=
  sched_validate;;
  self ← get;
  reject (negb (bool_decide (sc_status self ∈ [SPending; SLeased])) || negb (is_sha256 evidence_digest))
    NotCancellable;;
  sched_ensure_touchable;;
  modify (close_as SCancelled now);;
  sched_validate.

Definition expire (now : DateTime) : sched_op unit :=
  sched_validate;;
  self ← get;
  reject (negb (bool_decide (sc_status self ∈ [SPending; SLeased])) || (now <? sc_contract_valid_until self))
    NotExpirable;;
  sched_ensure_touchable;;
  modify (close_as SExpired now);;
  sched_validate.
End schedule.
