(* ===== verification/ScheduleSafety.v ===== *)
(** * What the schedule guarantees

    Every call on a [MissionSchedule], the finality of its closed states, the
    fencing of stale leases, exclusive claims, the failure budget, and which
    calls are all-or-nothing when the clock does not run backwards. *)
From S2P Require Import Prelude Money Contract MissionTypes WorkProduct Effect Checkpoint.
From S2P Require Import Terminal Mission Schedule MissionMachine MissionFixture MissionLedger.
From S2P Require Import MissionOutcome.

Inductive ScheduleCall : Type :=
| SignalEvent (topic event_id_digest payload_digest : string) (observed_at : DateTime)
| Claim (owner_digest token_digest : string) (lease_duration : Duration) (now : DateTime)
| Heartbeat (owner_digest token_digest : string) (generation : Z) (lease_duration : Duration)
    (now : DateTime)
| MarkTriggered (owner_digest token_digest : string) (generation : Z) (mission : Mission)
    (now : DateTime)
| RecordFailure (owner_digest token_digest : string) (generation : Z)
    (class : MissionScheduleFailureClass) (evidence_digest : string) (retryable : bool)
    (retry_at : option DateTime) (now : DateTime)
| Cancel (evidence_digest : string) (now : DateTime)
| Expire (now : DateTime).

Definition call_time (c : ScheduleCall) : DateTime :=
  match c with
  | SignalEvent _ _ _ now | Claim _ _ _ now | Heartbeat _ _ _ _ now | MarkTriggered _ _ _ _ now
  | RecordFailure _ _ _ _ _ _ _ now | Cancel _ now | Expire now => now
  end.

(** The lease generation a call presents as its proof, if it needs one. *)
Definition presented_generation (c : ScheduleCall) : option Z :=
  match c with
  | Heartbeat _ _ generation _ _ | MarkTriggered _ _ generation _ _
  | RecordFailure _ _ generation _ _ _ _ _ => Some generation
  | _ => None
  end.

Definition is_closed (status : MissionScheduleStatus) : bool :=
  match status with STriggered | SCancelled | SExpired | SDeadLetter => true | _ => false end.

Section schedule_safety.
Context `{Chrono} `{Sha256}.
Implicit Types (s : MissionSchedule).

Definition call (c : ScheduleCall) : SR MissionSchedule MissionScheduleError unit :=
  match c with
  | SignalEvent topic event payload at_ => signal_event topic event payload at_;; mret tt
  | Claim owner token duration now => claim owner token duration now;; mret tt
  | Heartbeat owner token generation duration now => heartbeat owner token generation duration now
  | MarkTriggered owner token generation mission now =>
      mark_triggered owner token generation mission now
  | RecordFailure owner token generation class evidence retryable retry_at now =>
      record_failure owner token generation class evidence retryable retry_at now
  | Cancel evidence now => cancel evidence now
  | Expire now => expire now
  end.
Definition calls (cs : list ScheduleCall) s : MissionSchedule :=
  foldl (fun s c => (run (call c) s).2) s cs.

#[export] Instance sched_validate_read_only : ReadOnly sched_validate.
Proof. unfold sched_validate. apply _. Qed.
#[export] Instance sched_ensure_touchable_read_only : ReadOnly sched_ensure_touchable.
Proof. unfold sched_ensure_touchable. apply _. Qed.
#[export] Instance verify_lease_read_only o t g now : ReadOnly (verify_lease o t g now).
Proof. unfold verify_lease. apply _. Qed.

Lemma sched_validate_Ok s u t : run sched_validate s = (Ok u, t) -> schedule_validate s = Ok tt.
Proof. unfold sched_validate. intros Hr. by inv_run. Qed.

Lemma verify_lease_Ok o tk g now s u t :
  run (verify_lease o tk g now) s = (Ok u, t) ->
  exists lease, sc_lease s = Some lease /\ sc_status s = SLeased /\ sl_owner_digest lease = o /\
    sl_token_digest lease = tk /\ sl_generation lease = g /\ now < sl_expires_at lease.
Proof.
  unfold verify_lease. intros Hr. inv_run. split_guards. eexists. split_and!; [done..|lia|lia].
Qed.

(** ** Closed schedules *)
Class Closed {A} (m : SR MissionSchedule MissionScheduleError A) : Prop :=
  closed : forall s, is_closed (sc_status s) = true -> is_ok (run m s).1 = false /\ (run m s).2 = s.
#[local] Instance bind_closed {A B} (m : SR MissionSchedule MissionScheduleError A)
    (k : A -> SR MissionSchedule MissionScheduleError B) : Closed m -> Closed (m ≫= k) | 5.
Proof.
  intros Hm s Hs. specialize (Hm s Hs). unfold mbind, SR_mbind; cbn.
  by destruct (run m s) as [[a|e|] s1]; cbn in *; destruct Hm.
Qed.
#[local] Instance read_only_closed {A B} (m : SR MissionSchedule MissionScheduleError A)
    (k : A -> SR MissionSchedule MissionScheduleError B) :
  ReadOnly m -> (forall a, Closed (k a)) -> Closed (m ≫= k) | 10.
Proof.
  intros Hm Hk s Hs. specialize (Hm s). unfold mbind, SR_mbind; cbn.
  destruct (run m s) as [[a|e|] s1]; cbn in *; subst; [by apply Hk|done..].
Qed.
#[local] Instance verify_lease_closed o t g now : Closed (verify_lease o t g now).
Proof.
  intros s Hs. split; [|apply read_only].
  destruct (run (verify_lease o t g now) s) as [[u|e|] s1] eqn:Hr; [|done..].
  apply verify_lease_Ok in Hr as (lease & _ & Hst & _). by rewrite Hst in Hs.
Qed.

Lemma not_in_open s : is_closed (sc_status s) = true -> bool_decide (sc_status s ∈ [SPending; SLeased]) = false.
Proof.
  intros Hs. apply bool_decide_eq_false. rewrite !elem_of_cons, elem_of_nil.
  intros [Hx|[Hx|[]]]; by rewrite Hx in Hs.
Qed.
Lemma closed_not_due s now : is_closed (sc_status s) = true -> is_due s now = false.
Proof. unfold is_due. by destruct (sc_status s). Qed.

(** A guard on the state just read that every closed schedule fails. *)
Lemma status_guard_closed {A} (g : MissionSchedule -> bool) e
    (k : MissionSchedule -> SR MissionSchedule MissionScheduleError A) :
  (forall s, is_closed (sc_status s) = true -> g s = true) ->
  Closed (self ← get; reject (g self) e;; k self).
Proof. intros Hg s Hs. cbn. by rewrite (Hg s Hs). Qed.

Lemma claim_closed o t dur now : Closed (claim o t dur now).
Proof.
  unfold claim. apply read_only_closed; [apply _|intros _]. intros s Hs.
  apply (walk_pair (fun p => is_ok p.1 = false /\ p.2 = s)); [apply _|done|intros self Hself].
  apply run_get_Ok in Hself as [-> _].
  apply (walk_pair (fun p => is_ok p.1 = false /\ p.2 = s)); [apply _|done|intros _ _].
  rewrite bool_decide_false by (intros Hx; by rewrite Hx in Hs).
  apply (walk_pair (fun p => is_ok p.1 = false /\ p.2 = s)); [apply _|done|intros u Hr].
  inv_run. rewrite closed_not_due in *; done.
Qed.

#[local] Hint Resolve claim_closed : typeclass_instances.
Lemma call_closed c : Closed (call c).
Proof.
  destruct c; cbn [call].
  - unfold signal_event. apply bind_closed, read_only_closed; [apply _|intros _].
    apply (status_guard_closed (fun s => negb (bool_decide (sc_status s = SPending)))).
    intros s Hs. by destruct (sc_status s).
  - apply _.
  - unfold heartbeat. apply _.
  - unfold mark_triggered. apply _.
  - unfold record_failure. apply _.
  - unfold cancel. apply read_only_closed; [apply _|intros _].
    apply (status_guard_closed (fun s => negb (bool_decide (sc_status s ∈ [SPending; SLeased]))
                                         || negb (is_sha256 evidence_digest))).
    intros s Hs. by rewrite not_in_open.
  - unfold expire. apply read_only_closed; [apply _|intros _].
    apply (status_guard_closed (fun s => negb (bool_decide (sc_status s ∈ [SPending; SLeased]))
                                         || (now <? sc_contract_valid_until s))).
    intros s Hs. by rewrite not_in_open.
Qed.

(** ** Lease generations *)
Class GenLe {A} (m : SR MissionSchedule MissionScheduleError A) : Prop :=
  gen_le : forall s, sc_lease_generation s <= sc_lease_generation (run m s).2.
#[local] Instance preserves_gen_le {A} (m : SR MissionSchedule MissionScheduleError A) :
  Preserves sc_lease_generation m -> GenLe m | 5.
Proof. intros Hm s. rewrite Hm. lia. Qed.
#[local] Instance bind_gen_le {A B} (m : SR MissionSchedule MissionScheduleError A)
    (k : A -> SR MissionSchedule MissionScheduleError B) :
  GenLe m -> (forall a, GenLe (k a)) -> GenLe (m ≫= k) | 10.
Proof.
  intros Hm Hk s. specialize (Hm s). unfold mbind, SR_mbind; cbn.
  destruct (run m s) as [[a|e|] s1]; cbn in *; [|done..]. specialize (Hk a s1). lia.
Qed.
#[local] Instance claim_takeover_generation now : Preserves sc_lease_generation (claim_takeover now).
Proof. unfold claim_takeover. apply _. Qed.
#[local] Hint Extern 4 (Preserves sc_lease_generation (modify _)) =>
  (apply modify_preserves; intros ?; cbn; repeat case_match; reflexivity) : typeclass_instances.

Lemma claim_gen_le o t dur now : GenLe (claim o t dur now).
Proof.
  unfold claim. do 4 (apply bind_gen_le; [apply _|intros ?]). unfold claim_grant. intros s.
  repeat (apply (walk_read_only (fun s s' => sc_lease_generation s <= sc_lease_generation s'));
    [apply _|lia|intros ? ?; inv_run]).
  match goal with Hx : checked_add _ _ _ = Some _ |- _ => apply checked_add_Some in Hx as [-> _] end.
  rewrite run_modify_bind. match goal with |- _ <= sc_lease_generation (run ?m ?t).2 =>
    assert (Preserves sc_lease_generation m) as -> by apply _ end.
  cbn. lia.
Qed.

Lemma call_gen_le c : GenLe (call c).
Proof.
  destruct c; cbn [call].
  2: { apply bind_gen_le; [apply claim_gen_le|apply _]. }
  all: unfold signal_event, heartbeat, mark_triggered, record_failure, cancel, expire; apply _.
Qed.

Lemma calls_gen_le cs s : sc_lease_generation s <= sc_lease_generation (calls cs s).
Proof.
  revert s. induction cs as [|c cs IH]; intros s; [cbn; lia|]. cbn [calls foldl].
  pose proof (call_gen_le c s). pose proof (IH (run (call c) s).2). unfold calls in *. lia.
Qed.

(** A call that presents a generation succeeds only for the current one. *)
Lemma valid_lease_generation s lease :
  schedule_validate s = Ok tt -> sc_status s = SLeased -> sc_lease s = Some lease ->
  sl_generation lease = sc_lease_generation s.
Proof.
  unfold schedule_validate. intros Hv Hst Hl. rewrite Hst in Hv. inv_ok.
  match goal with Hx : lease_is_invalid _ _ = false |- _ => unfold lease_is_invalid in Hx end.
  split_guards. lia.
Qed.

Lemma presented_is_current c g s u t :
  presented_generation c = Some g -> run (call c) s = (Ok u, t) -> g = sc_lease_generation s.
Proof.
  intros Hg Hr. destruct c; cbn [presented_generation call] in *; try discriminate Hg; injection Hg as ->;
    unfold heartbeat, mark_triggered, record_failure in Hr; inv_run;
    repeat match goal with
    | Hx : run sched_validate ?s = (Ok _, ?s) |- _ => apply sched_validate_Ok in Hx
    | Hx : run (verify_lease _ _ _ _) _ = _ |- _ => apply verify_lease_Ok in Hx as (? & ? & ? & ? & ? & ? & ?)
    end; subst; by apply valid_lease_generation.
Qed.

(** ** Claims *)
Definition claim_open (now : DateTime) s : Prop :=
  (sc_status s = SPending /\ is_due s now = true) \/
  (exists previous, sc_status s = SLeased /\ sc_lease s = Some previous /\ sl_expires_at previous <= now).

Record claim_granted (o t : string) (dur : Duration) (now : DateTime) (lease : MissionScheduleLease)
    s (s' : MissionSchedule) : Prop := {
  cg_open : claim_open now s;
  cg_lease : sc_lease s' = Some lease /\ sc_status s' = SLeased;
  cg_owner : sl_owner_digest lease = o /\ sl_token_digest lease = t;
  cg_generation : sl_generation lease = sc_lease_generation s + 1 /\
                  sc_lease_generation s' = sc_lease_generation s + 1;
  cg_expires : checked_add_signed now dur = Some (sl_expires_at lease) /\
               sl_expires_at lease < sc_contract_valid_until s;
  cg_duration : 1 <= num_seconds dur <= max_lease_seconds;
  cg_valid : schedule_validate s' = Ok tt;
}.

Lemma claim_takeover_Ok now s u s1 :
  run (claim_takeover now) s = (Ok u, s1) ->
  exists previous failure, sc_lease s = Some previous /\ sl_expires_at previous <= now /\
    s1 = s <| sc_failures ::= fun l => l ++ [failure] |>.
Proof.
  unfold claim_takeover. intros Hr. inv_run. case_match; inv_run.
  eexists _, _. split_and!; [done|lia|done].
Qed.

Lemma claim_opens now s u s1 :
  run (if bool_decide (sc_status s = SLeased) then claim_takeover now
       else reject (negb (is_due s now)) NotDue) s = (Ok u, s1) ->
  claim_open now s /\ sc_lease_generation s1 = sc_lease_generation s /\
  sc_contract_valid_until s1 = sc_contract_valid_until s.
Proof.
  case_bool_decide as Hst; intros Hr.
  - apply claim_takeover_Ok in Hr as (previous & failure & Hl & Hexp & ->).
    split; [|done]. right. by exists previous.
  - inv_run. split_guards. split; [|done]. left. split; [|done].
    match goal with Hd : is_due _ _ = true |- _ => unfold is_due in Hd end. by split_guards.
Qed.

Lemma claim_Ok o t dur now s lease s' :
  run (claim o t dur now) s = (Ok lease, s') -> claim_granted o t dur now lease s s'.
Proof.
  unfold claim, claim_grant. intros Hr. inv_run. split_guards.
  match goal with Hx : run (if _ then _ else _) _ = _ |- _ => apply claim_opens in Hx as (Hopen & Hgen & Hval) end.
  match goal with Hx : checked_add _ _ _ = Some _ |- _ => apply checked_add_Some in Hx as [-> _] end.
  match goal with Hx : run sched_validate (sched_touch _ _) = _ |- _ => apply sched_validate_Ok in Hx end.
  match goal with Hx : lease_seconds_invalid _ = false |- _ => unfold lease_seconds_invalid in Hx; split_guards end.
  split; cbn; try done; rewrite ?Hgen; try done; try lia.
  rewrite <-Hval. split; [done|lia].
Qed.


(** ** Validity *)
Definition budget_ok s : Prop :=
  (max_failures <= length (sc_failures s))%nat -> sc_status s = SDeadLetter.

(** A record that validates, whose lease was renewed no later than the last
    write, and whose failure budget is spent only when it is dead-lettered. *)
Record sched_ok s : Prop := {
  so_valid : schedule_validate s = Ok tt;
  so_timed lease : sc_lease s = Some lease -> sl_heartbeat_at lease <= sc_updated_at s;
  so_budget : budget_ok s;
  so_revision : 0 < sc_revision s;
}.

(** The fields the operations after [prepare] write, the signal apart. *)
Definition progress_to s status generation lease retry failures revision now : MissionSchedule :=
  s <| sc_status := status |> <| sc_lease_generation := generation |> <| sc_lease := lease |>
    <| sc_retry_not_before := retry |> <| sc_failures := failures |> <| sc_revision := revision |>
    <| sc_updated_at := now |>.

Lemma failures_invalid_snoc s n l f :
  failures_invalid s n (l ++ [f]) =
  failures_invalid s n l || (negb (sf_sequence f =? n + Z.of_nat (length l) + 1)
    || negb (is_sha256 (sf_evidence_digest f)) || (sf_observed_at f <? sc_created_at s)).
Proof.
  revert n. induction l as [|x l IH]; intros n; cbn.
  - by rewrite orb_false_r, Z.add_0_r.
  - rewrite IH, !orb_assoc. replace (n + 1 + Z.of_nat (length l)) with (n + Z.of_nat (S (length l))) by lia.
    done.
Qed.

Lemma progress_record_valid s status generation lease retry failures revision now :
  record_is_invalid s = false -> sc_created_at s <= now -> revision <> 0 ->
  is_some_and (fun value => sc_contract_valid_until s <=? value) retry = false ->
  (length failures <= max_failures)%nat -> failures_invalid s 0 failures = false ->
  record_is_invalid (progress_to s status generation lease retry failures revision now) = false.
Proof.
  intros Hs Hnow Hrev Hretry Hlen Hfail. unfold record_is_invalid in Hs |- *.
  assert (forall l n, failures_invalid (progress_to s status generation lease retry failures revision now) n l
          = failures_invalid s n l) as Hsame by (induction l as [|f l IH]; intros n; cbn; [done|by rewrite IH]).
  rewrite Hsame. split_guards. unfold trigger_shape_is_valid, signal_is_invalid in *.
  cbn [progress_to update sc_id sc_tenant_id sc_project_id sc_mission_id sc_cycle
    sc_scheduled_from_mission_revision sc_contract_version sc_definition_cycle sc_trigger
    sc_interval_seconds sc_event_topics sc_due_at sc_contract_valid_until sc_signal sc_created_at
    sc_updated_at sc_revision sc_retry_not_before sc_failures].
  repeat match goal with Hx : ?a = false |- context [?a] => rewrite Hx; clear Hx
                       | Hx : ?a = true |- context [?a] => rewrite Hx; clear Hx end.
  rewrite (proj2 (Z.ltb_ge now _)), (proj2 (Z.eqb_neq revision 0)), (proj2 (Nat.ltb_ge _ _)) by done.
  done.
Qed.

Lemma valid_record s : schedule_validate s = Ok tt -> record_is_invalid s = false.
Proof. unfold schedule_validate. rewrite reject_if_seq. by intros [? _]. Qed.

Lemma progress_without_lease s status retry failures revision now :
  record_is_invalid s = false -> sc_created_at s <= now -> 0 < revision ->
  is_some_and (fun value => sc_contract_valid_until s <=? value) retry = false ->
  failures_invalid s 0 failures = false -> status ∉ [SLeased; STriggered] ->
  ((length failures < max_failures)%nat \/ (length failures = max_failures /\ status = SDeadLetter)) ->
  sched_ok (progress_to s status (sc_lease_generation s) None retry failures revision now).
Proof.
  intros Hs Hnow Hrev Hretry Hfail Hst Hlen. split; [|done| |done].
  - unfold schedule_validate. rewrite progress_record_valid; try done; [|lia|unfold max_failures in *; lia].
    cbn. destruct status; try done; set_solver.
  - intros Hmax. cbn in *. destruct Hlen as [Hlen|[_ Hlen]]; [lia|done].
Qed.

Lemma progress_with_lease s status generation lease failures revision now retry :
  record_is_invalid s = false -> sc_created_at s <= now -> 0 < revision ->
  is_some_and (fun value => sc_contract_valid_until s <=? value) retry = false ->
  failures_invalid s 0 failures = false -> status ∈ [SLeased; STriggered] ->
  (length failures < max_failures)%nat ->
  sl_generation lease = generation -> generation <> 0 ->
  is_sha256 (sl_owner_digest lease) = true -> is_sha256 (sl_token_digest lease) = true ->
  sc_created_at s <= sl_claimed_at lease <= sl_heartbeat_at lease ->
  sl_heartbeat_at lease < sl_expires_at lease -> sl_heartbeat_at lease <= now ->
  sched_ok (progress_to s status generation (Some lease) retry failures revision now).
Proof.
  intros Hs Hnow Hrev Hretry Hfail Hst Hlen Hg Hg0 Ho Ht Hc He Hh. split; [|by intros ? [= <-]| |done].
  - unfold schedule_validate. rewrite progress_record_valid; try done; [|lia|unfold max_failures in *; lia].
    assert (lease_is_invalid (progress_to s status generation (Some lease) retry failures revision now) lease
            = false) as Hl.
    { unfold lease_is_invalid. cbn. rewrite Ho, Ht. lia. }
    apply elem_of_cons in Hst as [->|Hst%list_elem_of_singleton]; [|subst]; cbn; by rewrite Hl.
  - intros Hmax. cbn in *. lia.
Qed.

(** What [sched_ok] says of an open lease. *)
Lemma lease_facts s lease :
  sched_ok s -> sc_status s = SLeased -> sc_lease s = Some lease ->
  sl_generation lease = sc_lease_generation s /\ sl_generation lease <> 0 /\
  is_sha256 (sl_owner_digest lease) = true /\ is_sha256 (sl_token_digest lease) = true /\
  sc_created_at s <= sl_claimed_at lease <= sl_heartbeat_at lease /\
  sl_heartbeat_at lease < sl_expires_at lease /\ sl_heartbeat_at lease <= sc_updated_at s.
Proof.
  intros [Hv Ht _ _] Hst Hl. specialize (Ht lease Hl). unfold schedule_validate in Hv. rewrite Hst in Hv.
  inv_ok. match goal with Hx : lease_is_invalid _ _ = false |- _ => unfold lease_is_invalid in Hx end.
  split_guards. split_and!; try done; lia.
Qed.

Lemma record_facts s :
  sched_ok s -> record_is_invalid s = false /\ sc_created_at s <= sc_updated_at s /\
  failures_invalid s 0 (sc_failures s) = false /\
  is_some_and (fun value => sc_contract_valid_until s <=? value) (sc_retry_not_before s) = false.
Proof.
  intros [Hv _ _ _]. apply valid_record in Hv as Hr. split; [done|].
  unfold record_is_invalid in Hr. split_guards. split_and!; [lia|done..].
Qed.

Lemma touchable_Ok s u t : run sched_ensure_touchable s = (Ok u, t) -> sc_revision s < u64_max.
Proof.
  unfold sched_ensure_touchable. intros Hr. inv_run.
  match goal with Hx : checked_add _ _ _ = Some _ |- _ => apply checked_add_Some in Hx end. lia.
Qed.
(** All or nothing: success with a good record, or the record unchanged. *)
Definition clean {A} s (p : result MissionScheduleError A * MissionSchedule) : Prop :=
  if is_ok p.1 then sched_ok p.2 else p.2 = s.

Ltac walk_clean :=
  repeat (apply (walk_pair (clean _)); [apply _|by intros []|];
          let r := fresh "r" in let Hr := fresh "Hr" in intros r Hr; inv_run).

Lemma finish_clean s f : sched_ok (f s) -> clean s (run (modify f;; sched_validate) s).
Proof.
  intros Hok. unfold clean. rewrite run_modify_bind.
  assert (run sched_validate (f s) = (Ok tt, f s)) as ->; [|done].
  unfold sched_validate. cbn. by rewrite (so_valid _ Hok).
Qed.

Lemma finish_clean_mret {A} s f (a : A) : sched_ok (f s) -> clean s (run (modify f;; sched_validate;; mret a) s).
Proof.
  intros Hok. unfold clean. rewrite run_modify_bind.
  assert (run (sched_validate;; mret a) (f s) = (Ok a, f s)) as ->; [|done].
  unfold sched_validate. cbn. by rewrite (so_valid _ Hok).
Qed.

Ltac schedule_facts :=
  repeat match goal with
  | Hx : run sched_ensure_touchable _ = _ |- _ => apply touchable_Ok in Hx
  | Hx : run (verify_lease _ _ _ _) _ = _ |- _ =>
    apply verify_lease_Ok in Hx as (lease & Hlease & Hleased & ? & ? & ? & ?)
  end;
  match goal with Hok : sched_ok ?s |- _ =>
    pose proof (record_facts s Hok) as (Hrec & Htime & Hfails & Hretry);
    pose proof (so_revision s Hok) as Hpos end.

Lemma succ_pos r : 0 < r -> r < u64_max -> 0 < wrapping_succ_u64 r.
Proof. intros ? ?. rewrite wrapping_succ_small; lia. Qed.

Lemma budget_open s : sched_ok s -> sc_status s <> SDeadLetter -> (length (sc_failures s) < max_failures)%nat.
Proof.
  intros Hok Hst. destruct (Nat.lt_ge_cases (length (sc_failures s)) max_failures) as [|Hge]; [done|].
  by destruct Hst; apply (so_budget s Hok).
Qed.

Lemma lease_duration_positive `{!ChronoLaws} dur now u :
  lease_seconds_invalid dur = false -> checked_add_signed now dur = Some u ->
  now + nanos_per_second <= u < now + 901 * nanos_per_second.
Proof.
  unfold lease_seconds_invalid. intros Hd Ha. split_guards. apply add_signed_exact in Ha as ->.
  unfold max_lease_seconds in *. rewrite num_seconds_truncates in *. unfold nanos_per_second in *.
  pose proof (Z.quot_rem' dur (10 ^ 9)). pose proof (Z.rem_bound_abs dur (10 ^ 9)).
  assert (0 < dur) by (destruct (Z.le_gt_cases dur 0) as [Hn|]; [|done];
    pose proof (Z.quot_le_mono dur 0 (10^9) ltac:(lia) Hn); rewrite Z.quot_0_l in *; lia).
  pose proof (Z.rem_bound_pos dur (10 ^ 9)). lia.
Qed.

Lemma heartbeat_clean `{!ChronoLaws} o t g dur now s :
  sched_ok s -> sc_updated_at s <= now -> clean s (run (heartbeat o t g dur now) s).
Proof.
  intros Hok Hnow. unfold heartbeat. walk_clean. schedule_facts.
  match goal with Hx : lease_seconds_invalid _ = false, Hy : checked_add_signed _ _ = Some _ |- _ =>
    pose proof (lease_duration_positive _ _ _ Hx Hy) end. unfold nanos_per_second in *.
  match goal with Hx : sc_lease s = Some ?y |- _ => assert (y = lease) as -> by congruence end.
  destruct (lease_facts _ _ Hok Hleased Hlease) as (? & ? & ? & ? & ? & ? & ?).
  apply finish_clean.
  match goal with |- sched_ok (sched_touch now (s <| sc_lease := Some ?l |>)) =>
    change (sched_ok (progress_to s (sc_status s) (sc_lease_generation s) (Some l) (sc_retry_not_before s)
      (sc_failures s) (wrapping_succ_u64 (sc_revision s)) now)) end.
  rewrite Hleased. apply progress_with_lease; try done; cbn; try lia.
  - by apply succ_pos.
  - set_solver.
  - apply budget_open; [done|congruence].
Qed.

Lemma triggered_ok now s lease :
  sched_ok s -> sc_updated_at s <= now -> sc_revision s < u64_max -> sc_status s = SLeased ->
  sc_lease s = Some lease -> sched_ok (sched_touch now (s <| sc_status := STriggered |>)).
Proof.
  intros Hok Hnow Hrev Hleased Hlease. schedule_facts.
  destruct (lease_facts _ _ Hok Hleased Hlease) as (? & ? & ? & ? & ? & ? & ?).
  change (sched_ok (progress_to s STriggered (sc_lease_generation s) (sc_lease s) (sc_retry_not_before s)
    (sc_failures s) (wrapping_succ_u64 (sc_revision s)) now)).
  rewrite Hlease. apply progress_with_lease; try done; try lia.
  - by apply succ_pos.
  - set_solver.
  - apply budget_open; [done|congruence].
Qed.

Lemma mark_triggered_clean o t g mission now s :
  sched_ok s -> sc_updated_at s <= now -> clean s (run (mark_triggered o t g mission now) s).
Proof.
  intros Hok Hnow. unfold mark_triggered. walk_clean. schedule_facts.
  apply finish_clean. by eapply triggered_ok.
Qed.

Lemma close_clean status now s :
  sched_ok s -> sc_updated_at s <= now -> sc_revision s < u64_max -> sc_status s ∈ [SPending; SLeased] ->
  status ∈ [SCancelled; SExpired] -> clean s (run (modify (close_as status now);; sched_validate) s).
Proof.
  intros Hok Hnow Hrev Hopen Hst. schedule_facts. apply finish_clean.
  change (sched_ok (progress_to s status (sc_lease_generation s) None None (sc_failures s)
    (wrapping_succ_u64 (sc_revision s)) now)).
  apply progress_without_lease; try done; [lia|by apply succ_pos|set_solver|].
  left. apply budget_open; [done|]. intros Hx. rewrite Hx in Hopen. set_solver.
Qed.

Lemma cancel_clean evidence now s :
  sched_ok s -> sc_updated_at s <= now -> clean s (run (cancel evidence now) s).
Proof.
  intros Hok Hnow. unfold cancel. walk_clean. schedule_facts. split_guards.
  apply close_clean; try done. set_solver.
Qed.
Lemma expire_clean now s :
  sched_ok s -> sc_updated_at s <= now -> clean s (run (expire now) s).
Proof.
  intros Hok Hnow. unfold expire. walk_clean. schedule_facts. split_guards.
  apply close_clean; try done. set_solver.
Qed.

(** The next failure fits the sequence. *)
Lemma next_failure_valid s sequence class digest retryable now :
  failures_invalid s 0 (sc_failures s) = false -> is_sha256 digest = true -> sc_created_at s <= now ->
  try_from_usize u32_max (length (sc_failures s) + 1) = Some sequence ->
  failures_invalid s 0 (sc_failures s ++ [mkFailure sequence class digest retryable now]) = false.
Proof.
  intros Hf Hd Hc Hs. unfold try_from_usize in Hs. case_match; simplify_eq.
  rewrite failures_invalid_snoc, Hf. cbn [sf_sequence sf_evidence_digest sf_observed_at]. rewrite Hd.
  rewrite (proj2 (Z.eqb_eq _ _)) by lia. cbn. lia.
Qed.

Lemma retry_window now until retry :
  Bool.eqb true (is_some_and (fun at_ => (now <? at_) && (at_ <? until)) retry) = true ->
  is_some_and (fun value => until <=? value) retry = false.
Proof. destruct retry as [at_|]; [|done]. cbn [is_some_and]. intros Hw%Bool.eqb_prop. lia. Qed.

Lemma record_failure_clean o t g class digest retryable retry now s :
  sched_ok s -> sc_updated_at s <= now ->
  clean s (run (record_failure o t g class digest retryable retry now) s).
Proof.
  intros Hok Hnow. unfold record_failure. walk_clean. schedule_facts. split_guards.
  match goal with Hx : try_from_usize _ _ = Some ?n |- _ =>
    pose proof (next_failure_valid s n class digest retryable now Hfails ltac:(done) ltac:(lia) Hx) as Hnext;
    set (failures := sc_failures s ++ [mkFailure n class digest retryable now]) in * end.
  pose proof (budget_open s Hok ltac:(congruence)) as Hbudget.
  assert (length failures = S (length (sc_failures s))) as Hlen by (unfold failures; rewrite length_app; cbn; lia).
  apply finish_clean. cbn beta zeta. case_match eqn:Hc; split_guards; [subst retryable|].
  - change (sched_ok (progress_to s SPending (sc_lease_generation s) None retry failures
      (wrapping_succ_u64 (sc_revision s)) now)).
    apply progress_without_lease; try done; [lia|by apply succ_pos| |set_solver|].
    + by apply (retry_window now).
    + left. by apply Nat.ltb_lt.
  - change (sched_ok (progress_to s SDeadLetter (sc_lease_generation s) None None failures
      (wrapping_succ_u64 (sc_revision s)) now)).
    apply progress_without_lease; try done; [lia|by apply succ_pos|set_solver|].
    destruct (decide (length failures = max_failures)); [by right|left; lia].
Qed.

(** Binding a signal: an interval schedule listens to no topic. *)
Lemma signal_shape s signal :
  trigger_shape_is_valid s = true -> signal_is_invalid s signal = false ->
  trigger_shape_is_valid (s <| sc_signal := Some signal |>) = true.
Proof.
  unfold trigger_shape_is_valid, signal_is_invalid; cbn. intros Ht Hs. split_guards.
  destruct (sc_trigger s); try done. split_guards.
  unfold set_is_empty, contains in *. split_guards. set_solver.
Qed.

Lemma signal_record_valid s signal revision now :
  record_is_invalid s = false -> signal_is_invalid s signal = false -> sc_created_at s <= now ->
  revision <> 0 ->
  record_is_invalid (s <| sc_signal := Some signal |> <| sc_revision := revision |>
                       <| sc_updated_at := now |>) = false.
Proof.
  intros Hs Hsig Hnow Hrev. unfold record_is_invalid in *.
  set (s' := s <| sc_signal := Some signal |> <| sc_revision := revision |> <| sc_updated_at := now |>).
  assert (forall l n, failures_invalid s' n l = failures_invalid s n l) as Hsame
    by (induction l as [|f l IH]; intros n; cbn; [done|by rewrite IH]).
  rewrite Hsame. split_guards.
  assert (trigger_shape_is_valid s' = true) as -> by (by apply (signal_shape s signal)).
  change (signal_is_invalid s') with (signal_is_invalid s).
  cbn [s' update sc_id sc_tenant_id sc_project_id sc_mission_id sc_cycle
    sc_scheduled_from_mission_revision sc_contract_version sc_definition_cycle
    sc_event_topics sc_contract_valid_until sc_signal sc_created_at
    sc_updated_at sc_revision sc_retry_not_before sc_failures is_some_and].
  rewrite (proj2 (Z.ltb_ge now _)), (proj2 (Z.eqb_neq revision 0)) by done.
  repeat match goal with Hx : ?a = false |- context [?a] => rewrite Hx; clear Hx end. done.
Qed.

Lemma signal_event_clean topic event payload now s :
  sched_ok s -> sc_updated_at s <= now -> clean s (run (signal_event topic event payload now) s).
Proof.
  intros Hok Hnow. unfold signal_event. walk_clean. cbn zeta. walk_clean. case_match; [done|].
  walk_clean. schedule_facts. apply finish_clean_mret. split_guards.
  pose proof (budget_open s Hok ltac:(congruence)).
  pose proof (succ_pos _ Hpos ltac:(done)).
  assert (sc_lease s = None) as Hnl.
  { pose proof (so_valid s Hok) as Hv. unfold schedule_validate in Hv.
    match goal with Hp : sc_status s = SPending |- _ => rewrite Hp in Hv end. inv_ok.
    by destruct (sc_lease s). }
  split; try done.
  - pose proof (signal_record_valid s (mkSignal topic event payload now) (wrapping_succ_u64 (sc_revision s))
      now Hrec ltac:(done) ltac:(lia) ltac:(lia)) as Hvalid.
    unfold schedule_validate. match goal with |- context [record_is_invalid ?x] =>
      replace (record_is_invalid x) with false by (symmetry; exact Hvalid) end.
    cbn. match goal with Hp : sc_status s = SPending |- _ => rewrite Hp end. by rewrite Hnl.
  - cbn. by rewrite Hnl.
  - intros Hm. cbn in Hm. lia.
Qed.

Lemma claim_grant_clean `{!ChronoLaws} o t dur now s :
  sched_ok s -> sc_updated_at s <= now -> 0 <= sc_lease_generation s -> sc_status s <> SDeadLetter ->
  is_sha256 o = true -> is_sha256 t = true -> lease_seconds_invalid dur = false ->
  clean s (run (claim_grant o t dur now) s).
Proof.
  intros Hok Hnow Hgen Hst Ho Ht Hdur. unfold claim_grant. walk_clean.
  schedule_facts. cbn zeta. apply finish_clean_mret.
  match goal with Hx : checked_add _ _ _ = Some _ |- _ => apply checked_add_Some in Hx as [-> _] end.
  match goal with Hy : checked_add_signed _ _ = Some _ |- _ =>
    pose proof (lease_duration_positive _ _ _ Hdur Hy) end. unfold nanos_per_second in *.
  match goal with |- sched_ok (sched_touch now (s <| sc_status := _ |> <| sc_lease_generation := ?g |>
      <| sc_lease := Some ?l |> <| sc_retry_not_before := None |>)) =>
    change (sched_ok (progress_to s SLeased g (Some l) None (sc_failures s)
      (wrapping_succ_u64 (sc_revision s)) now)) end.
  apply progress_with_lease; try done; cbn; try lia.
  - by apply succ_pos.
  - set_solver.
  - by apply budget_open.
Qed.

Lemma claim_pending_clean `{!ChronoLaws} o t dur now s :
  sched_ok s -> sc_updated_at s <= now -> sc_status s <> SLeased -> 0 <= sc_lease_generation s ->
  clean s (run (claim o t dur now) s).
Proof.
  intros Hok Hnow Hst Hgen. unfold claim.
  do 3 (apply (walk_pair (clean s)); [apply _|by intros []|intros ? ?; inv_run]).
  rewrite bool_decide_false by done.
  apply (walk_pair (clean s)); [apply _|by intros []|intros ? ?; inv_run]. split_guards.
  apply claim_grant_clean; try done.
  match goal with Hd : is_due _ _ = true |- _ => unfold is_due in Hd end. split_guards. congruence.
Qed.

(** A takeover records the lost lease; the fifth loss closes the schedule. *)
Definition took_over s (p : result MissionScheduleError unit * MissionSchedule) : Prop :=
  sched_ok p.2 /\ (is_ok p.1 = true ->
    sc_status p.2 = SLeased /\ sc_updated_at p.2 = sc_updated_at s /\
    sc_lease_generation p.2 = sc_lease_generation s).

Lemma touchable_run s :
  sc_revision s < u64_max -> run sched_ensure_touchable s = (Ok tt, s).
Proof.
  intros Hr. unfold sched_ensure_touchable, checked_add; cbn.
  by rewrite (proj2 (Z.leb_le _ _)) by lia.
Qed.

Lemma claim_takeover_ok `{!Sha256Laws} now s :
  sched_ok s -> sc_updated_at s <= now -> sc_status s = SLeased -> sc_revision s < u64_max ->
  took_over s (run (claim_takeover now) s).
Proof.
  intros Hok Hnow Hst Hrev. unfold claim_takeover.
  do 4 (apply (walk_pair (took_over s)); [apply _|by intros [] ?|intros ? ?; inv_run]).
  schedule_facts. rename a into lease, a0 into failure.
  destruct (lease_facts s lease Hok Hst ltac:(done)) as (? & ? & ? & ? & ? & ? & ?).
  pose proof (budget_open s Hok ltac:(congruence)) as Hbudget.
  assert (failures_invalid s 0 (sc_failures s ++ [failure]) = false) as Hf.
  { unfold lease_expired_failure in *. inv_ok. apply next_failure_valid; try done; [apply is_sha256_hex|lia]. }
  assert (length (sc_failures s ++ [failure]) = S (length (sc_failures s))) as Hlen
    by (rewrite length_app; cbn; lia).
  rewrite run_modify_bind. set (s1 := s <| sc_failures ::= _ |>).
  assert (sc_failures s1 = sc_failures s ++ [failure]) as Hs1 by done.
  rewrite run_get_bind, Hs1. case_match eqn:Hmax.
  - apply Nat.leb_le in Hmax. rewrite (run_known_bind _ _ _ _ _ (touchable_run s1 Hrev)), run_modify_bind.
    split; [|done].
    change (sched_ok (progress_to s SDeadLetter (sc_lease_generation s) None (sc_retry_not_before s)
      (sc_failures s ++ [failure]) (wrapping_succ_u64 (sc_revision s)) now)).
    apply progress_without_lease; try done; [lia|by apply succ_pos|set_solver|].
    right. split; [lia|done].
  - apply Nat.leb_gt in Hmax. split; [|done].
    change (sched_ok (progress_to s (sc_status s) (sc_lease_generation s) (sc_lease s) (sc_retry_not_before s)
      (sc_failures s ++ [failure]) (sc_revision s) (sc_updated_at s))).
    match goal with Hl : sc_lease s = Some _ |- _ => rewrite Hl, Hst end.
    apply progress_with_lease; try done; [set_solver|lia].
Qed.
Lemma claim_ok `{!ChronoLaws} `{!Sha256Laws} o t dur now s :
  sched_ok s -> sc_updated_at s <= now -> sc_revision s < u64_max -> 0 <= sc_lease_generation s ->
  sched_ok (run (claim o t dur now) s).2.
Proof.
  intros Hok Hnow Hrev Hgen.
  assert (forall A (p : result MissionScheduleError A * MissionSchedule), clean s p -> sched_ok p.2) as Hclean.
  { intros A [[] s']; unfold clean; cbn; intros; by subst. }
  destruct (decide (sc_status s = SLeased)) as [Hst|Hst]; [|by apply Hclean, claim_pending_clean].
  unfold claim. do 3 (apply (walk_pair (fun p => sched_ok p.2)); [apply _|done|intros ? ?; inv_run]).
  rewrite bool_decide_true by done. split_guards.
  pose proof (claim_takeover_ok now s Hok Hnow Hst Hrev) as [Hok1 Hrest].
  unfold mbind at 1, SR_mbind; cbn [run].
  destruct (run (claim_takeover now) s) as [[u|e|] s1]; cbn [fst snd is_ok] in *; [|done..].
  destruct (Hrest eq_refl) as (Hst1 & Hup & Hg).
  pose proof (claim_grant_clean o t dur now s1 Hok1 ltac:(lia) ltac:(lia) ltac:(congruence)
    ltac:(done) ltac:(done) ltac:(done)) as Hgrant.
  unfold clean in Hgrant. destruct (is_ok _); [done|by rewrite Hgrant].
Qed.

Lemma valid_has_lease s :
  schedule_validate s = Ok tt -> sc_status s = SLeased -> exists lease, sc_lease s = Some lease.
Proof. unfold schedule_validate. intros Hv Hst. rewrite Hst in Hv. inv_ok. eauto. Qed.

(** A claim against a lease that has expired. *)
Definition takes_over (c : ScheduleCall) s : bool :=
  match c with
  | Claim _ _ _ now =>
    bool_decide (sc_status s = SLeased) && is_some_and (fun lease => sl_expires_at lease <=? now) (sc_lease s)
  | _ => false
  end.

Lemma claim_live_clean o t dur now s lease :
  sc_status s = SLeased -> sc_lease s = Some lease -> now < sl_expires_at lease ->
  clean s (run (claim o t dur now) s).
Proof.
  intros Hst Hl Hlive. unfold claim.
  do 3 (apply (walk_pair (clean s)); [apply _|by intros []|intros ? ?; inv_run]).
  rewrite bool_decide_true by done. unfold claim_takeover, mbind at 1, SR_mbind; cbn. rewrite Hl; cbn.
  by rewrite (proj2 (Z.ltb_lt _ _) Hlive).
Qed.

Lemma claim_clean `{!ChronoLaws} o t dur now s :
  sched_ok s -> sc_updated_at s <= now -> 0 <= sc_lease_generation s ->
  takes_over (Claim o t dur now) s = false -> clean s (run (claim o t dur now) s).
Proof.
  intros Hok Hnow Hgen Ht. destruct (decide (sc_status s = SLeased)) as [Hst|Hst].
  - destruct (valid_has_lease s (so_valid s Hok) Hst) as [lease Hl]. cbn in Ht.
    rewrite Hl, bool_decide_true in Ht by done. cbn in Ht. eapply claim_live_clean; [done..|lia].
  - by apply claim_pending_clean.
Qed.

Lemma run_discard_state {A} (m : SR MissionSchedule MissionScheduleError A) s :
  (run (m;; mret tt) s).2 = (run m s).2.
Proof. unfold mbind, SR_mbind; cbn. by destruct (run m s) as [[] s1]. Qed.

Lemma clean_discard_mret {A} (m : SR MissionSchedule MissionScheduleError A) s :
  clean s (run m s) -> clean s (run (m;; mret tt) s).
Proof. unfold clean, mbind, SR_mbind; cbn. by destruct (run m s) as [[] s1]. Qed.

Lemma call_clean `{!ChronoLaws} c s :
  sched_ok s -> sc_updated_at s <= call_time c -> 0 <= sc_lease_generation s -> takes_over c s = false ->
  clean s (run (call c) s).
Proof.
  intros Hok Hnow Hgen Ht. destruct c; cbn [call call_time takes_over] in *.
  - by apply clean_discard_mret, signal_event_clean.
  - by apply clean_discard_mret, claim_clean.
  - by apply heartbeat_clean.
  - by apply mark_triggered_clean.
  - by apply record_failure_clean.
  - by apply cancel_clean.
  - by apply expire_clean.
Qed.

Lemma call_ok `{!ChronoLaws} `{!Sha256Laws} c s :
  sched_ok s -> sc_updated_at s <= call_time c -> sc_revision s < u64_max -> 0 <= sc_lease_generation s ->
  sched_ok (run (call c) s).2.
Proof.
  intros Hok Hnow Hrev Hgen. destruct (takes_over c s) eqn:Ht.
  - destruct c; try discriminate Ht. cbn [call]. rewrite run_discard_state. by apply claim_ok.
  - pose proof (call_clean c s Hok Hnow Hgen Ht) as Hc. unfold clean in Hc.
    destruct (is_ok _); [done|by rewrite Hc].
Qed.

(** ** Clock and revision *)
Definition stamp s : DateTime * Z := (sc_updated_at s, sc_revision s).
Definition stamped (now : DateTime) s (s' : MissionSchedule) : Prop :=
  stamp s' = stamp s \/ stamp s' = (now, wrapping_succ_u64 (sc_revision s)).
Class Stamps (now : DateTime) {A} (m : SR MissionSchedule MissionScheduleError A) : Prop :=
  stamps : forall s, stamped now s (run m s).2.

#[local] Instance preserves_stamps {A} now (m : SR MissionSchedule MissionScheduleError A) :
  Preserves stamp m -> Stamps now m | 5.
Proof. intros Hm s. left. apply Hm. Qed.
#[local] Instance bind_stamps {A B} now (m : SR MissionSchedule MissionScheduleError A)
    (k : A -> SR MissionSchedule MissionScheduleError B) :
  Preserves stamp m -> (forall a, Stamps now (k a)) -> Stamps now (m ≫= k) | 10.
Proof.
  intros Hm Hk s. specialize (Hm s). unfold mbind, SR_mbind; cbn.
  destruct (run m s) as [[a|e|] s1]; cbn in *; [|by left..].
  pose proof (f_equal snd Hm) as Hrev; cbn in Hrev. destruct (Hk a s1) as [Hs|Hs]; cbn in Hs.
  - left. congruence.
  - right. by rewrite <-Hrev.
Qed.
#[local] Instance stamps_bind {A B} now (m : SR MissionSchedule MissionScheduleError A)
    (k : A -> SR MissionSchedule MissionScheduleError B) :
  Stamps now m -> (forall a, Preserves stamp (k a)) -> Stamps now (m ≫= k) | 15.
Proof.
  intros Hm Hk s. specialize (Hm s). unfold mbind, SR_mbind, stamped in *; cbn.
  destruct (run m s) as [[a|e|] s1]; cbn in *; [by rewrite Hk|done..].
Qed.
Lemma modify_stamps now f :
  (forall s, stamp (f s) = (now, wrapping_succ_u64 (sc_revision s))) -> Stamps now (modify f).
Proof. intros Hf s. right. apply Hf. Qed.
#[local] Hint Extern 6 (Stamps _ (modify _)) =>
  (apply modify_stamps; intros ?; cbn; repeat case_match; reflexivity) : typeclass_instances.
#[local] Hint Extern 8 (Stamps _ (match ?x with _ => _ end)) => destruct x : typeclass_instances.

Lemma claim_stamps o t dur now : Stamps now (claim o t dur now).
Proof.
  assert (Stamps now (claim_grant o t dur now)) as Hgrant by (unfold claim_grant; cbn zeta; apply _).
  assert (Stamps now (claim_takeover now)) as Htake by (unfold claim_takeover; apply _).
  unfold claim. do 2 (apply bind_stamps; [apply _|intros ?]). apply bind_stamps; [apply _|intros ?].
  intros s. unfold mbind, SR_mbind; cbn [run]. case_bool_decide.
  - pose proof (claim_takeover_Ok now s) as Hok. specialize (Htake s).
    destruct (run (claim_takeover now) s) as [[u|e|] s1]; cbn [fst snd] in *; [|done..].
    destruct (Hok u s1 eq_refl) as (? & f & _ & _ & ->).
    pose proof (Hgrant (s <| sc_failures ::= fun l => l ++ [f] |>)) as Hg. exact Hg.
  - unfold reject, lift; cbn [run]. destruct (reject_if _ _); cbn [snd]; [apply Hgrant|by left..].
Qed.

Lemma call_stamps c : Stamps (call_time c) (call c).
Proof.
  destruct c; cbn [call call_time].
  2: { apply stamps_bind; [apply claim_stamps|apply _]. }
  all: unfold signal_event, heartbeat, mark_triggered, record_failure, cancel, expire; cbn zeta; apply _.
Qed.

(** A sequence of calls whose clock does not run backwards from [t]. *)
Fixpoint clocked (t : DateTime) (cs : list ScheduleCall) : Prop :=
  match cs with
  | [] => True
  | c :: cs => t <= call_time c /\ clocked (call_time c) cs
  end.

Lemma calls_ok `{!ChronoLaws} `{!Sha256Laws} cs t s :
  sched_ok s -> sc_updated_at s <= t -> 0 <= sc_lease_generation s -> clocked t cs ->
  sc_revision s + Z.of_nat (length cs) <= u64_max -> sched_ok (calls cs s).
Proof.
  revert t s. induction cs as [|c cs IH]; intros t s Hok Ht Hgen Hcl Hrev; [done|].
  destruct Hcl as [Hc Hcl]. rewrite length_cons in Hrev. pose proof (so_revision s Hok).
  assert (sched_ok (run (call c) s).2) as Hok' by (apply call_ok; [done|lia..]).
  change (calls (c :: cs) s) with (calls cs (run (call c) s).2). apply (IH (call_time c)); try done.
  - destruct (call_stamps c s) as [Hs|Hs]; injection Hs as -> _; lia.
  - pose proof (call_gen_le c s). lia.
  - destruct (call_stamps c s) as [Hs|Hs]; injection Hs as _ ->; [lia|].
    rewrite wrapping_succ_small by lia. lia.
Qed.

(** ** Theorems *)

(** A schedule that is Triggered, Cancelled, Expired or DeadLetter is
    final: every further call fails and leaves the record as it was, so one
    schedule triggers its cycle at most once. *)
Theorem closed_schedule_is_final c s :
  is_closed (sc_status s) = true -> is_ok (run (call c) s).1 = false /\ (run (call c) s).2 = s.
Proof. apply call_closed. Qed.

(** C6: fencing. Once a claim has been granted, a worker that presents any
    earlier lease generation is refused, whatever other calls are made and
    fail or succeed in between. *)
Theorem stale_lease_is_fenced o t dur now s lease s' cs c g :
  run (claim o t dur now) s = (Ok lease, s') ->
  presented_generation c = Some g -> g < sl_generation lease ->
  is_ok (run (call c) (calls cs s')).1 = false.
Proof.
  intros Hclaim Hg Hlt. apply claim_Ok in Hclaim as [_ _ _ [Hgl Hgs] _ _ _].
  pose proof (calls_gen_le cs s') as Hle.
  destruct (run (call c) (calls cs s')) as [[u|e|] s2] eqn:Hr; [|done..].
  apply (presented_is_current c g) in Hr; [lia|done].
Qed.

(** Leases are exclusive and bounded. A claim is granted only on a pending
    schedule that is due inside the contract window, or after the previous
    lease has expired; the new lease lasts at least one and less than 901
    seconds, ends before the contract does, carries the next generation, and
    leaves a record that validates. *)
Theorem claims_are_exclusive `{!ChronoLaws} o t dur now s lease s' :
  run (claim o t dur now) s = (Ok lease, s') ->
  claim_granted o t dur now lease s s' /\
  now + nanos_per_second <= sl_expires_at lease < now + 901 * nanos_per_second.
Proof.
  intros Hr. apply claim_Ok in Hr as Hg. split; [done|].
  destruct Hg as [_ _ _ _ [Hadd _] Hdur _]. eapply lease_duration_positive; [|done].
  unfold lease_seconds_invalid. lia.
Qed.

(** The facts [prepare] establishes. *)
Lemma prepare_Ok m now s :
  prepare m now = Ok s ->
  exists cadence, oc_cadence (ms_contract m) = Some cadence /\ ms_stage m = StScheduled /\
    contract_validate (ms_contract m) now = Ok tt /\
    prepare_due_at cadence now = Ok (sc_due_at s) /\
    (cad_trigger cadence = Interval ->
       forall due, sc_due_at s = Some due -> due < oc_valid_until (ms_contract m)) /\
    sc_cycle s = Z.of_nat (length (ms_outcome_history m)) + 1 /\ 2 <= sc_cycle s <= u64_max /\
    (forall d, ms_definition m = Some d -> df_cycle d + 1 = sc_cycle s) /\
    sc_tenant_id s = ms_tenant_id m /\ sc_project_id s = ms_project_id m /\ sc_mission_id s = ms_id m /\
    sc_trigger s = cad_trigger cadence /\
    sched_ok s /\ sc_updated_at s = now /\ sc_lease_generation s = 0 /\ sc_revision s = 1 /\
    sc_status s = SPending.
Proof.
  unfold prepare. intros Hp. inv_ok. split_guards.
  match goal with Hc : try_from_usize _ _ ≫= _ = Some _ |- _ =>
    apply bind_Some in Hc as (n & Hn & Hc); apply checked_add_Some in Hc as [-> Hmax];
    unfold try_from_usize in Hn; case_match; simplify_eq end.
  repeat match goal with u : unit |- _ => destruct u end.
  eexists. cbn. split_and!; try done; try lia.
  - intros Ht due ->. match goal with Hx : bool_decide (cad_trigger _ = Interval) && _ = false |- _ =>
      rewrite bool_decide_true in Hx by done; cbn in Hx end. lia.
  - intros d Hd. rewrite Hd in *. cbn in *. split_guards.
    match goal with Hx : checked_add _ _ _ = Some _ |- _ => apply checked_add_Some in Hx end. lia.
  - split; cbn; try done. by intros ?%Nat.le_0_r.
Qed.

(** C5: retries are bounded and records stay valid. From a prepared schedule,
    after any sequence of calls on a clock that does not run backwards
    (whatever they answer), the record still validates, holds at most five
    failures, and is DeadLetter as soon as the fifth has been recorded. *)
Theorem schedule_stays_valid_and_bounded `{!ChronoLaws} `{!Sha256Laws} m now s cs :
  prepare m now = Ok s -> clocked now cs -> Z.of_nat (length cs) < u64_max ->
  schedule_validate (calls cs s) = Ok tt /\
  (length (sc_failures (calls cs s)) <= max_failures)%nat /\
  (length (sc_failures (calls cs s)) = max_failures -> sc_status (calls cs s) = SDeadLetter).
Proof.
  intros Hp Hcl Hlen. apply prepare_Ok in Hp as (c & _ & _ & _ & _ & _ & _ & _ & _ & _ & _ & _ & _ & Hok & Hup & Hgen & Hrev & _).
  assert (sched_ok (calls cs s)) as [Hv _ Hb _] by (apply (calls_ok cs now); [done|lia..|done|lia]).
  split_and!; [done| |].
  - apply valid_record in Hv. unfold record_is_invalid in Hv. split_guards. by apply Nat.ltb_ge.
  - intros Hmax. apply Hb. lia.
Qed.

(** On a clock that does not run backwards every call except the takeover
    of an expired lease is all or nothing: it succeeds with a record that
    validates, or it leaves the record exactly as it was. *)
Theorem calls_are_all_or_nothing `{!ChronoLaws} c s :
  sched_ok s -> sc_updated_at s <= call_time c -> 0 <= sc_lease_generation s -> takes_over c s = false ->
  if is_ok (run (call c) s).1 then schedule_validate (run (call c) s).2 = Ok tt
  else (run (call c) s).2 = s.
Proof.
  intros Hok Ht Hg Hto. pose proof (call_clean c s Hok Ht Hg Hto) as Hc. unfold clean in Hc.
  destruct (is_ok _); [apply Hc|done].
Qed.

(** [prepare] schedules exactly the cycle after the last reviewed outcome
    and leaves a valid pending record; when the cadence has an interval, the
    due instant is the first instant of its grid after [now], and for a pure
    interval cadence it falls inside the contract window. *)
Theorem prepare_schedules_next_cycle `{!ChronoLaws} m now s :
  prepare m now = Ok s ->
  sched_ok s /\ sc_status s = SPending /\
  sc_cycle s = Z.of_nat (length (ms_outcome_history m)) + 1 /\
  (sc_trigger s <> EventDriven -> exists cadence due,
     oc_cadence (ms_contract m) = Some cadence /\ sc_due_at s = Some due /\ now < due /\
     (forall k, 0 <= k -> now < cad_anchor_at cadence + k * step_nanos cadence ->
        due <= cad_anchor_at cadence + k * step_nanos cadence) /\
     (sc_trigger s = Interval -> due < oc_valid_until (ms_contract m))).
Proof.
  intros (cadence & Hcad & _ & _ & Hdue & Hwin & Hcyc & _ & _ & _ & _ & _ & Htr & Hok & _ & _ & _ & Hst)%prepare_Ok.
  split_and!; [done..|]. rewrite Htr. intros Hne. unfold prepare_due_at in Hdue.
  rewrite bool_decide_false in Hdue by done. inv_ok.
  match goal with Hd : next_interval_due_at _ _ = Ok (Some ?due) |- _ =>
    exists cadence, due; destruct (next_due_grid _ _ _ Hd) as (? & _ & ?) end.
  split_and!; try done. intros Hi. by apply Hwin.
Qed.

(** What starting a scheduled cycle leaves of the Mission. *)
Lemma start_scheduled_cycle_Ok `{!SerdeScope} cycle tasks now m m' :
  run (start_scheduled_cycle cycle tasks now) m = (Ok tt, m') ->
  frame m' = frame m /\ ms_stage m' = StRunning /\ ms_outcome_history m' = ms_outcome_history m /\
  forall d, ms_definition m' = Some d -> df_cycle d = cycle.
Proof.
  unfold start_scheduled_cycle. intros Hr. inv_run.
  destruct (ms_definition m) as [d0|] eqn:Hd0.
  - match goal with Hx : run (on_definition _ _) _ = _ |- _ => apply run_on_definition in Hx as (d' & Hs & ->) end.
    split_and!; try done. cbn. intros d [= <-].
    unfold reset_for_next_cycle, start_first_checkpoint in Hs. inv_run. case_match; by inv_run.
  - inv_run. split_and!; try done. cbn. congruence.
Qed.

Lemma mark_triggered_run o t g mission now s :
  sched_ok s -> sc_updated_at s <= now -> sc_revision s < u64_max ->
  run (verify_lease o t g now) s = (Ok tt, s) ->
  ms_tenant_id mission = sc_tenant_id s -> ms_project_id mission = sc_project_id s ->
  ms_id mission = sc_mission_id s -> ms_stage mission = StRunning ->
  Z.of_nat (length (ms_outcome_history mission)) + 1 = sc_cycle s -> sc_cycle s <= u64_max ->
  (forall d, ms_definition mission = Some d -> df_cycle d = sc_cycle s) ->
  run (mark_triggered o t g mission now) s = (Ok tt, sched_touch now (s <| sc_status := STriggered |>)).
Proof.
  intros Hok Hnow Hrev Hver Ht Hp Hi Hst Hlen Hmax Hdef. unfold mark_triggered.
  assert (forall s, sched_ok s -> run sched_validate s = (Ok tt, s)) as Hval.
  { intros s0 Hs0. unfold sched_validate; cbn. by rewrite (so_valid _ Hs0). }
  rewrite (run_known_bind _ _ _ _ _ (Hval s Hok)), (run_known_bind _ _ _ _ _ Hver), run_get_bind.
  rewrite !bool_decide_true by first [done|unfold try_from_usize, checked_add;
    rewrite (proj2 (Z.leb_le _ _)) by lia; cbn; rewrite (proj2 (Z.leb_le _ _)) by lia; congruence].
  assert (is_some_and (fun d => negb (df_cycle d =? sc_cycle s)) (ms_definition mission) = false) as ->.
  { destruct (ms_definition mission) as [d|]; [|done]. cbn. rewrite (Hdef d eq_refl). lia. }
  rewrite (run_known_bind _ _ _ tt s), (run_known_bind _ _ _ _ _ (touchable_run s Hrev)), run_modify_bind by done.
  apply Hval. apply verify_lease_Ok in Hver as (lease & Hl & Hleased & _). by eapply triggered_ok.
Qed.

(** The schedule and the Mission agree on the cycle: when a prepared cycle
    has been started on its Mission, the worker that holds the current lease
    of the schedule succeeds in marking it triggered. *)
Theorem started_cycle_can_be_triggered `{!SerdeScope} m now s tasks at_ m' s1 o t g now' :
  prepare m now = Ok s -> run (start_scheduled_cycle (sc_cycle s) tasks at_) m = (Ok tt, m') ->
  sched_ok s1 -> sc_updated_at s1 <= now' -> sc_revision s1 < u64_max ->
  run (verify_lease o t g now') s1 = (Ok tt, s1) ->
  sc_tenant_id s1 = sc_tenant_id s -> sc_project_id s1 = sc_project_id s ->
  sc_mission_id s1 = sc_mission_id s -> sc_cycle s1 = sc_cycle s ->
  exists s2, run (mark_triggered o t g m' now') s1 = (Ok tt, s2) /\ sc_status s2 = STriggered.
Proof.
  intros (cadence & _ & _ & _ & _ & _ & Hcyc & Hmax & _ & Ht & Hp & Hi & _)%prepare_Ok
    (Hf & Hst & Hh & Hd)%start_scheduled_cycle_Ok Hok Hnow Hrev Hver Et Ep Ei Ec.
  injection Hf as Ft Fp Fi _ _.
  exists (sched_touch now' (s1 <| sc_status := STriggered |>)). split; [|done].
  apply mark_triggered_run; try done; try congruence; rewrite ?Ec; [lia|done].
Qed.
End schedule_safety.

(** ** A campaign on the clock: the cycle that follows its first review *)
Import Prelude.Fixture.

Module Clock.
Definition mission : Mission := (run (record_outcome reviewed) campaign_mission).2.
Definition minute : Duration := 60 * nanos_per_second.
Definition due : DateTime := Demo.t0 + Demo.hour.
Definition fresh : MissionSchedule :=
  mkSchedule "mission-schedule:mission:cycle:2" "tenant" "project" "mission" 2 (ms_revision mission) 1
    None Interval 3600 Demo.t0 ∅ (Some due) None (Demo.t0 + 3 * Demo.hour) None SPending 0 None [] 1
    (Demo.t0 + 20) (Demo.t0 + 20).
Definition leased : MissionSchedule := calls [Claim zeros64 zeros64 minute due] fresh.
(** The lease lapses and a second worker takes the schedule over. *)
Definition again : DateTime := due + 2 * minute.
Definition taken_over : MissionSchedule := (run (claim zeros64 zeros64 minute again) leased).2.
Definition started : Mission := (run (start_scheduled_cycle 2 [] due) mission).2.

(** Five workers in turn let their lease of a minute lapse. *)
Definition lapses : list ScheduleCall :=
  (fun k => Claim zeros64 zeros64 minute (due + k * minute)) <$> [0; 1; 2; 3; 4; 5].

Lemma prepared : prepare mission (Demo.t0 + 20) = Ok fresh.
Proof. by vm_compute. Qed.
Lemma fresh_ok : sched_ok fresh.
Proof.
  split; [by vm_compute|by intros lease [=]| |by vm_compute].
  intros Hmax. exfalso. revert Hmax. unfold max_failures. cbn. lia.
Qed.
Lemma leased_ok : sched_ok leased.
Proof.
  apply (calls_ok _ (Demo.t0 + 20)); [apply fresh_ok|by vm_compute..|].
  all: by vm_compute.
Qed.
End Clock.

Lemma closed_schedule_is_final_witness :
  let dead := calls Clock.lapses Clock.fresh in
  sc_status dead = SDeadLetter /\ length (sc_failures dead) = 5%nat /\
  (run (call (Cancel zeros64 Clock.due)) dead).2 = dead.
Proof.
  cbn zeta. split_and!; [by vm_compute..|].
  refine (proj2 (closed_schedule_is_final (Cancel zeros64 Clock.due) (calls Clock.lapses Clock.fresh) _)).
  by vm_compute.
Defined.

Lemma stale_lease_is_fenced_witness :
  sc_lease_generation Clock.taken_over = 2 /\
  is_ok (run (call (Heartbeat zeros64 zeros64 1 Clock.minute (Clock.again + 2)))
           (calls [Claim zeros64 zeros64 Clock.minute (Clock.again + 1)] Clock.taken_over)).1 = false.
Proof.
  split; [by vm_compute|].
  apply (stale_lease_is_fenced zeros64 zeros64 Clock.minute Clock.again Clock.leased
    (mkLease zeros64 zeros64 2 Clock.again Clock.again (Clock.again + Clock.minute)) Clock.taken_over
    [Claim zeros64 zeros64 Clock.minute (Clock.again + 1)]
    (Heartbeat zeros64 zeros64 1 Clock.minute (Clock.again + 2)) 1); by vm_compute.
Defined.

Lemma claims_are_exclusive_witness :
  let lease := mkLease zeros64 zeros64 1 Clock.due Clock.due (Clock.due + Clock.minute) in
  claim_granted zeros64 zeros64 Clock.minute Clock.due lease Clock.fresh Clock.leased.
Proof.
  apply (claims_are_exclusive zeros64 zeros64 Clock.minute Clock.due Clock.fresh
    (mkLease zeros64 zeros64 1 Clock.due Clock.due (Clock.due + Clock.minute)) Clock.leased). by vm_compute.
Defined.

Lemma schedule_stays_valid_and_bounded_witness :
  length (sc_failures (calls Clock.lapses Clock.fresh)) = max_failures /\
  sc_status (calls Clock.lapses Clock.fresh) = SDeadLetter.
Proof.
  assert (clocked (Demo.t0 + 20) Clock.lapses) as Hclock by by vm_compute.
  assert (Z.of_nat (length Clock.lapses) < u64_max) as Hfew by by vm_compute.
  pose proof (schedule_stays_valid_and_bounded Clock.mission (Demo.t0 + 20) Clock.fresh Clock.lapses
    Clock.prepared Hclock Hfew) as Hbound.
  destruct Hbound as [Hvalid Hbound]. destruct Hbound as [Hle Hdead].
  assert (length (sc_failures (calls Clock.lapses Clock.fresh)) = max_failures) as Hlen by by vm_compute.
  split; [exact Hlen|exact (Hdead Hlen)].
Defined.

Lemma calls_are_all_or_nothing_witness :
  is_ok (run (call (Claim zeros64 zeros64 Clock.minute (Clock.due + 1))) Clock.leased).1 = false /\
  (run (call (Claim zeros64 zeros64 Clock.minute (Clock.due + 1))) Clock.leased).2 = Clock.leased.
Proof.
  assert (is_ok (run (call (Claim zeros64 zeros64 Clock.minute (Clock.due + 1))) Clock.leased).1 = false)
    as Hfails by by vm_compute.
  assert (sc_updated_at Clock.leased <= Clock.due + 1) as Htime by by vm_compute.
  assert (0 <= sc_lease_generation Clock.leased) as Hgen by by vm_compute.
  assert (takes_over (Claim zeros64 zeros64 Clock.minute (Clock.due + 1)) Clock.leased = false)
    as Hlive by by vm_compute.
  pose proof (calls_are_all_or_nothing (Claim zeros64 zeros64 Clock.minute (Clock.due + 1)) Clock.leased
    Clock.leased_ok Htime Hgen Hlive) as Hsame.
  rewrite Hfails in Hsame. split; [exact Hfails|exact Hsame].
Defined.

Lemma prepare_schedules_next_cycle_witness :
  sc_cycle Clock.fresh = 2 /\ exists due, sc_due_at Clock.fresh = Some due /\ Demo.t0 + 20 < due.
Proof.
  destruct (prepare_schedules_next_cycle Clock.mission (Demo.t0 + 20) Clock.fresh)
    as (_ & _ & Hc & Hd); [apply Clock.prepared|].
  split; [reflexivity|].
  destruct Hd as (cadence & due & _ & Hdue & Hlt & _); [vm_compute; discriminate|].
  exists due. split; [exact Hdue|exact Hlt].
Defined.

Lemma started_cycle_can_be_triggered_witness :
  exists s2, run (mark_triggered zeros64 zeros64 1 Clock.started (Clock.due + 1)) Clock.leased = (Ok tt, s2) /\
    sc_status s2 = STriggered.
Proof.
  refine (started_cycle_can_be_triggered Clock.mission (Demo.t0 + 20) Clock.fresh [] Clock.due
    Clock.started Clock.leased zeros64 zeros64 1 (Clock.due + 1) Clock.prepared _ Clock.leased_ok
    _ _ _ _ _ _ _); by vm_compute.
Defined.
