(* ===== verification/LoopState.v ===== *)
(** * The Mission loop: its state and what makes it valid

    Models [domain-kernel/src/mission_loop/mod.rs]: the policy, the registered
    peers, the bounded work items with their claims, the user gates and the
    accounting of a long-running Mission, with the validation every command
    is checked against. [LoopMode] comes from [decision.rs]; the checks of one
    todo and one gate come from [transition.rs]. *)
From S2P Require Import Prelude Money Contract MissionTypes WorkProduct Effect Checkpoint.
From S2P Require Import Terminal Mission.

Definition LOOP_SCHEMA_VERSION : Z := 1.
Definition LOOP_HISTORY_LIMIT : nat := 32.
Definition LOOP_FRONTIER_LIMIT : nat := 512.

(** ** Data *)
Inductive LoopMode : Type :=
| BoundedDelivery | MonitorPoll | LmRepair | LmReplan | UserActionRequired | LmWait
| QuotaExhausted | Paused | ReconcileRequired | CapabilityUnavailable | WorkspaceMismatch
| LmTerminal | ContractExpired.
#[export] Instance LoopMode_eq_dec : EqDecision LoopMode.
Proof. solve_decision. Defined.

Inductive LoopError : Type :=
| InvalidPolicy | LeInvalidState | ScopeMismatch | RevisionConflict | MissionUnavailable
| UnknownAgent | OperatorRequired | ActorMismatch | InvalidTodo | InvalidGate | FrontierFull
| NotRunnable (mode : LoopMode) | ClaimLost | ExecutionAlreadyStarted | EvidenceRequired
| InvalidContinuation | LeOverflow | ClockRegression.

Record LoopPolicy : Type := mkPolicy {
  lp_operator_id : Id;
  lp_max_slots : Z; (* u32 *)
  lp_max_parallel : Z; (* u16 *)
  lp_lease_seconds : Z; (* u32 *)
  lp_stall_limit : Z; (* u16 *)
}.
#[export] Instance LoopPolicy_eta : Eta LoopPolicy := fun p =>
  mkPolicy (lp_operator_id p) (lp_max_slots p) (lp_max_parallel p) (lp_lease_seconds p)
    (lp_stall_limit p).

Definition in_range (low high n : Z) : bool := (low <=? n) && (n <=? high).

Definition policy_validate (self : LoopPolicy) : result LoopError unit :=
  reject_if (trim_is_empty (lp_operator_id self)
    || negb (in_range 1 64 (lp_max_parallel self))
    || negb (in_range 1 900 (lp_lease_seconds self))
    || negb (in_range 1 100 (lp_stall_limit self))) InvalidPolicy.

Record LoopPeer : Type := mkPeer {
  pe_id : string;
  pe_capabilities : gset string;
  pe_workspace_digest : string;
}.

Record LoopHost : Type := mkHost {
  ho_agent_id : string;
  ho_available_capabilities : gset string;
  ho_workspace_digest : string;
}.

Inductive LoopActor : Type := Operator (id : Id) | Agent (id : string).
#[export] Instance LoopActor_eq_dec : EqDecision LoopActor.
Proof. solve_decision. Defined.

Inductive LoopWorkKind : Type := WkAdvancement | WkRepair | WkReplan | WkMonitor.
#[export] Instance LoopWorkKind_eq_dec : EqDecision LoopWorkKind.
Proof. solve_decision. Defined.

Record LoopMonitor : Type := mkMonitor {
  mo_target_digest : string;
  mo_next_due_at : DateTime;
  mo_interval_seconds : Z; (* u32 *)
  mo_expires_at : DateTime;
}.
#[export] Instance LoopMonitor_eta : Eta LoopMonitor := fun m =>
  mkMonitor (mo_target_digest m) (mo_next_due_at m) (mo_interval_seconds m) (mo_expires_at m).

Record LoopTodoSpec : Type := mkTodoSpec {
  td_id : string;
  td_title : string;
  td_task_id : option Id;
  td_capability : option string;
  td_kind : LoopWorkKind;
  td_priority : Z; (* u16 *)
  td_depends_on : gset string;
  td_eligible_agents : gset string;
  td_required_decisions : gset string;
  td_workspace_digest : string;
  td_write_scopes : gset string;
  td_monitor : option LoopMonitor;
}.
#[export] Instance LoopTodoSpec_eta : Eta LoopTodoSpec := fun t =>
  mkTodoSpec (td_id t) (td_title t) (td_task_id t) (td_capability t) (td_kind t) (td_priority t)
    (td_depends_on t) (td_eligible_agents t) (td_required_decisions t) (td_workspace_digest t)
    (td_write_scopes t) (td_monitor t).

Inductive LoopTodoStatus : Type := LtOpen | LtClaimed | LtUncertain | LtCompleted | LtCancelled.
#[export] Instance LoopTodoStatus_eq_dec : EqDecision LoopTodoStatus.
Proof. solve_decision. Defined.

Record LoopClaim : Type := mkClaim {
  cl_todo_id : string;
  cl_agent_id : string;
  cl_token_digest : string;
  cl_generation : Z; (* u64 *)
  cl_steering_generation : Z; (* u64 *)
  cl_authority_digest : string;
  cl_claimed_at : DateTime;
  cl_expires_at : DateTime;
}.
#[export] Instance LoopClaim_eta : Eta LoopClaim := fun c =>
  mkClaim (cl_todo_id c) (cl_agent_id c) (cl_token_digest c) (cl_generation c)
    (cl_steering_generation c) (cl_authority_digest c) (cl_claimed_at c) (cl_expires_at c).
#[export] Instance LoopClaim_eq_dec : EqDecision LoopClaim.
Proof. solve_decision. Defined.

Definition is_renewal_of (self previous : LoopClaim) : bool :=
  bool_decide (cl_todo_id self = cl_todo_id previous)
  && bool_decide (cl_agent_id self = cl_agent_id previous)
  && bool_decide (cl_token_digest self = cl_token_digest previous)
  && (cl_generation self =? cl_generation previous)
  && (cl_steering_generation self =? cl_steering_generation previous)
  && bool_decide (cl_authority_digest self = cl_authority_digest previous)
  && (cl_claimed_at self =? cl_claimed_at previous)
  && (cl_expires_at previous <=? cl_expires_at self).

Record LoopTodo : Type := mkTodo {
  lt_spec : LoopTodoSpec;
  lt_status : LoopTodoStatus;
  lt_claim : option LoopClaim;
  lt_execution_started : bool;
  lt_no_progress_attempts : Z; (* u16 *)
  lt_last_observation_digest : option string;
}.
#[export] Instance LoopTodo_eta : Eta LoopTodo := fun t =>
  mkTodo (lt_spec t) (lt_status t) (lt_claim t) (lt_execution_started t)
    (lt_no_progress_attempts t) (lt_last_observation_digest t).

Inductive LoopGateScope : Type :=
| GsMission | GsAgent (id : string) | GsTodo (id : string) | GsDecision (id : string).

Record LoopUserGate : Type := mkGate {
  ga_id : string;
  ga_question : string;
  ga_scope : LoopGateScope;
}.

Inductive LoopContinuation : Type :=
| NextTodo (id : string) | UserGate (id : string) | CoReplan | NoFollowup.

Inductive LoopTurnResult : Type :=
| Progress (evidence_ids : gset Id) (continuation : LoopContinuation)
| MonitorObservation (observation_digest : string)
| NoProgress (reason_digest : string)
| TrFailed (evidence_digest : string) (uncertain : bool).

Record LoopRunSummary : Type := mkRun {
  rn_sequence : Z; (* u64 *)
  rn_todo_id : string;
  rn_agent_id : string;
  rn_evidence_digest : string;
  rn_spent_slot : bool;
  rn_notify : bool;
  rn_continuation : option LoopContinuation;
  rn_recorded_at : DateTime;
}.

Inductive LoopAction : Type :=
| RegisterPeer (peer : LoopPeer)
| AddTodo (todo : LoopTodoSpec)
| OpenGate (gate : LoopUserGate)
| ResolveGate (gate_id decision_digest : string)
| Pause (paused : bool)
| SetQuota (max_slots : Z)
| Steer (rationale_digest : string)
| LaClaim (host : LoopHost) (todo_id token_digest : string)
| BeginExecution (claim : LoopClaim) (host : LoopHost)
| LaHeartbeat (claim : LoopClaim)
| Settle (claim : LoopClaim) (result : LoopTurnResult)
| ReconcileRetry (todo_id evidence_digest : string)
| ReconcileSettlement (claim : LoopClaim) (result : LoopTurnResult) (readback_digest : string)
| CancelTodo (todo_id rationale_digest : string)
| AcknowledgeNotice (notification_digest : string).

Record LoopCommand : Type := mkCommand {
  lc_operation_id : string;
  lc_expected_revision : Z; (* u64 *)
  lc_expected_mission_revision : Z; (* u64 *)
  lc_actor : LoopActor;
  lc_action : LoopAction;
}.

Record LoopReceipt : Type := mkLoopReceipt {
  lr_revision : Z; (* u64 *)
  lr_claim : option LoopClaim;
  lr_run : option LoopRunSummary;
  lr_replayed : bool;
}.

Record LoopMissionFacts : Type := mkFacts { lf_mission : Mission; lf_steering_digest : string }.

Record MissionLoop : Type := mkLoop {
  lo_schema_version : Z; (* u32 *)
  lo_tenant_id : Id;
  lo_project_id : Id;
  lo_mission_id : Id;
  lo_policy : LoopPolicy;
  lo_revision : Z; (* u64 *)
  lo_steering_generation : Z; (* u64 *)
  lo_claim_generation : Z; (* u64 *)
  lo_paused : bool;
  lo_spent_slots : Z; (* u32 *)
  lo_no_progress_streak : Z; (* u16 *)
  lo_peers : gmap string LoopPeer;
  lo_todos : gmap string LoopTodo;
  lo_gates : gmap string LoopUserGate;
  lo_accepted_evidence : gset Id;
  lo_recent_runs : list LoopRunSummary;
  lo_run_sequence : Z; (* u64 *)
  lo_acknowledged_notices : gset string;
  lo_created_at : DateTime;
  lo_updated_at : DateTime;
}.
#[export] Instance MissionLoop_eta : Eta MissionLoop := fun s =>
  mkLoop (lo_schema_version s) (lo_tenant_id s) (lo_project_id s) (lo_mission_id s) (lo_policy s)
    (lo_revision s) (lo_steering_generation s) (lo_claim_generation s) (lo_paused s)
    (lo_spent_slots s) (lo_no_progress_streak s) (lo_peers s) (lo_todos s) (lo_gates s)
    (lo_accepted_evidence s) (lo_recent_runs s) (lo_run_sequence s) (lo_acknowledged_notices s)
    (lo_created_at s) (lo_updated_at s).

(** ** Accounting *)
Definition reserves_slot (todo : LoopTodo) : bool :=
  is_some (lt_claim todo) && negb (bool_decide (td_kind (lt_spec todo) = WkMonitor)).
Definition has_status (status : LoopTodoStatus) (todo : LoopTodo) : bool :=
  bool_decide (lt_status todo = status).

Record LoopAccounting : Type := mkAccounting {
  la_revision : Z;
  la_slot_limit : Z;
  la_spent_slots : Z;
  la_reserved_slots : nat;
  la_claimed_slices : nat;
  la_uncertain_slices : nat;
  la_open_slices : nat;
  la_open_gates : nat;
  la_paused : bool;
}.

Definition accounting (self : MissionLoop) : LoopAccounting := {|
  la_revision := lo_revision self;
  la_slot_limit := lp_max_slots (lo_policy self);
  la_spent_slots := lo_spent_slots self;
  la_reserved_slots := count_values reserves_slot (lo_todos self);
  la_claimed_slices := count_values (has_status LtClaimed) (lo_todos self);
  la_uncertain_slices := count_values (has_status LtUncertain) (lo_todos self);
  la_open_slices := count_values (has_status LtOpen) (lo_todos self);
  la_open_gates := size (lo_gates self);
  la_paused := lo_paused self || (lp_max_slots (lo_policy self) =? 0);
|}.

(** ** Text forms *)
Definition token (value : string) : bool :=
  negb (bool_decide (value = ""))
  && (str_len value <=? 160)
  && all_bytes (fun b => is_ascii_alphanumeric b
       || (b =? 95) || (b =? 45) || (b =? 46) || (b =? 58) || (b =? 47)) value.

Definition digest (value : string) : bool := (str_len value =? 64) && all_bytes is_lower_hex value.

(** [value.split('/')] *)
Fixpoint split_slash (value : string) : list string :=
  match value with
  | EmptyString => [""]
  | String c rest =>
    if byte c =? 47 then "" :: split_slash rest
    else match split_slash rest with
         | part :: parts => String c part :: parts
         | [] => [String c ""]
         end
  end.

(** [value.chars().any(char::is_control)] on UTF-8: U+0000..U+001F, U+007F, and
    U+0080..U+009F, which are encoded as 0xC2 followed by 0x80..0x9F. *)
Fixpoint has_control (value : string) : bool :=
  match value with
  | EmptyString => false
  | String c rest =>
    (byte c <? 32) || (byte c =? 127)
    || ((byte c =? 194) && match rest with
                           | String d _ => in_range 128 159 (byte d)
                           | EmptyString => false
                           end)
    || has_control rest
  end.

Definition relative_scope (value : string) : bool :=
  bool_decide (value = ".")
  || (negb (bool_decide (value = ""))
      && (str_len value <=? 512)
      && all_bytes (fun b => negb ((b =? 92) || (b =? 0) || (b =? 58))) value
      && negb (has_control value)
      && forallb (fun part => negb (bool_decide (part = "")) && negb (bool_decide (part = "."))
                              && negb (bool_decide (part = ".."))) (split_slash value)).

Definition starts_with (s prefix : string) : bool := String.prefix prefix s.

Definition scopes_overlap (a b : string) : bool :=
  bool_decide (a = ".") || bool_decide (b = ".") || bool_decide (a = b)
  || starts_with a (String.append b "/")
  || starts_with b (String.append a "/").

(** ** Validation *)
Definition validate_todo_spec (self : MissionLoop) (todo : LoopTodoSpec) : result LoopError unit :=
  reject_if (negb (token (td_id todo))
    || trim_is_empty (td_title todo)
    || (4096 <? str_len (td_title todo))
    || negb (digest (td_workspace_digest todo))
    || is_some_and (fun cap => negb (token cap)) (td_capability todo)
    || set_any (fun scope => negb (relative_scope scope)) (td_write_scopes todo)
    || set_any (fun scope => negb (token scope)) (td_required_decisions todo)
    || contains (td_depends_on todo) (td_id todo)
    || set_any (fun id => negb (contains_key (lo_todos self) id)) (td_depends_on todo)
    || set_any (fun id => negb (contains_key (lo_peers self) id)) (td_eligible_agents todo)
    || xorb (bool_decide (td_kind todo = WkMonitor)) (is_some (td_monitor todo))
    || (bool_decide (td_kind todo ∈ [WkAdvancement; WkMonitor])
        && (is_none (td_task_id todo) || is_none (td_capability todo)))
    || xorb (is_some (td_task_id todo)) (is_some (td_capability todo))) InvalidTodo;;
  reject_if (is_some_and (fun monitor =>
      negb (digest (mo_target_digest monitor))
      || negb (in_range 1 2592000 (mo_interval_seconds monitor))
      || (mo_expires_at monitor <=? lo_created_at self)
      || negb (set_is_empty (td_write_scopes todo))) (td_monitor todo)) InvalidTodo.

Definition validate_gate (self : MissionLoop) (gate : LoopUserGate) : result LoopError unit :=
  reject_if (negb (token (ga_id gate)) || trim_is_empty (ga_question gate)
    || (4096 <? str_len (ga_question gate))) InvalidGate;;
  match ga_scope gate with
  | GsAgent id => reject_if (negb (contains_key (lo_peers self) id)) InvalidGate
  | GsTodo id => reject_if (negb (contains_key (lo_todos self) id)) InvalidGate
  | GsDecision id => reject_if (negb (token id)) InvalidGate
  | GsMission => Ok tt
  end.

Definition peer_is_invalid (id : string) (peer : LoopPeer) : bool :=
  negb (bool_decide (id = pe_id peer))
  || negb (token id)
  || negb (digest (pe_workspace_digest peer))
  || set_any (fun cap => negb (token cap)) (pe_capabilities peer).

Definition claim_is_invalid (self : MissionLoop) (id : string) (claim : LoopClaim) : bool :=
  negb (bool_decide (cl_todo_id claim = id))
  || negb (contains_key (lo_peers self) (cl_agent_id claim))
  || negb (digest (cl_token_digest claim))
  || negb (digest (cl_authority_digest claim))
  || (cl_generation claim =? 0)
  || (lo_claim_generation self <? cl_generation claim)
  || (lo_steering_generation self <? cl_steering_generation claim)
  || (cl_expires_at claim <=? cl_claimed_at claim).

Definition validate_todo (self : MissionLoop) (entry : string * LoopTodo) : result LoopError unit :=
  let '(id, todo) := entry in
  reject_if (negb (bool_decide (id = td_id (lt_spec todo)))) LeInvalidState;;
  validate_todo_spec self (lt_spec todo);;
  reject_if (xorb (bool_decide (lt_status todo ∈ [LtClaimed; LtUncertain])) (is_some (lt_claim todo)))
    LeInvalidState;;
  reject_if (lt_execution_started todo && is_none (lt_claim todo)) LeInvalidState;;
  reject_if (is_some_and (claim_is_invalid self id) (lt_claim todo)) LeInvalidState.

Definition validate_for (self : MissionLoop) (mission : Mission) : result LoopError unit :=
  policy_validate (lo_policy self);;
  reject_if (negb (lo_schema_version self =? LOOP_SCHEMA_VERSION)
    || (lo_revision self =? 0)
    || (lo_steering_generation self =? 0)
    || (lo_updated_at self <? lo_created_at self)
    || Nat.ltb LOOP_FRONTIER_LIMIT (size (lo_todos self))
    || Nat.ltb LOOP_FRONTIER_LIMIT (size (lo_gates self))
    || Nat.ltb 64 (size (lo_peers self))
    || Nat.ltb LOOP_HISTORY_LIMIT (length (lo_recent_runs self))
    || Nat.ltb (size (lo_peers self)) (size (lo_acknowledged_notices self))
    || set_any (fun notice => negb (digest notice)) (lo_acknowledged_notices self)) LeInvalidState;;
  reject_if (negb (bool_decide (lo_tenant_id self = ms_tenant_id mission))
    || negb (bool_decide (lo_project_id self = ms_project_id mission))
    || negb (bool_decide (lo_mission_id self = ms_id mission))) ScopeMismatch;;
  for_each (fun '(id, peer) => reject_if (peer_is_invalid id peer) LeInvalidState)
    (btree_pairs (lo_peers self));;
  for_each (validate_todo self) (btree_pairs (lo_todos self));;
  for_each (fun '(id, gate) =>
      reject_if (negb (bool_decide (id = ga_id gate))) LeInvalidState;; validate_gate self gate)
    (btree_pairs (lo_gates self)).

(** ** Digests

    [serde_json::to_vec] of the values the loop hashes; [None] stands for its
    error. *)
Class LoopSerde := {
  json_gates : list LoopUserGate -> option string;
  json_evidence : list (Id * string * DateTime) -> option string;
  json_authority : Id -> Id -> Id -> OperatingContract -> string -> option string;
}.

Section loop_state.
Context `{Chrono} `{Sha256} `{LoopSerde}.

Definition loop_digest (bytes : option string) : result LoopError string :=
  bytes ← ok_or bytes LeInvalidState;
  mret (sha256_hex bytes).

Definition authority_digest (facts : LoopMissionFacts) : result LoopError string :=
  reject_if (negb (digest (lf_steering_digest facts))) LeInvalidState;;
  let mission := lf_mission facts in
  loop_digest (json_authority (ms_tenant_id mission) (ms_project_id mission) (ms_id mission)
    (ms_contract mission) (lf_steering_digest facts)).

Definition loop_new (mission : Mission) (policy : LoopPolicy) (now : DateTime)
    : result LoopError MissionLoop :=
  policy_validate policy;;
  reject_if (stage_is_terminal (ms_stage mission)
    || is_err (contract_validate (ms_contract mission) now)) MissionUnavailable;;
  mret {|
    lo_schema_version := LOOP_SCHEMA_VERSION;
    lo_tenant_id := ms_tenant_id mission;
    lo_project_id := ms_project_id mission;
    lo_mission_id := ms_id mission;
    lo_policy := policy;
    lo_revision := 1;
    lo_steering_generation := 1;
    lo_claim_generation := 0;
    lo_paused := false;
    lo_spent_slots := 0;
    lo_no_progress_streak := 0;
    lo_peers := ∅;
    lo_todos := ∅;
    lo_gates := ∅;
    lo_accepted_evidence := ∅;
    lo_recent_runs := [];
    lo_run_sequence := 0;
    lo_acknowledged_notices := ∅;
    lo_created_at := now;
    lo_updated_at := now;
  |}.
End loop_state.
