(* ===== verification/LoopDecision.v ===== *)
(** * The Mission loop: deciding what may run

    Models [domain-kernel/src/mission_loop/decision.rs]: the hard stops, the
    eligibility of one todo for one peer, the ordered scan of the frontier, the
    user channel, and the checks a claim must pass before it is used. *)
From S2P Require Import Prelude Money Contract MissionTypes WorkProduct Effect Checkpoint.
From S2P Require Import Terminal Mission LoopState.

Inductive LoopWake : Type := WakeNow | WakeAt (at_ : DateTime) | OnStateChange | WakeStop.

Record LoopUserChannel : Type := mkChannel {
  uc_gate_ids : list string;
  uc_notification_digest : option string;
  uc_notify : bool;
}.
#[export] Instance LoopUserChannel_eta : Eta LoopUserChannel := fun u =>
  mkChannel (uc_gate_ids u) (uc_notification_digest u) (uc_notify u).

Record LoopDecision : Type := mkDecision {
  ld_loop_revision : Z;
  ld_mission_revision : Z;
  ld_mode : LoopMode;
  ld_selected_todo : option string;
  ld_user : LoopUserChannel;
  ld_wake : LoopWake;
  ld_remaining_slots : Z;
  ld_reserved_slots : Z;
  ld_reconciliation_required : bool;
}.
#[export] Instance LoopDecision_eta : Eta LoopDecision := fun d =>
  mkDecision (ld_loop_revision d) (ld_mission_revision d) (ld_mode d) (ld_selected_todo d)
    (ld_user d) (ld_wake d) (ld_remaining_slots d) (ld_reserved_slots d)
    (ld_reconciliation_required d).

(** [LoopDecision::should_run] *)
Definition decision_runs (self : LoopDecision) : bool := is_some (ld_selected_todo self).
Definition spend_after_validation (self : LoopDecision) : bool :=
  decision_runs self && negb (bool_decide (ld_mode self = MonitorPoll)).

Definition gate_blocks (gate : LoopUserGate) (agent : string) (todo : LoopTodoSpec) : bool :=
  match ga_scope gate with
  | GsMission => true
  | GsAgent id => bool_decide (id = agent)
  | GsTodo id => bool_decide (id = td_id todo)
  | GsDecision scope => set_any (fun required =>
      bool_decide (required = scope) || starts_with required (String.append scope ":"))
      (td_required_decisions todo)
  end.

Definition hard_stop (self : MissionLoop) (mission : Mission) (now : DateTime) : option LoopMode :=
  if stage_is_terminal (ms_stage mission) then Some LmTerminal
  else if oc_valid_until (ms_contract mission) <=? now then Some ContractExpired
  else if lo_paused self || (lp_max_slots (lo_policy self) =? 0) then Some Paused
  else if bool_decide (ms_stage mission ∈ [StWaitingUser; StWaitingApproval])
  then Some UserActionRequired
  else if negb (bool_decide (ms_stage mission ∈ [StReady; StRunning; StVerifying]))
          || is_err (contract_validate (ms_contract mission) now)
  then Some LmWait
  else None.

(** A Task of the Mission that still accepts the work of [todo]. *)
Definition task_accepts (mission : Mission) (todo : LoopTodoSpec) (id : Id) : bool :=
  existsb (fun task => bool_decide (tk_id task = id)
    && bool_decide (tk_status task ∈ [TReady; TRunning])
    && bool_decide (td_capability todo = Some (tk_capability task))) (ms_tasks mission).

(** Two todos whose writes could collide, the first one under a claim. *)
Definition write_conflict (todo : LoopTodoSpec) (other : LoopTodo) : bool :=
  negb (bool_decide (td_id (lt_spec other) = td_id todo))
  && is_some (lt_claim other)
  && bool_decide (td_workspace_digest (lt_spec other) = td_workspace_digest todo)
  && set_any (fun a => set_any (scopes_overlap a) (td_write_scopes todo))
       (td_write_scopes (lt_spec other)).

Definition capability_unavailable (mission : Mission) (peer : LoopPeer) (host : LoopHost)
    (capability : string) : bool :=
  negb (contains (pe_capabilities peer) capability)
  || negb (contains (ho_available_capabilities host) capability)
  || negb (contains (oc_enabled_capabilities (ms_contract mission)) capability)
  || contains (oc_forbidden_capabilities (ms_contract mission)) capability.

Definition ineligible_reason (self : MissionLoop) (mission : Mission) (peer : LoopPeer)
    (host : LoopHost) (todo : LoopTodo) : option LoopMode :=
  let spec := lt_spec todo in
  if negb (set_is_empty (td_eligible_agents spec)) && negb (contains (td_eligible_agents spec) (pe_id peer))
  then Some LmWait
  else if set_any (fun id => is_none_or (fun item => negb (bool_decide (lt_status item = LtCompleted)))
                     (lo_todos self !! id)) (td_depends_on spec)
  then Some LmWait
  else if map_any (fun gate => gate_blocks gate (pe_id peer) spec) (lo_gates self)
  then Some UserActionRequired
  else if negb (bool_decide (td_workspace_digest spec = ho_workspace_digest host))
  then Some WorkspaceMismatch
  else if is_some_and (capability_unavailable mission peer host) (td_capability spec)
  then Some CapabilityUnavailable
  else if is_some_and (fun id => negb (task_accepts mission spec id)) (td_task_id spec)
  then Some LmReplan
  else if map_any (write_conflict spec) (lo_todos self) then Some LmWait
  else None.

(** ** Scanning the frontier *)
Definition candidate_le (a b : LoopTodo) : Prop :=
  td_priority (lt_spec a) < td_priority (lt_spec b) \/
  (td_priority (lt_spec a) = td_priority (lt_spec b) /\ String.le (td_id (lt_spec a)) (td_id (lt_spec b))).
#[export] Instance candidate_le_dec : RelDecision candidate_le.
Proof. intros a b. unfold candidate_le. apply _. Defined.

(** What one pass of the loop over the candidates does with a todo. *)
Inductive Verdict : Type :=
| Skipped | DueLater (at_ : DateTime) | Refused (reason : LoopMode) | Runnable (mode : LoopMode).

Definition run_mode (kind : LoopWorkKind) : LoopMode :=
  match kind with
  | WkAdvancement => BoundedDelivery
  | WkRepair => LmRepair
  | WkReplan => LmReplan
  | WkMonitor => MonitorPoll
  end.

Definition work_verdict (self : MissionLoop) (mission : Mission) (peer : LoopPeer) (host : LoopHost)
    (remaining_slots : Z) (todo : LoopTodo) : Verdict :=
  let kind := td_kind (lt_spec todo) in
  match ineligible_reason self mission peer host todo with
  | Some reason => Refused reason
  | None =>
    if bool_decide (kind ∈ [WkRepair; WkReplan])
       && (lp_stall_limit (lo_policy self) <=? lt_no_progress_attempts todo)
    then Refused LmReplan
    else if (lp_stall_limit (lo_policy self) <=? lo_no_progress_streak self)
            && negb (bool_decide (kind ∈ [WkRepair; WkReplan]))
    then Refused LmRepair
    else if (remaining_slots =? 0) && negb (bool_decide (kind = WkMonitor))
    then Refused QuotaExhausted
    else Runnable (run_mode kind)
  end.

Definition verdict (self : MissionLoop) (mission : Mission) (peer : LoopPeer) (host : LoopHost)
    (remaining_slots : Z) (now : DateTime) (todo : LoopTodo) : Verdict :=
  if negb (bool_decide (lt_status todo = LtOpen)) then Skipped else
  match td_monitor (lt_spec todo) with
  | Some monitor =>
    if mo_expires_at monitor <=? now then Skipped
    else if now <? mo_next_due_at monitor then DueLater (mo_next_due_at monitor)
    else work_verdict self mission peer host remaining_slots todo
  | None => work_verdict self mission peer host remaining_slots todo
  end.

(** The loop over the sorted candidates: the first runnable one, or the
    collected reasons and the earliest monitor that comes due. *)
Fixpoint scan (judge : LoopTodo -> Verdict) (reasons : list LoopMode) (next_due : option DateTime)
    (candidates : list LoopTodo) : (string * LoopMode) + (list LoopMode * option DateTime) :=
  match candidates with
  | [] => inr (reasons, next_due)
  | todo :: rest =>
    match judge todo with
    | Skipped => scan judge reasons next_due rest
    | DueLater due => scan judge reasons (Some (from_option (Z.min due) due next_due)) rest
    | Refused reason => scan judge (reasons ++ [reason]) next_due rest
    | Runnable mode => inl (td_id (lt_spec todo), mode)
    end
  end.

Definition idle_mode (reasons : list LoopMode) (waiting gated : bool) : LoopMode :=
  if bool_decide (UserActionRequired ∈ reasons) then UserActionRequired else
  match reasons with
  | reason :: _ => reason
  | [] => if waiting then LmWait else if gated then UserActionRequired else LmReplan
  end.

Section decision.
Context `{Chrono} `{Sha256} `{LoopSerde}.

(** ** The user channel *)
Definition gate_visible (self : MissionLoop) (agent : string) (gate : LoopUserGate) : bool :=
  match ga_scope gate with
  | GsAgent id => bool_decide (id = agent)
  | GsTodo id => is_some_and (fun todo =>
      set_is_empty (td_eligible_agents (lt_spec todo)) || contains (td_eligible_agents (lt_spec todo)) agent)
      (lo_todos self !! id)
  | GsMission | GsDecision _ => true
  end.

Definition user_channel (self : MissionLoop) (agent : string) : result LoopError LoopUserChannel :=
  let gates := List.filter (gate_visible self agent) (btree_values (lo_gates self)) in
  notification_digest ←
    (if bool_decide (gates = []) then Ok None else digest ← loop_digest (json_gates gates); mret (Some digest));
  mret (mkChannel (ga_id <$> gates) notification_digest
    (is_some_and (fun digest => negb (contains (lo_acknowledged_notices self) digest)) notification_digest)).

(** ** The decision *)
Definition is_claimed (todo : LoopTodo) : bool := is_some (lt_claim todo).
Definition claims (self : MissionLoop) : list LoopTodo := List.filter is_claimed (btree_values (lo_todos self)).

(** Uncertain, expired, or granted under an authority that has changed. *)
Definition needs_reconciliation (authority : string) (now : DateTime) (todo : LoopTodo) : bool :=
  bool_decide (lt_status todo = LtUncertain)
  || is_some_and (fun claim => (cl_expires_at claim <=? now)
       || negb (bool_decide (cl_authority_digest claim = authority))) (lt_claim todo).

Definition held_by (agent : string) (todo : LoopTodo) : bool :=
  is_some_and (fun claim => bool_decide (cl_agent_id claim = agent)) (lt_claim todo).

(** The earliest expiry of a claim after [now]. *)
Definition next_expiry (now : DateTime) (held : list LoopTodo) : option DateTime :=
  foldr (fun at_ acc => Some (from_option (Z.min at_) at_ acc)) None
    (List.filter (fun at_ => now <? at_) (cl_expires_at <$> omap lt_claim held)).

Definition wake_at (at_ : option DateTime) : LoopWake := from_option WakeAt OnStateChange at_.

Definition candidates (self : MissionLoop) (selected : option string) : list LoopTodo :=
  merge_sort candidate_le
    (List.filter (fun todo => is_none_or (fun id => bool_decide (td_id (lt_spec todo) = id)) selected)
       (btree_values (lo_todos self))).

Definition free_slots (self : MissionLoop) (reserved_slots : Z) : Z :=
  saturating_sub (saturating_sub (lp_max_slots (lo_policy self)) (lo_spent_slots self)) reserved_slots.

(** What remains of [decision] once no hard stop applies. *)
Definition open_decision (self : MissionLoop) (mission : Mission) (peer : LoopPeer) (host : LoopHost)
    (selected : option string) (authority : string) (now : DateTime) (result : LoopDecision)
    : LoopDecision :=
  if negb (bool_decide (ho_workspace_digest host = pe_workspace_digest peer))
  then result <| ld_mode := WorkspaceMismatch |> else
  match List.find (held_by (ho_agent_id host)) (claims self) with
  | Some todo =>
    if needs_reconciliation authority now todo then result <| ld_mode := ReconcileRequired |>
    else result <| ld_wake := wake_at (cl_expires_at <$> lt_claim todo) |> <| ld_mode := LmWait |>
  | None =>
    if lp_max_parallel (lo_policy self) <=? Z.of_nat (length (claims self))
    then result <| ld_wake := wake_at (next_expiry now (claims self)) |>
    else
      match scan (verdict self mission peer host (ld_remaining_slots result) now) [] None
              (candidates self selected) with
      | inl (id, mode) =>
        result <| ld_mode := mode |> <| ld_selected_todo := Some id |> <| ld_wake := WakeNow |>
      | inr (reasons, next_due) =>
        result <| ld_mode := idle_mode reasons
                    (is_some next_due || negb (bool_decide (claims self = [])))
                    (negb (bool_decide (uc_gate_ids (ld_user result) = []))) |>
               <| ld_wake := wake_at next_due |>
      end
  end.

(** A hard stop silences the user channel unless the user is what it waits
    for, and stops the loop when the Mission or its contract has ended. *)
Definition stopped_decision (mode : LoopMode) (result : LoopDecision) : LoopDecision :=
  let result := result <| ld_mode := mode |> in
  let result := if negb (bool_decide (mode = UserActionRequired))
                then result <| ld_user ::= fun user => user <| uc_notify := false |> |> else result in
  if bool_decide (mode ∈ [LmTerminal; ContractExpired]) then result <| ld_wake := WakeStop |> else result.

Definition decision (self : MissionLoop) (facts : LoopMissionFacts) (host : LoopHost)
    (selected : option string) (now : DateTime) : result LoopError LoopDecision :=
  let mission := lf_mission facts in
  validate_for self mission;;
  reject_if (now <? lo_updated_at self) ClockRegression;;
  peer ← ok_or (lo_peers self !! ho_agent_id host) UnknownAgent;
  authority ← authority_digest facts;
  reserved_slots ← ok_or (try_from_usize u32_max (length (List.filter reserves_slot (claims self))))
    LeOverflow;
  user ← user_channel self (ho_agent_id host);
  let result := {|
    ld_loop_revision := lo_revision self;
    ld_mission_revision := ms_revision mission;
    ld_mode := LmWait;
    ld_selected_todo := None;
    ld_user := user;
    ld_wake := OnStateChange;
    ld_remaining_slots := free_slots self reserved_slots;
    ld_reserved_slots := reserved_slots;
    ld_reconciliation_required := existsb (needs_reconciliation authority now) (claims self);
  |} in
  mret (match hard_stop self mission now with
        | Some mode => stopped_decision mode result
        | None => open_decision self mission peer host selected authority now result
        end).

(** [MissionLoop::should_run] *)
Definition should_run (self : MissionLoop) (facts : LoopMissionFacts) (host : LoopHost)
    (now : DateTime) : result LoopError LoopDecision :=
  decision self facts host None now.

Definition decision_for_todo (self : MissionLoop) (facts : LoopMissionFacts) (host : LoopHost)
    (todo_id : string) (now : DateTime) : result LoopError LoopDecision :=
  reject_if (negb (contains_key (lo_todos self) todo_id)) InvalidTodo;;
  decision self facts host (Some todo_id) now.

(** ** Using a claim *)
Definition require_claim (self : MissionLoop) (facts : LoopMissionFacts) (claim : LoopClaim)
    (now : DateTime) : result LoopError unit :=
  let mission := lf_mission facts in
  validate_for self mission;;
  todo ← ok_or (lo_todos self !! cl_todo_id claim) ClaimLost;
  reject_if (negb (bool_decide (lt_status todo = LtClaimed))
    || negb (bool_decide (lt_claim todo = Some claim))
    || (cl_expires_at claim <=? now)
    || (now <? lo_updated_at self)
    || (now <? cl_claimed_at claim)
    || negb (cl_steering_generation claim =? lo_steering_generation self)) ClaimLost;;
  authority ← authority_digest facts;
  reject_if (negb (bool_decide (cl_authority_digest claim = authority))
    || is_some (hard_stop self mission now)
    || map_any (fun gate => gate_blocks gate (cl_agent_id claim) (lt_spec todo)) (lo_gates self))
    ClaimLost.

Definition require_execution (self : MissionLoop) (facts : LoopMissionFacts) (claim : LoopClaim)
    (now : DateTime) : result LoopError unit :=
  require_claim self facts claim now;;
  todo ← ok_or (lo_todos self !! cl_todo_id claim) ClaimLost;
  reject_if (negb (lt_execution_started todo)
    || is_some_and (fun id => negb (task_accepts (lf_mission facts) (lt_spec todo) id))
         (td_task_id (lt_spec todo))) ClaimLost.
End decision.
