(* ===== verification/LoopTransition.v ===== *)
(** * The Mission loop: commands

    Models [domain-kernel/src/mission_loop/transition.rs]: every action of the
    command table, the settlement of a turn, and [apply], which runs an action
    on a copy and publishes the copy only when everything succeeded. *)
From S2P Require Import Prelude Money Contract MissionTypes WorkProduct Effect Checkpoint.
From S2P Require Import Terminal Mission LoopState LoopDecision.

Abbreviation loop_op := (SR MissionLoop LoopError) (only parsing).

Definition require_operator (self : MissionLoop) (actor : LoopActor) : result LoopError unit :=
  reject_if (negb (bool_decide (actor = Operator (lp_operator_id (lo_policy self))))) OperatorRequired.

Definition require_agent (actor : LoopActor) (agent : string) : result LoopError unit :=
  reject_if (negb (bool_decide (actor = Agent agent))) ActorMismatch.

Definition validate_actor (self : MissionLoop) (actor : LoopActor) : result LoopError unit :=
  match actor with
  | Operator _ => require_operator self actor
  | Agent id => reject_if (negb (contains_key (lo_peers self) id)) UnknownAgent
  end.

Definition validate_task_binding (todo : LoopTodoSpec) (mission : Mission) : result LoopError unit :=
  reject_if (is_some_and (fun id =>
      negb (existsb (fun task => bool_decide (tk_id task = id)
              && bool_decide (td_capability todo = Some (tk_capability task))) (ms_tasks mission))
      || is_none_or (fun cap =>
           negb (contains (oc_enabled_capabilities (ms_contract mission)) cap)
           || contains (oc_forbidden_capabilities (ms_contract mission)) cap) (td_capability todo))
    (td_task_id todo)) InvalidTodo.

Definition validate_continuation (self : MissionLoop) (current : string)
    (continuation : LoopContinuation) : result LoopError unit :=
  match continuation with
  | NextTodo id =>
    reject_if (bool_decide (id = current)
      || is_none_or (fun todo => negb (bool_decide (lt_status todo ∈ [LtOpen; LtClaimed])))
           (lo_todos self !! id)) InvalidContinuation
  | UserGate id => reject_if (negb (contains_key (lo_gates self) id)) InvalidContinuation
  | CoReplan | NoFollowup => Ok tt
  end.

Definition mark_uncertain (todo : LoopTodo) : LoopTodo :=
  if is_some (lt_claim todo) then todo <| lt_status := LtUncertain |> else todo.

Definition invalidate_claims : loop_op unit :=
  self ← get;
  generation ← lift (ok_or (checked_add u64_max (lo_steering_generation self) 1) LeOverflow);
  modify (fun self => self <| lo_steering_generation := generation |>
                           <| lo_todos ::= fmap mark_uncertain |>).

Definition new_todo (spec : LoopTodoSpec) : LoopTodo := mkTodo spec LtOpen None false 0 None.

Definition set_todo (id : string) (todo : LoopTodo) (self : MissionLoop) : MissionLoop :=
  self <| lo_todos ::= <[id := todo]> |>.

Section transition.
Context `{Chrono} `{Sha256} `{LoopSerde}.

(** The digests some registered peer is currently shown. *)
Definition shown_digests (self : MissionLoop) : result LoopError (gset string) :=
  foldl (fun acc agent =>
    current ← acc;
    channel ← user_channel self agent;
    mret (match uc_notification_digest channel with Some d => {[d]} ∪ current | None => current end))
  (Ok ∅) (btree_iter (dom (lo_peers self))).

Definition prune_notice_acknowledgements : loop_op unit :=
  self ← get;
  current ← lift (shown_digests self);
  modify (fun self => self <| lo_acknowledged_notices ::= fun notices => notices ∩ current |>).

(** [now + lease_seconds], cut at the end of the contract and of the monitor. *)
Definition lease_end (self : MissionLoop) (mission : Mission) (todo : LoopTodo) (now : DateTime)
    : result LoopError DateTime :=
  lease ← expect (duration_seconds (lp_lease_seconds (lo_policy self)));
  expires_at ← ok_or (checked_add_signed now lease) LeOverflow;
  let expires_at := Z.min expires_at (oc_valid_until (ms_contract mission)) in
  mret (from_option (fun monitor => Z.min expires_at (mo_expires_at monitor)) expires_at
          (td_monitor (lt_spec todo))).

(** ** Settling a turn *)
Definition evidence_is_unfit (self : MissionLoop) (claim : LoopClaim) (now : DateTime) (id : Id)
    (item : Evidence) : bool :=
  negb (bool_decide (ev_status item = EvConfirmed))
  || contains (lo_accepted_evidence self) id
  || (ev_observed_at item <? cl_claimed_at claim)
  || (now <? ev_observed_at item)
  || negb (digest (ev_content_digest item)).

Fixpoint collect_evidence (self : MissionLoop) (mission : Mission) (claim : LoopClaim) (now : DateTime)
    (ids : list Id) : result LoopError (list (Id * string * DateTime)) :=
  match ids with
  | [] => Ok []
  | id :: ids =>
    item ← ok_or (List.find (fun item => bool_decide (ev_id item = id)) (ms_evidence mission)) EvidenceRequired;
    reject_if (evidence_is_unfit self claim now id item) EvidenceRequired;;
    rest ← collect_evidence self mission claim now ids;
    mret ((ev_id item, ev_content_digest item, ev_observed_at item) :: rest)
  end.

(** The next poll of a monitor after [now]. *)
Definition advance_monitor (monitor : LoopMonitor) (now : DateTime) : result LoopError DateTime :=
  let interval := mo_interval_seconds monitor in
  let elapsed := Z.max (num_seconds (now - mo_next_due_at monitor)) 0 in
  ticks ← expect (checked_div_i64 elapsed interval);
  advance ← ok_or (ticks ← checked_add_i64 ticks 1; checked_mul_i64 ticks interval) LeOverflow;
  step ← expect (duration_seconds advance);
  ok_or (checked_add_signed (mo_next_due_at monitor) step) LeOverflow.

Definition summary (sequence : Z) (claim : LoopClaim) (now : DateTime) (evidence_digest : string)
    (spent_slot notify : bool) (continuation : option LoopContinuation) : LoopRunSummary :=
  mkRun sequence (cl_todo_id claim) (cl_agent_id claim) evidence_digest spent_slot notify
    continuation now.

Definition stall (todo : LoopTodo) : LoopTodo :=
  todo <| lt_no_progress_attempts ::= fun n => saturating_add u16_max n 1 |>.
Definition stall_loop (self : MissionLoop) : MissionLoop :=
  self <| lo_no_progress_streak ::= fun n => saturating_add u16_max n 1 |>.

Definition settle_result (facts : LoopMissionFacts) (claim : LoopClaim) (result : LoopTurnResult)
    (todo : LoopTodo) (sequence : Z) (now : DateTime) : loop_op (LoopTodo * LoopRunSummary) :=
  self ← get;
  match result with
  | Progress evidence_ids continuation =>
    reject (bool_decide (td_kind (lt_spec todo) = WkMonitor)) LeInvalidState;;
    lift (validate_continuation self (td_id (lt_spec todo)) continuation);;
    reject (set_is_empty evidence_ids) EvidenceRequired;;
    evidence ← lift (collect_evidence self (lf_mission facts) claim now (btree_iter evidence_ids));
    evidence_digest ← lift (loop_digest (json_evidence evidence));
    spent ← lift (ok_or (checked_add u32_max (lo_spent_slots self) 1) LeOverflow);
    modify (fun self => self <| lo_spent_slots := spent |>
                             <| lo_accepted_evidence ::= union evidence_ids |>
                             <| lo_no_progress_streak := 0 |>);;
    mret (todo <| lt_status := LtCompleted |>,
          summary sequence claim now evidence_digest true true (Some continuation))
  | MonitorObservation observation_digest =>
    reject (negb (digest observation_digest)) LeInvalidState;;
    monitor ← lift (ok_or (td_monitor (lt_spec todo)) LeInvalidState);
    next_due_at ← lift (advance_monitor monitor now);
    let monitor := monitor <| mo_next_due_at := next_due_at |> in
    mret (todo <| lt_spec ::= fun spec => spec <| td_monitor := Some monitor |> |>
               <| lt_last_observation_digest := Some observation_digest |>
               <| lt_status := if mo_expires_at monitor <=? mo_next_due_at monitor
                               then LtCompleted else LtOpen |>,
          summary sequence claim now observation_digest false
            (is_some_and (fun previous => negb (bool_decide (previous = observation_digest)))
               (lt_last_observation_digest todo)) None)
  | NoProgress reason_digest =>
    reject (negb (digest reason_digest) || bool_decide (td_kind (lt_spec todo) = WkMonitor))
      LeInvalidState;;
    modify stall_loop;;
    mret (stall todo <| lt_status := LtOpen |>, summary sequence claim now reason_digest false false None)
  | TrFailed evidence_digest uncertain =>
    reject (negb (digest evidence_digest)) LeInvalidState;;
    modify stall_loop;;
    mret (stall todo <| lt_status := if uncertain then LtUncertain else LtOpen |>,
          summary sequence claim now evidence_digest false true None)
  end.

Definition is_failed (result : LoopTurnResult) : bool :=
  match result with TrFailed _ _ => true | _ => false end.
Definition is_ambiguous (result : LoopTurnResult) : bool :=
  match result with TrFailed _ true => true | _ => false end.

(** Pop from the front until at most the limit is left. *)
Definition bounded_history (runs : list LoopRunSummary) : list LoopRunSummary :=
  drop (length runs - LOOP_HISTORY_LIMIT) runs.

Definition release (todo : LoopTodo) : LoopTodo :=
  if bool_decide (lt_status todo = LtUncertain) then todo
  else todo <| lt_claim := None |> <| lt_execution_started := false |>.

Definition settle (facts : LoopMissionFacts) (claim : LoopClaim) (result : LoopTurnResult)
    (reconciled : bool) (now : DateTime) : loop_op LoopRunSummary :=
  self ← get;
  (if reconciled || is_ambiguous result then
     reject (negb (bool_decide ((lo_todos self !! cl_todo_id claim) ≫= lt_claim = Some claim))) ClaimLost
   else lift (require_claim self facts claim now));;
  todo ← lift (ok_or (lo_todos self !! cl_todo_id claim) ClaimLost);
  reject (negb (lt_execution_started todo) && negb (is_failed result)) ClaimLost;;
  sequence ← lift (ok_or (checked_add u64_max (lo_run_sequence self) 1) LeOverflow);
  settled ← settle_result facts claim result todo sequence now;
  let '(todo, run) := settled in
  modify (fun self => set_todo (td_id (lt_spec todo)) (release todo) self
    <| lo_run_sequence := sequence |>
    <| lo_recent_runs ::= fun runs => bounded_history (runs ++ [run]) |>);;
  mret run.

(** ** Actions *)
Definition register_peer (peer : LoopPeer) : loop_op unit :=
  self ← get;
  reject (Nat.leb 64 (size (lo_peers self))) FrontierFull;;
  reject (negb (token (pe_id peer)) || negb (digest (pe_workspace_digest peer))
    || set_any (fun cap => negb (token cap)) (pe_capabilities peer)
    || contains_key (lo_peers self) (pe_id peer)) LeInvalidState;;
  modify (fun self => self <| lo_peers ::= <[pe_id peer := peer]> |>).

Definition add_todo (todo : LoopTodoSpec) (mission : Mission) : loop_op unit :=
  self ← get;
  reject (Nat.leb LOOP_FRONTIER_LIMIT (size (lo_todos self))) FrontierFull;;
  reject (contains_key (lo_todos self) (td_id todo)) InvalidTodo;;
  lift (validate_todo_spec self todo);;
  lift (validate_task_binding todo mission);;
  modify (set_todo (td_id todo) (new_todo todo)).

(** An agent may not stop the whole Mission, nor another agent. *)
Definition gate_authority (actor : LoopActor) (gate : LoopUserGate) : result LoopError unit :=
  match actor with
  | Operator _ => Ok tt
  | Agent agent =>
    match ga_scope gate with
    | GsMission => Err OperatorRequired
    | GsAgent id => reject_if (negb (bool_decide (id = agent))) ActorMismatch
    | _ => Ok tt
    end
  end.

Definition open_gate (actor : LoopActor) (gate : LoopUserGate) : loop_op unit :=
  self ← get;
  reject (Nat.leb LOOP_FRONTIER_LIMIT (size (lo_gates self))) FrontierFull;;
  lift (validate_gate self gate);;
  reject (contains_key (lo_gates self) (ga_id gate)) InvalidGate;;
  lift (gate_authority actor gate);;
  modify (fun self => self <| lo_gates ::= <[ga_id gate := gate]> |>);;
  prune_notice_acknowledgements.

Definition resolve_gate (gate_id decision_digest : string) : loop_op unit :=
  self ← get;
  reject (negb (digest decision_digest) || is_none (lo_gates self !! gate_id)) InvalidGate;;
  modify (fun self => self <| lo_gates ::= delete gate_id |>);;
  prune_notice_acknowledgements.

Definition loop_claim (facts : LoopMissionFacts) (host : LoopHost) (todo_id token_digest : string)
    (now : DateTime) : loop_op LoopClaim :=
  reject (negb (digest token_digest)) LeInvalidState;;
  self ← get;
  decision ← lift (decision_for_todo self facts host todo_id now);
  reject (negb (bool_decide (ld_selected_todo decision = Some todo_id))) (NotRunnable (ld_mode decision));;
  generation ← lift (ok_or (checked_add u64_max (lo_claim_generation self) 1) LeOverflow);
  todo ← lift (ok_or (lo_todos self !! todo_id) InvalidTodo);
  expires_at ← lift (lease_end self (lf_mission facts) todo now);
  authority ← lift (authority_digest facts);
  let claim := {|
    cl_todo_id := todo_id;
    cl_agent_id := ho_agent_id host;
    cl_token_digest := token_digest;
    cl_generation := generation;
    cl_steering_generation := lo_steering_generation self;
    cl_authority_digest := authority;
    cl_claimed_at := now;
    cl_expires_at := expires_at;
  |} in
  modify (fun self => set_todo todo_id
    (todo <| lt_status := LtClaimed |> <| lt_claim := Some claim |> <| lt_execution_started := false |>)
    (self <| lo_claim_generation := generation |>));;
  mret claim.

Definition begin_execution (facts : LoopMissionFacts) (claim : LoopClaim) (host : LoopHost)
    (now : DateTime) : loop_op LoopClaim :=
  reject (negb (bool_decide (ho_agent_id host = cl_agent_id claim))) ActorMismatch;;
  self ← get;
  lift (require_claim self facts claim now);;
  peer ← lift (ok_or (lo_peers self !! cl_agent_id claim) UnknownAgent);
  reject (negb (bool_decide (ho_workspace_digest host = pe_workspace_digest peer)))
    (NotRunnable WorkspaceMismatch);;
  todo ← lift (ok_or (lo_todos self !! cl_todo_id claim) ClaimLost);
  reject (lt_execution_started todo) ExecutionAlreadyStarted;;
  match ineligible_reason self (lf_mission facts) peer host todo with
  | Some reason => fail (NotRunnable reason)
  | None => modify (set_todo (cl_todo_id claim) (todo <| lt_execution_started := true |>))
  end;;
  mret claim.

Definition loop_heartbeat (facts : LoopMissionFacts) (claim : LoopClaim) (now : DateTime)
    : loop_op LoopClaim :=
  self ← get;
  lift (require_claim self facts claim now);;
  todo ← lift (ok_or (lo_todos self !! cl_todo_id claim) ClaimLost);
  expires_at ← lift (lease_end self (lf_mission facts) todo now);
  let renewed := claim <| cl_expires_at := expires_at |> in
  modify (set_todo (cl_todo_id claim) (todo <| lt_claim := Some renewed |>));;
  mret renewed.

(** The current authority is computed only when the first two conditions do
    not already decide. *)
Definition reconcile_retry (facts : LoopMissionFacts) (todo_id evidence_digest : string)
    (now : DateTime) : loop_op unit :=
  reject (negb (digest evidence_digest)) EvidenceRequired;;
  self ← get;
  todo ← lift (ok_or (lo_todos self !! todo_id) InvalidTodo);
  claim ← lift (ok_or (lt_claim todo) ClaimLost);
  (if negb (bool_decide (lt_status todo = LtUncertain)) && (now <? cl_expires_at claim) then
     authority ← lift (authority_digest facts);
     reject (bool_decide (cl_authority_digest claim = authority)) ClaimLost
   else mret tt);;
  modify (set_todo todo_id
    (todo <| lt_claim := None |> <| lt_execution_started := false |> <| lt_status := LtOpen |>)).

Definition reconcile_settlement (facts : LoopMissionFacts) (claim : LoopClaim)
    (result : LoopTurnResult) (readback_digest : string) (now : DateTime) : loop_op LoopRunSummary :=
  reject (negb (digest readback_digest)) EvidenceRequired;;
  self ← get;
  reject (negb (cl_steering_generation claim =? lo_steering_generation self)) ClaimLost;;
  authority ← lift (authority_digest facts);
  reject (negb (bool_decide (cl_authority_digest claim = authority))) ClaimLost;;
  settle facts claim result true now.

Definition cancel_todo (todo_id rationale_digest : string) : loop_op unit :=
  reject (negb (digest rationale_digest)) LeInvalidState;;
  self ← get;
  todo ← lift (ok_or (lo_todos self !! todo_id) InvalidTodo);
  reject (negb (bool_decide (lt_status todo = LtOpen)) || is_some (lt_claim todo)) ClaimLost;;
  modify (set_todo todo_id (todo <| lt_status := LtCancelled |>)).

(** [user_channel(agent)] shows exactly this digest. *)
Definition shows (self : MissionLoop) (notification_digest : string) (agent : string) : bool :=
  match user_channel self agent with
  | Ok channel => bool_decide (uc_notification_digest channel = Some notification_digest)
  | _ => false
  end.

Definition acknowledge_notice (actor : LoopActor) (notification_digest : string) : loop_op unit :=
  reject (negb (digest notification_digest)) LeInvalidState;;
  self ← get;
  known ← (match actor with
           | Agent agent =>
             channel ← lift (user_channel self agent);
             mret (bool_decide (uc_notification_digest channel = Some notification_digest))
           | Operator _ => mret (set_any (shows self notification_digest) (dom (lo_peers self)))
           end);
  reject (negb known) InvalidGate;;
  modify (fun self => self <| lo_acknowledged_notices ::= union {[notification_digest]} |>).

Definition govern (actor : LoopActor) {A} (m : loop_op A) : loop_op A :=
  self ← get; lift (require_operator self actor);; m.

Definition no_receipt (m : loop_op unit) : loop_op (option LoopClaim * option LoopRunSummary) :=
  m;; mret (None, None).
Definition claim_receipt (m : loop_op LoopClaim) : loop_op (option LoopClaim * option LoopRunSummary) :=
  claim ← m; mret (Some claim, None).
Definition run_receipt (m : loop_op LoopRunSummary) : loop_op (option LoopClaim * option LoopRunSummary) :=
  run ← m; mret (None, Some run).

Definition transition (facts : LoopMissionFacts) (actor : LoopActor) (action : LoopAction) (now : DateTime)
    : loop_op (option LoopClaim * option LoopRunSummary) :=
  match action with
  | RegisterPeer peer => no_receipt (govern actor (register_peer peer))
  | AddTodo todo => no_receipt (add_todo todo (lf_mission facts))
  | OpenGate gate => no_receipt (open_gate actor gate)
  | ResolveGate gate_id decision_digest => no_receipt (govern actor (resolve_gate gate_id decision_digest))
  | Pause paused => no_receipt (govern actor (
      modify (fun self => self <| lo_paused := paused |>);;
      if paused then invalidate_claims else mret tt))
  | SetQuota max_slots => no_receipt (govern actor (
      self ← get;
      (if max_slots <? lp_max_slots (lo_policy self) then invalidate_claims else mret tt);;
      modify (fun self => self <| lo_policy ::= fun p => p <| lp_max_slots := max_slots |> |>)))
  | Steer rationale_digest => no_receipt (govern actor (
      reject (negb (digest rationale_digest)) LeInvalidState;; invalidate_claims))
  | LaClaim host todo_id token_digest => claim_receipt (
      lift (require_agent actor (ho_agent_id host));; loop_claim facts host todo_id token_digest now)
  | BeginExecution claim host => claim_receipt (
      lift (require_agent actor (cl_agent_id claim));; begin_execution facts claim host now)
  | LaHeartbeat claim => claim_receipt (
      lift (require_agent actor (cl_agent_id claim));; loop_heartbeat facts claim now)
  | Settle claim result => run_receipt (
      lift (require_agent actor (cl_agent_id claim));; settle facts claim result false now)
  | ReconcileSettlement claim result readback_digest => run_receipt (govern actor (
      reconcile_settlement facts claim result readback_digest now))
  | ReconcileRetry todo_id evidence_digest => no_receipt (govern actor (
      reconcile_retry facts todo_id evidence_digest now))
  | CancelTodo todo_id rationale_digest => no_receipt (govern actor (cancel_todo todo_id rationale_digest))
  | AcknowledgeNotice notification_digest => no_receipt (acknowledge_notice actor notification_digest)
  end.

Definition loop_apply (facts : LoopMissionFacts) (command : LoopCommand) (now : DateTime)
    : loop_op LoopReceipt :=
  self ← get;
  lift (validate_for self (lf_mission facts));;
  reject (negb (token (lc_operation_id command))) LeInvalidState;;
  reject (negb (lc_expected_revision command =? lo_revision self)
    || negb (lc_expected_mission_revision command =? ms_revision (lf_mission facts))) RevisionConflict;;
  reject (now <? lo_updated_at self) ClockRegression;;
  lift (validate_actor self (lc_actor command));;
  on_clone (
    revision ← lift (ok_or (checked_add u64_max (lo_revision self) 1) LeOverflow);
    made ← transition facts (lc_actor command) (lc_action command) now;
    modify (fun next => next <| lo_revision := revision |> <| lo_updated_at := now |>);;
    next ← get;
    lift (validate_for next (lf_mission facts));;
    mret (mkLoopReceipt revision made.1 made.2 false)).
End transition.
