(* ===== verification/LoopScopes.v ===== *)
(** * Write scopes

    The textual overlap test of [mission_loop/mod.rs] against what it stands
    for: two scopes overlap exactly when some path lies under both. *)
From S2P Require Import Prelude Money Contract MissionTypes WorkProduct Effect Checkpoint.
From S2P Require Import Terminal Mission LoopState Text.
From Stdlib Require Import Ascii.

Lemma starts_with_spec s p : starts_with s p = true <-> exists r, s = String.append p r.
Proof.
  unfold starts_with. revert s. induction p as [|c p IH]; intros s.
  - split; [by exists s|by destruct s].
  - destruct s as [|d s]; cbn [String.prefix]; [split; [done|by intros [r Hr]]|].
    destruct (Ascii.ascii_dec c d) as [->|Hne].
    + rewrite IH. setoid_rewrite append_String. split; intros [r Hr]; exists r; congruence.
    + split; [done|]. intros [r Hr]. rewrite append_String in Hr. congruence.
Qed.

(** ** Paths as lists of components *)
Definition slash : Ascii.ascii := "/"%char.
Lemma slash_iff c : (byte c =? 47) = true <-> c = slash.
Proof.
  rewrite Z.eqb_eq. split; [|by intros ->]. unfold byte. intros Hc.
  assert (Ascii.N_of_ascii c = 47%N) as Hn by lia. by rewrite <-(Ascii.ascii_N_embedding c), Hn.
Qed.

Fixpoint join_slash (parts : list string) : string :=
  match parts with
  | [] => ""
  | [part] => part
  | part :: parts => String.append part (String slash (join_slash parts))
  end.

Lemma split_slash_cons s : exists part parts, split_slash s = part :: parts.
Proof.
  induction s as [|c s (part & parts & IH)]; cbn; [by exists "", []|].
  rewrite IH. destruct (byte c =? 47); eauto.
Qed.

Lemma split_slash_app a r :
  split_slash (String.append a (String slash r)) = split_slash a ++ split_slash r.
Proof.
  induction a as [|c a IH]; [reflexivity|]. rewrite append_String. cbn [split_slash]. rewrite IH.
  destruct (byte c =? 47); [done|]. by destruct (split_slash_cons a) as (part & parts & ->).
Qed.

Lemma join_cons part parts : parts <> [] ->
  join_slash (part :: parts) = String.append part (String slash (join_slash parts)).
Proof. by destruct parts. Qed.

Lemma join_split s : join_slash (split_slash s) = s.
Proof.
  induction s as [|c s IH]; [done|]. cbn [split_slash].
  destruct (split_slash_cons s) as (part & parts & Hs). rewrite Hs in *. destruct (byte c =? 47) eqn:Hc.
  - apply slash_iff in Hc as ->. rewrite join_cons by done. by rewrite IH.
  - rewrite <-IH. destruct parts as [|p ps]; [done|].
    by rewrite (join_cons part), (join_cons (String c part)) by done.
Qed.

Lemma join_app l1 l2 : l1 <> [] -> l2 <> [] ->
  join_slash (l1 ++ l2) = String.append (join_slash l1) (String slash (join_slash l2)).
Proof.
  intros H1 H2. induction l1 as [|p l1 IH]; [done|]. destruct l1 as [|q l1].
  - cbn [app]. by rewrite join_cons.
  - change ((p :: q :: l1) ++ l2) with (p :: (q :: l1) ++ l2). rewrite (join_cons p), (join_cons p (q :: l1)), IH by done.
    induction p as [|c p IHp]; [done|]. rewrite !append_String. by rewrite IHp.
Qed.

Lemma append_slash a r : String.append (String.append a "/") r = String.append a (String slash r).
Proof. induction a as [|c a IH]; [done|]. by rewrite !append_String, IH. Qed.

(** [b] is [a] or lies under it. *)
Definition under (a b : string) : Prop := split_slash a `prefix_of` split_slash b.

Lemma under_text a b : under a b <-> b = a \/ starts_with b (String.append a "/") = true.
Proof.
  unfold under. rewrite starts_with_spec. split.
  - intros [parts Hp]. destruct parts as [|p ps].
    + left. rewrite app_nil_r in Hp. by rewrite <-(join_split a), <-(join_split b), Hp.
    + right. exists (join_slash (p :: ps)). rewrite append_slash. rewrite <-(join_split b), Hp, join_app; [|..|done].
      * by rewrite join_split.
      * by destruct (split_slash_cons a) as (? & ? & ->).
  - intros [->|[r Hr]]; [done|]. rewrite append_slash in Hr. exists (split_slash r). by rewrite Hr, split_slash_app.
Qed.

(** C16: the overlap test decides overlap. Two write scopes overlap for the
    loop exactly when one of them is the whole workspace or some path lies
    under both, component by component. *)
Theorem scopes_overlap_iff_common_path a b :
  scopes_overlap a b = true <-> a = "." \/ b = "." \/ exists path, under a path /\ under b path.
Proof.
  assert ((exists path, under a path /\ under b path) <-> under a b \/ under b a) as ->.
  { split.
    - intros (path & Ha & Hb). destruct (prefix_weak_total _ _ _ Ha Hb); [by left|by right].
    - intros [Hu|Hu]; [exists b|exists a]; unfold under in *; by split. }
  rewrite !under_text. unfold scopes_overlap. rewrite !orb_true_iff, !bool_decide_eq_true. naive_solver.
Qed.
