(* ===== verification/LoopChoice.v ===== *)
(** * What the loop selects

    The decision selects an open todo only when nothing stands against it, and
    among the todos that could run it selects the first in priority order. *)
From S2P Require Import Prelude Money Contract MissionTypes WorkProduct Effect Checkpoint.
From S2P Require Import Terminal Mission LoopState LoopDecision LoopTransition.

(** ** What validation gives *)
Record todo_valid (self : MissionLoop) (k : string) (todo : LoopTodo) : Prop := {
  tv_key : td_id (lt_spec todo) = k;
  tv_spec : validate_todo_spec self (lt_spec todo) = Ok tt;
  tv_held : lt_status todo ∈ [LtClaimed; LtUncertain] <-> is_Some (lt_claim todo);
  tv_started : lt_execution_started todo = true -> is_Some (lt_claim todo);
  tv_claim claim : lt_claim todo = Some claim -> claim_is_invalid self k claim = false;
}.

Lemma validate_todo_Ok self k todo u : validate_todo self (k, todo) = Ok u <-> todo_valid self k todo.
Proof.
  destruct u. unfold validate_todo. split.
  - intros Hv. inv_ok. split_guards. destruct x. split; try done.
    + match goal with Hx : xorb _ _ = false |- _ => apply xorb_eq in Hx; revert Hx end.
      destruct (lt_claim todo) as [c|]; cbn; intros Hx; split_guards; split; intros Hy; done.
    + intros Hs. rewrite Hs in *. cbn in *. unfold is_none, is_some in *. destruct (lt_claim todo); [by eexists|done].
    + intros c Hc. rewrite Hc in *. done.
  - intros [Hk Hs Hh He Hc]. rewrite Hk, (bool_decide_true (k = k)) by done. cbn. rewrite Hs. cbn.
    destruct (lt_claim todo) as [c|] eqn:Hl.
    + rewrite bool_decide_true by (apply Hh; by eexists). cbn. rewrite (Hc c eq_refl).
      unfold is_none, is_some. cbn. by rewrite andb_false_r.
    + rewrite bool_decide_false by (intros Hx%Hh; by destruct Hx). cbn.
      destruct (lt_execution_started todo); [by destruct (He eq_refl)|done].
Qed.

Lemma valid_todo self mission u k todo :
  validate_for self mission = Ok u -> lo_todos self !! k = Some todo -> todo_valid self k todo.
Proof.
  unfold validate_for. intros Hv Hk. inv_ok.
  match goal with Hx : for_each (validate_todo _) _ = Ok _ |- _ =>
    rewrite for_pairs_Ok in Hx; specialize (Hx k todo Hk); by apply validate_todo_Ok in Hx end.
Qed.

(** ** Slots *)
Definition reserved (self : MissionLoop) : nat := count_values reserves_slot (lo_todos self).

Lemma filter_filter {A} (f g : A -> bool) l :
  (forall x, f x = true -> g x = true) -> List.filter f (List.filter g l) = List.filter f l.
Proof.
  intros Hfg. induction l as [|x l IH]; [done|]. cbn. destruct (g x) eqn:Hg; cbn.
  - by rewrite IH.
  - rewrite IH. destruct (f x) eqn:Hf; [|done]. by rewrite (Hfg _ Hf) in Hg.
Qed.
Lemma reserved_claims self : length (List.filter reserves_slot (claims self)) = reserved self.
Proof.
  unfold reserved, count_values, claims. rewrite filter_filter; [done|].
  intros x. unfold reserves_slot. by intros [? _]%andb_prop.
Qed.

(** ** The order of the candidates *)
#[export] Instance candidate_le_trans : Transitive candidate_le.
Proof.
  intros a b c. unfold candidate_le. intros [?|[? ?]] [?|[? ?]]; [left; lia..|right].
  split; [lia|]. by transitivity (td_id (lt_spec b)).
Qed.
#[export] Instance candidate_le_total : Total candidate_le.
Proof.
  intros a b. unfold candidate_le.
  destruct (Z.lt_trichotomy (td_priority (lt_spec a)) (td_priority (lt_spec b))) as [?|[?|?]]; [by left; left| |by right; left].
  destruct (total String.le (td_id (lt_spec a)) (td_id (lt_spec b))); [left|right]; right; by split.
Qed.

(** ** The scan *)
Definition is_runnable (v : Verdict) : bool := match v with Runnable _ => true | _ => false end.

Lemma scan_selects judge reasons due l id mode :
  scan judge reasons due l = inl (id, mode) ->
  exists before todo after, l = before ++ todo :: after /\ judge todo = Runnable mode /\
    td_id (lt_spec todo) = id /\ forall x, x ∈ before -> is_runnable (judge x) = false.
Proof.
  revert reasons due. induction l as [|t l IH]; intros reasons due Hs; [done|]. cbn in Hs.
  assert (forall r d, scan judge r d l = inl (id, mode) -> is_runnable (judge t) = false ->
    exists before todo after, t :: l = before ++ todo :: after /\ judge todo = Runnable mode /\
      td_id (lt_spec todo) = id /\ forall x, x ∈ before -> is_runnable (judge x) = false) as Hnext.
  { intros r d Hr Ht. destruct (IH r d Hr) as (before & todo & after & -> & ? & ? & Hb).
    exists (t :: before), todo, after. split_and!; try done.
    intros x [->|Hx]%elem_of_cons; [done|by apply Hb]. }
  destruct (judge t) eqn:Ht; [by eapply Hnext..|].
  injection Hs as <- <-. exists [], t, l. split_and!; try done.
  intros x Hx. by apply not_elem_of_nil in Hx.
Qed.

Lemma scan_finds judge reasons due l x :
  x ∈ l -> is_runnable (judge x) = true -> exists id mode, scan judge reasons due l = inl (id, mode).
Proof.
  revert reasons due. induction l as [|t l IH]; intros reasons due; [by intros ?%not_elem_of_nil|].
  intros [->|Hx]%elem_of_cons Hr; cbn.
  - destruct (judge t); try discriminate Hr. eauto.
  - destruct (judge t); eauto.
Qed.

(** ** Eligibility, condition by condition *)
Record eligible (self : MissionLoop) (mission : Mission) (peer : LoopPeer) (host : LoopHost)
    (spec : LoopTodoSpec) : Prop := {
  el_agent : td_eligible_agents spec = ∅ \/ pe_id peer ∈ td_eligible_agents spec;
  el_depends id : id ∈ td_depends_on spec ->
    exists item, lo_todos self !! id = Some item /\ lt_status item = LtCompleted;
  el_gates k gate : lo_gates self !! k = Some gate -> gate_blocks gate (pe_id peer) spec = false;
  el_workspace : td_workspace_digest spec = ho_workspace_digest host;
  el_capability capability : td_capability spec = Some capability ->
    capability ∈ pe_capabilities peer /\ capability ∈ ho_available_capabilities host /\
    capability ∈ oc_enabled_capabilities (ms_contract mission) /\
    capability ∉ oc_forbidden_capabilities (ms_contract mission);
  el_task id : td_task_id spec = Some id -> task_accepts mission spec id = true;
  el_writes k other : lo_todos self !! k = Some other -> write_conflict spec other = false;
}.

Lemma ineligible_None self mission peer host todo :
  ineligible_reason self mission peer host todo = None <-> eligible self mission peer host (lt_spec todo).
Proof.
  unfold ineligible_reason. split.
  - intros Hn. repeat case_match; try discriminate Hn. split_guards.
    repeat match goal with
    | Hx : set_any _ _ = false |- _ => rewrite set_any_false in Hx
    | Hx : map_any _ _ = false |- _ => rewrite map_any_false in Hx
    | Hx : is_some_and _ _ = false |- _ => rewrite is_some_and_false in Hx
    end.
    split; try done.
    + match goal with Hx : _ && _ = false |- _ => apply andb_false_iff in Hx as [Hx|Hx] end; split_guards;
        [left|right]; unfold set_is_empty, contains in *; by split_guards.
    + intros id Hid. match goal with Hx : forall x, x ∈ td_depends_on _ -> _ |- _ => specialize (Hx id Hid) end.
      destruct (lo_todos self !! id) as [item|]; [|done]. cbn in *. split_guards. eauto.
    + intros cap Hcap. match goal with Hx : forall a, td_capability _ = Some a -> _ |- _ => specialize (Hx cap Hcap) end.
      unfold capability_unavailable, contains in *. by split_guards.
    + intros id Hid. match goal with Hx : forall a, td_task_id _ = Some a -> _ |- _ => specialize (Hx id Hid) end.
      by split_guards.
  - intros [Ha Hd Hg Hw Hc Ht Hx].
    assert (negb (set_is_empty (td_eligible_agents (lt_spec todo)))
            && negb (contains (td_eligible_agents (lt_spec todo)) (pe_id peer)) = false) as ->.
    { unfold set_is_empty, contains. destruct Ha as [Ha|Ha].
      - by rewrite (bool_decide_true _ Ha).
      - by rewrite (bool_decide_true _ Ha), andb_false_r. }
    rewrite (proj2 (set_any_false _ _)), (proj2 (map_any_false _ _) Hg), bool_decide_true by
      (try done; intros id Hid; destruct (Hd id Hid) as (item & -> & Hs); cbn; by rewrite bool_decide_true).
    rewrite (proj2 (is_some_and_false _ _)), (proj2 (is_some_and_false _ _)), (proj2 (map_any_false _ _) Hx); cbn;
      [done|intros id Hid; by rewrite (Ht id Hid)|].
    intros cap Hcap. destruct (Hc cap Hcap) as (? & ? & ? & ?). unfold capability_unavailable, contains.
    by rewrite !bool_decide_true, bool_decide_false by done.
Qed.

(** ** One selectable todo *)
Record runnable (self : MissionLoop) (mission : Mission) (peer : LoopPeer) (host : LoopHost)
    (remaining : Z) (now : DateTime) (todo : LoopTodo) (mode : LoopMode) : Prop := {
  ru_open : lt_status todo = LtOpen;
  ru_monitor monitor : td_monitor (lt_spec todo) = Some monitor ->
    mo_next_due_at monitor <= now < mo_expires_at monitor;
  ru_eligible : ineligible_reason self mission peer host todo = None;
  ru_fresh : td_kind (lt_spec todo) ∈ [WkRepair; WkReplan] ->
    lt_no_progress_attempts todo < lp_stall_limit (lo_policy self);
  ru_moving : td_kind (lt_spec todo) ∉ [WkRepair; WkReplan] ->
    lo_no_progress_streak self < lp_stall_limit (lo_policy self);
  ru_slot : td_kind (lt_spec todo) <> WkMonitor -> remaining <> 0;
  ru_mode : mode = run_mode (td_kind (lt_spec todo));
}.

Lemma work_verdict_Runnable self mission peer host remaining todo mode :
  work_verdict self mission peer host remaining todo = Runnable mode <->
  ineligible_reason self mission peer host todo = None /\
  (td_kind (lt_spec todo) ∈ [WkRepair; WkReplan] ->
     lt_no_progress_attempts todo < lp_stall_limit (lo_policy self)) /\
  (td_kind (lt_spec todo) ∉ [WkRepair; WkReplan] ->
     lo_no_progress_streak self < lp_stall_limit (lo_policy self)) /\
  (td_kind (lt_spec todo) <> WkMonitor -> remaining <> 0) /\
  mode = run_mode (td_kind (lt_spec todo)).
Proof.
  unfold work_verdict. destruct (ineligible_reason _ _ _ _ _); [naive_solver|].
  destruct (decide (td_kind (lt_spec todo) ∈ [WkRepair; WkReplan])) as [Hk|Hk];
    [rewrite (bool_decide_true _ Hk)|rewrite (bool_decide_false _ Hk)];
    destruct (decide (td_kind (lt_spec todo) = WkMonitor)) as [Hm|Hm];
    [rewrite (bool_decide_true _ Hm)|rewrite (bool_decide_false _ Hm)|
     rewrite (bool_decide_true _ Hm)|rewrite (bool_decide_false _ Hm)];
    cbn [andb negb]; rewrite ?andb_true_r, ?andb_false_r; repeat case_match; split; intros Hv;
    try discriminate Hv; try (injection Hv as <-); try (destruct Hv as (_ & ? & ? & ? & ->));
    try (split_and!; first [done|intros; lia|intros; done]); try done;
    exfalso; repeat match goal with Hx : ?P -> _, Hy : ?P |- _ => specialize (Hx Hy) end; lia.
Qed.

Lemma verdict_Runnable self mission peer host remaining now todo mode :
  verdict self mission peer host remaining now todo = Runnable mode <->
  runnable self mission peer host remaining now todo mode.
Proof.
  unfold verdict. case_bool_decide as Hopen; cbn [negb].
  2: { split; [done|]. by intros []. }
  destruct (td_monitor (lt_spec todo)) as [mon|] eqn:Hm.
  - destruct (Z.leb_spec (mo_expires_at mon) now) as [He|He].
    { split; [done|]. intros []. specialize (ru_monitor0 _ Hm). lia. }
    destruct (Z.ltb_spec now (mo_next_due_at mon)) as [Hd|Hd].
    { split; [done|]. intros []. specialize (ru_monitor0 _ Hm). lia. }
    rewrite work_verdict_Runnable. split.
    + intros (? & ? & ? & ? & ?). split; try done. intros m' Hm'. rewrite Hm in Hm'. injection Hm' as <-. lia.
    + intros []. done.
  - rewrite work_verdict_Runnable. split.
    + intros (? & ? & ? & ? & ?). split; try done. intros m' Hm'. congruence.
    + intros []. done.
Qed.

(** ** The decision *)
Lemma elem_of_filter_list {A} (f : A -> bool) l x : x ∈ List.filter f l <-> x ∈ l /\ f x = true.
Proof. rewrite !list_elem_of_In. apply filter_In. Qed.

Lemma elem_of_candidates self sel x :
  x ∈ candidates self sel <->
  (exists k, lo_todos self !! k = Some x) /\ forall id, sel = Some id -> td_id (lt_spec x) = id.
Proof.
  unfold candidates. rewrite merge_sort_Permutation, elem_of_filter_list, elem_of_btree_values.
  destruct sel as [id|]; cbn; [|naive_solver]. rewrite bool_decide_eq_true. naive_solver.
Qed.

Lemma candidates_sorted self sel : StronglySorted candidate_le (candidates self sel).
Proof. apply StronglySorted_merge_sort; apply _. Qed.

Lemma sorted_before {A} (R : A -> A -> Prop) l1 (x : A) l2 y :
  StronglySorted R (l1 ++ x :: l2) -> y ∈ l2 -> R x y.
Proof.
  induction l1 as [|z l1 IH]; cbn; intros Hs Hy; inversion Hs as [|? ? Hs' Hf]; subst; [|by apply IH].
  by apply (proj1 (Forall_forall _ _) Hf).
Qed.

(** No agent holds two claims and the parallel limit is not reached. *)
Definition agent_free (self : MissionLoop) (agent : string) : Prop :=
  forall k todo, lo_todos self !! k = Some todo -> held_by agent todo = false.

Lemma find_held_None self agent :
  List.find (held_by agent) (claims self) = None <-> agent_free self agent.
Proof.
  unfold claims, agent_free. split.
  - intros Hf k todo Hk. destruct (lt_claim todo) as [c|] eqn:Hc; [|unfold held_by; by rewrite Hc].
    apply (List.find_none _ _ Hf), list_elem_of_In, elem_of_filter_list.
    split; [apply elem_of_btree_values; eauto|]. unfold is_claimed. by rewrite Hc.
  - intros Hf. destruct (List.find _ _) as [t|] eqn:Ht; [|done].
    apply List.find_some in Ht as [Hin Hh]. apply list_elem_of_In, elem_of_filter_list in Hin as [Hin _].
    apply elem_of_btree_values in Hin as [k Hk]. by rewrite (Hf k t Hk) in Hh.
Qed.

Lemma reject_if_safe {E} (b : bool) (e : E) : reject_if b e <> Panic.
Proof. by destruct b. Qed.
Lemma reject_seq_safe {E A} (b : bool) (e : E) (k : result E A) : k <> Panic -> (reject_if b e;; k) <> Panic.
Proof. by destruct b. Qed.

Lemma contract_validate_result oc now :
  is_err (contract_validate oc now) = false -> contract_validate oc now = Ok tt.
Proof.
  assert (contract_validate oc now <> Panic) as Hsafe
    by (unfold contract_validate; repeat apply reject_seq_safe; apply reject_if_safe).
  destruct (contract_validate oc now) as [[]|e|]; [reflexivity|discriminate|congruence].
Qed.

Lemma hard_stop_None self mission now :
  hard_stop self mission now = None ->
  ms_stage mission ∈ [StReady; StRunning; StVerifying] /\
  contract_validate (ms_contract mission) now = Ok tt /\ lo_paused self = false /\
  now < oc_valid_until (ms_contract mission).
Proof.
  unfold hard_stop. intros Hs. repeat case_match; try discriminate Hs. split_guards.
  split_and!; [done|by apply contract_validate_result|done|lia].
Qed.

Section choice.
Context `{Chrono} `{Sha256} `{LoopSerde}.

(** Everything that holds when the decision for [sel] selects [todo]. *)
Record selection (self : MissionLoop) (facts : LoopMissionFacts) (host : LoopHost)
    (sel : option string) (now : DateTime) (peer : LoopPeer) (reserved : Z) (todo : LoopTodo)
    (mode : LoopMode) : Prop := {
  se_valid : validate_for self (lf_mission facts) = Ok tt;
  se_clock : lo_updated_at self <= now;
  se_peer : lo_peers self !! ho_agent_id host = Some peer;
  se_reserved : reserved = Z.of_nat (length (List.filter reserves_slot (claims self)));
  se_going : hard_stop self (lf_mission facts) now = None;
  se_workspace : ho_workspace_digest host = pe_workspace_digest peer;
  se_agent_free : agent_free self (ho_agent_id host);
  se_parallel : Z.of_nat (length (claims self)) < lp_max_parallel (lo_policy self);
  se_candidate : todo ∈ candidates self sel;
  se_runnable : runnable self (lf_mission facts) peer host (free_slots self reserved) now todo mode;
  se_first other : other ∈ candidates self sel ->
    (exists mode', runnable self (lf_mission facts) peer host (free_slots self reserved) now other mode') ->
    candidate_le todo other;
}.

Lemma stopped_selects_nothing mode d :
  ld_selected_todo (stopped_decision mode d) = ld_selected_todo d.
Proof. unfold stopped_decision. by repeat case_match. Qed.

Lemma open_decision_selected self mission peer host sel authority now d id :
  ld_selected_todo d = None ->
  ld_selected_todo (open_decision self mission peer host sel authority now d) = Some id ->
  ho_workspace_digest host = pe_workspace_digest peer /\ agent_free self (ho_agent_id host) /\
  Z.of_nat (length (claims self)) < lp_max_parallel (lo_policy self) /\
  exists mode, scan (verdict self mission peer host (ld_remaining_slots d) now) [] None
                 (candidates self sel) = inl (id, mode).
Proof.
  intros Hd. unfold open_decision. case_bool_decide as Hw; cbn [negb]; [|cbn; congruence].
  destruct (List.find _ _) as [t|] eqn:Hf; [case_match; cbn; congruence|].
  apply find_held_None in Hf. destruct (Z.leb_spec (lp_max_parallel (lo_policy self)) (Z.of_nat (length (claims self))));
    [cbn; congruence|].
  destruct (scan _ _ _ _) as [[id' mode]|[rs nd]] eqn:Hs; [|cbn; congruence].
  cbn. intros [= ->]. eauto.
Qed.

Lemma scan_selection self mission peer host remaining now sel id mode :
  scan (verdict self mission peer host remaining now) [] None (candidates self sel) = inl (id, mode) ->
  exists todo, td_id (lt_spec todo) = id /\ todo ∈ candidates self sel /\
    runnable self mission peer host remaining now todo mode /\
    forall other, other ∈ candidates self sel ->
      (exists mode', runnable self mission peer host remaining now other mode') -> candidate_le todo other.
Proof.
  intros (before & todo & after & Hl & Hr & Hid & Hb)%scan_selects.
  exists todo. pose proof (candidates_sorted self sel) as Hs. rewrite Hl in *.
  split_and!; [done|set_solver|by apply verdict_Runnable|].
  intros other [Ho|[->|Ho]%elem_of_cons]%elem_of_app [mode' Hm]; [|by right|by eapply sorted_before].
  apply verdict_Runnable in Hm. specialize (Hb other Ho). by rewrite Hm in Hb.
Qed.

Lemma decision_selected self facts host sel now d id :
  decision self facts host sel now = Ok d -> ld_selected_todo d = Some id ->
  exists peer reserved todo mode, td_id (lt_spec todo) = id /\
    selection self facts host sel now peer reserved todo mode.
Proof.
  intros Hd Hid. unfold decision in Hd. inv_ok.
  destruct (hard_stop _ _ _) eqn:Hh; [by rewrite stopped_selects_nothing in Hid|].
  apply open_decision_selected in Hid as (Hw & Hfree & Hpar & mode & Hs); [|done].
  apply scan_selection in Hs as (todo & Hid & Hc & Hr & Hfirst). cbn in Hr, Hfirst.
  do 2 eexists. exists todo, mode. split; [done|]. split; try eassumption.
  - by destruct x.
  - lia.
  - unfold try_from_usize in *. case_match; by simplify_eq.
Qed.
End choice.
