(* ===== verification/LoopSteps.v ===== *)
(** * What a successful loop command does

    One inversion per action: the guards that were passed and the exact next
    state, gathered in the relation [moved]; [apply] is a [moved] step between
    two valid states with the next revision. *)
From S2P Require Import Prelude Money Contract MissionTypes WorkProduct Effect Checkpoint.
From S2P Require Import Terminal Mission LoopState LoopDecision LoopTransition LoopChoice.

(** The part of the state that records work. *)
Definition work (s : MissionLoop) :=
  (lo_todos s, lo_claim_generation s, lo_spent_slots s, lo_accepted_evidence s, lo_recent_runs s,
   lo_run_sequence s).
(** The part only an operator may change, the gates apart. *)
Definition governance (s : MissionLoop) := (lo_policy s, lo_paused s, lo_steering_generation s, lo_peers s).
(** The part no action changes. *)
Definition identity (s : MissionLoop) :=
  (lo_tenant_id s, lo_project_id s, lo_mission_id s, lo_created_at s,
   lp_operator_id (lo_policy s), lp_max_parallel (lo_policy s), lp_lease_seconds (lo_policy s),
   lp_stall_limit (lo_policy s)).

(** The fields of a todo that never change after it was added. *)
Definition spec_core (spec : LoopTodoSpec) :=
  (td_id spec, td_title spec, td_task_id spec, td_capability spec, td_kind spec, td_priority spec,
   td_depends_on spec, td_eligible_agents spec, td_required_decisions spec, td_workspace_digest spec,
   td_write_scopes spec).

Section steps.
Context `{Chrono} `{Sha256} `{LoopSerde}.
Implicit Types (s t : MissionLoop) (facts : LoopMissionFacts).

(** ** Settlement *)
Lemma collect_evidence_Ok s mission claim now ids l :
  collect_evidence s mission claim now ids = Ok l ->
  forall id, id ∈ ids -> (id ∉ lo_accepted_evidence s) /\
    exists item, item ∈ ms_evidence mission /\ ev_id item = id /\ ev_status item = EvConfirmed /\
      cl_claimed_at claim <= ev_observed_at item <= now.
Proof.
  revert l. induction ids as [|i ids IH]; intros l Hl id Hid; [by apply not_elem_of_nil in Hid|].
  cbn in Hl. inv_ok. apply elem_of_cons in Hid as [->|Hid]; [|by eapply IH].
  match goal with Hf : List.find _ _ = Some ?item |- _ => apply List.find_some in Hf as [Hin Hi] end.
  split_guards. unfold evidence_is_unfit, contains in *. split_guards.
  split; [done|]. eexists. split_and!; [by apply list_elem_of_In|done..|lia|lia].
Qed.

(** What a settled turn records, result by result. *)
Definition settles_as facts (claim : LoopClaim) (result : LoopTurnResult) (now : DateTime) s t
    (todo todo' : LoopTodo) : Prop :=
  match result with
  | Progress ids continuation =>
    td_kind (lt_spec todo) <> WkMonitor /\ ids <> ∅ /\ ids ## lo_accepted_evidence s /\
    validate_continuation s (td_id (lt_spec todo)) continuation = Ok tt /\
    (forall id, id ∈ ids -> exists item, item ∈ ms_evidence (lf_mission facts) /\ ev_id item = id /\
       ev_status item = EvConfirmed /\ cl_claimed_at claim <= ev_observed_at item <= now) /\
    lo_accepted_evidence t = ids ∪ lo_accepted_evidence s /\
    lo_spent_slots t = lo_spent_slots s + 1 /\ todo' = todo <| lt_status := LtCompleted |>
  | MonitorObservation observed =>
    lo_accepted_evidence t = lo_accepted_evidence s /\ lo_spent_slots t = lo_spent_slots s /\
    exists monitor next, td_monitor (lt_spec todo) = Some monitor /\
      advance_monitor monitor now = Ok next /\
      todo' = todo <| lt_spec ::= fun spec => spec <| td_monitor := Some (monitor <| mo_next_due_at := next |>) |> |>
                   <| lt_last_observation_digest := Some observed |>
                   <| lt_status := if mo_expires_at monitor <=? next then LtCompleted else LtOpen |>
  | NoProgress _ =>
    lo_accepted_evidence t = lo_accepted_evidence s /\ lo_spent_slots t = lo_spent_slots s /\
    todo' = stall todo <| lt_status := LtOpen |>
  | TrFailed _ uncertain =>
    lo_accepted_evidence t = lo_accepted_evidence s /\ lo_spent_slots t = lo_spent_slots s /\
    todo' = stall todo <| lt_status := if uncertain then LtUncertain else LtOpen |>
  end.

Record settled facts (claim : LoopClaim) (result : LoopTurnResult) (now : DateTime) s t
    (todo todo' : LoopTodo) : Prop := {
  sd_lookup : lo_todos s !! cl_todo_id claim = Some todo;
  sd_claim : lt_claim todo = Some claim;
  sd_started : is_failed result = false -> lt_execution_started todo = true;
  sd_result : settles_as facts claim result now s t todo todo';
  sd_todos : lo_todos t = <[td_id (lt_spec todo') := release todo']> (lo_todos s);
  sd_generation : lo_claim_generation t = lo_claim_generation s;
  sd_governance : governance t = governance s /\ identity t = identity s /\ lo_gates t = lo_gates s;
  sd_sequence : lo_run_sequence t = lo_run_sequence s + 1;
  sd_history : exists run, lo_recent_runs t = bounded_history (lo_recent_runs s ++ [run]) /\
    rn_sequence run = lo_run_sequence s + 1;
}.

Lemma require_claim_Ok s facts claim now u :
  require_claim s facts claim now = Ok u ->
  exists todo, lo_todos s !! cl_todo_id claim = Some todo /\ lt_claim todo = Some claim /\
    lt_status todo = LtClaimed /\ now < cl_expires_at claim /\
    cl_steering_generation claim = lo_steering_generation s /\
    authority_digest facts = Ok (cl_authority_digest claim) /\
    hard_stop s (lf_mission facts) now = None /\
    forall k gate, lo_gates s !! k = Some gate -> gate_blocks gate (cl_agent_id claim) (lt_spec todo) = false.
Proof.
  unfold require_claim. intros Hr. inv_ok. split_guards.
  match goal with Hx : map_any _ _ = false |- _ => rewrite map_any_false in Hx end.
  destruct (hard_stop _ _ _); [done|]. eexists. split_and!; try done; [lia|lia|congruence].
Qed.

Lemma settle_result_Ok facts claim result todo sequence now s todo' r t :
  run (settle_result facts claim result todo sequence now) s = (Ok (todo', r), t) ->
  settles_as facts claim result now s t todo todo' /\ rn_sequence r = sequence /\
  (lo_todos t = lo_todos s /\ lo_claim_generation t = lo_claim_generation s /\
   lo_run_sequence t = lo_run_sequence s /\ lo_recent_runs t = lo_recent_runs s) /\
  (governance t = governance s /\ identity t = identity s /\ lo_gates t = lo_gates s).
Proof.
  unfold settle_result. intros Hr.
  destruct result as [ids co|obs|reason|dg unc]; inv_run; split_guards;
    injection Hr as <- <-; unfold settles_as.
  - match goal with Hx : collect_evidence _ _ _ _ _ = Ok _ |- _ => pose proof (collect_evidence_Ok _ _ _ _ _ _ Hx) as Hev end.
    match goal with Hx : checked_add _ _ _ = Some _ |- _ => apply checked_add_Some in Hx as [-> _] end.
    setoid_rewrite elem_of_btree_iter in Hev. unfold set_is_empty in *. split_guards.
    split_and!; try done.
    + apply elem_of_disjoint. intros id Hid. by apply Hev.
    + intros id Hid. by apply Hev.
  - split_and!; try done. by do 2 eexists.
  - by split_and!.
  - by split_and!.
Qed.

#[local] Instance settle_guard_read_only (b : bool) s facts claim now :
  ReadOnly (S:=MissionLoop) (if b then
    reject (negb (bool_decide ((lo_todos s !! cl_todo_id claim) ≫= lt_claim = Some claim))) ClaimLost
   else lift (require_claim s facts claim now)).
Proof. destruct b; apply _. Qed.

Lemma settle_guard_Ok (b : bool) s facts claim now u t :
  run (if b then
    reject (negb (bool_decide ((lo_todos s !! cl_todo_id claim) ≫= lt_claim = Some claim))) ClaimLost
   else lift (require_claim s facts claim now)) s = (Ok u, t) ->
  exists todo, lo_todos s !! cl_todo_id claim = Some todo /\ lt_claim todo = Some claim.
Proof.
  destruct b; intros Hr; inv_run; split_guards.
  - match goal with Hx : _ ≫= _ = Some _ |- _ => by apply bind_Some in Hx end.
  - match goal with Hx : require_claim _ _ _ _ = Ok _ |- _ => apply require_claim_Ok in Hx as (todo & ? & ? & _) end.
    eauto.
Qed.

Lemma settle_Ok facts claim result reconciled now s r t :
  run (settle facts claim result reconciled now) s = (Ok r, t) ->
  (reconciled || is_ambiguous result = false -> require_claim s facts claim now = Ok tt) /\
  exists todo todo', settled facts claim result now s t todo todo'.
Proof.
  unfold settle. intros Hr. inv_run.
  match goal with Hg : run (if _ then _ else _) _ = _ |- _ =>
    pose proof (settle_guard_Ok _ _ _ _ _ _ _ Hg) as (todo & Hl & Hc); revert Hg end.
  match goal with Hx : run (settle_result _ _ _ _ _ _) _ = _ |- _ =>
    apply settle_result_Ok in Hx as (Has & Hseq & (Htd & Hgen & Hrs & Hrr) & Hgov) end.
  match goal with Hx : checked_add _ _ _ = Some _ |- _ => apply checked_add_Some in Hx as [-> _] end.
  simplify_eq. intros Hg. split.
  - intros Hb. rewrite Hb in Hg. by inv_run.
  - match goal with Hx : settles_as _ _ _ _ _ _ ?a ?b |- _ => exists a, b; split; try done end.
    + intros Hf. rewrite Hf in *. cbn in *. by destruct (lt_execution_started _).
    + cbn. by rewrite Htd.
    + eexists. split; [cbn; by rewrite Hrr|done].
Qed.

(** ** The steps *)
Definition granted (claim : LoopClaim) (todo : LoopTodo) : LoopTodo :=
  todo <| lt_status := LtClaimed |> <| lt_claim := Some claim |> <| lt_execution_started := false |>.
Definition reopened (todo : LoopTodo) : LoopTodo :=
  todo <| lt_claim := None |> <| lt_execution_started := false |> <| lt_status := LtOpen |>.

(** Actions that leave the work alone, and actions that put every claim in
    doubt. *)
Definition is_admin (s : MissionLoop) (a : LoopAction) : bool :=
  match a with
  | RegisterPeer _ | OpenGate _ | ResolveGate _ _ | AcknowledgeNotice _ => true
  | Pause paused => negb paused
  | SetQuota max_slots => lp_max_slots (lo_policy s) <=? max_slots
  | _ => false
  end.
Definition is_revoking (s : MissionLoop) (a : LoopAction) : bool :=
  match a with
  | Steer _ => true
  | Pause paused => paused
  | SetQuota max_slots => max_slots <? lp_max_slots (lo_policy s)
  | _ => false
  end.

Definition doubted s t : Prop :=
  lo_todos t = mark_uncertain <$> lo_todos s /\ lo_steering_generation t = lo_steering_generation s + 1 /\
  (lo_claim_generation t, lo_spent_slots t, lo_accepted_evidence t, lo_recent_runs t, lo_run_sequence t)
  = (lo_claim_generation s, lo_spent_slots s, lo_accepted_evidence s, lo_recent_runs s, lo_run_sequence s).

Inductive moved facts (now : DateTime) s : LoopAction -> MissionLoop -> Prop :=
| mv_admin a t : is_admin s a = true -> work t = work s ->
    lo_steering_generation t = lo_steering_generation s -> moved facts now s a t
| mv_revoke a t : is_revoking s a = true -> doubted s t -> moved facts now s a t
| mv_add spec : lo_todos s !! td_id spec = None -> validate_todo_spec s spec = Ok tt ->
    moved facts now s (AddTodo spec) (set_todo (td_id spec) (new_todo spec) s)
| mv_claim host id tok peer r todo mode claim :
    selection s facts host (Some id) now peer r todo mode -> lo_todos s !! id = Some todo ->
    cl_todo_id claim = id -> cl_agent_id claim = ho_agent_id host ->
    cl_generation claim = lo_claim_generation s + 1 ->
    cl_steering_generation claim = lo_steering_generation s -> cl_claimed_at claim = now ->
    lease_end s (lf_mission facts) todo now = Ok (cl_expires_at claim) ->
    moved facts now s (LaClaim host id tok)
      (set_todo id (granted claim todo) (s <| lo_claim_generation := cl_generation claim |>))
| mv_begin claim host peer todo :
    require_claim s facts claim now = Ok tt -> lo_todos s !! cl_todo_id claim = Some todo ->
    lo_peers s !! cl_agent_id claim = Some peer -> lt_execution_started todo = false ->
    ineligible_reason s (lf_mission facts) peer host todo = None ->
    moved facts now s (BeginExecution claim host)
      (set_todo (cl_todo_id claim) (todo <| lt_execution_started := true |>) s)
| mv_renew claim todo expires :
    require_claim s facts claim now = Ok tt -> lo_todos s !! cl_todo_id claim = Some todo ->
    lease_end s (lf_mission facts) todo now = Ok expires ->
    moved facts now s (LaHeartbeat claim)
      (set_todo (cl_todo_id claim) (todo <| lt_claim := Some (claim <| cl_expires_at := expires |>) |>) s)
| mv_settle claim result todo todo' t :
    (is_ambiguous result = false -> require_claim s facts claim now = Ok tt) ->
    settled facts claim result now s t todo todo' -> moved facts now s (Settle claim result) t
| mv_reconcile claim result readback todo todo' t :
    cl_steering_generation claim = lo_steering_generation s ->
    settled facts claim result now s t todo todo' ->
    moved facts now s (ReconcileSettlement claim result readback) t
| mv_retry id evidence todo claim :
    lo_todos s !! id = Some todo -> lt_claim todo = Some claim ->
    moved facts now s (ReconcileRetry id evidence) (set_todo id (reopened todo) s)
| mv_cancel id rationale todo :
    lo_todos s !! id = Some todo -> lt_status todo = LtOpen -> lt_claim todo = None ->
    moved facts now s (CancelTodo id rationale) (set_todo id (todo <| lt_status := LtCancelled |>) s).

Lemma invalidate_claims_Ok s u t :
  run invalidate_claims s = (Ok u, t) -> doubted s t /\ lo_policy t = lo_policy s /\ lo_paused t = lo_paused s.
Proof.
  unfold invalidate_claims. intros Hr. inv_run.
  match goal with Hx : checked_add _ _ _ = Some _ |- _ => apply checked_add_Some in Hx as [-> _] end. done.
Qed.

Lemma prune_Ok s u t :
  run prune_notice_acknowledgements s = (Ok u, t) ->
  work t = work s /\ lo_steering_generation t = lo_steering_generation s.
Proof. unfold prune_notice_acknowledgements. intros Hr. by inv_run. Qed.

Lemma loop_claim_moved facts host id tok now s claim t :
  run (loop_claim facts host id tok now) s = (Ok claim, t) -> moved facts now s (LaClaim host id tok) t.
Proof.
  unfold loop_claim. intros Hr. inv_run. split_guards.
  match goal with Hx : decision_for_todo _ _ _ _ _ = Ok _ |- _ => unfold decision_for_todo in Hx; inv_ok end.
  match goal with Hx : decision _ _ _ _ _ = Ok _, Hy : ld_selected_todo _ = Some _ |- _ =>
    destruct (decision_selected _ _ _ _ _ _ _ Hx Hy) as (peer & r & todo & mode & Hk & Hsel) end.
  match goal with Hx : checked_add _ _ _ = Some _ |- _ => apply checked_add_Some in Hx as [-> _] end.
  pose proof (proj1 (elem_of_candidates _ _ _) (se_candidate _ _ _ _ _ _ _ _ _ Hsel)) as [[k Hl] _].
  pose proof (tv_key _ _ _ (valid_todo _ _ _ _ _ (se_valid _ _ _ _ _ _ _ _ _ Hsel) Hl)) as Hkey.
  assert (k = id) as -> by congruence. simplify_eq. by eapply mv_claim.
Qed.

Lemma begin_execution_moved facts claim host now s c t :
  run (begin_execution facts claim host now) s = (Ok c, t) -> moved facts now s (BeginExecution claim host) t.
Proof.
  unfold begin_execution. intros Hr. inv_run. split_guards. case_match; inv_run. by eapply mv_begin.
Qed.

Lemma loop_heartbeat_moved facts claim now s c t :
  run (loop_heartbeat facts claim now) s = (Ok c, t) -> moved facts now s (LaHeartbeat claim) t.
Proof. unfold loop_heartbeat. intros Hr. inv_run. by eapply mv_renew. Qed.

Lemma reconcile_retry_moved facts id evidence now s u t :
  run (reconcile_retry facts id evidence now) s = (Ok u, t) -> moved facts now s (ReconcileRetry id evidence) t.
Proof. unfold reconcile_retry. intros Hr. inv_run. by eapply mv_retry. Qed.

Lemma reconcile_settlement_moved facts claim result readback now s r t :
  run (reconcile_settlement facts claim result readback now) s = (Ok r, t) ->
  moved facts now s (ReconcileSettlement claim result readback) t.
Proof.
  unfold reconcile_settlement. intros Hr. inv_run. split_guards.
  match goal with Hx : run (settle _ _ _ _ _) _ = _ |- _ => apply settle_Ok in Hx as (_ & todo & todo' & Hs) end.
  eapply mv_reconcile; [lia|done].
Qed.

Lemma settle_moved facts claim result now s r t :
  run (settle facts claim result false now) s = (Ok r, t) -> moved facts now s (Settle claim result) t.
Proof. intros (Hc & todo & todo' & Hs)%settle_Ok. by eapply mv_settle. Qed.

Lemma quota_moved facts now q s u t :
  run (self ← get;
       (if q <? lp_max_slots (lo_policy self) then invalidate_claims else mret tt);;
       modify (fun self => self <| lo_policy ::= fun p => p <| lp_max_slots := q |> |>)) s = (Ok u, t) ->
  moved facts now s (SetQuota q) t.
Proof.
  intros Hr. inv_run. destruct (q <? _) eqn:Hq; inv_run.
  - match goal with Hx : run invalidate_claims _ = _ |- _ => apply invalidate_claims_Ok in Hx as [Hd _] end.
    by apply mv_revoke.
  - apply mv_admin; [cbn; lia|done..].
Qed.

Lemma pause_moved facts now (p : bool) s u t :
  run (modify (fun self => self <| lo_paused := p |>);; if p then invalidate_claims else mret tt) s = (Ok u, t) ->
  moved facts now s (Pause p) t.
Proof.
  intros Hr. destruct p; inv_run.
  - match goal with Hx : run invalidate_claims _ = _ |- _ => apply invalidate_claims_Ok in Hx as [Hd _] end.
    by apply mv_revoke.
  - by apply mv_admin.
Qed.

Lemma govern_Ok {A} actor (m : SR MissionLoop LoopError A) s a t :
  run (govern actor m) s = (Ok a, t) ->
  actor = Operator (lp_operator_id (lo_policy s)) /\ run m s = (Ok a, t).
Proof.
  unfold govern, require_operator. rewrite run_get_bind. intros (u & s1 & Hl & Hm)%run_bind_Ok.
  inv_run. split_guards. done.
Qed.

Lemma require_agent_Ok {A} actor agent (m : SR MissionLoop LoopError A) s a t :
  run (lift (require_agent actor agent);; m) s = (Ok a, t) -> actor = Agent agent /\ run m s = (Ok a, t).
Proof.
  unfold require_agent. intros (u & s1 & Hl & Hm)%run_bind_Ok. inv_run. split_guards. done.
Qed.

Lemma receipt_Ok {A B} (m : SR MissionLoop LoopError A) (f : A -> B) s b t :
  run (x ← m; mret (f x)) s = (Ok b, t) -> exists x, run m s = (Ok x, t).
Proof. intros (x & s1 & Hm & Hr)%run_bind_Ok. inv_run. eauto. Qed.

Lemma transition_moved facts actor a now s r t :
  run (transition facts actor a now) s = (Ok r, t) -> moved facts now s a t.
Proof.
  destruct a; cbn [transition]; unfold no_receipt, claim_receipt, run_receipt; intros Hr;
    apply receipt_Ok in Hr as [x Hr]; try apply govern_Ok in Hr as [_ Hr];
    try apply require_agent_Ok in Hr as [_ Hr].
  - unfold register_peer in *. inv_run. by apply mv_admin.
  - unfold add_todo in *. inv_run. unfold contains_key, is_some in *. apply mv_add; [by case_match|done].
  - unfold open_gate in *. inv_run.
    match goal with Hx : run prune_notice_acknowledgements _ = _ |- _ => apply prune_Ok in Hx as [Hw Hg] end.
    apply mv_admin; [done|exact Hw|exact Hg].
  - unfold resolve_gate in *. inv_run.
    match goal with Hx : run prune_notice_acknowledgements _ = _ |- _ => apply prune_Ok in Hx as [Hw Hg] end.
    apply mv_admin; [done|exact Hw|exact Hg].
  - by eapply pause_moved.
  - by eapply quota_moved.
  - inv_run. match goal with Hx : run invalidate_claims _ = _ |- _ => apply invalidate_claims_Ok in Hx as [Hd _] end.
    by apply mv_revoke.
  - by eapply loop_claim_moved.
  - by eapply begin_execution_moved.
  - by eapply loop_heartbeat_moved.
  - by eapply settle_moved.
  - by eapply reconcile_retry_moved.
  - by eapply reconcile_settlement_moved.
  - unfold cancel_todo in *. inv_run. split_guards. apply mv_cancel; [done..|]. unfold is_some in *. by case_match.
  - unfold acknowledge_notice in *. inv_run. by apply mv_admin.
Qed.

(** ** Commands *)
Record applied facts (command : LoopCommand) (now : DateTime) (r : LoopReceipt) s s' : Prop := {
  ap_valid : validate_for s (lf_mission facts) = Ok tt;
  ap_valid' : validate_for s' (lf_mission facts) = Ok tt;
  ap_expected : lc_expected_revision command = lo_revision s;
  ap_revision : lr_revision r = lo_revision s + 1 /\ lo_revision s' = lo_revision s + 1;
  ap_clock : lo_updated_at s <= now /\ lo_updated_at s' = now;
  ap_step : exists t made, run (transition facts (lc_actor command) (lc_action command) now) s = (Ok made, t) /\
    s' = t <| lo_revision := lo_revision s + 1 |> <| lo_updated_at := now |>;
}.

Lemma apply_Ok facts command now s r s' :
  run (loop_apply facts command now) s = (Ok r, s') -> applied facts command now r s s'.
Proof.
  unfold loop_apply. intros Hr. rewrite run_get_bind in Hr.
  do 5 (apply run_bind_Ok in Hr as (? & ? & ? & Hr)). inv_run. split_guards.
  match goal with Hx : checked_add _ _ _ = Some _ |- _ => apply checked_add_Some in Hx as [-> _] end.
  split; try done; try lia; [split; [lia|done]|by do 2 eexists].
Qed.

Lemma apply_actor facts command now s r s' :
  run (loop_apply facts command now) s = (Ok r, s') -> validate_actor s (lc_actor command) = Ok tt.
Proof.
  unfold loop_apply. intros Hr. rewrite run_get_bind in Hr.
  do 5 (apply run_bind_Ok in Hr as (? & ? & ? & Hr)). by inv_run.
Qed.

Lemma applied_moved facts command now r s s' :
  applied facts command now r s s' ->
  exists t, moved facts now s (lc_action command) t /\
    s' = t <| lo_revision := lo_revision s + 1 |> <| lo_updated_at := now |>.
Proof. intros [_ _ _ _ _ (t & made & Ht & ->)]. exists t. split; [by eapply transition_moved|done]. Qed.

(** ** Claims are inherited, except the one a claim grants *)
Definition same_holder (c c' : LoopClaim) : Prop :=
  cl_agent_id c' = cl_agent_id c /\ cl_generation c' = cl_generation c /\
  cl_steering_generation c' = cl_steering_generation c.

Definition keeps (todo todo' : LoopTodo) : Prop :=
  forall c', lt_claim todo' = Some c' -> exists c, lt_claim todo = Some c /\ same_holder c c' /\
    spec_core (lt_spec todo') = spec_core (lt_spec todo) /\
    (lt_execution_started todo = true -> lt_execution_started todo' = true).

Definition inherits s t : Prop :=
  forall k todo' c', lo_todos t !! k = Some todo' -> lt_claim todo' = Some c' ->
    exists todo, lo_todos s !! k = Some todo /\ keeps todo todo'.

Lemma keeps_refl todo : keeps todo todo.
Proof. intros c Hc. by exists c. Qed.
Lemma keeps_none todo todo' : lt_claim todo' = None -> keeps todo todo'.
Proof. intros Hn c Hc. congruence. Qed.

Lemma inherits_refl s t : lo_todos t = lo_todos s -> inherits s t.
Proof. intros Ht k todo' c' Hk Hc. rewrite Ht in Hk. exists todo'. split; [done|apply keeps_refl]. Qed.

Lemma inherits_insert s t k todo' :
  lo_todos t = <[k := todo']> (lo_todos s) ->
  (forall c, lt_claim todo' = Some c -> exists todo, lo_todos s !! k = Some todo /\ keeps todo todo') -> inherits s t.
Proof.
  intros Ht Hk j todo c' Hj Hc. rewrite Ht in Hj. apply lookup_insert_Some in Hj as [[<- <-]|[_ Hj]].
  - by eapply Hk.
  - exists todo. split; [done|apply keeps_refl].
Qed.

Lemma doubted_inherits s t : doubted s t -> inherits s t.
Proof.
  intros (Ht & _ & _) k todo' c' Hk Hc. rewrite Ht, lookup_fmap in Hk.
  apply fmap_Some in Hk as (todo & Hk & ->). exists todo. split; [done|].
  unfold mark_uncertain in *. destruct (is_some (lt_claim todo)); [|apply keeps_refl].
  intros c Hc'. by exists c.
Qed.

Lemma settled_keeps facts claim result now s t todo todo' :
  settled facts claim result now s t todo todo' ->
  spec_core (lt_spec todo') = spec_core (lt_spec todo) /\ keeps todo (release todo') /\
  (lt_claim (release todo') = None \/ lt_status todo' = LtUncertain /\ is_ambiguous result = true).
Proof.
  intros [Hl Hc _ Hres _ _ _ _ _]. destruct result as [ids co|obs|reason|dg unc]; cbn in Hres.
  - destruct Hres as (_ & _ & _ & _ & _ & _ & _ & ->). split_and!; [done|by apply keeps_none|by left].
  - destruct Hres as (_ & _ & mon & next & _ & _ & ->). split; [done|]. unfold release; cbn.
    rewrite bool_decide_false by (by case_match). split; [by apply keeps_none|by left].
  - destruct Hres as (_ & _ & ->). split_and!; [done|by apply keeps_none|by left].
  - destruct Hres as (_ & _ & ->). split; [done|]. destruct unc.
    + split; [|by right]. intros c Hx. by exists c.
    + split; [by apply keeps_none|by left].
Qed.

Definition is_claim (a : LoopAction) : bool := match a with LaClaim _ _ _ => true | _ => false end.

Lemma moved_inherits facts now s a t u :
  validate_for s (lf_mission facts) = Ok u -> moved facts now s a t -> is_claim a = false ->
  inherits s t /\ lo_claim_generation t = lo_claim_generation s.
Proof.
  intros Hv Hm Ha.
  assert (forall claim result todo todo', settled facts claim result now s t todo todo' ->
    inherits s t /\ lo_claim_generation t = lo_claim_generation s) as Hsettle.
  { intros claim result todo todo' Hs. destruct (settled_keeps _ _ _ _ _ _ _ _ Hs) as (Hcore & Hk & _).
    destruct Hs as [Hl Hc _ _ Ht Hg _ _ _]. split; [|done]. eapply inherits_insert; [exact Ht|].
    intros c Hx. exists todo. split; [|done]. pose proof (tv_key _ _ _ (valid_todo _ _ _ _ _ Hv Hl)) as Hkey.
    injection Hcore. intros. congruence. }
  destruct Hm; try discriminate Ha; try (by eapply Hsettle).
  - match goal with Hx : work _ = work _ |- _ => injection Hx as Ht Hg _ _ _ _ end.
    split; [by apply inherits_refl|done].
  - match goal with Hx : doubted _ _ |- _ => split; [by apply doubted_inherits|destruct Hx as (_ & _ & Hx); by injection Hx] end.
  - split; [|done]. eapply inherits_insert; [done|]. cbn. done.
  - split; [|done]. eapply inherits_insert; [done|]. intros c Hc. exists todo. split; [done|].
    intros c' Hc'. exists c'. cbn in Hc'. done.
  - split; [|done]. eapply inherits_insert; [done|]. intros c Hc. exists todo. split; [done|].
    match goal with Hx : require_claim _ _ _ _ = Ok _ |- _ => apply require_claim_Ok in Hx as (todo2 & Hl & Hcl & _) end.
    simplify_eq. intros c' [= <-]. by exists claim.
  - split; [|done]. eapply inherits_insert; [done|]. cbn. done.
  - split; [|done]. eapply inherits_insert; [done|]. intros c Hc. cbn in Hc. congruence.
Qed.
End steps.
