(* ===== verification/LoopSafety.v ===== *)
(** * What the Mission loop guarantees

    Over every sequence of commands, with whatever Mission facts and at
    whatever time each one is applied: claims are exclusive and fenced, a claim
    starts execution at most once, slots and evidence are never spent twice,
    dependencies are respected, and only the operator governs. *)
From S2P Require Import Prelude Money Contract MissionTypes WorkProduct Effect Checkpoint.
From S2P Require Import Terminal Mission LoopState LoopDecision LoopTransition LoopChoice LoopSteps.

Section loop_safety.
Context `{Chrono} `{Sha256} `{LoopSerde}.
Implicit Types (s t : MissionLoop) (facts : LoopMissionFacts).

(** ** What no action changes *)
#[local] Instance settle_result_identity facts claim result todo sequence now :
  Preserves identity (settle_result facts claim result todo sequence now).
Proof. unfold settle_result. apply _. Qed.
#[local] Instance settle_identity facts claim result reconciled now :
  Preserves identity (settle facts claim result reconciled now).
Proof. unfold settle. apply _. Qed.
#[local] Instance invalidate_claims_identity : Preserves identity invalidate_claims.
Proof. unfold invalidate_claims. apply _. Qed.
#[local] Instance prune_identity : Preserves identity prune_notice_acknowledgements.
Proof. unfold prune_notice_acknowledgements. apply _. Qed.
Lemma transition_identity facts actor a now : Preserves identity (transition facts actor a now).
Proof.
  unfold transition, no_receipt, claim_receipt, run_receipt, govern, register_peer, add_todo, open_gate,
    resolve_gate, loop_claim, begin_execution, loop_heartbeat, reconcile_retry, reconcile_settlement,
    cancel_todo, acknowledge_notice. cbn zeta. apply _.
Qed.

(** The slot limit after an action. *)
Definition quota s : Z := lp_max_slots (lo_policy s).
Definition new_quota (a : LoopAction) s : Z := match a with SetQuota q => q | _ => quota s end.
#[local] Instance settle_result_quota facts claim result todo sequence now :
  Preserves quota (settle_result facts claim result todo sequence now).
Proof. unfold settle_result. apply _. Qed.
#[local] Instance settle_quota facts claim result reconciled now :
  Preserves quota (settle facts claim result reconciled now).
Proof. unfold settle. apply _. Qed.
#[local] Instance invalidate_claims_quota : Preserves quota invalidate_claims.
Proof. unfold invalidate_claims. apply _. Qed.
#[local] Instance prune_quota : Preserves quota prune_notice_acknowledgements.
Proof. unfold prune_notice_acknowledgements. apply _. Qed.
Lemma transition_quota facts actor a now s r t :
  run (transition facts actor a now) s = (Ok r, t) -> quota t = new_quota a s.
Proof.
  destruct a; try (intros Hr; match type of Hr with run ?m _ = _ =>
    assert (Preserves quota m) as Hp by (unfold transition, no_receipt, claim_receipt, run_receipt, govern,
      register_peer, add_todo, open_gate, resolve_gate, loop_claim, begin_execution, loop_heartbeat,
      reconcile_retry, reconcile_settlement, cancel_todo, acknowledge_notice; cbn zeta; apply _) end;
    specialize (Hp s); rewrite Hr in Hp; exact Hp).
  cbn [transition]. unfold no_receipt. intros [x Hr]%receipt_Ok. apply govern_Ok in Hr as [_ Hr].
  inv_run. done.
Qed.

(** ** Runs

    A failing command leaves the loop as it was (below), so a run is a
    sequence of successful ones; [P] restricts the actions taken. *)
Definition loop_step (P : LoopAction -> Prop) s s' : Prop :=
  exists facts command now r, P (lc_action command) /\ run (loop_apply facts command now) s = (Ok r, s').
Definition created s : Prop := exists mission policy now, loop_new mission policy now = Ok s.
Definition any_action (_ : LoopAction) : Prop := True.
Definition loop_reachable s : Prop := exists s0, created s0 /\ rtc (loop_step any_action) s0 s.

(** What every action keeps, the slot limit apart. *)
Definition kept (a : LoopAction) s t : Prop := identity t = identity s /\ quota t = new_quota a s.

(** The stamp [apply] puts on the state a transition leaves. *)
Definition stamped (revision : Z) (now : DateTime) t : MissionLoop :=
  t <| lo_revision := revision |> <| lo_updated_at := now |>.

Lemma loop_step_moved P s s' :
  loop_step P s s' -> exists facts now a t, P a /\ validate_for s (lf_mission facts) = Ok tt /\
    validate_for s' (lf_mission facts) = Ok tt /\
    moved facts now s a t /\ kept a s t /\ s' = stamped (lo_revision s + 1) now t.
Proof.
  intros (facts & command & now & r & HP & [Hv Hv' _ _ _ (t & made & Ht & ->)]%apply_Ok).
  pose proof (transition_identity facts (lc_actor command) (lc_action command) now s) as Hi. rewrite Ht in Hi.
  pose proof (transition_quota _ _ _ _ _ _ _ Ht) as Hq. apply transition_moved in Ht. exists facts, now, (lc_action command), t. done.
Qed.

(** Invariants by rule induction over a run. *)
Lemma run_invariant P (I : MissionLoop -> Prop) s s' :
  (forall facts now a s t revision, P a -> validate_for s (lf_mission facts) = Ok tt ->
     moved facts now s a t -> kept a s t -> I s -> I (stamped revision now t)) ->
  rtc (loop_step P) s s' -> I s -> I s'.
Proof.
  intros Hstep. induction 1 as [|s s1 s' Hs _ IH]; [done|]. intros HI. apply IH.
  destruct (loop_step_moved _ _ _ Hs) as (facts & now & a & t & HP & Hv & _ & Hm & Hid & ->). by eapply Hstep.
Qed.

Lemma created_fresh s :
  created s -> lo_todos s = ∅ /\ lo_accepted_evidence s = ∅ /\ lo_spent_slots s = 0 /\
    lo_claim_generation s = 0 /\ lo_recent_runs s = [] /\ lo_run_sequence s = 0 /\
    policy_validate (lo_policy s) = Ok tt.
Proof. intros (mission & policy & now & Hn). unfold loop_new in Hn. inv_ok. destruct x. done. Qed.

Lemma reachable_invariant (I : MissionLoop -> Prop) s :
  (forall s0, created s0 -> I s0) ->
  (forall facts now a s t revision, validate_for s (lf_mission facts) = Ok tt ->
     moved facts now s a t -> kept a s t -> I s -> I (stamped revision now t)) ->
  loop_reachable s -> I s.
Proof.
  intros Hinit Hstep (s0 & H0' & Hr). eapply (run_invariant any_action); [|done|by apply Hinit].
  intros facts now a s1 t revision _. apply Hstep.
Qed.

(** ** Exclusive claims *)
Lemma scopes_overlap_comm a b : scopes_overlap a b = scopes_overlap b a.
Proof.
  unfold scopes_overlap. rewrite (bool_decide_ext (a = b) (b = a)) by done.
  destruct (bool_decide (a = ".")), (bool_decide (b = ".")), (bool_decide (b = a)); cbn; try done.
  apply orb_comm.
Qed.

Definition disjoint_writes (a b : LoopTodoSpec) : Prop :=
  td_workspace_digest a = td_workspace_digest b ->
  forall x y, x ∈ td_write_scopes a -> y ∈ td_write_scopes b -> scopes_overlap x y = false.

Lemma disjoint_writes_sym a b : disjoint_writes a b -> disjoint_writes b a.
Proof. intros Hd Hw x y Hx Hy. rewrite scopes_overlap_comm. by apply Hd. Qed.

Lemma disjoint_writes_core a a' b b' :
  spec_core a' = spec_core a -> spec_core b' = spec_core b -> disjoint_writes a b -> disjoint_writes a' b'.
Proof. intros [= ? ? ? ? ? ? ? ? ? Ew Es] [= ? ? ? ? ? ? ? ? ? Fw Fs]. unfold disjoint_writes. by rewrite Ew, Es, Fw, Fs. Qed.

Definition apart (ti tj : LoopTodo) (ci cj : LoopClaim) : Prop :=
  cl_agent_id ci <> cl_agent_id cj /\ cl_generation ci <> cl_generation cj /\
  disjoint_writes (lt_spec ti) (lt_spec tj).

Lemma apart_sym ti tj ci cj : apart ti tj ci cj -> apart tj ti cj ci.
Proof. intros (Ha & Hg & Hw). split_and!; [congruence|congruence|by apply disjoint_writes_sym]. Qed.

Definition holds s k (todo : LoopTodo) (claim : LoopClaim) : Prop :=
  lo_todos s !! k = Some todo /\ lt_claim todo = Some claim.

Record exclusive s : Prop := {
  ex_apart i j ti tj ci cj : i <> j -> holds s i ti ci -> holds s j tj cj -> apart ti tj ci cj;
  ex_generation k todo claim : holds s k todo claim -> cl_generation claim <= lo_claim_generation s;
  ex_parallel : Z.of_nat (length (claims s)) <= lp_max_parallel (lo_policy s);
}.

Lemma inherits_holds s t k todo' c' :
  inherits s t -> holds t k todo' c' -> exists todo c, holds s k todo c /\ same_holder c c' /\
    spec_core (lt_spec todo') = spec_core (lt_spec todo) /\
    (lt_execution_started todo = true -> lt_execution_started todo' = true).
Proof.
  intros Hi [Hl Hc]. destruct (Hi k todo' c' Hl Hc) as (todo & Hs & Hk).
  destruct (Hk c' Hc) as (c & Hc' & Hrest). by exists todo, c.
Qed.

Lemma inherits_parallel s t : inherits s t -> (length (claims t) <= length (claims s))%nat.
Proof.
  intros Hi. apply count_values_mono. intros k todo' Hk Hc. unfold is_claimed, is_some in Hc.
  destruct (lt_claim todo') as [c'|] eqn:Hc'; [|done].
  destruct (inherits_holds s t k todo' c' Hi) as (todo & c & [Hl Hcl] & _); [done|].
  exists todo. unfold is_claimed. by rewrite Hcl.
Qed.

Lemma exclusive_inherits s t :
  inherits s t -> lo_claim_generation t = lo_claim_generation s ->
  lp_max_parallel (lo_policy t) = lp_max_parallel (lo_policy s) -> exclusive s -> exclusive t.
Proof.
  intros Hi Hg Hp [Ha Hgen Hpar]. split.
  - intros i j ti tj ci cj Hij Hti Htj.
    destruct (inherits_holds _ _ _ _ _ Hi Hti) as (ui & di & Hui & (Eai & Egi & _) & Hsi & _).
    destruct (inherits_holds _ _ _ _ _ Hi Htj) as (uj & dj & Huj & (Eaj & Egj & _) & Hsj & _).
    destruct (Ha i j ui uj di dj Hij Hui Huj) as (Hag & Hge & Hw). split_and!; [congruence..|].
    by eapply disjoint_writes_core.
  - intros k todo claim Hh. destruct (inherits_holds _ _ _ _ _ Hi Hh) as (u & d & Hu & (_ & Eg & _) & _).
    rewrite Eg, Hg. by eapply Hgen.
  - pose proof (inherits_parallel s t Hi). lia.
Qed.

(** A selected todo is not held, and can be granted. *)
Lemma selection_holder s facts host id now peer r todo mode k other c :
  selection s facts host (Some id) now peer r todo mode -> holds s k other c ->
  cl_agent_id c <> ho_agent_id host /\ (td_id (lt_spec other) <> td_id (lt_spec todo) ->
    disjoint_writes (lt_spec other) (lt_spec todo)).
Proof.
  intros Hsel [Hk Hc]. split.
  - pose proof (se_agent_free _ _ _ _ _ _ _ _ _ Hsel k other Hk) as Hf. unfold held_by in Hf. rewrite Hc in Hf.
    cbn in Hf. by split_guards.
  - intros Hne Hw x y Hx Hy.
    pose proof (proj1 (ineligible_None _ _ _ _ _) (ru_eligible _ _ _ _ _ _ _ _ (se_runnable _ _ _ _ _ _ _ _ _ Hsel))) as He.
    pose proof (el_writes _ _ _ _ _ He k other Hk) as Hn. unfold write_conflict in Hn.
    rewrite Hc, (bool_decide_false _ Hne), (bool_decide_true _ Hw) in Hn. cbn in Hn.
    rewrite set_any_false in Hn. specialize (Hn x Hx). rewrite set_any_false in Hn. by apply Hn.
Qed.

Lemma open_unclaimed s k todo : todo_valid s k todo -> lt_status todo = LtOpen -> lt_claim todo = None.
Proof.
  intros [_ _ Hh _ _] Ho. destruct (lt_claim todo) eqn:Hc; [|done].
  assert (lt_status todo ∈ [LtClaimed; LtUncertain]) as Hin by (apply Hh; by eexists). rewrite Ho in Hin. set_solver.
Qed.

Lemma granted_holds s id todo claim k u c :
  holds (set_todo id (granted claim todo) (s <| lo_claim_generation := cl_generation claim |>)) k u c ->
  (k = id /\ u = granted claim todo /\ c = claim) \/ (k <> id /\ holds s k u c).
Proof.
  intros [Hl Hc]. cbn in Hl. apply lookup_insert_Some in Hl as [[<- <-]|[Hne Hl]]; [left|right; done].
  cbn in Hc. by simplify_eq.
Qed.

Lemma exclusive_grant s facts host id now peer r todo mode claim :
  selection s facts host (Some id) now peer r todo mode -> lo_todos s !! id = Some todo ->
  cl_agent_id claim = ho_agent_id host -> cl_generation claim = lo_claim_generation s + 1 ->
  exclusive s ->
  exclusive (set_todo id (granted claim todo) (s <| lo_claim_generation := cl_generation claim |>)).
Proof.
  intros Hsel Hl Hag Hgen [Ha Hg Hp]. pose proof (se_valid _ _ _ _ _ _ _ _ _ Hsel) as Hv.
  assert (forall k u c, k <> id -> holds s k u c -> apart u (granted claim todo) c claim) as Hnew.
  { intros k u c Hne Hu. destruct (selection_holder _ _ _ _ _ _ _ _ _ _ _ _ Hsel Hu) as [Hn Hw].
    pose proof (Hg _ _ _ Hu). destruct Hu as [Hk Hc]. split_and!; [congruence|lia|]. apply Hw.
    by rewrite (tv_key _ _ _ (valid_todo _ _ _ _ _ Hv Hk)), (tv_key _ _ _ (valid_todo _ _ _ _ _ Hv Hl)). }
  split.
  - intros i j ti tj ci cj Hij [(-> & -> & ->)|[Hi Hti]]%granted_holds [(-> & -> & ->)|[Hj Htj]]%granted_holds.
    + done.
    + by apply apart_sym, (Hnew j).
    + by apply (Hnew i).
    + by apply (Ha i j).
  - intros k u c [(-> & -> & ->)|[Hk Hu]]%granted_holds; [done|]. cbn. pose proof (Hg _ _ _ Hu). lia.
  - pose proof (se_parallel _ _ _ _ _ _ _ _ _ Hsel) as Hpar. unfold claims in *. cbn.
    pose proof (count_values_insert is_claimed (lo_todos s) id (granted claim todo)) as Hc.
    rewrite Hl in Hc. cbn in Hc. unfold count_values in Hc. lia.
Qed.

Lemma moved_exclusive facts now s a t :
  validate_for s (lf_mission facts) = Ok tt -> moved facts now s a t -> kept a s t ->
  exclusive s -> exclusive t.
Proof.
  intros Hv Hm Hid Hex. destruct (is_claim a) eqn:Ha.
  - destruct Hm; try discriminate Ha; try (destruct a; discriminate); [..|by eapply exclusive_grant].
    all: destruct a; discriminate.
  - destruct (moved_inherits _ _ _ _ _ _ Hv Hm Ha) as [Hi Hg]. eapply exclusive_inherits; try done.
    destruct Hid as [Hid _]. by injection Hid.
Qed.

Lemma reachable_exclusive s : loop_reachable s -> exclusive s.
Proof.
  apply reachable_invariant.
  - intros s0 (Ht & _ & _ & Hg & _ & _ & Hp)%created_fresh. unfold policy_validate, in_range in Hp. inv_ok. split_guards.
    split; unfold holds; rewrite ?Ht.
    + intros i j ti tj ci cj _ [Hi _]. by rewrite lookup_empty in Hi.
    + intros k todo claim [Hi _]. by rewrite lookup_empty in Hi.
    + change (length (claims s0)) with (count_values is_claimed (lo_todos s0)).
      rewrite Ht, count_values_size, map_filter_empty, map_size_empty. lia.
  - intros facts now a s1 t revision Hv Hm Hid Hex.
    destruct (moved_exclusive _ _ _ _ _ Hv Hm Hid Hex) as [Ha Hg Hp]. split; [exact Ha|exact Hg|exact Hp].
Qed.

(** ** Fencing *)
Definition unheld (g : Z) s : Prop :=
  g <= lo_claim_generation s /\ forall k todo c, holds s k todo c -> cl_generation c <> g.
Definition started (g : Z) s : Prop :=
  g <= lo_claim_generation s /\
  forall k todo c, holds s k todo c -> cl_generation c = g -> lt_execution_started todo = true.

(** A claim grants the next generation and leaves the other claims alone. *)
Lemma moved_claims facts now s a t :
  validate_for s (lf_mission facts) = Ok tt -> moved facts now s a t ->
  lo_claim_generation s <= lo_claim_generation t /\
  forall k todo' c', holds t k todo' c' ->
    cl_generation c' = lo_claim_generation s + 1 \/
    exists todo c, holds s k todo c /\ same_holder c c' /\
      (lt_execution_started todo = true -> lt_execution_started todo' = true).
Proof.
  intros Hv Hm. destruct (is_claim a) eqn:Ha.
  - destruct Hm; try discriminate Ha; try (destruct a; discriminate).
    split; [cbn; lia|]. intros k u c [(-> & -> & ->)|[Hk Hu]]%granted_holds; [by left|right].
    exists u, c. done.
  - destruct (moved_inherits _ _ _ _ _ _ Hv Hm Ha) as [Hi Hg]. split; [lia|].
    intros k u c Hu. right. destruct (inherits_holds _ _ _ _ _ Hi Hu) as (u' & c' & ? & ? & _ & ?). eauto.
Qed.

Lemma unheld_run g s s' : rtc (loop_step any_action) s s' -> unheld g s -> unheld g s'.
Proof.
  apply run_invariant. intros facts now a s1 t revision _ Hv Hm _ [Hle Hno].
  destruct (moved_claims _ _ _ _ _ Hv Hm) as [Hge Hcl]. split; [cbn in *; lia|].
  intros k todo c Hh. destruct (Hcl k todo c Hh) as [Hg|(u & d & Hu & (_ & Hg & _) & _)]; [lia|].
  rewrite Hg. by eapply Hno.
Qed.

Lemma started_run g s s' : rtc (loop_step any_action) s s' -> started g s -> started g s'.
Proof.
  apply run_invariant. intros facts now a s1 t revision _ Hv Hm _ [Hle Hst].
  destruct (moved_claims _ _ _ _ _ Hv Hm) as [Hge Hcl]. split; [cbn in *; lia|].
  intros k todo c Hh Hg. destruct (Hcl k todo c Hh) as [Hg'|(u & d & Hu & (_ & Hg' & _) & Hs)]; [lia|].
  apply Hs. eapply Hst; [done|congruence].
Qed.

(** The claim an action presents as its authority. *)
Definition presented (a : LoopAction) : option LoopClaim :=
  match a with
  | BeginExecution claim _ | LaHeartbeat claim | Settle claim _ | ReconcileSettlement claim _ _ => Some claim
  | _ => None
  end.

Lemma presented_held facts now s a t claim :
  moved facts now s a t -> presented a = Some claim -> exists todo, holds s (cl_todo_id claim) todo claim.
Proof.
  intros Hm Hp. destruct Hm; try discriminate Hp; try (destruct a; discriminate); injection Hp as ->.
  - match goal with Hx : require_claim _ _ _ _ = Ok _ |- _ => apply require_claim_Ok in Hx as (u & ? & ? & _) end. by exists u.
  - match goal with Hx : require_claim _ _ _ _ = Ok _ |- _ => apply require_claim_Ok in Hx as (u & ? & ? & _) end. by exists u.
  - match goal with Hx : settled _ _ _ _ _ _ _ _ |- _ => destruct Hx end. by exists todo.
  - match goal with Hx : settled _ _ _ _ _ _ _ _ |- _ => destruct Hx end. by exists todo.
Qed.

Lemma not_applied facts command now s :
  (forall r s', run (loop_apply facts command now) s = (Ok r, s') -> False) ->
  is_ok (run (loop_apply facts command now) s).1 = false.
Proof. intros Hn. destruct (run _ s) as [[r|e|] s'] eqn:Hr; [by destruct (Hn r s')|done..]. Qed.

(** ** Slots *)
Definition slots s : Z := lo_spent_slots s + Z.of_nat (reserved s).
Definition slot (todo : LoopTodo) : Z := Z.b2z (reserves_slot todo).

Lemma reserved_insert s t k todo' :
  lo_todos t = <[k := todo']> (lo_todos s) ->
  Z.of_nat (reserved t) + from_option slot 0 (lo_todos s !! k) = Z.of_nat (reserved s) + slot todo'.
Proof.
  intros Ht. unfold reserved. rewrite Ht.
  pose proof (count_values_insert reserves_slot (lo_todos s) k todo') as Hc. unfold slot.
  destruct (lo_todos s !! k) as [old|]; cbn in *; [destruct (reserves_slot old)|];
    destruct (reserves_slot todo'); cbn in *; lia.
Qed.

Lemma reserved_set s k todo' :
  Z.of_nat (reserved (set_todo k todo' s)) + from_option slot 0 (lo_todos s !! k)
  = Z.of_nat (reserved s) + slot todo'.
Proof. by apply reserved_insert. Qed.

Lemma slot_unclaimed todo : lt_claim todo = None -> slot todo = 0.
Proof. unfold slot, reserves_slot. by intros ->. Qed.
Lemma slot_nonneg todo : 0 <= slot todo.
Proof. unfold slot. destruct (reserves_slot todo); cbn; lia. Qed.

Lemma set_slots s k old todo' :
  lo_todos s !! k = Some old -> slot todo' <= slot old -> slots (set_todo k todo' s) <= slots s.
Proof.
  intros Hl Hs. pose proof (reserved_set s k todo') as Hr. rewrite Hl in Hr. cbn [from_option] in Hr.
  unfold slots. change (lo_spent_slots (set_todo _ _ _)) with (lo_spent_slots s). lia.
Qed.

Lemma settled_slots facts claim result now s t todo todo' u :
  validate_for s (lf_mission facts) = Ok u -> settled facts claim result now s t todo todo' -> slots t <= slots s.
Proof.
  intros Hv Hs. pose proof (settled_keeps _ _ _ _ _ _ _ _ Hs) as (Hcore & _ & Hrel).
  destruct Hs as [Hl Hc _ Hres Ht _ _ _ _].
  assert (td_id (lt_spec todo') = cl_todo_id claim) as Hkey.
  { pose proof (tv_key _ _ _ (valid_todo _ _ _ _ _ Hv Hl)). injection Hcore. congruence. }
  pose proof (reserved_insert s t _ _ Ht) as Hr. rewrite Hkey, Hl in Hr. cbn [from_option] in Hr. unfold slots.
  pose proof (slot_nonneg todo). injection Hcore. intros _ _ _ _ _ _ Hkind _ _ _ _.
  assert (slot (release todo') <= slot todo) as Hslot.
  { destruct Hrel as [Hn|[Hu _]]; [rewrite (slot_unclaimed _ Hn); lia|].
    unfold release. rewrite bool_decide_true by done. unfold slot, reserves_slot. rewrite Hkind, Hc.
    destruct (lt_claim todo'), (bool_decide _); cbn; lia. }
  destruct result; cbn in Hres; try (destruct Hres as (_ & Hsp & _); lia).
  destruct Hres as (Hk & _ & _ & _ & _ & _ & Hsp & Ht').
  assert (slot todo = 1) as Hone.
  { unfold slot, reserves_slot. by rewrite Hc, bool_decide_false. }
  assert (slot (release todo') = 0) by (by rewrite Ht'). lia.
Qed.

Lemma moved_slots facts now s a t :
  validate_for s (lf_mission facts) = Ok tt -> moved facts now s a t ->
  slots t <= slots s \/ (slots t <= slots s + 1 /\ slots s < quota s /\ is_claim a = true).
Proof.
  intros Hv Hm. destruct Hm as [a t Ha Hw _|a t Ha (Ht & _ & Hw)|spec Hn _|host id tok peer r todo mode claim Hsel Hl _ _ _ _ _ _
    |claim host peer todo _ Hl _ _ _|claim todo expires Hreq Hl _|claim result todo todo' t _ Hs
    |claim result readback todo todo' t _ Hs|id ev todo claim Hl _|id ra todo Hl _ Hc].
  - left. injection Hw as Ht _ Hsp _ _ _. unfold slots, reserved. rewrite Ht, Hsp. lia.
  - left. injection Hw as _ Hsp _ _ _. unfold slots, reserved. rewrite Ht, Hsp, count_values_same.
    assert (count_values (fun w => reserves_slot (mark_uncertain w)) (lo_todos s) = count_values reserves_slot (lo_todos s)) as ->; [|lia].
    apply Nat.le_antisymm; apply count_values_mono; intros k v Hv' Hf; exists v; split; try done;
      revert Hf; unfold mark_uncertain; by destruct (is_some (lt_claim v)).
  - left. pose proof (reserved_set s (td_id spec) (new_todo spec)) as Hr. rewrite Hn in Hr.
    unfold slots. cbn in *. lia.
  - pose proof (reserved_set (s <| lo_claim_generation := cl_generation claim |>) id (granted claim todo)) as Hr.
    change (lo_todos (s <| lo_claim_generation := cl_generation claim |>)) with (lo_todos s) in Hr.
    change (reserved (s <| lo_claim_generation := cl_generation claim |>)) with (reserved s) in Hr.
    rewrite Hl in Hr. cbn [from_option] in Hr.
    pose proof (open_unclaimed _ _ _ (valid_todo _ _ _ _ _ Hv Hl)
      (ru_open _ _ _ _ _ _ _ _ (se_runnable _ _ _ _ _ _ _ _ _ Hsel))) as Hc.
    rewrite (slot_unclaimed _ Hc) in Hr. unfold slots.
    change (lo_spent_slots (set_todo _ _ _)) with (lo_spent_slots s).
    assert (slot (granted claim todo) = Z.b2z (negb (bool_decide (td_kind (lt_spec todo) = WkMonitor)))) as Hs by done.
    rewrite Hs in Hr. case_bool_decide as Hk; cbn [negb Z.b2z] in Hr; [left; lia|right].
    pose proof (ru_slot _ _ _ _ _ _ _ _ (se_runnable _ _ _ _ _ _ _ _ _ Hsel) Hk) as Hf.
    rewrite (se_reserved _ _ _ _ _ _ _ _ _ Hsel), reserved_claims in Hf. unfold free_slots, saturating_sub in Hf.
    split_and!; [lia| |done]. unfold quota. lia.
  - left. by eapply set_slots.
  - left. apply require_claim_Ok in Hreq as (u & Hl' & Hc & _). simplify_eq. eapply set_slots; [done|].
    unfold slot, reserves_slot. by rewrite Hc.
  - left. by eapply settled_slots.
  - left. by eapply settled_slots.
  - left. eapply set_slots; [done|]. apply slot_nonneg.
  - left. by eapply set_slots.
Qed.

(** ** Evidence *)
Lemma moved_evidence facts now s a t :
  moved facts now s a t ->
  (lo_spent_slots t = lo_spent_slots s /\ lo_accepted_evidence t = lo_accepted_evidence s) \/
  exists ids, ids <> ∅ /\ ids ## lo_accepted_evidence s /\
    lo_accepted_evidence t = ids ∪ lo_accepted_evidence s /\ lo_spent_slots t = lo_spent_slots s + 1.
Proof.
  intros Hm. assert (forall claim result todo todo', settled facts claim result now s t todo todo' ->
    (lo_spent_slots t = lo_spent_slots s /\ lo_accepted_evidence t = lo_accepted_evidence s) \/
    exists ids, ids <> ∅ /\ ids ## lo_accepted_evidence s /\
      lo_accepted_evidence t = ids ∪ lo_accepted_evidence s /\ lo_spent_slots t = lo_spent_slots s + 1) as Hsettle.
  { intros claim result todo todo' [_ _ _ Hres _ _ _ _ _]. destruct result as [ids co| | |]; cbn in Hres.
    - right. exists ids. naive_solver.
    - left. naive_solver.
    - left. naive_solver.
    - left. naive_solver. }
  destruct Hm; try (by eapply Hsettle); try (by left).
  - left. match goal with Hx : work _ = work _ |- _ => injection Hx as _ _ -> -> _ _ end. done.
  - left. match goal with Hx : doubted _ _ |- _ => destruct Hx as (_ & _ & Hx); injection Hx as _ -> -> _ _ end. done.
Qed.

Lemma moved_evidence_backs facts now s a t :
  moved facts now s a t -> lo_spent_slots s <= Z.of_nat (size (lo_accepted_evidence s)) ->
  lo_spent_slots t <= Z.of_nat (size (lo_accepted_evidence t)) /\ lo_accepted_evidence s ⊆ lo_accepted_evidence t.
Proof.
  intros [[-> ->]|(ids & Hne & Hd & -> & ->)]%moved_evidence Hs; [done|].
  rewrite size_union by done.
  assert (size ids <> 0%nat) as Hsz by (intros Hz; by apply Hne, leibniz_equiv, size_empty_inv).
  split; [lia|set_solver].
Qed.

(** The evidence a settlement claims as progress. *)
Definition progress_evidence (a : LoopAction) : gset Id :=
  match a with
  | Settle _ (Progress ids _) | ReconcileSettlement _ (Progress ids _) _ => ids
  | _ => ∅
  end.

Lemma moved_progress facts now s a t :
  moved facts now s a t -> progress_evidence a ## lo_accepted_evidence s.
Proof.
  assert (forall claim result todo todo', settled facts claim result now s t todo todo' ->
    match result with Progress ids _ => ids | _ => ∅ end ## lo_accepted_evidence s) as Hsettle.
  { intros claim result todo todo' [_ _ _ Hres _ _ _ _ _]. destruct result; cbn in Hres; [|set_solver..].
    by destruct Hres as (_ & _ & ? & _). }
  intros Hm. destruct Hm; try (destruct a; try discriminate); cbn [progress_evidence]; try set_solver;
    match goal with Hx : settled _ _ _ _ _ _ _ _ |- _ => by apply Hsettle in Hx end.
Qed.

(** ** Dependencies *)
Definition completed s d : Prop := exists item, lo_todos s !! d = Some item /\ lt_status item = LtCompleted.
Definition ordered s : Prop := forall k todo, lo_todos s !! k = Some todo ->
  lt_status todo ∈ [LtClaimed; LtUncertain; LtCompleted] -> forall d, d ∈ td_depends_on (lt_spec todo) -> completed s d.

(** One todo replaced by another: a completed one stays completed, and the new
    one has its dependencies completed if its status requires it. *)
Lemma ordered_insert s t k todo' :
  lo_todos t = <[k := todo']> (lo_todos s) ->
  (forall old, lo_todos s !! k = Some old -> lt_status old = LtCompleted -> lt_status todo' = LtCompleted) ->
  (lt_status todo' ∈ [LtClaimed; LtUncertain; LtCompleted] ->
     forall d, d ∈ td_depends_on (lt_spec todo') -> completed s d) ->
  ordered s -> ordered t.
Proof.
  intros Ht Hold Hnew Ho.
  assert (forall d, completed s d -> completed t d) as Hc.
  { intros d (item & Hd & Hs). unfold completed. rewrite Ht. destruct (decide (k = d)) as [<-|Hne].
    - exists todo'. rewrite lookup_insert_eq. eauto.
    - exists item. by rewrite lookup_insert_ne. }
  intros j todo Hj Hst d Hd. rewrite Ht in Hj. apply lookup_insert_Some in Hj as [[<- <-]|[_ Hj]].
  - by apply Hc, Hnew.
  - by apply Hc, (Ho j todo Hj Hst).
Qed.

Lemma claimed_status s k todo c :
  todo_valid s k todo -> lt_claim todo = Some c -> lt_status todo ∈ [LtClaimed; LtUncertain].
Proof. intros [_ _ Hh _ _] Hc. apply Hh. by eexists. Qed.

Lemma claimed_ordered s k todo c d :
  todo_valid s k todo -> ordered s -> lo_todos s !! k = Some todo -> lt_claim todo = Some c ->
  d ∈ td_depends_on (lt_spec todo) -> completed s d.
Proof.
  intros Hv Ho Hl Hc. apply (Ho k todo Hl). pose proof (claimed_status _ _ _ _ Hv Hc). set_solver.
Qed.

(** A step on a claimed todo that keeps its specification. *)
Lemma ordered_claimed s t k todo c todo' :
  todo_valid s k todo -> lo_todos s !! k = Some todo -> lt_claim todo = Some c ->
  lo_todos t = <[k := todo']> (lo_todos s) -> spec_core (lt_spec todo') = spec_core (lt_spec todo) ->
  ordered s -> ordered t.
Proof.
  intros Hv Hl Hc Ht Hcore Ho. eapply ordered_insert; [done| | |done].
  - intros old Hold Hs. simplify_eq. pose proof (claimed_status _ _ _ _ Hv Hc) as Hin. rewrite Hs in Hin. set_solver.
  - intros _ d Hd. injection Hcore. intros. eapply claimed_ordered; [done..|congruence].
Qed.

Lemma doubted_ordered s t m u : validate_for s m = Ok u -> doubted s t -> ordered s -> ordered t.
Proof.
  intros Hv (Ht & _) Ho.
  assert (forall d, completed s d -> completed t d) as Hc.
  { intros d (item & Hd & Hs). exists item. rewrite Ht, lookup_fmap, Hd. cbn. split; [|done]. unfold mark_uncertain.
    destruct (lt_claim item) as [c|] eqn:Hcl; [|done].
    pose proof (claimed_status _ _ _ _ (valid_todo _ _ _ _ _ Hv Hd) Hcl) as Hin. rewrite Hs in Hin. set_solver. }
  intros k todo' Hk Hst d Hd. rewrite Ht, lookup_fmap in Hk. apply fmap_Some in Hk as (todo & Hk & ->).
  unfold mark_uncertain in *. destruct (lt_claim todo) as [c|] eqn:Hcl; cbn in *; [|by apply Hc, (Ho k todo)].
  apply Hc. by eapply claimed_ordered; [eapply valid_todo|..].
Qed.

Lemma settled_ordered facts claim result now s t todo todo' u :
  validate_for s (lf_mission facts) = Ok u -> settled facts claim result now s t todo todo' -> ordered s -> ordered t.
Proof.
  intros Hv Hs Ho. pose proof (settled_keeps _ _ _ _ _ _ _ _ Hs) as (Hcore & _ & _).
  destruct Hs as [Hl Hc _ _ Ht _ _ _ _]. pose proof (valid_todo _ _ _ _ _ Hv Hl) as Htv.
  eapply (ordered_claimed s t (cl_todo_id claim) todo claim (release todo')); try done.
  - rewrite Ht. f_equal. rewrite <-(tv_key _ _ _ Htv). by injection Hcore.
  - unfold release. by case_match.
Qed.

Lemma moved_ordered facts now s a t :
  validate_for s (lf_mission facts) = Ok tt -> moved facts now s a t -> ordered s -> ordered t.
Proof.
  intros Hv Hm Ho. destruct Hm as [a t Ha Hw _|a t Ha Hd|spec Hn _|host id tok peer r todo mode claim Hsel Hl _ _ _ _ _ _
    |claim host peer todo Hreq Hl _ _ _|claim todo expires Hreq Hl _|claim result todo todo' t _ Hs
    |claim result readback todo todo' t _ Hs|id ev todo claim Hl Hc|id ra todo Hl Hst Hc].
  - injection Hw as Ht _ _ _ _ _. intros k todo. unfold completed. rewrite Ht. apply Ho.
  - by eapply doubted_ordered.
  - eapply ordered_insert; [done| | |done]; [intros old Hold; congruence|cbn; intros Hx; set_solver].
  - pose proof (se_runnable _ _ _ _ _ _ _ _ _ Hsel) as Hr. eapply (ordered_insert s); [done| | |done].
    + intros old Hold Hx. pose proof (ru_open _ _ _ _ _ _ _ _ Hr). congruence.
    + intros _ d Hd. by apply (el_depends _ _ _ _ _ (proj1 (ineligible_None _ _ _ _ _) (ru_eligible _ _ _ _ _ _ _ _ Hr))).
  - apply require_claim_Ok in Hreq as (u & Hl' & Hc & _). simplify_eq. by eapply ordered_claimed; [eapply valid_todo|..].
  - apply require_claim_Ok in Hreq as (u & Hl' & Hc & _). simplify_eq. by eapply ordered_claimed; [eapply valid_todo|..].
  - by eapply settled_ordered.
  - by eapply settled_ordered.
  - by eapply ordered_claimed; [eapply valid_todo|..].
  - eapply ordered_insert; [done| | |done]; [intros old Hold; congruence|cbn; intros Hx; set_solver].
Qed.

(** ** Steering *)
Lemma moved_steering facts now s a t :
  moved facts now s a t -> lo_steering_generation s <= lo_steering_generation t /\
  (is_revoking s a = true -> lo_steering_generation t = lo_steering_generation s + 1).
Proof.
  assert (is_admin s a = true -> is_revoking s a = false) as Hex.
  { destruct a; cbn; try done; [by intros ->%negb_true_iff|lia]. }
  intros Hm. destruct Hm; try (split; [cbn; lia|discriminate]).
  - match goal with Hx : is_admin _ _ = true |- _ => specialize (Hex Hx) end. split; [lia|congruence].
  - match goal with Hx : doubted _ _ |- _ => destruct Hx as (_ & -> & _) end. split; [lia|done].
  - match goal with Hx : settled _ _ _ _ _ _ _ _ |- _ => destruct Hx as [_ _ _ _ _ _ (Hg & _) _ _]; injection Hg as _ _ -> _ end.
    split; [lia|discriminate].
  - match goal with Hx : settled _ _ _ _ _ _ _ _ |- _ => destruct Hx as [_ _ _ _ _ _ (Hg & _) _ _]; injection Hg as _ _ -> _ end.
    split; [lia|discriminate].
Qed.

Lemma moved_doubted facts now s a t : moved facts now s a t -> is_revoking s a = true -> doubted s t.
Proof.
  intros Hm Ha. destruct Hm; try discriminate Ha; [|done]. destruct a; try discriminate; cbn in *; try lia.
  by destruct paused.
Qed.

(** A settlement that only records an ambiguous failure. *)
Definition records_doubt (a : LoopAction) : bool :=
  match a with Settle _ result => is_ambiguous result | _ => false end.

Lemma presented_steering facts now s a t claim :
  moved facts now s a t -> presented a = Some claim -> records_doubt a = false ->
  cl_steering_generation claim = lo_steering_generation s.
Proof.
  intros Hm Hp Hd. destruct Hm; try discriminate Hp; try (destruct a; discriminate); injection Hp as ->; try done.
  all: match goal with
       | Hx : require_claim _ _ _ _ = Ok _ |- _ => apply require_claim_Ok in Hx as (u & _ & _ & _ & _ & ? & _); done
       | Hx : is_ambiguous _ = false -> _ |- _ => apply Hx, require_claim_Ok in Hd as (u & _ & _ & _ & _ & ? & _); done
       end.
Qed.

Lemma steering_run s s' g : rtc (loop_step any_action) s s' ->
  g <= lo_steering_generation s -> g <= lo_steering_generation s'.
Proof.
  apply (run_invariant any_action (fun s => g <= lo_steering_generation s)).
  intros facts now a s1 t revision _ _ Hm _ Hle. destruct (moved_steering _ _ _ _ _ Hm) as [Hs _]. cbn. lia.
Qed.

(** ** Agents *)
Definition cancelled s : gset string := dom (filter (fun kv => has_status LtCancelled kv.2 = true) (lo_todos s)).

#[local] Instance settle_result_governance facts claim result todo sequence now :
  Preserves governance (settle_result facts claim result todo sequence now).
Proof. unfold settle_result. apply _. Qed.
#[local] Instance settle_governance facts claim result reconciled now :
  Preserves governance (settle facts claim result reconciled now).
Proof. unfold settle. apply _. Qed.
#[local] Instance prune_governance : Preserves governance prune_notice_acknowledgements.
Proof. unfold prune_notice_acknowledgements. apply _. Qed.
#[local] Instance prune_gates : Preserves lo_gates prune_notice_acknowledgements.
Proof. unfold prune_notice_acknowledgements. apply _. Qed.
#[local] Instance settle_result_gates facts claim result todo sequence now :
  Preserves lo_gates (settle_result facts claim result todo sequence now).
Proof. unfold settle_result. apply _. Qed.
#[local] Instance settle_gates facts claim result reconciled now :
  Preserves lo_gates (settle facts claim result reconciled now).
Proof. unfold settle. apply _. Qed.

Lemma open_gate_Ok actor gate s u t :
  run (open_gate actor gate) s = (Ok u, t) ->
  lo_gates s !! ga_id gate = None /\ gate_authority actor gate = Ok tt /\
  lo_gates t = <[ga_id gate := gate]> (lo_gates s).
Proof.
  unfold open_gate. intros Hr. inv_run.
  match goal with Hx : run prune_notice_acknowledgements ?m = _ |- _ => pose proof (preserves (f:=lo_gates) (m:=prune_notice_acknowledgements) m) as Hp; rewrite Hx in Hp end.
  unfold contains_key, is_some in *. split_and!; [by case_match|done|exact Hp].
Qed.

(** What an agent's action can reach. *)
Lemma agent_transition facts agent a now s r t :
  run (transition facts (Agent agent) a now) s = (Ok r, t) ->
  governance t = governance s /\
  (lo_gates t = lo_gates s \/ exists gate, a = OpenGate gate /\ lo_gates s !! ga_id gate = None /\
     gate_authority (Agent agent) gate = Ok tt /\ lo_gates t = <[ga_id gate := gate]> (lo_gates s)).
Proof.
  destruct a as [| |gate| | | | | | | | | | | |]; cbn [transition]; unfold no_receipt, claim_receipt, run_receipt;
    intros [x Hr]%receipt_Ok; try (apply govern_Ok in Hr as [[=] _]).
  2: { split; [|right; exists gate; split; [done|by apply open_gate_Ok in Hr]].
       assert (Preserves governance (open_gate (Agent agent) gate)) as Hp by (unfold open_gate; apply _).
       specialize (Hp s). by rewrite Hr in Hp. }
  all: match type of Hr with run ?m _ = _ =>
    assert (Preserves governance m) as Hg by (unfold add_todo, loop_claim, begin_execution, loop_heartbeat, acknowledge_notice; cbn zeta; apply _);
    assert (Preserves lo_gates m) as Hga by (unfold add_todo, loop_claim, begin_execution, loop_heartbeat, acknowledge_notice; cbn zeta; apply _) end;
    specialize (Hg s); specialize (Hga s); rewrite Hr in Hg, Hga; split; [exact Hg|left; exact Hga].
Qed.
(** An agent speaks only for itself and never governs. *)
Lemma agent_action facts agent a now s r t :
  run (transition facts (Agent agent) a now) s = (Ok r, t) ->
  match a with
  | AddTodo _ | OpenGate _ | AcknowledgeNotice _ => True
  | LaClaim host _ _ => ho_agent_id host = agent
  | BeginExecution claim _ | LaHeartbeat claim | Settle claim _ => cl_agent_id claim = agent
  | _ => False
  end.
Proof.
  destruct a; cbn [transition]; unfold no_receipt, claim_receipt, run_receipt; try done;
    intros [x Hr]%receipt_Ok; (apply govern_Ok in Hr as [[=] _] || by apply require_agent_Ok in Hr as [[= ->] _]).
Qed.

(** It leaves the work of the others as it is. *)
Lemma agent_spares facts agent a now s r t k todo claim :
  validate_for s (lf_mission facts) = Ok tt -> run (transition facts (Agent agent) a now) s = (Ok r, t) ->
  holds s k todo claim -> cl_agent_id claim <> agent -> lo_todos t !! k = Some todo.
Proof.
  intros Hv Hr [Hk Hc] Hne. pose proof (agent_action _ _ _ _ _ _ _ Hr) as Ha.
  apply transition_moved in Hr. pose proof (tv_key _ _ _ (valid_todo _ _ _ _ _ Hv Hk)) as Hkey.
  destruct Hr as [a t _ Hw _|a t Hrev|spec Hn|host id tok peer q todo2 mode claim2 Hsel Hl|claim2 host peer todo2 Hq Hl
    |claim2 todo2 expires Hq Hl|claim2 result todo2 todo' t _ Hs| | |]; try done.
  - injection Hw as Hw. congruence.
  - by destruct a.
  - cbn. rewrite lookup_insert_ne; [done|congruence].
  - pose proof (open_unclaimed _ _ _ (valid_todo _ _ _ _ _ Hv Hl)
      (ru_open _ _ _ _ _ _ _ _ (se_runnable _ _ _ _ _ _ _ _ _ Hsel))) as Hfree.
    cbn. rewrite lookup_insert_ne; [done|]. congruence.
  - apply require_claim_Ok in Hq as (u & Hu & Huc & _). cbn. rewrite lookup_insert_ne; [done|]. intros Heq. congruence.
  - apply require_claim_Ok in Hq as (u & Hu & Huc & _). cbn. rewrite lookup_insert_ne; [done|]. intros Heq. congruence.
  - pose proof (settled_keeps _ _ _ _ _ _ _ _ Hs) as [Hcore _]. destruct Hs as [Hl Hlc _ _ Ht _ _ _ _].
    pose proof (tv_key _ _ _ (valid_todo _ _ _ _ _ Hv Hl)) as Hkey2.
    injection Hcore as Hcore. rewrite Ht, lookup_insert_ne; [done|]. congruence.
Qed.
End loop_safety.
