(* ===== verification/LoopFixture.v ===== *)
(** * A concrete loop, for evaluating the model

    Two agents share the work of the demonstration Mission: a build and a
    review that depends on it, a separate draft, and a monitor. *)
From S2P Require Import Prelude Money Contract MissionTypes WorkProduct Effect Checkpoint.
From S2P Require Import Terminal Mission MissionMachine MissionFixture LoopState LoopDecision LoopTransition.
From S2P Require Import LoopChoice LoopSteps LoopSafety.
Import Prelude.Fixture.

#[export] Instance loop_serde : LoopSerde := {|
  json_gates gates := Some (String.concat "," (ga_id <$> gates));
  json_evidence evidence := Some (String.concat "," ((fun item => item.1.1) <$> evidence));
  json_authority tenant project mission contract steering := Some (String.concat "," [tenant; project; mission; steering]);
|}.

Module Work.
Definition second : Duration := nanos_per_second.
Definition at_ (n : Z) : DateTime := Demo.t0 + n * second.

Definition evidence (id : Id) (observed : DateTime) : Evidence :=
  mkEvidence id "page" "https://example.test" observed 0 EvConfirmed zeros64.
Definition mission : Mission := exec_all
  [StartResearch [mkTask "task" "Build" TRunning "web.publish"] Demo.t0;
   RecordEvidence (evidence "e1" (at_ 20)) (at_ 20); RecordEvidence (evidence "e2" (at_ 20)) (at_ 20)]
  Demo.mission.
Definition facts : LoopMissionFacts := mkFacts mission zeros64.

Definition policy : LoopPolicy := mkPolicy "operator" 3 2 60 3.
Definition loop_of (r : result LoopError MissionLoop) : MissionLoop :=
  match r with
  | Ok s => s
  | _ => mkLoop 0 "" "" "" policy 0 0 0 false 0 0 ∅ ∅ ∅ ∅ [] 0 ∅ 0 0
  end.
Definition fresh : MissionLoop := loop_of (loop_new mission policy Demo.t0).

Definition peer (id : string) : LoopPeer := mkPeer id {["web.publish"]} zeros64.
Definition host (id : string) : LoopHost := mkHost id {["web.publish"]} zeros64.
Definition todo (id : string) (kind : LoopWorkKind) (depends : gset string) (scopes : gset string)
    (monitor : option LoopMonitor) : LoopTodoSpec := {|
  td_id := id; td_title := id; td_task_id := Some "task"; td_capability := Some "web.publish";
  td_kind := kind; td_priority := 1; td_depends_on := depends; td_eligible_agents := ∅;
  td_required_decisions := ∅; td_workspace_digest := zeros64; td_write_scopes := scopes;
  td_monitor := monitor |}.
Definition operator : LoopActor := Operator "operator".

(** One command, addressed to the revision the loop is at. *)
Definition call : Type := LoopActor * LoopAction * DateTime.
Definition command (s : MissionLoop) (c : call) : LoopCommand :=
  mkCommand "op" (lo_revision s) (ms_revision mission) c.1.1 c.1.2.
Definition attempt (s : MissionLoop) (c : call) : result LoopError LoopReceipt * MissionLoop :=
  run (loop_apply facts (command s c) c.2) s.
Fixpoint play (cs : list call) (s : MissionLoop) : MissionLoop :=
  match cs with [] => s | c :: cs => play cs (attempt s c).2 end.
Fixpoint plays (cs : list call) (s : MissionLoop) : bool :=
  match cs with [] => true | c :: cs => is_ok (attempt s c).1 && plays cs (attempt s c).2 end.

Lemma plays_run (P : LoopAction -> Prop) cs s :
  Forall (fun c : call => P c.1.2) cs -> plays cs s = true -> rtc (loop_step P) s (play cs s).
Proof.
  revert s. induction cs as [|c cs IH]; intros s HP Hp; [done|]. apply Forall_cons in HP as [Hc HP].
  cbn [plays play] in *. apply andb_prop in Hp as [Hok Hp].
  apply rtc_l with (attempt s c).2; [|by apply IH]. unfold attempt in *.
  destruct (run (loop_apply facts (command s c) c.2) s) as [[r|e|] s'] eqn:Hr; try discriminate Hok.
  by exists facts, (command s c), c.2, r.
Qed.

Definition setup : list call :=
  [(operator, RegisterPeer (peer "ann"), at_ 1); (operator, RegisterPeer (peer "bob"), at_ 2);
   (Agent "ann", AddTodo (todo "build" WkAdvancement ∅ {["src/app"]} None), at_ 3);
   (Agent "ann", AddTodo (todo "review" WkAdvancement {["build"]} {["src"]} None), at_ 4);
   (Agent "bob", AddTodo (todo "draft" WkAdvancement ∅ {["docs"]} None), at_ 5)].
Definition ready : MissionLoop := play setup fresh.


Definition claim_of (s : MissionLoop) (id : string) : LoopClaim :=
  match (lo_todos s !! id) ≫= lt_claim with
  | Some claim => claim
  | None => mkClaim "" "" "" 0 0 "" 0 0
  end.

(** Both agents claim, then one of them executes and settles. *)
Definition claiming : list call :=
  [(Agent "ann", LaClaim (host "ann") "build" zeros64, at_ 6);
   (Agent "bob", LaClaim (host "bob") "draft" zeros64, at_ 7)].
Definition claimed : MissionLoop := play claiming ready.
Definition ann : LoopClaim := claim_of claimed "build".
Definition bob : LoopClaim := claim_of claimed "draft".
Definition beginning (n : Z) : call := (Agent "ann", BeginExecution ann (host "ann"), at_ n).
Definition starting : list call := [beginning 8].
Definition executing : MissionLoop := play starting claimed.
Definition progress (id : Id) : LoopTurnResult := Progress {[id]} (NextTodo "review").
Definition settling : list call := [(Agent "ann", Settle ann (progress "e1"), at_ 30)].
Definition settled : MissionLoop := play settling executing.

Example everything_runs :
  plays (setup ++ claiming ++ starting ++ settling) fresh = true /\
  (lt_status <$> lo_todos settled !! "build") = Some LtCompleted /\
  lo_spent_slots settled = 1 /\ cl_generation ann = 1 /\ cl_generation bob = 2.
Proof. by vm_compute. Qed.

(** The operator steers while the build executes. *)
Definition steer : call := (operator, Steer zeros64, at_ 10).
Definition steered : MissionLoop := (attempt executing steer).2.
Definition late_settle : call := (Agent "ann", Settle ann (progress "e1"), at_ 30).

(** What the loop advises an agent to do. *)
Definition silent : LoopDecision :=
  mkDecision 0 0 LmWait None (mkChannel [] None false) OnStateChange 0 0 false.
Definition advice (s : MissionLoop) (agent : string) (now : DateTime) : LoopDecision :=
  match should_run s facts (host agent) now with Ok d => d | _ => silent end.
Example first_advice : ld_selected_todo (advice ready "ann" (at_ 6)) = Some "build".
Proof. by vm_compute. Qed.

(** The todo and the receipt the loop holds or returns. *)
Definition todo_of (s : MissionLoop) (id : string) : LoopTodo :=
  default (new_todo (todo id WkAdvancement ∅ ∅ None)) (lo_todos s !! id).
Definition receipt_of (s : MissionLoop) (c : call) : LoopReceipt :=
  match (attempt s c).1 with Ok r => r | _ => mkLoopReceipt 0 None None false end.

(** A monitor, polled late: due at 10 s, every 5 s, observed at 23 s. *)
Definition watch : LoopMonitor := mkMonitor zeros64 (at_ 10) 5 (at_ 600).
Definition watching : list call :=
  [(Agent "ann", AddTodo (todo "watch" WkMonitor ∅ ∅ (Some watch)), at_ 8);
   (Agent "ann", LaClaim (host "ann") "watch" zeros64, at_ 21)].
Definition watched : MissionLoop := play watching ready.
Definition poll : LoopClaim := claim_of watched "watch".
Definition polling : list call := [(Agent "ann", BeginExecution poll (host "ann"), at_ 22)].
Definition polled : MissionLoop := play polling watched.
Definition observing : call := (Agent "ann", Settle poll (MonitorObservation zeros64), at_ 23).

Lemma fresh_created : created fresh.
Proof. exists mission, policy, Demo.t0. by vm_compute. Qed.
End Work.
