(* ===== verification/LoopGuarantees.v ===== *)
(** * The Mission loop: guarantees

    The theorems about every run of the loop, from the lemmas on single steps
    in [LoopSafety], each with a run of the demonstration loop it applies to. *)
From S2P Require Import Prelude Money Contract MissionTypes WorkProduct Effect Checkpoint.
From S2P Require Import Terminal Mission MissionMachine MissionFixture LoopState LoopDecision LoopTransition.
From S2P Require Import LoopChoice LoopSteps LoopSafety LoopFixture.
Import Prelude.Fixture.

Section guarantees.
Context `{Chrono} `{Sha256} `{LoopSerde}.
Implicit Types (s t : MissionLoop) (facts : LoopMissionFacts).

Definition refused facts command now s : Prop :=
  is_ok (run (loop_apply facts command now) s).1 = false /\ (run (loop_apply facts command now) s).2 = s.

#[local] Instance loop_apply_atomic facts command now : Atomic (loop_apply facts command now).
Proof. unfold loop_apply. apply _. Qed.

Lemma refused_intro facts command now s :
  (forall r s', applied facts command now r s s' -> False) -> refused facts command now s.
Proof.
  intros Hn. assert (is_ok (run (loop_apply facts command now) s).1 = false) as Hf.
  { apply not_applied. intros r s' Hr%apply_Ok. by eapply Hn. }
  split; [exact Hf|by apply (atomic (m:=loop_apply facts command now))].
Qed.

Lemma refused_moved facts command now s :
  (forall t, moved facts now s (lc_action command) t -> False) -> refused facts command now s.
Proof. intros Hn. apply refused_intro. intros r s' (t & Hm & _)%applied_moved. by eapply Hn. Qed.

Lemma apply_step P facts command now s r s' :
  P (lc_action command) -> run (loop_apply facts command now) s = (Ok r, s') -> loop_step P s s'.
Proof. intros HP Hr. by exists facts, command, now, r. Qed.

(** The loop only advises work that is authorised. When [should_run]
    selects a todo, the Mission is under way inside its contract and not
    paused, the todo is open, its dependencies are completed, no gate blocks
    it, peer, host and contract all offer its capability, no claimed todo
    writes where it writes, a slot is left for it unless it is a monitor poll,
    and the agent holds no other claim. Every other todo that could run comes
    later in the order of priority and id. *)
Theorem selection_is_authorised self facts host now d id :
  should_run self facts host now = Ok d -> ld_selected_todo d = Some id ->
  let mission := lf_mission facts in
  exists peer todo,
    lo_peers self !! ho_agent_id host = Some peer /\ lo_todos self !! id = Some todo /\
    lt_status todo = LtOpen /\ eligible self mission peer host (lt_spec todo) /\
    ms_stage mission ∈ [StReady; StRunning; StVerifying] /\
    contract_validate (ms_contract mission) now = Ok tt /\ lo_paused self = false /\
    agent_free self (ho_agent_id host) /\
    (td_kind (lt_spec todo) <> WkMonitor ->
       lo_spent_slots self + Z.of_nat (reserved self) < lp_max_slots (lo_policy self)) /\
    forall k other mode, lo_todos self !! k = Some other ->
      runnable self mission peer host (free_slots self (Z.of_nat (reserved self))) now other mode ->
      candidate_le todo other.
Proof.
  intros Hd Hid. destruct (decision_selected _ _ _ _ _ _ _ Hd Hid) as (peer & r & todo & mode & Hk & Hsel).
  destruct Hsel as [Hv _ Hp Hr Hstop _ Hfree _ Hc Hrun Hfirst]. rewrite reserved_claims in Hr. subst r.
  apply elem_of_candidates in Hc as [[k Hl] _]. pose proof (tv_key _ _ _ (valid_todo _ _ _ _ _ Hv Hl)) as Hkey.
  assert (k = id) as -> by congruence. apply hard_stop_None in Hstop as (Hst & Hct & Hpa & _).
  exists peer, todo. split_and!; try done.
  - apply Hrun.
  - apply ineligible_None, Hrun.
  - intros Hm. pose proof (ru_slot _ _ _ _ _ _ _ _ Hrun Hm) as Hs. unfold free_slots, saturating_sub in Hs. lia.
  - intros k other mode' Ho Hr'. apply Hfirst; [apply elem_of_candidates; split; [by exists k|done]|by exists mode'].
Qed.
(** C7: claims are exclusive. In every reachable state two held todos are held
    by different agents under different claim generations, and where they share a workspace
    none of their write scopes overlap; no more claims are held than the policy
    allows in parallel. *)
Theorem loop_claims_are_exclusive s :
  loop_reachable s ->
  (forall i j ti tj ci cj, i <> j -> holds s i ti ci -> holds s j tj cj ->
     cl_agent_id ci <> cl_agent_id cj /\ cl_generation ci <> cl_generation cj /\
     (td_workspace_digest (lt_spec ti) = td_workspace_digest (lt_spec tj) ->
        forall x y, x ∈ td_write_scopes (lt_spec ti) -> y ∈ td_write_scopes (lt_spec tj) ->
          scopes_overlap x y = false)) /\
  Z.of_nat (length (claims s)) <= lp_max_parallel (lo_policy s).
Proof. intros [Ha _ Hp]%reachable_exclusive. split; [exact Ha|exact Hp]. Qed.

(** C9: a claim that is no longer held is fenced for good. Once no todo is held
    under the generation of a claim, every later command that presents that
    claim - to begin, to renew, to settle or to reconcile - is refused and
    changes nothing, whatever happened in between. *)
Theorem released_claim_is_fenced s s' claim facts command now :
  cl_generation claim <= lo_claim_generation s ->
  (forall k todo c, holds s k todo c -> cl_generation c <> cl_generation claim) ->
  rtc (loop_step any_action) s s' -> presented (lc_action command) = Some claim ->
  refused facts command now s'.
Proof.
  intros Hle Hno Hrun Hp. apply refused_moved. intros t Hm.
  destruct (unheld_run _ _ _ Hrun (conj Hle Hno)) as [_ Hno'].
  destruct (presented_held _ _ _ _ _ _ Hm Hp) as [todo Hh]. by apply (Hno' _ _ _ Hh).
Qed.

Lemma begun_started facts command now s r s' claim host :
  loop_reachable s -> lc_action command = BeginExecution claim host ->
  run (loop_apply facts command now) s = (Ok r, s') -> started (cl_generation claim) s'.
Proof.
  intros Hreach Ha Hr.
  assert (loop_reachable s') as Hreach'.
  { destruct Hreach as (s0 & H0' & Hrun). exists s0. split; [done|]. eapply rtc_r; [done|by eapply apply_step]. }
  destruct (reachable_exclusive _ Hreach') as [Hap Hgen _].
  apply apply_Ok, applied_moved in Hr as (t & Hm & ->). rewrite Ha in Hm. inversion Hm; subst; try discriminate.
  match goal with Hx : require_claim _ _ _ _ = Ok _ |- _ => apply require_claim_Ok in Hx as (todo2 & Hl & Hc & _) end.
  assert (todo2 = todo) as -> by congruence.
  match type of Hap with context [holds ?st] => set (u := st) in * end.
  assert (holds u (cl_todo_id claim) (todo <| lt_execution_started := true |>) claim) as Hh.
  { split; [|done]. unfold u. cbn. by rewrite lookup_insert_eq. }
  split; [by apply (Hgen _ _ _ Hh)|]. intros k todo' c Hk Hg.
  destruct (decide (k = cl_todo_id claim)) as [->|Hne].
  - destruct Hk as [Hk _], Hh as [Hh _]. rewrite Hh in Hk. by injection Hk as <-.
  - by destruct (Hap _ _ _ _ _ _ Hne Hk Hh) as (_ & Hx & _).
Qed.

(** Execution begins at most once per claim. After a [BeginExecution] has
    succeeded, no later command can begin execution under a claim of the same
    generation, renewed or not. *)
Theorem execution_begins_once facts command now s r s1 s2 claim host facts' command' now' claim' host' :
  loop_reachable s -> lc_action command = BeginExecution claim host ->
  run (loop_apply facts command now) s = (Ok r, s1) ->
  rtc (loop_step any_action) s1 s2 ->
  lc_action command' = BeginExecution claim' host' -> cl_generation claim' = cl_generation claim ->
  refused facts' command' now' s2.
Proof.
  intros Hreach Ha Hr Hrun Ha' Hg. pose proof (begun_started _ _ _ _ _ _ _ _ Hreach Ha Hr) as Hst.
  destruct (started_run _ _ _ Hrun Hst) as [_ Hstarted]. apply refused_moved. rewrite Ha'. intros t Hm.
  inversion Hm; subst; try discriminate.
  match goal with Hx : require_claim _ _ _ _ = Ok _ |- _ => apply require_claim_Ok in Hx as (todo2 & Hl & Hc & _) end.
  assert (lt_execution_started todo2 = true) by (eapply Hstarted; [by split|done]). congruence.
Qed.

(** C8: work never exceeds the quota. As long as nobody sets a quota above [B],
    the slots spent and the slots reserved by claims together never exceed
    [B], even when the quota is cut while claims are out. *)
Theorem slots_stay_within_quota B s0 s :
  created s0 -> 0 <= B -> lp_max_slots (lo_policy s0) <= B ->
  rtc (loop_step (fun a => match a with SetQuota q => q <= B | _ => True end)) s0 s ->
  lo_spent_slots s + Z.of_nat (la_reserved_slots (accounting s)) <= B.
Proof.
  intros (Ht & _ & Hs & _)%created_fresh HB0 HB Hrun.
  assert (quota s <= B /\ slots s <= B) as [_ Hslots]; [|exact Hslots].
  apply (run_invariant _ (fun s => quota s <= B /\ slots s <= B) _ _) with (2 := Hrun).
  - intros facts now a s1 t revision HP Hv Hm [_ Hq] [Hle Hsl].
    split; [change (quota (stamped revision now t)) with (quota t); rewrite Hq; by destruct a|].
    change (slots (stamped revision now t)) with (slots t).
    destruct (moved_slots _ _ _ _ _ Hv Hm) as [?|(? & ? & _)]; lia.
  - split; [done|]. unfold slots, reserved. rewrite Hs, Ht, count_values_size, map_filter_empty, map_size_empty. lia.
Qed.

Lemma evidence_run s s' :
  rtc (loop_step any_action) s s' -> lo_spent_slots s <= Z.of_nat (size (lo_accepted_evidence s)) ->
  lo_spent_slots s' <= Z.of_nat (size (lo_accepted_evidence s')) /\ lo_accepted_evidence s ⊆ lo_accepted_evidence s'.
Proof.
  intros Hrun Hle.
  apply (run_invariant any_action (fun s' => lo_spent_slots s' <= Z.of_nat (size (lo_accepted_evidence s')) /\
    lo_accepted_evidence s ⊆ lo_accepted_evidence s')) with (2 := Hrun); [|by split].
  intros facts now a s1 t revision _ _ Hm _ [Hs Hsub].
  destruct (moved_evidence_backs _ _ _ _ _ Hm Hs) as [Ht Hsub']. split; [exact Ht|].
  cbn. by transitivity (lo_accepted_evidence s1).
Qed.

(** Every spent slot is backed by evidence of its own. In a reachable state
    no more slots are spent than there are accepted pieces of evidence, and a
    settlement that offers evidence accepted before, in this or any
    earlier state, is refused. *)
Theorem evidence_is_spent_once s s' facts command now :
  loop_reachable s -> rtc (loop_step any_action) s s' ->
  lo_spent_slots s' <= Z.of_nat (size (lo_accepted_evidence s')) /\
  (~ (progress_evidence (lc_action command) ## lo_accepted_evidence s) -> refused facts command now s').
Proof.
  intros (s0 & H0' & Hrun0) Hrun. apply created_fresh in H0' as (_ & _ & Hz & _).
  destruct (evidence_run _ _ Hrun0) as [Hs _]; [lia|]. destruct (evidence_run _ _ Hrun Hs) as [Hs' Hsub].
  split; [done|]. intros Hd. apply refused_moved. intros t Hm%moved_progress. set_solver.
Qed.

(** Dependencies are respected. In every reachable state a todo that is
    claimed, uncertain or completed has every todo it depends on completed. *)
Theorem loop_dependencies_are_respected s k todo d :
  loop_reachable s -> lo_todos s !! k = Some todo ->
  lt_status todo ∈ [LtClaimed; LtUncertain; LtCompleted] -> d ∈ td_depends_on (lt_spec todo) ->
  exists item, lo_todos s !! d = Some item /\ lt_status item = LtCompleted.
Proof.
  intros Hreach. revert k todo d. change (forall k todo d, lo_todos s !! k = Some todo ->
    lt_status todo ∈ [LtClaimed; LtUncertain; LtCompleted] -> d ∈ td_depends_on (lt_spec todo) -> completed s d).
  enough (ordered s) as Ho by (intros; by eapply Ho). revert Hreach. apply reachable_invariant.
  - intros s0 (Ht & _)%created_fresh k todo Hk. by rewrite Ht, lookup_empty in Hk.
  - intros facts now a s1 t revision Hv Hm _ Ho. exact (moved_ordered _ _ _ _ _ Hv Hm Ho).
Qed.

(** A revocation puts every claim in doubt and never loses one. After a
    [Steer], a [Pause] or a cut of the quota, each claimed todo is still held
    by the same claim but uncertain, and from then on every command that
    presents a claim granted before is refused, except the report that its
    outcome is uncertain. *)
Theorem revocation_puts_claims_in_doubt facts command now s r s1 k todo claim :
  run (loop_apply facts command now) s = (Ok r, s1) -> is_revoking s (lc_action command) = true ->
  holds s k todo claim ->
  holds s1 k (todo <| lt_status := LtUncertain |>) claim /\
  forall s2 facts' command' now' claim', rtc (loop_step any_action) s1 s2 ->
    presented (lc_action command') = Some claim' -> same_holder claim claim' ->
    records_doubt (lc_action command') = false -> refused facts' command' now' s2.
Proof.
  intros Hr Hrev [Hk Hc]. apply apply_Ok in Hr as Happ.
  pose proof (valid_todo _ _ _ _ _ (ap_valid _ _ _ _ _ _ Happ) Hk) as Hv.
  apply applied_moved in Happ as (t & Hm & ->). destruct (moved_steering _ _ _ _ _ Hm) as [_ Hst]. specialize (Hst Hrev).
  split.
  - assert (doubted s t) as (Ht & _) by (by eapply moved_doubted). split; [|done].
    change (lo_todos t !! k = Some (todo <| lt_status := LtUncertain |>)). rewrite Ht, lookup_fmap, Hk.
    cbn [fmap option_fmap option_map]. unfold mark_uncertain. by rewrite Hc.
  - intros s2 facts' command' now' claim' Hrun Hp (_ & _ & Hg) Hd. apply refused_moved. intros t2 Hm2.
    pose proof (presented_steering _ _ _ _ _ _ Hm2 Hp Hd) as He.
    pose proof (steering_run _ _ (lo_steering_generation s + 1) Hrun) as Hle.
    pose proof (tv_claim _ _ _ Hv claim Hc) as Hok. unfold claim_is_invalid in Hok. split_guards. cbn in Hle. lia.
Qed.

(** C10: agents do the work and cannot govern it. A successful command of an
    agent leaves the policy, the pause, the steering generation and the peers
    as they were, leaves every todo another agent holds exactly as it was, and
    leaves the gates as they were or opens one new gate, on the agent itself,
    on a todo or on a decision; it resolves none and never opens one on the
    Mission or on another agent. A gate on a todo may still hold up whoever
    works on that todo ([gate_holds_up_the_holder]). *)
Theorem agents_cannot_govern facts command now s r s' agent :
  run (loop_apply facts command now) s = (Ok r, s') -> lc_actor command = Agent agent ->
  is_Some (lo_peers s !! agent) /\
  lo_policy s' = lo_policy s /\ lo_paused s' = lo_paused s /\
  lo_steering_generation s' = lo_steering_generation s /\ lo_peers s' = lo_peers s /\
  (forall k todo claim, holds s k todo claim -> cl_agent_id claim <> agent -> lo_todos s' !! k = Some todo) /\
  (lo_gates s' = lo_gates s \/
   exists gate, lc_action command = OpenGate gate /\ lo_gates s !! ga_id gate = None /\
     lo_gates s' = <[ga_id gate := gate]> (lo_gates s) /\
     match ga_scope gate with GsMission => False | GsAgent id => id = agent | GsTodo _ | GsDecision _ => True end).
Proof.
  intros Hr Ha. pose proof (apply_actor _ _ _ _ _ _ Hr) as Hact. rewrite Ha in Hact.
  destruct (apply_Ok _ _ _ _ _ _ Hr) as [Hv _ _ _ _ (t & made & Ht & ->)]. rewrite Ha in Ht.
  destruct (agent_transition _ _ _ _ _ _ _ Ht) as [[= Hp Hpa Hst Hpe] Hg].
  unfold validate_actor, contains_key in Hact. inv_ok. split_guards.
  split_and!; try done.
  - by destruct (lo_peers s !! agent).
  - intros k todo claim Hh Hne. exact (agent_spares _ _ _ _ _ _ _ _ _ _ Hv Ht Hh Hne).
  - destruct Hg as [Hg|(gate & He & Hn & Hau & Hg)]; [by left|right]. exists gate. split_and!; try done.
    unfold gate_authority in Hau. destruct (ga_scope gate); inv_ok; by split_guards.
Qed.

(** A gate that applies to a claimed todo refuses its holder, whoever opened
    it: the claim can neither begin, nor be renewed, nor settle, except to
    report that the outcome is uncertain. *)
Theorem gate_holds_up_the_holder facts command now s k gate todo claim :
  lo_gates s !! k = Some gate -> lo_todos s !! cl_todo_id claim = Some todo ->
  gate_blocks gate (cl_agent_id claim) (lt_spec todo) = true ->
  match lc_action command with
  | BeginExecution c _ | LaHeartbeat c => c = claim
  | Settle c result => c = claim /\ is_ambiguous result = false
  | _ => False
  end -> refused facts command now s.
Proof.
  intros Hk Hl Hb Hc. apply refused_moved. intros t Hm.
  assert (require_claim s facts claim now = Ok tt) as Hq.
  { destruct Hm; try done; try (by destruct a); [by subst|by subst|]. destruct Hc as [-> Ha]. by auto. }
  apply require_claim_Ok in Hq as (todo' & Hl' & _ & _ & _ & _ & _ & _ & Hno).
  rewrite Hl in Hl'. injection Hl' as <-. by rewrite (Hno k gate Hk) in Hb.
Qed.

(** Commands are atomic. A command that does not succeed leaves the loop
    exactly as it was; one that succeeds was addressed to the current
    revision, was given on a clock that had not run backwards, advances the
    revision by one and leaves a state that validates against its Mission. *)
Theorem loop_commands_are_atomic facts command now s :
  match run (loop_apply facts command now) s with
  | (Ok r, s') => lc_expected_revision command = lo_revision s /\ lo_updated_at s <= now /\
      lr_revision r = lo_revision s + 1 /\ lo_revision s' = lo_revision s + 1 /\
      lo_updated_at s' = now /\ identity s' = identity s /\ validate_for s' (lf_mission facts) = Ok tt
  | (_, s') => s' = s
  end.
Proof.
  pose proof (atomic (m:=loop_apply facts command now) s) as Ha.
  destruct (run (loop_apply facts command now) s) as [[r|e|] s'] eqn:Hr; [|by apply Ha..].
  apply apply_Ok in Hr as [_ Hv' He [Hrr Hr'] [Hc Hu] (t & made & Ht & Hs')].
  pose proof (transition_identity facts (lc_actor command) (lc_action command) now s) as Hi. rewrite Ht in Hi.
  split_and!; try done. rewrite Hs'. exact Hi.
Qed.




End guarantees.

(** ** The demonstration loop *)
Lemma ready_reachable : loop_reachable Work.ready.
Proof.
  exists Work.fresh. split; [exact Work.fresh_created|].
  apply Work.plays_run; [by repeat constructor|by vm_compute].
Qed.

Lemma played_reachable cs s :
  loop_reachable s -> Work.plays cs s = true -> loop_reachable (Work.play cs s).
Proof.
  intros (s0 & Hc & Hr) Hp. exists s0. split; [done|]. etransitivity; [exact Hr|].
  apply Work.plays_run; [by apply Forall_true|done].
Qed.

Lemma claimed_reachable : loop_reachable Work.claimed.
Proof. apply played_reachable; [exact ready_reachable|by vm_compute]. Qed.
Lemma settled_reachable : loop_reachable Work.settled.
Proof. apply played_reachable; [apply played_reachable; [exact claimed_reachable|by vm_compute]|by vm_compute]. Qed.

Lemma selection_is_authorised_witness :
  exists todo, lo_todos Work.ready !! "build" = Some todo /\ lt_status todo = LtOpen.
Proof.
  assert (should_run Work.ready Work.facts (Work.host "ann") (Work.at_ 6) =
    Ok (Work.advice Work.ready "ann" (Work.at_ 6))) as Hrun by by vm_compute.
  destruct (selection_is_authorised Work.ready Work.facts (Work.host "ann") (Work.at_ 6) _ "build" Hrun
    Work.first_advice) as (peer & todo & _ & Htodo & Hopen & _).
  exists todo. split; [exact Htodo|exact Hopen].
Defined.

(** Both agents hold a claim in [Work.claimed]. *)
Lemma held_build : holds Work.claimed "build" (Work.todo_of Work.claimed "build") Work.ann.
Proof. by vm_compute. Qed.
Lemma held_draft : holds Work.claimed "draft" (Work.todo_of Work.claimed "draft") Work.bob.
Proof. by vm_compute. Qed.

Lemma loop_claims_are_exclusive_witness :
  cl_agent_id Work.ann <> cl_agent_id Work.bob /\ (length (claims Work.claimed) = 2)%nat.
Proof.
  destruct (loop_claims_are_exclusive Work.claimed claimed_reachable) as [Hapart _].
  split; [|by vm_compute].
  exact (proj1 (Hapart "build" "draft" _ _ _ _ ltac:(discriminate) held_build held_draft)).
Defined.

Lemma unheld_check s g :
  map_any (fun todo => is_some_and (fun c => cl_generation c =? g) (lt_claim todo)) (lo_todos s) = false ->
  forall k todo c, holds s k todo c -> cl_generation c <> g.
Proof. rewrite map_any_false. intros Hn k todo c [Hk Hc]. specialize (Hn k todo Hk). rewrite Hc in Hn. cbn in Hn. lia. Qed.

(** A heartbeat that arrives after the claim was settled. *)
Lemma released_claim_is_fenced_witness :
  refused Work.facts (Work.command Work.settled (Agent "ann", LaHeartbeat Work.ann, Work.at_ 31)) (Work.at_ 31)
    Work.settled.
Proof.
  apply (released_claim_is_fenced Work.settled Work.settled Work.ann Work.facts
    (Work.command Work.settled (Agent "ann", LaHeartbeat Work.ann, Work.at_ 31)) (Work.at_ 31)).
  - by vm_compute.
  - apply unheld_check. by vm_compute.
  - apply rtc_refl.
  - reflexivity.
Defined.

(** The second [BeginExecution] of the same claim. *)
Lemma execution_begins_once_witness :
  refused Work.facts (Work.command Work.executing (Work.beginning 9))
    (Work.at_ 9) Work.executing.
Proof.
  assert (run (loop_apply Work.facts (Work.command Work.claimed (Work.beginning 8))
    (Work.at_ 8)) Work.claimed =
    (Ok (Work.receipt_of Work.claimed (Work.beginning 8)), Work.executing))
    as Hbegin by by vm_compute.
  exact (execution_begins_once Work.facts (Work.command Work.claimed (Work.beginning 8)) (Work.at_ 8) Work.claimed _ Work.executing Work.executing Work.ann
    (Work.host "ann") Work.facts
    (Work.command Work.executing (Work.beginning 9)) (Work.at_ 9)
    Work.ann (Work.host "ann") claimed_reachable eq_refl Hbegin (rtc_refl _ _) eq_refl eq_refl).
Defined.

Lemma slots_stay_within_quota_witness :
  lo_spent_slots Work.claimed + Z.of_nat (la_reserved_slots (accounting Work.claimed)) <= 3 /\
  la_reserved_slots (accounting Work.claimed) = 2%nat.
Proof.
  split; [|by vm_compute].
  refine (slots_stay_within_quota 3 Work.fresh Work.claimed Work.fresh_created _ _ _); [done|by vm_compute|].
  transitivity Work.ready.
  - refine (Work.plays_run _ Work.setup Work.fresh _ _); [by repeat constructor|by vm_compute].
  - refine (Work.plays_run _ Work.claiming Work.ready _ _); [by repeat constructor|by vm_compute].
Defined.

(** Bob offers the evidence that Ann's settlement has used. *)
Lemma evidence_is_spent_once_witness :
  lo_spent_slots Work.settled <= Z.of_nat (size (lo_accepted_evidence Work.settled)) /\
  refused Work.facts (Work.command Work.settled (Agent "bob", Settle Work.bob (Work.progress "e1"), Work.at_ 31))
    (Work.at_ 31) Work.settled.
Proof.
  destruct (evidence_is_spent_once Work.settled Work.settled Work.facts
    (Work.command Work.settled (Agent "bob", Settle Work.bob (Work.progress "e1"), Work.at_ 31)) (Work.at_ 31)
    settled_reachable (rtc_refl _ _)) as [Hback Hrefuse].
  split; [exact Hback|]. apply Hrefuse. intros Hd.
  refine (proj1 (elem_of_disjoint _ _) Hd "e1" _ _); refine (bool_decide_unpack _ _); by vm_compute.
Defined.

(** The review depends on the build and can be claimed once that is done. *)
Lemma loop_dependencies_are_respected_witness :
  exists item, lo_todos (Work.play [(Agent "ann", LaClaim (Work.host "ann") "review" zeros64, Work.at_ 31)]
    Work.settled) !! "build" = Some item /\ lt_status item = LtCompleted.
Proof.
  set (s := Work.play [(Agent "ann", LaClaim (Work.host "ann") "review" zeros64, Work.at_ 31)] Work.settled).
  apply (loop_dependencies_are_respected s "review" (Work.todo_of s "review") "build").
  - apply played_reachable; [exact settled_reachable|by vm_compute].
  - by vm_compute.
  - refine (bool_decide_unpack _ _). by vm_compute.
  - refine (bool_decide_unpack _ _). by vm_compute.
Defined.

Lemma held_executing : holds Work.executing "build" (Work.todo_of Work.executing "build") Work.ann.
Proof. by vm_compute. Qed.

(** The operator steers while Ann executes; her progress is not accepted. *)
Lemma revocation_puts_claims_in_doubt_witness :
  refused Work.facts (Work.command Work.steered Work.late_settle) (Work.at_ 30) Work.steered.
Proof.
  assert (run (loop_apply Work.facts (Work.command Work.executing Work.steer) (Work.at_ 10)) Work.executing =
    (Ok (Work.receipt_of Work.executing Work.steer), Work.steered)) as Hsteer by by vm_compute.
  refine (proj2 (revocation_puts_claims_in_doubt Work.facts (Work.command Work.executing Work.steer) (Work.at_ 10)
    Work.executing _ Work.steered "build" _ Work.ann Hsteer eq_refl held_executing)
    Work.steered Work.facts (Work.command Work.steered Work.late_settle) (Work.at_ 30) Work.ann
    (rtc_refl _ _) eq_refl _ eq_refl).
  exact (conj eq_refl (conj eq_refl eq_refl)).
Defined.

Lemma agents_cannot_govern_witness :
  lo_policy Work.claimed = lo_policy (Work.play [(Agent "ann", LaClaim (Work.host "ann") "build" zeros64, Work.at_ 6)] Work.ready).
Proof.
  set (before := Work.play [(Agent "ann", LaClaim (Work.host "ann") "build" zeros64, Work.at_ 6)] Work.ready).
  assert (run (loop_apply Work.facts (Work.command before (Agent "bob", LaClaim (Work.host "bob") "draft" zeros64, Work.at_ 7))
    (Work.at_ 7)) before =
    (Ok (Work.receipt_of before (Agent "bob", LaClaim (Work.host "bob") "draft" zeros64, Work.at_ 7)), Work.claimed))
    as Hclaim by by vm_compute.
  destruct (agents_cannot_govern Work.facts
    (Work.command before (Agent "bob", LaClaim (Work.host "bob") "draft" zeros64, Work.at_ 7)) (Work.at_ 7) before _ Work.claimed "bob" Hclaim eq_refl) as (_ & Hpolicy & _).
  exact Hpolicy.
Defined.

(** Bob, a peer without a claim on it, puts a gate on the todo Ann is
    executing, and her settlement is refused until the operator resolves it. *)
Example todo_gate_of_another_agent :
  let gate := (Agent "bob", OpenGate (mkGate "g1" "May this ship?" (GsTodo "build")), Work.at_ 9) in
  let held := (Work.attempt Work.executing gate).2 in
  let resolved := (Work.attempt held (Work.operator, ResolveGate "g1" zeros64, Work.at_ 10)).2 in
  is_ok (Work.attempt Work.executing gate).1 = true /\
  is_ok (Work.attempt held Work.late_settle).1 = false /\
  is_ok (Work.attempt resolved Work.late_settle).1 = true.
Proof. by vm_compute. Qed.

