(* ===== verification/LoopProgress.v ===== *)
(** * The Mission loop makes progress

    What the loop advises can be claimed, and a settled monitor comes due again
    at the next instant of its grid. *)
From S2P Require Import Prelude Money Contract MissionTypes WorkProduct Effect Checkpoint.
From S2P Require Import Terminal Mission MissionMachine MissionFixture LoopState LoopDecision LoopTransition.
From S2P Require Import LoopChoice LoopSteps LoopSafety LoopFixture.
Import Prelude.Fixture.

Section progress.
Context `{ChronoLaws} `{Sha256Laws} `{LoopSerde}.
Implicit Types (s t : MissionLoop) (facts : LoopMissionFacts).

(** ** Monitors *)
Definition monitor_step (monitor : LoopMonitor) : Z := mo_interval_seconds monitor * nanos_per_second.

Lemma advance_monitor_grid monitor now next :
  0 < mo_interval_seconds monitor -> mo_next_due_at monitor <= now ->
  advance_monitor monitor now = Ok next ->
  now < next /\ (exists k, 0 <= k /\ next = mo_next_due_at monitor + k * monitor_step monitor) /\
  (forall k, 0 <= k -> now < mo_next_due_at monitor + k * monitor_step monitor ->
     next <= mo_next_due_at monitor + k * monitor_step monitor).
Proof.
  intros Hi Hd Ha. unfold advance_monitor, checked_div_i64, checked_add_i64, checked_mul_i64 in Ha. inv_ok.
  pose proof (next_grid_step (mo_next_due_at monitor) now _ Hi Hd) as (Hk1 & Hgt & Hprev). cbn zeta in *.
  pose proof (num_seconds_bounds (now - mo_next_due_at monitor) ltac:(lia)) as Hs.
  rewrite Z.max_l in * by (unfold nanos_per_second in *; lia).
  match goal with Hx : duration_seconds _ = Some _ |- _ => apply duration_seconds_exact in Hx end.
  apply add_signed_exact in Ha.
  set (q := Z.quot _ _) in *.
  assert (x0 = (q + 1) * mo_interval_seconds monitor) as -> by (repeat (case_match || simplify_option_eq); lia).
  subst x1 next. unfold monitor_step, nanos_per_second in *.
  split_and!; [lia|exists (q + 1); lia|]. intros k Hk Ht. assert (q < k) by nia. nia.
Qed.

Lemma valid_monitor s k todo monitor :
  todo_valid s k todo -> td_monitor (lt_spec todo) = Some monitor -> 0 < mo_interval_seconds monitor.
Proof.
  intros [_ Hs _ _ _] Hm. unfold validate_todo_spec in Hs. inv_ok. rewrite Hm in *. cbn [is_some_and] in *.
  unfold in_range in *. split_guards. lia.
Qed.

(** A settled monitor poll costs nothing and comes due again at the right
    instant. Settling an observation of a due monitor releases the claim,
    spends no slot, and sets the next poll to the least instant of the
    monitor's grid that is later than now; the todo is open again, or
    completed when the monitor expires before that poll. *)
Theorem monitor_poll_is_rescheduled facts command now s r s' claim observed todo monitor :
  run (loop_apply facts command now) s = (Ok r, s') ->
  lc_action command = Settle claim (MonitorObservation observed) ->
  lo_todos s !! cl_todo_id claim = Some todo -> td_monitor (lt_spec todo) = Some monitor ->
  mo_next_due_at monitor <= now ->
  lo_spent_slots s' = lo_spent_slots s /\
  exists next todo', lo_todos s' !! cl_todo_id claim = Some todo' /\ lt_claim todo' = None /\
    td_monitor (lt_spec todo') = Some (monitor <| mo_next_due_at := next |>) /\
    lt_status todo' = (if mo_expires_at monitor <=? next then LtCompleted else LtOpen) /\
    now < next /\ (exists k, 0 <= k /\ next = mo_next_due_at monitor + k * monitor_step monitor) /\
    (forall k, 0 <= k -> now < mo_next_due_at monitor + k * monitor_step monitor ->
       next <= mo_next_due_at monitor + k * monitor_step monitor).
Proof.
  intros Hr Ha Hl Hm Hdue. apply apply_Ok in Hr as Happ.
  pose proof (valid_todo _ _ _ _ _ (ap_valid _ _ _ _ _ _ Happ) Hl) as Hv.
  apply applied_moved in Happ as (t & Hmv & ->). rewrite Ha in Hmv. inversion Hmv; subst; try discriminate.
  match goal with Hx : settled _ _ _ _ _ _ ?a _ |- _ => destruct Hx as [Hl' Hc _ Hres Ht _ _ _ _]; assert (a = todo) as -> by congruence end.
  cbn in Hres. destruct Hres as (_ & Hsp & monitor' & next & Hm' & Hadv & ->).
  assert (monitor' = monitor) as -> by congruence. split; [exact Hsp|].
  exists next. eexists. split; [cbn; rewrite Ht; cbn; rewrite (tv_key _ _ _ Hv); by rewrite lookup_insert_eq|].
  unfold release; cbn. rewrite bool_decide_false by (by case_match). cbn. split_and!; try done.
  - by apply (advance_monitor_grid monitor now next (valid_monitor _ _ _ _ Hv Hm) Hdue).
  - by apply (advance_monitor_grid monitor now next (valid_monitor _ _ _ _ Hv Hm) Hdue).
  - by apply (advance_monitor_grid monitor now next (valid_monitor _ _ _ _ Hv Hm) Hdue).
Qed.

(** ** What is advised can be claimed *)
Lemma open_decision_selects s mission peer host sel authority now d id mode :
  ho_workspace_digest host = pe_workspace_digest peer -> agent_free s (ho_agent_id host) ->
  Z.of_nat (length (claims s)) < lp_max_parallel (lo_policy s) ->
  scan (verdict s mission peer host (ld_remaining_slots d) now) [] None (candidates s sel) = inl (id, mode) ->
  ld_selected_todo (open_decision s mission peer host sel authority now d) = Some id.
Proof.
  intros Hw Hfree%find_held_None Hpar Hs. unfold open_decision.
  rewrite bool_decide_true by done. cbn [negb]. rewrite Hfree, (proj2 (Z.leb_gt _ _)) by done. by rewrite Hs.
Qed.

Lemma decision_for_selected s facts host now d id :
  should_run s facts host now = Ok d -> ld_selected_todo d = Some id ->
  exists d', decision_for_todo s facts host id now = Ok d' /\ ld_selected_todo d' = Some id.
Proof.
  intros Hd Hid. destruct (decision_selected _ _ _ _ _ _ _ Hd Hid) as (peer & r & todo & mode & Hk & Hsel).
  pose proof (proj1 (elem_of_candidates _ _ _) (se_candidate _ _ _ _ _ _ _ _ _ Hsel)) as [[k Hl] _].
  pose proof (tv_key _ _ _ (valid_todo _ _ _ _ _ (se_valid _ _ _ _ _ _ _ _ _ Hsel) Hl)) as Hkey.
  assert (k = id) as -> by congruence.
  destruct (scan_finds (verdict s (lf_mission facts) peer host (free_slots s r) now) [] None (candidates s (Some id)) todo)
    as (id' & mode' & Hscan).
  { apply elem_of_candidates. split; [by exists id|]. by intros ? [= <-]. }
  { by rewrite (proj2 (verdict_Runnable _ _ _ _ _ _ _ _) (se_runnable _ _ _ _ _ _ _ _ _ Hsel)). }
  assert (id' = id) as ->.
  { apply scan_selection in Hscan as (todo' & <- & Hc & _). apply elem_of_candidates in Hc as [_ Hc]. by apply Hc. }
  unfold decision_for_todo, contains_key. rewrite Hl. cbn [is_some negb reject_if].
  unfold should_run, decision in *. inv_ok.
  repeat match goal with Hx : ?m = Ok _ |- context [?m] => rewrite Hx | Hx : ?m = Some _ |- context [?m] => rewrite Hx | Hx : ?m = false |- context [?m] => rewrite Hx end.
  eexists. split; [reflexivity|]. destruct Hsel as [_ _ Hp Hres Hgo Hw Hfree Hpar _ _ _]. rewrite Hgo.
  assert (x0 = peer) as -> by congruence.
  assert (x2 = r) as ->.
  { clear Hid. unfold try_from_usize in *. case_match; by simplify_eq. }
  by eapply open_decision_selects.
Qed.

(** ** Validity of the state after a claim *)
Definition fixed_part s :=
  (lo_policy s, lo_schema_version s, lo_tenant_id s, lo_project_id s, lo_mission_id s, lo_steering_generation s,
   lo_created_at s, lo_peers s, lo_gates s, lo_recent_runs s, lo_acknowledged_notices s).

Lemma dom_contains_key {V W} (m : gmap string V) (n : gmap string W) k :
  dom m = dom n -> contains_key m k = contains_key n k.
Proof.
  intros Hd. pose proof (elem_of_dom m k) as Hm. rewrite Hd, elem_of_dom in Hm. unfold contains_key, is_some.
  destruct (m !! k), (n !! k); try done; destruct Hm as [H5 H6];
    [destruct (H6 ltac:(by eexists))|destruct (H5 ltac:(by eexists))]; discriminate.
Qed.

Lemma spec_transfer s t spec :
  fixed_part t = fixed_part s -> dom (lo_todos t) = dom (lo_todos s) ->
  validate_todo_spec t spec = validate_todo_spec s spec.
Proof.
  intros [= _ _ _ _ _ _ Hc Hp _ _ _] Hd. unfold validate_todo_spec. rewrite Hc, Hp.
  rewrite (set_any_ext (fun id => negb (contains_key (lo_todos t) id)) (fun id => negb (contains_key (lo_todos s) id)));
    [done|]. intros x. by rewrite (dom_contains_key _ _ x Hd).
Qed.

Lemma gate_transfer s t gate :
  fixed_part t = fixed_part s -> dom (lo_todos t) = dom (lo_todos s) -> validate_gate t gate = validate_gate s gate.
Proof.
  intros [= _ _ _ _ _ _ _ Hp _ _ _] Hd. unfold validate_gate. rewrite Hp. destruct (ga_scope gate); try done.
  by rewrite (dom_contains_key _ _ _ Hd).
Qed.

Lemma validate_transfer s t mission :
  validate_for s mission = Ok tt -> fixed_part t = fixed_part s -> dom (lo_todos t) = dom (lo_todos s) ->
  lo_revision t <> 0 -> lo_created_at t <= lo_updated_at t ->
  (forall k todo, lo_todos t !! k = Some todo -> todo_valid t k todo) -> validate_for t mission = Ok tt.
Proof.
  intros Hv Hfix Hdom Hrev Hclock Htodos.
  assert (forall gate, validate_gate t gate = validate_gate s gate) as Hgate by (intros; by apply gate_transfer).
  unfold validate_for in *. inv_ok. rewrite !for_pairs_Ok in *.
  assert (for_each (validate_todo t) (btree_pairs (lo_todos t)) = Ok tt) as ->.
  { apply for_pairs_Ok. intros k todo Hk. by apply validate_todo_Ok, Htodos. }
  assert (size (lo_todos t) = size (lo_todos s)) as -> by (by rewrite <-!size_dom, Hdom).
  assert ((lo_updated_at t <? lo_created_at t) = false) as -> by lia.
  assert ((lo_revision t =? 0) = false) as -> by lia.
  repeat match goal with Hx : ?f t = ?f s |- _ => rewrite !Hx; clear Hx end.
  repeat match goal with Hx : policy_validate _ = _ |- _ => rewrite Hx; clear Hx end. split_guards.
  repeat match goal with Hx : ?b = _ |- context [?b] => rewrite Hx; clear Hx end.
  rewrite !bool_decide_true by done.
  match goal with Hx : forall k v, lo_peers s !! k = Some v -> _ |- _ =>
    rewrite (proj2 (for_pairs_Ok _ _ tt) Hx) end.
  cbn. apply for_pairs_Ok. intros k gate Hk. rewrite Hgate. by apply Hv.
Qed.

Lemma claim_transfer s t k claim :
  fixed_part t = fixed_part s -> lo_claim_generation s <= lo_claim_generation t ->
  claim_is_invalid s k claim = false -> claim_is_invalid t k claim = false.
Proof.
  intros [= _ _ _ _ _ Hs _ Hp _ _ _] Hg Hc. unfold claim_is_invalid in *. rewrite Hs, Hp. split_guards.
  repeat match goal with Hx : ?b = _ |- context [?b] => rewrite Hx end.
  assert ((lo_claim_generation t <? cl_generation claim) = false) as -> by lia.
  by rewrite bool_decide_true.
Qed.

Lemma todo_transfer s t k todo :
  fixed_part t = fixed_part s -> dom (lo_todos t) = dom (lo_todos s) ->
  lo_claim_generation s <= lo_claim_generation t -> todo_valid s k todo -> todo_valid t k todo.
Proof.
  intros Hf Hd Hg [Hk Hs Hh He Hc]. split; try done.
  - by rewrite (spec_transfer s t).
  - intros claim Hl. by apply (claim_transfer s t), Hc.
Qed.

(** The lease of a claim ends after it begins. *)
Lemma lease_end_later s facts host sel now peer r todo mode e :
  selection s facts host sel now peer r todo mode ->
  lease_end s (lf_mission facts) todo now = Ok e -> now < e.
Proof.
  intros Hsel He. unfold lease_end in He. inv_ok.
  match goal with Hx : duration_seconds _ = Some _ |- _ => apply duration_seconds_exact in Hx end.
  match goal with Hx : checked_add_signed _ _ = Some _ |- _ => apply add_signed_exact in Hx end.
  pose proof (se_valid _ _ _ _ _ _ _ _ _ Hsel) as Hv. unfold validate_for, policy_validate, in_range in Hv. inv_ok. split_guards.
  destruct (hard_stop_None _ _ _ (se_going _ _ _ _ _ _ _ _ _ Hsel)) as (_ & _ & _ & Hc).
  unfold nanos_per_second in *. destruct (td_monitor (lt_spec todo)) as [m|] eqn:Hm; cbn; [|lia].
  pose proof (ru_monitor _ _ _ _ _ _ _ _ (se_runnable _ _ _ _ _ _ _ _ _ Hsel) m Hm). lia.
Qed.

(** Granting a well-formed claim on a selected todo leaves a valid state. *)
Lemma grant_valid s facts host id now peer r todo mode claim revision :
  selection s facts host (Some id) now peer r todo mode -> lo_todos s !! id = Some todo ->
  cl_todo_id claim = id -> cl_agent_id claim = ho_agent_id host ->
  digest (cl_token_digest claim) = true -> digest (cl_authority_digest claim) = true ->
  cl_generation claim = lo_claim_generation s + 1 -> 0 <= lo_claim_generation s ->
  cl_steering_generation claim = lo_steering_generation s ->
  cl_claimed_at claim < cl_expires_at claim -> revision <> 0 ->
  validate_for (stamped revision now
    (set_todo id (granted claim todo) (s <| lo_claim_generation := cl_generation claim |>))) (lf_mission facts) = Ok tt.
Proof.
  intros Hsel Hl Hid Hag Htok Hau Hgen Hpos Hst Hexp Hrev. pose proof (se_valid _ _ _ _ _ _ _ _ _ Hsel) as Hv.
  set (t := stamped _ _ _). assert (fixed_part t = fixed_part s) as Hf by done.
  assert (dom (lo_todos t) = dom (lo_todos s)) as Hd.
  { unfold t. cbn. rewrite dom_insert_L. apply elem_of_dom_2 in Hl. set_solver. }
  assert (lo_claim_generation s <= lo_claim_generation t) as Hg by (unfold t; cbn; lia).
  apply (validate_transfer s t); try done.
  - unfold t. cbn. pose proof (se_clock _ _ _ _ _ _ _ _ _ Hsel). unfold validate_for in Hv. inv_ok. split_guards. lia.
  - intros k u Hk. unfold t in Hk. cbn in Hk. apply lookup_insert_Some in Hk as [[<- <-]|[_ Hk]].
    2: { apply (todo_transfer s t); try done. by eapply valid_todo. }
    pose proof (todo_transfer s t _ _ Hf Hd Hg (valid_todo _ _ _ _ _ Hv Hl)) as [Hkey Hspec _ _ _].
    split; try done.
    + cbn. split; [intros _; by eexists|intros _; set_solver].
    + cbn. intros c [= <-]. unfold claim_is_invalid, contains_key, t. cbn.
      rewrite Hid, Hag, Htok, Hau, Hgen, Hst, (se_peer _ _ _ _ _ _ _ _ _ Hsel), bool_decide_true by done. cbn. lia.
Qed.

Lemma lease_end_total s mission todo now later :
  policy_validate (lo_policy s) = Ok tt ->
  checked_add_signed now (lp_lease_seconds (lo_policy s) * nanos_per_second) = Some later ->
  exists e, lease_end s mission todo now = Ok e.
Proof.
  intros Hp Hl. unfold policy_validate, in_range in Hp. inv_ok. split_guards.
  destruct (duration_seconds_total (lp_lease_seconds (lo_policy s))) as [d Hd]; [change (i64_max / 1000) with 9223372036854775; lia|].
  unfold lease_end. rewrite Hd. cbn. pose proof (duration_seconds_exact _ _ Hd) as ->. rewrite Hl. cbn. by eexists.
Qed.

Lemma authority_digest_shape facts a : authority_digest facts = Ok a -> digest a = true.
Proof.
  unfold authority_digest, loop_digest. intros Ha. inv_ok. unfold digest.
  match goal with |- context [sha256_hex ?x] => destruct (sha256_hex_shape x) as [-> ->] end. done.
Qed.

(** The claim [LaClaim] grants. *)
Lemma loop_claim_succeeds s facts host id now d tok e authority todo :
  digest tok = true -> decision_for_todo s facts host id now = Ok d -> ld_selected_todo d = Some id ->
  lo_claim_generation s < u64_max -> lo_todos s !! id = Some todo ->
  lease_end s (lf_mission facts) todo now = Ok e -> authority_digest facts = Ok authority ->
  let claim := mkClaim id (ho_agent_id host) tok (lo_claim_generation s + 1) (lo_steering_generation s)
                 authority now e in
  run (loop_claim facts host id tok now) s =
    (Ok claim, set_todo id (granted claim todo) (s <| lo_claim_generation := lo_claim_generation s + 1 |>)).
Proof.
  intros Htok Hd Hsel Hgen Hl He Ha. unfold loop_claim. cbn. rewrite Htok. cbn. rewrite Hd. cbn.
  rewrite bool_decide_true by done. cbn. unfold checked_add. rewrite (proj2 (Z.leb_le _ _)) by lia. cbn.
  rewrite Hl. cbn. rewrite He. cbn. rewrite Ha. done.
Qed.

Lemma claim_transition s facts host id tok now claim t :
  run (loop_claim facts host id tok now) s = (Ok claim, t) ->
  run (transition facts (Agent (ho_agent_id host)) (LaClaim host id tok) now) s = (Ok (Some claim, None), t).
Proof.
  intros Hrun. cbn [transition]. unfold claim_receipt, require_agent. rewrite bool_decide_true by done.
  rewrite (run_known_bind _ _ s claim t); [reflexivity|].
  rewrite (run_known_bind (lift _) _ s tt s) by done. exact Hrun.
Qed.

(** [apply] succeeds when its transition does and the result is valid. *)
Lemma apply_run s facts command now made t :
  token (lc_operation_id command) = true -> validate_for s (lf_mission facts) = Ok tt ->
  lc_expected_revision command = lo_revision s ->
  lc_expected_mission_revision command = ms_revision (lf_mission facts) ->
  lo_updated_at s <= now -> validate_actor s (lc_actor command) = Ok tt -> lo_revision s < u64_max ->
  run (transition facts (lc_actor command) (lc_action command) now) s = (Ok made, t) ->
  validate_for (stamped (lo_revision s + 1) now t) (lf_mission facts) = Ok tt ->
  run (loop_apply facts command now) s =
    (Ok (mkLoopReceipt (lo_revision s + 1) made.1 made.2 false), stamped (lo_revision s + 1) now t).
Proof.
  intros Hop Hv Hr Hmr Hclock Hact Hrev Hrun Hv'. unfold loop_apply. rewrite run_get_bind.
  rewrite (run_known_bind (lift _) _ s tt s) by (cbn; by rewrite Hv).
  rewrite (run_known_bind (reject _ _) _ s tt s) by (cbn; by rewrite Hop).
  rewrite (run_known_bind (reject _ _) _ s tt s) by (cbn; by rewrite Hr, Hmr, !Z.eqb_refl).
  rewrite (run_known_bind (reject _ _) _ s tt s) by (cbn; by rewrite (proj2 (Z.ltb_ge _ _))).
  rewrite (run_known_bind (lift _) _ s tt s) by (cbn; by rewrite Hact).
  unfold on_clone. cbn [run].
  rewrite (run_known_bind (lift _) _ s (lo_revision s + 1) s)
    by (cbn; unfold checked_add; by rewrite (proj2 (Z.leb_le _ _)) by lia).
  rewrite (run_known_bind _ _ _ _ _ Hrun), run_modify_bind, run_get_bind.
  rewrite (run_known_bind (lift _) _ _ tt (stamped (lo_revision s + 1) now t)) by (cbn [run lift]; f_equal; exact Hv').
  done.
Qed.

(** C11: the loop's advice can be followed. When [should_run] selects a todo for
    an agent, that agent's claim of this todo, sent with the current revisions,
    is accepted: it returns a claim held by the agent under the next
    generation, and the whole next state passes validation. Only exhausted
    64-bit counters or a lease that leaves the calendar can prevent it. *)
Theorem advised_work_can_be_claimed s facts host now d id tok operation later :
  should_run s facts host now = Ok d -> ld_selected_todo d = Some id ->
  digest tok = true -> token operation = true ->
  0 <= lo_revision s < u64_max -> 0 <= lo_claim_generation s < u64_max ->
  checked_add_signed now (lp_lease_seconds (lo_policy s) * nanos_per_second) = Some later ->
  let command := mkCommand operation (lo_revision s) (ms_revision (lf_mission facts))
                   (Agent (ho_agent_id host)) (LaClaim host id tok) in
  exists r s' todo claim, run (loop_apply facts command now) s = (Ok r, s') /\ lr_claim r = Some claim /\
    holds s' id todo claim /\ lt_status todo = LtClaimed /\ cl_agent_id claim = ho_agent_id host /\
    cl_generation claim = lo_claim_generation s + 1 /\ now < cl_expires_at claim.
Proof.
  intros Hd Hid Htok Hop Hrev Hgen Hlater command.
  destruct (decision_for_selected _ _ _ _ _ _ Hd Hid) as (d' & Hd' & Hid').
  assert (decision s facts host (Some id) now = Ok d') as Hdec by (unfold decision_for_todo in Hd'; by inv_ok).
  destruct (decision_selected _ _ _ _ _ _ _ Hdec Hid') as (peer & r & todo & mode & Hk & Hsel).
  pose proof (proj1 (elem_of_candidates _ _ _) (se_candidate _ _ _ _ _ _ _ _ _ Hsel)) as [[k Hl] _].
  pose proof (se_valid _ _ _ _ _ _ _ _ _ Hsel) as Hv.
  assert (k = id) as -> by (rewrite <-Hk; symmetry; exact (tv_key _ _ _ (valid_todo _ _ _ _ _ Hv Hl))).
  destruct (lease_end_total s (lf_mission facts) todo now later) as [e He];
    [unfold validate_for in Hv; by inv_run|done|].
  assert (exists authority, authority_digest facts = Ok authority) as [authority Ha]
    by (unfold decision in Hdec; inv_ok; by eexists).
  pose proof (loop_claim_succeeds s facts host id now d' tok e authority todo Htok Hd' Hid' ltac:(lia) Hl He Ha) as Hrun.
  cbn zeta in Hrun. set (claim := mkClaim _ _ _ _ _ _ _ _) in *.
  pose proof (grant_valid s facts host id now peer r todo mode claim (lo_revision s + 1) Hsel Hl eq_refl eq_refl
    Htok (authority_digest_shape _ _ Ha) eq_refl ltac:(lia) eq_refl (lease_end_later _ _ _ _ _ _ _ _ _ _ Hsel He)
    ltac:(lia)) as Hnext.
  pose proof (claim_transition _ _ _ _ _ _ _ _ Hrun) as Htr.
  do 2 eexists. exists (granted claim todo), claim. split; [|split_and!].
  - apply (apply_run s facts command now _ _ Hop Hv eq_refl eq_refl (se_clock _ _ _ _ _ _ _ _ _ Hsel)) with (3 := Htr);
      [|lia|exact Hnext]. cbn. unfold contains_key. by rewrite (se_peer _ _ _ _ _ _ _ _ _ Hsel).
  - done.
  - split; [|done]. cbn. by rewrite lookup_insert_eq.
  - done.
  - done.
  - done.
  - exact (lease_end_later _ _ _ _ _ _ _ _ _ _ Hsel He).
Qed.
End progress.

(** A monitor due at 10 s with a period of 5 s, observed at 23 s. *)
Lemma monitor_poll_is_rescheduled_witness :
  lo_spent_slots (Work.attempt Work.polled Work.observing).2 = lo_spent_slots Work.polled /\
  (td_monitor (lt_spec (Work.todo_of (Work.attempt Work.polled Work.observing).2 "watch")))
    = Some (mkMonitor zeros64 (Work.at_ 25) 5 (Work.at_ 600)).
Proof.
  assert (run (loop_apply Work.facts (Work.command Work.polled Work.observing) (Work.at_ 23)) Work.polled =
    (Ok (Work.receipt_of Work.polled Work.observing), (Work.attempt Work.polled Work.observing).2)) as Hobs by by vm_compute.
  assert (lo_todos Work.polled !! cl_todo_id Work.poll = Some (Work.todo_of Work.polled "watch")) as Htodo
    by (vm_compute; exact eq_refl).
  split; [|vm_compute; exact eq_refl].
  refine (proj1 (monitor_poll_is_rescheduled Work.facts (Work.command Work.polled Work.observing) (Work.at_ 23)
    Work.polled _ _ Work.poll zeros64 _ Work.watch Hobs eq_refl Htodo _ _)); vm_compute; [exact eq_refl|discriminate].
Defined.

Lemma advised_work_can_be_claimed_witness :
  exists r s' todo claim, run (loop_apply Work.facts (mkCommand "op" (lo_revision Work.ready) (ms_revision Work.mission)
      (Agent "ann") (LaClaim (Work.host "ann") "build" zeros64)) (Work.at_ 6)) Work.ready = (Ok r, s') /\
    lr_claim r = Some claim /\ holds s' "build" todo claim.
Proof.
  assert (should_run Work.ready Work.facts (Work.host "ann") (Work.at_ 6) =
    Ok (Work.advice Work.ready "ann" (Work.at_ 6))) as Hrun by by vm_compute.
  assert (0 <= lo_revision Work.ready < u64_max) as Hrev by (vm_compute; split; [discriminate|reflexivity]).
  assert (0 <= lo_claim_generation Work.ready < u64_max) as Hgen by (vm_compute; split; [discriminate|reflexivity]).
  assert (checked_add_signed (Work.at_ 6) (lp_lease_seconds (lo_policy Work.ready) * nanos_per_second)
    = Some (Work.at_ 66)) as Hlater by (vm_compute; exact eq_refl).
  destruct (advised_work_can_be_claimed Work.ready Work.facts (Work.host "ann") (Work.at_ 6) _ "build" zeros64 "op"
    (Work.at_ 66) Hrun Work.first_advice eq_refl eq_refl Hrev Hgen Hlater)
    as (r & s' & todo & claim & Happly & Hreceipt & Hheld & _).
  exists r, s', todo, claim. exact (conj Happly (conj Hreceipt Hheld)).
Defined.
