(* ===== verification/Connection.v ===== *)
(** * Connections to provider accounts

    Models [domain-kernel/src/connection.rs]: a connection is registered for an
    expected external account and required scopes, probed, and revoked; its
    persisted snapshot is validated when it is restored and when a new snapshot
    is appended to a stored one. *)
From S2P Require Import Prelude Text.

(** ** Data *)
Inductive ConnectionStatus : Type :=
| PendingAuth | Probing | Connected | Degraded | CnExpired | Revoked | WrongAccount | MissingScopes.
#[export] Instance ConnectionStatus_eq_dec : EqDecision ConnectionStatus.
Proof. solve_decision. Defined.

Inductive ProbeOutcome : Type := Successful | AuthorizationRevoked | ProviderUnavailable | PoRejected.
#[export] Instance ProbeOutcome_eq_dec : EqDecision ProbeOutcome.
Proof. solve_decision. Defined.

Record ConnectionProbe : Type := mkProbe {
  pb_outcome : ProbeOutcome;
  pb_observed_external_account_id : string;
  pb_granted_scopes : gset string;
  pb_probed_at : DateTime;
  pb_valid_until : DateTime;
  pb_credential_expires_at : DateTime;
  pb_evidence_digest : string;
}.
#[export] Instance ConnectionProbe_eta : Eta ConnectionProbe := fun p =>
  mkProbe (pb_outcome p) (pb_observed_external_account_id p) (pb_granted_scopes p) (pb_probed_at p)
    (pb_valid_until p) (pb_credential_expires_at p) (pb_evidence_digest p).
#[export] Instance ConnectionProbe_eq_dec : EqDecision ConnectionProbe.
Proof. solve_decision. Defined.

Record Connection : Type := mkConnection {
  cn_id : Id;
  cn_tenant_id : Id;
  cn_project_id : Id;
  cn_provider : string;
  cn_account_id : Id;
  cn_expected_external_account_id : string;
  cn_required_scopes : gset string;
  cn_granted_scopes : gset string;
  cn_status : ConnectionStatus;
  cn_last_probe : option ConnectionProbe;
  cn_revoked_at : option DateTime;
  cn_revision : Z; (* u64 *)
  cn_created_at : DateTime;
  cn_updated_at : DateTime;
}.
#[export] Instance Connection_eta : Eta Connection := fun c =>
  mkConnection (cn_id c) (cn_tenant_id c) (cn_project_id c) (cn_provider c) (cn_account_id c)
    (cn_expected_external_account_id c) (cn_required_scopes c) (cn_granted_scopes c) (cn_status c)
    (cn_last_probe c) (cn_revoked_at c) (cn_revision c) (cn_created_at c) (cn_updated_at c).

Record ConnectionSnapshot : Type := mkSnapshot {
  sn_id : Id;
  sn_tenant_id : Id;
  sn_project_id : Id;
  sn_provider : string;
  sn_account_id : Id;
  sn_expected_external_account_id : string;
  sn_required_scopes : gset string;
  sn_granted_scopes : gset string;
  sn_status : ConnectionStatus;
  sn_last_probe : option ConnectionProbe;
  sn_revoked_at : option DateTime;
  sn_revision : Z; (* u64 *)
  sn_created_at : DateTime;
  sn_updated_at : DateTime;
}.
#[export] Instance ConnectionSnapshot_eq_dec : EqDecision ConnectionSnapshot.
Proof. solve_decision. Defined.

Inductive ConnectionError : Type :=
| IncompleteRegistration | InvalidProbe | CeRevoked | ProbeAlreadyInProgress | ProbeNotInProgress
| TimestampRegression | InvalidSnapshot | CeRevisionOverflow.

Abbreviation connection_op := (SR Connection ConnectionError) (only parsing).

Definition normalize_scopes (values : list string) : gset string :=
  list_to_set (List.filter (fun value => negb (String.eqb value "")) (trim <$> values)).

(** ** Operations *)
Definition register (id tenant_id project_id : Id) (provider : string) (account_id : Id)
    (expected_external_account_id : string) (required_scopes : list string) (now : DateTime)
    : result ConnectionError Connection :=
  let provider := trim provider in
  let expected_external_account_id := trim expected_external_account_id in
  let required_scopes := normalize_scopes required_scopes in
  reject_if (trim_is_empty id
    || trim_is_empty tenant_id
    || trim_is_empty project_id
    || String.eqb provider ""
    || trim_is_empty account_id
    || String.eqb expected_external_account_id ""
    || set_is_empty required_scopes) IncompleteRegistration;;
  mret {|
    cn_id := id;
    cn_tenant_id := tenant_id;
    cn_project_id := project_id;
    cn_provider := provider;
    cn_account_id := account_id;
    cn_expected_external_account_id := expected_external_account_id;
    cn_required_scopes := required_scopes;
    cn_granted_scopes := ∅;
    cn_status := PendingAuth;
    cn_last_probe := None;
    cn_revoked_at := None;
    cn_revision := 1;
    cn_created_at := now;
    cn_updated_at := now;
  |}.

Definition prepare_touch (self : Connection) (now : DateTime) : result ConnectionError Z :=
  reject_if (now <? cn_updated_at self) TimestampRegression;;
  ok_or (checked_add u64_max (cn_revision self) 1) CeRevisionOverflow.

Definition commit_touch (next_revision : Z) (now : DateTime) (self : Connection) : Connection :=
  self <| cn_revision := next_revision |> <| cn_updated_at := now |>.

Definition begin_probe (now : DateTime) : connection_op unit :=
  self ← get;
  reject (bool_decide (cn_status self = Revoked)) CeRevoked;;
  reject (bool_decide (cn_status self = Probing)) ProbeAlreadyInProgress;;
  next_revision ← lift (prepare_touch self now);
  modify (fun self => commit_touch next_revision now (self <| cn_status := Probing |>)).

Definition effective_status (self : Connection) (now : DateTime) : ConnectionStatus :=
  if bool_decide (cn_status self = Connected)
     && is_none_or (fun probe => (pb_valid_until probe <=? now) || (pb_credential_expires_at probe <=? now))
          (cn_last_probe self)
  then CnExpired else cn_status self.

Definition is_connected (self : Connection) (now : DateTime) : bool :=
  bool_decide (effective_status self now = Connected).

Definition is_subset (X Y : gset string) : bool := bool_decide (X ⊆ Y).

Definition permits_scopes (self : Connection) (required : gset string) (now : DateTime) : bool :=
  is_connected self now && is_subset required (cn_granted_scopes self).

(** The probe as it is stored: account and scopes trimmed. *)
Definition normalize_probe (probe : ConnectionProbe) : ConnectionProbe :=
  probe <| pb_observed_external_account_id ::= trim |>
        <| pb_granted_scopes ::= fun scopes => normalize_scopes (btree_iter scopes) |>.

Definition probe_is_invalid (probe : ConnectionProbe) (now : DateTime) : bool :=
  String.eqb (pb_observed_external_account_id probe) ""
  || negb (is_sha256 (pb_evidence_digest probe))
  || (now <? pb_probed_at probe)
  || (bool_decide (pb_outcome probe = Successful)
      && ((pb_valid_until probe <=? now) || (pb_credential_expires_at probe <=? now))).

Definition probed_status (self : Connection) (probe : ConnectionProbe) : ConnectionStatus :=
  if bool_decide (pb_outcome probe = AuthorizationRevoked) then Revoked
  else if negb (bool_decide (pb_observed_external_account_id probe = cn_expected_external_account_id self))
  then WrongAccount
  else if negb (is_subset (cn_required_scopes self) (pb_granted_scopes probe)) then MissingScopes
  else match pb_outcome probe with
       | Successful => Connected
       | ProviderUnavailable => Degraded
       | AuthorizationRevoked => Revoked
       | PoRejected => PendingAuth
       end.

Definition apply_probe (probe : ConnectionProbe) (now : DateTime) : connection_op ConnectionStatus :=
  self ← get;
  reject (bool_decide (cn_status self = Revoked)) CeRevoked;;
  reject (negb (bool_decide (cn_status self = Probing))) ProbeNotInProgress;;
  let probe := normalize_probe probe in
  reject (probe_is_invalid probe now) InvalidProbe;;
  next_revision ← lift (prepare_touch self now);
  modify (fun self => self <| cn_granted_scopes := pb_granted_scopes probe |>);;
  modify (fun self => self <| cn_status := probed_status self probe |>);;
  modify (fun self => if bool_decide (cn_status self = Revoked)
    then self <| cn_revoked_at := Some now |> <| cn_granted_scopes := ∅ |> else self);;
  modify (fun self => commit_touch next_revision now (self <| cn_last_probe := Some probe |>));;
  self ← get;
  mret (effective_status self now).

Definition revoke (now : DateTime) : connection_op unit :=
  self ← get;
  if bool_decide (cn_status self = Revoked) then mret tt else
  next_revision ← lift (prepare_touch self now);
  modify (fun self => commit_touch next_revision now
    (self <| cn_status := Revoked |> <| cn_revoked_at := Some now |> <| cn_granted_scopes := ∅ |>)).

(** ** Snapshots *)
Definition snapshot (self : Connection) : ConnectionSnapshot := {|
  sn_id := cn_id self;
  sn_tenant_id := cn_tenant_id self;
  sn_project_id := cn_project_id self;
  sn_provider := cn_provider self;
  sn_account_id := cn_account_id self;
  sn_expected_external_account_id := cn_expected_external_account_id self;
  sn_required_scopes := cn_required_scopes self;
  sn_granted_scopes := cn_granted_scopes self;
  sn_status := cn_status self;
  sn_last_probe := cn_last_probe self;
  sn_revoked_at := cn_revoked_at self;
  sn_revision := cn_revision self;
  sn_created_at := cn_created_at self;
  sn_updated_at := cn_updated_at self;
|}.

Definition valid_probe_snapshot (probe : ConnectionProbe) (updated_at : DateTime) : bool :=
  negb (trim_is_empty (pb_observed_external_account_id probe))
  && negb (set_any trim_is_empty (pb_granted_scopes probe))
  && bool_decide (pb_granted_scopes probe = normalize_scopes (btree_iter (pb_granted_scopes probe)))
  && is_sha256 (pb_evidence_digest probe)
  && (pb_probed_at probe <=? updated_at)
  && (pb_probed_at probe <=? pb_valid_until probe)
  && (pb_probed_at probe <=? pb_credential_expires_at probe).

Definition snapshot_state_is_consistent (snapshot : ConnectionSnapshot) : bool :=
  match sn_status snapshot with
  | PendingAuth | Probing => is_none (sn_revoked_at snapshot)
  | Connected => is_some_and (fun probe =>
      bool_decide (pb_outcome probe = Successful)
      && bool_decide (pb_observed_external_account_id probe = sn_expected_external_account_id snapshot)
      && bool_decide (sn_granted_scopes snapshot = pb_granted_scopes probe)
      && is_subset (sn_required_scopes snapshot) (pb_granted_scopes probe)
      && (sn_updated_at snapshot <? pb_valid_until probe)
      && (sn_updated_at snapshot <? pb_credential_expires_at probe)
      && is_none (sn_revoked_at snapshot)) (sn_last_probe snapshot)
  | Degraded => is_some_and (fun probe =>
      bool_decide (pb_outcome probe = ProviderUnavailable)
      && bool_decide (pb_observed_external_account_id probe = sn_expected_external_account_id snapshot)
      && bool_decide (sn_granted_scopes snapshot = pb_granted_scopes probe)
      && is_subset (sn_required_scopes snapshot) (pb_granted_scopes probe)
      && is_none (sn_revoked_at snapshot)) (sn_last_probe snapshot)
  | WrongAccount => is_some_and (fun probe =>
      negb (bool_decide (pb_observed_external_account_id probe = sn_expected_external_account_id snapshot))
      && bool_decide (sn_granted_scopes snapshot = pb_granted_scopes probe)
      && is_none (sn_revoked_at snapshot)) (sn_last_probe snapshot)
  | MissingScopes => is_some_and (fun probe =>
      bool_decide (pb_observed_external_account_id probe = sn_expected_external_account_id snapshot)
      && negb (is_subset (sn_required_scopes snapshot) (pb_granted_scopes probe))
      && bool_decide (sn_granted_scopes snapshot = pb_granted_scopes probe)
      && is_none (sn_revoked_at snapshot)) (sn_last_probe snapshot)
  | Revoked => is_some (sn_revoked_at snapshot) && set_is_empty (sn_granted_scopes snapshot)
  | CnExpired => false
  end.

Definition restore (snapshot : ConnectionSnapshot) : result ConnectionError Connection :=
  let normalized_required_scopes := normalize_scopes (btree_iter (sn_required_scopes snapshot)) in
  let normalized_granted_scopes := normalize_scopes (btree_iter (sn_granted_scopes snapshot)) in
  reject_if (trim_is_empty (sn_id snapshot)
    || trim_is_empty (sn_tenant_id snapshot)
    || trim_is_empty (sn_project_id snapshot)
    || trim_is_empty (sn_provider snapshot)
    || trim_is_empty (sn_account_id snapshot)
    || trim_is_empty (sn_expected_external_account_id snapshot)
    || set_is_empty (sn_required_scopes snapshot)
    || (sn_revision snapshot =? 0)
    || (sn_updated_at snapshot <? sn_created_at snapshot)
    || negb (bool_decide (normalized_required_scopes = sn_required_scopes snapshot))
    || negb (bool_decide (normalized_granted_scopes = sn_granted_scopes snapshot))
    || is_some_and (fun probe => negb (valid_probe_snapshot probe (sn_updated_at snapshot)))
         (sn_last_probe snapshot)) InvalidSnapshot;;
  reject_if (negb (snapshot_state_is_consistent snapshot)) InvalidSnapshot;;
  mret {|
    cn_id := sn_id snapshot;
    cn_tenant_id := sn_tenant_id snapshot;
    cn_project_id := sn_project_id snapshot;
    cn_provider := sn_provider snapshot;
    cn_account_id := sn_account_id snapshot;
    cn_expected_external_account_id := sn_expected_external_account_id snapshot;
    cn_required_scopes := normalized_required_scopes;
    cn_granted_scopes := normalized_granted_scopes;
    cn_status := sn_status snapshot;
    cn_last_probe := sn_last_probe snapshot;
    cn_revoked_at := sn_revoked_at snapshot;
    cn_revision := sn_revision snapshot;
    cn_created_at := sn_created_at snapshot;
    cn_updated_at := sn_updated_at snapshot;
  |}.

(** [ConnectionSnapshot::validate] *)
Definition snapshot_validate (self : ConnectionSnapshot) : result ConnectionError unit :=
  restore self;; mret tt.

Definition is_initial_snapshot (self : ConnectionSnapshot) : result ConnectionError bool :=
  snapshot_validate self;;
  mret (bool_decide (sn_status self = PendingAuth)
    && set_is_empty (sn_granted_scopes self)
    && is_none (sn_last_probe self)
    && is_none (sn_revoked_at self)
    && (sn_revision self =? 1)
    && (sn_created_at self =? sn_updated_at self)).

(** Running [op] on the previous connection leaves exactly this snapshot. *)
Definition produces {A} (op : connection_op A) (previous : Connection) (self : ConnectionSnapshot) : bool :=
  let '(outcome, candidate) := run op previous in
  is_ok outcome && bool_decide (snapshot candidate = self).

(** [ConnectionSnapshot::follows] *)
Definition snapshot_follows (self previous : ConnectionSnapshot) : result ConnectionError bool :=
  snapshot_validate self;;
  snapshot_validate previous;;
  let immutable_scope_matches :=
    bool_decide (sn_id self = sn_id previous)
    && bool_decide (sn_tenant_id self = sn_tenant_id previous)
    && bool_decide (sn_project_id self = sn_project_id previous)
    && bool_decide (sn_provider self = sn_provider previous)
    && bool_decide (sn_account_id self = sn_account_id previous)
    && bool_decide (sn_expected_external_account_id self = sn_expected_external_account_id previous)
    && bool_decide (sn_required_scopes self = sn_required_scopes previous)
    && (sn_created_at self =? sn_created_at previous)
    && bool_decide (checked_add u64_max (sn_revision previous) 1 = Some (sn_revision self))
    && (sn_updated_at previous <=? sn_updated_at self) in
  if negb immutable_scope_matches then mret false else
  previous_connection ← restore previous;
  mret (produces (begin_probe (sn_updated_at self)) previous_connection self
    || is_some_and (fun probe => produces (apply_probe probe (sn_updated_at self)) previous_connection self)
         (sn_last_probe self)
    || produces (revoke (sn_updated_at self)) previous_connection self).
