(* ===== verification/ConnectionSafety.v ===== *)
(** * What a connection guarantees

    Over every sequence of probes and revocations: a connection grants scopes
    only on the strength of a current successful probe of the expected
    account, revocation is final, and what is persisted can be restored and is
    accepted as the successor of what was stored before. *)
From S2P Require Import Prelude Text Connection.
Import Prelude.Fixture.

(** ** Normalised scopes *)
Lemma elem_of_normalize x values :
  x ∈ normalize_scopes values <-> x <> "" /\ exists v, v ∈ values /\ x = trim v.
Proof.
  unfold normalize_scopes. rewrite elem_of_list_to_set, list_elem_of_In, filter_In, <-list_elem_of_In, list_elem_of_fmap.
  rewrite negb_true_iff, String.eqb_neq. naive_solver.
Qed.

Lemma normalize_idem values : normalize_scopes (btree_iter (normalize_scopes values)) = normalize_scopes values.
Proof.
  apply set_eq. intros x. rewrite elem_of_normalize. setoid_rewrite elem_of_btree_iter. setoid_rewrite elem_of_normalize.
  split.
  - intros (Hx & v & (_ & w & Hw & ->) & ->). rewrite trim_idem in *. naive_solver.
  - intros (Hx & v & Hv & ->). split; [done|]. exists (trim v). rewrite trim_idem. naive_solver.
Qed.

Lemma normalized_not_blank values : set_any trim_is_empty (normalize_scopes values) = false.
Proof.
  apply set_any_false. intros x (Hx & v & _ & ->)%elem_of_normalize. rewrite trim_blank. by apply String.eqb_neq.
Qed.

Lemma normalize_probe_idem probe : normalize_probe (normalize_probe probe) = normalize_probe probe.
Proof. destruct probe. unfold normalize_probe. cbn. f_equal; [apply trim_idem|apply normalize_idem]. Qed.

(** ** Calls *)
Inductive ConnectionCall : Type :=
| CallBeginProbe (now : DateTime)
| CallApplyProbe (probe : ConnectionProbe) (now : DateTime)
| CallRevoke (now : DateTime).

Definition connection_call (c : ConnectionCall) : SR Connection ConnectionError unit :=
  match c with
  | CallBeginProbe now => begin_probe now
  | CallApplyProbe probe now => apply_probe probe now;; mret tt
  | CallRevoke now => revoke now
  end.

(** A failing call leaves the connection as it was, so a run goes on. *)
Fixpoint connection_run (cs : list ConnectionCall) (c : Connection) : Connection :=
  match cs with [] => c | call :: cs => connection_run cs (run (connection_call call) c).2 end.

Definition registered (c : Connection) : Prop :=
  exists id tenant project provider account expected scopes now,
    register id tenant project provider account expected scopes now = Ok c.

(** The connection after an accepted probe, and after a revocation. *)
Definition touched (now : DateTime) (c : Connection) : Connection := commit_touch (cn_revision c + 1) now c.
Definition revoked_state (now : DateTime) (c : Connection) : Connection :=
  c <| cn_status := Revoked |> <| cn_revoked_at := Some now |> <| cn_granted_scopes := ∅ |>.
Definition probed_state (probe : ConnectionProbe) (now : DateTime) (c : Connection) : Connection :=
  if bool_decide (probed_status c probe = Revoked)
  then revoked_state now c <| cn_last_probe := Some probe |>
  else c <| cn_granted_scopes := pb_granted_scopes probe |> <| cn_status := probed_status c probe |>
         <| cn_last_probe := Some probe |>.

Inductive connection_step (c : Connection) : ConnectionCall -> Connection -> Prop :=
| step_begin now : cn_status c <> Revoked -> cn_status c <> Probing -> cn_updated_at c <= now ->
    cn_revision c < u64_max ->
    connection_step c (CallBeginProbe now) (touched now (c <| cn_status := Probing |>))
| step_apply probe now : cn_status c = Probing -> cn_updated_at c <= now -> cn_revision c < u64_max ->
    probe_is_invalid (normalize_probe probe) now = false ->
    connection_step c (CallApplyProbe probe now) (touched now (probed_state (normalize_probe probe) now c))
| step_revoke now : cn_status c <> Revoked -> cn_updated_at c <= now -> cn_revision c < u64_max ->
    connection_step c (CallRevoke now) (touched now (revoked_state now c)).

Lemma prepare_touch_Ok c now r : prepare_touch c now = Ok r <-> r = cn_revision c + 1 /\ cn_updated_at c <= now /\ cn_revision c < u64_max.
Proof.
  unfold prepare_touch. split.
  - intros Hr. inv_ok. split_guards. match goal with Hx : checked_add _ _ _ = Some _ |- _ => apply checked_add_Some in Hx end. lia.
  - intros (-> & Hn & Hr). rewrite (proj2 (Z.ltb_ge _ _)) by done. cbn. unfold checked_add.
    by rewrite (proj2 (Z.leb_le _ _)) by lia.
Qed.

Lemma begin_probe_run c now t :
  run (begin_probe now) c = (Ok tt, t) <-> connection_step c (CallBeginProbe now) t.
Proof.
  unfold begin_probe. split.
  - intros Hr. inv_run. split_guards. match goal with Hx : prepare_touch _ _ = Ok _ |- _ => apply prepare_touch_Ok in Hx as (-> & ? & ?) end.
    by constructor.
  - inversion 1; subst. cbn. rewrite !bool_decide_false by done. cbn.
    rewrite (proj2 (prepare_touch_Ok c now (cn_revision c + 1))) by done. done.
Qed.

(** The updates of [apply_probe], one after the other, are [probed_state]. *)
Lemma probed_state_updates probe now c :
  let c1 := c <| cn_granted_scopes := pb_granted_scopes probe |> in
  let c2 := c1 <| cn_status := probed_status c1 probe |> in
  let c3 := if bool_decide (cn_status c2 = Revoked)
            then c2 <| cn_revoked_at := Some now |> <| cn_granted_scopes := ∅ |> else c2 in
  commit_touch (cn_revision c + 1) now (c3 <| cn_last_probe := Some probe |>) = touched now (probed_state probe now c).
Proof.
  cbn zeta. unfold touched, probed_state.
  change (probed_status (c <| cn_granted_scopes := pb_granted_scopes probe |>) probe) with (probed_status c probe).
  change (cn_status (_ <| cn_status := probed_status c probe |>)) with (probed_status c probe).
  case_bool_decide as Hs; [rewrite Hs|]; reflexivity.
Qed.

Lemma apply_probe_run c probe now t st :
  run (apply_probe probe now) c = (Ok st, t) <->
  connection_step c (CallApplyProbe probe now) t /\ st = effective_status t now.
Proof.
  unfold apply_probe. split.
  - intros Hr. inv_run. split_guards.
    match goal with Hx : prepare_touch _ _ = Ok _ |- _ => apply prepare_touch_Ok in Hx as (-> & ? & ?) end.
    split; [|done]. pose proof (probed_state_updates (normalize_probe probe) now c) as He. cbn zeta in He. rewrite He.
    by constructor.
  - intros [Hs ->]. inversion Hs; subst. rewrite <-probed_state_updates. rewrite run_get_bind.
    rewrite (run_known_bind (reject _ _) _ c tt c) by (cbn; by rewrite bool_decide_false by congruence).
    rewrite (run_known_bind (reject _ _) _ c tt c) by (cbn; by rewrite bool_decide_true).
    rewrite (run_known_bind (reject _ _) _ c tt c) by (cbn [reject lift run]; by match goal with Hx : probe_is_invalid _ _ = false |- _ => rewrite Hx end).
    rewrite (run_known_bind (lift _) _ c (cn_revision c + 1) c) by (cbn [lift run]; by rewrite (proj2 (prepare_touch_Ok c now (cn_revision c + 1)))).
    reflexivity.
Qed.

Lemma revoke_run c now t :
  run (revoke now) c = (Ok tt, t) <->
  (cn_status c = Revoked /\ t = c) \/ connection_step c (CallRevoke now) t.
Proof.
  unfold revoke. rewrite run_get_bind. case_bool_decide as Hs; split.
  - intros Hr. inv_run. by left.
  - intros [[_ ->]|Hx]; [done|]. by inversion Hx.
  - intros Hr. inv_run. match goal with Hx : prepare_touch _ _ = Ok _ |- _ => apply prepare_touch_Ok in Hx as (-> & ? & ?) end.
    right. by constructor.
  - intros [[? _]|Hx]; [done|]. inversion Hx; subst.
    rewrite (run_known_bind (lift _) _ c (cn_revision c + 1) c) by (cbn [lift run]; by rewrite (proj2 (prepare_touch_Ok c now (cn_revision c + 1)))).
    reflexivity.
Qed.

#[export] Instance begin_probe_atomic now : Atomic (begin_probe now).
Proof. unfold begin_probe. apply _. Qed.
#[export] Instance revoke_atomic now : Atomic (revoke now).
Proof. unfold revoke. apply _. Qed.

#[export] Instance apply_probe_atomic probe now : Atomic (apply_probe probe now).
Proof.
  unfold apply_probe. repeat (apply bind_atomic; [apply _|intros ?]). intros s Hf. discriminate Hf.
Qed.
#[export] Instance connection_call_atomic call : Atomic (connection_call call).
Proof.
  destruct call as [now|probe now|now]; cbn [connection_call]; [apply _| |apply _].
  intros c. pose proof (atomic (m:=apply_probe probe now) c) as Ha. unfold mbind, SR_mbind. cbn [run].
  by destruct (run (apply_probe probe now) c) as [[st|e|] t].
Qed.

(** Every call takes one of these steps or changes nothing. *)
Lemma connection_call_step c call :
  (run (connection_call call) c).2 = c \/ connection_step c call (run (connection_call call) c).2.
Proof.
  pose proof (atomic (m:=connection_call call) c) as Ha.
  destruct (run (connection_call call) c) as [[[]|e|] t] eqn:Hr; [|left; by apply Ha..].
  destruct call as [now|probe now|now]; cbn [connection_call] in Hr; cbn.
  - right. by apply begin_probe_run.
  - right. apply run_bind_Ok in Hr as (st & c1 & Hr & Hm). inv_run. by apply apply_probe_run in Hr as [Hs _].
  - apply revoke_run in Hr as [[_ ->]|Hs]; [by left|by right].
Qed.

(** ** Consistency *)
Definition consistent (c : Connection) : Prop := snapshot_state_is_consistent (snapshot c) = true.

Lemma consistent_not_revoked c : consistent c -> cn_status c <> Revoked -> cn_revoked_at c = None.
Proof.
  unfold consistent, snapshot_state_is_consistent. cbn. intros Hc Hs.
  destruct (cn_status c); try done; destruct (cn_last_probe c) as [p|]; cbn in Hc; try done; split_guards; by destruct (cn_revoked_at c).
Qed.

Lemma probe_valid_later probe now :
  probe_is_invalid probe now = false -> pb_outcome probe = Successful ->
  now < pb_valid_until probe /\ now < pb_credential_expires_at probe.
Proof.
  unfold probe_is_invalid. intros Hp Ho. rewrite (bool_decide_true _ Ho) in Hp. cbn in Hp. split_guards. lia.
Qed.

(** The status [apply_probe] sets fits the probe it stores. *)
Lemma probed_consistent c q now c' :
  probed_status c q <> Revoked -> probe_is_invalid q now = false ->
  cn_status c' = probed_status c q -> cn_last_probe c' = Some q -> cn_granted_scopes c' = pb_granted_scopes q ->
  cn_required_scopes c' = cn_required_scopes c ->
  cn_expected_external_account_id c' = cn_expected_external_account_id c ->
  cn_revoked_at c' = None -> cn_updated_at c' = now -> consistent c'.
Proof.
  intros Hs Hok E1 E2 E3 E4 E5 E6 E7. pose proof (probe_valid_later _ _ Hok) as Hlater.
  unfold consistent, snapshot_state_is_consistent. cbn. rewrite E1, E2, E3, E4, E5, E6, E7. unfold probed_status in *. cbn.
  rewrite (bool_decide_true (pb_granted_scopes q = pb_granted_scopes q)) by done.
  destruct (bool_decide (pb_outcome q = AuthorizationRevoked)); [done|].
  destruct (bool_decide (pb_observed_external_account_id q = _)) eqn:Ha; cbn; [|done].
  destruct (is_subset _ _) eqn:Hsub; cbn; [|done].
  destruct (pb_outcome q) eqn:Ho; cbn; rewrite ?Ho, ?Ha, ?Hsub; cbn; try done.
  destruct Hlater as [H1 H2]; [done|]. by rewrite (proj2 (Z.ltb_lt _ _) H1), (proj2 (Z.ltb_lt _ _) H2).
Qed.

Lemma step_consistent c call c' : connection_step c call c' -> consistent c -> consistent c'.
Proof.
  intros Hs Hc. destruct Hs as [now Hr Hp Hn Hv|probe now Hp Hn Hv Hok|now Hr Hn Hv].
  - pose proof (consistent_not_revoked c Hc Hr) as Hrev. unfold consistent, snapshot_state_is_consistent. cbn. by rewrite Hrev.
  - pose proof (consistent_not_revoked c Hc ltac:(congruence)) as Hrev.
    unfold touched, probed_state. case_bool_decide as Hs; [done|].
    by apply (probed_consistent c (normalize_probe probe) now).
  - done.
Qed.

Lemma registered_consistent c : registered c -> consistent c.
Proof. intros (id & te & pr & pv & ac & ex & sc & now & Hr). unfold register in Hr. inv_ok. done. Qed.

Lemma connection_run_invariant (I : Connection -> Prop) (P : ConnectionCall -> Prop) cs c :
  (forall c call c', P call -> connection_step c call c' -> I c -> I c') -> Forall P cs -> I c -> I (connection_run cs c).
Proof.
  intros Hstep HP. revert c. induction HP as [|call cs Hc HP IH]; intros c Hi; [done|]. cbn. apply IH.
  destruct (connection_call_step c call) as [->|Hs]; [done|by eapply Hstep].
Qed.

(** C18: a connection that permits scopes is backed by a live probe. Whatever
    calls were made since it was registered, when the connection permits some
    scopes at an instant, it holds a successful probe of exactly the expected
    external account that granted those and all required scopes and is still
    valid then, with credentials that have not expired; and it has not been
    revoked. *)
Theorem permitted_scopes_are_backed c0 cs scopes now :
  registered c0 -> permits_scopes (connection_run cs c0) scopes now = true ->
  let c := connection_run cs c0 in
  cn_revoked_at c = None /\ exists probe, cn_last_probe c = Some probe /\ pb_outcome probe = Successful /\
    pb_observed_external_account_id probe = cn_expected_external_account_id c /\
    scopes ⊆ pb_granted_scopes probe /\ cn_required_scopes c ⊆ pb_granted_scopes probe /\
    now < pb_valid_until probe /\ now < pb_credential_expires_at probe.
Proof.
  intros Hreg Hp. assert (consistent (connection_run cs c0)) as Hc.
  { apply (connection_run_invariant consistent (fun _ => True)); [|by apply Forall_true|by apply registered_consistent].
    intros c call c' _. apply step_consistent. }
  cbn zeta. set (c := connection_run cs c0) in *. clearbody c.
  unfold permits_scopes, is_connected, effective_status in Hp. apply andb_prop in Hp as [Hconn Hsub].
  unfold consistent, snapshot_state_is_consistent in Hc. cbn in Hc.
  destruct (bool_decide (cn_status c = Connected) && _) eqn:Hexp; apply bool_decide_eq_true in Hconn; [done|].
  rewrite Hconn, (bool_decide_true (Connected = Connected)) in * by done. cbn in Hexp, Hc.
  destruct (cn_last_probe c) as [probe|]; cbn in *; [|done]. unfold is_subset, is_none, is_some in *. split_guards.
  split; [by destruct (cn_revoked_at c)|]. exists probe. split_and!; try done; try lia. set_solver.
Qed.

(** ** Revocation *)
Lemma revoked_call c call : cn_status c = Revoked -> (run (connection_call call) c).2 = c.
Proof.
  intros Hs. destruct (connection_call_step c call) as [|Hstep]; [done|].
  inversion Hstep; subst; congruence.
Qed.

(** Revocation is final. A revoked connection is never connected, permits
    nothing, and no sequence of calls changes it in any way. *)
Theorem revoked_connection_is_final c cs scopes now :
  cn_status c = Revoked -> connection_run cs c = c /\ permits_scopes (connection_run cs c) scopes now = false.
Proof.
  intros Hs. assert (connection_run cs c = c) as ->.
  { induction cs as [|call cs IH]; [done|]. cbn. by rewrite revoked_call. }
  split; [done|]. unfold permits_scopes, is_connected, effective_status. by rewrite Hs.
Qed.

(** ** Restoring a snapshot *)
Definition timely (probe : ConnectionProbe) : Prop :=
  pb_probed_at probe <= pb_valid_until probe /\ pb_probed_at probe <= pb_credential_expires_at probe.
(** A probe that was not successful names an expiry no earlier than itself. *)
Definition timely_call (call : ConnectionCall) : Prop :=
  match call with CallApplyProbe probe _ => pb_outcome probe <> Successful -> timely probe | _ => True end.

Record restorable (c : Connection) : Prop := {
  rs_ids : trim_is_empty (cn_id c) = false /\ trim_is_empty (cn_tenant_id c) = false /\
    trim_is_empty (cn_project_id c) = false /\ trim_is_empty (cn_provider c) = false /\
    trim_is_empty (cn_account_id c) = false /\ trim_is_empty (cn_expected_external_account_id c) = false;
  rs_required : cn_required_scopes c <> ∅ /\ normalize_scopes (btree_iter (cn_required_scopes c)) = cn_required_scopes c;
  rs_granted : normalize_scopes (btree_iter (cn_granted_scopes c)) = cn_granted_scopes c;
  rs_revision : 0 < cn_revision c;
  rs_clock : cn_created_at c <= cn_updated_at c;
  rs_probe probe : cn_last_probe c = Some probe -> valid_probe_snapshot probe (cn_updated_at c) = true;
  rs_consistent : consistent c;
}.

Lemma restore_snapshot c : restorable c -> restore (snapshot c) = Ok c.
Proof.
  intros [(H1 & H2 & H3 & H4 & H5 & H6) [H7 H8] H9 H10 H11 H12 H13]. unfold restore.
  cbn -[trim_is_empty normalize_scopes set_is_empty valid_probe_snapshot snapshot_state_is_consistent btree_iter].
  rewrite H1, H2, H3, H4, H5, H6, H8, H9, !bool_decide_true by done. unfold set_is_empty. rewrite bool_decide_false by done.
  rewrite (proj2 (Z.eqb_neq _ _)), (proj2 (Z.ltb_ge _ _)) by lia.
  rewrite (proj2 (is_some_and_false _ _)) by (intros p Hp; by rewrite (H12 p Hp)).
  unfold consistent in H13. cbn [negb orb reject_if mbind result_mbind]. rewrite H13. by destruct c.
Qed.

Lemma normalize_empty : normalize_scopes (btree_iter ∅) = ∅.
Proof. by vm_compute. Qed.

Lemma valid_probe_mono probe t t' : t <= t' -> valid_probe_snapshot probe t = true -> valid_probe_snapshot probe t' = true.
Proof.
  intros Ht. unfold valid_probe_snapshot. intros [[[Hx Hp]%andb_prop Hv]%andb_prop Hc]%andb_prop.
  rewrite Hx, Hv, Hc. cbn. lia.
Qed.

Lemma normalized_probe_valid probe now :
  probe_is_invalid (normalize_probe probe) now = false -> (pb_outcome probe <> Successful -> timely probe) ->
  valid_probe_snapshot (normalize_probe probe) now = true.
Proof.
  intros Hok Ht. assert (timely probe) as [Hv Hc].
  { destruct (decide (pb_outcome probe = Successful)) as [Ho|Ho]; [|by apply Ht].
    destruct (probe_valid_later _ _ Hok Ho) as [Hv Hc]. unfold probe_is_invalid in Hok. split_guards.
    unfold timely. cbn in *. lia. }
  unfold probe_is_invalid in Hok. split_guards. unfold valid_probe_snapshot, normalize_probe in *.
  cbn -[trim_is_empty normalize_scopes trim String.eqb btree_iter is_sha256] in *.
  rewrite trim_blank, normalized_not_blank, normalize_idem, bool_decide_true by done.
  repeat match goal with Hx : ?b = _ |- context [?b] => rewrite Hx end. cbn.
  rewrite !andb_true_iff, !Z.leb_le. lia.
Qed.

Lemma registered_restorable c : registered c -> restorable c.
Proof.
  intros Hreg. pose proof (registered_consistent c Hreg) as Hc.
  destruct Hreg as (id & te & pr & pv & ac & ex & sc & now & Hr). unfold register in Hr. inv_ok. split_guards.
  unfold set_is_empty in *. split_guards. split; cbn -[trim_is_empty trim normalize_scopes btree_iter]; try done.
  - rewrite !trim_blank. by split_and!.
  - split; [done|apply normalize_idem].
Qed.

Lemma step_restorable c call c' : timely_call call -> connection_step c call c' -> restorable c -> restorable c'.
Proof.
  intros Ht Hs Hr. pose proof (step_consistent _ _ _ Hs (rs_consistent _ Hr)) as Hc'.
  destruct Hr as [H1 H2 H3 H4 H5 H6 _]. destruct Hs as [now Hrv Hp Hn Hv|probe now Hp Hn Hv Hok|now Hrv Hn Hv].
  - split; try done; [cbn; lia|cbn; lia|]. intros p Hlp. eapply valid_probe_mono; [exact Hn|]. by apply H6.
  - pose proof (normalized_probe_valid probe now Hok Ht) as Hvp.
    unfold touched, probed_state, revoked_state in *. case_bool_decide as Hst.
    + split; try done; [cbn; lia|cbn; lia|]. by intros p [= <-].
    + split; try done; [|cbn; lia|cbn; lia|by intros p [= <-]].
      apply normalize_idem.
  - split; try done; [cbn; lia|cbn; lia|]. intros p Hlp. eapply valid_probe_mono; [exact Hn|]. by apply H6.
Qed.

Lemma timely_restorable c0 cs : registered c0 -> Forall timely_call cs -> restorable (connection_run cs c0).
Proof.
  intros Hreg Ht. apply (connection_run_invariant restorable timely_call); [|done|by apply registered_restorable].
  intros c call c' Hc Hs. by eapply step_restorable.
Qed.

(** A persisted connection is restored as it was. If every unsuccessful
    probe names expiries no earlier than the probe itself, then after any
    sequence of calls the snapshot of the connection passes validation and
    restoring it gives back exactly the connection. *)
Theorem connection_restores c0 cs :
  registered c0 -> Forall timely_call cs ->
  restore (snapshot (connection_run cs c0)) = Ok (connection_run cs c0).
Proof. intros Hreg Ht. by apply restore_snapshot, timely_restorable. Qed.

(** ** Appending a snapshot *)
Lemma produces_run {A} (op : SR Connection ConnectionError A) c c' a :
  run op c = (Ok a, c') -> produces op c (snapshot c') = true.
Proof. unfold produces. intros ->. cbn. by rewrite bool_decide_true. Qed.

Lemma step_updated c call c' : connection_step c call c' ->
  cn_updated_at c <= cn_updated_at c' /\ cn_revision c' = cn_revision c + 1 /\ cn_revision c < u64_max /\
  (cn_id c', cn_tenant_id c', cn_project_id c', cn_provider c', cn_account_id c',
   cn_expected_external_account_id c', cn_required_scopes c', cn_created_at c') =
  (cn_id c, cn_tenant_id c, cn_project_id c, cn_provider c, cn_account_id c,
   cn_expected_external_account_id c, cn_required_scopes c, cn_created_at c).
Proof.
  destruct 1; unfold touched, probed_state, revoked_state; [done| |done]. by case_bool_decide.
Qed.

Lemma step_produces c call c' : connection_step c call c' ->
  let now := cn_updated_at c' in
  produces (begin_probe now) c (snapshot c')
  || is_some_and (fun probe => produces (apply_probe probe now) c (snapshot c')) (cn_last_probe c')
  || produces (revoke now) c (snapshot c') = true.
Proof.
  intros Hs. cbn zeta. rewrite !orb_true_iff. pose proof Hs as Hs'.
  destruct Hs as [now|probe now Hp Hn Hv Hok|now]; change (cn_updated_at (touched now _)) with now.
  - left; left. eapply produces_run. by apply begin_probe_run.
  - left; right. set (c' := touched _ _) in *.
    assert (cn_last_probe c' = Some (normalize_probe probe)) as ->
      by (unfold c', touched, probed_state; by case_bool_decide).
    eapply produces_run, apply_probe_run. split; [|done]. rewrite <-normalize_probe_idem in Hok.
    pose proof (step_apply c (normalize_probe probe) now Hp Hn Hv Hok) as Hstep. by rewrite normalize_probe_idem in Hstep.
  - right. eapply produces_run, revoke_run. by right.
Qed.

(** Every change of a connection is a change storage accepts. If
    unsuccessful probes are timely, each call either leaves the connection as
    it was or leads to a snapshot that validates and [follows] the one before
    it. *)
Theorem connection_changes_follow c0 cs call :
  registered c0 -> Forall timely_call cs -> timely_call call ->
  let c := connection_run cs c0 in let c' := (run (connection_call call) c).2 in
  c' = c \/ snapshot_follows (snapshot c') (snapshot c) = Ok true.
Proof.
  intros Hreg Ht Hcall. cbn zeta. pose proof (timely_restorable _ _ Hreg Ht) as Hr. set (c := connection_run cs c0) in *. clearbody c.
  destruct (connection_call_step c call) as [|Hs]; [by left|right]. set (c' := (run (connection_call call) c).2) in *. clearbody c'.
  pose proof (restore_snapshot _ Hr) as R. pose proof (restore_snapshot _ (step_restorable _ _ _ Hcall Hs Hr)) as R'.
  unfold snapshot_follows, snapshot_validate. rewrite R, R'. cbn [mbind result_mbind mret result_mret].
  destruct (step_updated _ _ _ Hs) as (Hup & Hrev & Hmax & [= E1 E2 E3 E4 E5 E6 E7 E8]).
  cbn [snapshot sn_id sn_tenant_id sn_project_id sn_provider sn_account_id sn_expected_external_account_id
    sn_required_scopes sn_created_at sn_revision sn_updated_at sn_last_probe].
  rewrite E1, E2, E3, E4, E5, E6, E7, E8, Hrev, Z.eqb_refl, !(bool_decide_true (_ = _)), (proj2 (Z.leb_le _ _) Hup) by
    (done || unfold checked_add; by rewrite (proj2 (Z.leb_le _ _)) by lia).
  cbn [andb negb]. do 2 f_equal. exact (step_produces _ _ _ Hs).
Qed.

(** ** A concrete connection *)
Module Link.
Definition fresh : Connection :=
  match register "connection" "tenant" "project" " search " "account" "owner@example.com" ["read "; "write"] 100 with
  | Ok c => c
  | _ => mkConnection "" "" "" "" "" "" ∅ ∅ PendingAuth None None 0 0 0
  end.
Definition probe (outcome : ProbeOutcome) (valid_until : DateTime) : ConnectionProbe :=
  mkProbe outcome "owner@example.com " {["read"; "write"; " extra"]} 110 valid_until 500 zeros64.
Definition connecting : list ConnectionCall := [CallBeginProbe 110; CallApplyProbe (probe Successful 300) 120].
Definition connected : Connection := connection_run connecting fresh.
(** A probe the provider rejected, with an expiry before the probe. *)
Definition rejecting : list ConnectionCall := [CallBeginProbe 110; CallApplyProbe (probe PoRejected 50) 120].

Lemma fresh_registered : registered fresh.
Proof. exists "connection", "tenant", "project", " search ", "account", "owner@example.com", ["read "; "write"], 100. by vm_compute. Qed.
Lemma connecting_timely : Forall timely_call connecting.
Proof. apply Forall_cons. split; [exact I|]. apply Forall_singleton. intros Hx. by destruct Hx. Qed.
Example connects : cn_status connected = Connected /\ permits_scopes connected {["extra"]} 299 = true /\
  permits_scopes connected {["extra"]} 300 = false.
Proof. by vm_compute. Qed.
End Link.

Lemma permitted_scopes_are_backed_witness : cn_revoked_at Link.connected = None.
Proof.
  refine (proj1 (permitted_scopes_are_backed Link.fresh Link.connecting {["extra"]} 299 Link.fresh_registered _)).
  by vm_compute.
Defined.

Lemma revoked_connection_is_final_witness :
  let gone := connection_run [CallRevoke 200] Link.connected in
  connection_run [CallBeginProbe 210] gone = gone.
Proof.
  refine (proj1 (revoked_connection_is_final (connection_run [CallRevoke 200] Link.connected) [CallBeginProbe 210] ∅ 0 _)).
  by vm_compute.
Defined.

Lemma connection_restores_witness : restore (snapshot Link.connected) = Ok Link.connected.
Proof.
  refine (connection_restores Link.fresh Link.connecting Link.fresh_registered Link.connecting_timely).
Defined.

Lemma connection_changes_follow_witness :
  let next := (run (connection_call (CallRevoke 200)) Link.connected).2 in
  next = Link.connected \/ snapshot_follows (snapshot next) (snapshot Link.connected) = Ok true.
Proof.
  refine (connection_changes_follow Link.fresh Link.connecting (CallRevoke 200) Link.fresh_registered Link.connecting_timely I).
Defined.

(** A probe that was not successful may carry an expiry before the probe
    itself: [apply_probe] accepts it, and the connection it leaves no longer
    passes the validation of its own snapshot. *)
Theorem untimely_probe_breaks_restore :
  let c := connection_run Link.rejecting Link.fresh in
  cn_revision c = 3 /\ cn_status c = PendingAuth /\ restore (snapshot c) = Err InvalidSnapshot.
Proof. by vm_compute. Qed.
