(* ===== verification/Deletion.v ===== *)
(** * Deletion of project objects

    Models [domain-kernel/src/deletion.rs]: the tombstone that authorises a
    deletion, the receipts of the workers that purge a surface, and the record
    that collects the evidence of every surface until the deletion is
    complete. *)
From S2P Require Import Prelude.

(** ** Surfaces *)
Inductive DeletionSurface : Type :=
| LocalProjection | EncryptedCell | ContextDerived | Cache | Replay | ObjectStorage.
#[export] Instance DeletionSurface_eq_dec : EqDecision DeletionSurface.
Proof. solve_decision. Defined.

(** The order of the derived [Ord]. *)
Definition all_surfaces : list DeletionSurface :=
  [LocalProjection; EncryptedCell; ContextDerived; Cache; Replay; ObjectStorage].
Definition surface_index (surface : DeletionSurface) : nat :=
  match surface with
  | LocalProjection => 0 | EncryptedCell => 1 | ContextDerived => 2 | Cache => 3 | Replay => 4
  | ObjectStorage => 5
  end.
#[export] Program Instance DeletionSurface_countable : Countable DeletionSurface :=
  inj_countable surface_index (fun n => all_surfaces !! n) _.
Next Obligation. by intros []. Qed.

(** [DeletionSurface::required] *)
Definition required_surfaces : gset DeletionSurface := list_to_set all_surfaces.

Definition is_worker_managed (self : DeletionSurface) : bool :=
  bool_decide (self ∈ [Cache; Replay; ObjectStorage]).

(** [BTreeMap::values] *)
Definition surface_values {V} (m : gmap DeletionSurface V) : list V := omap (fun s => m !! s) all_surfaces.

Inductive DeletionReason : Type :=
| UserRequest | ProjectDeletion | RetentionExpiry | ConsentWithdrawal | SecurityResponse.
Inductive DeletionRetentionMode : Type := EraseContentRetainAudit.

Inductive DeletionError : Type :=
| InvalidTombstone | InvalidPropagationState | InvalidPropagationTransition | InvalidDeletionRecord
| InvalidPropagationReceipt | DeRevisionOverflow | Serialization.

(** ** Tombstones *)
Record DeletionTombstone : Type := mkTombstone {
  tb_id : Id;
  tb_tenant_id : Id;
  tb_project_id : Id;
  tb_object_id : string;
  tb_object_kind : string;
  tb_prior_object_revision : Z; (* u64 *)
  tb_deletion_generation : Z; (* u64 *)
  tb_reason : DeletionReason;
  tb_authorized_by : Id;
  tb_authorization_evidence_digest : string;
  tb_requested_at : DateTime;
  tb_retention_mode : DeletionRetentionMode;
  tb_required_surfaces : gset DeletionSurface;
  tb_tombstone_digest : string;
  tb_revision : Z; (* u64 *)
}.
#[export] Instance DeletionTombstone_eta : Eta DeletionTombstone := fun t =>
  mkTombstone (tb_id t) (tb_tenant_id t) (tb_project_id t) (tb_object_id t) (tb_object_kind t)
    (tb_prior_object_revision t) (tb_deletion_generation t) (tb_reason t) (tb_authorized_by t)
    (tb_authorization_evidence_digest t) (tb_requested_at t) (tb_retention_mode t)
    (tb_required_surfaces t) (tb_tombstone_digest t) (tb_revision t).

(** ** Receipts *)
Record DeletionPropagationReceipt : Type := mkPropagationReceipt {
  pr_id : Id;
  pr_deletion_id : Id;
  pr_tenant_id : Id;
  pr_project_id : Id;
  pr_object_id : string;
  pr_object_kind : string;
  pr_surface : DeletionSurface;
  pr_deletion_generation : Z; (* u64 *)
  pr_tombstone_digest : string;
  pr_worker_id : Id;
  pr_lease_generation : Z; (* u64 *)
  pr_inventory_digest : string;
  pr_matched_items : Z; (* u64 *)
  pr_deleted_items : Z; (* u64 *)
  pr_residual_items : Z; (* u64 *)
  pr_verification_digest : string;
  pr_completed_at : DateTime;
  pr_receipt_digest : string;
  pr_revision : Z; (* u64 *)
}.
#[export] Instance DeletionPropagationReceipt_eta : Eta DeletionPropagationReceipt := fun r =>
  mkPropagationReceipt (pr_id r) (pr_deletion_id r) (pr_tenant_id r) (pr_project_id r) (pr_object_id r)
    (pr_object_kind r) (pr_surface r) (pr_deletion_generation r) (pr_tombstone_digest r) (pr_worker_id r)
    (pr_lease_generation r) (pr_inventory_digest r) (pr_matched_items r) (pr_deleted_items r)
    (pr_residual_items r) (pr_verification_digest r) (pr_completed_at r) (pr_receipt_digest r) (pr_revision r).

(** The tuples that are hashed: every field of the record but the digest. *)
Definition tombstone_parts (self : DeletionTombstone) :=
  ((tb_id self, tb_tenant_id self, tb_project_id self, tb_object_id self, tb_object_kind self,
    tb_prior_object_revision self, tb_deletion_generation self),
   (tb_reason self, tb_authorized_by self, tb_authorization_evidence_digest self, tb_requested_at self,
    tb_retention_mode self, tb_required_surfaces self, tb_revision self)).
Definition receipt_parts (self : DeletionPropagationReceipt) :=
  ((pr_id self, pr_deletion_id self, pr_tenant_id self, pr_project_id self, pr_object_id self,
    pr_object_kind self, pr_surface self),
   (pr_deletion_generation self, pr_tombstone_digest self, pr_worker_id self, pr_lease_generation self,
    pr_inventory_digest self),
   (pr_matched_items self, pr_deleted_items self, pr_residual_items self, pr_verification_digest self,
    pr_completed_at self, pr_revision self)).

(** [serde_json::to_vec] of those tuples; [None] stands for its error. *)
Class DeletionSerde := {
  json_tombstone :
    (Id * Id * Id * string * string * Z * Z)
    * (DeletionReason * Id * string * DateTime * DeletionRetentionMode * gset DeletionSurface * Z) -> option string;
  json_receipt :
    (Id * Id * Id * Id * string * string * DeletionSurface) * (Z * string * Id * Z * string)
    * (Z * Z * Z * string * DateTime * Z) -> option string;
}.

(** ** Propagation *)
Inductive DeletionPropagationStatus : Type := DpPending | DpApplied | DpNotApplicable | DpBlockedRetention | DpFailed.
#[export] Instance DeletionPropagationStatus_eq_dec : EqDecision DeletionPropagationStatus.
Proof. solve_decision. Defined.

Record DeletionSurfaceState : Type := mkSurfaceState {
  ss_status : DeletionPropagationStatus;
  ss_evidence_digest : option string;
  ss_error_code : option string;
  ss_updated_at : DateTime;
}.

Record DeletionRecord : Type := mkDeletionRecord {
  dl_tombstone : DeletionTombstone;
  dl_remote_object_revision : Z; (* u64 *)
  dl_surfaces : gmap DeletionSurface DeletionSurfaceState;
  dl_revision : Z; (* u64 *)
  dl_created_at : DateTime;
  dl_updated_at : DateTime;
}.
#[export] Instance DeletionRecord_eta : Eta DeletionRecord := fun r =>
  mkDeletionRecord (dl_tombstone r) (dl_remote_object_revision r) (dl_surfaces r) (dl_revision r)
    (dl_created_at r) (dl_updated_at r).

Definition is_settled (status : DeletionPropagationStatus) : bool :=
  bool_decide (status ∈ [DpApplied; DpNotApplicable]).

(** [DeletionSurfaceState::validate] *)
Definition surface_state_validate (self : DeletionSurfaceState) : result DeletionError unit :=
  let evidence_valid := is_none_or is_sha256 (ss_evidence_digest self) in
  let shape_valid :=
    match ss_status self with
    | DpPending => is_none (ss_evidence_digest self) && is_none (ss_error_code self)
    | DpApplied | DpNotApplicable => is_some (ss_evidence_digest self) && is_none (ss_error_code self)
    | DpBlockedRetention | DpFailed => is_some_and (fun code => negb (trim_is_empty code)) (ss_error_code self)
    end in
  reject_if (negb evidence_valid || negb shape_valid) InvalidPropagationState.

Abbreviation surfaces_t := (gmap DeletionSurface DeletionSurfaceState) (only parsing).

Definition set_applied (surfaces : surfaces_t) (surface : DeletionSurface) (evidence_digest : string)
    (now : DateTime) : result DeletionError surfaces_t :=
  reject_if (negb (is_sha256 evidence_digest)) InvalidPropagationState;;
  mret (<[surface := mkSurfaceState DpApplied (Some evidence_digest) None now]> surfaces).

Definition set_not_applicable (surfaces : surfaces_t) (surface : DeletionSurface) (evidence_digest : string)
    (now : DateTime) : result DeletionError surfaces_t :=
  reject_if (negb (is_sha256 evidence_digest)) InvalidPropagationState;;
  mret (<[surface := mkSurfaceState DpNotApplicable (Some evidence_digest) None now]> surfaces).

Definition is_complete (self : DeletionRecord) : bool :=
  forallb (fun state => is_settled (ss_status state)) (surface_values (dl_surfaces self)).

Section deletion.
Context `{Sha256} `{DeletionSerde}.

Definition digest_json (bytes : option string) : result DeletionError string :=
  bytes ← ok_or bytes Serialization; mret (sha256_hex bytes).

(** [DeletionTombstone::compute_digest], [DeletionTombstone::validate] *)
Definition tombstone_digest (self : DeletionTombstone) : result DeletionError string :=
  digest_json (json_tombstone (tombstone_parts self)).

Definition tombstone_validate (self : DeletionTombstone) (now : DateTime) : result DeletionError unit :=
  reject_if (trim_is_empty (tb_id self)
    || trim_is_empty (tb_tenant_id self)
    || trim_is_empty (tb_project_id self)
    || trim_is_empty (tb_object_id self)
    || trim_is_empty (tb_object_kind self)
    || (tb_prior_object_revision self =? 0)
    || (tb_deletion_generation self =? 0)
    || trim_is_empty (tb_authorized_by self)
    || negb (is_sha256 (tb_authorization_evidence_digest self))
    || (now <? tb_requested_at self)
    || negb (bool_decide (tb_required_surfaces self = required_surfaces))
    || negb (tb_revision self =? 1)) InvalidTombstone;;
  digest ← tombstone_digest self;
  reject_if (negb (bool_decide (tb_tombstone_digest self = digest))) InvalidTombstone.

(** [DeletionTombstone::create] *)
Definition tombstone_create (id tenant_id project_id : Id) (object_id object_kind : string)
    (prior_object_revision deletion_generation : Z) (reason : DeletionReason) (authorized_by : Id)
    (authorization_evidence_digest : string) (requested_at : DateTime)
    : result DeletionError DeletionTombstone :=
  let tombstone := {|
    tb_id := id; tb_tenant_id := tenant_id; tb_project_id := project_id;
    tb_object_id := object_id; tb_object_kind := object_kind;
    tb_prior_object_revision := prior_object_revision;
    tb_deletion_generation := deletion_generation;
    tb_reason := reason; tb_authorized_by := authorized_by;
    tb_authorization_evidence_digest := authorization_evidence_digest;
    tb_requested_at := requested_at; tb_retention_mode := EraseContentRetainAudit;
    tb_required_surfaces := required_surfaces; tb_tombstone_digest := ""; tb_revision := 1;
  |} in
  digest ← tombstone_digest tombstone;
  let tombstone := tombstone <| tb_tombstone_digest := digest |> in
  tombstone_validate tombstone requested_at;;
  mret tombstone.

(** [DeletionPropagationReceipt::compute_digest], [::validate_for], [::create] *)
Definition receipt_digest (self : DeletionPropagationReceipt) : result DeletionError string :=
  digest_json (json_receipt (receipt_parts self)).

Definition receipt_validate_for (self : DeletionPropagationReceipt) (tombstone : DeletionTombstone)
    (now : DateTime) : result DeletionError unit :=
  tombstone_validate tombstone now;;
  let exact_scope :=
    bool_decide (pr_deletion_id self = tb_id tombstone)
    && bool_decide (pr_tenant_id self = tb_tenant_id tombstone)
    && bool_decide (pr_project_id self = tb_project_id tombstone)
    && bool_decide (pr_object_id self = tb_object_id tombstone)
    && bool_decide (pr_object_kind self = tb_object_kind tombstone)
    && (pr_deletion_generation self =? tb_deletion_generation tombstone)
    && bool_decide (pr_tombstone_digest self = tb_tombstone_digest tombstone) in
  reject_if (trim_is_empty (pr_id self)
    || negb exact_scope
    || negb (is_worker_managed (pr_surface self))
    || negb (bool_decide (pr_surface self ∈ tb_required_surfaces tombstone))
    || trim_is_empty (pr_worker_id self)
    || (pr_lease_generation self =? 0)
    || negb (is_sha256 (pr_inventory_digest self))
    || negb (pr_matched_items self =? pr_deleted_items self)
    || negb (pr_residual_items self =? 0)
    || negb (is_sha256 (pr_verification_digest self))
    || (pr_completed_at self <? tb_requested_at tombstone)
    || (now <? pr_completed_at self)
    || negb (pr_revision self =? 1)) InvalidPropagationReceipt;;
  digest ← receipt_digest self;
  reject_if (negb (bool_decide (pr_receipt_digest self = digest))) InvalidPropagationReceipt.

Definition receipt_create (id : Id) (tombstone : DeletionTombstone) (surface : DeletionSurface)
    (worker_id : Id) (lease_generation : Z) (inventory_digest : string)
    (matched_items deleted_items residual_items : Z) (verification_digest : string)
    (completed_at : DateTime) : result DeletionError DeletionPropagationReceipt :=
  let receipt := {|
    pr_id := id; pr_deletion_id := tb_id tombstone; pr_tenant_id := tb_tenant_id tombstone;
    pr_project_id := tb_project_id tombstone; pr_object_id := tb_object_id tombstone;
    pr_object_kind := tb_object_kind tombstone; pr_surface := surface;
    pr_deletion_generation := tb_deletion_generation tombstone;
    pr_tombstone_digest := tb_tombstone_digest tombstone; pr_worker_id := worker_id;
    pr_lease_generation := lease_generation; pr_inventory_digest := inventory_digest;
    pr_matched_items := matched_items; pr_deleted_items := deleted_items;
    pr_residual_items := residual_items; pr_verification_digest := verification_digest;
    pr_completed_at := completed_at; pr_receipt_digest := ""; pr_revision := 1;
  |} in
  digest ← receipt_digest receipt;
  let receipt := receipt <| pr_receipt_digest := digest |> in
  receipt_validate_for receipt tombstone completed_at;;
  mret receipt.

(** ** The record *)
Definition validate_surface_state (self : DeletionRecord) (state : DeletionSurfaceState)
    : result DeletionError unit :=
  surface_state_validate state;;
  reject_if ((ss_updated_at state <? dl_created_at self) || (dl_updated_at self <? ss_updated_at state))
    InvalidPropagationState.

(** [DeletionRecord::validate] *)
Definition record_validate (self : DeletionRecord) (now : DateTime) : result DeletionError unit :=
  tombstone_validate (dl_tombstone self) now;;
  next_revision ← ok_or (checked_add u64_max (tb_prior_object_revision (dl_tombstone self)) 1) DeRevisionOverflow;
  reject_if (negb (dl_remote_object_revision self =? next_revision)
    || negb (bool_decide (dom (dl_surfaces self) = tb_required_surfaces (dl_tombstone self)))
    || (dl_revision self =? 0)
    || (dl_created_at self <? tb_requested_at (dl_tombstone self))
    || (dl_updated_at self <? dl_created_at self)
    || (now <? dl_updated_at self)) InvalidDeletionRecord;;
  for_each (validate_surface_state self) (surface_values (dl_surfaces self)).

Definition pending_surfaces (now : DateTime) : surfaces_t :=
  list_to_map ((fun surface => (surface, mkSurfaceState DpPending None None now)) <$> all_surfaces).

Definition pending (tombstone : DeletionTombstone) (remote_object_revision : Z)
    (local_evidence_digest context_evidence_digest object_storage_evidence_digest : string) (now : DateTime)
    : result DeletionError DeletionRecord :=
  tombstone_validate tombstone now;;
  surfaces ← set_applied (pending_surfaces now) LocalProjection local_evidence_digest now;
  surfaces ← set_applied surfaces ContextDerived context_evidence_digest now;
  surfaces ← set_not_applicable surfaces ObjectStorage object_storage_evidence_digest now;
  let record := mkDeletionRecord tombstone remote_object_revision surfaces 1 now now in
  record_validate record now;;
  mret record.

Definition mark_surface_applied (self : DeletionRecord) (surface : DeletionSurface)
    (evidence_digest : string) (now : DateTime) : result DeletionError DeletionRecord :=
  state ← ok_or (dl_surfaces self !! surface) InvalidPropagationState;
  if is_settled (ss_status state) then
    if bool_decide (ss_evidence_digest state = Some evidence_digest) then mret self
    else Err InvalidPropagationTransition
  else
  surfaces ← set_applied (dl_surfaces self) surface evidence_digest now;
  revision ← ok_or (checked_add u64_max (dl_revision self) 1) DeRevisionOverflow;
  let next := self <| dl_surfaces := surfaces |> <| dl_revision := revision |> <| dl_updated_at := now |> in
  record_validate next now;;
  mret next.

Definition mark_encrypted_cell_applied (self : DeletionRecord) (evidence_digest : string) (now : DateTime)
    : result DeletionError DeletionRecord :=
  mark_surface_applied self EncryptedCell evidence_digest now.

Definition apply_receipt (self : DeletionRecord) (receipt : DeletionPropagationReceipt) (now : DateTime)
    : result DeletionError DeletionRecord :=
  receipt_validate_for receipt (dl_tombstone self) now;;
  mark_surface_applied self (pr_surface receipt) (pr_receipt_digest receipt) now.
End deletion.
