(* ===== verification/DeletionSafety.v ===== *)
(** * What a deletion record guarantees

    A deletion is reported complete only on the evidence of every surface, a
    settled surface is never rewritten, replayed receipts change nothing, and a
    valid receipt is always accepted. *)
From S2P Require Import Prelude Deletion.
Import Prelude.Fixture.

Lemma elem_of_all_surfaces s : s ∈ all_surfaces.
Proof. destruct s; set_solver. Qed.

Lemma elem_of_surface_values {V} (m : gmap DeletionSurface V) v :
  v ∈ surface_values m <-> exists s, m !! s = Some v.
Proof.
  unfold surface_values. rewrite list_elem_of_omap. split.
  - intros (s & _ & Hs). by exists s.
  - intros (s & Hs). exists s. split; [apply elem_of_all_surfaces|done].
Qed.

Section safety.
Context `{Sha256} `{DeletionSerde}.
Implicit Types r : DeletionRecord.

(** ** Steps *)
Definition deletion_step r r' : Prop :=
  (exists evidence now, mark_encrypted_cell_applied r evidence now = Ok r') \/
  (exists receipt now, apply_receipt r receipt now = Ok r').
Definition deletion_started r : Prop :=
  exists tombstone remote e1 e2 e3 now, pending tombstone remote e1 e2 e3 now = Ok r.

(** The record in which [surface] has been applied. *)
Definition applied_to r (surface : DeletionSurface) (evidence : string) (now : DateTime) : DeletionRecord :=
  r <| dl_surfaces ::= <[surface := mkSurfaceState DpApplied (Some evidence) None now]> |>
    <| dl_revision := dl_revision r + 1 |> <| dl_updated_at := now |>.

Inductive marked r (surface : DeletionSurface) (evidence : string) (now : DateTime) : DeletionRecord -> Prop :=
| marked_before state : dl_surfaces r !! surface = Some state -> is_settled (ss_status state) = true ->
    ss_evidence_digest state = Some evidence -> marked r surface evidence now r
| marked_now state : dl_surfaces r !! surface = Some state -> is_settled (ss_status state) = false ->
    is_sha256 evidence = true -> dl_revision r < u64_max ->
    record_validate (applied_to r surface evidence now) now = Ok tt ->
    marked r surface evidence now (applied_to r surface evidence now).

Lemma mark_surface_applied_Ok r surface evidence now r' :
  mark_surface_applied r surface evidence now = Ok r' <-> marked r surface evidence now r'.
Proof.
  unfold mark_surface_applied, set_applied. split.
  - intros Hm. apply bind_Ok in Hm as (state & Hs & Hm). apply ok_or_Ok in Hs.
    destruct (is_settled (ss_status state)) eqn:Hset.
    + case_bool_decide as He; [|done]. inv_ok. by eapply marked_before.
    + inv_ok. match goal with Hx : checked_add _ _ _ = Some _ |- _ => apply checked_add_Some in Hx as [-> ?] end.
      split_guards. repeat match goal with u : unit |- _ => destruct u end. eapply marked_now; try done. lia.
  - intros [state Hs Hset He|state Hs Hset Hsha Hrev Hv]; rewrite Hs; cbn; rewrite Hset.
    + by rewrite bool_decide_true.
    + rewrite Hsha. cbn. unfold checked_add. rewrite (proj2 (Z.leb_le _ _)) by lia. cbn.
      change ((record_validate (applied_to r surface evidence now) now;; mret (applied_to r surface evidence now))
        = Ok (applied_to r surface evidence now)). by rewrite Hv.
Qed.

Lemma apply_receipt_Ok r receipt now r' :
  apply_receipt r receipt now = Ok r' <->
  receipt_validate_for receipt (dl_tombstone r) now = Ok tt /\
  marked r (pr_surface receipt) (pr_receipt_digest receipt) now r'.
Proof.
  unfold apply_receipt. split.
  - intros Ha. apply bind_Ok in Ha as ([] & Hv & Hm). by apply mark_surface_applied_Ok in Hm.
  - intros [Hv Hm]. rewrite Hv. cbn. by apply mark_surface_applied_Ok.
Qed.

(** A step changes at most one surface, and only an unsettled one. *)
Lemma marked_surfaces r surface evidence now r' :
  marked r surface evidence now r' ->
  dl_tombstone r' = dl_tombstone r /\ dl_revision r <= dl_revision r' /\
  (exists state, dl_surfaces r' !! surface = Some state /\ is_settled (ss_status state) = true /\
     ss_evidence_digest state = Some evidence) /\
  forall s state, dl_surfaces r !! s = Some state ->
    (s <> surface \/ is_settled (ss_status state) = true) -> dl_surfaces r' !! s = Some state.
Proof.
  intros [state Hs Hset He|state Hs Hset Hsha Hrev Hv].
  - split_and!; [done|done|by exists state|done].
  - split_and!; [done|cbn; lia| |].
    + eexists. cbn. rewrite lookup_insert_eq. done.
    + intros s st Hst [Hne|Hse]; cbn.
      * by rewrite lookup_insert_ne.
      * destruct (decide (surface = s)) as [->|]; [congruence|by rewrite lookup_insert_ne].
Qed.

Lemma step_marked r r' : deletion_step r r' -> exists surface evidence now, marked r surface evidence now r' /\
  (surface = EncryptedCell \/ exists receipt, receipt_validate_for receipt (dl_tombstone r) now = Ok tt /\
     pr_surface receipt = surface /\ pr_receipt_digest receipt = evidence).
Proof.
  intros [(evidence & now & Hm%mark_surface_applied_Ok)|(receipt & now & [Hv Hm]%apply_receipt_Ok)].
  - exists EncryptedCell, evidence, now. split; [done|by left].
  - exists (pr_surface receipt), (pr_receipt_digest receipt), now. split; [done|]. right. by exists receipt.
Qed.

Lemma run_surfaces r r' : rtc deletion_step r r' ->
  dl_tombstone r' = dl_tombstone r /\
  forall s state, dl_surfaces r !! s = Some state -> is_settled (ss_status state) = true -> dl_surfaces r' !! s = Some state.
Proof.
  induction 1 as [|r r1 r' Hs _ [IHt IHs]]; [done|].
  apply step_marked in Hs as (surface & evidence & now & (Ht & _ & _ & Hk)%marked_surfaces & _).
  split; [congruence|]. intros s state Hst Hset. apply IHs; [|done]. apply Hk; [done|by right].
Qed.

(** ** Proof of deletion *)

(** A run with the log of the receipts presented and accepted along it. *)
Inductive deletion_run r0 : list DeletionPropagationReceipt -> DeletionRecord -> Prop :=
| run_start : deletion_run r0 [] r0
| run_cell log r evidence now r' : deletion_run r0 log r ->
    mark_encrypted_cell_applied r evidence now = Ok r' -> deletion_run r0 log r'
| run_receipt log r receipt now r' : deletion_run r0 log r ->
    apply_receipt r receipt now = Ok r' -> deletion_run r0 (log ++ [receipt]) r'.

(** A receipt of this very deletion after which nothing is left. *)
Definition proves_purge (tombstone : DeletionTombstone) (receipt : DeletionPropagationReceipt) : Prop :=
  pr_deletion_id receipt = tb_id tombstone /\ pr_tenant_id receipt = tb_tenant_id tombstone /\
  pr_object_id receipt = tb_object_id tombstone /\
  pr_matched_items receipt = pr_deleted_items receipt /\ pr_residual_items receipt = 0 /\
  tb_requested_at tombstone <= pr_completed_at receipt /\
  receipt_digest receipt = Ok (pr_receipt_digest receipt).

Record accounted (log : list DeletionPropagationReceipt) r : Prop := {
  ac_all s : exists state, dl_surfaces r !! s = Some state /\
    (is_settled (ss_status state) = true -> is_Some (ss_evidence_digest state));
  ac_log receipt : receipt ∈ log -> proves_purge (dl_tombstone r) receipt;
  ac_receipts s state : dl_surfaces r !! s = Some state -> s ∈ [Cache; Replay] ->
    is_settled (ss_status state) = true -> exists receipt, receipt ∈ log /\ pr_surface receipt = s /\
      ss_evidence_digest state = Some (pr_receipt_digest receipt);
}.

Lemma receipt_clean receipt tombstone now :
  receipt_validate_for receipt tombstone now = Ok tt -> proves_purge tombstone receipt.
Proof.
  unfold receipt_validate_for. intros Hv. inv_ok. split_guards. unfold proves_purge.
  split_and!; try done; try lia. congruence.
Qed.

Lemma pending_Ok tombstone remote e1 e2 e3 now r :
  pending tombstone remote e1 e2 e3 now = Ok r ->
  record_validate r now = Ok tt /\ dl_tombstone r = tombstone /\ dl_revision r = 1 /\ dl_updated_at r = now /\
  dl_surfaces r = <[ObjectStorage := mkSurfaceState DpNotApplicable (Some e3) None now]>
    (<[ContextDerived := mkSurfaceState DpApplied (Some e2) None now]>
    (<[LocalProjection := mkSurfaceState DpApplied (Some e1) None now]> (pending_surfaces now))).
Proof.
  unfold pending, set_applied, set_not_applicable. intros Hp. inv_ok. repeat match goal with u : unit |- _ => destruct u end.
  done.
Qed.

Lemma pending_lookup now s : pending_surfaces now !! s = Some (mkSurfaceState DpPending None None now).
Proof. by destruct s. Qed.

Lemma started_accounted r : deletion_started r -> accounted [] r.
Proof.
  intros (tb & remote & e1 & e2 & e3 & now & (_ & _ & _ & _ & Hs)%pending_Ok). split.
  - intros s. rewrite Hs. destruct s; eexists; (split; [reflexivity|]); try done; intros _; by eexists.
  - by intros receipt ?%elem_of_nil.
  - intros s state Hst Hin Hset. rewrite Hs in Hst.
    assert (forall x, x ∈ [ObjectStorage; ContextDerived; LocalProjection] -> x <> s) as Hne by (intros x Hx ->; set_solver).
    rewrite (lookup_insert_ne _ ObjectStorage), (lookup_insert_ne _ ContextDerived), (lookup_insert_ne _ LocalProjection),
      pending_lookup in Hst by (apply Hne; set_solver). by injection Hst as <-.
Qed.

Lemma marked_all r surface evidence now r' :
  marked r surface evidence now r' ->
  (forall s, exists state, dl_surfaces r !! s = Some state /\
     (is_settled (ss_status state) = true -> is_Some (ss_evidence_digest state))) ->
  forall s, exists state, dl_surfaces r' !! s = Some state /\
    (is_settled (ss_status state) = true -> is_Some (ss_evidence_digest state)).
Proof.
  intros [|st Hs Hset Hsha Hrev Hv] Hall s; [by apply Hall|]. cbn.
  destruct (decide (surface = s)) as [->|Hne].
  - rewrite lookup_insert_eq. eexists. split; [done|]. intros _. by eexists.
  - rewrite lookup_insert_ne by done. apply Hall.
Qed.

Lemma cell_accounted log r evidence now r' :
  mark_encrypted_cell_applied r evidence now = Ok r' -> accounted log r -> accounted log r'.
Proof.
  intros Hm%mark_surface_applied_Ok [Hall Hlog Hrec].
  pose proof (marked_surfaces _ _ _ _ _ Hm) as (Ht & _). split.
  - by eapply marked_all.
  - by rewrite Ht.
  - intros s state Hst Hin Hset. destruct Hm; [by apply Hrec|]. cbn in Hst.
    rewrite lookup_insert_ne in Hst by (intros <-; set_solver). by apply Hrec.
Qed.

Lemma receipt_accounted log r receipt now r' :
  apply_receipt r receipt now = Ok r' -> accounted log r -> accounted (log ++ [receipt]) r'.
Proof.
  intros [Hv Hm]%apply_receipt_Ok [Hall Hlog Hrec].
  pose proof (marked_surfaces _ _ _ _ _ Hm) as (Ht & _ & (st & Hst & _ & He) & _). split.
  - by eapply marked_all.
  - rewrite Ht. intros x [Hx| ->%list_elem_of_singleton]%elem_of_app; [by apply Hlog|by eapply receipt_clean].
  - intros s state Hs Hin Hset. destruct (decide (pr_surface receipt = s)) as [<-|Hne].
    + exists receipt. split; [set_solver|]. split; [done|congruence].
    + destruct (Hrec s state) as (x & Hx & ?); [|done..|exists x; split; [set_solver|done]].
      destruct Hm; [done|]. cbn in Hs. by rewrite lookup_insert_ne in Hs.
Qed.

Lemma run_accounted r0 log r : deletion_started r0 -> deletion_run r0 log r -> accounted log r.
Proof.
  intros Hs. induction 1; eauto using started_accounted, cell_accounted, receipt_accounted.
Qed.

(** C19: a deletion is complete only when it is proven on every surface. Take
    any run of marks and receipts with the log of the receipts it accepted.
    Every accepted receipt is a receipt of this very deletion, with its own
    digest, that purged every matching item and found nothing left. When the
    record reports completion, every surface is settled with evidence, and the
    evidence of the cache and of the replay store is the digest of a receipt
    of that surface in the log. *)
Theorem complete_deletion_is_proven r0 log r :
  deletion_started r0 -> deletion_run r0 log r ->
  (forall receipt, receipt ∈ log -> proves_purge (dl_tombstone r) receipt) /\
  (is_complete r = true ->
   (forall s, exists state, dl_surfaces r !! s = Some state /\ is_settled (ss_status state) = true /\
      is_Some (ss_evidence_digest state)) /\
   (forall s, s ∈ [Cache; Replay] -> exists state receipt, receipt ∈ log /\ dl_surfaces r !! s = Some state /\
      pr_surface receipt = s /\ ss_evidence_digest state = Some (pr_receipt_digest receipt))).
Proof.
  intros Hs Hr. destruct (run_accounted _ _ _ Hs Hr) as [Hall Hlog Hrec]. split; [done|]. intros Hc.
  assert (forall s state, dl_surfaces r !! s = Some state -> is_settled (ss_status state) = true) as Hset.
  { intros s state Hst. unfold is_complete in Hc. rewrite forallb_elem_of in Hc. apply Hc, elem_of_surface_values. by exists s. }
  split; intros s.
  - destruct (Hall s) as (state & Hst & He). exists state. split_and!; [done|by eapply Hset|by eapply He, Hset].
  - intros Hin. destruct (Hall s) as (state & Hst & _).
    destruct (Hrec s state Hst Hin (Hset s state Hst)) as (receipt & ? & ? & ?). by exists state, receipt.
Qed.

(** ** Replay *)
Lemma tombstone_validate_mono tombstone now now' :
  now <= now' -> tombstone_validate tombstone now = Ok tt -> tombstone_validate tombstone now' = Ok tt.
Proof.
  intros Hn Hv. unfold tombstone_validate in *. apply bind_Ok in Hv as (u & Hg & Hd). rewrite Hd.
  apply reject_if_Ok in Hg. split_guards.
  repeat match goal with Hx : ?b = _ |- context [?b] => rewrite Hx end.
  rewrite (bool_decide_true (_ = required_surfaces)), (proj2 (Z.ltb_ge _ _)) by (done || lia). done.
Qed.

Lemma receipt_validate_mono receipt tombstone now now' :
  now <= now' -> receipt_validate_for receipt tombstone now = Ok tt -> receipt_validate_for receipt tombstone now' = Ok tt.
Proof.
  intros Hn Hv. unfold receipt_validate_for in *. apply bind_Ok in Hv as ([] & Ht & Hv).
  rewrite (tombstone_validate_mono _ _ _ Hn Ht). cbn [mbind result_mbind]. cbn zeta in *.
  apply bind_Ok in Hv as (u & Hg & Hd). rewrite Hd. apply reject_if_Ok in Hg.
  match goal with |- (reject_if ?b _ ≫= _) = _ => assert (b = false) as ->; [|done] end.
  apply orb_false_iff in Hg as [Hg H1]. apply orb_false_iff in Hg as [Hg H2]. rewrite Hg, H1. cbn. rewrite orb_false_r. lia.
Qed.

(** A receipt counts once. After it has been applied, applying the same
    receipt again - at any later time and after any further steps - succeeds
    and changes nothing. *)
Theorem receipt_replay_changes_nothing r receipt now r1 r2 now' :
  apply_receipt r receipt now = Ok r1 -> rtc deletion_step r1 r2 -> now <= now' ->
  apply_receipt r2 receipt now' = Ok r2.
Proof.
  intros [Hv Hm]%apply_receipt_Ok Hr Hn. apply apply_receipt_Ok.
  destruct (marked_surfaces _ _ _ _ _ Hm) as (Ht & _ & (state & Hs & Hset & He) & _).
  destruct (run_surfaces _ _ Hr) as [Ht' Hkeep]. split; [|by eapply marked_before; [apply Hkeep|..]].
  rewrite Ht', Ht. by eapply receipt_validate_mono.
Qed.

(** ** Progress *)
Record sound r : Prop := {
  so_valid : record_validate r (dl_updated_at r) = Ok tt;
  so_revision : 0 < dl_revision r;
}.

Lemma reachable_sound r0 r : deletion_started r0 -> rtc deletion_step r0 r -> sound r.
Proof.
  intros (tb & remote & e1 & e2 & e3 & now & (Hv & _ & Hrev & Hup & _)%pending_Ok) Hr.
  assert (sound r0) as Hs by (split; [by rewrite Hup|lia]). clear Hv Hrev Hup.
  induction Hr as [|r0 r1 r Hstep _ IH]; [done|]. apply IH.
  apply step_marked in Hstep as (surface & evidence & n & Hm & _). destruct Hs as [Hv Hrev].
  destruct Hm as [|state Hs Hset Hsha Hmax Hv']; [done|]. split; [exact Hv'|cbn; lia].
Qed.

Lemma applied_state_valid r evidence now :
  is_sha256 evidence = true -> dl_created_at r <= now ->
  validate_surface_state (r <| dl_updated_at := now |>) (mkSurfaceState DpApplied (Some evidence) None now) = Ok tt.
Proof.
  intros He Hn. unfold validate_surface_state, surface_state_validate. cbn -[is_sha256]. rewrite He. cbn.
  by rewrite (proj2 (Z.ltb_ge _ _)), Z.ltb_irrefl by done.
Qed.

(** The record stays valid when an unsettled surface is applied. *)
Lemma applied_to_valid r surface state evidence now :
  sound r -> dl_surfaces r !! surface = Some state -> is_sha256 evidence = true -> dl_updated_at r <= now ->
  record_validate (applied_to r surface evidence now) now = Ok tt.
Proof.
  intros [Hv Hrev] Hs He Hn. unfold record_validate in *. apply bind_Ok in Hv as ([] & Ht & Hv).
  change (dl_tombstone (applied_to r surface evidence now)) with (dl_tombstone r).
  rewrite (tombstone_validate_mono _ _ _ Hn Ht). cbn [mbind result_mbind].
  apply bind_Ok in Hv as (next & Hnext & Hv). rewrite Hnext. cbn [mbind result_mbind].
  apply bind_Ok in Hv as ([] & Hg & Hv). apply reject_if_Ok in Hg. split_guards.
  match goal with |- (reject_if ?b _ ≫= _) = _ => assert (b = false) as -> end.
  { assert (dom (dl_surfaces (applied_to r surface evidence now)) = dom (dl_surfaces r)) as ->.
    { cbn. rewrite dom_insert_L. apply elem_of_dom_2 in Hs. set_solver. }
    unfold applied_to. cbn. rewrite Hg3, bool_decide_eq_true_2 by done. lia. }
  cbn [mbind result_mbind reject_if]. apply for_each_Ok.
  rewrite for_each_Ok in Hv.
  intros st (s & Hst)%elem_of_surface_values. cbn in Hst. apply lookup_insert_Some in Hst as [[<- <-]|[_ Hst]].
  - apply (applied_state_valid (applied_to r surface evidence now) evidence now He). cbn. lia.
  - assert (validate_surface_state r st = Ok tt) as Hok by (apply Hv, elem_of_surface_values; by exists s).
    unfold validate_surface_state in *. apply bind_Ok in Hok as ([] & -> & Hc). apply reject_if_Ok in Hc.
    split_guards. cbn [mbind result_mbind].
    match goal with |- reject_if ?b _ = _ => assert (b = false) as ->; [cbn; lia|done] end.
Qed.

Lemma receipt_digest_shape `{!Sha256Laws} receipt tombstone now :
  receipt_validate_for receipt tombstone now = Ok tt -> is_sha256 (pr_receipt_digest receipt) = true.
Proof.
  unfold receipt_validate_for, receipt_digest, digest_json. intros Hv. inv_ok. split_guards.
  match goal with Hx : pr_receipt_digest _ = _ |- _ => rewrite Hx end. auto with kernel.
Qed.

(** A valid receipt is never refused. For a deletion under way, the receipt
    of a surface that is not settled yet, presented on a clock that has not
    run backwards, is accepted: it settles that surface, advances the
    revision by one and leaves every other surface as it was. *)
Theorem valid_receipt_settles_surface `{!Sha256Laws} r0 r receipt now state :
  deletion_started r0 -> rtc deletion_step r0 r -> dl_revision r < u64_max -> dl_updated_at r <= now ->
  receipt_validate_for receipt (dl_tombstone r) now = Ok tt ->
  dl_surfaces r !! pr_surface receipt = Some state -> is_settled (ss_status state) = false ->
  exists r' state', apply_receipt r receipt now = Ok r' /\
    dl_surfaces r' !! pr_surface receipt = Some state' /\ is_settled (ss_status state') = true /\
    dl_revision r' = dl_revision r + 1 /\
    forall s, s <> pr_surface receipt -> dl_surfaces r' !! s = dl_surfaces r !! s.
Proof.
  intros Hst Hr Hmax Hn Hv Hs Hset. pose proof (receipt_digest_shape _ _ _ Hv) as Hsha. pose proof (reachable_sound _ _ Hst Hr) as Hsound.
  exists (applied_to r (pr_surface receipt) (pr_receipt_digest receipt) now). eexists. split_and!.
  - apply apply_receipt_Ok. split; [done|]. eapply marked_now; try done. by eapply applied_to_valid.
  - cbn. by rewrite lookup_insert_eq.
  - done.
  - done.
  - intros s Hne. cbn. by rewrite lookup_insert_ne.
Qed.
End safety.

(** ** A concrete deletion *)
Module Purge.
#[export] Instance serde : DeletionSerde := {| json_tombstone := fun _ => Some "tombstone"; json_receipt := fun _ => Some "receipt" |}.

Definition tombstone : DeletionTombstone :=
  match tombstone_create "deletion" "tenant" "project" "note" "work_product" 3 1 UserRequest "owner" zeros64 100 with
  | Ok t => t
  | _ => mkTombstone "" "" "" "" "" 0 0 UserRequest "" "" 0 EraseContentRetainAudit ∅ "" 0
  end.
Definition receipt (surface : DeletionSurface) (at_ : DateTime) : DeletionPropagationReceipt :=
  match receipt_create "receipt" tombstone surface "worker" 1 zeros64 4 4 0 zeros64 at_ with
  | Ok r => r
  | _ => mkPropagationReceipt "" "" "" "" "" "" surface 0 "" "" 0 "" 0 0 0 "" 0 "" 0
  end.
Definition record_of (r : result DeletionError DeletionRecord) : DeletionRecord :=
  match r with Ok d => d | _ => mkDeletionRecord tombstone 0 ∅ 0 0 0 end.
Definition started : DeletionRecord := record_of (pending tombstone 4 zeros64 zeros64 zeros64 100).
Definition cache_gone : DeletionRecord := record_of (apply_receipt started (receipt Cache 110) 120).
Definition replay_gone : DeletionRecord := record_of (apply_receipt cache_gone (receipt Replay 110) 130).
Definition finished : DeletionRecord := record_of (mark_encrypted_cell_applied replay_gone zeros64 140).

Lemma deletion_is_started : deletion_started started.
Proof. exists tombstone, 4, zeros64, zeros64, zeros64, 100. by vm_compute. Qed.
Lemma cache_step : deletion_step started cache_gone.
Proof. right. exists (receipt Cache 110), 120. by vm_compute. Qed.
Lemma replay_step : deletion_step cache_gone replay_gone.
Proof. right. exists (receipt Replay 110), 130. by vm_compute. Qed.
Lemma cell_step : deletion_step replay_gone finished.
Proof. left. exists zeros64, 140. by vm_compute. Qed.
Lemma finished_run : deletion_run started [receipt Cache 110; receipt Replay 110] finished.
Proof.
  apply (run_cell _ _ replay_gone zeros64 140); [|by vm_compute].
  apply (run_receipt _ [receipt Cache 110] cache_gone (receipt Replay 110) 130); [|by vm_compute].
  apply (run_receipt _ [] started (receipt Cache 110) 120); [constructor|by vm_compute].
Qed.
Example not_complete_before_cell : is_complete replay_gone = false /\ is_complete finished = true.
Proof. by vm_compute. Qed.
End Purge.
#[local] Existing Instance Purge.serde.

Lemma complete_deletion_is_proven_witness : exists state, dl_surfaces Purge.finished !! Cache = Some state /\
  is_settled (ss_status state) = true /\ is_Some (ss_evidence_digest state).
Proof.
  refine (proj1 (proj2 (complete_deletion_is_proven Purge.started [Purge.receipt Cache 110; Purge.receipt Replay 110]
    Purge.finished Purge.deletion_is_started Purge.finished_run) _) Cache).
  by vm_compute.
Defined.

Lemma receipt_replay_changes_nothing_witness :
  apply_receipt Purge.finished (Purge.receipt Cache 110) 500 = Ok Purge.finished.
Proof.
  refine (receipt_replay_changes_nothing Purge.started (Purge.receipt Cache 110) 120 Purge.cache_gone Purge.finished 500 _ _ _).
  - by vm_compute.
  - eapply rtc_l; [exact Purge.replay_step|]. eapply rtc_once. exact Purge.cell_step.
  - done.
Defined.

Lemma valid_receipt_settles_surface_witness : exists r' state',
  apply_receipt Purge.cache_gone (Purge.receipt Replay 110) 130 = Ok r' /\ dl_surfaces r' !! Replay = Some state'.
Proof.
  assert (exists state, dl_surfaces Purge.cache_gone !! Replay = Some state /\ is_settled (ss_status state) = false)
    as (state & Hs & Hset) by (eexists; by vm_compute).
  assert (receipt_validate_for (Purge.receipt Replay 110) (dl_tombstone Purge.cache_gone) 130 = Ok tt) as Hv by (by vm_compute).
  destruct (valid_receipt_settles_surface Purge.started Purge.cache_gone (Purge.receipt Replay 110) 130 state
    Purge.deletion_is_started (rtc_once _ _ Purge.cache_step) eq_refl ltac:(by vm_compute) Hv Hs Hset)
    as (r' & state' & Ha & Hst & _).
  exists r', state'. exact (conj Ha Hst).
Defined.
