(* ===== verification/RuntimeTurn.v ===== *)
(** * Managed runtime turns

    Models [domain-kernel/src/runtime_turn.rs]: one turn of the agent runtime
    from its preparation to its end, with the ledger of evidence that every
    transition appends to, and the private messages and text increments that
    are bound to entries of the ledger. *)
From S2P Require Import Prelude.

Definition MAX_TURN_EVIDENCE : nat := 4096.
#[global] Arguments MAX_TURN_EVIDENCE : simpl never.
Definition MAX_TURN_FAILURES : nat := 32.
Definition MAX_PRIVATE_MESSAGE_BYTES : Z := 4 * 1024 * 1024.
Definition LEGACY_AGENT_MESSAGE_ITEM_DIGEST : string :=
  "b907287bacf5470d3b3c410ae6e7934f19ee7e0640b289fc41922a441bb88d5b".

(** ** Data *)
Inductive RuntimeTurnPurpose : Type := PurposeAgent | PurposeFollowup | PurposeCompaction.
#[export] Instance RuntimeTurnPurpose_eq_dec : EqDecision RuntimeTurnPurpose.
Proof. solve_decision. Defined.

Record RuntimeTurnScope : Type := mkTurnScope {
  rs_purpose : RuntimeTurnPurpose;
  rs_tenant_id : Id;
  rs_project_id : Id;
  rs_mission_id : Id;
  rs_workspace_id : Id;
  rs_capsule_id : Id;
  rs_capsule_revision : Z; (* u64 *)
  rs_capsule_authority_digest : string;
  rs_branch_id : Id;
  rs_branch_revision : Z; (* u64 *)
  rs_worker_id : Id;
  rs_worker_generation : Z; (* u64 *)
  rs_worker_lease_id : Id;
  rs_worker_lease_revision : Z; (* u64 *)
  rs_attachment_epoch : Z; (* u64 *)
  rs_assembly_id : Id;
  rs_assembly_revision : Z; (* u64 *)
  rs_assembly_manifest_digest : string;
  rs_assembly_input_digest : string;
  rs_prompt_digest : string;
  rs_checkpoint_id : Id;
  rs_checkpoint_digest : string;
  rs_recovery_id : Id;
  rs_recovery_revision : Z; (* u64 *)
  rs_runtime_instance_digest : string;
  rs_runtime_mapping_digest : string;
  rs_runtime_thread_id : string;
  rs_runtime_thread_id_digest : string;
}.
#[export] Instance RuntimeTurnScope_eq_dec : EqDecision RuntimeTurnScope.
Proof. solve_decision. Defined.

Inductive RuntimeTurnStatus : Type :=
| TsPrepared | TsDispatching | TsRunning | TsWaitingLocalApproval | TsApprovalResponding
| TsInterruptRequested | TsCompleted | TsInterrupted | TsFailed | TsUncertain.
#[export] Instance RuntimeTurnStatus_eq_dec : EqDecision RuntimeTurnStatus.
Proof. solve_decision. Defined.

Inductive RuntimeTurnRestartDisposition : Type := FailedBeforeDispatch | FrozenUncertain | AlreadySafe.

(** [RuntimeTurnStatus::is_terminal], [RuntimeTurnStatus::is_active] *)
Definition turn_is_terminal (self : RuntimeTurnStatus) : bool :=
  bool_decide (self ∈ [TsCompleted; TsInterrupted; TsFailed]).
Definition turn_is_active (self : RuntimeTurnStatus) : bool :=
  bool_decide (self ∈ [TsPrepared; TsDispatching; TsRunning; TsWaitingLocalApproval; TsApprovalResponding;
    TsInterruptRequested; TsUncertain]).

Inductive RuntimeTurnFailureClass : Type :=
| FcDispatchRejected | FcDispatchNotSent | FcDispatchUncertain | FcProtocol | FcRuntimeExited | FcEventStream
| FcApprovalResponseUncertain | FcInterruptUncertain | FcRuntimeReportedFailure | FcCoordinatorRestart.
#[export] Instance RuntimeTurnFailureClass_eq_dec : EqDecision RuntimeTurnFailureClass.
Proof. solve_decision. Defined.

Inductive RuntimeTurnEvidenceKind : Type :=
| EkPrepared | EkDispatchStarted | EkDispatchAccepted | EkTurnStarted | EkItemStarted | EkAgentMessageDelta
| EkItemCompleted | EkDiagnostic | EkLocalApprovalRequested | EkLocalApprovalResponseStarted
| EkLocalApprovalResponseSent | EkInterruptRequested | EkInterruptAccepted | EkCompleted | EkInterrupted
| EkFailed | EkUncertain.
#[export] Instance RuntimeTurnEvidenceKind_eq_dec : EqDecision RuntimeTurnEvidenceKind.
Proof. solve_decision. Defined.

Inductive RuntimeTurnObservedKind : Type :=
| ObTurnStarted | ObItemStarted | ObAgentMessageDelta | ObItemCompleted | ObDiagnostic | ObCompleted
| ObInterrupted | ObFailed.

Record RuntimeTurnEvidence : Type := mkTurnEvidence {
  te_sequence : Z; (* u64 *)
  te_kind : RuntimeTurnEvidenceKind;
  te_evidence_digest : string;
  te_resulting_status : RuntimeTurnStatus;
  te_observed_at : DateTime;
}.
#[export] Instance RuntimeTurnEvidence_eq_dec : EqDecision RuntimeTurnEvidence.
Proof. solve_decision. Defined.

Record RuntimeTurnFailure : Type := mkTurnFailure {
  tf_class : RuntimeTurnFailureClass;
  tf_evidence_digest : string;
  tf_recorded_at : DateTime;
}.
#[export] Instance RuntimeTurnFailure_eq_dec : EqDecision RuntimeTurnFailure.
Proof. solve_decision. Defined.

Record RuntimeTurnAttempt : Type := mkTurnAttempt {
  ta_id : Id;
  ta_scope : RuntimeTurnScope;
  ta_runtime_turn_id : option string;
  ta_runtime_turn_id_digest : option string;
  ta_dispatch_request_digest : option string;
  ta_dispatch_response_digest : option string;
  ta_pending_approval_request_digest : option string;
  ta_approval_decision_digest : option string;
  ta_interrupt_request_digest : option string;
  ta_failures : list RuntimeTurnFailure;
  ta_evidence : list RuntimeTurnEvidence;
  ta_status : RuntimeTurnStatus;
  ta_revision : Z; (* u64 *)
  ta_created_at : DateTime;
  ta_updated_at : DateTime;
}.
#[export] Instance RuntimeTurnAttempt_eta : Eta RuntimeTurnAttempt := fun a =>
  mkTurnAttempt (ta_id a) (ta_scope a) (ta_runtime_turn_id a) (ta_runtime_turn_id_digest a)
    (ta_dispatch_request_digest a) (ta_dispatch_response_digest a) (ta_pending_approval_request_digest a)
    (ta_approval_decision_digest a) (ta_interrupt_request_digest a) (ta_failures a) (ta_evidence a)
    (ta_status a) (ta_revision a) (ta_created_at a) (ta_updated_at a).

Record RuntimeTurnPrivateMessage : Type := mkPrivateMessage {
  pm_tenant_id : Id;
  pm_project_id : Id;
  pm_mission_id : Id;
  pm_runtime_turn_attempt_id : Id;
  pm_evidence_sequence : Z; (* u64 *)
  pm_worker_generation : Z; (* u64 *)
  pm_item_id_digest : string;
  pm_body : string;
  pm_body_digest : string;
  pm_event_digest : string;
  pm_observed_at : DateTime;
}.

Record RuntimeTurnPrivateTextDelta : Type := mkTextDelta {
  td_tenant_id : Id;
  td_project_id : Id;
  td_mission_id : Id;
  td_runtime_turn_attempt_id : Id;
  td_evidence_sequence : Z; (* u64 *)
  td_stream_sequence : Z; (* u64 *)
  td_worker_generation : Z; (* u64 *)
  td_item_id_digest : string;
  td_delta : string;
  td_delta_digest : string;
  td_cumulative_byte_count : Z; (* u64 *)
  td_chain_digest : string;
  td_event_digest : string;
  td_observed_at : DateTime;
}.

Inductive RuntimeTurnError : Type :=
| TeInvalidScope | TeInvalidEvidence | TeInvalidPrivateMessage | TeInvalidPrivateTextDelta | TeInvalidAttempt
| TeInvalidTransition | TeRevisionOverflow | TeSerialization.

(** ** Helpers *)
Definition is_ascii_control (b : Z) : bool := (b <? 32) || (b =? 127).
Definition is_identifier (value : string) : bool :=
  negb (String.eqb value "") && (str_len value <=? 1024) && all_bytes (fun b => negb (is_ascii_control b)) value.
Definition is_digest (value : string) : bool := (str_len value =? 64) && all_bytes is_ascii_hexdigit value.

Definition valid_status_transition (previous current : RuntimeTurnStatus) (evidence : RuntimeTurnEvidenceKind) : bool :=
  match previous, current, evidence with
  | TsPrepared, TsDispatching, EkDispatchStarted
  | (TsPrepared | TsDispatching), TsFailed, EkFailed
  | TsDispatching, TsRunning, EkDispatchAccepted
  | TsRunning, TsWaitingLocalApproval, EkLocalApprovalRequested
  | TsWaitingLocalApproval, TsApprovalResponding, EkLocalApprovalResponseStarted
  | TsApprovalResponding, TsRunning, EkLocalApprovalResponseSent
  | (TsRunning | TsWaitingLocalApproval), TsInterruptRequested, EkInterruptRequested
  | TsInterruptRequested, TsInterruptRequested, EkInterruptAccepted => true
  | _, _, EkUncertain =>
      bool_decide (previous ∈ [TsDispatching; TsRunning; TsWaitingLocalApproval; TsApprovalResponding;
        TsInterruptRequested])
      && bool_decide (current = TsUncertain)
  | _, _, _ =>
      if bool_decide (previous = current) then
        bool_decide (current ∈ [TsRunning; TsWaitingLocalApproval; TsInterruptRequested; TsUncertain])
        && bool_decide (evidence ∈ [EkTurnStarted; EkItemStarted; EkAgentMessageDelta; EkItemCompleted; EkDiagnostic])
      else
        bool_decide (previous ∈ [TsRunning; TsWaitingLocalApproval; TsInterruptRequested; TsUncertain])
        && match current, evidence with
           | TsCompleted, EkCompleted | TsInterrupted, EkInterrupted | TsFailed, EkFailed => true
           | _, _ => false
           end
  end.

(** The body of the loop of [validate]; [previous] is [evidence[index - 1]]. *)
Definition evidence_is_invalid (created_at : DateTime) (index : nat) (previous : option RuntimeTurnEvidence)
    (evidence : RuntimeTurnEvidence) : bool :=
  negb (te_sequence evidence =? Z.of_nat (index + 1))
  || negb (is_digest (te_evidence_digest evidence))
  || (te_observed_at evidence <? created_at)
  || is_some_and (fun previous => te_observed_at evidence <? te_observed_at previous) previous
  || is_some_and (fun previous => negb (valid_status_transition (te_resulting_status previous)
       (te_resulting_status evidence) (te_kind evidence))) previous.

Fixpoint ledger_is_invalid (created_at : DateTime) (index : nat) (previous : option RuntimeTurnEvidence)
    (ledger : list RuntimeTurnEvidence) : bool :=
  match ledger with
  | [] => false
  | evidence :: rest =>
      evidence_is_invalid created_at index previous evidence
      || ledger_is_invalid created_at (S index) (Some evidence) rest
  end.

Definition bad_digest (value : option string) : bool := is_some_and (fun v => negb (is_digest v)) value.

(** [previous.field.is_some_and(|value| self.field != Some(value))] *)
Definition lost (previous current : option string) : bool :=
  is_some_and (fun value => negb (bool_decide (current = Some value))) previous.

(** [serde_json::to_vec] of a scope; [None] stands for its error. *)
Class TurnSerde := json_turn_scope : RuntimeTurnScope -> option string.

Abbreviation turn_op := (SR RuntimeTurnAttempt RuntimeTurnError) (only parsing).

Section turn.
Context `{Sha256} `{TurnSerde}.

(** ** Scope *)
Definition scope_validate (self : RuntimeTurnScope) : result RuntimeTurnError unit :=
  reject_if ((rs_capsule_revision self =? 0)
    || (rs_branch_revision self =? 0)
    || (rs_worker_generation self =? 0)
    || (rs_worker_lease_revision self =? 0)
    || (rs_attachment_epoch self =? 0)
    || (rs_assembly_revision self =? 0)
    || (rs_recovery_revision self =? 0)
    || negb (is_identifier (rs_runtime_thread_id self))
    || negb (is_digest (rs_capsule_authority_digest self))
    || negb (is_digest (rs_assembly_manifest_digest self))
    || negb (is_digest (rs_assembly_input_digest self))
    || negb (is_digest (rs_prompt_digest self))
    || negb (is_digest (rs_checkpoint_digest self))
    || negb (is_digest (rs_runtime_instance_digest self))
    || negb (is_digest (rs_runtime_mapping_digest self))
    || negb (is_digest (rs_runtime_thread_id_digest self))
    || negb (bool_decide (sha256_hex (rs_runtime_thread_id self) = rs_runtime_thread_id_digest self)))
    TeInvalidScope.

Definition scope_digest (self : RuntimeTurnScope) : result RuntimeTurnError string :=
  scope_validate self;;
  encoded ← ok_or (json_turn_scope self) TeSerialization;
  mret (sha256_hex encoded).

(** ** Validation *)
Definition turn_identity_is_invalid (self : RuntimeTurnAttempt) : bool :=
  match ta_runtime_turn_id self, ta_runtime_turn_id_digest self with
  | Some turn_id, Some turn_digest => negb (is_identifier turn_id && bool_decide (sha256_hex turn_id = turn_digest))
  | None, None => false
  | _, _ => true
  end.

Definition dispatch_evidence_present (self : RuntimeTurnAttempt) : bool :=
  is_some (ta_dispatch_request_digest self) && is_some (ta_dispatch_response_digest self)
  && is_some (ta_runtime_turn_id self).

(** The counters, bounds and ends of the ledger. *)
Definition turn_header_is_invalid (self : RuntimeTurnAttempt) : bool :=
  (ta_revision self =? 0)
  || negb (ta_revision self =? Z.of_nat (length (ta_evidence self)))
  || Nat.ltb MAX_TURN_EVIDENCE (length (ta_evidence self))
  || Nat.ltb MAX_TURN_FAILURES (length (ta_failures self))
  || (ta_updated_at self <? ta_created_at self)
  || match ta_evidence self with
     | [] => true
     | first :: _ =>
         negb (te_sequence first =? 1)
         || negb (bool_decide (te_kind first = EkPrepared))
         || negb (bool_decide (te_resulting_status first = TsPrepared))
     end
  || negb (bool_decide (te_resulting_status <$> last (ta_evidence self) = Some (ta_status self))).

(** What the status requires of the recorded digests. *)
Definition turn_fields_are_invalid (self : RuntimeTurnAttempt) : bool :=
  bad_digest (ta_dispatch_request_digest self)
  || bad_digest (ta_dispatch_response_digest self)
  || bad_digest (ta_pending_approval_request_digest self)
  || bad_digest (ta_approval_decision_digest self)
  || bad_digest (ta_interrupt_request_digest self)
  || (bool_decide (ta_status self ∈ [TsRunning; TsWaitingLocalApproval; TsApprovalResponding;
        TsInterruptRequested; TsCompleted; TsInterrupted]) && negb (dispatch_evidence_present self))
  || (bool_decide (ta_status self = TsPrepared) && negb (ta_revision self =? 1))
  || (bool_decide (ta_status self = TsDispatching) && is_some (ta_runtime_turn_id self))
  || (bool_decide (ta_status self = TsWaitingLocalApproval) && is_none (ta_pending_approval_request_digest self))
  || (bool_decide (ta_status self = TsApprovalResponding)
      && (is_none (ta_pending_approval_request_digest self) || is_none (ta_approval_decision_digest self)))
  || (negb (bool_decide (ta_status self ∈ [TsWaitingLocalApproval; TsApprovalResponding]))
      && is_some (ta_pending_approval_request_digest self)).

(** [RuntimeTurnAttempt::validate] *)
Definition turn_validate (self : RuntimeTurnAttempt) : result RuntimeTurnError unit :=
  scope_validate (ta_scope self);;
  reject_if (turn_header_is_invalid self) TeInvalidAttempt;;
  reject_if (ledger_is_invalid (ta_created_at self) 0 None (ta_evidence self)) TeInvalidAttempt;;
  reject_if (existsb (fun failure => negb (is_digest (tf_evidence_digest failure))) (ta_failures self))
    TeInvalidAttempt;;
  reject_if (turn_identity_is_invalid self) TeInvalidAttempt;;
  reject_if (turn_fields_are_invalid self) TeInvalidAttempt.

Definition validate_transition_from (self previous : RuntimeTurnAttempt) : result RuntimeTurnError unit :=
  turn_validate self;;
  turn_validate previous;;
  newest ← ok_or (last (ta_evidence self)) TeInvalidTransition;
  reject_if (negb (bool_decide (ta_id self = ta_id previous))
    || negb (bool_decide (ta_scope self = ta_scope previous))
    || negb (ta_created_at self =? ta_created_at previous)
    || negb (ta_revision self =? wrapping_succ_u64 (ta_revision previous))
    || negb (Nat.eqb (length (ta_evidence self)) (length (ta_evidence previous) + 1))
    || negb (bool_decide (ta_evidence previous `prefix_of` ta_evidence self))
    || Nat.ltb (length (ta_failures self)) (length (ta_failures previous))
    || Nat.ltb (length (ta_failures previous) + 1) (length (ta_failures self))
    || negb (bool_decide (ta_failures previous `prefix_of` ta_failures self))
    || lost (ta_runtime_turn_id previous) (ta_runtime_turn_id self)
    || lost (ta_runtime_turn_id_digest previous) (ta_runtime_turn_id_digest self)
    || lost (ta_dispatch_request_digest previous) (ta_dispatch_request_digest self)
    || lost (ta_dispatch_response_digest previous) (ta_dispatch_response_digest self)
    || lost (ta_interrupt_request_digest previous) (ta_interrupt_request_digest self)
    || negb (valid_status_transition (ta_status previous) (ta_status self) (te_kind newest)))
    TeInvalidTransition.

(** ** Building blocks of the transitions *)
Definition require_status (expected : RuntimeTurnStatus) : turn_op unit :=
  self ← get; reject (negb (bool_decide (ta_status self = expected))) TeInvalidTransition.

(** [RuntimeTurnAttempt::record_failure] *)
Definition turn_record_failure (class : RuntimeTurnFailureClass) (evidence_digest : string) (now : DateTime)
    : turn_op unit :=
  self ← get;
  reject (negb (is_digest evidence_digest) || Nat.leb MAX_TURN_FAILURES (length (ta_failures self)))
    TeInvalidEvidence;;
  modify (fun self => self <| ta_failures ::= fun l => l ++ [mkTurnFailure class evidence_digest now] |>).

Definition append_evidence (kind : RuntimeTurnEvidenceKind) (evidence_digest : string) (now : DateTime)
    : turn_op unit :=
  self ← get;
  reject (negb (is_digest evidence_digest)
    || (now <? ta_updated_at self)
    || Nat.leb MAX_TURN_EVIDENCE (length (ta_evidence self))) TeInvalidEvidence;;
  sequence ← lift (ok_or (checked_add u64_max (ta_revision self) 1) TeRevisionOverflow);
  modify (fun self =>
    self <| ta_evidence ::= fun l => l ++ [mkTurnEvidence sequence kind evidence_digest (ta_status self) now] |>);;
  modify (fun self => self <| ta_revision := sequence |>);;
  modify (fun self => self <| ta_updated_at := now |>);;
  self ← get;
  lift (turn_validate self).

Definition set_status (status : RuntimeTurnStatus) : turn_op unit :=
  modify (fun self => self <| ta_status := status |>).
Definition clear_pending : turn_op unit :=
  modify (fun self => self <| ta_pending_approval_request_digest := None |>).

(** ** Transitions *)
Definition turn_prepare (id : Id) (scope : RuntimeTurnScope) (now : DateTime)
    : result RuntimeTurnError RuntimeTurnAttempt :=
  scope_validate scope;;
  scope_digest ← scope_digest scope;
  let attempt := mkTurnAttempt id scope None None None None None None None [] [] TsPrepared 0 now now in
  match run (append_evidence EkPrepared scope_digest now) attempt with
  | (Ok _, attempt) => turn_validate attempt;; mret attempt
  | (Err e, _) => Err e
  | (Panic, _) => Panic
  end.

Definition begin_dispatch (now : DateTime) : turn_op unit :=
  require_status TsPrepared;;
  set_status TsDispatching;;
  self ← get;
  let evidence := sha256_hex
    (String.append (rs_assembly_manifest_digest (ta_scope self)) (String.append ":"
    (String.append (rs_runtime_mapping_digest (ta_scope self)) (String.append ":"
    (pretty (wrapping_succ_u64 (ta_revision self))))))) in
  append_evidence EkDispatchStarted evidence now.

Definition fail_without_dispatch (evidence_digest : string) (now : DateTime) : turn_op unit :=
  require_status TsPrepared;;
  turn_record_failure FcDispatchNotSent evidence_digest now;;
  set_status TsFailed;;
  append_evidence EkFailed evidence_digest now.

Definition accept_dispatch (runtime_turn_id request_digest response_digest : string) (now : DateTime)
    : turn_op unit :=
  require_status TsDispatching;;
  reject (negb (is_identifier runtime_turn_id)
    || negb (is_digest request_digest)
    || negb (is_digest response_digest)) TeInvalidEvidence;;
  modify (fun self => self <| ta_runtime_turn_id_digest := Some (sha256_hex runtime_turn_id) |>
    <| ta_runtime_turn_id := Some runtime_turn_id |>
    <| ta_dispatch_request_digest := Some request_digest |>
    <| ta_dispatch_response_digest := Some response_digest |>);;
  set_status TsRunning;;
  append_evidence EkDispatchAccepted response_digest now.

Definition fail_dispatch (class : RuntimeTurnFailureClass) (evidence_digest : string) (definitive : bool)
    (now : DateTime) : turn_op unit :=
  require_status TsDispatching;;
  turn_record_failure class evidence_digest now;;
  set_status (if definitive then TsFailed else TsUncertain);;
  append_evidence (if definitive then EkFailed else EkUncertain) evidence_digest now.

Definition observe (kind : RuntimeTurnObservedKind) (evidence_digest : string) (now : DateTime) : turn_op unit :=
  self ← get;
  reject (negb (is_digest evidence_digest)) TeInvalidEvidence;;
  let active_with_identity := is_some (ta_runtime_turn_id self)
    && bool_decide (ta_status self ∈ [TsRunning; TsWaitingLocalApproval; TsInterruptRequested; TsUncertain]) in
  reject (negb active_with_identity) TeInvalidTransition;;
  evidence_kind ← match kind with
    | ObTurnStarted => mret EkTurnStarted
    | ObItemStarted => mret EkItemStarted
    | ObAgentMessageDelta => mret EkAgentMessageDelta
    | ObItemCompleted => mret EkItemCompleted
    | ObDiagnostic => mret EkDiagnostic
    | ObCompleted => set_status TsCompleted;; clear_pending;; mret EkCompleted
    | ObInterrupted => set_status TsInterrupted;; clear_pending;; mret EkInterrupted
    | ObFailed =>
        turn_record_failure FcRuntimeReportedFailure evidence_digest now;;
        set_status TsFailed;; clear_pending;; mret EkFailed
    end;
  append_evidence evidence_kind evidence_digest now.

Definition request_local_approval (request_digest : string) (now : DateTime) : turn_op unit :=
  require_status TsRunning;;
  self ← get;
  reject (negb (is_digest request_digest) || is_some (ta_pending_approval_request_digest self)) TeInvalidEvidence;;
  modify (fun self => self <| ta_pending_approval_request_digest := Some request_digest |>);;
  set_status TsWaitingLocalApproval;;
  append_evidence EkLocalApprovalRequested request_digest now.

Definition begin_local_approval_response (request_digest decision_digest : string) (now : DateTime) : turn_op unit :=
  require_status TsWaitingLocalApproval;;
  self ← get;
  reject (negb (bool_decide (ta_pending_approval_request_digest self = Some request_digest))
    || negb (is_digest decision_digest)) TeInvalidEvidence;;
  modify (fun self => self <| ta_approval_decision_digest := Some decision_digest |>);;
  set_status TsApprovalResponding;;
  append_evidence EkLocalApprovalResponseStarted decision_digest now.

Definition finish_local_approval_response (response_digest : string) (now : DateTime) : turn_op unit :=
  require_status TsApprovalResponding;;
  reject (negb (is_digest response_digest)) TeInvalidEvidence;;
  clear_pending;;
  set_status TsRunning;;
  append_evidence EkLocalApprovalResponseSent response_digest now.

Definition begin_interrupt (now : DateTime) : turn_op unit :=
  self ← get;
  reject (negb (bool_decide (ta_status self ∈ [TsRunning; TsWaitingLocalApproval]))) TeInvalidTransition;;
  clear_pending;;
  set_status TsInterruptRequested;;
  self ← get;
  let evidence := sha256_hex (String.append (ta_id self) (String.append ":interrupt:"
    (pretty (wrapping_succ_u64 (ta_revision self))))) in
  append_evidence EkInterruptRequested evidence now.

Definition confirm_interrupt (request_digest response_digest : string) (now : DateTime) : turn_op unit :=
  require_status TsInterruptRequested;;
  reject (negb (is_digest request_digest) || negb (is_digest response_digest)) TeInvalidEvidence;;
  modify (fun self => self <| ta_interrupt_request_digest := Some request_digest |>);;
  append_evidence EkInterruptAccepted response_digest now.

Definition freeze_uncertain (class : RuntimeTurnFailureClass) (evidence_digest : string) (now : DateTime)
    : turn_op unit :=
  self ← get;
  reject (negb (bool_decide (ta_status self ∈ [TsRunning; TsWaitingLocalApproval; TsApprovalResponding;
    TsInterruptRequested; TsDispatching]))) TeInvalidTransition;;
  turn_record_failure class evidence_digest now;;
  set_status TsUncertain;;
  append_evidence EkUncertain evidence_digest now.

Definition fence_after_coordinator_restart (now : DateTime) : turn_op RuntimeTurnRestartDisposition :=
  self ← get;
  match ta_status self with
  | TsPrepared =>
      fail_without_dispatch (sha256_hex "runtime-coordinator-restarted-before-dispatch-permit") now;;
      mret FailedBeforeDispatch
  | TsDispatching | TsRunning | TsWaitingLocalApproval | TsApprovalResponding | TsInterruptRequested =>
      freeze_uncertain FcCoordinatorRestart
        (sha256_hex "runtime-coordinator-restarted-with-live-or-ambiguous-turn") now;;
      mret FrozenUncertain
  | TsUncertain | TsCompleted | TsInterrupted | TsFailed => mret AlreadySafe
  end.

(** ** Private messages *)
Definition find_evidence (sequence : Z) (ledger : list RuntimeTurnEvidence) : option RuntimeTurnEvidence :=
  List.find (fun evidence => te_sequence evidence =? sequence) ledger.

(** [RuntimeTurnPrivateMessage::validate_for] *)
Definition message_validate_for (self : RuntimeTurnPrivateMessage) (attempt : RuntimeTurnAttempt)
    : result RuntimeTurnError unit :=
  evidence ← ok_or (find_evidence (pm_evidence_sequence self) (ta_evidence attempt)) TeInvalidPrivateMessage;
  reject_if (negb (bool_decide (pm_tenant_id self = rs_tenant_id (ta_scope attempt)))
    || negb (bool_decide (pm_project_id self = rs_project_id (ta_scope attempt)))
    || negb (bool_decide (pm_mission_id self = rs_mission_id (ta_scope attempt)))
    || negb (bool_decide (pm_runtime_turn_attempt_id self = ta_id attempt))
    || negb (pm_worker_generation self =? rs_worker_generation (ta_scope attempt))
    || negb (bool_decide (te_kind evidence = EkItemCompleted))
    || negb (is_digest (pm_item_id_digest self))
    || trim_is_empty (pm_body self)
    || (MAX_PRIVATE_MESSAGE_BYTES <? str_len (pm_body self))
    || negb (bool_decide (pm_body_digest self = sha256_hex (pm_body self)))
    || negb (bool_decide (pm_event_digest self = te_evidence_digest evidence))
    || negb (pm_observed_at self =? te_observed_at evidence)) TeInvalidPrivateMessage.

Definition capture_for_item (attempt : RuntimeTurnAttempt) (item_id_digest body : string)
    : result RuntimeTurnError RuntimeTurnPrivateMessage :=
  evidence ← ok_or (last (ta_evidence attempt)) TeInvalidPrivateMessage;
  let message := {|
    pm_tenant_id := rs_tenant_id (ta_scope attempt);
    pm_project_id := rs_project_id (ta_scope attempt);
    pm_mission_id := rs_mission_id (ta_scope attempt);
    pm_runtime_turn_attempt_id := ta_id attempt;
    pm_evidence_sequence := te_sequence evidence;
    pm_worker_generation := rs_worker_generation (ta_scope attempt);
    pm_item_id_digest := item_id_digest;
    pm_body := body;
    pm_body_digest := sha256_hex body;
    pm_event_digest := te_evidence_digest evidence;
    pm_observed_at := te_observed_at evidence;
  |} in
  message_validate_for message attempt;;
  mret message.

(** [RuntimeTurnPrivateMessage::capture] *)
Definition message_capture (attempt : RuntimeTurnAttempt) (body : string)
    : result RuntimeTurnError RuntimeTurnPrivateMessage :=
  capture_for_item attempt LEGACY_AGENT_MESSAGE_ITEM_DIGEST body.

(** ** Private text increments *)
Definition private_text_delta_chain_digest (previous_chain_digest item_id_digest : string)
    (stream_sequence cumulative_byte_count : Z) (delta_digest : string) (evidence_sequence : Z) : string :=
  sha256_hex (String.append previous_chain_digest (String.append ":"
    (String.append item_id_digest (String.append ":"
    (String.append (pretty stream_sequence) (String.append ":"
    (String.append (pretty cumulative_byte_count) (String.append ":"
    (String.append delta_digest (String.append ":" (pretty evidence_sequence))))))))))).

Definition text_stream_seed : string := "runtime-text-stream-v1".

(** Where the stream continues: sequence, chain digest and byte count. *)
Definition stream_position (previous : option RuntimeTurnPrivateTextDelta)
    : result RuntimeTurnError (Z * string * Z) :=
  match previous with
  | Some previous =>
      sequence ← ok_or (checked_add u64_max (td_stream_sequence previous) 1) TeRevisionOverflow;
      mret (sequence, td_chain_digest previous, td_cumulative_byte_count previous)
  | None => mret (1, text_stream_seed, 0)
  end.

Definition stream_is_broken (self previous : RuntimeTurnPrivateTextDelta) : bool :=
  negb (bool_decide (td_tenant_id previous = td_tenant_id self))
  || negb (bool_decide (td_project_id previous = td_project_id self))
  || negb (bool_decide (td_mission_id previous = td_mission_id self))
  || negb (bool_decide (td_runtime_turn_attempt_id previous = td_runtime_turn_attempt_id self))
  || negb (td_worker_generation previous =? td_worker_generation self)
  || negb (bool_decide (td_item_id_digest previous = td_item_id_digest self))
  || (td_evidence_sequence self <=? td_evidence_sequence previous).

(** [RuntimeTurnPrivateTextDelta::validate_for] *)
Definition delta_validate_for (self : RuntimeTurnPrivateTextDelta) (attempt : RuntimeTurnAttempt)
    (previous : option RuntimeTurnPrivateTextDelta) : result RuntimeTurnError unit :=
  evidence ← ok_or (find_evidence (td_evidence_sequence self) (ta_evidence attempt)) TeInvalidPrivateTextDelta;
  delta_byte_count ← ok_or (try_from_usize u64_max (String.length (td_delta self))) TeInvalidPrivateTextDelta;
  reject_if (is_some_and (stream_is_broken self) previous) TeInvalidPrivateTextDelta;;
  '(expected_sequence, previous_chain_digest, previous_byte_count) ← stream_position previous;
  expected_cumulative ← ok_or (checked_add u64_max previous_byte_count delta_byte_count) TeInvalidPrivateTextDelta;
  let expected_chain := private_text_delta_chain_digest previous_chain_digest (td_item_id_digest self)
    (td_stream_sequence self) (td_cumulative_byte_count self) (td_delta_digest self) (td_evidence_sequence self) in
  reject_if (negb (bool_decide (td_tenant_id self = rs_tenant_id (ta_scope attempt)))
    || negb (bool_decide (td_project_id self = rs_project_id (ta_scope attempt)))
    || negb (bool_decide (td_mission_id self = rs_mission_id (ta_scope attempt)))
    || negb (bool_decide (td_runtime_turn_attempt_id self = ta_id attempt))
    || negb (td_worker_generation self =? rs_worker_generation (ta_scope attempt))
    || negb (bool_decide (te_kind evidence = EkAgentMessageDelta))
    || negb (td_stream_sequence self =? expected_sequence)
    || String.eqb (td_delta self) ""
    || (MAX_PRIVATE_MESSAGE_BYTES <? str_len (td_delta self))
    || negb (is_digest (td_item_id_digest self))
    || negb (bool_decide (td_delta_digest self = sha256_hex (td_delta self)))
    || negb (td_cumulative_byte_count self =? expected_cumulative)
    || (MAX_PRIVATE_MESSAGE_BYTES <? td_cumulative_byte_count self)
    || negb (bool_decide (td_chain_digest self = expected_chain))
    || negb (bool_decide (td_event_digest self = te_evidence_digest evidence))
    || negb (td_observed_at self =? te_observed_at evidence)) TeInvalidPrivateTextDelta.

(** [RuntimeTurnPrivateTextDelta::capture] *)
Definition delta_capture (attempt : RuntimeTurnAttempt) (item_id_digest delta : string)
    (previous : option RuntimeTurnPrivateTextDelta) : result RuntimeTurnError RuntimeTurnPrivateTextDelta :=
  evidence ← ok_or (last (ta_evidence attempt)) TeInvalidPrivateTextDelta;
  delta_byte_count ← ok_or (try_from_usize u64_max (String.length delta)) TeInvalidPrivateTextDelta;
  '(stream_sequence, previous_chain_digest, previous_byte_count) ← stream_position previous;
  cumulative_byte_count ← ok_or (checked_add u64_max previous_byte_count delta_byte_count) TeInvalidPrivateTextDelta;
  let delta_digest := sha256_hex delta in
  let record := {|
    td_tenant_id := rs_tenant_id (ta_scope attempt);
    td_project_id := rs_project_id (ta_scope attempt);
    td_mission_id := rs_mission_id (ta_scope attempt);
    td_runtime_turn_attempt_id := ta_id attempt;
    td_evidence_sequence := te_sequence evidence;
    td_stream_sequence := stream_sequence;
    td_worker_generation := rs_worker_generation (ta_scope attempt);
    td_item_id_digest := item_id_digest;
    td_delta := delta;
    td_delta_digest := delta_digest;
    td_cumulative_byte_count := cumulative_byte_count;
    td_chain_digest := private_text_delta_chain_digest previous_chain_digest item_id_digest stream_sequence
      cumulative_byte_count delta_digest (te_sequence evidence);
    td_event_digest := te_evidence_digest evidence;
    td_observed_at := te_observed_at evidence;
  |} in
  delta_validate_for record attempt previous;;
  mret record.
End turn.
