(* ===== verification/TurnSafety.v ===== *)
(** * What the ledger of a runtime turn guarantees

    A turn is dispatched at most once, a finished turn is final, a call is
    stored exactly when it succeeded, and a turn is fenced after a restart
    exactly when no approval is pending on it. *)
From S2P Require Import Prelude RuntimeTurn.
Import Prelude.Fixture.

Lemma is_digest_hex `{Sha256Laws} s : is_digest (sha256_hex s) = true.
Proof. apply is_sha256_hex. Qed.
#[export] Hint Resolve is_digest_hex : kernel.

Section safety.
Context `{Sha256} `{TurnSerde}.
Implicit Types a b : RuntimeTurnAttempt.

(** ** Calls *)
Inductive TurnCall : Type :=
| CallBeginDispatch (now : DateTime)
| CallFailWithoutDispatch (evidence : string) (now : DateTime)
| CallAcceptDispatch (turn_id request response : string) (now : DateTime)
| CallFailDispatch (class : RuntimeTurnFailureClass) (evidence : string) (definitive : bool) (now : DateTime)
| CallObserve (kind : RuntimeTurnObservedKind) (evidence : string) (now : DateTime)
| CallRequestApproval (request : string) (now : DateTime)
| CallBeginResponse (request decision : string) (now : DateTime)
| CallFinishResponse (response : string) (now : DateTime)
| CallBeginInterrupt (now : DateTime)
| CallConfirmInterrupt (request response : string) (now : DateTime)
| CallFreeze (class : RuntimeTurnFailureClass) (evidence : string) (now : DateTime)
| CallFence (now : DateTime).

Definition turn_call (c : TurnCall) : SR RuntimeTurnAttempt RuntimeTurnError unit :=
  match c with
  | CallBeginDispatch now => begin_dispatch now
  | CallFailWithoutDispatch evidence now => fail_without_dispatch evidence now
  | CallAcceptDispatch turn_id request response now => accept_dispatch turn_id request response now
  | CallFailDispatch class evidence definitive now => fail_dispatch class evidence definitive now
  | CallObserve kind evidence now => observe kind evidence now
  | CallRequestApproval request now => request_local_approval request now
  | CallBeginResponse request decision now => begin_local_approval_response request decision now
  | CallFinishResponse response now => finish_local_approval_response response now
  | CallBeginInterrupt now => begin_interrupt now
  | CallConfirmInterrupt request response now => confirm_interrupt request response now
  | CallFreeze class evidence now => freeze_uncertain class evidence now
  | CallFence now => fence_after_coordinator_restart now;; mret tt
  end.

(** A run keeps whatever a failing call wrote. *)
Fixpoint turn_run (cs : list TurnCall) a : RuntimeTurnAttempt :=
  match cs with [] => a | c :: cs => turn_run cs (run (turn_call c) a).2 end.

(** ** The shape of a call

    Every call checks its guards without writing, edits some fields, and then
    appends one entry to the ledger. *)
Definition frame a := (ta_id a, ta_scope a, ta_created_at a, (ta_revision a, ta_evidence a, ta_updated_at a)).
Definition turn_ids a :=
  (ta_runtime_turn_id a, ta_runtime_turn_id_digest a, ta_dispatch_request_digest a, ta_dispatch_response_digest a).

Definition safe_statuses : list RuntimeTurnStatus := [TsUncertain; TsCompleted; TsInterrupted; TsFailed].
Definition is_fence (c : TurnCall) : bool := match c with CallFence _ => true | _ => false end.

Record edits a b (kind : RuntimeTurnEvidenceKind) (digest : string) : Prop := {
  ed_frame : frame b = frame a;
  ed_transition : valid_status_transition (ta_status a) (ta_status b) kind = true;
  ed_failures : ta_failures b = ta_failures a \/
    (exists f, ta_failures b = ta_failures a ++ [f] /\ tf_evidence_digest f = digest) /\ (length (ta_failures a) < MAX_TURN_FAILURES)%nat /\
    kind ∈ [EkFailed; EkUncertain];
  ed_ids : turn_ids b = turn_ids a /\ kind <> EkDispatchAccepted \/
    ta_status a = TsDispatching /\ kind = EkDispatchAccepted /\ is_Some (ta_runtime_turn_id b) /\
    ta_dispatch_response_digest b = Some digest;
  ed_known : ta_status a = TsUncertain -> is_Some (ta_runtime_turn_id a);
  ed_interrupt : ta_interrupt_request_digest b = ta_interrupt_request_digest a \/ kind = EkInterruptAccepted;
}.

(** Only a fence may succeed without an entry, on a turn that is safe. *)
Inductive call_shape (fence : bool) a : result RuntimeTurnError unit * RuntimeTurnAttempt -> Prop :=
| shape_refused o : is_ok o = false -> call_shape fence a (o, a)
| shape_safe : fence = true -> ta_status a ∈ safe_statuses -> call_shape fence a (Ok tt, a)
| shape_appended b kind digest now :
    edits a b kind digest -> call_shape fence a (run (append_evidence kind digest now) b).

Lemma run_require_bind {B} status (k : unit -> SR _ _ B) a :
  run (require_status status ≫= k) a =
  if bool_decide (ta_status a = status) then run (k tt) a else (Err TeInvalidTransition, a).
Proof. unfold require_status, reject, mbind, SR_mbind; cbn. by case_bool_decide. Qed.
Lemma run_set_status_bind {B} status (k : unit -> SR _ _ B) a :
  run (set_status status ≫= k) a = run (k tt) (a <| ta_status := status |>).
Proof. done. Qed.
Lemma run_clear_bind {B} (k : unit -> SR _ _ B) a :
  run (clear_pending ≫= k) a = run (k tt) (a <| ta_pending_approval_request_digest := None |>).
Proof. done. Qed.
Lemma run_failure_bind {B} class evidence now (k : unit -> SR _ _ B) a :
  run (turn_record_failure class evidence now ≫= k) a =
  if negb (is_digest evidence) || Nat.leb MAX_TURN_FAILURES (length (ta_failures a))
  then (Err TeInvalidEvidence, a)
  else run (k tt) (a <| ta_failures ::= fun l => l ++ [mkTurnFailure class evidence now] |>).
Proof. unfold turn_record_failure. cbn -[is_digest Nat.leb]. by destruct (negb _ || _). Qed.
Ltac walk :=
  repeat (lazymatch goal with
  | |- context [run (require_status _ ≫= _) _] => rewrite run_require_bind
  | |- context [run (reject _ _ ≫= _) _] => rewrite run_reject_bind
  | |- context [run (set_status _ ≫= _) _] => rewrite run_set_status_bind
  | |- context [run (clear_pending ≫= _) _] => rewrite run_clear_bind
  | |- context [run (turn_record_failure _ _ _ ≫= _) _] => rewrite run_failure_bind
  | |- context [run (get ≫= _) _] => rewrite run_get_bind
  | |- context [run (modify _ ≫= _) _] => rewrite run_modify_bind
  | |- context [run (mret _ ≫= _) _] => rewrite run_mret_bind
  | |- context [run ((_ ≫= _) ≫= _) _] => rewrite run_bind_assoc
  end; cbn beta).
Ltac guards :=
  repeat (walk; match goal with
  | |- call_shape _ _ (if ?g then _ else _) => destruct g eqn:?; try (by apply shape_refused)
  end); walk.
(** The edits of one call, once its guards are facts. *)
Ltac edit_facts :=
  split_guards; split; cbn -[valid_status_transition elem_of];
  lazymatch goal with
  | |- valid_status_transition _ _ _ = true => idtac
  | _ => first [ done
        | by left
        | by right; split_and!; [by eexists|apply Nat.leb_gt|set_solver]
        | by right; eexists
        | by right
        | congruence
        | idtac ]
  end.
Ltac edited := apply shape_appended; edit_facts.

Ltac by_status :=
  match goal with
  | Hin : ta_status ?a ∈ _ |- _ => by destruct (ta_status a); first [done | set_solver]
  | Hst : ta_status ?a = _ |- _ => by rewrite Hst
  end.

Lemma freeze_shape f class evidence now a : call_shape f a (run (freeze_uncertain class evidence now) a).
Proof. unfold freeze_uncertain. guards. edited; by_status. Qed.

Lemma fail_without_dispatch_shape f evidence now a : call_shape f a (run (fail_without_dispatch evidence now) a).
Proof. unfold fail_without_dispatch. guards. edited; by_status. Qed.

Lemma observe_shape f kind evidence now a : call_shape f a (run (observe kind evidence now) a).
Proof.
  unfold observe. guards.
  assert (ta_status a = TsUncertain -> is_Some (ta_runtime_turn_id a)) as Hknown.
  { intros _. split_guards. unfold is_some in *. by destruct (ta_runtime_turn_id a). }
  destruct kind; guards; edited; by_status.
Qed.

Definition fence_before_dispatch : string := sha256_hex "runtime-coordinator-restarted-before-dispatch-permit".
Definition fence_with_live_turn : string := sha256_hex "runtime-coordinator-restarted-with-live-or-ambiguous-turn".

Lemma run_fence now a :
  run (turn_call (CallFence now)) a =
  match ta_status a with
  | TsPrepared => run (fail_without_dispatch fence_before_dispatch now) a
  | TsDispatching | TsRunning | TsWaitingLocalApproval | TsApprovalResponding | TsInterruptRequested =>
      run (freeze_uncertain FcCoordinatorRestart fence_with_live_turn now) a
  | TsUncertain | TsCompleted | TsInterrupted | TsFailed => (Ok tt, a)
  end.
Proof.
  cbn [turn_call]. unfold fence_after_coordinator_restart. walk.
  assert (forall (m : SR RuntimeTurnAttempt RuntimeTurnError unit) (x : RuntimeTurnRestartDisposition),
    run ((m;; mret x);; mret tt) a = run m a) as Hm.
  { intros m x. unfold mbind, SR_mbind; cbn. by destruct (run m a) as [[[]| |]]. }
  destruct (ta_status a); rewrite ?Hm; done.
Qed.

Lemma fence_shape now a : call_shape true a (run (turn_call (CallFence now)) a).
Proof.
  rewrite run_fence. destruct (ta_status a) eqn:Hs;
    lazymatch goal with
    | |- call_shape _ _ (run (fail_without_dispatch _ _) _) => apply fail_without_dispatch_shape
    | |- call_shape _ _ (run (freeze_uncertain _ _ _) _) => apply freeze_shape
    | |- _ => apply shape_safe; [done|]; rewrite Hs; unfold safe_statuses; set_solver
    end.
Qed.

(** Every call has this shape. *)
Lemma turn_call_shape c a : call_shape (is_fence c) a (run (turn_call c) a).
Proof.
  destruct c as [|? ?| | ? ? [] ?| | | | | | | |];
    [ cbn [turn_call]; unfold begin_dispatch | apply fail_without_dispatch_shape | cbn [turn_call]; unfold accept_dispatch
    | cbn [turn_call]; unfold fail_dispatch | cbn [turn_call]; unfold fail_dispatch | apply observe_shape
    | cbn [turn_call]; unfold request_local_approval | cbn [turn_call]; unfold begin_local_approval_response
    | cbn [turn_call]; unfold finish_local_approval_response | cbn [turn_call]; unfold begin_interrupt
    | cbn [turn_call]; unfold confirm_interrupt | apply freeze_shape
    | apply fence_shape ]; guards; edited; by_status.
Qed.

(** ** Appending to the ledger *)
Definition appended (kind : RuntimeTurnEvidenceKind) (digest : string) (now : DateTime) b : RuntimeTurnAttempt :=
  b <| ta_evidence ::= fun l => l ++ [mkTurnEvidence (ta_revision b + 1) kind digest (ta_status b) now] |>
    <| ta_revision := ta_revision b + 1 |> <| ta_updated_at := now |>.

Lemma append_Ok kind digest now b u a' :
  run (append_evidence kind digest now) b = (Ok u, a') <->
  (is_digest digest = true /\ ta_updated_at b <= now /\ (length (ta_evidence b) < MAX_TURN_EVIDENCE)%nat /\
   ta_revision b < u64_max) /\ a' = appended kind digest now b /\ turn_validate a' = Ok tt.
Proof.
  unfold append_evidence. rewrite run_get_bind, run_reject_bind. split.
  - destruct (_ || _) eqn:Hg; [done|]. intros Hr. inv_ok. split_guards. destruct u.
    match goal with Hx : checked_add _ _ _ = Some _ |- _ => apply checked_add_Some in Hx as [-> ?] end.
    apply Nat.leb_gt in Hg. split_and!; try done; lia.
  - intros ((Hd & Hn & Hl & Hr) & -> & Hv). rewrite Hd, (proj2 (Z.ltb_ge _ _)), (proj2 (Nat.leb_gt _ _)) by done.
    unfold checked_add. rewrite (proj2 (Z.leb_le _ _)) by lia. destruct u. cbn -[turn_validate].
    change ((turn_validate (appended kind digest now b), appended kind digest now b) = (Ok tt, appended kind digest now b)).
    by rewrite Hv.
Qed.

Lemma append_failed kind digest now b o a' :
  run (append_evidence kind digest now) b = (o, a') -> is_ok o = false ->
  a' = b \/ is_ok (turn_validate a') = false.
Proof.
  unfold append_evidence. rewrite run_get_bind, run_reject_bind.
  destruct (_ || _) eqn:Hg; [intros [= <- <-]; by left|]. unfold checked_add. case_match; cbn -[turn_validate].
  - intros [= <- <-] Ho. by right.
  - intros [= <- <-]. by left.
Qed.

Lemma append_status kind digest now b : ta_status (run (append_evidence kind digest now) b).2 = ta_status b.
Proof.
  unfold append_evidence. rewrite run_get_bind, run_reject_bind. destruct (_ || _); [done|].
  unfold checked_add. by case_match.
Qed.

(** ** Dispatch *)
Lemma never_back_to_prepared p s k : valid_status_transition p s k = true -> s <> TsPrepared.
Proof. intros Ht ->. by destruct p, k. Qed.

Lemma finished_has_no_successor p s k : turn_is_terminal p = true -> valid_status_transition p s k = false.
Proof. by destruct p, s, k. Qed.

Lemma run_not_prepared cs a : ta_status a <> TsPrepared -> ta_status (turn_run cs a) <> TsPrepared.
Proof.
  revert a. induction cs as [|c cs IH]; [done|]. intros a Ha. apply IH.
  destruct (turn_call_shape c a) as [o _|_ _|b kind digest now He]; [done|done|].
  rewrite append_status. by eapply never_back_to_prepared, ed_transition.
Qed.

(** A turn is dispatched at most once. Once [begin_dispatch] has succeeded,
    it never succeeds again on the same attempt, whatever calls, failing ones
    included, happen in between. *)
Theorem turn_dispatched_at_most_once a now a1 cs now' :
  run (begin_dispatch now) a = (Ok tt, a1) -> is_ok (run (begin_dispatch now') (turn_run cs a1)).1 = false.
Proof.
  intros Hd. assert (ta_status a1 <> TsPrepared) as Hs.
  { unfold begin_dispatch in Hd. rewrite run_require_bind in Hd. case_bool_decide; [|done].
    rewrite run_set_status_bind, run_get_bind in Hd. apply (f_equal snd) in Hd. cbn [snd] in Hd. rewrite <- Hd.
    by rewrite append_status. }
  apply (run_not_prepared cs) in Hs. unfold begin_dispatch. rewrite run_require_bind. by rewrite bool_decide_eq_false_2.
Qed.

(** A finished turn is final. *)
Lemma finished_turn_is_final a cs : turn_is_terminal (ta_status a) = true -> turn_run cs a = a.
Proof.
  intros Ht. induction cs as [|c cs IH]; [done|]. cbn [turn_run].
  enough ((run (turn_call c) a).2 = a) as ->; [done|].
  destruct (turn_call_shape c a) as [o _|_ _|b kind digest now He]; [done|done|].
  pose proof (ed_transition _ _ _ _ He) as Hx. by rewrite (finished_has_no_successor _ _ _ Ht) in Hx.
Qed.

(** ** Reachable turns *)
Definition turn_step a a' : Prop := exists c, run (turn_call c) a = (Ok tt, a').
Definition turn_started a : Prop := exists id scope now, turn_prepare id scope now = Ok a.

(** How far a turn has come, read off its ledger. *)
Inductive ledger_shape a : Prop :=
| ls_prepared p : ta_status a = TsPrepared -> ta_evidence a = [p] -> turn_ids a = (None, None, None, None) ->
    ledger_shape a
| ls_dispatching p s : ta_status a = TsDispatching -> ta_evidence a = [p; s] -> te_kind s = EkDispatchStarted ->
    turn_ids a = (None, None, None, None) -> ledger_shape a
| ls_accepted p s acc rest : ta_status a ∉ [TsPrepared; TsDispatching] ->
    ta_evidence a = p :: s :: acc :: rest -> te_kind s = EkDispatchStarted -> te_kind acc = EkDispatchAccepted ->
    is_Some (ta_runtime_turn_id a) -> ta_dispatch_response_digest a = Some (te_evidence_digest acc) ->
    (forall e, e ∈ rest -> te_kind e ∉ [EkDispatchStarted; EkDispatchAccepted]) -> ledger_shape a
| ls_unaccepted : ta_status a ∈ [TsFailed; TsUncertain] -> ta_runtime_turn_id a = None -> ledger_shape a.

(** The failures a turn in this status can have. *)
Definition failure_budget (status : RuntimeTurnStatus) : nat :=
  match status with TsUncertain => 1 | TsFailed | TsCompleted | TsInterrupted => 2 | _ => 0 end.

Record in_order a : Prop := {
  io_valid : turn_validate a = Ok tt;
  io_shape : ledger_shape a;
  io_failures : (length (ta_failures a) <= failure_budget (ta_status a))%nat;
  io_clock : te_observed_at <$> last (ta_evidence a) = Some (ta_updated_at a);
}.

Lemma appended_shape a b kind digest now :
  edits a b kind digest -> ledger_shape a -> ledger_shape (appended kind digest now b).
Proof.
  intros [Hf Ht _ Hids Hknown _] Hs. injection Hf as _ _ _ _ Hev _.
  destruct Hs as [p Hst Hl Hi|p s Hst Hl Hk Hi|p s acc rest Hst Hl Hks Hka Hid Hresp Hrest|Hst Hid].
  - destruct Hids as [[Hids Hk]|(Hd & _)]; [|congruence]. rewrite Hst in Ht. rewrite Hi in Hids.
    destruct (ta_status b) eqn:Hb, kind; try done.
    + eapply (ls_dispatching _ p); [exact Hb|cbn; by rewrite Hev, Hl|done|done].
    + apply ls_unaccepted; cbn; [rewrite Hb; set_solver|]. by injection Hids.
  - rewrite Hst in Ht. destruct Hids as [[Hids Hk']|(_ & -> & Hid & Hresp)].
    + rewrite Hi in Hids. injection Hids as Hid _ _ _. apply ls_unaccepted; [|done].
      cbn. destruct (ta_status b), kind; try done; set_solver.
    + eapply (ls_accepted _ p s (mkTurnEvidence _ _ _ _ _) []); [|cbn; by rewrite Hev, Hl|done..|set_solver].
      cbn. destruct (ta_status b); try done; set_solver.
  - assert ((ta_status b ∉ [TsPrepared; TsDispatching]) /\ (kind ∉ [EkDispatchStarted; EkDispatchAccepted])) as [Hb Hkind].
    { destruct (ta_status a), (ta_status b), kind; try done; set_solver. }
    destruct Hids as [[Hids _]|(Hd & _)]; [|exfalso; set_solver]. injection Hids as Hid' _ _ Hresp'.
    eapply (ls_accepted _ p s acc (rest ++ [_])); try done; cbn.
    + by rewrite Hev, Hl.
    + by rewrite Hid'.
    + by rewrite Hresp'.
    + intros e [He| ->%list_elem_of_singleton]%elem_of_app; [by apply Hrest|done].
  - exfalso. apply elem_of_cons in Hst as [Hst|Hst%list_elem_of_singleton]; rewrite Hst in Ht.
    + by rewrite (finished_has_no_successor _ _ _ (eq_refl : turn_is_terminal TsFailed = true)) in Ht.
    + destruct (Hknown Hst) as [x Hx]. congruence.
Qed.

Lemma appended_failures a b kind digest :
  edits a b kind digest -> (length (ta_failures a) <= failure_budget (ta_status a))%nat ->
  (length (ta_failures b) <= failure_budget (ta_status b))%nat.
Proof.
  intros [_ Ht Hfail _ _ _] Hl. destruct Hfail as [->|((f & -> & _) & _ & Hk)]; [|rewrite length_app; cbn [length]].
  - destruct (ta_status a), (ta_status b), kind; cbn in *; try done; lia.
  - destruct (ta_status a), (ta_status b), kind; cbn in *; try done; try lia; set_solver.
Qed.

Lemma call_in_order c a a' : run (turn_call c) a = (Ok tt, a') -> in_order a ->
  a' = a \/ exists b kind digest now, edits a b kind digest /\ a' = appended kind digest now b /\
    is_digest digest = true /\ ta_updated_at a <= now /\ in_order a'.
Proof.
  intros Hr [Hv Hs Hf Hc]. destruct (turn_call_shape c a) as [o Ho|_ _|b kind digest now He].
  - injection Hr as -> _. done.
  - injection Hr as ->. by left.
  - right. exists b, kind, digest, now. apply append_Ok in Hr as ((Hd & Hn & _ & _) & -> & Hv').
    pose proof (ed_frame _ _ _ _ He) as Hfr. injection Hfr as _ _ _ _ _ Hup.
    split_and!; [done|done|done|by rewrite <- Hup|]. split; [done|eapply appended_shape; done|exact (appended_failures a b _ _ He Hf)|].
    cbn. by rewrite last_snoc.
Qed.

Lemma started_in_order a : turn_started a -> in_order a.
Proof.
  intros (id & scope & now & Hp). unfold turn_prepare in Hp. inv_ok. case_match eqn:Hr. case_match; try done. inv_ok.
  apply append_Ok in Hr as (_ & -> & Hv). split; [done| |cbn; lia|done]. eapply ls_prepared; done.
Qed.

Lemma reachable_in_order a0 a : turn_started a0 -> rtc turn_step a0 a -> in_order a.
Proof.
  intros Hs Hr. apply started_in_order in Hs. induction Hr as [|a0 a1 a [c Hc] _ IH]; [done|]. apply IH.
  destruct (call_in_order _ _ _ Hc Hs) as [->|(b & kind & digest & now & _ & _ & _ & _ & Hi)]; done.
Qed.

(** A turn that got under way was sent once and accepted once. Its ledger
    opens with the preparation, the dispatch and the acceptance, whose digest is the
    recorded response of the runtime, and no later entry is a second dispatch
    or a second acceptance. *)
Theorem running_turn_was_accepted_once a0 a :
  turn_started a0 -> rtc turn_step a0 a -> ta_status a ∉ [TsPrepared; TsDispatching; TsFailed; TsUncertain] ->
  exists prepared started accepted rest, ta_evidence a = prepared :: started :: accepted :: rest /\
    te_kind prepared = EkPrepared /\ te_kind started = EkDispatchStarted /\ te_kind accepted = EkDispatchAccepted /\
    ta_dispatch_response_digest a = Some (te_evidence_digest accepted) /\
    forall e, e ∈ rest -> te_kind e ∉ [EkDispatchStarted; EkDispatchAccepted].
Proof.
  intros Hs Hr Hst. destruct (reachable_in_order _ _ Hs Hr) as [Hv Hshape _ _].
  destruct Hshape as [p Hx|p s Hx|p s acc rest _ Hl Hks Hka _ Hresp Hrest|Hx _]; [rewrite Hx in Hst; set_solver..| |set_solver].
  exists p, s, acc, rest. split_and!; try done.
  unfold turn_validate in Hv. inv_ok. unfold turn_header_is_invalid in *. rewrite Hl in *. by split_guards.
Qed.

(** ** Storage *)
Lemma not_lost_same x : lost x x = false.
Proof. destruct x; [|done]. cbn. by rewrite bool_decide_eq_true_2. Qed.

(** The interrupt request a call leaves. *)
Definition interrupt_of (c : TurnCall) a : option string :=
  match c with CallConfirmInterrupt request _ _ => Some request | _ => ta_interrupt_request_digest a end.

Lemma turn_call_interrupt c a a' :
  run (turn_call c) a = (Ok tt, a') -> ta_interrupt_request_digest a' = interrupt_of c a.
Proof.
  assert (forall kind digest now b, ta_interrupt_request_digest (run (append_evidence kind digest now) b).2
    = ta_interrupt_request_digest b) as Happ
    by (intros; apply (preserves (f:=ta_interrupt_request_digest))).
  destruct c; intros Hr; cbn [interrupt_of].
  10: { unfold turn_call, confirm_interrupt in Hr. inv_run.
        match goal with Hx : run (append_evidence _ _ _) _ = _ |- _ =>
          apply (f_equal snd) in Hx; cbn [snd] in Hx; rewrite <- Hx end. by rewrite Happ. }
  all: apply (f_equal snd) in Hr; cbn [snd] in Hr; rewrite <- Hr;
    refine (preserves (f:=ta_interrupt_request_digest) (m:=turn_call _) a); cbn [turn_call];
    unfold begin_dispatch, fail_without_dispatch, accept_dispatch, fail_dispatch, observe, request_local_approval,
      begin_local_approval_response, finish_local_approval_response, begin_interrupt, freeze_uncertain,
      fence_after_coordinator_restart, fail_without_dispatch, freeze_uncertain, require_status, set_status,
      clear_pending, turn_record_failure, append_evidence; cbn zeta; apply _.
Qed.

(** The calls that succeed and that storage still refuses: a fence on a turn
    that is already safe appends nothing, and a confirmation of an interrupt
    may name another request than the one already confirmed. *)
Definition not_storable (c : TurnCall) a : bool :=
  match c with
  | CallFence _ => bool_decide (ta_status a ∈ safe_statuses)
  | CallConfirmInterrupt request _ _ => lost (ta_interrupt_request_digest a) (Some request)
  | _ => false
  end.

Lemma failures_grow a b kind digest : edits a b kind digest ->
  ta_failures a `prefix_of` ta_failures b /\ (length (ta_failures a) <= length (ta_failures b) <= length (ta_failures a) + 1)%nat.
Proof.
  intros [_ _ [->|((f & -> & _) & _)] _ _ _]; [split; [done|lia]|]. split; [by eexists|]. rewrite length_app. cbn. lia.
Qed.

Lemma ids_not_lost a b kind digest : edits a b kind digest -> ledger_shape a ->
  lost (ta_runtime_turn_id a) (ta_runtime_turn_id b) = false /\
  lost (ta_runtime_turn_id_digest a) (ta_runtime_turn_id_digest b) = false /\
  lost (ta_dispatch_request_digest a) (ta_dispatch_request_digest b) = false /\
  lost (ta_dispatch_response_digest a) (ta_dispatch_response_digest b) = false.
Proof.
  intros [_ _ _ [[Hids _]|(Hst & _)] _ _] Hs.
  - injection Hids as -> -> -> ->. by rewrite !not_lost_same.
  - destruct Hs as [p Hx|p s _ _ _ Hids|p s acc rest Hx|Hx _]; [congruence| |rewrite Hst in Hx; set_solver..].
    injection Hids as -> -> -> ->. done.
Qed.

Lemma valid_revision a : turn_validate a = Ok tt ->
  0 < ta_revision a <= 4096 /\ ta_revision a = Z.of_nat (length (ta_evidence a)).
Proof.
  intros Hv. unfold turn_validate in Hv. inv_ok. unfold turn_header_is_invalid in *. split_guards.
  match goal with Hm : Nat.ltb MAX_TURN_EVIDENCE _ = false |- _ => apply Nat.ltb_ge in Hm; unfold MAX_TURN_EVIDENCE in Hm end.
  lia.
Qed.

Lemma stored_call a b kind digest now :
  in_order a -> edits a b kind digest -> turn_validate (appended kind digest now b) = Ok tt ->
  lost (ta_interrupt_request_digest a) (ta_interrupt_request_digest b) = false ->
  validate_transition_from (appended kind digest now b) a = Ok tt.
Proof.
  intros Ha He Hv Hint. unfold validate_transition_from. rewrite Hv, (io_valid _ Ha). cbn [mbind result_mbind].
  pose proof (failures_grow _ _ _ _ He) as [Hpre Hlen]. pose proof (ids_not_lost _ _ _ _ He (io_shape _ Ha)) as (H1 & H2 & H3 & H4).
  pose proof (ed_transition _ _ _ _ He) as Ht. pose proof (ed_frame _ _ _ _ He) as Hf. injection Hf as Hid Hsc Hcr Hrev Hev _.
  assert (0 <= ta_revision a < u64_max) as Hbound.
  { pose proof (valid_revision _ (io_valid _ Ha)). unfold u64_max. lia. }
  unfold appended. cbn -[validate_transition_from lost valid_status_transition Nat.ltb]. rewrite last_snoc. cbn [mbind result_mbind ok_or te_kind].
  rewrite Hid, Hsc, Hcr, Hrev, Hev, H1, H2, H3, H4, Hint, Ht, wrapping_succ_small, length_app by done. cbn [length].
  rewrite !bool_decide_eq_true_2 by (done || by eexists). rewrite !Z.eqb_refl, Nat.eqb_refl.
  by rewrite !(proj2 (Nat.ltb_ge _ _)) by lia.
Qed.

Lemma same_revision_refused a a' : turn_validate a = Ok tt -> ta_revision a' = ta_revision a ->
  is_ok (validate_transition_from a' a) = false.
Proof.
  intros Ha Hrev. unfold validate_transition_from. destruct (turn_validate a') as [[]| |]; [|done..]. rewrite Ha.
  cbn [mbind result_mbind]. destruct (last (ta_evidence a')); [|done]. cbn [mbind result_mbind ok_or].
  destruct (reject_if _ _) as [[]| |] eqn:Hg; try done. apply reject_if_Ok in Hg. split_guards.
  exfalso. pose proof (valid_revision _ Ha).
  match goal with Hx : (_ =? wrapping_succ_u64 _) = true |- _ => rewrite wrapping_succ_small in Hx by (unfold u64_max; lia) end.
  lia.
Qed.

Lemma lost_interrupt_refused a a' :
  lost (ta_interrupt_request_digest a) (ta_interrupt_request_digest a') = true ->
  is_ok (validate_transition_from a' a) = false.
Proof.
  intros Hl. unfold validate_transition_from. destruct (turn_validate a') as [[]| |]; [|done..].
  destruct (turn_validate a) as [[]| |]; [|done..]. cbn [mbind result_mbind].
  destruct (last (ta_evidence a')); [|done]. cbn [mbind result_mbind ok_or]. by rewrite Hl, orb_true_r.
Qed.

(** An accepted call is storable unless it loses the interrupt request. *)
Lemma accepted_storable c a a' :
  in_order a -> run (turn_call c) a = (Ok tt, a') -> a' <> a ->
  is_ok (validate_transition_from a' a) = negb (lost (ta_interrupt_request_digest a) (interrupt_of c a)).
Proof.
  intros Ha Hc Hne. destruct (call_in_order _ _ _ Hc Ha) as [?|(b & kind & digest & now & He & -> & _ & _ & Hi)]; [done|].
  rewrite <- (turn_call_interrupt _ _ _ Hc).
  destruct (lost _ _) eqn:Hl; [by apply lost_interrupt_refused|].
  by rewrite (stored_call a b kind digest now Ha He (io_valid _ Hi) Hl).
Qed.

(** C20: storage accepts exactly the calls that succeeded, two apart. On a
    reachable turn, the attempt a call leaves passes the transition check of
    storage if and only if the call succeeded and is neither a fence of a turn
    that is already uncertain, completed, interrupted or failed (which appends
    nothing) nor the confirmation of an interrupt under another request than
    the one confirmed before. In particular whatever a failing call left
    behind is refused. *)
Theorem stored_exactly_when_accepted a0 a c :
  turn_started a0 -> rtc turn_step a0 a ->
  let '(o, a') := run (turn_call c) a in
  is_ok (validate_transition_from a' a) = is_ok o && negb (not_storable c a).
Proof.
  intros Hs Hr. pose proof (reachable_in_order _ _ Hs Hr) as Ha. pose proof (io_valid _ Ha) as Hv.
  destruct (run (turn_call c) a) as [o a'] eqn:Hc. pose proof (turn_call_shape c a) as Hshape. rewrite Hc in Hshape.
  remember (o, a') as r eqn:Heq. destruct Hshape as [o' Ho|Hf Hst|b kind digest now He].
  - injection Heq as -> ->. rewrite Ho. by apply same_revision_refused.
  - injection Heq as <- <-. destruct c; try done. cbn [not_storable]. rewrite bool_decide_eq_true_2 by done.
    by apply same_revision_refused.
  - pose proof (ed_frame _ _ _ _ He) as Hfr. injection Hfr as _ _ _ Hrev _ _. destruct (is_ok o) eqn:Ho; cbn [andb].
    + destruct o as [[]| |]; try done. rewrite Heq in Hc. apply append_Ok in Heq as (_ & Ha' & _).
      assert (a' <> a) as Hne by (intros ->; apply (f_equal ta_revision) in Ha'; cbn in Ha'; lia).
      rewrite (accepted_storable _ _ _ Ha Hc Hne). f_equal. destruct c; cbn [interrupt_of not_storable]; rewrite ?not_lost_same; try done.
      symmetry. apply bool_decide_eq_false_2. intros Hin. rewrite run_fence in Hc.
      destruct (ta_status a) eqn:Hst; try (injection Hc; congruence); unfold safe_statuses in Hin; set_solver.
    + destruct (append_failed _ _ _ _ _ _ Heq Ho) as [->|Hbad]; [by apply same_revision_refused|].
      unfold validate_transition_from. by destruct (turn_validate a') as [[]| |].
Qed.













End safety.

(** ** A concrete turn *)
Module Turn.
#[export] Instance serde : TurnSerde := fun _ => Some "scope".
Definition scope : RuntimeTurnScope :=
  mkTurnScope PurposeAgent "tenant" "project" "mission" "workspace" "capsule" 1 zeros64 "branch" 1 "worker" 1 "lease" 1 1
    "assembly" 1 zeros64 zeros64 zeros64 "checkpoint" zeros64 "recovery" 1 zeros64 zeros64 "thread" zeros64.
Definition started : RuntimeTurnAttempt :=
  match turn_prepare "turn" scope 100 with
  | Ok a => a
  | _ => mkTurnAttempt "" scope None None None None None None None [] [] TsPrepared 0 0 0
  end.
Definition dispatching : RuntimeTurnAttempt := (run (turn_call (CallBeginDispatch 110)) started).2.
Definition running : RuntimeTurnAttempt :=
  (run (turn_call (CallAcceptDispatch "runtime-turn" zeros64 zeros64 120)) dispatching).2.

Lemma turn_is_started : turn_started started.
Proof. exists "turn", scope, 100. by vm_compute. Qed.
Lemma dispatching_step : turn_step started dispatching.
Proof. exists (CallBeginDispatch 110). by vm_compute. Qed.
Lemma running_step : turn_step dispatching running.
Proof. exists (CallAcceptDispatch "runtime-turn" zeros64 zeros64 120). by vm_compute. Qed.
Lemma running_reached : rtc turn_step started running.
Proof. eapply rtc_l; [exact dispatching_step|]. eapply rtc_once. exact running_step. Qed.

(** A failing confirmation writes its request and leaves it behind. *)
Definition interrupting : RuntimeTurnAttempt := (run (turn_call (CallBeginInterrupt 140)) running).2.
Example failing_call_writes :
  let '(o, a) := run (turn_call (CallConfirmInterrupt zeros64 zeros64 50)) interrupting in
  is_ok o = false /\ ta_interrupt_request_digest interrupting = None /\ ta_interrupt_request_digest a = Some zeros64.
Proof. by vm_compute. Qed.

(** A second confirmation under another request succeeds and is refused by
    storage; under the same request it is stored. *)
Definition confirmed : RuntimeTurnAttempt := (run (turn_call (CallConfirmInterrupt zeros64 zeros64 150)) interrupting).2.
Example second_confirmation :
  let other := "1111111111111111111111111111111111111111111111111111111111111111" in
  let '(o, a) := run (turn_call (CallConfirmInterrupt other zeros64 160)) confirmed in
  let '(o', a') := run (turn_call (CallConfirmInterrupt zeros64 zeros64 160)) confirmed in
  is_ok o = true /\ is_ok (validate_transition_from a confirmed) = false /\
  is_ok o' = true /\ is_ok (validate_transition_from a' confirmed) = true.
Proof. by vm_compute. Qed.
End Turn.
#[local] Existing Instance Turn.serde.

Lemma turn_dispatched_at_most_once_witness :
  is_ok (run (begin_dispatch 200) (turn_run [CallFreeze FcEventStream zeros64 150] Turn.dispatching)).1 = false.
Proof.
  refine (turn_dispatched_at_most_once Turn.started 110 Turn.dispatching [CallFreeze FcEventStream zeros64 150] 200 _).
  by vm_compute.
Defined.

Lemma running_turn_was_accepted_once_witness : exists prepared started accepted rest,
  ta_evidence Turn.running = prepared :: started :: accepted :: rest /\ te_kind accepted = EkDispatchAccepted.
Proof.
  destruct (running_turn_was_accepted_once Turn.started Turn.running Turn.turn_is_started Turn.running_reached
    ltac:(refine (bool_decide_unpack _ _); by vm_compute)) as (p & s & acc & rest & Hl & _ & _ & Hk & _).
  exists p, s, acc, rest. exact (conj Hl Hk).
Defined.

Lemma stored_exactly_when_accepted_witness :
  let '(o, a') := run (turn_call (CallObserve ObCompleted zeros64 130)) Turn.running in
  is_ok (validate_transition_from a' Turn.running)
  = is_ok o && negb (not_storable (CallObserve ObCompleted zeros64 130) Turn.running).
Proof.
  exact (stored_exactly_when_accepted Turn.started Turn.running (CallObserve ObCompleted zeros64 130)
    Turn.turn_is_started Turn.running_reached).
Defined.

