(* ===== verification/TurnStream.v ===== *)
(** * The private text stream of a runtime turn

    The increments of an assistant message carry a chain of digests. A stream
    whose increments validate one after the other accounts for every byte, and
    its last chain digest determines the whole stream. *)
From S2P Require Import Prelude Text RuntimeTurn TurnSafety.
Import Prelude.Fixture.

(** ** Fields separated by colons *)
Definition not_colon (b : Z) : bool := negb (b =? 58).
Abbreviation colon_free := (fun s => all_bytes not_colon s = true) (only parsing).

Lemma colon_split a b r t : all_bytes not_colon a = true -> all_bytes not_colon b = true ->
  String.append a (String.append ":" r) = String.append b (String.append ":" t) -> a = b /\ r = t.
Proof.
  revert b. induction a as [|c a IH]; intros [|d b] Ha Hb He; rewrite ?append_String in He; cbn in Ha, Hb.
  - by injection He.
  - injection He as <- _. by destruct (andb_prop _ _ Hb).
  - injection He as -> _. by destruct (andb_prop _ _ Ha).
  - injection He as -> He. destruct (andb_prop _ _ Ha), (andb_prop _ _ Hb).
    destruct (IH b) as [-> ->]; done.
Qed.

Lemma pretty_go_colon_free x s : all_bytes not_colon s = true -> all_bytes not_colon (pretty_N_go x s) = true.
Proof.
  revert s. induction (N.lt_wf_0 x) as [x _ IH]. intros s Hs.
  destruct (decide (x = 0)%N) as [->|Hx]; [by rewrite pretty_N_go_0|].
  rewrite pretty_N_go_step by lia. apply IH; [apply N.div_lt; lia|]. cbn. rewrite Hs, andb_true_r.
  unfold pretty_N_char. by repeat case_match.
Qed.

Lemma pretty_N_colon_free (n : N) : all_bytes not_colon (pretty n) = true.
Proof. unfold pretty, pretty_N. case_decide; [done|]. by apply pretty_go_colon_free. Qed.

Lemma pretty_colon_free (z : Z) : all_bytes not_colon (pretty z) = true.
Proof.
  destruct z as [|p|p]; [done|apply (pretty_N_colon_free (N.pos p))|].
  change (pretty (Z.neg p)) with (String.append "-" (pretty (N.pos p))). rewrite append_String. cbn -[pretty].
  apply pretty_N_colon_free.
Qed.

Lemma hex_colon_free s : all_bytes is_ascii_hexdigit s = true -> all_bytes not_colon s = true.
Proof. apply all_bytes_mono. unfold is_ascii_hexdigit, is_ascii_digit, not_colon. lia. Qed.

Section stream.
Context `{Sha256} `{TurnSerde}.
Implicit Types d : RuntimeTurnPrivateTextDelta.

(** ** Streams

    The increments of one message, newest first: each is validated against the
    one before it. *)
Inductive stream (attempt : RuntimeTurnAttempt) : list RuntimeTurnPrivateTextDelta -> Prop :=
| stream_first d : delta_validate_for d attempt None = Ok tt -> stream attempt [d]
| stream_next d p l : stream attempt (p :: l) -> delta_validate_for d attempt (Some p) = Ok tt ->
    stream attempt (d :: p :: l).

(** The text a stream adds up to. *)
Fixpoint stream_text (l : list RuntimeTurnPrivateTextDelta) : string :=
  match l with [] => "" | d :: l => String.append (stream_text l) (td_delta d) end.

Definition chain_before (l : list RuntimeTurnPrivateTextDelta) : string :=
  match l with [] => text_stream_seed | p :: _ => td_chain_digest p end.

(** What is hashed into the chain digest of [d]. *)
Definition chain_input (before : string) d : string :=
  String.append before (String.append ":" (String.append (td_item_id_digest d) (String.append ":"
    (String.append (pretty (td_stream_sequence d)) (String.append ":"
    (String.append (pretty (td_cumulative_byte_count d)) (String.append ":"
    (String.append (td_delta_digest d) (String.append ":" (pretty (td_evidence_sequence d))))))))))).

(** What validation establishes of an increment after the increments [l]. *)
Record checked (l : list RuntimeTurnPrivateTextDelta) d : Prop := {
  ch_item : is_digest (td_item_id_digest d) = true;
  ch_delta : td_delta_digest d = sha256_hex (td_delta d);
  ch_sequence : td_stream_sequence d = default 0 (td_stream_sequence <$> head l) + 1;
  ch_bytes : td_cumulative_byte_count d = default 0 (td_cumulative_byte_count <$> head l) + str_len (td_delta d);
  ch_bound : td_cumulative_byte_count d <= MAX_PRIVATE_MESSAGE_BYTES;
  ch_chain : td_chain_digest d = sha256_hex (chain_input (chain_before l) d);
}.

Lemma stream_position_Ok l sequence chain count : stream_position (head l) = Ok (sequence, chain, count) ->
  sequence = default 0 (td_stream_sequence <$> head l) + 1 /\ chain = chain_before l /\
  count = default 0 (td_cumulative_byte_count <$> head l).
Proof.
  destruct l as [|p l]; cbn; intros Hp; inv_ok; [done|].
  match goal with Hx : checked_add _ _ _ = Some _ |- _ => by apply checked_add_Some in Hx as [-> _] end.
Qed.

Lemma delta_checked attempt l d : delta_validate_for d attempt (head l) = Ok tt -> checked l d.
Proof.
  unfold delta_validate_for. intros Hv. inv_ok. destruct x1 as [[sequence chain] count].
  match goal with Hx : stream_position _ = _ |- _ => apply stream_position_Ok in Hx as (-> & -> & ->) end.
  inv_ok. split_guards. repeat match goal with
  | Hx : checked_add _ _ _ = Some _ |- _ => apply checked_add_Some in Hx as [-> _]
  | Hx : try_from_usize _ _ = Some _ |- _ => unfold try_from_usize in Hx; case_match; simplify_eq
  end.
  split; try done; unfold str_len; lia.
Qed.

Lemma stream_cons attempt d l : stream attempt (d :: l) -> checked l d /\ (l = [] \/ stream attempt l).
Proof.
  inversion 1 as [d' Hv|d' p l' Hs Hv]; subst; (split; [|by auto]).
  - by apply (delta_checked attempt []).
  - by apply (delta_checked attempt (p :: l')).
Qed.

Lemma length_append a b : String.length (String.append a b) = (String.length a + String.length b)%nat.
Proof. induction a as [|c a IH]; [done|]. rewrite append_String. cbn. by rewrite IH. Qed.

(** A stream accounts for its text: the newest increment states how many
    increments and how many bytes there are, and the bytes stay within the
    limit of one message. *)
Lemma stream_is_accounted attempt d l : stream attempt (d :: l) ->
  td_stream_sequence d = Z.of_nat (length (d :: l)) /\
  td_cumulative_byte_count d = str_len (stream_text (d :: l)) /\
  str_len (stream_text (d :: l)) <= MAX_PRIVATE_MESSAGE_BYTES.
Proof.
  revert d. induction l as [|p l IH]; intros d (Hc & Hs)%stream_cons.
  - destruct Hc as [_ _ Hseq Hb Hbound _]. cbn [head fmap option_fmap option_map default id] in Hseq, Hb. cbn [stream_text length].
    change (String.append "" (td_delta d)) with (td_delta d). cbn in Hseq, Hb. lia.
  - destruct Hs as [|Hs]; [done|]. destruct (IH p Hs) as (Hp & Hpb & _). destruct Hc as [_ _ Hseq Hb Hbound _].
    cbn [head fmap option_fmap option_map default id] in Hseq, Hb. cbn [stream_text length] in *. unfold str_len in *.
    rewrite length_append. lia.
Qed.

(** ** Binding *)
Fixpoint preimages (l : list RuntimeTurnPrivateTextDelta) : list string :=
  match l with [] => [] | d :: l => chain_input (chain_before l) d :: td_delta d :: preimages l end.

Definition collide (X Y : list string) : Prop :=
  exists x y, x ∈ X /\ y ∈ Y /\ x <> y /\ sha256_hex x = sha256_hex y.

Definition increment d := (td_item_id_digest d, td_delta d, td_evidence_sequence d).

Context `{!Sha256Laws}.

Lemma chain_before_colon_free attempt l : stream attempt l \/ l = [] -> all_bytes not_colon (chain_before l) = true.
Proof.
  intros [Hs| ->]; [|by vm_compute]. destruct l as [|d l]; [by vm_compute|]. apply stream_cons in Hs as [Hc _]. cbn.
  rewrite (ch_chain _ _ Hc). pose proof (is_sha256_hex (chain_input (chain_before l) d)) as Hh.
  apply andb_prop in Hh as [_ Hh]. by apply hex_colon_free.
Qed.

(** Equal inputs to the chain have equal fields. *)
Lemma chain_input_inj before before' d d' :
  all_bytes not_colon before = true -> all_bytes not_colon before' = true ->
  is_digest (td_item_id_digest d) = true -> is_digest (td_item_id_digest d') = true ->
  is_digest (td_delta_digest d) = true -> is_digest (td_delta_digest d') = true ->
  chain_input before d = chain_input before' d' ->
  before = before' /\ td_item_id_digest d = td_item_id_digest d' /\ td_delta_digest d = td_delta_digest d' /\
  td_evidence_sequence d = td_evidence_sequence d'.
Proof.
  assert (forall s, is_digest s = true -> all_bytes not_colon s = true) as Hd.
  { intros s [_ Hs]%andb_prop. by apply hex_colon_free. }
  intros Hb Hb' Hi Hi' Ht Ht' He. unfold chain_input in He.
  apply colon_split in He as [-> He]; [|done..]. apply colon_split in He as [-> He]; [|by apply Hd..].
  apply colon_split in He as [_ He]; [|apply pretty_colon_free..].
  apply colon_split in He as [_ He]; [|apply pretty_colon_free..].
  apply colon_split in He as [-> He]; [|by apply Hd..]. apply (inj pretty) in He. done.
Qed.

(** A seed is no digest. *)
Lemma seed_starts attempt l : stream attempt l \/ l = [] -> chain_before l = text_stream_seed -> l = [].
Proof.
  intros [Hs| ->] He; [|done]. destruct l as [|d l]; [done|]. apply stream_cons in Hs as [Hc _]. cbn in He.
  rewrite (ch_chain _ _ Hc) in He. pose proof (sha256_hex_shape (chain_input (chain_before l) d)) as [Hlen _].
  by rewrite He in Hlen.
Qed.

Lemma collide_mono X X' Y Y' : X ⊆ X' -> Y ⊆ Y' -> collide X Y -> collide X' Y'.
Proof. intros HX HY (x & y & Hx & Hy & Hne & He). exists x, y. auto. Qed.

Lemma same_hash x y X Y : sha256_hex x = sha256_hex y -> x ∈ X -> y ∈ Y -> x = y \/ collide X Y.
Proof. intros. destruct (decide (x = y)); [by left|]. right. by exists x, y. Qed.

(** One link of the chain. *)
Lemma same_link attempt attempt' d l d' l' :
  stream attempt (d :: l) -> stream attempt' (d' :: l') -> td_chain_digest d = td_chain_digest d' ->
  (chain_before l = chain_before l' /\ increment d = increment d') \/ collide (preimages (d :: l)) (preimages (d' :: l')).
Proof.
  intros [Hc Hl]%stream_cons [Hc' Hl']%stream_cons He. rewrite (ch_chain _ _ Hc), (ch_chain _ _ Hc') in He.
  apply or_comm in Hl, Hl'. cbn [preimages].
  destruct (same_hash _ _ (preimages (d :: l)) (preimages (d' :: l')) He) as [Hin|Hx]; [set_solver..| |by right].
  apply chain_input_inj in Hin as (Hb & Hi & Hd & Hev);
    [|by eapply chain_before_colon_free|by eapply chain_before_colon_free|apply Hc|apply Hc'
     |rewrite (ch_delta _ _ Hc); by auto with kernel|rewrite (ch_delta _ _ Hc'); by auto with kernel].
  rewrite (ch_delta _ _ Hc), (ch_delta _ _ Hc') in Hd.
  destruct (same_hash _ _ (preimages (d :: l)) (preimages (d' :: l')) Hd) as [Hdelta|Hx]; [set_solver..| |by right].
  left. split; [done|]. unfold increment. congruence.
Qed.

(** C21: the last chain digest determines the whole stream. When two validated
    streams end in the same chain digest, they consist of the same increments
    - the same texts of the same item, at the same entries of the ledger, none
    omitted, reordered or spliced in - or two of the strings hashed along
    them are a collision of SHA-256. *)
Theorem text_stream_is_tamper_evident attempt attempt' d l d' l' :
  stream attempt (d :: l) -> stream attempt' (d' :: l') -> td_chain_digest d = td_chain_digest d' ->
  increment <$> (d :: l) = increment <$> (d' :: l') \/ collide (preimages (d :: l)) (preimages (d' :: l')).
Proof.
  revert d d' l'. induction l as [|p l IH]; intros d d' l' Hs Hs' He;
    (destruct (same_link _ _ _ _ _ _ Hs Hs' He) as [[Hb Hi]|Hx]; [|by right]);
    apply stream_cons in Hs as [_ Hs]; apply stream_cons in Hs' as [_ Hs'].
  - left. apply or_comm in Hs'. rewrite (seed_starts _ _ Hs' (eq_sym Hb)). cbn. by rewrite Hi.
  - destruct Hs as [|Hs]; [done|]. destruct Hs' as [->|Hs'].
    { by apply (seed_starts attempt) in Hb; [|left]. }
    destruct l' as [|p' l']; [by inversion Hs'|]. destruct (IH p p' l' Hs Hs' Hb) as [Hr|Hx].
    + left. cbn [fmap list_fmap] in *. by rewrite Hi, Hr.
    + right. eapply collide_mono; [| |exact Hx]; cbn [preimages]; set_solver.
Qed.
End stream.

(** ** A concrete stream *)
Module Stream.
Definition first_delta : RuntimeTurnAttempt := (run (turn_call (CallObserve ObAgentMessageDelta zeros64 130)) Turn.running).2.
Definition second_delta : RuntimeTurnAttempt := (run (turn_call (CallObserve ObAgentMessageDelta zeros64 140)) first_delta).2.
Definition captured (r : result RuntimeTurnError RuntimeTurnPrivateTextDelta) : RuntimeTurnPrivateTextDelta :=
  match r with Ok d => d | _ => mkTextDelta "" "" "" "" 0 0 0 "" "" "" 0 "" "" 0 end.
Definition hello : RuntimeTurnPrivateTextDelta := captured (delta_capture first_delta zeros64 "hello " None).
Definition world : RuntimeTurnPrivateTextDelta := captured (delta_capture second_delta zeros64 "world" (Some hello)).

Lemma hello_world : stream second_delta [world; hello].
Proof. apply stream_next; [apply stream_first|]; by vm_compute. Qed.
Example text : stream_text [world; hello] = "hello world".
Proof. by vm_compute. Qed.
End Stream.

Lemma text_stream_is_tamper_evident_witness :
  increment <$> [Stream.world; Stream.hello] = increment <$> [Stream.world; Stream.hello] \/
  collide (preimages [Stream.world; Stream.hello]) (preimages [Stream.world; Stream.hello]).
Proof.
  exact (text_stream_is_tamper_evident Stream.second_delta Stream.second_delta Stream.world [Stream.hello] Stream.world [Stream.hello]
    Stream.hello_world Stream.hello_world eq_refl).
Defined.
