(* ===== verification/Truth.v ===== *)
(** * Truth facts

    Models [domain-kernel/src/truth.rs]: an observed fact with its sources, its
    epistemic status and the link to the version it corrects. *)
From S2P Require Import Prelude Text Money.

Inductive TruthStatus : Type := TrConfirmed | TrEstimated | TrInferred | TrUnknown | TrConflicted | TrStale.

Inductive TruthValue : Type :=
| TvText (value : string)
| TvInteger (value : Z) (* i64 *)
| TvDecimal (value : Decimal) (unit_ : string)
| TvMoney (value : Money)
| TvBoolean (value : bool)
| TvTimestamp (value : DateTime)
| TvUrl (value : string)
| TvIdentifier (namespace value : string).

Record TruthSource : Type := mkTruthSource {
  sr_provider : string;
  sr_source_uri : string;
  sr_source_digest : string;
  sr_evidence_ids : gset Id;
  sr_captured_by : Id;
  sr_captured_at : DateTime;
}.

Record TruthCandidate : Type := mkTruthCandidate {
  tc_value : TruthValue;
  tc_source : TruthSource;
  tc_confidence : Decimal;
}.

Record TruthRevisionLink : Type := mkRevisionLink {
  rl_previous_version : Z; (* u64 *)
  rl_previous_digest : string;
  rl_reason : string;
  rl_corrected_by : Id;
  rl_corrected_at : DateTime;
}.

Record TruthFact : Type := mkTruthFact {
  fa_id : Id;
  fa_tenant_id : Id;
  fa_project_id : Id;
  fa_key : string;
  fa_value : option TruthValue;
  fa_alternatives : list TruthCandidate;
  fa_status : TruthStatus;
  fa_source : option TruthSource;
  fa_market : string;
  fa_language : string;
  fa_observed_at : DateTime;
  fa_valid_from : DateTime;
  fa_valid_until : option DateTime;
  fa_confidence : Decimal;
  fa_version : Z; (* u64 *)
  fa_revision_link : option TruthRevisionLink;
}.
#[export] Instance TruthFact_eta : Eta TruthFact := fun f =>
  mkTruthFact (fa_id f) (fa_tenant_id f) (fa_project_id f) (fa_key f) (fa_value f) (fa_alternatives f) (fa_status f)
    (fa_source f) (fa_market f) (fa_language f) (fa_observed_at f) (fa_valid_from f) (fa_valid_until f)
    (fa_confidence f) (fa_version f) (fa_revision_link f).

Inductive TruthError : Type :=
| TrIncompleteFact | TrInvalidConfidence | TrInvalidTimeRange | TrEvidenceStatusMismatch | TrInvalidConflictSet
| TrInvalidSource | TrInvalidValue | TrMissingCorrectionReason | TrVersionOverflow | TrInvalidRevisionLink
| TrSerialization.

(** [serde_json::to_vec] of a value and of a fact; [None] stands for its error. *)
Class TruthSerde := {
  json_truth_value : TruthValue -> option string;
  json_truth_fact : TruthFact -> option string;
}.

(** [confidence < Decimal::ZERO || confidence > Decimal::ONE] *)
Definition confidence_is_invalid (confidence : Decimal) : bool :=
  (dec_mantissa confidence <? 0) || (10 ^ dec_scale confidence <? dec_mantissa confidence).

Definition validate_source (source : TruthSource) (now : DateTime) : result TruthError unit :=
  reject_if (trim_is_empty (sr_provider source)
    || trim_is_empty (sr_source_uri source)
    || negb (str_contains "://" (sr_source_uri source))
    || negb (is_sha256 (sr_source_digest source))
    || trim_is_empty (sr_captured_by source)
    || (now <? sr_captured_at source)) TrInvalidSource.

Definition validate_value (value : option TruthValue) : result TruthError unit :=
  match value with
  | None => mret tt
  | Some (TvText value) => reject_if (trim_is_empty value) TrInvalidValue
  | Some (TvDecimal _ unit_) => reject_if (trim_is_empty unit_) TrInvalidValue
  | Some (TvUrl value) => reject_if (negb (str_contains "://" value)) TrInvalidValue
  | Some (TvIdentifier namespace value) => reject_if (trim_is_empty namespace || trim_is_empty value) TrInvalidValue
  | Some _ => mret tt
  end.

Definition validate_candidate (candidate : TruthCandidate) (now : DateTime) : result TruthError unit :=
  reject_if (confidence_is_invalid (tc_confidence candidate)) TrInvalidConfidence;;
  validate_value (Some (tc_value candidate));;
  validate_source (tc_source candidate) now.

Section truth.
Context `{Sha256} `{TruthSerde}.

(** [TruthFact::digest] *)
Definition fact_digest (self : TruthFact) : result TruthError string :=
  bytes ← ok_or (json_truth_fact self) TrSerialization; mret (sha256_hex bytes).

(** The encodings of the alternatives, all or none. *)
Definition alternative_encodings (self : TruthFact) : result TruthError (list string) :=
  ok_or (mapM (fun candidate => json_truth_value (tc_value candidate)) (fa_alternatives self)) TrSerialization.

Definition status_check (self : TruthFact) (now : DateTime) : result TruthError unit :=
  match fa_status self with
  | TrConfirmed | TrEstimated | TrInferred =>
      reject_if (is_none (fa_value self)
        || is_none_or (fun source => negb (is_ok (validate_source source now))
             || bool_decide (sr_evidence_ids source = ∅)) (fa_source self)
        || negb (bool_decide (length (fa_alternatives self) = 0%nat))) TrEvidenceStatusMismatch
  | TrUnknown =>
      reject_if (is_some (fa_value self) || negb (bool_decide (length (fa_alternatives self) = 0%nat)))
        TrEvidenceStatusMismatch
  | TrConflicted =>
      reject_if (is_some (fa_value self)
        || Nat.ltb (length (fa_alternatives self)) 2
        || existsb (fun candidate => negb (is_ok (validate_candidate candidate now))) (fa_alternatives self))
        TrInvalidConflictSet;;
      digests ← alternative_encodings self;
      reject_if (negb (Nat.eqb (size (list_to_set digests : gset string)) (length (fa_alternatives self))))
        TrInvalidConflictSet
  | TrStale =>
      reject_if (is_none (fa_value self) || is_none_or (fun until => now <? until) (fa_valid_until self))
        TrEvidenceStatusMismatch
  end.

(** [TruthFact::validate] *)
Definition fact_validate (self : TruthFact) (now : DateTime) : result TruthError unit :=
  reject_if (trim_is_empty (fa_id self)
    || trim_is_empty (fa_tenant_id self)
    || trim_is_empty (fa_project_id self)
    || String.eqb (fa_key self) ""
    || String.eqb (fa_market self) ""
    || String.eqb (fa_language self) ""
    || (fa_version self =? 0)) TrIncompleteFact;;
  reject_if (confidence_is_invalid (fa_confidence self)) TrInvalidConfidence;;
  reject_if ((now <? fa_observed_at self)
    || (now <? fa_valid_from self)
    || is_some_and (fun valid_until => valid_until <=? fa_valid_from self) (fa_valid_until self)) TrInvalidTimeRange;;
  status_check self now;;
  match fa_source self with Some source => validate_source source now | None => mret tt end;;
  match fa_revision_link self with
  | Some link =>
      reject_if (negb (bool_decide (checked_add u64_max (rl_previous_version link) 1 = Some (fa_version self)))
        || negb (is_sha256 (rl_previous_digest link))
        || trim_is_empty (rl_reason link)
        || (now <? rl_corrected_at link)) TrInvalidRevisionLink
  | None => reject_if (negb (fa_version self =? 1)) TrInvalidRevisionLink
  end;;
  validate_value (fa_value self).

(** [TruthFact::create] *)
Definition fact_create (id tenant_id project_id : Id) (key : string) (value : option TruthValue)
    (alternatives : list TruthCandidate) (status : TruthStatus) (source : option TruthSource) (market language : string)
    (observed_at valid_from : DateTime) (valid_until : option DateTime) (confidence : Decimal) (now : DateTime)
    : result TruthError TruthFact :=
  let fact := mkTruthFact id tenant_id project_id (trim key) value alternatives status source (trim market)
    (trim language) observed_at valid_from valid_until confidence 1 None in
  fact_validate fact now;;
  mret fact.

Definition revision_link (self : TruthFact) (reason : string) (corrected_by : Id) (now : DateTime)
    : result TruthError TruthRevisionLink :=
  previous_digest ← fact_digest self;
  mret (mkRevisionLink (fa_version self) previous_digest reason corrected_by now).

Definition revise (self : TruthFact) (value : option TruthValue) (alternatives : list TruthCandidate)
    (status : TruthStatus) (source : option TruthSource) (confidence : Decimal) (observed_at : DateTime)
    (reason : string) (corrected_by : Id) (now : DateTime) : result TruthError TruthFact :=
  let reason := trim reason in
  reject_if (String.eqb reason "") TrMissingCorrectionReason;;
  next_version ← ok_or (checked_add u64_max (fa_version self) 1) TrVersionOverflow;
  link ← revision_link self reason corrected_by now;
  let revised := self <| fa_value := value |> <| fa_alternatives := alternatives |> <| fa_status := status |>
    <| fa_source := source |> <| fa_confidence := confidence |> <| fa_observed_at := observed_at |>
    <| fa_valid_from := now |> <| fa_valid_until := None |> <| fa_version := next_version |>
    <| fa_revision_link := Some link |> in
  fact_validate revised now;;
  mret revised.

Definition mark_stale (self : TruthFact) (valid_until : DateTime) (reason : string) (corrected_by : Id)
    (now : DateTime) : result TruthError TruthFact :=
  let reason := trim reason in
  reject_if (String.eqb reason "") TrMissingCorrectionReason;;
  next_version ← ok_or (checked_add u64_max (fa_version self) 1) TrVersionOverflow;
  link ← revision_link self reason corrected_by now;
  let revised := self <| fa_status := TrStale |> <| fa_valid_until := Some valid_until |>
    <| fa_version := next_version |> <| fa_revision_link := Some link |> in
  fact_validate revised now;;
  mret revised.
End truth.
