(* ===== verification/Context.v ===== *)
(** * Context workspaces, branches, leases and capsules

    Models [domain-kernel/src/context.rs]: the workspace that narrows the
    authority of a Mission, its branches, the lease of the worker on a branch,
    and the capsule that hands a worker one task with bounded authority. *)
From S2P Require Import Prelude Text Money Contract MissionTypes WorkProduct Effect Checkpoint Terminal Truth.

#[export] Instance Constraint_eq_dec : EqDecision Constraint_.
Proof. solve_decision. Defined.

(** ** Data *)
Inductive ContextDataClass : Type := Public | Business | RedactedPersonal.
#[export] Instance ContextDataClass_eq_dec : EqDecision ContextDataClass.
Proof. solve_decision. Defined.
(** The order of the derived [Ord]. *)
Definition data_class_rank (class : ContextDataClass) : nat :=
  match class with Public => 0 | Business => 1 | RedactedPersonal => 2 end.
#[export] Program Instance ContextDataClass_countable : Countable ContextDataClass :=
  inj_countable data_class_rank (fun n => [Public; Business; RedactedPersonal] !! n) _.
Next Obligation. by intros []. Qed.

Inductive ContextDataPolicy : Type := PublicOnly | BusinessOnly | BusinessAndRedactedPersonal.
#[export] Instance ContextDataPolicy_eq_dec : EqDecision ContextDataPolicy.
Proof. solve_decision. Defined.

Definition maximum_class (self : ContextDataPolicy) : ContextDataClass :=
  match self with
  | PublicOnly => Public
  | BusinessOnly => Business
  | BusinessAndRedactedPersonal => RedactedPersonal
  end.

Inductive ContextError : Type :=
| CxInvalidBudget | CxInvalidWorkspace | CxInvalidBranch | CxInvalidBranchLineage | CxInvalidWorkerLease
| CxWorkerLeaseLost | CxInvalidWorkerLeaseTransition | CxInvalidInputReference | CxInvalidReturnContract
| CxInvalidReturnReceipt | CxInvalidCapsule | CxInvalidCapsuleState | CxInvalidCapsuleTransition | CxUnknownTask
| CxCapabilityEscalation | CxInvalidFactClosure | CxDataPolicyEscalation | CxInvalidWorkingItem
| CxInvalidWorkingSet | CxInvalidContinuationEntry | CxInvalidContinuationLedger | CxContextInvariantMismatch
| CxInvalidCompactionRecord | CxInvalidContextCheckpoint | CxInvalidRuntimeRecovery | CxInvalidBranchTransition
| CxInvalidWorkerHandle | CxInvalidWorkerMessage | CxContextBackpressure | CxWorkerBudgetExceeded
| CxStaleContextFoundation | CxRevisionOverflow | CxSerialization.

Record ContextBudget : Type := mkContextBudget {
  bu_token_limit : Z; (* u64 *)
  bu_cost_limit : Money;
  bu_deadline_at : DateTime;
  bu_max_depth : Z; (* u32 *)
  bu_max_concurrency : Z; (* u32 *)
}.
#[export] Instance ContextBudget_eq_dec : EqDecision ContextBudget.
Proof. solve_decision. Defined.

Record ContextWorkspace : Type := mkWorkspace {
  ws_id : Id;
  ws_tenant_id : Id;
  ws_project_id : Id;
  ws_mission_id : Id;
  ws_generation : Z; (* u64 *)
  ws_contract_version : Z; (* u64 *)
  ws_policy_version : string;
  ws_capability_authority : gset string;
  ws_constraint_digest : string;
  ws_budget : ContextBudget;
  ws_data_policy : ContextDataPolicy;
  ws_revision : Z; (* u64 *)
  ws_created_at : DateTime;
  ws_updated_at : DateTime;
}.

Inductive ContextBranchStatus : Type := BrActive | BrCompleted | BrMerged | BrAbandoned.
#[export] Instance ContextBranchStatus_eq_dec : EqDecision ContextBranchStatus.
Proof. solve_decision. Defined.
Inductive ContextMergePolicy : Type := TypedResultOnly | ManualReview.
#[export] Instance ContextMergePolicy_eq_dec : EqDecision ContextMergePolicy.
Proof. solve_decision. Defined.

Record ContextBranch : Type := mkBranch {
  br_id : Id;
  br_tenant_id : Id;
  br_project_id : Id;
  br_workspace_id : Id;
  br_parent_branch_id : option Id;
  br_depth : Z; (* u32 *)
  br_fork_reason : string;
  br_scope_digest : string;
  br_merge_policy : ContextMergePolicy;
  br_status : ContextBranchStatus;
  br_generation : Z; (* u64 *)
  br_revision : Z; (* u64 *)
  br_created_at : DateTime;
  br_updated_at : DateTime;
}.
#[export] Instance ContextBranch_eta : Eta ContextBranch := fun b =>
  mkBranch (br_id b) (br_tenant_id b) (br_project_id b) (br_workspace_id b) (br_parent_branch_id b) (br_depth b)
    (br_fork_reason b) (br_scope_digest b) (br_merge_policy b) (br_status b) (br_generation b) (br_revision b)
    (br_created_at b) (br_updated_at b).

Inductive WorkerLeaseStatus : Type := LsActive | LsReleased | LsRevoked | LsExpired.
#[export] Instance WorkerLeaseStatus_eq_dec : EqDecision WorkerLeaseStatus.
Proof. solve_decision. Defined.

Record WorkerLease : Type := mkWorkerLease {
  le_id : Id;
  le_tenant_id : Id;
  le_project_id : Id;
  le_workspace_id : Id;
  le_branch_id : Id;
  le_worker_id : Id;
  le_generation : Z; (* u64 *)
  le_lease_token_digest : string;
  le_runtime_mapping_digest : option string;
  le_issued_at : DateTime;
  le_heartbeat_at : DateTime;
  le_expires_at : DateTime;
  le_status : WorkerLeaseStatus;
  le_revision : Z; (* u64 *)
}.
#[export] Instance WorkerLease_eta : Eta WorkerLease := fun l =>
  mkWorkerLease (le_id l) (le_tenant_id l) (le_project_id l) (le_workspace_id l) (le_branch_id l) (le_worker_id l)
    (le_generation l) (le_lease_token_digest l) (le_runtime_mapping_digest l) (le_issued_at l) (le_heartbeat_at l)
    (le_expires_at l) (le_status l) (le_revision l).
#[export] Instance WorkerLease_eq_dec : EqDecision WorkerLease.
Proof. solve_decision. Defined.

Record ContextFactGrant : Type := mkFactGrant {
  fg_fact_id : Id;
  fg_version : Z; (* u64 *)
  fg_classification : ContextDataClass;
}.
#[export] Instance ContextFactGrant_eq_dec : EqDecision ContextFactGrant.
Proof. solve_decision. Defined.
#[export] Program Instance ContextFactGrant_countable : Countable ContextFactGrant :=
  inj_countable' (fun g => (fg_fact_id g, fg_version g, fg_classification g))
    (fun t => mkFactGrant t.1.1 t.1.2 t.2) _.
Next Obligation. by intros []. Qed.

Record ContextInputRefs : Type := mkInputRefs {
  in_evidence_ids : gset Id;
  in_work_product_ids : gset Id;
  in_file_snapshot_digests : gset string;
  in_query_snapshot_digests : gset string;
}.
#[export] Instance ContextInputRefs_eq_dec : EqDecision ContextInputRefs.
Proof. solve_decision. Defined.

Record ContextReturnContract : Type := mkReturnContract {
  rc_schema_id : string;
  rc_schema_version : Z; (* u32 *)
  rc_required_fields : gset string;
  rc_allowed_artifact_types : gset string;
  rc_evidence_required : bool;
  rc_uncertainty_required : bool;
  rc_max_result_bytes : Z; (* u64 *)
}.
#[export] Instance ContextReturnContract_eq_dec : EqDecision ContextReturnContract.
Proof. solve_decision. Defined.

Record ContextReturnReceipt : Type := mkReturnReceipt {
  rr_schema_id : string;
  rr_schema_version : Z; (* u32 *)
  rr_result_digest : string;
  rr_result_size_bytes : Z; (* u64 *)
  rr_evidence_ids : gset Id;
  rr_artifact_digests : gset string;
  rr_uncertainty_digest : string;
  rr_next_recommendation_digest : option string;
  rr_submitted_at : DateTime;
}.
#[export] Instance ContextReturnReceipt_eq_dec : EqDecision ContextReturnReceipt.
Proof. solve_decision. Defined.

Inductive ContextCapsuleStatus : Type :=
| CpIssued | CpClaimed | CpResultSubmitted | CpAccepted | CpCancelled | CpExpired.
#[export] Instance ContextCapsuleStatus_eq_dec : EqDecision ContextCapsuleStatus.
Proof. solve_decision. Defined.

Record ContextCapsule : Type := mkCapsule {
  cp_id : Id;
  cp_tenant_id : Id;
  cp_project_id : Id;
  cp_mission_id : Id;
  cp_task_id : Id;
  cp_workspace_id : Id;
  cp_branch_id : Id;
  cp_worker_lease_id : Id;
  cp_worker_id : Id;
  cp_worker_generation : Z; (* u64 *)
  cp_child_goal : string;
  cp_required_facts : gset ContextFactGrant;
  cp_constraints : list Constraint_;
  cp_capabilities : gset string;
  cp_budget : ContextBudget;
  cp_inputs : ContextInputRefs;
  cp_return_contract : ContextReturnContract;
  cp_data_policy : ContextDataPolicy;
  cp_policy_version : string;
  cp_authority_digest : string;
  cp_status : ContextCapsuleStatus;
  cp_result : option ContextReturnReceipt;
  cp_issued_at : DateTime;
  cp_expires_at : DateTime;
  cp_updated_at : DateTime;
  cp_revision : Z; (* u64 *)
}.
#[export] Instance ContextCapsule_eta : Eta ContextCapsule := fun c =>
  mkCapsule (cp_id c) (cp_tenant_id c) (cp_project_id c) (cp_mission_id c) (cp_task_id c) (cp_workspace_id c)
    (cp_branch_id c) (cp_worker_lease_id c) (cp_worker_id c) (cp_worker_generation c) (cp_child_goal c)
    (cp_required_facts c) (cp_constraints c) (cp_capabilities c) (cp_budget c) (cp_inputs c) (cp_return_contract c)
    (cp_data_policy c) (cp_policy_version c) (cp_authority_digest c) (cp_status c) (cp_result c) (cp_issued_at c)
    (cp_expires_at c) (cp_updated_at c) (cp_revision c).

(** The tuple under the authority digest of a capsule. *)
Definition authority_parts (self : ContextCapsule) :=
  ((cp_id self, cp_tenant_id self, cp_project_id self, cp_mission_id self, cp_task_id self, cp_workspace_id self,
    cp_branch_id self, cp_worker_lease_id self, cp_worker_id self, cp_worker_generation self, cp_child_goal self),
   (cp_required_facts self, cp_constraints self, cp_capabilities self, cp_budget self, cp_inputs self,
    cp_return_contract self, cp_data_policy self, cp_policy_version self, cp_issued_at self, cp_expires_at self)).

(** [serde_json::to_vec] of the hashed values; [None] stands for its error. *)
Class ContextSerde := {
  json_constraints : list Constraint_ -> option string;
  json_authority :
    (Id * Id * Id * Id * Id * Id * Id * Id * Id * Z * string)
    * (gset ContextFactGrant * list Constraint_ * gset string * ContextBudget * ContextInputRefs
       * ContextReturnContract * ContextDataPolicy * string * DateTime * DateTime) -> option string;
}.

(** ** Budgets *)
Definition budget_validate_at (self : ContextBudget) (now : DateTime) : result ContextError unit :=
  reject_if ((bu_token_limit self =? 0)
    || (amount_minor (bu_cost_limit self) <? 0)
    || (bu_deadline_at self <=? now)
    || (bu_max_depth self =? 0)
    || (bu_max_concurrency self =? 0)) CxInvalidBudget.

Definition is_subset_of (self parent : ContextBudget) : bool :=
  bool_decide (currency (bu_cost_limit self) = currency (bu_cost_limit parent))
  && (bu_token_limit self <=? bu_token_limit parent)
  && (amount_minor (bu_cost_limit self) <=? amount_minor (bu_cost_limit parent))
  && (bu_deadline_at self <=? bu_deadline_at parent)
  && (bu_max_depth self <=? bu_max_depth parent)
  && (bu_max_concurrency self <=? bu_max_concurrency parent).

Abbreviation subset X Y := (bool_decide (X ⊆ Y)) (only parsing).
Abbreviation disjoint_from X Y := (bool_decide (X ## Y)) (only parsing).

Section context.
Context `{Sha256} `{ContextSerde}.

(** [digest_json] *)
Definition context_digest_json (bytes : option string) : result ContextError string :=
  bytes ← ok_or bytes CxSerialization; mret (sha256_hex bytes).

(** ** Workspaces *)
Definition workspace_validate_for (self : ContextWorkspace) (mission : Mission) (now : DateTime)
    : result ContextError unit :=
  budget_validate_at (ws_budget self) (ws_created_at self);;
  let contract := ms_contract mission in
  reject_if (trim_is_empty (ws_id self)
    || negb (bool_decide (ws_tenant_id self = ms_tenant_id mission))
    || negb (bool_decide (ws_project_id self = ms_project_id mission))
    || negb (bool_decide (ws_mission_id self = ms_id mission))
    || (ws_generation self =? 0)
    || negb (ws_contract_version self =? oc_version contract)
    || String.eqb (ws_policy_version self) ""
    || set_is_empty (ws_capability_authority self)
    || set_any trim_is_empty (ws_capability_authority self)
    || negb (subset (ws_capability_authority self) (oc_enabled_capabilities contract))
    || negb (disjoint_from (ws_capability_authority self) (oc_forbidden_capabilities contract)))
    CxInvalidWorkspace;;
  constraint_digest ← context_digest_json (json_constraints (oc_constraints contract));
  reject_if (negb (bool_decide (ws_constraint_digest self = constraint_digest))
    || negb (bool_decide (currency (bu_cost_limit (ws_budget self)) = currency (oc_budget contract)))
    || (amount_minor (oc_budget contract) <? amount_minor (bu_cost_limit (ws_budget self)))
    || (oc_valid_until contract <? bu_deadline_at (ws_budget self))
    || (ws_revision self =? 0)
    || (now <? ws_created_at self)
    || (ws_updated_at self <? ws_created_at self)
    || (now <? ws_updated_at self)) CxInvalidWorkspace.

Definition workspace_create (id : Id) (mission : Mission) (generation : Z) (policy_version : string)
    (capability_authority : gset string) (budget : ContextBudget) (data_policy : ContextDataPolicy)
    (now : DateTime) : result ContextError ContextWorkspace :=
  constraint_digest ← context_digest_json (json_constraints (oc_constraints (ms_contract mission)));
  let workspace := {|
    ws_id := id; ws_tenant_id := ms_tenant_id mission; ws_project_id := ms_project_id mission;
    ws_mission_id := ms_id mission; ws_generation := generation;
    ws_contract_version := oc_version (ms_contract mission); ws_policy_version := trim policy_version;
    ws_capability_authority := capability_authority; ws_constraint_digest := constraint_digest;
    ws_budget := budget; ws_data_policy := data_policy; ws_revision := 1; ws_created_at := now;
    ws_updated_at := now;
  |} in
  workspace_validate_for workspace mission now;;
  mret workspace.

(** ** Branches *)
Definition branch_validate_for_workspace (self : ContextBranch) (workspace : ContextWorkspace) (now : DateTime)
    : result ContextError unit :=
  reject_if (trim_is_empty (br_id self)
    || negb (bool_decide (br_tenant_id self = ws_tenant_id workspace))
    || negb (bool_decide (br_project_id self = ws_project_id workspace))
    || negb (bool_decide (br_workspace_id self = ws_id workspace))
    || (bu_max_depth (ws_budget workspace) <=? br_depth self)
    || String.eqb (br_fork_reason self) ""
    || negb (is_sha256 (br_scope_digest self))
    || negb (br_generation self =? ws_generation workspace)
    || (br_revision self =? 0)
    || (br_created_at self <? ws_created_at workspace)
    || (now <? br_created_at self)
    || (br_updated_at self <? br_created_at self)
    || (now <? br_updated_at self)) CxInvalidBranch.

(** [parent.map_or(0, |value| value.depth.saturating_add(1))] *)
Definition child_depth (parent : option ContextBranch) : Z :=
  match parent with Some value => saturating_add u32_max (br_depth value) 1 | None => 0 end.

Definition branch_validate_for (self : ContextBranch) (workspace : ContextWorkspace)
    (parent : option ContextBranch) (now : DateTime) : result ContextError unit :=
  branch_validate_for_workspace self workspace now;;
  reject_if (negb (bool_decide (br_parent_branch_id self = br_id <$> parent))
    || negb (br_depth self =? child_depth parent)
    || is_some_and (fun value =>
         negb (bool_decide (br_workspace_id value = ws_id workspace))
         || negb (bool_decide (br_status value = BrActive))
         || negb (br_generation value =? ws_generation workspace)
         || (br_created_at self <? br_created_at value)) parent) CxInvalidBranch.

Definition branch_create (id : Id) (workspace : ContextWorkspace) (parent : option ContextBranch)
    (fork_reason scope_digest : string) (merge_policy : ContextMergePolicy) (now : DateTime)
    : result ContextError ContextBranch :=
  let branch := {|
    br_id := id; br_tenant_id := ws_tenant_id workspace; br_project_id := ws_project_id workspace;
    br_workspace_id := ws_id workspace; br_parent_branch_id := br_id <$> parent; br_depth := child_depth parent;
    br_fork_reason := trim fork_reason; br_scope_digest := scope_digest; br_merge_policy := merge_policy;
    br_status := BrActive; br_generation := ws_generation workspace; br_revision := 1; br_created_at := now;
    br_updated_at := now;
  |} in
  branch_validate_for branch workspace parent now;;
  mret branch.

(** The loop of [validate_context_branch_lineage]; [parent] is the branch before. *)
Fixpoint lineage_from (workspace : ContextWorkspace) (seen : gset Id) (parent : option ContextBranch)
    (branches : list ContextBranch) (now : DateTime) : result ContextError unit :=
  match branches with
  | [] => mret tt
  | branch :: rest =>
      reject_if (bool_decide (br_id branch ∈ seen)) CxInvalidBranchLineage;;
      branch_validate_for branch workspace parent now;;
      lineage_from workspace ({[br_id branch]} ∪ seen) (Some branch) rest now
  end.

Definition validate_context_branch_lineage (workspace : ContextWorkspace) (branches : list ContextBranch)
    (now : DateTime) : result ContextError unit :=
  reject_if (Nat.eqb (length branches) 0) CxInvalidBranchLineage;;
  lineage_from workspace ∅ None branches now.

(** ** Worker leases *)
Definition lease_validate_for (self : WorkerLease) (workspace : ContextWorkspace) (branch : ContextBranch)
    (now : DateTime) : result ContextError unit :=
  reject_if (trim_is_empty (le_id self)
    || negb (bool_decide (le_tenant_id self = ws_tenant_id workspace))
    || negb (bool_decide (le_project_id self = ws_project_id workspace))
    || negb (bool_decide (le_workspace_id self = ws_id workspace))
    || negb (bool_decide (le_branch_id self = br_id branch))
    || trim_is_empty (le_worker_id self)
    || (le_generation self =? 0)
    || negb (le_generation self =? br_generation branch)
    || negb (is_sha256 (le_lease_token_digest self))
    || is_some_and (fun value => negb (is_sha256 value)) (le_runtime_mapping_digest self)
    || (le_issued_at self <? br_created_at branch)
    || (now <? le_issued_at self)
    || (le_heartbeat_at self <? le_issued_at self)
    || (now <? le_heartbeat_at self)
    || (le_expires_at self <=? le_issued_at self)
    || (bu_deadline_at (ws_budget workspace) <? le_expires_at self)
    || (le_revision self =? 0)
    || match le_status self with
       | LsActive => le_expires_at self <? le_heartbeat_at self
       | LsExpired => le_heartbeat_at self <? le_expires_at self
       | LsReleased | LsRevoked => false
       end) CxInvalidWorkerLease.

Definition lease_issue (id : Id) (workspace : ContextWorkspace) (branch : ContextBranch) (worker_id : Id)
    (generation : Z) (lease_token_digest : string) (runtime_mapping_digest : option string)
    (expires_at now : DateTime) : result ContextError WorkerLease :=
  let lease := {|
    le_id := id; le_tenant_id := ws_tenant_id workspace; le_project_id := ws_project_id workspace;
    le_workspace_id := ws_id workspace; le_branch_id := br_id branch; le_worker_id := worker_id;
    le_generation := generation; le_lease_token_digest := lease_token_digest;
    le_runtime_mapping_digest := runtime_mapping_digest; le_issued_at := now; le_heartbeat_at := now;
    le_expires_at := expires_at; le_status := LsActive; le_revision := 1;
  |} in
  lease_validate_for lease workspace branch now;;
  mret lease.

(** [WorkerLease::next_revision] *)
Definition lease_next_revision (self : WorkerLease) : result ContextError Z :=
  ok_or (checked_add u64_max (le_revision self) 1) CxRevisionOverflow.

Definition authorize_active (self : WorkerLease) (worker_generation : Z) (lease_token_digest : string)
    (now : DateTime) (allow_expired_at : bool) : result ContextError unit :=
  reject_if (negb (bool_decide (le_status self = LsActive))
    || negb (worker_generation =? le_generation self)
    || negb (bool_decide (lease_token_digest = le_lease_token_digest self))
    || negb (is_sha256 lease_token_digest)) CxWorkerLeaseLost;;
  reject_if ((now <? le_heartbeat_at self) || (negb allow_expired_at && (le_expires_at self <=? now)))
    CxInvalidWorkerLeaseTransition.

Definition lease_heartbeat (worker_generation : Z) (lease_token_digest : string) (now : DateTime)
    : SR WorkerLease ContextError unit :=
  self ← get;
  lift (authorize_active self worker_generation lease_token_digest now false);;
  next_revision ← lift (lease_next_revision self);
  modify (fun self => self <| le_heartbeat_at := now |> <| le_revision := next_revision |>).

Definition transition_terminal (worker_generation : Z) (lease_token_digest : string) (status : WorkerLeaseStatus)
    (now : DateTime) (allow_expired_at : bool) : SR WorkerLease ContextError unit :=
  self ← get;
  lift (authorize_active self worker_generation lease_token_digest now allow_expired_at);;
  next_revision ← lift (lease_next_revision self);
  modify (fun self => self <| le_status := status |> <| le_heartbeat_at := now |> <| le_revision := next_revision |>).

Definition lease_release (worker_generation : Z) (lease_token_digest : string) (now : DateTime)
    : SR WorkerLease ContextError unit :=
  transition_terminal worker_generation lease_token_digest LsReleased now false.
Definition lease_revoke (worker_generation : Z) (lease_token_digest : string) (now : DateTime)
    : SR WorkerLease ContextError unit :=
  transition_terminal worker_generation lease_token_digest LsRevoked now false.

Definition lease_expire (now : DateTime) : SR WorkerLease ContextError unit :=
  self ← get;
  reject (negb (bool_decide (le_status self = LsActive))
    || (now <? le_heartbeat_at self)
    || (now <? le_expires_at self)) CxInvalidWorkerLeaseTransition;;
  next_revision ← lift (lease_next_revision self);
  modify (fun self => self <| le_status := LsExpired |> <| le_heartbeat_at := now |> <| le_revision := next_revision |>).

Definition lease_effective_status (self : WorkerLease) (now : DateTime) : WorkerLeaseStatus :=
  if bool_decide (le_status self = LsActive) && (le_expires_at self <=? now) then LsExpired else le_status self.

Definition lease_follows (self previous : WorkerLease) : result ContextError bool :=
  let immutable_scope_matches :=
    bool_decide (le_id self = le_id previous)
    && bool_decide (le_tenant_id self = le_tenant_id previous)
    && bool_decide (le_project_id self = le_project_id previous)
    && bool_decide (le_workspace_id self = le_workspace_id previous)
    && bool_decide (le_branch_id self = le_branch_id previous)
    && bool_decide (le_worker_id self = le_worker_id previous)
    && (le_generation self =? le_generation previous)
    && bool_decide (le_lease_token_digest self = le_lease_token_digest previous)
    && bool_decide (le_runtime_mapping_digest self = le_runtime_mapping_digest previous)
    && (le_issued_at self =? le_issued_at previous)
    && (le_expires_at self =? le_expires_at previous)
    && bool_decide (checked_add u64_max (le_revision previous) 1 = Some (le_revision self))
    && (le_heartbeat_at previous <=? le_heartbeat_at self) in
  if negb immutable_scope_matches then mret false else
  let transition :=
    match le_status self with
    | LsActive => lease_heartbeat (le_generation previous) (le_lease_token_digest previous) (le_heartbeat_at self)
    | LsReleased => lease_release (le_generation previous) (le_lease_token_digest previous) (le_heartbeat_at self)
    | LsRevoked => lease_revoke (le_generation previous) (le_lease_token_digest previous) (le_heartbeat_at self)
    | LsExpired => lease_expire (le_heartbeat_at self)
    end in
  let '(transition_result, candidate) := run transition previous in
  mret (is_ok transition_result && bool_decide (candidate = self)).

(** ** Inputs and results *)
Definition inputs_validate_for (self : ContextInputRefs) (mission : Mission) : result ContextError unit :=
  reject_if (set_any (fun id => negb (existsb (fun evidence => bool_decide (ev_id evidence = id)) (ms_evidence mission)))
      (in_evidence_ids self)
    || set_any (fun id => negb (existsb (fun work_product => bool_decide (wp_id work_product = id)) (ms_work_products mission)))
         (in_work_product_ids self)
    || set_any (fun digest => negb (is_sha256 digest)) (in_file_snapshot_digests self)
    || set_any (fun digest => negb (is_sha256 digest)) (in_query_snapshot_digests self)) CxInvalidInputReference.

Definition return_contract_validate (self : ContextReturnContract) : result ContextError unit :=
  reject_if (trim_is_empty (rc_schema_id self)
    || (rc_schema_version self =? 0)
    || set_is_empty (rc_required_fields self)
    || set_any trim_is_empty (rc_required_fields self)
    || set_any trim_is_empty (rc_allowed_artifact_types self)
    || negb (rc_uncertainty_required self)
    || (rc_max_result_bytes self =? 0)) CxInvalidReturnContract.

Definition return_receipt_validate_for (self : ContextReturnReceipt) (contract : ContextReturnContract)
    : result ContextError unit :=
  reject_if (negb (bool_decide (rr_schema_id self = rc_schema_id contract))
    || negb (rr_schema_version self =? rc_schema_version contract)
    || negb (is_sha256 (rr_result_digest self))
    || (rr_result_size_bytes self =? 0)
    || (rc_max_result_bytes contract <? rr_result_size_bytes self)
    || (rc_evidence_required contract && set_is_empty (rr_evidence_ids self))
    || set_any (fun value => negb (is_sha256 value)) (rr_artifact_digests self)
    || (rc_uncertainty_required contract && negb (is_sha256 (rr_uncertainty_digest self)))
    || is_some_and (fun value => negb (is_sha256 value)) (rr_next_recommendation_digest self))
    CxInvalidReturnReceipt.

(** ** Capsules *)
Definition compute_authority_digest (self : ContextCapsule) : result ContextError string :=
  context_digest_json (json_authority (authority_parts self)).

Context `{TruthSerde}.

Definition validate_fact_closure (self : ContextCapsule) (facts : list TruthFact) (now : DateTime)
    : result ContextError unit :=
  let fact_keys : gset (Id * Z) := list_to_set ((fun fact => (fa_id fact, fa_version fact)) <$> facts) in
  let grant_keys : gset (Id * Z) :=
    set_map (fun grant => (fg_fact_id grant, fg_version grant)) (cp_required_facts self) in
  let fact_ids : gset Id := list_to_set (fa_id <$> facts) in
  let grant_ids : gset Id := set_map fg_fact_id (cp_required_facts self) in
  reject_if (negb (Nat.eqb (size fact_keys) (length facts))
    || negb (Nat.eqb (size grant_keys) (size (cp_required_facts self)))
    || negb (Nat.eqb (size fact_ids) (length facts))
    || negb (Nat.eqb (size grant_ids) (size (cp_required_facts self)))
    || negb (bool_decide (fact_keys = grant_keys))) CxInvalidFactClosure;;
  for_each (fun fact =>
    map_err (fun _ => CxInvalidFactClosure) (fact_validate fact now);;
    reject_if (negb (bool_decide (fa_tenant_id fact = cp_tenant_id self))
      || negb (bool_decide (fa_project_id fact = cp_project_id self))) CxInvalidFactClosure) facts;;
  reject_if (existsb (fun grant => Nat.ltb (data_class_rank (maximum_class (cp_data_policy self)))
       (data_class_rank (fg_classification grant))) (elements (cp_required_facts self))) CxDataPolicyEscalation.

Definition branch_status_matches (status : ContextCapsuleStatus) (branch : ContextBranch) : bool :=
  match status with
  | CpAccepted => bool_decide (br_status branch ∈ [BrActive; BrCompleted; BrMerged])
  | CpCancelled | CpExpired => bool_decide (br_status branch ∈ [BrActive; BrAbandoned])
  | CpIssued | CpClaimed | CpResultSubmitted => bool_decide (br_status branch = BrActive)
  end.

Definition lease_status_matches (status : ContextCapsuleStatus) (lease : WorkerLease) : bool :=
  match status with
  | CpCancelled | CpExpired => bool_decide (le_status lease ∈ [LsActive; LsRevoked; LsExpired])
  | CpIssued | CpClaimed | CpResultSubmitted | CpAccepted => bool_decide (le_status lease = LsActive)
  end.

(** The conditions of [ContextCapsule::validate_for] before the digest. *)
Definition capsule_is_invalid (self : ContextCapsule) (workspace : ContextWorkspace) (branch : ContextBranch)
    (lease : WorkerLease) (mission : Mission) (now : DateTime) : bool :=
  trim_is_empty (cp_id self)
  || negb (bool_decide (cp_tenant_id self = ws_tenant_id workspace))
  || negb (bool_decide (cp_project_id self = ws_project_id workspace))
  || negb (bool_decide (cp_mission_id self = ms_id mission))
  || negb (bool_decide (cp_workspace_id self = ws_id workspace))
  || negb (bool_decide (cp_branch_id self = br_id branch))
  || negb (branch_status_matches (cp_status self) branch)
  || negb (bool_decide (cp_worker_lease_id self = le_id lease))
  || negb (bool_decide (cp_worker_id self = le_worker_id lease))
  || negb (cp_worker_generation self =? le_generation lease)
  || negb (cp_worker_generation self =? br_generation branch)
  || negb (lease_status_matches (cp_status self) lease)
  || String.eqb (cp_child_goal self) ""
  || negb (bool_decide (cp_constraints self = oc_constraints (ms_contract mission)))
  || set_is_empty (cp_capabilities self)
  || set_any trim_is_empty (cp_capabilities self)
  || negb (subset (cp_capabilities self) (ws_capability_authority workspace))
  || negb (subset (cp_capabilities self) (oc_enabled_capabilities (ms_contract mission)))
  || negb (disjoint_from (cp_capabilities self) (oc_forbidden_capabilities (ms_contract mission)))
  || negb (is_subset_of (cp_budget self) (ws_budget workspace))
  || negb (bool_decide (cp_data_policy self = ws_data_policy workspace))
  || negb (bool_decide (cp_policy_version self = ws_policy_version workspace))
  || (cp_issued_at self <? le_issued_at lease)
  || (now <? cp_issued_at self)
  || (cp_expires_at self <=? cp_issued_at self)
  || (le_expires_at lease <? cp_expires_at self)
  || (bu_deadline_at (cp_budget self) <? cp_expires_at self)
  || (cp_updated_at self <? cp_issued_at self)
  || (now <? cp_updated_at self)
  || (cp_revision self =? 0).

Definition capsule_result_check (self : ContextCapsule) : result ContextError unit :=
  match cp_status self, cp_result self with
  | (CpIssued | CpClaimed | CpCancelled | CpExpired), None => mret tt
  | (CpResultSubmitted | CpAccepted), Some result =>
      return_receipt_validate_for result (cp_return_contract self);;
      reject_if ((rr_submitted_at result <? cp_issued_at self) || (cp_updated_at self <? rr_submitted_at result))
        CxInvalidReturnReceipt
  | _, _ => Err CxInvalidCapsuleState
  end.

(** [ContextCapsule::validate_for] *)
Definition capsule_validate_for (self : ContextCapsule) (workspace : ContextWorkspace) (branch : ContextBranch)
    (lease : WorkerLease) (mission : Mission) (facts : list TruthFact) (now : DateTime)
    : result ContextError unit :=
  workspace_validate_for workspace mission now;;
  branch_validate_for_workspace branch workspace now;;
  lease_validate_for lease workspace branch now;;
  return_contract_validate (cp_return_contract self);;
  inputs_validate_for (cp_inputs self) mission;;
  budget_validate_at (cp_budget self) (cp_issued_at self);;
  reject_if (capsule_is_invalid self workspace branch lease mission now) CxInvalidCapsule;;
  digest ← compute_authority_digest self;
  reject_if (negb (bool_decide (cp_authority_digest self = digest))) CxInvalidCapsule;;
  task ← ok_or (List.find (fun task => bool_decide (tk_id task = cp_task_id self)) (ms_tasks mission)) CxUnknownTask;
  reject_if (negb (contains (cp_capabilities self) (tk_capability task))) CxCapabilityEscalation;;
  validate_fact_closure self facts now;;
  capsule_result_check self.

Definition capsule_issue (id : Id) (workspace : ContextWorkspace) (branch : ContextBranch) (lease : WorkerLease)
    (mission : Mission) (child_goal : string) (task_id : Id) (required_facts : gset ContextFactGrant)
    (facts : list TruthFact) (capabilities : gset string) (budget : ContextBudget) (inputs : ContextInputRefs)
    (return_contract : ContextReturnContract) (expires_at now : DateTime) : result ContextError ContextCapsule :=
  let capsule := {|
    cp_id := id; cp_tenant_id := ws_tenant_id workspace; cp_project_id := ws_project_id workspace;
    cp_mission_id := ms_id mission; cp_task_id := task_id; cp_workspace_id := ws_id workspace;
    cp_branch_id := br_id branch; cp_worker_lease_id := le_id lease; cp_worker_id := le_worker_id lease;
    cp_worker_generation := le_generation lease; cp_child_goal := trim child_goal;
    cp_required_facts := required_facts; cp_constraints := oc_constraints (ms_contract mission);
    cp_capabilities := capabilities; cp_budget := budget; cp_inputs := inputs;
    cp_return_contract := return_contract; cp_data_policy := ws_data_policy workspace;
    cp_policy_version := ws_policy_version workspace; cp_authority_digest := ""; cp_status := CpIssued;
    cp_result := None; cp_issued_at := now; cp_expires_at := expires_at; cp_updated_at := now; cp_revision := 1;
  |} in
  digest ← compute_authority_digest capsule;
  let capsule := capsule <| cp_authority_digest := digest |> in
  capsule_validate_for capsule workspace branch lease mission facts now;;
  mret capsule.

Definition capsule_prepare_touch (self : ContextCapsule) (now : DateTime) : result ContextError Z :=
  reject_if (now <? cp_updated_at self) CxInvalidCapsuleTransition;;
  ok_or (checked_add u64_max (cp_revision self) 1) CxRevisionOverflow.
Definition capsule_commit_touch (next_revision : Z) (now : DateTime) (self : ContextCapsule) : ContextCapsule :=
  self <| cp_revision := next_revision |> <| cp_updated_at := now |>.

Definition capsule_claim (worker_generation : Z) (now : DateTime) : SR ContextCapsule ContextError unit :=
  self ← get;
  reject (negb (bool_decide (cp_status self = CpIssued))
    || negb (worker_generation =? cp_worker_generation self)
    || (cp_expires_at self <? now)) CxInvalidCapsuleTransition;;
  next_revision ← lift (capsule_prepare_touch self now);
  modify (fun self => capsule_commit_touch next_revision now (self <| cp_status := CpClaimed |>)).

Definition submit_result (worker_generation : Z) (result : ContextReturnReceipt) (now : DateTime)
    : SR ContextCapsule ContextError unit :=
  self ← get;
  reject (negb (bool_decide (cp_status self = CpClaimed))
    || negb (worker_generation =? cp_worker_generation self)
    || (cp_expires_at self <? now)
    || negb (rr_submitted_at result =? now)) CxInvalidCapsuleTransition;;
  lift (return_receipt_validate_for result (cp_return_contract self));;
  next_revision ← lift (capsule_prepare_touch self now);
  modify (fun self => capsule_commit_touch next_revision now
    (self <| cp_result := Some result |> <| cp_status := CpResultSubmitted |>)).

Definition accept_result (now : DateTime) : SR ContextCapsule ContextError unit :=
  self ← get;
  reject (negb (bool_decide (cp_status self = CpResultSubmitted))) CxInvalidCapsuleTransition;;
  next_revision ← lift (capsule_prepare_touch self now);
  modify (fun self => capsule_commit_touch next_revision now (self <| cp_status := CpAccepted |>)).

Definition capsule_cancel (now : DateTime) : SR ContextCapsule ContextError unit :=
  self ← get;
  reject (negb (bool_decide (cp_status self ∈ [CpIssued; CpClaimed]))) CxInvalidCapsuleTransition;;
  next_revision ← lift (capsule_prepare_touch self now);
  modify (fun self => capsule_commit_touch next_revision now (self <| cp_status := CpCancelled |>)).

Definition capsule_expire (now : DateTime) : SR ContextCapsule ContextError unit :=
  self ← get;
  reject (negb (bool_decide (cp_status self ∈ [CpIssued; CpClaimed])) || (now <=? cp_expires_at self))
    CxInvalidCapsuleTransition;;
  next_revision ← lift (capsule_prepare_touch self now);
  modify (fun self => capsule_commit_touch next_revision now (self <| cp_status := CpExpired |>)).

Definition capsule_transition_allowed (previous self : ContextCapsule) : bool :=
  match cp_status previous, cp_status self with
  | CpIssued, CpClaimed | (CpIssued | CpClaimed), (CpCancelled | CpExpired) => is_none (cp_result self)
  | CpClaimed, CpResultSubmitted => is_none (cp_result previous) && is_some (cp_result self)
  | CpResultSubmitted, CpAccepted => bool_decide (cp_result self = cp_result previous)
  | _, _ => false
  end.

(** The fields compared one by one are those under the authority digest. *)
Definition capsule_follows (self previous : ContextCapsule) : result ContextError bool :=
  let immutable_matches :=
    bool_decide (authority_parts self = authority_parts previous)
    && bool_decide (cp_authority_digest self = cp_authority_digest previous) in
  mret (immutable_matches
    && bool_decide (checked_add u64_max (cp_revision previous) 1 = Some (cp_revision self))
    && (cp_updated_at previous <=? cp_updated_at self)
    && capsule_transition_allowed previous self).
End context.
