(* ===== verification/Worker.v ===== *)
(** * Branch merges, worker handles and mailboxes

    Models [domain-kernel/src/context_collaboration.rs]: the merge of a
    completed branch into its parent, the handle that tracks the runtime
    attached to a worker, and the bounded mailbox whose messages only the
    current attachment may acknowledge. *)
From S2P Require Import Prelude Text Money Contract MissionTypes WorkProduct Effect Checkpoint Terminal Truth RuntimeTurn Context.

Definition MAX_MAILBOX_CAPACITY : Z := 1024.
Definition MAX_MESSAGE_REFERENCE_BYTES : Z := 2048.

(** ** Data *)
Inductive ContextBranchMergeDisposition : Type := MdApplied | MdRejected.
#[export] Instance ContextBranchMergeDisposition_eq_dec : EqDecision ContextBranchMergeDisposition.
Proof. solve_decision. Defined.

Record ContextBranchMerge : Type := mkBranchMerge {
  mg_id : Id;
  mg_tenant_id : Id;
  mg_project_id : Id;
  mg_mission_id : Id;
  mg_workspace_id : Id;
  mg_source_branch_id : Id;
  mg_source_branch_revision : Z; (* u64 *)
  mg_target_branch_id : Id;
  mg_target_branch_revision : Z; (* u64 *)
  mg_generation : Z; (* u64 *)
  mg_merge_policy : ContextMergePolicy;
  mg_capsule_id : Id;
  mg_capsule_revision : Z; (* u64 *)
  mg_result_digest : string;
  mg_artifact_digests : gset string;
  mg_evidence_ids : gset Id;
  mg_mission_revision : Z; (* u64 *)
  mg_disposition : ContextBranchMergeDisposition;
  mg_conflict_digest : option string;
  mg_recorded_at : DateTime;
}.
#[export] Instance ContextBranchMerge_eta : Eta ContextBranchMerge := fun g =>
  mkBranchMerge (mg_id g) (mg_tenant_id g) (mg_project_id g) (mg_mission_id g) (mg_workspace_id g)
    (mg_source_branch_id g) (mg_source_branch_revision g) (mg_target_branch_id g) (mg_target_branch_revision g)
    (mg_generation g) (mg_merge_policy g) (mg_capsule_id g) (mg_capsule_revision g) (mg_result_digest g)
    (mg_artifact_digests g) (mg_evidence_ids g) (mg_mission_revision g) (mg_disposition g) (mg_conflict_digest g)
    (mg_recorded_at g).

Record WorkerUsage : Type := mkUsage {
  us_tokens : Z; (* u64 *)
  us_cost : Money;
  us_tool_calls : Z; (* u64 *)
  us_runtime_millis : Z; (* u64 *)
}.
#[export] Instance WorkerUsage_eq_dec : EqDecision WorkerUsage.
Proof. solve_decision. Defined.

Inductive WorkerHandleStatus : Type := WhAttached | WhDetached | WhCompleted | WhFailed | WhCancelled.
#[export] Instance WorkerHandleStatus_eq_dec : EqDecision WorkerHandleStatus.
Proof. solve_decision. Defined.
(** [WorkerHandleStatus::is_terminal] *)
Definition handle_is_terminal (self : WorkerHandleStatus) : bool :=
  bool_decide (self ∈ [WhCompleted; WhFailed; WhCancelled]).

Record WorkerHandle : Type := mkHandle {
  wh_tenant_id : Id;
  wh_project_id : Id;
  wh_mission_id : Id;
  wh_workspace_id : Id;
  wh_branch_id : Id;
  wh_capsule_id : Id;
  wh_lease_id : Id;
  wh_worker_id : Id;
  wh_parent_worker_id : option Id;
  wh_generation : Z; (* u64 *)
  wh_attachment_epoch : Z; (* u64 *)
  wh_runtime_mapping_digest : option string;
  wh_capabilities : gset string;
  wh_budget : ContextBudget;
  wh_usage : WorkerUsage;
  wh_cursor : Z; (* u64 *)
  wh_status : WorkerHandleStatus;
  wh_revision : Z; (* u64 *)
  wh_created_at : DateTime;
  wh_updated_at : DateTime;
}.
#[export] Instance WorkerHandle_eta : Eta WorkerHandle := fun h =>
  mkHandle (wh_tenant_id h) (wh_project_id h) (wh_mission_id h) (wh_workspace_id h) (wh_branch_id h)
    (wh_capsule_id h) (wh_lease_id h) (wh_worker_id h) (wh_parent_worker_id h) (wh_generation h)
    (wh_attachment_epoch h) (wh_runtime_mapping_digest h) (wh_capabilities h) (wh_budget h) (wh_usage h)
    (wh_cursor h) (wh_status h) (wh_revision h) (wh_created_at h) (wh_updated_at h).

Inductive ContextWorkerMessageKind : Type := MkData | MkSteer | MkFollowUp | MkCompletion | MkRedirect.
#[export] Instance ContextWorkerMessageKind_eq_dec : EqDecision ContextWorkerMessageKind.
Proof. solve_decision. Defined.
Inductive ContextWorkerMessageStatus : Type := MsPending | MsInFlight | MsAcknowledged | MsDeadLetter.
#[export] Instance ContextWorkerMessageStatus_eq_dec : EqDecision ContextWorkerMessageStatus.
Proof. solve_decision. Defined.

Record ContextWorkerMessage : Type := mkMessage {
  me_id : Id;
  me_sequence : Z; (* u64 *)
  me_sender_worker_id : option Id;
  me_target_worker_id : Id;
  me_kind : ContextWorkerMessageKind;
  me_payload_ref : string;
  me_payload_digest : string;
  me_status : ContextWorkerMessageStatus;
  me_claim_epoch : option Z; (* u64 *)
  me_result_digest : option string;
  me_enqueued_at : DateTime;
  me_updated_at : DateTime;
}.
#[export] Instance ContextWorkerMessage_eta : Eta ContextWorkerMessage := fun m =>
  mkMessage (me_id m) (me_sequence m) (me_sender_worker_id m) (me_target_worker_id m) (me_kind m) (me_payload_ref m)
    (me_payload_digest m) (me_status m) (me_claim_epoch m) (me_result_digest m) (me_enqueued_at m) (me_updated_at m).
#[export] Instance ContextWorkerMessage_eq_dec : EqDecision ContextWorkerMessage.
Proof. solve_decision. Defined.

Record WorkerMailbox : Type := mkMailbox {
  mb_id : Id;
  mb_tenant_id : Id;
  mb_project_id : Id;
  mb_mission_id : Id;
  mb_workspace_id : Id;
  mb_worker_id : Id;
  mb_generation : Z; (* u64 *)
  mb_max_pending : Z; (* u32 *)
  mb_next_sequence : Z; (* u64 *)
  mb_acknowledged_cursor : Z; (* u64 *)
  mb_messages : list ContextWorkerMessage;
  mb_revision : Z; (* u64 *)
  mb_created_at : DateTime;
  mb_updated_at : DateTime;
}.
#[export] Instance WorkerMailbox_eta : Eta WorkerMailbox := fun b =>
  mkMailbox (mb_id b) (mb_tenant_id b) (mb_project_id b) (mb_mission_id b) (mb_workspace_id b) (mb_worker_id b)
    (mb_generation b) (mb_max_pending b) (mb_next_sequence b) (mb_acknowledged_cursor b) (mb_messages b)
    (mb_revision b) (mb_created_at b) (mb_updated_at b).

(** ** Branches *)
(** [ContextBranchMerge::validate_for] *)
Definition merge_validate_for (self : ContextBranchMerge) (workspace : ContextWorkspace) (mission : Mission)
    (source target : ContextBranch) (capsule : ContextCapsule) (now : DateTime) : result ContextError unit :=
  result ← ok_or (cp_result capsule) CxInvalidBranchTransition;
  reject_if (trim_is_empty (mg_id self)
    || negb (bool_decide (mg_tenant_id self = ws_tenant_id workspace))
    || negb (bool_decide (mg_project_id self = ws_project_id workspace))
    || negb (bool_decide (mg_mission_id self = ms_id mission))
    || negb (bool_decide (mg_workspace_id self = ws_id workspace))
    || negb (bool_decide (br_workspace_id source = ws_id workspace))
    || negb (bool_decide (br_workspace_id target = ws_id workspace))
    || negb (bool_decide (br_parent_branch_id source = Some (br_id target)))
    || negb (bool_decide (br_status source = BrCompleted))
    || negb (bool_decide (br_status target = BrActive))
    || negb (bool_decide (mg_source_branch_id self = br_id source))
    || negb (mg_source_branch_revision self =? br_revision source)
    || negb (bool_decide (mg_target_branch_id self = br_id target))
    || negb (mg_target_branch_revision self =? br_revision target)
    || negb (mg_generation self =? ws_generation workspace)
    || negb (br_generation source =? mg_generation self)
    || negb (br_generation target =? mg_generation self)
    || negb (bool_decide (mg_merge_policy self = br_merge_policy source))
    || negb (bool_decide (mg_capsule_id self = cp_id capsule))
    || negb (mg_capsule_revision self =? cp_revision capsule)
    || negb (bool_decide (cp_branch_id capsule = br_id source))
    || negb (bool_decide (cp_workspace_id capsule = ws_id workspace))
    || negb (bool_decide (cp_mission_id capsule = ms_id mission))
    || negb (bool_decide (cp_status capsule = CpAccepted))
    || negb (bool_decide (mg_result_digest self = rr_result_digest result))
    || negb (bool_decide (mg_artifact_digests self = rr_artifact_digests result))
    || negb (bool_decide (mg_evidence_ids self = rr_evidence_ids result))
    || negb (mg_mission_revision self =? ms_revision mission)
    || match mg_disposition self with
       | MdApplied => is_some (mg_conflict_digest self)
       | MdRejected => is_none_or (fun value => negb (is_sha256 value)) (mg_conflict_digest self)
       end
    || negb (is_sha256 (mg_result_digest self))
    || set_any (fun value => negb (is_sha256 value)) (mg_artifact_digests self)
    || (mg_recorded_at self <? cp_updated_at capsule)
    || (now <? mg_recorded_at self)) CxInvalidBranchTransition.

(** [ContextBranchMerge::apply], [ContextBranchMerge::reject] *)
Definition merge_apply (id : Id) (workspace : ContextWorkspace) (mission : Mission) (source target : ContextBranch)
    (capsule : ContextCapsule) (now : DateTime) : result ContextError ContextBranchMerge :=
  result ← ok_or (cp_result capsule) CxInvalidBranchTransition;
  let value := {|
    mg_id := id; mg_tenant_id := ws_tenant_id workspace; mg_project_id := ws_project_id workspace;
    mg_mission_id := ws_mission_id workspace; mg_workspace_id := ws_id workspace;
    mg_source_branch_id := br_id source; mg_source_branch_revision := br_revision source;
    mg_target_branch_id := br_id target; mg_target_branch_revision := br_revision target;
    mg_generation := ws_generation workspace; mg_merge_policy := br_merge_policy source;
    mg_capsule_id := cp_id capsule; mg_capsule_revision := cp_revision capsule;
    mg_result_digest := rr_result_digest result; mg_artifact_digests := rr_artifact_digests result;
    mg_evidence_ids := rr_evidence_ids result; mg_mission_revision := ms_revision mission;
    mg_disposition := MdApplied; mg_conflict_digest := None; mg_recorded_at := now;
  |} in
  merge_validate_for value workspace mission source target capsule now;;
  mret value.

Definition merge_reject (id : Id) (workspace : ContextWorkspace) (mission : Mission) (source target : ContextBranch)
    (capsule : ContextCapsule) (conflict_digest : string) (now : DateTime)
    : result ContextError ContextBranchMerge :=
  value ← merge_apply id workspace mission source target capsule now;
  let value := value <| mg_disposition := MdRejected |> <| mg_conflict_digest := Some conflict_digest |> in
  merge_validate_for value workspace mission source target capsule now;;
  mret value.

Definition touch_branch (now : DateTime) : SR ContextBranch ContextError unit :=
  self ← get;
  revision ← lift (ok_or (checked_add u64_max (br_revision self) 1) CxRevisionOverflow);
  modify (fun self => self <| br_revision := revision |> <| br_updated_at := now |>).

(** The status is set back when [touch_branch] fails, and nothing else was
    written. *)
Definition branch_move (status : ContextBranchStatus) (now : DateTime) : SR ContextBranch ContextError unit :=
  on_clone (modify (fun self => self <| br_status := status |>);; touch_branch now).

Definition complete_for_capsule (capsule : ContextCapsule) (now : DateTime) : SR ContextBranch ContextError unit :=
  self ← get;
  reject (negb (bool_decide (br_status self = BrActive))
    || negb (bool_decide (cp_branch_id capsule = br_id self))
    || negb (bool_decide (cp_workspace_id capsule = br_workspace_id self))
    || negb (cp_worker_generation capsule =? br_generation self)
    || negb (bool_decide (cp_status capsule = CpAccepted))
    || is_none (cp_result capsule)
    || (now <? br_updated_at self)
    || (now <? cp_updated_at capsule)) CxInvalidBranchTransition;;
  branch_move BrCompleted now.

Definition apply_merge (merge : ContextBranchMerge) (now : DateTime) : SR ContextBranch ContextError unit :=
  self ← get;
  reject (negb (bool_decide (br_status self = BrCompleted))
    || negb (bool_decide (mg_source_branch_id merge = br_id self))
    || negb (mg_source_branch_revision merge =? br_revision self)
    || negb (mg_generation merge =? br_generation self)
    || negb (bool_decide (mg_disposition merge = MdApplied))
    || (now <? br_updated_at self)
    || (now <? mg_recorded_at merge)) CxInvalidBranchTransition;;
  branch_move BrMerged now.

Definition abandon (conflict_digest : string) (now : DateTime) : SR ContextBranch ContextError unit :=
  self ← get;
  reject (negb (bool_decide (br_status self ∈ [BrActive; BrCompleted]))
    || negb (is_sha256 conflict_digest)
    || (now <? br_updated_at self)) CxInvalidBranchTransition;;
  branch_move BrAbandoned now.

Definition branch_follows (self previous : ContextBranch) : result ContextError bool :=
  let allowed :=
    match br_status previous, br_status self with
    | BrActive, BrCompleted | (BrActive | BrCompleted), BrAbandoned | BrCompleted, BrMerged => true
    | _, _ => false
    end in
  mret (bool_decide (br_id self = br_id previous)
    && bool_decide (br_tenant_id self = br_tenant_id previous)
    && bool_decide (br_project_id self = br_project_id previous)
    && bool_decide (br_workspace_id self = br_workspace_id previous)
    && bool_decide (br_parent_branch_id self = br_parent_branch_id previous)
    && (br_depth self =? br_depth previous)
    && bool_decide (br_fork_reason self = br_fork_reason previous)
    && bool_decide (br_scope_digest self = br_scope_digest previous)
    && bool_decide (br_merge_policy self = br_merge_policy previous)
    && (br_generation self =? br_generation previous)
    && (br_created_at self =? br_created_at previous)
    && bool_decide (checked_add u64_max (br_revision previous) 1 = Some (br_revision self))
    && (br_updated_at previous <=? br_updated_at self)
    && allowed).

(** ** Usage *)
Definition usage_zero (c : CurrencyCode) : WorkerUsage := mkUsage 0 (zero c) 0 0.

(** [WorkerUsage::record] *)
Definition usage_record (token_delta : Z) (cost_delta : Money) (tool_call_delta runtime_millis_delta : Z)
    (budget : ContextBudget) (self : WorkerUsage) : result ContextError WorkerUsage :=
  reject_if ((amount_minor cost_delta <? 0) || negb (bool_decide (currency cost_delta = currency (us_cost self))))
    CxWorkerBudgetExceeded;;
  next_tokens ← ok_or (checked_add u64_max (us_tokens self) token_delta) CxWorkerBudgetExceeded;
  next_cost ← ok_or (checked_add_i64 (amount_minor (us_cost self)) (amount_minor cost_delta)) CxWorkerBudgetExceeded;
  next_tool_calls ← ok_or (checked_add u64_max (us_tool_calls self) tool_call_delta) CxWorkerBudgetExceeded;
  next_runtime_millis ← ok_or (checked_add u64_max (us_runtime_millis self) runtime_millis_delta)
    CxWorkerBudgetExceeded;
  reject_if ((bu_token_limit budget <? next_tokens)
    || (amount_minor (bu_cost_limit budget) <? next_cost)
    || negb (bool_decide (currency (bu_cost_limit budget) = currency (us_cost self)))) CxWorkerBudgetExceeded;;
  mret (mkUsage next_tokens (mkMoney next_cost (currency (us_cost self))) next_tool_calls next_runtime_millis).

(** ** Handles *)
Definition parent_matches (self : WorkerHandle) (parent : option WorkerHandle) : bool :=
  match parent, wh_parent_worker_id self with
  | None, None => true
  | Some parent, Some parent_id =>
      bool_decide (parent_id = wh_worker_id parent)
      && bool_decide (wh_workspace_id parent = wh_workspace_id self)
      && (wh_generation parent =? wh_generation self)
      && (negb (handle_is_terminal (wh_status parent)) || handle_is_terminal (wh_status self))
      && subset (wh_capabilities self) (wh_capabilities parent)
      && is_subset_of (wh_budget self) (wh_budget parent)
  | _, _ => false
  end.

Definition lifecycle_matches (self : WorkerHandle) (branch : ContextBranch) (capsule : ContextCapsule) : bool :=
  match wh_status self with
  | WhAttached | WhDetached =>
      bool_decide (br_status branch = BrActive)
      && bool_decide (cp_status capsule ∈ [CpIssued; CpClaimed; CpResultSubmitted])
  | WhCompleted =>
      bool_decide (br_status branch ∈ [BrCompleted; BrMerged]) && bool_decide (cp_status capsule = CpAccepted)
  | WhCancelled => bool_decide (br_status branch = BrAbandoned) && bool_decide (cp_status capsule = CpCancelled)
  | WhFailed => bool_decide (br_status branch = BrAbandoned) && bool_decide (cp_status capsule = CpExpired)
  end.

(** [WorkerHandle::validate_for] *)
Definition handle_validate_for (self : WorkerHandle) (workspace : ContextWorkspace) (branch : ContextBranch)
    (lease : WorkerLease) (capsule : ContextCapsule) (parent : option WorkerHandle) (now : DateTime)
    : result ContextError unit :=
  reject_if (negb (bool_decide (wh_tenant_id self = ws_tenant_id workspace))
    || negb (bool_decide (wh_project_id self = ws_project_id workspace))
    || negb (bool_decide (wh_mission_id self = ws_mission_id workspace))
    || negb (bool_decide (wh_workspace_id self = ws_id workspace))
    || negb (bool_decide (wh_branch_id self = br_id branch))
    || negb (bool_decide (wh_capsule_id self = cp_id capsule))
    || negb (bool_decide (wh_lease_id self = le_id lease))
    || negb (bool_decide (wh_worker_id self = cp_worker_id capsule))
    || negb (bool_decide (wh_worker_id self = le_worker_id lease))
    || negb (wh_generation self =? ws_generation workspace)
    || negb (wh_generation self =? br_generation branch)
    || negb (wh_generation self =? le_generation lease)
    || negb (wh_generation self =? cp_worker_generation capsule)
    || (wh_attachment_epoch self =? 0)
    || negb (parent_matches self parent)
    || negb (lifecycle_matches self branch capsule)
    || negb (bool_decide (wh_capabilities self = cp_capabilities capsule))
    || negb (bool_decide (wh_budget self = cp_budget capsule))
    || negb (bool_decide (currency (us_cost (wh_usage self)) = currency (bu_cost_limit (wh_budget self))))
    || (bu_token_limit (wh_budget self) <? us_tokens (wh_usage self))
    || (amount_minor (bu_cost_limit (wh_budget self)) <? amount_minor (us_cost (wh_usage self)))
    || (amount_minor (us_cost (wh_usage self)) <? 0)
    || (wh_revision self =? 0)
    || (wh_created_at self <? cp_issued_at capsule)
    || (now <? wh_created_at self)
    || (wh_updated_at self <? wh_created_at self)
    || (now <? wh_updated_at self)
    || match wh_status self with
       | WhAttached => is_none_or (fun value => negb (is_sha256 value)) (wh_runtime_mapping_digest self)
       | WhDetached | WhCompleted | WhFailed | WhCancelled => is_some (wh_runtime_mapping_digest self)
       end) CxInvalidWorkerHandle.

Definition handle_create (workspace : ContextWorkspace) (branch : ContextBranch) (lease : WorkerLease)
    (capsule : ContextCapsule) (parent : option WorkerHandle) (now : DateTime)
    : result ContextError WorkerHandle :=
  let value := {|
    wh_tenant_id := ws_tenant_id workspace; wh_project_id := ws_project_id workspace;
    wh_mission_id := ws_mission_id workspace; wh_workspace_id := ws_id workspace; wh_branch_id := br_id branch;
    wh_capsule_id := cp_id capsule; wh_lease_id := le_id lease; wh_worker_id := cp_worker_id capsule;
    wh_parent_worker_id := wh_worker_id <$> parent; wh_generation := cp_worker_generation capsule;
    wh_attachment_epoch := 1; wh_runtime_mapping_digest := le_runtime_mapping_digest lease;
    wh_capabilities := cp_capabilities capsule; wh_budget := cp_budget capsule;
    wh_usage := usage_zero (currency (bu_cost_limit (cp_budget capsule))); wh_cursor := 0;
    wh_status := WhAttached; wh_revision := 1; wh_created_at := now; wh_updated_at := now;
  |} in
  handle_validate_for value workspace branch lease capsule parent now;;
  mret value.

Abbreviation handle_op := (SR WorkerHandle ContextError) (only parsing).

(** [WorkerHandle::touch] *)
Definition handle_touch (now : DateTime) : handle_op unit :=
  self ← get;
  revision ← lift (ok_or (checked_add u64_max (wh_revision self) 1) CxRevisionOverflow);
  modify (fun self => self <| wh_revision := revision |> <| wh_updated_at := now |>).

Definition detach (attachment_epoch : Z) (now : DateTime) : handle_op unit :=
  self ← get;
  reject (negb (bool_decide (wh_status self = WhAttached))
    || negb (wh_attachment_epoch self =? attachment_epoch)
    || (now <? wh_updated_at self)) CxInvalidWorkerHandle;;
  on_clone (
    modify (fun self => self <| wh_status := WhDetached |> <| wh_runtime_mapping_digest := None |>);;
    handle_touch now).

Definition reattach (attachment_epoch : Z) (runtime_mapping_digest : string) (now : DateTime) : handle_op unit :=
  self ← get;
  reject (negb (bool_decide (wh_status self = WhDetached))
    || negb (wh_attachment_epoch self =? attachment_epoch)
    || negb (is_sha256 runtime_mapping_digest)
    || (now <? wh_updated_at self)) CxInvalidWorkerHandle;;
  on_clone (
    epoch ← lift (ok_or (checked_add u64_max (wh_attachment_epoch self) 1) CxRevisionOverflow);
    modify (fun self => self <| wh_attachment_epoch := epoch |> <| wh_status := WhAttached |>
      <| wh_runtime_mapping_digest := Some runtime_mapping_digest |>);;
    handle_touch now).

Definition execution_authorized (self : WorkerHandle) (capsule : ContextCapsule) (attachment_epoch : Z) : bool :=
  bool_decide (wh_status self = WhAttached)
  && (wh_attachment_epoch self =? attachment_epoch)
  && bool_decide (cp_id capsule = wh_capsule_id self)
  && bool_decide (cp_worker_id capsule = wh_worker_id self)
  && (cp_worker_generation capsule =? wh_generation self)
  && bool_decide (cp_status capsule ∈ [CpClaimed; CpResultSubmitted]).

Definition record_usage (capsule : ContextCapsule) (attachment_epoch token_delta : Z) (cost_delta : Money)
    (tool_call_delta runtime_millis_delta : Z) (now : DateTime) : handle_op unit :=
  self ← get;
  reject (negb (execution_authorized self capsule attachment_epoch)
    || ((token_delta =? 0) && (amount_minor cost_delta =? 0) && (tool_call_delta =? 0) && (runtime_millis_delta =? 0))
    || (now <? wh_updated_at self)
    || (bu_deadline_at (wh_budget self) <? now)) CxInvalidWorkerHandle;;
  usage ← lift (usage_record token_delta cost_delta tool_call_delta runtime_millis_delta (wh_budget self) (wh_usage self));
  on_clone (
    modify (fun self => self <| wh_usage := usage |>);;
    handle_touch now).

(** [WorkerHandle::complete], [cancel] and [fail] differ in the status of the
    capsule and of the handle. *)
Definition handle_finish (capsule : ContextCapsule) (required : ContextCapsuleStatus) (status : WorkerHandleStatus)
    (now : DateTime) : handle_op unit :=
  self ← get;
  reject (negb (bool_decide (wh_status self ∈ [WhAttached; WhDetached]))
    || negb (bool_decide (cp_id capsule = wh_capsule_id self))
    || negb (bool_decide (cp_status capsule = required))
    || (now <? wh_updated_at self)) CxInvalidWorkerHandle;;
  on_clone (
    modify (fun self => self <| wh_status := status |> <| wh_runtime_mapping_digest := None |>);;
    handle_touch now).
Definition handle_complete (capsule : ContextCapsule) (now : DateTime) : handle_op unit :=
  handle_finish capsule CpAccepted WhCompleted now.
Definition handle_cancel (capsule : ContextCapsule) (now : DateTime) : handle_op unit :=
  handle_finish capsule CpCancelled WhCancelled now.
Definition handle_fail (capsule : ContextCapsule) (now : DateTime) : handle_op unit :=
  handle_finish capsule CpExpired WhFailed now.

Definition advance_cursor (attachment_epoch sequence : Z) (now : DateTime) : handle_op unit :=
  self ← get;
  reject (negb (bool_decide (wh_status self = WhAttached))
    || negb (wh_attachment_epoch self =? attachment_epoch)
    || negb (bool_decide (checked_add u64_max (wh_cursor self) 1 = Some sequence))
    || (now <? wh_updated_at self)) CxInvalidWorkerMessage;;
  on_clone (
    modify (fun self => self <| wh_cursor := sequence |>);;
    handle_touch now).

Definition handle_follows (self previous : WorkerHandle) : result ContextError bool :=
  let immutable :=
    bool_decide (wh_tenant_id self = wh_tenant_id previous)
    && bool_decide (wh_project_id self = wh_project_id previous)
    && bool_decide (wh_mission_id self = wh_mission_id previous)
    && bool_decide (wh_workspace_id self = wh_workspace_id previous)
    && bool_decide (wh_branch_id self = wh_branch_id previous)
    && bool_decide (wh_capsule_id self = wh_capsule_id previous)
    && bool_decide (wh_lease_id self = wh_lease_id previous)
    && bool_decide (wh_worker_id self = wh_worker_id previous)
    && bool_decide (wh_parent_worker_id self = wh_parent_worker_id previous)
    && (wh_generation self =? wh_generation previous)
    && bool_decide (wh_capabilities self = wh_capabilities previous)
    && bool_decide (wh_budget self = wh_budget previous)
    && (wh_created_at self =? wh_created_at previous) in
  let usage_unchanged := bool_decide (wh_usage self = wh_usage previous) in
  let usage_advanced :=
    (us_tokens (wh_usage previous) <=? us_tokens (wh_usage self))
    && bool_decide (currency (us_cost (wh_usage self)) = currency (us_cost (wh_usage previous)))
    && (amount_minor (us_cost (wh_usage previous)) <=? amount_minor (us_cost (wh_usage self)))
    && (us_tool_calls (wh_usage previous) <=? us_tool_calls (wh_usage self))
    && (us_runtime_millis (wh_usage previous) <=? us_runtime_millis (wh_usage self))
    && negb usage_unchanged in
  let cursor_unchanged := wh_cursor self =? wh_cursor previous in
  let cursor_advanced := bool_decide (checked_add u64_max (wh_cursor previous) 1 = Some (wh_cursor self)) in
  let allowed :=
    match wh_status previous, wh_status self with
    | WhDetached, WhAttached =>
        bool_decide (checked_add u64_max (wh_attachment_epoch previous) 1 = Some (wh_attachment_epoch self))
        && is_some (wh_runtime_mapping_digest self) && cursor_unchanged && usage_unchanged
    | WhAttached, WhAttached =>
        (wh_attachment_epoch self =? wh_attachment_epoch previous)
        && bool_decide (wh_runtime_mapping_digest self = wh_runtime_mapping_digest previous)
        && ((cursor_unchanged && usage_advanced) || (cursor_advanced && usage_unchanged))
    | WhAttached, (WhDetached | WhCompleted | WhFailed | WhCancelled)
    | WhDetached, (WhCompleted | WhFailed | WhCancelled) =>
        (wh_attachment_epoch self =? wh_attachment_epoch previous)
        && is_none (wh_runtime_mapping_digest self) && cursor_unchanged && usage_unchanged
    | _, _ => false
    end in
  mret (immutable && allowed
    && bool_decide (checked_add u64_max (wh_revision previous) 1 = Some (wh_revision self))
    && (wh_updated_at previous <=? wh_updated_at self)).

(** ** Messages *)
Definition is_ascii_whitespace (b : Z) : bool := (b =? 32) || (b =? 9) || (b =? 10) || (b =? 12) || (b =? 13).

Definition is_safe_message_ref (value : string) : bool :=
  if String.eqb value ""
     || (MAX_MESSAGE_REFERENCE_BYTES <? str_len value)
     || negb (all_bytes (fun b => negb (is_ascii_control b || is_ascii_whitespace b)) value)
     || str_contains ".." value
     || negb (all_bytes (fun b => negb ((b =? 92) || (b =? 63) || (b =? 35) || (b =? 64))) value)
  then false else
  match split_once "://" value with
  | None => false
  | Some (scheme, target) =>
      bool_decide (scheme ∈ ["cas"; "artifact"; "mission"; "trace"]) && negb (String.eqb target "")
  end.

(** [ContextWorkerMessage::validate] *)
Definition message_validate (self : ContextWorkerMessage) (mailbox : WorkerMailbox) (now : DateTime)
    : result ContextError unit :=
  reject_if (trim_is_empty (me_id self)
    || (me_sequence self =? 0)
    || negb (bool_decide (me_target_worker_id self = mb_worker_id mailbox))
    || negb (is_safe_message_ref (me_payload_ref self))
    || negb (is_sha256 (me_payload_digest self))
    || (me_enqueued_at self <? mb_created_at mailbox)
    || (now <? me_enqueued_at self)
    || (me_updated_at self <? me_enqueued_at self)
    || (now <? me_updated_at self)
    || match me_status self with
       | MsPending => is_some (me_claim_epoch self) || is_some (me_result_digest self)
       | MsInFlight => is_none (me_claim_epoch self) || is_some (me_result_digest self)
       | MsAcknowledged => is_none (me_claim_epoch self)
           || is_none_or (fun value => negb (is_sha256 value)) (me_result_digest self)
       | MsDeadLetter => is_none (me_result_digest self)
       end) CxInvalidWorkerMessage.

(** ** Mailboxes *)
Definition is_unsettled (message : ContextWorkerMessage) : bool :=
  bool_decide (me_status message ∈ [MsPending; MsInFlight]).
Definition unsettled_count (self : WorkerMailbox) : Z :=
  default u32_max (try_from_usize u32_max (length (List.filter is_unsettled (mb_messages self)))).

(** The loop of [WorkerMailbox::validate_for]. *)
Fixpoint messages_validate (mailbox : WorkerMailbox) (now : DateTime) (index : nat)
    (messages : list ContextWorkerMessage) : result ContextError unit :=
  match messages with
  | [] => mret tt
  | message :: rest =>
      reject_if (negb (me_sequence message =? Z.of_nat index + 1)) CxInvalidWorkerMessage;;
      message_validate message mailbox now;;
      reject_if ((me_sequence message <=? mb_acknowledged_cursor mailbox)
        && negb (bool_decide (me_status message = MsAcknowledged))) CxInvalidWorkerMessage;;
      messages_validate mailbox now (S index) rest
  end.

Definition mailbox_validate_for (self : WorkerMailbox) (handle : WorkerHandle) (now : DateTime)
    : result ContextError unit :=
  reject_if (trim_is_empty (mb_id self)
    || negb (bool_decide (mb_tenant_id self = wh_tenant_id handle))
    || negb (bool_decide (mb_project_id self = wh_project_id handle))
    || negb (bool_decide (mb_mission_id self = wh_mission_id handle))
    || negb (bool_decide (mb_workspace_id self = wh_workspace_id handle))
    || negb (bool_decide (mb_worker_id self = wh_worker_id handle))
    || negb (mb_generation self =? wh_generation handle)
    || (mb_max_pending self =? 0)
    || (MAX_MAILBOX_CAPACITY <? mb_max_pending self)
    || (mb_max_pending self <? unsettled_count self)
    || negb (mb_next_sequence self =? Z.of_nat (length (mb_messages self)) + 1)
    || negb (mb_acknowledged_cursor self =? wh_cursor handle)
    || (mb_revision self =? 0)
    || (mb_created_at self <? wh_created_at handle)
    || (now <? mb_created_at self)
    || (mb_updated_at self <? mb_created_at self)
    || (now <? mb_updated_at self)) CxInvalidWorkerMessage;;
  messages_validate self now 0 (mb_messages self).

Definition mailbox_create (id : Id) (handle : WorkerHandle) (max_pending : Z) (now : DateTime)
    : result ContextError WorkerMailbox :=
  let value := {|
    mb_id := id; mb_tenant_id := wh_tenant_id handle; mb_project_id := wh_project_id handle;
    mb_mission_id := wh_mission_id handle; mb_workspace_id := wh_workspace_id handle;
    mb_worker_id := wh_worker_id handle; mb_generation := wh_generation handle; mb_max_pending := max_pending;
    mb_next_sequence := 1; mb_acknowledged_cursor := 0; mb_messages := []; mb_revision := 1;
    mb_created_at := now; mb_updated_at := now;
  |} in
  mailbox_validate_for value handle now;;
  mret value.

(** [WorkerMailbox::touch] *)
Definition mailbox_touch (now : DateTime) : SR WorkerMailbox ContextError unit :=
  self ← get;
  revision ← lift (ok_or (checked_add u64_max (mb_revision self) 1) CxRevisionOverflow);
  modify (fun self => self <| mb_revision := revision |> <| mb_updated_at := now |>).

(** [self.touch(now).and_then(|()| self.validate_for(handle, now))] *)
Definition touch_and_validate (handle : WorkerHandle) (now : DateTime) : SR WorkerMailbox ContextError unit :=
  mailbox_touch now;;
  self ← get;
  lift (mailbox_validate_for self handle now).

Definition enqueue (handle : WorkerHandle) (id : Id) (sender_worker_id : option Id) (kind : ContextWorkerMessageKind)
    (payload_ref payload_digest : string) (now : DateTime) : SR WorkerMailbox ContextError ContextWorkerMessage :=
  self ← get;
  lift (mailbox_validate_for self handle now);;
  reject (handle_is_terminal (wh_status handle)
    || (now <? mb_updated_at self)
    || existsb (fun message => bool_decide (me_id message = id)) (mb_messages self)
    || (mb_max_pending self <=? unsettled_count self))
    (if mb_max_pending self <=? unsettled_count self then CxContextBackpressure else CxInvalidWorkerMessage);;
  let message := {|
    me_id := id; me_sequence := mb_next_sequence self; me_sender_worker_id := sender_worker_id;
    me_target_worker_id := mb_worker_id self; me_kind := kind; me_payload_ref := payload_ref;
    me_payload_digest := payload_digest; me_status := MsPending; me_claim_epoch := None; me_result_digest := None;
    me_enqueued_at := now; me_updated_at := now;
  |} in
  lift (message_validate message self now);;
  next_sequence ← lift (ok_or (checked_add u64_max (mb_next_sequence self) 1) CxRevisionOverflow);
  on_clone (
    modify (fun self => self <| mb_next_sequence := next_sequence |> <| mb_messages ::= fun l => l ++ [message] |>);;
    touch_and_validate handle now);;
  mret message.

(** [iter().position(..)] *)
Definition position (f : ContextWorkerMessage -> bool) (messages : list ContextWorkerMessage)
    : option (nat * ContextWorkerMessage) :=
  list_find (fun message => f message = true) messages.

Definition set_message (index : nat) (f : ContextWorkerMessage -> ContextWorkerMessage) (self : WorkerMailbox)
    : WorkerMailbox :=
  self <| mb_messages ::= alter f index |>.

Definition claim_next (handle : WorkerHandle) (capsule : ContextCapsule) (attachment_epoch : Z) (now : DateTime)
    : SR WorkerMailbox ContextError (option ContextWorkerMessage) :=
  self ← get;
  lift (mailbox_validate_for self handle now);;
  reject (negb (execution_authorized handle capsule attachment_epoch)
    || existsb (fun message => bool_decide (me_status message = MsInFlight)) (mb_messages self))
    CxInvalidWorkerMessage;;
  expected ← lift (ok_or (checked_add u64_max (mb_acknowledged_cursor self) 1) CxRevisionOverflow);
  match position (fun message => (me_sequence message =? expected) && bool_decide (me_status message = MsPending))
          (mb_messages self) with
  | None => mret None
  | Some (index, message) =>
      let claimed := message <| me_status := MsInFlight |> <| me_claim_epoch := Some attachment_epoch |>
        <| me_updated_at := now |> in
      on_clone (modify (set_message index (fun _ => claimed));; touch_and_validate handle now);;
      mret (Some claimed)
  end.

(** [WorkerMailbox::acknowledge] changes the mailbox and the handle, and puts
    both back when the new mailbox does not validate. *)
Definition acknowledge (capsule : ContextCapsule) (message_id : Id) (attachment_epoch : Z) (result_digest : string)
    (now : DateTime) : SR (WorkerMailbox * WorkerHandle) ContextError ContextWorkerMessage :=
  state ← get;
  let '(self, handle) := state in
  lift (mailbox_validate_for self handle now);;
  reject (negb (execution_authorized handle capsule attachment_epoch)
    || negb (is_sha256 result_digest)
    || (now <? mb_updated_at self)) CxInvalidWorkerMessage;;
  found ← lift (ok_or (position (fun message => bool_decide (me_id message = message_id)) (mb_messages self))
    CxInvalidWorkerMessage);
  let '(index, message_before) := found in
  reject (negb (bool_decide (me_status message_before = MsInFlight))
    || negb (bool_decide (me_claim_epoch message_before = Some attachment_epoch))
    || negb (me_sequence message_before =? saturating_add u64_max (mb_acknowledged_cursor self) 1))
    CxInvalidWorkerMessage;;
  let '(advanced, handle') := run (advance_cursor attachment_epoch (me_sequence message_before) now) handle in
  lift advanced;;
  let message := message_before <| me_status := MsAcknowledged |> <| me_result_digest := Some result_digest |>
    <| me_updated_at := now |> in
  let self' := set_message index (fun _ => message) self <| mb_acknowledged_cursor := me_sequence message_before |> in
  let '(checked, self'') := run (touch_and_validate handle' now) self' in
  lift checked;;
  put (self'', handle');;
  mret message.

Definition requeue (handle : WorkerHandle) (now : DateTime) (message : ContextWorkerMessage) : ContextWorkerMessage :=
  message <| me_status := MsPending |> <| me_claim_epoch := None |> <| me_updated_at := now |>.
Definition held_by_old_epoch (handle : WorkerHandle) (message : ContextWorkerMessage) : bool :=
  bool_decide (me_status message = MsInFlight)
  && is_some_and (fun epoch => epoch <? wh_attachment_epoch handle) (me_claim_epoch message).

Definition recover_after_reattach (handle : WorkerHandle) (now : DateTime) : SR WorkerMailbox ContextError bool :=
  self ← get;
  reject (negb (bool_decide (wh_status handle = WhAttached))
    || (wh_attachment_epoch handle <=? 1)
    || (now <? mb_updated_at self)) CxInvalidWorkerMessage;;
  lift (mailbox_validate_for self handle now);;
  let changed := existsb (held_by_old_epoch handle) (mb_messages self) in
  if changed then
    on_clone (
      modify (fun self => self <| mb_messages ::= fmap (fun message =>
        if held_by_old_epoch handle message then requeue handle now message else message) |>);;
      touch_and_validate handle now);;
    mret true
  else mret false.

(** ** The append check of a mailbox *)
Record FollowCounts : Type := mkCounts {
  fc_claimed : Z; (* u32 *)
  fc_recovered : Z; (* u32 *)
  fc_acknowledged : Z; (* u32 *)
  fc_acknowledged_sequence : option Z;
}.
#[export] Instance FollowCounts_eta : Eta FollowCounts := fun c =>
  mkCounts (fc_claimed c) (fc_recovered c) (fc_acknowledged c) (fc_acknowledged_sequence c).

Definition message_identity_differs (old new : ContextWorkerMessage) : bool :=
  negb (bool_decide (me_id old = me_id new))
  || negb (me_sequence old =? me_sequence new)
  || negb (bool_decide (me_sender_worker_id old = me_sender_worker_id new))
  || negb (bool_decide (me_target_worker_id old = me_target_worker_id new))
  || negb (bool_decide (me_kind old = me_kind new))
  || negb (bool_decide (me_payload_ref old = me_payload_ref new))
  || negb (bool_decide (me_payload_digest old = me_payload_digest new))
  || negb (me_enqueued_at old =? me_enqueued_at new).

(** The body of the loop; [None] stands for [return Ok(false)]. *)
Definition follow_message (counts : FollowCounts) (old new : ContextWorkerMessage) : option FollowCounts :=
  if message_identity_differs old new then None else
  if bool_decide (me_status old = me_status new) then
    if bool_decide (old = new) then Some counts else None
  else
  match me_status old, me_status new with
  | MsPending, MsInFlight =>
      if is_some (me_claim_epoch old) || is_some (me_result_digest old) || is_none (me_claim_epoch new)
         || is_some (me_result_digest new) || (me_updated_at new <? me_updated_at old)
      then None else Some (counts <| fc_claimed ::= fun n => saturating_add u32_max n 1 |>)
  | MsInFlight, MsPending =>
      if is_none (me_claim_epoch old) || is_some (me_claim_epoch new) || is_some (me_result_digest new)
         || (me_updated_at new <? me_updated_at old)
      then None else Some (counts <| fc_recovered ::= fun n => saturating_add u32_max n 1 |>)
  | MsInFlight, MsAcknowledged =>
      if is_none (me_claim_epoch old) || negb (bool_decide (me_claim_epoch new = me_claim_epoch old))
         || is_none_or (fun value => negb (is_sha256 value)) (me_result_digest new)
         || (me_updated_at new <? me_updated_at old)
      then None
      else Some (counts <| fc_acknowledged ::= fun n => saturating_add u32_max n 1 |>
        <| fc_acknowledged_sequence := Some (me_sequence new) |>)
  | _, _ => None
  end.

Fixpoint follow_messages (counts : FollowCounts) (old new : list ContextWorkerMessage) : option FollowCounts :=
  match old, new with
  | o :: old, n :: new => counts ← follow_message counts o n; follow_messages counts old new
  | _, _ => Some counts
  end.

Definition mailbox_follows (self previous : WorkerMailbox) : result ContextError bool :=
  if negb (bool_decide (mb_id self = mb_id previous))
     || negb (bool_decide (mb_tenant_id self = mb_tenant_id previous))
     || negb (bool_decide (mb_project_id self = mb_project_id previous))
     || negb (bool_decide (mb_mission_id self = mb_mission_id previous))
     || negb (bool_decide (mb_workspace_id self = mb_workspace_id previous))
     || negb (bool_decide (mb_worker_id self = mb_worker_id previous))
     || negb (mb_generation self =? mb_generation previous)
     || negb (mb_max_pending self =? mb_max_pending previous)
     || negb (mb_created_at self =? mb_created_at previous)
     || negb (bool_decide (checked_add u64_max (mb_revision previous) 1 = Some (mb_revision self)))
     || Nat.ltb (length (mb_messages self)) (length (mb_messages previous))
     || (mb_updated_at self <? mb_updated_at previous)
  then mret false else
  match follow_messages (mkCounts 0 0 0 None) (mb_messages previous) (mb_messages self) with
  | None => mret false
  | Some counts =>
      let appended := (length (mb_messages self) - length (mb_messages previous))%nat in
      let transition_count := saturating_add u32_max (saturating_add u32_max (fc_claimed counts) (fc_recovered counts))
        (fc_acknowledged counts) in
      let enqueue := Nat.eqb appended 1
        && (transition_count =? 0)
        && bool_decide (checked_add u64_max (mb_next_sequence previous) 1 = Some (mb_next_sequence self))
        && (mb_acknowledged_cursor self =? mb_acknowledged_cursor previous)
        && is_some_and (fun message =>
             (me_sequence message =? mb_next_sequence previous)
             && bool_decide (me_status message = MsPending)
             && is_none (me_claim_epoch message) && is_none (me_result_digest message)) (last (mb_messages self)) in
      let claim := Nat.eqb appended 0 && (fc_claimed counts =? 1) && (fc_recovered counts =? 0)
        && (fc_acknowledged counts =? 0)
        && (mb_next_sequence self =? mb_next_sequence previous)
        && (mb_acknowledged_cursor self =? mb_acknowledged_cursor previous) in
      let recovery := Nat.eqb appended 0 && (fc_claimed counts =? 0) && (fc_recovered counts =? 1)
        && (fc_acknowledged counts =? 0)
        && (mb_next_sequence self =? mb_next_sequence previous)
        && (mb_acknowledged_cursor self =? mb_acknowledged_cursor previous) in
      let acknowledgement := Nat.eqb appended 0 && (fc_claimed counts =? 0) && (fc_recovered counts =? 0)
        && (fc_acknowledged counts =? 1)
        && (mb_next_sequence self =? mb_next_sequence previous)
        && bool_decide (checked_add u64_max (mb_acknowledged_cursor previous) 1 = Some (mb_acknowledged_cursor self))
        && bool_decide (fc_acknowledged_sequence counts = Some (mb_acknowledged_cursor self)) in
      mret (enqueue || claim || recovery || acknowledgement)
  end.
