(* ===== verification/WorkerSteps.v ===== *)
(** * The steps of a worker

    The calls that change a worker's mailbox and handle, the step each
    successful call takes, and that a call that does not succeed changes
    neither. *)
From S2P Require Import Prelude Text Money Contract MissionTypes Effect Checkpoint Terminal Truth RuntimeTurn Context Worker.

Abbreviation worker_state := (WorkerMailbox * WorkerHandle)%type (only parsing).

(** ** Calls on a worker: its mailbox and its handle *)
Definition on_mailbox {A} (op : WorkerHandle -> SR WorkerMailbox ContextError A) : SR worker_state ContextError A :=
  mkSR (fun s => let '(r, b) := run (op s.2) s.1 in (r, (b, s.2))).
Definition on_handle {A} (op : SR WorkerHandle ContextError A) : SR worker_state ContextError A :=
  mkSR (fun s => let '(r, h) := run op s.2 in (r, (s.1, h))).

Inductive WorkerCall : Type :=
| CallEnqueue (id : Id) (sender : option Id) (kind : ContextWorkerMessageKind) (ref digest : string) (now : DateTime)
| CallClaim (capsule : ContextCapsule) (epoch : Z) (now : DateTime)
| CallAcknowledge (capsule : ContextCapsule) (id : Id) (epoch : Z) (digest : string) (now : DateTime)
| CallRecover (now : DateTime)
| CallDetach (epoch : Z) (now : DateTime)
| CallReattach (epoch : Z) (digest : string) (now : DateTime)
| CallUsage (capsule : ContextCapsule) (epoch tokens : Z) (cost : Money) (tools millis : Z) (now : DateTime)
| CallFinish (capsule : ContextCapsule) (required : ContextCapsuleStatus) (status : WorkerHandleStatus) (now : DateTime).

(** [complete], [cancel] and [fail]. *)
Definition finishes (required : ContextCapsuleStatus) (status : WorkerHandleStatus) : bool :=
  match required, status with
  | CpAccepted, WhCompleted | CpCancelled, WhCancelled | CpExpired, WhFailed => true
  | _, _ => false
  end.

Definition worker_call (c : WorkerCall) : SR worker_state ContextError unit :=
  match c with
  | CallEnqueue id sender kind ref digest now =>
      on_mailbox (fun h => enqueue h id sender kind ref digest now);; mret tt
  | CallClaim capsule epoch now => on_mailbox (fun h => claim_next h capsule epoch now);; mret tt
  | CallAcknowledge capsule id epoch digest now => acknowledge capsule id epoch digest now;; mret tt
  | CallRecover now => on_mailbox (fun h => recover_after_reattach h now);; mret tt
  | CallDetach epoch now => on_handle (detach epoch now)
  | CallReattach epoch digest now => on_handle (reattach epoch digest now)
  | CallUsage capsule epoch tokens cost tools millis now =>
      on_handle (record_usage capsule epoch tokens cost tools millis now)
  | CallFinish capsule required status now =>
      reject (negb (finishes required status)) CxInvalidWorkerHandle;; on_handle (handle_finish capsule required status now)
  end.

Fixpoint worker_run (cs : list WorkerCall) (s : worker_state) : worker_state :=
  match cs with [] => s | c :: cs => worker_run cs (run (worker_call c) s).2 end.

(** ** Steps *)
Definition touched_mailbox (now : DateTime) (b : WorkerMailbox) : WorkerMailbox :=
  b <| mb_revision := mb_revision b + 1 |> <| mb_updated_at := now |>.
Definition touched_handle (now : DateTime) (h : WorkerHandle) : WorkerHandle :=
  h <| wh_revision := wh_revision h + 1 |> <| wh_updated_at := now |>.

Lemma touch_and_validate_Ok h now b u b' :
  run (touch_and_validate h now) b = (Ok u, b') <->
  b' = touched_mailbox now b /\ mb_revision b < u64_max /\ mailbox_validate_for b' h now = Ok tt.
Proof.
  unfold touch_and_validate, mailbox_touch. split.
  - intros Hr. inv_ok. match goal with Hx : checked_add _ _ _ = Some _ |- _ => apply checked_add_Some in Hx as [-> ?] end.
    destruct u. split_and!; [done|lia|done].
  - intros (-> & Hrev & Hv). destruct u. unfold mbind, SR_mbind; cbn -[mailbox_validate_for]. unfold checked_add.
    rewrite (proj2 (Z.leb_le _ _)) by lia. cbn -[mailbox_validate_for].
    change (mailbox_validate_for _ h now) with (mailbox_validate_for (touched_mailbox now b) h now). by rewrite Hv.
Qed.

Lemma handle_touch_Ok now h u h' :
  run (handle_touch now) h = (Ok u, h') <-> h' = touched_handle now h /\ wh_revision h < u64_max.
Proof.
  unfold handle_touch. split.
  - intros Hr. inv_ok. match goal with Hx : checked_add _ _ _ = Some _ |- _ => apply checked_add_Some in Hx as [-> ?] end.
    split; [done|lia].
  - intros (-> & Hrev). destruct u. unfold mbind, SR_mbind; cbn. unfold checked_add.
    by rewrite (proj2 (Z.leb_le _ _)) by lia.
Qed.

(** The message as [claim_next], [acknowledge] leave it. *)
Definition claimed_message (epoch : Z) (now : DateTime) (m : ContextWorkerMessage) : ContextWorkerMessage :=
  m <| me_status := MsInFlight |> <| me_claim_epoch := Some epoch |> <| me_updated_at := now |>.
Definition acknowledged_message (digest : string) (now : DateTime) (m : ContextWorkerMessage) : ContextWorkerMessage :=
  m <| me_status := MsAcknowledged |> <| me_result_digest := Some digest |> <| me_updated_at := now |>.
Definition requeued (h : WorkerHandle) (now : DateTime) (m : ContextWorkerMessage) : ContextWorkerMessage :=
  if held_by_old_epoch h m then requeue h now m else m.

Definition fresh_message (b : WorkerMailbox) (id : Id) (m : ContextWorkerMessage) (now : DateTime) : Prop :=
  me_id m = id /\ (forall x, x ∈ mb_messages b -> me_id x <> id) /\
  me_sequence m = mb_next_sequence b /\ me_status m = MsPending /\ me_claim_epoch m = None /\
  me_result_digest m = None /\ me_updated_at m = now.

Inductive worker_step : worker_state -> WorkerCall -> worker_state -> Prop :=
| step_enqueue b h id sender kind ref digest now m b' :
    mailbox_validate_for b h now = Ok tt -> fresh_message b id m now -> mb_updated_at b <= now ->
    unsettled_count b < mb_max_pending b -> mb_revision b < u64_max -> mb_next_sequence b < u64_max ->
    b' = touched_mailbox now (b <| mb_next_sequence := mb_next_sequence b + 1 |> <| mb_messages ::= fun l => l ++ [m] |>) ->
    mailbox_validate_for b' h now = Ok tt ->
    worker_step (b, h) (CallEnqueue id sender kind ref digest now) (b', h)
| step_claim b h capsule epoch now i m b' :
    mailbox_validate_for b h now = Ok tt -> execution_authorized h capsule epoch = true ->
    (forall x, x ∈ mb_messages b -> me_status x <> MsInFlight) ->
    mb_messages b !! i = Some m -> me_status m = MsPending -> me_sequence m = mb_acknowledged_cursor b + 1 ->
    mb_revision b < u64_max ->
    b' = touched_mailbox now (set_message i (fun _ => claimed_message epoch now m) b) ->
    mailbox_validate_for b' h now = Ok tt ->
    worker_step (b, h) (CallClaim capsule epoch now) (b', h)
| step_acknowledge b h capsule id epoch digest now i m b' h' :
    mailbox_validate_for b h now = Ok tt -> execution_authorized h capsule epoch = true -> is_sha256 digest = true ->
    mb_messages b !! i = Some m -> me_id m = id -> me_status m = MsInFlight -> me_claim_epoch m = Some epoch ->
    me_sequence m = mb_acknowledged_cursor b + 1 -> wh_cursor h + 1 = me_sequence m -> wh_cursor h < u64_max ->
    mb_updated_at b <= now -> wh_updated_at h <= now -> mb_revision b < u64_max -> wh_revision h < u64_max ->
    h' = touched_handle now (h <| wh_cursor := me_sequence m |>) ->
    b' = touched_mailbox now (set_message i (fun _ => acknowledged_message digest now m) b
           <| mb_acknowledged_cursor := me_sequence m |>) ->
    mailbox_validate_for b' h' now = Ok tt ->
    worker_step (b, h) (CallAcknowledge capsule id epoch digest now) (b', h')
| step_recover b h now b' :
    mailbox_validate_for b h now = Ok tt -> wh_status h = WhAttached -> 1 < wh_attachment_epoch h ->
    existsb (held_by_old_epoch h) (mb_messages b) = true -> mb_updated_at b <= now -> mb_revision b < u64_max ->
    b' = touched_mailbox now (b <| mb_messages ::= fmap (requeued h now) |>) ->
    mailbox_validate_for b' h now = Ok tt ->
    worker_step (b, h) (CallRecover now) (b', h)
| step_detach b h epoch now : wh_status h = WhAttached -> wh_attachment_epoch h = epoch -> wh_updated_at h <= now ->
    wh_revision h < u64_max ->
    worker_step (b, h) (CallDetach epoch now)
      (b, touched_handle now (h <| wh_status := WhDetached |> <| wh_runtime_mapping_digest := None |>))
| step_reattach b h epoch digest now : wh_status h = WhDetached -> wh_attachment_epoch h = epoch ->
    is_sha256 digest = true -> wh_updated_at h <= now -> epoch < u64_max -> wh_revision h < u64_max ->
    worker_step (b, h) (CallReattach epoch digest now)
      (b, touched_handle now (h <| wh_attachment_epoch := epoch + 1 |> <| wh_status := WhAttached |>
            <| wh_runtime_mapping_digest := Some digest |>))
| step_usage b h capsule epoch tokens cost tools millis now usage :
    execution_authorized h capsule epoch = true -> wh_updated_at h <= now -> now <= bu_deadline_at (wh_budget h) ->
    (tokens =? 0) && (amount_minor cost =? 0) && (tools =? 0) && (millis =? 0) = false ->
    usage_record tokens cost tools millis (wh_budget h) (wh_usage h) = Ok usage -> wh_revision h < u64_max ->
    worker_step (b, h) (CallUsage capsule epoch tokens cost tools millis now)
      (b, touched_handle now (h <| wh_usage := usage |>))
| step_finish b h capsule required status now :
    finishes required status = true -> wh_status h ∈ [WhAttached; WhDetached] -> cp_id capsule = wh_capsule_id h ->
    cp_status capsule = required -> wh_updated_at h <= now -> wh_revision h < u64_max ->
    worker_step (b, h) (CallFinish capsule required status now)
      (b, touched_handle now (h <| wh_status := status |> <| wh_runtime_mapping_digest := None |>)).

Lemma run_on_mailbox {A} (op : WorkerHandle -> SR WorkerMailbox ContextError A) b h x s' :
  run (on_mailbox op) (b, h) = (Ok x, s') <-> exists b', s' = (b', h) /\ run (op h) b = (Ok x, b').
Proof. unfold on_mailbox; cbn. destruct (run (op h) b) as [r b1]; split; [intros [= -> <-]; eauto|intros (b' & -> & [= -> ->]); done]. Qed.
Lemma run_on_handle {A} (op : SR WorkerHandle ContextError A) b h x s' :
  run (on_handle op) (b, h) = (Ok x, s') <-> exists h', s' = (b, h') /\ run op h = (Ok x, h').
Proof. unfold on_handle; cbn. destruct (run op h) as [r h1]; split; [intros [= -> <-]; eauto|intros (h' & -> & [= -> ->]); done]. Qed.

Ltac added :=
  repeat match goal with Hx : checked_add _ _ _ = Some _ |- _ => apply checked_add_Some in Hx as [? ?]; subst end.

Lemma position_Some f messages i m : position f messages = Some (i, m) -> messages !! i = Some m /\ f m = true.
Proof. intros (? & ? & _)%list_find_Some. done. Qed.

Lemma enqueue_step b h id sender kind ref digest now m b' :
  run (enqueue h id sender kind ref digest now) b = (Ok m, b') ->
  worker_step (b, h) (CallEnqueue id sender kind ref digest now) (b', h).
Proof.
  unfold enqueue. intros Hr. inv_ok. repeat match goal with u : unit |- _ => destruct u end. split_guards. added.
  match goal with Hx : run (touch_and_validate _ _) _ = _ |- _ => apply touch_and_validate_Ok in Hx as (-> & ? & ?) end.
  eapply step_enqueue; try done; try lia. repeat split. intros x Hx Hid.
  match goal with He : existsb _ _ = false |- _ => rewrite existsb_false in He; specialize (He x Hx); cbn in He;
    by apply bool_decide_eq_false_1 in He end.
Qed.

Lemma claim_step b h capsule epoch now o b' :
  run (claim_next h capsule epoch now) b = (Ok o, b') ->
  (b' = b /\ o = None) \/ worker_step (b, h) (CallClaim capsule epoch now) (b', h).
Proof.
  unfold claim_next. intros Hr. inv_ok. repeat match goal with u : unit |- _ => destruct u end. split_guards. added.
  case_match eqn:Hp.
  - case_match; subst. inv_ok. apply position_Some in Hp as [Hi Hm]. split_guards.
    match goal with Hx : run (touch_and_validate _ _) _ = _ |- _ => apply touch_and_validate_Ok in Hx as (-> & ? & ?) end.
    right. eapply step_claim; try done; [|lia]. intros y Hy Hst.
    match goal with He : existsb _ _ = false |- _ => rewrite existsb_false in He; specialize (He y Hy); cbn in He;
      by apply bool_decide_eq_false_1 in He end.
  - left. by inv_ok.
Qed.

Lemma advance_cursor_Ok epoch sequence now h u h' :
  run (advance_cursor epoch sequence now) h = (Ok u, h') <->
  (wh_status h = WhAttached /\ wh_attachment_epoch h = epoch /\ wh_cursor h + 1 = sequence /\ wh_cursor h < u64_max /\
   wh_updated_at h <= now /\ wh_revision h < u64_max) /\ h' = touched_handle now (h <| wh_cursor := sequence |>).
Proof.
  unfold advance_cursor. split.
  - intros Hr. inv_ok. split_guards. added.
    match goal with Hx : run (handle_touch _) _ = _ |- _ => apply handle_touch_Ok in Hx as (-> & ?) end.
    split_and!; try done; lia.
  - intros ((Hs & <- & Hc & Hm & Hn & Hr) & ->). rewrite run_get_bind, run_reject_bind.
    rewrite bool_decide_eq_true_2, Z.eqb_refl by done. unfold checked_add. rewrite (proj2 (Z.leb_le _ _)) by lia.
    rewrite bool_decide_eq_true_2 by (f_equal; lia). rewrite (proj2 (Z.ltb_ge _ _)) by done. cbn [negb orb].
    apply run_on_clone_Ok. rewrite run_modify_bind. by apply handle_touch_Ok.
Qed.

Lemma acknowledge_step b h capsule id epoch digest now m s' :
  run (acknowledge capsule id epoch digest now) (b, h) = (Ok m, s') ->
  worker_step (b, h) (CallAcknowledge capsule id epoch digest now) s'.
Proof.
  unfold acknowledge. intros Hr. rewrite run_get_bind in Hr. inv_ok.
  match goal with x : nat * _ |- _ => destruct x as [i m0] end.
  match goal with Hx : position _ _ = Some _ |- _ => apply position_Some in Hx as [Hi Hm] end. inv_ok.
  destruct (run (advance_cursor _ _ _) _) as [advanced h'] eqn:Hadv. inv_ok.
  destruct (run (touch_and_validate _ _) _) as [checked b'] eqn:Htv. inv_ok.
  repeat match goal with u : unit |- _ => destruct u end.
  apply advance_cursor_Ok in Hadv as [(? & ? & ? & ? & ? & ?) ->].
  apply touch_and_validate_Ok in Htv as (-> & ? & ?). split_guards.
  assert (wh_cursor h = mb_acknowledged_cursor b) as Hc.
  { unfold mailbox_validate_for in *. inv_ok. split_guards. lia. }
  eapply step_acknowledge; try done; try lia.
Qed.

Lemma recover_step b h now r b' :
  run (recover_after_reattach h now) b = (Ok r, b') ->
  (b' = b /\ r = false) \/ worker_step (b, h) (CallRecover now) (b', h).
Proof.
  unfold recover_after_reattach. intros Hr. inv_run. destruct (existsb _ _) eqn:He; inv_run; [|by left].
  match goal with Hx : run (touch_and_validate _ _) _ = _ |- _ => apply touch_and_validate_Ok in Hx as (-> & ? & ?) end.
  split_guards. right. eapply step_recover; try done; lia.
Qed.

Ltac touched_by_handle :=
  match goal with Hx : run (handle_touch _) _ = _ |- _ => apply handle_touch_Ok in Hx as (-> & ?) end;
  split_guards; cbn in *.

Lemma detach_step b h epoch now u h' :
  run (detach epoch now) h = (Ok u, h') -> worker_step (b, h) (CallDetach epoch now) (b, h').
Proof. unfold detach. intros Hr. inv_run. touched_by_handle. apply step_detach; try done; lia. Qed.

Lemma reattach_step b h epoch digest now u h' :
  run (reattach epoch digest now) h = (Ok u, h') -> worker_step (b, h) (CallReattach epoch digest now) (b, h').
Proof.
  unfold reattach. intros Hr. inv_run. added. touched_by_handle.
  replace (wh_attachment_epoch h + 1) with (epoch + 1) by lia. apply step_reattach; try done; lia.
Qed.

Lemma record_usage_step b h capsule epoch tokens cost tools millis now u h' :
  run (record_usage capsule epoch tokens cost tools millis now) h = (Ok u, h') ->
  worker_step (b, h) (CallUsage capsule epoch tokens cost tools millis now) (b, h').
Proof. unfold record_usage. intros Hr. inv_run. touched_by_handle. apply step_usage; try done; lia. Qed.

Lemma finish_step b h capsule required status now u h' :
  finishes required status = true -> run (handle_finish capsule required status now) h = (Ok u, h') ->
  worker_step (b, h) (CallFinish capsule required status now) (b, h').
Proof. unfold handle_finish. intros Hf Hr. inv_run. touched_by_handle. apply step_finish; try done; lia. Qed.

(** A successful call left everything as it was, or took one step. *)
Lemma worker_call_step c s u s' : run (worker_call c) s = (Ok u, s') -> s' = s \/ worker_step s c s'.
Proof.
  destruct s as [b h], c; cbn [worker_call]; intros Hr; inv_ok;
    repeat match goal with
    | Hx : run (on_mailbox _) _ = _ |- _ => apply run_on_mailbox in Hx as (? & -> & ?)
    | Hx : run (on_handle _) _ = _ |- _ => apply run_on_handle in Hx as (? & -> & ?)
    end; try (right; by eauto using enqueue_step, acknowledge_step, detach_step, reattach_step, record_usage_step).
  - by edestruct claim_step as [[-> _]|]; eauto.
  - by edestruct recover_step as [[-> _]|]; eauto.
  - right. split_guards. by eapply finish_step.
Qed.

(** A call that did not succeed left both the mailbox and the handle. *)
#[export] Instance acknowledge_atomic capsule id epoch digest now : Atomic (acknowledge capsule id epoch digest now).
Proof.
  unfold acknowledge. apply bind_atomic; [apply _|]. intros [b h]. repeat (apply bind_atomic; [apply _|]; intros ?).
  case_match. apply bind_atomic; [apply _|]; intros _. case_match. apply bind_atomic; [apply _|]; intros _. case_match.
  apply bind_atomic; [apply _|]; intros _. intros s. done.
Qed.
#[export] Instance on_mailbox_atomic {A} (op : WorkerHandle -> SR WorkerMailbox ContextError A) :
  (forall h, Atomic (op h)) -> Atomic (on_mailbox op).
Proof.
  intros Hop [b h] Hr. unfold on_mailbox in *; cbn in *. specialize (Hop h b).
  destruct (run (op h) b) as [r b']; cbn in *. by rewrite Hop.
Qed.
#[export] Instance on_handle_atomic {A} (op : SR WorkerHandle ContextError A) : Atomic op -> Atomic (on_handle op).
Proof.
  intros Hop [b h] Hr. unfold on_handle in *; cbn in *. specialize (Hop h).
  destruct (run op h) as [r h']; cbn in *. by rewrite Hop.
Qed.
#[export] Instance worker_call_atomic c : Atomic (worker_call c).
Proof.
  destruct c; cbn [worker_call]; try (apply bind_mret_atomic).
  - apply on_mailbox_atomic. intros h. unfold enqueue. do 5 (apply bind_atomic; [apply _|]; intros ?).
    apply bind_mret_atomic, _.
  - apply on_mailbox_atomic. intros h. unfold claim_next. do 4 (apply bind_atomic; [apply _|]; intros ?).
    case_match; [case_match; apply bind_mret_atomic|]; apply _.
  - apply _.
  - apply on_mailbox_atomic. intros h. unfold recover_after_reattach. do 3 (apply bind_atomic; [apply _|]; intros ?).
    case_match; [apply bind_mret_atomic|]; apply _.
  - unfold detach. apply _.
  - unfold reattach. apply _.
  - unfold record_usage. apply _.
  - unfold handle_finish. apply _.
Qed.

(** The run is a sequence of steps. *)
Inductive worker_steps : worker_state -> worker_state -> Prop :=
| worker_steps_refl s : worker_steps s s
| worker_steps_cons s c t v : worker_step s c t -> worker_steps t v -> worker_steps s v.

Lemma worker_call_moves c s : (run (worker_call c) s).2 = s \/ worker_step s c (run (worker_call c) s).2.
Proof.
  destruct (atomic_cases (worker_call c) s) as [[u Hr]|[_ ?]]; [by eapply worker_call_step|by left].
Qed.

Lemma worker_run_steps cs s : worker_steps s (worker_run cs s).
Proof.
  revert s; induction cs as [|c cs IH]; intros s; cbn; [constructor|].
  destruct (worker_call_moves c s) as [Heq|Hst].
  - rewrite Heq. apply IH.
  - econstructor; [done|]. apply IH.
Qed.
