(* ===== verification/WorkerFixture.v ===== *)
(** * A concrete worker, for evaluating the model

    A workspace and a branch of the demonstration Mission, the lease and the
    capsule of one worker, its handle and its mailbox, and calls that put,
    claim and recover messages. *)
From S2P Require Import Prelude Text Money Contract MissionTypes WorkProduct Effect Checkpoint Terminal Mission MissionMachine MissionFixture.
From S2P Require Import Truth RuntimeTurn Context Worker WorkerSteps.
Import Prelude.Fixture Demo.

Module Crew.
#[export] Instance context_serde : ContextSerde := {|
  json_constraints := fun _ => Some "constraints"; json_authority := fun _ => Some "authority" |}.
#[export] Instance truth_serde : TruthSerde := {|
  json_truth_value := fun _ => Some "value"; json_truth_fact := fun _ => Some "fact" |}.

Definition now : DateTime := t0 + 10.
Definition budget : ContextBudget := mkContextBudget 1000 (zero (currency (oc_budget contract))) (now + 1000) 3 2.
Definition or_else {E A} (r : result E A) (d : A) : A := match r with Ok a => a | _ => d end.

Definition blank_workspace : ContextWorkspace :=
  mkWorkspace "" "" "" "" 0 0 "" ∅ "" budget PublicOnly 0 0 0.
Definition workspace : ContextWorkspace :=
  or_else (workspace_create "workspace" gathered 1 "policy" {["web.publish"]} budget BusinessOnly now) blank_workspace.
Definition blank_branch : ContextBranch := mkBranch "" "" "" "" None 0 "" "" TypedResultOnly BrActive 0 0 0 0.
Definition root_branch : ContextBranch :=
  or_else (branch_create "root" workspace None "start" zeros64 TypedResultOnly now) blank_branch.
Definition child_branch : ContextBranch :=
  or_else (branch_create "child" workspace (Some root_branch) "fork" zeros64 TypedResultOnly now) blank_branch.
Definition blank_lease : WorkerLease := mkWorkerLease "" "" "" "" "" "" 0 "" None 0 0 0 LsExpired 0.
Definition lease : WorkerLease :=
  or_else (lease_issue "lease" workspace child_branch "worker" 1 zeros64 (Some zeros64) (now + 500) now) blank_lease.

Definition inputs : ContextInputRefs := mkInputRefs ∅ ∅ ∅ ∅.
Definition return_contract : ContextReturnContract := mkReturnContract "schema" 1 {["summary"]} ∅ false true 100.
Definition blank_capsule : ContextCapsule :=
  mkCapsule "" "" "" "" "" "" "" "" "" 0 "" ∅ [] ∅ budget inputs return_contract PublicOnly "" "" CpExpired None 0 0 0 0.
Definition capsule_issued : ContextCapsule :=
  or_else (capsule_issue "capsule" workspace child_branch lease gathered "summarise" "task" ∅ [] {["web.publish"]}
    budget inputs return_contract (now + 400) now) blank_capsule.
Definition capsule : ContextCapsule := (run (capsule_claim 1 (now + 1)) capsule_issued).2.

Definition blank_handle : WorkerHandle :=
  mkHandle "" "" "" "" "" "" "" "" None 0 0 None ∅ budget (usage_zero "USD") 0 WhFailed 0 0 0.
Definition handle : WorkerHandle :=
  or_else (handle_create workspace child_branch lease capsule_issued None now) blank_handle.
Definition mailbox : WorkerMailbox :=
  or_else (mailbox_create "mailbox" handle 2 now) (mkMailbox "" "" "" "" "" "" 0 0 0 0 [] 0 0 0).

Definition put (id : Id) (at_ : DateTime) : WorkerCall :=
  CallEnqueue id None MkData ("cas://" ++ id) zeros64 at_.
Definition working : list WorkerCall :=
  [put "m1" (now + 2); put "m2" (now + 3); CallClaim capsule 1 (now + 4)].
(** The runtime is lost while it holds the first message, and another one is attached. *)
Definition reattaching : list WorkerCall :=
  working ++ [CallDetach 1 (now + 5); CallReattach 1 zeros64 (now + 6)].

Example crew_set_up :
  is_ok (handle_create workspace child_branch lease capsule_issued None now) = true /\
  is_ok (mailbox_create "mailbox" handle 2 now) = true /\
  (me_status <$> mb_messages (worker_run reattaching (mailbox, handle)).1) = [MsInFlight; MsPending] /\
  wh_attachment_epoch (worker_run reattaching (mailbox, handle)).2 = 2.
Proof. by vm_compute. Qed.
End Crew.
