(* ===== verification/MailboxSafety.v ===== *)
(** * What worker handles and mailboxes guarantee

    The mailbox refines a queue: messages are acknowledged once each and in the
    order they were put, one is in flight at a time, an old attachment has no
    say after a reattachment, and the message it held can be taken again. *)
From S2P Require Import Prelude Text Money Contract MissionTypes Effect Checkpoint Terminal Truth RuntimeTurn Context Worker WorkerSteps WorkerFixture.
Import Crew.

(** ** What validation establishes *)
Lemma messages_validate_Ok b now k l :
  messages_validate b now k l = Ok tt <->
  forall i m, l !! i = Some m ->
    me_sequence m = Z.of_nat (k + i) + 1 /\ message_validate m b now = Ok tt /\
    (me_sequence m <= mb_acknowledged_cursor b -> me_status m = MsAcknowledged).
Proof.
  revert k; induction l as [|x l IH]; intros k; cbn [messages_validate].
  - split; [intros _ i m Hi; by rewrite lookup_nil in Hi|done].
  - rewrite reject_if_seq, bind_Ok. setoid_rewrite reject_if_seq. setoid_rewrite IH. split.
    + intros (Hs & [] & Hv & Hc & Hl). intros [|i] m Hi; cbn in Hi.
      * injection Hi as <-. split_and!; [lia|done|]. intros Hle.
        rewrite (proj2 (Z.leb_le _ _) Hle) in Hc. cbn in Hc. by split_guards.
      * destruct (Hl i m Hi) as (? & ? & ?). split_and!; [lia|done|done].
    + intros Hl. destruct (Hl 0%nat x eq_refl) as (Hs & Hv & Hc). split; [lia|]. exists tt. split_and!; [done| |].
      * destruct (Z.leb_spec (me_sequence x) (mb_acknowledged_cursor b)); [|done]. cbn. by rewrite bool_decide_eq_true_2 by auto.
      * intros i m Hi. destruct (Hl (S i) m Hi) as (? & ? & ?). split_and!; [lia|done|done].
Qed.

(** What the guards of [mailbox_validate_for] say of a mailbox beside the
    identity it shares with its handle. *)
Definition mailbox_wf (b : WorkerMailbox) (h : WorkerHandle) : Prop :=
  0 < mb_max_pending b <= MAX_MAILBOX_CAPACITY /\ unsettled_count b <= mb_max_pending b /\
  mb_next_sequence b = Z.of_nat (length (mb_messages b)) + 1 /\ mb_acknowledged_cursor b = wh_cursor h /\
  (forall i m, mb_messages b !! i = Some m ->
     me_sequence m = Z.of_nat i + 1 /\
     (me_sequence m <= mb_acknowledged_cursor b -> me_status m = MsAcknowledged)).

Lemma mailbox_validate_wf b h now :
  0 <= mb_max_pending b -> mailbox_validate_for b h now = Ok tt -> mailbox_wf b h.
Proof.
  intros Hmp. unfold mailbox_validate_for. intros Hv. inv_run. split_guards.
  match goal with Hx : messages_validate _ _ _ _ = _ |- _ => rewrite messages_validate_Ok in Hx; rename Hx into Hms end.
  split_and!; try lia. intros i m Hi. destruct (Hms i m Hi) as (? & _ & ?). split; [lia|done].
Qed.

(** ** The invariant *)
Definition progress_inv (b : WorkerMailbox) (h : WorkerHandle) : Prop :=
  0 <= mb_acknowledged_cursor b <= Z.of_nat (length (mb_messages b)) /\
  NoDup (me_id <$> mb_messages b) /\
  forall i m, mb_messages b !! i = Some m ->
    match me_status m with
    | MsPending => mb_acknowledged_cursor b <= Z.of_nat i
    | MsInFlight => Z.of_nat i = mb_acknowledged_cursor b /\
        exists e, me_claim_epoch m = Some e /\ e <= wh_attachment_epoch h
    | MsAcknowledged => Z.of_nat i < mb_acknowledged_cursor b
    | MsDeadLetter => False
    end.

Definition worker_inv (s : worker_state) : Prop :=
  mailbox_validate_for s.1 s.2 (mb_updated_at s.1) = Ok tt /\ 0 <= mb_max_pending s.1 /\ 0 < mb_revision s.1 /\
  progress_inv s.1 s.2.

Lemma same_mailbox_validates b h h' now :
  wh_tenant_id h' = wh_tenant_id h -> wh_project_id h' = wh_project_id h -> wh_mission_id h' = wh_mission_id h ->
  wh_workspace_id h' = wh_workspace_id h -> wh_worker_id h' = wh_worker_id h -> wh_generation h' = wh_generation h ->
  wh_cursor h' = wh_cursor h -> wh_created_at h' = wh_created_at h ->
  mailbox_validate_for b h' now = mailbox_validate_for b h now.
Proof. intros H1 H2 H3 H4 H5 H6 H7 H8. unfold mailbox_validate_for. by rewrite H1, H2, H3, H4, H5, H6, H7, H8. Qed.

(** Steps of the handle alone keep what relates it to the mailbox. *)
Lemma handle_step_inv b h h' :
  (forall now, mailbox_validate_for b h' now = mailbox_validate_for b h now) ->
  wh_attachment_epoch h <= wh_attachment_epoch h' -> worker_inv (b, h) -> worker_inv (b, h').
Proof.
  intros Hv He (Hn & Hmp & Hrv & Hc & Hd & Hm); cbn in *. split_and!; cbn; [by rewrite Hv|lia..|].
  split_and!; [lia..|done|]. intros i m Hi. specialize (Hm i m Hi).
  case_match; try done. destruct Hm as (? & e & ? & ?). split; [done|]. exists e. split; [done|lia].
Qed.

Lemma lookup_set_message b i f j m :
  mb_messages (set_message i f b) !! j = Some m ->
  (j = i /\ exists x, mb_messages b !! i = Some x /\ m = f x) \/ (j <> i /\ mb_messages b !! j = Some m).
Proof.
  unfold set_message; cbn. destruct (decide (j = i)) as [->|Hne].
  - rewrite list_lookup_alter_eq. intros (x & Hx & ->)%fmap_Some. left. eauto.
  - rewrite list_lookup_alter_ne by done. auto.
Qed.

Lemma ids_set_message b i x y :
  mb_messages b !! i = Some x -> me_id y = me_id x ->
  me_id <$> mb_messages (set_message i (fun _ => y) b) = me_id <$> mb_messages b.
Proof.
  intros Hx Hid. apply list_eq; intros j. rewrite !list_lookup_fmap. unfold set_message; cbn.
  destruct (decide (j = i)) as [->|Hne].
  - rewrite list_lookup_alter_eq, Hx; cbn. by rewrite Hid.
  - by rewrite list_lookup_alter_ne.
Qed.

Lemma length_set_message b i f : length (mb_messages (set_message i f b)) = length (mb_messages b).
Proof. unfold set_message; cbn. apply length_alter. Qed.

Lemma enqueue_progress b h id m now next :
  progress_inv b h -> fresh_message b id m now ->
  progress_inv (touched_mailbox now (b <| mb_next_sequence := next |> <| mb_messages ::= fun l => l ++ [m] |>)) h.
Proof.
  intros (Hc & Hd & Hm) (Hid & Hfr & Hsq & Hst & Hce & _). unfold progress_inv; cbn.
  rewrite length_app; cbn. split_and!; [lia..| |].
  - rewrite fmap_app. apply NoDup_app. split_and!; [done| |apply NoDup_singleton].
    intros y Hy ->%list_elem_of_singleton. apply list_elem_of_fmap in Hy as (x & Hx & Hin). apply (Hfr x Hin). by rewrite <-Hx.
  - intros i x [Hi|[Hi <-]]%lookup_snoc_Some; [by apply Hm; apply Hi|]. rewrite Hst. lia.
Qed.

Lemma claim_progress b h epoch now i m :
  mailbox_wf b h -> progress_inv b h -> wh_attachment_epoch h = epoch ->
  mb_messages b !! i = Some m -> me_sequence m = mb_acknowledged_cursor b + 1 ->
  progress_inv (touched_mailbox now (set_message i (fun _ => claimed_message epoch now m) b)) h.
Proof.
  intros (_ & _ & _ & _ & Hw) (Hc & Hd & Hm) He Hi Hs. unfold progress_inv. cbn -[set_message].
  rewrite length_set_message. split_and!; [cbn; lia..| |].
  - by rewrite (ids_set_message b i m).
  - intros j x [(-> & _ & _ & ->)|[Hne Hj]]%lookup_set_message.
    + cbn. destruct (Hw i m Hi) as [? _]. split; [lia|]. exists epoch. split; [done|lia].
    + by apply Hm.
Qed.

Lemma acknowledge_progress b h h' digest now i m :
  mailbox_wf b h -> progress_inv b h -> mb_messages b !! i = Some m ->
  me_sequence m = mb_acknowledged_cursor b + 1 -> me_status m = MsInFlight -> wh_attachment_epoch h' = wh_attachment_epoch h ->
  progress_inv (touched_mailbox now (set_message i (fun _ => acknowledged_message digest now m) b
    <| mb_acknowledged_cursor := me_sequence m |>)) h'.
Proof.
  intros (_ & _ & _ & _ & Hw) (Hc & Hd & Hm) Hi Hs Hst He. destruct (Hw i m Hi) as [Hsi _].
  pose proof (lookup_lt_Some _ _ _ Hi) as Hlt. unfold progress_inv. cbn -[set_message].
  rewrite length_set_message. split_and!; [lia..| |].
  - by rewrite (ids_set_message b i m).
  - intros j x [(-> & _ & _ & ->)|[Hne Hj]]%lookup_set_message; [cbn; lia|].
    specialize (Hm j x Hj). rewrite He. case_match; try lia.
Qed.

Lemma recover_progress b h now :
  progress_inv b h ->
  progress_inv (touched_mailbox now (b <| mb_messages ::= fmap (requeued h now) |>)) h.
Proof.
  intros (Hc & Hd & Hm). unfold progress_inv; cbn. rewrite length_fmap. split_and!; [lia..| |].
  - rewrite <-list_fmap_compose. erewrite list_fmap_ext; [exact Hd|]. intros i x _. cbn. unfold requeued. by case_match.
  - intros i x Hi. apply list_lookup_fmap_Some in Hi as (y & -> & Hy). specialize (Hm i y Hy).
    unfold requeued. destruct (held_by_old_epoch h y) eqn:Hh; [|done]. cbn. unfold held_by_old_epoch in Hh. split_guards.
    match goal with Hx : me_status y = _ |- _ => rewrite Hx in Hm end. lia.
Qed.

Lemma worker_inv_intro b h now :
  mailbox_validate_for b h now = Ok tt -> mb_updated_at b = now -> 0 <= mb_max_pending b -> 0 < mb_revision b ->
  progress_inv b h -> worker_inv (b, h).
Proof. intros Hv <- Hm Hr Hp. done. Qed.

(** Every step keeps the invariant. *)
Lemma worker_step_inv s c t : worker_step s c t -> worker_inv s -> worker_inv t.
Proof.
  intros Hs Hinv. pose proof Hinv as (Hn0 & Hmp & Hrv & Hp).
  assert (mailbox_wf s.1 s.2) as Hwf by exact (mailbox_validate_wf _ _ _ Hmp Hn0). destruct Hs; cbn [fst snd] in *.
  5-8: revert Hinv; apply handle_step_inv; [intros ?; by apply same_mailbox_validates|cbn; lia].
  - subst b'. eapply worker_inv_intro; [eassumption|done|exact Hmp|cbn; lia|]. by eapply enqueue_progress.
  - subst b'. eapply worker_inv_intro; [eassumption|done|exact Hmp|cbn; lia|]. apply claim_progress; try done.
    unfold execution_authorized in *. split_guards. lia.
  - subst b'. eapply worker_inv_intro; [eassumption|done|exact Hmp|cbn; lia|]. subst h'. by apply (acknowledge_progress b h).
  - subst b'. eapply worker_inv_intro; [eassumption|done|exact Hmp|cbn; lia|]. by apply recover_progress.
Qed.

Lemma worker_steps_inv s t : worker_steps s t -> worker_inv s -> worker_inv t.
Proof. induction 1; eauto using worker_step_inv. Qed.

Lemma worker_run_inv cs s : worker_inv s -> worker_inv (worker_run cs s).
Proof. apply worker_steps_inv, worker_run_steps. Qed.

Lemma created_inv id h max now b : 0 <= max -> mailbox_create id h max now = Ok b -> worker_inv (b, h).
Proof.
  unfold mailbox_create. intros Hmax Hc. inv_run. eapply worker_inv_intro; [eassumption|done..|].
  split_and!; [done..| |]; [constructor|]. intros i m Hi. cbn in Hi. by rewrite lookup_nil in Hi.
Qed.

(** ** The queue a mailbox implements

    The identifiers already handled in order, the epoch that holds the head of
    the rest, and the identifiers that wait. *)
Record queue : Type := mkQueue { q_handled : list Id; q_holder : option Z; q_waiting : list Id }.

(** [current] is the epoch of the worker's attachment: it alone takes and
    handles the head, and a head is released only from an epoch before it. *)
Inductive queue_step (current : Z) : queue -> WorkerCall -> queue -> Prop :=
| queue_put handled holder waiting id sender kind ref digest now :
    id ∉ handled -> id ∉ waiting ->
    queue_step current (mkQueue handled holder waiting) (CallEnqueue id sender kind ref digest now)
      (mkQueue handled holder (waiting ++ [id]))
| queue_take handled x waiting capsule now :
    queue_step current (mkQueue handled None (x :: waiting)) (CallClaim capsule current now)
      (mkQueue handled (Some current) (x :: waiting))
| queue_handle handled x waiting capsule digest now :
    queue_step current (mkQueue handled (Some current) (x :: waiting)) (CallAcknowledge capsule x current digest now)
      (mkQueue (handled ++ [x]) None waiting)
| queue_release handled epoch waiting now : epoch < current ->
    queue_step current (mkQueue handled (Some epoch) waiting) (CallRecover now) (mkQueue handled None waiting).

Definition queue_of (b : WorkerMailbox) : queue :=
  let n := Z.to_nat (mb_acknowledged_cursor b) in
  mkQueue (me_id <$> take n (mb_messages b))
    (m ← mb_messages b !! n; if bool_decide (me_status m = MsInFlight) then me_claim_epoch m else None)
    (me_id <$> drop n (mb_messages b)).

Lemma holder_of_pending b n m :
  mb_acknowledged_cursor b = Z.of_nat n -> mb_messages b !! n = Some m -> me_status m = MsPending ->
  queue_of b = mkQueue (me_id <$> take n (mb_messages b)) None (me_id m :: (me_id <$> drop (S n) (mb_messages b))).
Proof.
  intros Hc Hm Hs. unfold queue_of. rewrite Hc, Nat2Z.id, Hm; cbn. rewrite Hs. cbn. by rewrite (drop_S _ m).
Qed.
Lemma holder_of_in_flight b n m e :
  mb_acknowledged_cursor b = Z.of_nat n -> mb_messages b !! n = Some m -> me_status m = MsInFlight ->
  me_claim_epoch m = Some e ->
  queue_of b = mkQueue (me_id <$> take n (mb_messages b)) (Some e) (me_id m :: (me_id <$> drop (S n) (mb_messages b))).
Proof.
  intros Hc Hm Hs He. unfold queue_of. rewrite Hc, Nat2Z.id, Hm; cbn. rewrite Hs, He. cbn. by rewrite (drop_S _ m).
Qed.
(** A mailbox with the same identifiers, of which the cursor passed [n]. *)
Lemma queue_of_set b n y m :
  mb_messages b !! n = Some m -> me_id y = me_id m ->
  (me_id <$> take n (mb_messages (set_message n (fun _ => y) b))) = (me_id <$> take n (mb_messages b)) /\
  (me_id <$> drop (S n) (mb_messages (set_message n (fun _ => y) b))) = (me_id <$> drop (S n) (mb_messages b)) /\
  mb_messages (set_message n (fun _ => y) b) !! n = Some y.
Proof.
  intros Hm Hid. rewrite !fmap_take, !fmap_drop, (ids_set_message b n m) by done. split_and!; [done..|].
  unfold set_message; cbn. by rewrite list_lookup_alter_eq, Hm.
Qed.

Lemma enqueue_refines b h id m now next sender kind ref digest :
  progress_inv b h -> fresh_message b id m now ->
  queue_step (wh_attachment_epoch h) (queue_of b) (CallEnqueue id sender kind ref digest now)
    (queue_of (touched_mailbox now (b <| mb_next_sequence := next |> <| mb_messages ::= fun l => l ++ [m] |>))).
Proof.
  intros (Hc & Hd & Hm) (Hid & Hfr & _ & Hst & Hce & _). unfold queue_of; cbn -[lookup].
  set (n := Z.to_nat (mb_acknowledged_cursor b)). assert (n <= length (mb_messages b))%nat as Hn by lia.
  rewrite take_app_le, drop_app_le, fmap_app by done. cbn -[lookup]. rewrite Hid.
  assert ((mb_messages b ++ [m]) !! n ≫= (fun m => if bool_decide (me_status m = MsInFlight) then me_claim_epoch m else None)
    = mb_messages b !! n ≫= (fun m => if bool_decide (me_status m = MsInFlight) then me_claim_epoch m else None)) as ->.
  { destruct (decide (n < length (mb_messages b))%nat); [by rewrite lookup_app_l|].
    rewrite (lookup_ge_None_2 (mb_messages b)) by lia. rewrite lookup_app_r by lia.
    replace (n - _)%nat with 0%nat by lia. cbn. by rewrite Hst. }
  assert (forall l, l ⊆ mb_messages b -> id ∉ me_id <$> l) as Hnot.
  { intros l Hl (x & Hx & Hin)%list_elem_of_fmap. by apply (Hfr x); [apply Hl|]. }
  apply queue_put; apply Hnot; intros x Hx; rewrite <-(take_drop n (mb_messages b)); apply elem_of_app; auto.
Qed.

Lemma authorized_epoch h capsule epoch :
  execution_authorized h capsule epoch = true -> epoch = wh_attachment_epoch h.
Proof. unfold execution_authorized. intros Hx. split_guards. lia. Qed.

Lemma claim_refines b h capsule epoch now i m :
  execution_authorized h capsule epoch = true -> mailbox_wf b h -> progress_inv b h -> mb_messages b !! i = Some m -> me_status m = MsPending ->
  me_sequence m = mb_acknowledged_cursor b + 1 ->
  queue_step (wh_attachment_epoch h) (queue_of b) (CallClaim capsule epoch now)
    (queue_of (touched_mailbox now (set_message i (fun _ => claimed_message epoch now m) b))).
Proof.
  intros ->%authorized_epoch (_ & _ & _ & _ & Hw) _ Hi Hs Hq. set (epoch := wh_attachment_epoch h). destruct (Hw i m Hi) as [Hsi _]. assert (mb_acknowledged_cursor b = Z.of_nat i) as Hc by lia.
  destruct (queue_of_set b i (claimed_message epoch now m) m) as (Ht & Hd & Hl); [done..|].
  rewrite (holder_of_pending b i m), (holder_of_in_flight (touched_mailbox _ _) i (claimed_message epoch now m) epoch) by done.
  cbn -[set_message take drop]. rewrite Ht, Hd. apply queue_take.
Qed.

Lemma acknowledge_refines b h capsule epoch digest now i m :
  execution_authorized h capsule epoch = true -> mailbox_wf b h -> progress_inv b h -> mb_messages b !! i = Some m -> me_status m = MsInFlight ->
  me_claim_epoch m = Some epoch -> me_sequence m = mb_acknowledged_cursor b + 1 ->
  queue_step (wh_attachment_epoch h) (queue_of b) (CallAcknowledge capsule (me_id m) epoch digest now)
    (queue_of (touched_mailbox now (set_message i (fun _ => acknowledged_message digest now m) b
      <| mb_acknowledged_cursor := me_sequence m |>))).
Proof.
  intros ->%authorized_epoch (_ & _ & _ & _ & Hw) (_ & _ & Hm) Hi Hs He Hq. set (epoch := wh_attachment_epoch h) in *. destruct (Hw i m Hi) as [Hsi _].
  assert (mb_acknowledged_cursor b = Z.of_nat i) as Hc by lia.
  destruct (queue_of_set b i (acknowledged_message digest now m) m) as (Ht & Hd & Hl); [done..|].
  rewrite (holder_of_in_flight b i m epoch) by done. unfold queue_of. cbn -[set_message take drop lookup].
  replace (Z.to_nat (me_sequence m)) with (S i) by lia. rewrite (take_S_r _ _ _ Hl), fmap_app, Ht, Hd.
  assert (mb_messages (set_message i (fun _ => acknowledged_message digest now m) b) !! S i
    = mb_messages b !! S i) as -> by (unfold set_message; cbn; by rewrite list_lookup_alter_ne by lia).
  assert (mb_messages b !! S i ≫= (fun m => if bool_decide (me_status m = MsInFlight) then me_claim_epoch m else None)
    = None) as ->.
  { destruct (mb_messages b !! S i) as [x|] eqn:Hx; [|done]. cbn. rewrite bool_decide_eq_false_2; [done|].
    intros Hst. specialize (Hm _ _ Hx). rewrite Hst in Hm. lia. }
  apply queue_handle.
Qed.

Lemma recover_refines b h now :
  progress_inv b h -> existsb (held_by_old_epoch h) (mb_messages b) = true ->
  queue_step (wh_attachment_epoch h) (queue_of b) (CallRecover now)
    (queue_of (touched_mailbox now (b <| mb_messages ::= fmap (requeued h now) |>))).
Proof.
  intros (Hc & _ & Hm) (m & Hin & Hh)%existsb_elem_of. apply list_elem_of_lookup in Hin as (i & Hi).
  unfold held_by_old_epoch in Hh. split_guards. apply is_some_and_true in Hh as (e & He & Hlt).
  pose proof (Hm i m Hi) as Hmi. rewrite Hh0 in Hmi. destruct Hmi as (Hic & _).
  rewrite (holder_of_in_flight b i m e) by done.
  rewrite (holder_of_pending (touched_mailbox _ _) i (requeued h now m)).
  - cbn -[take drop]. rewrite !fmap_take, !fmap_drop.
    replace (me_id <$> (requeued h now <$> mb_messages b)) with (me_id <$> mb_messages b).
    2: { rewrite <-list_fmap_compose. apply list_fmap_ext. intros j x _. cbn. unfold requeued. by case_match. }
    replace (me_id (requeued h now m)) with (me_id m) by (unfold requeued; by case_match). apply queue_release. lia.
  - done.
  - cbn -[lookup]. by rewrite list_lookup_fmap, Hi.
  - unfold requeued, held_by_old_epoch. rewrite Hh0, He; cbn. by rewrite Hlt.
Qed.

Lemma worker_step_refines s c t :
  worker_step s c t -> worker_inv s ->
  match c with
  | CallEnqueue _ _ _ _ _ _ | CallClaim _ _ _ | CallAcknowledge _ _ _ _ _ | CallRecover _ =>
      queue_step (wh_attachment_epoch s.2) (queue_of s.1) c (queue_of t.1)
  | _ => t.1 = s.1
  end.
Proof.
  intros Hs (Hn0 & Hmp & Hrv & Hp). assert (mailbox_wf s.1 s.2) as Hwf by exact (mailbox_validate_wf _ _ _ Hmp Hn0).
  destruct Hs; cbn [fst snd] in *; try done; subst.
  - by eapply enqueue_refines.
  - by eapply claim_refines.
  - by eapply acknowledge_refines.
  - by eapply recover_refines.
Qed.

(** When a claim found nothing to take, nothing was waiting; when a recovery
    changed nothing, no older epoch held the head. *)
Lemma claim_idle b h capsule epoch now b' :
  worker_inv (b, h) -> run (claim_next h capsule epoch now) b = (Ok None, b') -> q_waiting (queue_of b) = [].
Proof.
  intros (Hn0 & Hmp & Hrv & Hc & _ & Hm) Hr. cbn [fst snd] in *.
  pose proof (mailbox_validate_wf _ _ _ Hmp Hn0) as (_ & _ & _ & _ & Hw).
  unfold claim_next in Hr. inv_run. split_guards. added. case_match eqn:Hp; [case_match; inv_run|].
  unfold queue_of; cbn. destruct (mb_messages b !! Z.to_nat (mb_acknowledged_cursor b)) as [m|] eqn:Hi.
  2: { apply lookup_ge_None in Hi. by rewrite drop_ge. }
  exfalso. specialize (Hw _ m Hi) as [Hq _]. pose proof (Hm _ m Hi) as Hst.
  assert (me_status m = MsPending) as Hs.
  { match goal with He : existsb _ _ = false |- _ => rewrite existsb_false in He;
      specialize (He m (list_elem_of_lookup_2 _ _ _ Hi)); cbn in He; apply bool_decide_eq_false_1 in He end.
    destruct (me_status m); [done|done|lia|done]. }
  unfold position in Hp. apply list_find_None in Hp. rewrite Forall_forall in Hp.
  apply (Hp m (list_elem_of_lookup_2 _ _ _ Hi)). apply andb_true_intro. split; [lia|]. by apply bool_decide_eq_true_2.
Qed.

Lemma recover_idle b h now b' :
  worker_inv (b, h) -> run (recover_after_reattach h now) b = (Ok false, b') ->
  forall e, q_holder (queue_of b) = Some e -> wh_attachment_epoch h <= e.
Proof.
  intros (_ & _ & _ & Hc & _ & Hm) Hr e He. cbn [fst snd] in *. unfold recover_after_reattach in Hr. inv_run.
  destruct (existsb _ _) eqn:Hex; inv_run. unfold queue_of in He; cbn in He.
  apply bind_Some in He as (m & Hi & Hs). case_bool_decide; [|done].
  rewrite existsb_false in Hex. specialize (Hex m (list_elem_of_lookup_2 _ _ _ Hi)).
  unfold held_by_old_epoch in Hex. rewrite bool_decide_eq_true_2, Hs in Hex by done. cbn in Hex. lia.
Qed.

(** What a successful call that left the mailbox alone says of its queue. *)
Definition idle (s : worker_state) (c : WorkerCall) : Prop :=
  match c with
  | CallEnqueue _ _ _ _ _ _ | CallAcknowledge _ _ _ _ _ => False
  | CallClaim _ _ _ => q_waiting (queue_of s.1) = []
  | CallRecover _ => forall e, q_holder (queue_of s.1) = Some e -> wh_attachment_epoch s.2 <= e
  | _ => True
  end.

Lemma worker_call_refines c s u t :
  worker_inv s -> run (worker_call c) s = (Ok u, t) ->
  queue_step (wh_attachment_epoch s.2) (queue_of s.1) c (queue_of t.1) \/ (t.1 = s.1 /\ idle s c).
Proof.
  intros Hinv Hr. destruct s as [b h].
  assert (forall t', worker_step (b, h) c t' -> queue_step (wh_attachment_epoch h) (queue_of b) c (queue_of t'.1) \/ (t'.1 = b /\ idle (b, h) c)) as Hst.
  { intros t' Hs%worker_step_refines; [|done]. destruct c; first [by left|by right]. }
  destruct c; try (apply worker_call_step in Hr as [->|Hs]; [right; done|by apply Hst]); cbn [worker_call] in Hr; inv_ok.
  - apply run_on_mailbox in H as (? & -> & Hx). apply Hst. by eapply enqueue_step.
  - apply run_on_mailbox in H as (? & -> & Hx). apply claim_step in Hx as Hs.
    destruct Hs as [[-> ->]|Hs]; [right; split; [done|]; by eapply claim_idle|by apply Hst].
  - apply Hst. by eapply acknowledge_step.
  - apply run_on_mailbox in H as (? & -> & Hx). apply recover_step in Hx as Hs.
    destruct Hs as [[-> ->]|Hs]; [right; split; [done|]; exact (recover_idle _ _ _ _ Hinv Hx)|by apply Hst].
Qed.

(** C22: a mailbox is a queue. Starting from a mailbox just created for its
    handle, and after any calls, a further successful call either puts one
    fresh identifier at the end, lets the current epoch of the attachment take
    the head nobody holds, moves the head to the handled ones on behalf of the
    current epoch that took it, or releases it from an epoch strictly before
    the current one; or it left the mailbox alone, which an enqueue and an
    acknowledgement never do, a claim does only when nothing waits, and a
    recovery only when no earlier epoch holds the head. A call that fails
    changes neither mailbox nor handle. *)
Theorem mailbox_refines_queue id h max now b cs c :
  0 <= max -> mailbox_create id h max now = Ok b ->
  queue_of b = mkQueue [] None [] /\
  let s := worker_run cs (b, h) in
  match run (worker_call c) s with
  | (Ok _, t) => queue_step (wh_attachment_epoch s.2) (queue_of s.1) c (queue_of t.1) \/ (t.1 = s.1 /\ idle s c)
  | (_, t) => t = s
  end.
Proof.
  intros Hmax Hb. split; [unfold mailbox_create in Hb; by inv_run|]. cbn zeta.
  assert (worker_inv (worker_run cs (b, h))) as Hinv by (exact (worker_run_inv _ _ (created_inv _ _ _ _ _ Hmax Hb))).
  pose proof (worker_call_atomic c (worker_run cs (b, h))) as Ha.
  destruct (run (worker_call c) _) as [[u|e|] t] eqn:Hr; [by eapply worker_call_refines|by apply Ha..].
Qed.

Lemma mailbox_refines_queue_witness :
  queue_of (worker_run working (mailbox, handle)).1 = mkQueue [] (Some 1) ["m1"; "m2"] /\
  let s := worker_run working (mailbox, handle) in
  let c := CallAcknowledge capsule "m1" 1 Prelude.Fixture.zeros64 (now + 5) in
  match run (worker_call c) s with
  | (Ok _, t) => queue_step (wh_attachment_epoch s.2) (queue_of s.1) c (queue_of t.1) \/ (t.1 = s.1 /\ idle s c)
  | (_, t) => t = s
  end.
Proof.
  split; [by vm_compute|].
  assert (mailbox_create "mailbox" handle 2 now = Ok mailbox) as Hb by by vm_compute.
  intros s c. exact (proj2 (mailbox_refines_queue "mailbox" handle 2 now mailbox working c ltac:(lia) Hb)).
Defined.

(** ** Consequences of the refinement *)
Lemma queue_step_grows current q c q' :
  queue_step current q c q' ->
  q_handled q `prefix_of` q_handled q' /\ q_handled q ++ q_waiting q `prefix_of` q_handled q' ++ q_waiting q'.
Proof.
  destruct 1; cbn; rewrite <-?app_assoc; cbn; split; try done.
  - exists [id]. by rewrite app_assoc.
  - by exists [x].
Qed.
Lemma worker_step_grows s c t :
  worker_step s c t -> worker_inv s ->
  q_handled (queue_of s.1) `prefix_of` q_handled (queue_of t.1) /\
  q_handled (queue_of s.1) ++ q_waiting (queue_of s.1) `prefix_of` q_handled (queue_of t.1) ++ q_waiting (queue_of t.1).
Proof.
  intros Hs Hinv. pose proof (worker_step_refines s c t Hs Hinv) as Hq.
  destruct c; try (by eapply queue_step_grows); by rewrite Hq.
Qed.
Lemma worker_steps_grow s t :
  worker_steps s t -> worker_inv s ->
  q_handled (queue_of s.1) `prefix_of` q_handled (queue_of t.1) /\
  q_handled (queue_of s.1) ++ q_waiting (queue_of s.1) `prefix_of` q_handled (queue_of t.1) ++ q_waiting (queue_of t.1).
Proof.
  induction 1 as [|s c t v Hst Hsv IH]; intros Hinv; [done|].
  destruct (worker_step_grows s c t Hst Hinv), IH as [? ?]; [by eapply worker_step_inv|]. split; by etrans.
Qed.

Lemma queue_of_ids b : q_handled (queue_of b) ++ q_waiting (queue_of b) = me_id <$> mb_messages b.
Proof. unfold queue_of; cbn. by rewrite <-fmap_app, take_drop. Qed.

Lemma unsettled_of_waiting b h :
  progress_inv b h ->
  length (List.filter is_unsettled (mb_messages b)) = length (q_waiting (queue_of b)).
Proof.
  intros (Hc & _ & Hm). unfold queue_of; cbn. rewrite length_fmap. set (n := Z.to_nat (mb_acknowledged_cursor b)).
  assert (forall f (l : list ContextWorkerMessage), (forall x, x ∈ l -> f x = false) -> List.filter f l = []) as Hnone.
  { intros f l; induction l as [|x l IH]; intros Hf; [done|]. cbn.
    rewrite Hf by left. apply IH. intros y Hy. apply Hf. by right. }
  assert (forall f (l : list ContextWorkerMessage), (forall x, x ∈ l -> f x = true) -> List.filter f l = l) as Hall.
  { intros f l; induction l as [|x l IH]; intros Hf; [done|]. cbn.
    rewrite Hf by left. f_equal. apply IH. intros y Hy. apply Hf. by right. }
  rewrite <-(take_drop n (mb_messages b)) at 1. rewrite List.filter_app, length_app, Hnone, Hall; [done| |].
  - intros x (i & Hi)%list_elem_of_lookup. rewrite lookup_drop in Hi. specialize (Hm _ _ Hi).
    unfold is_unsettled. destruct (me_status x); done || lia.
  - intros x (i & Hi & Hlt)%elem_of_take. specialize (Hm _ _ Hi).
    unfold is_unsettled. case_match eqn:Hs; [lia|lia|by rewrite bool_decide_eq_false_2 by set_solver|done].
Qed.

(** Messages are handled once each and in the order they were put, whatever
    calls are made: the handled identifiers only ever grow at the end, the
    handled followed by the waiting ones are the identifiers put so far, all
    distinct; a message is acknowledged exactly when it is among the handled
    ones, only the head of the rest can be in flight, and no more than
    [max_pending] wait, at most 1,024. *)
Theorem messages_handled_once_in_order id h max now b cs cs' :
  0 <= max -> mailbox_create id h max now = Ok b ->
  let s := worker_run cs (b, h) in
  let t := worker_run cs' s in
  q_handled (queue_of s.1) `prefix_of` q_handled (queue_of t.1) /\
  (me_id <$> mb_messages s.1) `prefix_of` (me_id <$> mb_messages t.1) /\
  q_handled (queue_of s.1) ++ q_waiting (queue_of s.1) = (me_id <$> mb_messages s.1) /\
  NoDup (me_id <$> mb_messages s.1) /\
  (forall i m, mb_messages s.1 !! i = Some m ->
     (me_status m = MsAcknowledged <-> (i < length (q_handled (queue_of s.1)))%nat) /\
     (me_status m = MsInFlight -> i = length (q_handled (queue_of s.1)))) /\
  Z.of_nat (length (q_waiting (queue_of s.1))) <= mb_max_pending s.1 <= 1024.
Proof.
  intros Hmax Hb s t. assert (worker_inv s) as Hinv by (exact (worker_run_inv _ _ (created_inv _ _ _ _ _ Hmax Hb))).
  destruct (worker_steps_grow s t) as [Hh Hall]; [apply worker_run_steps|done|]. rewrite (queue_of_ids s.1), (queue_of_ids t.1) in Hall. rewrite queue_of_ids.
  pose proof Hinv as (Hn0 & Hmp & Hrv & Hp). pose proof Hp as (Hc & Hd & Hm).
  pose proof (mailbox_validate_wf _ _ _ Hmp Hn0) as (Hcap & Hu & _).
  split; [exact Hh|split; [exact Hall|split; [done|split; [exact Hd|split; [|split]]]]].
  - intros i m Hi. specialize (Hm i m Hi). unfold queue_of; cbn. rewrite length_fmap, length_take.
    pose proof (lookup_lt_Some _ _ _ Hi). case_match; split; try split; intros; try done; lia.
  - rewrite <-(unsettled_of_waiting _ s.2 Hp). unfold unsettled_count, try_from_usize in Hu. unfold MAX_MAILBOX_CAPACITY, u32_max in *.
    case_match; cbn in Hu; lia.
  - apply Hcap.
Qed.

Lemma messages_handled_once_in_order_witness :
  q_handled (queue_of (worker_run working (mailbox, handle)).1) `prefix_of`
    q_handled (queue_of (worker_run [CallAcknowledge capsule "m1" 1 Prelude.Fixture.zeros64 (now + 5)]
      (worker_run working (mailbox, handle))).1).
Proof.
  assert (mailbox_create "mailbox" handle 2 now = Ok mailbox) as Hb by by vm_compute.
  exact (proj1 (messages_handled_once_in_order "mailbox" handle 2 now mailbox working _ ltac:(lia) Hb)).
Defined.

(** ** Epochs *)
Definition call_epoch (c : WorkerCall) : option Z :=
  match c with
  | CallClaim _ epoch _ | CallAcknowledge _ _ epoch _ _ | CallDetach epoch _ | CallReattach epoch _ _
  | CallUsage _ epoch _ _ _ _ _ => Some epoch
  | _ => None
  end.

Lemma worker_step_epoch s c t :
  worker_step s c t ->
  wh_attachment_epoch s.2 <= wh_attachment_epoch t.2 /\ forall e, call_epoch c = Some e -> e = wh_attachment_epoch s.2.
Proof.
  destruct 1; cbn [fst snd] in *; subst; cbn; (split; [lia|]); intros e; try done; intros [= <-]; try done;
    unfold execution_authorized in *; split_guards; lia.
Qed.
Lemma worker_steps_epoch s t : worker_steps s t -> wh_attachment_epoch s.2 <= wh_attachment_epoch t.2.
Proof. induction 1 as [|s c t v Hst _ IH]; [lia|]. apply worker_step_epoch in Hst as [? _]. lia. Qed.

Lemma claim_needs_epoch b h capsule epoch now o b' :
  run (claim_next h capsule epoch now) b = (Ok o, b') -> epoch = wh_attachment_epoch h.
Proof. unfold claim_next, execution_authorized. intros Hr. inv_run. split_guards. lia. Qed.

Lemma stale_call_fails c s e :
  call_epoch c = Some e -> e <> wh_attachment_epoch s.2 -> is_ok (run (worker_call c) s).1 = false.
Proof.
  intros Hc He. destruct s as [b h]. destruct (run (worker_call c) (b, h)) as [[u| |] t] eqn:Hr; [exfalso|done..].
  destruct c; try done; cbn [worker_call call_epoch] in *; simplify_eq; inv_ok;
    repeat match goal with
    | Hx : run (on_mailbox _) _ = _ |- _ => apply run_on_mailbox in Hx as (? & -> & ?)
    | Hx : run (on_handle _) _ = _ |- _ => apply run_on_handle in Hx as (? & -> & ?)
    end.
  - match goal with Hx : run (claim_next _ _ _ _) _ = _ |- _ => apply claim_needs_epoch in Hx end. done.
  - apply acknowledge_step, worker_step_epoch in H as [_ Hx]. by apply He, Hx.
  - apply (detach_step b), worker_step_epoch in H as [_ Hx]. by apply He, Hx.
  - apply (reattach_step b), worker_step_epoch in H as [_ Hx]. by apply He, Hx.
  - apply (record_usage_step b), worker_step_epoch in H as [_ Hx]. by apply He, Hx.
Qed.

(** C24: after a reattachment the old attachment has no say. Once a handle was
    reattached, and after any further calls, a claim, an acknowledgement, a
    usage report, a detachment or a reattachment that names the old epoch, or
    any earlier one, fails and changes neither the mailbox nor the handle. *)
Theorem old_attachment_is_fenced b h epoch digest now s cs c e :
  run (worker_call (CallReattach epoch digest now)) (b, h) = (Ok tt, s) ->
  call_epoch c = Some e -> e <= epoch ->
  let t := worker_run cs s in
  is_ok (run (worker_call c) t).1 = false /\ (run (worker_call c) t).2 = t.
Proof.
  intros Hr Hc He t. cbn [worker_call] in Hr. apply run_on_handle in Hr as (h' & -> & Hr).
  assert (epoch < wh_attachment_epoch h') as Hlt by (apply (reattach_step b) in Hr; inversion Hr; subst; cbn; lia).
  pose proof (worker_steps_epoch _ _ (worker_run_steps cs (b, h'))) as Hle. fold t in Hle. cbn [snd] in Hle.
  assert (is_ok (run (worker_call c) t).1 = false) as Hf by (eapply stale_call_fails; [done|lia]).
  split; [done|]. by apply worker_call_atomic.
Qed.

Lemma old_attachment_is_fenced_witness :
  let s := (run (worker_call (CallReattach 1 Prelude.Fixture.zeros64 (now + 6)))
    (worker_run (working ++ [CallDetach 1 (now + 5)]) (mailbox, handle))).2 in
  is_ok (run (worker_call (CallAcknowledge capsule "m1" 1 Prelude.Fixture.zeros64 (now + 7))) s).1 = false.
Proof.
  intros s. destruct (worker_run (working ++ [CallDetach 1 (now + 5)]) (mailbox, handle)) as [b h] eqn:Hbh.
  assert (run (worker_call (CallReattach 1 Prelude.Fixture.zeros64 (now + 6))) (b, h) = (Ok tt, s)) as Hr.
  { unfold s. rewrite <-Hbh. clear. by vm_compute. }
  exact (proj1 (old_attachment_is_fenced b h 1 _ _ s [] (CallAcknowledge capsule "m1" 1 Prelude.Fixture.zeros64 (now + 7))
    1 Hr eq_refl ltac:(lia))).
Defined.
