(* ===== verification/WorkerGuarantees.v ===== *)
(** * What the store checks of a worker, its budget and its recovery

    Every step satisfies the append checks [follows] of mailboxes and handles,
    the usage stays within the budget, and a message an old attachment held is
    taken and acknowledged by the next one. *)
From S2P Require Import Prelude Text Money Contract MissionTypes Effect Checkpoint Terminal Truth RuntimeTurn Context Worker WorkerSteps WorkerFixture MailboxSafety.
Import Crew.

(** ** The append check of mailboxes *)
Lemma follow_same counts m : follow_message counts m m = Some counts.
Proof.
  unfold follow_message, message_identity_differs. rewrite !bool_decide_eq_true_2, !Z.eqb_refl by done. done.
Qed.
Lemma follow_appended counts l l' : follow_messages counts l (l ++ l') = Some counts.
Proof. induction l as [|x l IH]; [by destruct l'|]. cbn. by rewrite follow_same. Qed.
Lemma follow_replaced counts l i x y counts' :
  l !! i = Some x -> follow_message counts x y = Some counts' ->
  follow_messages counts l (alter (fun _ => y) i l) = Some counts'.
Proof.
  revert l; induction i as [|i IH]; intros [|z l] Hi Hf; try done; cbn in *.
  - injection Hi as ->. rewrite Hf. cbn. pose proof (follow_appended counts' l []) as Ha. by rewrite app_nil_r in Ha.
  - rewrite follow_same. by apply IH.
Qed.

Definition same_box (b' b : WorkerMailbox) : Prop :=
  mb_id b' = mb_id b /\ mb_tenant_id b' = mb_tenant_id b /\ mb_project_id b' = mb_project_id b /\
  mb_mission_id b' = mb_mission_id b /\ mb_workspace_id b' = mb_workspace_id b /\ mb_worker_id b' = mb_worker_id b /\
  mb_generation b' = mb_generation b /\ mb_max_pending b' = mb_max_pending b /\ mb_created_at b' = mb_created_at b.

(** The header checks of [mailbox_follows] reduce to what happened to the
    messages and the two counters. *)
Lemma mailbox_follows_intro b b' counts :
  same_box b' b -> mb_revision b' = mb_revision b + 1 -> mb_revision b < u64_max -> mb_updated_at b <= mb_updated_at b' ->
  (length (mb_messages b) <= length (mb_messages b'))%nat ->
  follow_messages (mkCounts 0 0 0 None) (mb_messages b) (mb_messages b') = Some counts ->
  (length (mb_messages b') = S (length (mb_messages b)) /\ counts = mkCounts 0 0 0 None /\
     mb_next_sequence b' = mb_next_sequence b + 1 /\ mb_next_sequence b < u64_max /\
     mb_acknowledged_cursor b' = mb_acknowledged_cursor b /\
     exists m, last (mb_messages b') = Some m /\ me_sequence m = mb_next_sequence b /\ me_status m = MsPending /\
       me_claim_epoch m = None /\ me_result_digest m = None) \/
  (length (mb_messages b') = length (mb_messages b) /\ mb_next_sequence b' = mb_next_sequence b /\
     ((counts ∈ [mkCounts 1 0 0 None; mkCounts 0 1 0 None] /\ mb_acknowledged_cursor b' = mb_acknowledged_cursor b) \/
      (counts = mkCounts 0 0 1 (Some (mb_acknowledged_cursor b')) /\ mb_acknowledged_cursor b < u64_max /\
       mb_acknowledged_cursor b' = mb_acknowledged_cursor b + 1))) ->
  mailbox_follows b' b = Ok true.
Proof.
  intros (? & ? & ? & ? & ? & ? & Hg & Hm & Hc) Hrev Hmax Hup Hlen Hf Hcase. unfold mailbox_follows.
  rewrite !bool_decide_eq_true_2 by (done || (rewrite checked_add_Some; lia)).
  rewrite Hg, Hm, Hc, !Z.eqb_refl, (proj2 (Nat.ltb_ge _ _) Hlen), (proj2 (Z.ltb_ge _ _) Hup). cbn [negb orb]. rewrite Hf.
  destruct Hcase as [(Hl & -> & Hn & Hnm & Ha & m & Hlast & Hsq & Hst & Hce & Hrd)|(Hl & Hn & [[Hcs Ha]|(-> & Hcm & Ha)])].
  - rewrite Hl, Hlast. replace (S _ - _)%nat with 1%nat by lia. cbn.
    rewrite bool_decide_eq_true_2 by (rewrite checked_add_Some; lia). rewrite Ha, Hsq, Hst, Hce, Hrd, !Z.eqb_refl. done.
  - rewrite Hl, Nat.sub_diag, Hn, Ha, !Z.eqb_refl. cbn.
    apply elem_of_cons in Hcs as [->|Hcs]; [|apply list_elem_of_singleton in Hcs as ->]; cbn; by rewrite ?orb_true_r.
  - rewrite Hl, Nat.sub_diag, Hn, Z.eqb_refl. cbn. rewrite !bool_decide_eq_true_2 by (done || (rewrite checked_add_Some; lia)).
    by rewrite Z.eqb_refl.
Qed.

Lemma in_validated b h now i m :
  mailbox_validate_for b h now = Ok tt -> mb_messages b !! i = Some m ->
  message_validate m b now = Ok tt /\ me_updated_at m <= now.
Proof.
  unfold mailbox_validate_for. intros Hv Hi. inv_run. split_guards.
  match goal with Hx : messages_validate _ _ _ _ = _ |- _ => rewrite messages_validate_Ok in Hx; destruct (Hx i m Hi) as (_ & Hmv & _) end.
  split; [done|]. unfold message_validate in Hmv. inv_run. split_guards. lia.
Qed.
Lemma updated_before b h now : mailbox_validate_for b h now = Ok tt -> mb_updated_at b <= now.
Proof. unfold mailbox_validate_for. intros Hv. inv_run. split_guards. lia. Qed.

Ltac follow_change :=
  unfold follow_message, message_identity_differs; cbn -[is_sha256];
  rewrite !bool_decide_eq_true_2, !Z.eqb_refl by done; cbn -[is_sha256].

(** The pending message of a validated mailbox carries no claim. *)
Lemma claim_followed b now m epoch :
  message_validate m b now = Ok tt -> me_status m = MsPending ->
  follow_message (mkCounts 0 0 0 None) m (claimed_message epoch now m) = Some (mkCounts 1 0 0 None).
Proof.
  intros Hv Hs. unfold message_validate in Hv. rewrite Hs in Hv. inv_run. split_guards.
  follow_change. rewrite Hs. cbn. rewrite bool_decide_eq_false_2 by done.
  destruct (me_claim_epoch m), (me_result_digest m); try done. cbn. by rewrite (proj2 (Z.ltb_ge _ _)) by lia.
Qed.
Lemma acknowledge_followed b now m epoch digest :
  message_validate m b now = Ok tt -> me_status m = MsInFlight -> me_claim_epoch m = Some epoch -> is_sha256 digest = true ->
  follow_message (mkCounts 0 0 0 None) m (acknowledged_message digest now m)
    = Some (mkCounts 0 0 1 (Some (me_sequence m))).
Proof.
  intros Hv Hs He Hd. unfold message_validate in Hv. rewrite Hs in Hv. inv_run. split_guards.
  follow_change. rewrite Hs, He, Hd. cbn.
  rewrite bool_decide_eq_false_2, bool_decide_eq_true_2 by done. cbn. by rewrite (proj2 (Z.ltb_ge _ _)) by lia.
Qed.
Lemma requeue_followed b h now m epoch :
  message_validate m b now = Ok tt -> me_status m = MsInFlight -> me_claim_epoch m = Some epoch ->
  follow_message (mkCounts 0 0 0 None) m (requeue h now m) = Some (mkCounts 0 1 0 None).
Proof.
  intros Hv Hs He. unfold message_validate in Hv. rewrite Hs in Hv. inv_run. split_guards.
  follow_change. rewrite Hs, He. cbn. rewrite bool_decide_eq_false_2 by done.
  rewrite (proj2 (Z.ltb_ge _ _)) by lia. by destruct (me_result_digest m).
Qed.

(** A recovery changes the one message that was in flight. *)
Lemma requeued_is_alter b h now :
  progress_inv b h -> existsb (held_by_old_epoch h) (mb_messages b) = true ->
  exists i m epoch, mb_messages b !! i = Some m /\ me_status m = MsInFlight /\ me_claim_epoch m = Some epoch /\
    (requeued h now <$> mb_messages b) = alter (fun _ => requeue h now m) i (mb_messages b).
Proof.
  intros (Hc & _ & Hm) (m & Hin & Hh)%existsb_elem_of. apply list_elem_of_lookup in Hin as (i & Hi).
  pose proof Hh as Hh'. unfold held_by_old_epoch in Hh'. split_guards. apply is_some_and_true in Hh' as (e & He & Hlt).
  exists i, m, e. split_and!; try done. apply list_eq. intros j. rewrite list_lookup_fmap.
  destruct (decide (j = i)) as [->|Hne].
  - rewrite list_lookup_alter_eq, Hi. cbn. unfold requeued. by rewrite Hh.
  - rewrite list_lookup_alter_ne by done. destruct (mb_messages b !! j) as [x|] eqn:Hj; [|done]. cbn. f_equal.
    unfold requeued. destruct (held_by_old_epoch h x) eqn:Hx; [|done]. exfalso. apply Hne.
    unfold held_by_old_epoch in Hx. split_guards. pose proof (Hm i m Hi) as H1. pose proof (Hm j x Hj) as H2.
    repeat match goal with Hs : me_status _ = _ |- _ => rewrite Hs in *; clear Hs end. lia.
Qed.

Lemma replaced_follows b b' i m y counts now :
  mb_messages b !! i = Some m -> follow_message (mkCounts 0 0 0 None) m y = Some counts ->
  mb_revision b < u64_max -> mb_updated_at b <= now ->
  same_box b' b -> mb_revision b' = mb_revision b + 1 -> mb_updated_at b' = now ->
  mb_messages b' = alter (fun _ => y) i (mb_messages b) -> mb_next_sequence b' = mb_next_sequence b ->
  ((counts ∈ [mkCounts 1 0 0 None; mkCounts 0 1 0 None] /\ mb_acknowledged_cursor b' = mb_acknowledged_cursor b) \/
   (counts = mkCounts 0 0 1 (Some (mb_acknowledged_cursor b')) /\ mb_acknowledged_cursor b < u64_max /\
    mb_acknowledged_cursor b' = mb_acknowledged_cursor b + 1)) ->
  mailbox_follows b' b = Ok true.
Proof.
  intros Hi Hf Hrm Hu Hb Hr Hu' Hm Hn Hcs. eapply mailbox_follows_intro; try done; [lia| | |].
  - by rewrite Hm, length_alter.
  - rewrite Hm. by eapply follow_replaced.
  - right. by rewrite Hm, length_alter.
Qed.

Lemma worker_step_mailbox_follows s c t :
  worker_step s c t -> worker_inv s -> t.1 = s.1 \/ mailbox_follows t.1 s.1 = Ok true.
Proof.
  intros Hs (Hn0 & Hmp & Hrv & Hp). destruct Hs as
    [b h id sender kind ref digest now m b' Hv (Hid & Hfr & Hsq & Hst & Hce & Hrd & _)
    |b h capsule epoch now i m b' Hv _ _ Hi Hst Hq|b h capsule id epoch digest now i m b' h' Hv _ Hd Hi Hid Hst Hce Hq Hcur Hmax
    |b h now b' Hv _ _ Hex| | | |]; cbn [fst snd] in *; try (by left); right; subst; pose proof (updated_before _ _ _ Hv).
  - eapply mailbox_follows_intro; [by repeat split|done|done|done| |apply follow_appended|].
    { cbn. rewrite length_app. lia. }
    left. cbn. rewrite length_app, last_snoc. cbn. split_and!; try done; [lia|]. exists m. done.
  - eapply (replaced_follows b _ i m); try done.
    + eapply claim_followed, Hst. exact (proj1 (in_validated _ _ _ _ _ Hv Hi)).
    + left. split; [left|done].
  - eapply (replaced_follows b _ i m); try done.
    + eapply acknowledge_followed; try done. exact (proj1 (in_validated _ _ _ _ _ Hv Hi)).
    + right. cbn. split_and!; [done|lia|lia].
  - destruct (requeued_is_alter b h now Hp Hex) as (i & m & epoch & Hi & Hst & Hce & Hal).
    eapply (replaced_follows b _ i m); try done.
    + eapply requeue_followed; try done. exact (proj1 (in_validated _ _ _ _ _ Hv Hi)).
    + left. split; [right; left|done].
Qed.

(** ** Usage *)
Lemma usage_record_Ok tokens cost tools millis budget u u' :
  usage_record tokens cost tools millis budget u = Ok u' ->
  us_tokens u' = us_tokens u + tokens /\ us_tokens u' <= bu_token_limit budget /\
  currency (us_cost u') = currency (us_cost u) /\ currency (us_cost u) = currency (bu_cost_limit budget) /\
  0 <= amount_minor cost /\ amount_minor (us_cost u') = amount_minor (us_cost u) + amount_minor cost /\
  amount_minor (us_cost u') <= amount_minor (bu_cost_limit budget) /\
  us_tool_calls u' = us_tool_calls u + tools /\ us_runtime_millis u' = us_runtime_millis u + millis.
Proof.
  unfold usage_record, checked_add_i64. intros Hr. inv_run. repeat case_match; simplify_eq. split_guards. added.
  cbn. split_and!; done || lia.
Qed.

(** The deltas of a usage report are unsigned. *)
Definition call_wf (c : WorkerCall) : Prop :=
  match c with CallUsage _ _ tokens _ tools millis _ => 0 <= tokens /\ 0 <= tools /\ 0 <= millis | _ => True end.

(** ** The append check of handles *)
Definition same_handle (h' h : WorkerHandle) : Prop :=
  wh_tenant_id h' = wh_tenant_id h /\ wh_project_id h' = wh_project_id h /\ wh_mission_id h' = wh_mission_id h /\
  wh_workspace_id h' = wh_workspace_id h /\ wh_branch_id h' = wh_branch_id h /\ wh_capsule_id h' = wh_capsule_id h /\
  wh_lease_id h' = wh_lease_id h /\ wh_worker_id h' = wh_worker_id h /\ wh_parent_worker_id h' = wh_parent_worker_id h /\
  wh_generation h' = wh_generation h /\ wh_capabilities h' = wh_capabilities h /\ wh_budget h' = wh_budget h /\
  wh_created_at h' = wh_created_at h.

Ltac decide_true := rewrite ?bool_decide_eq_true_2 by (done || (rewrite checked_add_Some; lia)).

Lemma handle_follows_intro h h' :
  same_handle h' h -> wh_revision h' = wh_revision h + 1 -> wh_revision h < u64_max -> wh_updated_at h <= wh_updated_at h' ->
  handle_follows h' h = mret (M:=result ContextError)
    match wh_status h, wh_status h' with
    | WhDetached, WhAttached =>
        bool_decide (checked_add u64_max (wh_attachment_epoch h) 1 = Some (wh_attachment_epoch h'))
        && is_some (wh_runtime_mapping_digest h') && (wh_cursor h' =? wh_cursor h) && bool_decide (wh_usage h' = wh_usage h)
    | WhAttached, WhAttached =>
        (wh_attachment_epoch h' =? wh_attachment_epoch h)
        && bool_decide (wh_runtime_mapping_digest h' = wh_runtime_mapping_digest h)
        && (((wh_cursor h' =? wh_cursor h)
             && ((us_tokens (wh_usage h) <=? us_tokens (wh_usage h'))
                 && bool_decide (currency (us_cost (wh_usage h')) = currency (us_cost (wh_usage h)))
                 && (amount_minor (us_cost (wh_usage h)) <=? amount_minor (us_cost (wh_usage h')))
                 && (us_tool_calls (wh_usage h) <=? us_tool_calls (wh_usage h'))
                 && (us_runtime_millis (wh_usage h) <=? us_runtime_millis (wh_usage h'))
                 && negb (bool_decide (wh_usage h' = wh_usage h))))
            || (bool_decide (checked_add u64_max (wh_cursor h) 1 = Some (wh_cursor h')) && bool_decide (wh_usage h' = wh_usage h)))
    | WhAttached, (WhDetached | WhCompleted | WhFailed | WhCancelled)
    | WhDetached, (WhCompleted | WhFailed | WhCancelled) =>
        (wh_attachment_epoch h' =? wh_attachment_epoch h)
        && is_none (wh_runtime_mapping_digest h') && (wh_cursor h' =? wh_cursor h) && bool_decide (wh_usage h' = wh_usage h)
    | _, _ => false
    end.
Proof.
  intros (H1 & H2 & H3 & H4 & H5 & H6 & H7 & H8 & H9 & Hg & H10 & H11 & Hc) Hr Hm Hu. unfold handle_follows.
  rewrite H1, H2, H3, H4, H5, H6, H7, H8, H9, Hg, H10, H11, Hc, !Z.eqb_refl, (proj2 (Z.leb_le _ _) Hu).
  rewrite (bool_decide_eq_true_2 (checked_add u64_max (wh_revision h) 1 = _)) by (rewrite checked_add_Some; lia).
  rewrite !(bool_decide_eq_true_2 (?[x] = ?x)) by done.
  cbn [andb]. by rewrite !andb_true_r.
Qed.

Lemma worker_step_handle_follows s c t :
  worker_step s c t -> call_wf c -> t.2 = s.2 \/ handle_follows t.2 s.2 = Ok true.
Proof.
  intros Hs Hwf. destruct Hs as [| |b h capsule id epoch digest now i m b' h' _ Ha| |b h epoch now Hst
    |b h epoch digest now Hst|b h capsule epoch tokens cost tools millis now usage Ha Hu Hd Hz Hrec
    |b h capsule required status now Hf Hst]; cbn [fst snd] in *; try (by left); right; subst;
    (rewrite handle_follows_intro; [|by repeat split|done|done|cbn; lia]); cbn.
  - unfold execution_authorized in Ha. split_guards. match goal with Hx : wh_status h = _ |- _ => rewrite Hx end.
    rewrite Z.eqb_refl. decide_true. cbn. by rewrite orb_true_r.
  - rewrite Hst, !Z.eqb_refl. by decide_true.
  - rewrite Hst, Z.eqb_refl. by decide_true.
  - unfold execution_authorized in Ha. split_guards. match goal with Hx : wh_status h = _ |- _ => rewrite Hx end.
    apply usage_record_Ok in Hrec as (Ht & _ & Hc & _ & Hc0 & Hca & _ & Htc & Hrm). destruct Hwf as (? & ? & ?).
    rewrite !Z.eqb_refl, (bool_decide_eq_true_2 (wh_runtime_mapping_digest h = _)), (bool_decide_eq_true_2 _ Hc) by done.
    rewrite !(proj2 (Z.leb_le _ _)) by lia. cbn. rewrite bool_decide_eq_false_2; [done|]. intros ->.
    assert (tokens = 0 /\ amount_minor cost = 0 /\ tools = 0 /\ millis = 0) as (-> & Hx & -> & ->) by lia.
    by rewrite Hx in Hz.
  - rewrite !Z.eqb_refl. apply elem_of_cons in Hst as [->|Hst]; [|apply list_elem_of_singleton in Hst as ->];
      destruct (cp_status capsule), status; try done; cbn; by decide_true.
Qed.

(** What the kernel writes, the store accepts: after any calls on a worker
    whose mailbox was created for its handle, a further call leaves each of
    mailbox and handle either as it was or in a state that the append check
    [follows] of that record accepts as the successor of the one before. *)
Theorem worker_calls_satisfy_append_checks id h max now b cs c :
  0 <= max -> mailbox_create id h max now = Ok b -> call_wf c ->
  let s := worker_run cs (b, h) in
  let t := (run (worker_call c) s).2 in
  (t.1 = s.1 \/ mailbox_follows t.1 s.1 = Ok true) /\ (t.2 = s.2 \/ handle_follows t.2 s.2 = Ok true).
Proof.
  intros Hmax Hb Hwf s t. assert (worker_inv s) as Hinv by (exact (worker_run_inv _ _ (created_inv _ _ _ _ _ Hmax Hb))).
  destruct (worker_call_moves c s) as [Ht|Hs]; fold t in Ht || fold t in Hs.
  - rewrite Ht. auto.
  - split; [by eapply worker_step_mailbox_follows|by eapply worker_step_handle_follows].
Qed.

Lemma worker_calls_satisfy_append_checks_witness :
  let s := worker_run working (mailbox, handle) in
  let t := (run (worker_call (CallAcknowledge capsule "m1" 1 Prelude.Fixture.zeros64 (now + 5))) s).2 in
  mb_acknowledged_cursor t.1 = 1 /\ (t.2 = s.2 \/ handle_follows t.2 s.2 = Ok true).
Proof.
  intros s t. split; [by vm_compute|].
  assert (mailbox_create "mailbox" handle 2 now = Ok mailbox) as Hb by by vm_compute.
  exact (proj2 (worker_calls_satisfy_append_checks "mailbox" handle 2 now mailbox working
    (CallAcknowledge capsule "m1" 1 Prelude.Fixture.zeros64 (now + 5)) ltac:(lia) Hb I)).
Defined.

(** ** The budget *)
Definition usage_within (h : WorkerHandle) : Prop :=
  0 <= us_tokens (wh_usage h) <= bu_token_limit (wh_budget h) /\
  0 <= amount_minor (us_cost (wh_usage h)) <= amount_minor (bu_cost_limit (wh_budget h)) /\
  currency (us_cost (wh_usage h)) = currency (bu_cost_limit (wh_budget h)).

Definition usage_grows (h h' : WorkerHandle) : Prop :=
  us_tokens (wh_usage h) <= us_tokens (wh_usage h') /\
  amount_minor (us_cost (wh_usage h)) <= amount_minor (us_cost (wh_usage h')) /\
  us_tool_calls (wh_usage h) <= us_tool_calls (wh_usage h') /\
  us_runtime_millis (wh_usage h) <= us_runtime_millis (wh_usage h').

Lemma worker_step_usage s c t :
  worker_step s c t -> call_wf c -> usage_within s.2 ->
  usage_within t.2 /\ usage_grows s.2 t.2 /\ wh_budget t.2 = wh_budget s.2.
Proof.
  intros Hs Hwf Hin. assert (forall h h', wh_usage h' = wh_usage h -> wh_budget h' = wh_budget h -> usage_within h ->
    usage_within h' /\ usage_grows h h' /\ wh_budget h' = wh_budget h) as Hsame.
  { intros h h' Hu Hb. unfold usage_within, usage_grows. rewrite Hu, Hb. intros ?. split_and!; naive_solver lia. }
  destruct Hs as [| | | | | |b h capsule epoch tokens cost tools millis now usage Ha Hu Hd Hz Hrec|];
    cbn [fst snd] in *; subst; try (by apply Hsame).
  apply usage_record_Ok in Hrec as (Ht & Htl & Hc & Hcb & Hc0 & Hca & Hcl & Htc & Hrm). destruct Hwf as (? & ? & ?).
  unfold usage_within, usage_grows in *; cbn. destruct Hin as (? & ? & ?). split_and!; congruence || lia.
Qed.

Lemma worker_run_usage cs s :
  Forall call_wf cs -> usage_within s.2 ->
  usage_within (worker_run cs s).2 /\ usage_grows s.2 (worker_run cs s).2 /\ wh_budget (worker_run cs s).2 = wh_budget s.2.
Proof.
  revert s; induction cs as [|c cs IH]; intros s Hwf Hin; cbn; [unfold usage_grows; naive_solver lia|].
  apply Forall_cons in Hwf as [Hc Hwf].
  assert (usage_within (run (worker_call c) s).2.2 /\ usage_grows s.2 (run (worker_call c) s).2.2 /\
    wh_budget (run (worker_call c) s).2.2 = wh_budget s.2) as (Hi1 & Hg1 & Hb1).
  { destruct (worker_call_moves c s) as [->|Hs]; [unfold usage_grows; naive_solver lia|by eapply worker_step_usage]. }
  destruct (IH _ Hwf Hi1) as (Hi2 & Hg2 & Hb2). split_and!; [done| |congruence]. unfold usage_grows in *. lia.
Qed.

(** C26: a worker cannot overspend. Whatever is reported of a worker created
    for its capsule, its tokens and cost stay within the limits of the
    capsule's budget, in the budget's currency, and no usage ever decreases. *)
Theorem worker_usage_within_budget workspace branch lease capsule parent now h b cs cs' :
  handle_create workspace branch lease capsule parent now = Ok h -> Forall call_wf cs -> Forall call_wf cs' ->
  let s := worker_run cs (b, h) in
  let t := worker_run cs' s in
  wh_budget t.2 = cp_budget capsule /\ usage_within t.2 /\ usage_grows s.2 t.2.
Proof.
  intros Hh Hcs Hcs' s t. assert (usage_within h /\ wh_budget h = cp_budget capsule) as [Hin Hbu].
  { unfold handle_create, handle_validate_for in Hh. inv_run. cbn in *. split_guards. unfold usage_within; cbn. split_and!; done || lia. }
  destruct (worker_run_usage cs (b, h) Hcs Hin) as (Hi1 & _ & Hb1).
  destruct (worker_run_usage cs' s Hcs' Hi1) as (Hi2 & Hg2 & Hb2). split_and!; [|done..]. fold s in Hb1. fold t in Hb2. cbn in Hb1. congruence.
Qed.

Lemma worker_usage_within_budget_witness :
  let calls := [CallUsage capsule 1 600 (zero "USD") 2 5 (now + 2); CallUsage capsule 1 600 (zero "USD") 2 5 (now + 3)] in
  us_tokens (wh_usage (worker_run calls (mailbox, handle)).2) = 600 /\ usage_within (worker_run calls (mailbox, handle)).2.
Proof.
  intros calls. split; [by vm_compute|].
  assert (handle_create workspace child_branch lease capsule_issued None now = Ok handle) as Hh by by vm_compute.
  assert (Forall call_wf calls) as Hwf by (repeat constructor; cbn; lia).
  exact (proj1 (proj2 (worker_usage_within_budget _ _ _ _ _ _ handle mailbox [] calls Hh ltac:(constructor) Hwf))).
Defined.

(** ** Recovery *)
Ltac rebuild_guards :=
  repeat (apply orb_false_iff; split); first [assumption|apply negb_false_iff|lia];
  try assumption; try (apply bool_decide_eq_true_2; congruence).

Lemma mailbox_validates_later b h n now :
  n <= now -> mailbox_validate_for b h n = Ok tt -> mailbox_validate_for b h now = Ok tt.
Proof.
  intros Hle. unfold mailbox_validate_for. rewrite !reject_if_seq, !messages_validate_Ok. intros [Hg Hm]. split.
  - split_guards. rebuild_guards.
  - intros i m Hi. destruct (Hm i m Hi) as (? & Hv & ?). split_and!; [done| |done].
    unfold message_validate in *. rewrite reject_if_Ok in *. split_guards. rebuild_guards.
Qed.

(** A mailbox of which only messages, cursor, revision and time changed is
    valid again when its messages are and the cursor is the handle's. *)
Definition same_worker (h' h : WorkerHandle) : Prop :=
  wh_tenant_id h' = wh_tenant_id h /\ wh_project_id h' = wh_project_id h /\ wh_mission_id h' = wh_mission_id h /\
  wh_workspace_id h' = wh_workspace_id h /\ wh_worker_id h' = wh_worker_id h /\ wh_generation h' = wh_generation h /\
  wh_created_at h' = wh_created_at h.

Lemma unsettled_bound b h max :
  progress_inv b h -> Z.of_nat (length (mb_messages b)) - mb_acknowledged_cursor b <= max -> max <= 1024 ->
  unsettled_count b <= max.
Proof.
  intros Hp Hl Hm. unfold unsettled_count, try_from_usize. rewrite (unsettled_of_waiting b h Hp). unfold queue_of; cbn.
  rewrite length_fmap, length_drop. destruct Hp as (Hc & _). unfold u32_max.
  rewrite (proj2 (Z.leb_le _ _)) by lia. cbn. lia.
Qed.
Lemma unsettled_from b h :
  progress_inv b h -> unsettled_count b <= mb_max_pending b -> mb_max_pending b <= 1024 ->
  Z.of_nat (length (mb_messages b)) - mb_acknowledged_cursor b <= mb_max_pending b.
Proof.
  intros Hp. unfold unsettled_count, try_from_usize. rewrite (unsettled_of_waiting b h Hp). unfold queue_of; cbn.
  rewrite length_fmap, length_drop. destruct Hp as (Hc & _). unfold u32_max. case_match; cbn; lia.
Qed.

Lemma updated_validates b h b' h' now :
  mailbox_validate_for b h now = Ok tt -> progress_inv b h -> same_box b' b -> same_worker h' h ->
  0 < mb_revision b' -> mb_updated_at b' = now -> length (mb_messages b') = length (mb_messages b) ->
  mb_next_sequence b' = mb_next_sequence b -> mb_acknowledged_cursor b' = wh_cursor h' ->
  mb_acknowledged_cursor b <= mb_acknowledged_cursor b' -> progress_inv b' h' ->
  (forall i m', mb_messages b' !! i = Some m' -> exists m, mb_messages b !! i = Some m /\
     me_sequence m' = me_sequence m /\ (m' = m \/ message_validate m' b now = Ok tt)) ->
  mailbox_validate_for b' h' now = Ok tt.
Proof.
  intros Hv Hp (Hb1 & Hb2 & Hb3 & Hb4 & Hb5 & Hb6 & Hb7 & Hb8 & Hb9) (H1 & H2 & H3 & H4 & H5 & H6 & H7) Hr Hu Hl Hn Hc Hcc Hp' Hms.
  unfold mailbox_validate_for in Hv |- *. rewrite reject_if_seq, messages_validate_Ok in Hv |- *. destruct Hv as [Hg Hm].
  split_guards. unfold MAX_MAILBOX_CAPACITY in *. split.
  - assert (unsettled_count b' <= mb_max_pending b').
    { rewrite Hb8. eapply unsettled_bound; [exact Hp'| |lia]. rewrite Hl. pose proof (unsettled_from b h Hp). lia. }
    rewrite Hb1, Hb2, Hb3, Hb4, Hb5, Hb6, H1, H2, H3, H4, H5. rebuild_guards; lia.
  - intros i m' Hi. destruct (Hms i m' Hi) as (m & Hmi & Hs & Hor). destruct (Hm i m Hmi) as (Hsq & Hmv & _).
    split_and!; [lia| |].
    + assert (message_validate m' b' now = message_validate m' b now) as ->
        by (unfold message_validate; by rewrite Hb6, Hb9). by destruct Hor as [->|].
    + destruct Hp' as (_ & _ & Hp'). specialize (Hp' i m' Hi). intros Hle. case_match; done || lia.
Qed.

Lemma position_intro f l i m :
  l !! i = Some m -> f m = true -> (forall j x, l !! j = Some x -> f x = true -> j = i) -> position f l = Some (i, m).
Proof.
  intros Hi Hf Hu. unfold position. apply list_find_Some. split_and!; [done|done|].
  intros j x Hj Hlt Hx. specialize (Hu j x Hj Hx). lia.
Qed.

Lemma recover_succeeds b h now :
  mailbox_validate_for b h now = Ok tt -> progress_inv b h -> 0 < mb_revision b < u64_max -> mb_updated_at b <= now ->
  wh_status h = WhAttached -> 1 < wh_attachment_epoch h -> existsb (held_by_old_epoch h) (mb_messages b) = true ->
  run (recover_after_reattach h now) b = (Ok true, touched_mailbox now (b <| mb_messages ::= fmap (requeued h now) |>)).
Proof.
  intros Hv Hp Hr Hu Hs He Hex. unfold recover_after_reattach. rewrite run_get_bind, run_reject_bind.
  rewrite bool_decide_eq_true_2, (proj2 (Z.leb_gt _ _)), (proj2 (Z.ltb_ge _ _)) by lia || done. cbn [negb orb].
  rewrite (run_known_bind _ _ b tt b) by (cbn; by rewrite Hv). rewrite Hex.
  apply run_bind_Ok. exists tt. eexists. split; [|done]. apply run_on_clone_Ok. rewrite run_modify_bind.
  apply touch_and_validate_Ok. split_and!; [done|cbn; lia|].
  destruct (requeued_is_alter b h now Hp Hex) as (k & x & e & Hk & Hst & Hce & Hal).
  eapply (updated_validates b h); try done; [cbn; lia|cbn; by rewrite length_fmap| |by apply recover_progress|].
  - cbn. unfold mailbox_validate_for in Hv. inv_run. split_guards. lia.
  - intros i m' Hi. cbn in Hi. change (fun message => _) with (requeued h now) in Hi. rewrite Hal in Hi.
    destruct (decide (i = k)) as [->|Hne].
    + rewrite list_lookup_alter_eq, Hk in Hi. injection Hi as <-. exists x. split_and!; [done..|]. right.
      destruct (in_validated _ _ _ _ _ Hv Hk) as [Hmv Hxu]. unfold message_validate in *. rewrite Hst in Hmv.
      rewrite reject_if_Ok in *. split_guards. cbn. rebuild_guards.
    + rewrite list_lookup_alter_ne in Hi by done. exists m'. auto.
Qed.

Lemma claim_succeeds b h capsule epoch now i m :
  mailbox_validate_for b h now = Ok tt -> progress_inv b h -> 0 <= mb_max_pending b -> 0 < mb_revision b < u64_max ->
  execution_authorized h capsule epoch = true -> Z.of_nat i = mb_acknowledged_cursor b ->
  mb_acknowledged_cursor b < u64_max -> mb_messages b !! i = Some m -> me_status m = MsPending ->
  run (claim_next h capsule epoch now) b
  = (Ok (Some (claimed_message epoch now m)), touched_mailbox now (set_message i (fun _ => claimed_message epoch now m) b)).
Proof.
  intros Hv Hp Hmp Hr Ha Hic Hcm Hi Hs. pose proof (mailbox_validate_wf _ _ _ Hmp Hv) as Hwf.
  pose proof Hwf as (_ & _ & _ & Hch & Hw). pose proof Hp as (_ & _ & Hm). destruct (Hw i m Hi) as [Hq _].
  unfold claim_next. rewrite run_get_bind. rewrite (run_known_bind _ _ b tt b) by (cbn; by rewrite Hv).
  rewrite run_reject_bind, Ha. cbn [negb orb]. assert (existsb (fun x => bool_decide (me_status x = MsInFlight)) (mb_messages b) = false) as ->.
  { apply existsb_false. intros x (j & Hj)%list_elem_of_lookup. apply bool_decide_eq_false_2. intros Hx.
    pose proof (Hm j x Hj) as Hjx. rewrite Hx in Hjx. assert (j = i) as -> by lia. congruence. }
  rewrite (run_known_bind _ _ b (mb_acknowledged_cursor b + 1) b).
  2: { cbn. unfold checked_add. by rewrite (proj2 (Z.leb_le _ _)) by lia. }
  rewrite (position_intro _ _ i m Hi).
  2: { apply andb_true_intro. split; [lia|]. by apply bool_decide_eq_true_2. }
  2: { intros j x Hj Hx. destruct (Hw j x Hj). apply andb_prop in Hx as [Hx _]. lia. }
  apply run_bind_Ok. exists tt. eexists. split; [|done]. apply run_on_clone_Ok. rewrite run_modify_bind.
  apply touch_and_validate_Ok. split_and!; [done|cbn; lia|].
  assert (wh_attachment_epoch h = epoch) by (unfold execution_authorized in Ha; split_guards; lia).
  eapply (updated_validates b h); try done; [cbn; lia|cbn; by rewrite length_alter|apply claim_progress; try done; lia|].
  intros j m' [(-> & _ & _ & ->)|[Hne Hj]]%lookup_set_message; [|exists m'; auto].
  exists m. split_and!; [done..|]. right. destruct (in_validated _ _ _ _ _ Hv Hi) as [Hmv Hxu].
  unfold message_validate in *. rewrite Hs in Hmv. rewrite reject_if_Ok in *. split_guards. cbn. rebuild_guards.
Qed.

Lemma acknowledge_succeeds b h capsule epoch digest now i m :
  mailbox_validate_for b h now = Ok tt -> progress_inv b h -> 0 <= mb_max_pending b ->
  0 < mb_revision b < u64_max -> wh_revision h < u64_max -> mb_updated_at b <= now -> wh_updated_at h <= now ->
  execution_authorized h capsule epoch = true -> is_sha256 digest = true -> Z.of_nat i = mb_acknowledged_cursor b ->
  mb_acknowledged_cursor b < u64_max -> mb_messages b !! i = Some m -> me_status m = MsInFlight ->
  me_claim_epoch m = Some epoch ->
  run (acknowledge capsule (me_id m) epoch digest now) (b, h)
  = (Ok (acknowledged_message digest now m),
     (touched_mailbox now (set_message i (fun _ => acknowledged_message digest now m) b
        <| mb_acknowledged_cursor := me_sequence m |>),
      touched_handle now (h <| wh_cursor := me_sequence m |>))).
Proof.
  intros Hv Hp Hmp Hr Hrh Hu Huh Ha Hd Hic Hcm Hi Hs Hce. pose proof (mailbox_validate_wf _ _ _ Hmp Hv) as Hwf.
  pose proof Hwf as (_ & _ & _ & Hch & Hw). pose proof Hp as (_ & Hnd & _). destruct (Hw i m Hi) as [Hq _].
  assert (wh_status h = WhAttached /\ wh_attachment_epoch h = epoch) as [Hst He] by (unfold execution_authorized in Ha; split_guards; split; [done|lia]).
  unfold acknowledge. rewrite run_get_bind. rewrite (run_known_bind _ _ _ tt (b, h)) by (cbn; by rewrite Hv).
  rewrite run_reject_bind, Ha, Hd, (proj2 (Z.ltb_ge _ _) Hu). cbn [negb orb].
  rewrite (run_known_bind _ _ _ (i, m) (b, h)).
  2: { cbn. rewrite (position_intro _ _ i m Hi); [done|by apply bool_decide_eq_true_2|].
       intros j x Hj Hx%bool_decide_eq_true_1. eapply (NoDup_lookup _ j i (me_id m) Hnd); by rewrite list_lookup_fmap, ?Hj, ?Hi; cbn; rewrite ?Hx. }
  rewrite run_reject_bind, !bool_decide_eq_true_2 by done. unfold saturating_add.
  rewrite Z.min_r by lia. rewrite (proj2 (Z.eqb_eq _ _)) by lia. cbn [negb orb].
  destruct (run (advance_cursor epoch (me_sequence m) now) h) as [adv h'] eqn:Hadv.
  assert (run (advance_cursor epoch (me_sequence m) now) h = (Ok tt, touched_handle now (h <| wh_cursor := me_sequence m |>))) as Hadv'.
  { apply advance_cursor_Ok. split; [|done]. split_and!; done || lia. }
  rewrite Hadv in Hadv'. injection Hadv' as -> ->. rewrite (run_known_bind _ _ _ tt (b, h)) by done.
  match goal with |- context [run (touch_and_validate ?H now) ?B] =>
    assert (run (touch_and_validate H now) B = (Ok tt, touched_mailbox now B)) as -> end; [|done].
  apply touch_and_validate_Ok. split_and!; [done|cbn; lia|].
  eapply (updated_validates b h); try done; [cbn; lia|cbn; by rewrite length_alter|cbn; lia|apply (acknowledge_progress b h); try done; lia|].
  intros j m' [(-> & _ & _ & ->)|[Hne Hj]]%lookup_set_message; [|exists m'; auto].
  exists m. split_and!; [done..|]. right. destruct (in_validated _ _ _ _ _ Hv Hi) as [Hmv Hxu].
  unfold message_validate in *. rewrite Hs in Hmv. rewrite reject_if_Ok in *. split_guards. cbn.
  rewrite Hce, Hd. rebuild_guards; done.
Qed.

(** The three calls that bring a held message home. *)
Definition recovery_calls (capsule : ContextCapsule) (id : Id) (epoch : Z) (digest : string) (now : DateTime) : list WorkerCall :=
  [CallRecover now; CallClaim capsule epoch now; CallAcknowledge capsule id epoch digest now].

Lemma holder_held b h e :
  progress_inv b h -> q_holder (queue_of b) = Some e -> e < wh_attachment_epoch h ->
  exists i m, mb_messages b !! i = Some m /\ me_status m = MsInFlight /\ me_claim_epoch m = Some e /\
    Z.of_nat i = mb_acknowledged_cursor b /\ held_by_old_epoch h m = true /\
    q_waiting (queue_of b) = me_id m :: (me_id <$> drop (S i) (mb_messages b)).
Proof.
  intros (Hc & _ & Hm) Hh He. unfold queue_of in *; cbn in *. apply bind_Some in Hh as (m & Hi & Hs).
  case_bool_decide as Hst; [|done]. eexists _, m. split_and!; [done..|lia| |by rewrite (drop_S _ m)].
  unfold held_by_old_epoch. rewrite bool_decide_eq_true_2, Hs by done. cbn. lia.
Qed.

(** What a recovery, a claim and an acknowledgement leave for the next call:
    a valid mailbox whose head is in the state that call needs. *)
Lemma recovered_head b h now i m :
  worker_inv (b, h) -> mb_updated_at b <= now -> mb_revision b < u64_max -> 1 < wh_attachment_epoch h ->
  wh_status h = WhAttached -> mb_messages b !! i = Some m -> held_by_old_epoch h m = true ->
  exists b1, run (recover_after_reattach h now) b = (Ok true, b1) /\ worker_inv (b1, h) /\ mb_updated_at b1 = now /\
    mb_revision b1 = mb_revision b + 1 /\ mb_acknowledged_cursor b1 = mb_acknowledged_cursor b /\
    mb_messages b1 !! i = Some (requeue h now m) /\ queue_step (wh_attachment_epoch h) (queue_of b) (CallRecover now) (queue_of b1).
Proof.
  intros Hinv Hu Hr He Hat Hi Hold. pose proof Hinv as (Hv & Hmp & Hrv & Hp); cbn [fst snd] in *.
  apply (mailbox_validates_later _ _ _ now Hu) in Hv.
  assert (existsb (held_by_old_epoch h) (mb_messages b) = true) as Hex.
  { apply existsb_elem_of. exists m. split; [by eapply list_elem_of_lookup_2|done]. }
  pose proof (recover_succeeds b h now Hv Hp ltac:(lia) Hu Hat He Hex) as Hrun. eexists. split; [exact Hrun|].
  apply recover_step in Hrun as [[_ [=]]|Hs]. split_and!; [by eapply worker_step_inv|done..| |].
  - cbn -[lookup]. rewrite list_lookup_fmap, Hi; cbn. unfold requeued. by rewrite Hold.
  - by apply (worker_step_refines _ _ _ Hs Hinv).
Qed.

Lemma claimed_head b h capsule epoch now i m :
  worker_inv (b, h) -> mb_updated_at b <= now -> mb_revision b < u64_max -> execution_authorized h capsule epoch = true ->
  Z.of_nat i = mb_acknowledged_cursor b -> mb_acknowledged_cursor b < u64_max -> mb_messages b !! i = Some m ->
  me_status m = MsPending ->
  exists b1, run (claim_next h capsule epoch now) b = (Ok (Some (claimed_message epoch now m)), b1) /\
    worker_inv (b1, h) /\ mb_updated_at b1 = now /\ mb_revision b1 = mb_revision b + 1 /\
    mb_acknowledged_cursor b1 = mb_acknowledged_cursor b /\ mb_messages b1 !! i = Some (claimed_message epoch now m) /\
    queue_step (wh_attachment_epoch h) (queue_of b) (CallClaim capsule epoch now) (queue_of b1).
Proof.
  intros Hinv Hu Hr Ha Hic Hcm Hi Hst. pose proof Hinv as (Hv & Hmp & Hrv & Hp); cbn [fst snd] in *.
  apply (mailbox_validates_later _ _ _ now Hu) in Hv.
  pose proof (claim_succeeds b h capsule epoch now i m Hv Hp Hmp ltac:(lia) Ha Hic Hcm Hi Hst) as Hrun.
  eexists. split; [exact Hrun|]. apply claim_step in Hrun as [[_ [=]]|Hs].
  split_and!; [by eapply worker_step_inv|done..| |].
  - unfold set_message; cbn -[lookup]. by rewrite list_lookup_alter_eq, Hi.
  - by apply (worker_step_refines _ _ _ Hs Hinv).
Qed.

Lemma acknowledged_head b h capsule epoch digest now i m :
  worker_inv (b, h) -> mb_updated_at b <= now -> wh_updated_at h <= now -> mb_revision b < u64_max ->
  wh_revision h < u64_max -> execution_authorized h capsule epoch = true -> is_sha256 digest = true ->
  Z.of_nat i = mb_acknowledged_cursor b -> mb_acknowledged_cursor b < u64_max -> mb_messages b !! i = Some m ->
  me_status m = MsInFlight -> me_claim_epoch m = Some epoch ->
  exists s1, run (acknowledge capsule (me_id m) epoch digest now) (b, h) = (Ok (acknowledged_message digest now m), s1) /\
    queue_step (wh_attachment_epoch h) (queue_of b) (CallAcknowledge capsule (me_id m) epoch digest now) (queue_of s1.1).
Proof.
  intros Hinv Hu Huh Hr Hrh Ha Hd Hic Hcm Hi Hst Hce. pose proof Hinv as (Hv & Hmp & Hrv & Hp); cbn [fst snd] in *.
  apply (mailbox_validates_later _ _ _ now Hu) in Hv.
  pose proof (acknowledge_succeeds b h capsule epoch digest now i m Hv Hp Hmp ltac:(lia) Hrh Hu Huh Ha Hd Hic Hcm Hi Hst Hce) as Hrun.
  eexists. split; [exact Hrun|]. apply acknowledge_step in Hrun. by apply (worker_step_refines _ _ _ Hrun Hinv).
Qed.

Lemma run_mailbox_call {A} (op : WorkerHandle -> SR WorkerMailbox ContextError A) b h x b' :
  run (op h) b = (Ok x, b') -> run (on_mailbox op;; mret tt) (b, h) = (Ok tt, (b', h)).
Proof. intros Hr. rewrite (run_known_bind _ _ _ x (b', h)); [done|]. apply run_on_mailbox. eauto. Qed.

Lemma recovery_delivers b h capsule digest now e x waiting :
  worker_inv (b, h) -> q_holder (queue_of b) = Some e -> e < wh_attachment_epoch h -> 1 < wh_attachment_epoch h ->
  q_waiting (queue_of b) = x :: waiting -> execution_authorized h capsule (wh_attachment_epoch h) = true ->
  is_sha256 digest = true -> mb_updated_at b <= now -> wh_updated_at h <= now ->
  mb_revision b + 3 <= u64_max -> wh_revision h < u64_max -> mb_acknowledged_cursor b < u64_max ->
  queue_of (worker_run (recovery_calls capsule x (wh_attachment_epoch h) digest now) (b, h)).1
  = mkQueue (q_handled (queue_of b) ++ [x]) None waiting.
Proof.
  intros Hinv Hh He Hee Hw Ha Hd Hu Huh Hr Hrh Hcm. pose proof Hinv as (_ & _ & _ & Hp); cbn [fst snd] in *.
  destruct (holder_held b h e Hp Hh He) as (i & m & Hi & Hst & Hce & Hic & Hold & Hwait).
  assert (wh_status h = WhAttached) as Hat by (unfold execution_authorized in Ha; by split_guards).
  rewrite Hw in Hwait. injection Hwait as -> Hwait.
  destruct (recovered_head b h now i m Hinv Hu ltac:(lia) Hee Hat Hi Hold) as (b1 & Hr1 & Hi1 & Hu1 & Hv1 & Hc1 & Hm1 & Hq1).
  destruct (claimed_head b1 h capsule (wh_attachment_epoch h) now i _ Hi1 ltac:(lia) ltac:(lia) Ha ltac:(lia) ltac:(lia) Hm1 eq_refl)
    as (b2 & Hr2 & Hi2 & Hu2 & Hv2 & Hc2 & Hm2 & Hq2).
  destruct (acknowledged_head b2 h capsule (wh_attachment_epoch h) digest now i _ Hi2 ltac:(lia) Huh ltac:(lia) Hrh Ha Hd
    ltac:(lia) ltac:(lia) Hm2 eq_refl eq_refl) as ([b3 h3] & Hr3 & Hq3).
  unfold recovery_calls. cbn [worker_run worker_call].
  rewrite (run_mailbox_call _ _ _ _ _ Hr1). cbn [snd]. rewrite (run_mailbox_call _ _ _ _ _ Hr2). cbn [snd].
  rewrite (run_known_bind _ _ _ _ _ Hr3). cbn [run mret SR_mret snd fst] in *.
  change (queue_of b3 = mkQueue (q_handled (queue_of b) ++ [me_id m]) None waiting). revert Hq1 Hq2 Hq3 Hw.
  generalize (queue_of b) (queue_of b1) (queue_of b2) (queue_of b3). intros q q1 q2 q3 Hq1 Hq2 Hq3 Hw.
  inversion Hq1; subst. inversion Hq2; subst. inversion Hq3; subst. cbn in *. congruence.
Qed.

(** C23: no message is stranded. After any calls, when the head is held by an
    earlier epoch than the handle's, the attached runtime can recover it, claim
    it and acknowledge it, in three calls that all take effect: the head joins
    the handled messages and the rest waits as before. *)
Theorem held_message_is_delivered id h0 max now0 b0 cs capsule digest now e x waiting :
  0 <= max -> mailbox_create id h0 max now0 = Ok b0 ->
  let s := worker_run cs (b0, h0) in
  let epoch := wh_attachment_epoch s.2 in
  queue_of s.1 = mkQueue (q_handled (queue_of s.1)) (Some e) (x :: waiting) -> e < epoch -> 1 < epoch ->
  execution_authorized s.2 capsule epoch = true -> is_sha256 digest = true ->
  mb_updated_at s.1 <= now -> wh_updated_at s.2 <= now ->
  mb_revision s.1 + 3 <= u64_max -> wh_revision s.2 < u64_max -> mb_acknowledged_cursor s.1 < u64_max ->
  queue_of (worker_run (recovery_calls capsule x epoch digest now) s).1
  = mkQueue (q_handled (queue_of s.1) ++ [x]) None waiting.
Proof.
  intros Hmax Hb s epoch Hq He H1 Ha Hd Hu Huh Hr Hrh Hc.
  assert (worker_inv s) as Hinv by (exact (worker_run_inv _ _ (created_inv _ _ _ _ _ Hmax Hb))).
  unfold epoch in *. clearbody s. destruct s as [b h]. cbn [fst snd] in *. apply (recovery_delivers b h capsule digest now e); try done; by rewrite Hq.
Qed.

Lemma held_message_is_delivered_witness :
  queue_of (worker_run (recovery_calls capsule "m1" 2 Prelude.Fixture.zeros64 (now + 7)) (worker_run reattaching (mailbox, handle))).1
  = mkQueue (q_handled (queue_of (worker_run reattaching (mailbox, handle)).1) ++ ["m1"]) None ["m2"].
Proof.
  assert (mailbox_create "mailbox" handle 2 now = Ok mailbox) as Hb by by vm_compute.
  apply (held_message_is_delivered "mailbox" handle 2 now mailbox reattaching capsule Prelude.Fixture.zeros64 (now + 7) 1 "m1" ["m2"]
    ltac:(lia) Hb); by vm_compute.
Defined.
