(* ===== verification/ContextSafety.v ===== *)
(** * What leases and capsules guarantee

    A worker's authority is contained in its workspace's and its Mission's for
    the whole life of the capsule, a lease answers only to its generation and
    token while it is active, and the append checks accept what the calls
    produce. *)
From S2P Require Import Prelude Text Money Contract MissionTypes WorkProduct Effect Checkpoint Terminal Truth RuntimeTurn Context Worker WorkerSteps WorkerFixture.
From S2P Require Import MissionFixture.
Import Prelude.Fixture.

(** ** Leases *)
Inductive LeaseCall : Type :=
| LeaseHeartbeat (generation : Z) (token : string) (now : DateTime)
| LeaseRelease (generation : Z) (token : string) (now : DateTime)
| LeaseRevoke (generation : Z) (token : string) (now : DateTime)
| LeaseExpire (now : DateTime).

Definition lease_call (c : LeaseCall) : SR WorkerLease ContextError unit :=
  match c with
  | LeaseHeartbeat generation token now => lease_heartbeat generation token now
  | LeaseRelease generation token now => lease_release generation token now
  | LeaseRevoke generation token now => lease_revoke generation token now
  | LeaseExpire now => lease_expire now
  end.
Definition lease_call_time (c : LeaseCall) : DateTime :=
  match c with LeaseHeartbeat _ _ now | LeaseRelease _ _ now | LeaseRevoke _ _ now | LeaseExpire now => now end.
(** The generation and token a call names. *)
Definition lease_call_key (c : LeaseCall) : option (Z * string) :=
  match c with
  | LeaseHeartbeat g t _ | LeaseRelease g t _ | LeaseRevoke g t _ => Some (g, t)
  | LeaseExpire _ => None
  end.
Definition lease_call_status (c : LeaseCall) : WorkerLeaseStatus :=
  match c with
  | LeaseHeartbeat _ _ _ => LsActive
  | LeaseRelease _ _ _ => LsReleased
  | LeaseRevoke _ _ _ => LsRevoked
  | LeaseExpire _ => LsExpired
  end.
Fixpoint lease_run (cs : list LeaseCall) (l : WorkerLease) : WorkerLease :=
  match cs with [] => l | c :: cs => lease_run cs (run (lease_call c) l).2 end.

(** When a call succeeds and what it leaves. *)
Definition lease_allows (c : LeaseCall) (l : WorkerLease) : Prop :=
  le_status l = LsActive /\ le_heartbeat_at l <= lease_call_time c /\ le_revision l < u64_max /\
  match lease_call_key c with
  | Some (g, t) => g = le_generation l /\ t = le_lease_token_digest l /\ is_sha256 t = true /\ lease_call_time c < le_expires_at l
  | None => le_expires_at l <= lease_call_time c
  end.
Definition lease_after (c : LeaseCall) (l : WorkerLease) : WorkerLease :=
  l <| le_status := lease_call_status c |> <| le_heartbeat_at := lease_call_time c |> <| le_revision := le_revision l + 1 |>.

Lemma authorize_active_Ok l g t now :
  authorize_active l g t now false = Ok tt <->
  le_status l = LsActive /\ g = le_generation l /\ t = le_lease_token_digest l /\ is_sha256 t = true /\
  le_heartbeat_at l <= now /\ now < le_expires_at l.
Proof.
  unfold authorize_active. rewrite reject_if_seq, reject_if_Ok. split.
  - intros [H1 H2]. split_guards. split_and!; done || lia.
  - intros (-> & -> & -> & -> & ? & ?). rewrite !bool_decide_eq_true_2, Z.eqb_refl by done. cbn. split; [done|lia].
Qed.
Lemma lease_next_revision_Ok l n : lease_next_revision l = Ok n <-> n = le_revision l + 1 /\ le_revision l < u64_max.
Proof. unfold lease_next_revision. rewrite ok_or_Ok, checked_add_Some. lia. Qed.

Lemma lease_call_Ok c l u l' :
  run (lease_call c) l = (Ok u, l') <-> lease_allows c l /\ l' = lease_after c l.
Proof.
  destruct u. split.
  - intros Hr. destruct c; cbn [lease_call] in Hr; unfold lease_heartbeat, lease_release, lease_revoke, transition_terminal, lease_expire in Hr;
      inv_run; repeat match goal with
      | Hx : authorize_active _ _ _ _ _ = _ |- _ => apply authorize_active_Ok in Hx as (Hst & -> & -> & ? & ? & ?)
      | Hx : lease_next_revision _ = _ |- _ => apply lease_next_revision_Ok in Hx as [-> ?]
      end; split_guards; (split; [unfold lease_allows; cbn; split_and!; done || lia|]); try done.
    unfold lease_after; cbn. by rewrite <-Hst.
  - intros [(Hst & Hh & Hr & Hk) ->]. destruct c; cbn [lease_call lease_call_key lease_call_time] in *;
      unfold lease_heartbeat, lease_release, lease_revoke, transition_terminal, lease_expire;
      rewrite run_get_bind; try (destruct Hk as (? & ? & ? & ?)).
    1-3: rewrite (run_known_bind _ _ l tt l) by (apply run_lift_Ok; split; [by apply authorize_active_Ok|done]).
    4: rewrite run_reject_bind, bool_decide_eq_true_2, !(proj2 (Z.ltb_ge _ _)) by done; cbn [negb orb].
    all: rewrite (run_known_bind _ _ l (le_revision l + 1) l) by (apply run_lift_Ok; split; [by apply lease_next_revision_Ok|done]).
    all: cbn; f_equal; unfold lease_after; cbn; by rewrite <-?Hst.
Qed.

(** The call [lease_follows] replays for a successor. *)
Definition replayed (self previous : WorkerLease) : LeaseCall :=
  match le_status self with
  | LsActive => LeaseHeartbeat (le_generation previous) (le_lease_token_digest previous) (le_heartbeat_at self)
  | LsReleased => LeaseRelease (le_generation previous) (le_lease_token_digest previous) (le_heartbeat_at self)
  | LsRevoked => LeaseRevoke (le_generation previous) (le_lease_token_digest previous) (le_heartbeat_at self)
  | LsExpired => LeaseExpire (le_heartbeat_at self)
  end.
Lemma replay_is_call self previous :
  match le_status self with
  | LsActive => lease_heartbeat (le_generation previous) (le_lease_token_digest previous) (le_heartbeat_at self)
  | LsReleased => lease_release (le_generation previous) (le_lease_token_digest previous) (le_heartbeat_at self)
  | LsRevoked => lease_revoke (le_generation previous) (le_lease_token_digest previous) (le_heartbeat_at self)
  | LsExpired => lease_expire (le_heartbeat_at self)
  end = lease_call (replayed self previous).
Proof. unfold replayed. by destruct (le_status self). Qed.
Lemma replayed_after c l : lease_allows c l -> replayed (lease_after c l) l = c.
Proof. intros (_ & _ & _ & Hk). destruct c; cbn in *; unfold replayed; cbn; try done; by destruct Hk as (-> & -> & _). Qed.

(** The append check of leases is exact. It accepts a record as the
    successor of a lease if and only if one heartbeat, release, revocation or
    expiry on that lease produces the record. *)
Theorem lease_follows_exactly_the_calls self previous :
  lease_follows self previous = Ok true <-> exists c, run (lease_call c) previous = (Ok tt, self).
Proof.
  unfold lease_follows. cbn zeta. rewrite replay_is_call. split.
  - case_match eqn:Him; [intros [=]|]. destruct (run (lease_call _) previous) as [r candidate] eqn:Hr.
    intros [= [Hok Hc]%andb_prop]. apply bool_decide_eq_true_1 in Hc as ->. destruct r as [[]| |]; [|done..]. eauto.
  - intros [c Hr]. apply lease_call_Ok in Hr as Hc. destruct Hc as [Hal ->]. rewrite (replayed_after _ _ Hal), Hr.
    rewrite (bool_decide_eq_true_2 (lease_after c previous = _)) by done. destruct Hal as (_ & ? & ? & _). cbn.
    rewrite !bool_decide_eq_true_2, !Z.eqb_refl by (done || (rewrite checked_add_Some; lia)).
    by rewrite (proj2 (Z.leb_le _ _)) by done.
Qed.

(** What never changes about a lease, and when it is over. *)
Definition lease_scope (l : WorkerLease) :=
  (le_id l, le_tenant_id l, le_project_id l, le_workspace_id l, le_branch_id l, le_worker_id l, le_generation l,
   le_lease_token_digest l, le_runtime_mapping_digest l, le_issued_at l, le_expires_at l).

#[export] Instance lease_call_atomic c : Atomic (lease_call c).
Proof.
  destruct c; cbn [lease_call]; unfold lease_heartbeat, lease_release, lease_revoke, transition_terminal, lease_expire; apply _.
Qed.
Lemma lease_call_moves c l :
  (run (lease_call c) l).2 = l \/ (lease_allows c l /\ (run (lease_call c) l).2 = lease_after c l).
Proof.
  destruct (atomic_cases (lease_call c) l) as [[u Hr]|[_ ?]]; [right; by apply lease_call_Ok in Hr|by left].
Qed.
Lemma lease_run_scope cs l :
  lease_scope (lease_run cs l) = lease_scope l /\ (le_status l <> LsActive -> lease_run cs l = l).
Proof.
  revert l; induction cs as [|c cs IH]; intros l; [done|]. cbn [lease_run].
  destruct (IH (run (lease_call c) l).2) as [Hs Hd]. destruct (lease_call_moves c l) as [He|[Hal He]]; rewrite He in *.
  - by split.
  - split; [by rewrite Hs|]. intros Hn. by destruct Hal as [? _].
Qed.

(** A lease answers only to its holder. Whatever calls were made on it, a
    call that names another generation or another token fails and changes
    nothing; so does every call on a lease that is no longer active, and every
    heartbeat, release and revocation at or after the expiry of the lease. *)
Theorem lease_answers_only_to_its_holder l cs c :
  le_status (lease_run cs l) <> LsActive \/
  (exists g t, lease_call_key c = Some (g, t) /\
     (g <> le_generation l \/ t <> le_lease_token_digest l \/ le_expires_at l <= lease_call_time c)) ->
  is_ok (run (lease_call c) (lease_run cs l)).1 = false /\
  (run (lease_call c) (lease_run cs l)).2 = lease_run cs l.
Proof.
  intros Hbad. destruct (lease_run_scope cs l) as [Hs _]. unfold lease_scope in Hs. simplify_eq.
  assert (is_ok (run (lease_call c) (lease_run cs l)).1 = false) as Hf; [|split; [done|by apply lease_call_atomic]].
  destruct (run (lease_call c) (lease_run cs l)) as [[u|e|] l'] eqn:Hr; [exfalso|done..].
  apply lease_call_Ok in Hr as [(Hst & _ & _ & Hk) _]. destruct Hbad as [Hn|(g & t & Hkey & Hx)]; [done|].
  rewrite Hkey in Hk. destruct Hk as (-> & -> & _ & ?). destruct Hx as [?|[?|?]]; [congruence|congruence|]. 
  match goal with He : le_expires_at _ = le_expires_at l |- _ => rewrite He in * end. lia.
Qed.

Lemma lease_answers_only_to_its_holder_witness :
  is_ok (run (lease_call (LeaseHeartbeat 2 zeros64 (Crew.now + 2))) (lease_run [LeaseHeartbeat 1 zeros64 (Crew.now + 1)] Crew.lease)).1 = false.
Proof.
  apply (lease_answers_only_to_its_holder Crew.lease). right. exists 2, zeros64. split; [done|]. left. by vm_compute.
Defined.

(** ** Capsules *)
Inductive CapsuleCall : Type :=
| CapsuleClaim (generation : Z) (now : DateTime)
| CapsuleSubmit (generation : Z) (result : ContextReturnReceipt) (now : DateTime)
| CapsuleAccept (now : DateTime)
| CapsuleCancel (now : DateTime)
| CapsuleExpire (now : DateTime).

Definition capsule_call (c : CapsuleCall) : SR ContextCapsule ContextError unit :=
  match c with
  | CapsuleClaim generation now => capsule_claim generation now
  | CapsuleSubmit generation result now => submit_result generation result now
  | CapsuleAccept now => accept_result now
  | CapsuleCancel now => capsule_cancel now
  | CapsuleExpire now => capsule_expire now
  end.
Fixpoint capsule_run (cs : list CapsuleCall) (c : ContextCapsule) : ContextCapsule :=
  match cs with [] => c | x :: cs => capsule_run cs (run (capsule_call x) c).2 end.

Definition capsule_call_time (c : CapsuleCall) : DateTime :=
  match c with
  | CapsuleClaim _ now | CapsuleSubmit _ _ now | CapsuleAccept now | CapsuleCancel now | CapsuleExpire now => now
  end.

Inductive capsule_step (c : ContextCapsule) : CapsuleCall -> ContextCapsule -> Prop :=
| capsule_claims now : cp_status c = CpIssued -> now <= cp_expires_at c -> cp_updated_at c <= now ->
    cp_revision c < u64_max ->
    capsule_step c (CapsuleClaim (cp_worker_generation c) now)
      (capsule_commit_touch (cp_revision c + 1) now (c <| cp_status := CpClaimed |>))
| capsule_submits r now : cp_status c = CpClaimed -> now <= cp_expires_at c -> cp_updated_at c <= now ->
    rr_submitted_at r = now -> return_receipt_validate_for r (cp_return_contract c) = Ok tt -> cp_revision c < u64_max ->
    capsule_step c (CapsuleSubmit (cp_worker_generation c) r now)
      (capsule_commit_touch (cp_revision c + 1) now (c <| cp_result := Some r |> <| cp_status := CpResultSubmitted |>))
| capsule_accepts now : cp_status c = CpResultSubmitted -> cp_updated_at c <= now -> cp_revision c < u64_max ->
    capsule_step c (CapsuleAccept now)
      (capsule_commit_touch (cp_revision c + 1) now (c <| cp_status := CpAccepted |>))
| capsule_cancels now : cp_status c ∈ [CpIssued; CpClaimed] -> cp_updated_at c <= now -> cp_revision c < u64_max ->
    capsule_step c (CapsuleCancel now)
      (capsule_commit_touch (cp_revision c + 1) now (c <| cp_status := CpCancelled |>))
| capsule_expires now : cp_status c ∈ [CpIssued; CpClaimed] -> cp_expires_at c < now -> cp_updated_at c <= now ->
    cp_revision c < u64_max ->
    capsule_step c (CapsuleExpire now)
      (capsule_commit_touch (cp_revision c + 1) now (c <| cp_status := CpExpired |>)).

Lemma capsule_prepare_touch_Ok c now n :
  capsule_prepare_touch c now = Ok n <-> cp_updated_at c <= now /\ n = cp_revision c + 1 /\ cp_revision c < u64_max.
Proof. unfold capsule_prepare_touch. rewrite reject_if_seq, ok_or_Ok, checked_add_Some. lia. Qed.

Lemma capsule_call_step x c u c' : run (capsule_call x) c = (Ok u, c') -> capsule_step c x c'.
Proof.
  destruct x; cbn [capsule_call]; unfold capsule_claim, submit_result, accept_result, capsule_cancel, capsule_expire; intros Hr;
    inv_run; split_guards;
    match goal with Hx : capsule_prepare_touch _ _ = _ |- _ => apply capsule_prepare_touch_Ok in Hx as (? & -> & ?) end;
    repeat match goal with Hx : (?g =? _) = true |- _ => is_var g; apply Z.eqb_eq in Hx as -> end;
    constructor; done || lia.
Qed.
#[export] Instance capsule_call_atomic x : Atomic (capsule_call x).
Proof.
  destruct x; cbn [capsule_call]; unfold capsule_claim, submit_result, accept_result, capsule_cancel, capsule_expire; apply _.
Qed.
Lemma capsule_call_moves x c : (run (capsule_call x) c).2 = c \/ capsule_step c x (run (capsule_call x) c).2.
Proof.
  destruct (atomic_cases (capsule_call x) c) as [[u Hr]|[_ ?]]; [right; by eapply capsule_call_step|by left].
Qed.

Lemma capsule_step_authority c x c' :
  capsule_step c x c' -> authority_parts c' = authority_parts c /\ cp_authority_digest c' = cp_authority_digest c.
Proof. by destruct 1. Qed.
Lemma capsule_run_authority cs c :
  authority_parts (capsule_run cs c) = authority_parts c /\ cp_authority_digest (capsule_run cs c) = cp_authority_digest c.
Proof.
  revert c; induction cs as [|x cs IH]; intros c; [done|]. cbn [capsule_run]. destruct (IH (run (capsule_call x) c).2) as [Ha Hd].
  rewrite Ha, Hd. destruct (capsule_call_moves x c) as [->|Hs]; [done|]. by eapply capsule_step_authority.
Qed.

(** The receipt a capsule holds is one its return contract accepts, handed in
    by the capsule's expiry; a capsule without one is not yet, or never,
    returned. *)
Definition result_inv (c : ContextCapsule) : Prop :=
  cp_issued_at c <= cp_updated_at c /\
  match cp_status c with
  | CpResultSubmitted | CpAccepted =>
      exists r, cp_result c = Some r /\ return_receipt_validate_for r (cp_return_contract c) = Ok tt /\
        cp_issued_at c <= rr_submitted_at r <= cp_expires_at c
  | _ => cp_result c = None
  end.
Lemma capsule_step_result c x c' : capsule_step c x c' -> result_inv c -> result_inv c'.
Proof.
  unfold result_inv. destruct 1 as [now Hs|r now Hs|now Hs|now Hs|now Hs]; cbn; intros [Hi Hr]; (split; [lia|]).
  - by rewrite Hs in Hr.
  - exists r. split_and!; done || lia.
  - by rewrite Hs in Hr.
  - apply elem_of_cons in Hs as [Hs|Hs]; [|apply list_elem_of_singleton in Hs]; by rewrite Hs in Hr.
  - apply elem_of_cons in Hs as [Hs|Hs]; [|apply list_elem_of_singleton in Hs]; by rewrite Hs in Hr.
Qed.
Lemma capsule_run_result cs c : result_inv c -> result_inv (capsule_run cs c).
Proof.
  revert c; induction cs as [|x cs IH]; intros c Hc; [done|]. apply IH.
  destruct (capsule_call_moves x c) as [->|Hs]; [done|]. by eapply capsule_step_result.
Qed.

(** How many calls a capsule can still take. *)
Definition calls_left (c : ContextCapsule) : nat :=
  match cp_status c with CpIssued => 3 | CpClaimed => 2 | CpResultSubmitted => 1 | _ => 0 end.
Lemma capsule_step_left c x c' : capsule_step c x c' -> (calls_left c' < calls_left c)%nat.
Proof.
  unfold calls_left. destruct 1 as [now Hs|r now Hs|now Hs|now Hs|now Hs]; cbn; rewrite ?Hs; try lia;
    (apply elem_of_cons in Hs as [Hs|Hs]; [|apply list_elem_of_singleton in Hs]); rewrite Hs; lia.
Qed.
Fixpoint capsule_successes (cs : list CapsuleCall) (c : ContextCapsule) : nat :=
  match cs with
  | [] => 0
  | x :: cs => Nat.b2n (is_ok (run (capsule_call x) c).1) + capsule_successes cs (run (capsule_call x) c).2
  end.

(** A capsule comes to an end. Of any calls on a capsule, at most three
    take effect on one that was issued, two on one that is claimed, one on one
    whose result is submitted and none on one that is accepted, cancelled or
    expired; the others fail and change nothing. *)
Theorem capsule_takes_finitely_many_calls cs c :
  (capsule_successes cs c + calls_left (capsule_run cs c) <= calls_left c)%nat.
Proof.
  revert c; induction cs as [|x cs IH]; intros c; cbn [capsule_successes capsule_run]; [lia|].
  specialize (IH (run (capsule_call x) c).2). destruct (atomic_cases (capsule_call x) c) as [[u Hr]|[Hf He]].
  - pose proof (capsule_step_left _ _ _ (capsule_call_step _ _ _ _ Hr)) as Hlt. rewrite Hr in *. cbn in *. lia.
  - rewrite Hf. rewrite He in *. cbn. lia.
Qed.

(** What a worker returns was asked for. However a freshly issued capsule
    is used, once it holds a result that result satisfies the return contract
    the capsule was issued with, was handed in after the issue and no later
    than the expiry, and every acceptance is of such a result; and each
    call that takes effect yields a record the append check of capsules accepts
    as successor. *)
Theorem capsule_results_meet_their_contract `{!ContextSerde} `{!TruthSerde} id workspace branch lease mission goal task_id
    grants facts capabilities budget inputs contract expires now c cs x :
  capsule_issue id workspace branch lease mission goal task_id grants facts capabilities budget inputs contract expires now = Ok c ->
  let d := capsule_run cs c in
  (cp_status d ∈ [CpResultSubmitted; CpAccepted] -> exists r, cp_result d = Some r /\
     return_receipt_validate_for r contract = Ok tt /\ now <= rr_submitted_at r <= expires) /\
  (is_ok (run (capsule_call x) d).1 = true -> capsule_follows (run (capsule_call x) d).2 d = Ok true).
Proof.
  intros Hc d. assert (result_inv d /\ authority_parts d = authority_parts c) as [Hinv Hau].
  { split; [|apply capsule_run_authority]. apply capsule_run_result. unfold capsule_issue in Hc. inv_run.
    split; cbn; [lia|done]. }
  assert (cp_return_contract d = contract /\ cp_issued_at d = now /\ cp_expires_at d = expires) as (Hrc & Hi & He).
  { unfold capsule_issue in Hc. inv_run. unfold authority_parts in Hau. cbn in Hau. by simplify_eq. }
  split.
  - intros Hs. destruct Hinv as [_ Hr]. rewrite Hrc, Hi, He in Hr.
    apply elem_of_cons in Hs as [Hs|Hs]; [|apply list_elem_of_singleton in Hs]; by rewrite Hs in Hr.
  - intros Hok. destruct (atomic_cases (capsule_call x) d) as [[u Hr]|[Hf _]]; [|congruence].
    apply capsule_call_step in Hr as Hs. pose proof (capsule_step_authority _ _ _ Hs) as [Ha Hd].
    unfold capsule_follows. rewrite Ha, Hd, !bool_decide_eq_true_2 by (done || (rewrite checked_add_Some; destruct Hs; cbn; lia)).
    assert (cp_updated_at d <= cp_updated_at (run (capsule_call x) d).2) as Hu by (destruct Hs; done).
    rewrite (proj2 (Z.leb_le _ _) Hu). cbn. f_equal. destruct Hinv as [_ Hres]. clear -Hs Hres.
    unfold capsule_transition_allowed. destruct Hs as [t Hs|r t Hs|t Hs|t Hs|t Hs]; cbn; rewrite ?Hs in *; cbn in *;
      rewrite ?Hres; try done; [by rewrite bool_decide_eq_true_2|..];
      (apply elem_of_cons in Hs as [Hs|Hs]; [|apply list_elem_of_singleton in Hs]); rewrite Hs in *; by rewrite Hres.
Qed.

Definition demo_receipt : ContextReturnReceipt := mkReturnReceipt "schema" 1 zeros64 10 ∅ ∅ zeros64 None (Crew.now + 2).
Lemma capsule_results_meet_their_contract_witness :
  let calls := [CapsuleClaim 1 (Crew.now + 1); CapsuleSubmit 1 demo_receipt (Crew.now + 2)] in
  cp_status (capsule_run calls Crew.capsule_issued) = CpResultSubmitted /\
  capsule_follows (run (capsule_call (CapsuleAccept (Crew.now + 3))) (capsule_run calls Crew.capsule_issued)).2
    (capsule_run calls Crew.capsule_issued) = Ok true.
Proof.
  intros calls. split; [by vm_compute|].
  assert (capsule_issue (H0:=Crew.context_serde) (H1:=Crew.truth_serde) "capsule" Crew.workspace Crew.child_branch Crew.lease
    Demo.gathered "summarise" "task" ∅ [] {["web.publish"]} Crew.budget Crew.inputs Crew.return_contract
    (Crew.now + 400) Crew.now = Ok Crew.capsule_issued) as Hc by by vm_compute.
  apply (capsule_results_meet_their_contract _ _ _ _ _ _ _ _ _ _ _ _ _ _ _ _ calls (CapsuleAccept (Crew.now + 3)) Hc).
  by vm_compute.
Defined.

(** ** Authority *)
(** The budget [inner] asks for no more than [outer]. *)
Definition budget_contained (inner outer : ContextBudget) : Prop :=
  bu_token_limit inner <= bu_token_limit outer /\
  currency (bu_cost_limit inner) = currency (bu_cost_limit outer) /\
  amount_minor (bu_cost_limit inner) <= amount_minor (bu_cost_limit outer) /\
  bu_deadline_at inner <= bu_deadline_at outer /\ bu_max_depth inner <= bu_max_depth outer /\
  bu_max_concurrency inner <= bu_max_concurrency outer.
Lemma is_subset_of_true inner outer : is_subset_of inner outer = true <-> budget_contained inner outer.
Proof.
  unfold is_subset_of, budget_contained. rewrite !andb_true_iff, bool_decide_eq_true, !Z.leb_le. tauto.
Qed.

Definition authority_contained (capabilities : gset string) (budget : ContextBudget) (expires : DateTime)
    (workspace : ContextWorkspace) (mission : Mission) : Prop :=
  capabilities ⊆ ws_capability_authority workspace /\
  capabilities ⊆ oc_enabled_capabilities (ms_contract mission) /\
  capabilities ## oc_forbidden_capabilities (ms_contract mission) /\
  budget_contained budget (ws_budget workspace) /\
  currency (bu_cost_limit budget) = currency (oc_budget (ms_contract mission)) /\
  amount_minor (bu_cost_limit budget) <= amount_minor (oc_budget (ms_contract mission)) /\
  expires <= bu_deadline_at budget <= oc_valid_until (ms_contract mission).

Section authority.
Context `{!ContextSerde} `{!TruthSerde}.

Lemma validated_capsule_contained c workspace branch lease mission facts now :
  capsule_validate_for c workspace branch lease mission facts now = Ok tt ->
  authority_contained (cp_capabilities c) (cp_budget c) (cp_expires_at c) workspace mission /\
  cp_expires_at c <= le_expires_at lease /\
  (exists task, task ∈ ms_tasks mission /\ tk_id task = cp_task_id c /\ tk_capability task ∈ cp_capabilities c).
Proof.
  unfold capsule_validate_for, workspace_validate_for, capsule_is_invalid. intros Hv. inv_run. split_guards.
  match goal with Hx : is_subset_of _ _ = true |- _ => apply is_subset_of_true in Hx as Hb end.
  pose proof Hb as (_ & Hcur & Hamt & Hdl & _). unfold authority_contained.
  split; [|split; [lia|]]; [split_and!; try done; try lia; congruence|].
  match goal with Hx : List.find _ _ = Some _ |- _ => apply find_some in Hx as [Hin Hid] end.
  apply list_elem_of_In in Hin. apply bool_decide_eq_true_1 in Hid. eexists. split_and!; [exact Hin|done|].
  unfold contains in *. by split_guards.
Qed.

Lemma validated_facts_cleared c workspace branch lease mission facts now g :
  capsule_validate_for c workspace branch lease mission facts now = Ok tt -> g ∈ cp_required_facts c ->
  (data_class_rank (fg_classification g) <= data_class_rank (maximum_class (ws_data_policy workspace)))%nat.
Proof.
  unfold capsule_validate_for, capsule_is_invalid, validate_fact_closure. intros Hv Hg. inv_run. split_guards.
  match goal with Hx : existsb _ (elements _) = false |- _ => rewrite existsb_false in Hx;
    specialize (Hx g (proj2 (elem_of_elements _ _) Hg)); apply Nat.ltb_ge in Hx end. congruence.
Qed.

Lemma capsule_issue_Ok id workspace branch lease mission goal task_id grants facts capabilities budget inputs contract expires now c :
  capsule_issue id workspace branch lease mission goal task_id grants facts capabilities budget inputs contract expires now = Ok c ->
  capsule_validate_for c workspace branch lease mission facts now = Ok tt /\ cp_capabilities c = capabilities /\
  cp_budget c = budget /\ cp_task_id c = task_id /\ cp_expires_at c = expires.
Proof. unfold capsule_issue. intros Hc. by inv_run. Qed.
End authority.

(** What a worker may do never changes under its calls. *)
Definition handle_authority (h : WorkerHandle) := (wh_capabilities h, wh_budget h, wh_capsule_id h, wh_worker_id h, wh_generation h).
Lemma worker_run_authority cs s : handle_authority (worker_run cs s).2 = handle_authority s.2.
Proof.
  revert s; induction cs as [|c cs IH]; intros s; [done|]. cbn [worker_run]. rewrite IH.
  destruct (worker_call_moves c s) as [->|Hs]; [done|]. destruct Hs; subst; done.
Qed.

(** C25: authority only narrows. A capsule that was issued, however it is used,
    and a worker created for it, whatever calls it makes, have capabilities
    within those the workspace was given and the Mission's contract enables,
    none that the contract forbids, the capability of the capsule's own task
    among them; a budget within the workspace's, whose cost fits the contract's
    budget in its currency; an expiry no later than the lease's, the budget's
    deadline and the end of the contract; and facts no more sensitive than the
    workspace's data policy admits. *)
Theorem worker_authority_is_contained `{!ContextSerde} `{!TruthSerde} id workspace branch lease mission goal task_id
    grants facts capabilities budget inputs contract expires now c cs branch' lease' parent now' h b ws :
  capsule_issue id workspace branch lease mission goal task_id grants facts capabilities budget inputs contract expires now = Ok c ->
  let d := capsule_run cs c in
  handle_create workspace branch' lease' d parent now' = Ok h ->
  let w := (worker_run ws (b, h)).2 in
  cp_capabilities d = capabilities /\ wh_capabilities w = capabilities /\ cp_budget d = budget /\ wh_budget w = budget /\
  authority_contained capabilities budget (cp_expires_at d) workspace mission /\
  cp_expires_at d <= le_expires_at lease /\
  (exists task, task ∈ ms_tasks mission /\ tk_id task = task_id /\ tk_capability task ∈ capabilities) /\
  (forall g, g ∈ cp_required_facts d ->
     (data_class_rank (fg_classification g) <= data_class_rank (maximum_class (ws_data_policy workspace)))%nat).
Proof.
  intros Hc d Hh w. destruct (capsule_run_authority cs c) as [Hau _]. fold d in Hau.
  assert (wh_capabilities h = cp_capabilities d /\ wh_budget h = cp_budget d) as [Hwc Hwb].
  { unfold handle_create in Hh. by inv_run. }
  pose proof (worker_run_authority ws (b, h)) as Hw. fold w in Hw. unfold handle_authority in Hw. cbn in Hw.
  apply capsule_issue_Ok in Hc as (Hval & <- & <- & <- & <-). unfold authority_parts in Hau.
  pose proof (validated_capsule_contained _ _ _ _ _ _ _ Hval) as (Hcon & Hexp & Htask).
  injection Hw as ? ? _ _ _. injection Hau; intros. do 4 (split; [congruence|]).
  replace (cp_expires_at d) with (cp_expires_at c) by congruence.
  split; [done|split; [lia|split; [done|]]]. intros g Hg. apply (validated_facts_cleared _ _ _ _ _ _ _ g Hval). congruence.
Qed.

Lemma worker_authority_is_contained_witness :
  wh_capabilities (worker_run Crew.working (Crew.mailbox, Crew.handle)).2 ⊆ oc_enabled_capabilities (ms_contract Demo.gathered).
Proof.
  assert (capsule_issue (H0:=Crew.context_serde) (H1:=Crew.truth_serde) "capsule" Crew.workspace Crew.child_branch Crew.lease
    Demo.gathered "summarise" "task" ∅ [] {["web.publish"]} Crew.budget Crew.inputs Crew.return_contract
    (Crew.now + 400) Crew.now = Ok Crew.capsule_issued) as Hc by by vm_compute.
  assert (handle_create Crew.workspace Crew.child_branch Crew.lease (capsule_run [] Crew.capsule_issued) None Crew.now
    = Ok Crew.handle) as Hh by by vm_compute.
  destruct (worker_authority_is_contained _ _ _ _ _ _ _ _ _ _ _ _ _ _ _ _ [] _ _ _ _ _ Crew.mailbox Crew.working Hc Hh)
    as (_ & Hcap & _ & _ & (_ & Hen & _) & _).
  by rewrite Hcap.
Defined.
