(* ===== verification/Foundation.v ===== *)
(** * Working sets, continuation ledgers, compaction and resume checkpoints

    Models [domain-kernel/src/context_foundation.rs]: the bounded references a
    worker keeps, the append-only notes that carry work across restarts, and
    the compaction records and checkpoints that are bound to a block captured
    from the Mission and its truth facts. *)
From S2P Require Import Prelude Text Money Contract MissionTypes WorkProduct Effect Checkpoint Terminal Truth RuntimeTurn Context Worker.

Definition MAX_WORKING_ITEMS : nat := 512.
Definition MAX_WORKING_BYTES : Z := 64 * 1024 * 1024.
Definition MAX_REFERENCE_BYTES : Z := 2048.
Definition MAX_SUBJECT_BYTES : Z := 512.

(** ** Data *)
Inductive ContextWorkingItemKind : Type :=
| WkConversationTail | WkToolResult | WkTruthReference | WkEvidenceReference | WkWorkProductReference
| WkEffectReference | WkArtifactReference.
Inductive ContextItemAvailability : Type := ItAvailable | ItExpired.
#[export] Instance ContextItemAvailability_eq_dec : EqDecision ContextItemAvailability.
Proof. solve_decision. Defined.

Record ContextWorkingItem : Type := mkWorkingItem {
  wi_key : string;
  wi_kind : ContextWorkingItemKind;
  wi_storage_ref : string;
  wi_content_digest : string;
  wi_byte_len : Z; (* u64 *)
  wi_classification : ContextDataClass;
  wi_provenance_digest : string;
  wi_expires_at : option DateTime;
  wi_created_at : DateTime;
}.

Record ContextWorkingSet : Type := mkWorkingSet {
  wk_id : Id;
  wk_tenant_id : Id;
  wk_project_id : Id;
  wk_mission_id : Id;
  wk_workspace_id : Id;
  wk_generation : Z; (* u64 *)
  wk_items : gmap string ContextWorkingItem;
  wk_revision : Z; (* u64 *)
  wk_created_at : DateTime;
  wk_updated_at : DateTime;
}.
#[export] Instance ContextWorkingSet_eta : Eta ContextWorkingSet := fun w =>
  mkWorkingSet (wk_id w) (wk_tenant_id w) (wk_project_id w) (wk_mission_id w) (wk_workspace_id w)
    (wk_generation w) (wk_items w) (wk_revision w) (wk_created_at w) (wk_updated_at w).

Inductive ContinuationEntryKind : Type :=
| CnDecision | CnBlocker | CnNextAction | CnUserCorrection | CnCheckpointTransition | CnApprovalPending
| CnEffectUncertain | CnHumanHandoff.
#[export] Instance ContinuationEntryKind_eq_dec : EqDecision ContinuationEntryKind.
Proof. solve_decision. Defined.

Record ContinuationEntryInput : Type := mkEntryInput {
  ei_kind : ContinuationEntryKind;
  ei_subject_id : string;
  ei_payload_ref : string;
  ei_payload_digest : string;
  ei_evidence_ids : gset Id;
}.
Record ContinuationEntry : Type := mkEntry {
  en_sequence : Z; (* u64 *)
  en_mission_revision : Z; (* u64 *)
  en_kind : ContinuationEntryKind;
  en_subject_id : string;
  en_payload_ref : string;
  en_payload_digest : string;
  en_evidence_ids : gset Id;
  en_recorded_at : DateTime;
}.
#[export] Instance ContinuationEntry_eq_dec : EqDecision ContinuationEntry.
Proof. solve_decision. Defined.

Record ContinuationLedger : Type := mkLedger {
  lg_id : Id;
  lg_tenant_id : Id;
  lg_project_id : Id;
  lg_mission_id : Id;
  lg_workspace_id : Id;
  lg_generation : Z; (* u64 *)
  lg_entries : list ContinuationEntry;
  lg_revision : Z; (* u64 *)
  lg_created_at : DateTime;
  lg_updated_at : DateTime;
}.
#[export] Instance ContinuationLedger_eta : Eta ContinuationLedger := fun l =>
  mkLedger (lg_id l) (lg_tenant_id l) (lg_project_id l) (lg_mission_id l) (lg_workspace_id l) (lg_generation l)
    (lg_entries l) (lg_revision l) (lg_created_at l) (lg_updated_at l).

Record ContextTaskInvariant : Type := mkTaskInvariant {
  ti_id : Id; ti_status : TaskStatus; ti_capability : string }.
#[export] Instance ContextTaskInvariant_eq_dec : EqDecision ContextTaskInvariant.
Proof. solve_decision. Defined.
Record ContextTruthInvariant : Type := mkTruthInvariant {
  ui_id : Id;
  ui_version : Z; (* u64 *)
  ui_status : TruthStatus;
  ui_market : string;
  ui_language : string;
  ui_fact_digest : string;
  ui_correction_chain_digest : option string;
}.
#[export] Instance TruthStatus_eq_dec : EqDecision TruthStatus.
Proof. solve_decision. Defined.
#[export] Instance ContextTruthInvariant_eq_dec : EqDecision ContextTruthInvariant.
Proof. solve_decision. Defined.
Record ContextEvidenceInvariant : Type := mkEvidenceInvariant {
  vi_id : Id; vi_status : EvidenceStatus; vi_content_digest : string; vi_source_digest : string }.
#[export] Instance ContextEvidenceInvariant_eq_dec : EqDecision ContextEvidenceInvariant.
Proof. solve_decision. Defined.
Record ContextWorkProductInvariant : Type := mkWorkProductInvariant {
  pi_id : Id;
  pi_revision : Z; (* u64 *)
  pi_status : WorkProductStatus;
  pi_content_digest : string;
  pi_evidence_ids : gset Id;
}.
#[export] Instance ContextWorkProductInvariant_eq_dec : EqDecision ContextWorkProductInvariant.
Proof. solve_decision. Defined.
Record ContextEffectInvariant : Type := mkEffectInvariant {
  fi_id : Id;
  fi_status : EffectStatus;
  fi_exact_scope_digest : string;
  fi_approval_scope_digest : option string;
  fi_permission_digest : option string;
  fi_receipt_digest : option string;
  fi_verification_digest : option string;
  fi_provider_state_uncertain : bool;
}.
#[export] Instance ContextEffectInvariant_eq_dec : EqDecision ContextEffectInvariant.
Proof. solve_decision. Defined.

Record ContextInvariantBlock : Type := mkInvariantBlock {
  ib_tenant_id : Id;
  ib_project_id : Id;
  ib_mission_id : Id;
  ib_mission_revision : Z; (* u64 *)
  ib_contract_version : Z; (* u64 *)
  ib_mission_stage : MissionStage;
  ib_goal_digest : string;
  ib_non_goals_digest : string;
  ib_constraints_digest : string;
  ib_stop_conditions_digest : string;
  ib_completion_conditions_digest : string;
  ib_authority_digest : string;
  ib_mission_block_digest : option string;
  ib_tasks : list ContextTaskInvariant;
  ib_truth_facts : list ContextTruthInvariant;
  ib_evidence : list ContextEvidenceInvariant;
  ib_work_products : list ContextWorkProductInvariant;
  ib_effects : list ContextEffectInvariant;
  ib_open_task_ids : gset Id;
  ib_pending_effect_ids : gset Id;
  ib_uncertain_effect_ids : gset Id;
  ib_outcome_history_digest : string;
}.
#[export] Instance ContextInvariantBlock_eq_dec : EqDecision ContextInvariantBlock.
Proof. solve_decision. Defined.

Record ContextCompactionRecord : Type := mkCompaction {
  cm_id : Id;
  cm_tenant_id : Id;
  cm_project_id : Id;
  cm_mission_id : Id;
  cm_workspace_id : Id;
  cm_generation : Z; (* u64 *)
  cm_ordinal : Z; (* u64 *)
  cm_source_first_sequence : Z; (* u64 *)
  cm_source_last_sequence : Z; (* u64 *)
  cm_source_trace_digest : string;
  cm_source_token_count : Z; (* u64 *)
  cm_retained_tail_start : Z; (* u64 *)
  cm_summary_ref : string;
  cm_summary_digest : string;
  cm_summary_byte_len : Z; (* u64 *)
  cm_summary_token_count : Z; (* u64 *)
  cm_invariant : ContextInvariantBlock;
  cm_invariant_digest : string;
  cm_provenance_evidence_ids : gset Id;
  cm_provenance_coverage_digest : string;
  cm_model_digest : string;
  cm_provider_route_digest : string;
  cm_config_digest : string;
  cm_created_at : DateTime;
}.

Record ContextCheckpoint : Type := mkCheckpoint {
  cc_id : Id;
  cc_tenant_id : Id;
  cc_project_id : Id;
  cc_mission_id : Id;
  cc_workspace_id : Id;
  cc_generation : Z; (* u64 *)
  cc_ordinal : Z; (* u64 *)
  cc_previous_checkpoint_id : option Id;
  cc_mission_revision : Z; (* u64 *)
  cc_working_set_id : Id;
  cc_working_set_revision : Z; (* u64 *)
  cc_working_set_digest : string;
  cc_continuation_ledger_id : Id;
  cc_continuation_ledger_revision : Z; (* u64 *)
  cc_continuation_ledger_digest : string;
  cc_compaction_record_id : Id;
  cc_compaction_ordinal : Z; (* u64 *)
  cc_compaction_digest : string;
  cc_invariant : ContextInvariantBlock;
  cc_invariant_digest : string;
  cc_worker_graph_digest : string;
  cc_resume_cursor_digest : string;
  cc_trace_tail_sequence : Z; (* u64 *)
  cc_created_at : DateTime;
}.

Record ContextFoundationSnapshot : Type := mkFoundation {
  fs_sync_version : Z; (* u64 *)
  fs_workspace : ContextWorkspace;
  fs_working_set : ContextWorkingSet;
  fs_continuation_ledger : ContinuationLedger;
  fs_compaction : ContextCompactionRecord;
  fs_checkpoint : ContextCheckpoint;
  fs_truth_facts : list TruthFact;
}.

(** [serde_json::to_vec] of the hashed values; [None] stands for its error. *)
Class FoundationSerde := {
  json_string : string -> option string;
  json_strings : list string -> option string;
  json_id_set : gset Id -> option string;
  json_revision_link : TruthRevisionLink -> option string;
  json_evidence_source : string * DateTime * Z -> option string;
  json_receipt : Receipt -> option string;
  json_verification : Verification -> option string;
  json_contract_authority :
    gset string * gset string * gmap string AutonomyLevel * ApprovalPolicy * Money * DateTime -> option string;
  json_block : MissionBlock -> option string;
  json_outcomes : list Outcome * option Outcome -> option string;
  json_invariant : ContextInvariantBlock -> option string;
  json_working_set : ContextWorkingSet -> option string;
  json_ledger : ContinuationLedger -> option string;
  json_compaction : ContextCompactionRecord -> option string;
  json_context_checkpoint : ContextCheckpoint -> option string;
}.

(** ** References *)
Definition is_safe_storage_ref (value : string) : bool :=
  if String.eqb value ""
     || (MAX_REFERENCE_BYTES <? str_len value)
     || negb (all_bytes (fun b => negb (is_ascii_control b || is_ascii_whitespace b)) value)
     || str_contains ".." value
     || negb (all_bytes (fun b => negb ((b =? 92) || (b =? 63) || (b =? 35) || (b =? 64))) value)
  then false else
  match split_once "://" value with
  | None => false
  | Some (scheme, target) =>
      bool_decide (scheme ∈ ["cas"; "artifact"; "truth"; "mission"; "trace"; "file-broker"])
      && negb (String.eqb target "")
  end.

(** [sort_by(|left, right| left.id.cmp(&right.id))]: stable, in byte order. *)
Fixpoint insert_by_id {A} (id_of : A -> Id) (x : A) (l : list A) : list A :=
  match l with
  | [] => [x]
  | y :: rest => if bool_decide (String.le (id_of x) (id_of y)) then x :: l else y :: insert_by_id id_of x rest
  end.
Definition sort_by_id {A} (id_of : A -> Id) (l : list A) : list A := foldr (insert_by_id id_of) [] l.

(** ** Working sets *)
Definition item_availability_at (self : ContextWorkingItem) (now : DateTime) : ContextItemAvailability :=
  if is_some_and (fun expires_at => expires_at <=? now) (wi_expires_at self) then ItExpired else ItAvailable.

Definition item_validate_for (self : ContextWorkingItem) (workspace : ContextWorkspace) (now : DateTime)
    : result ContextError unit :=
  reject_if (trim_is_empty (wi_key self)
    || (MAX_SUBJECT_BYTES <? str_len (wi_key self))
    || negb (is_safe_storage_ref (wi_storage_ref self))
    || negb (is_sha256 (wi_content_digest self))
    || (wi_byte_len self =? 0)
    || (MAX_WORKING_BYTES <? wi_byte_len self)
    || Nat.ltb (data_class_rank (maximum_class (ws_data_policy workspace))) (data_class_rank (wi_classification self))
    || negb (is_sha256 (wi_provenance_digest self))
    || (wi_created_at self <? ws_created_at workspace)
    || (now <? wi_created_at self)
    || is_some_and (fun expires_at => expires_at <=? wi_created_at self) (wi_expires_at self)) CxInvalidWorkingItem.

(** [try_fold] with [checked_add] *)
Fixpoint total_bytes (total : Z) (items : list ContextWorkingItem) : result ContextError Z :=
  match items with
  | [] => mret total
  | item :: rest =>
      total ← ok_or (checked_add u64_max total (wi_byte_len item)) CxInvalidWorkingSet;
      total_bytes total rest
  end.

Definition working_set_validate_for (self : ContextWorkingSet) (workspace : ContextWorkspace) (now : DateTime)
    : result ContextError unit :=
  total ← total_bytes 0 (btree_values (wk_items self));
  reject_if (trim_is_empty (wk_id self)
    || negb (bool_decide (wk_tenant_id self = ws_tenant_id workspace))
    || negb (bool_decide (wk_project_id self = ws_project_id workspace))
    || negb (bool_decide (wk_mission_id self = ws_mission_id workspace))
    || negb (bool_decide (wk_workspace_id self = ws_id workspace))
    || negb (wk_generation self =? ws_generation workspace)
    || Nat.ltb MAX_WORKING_ITEMS (size (wk_items self))
    || (MAX_WORKING_BYTES <? total)
    || (wk_revision self =? 0)
    || (wk_created_at self <? ws_created_at workspace)
    || (now <? wk_created_at self)
    || (wk_updated_at self <? wk_created_at self)
    || (now <? wk_updated_at self)) CxInvalidWorkingSet;;
  for_each (fun '(key, item) =>
    reject_if (negb (bool_decide (key = wi_key item))) CxInvalidWorkingSet;;
    item_validate_for item workspace now) (btree_pairs (wk_items self)).

Definition working_set_follows (self previous : ContextWorkingSet) : result ContextError bool :=
  mret (bool_decide (wk_id self = wk_id previous)
    && bool_decide (wk_tenant_id self = wk_tenant_id previous)
    && bool_decide (wk_project_id self = wk_project_id previous)
    && bool_decide (wk_mission_id self = wk_mission_id previous)
    && bool_decide (wk_workspace_id self = wk_workspace_id previous)
    && (wk_generation self =? wk_generation previous)
    && (wk_created_at self =? wk_created_at previous)
    && bool_decide (checked_add u64_max (wk_revision previous) 1 = Some (wk_revision self))
    && (wk_updated_at previous <=? wk_updated_at self)).

Definition working_set_create (id : Id) (workspace : ContextWorkspace) (now : DateTime)
    : result ContextError ContextWorkingSet :=
  let value := mkWorkingSet id (ws_tenant_id workspace) (ws_project_id workspace) (ws_mission_id workspace)
    (ws_id workspace) (ws_generation workspace) ∅ 1 now now in
  working_set_validate_for value workspace now;;
  mret value.

Definition replace_items (items : gmap string ContextWorkingItem) (workspace : ContextWorkspace) (now : DateTime)
    : SR ContextWorkingSet ContextError unit :=
  self ← get;
  reject ((now <? wk_updated_at self)
    || map_any (fun item => negb (bool_decide (item_availability_at item now = ItAvailable))) items)
    CxInvalidWorkingSet;;
  next_revision ← lift (ok_or (checked_add u64_max (wk_revision self) 1) CxRevisionOverflow);
  let value := self <| wk_items := items |> <| wk_revision := next_revision |> <| wk_updated_at := now |> in
  follows ← lift (working_set_follows value self);
  reject (negb (is_ok (working_set_validate_for value workspace now)) || negb follows) CxInvalidWorkingSet;;
  put value.

Definition working_set_availability_at (self : ContextWorkingSet) (now : DateTime)
    : gmap string ContextItemAvailability :=
  (fun item => item_availability_at item now) <$> wk_items self.

(** ** Continuation ledgers *)
Definition known_evidence (mission : Mission) (ids : gset Id) : bool :=
  set_all (fun id => existsb (fun evidence => bool_decide (ev_id evidence = id)) (ms_evidence mission)) ids.

Definition entry_validate_for (self : ContinuationEntry) (mission : Mission) (now : DateTime)
    : result ContextError unit :=
  reject_if ((en_sequence self =? 0)
    || (en_mission_revision self =? 0)
    || (ms_revision mission <? en_mission_revision self)
    || trim_is_empty (en_subject_id self)
    || (MAX_SUBJECT_BYTES <? str_len (en_subject_id self))
    || negb (is_safe_storage_ref (en_payload_ref self))
    || negb (is_sha256 (en_payload_digest self))
    || negb (known_evidence mission (en_evidence_ids self))
    || (en_recorded_at self <? ms_created_at mission)
    || (now <? en_recorded_at self)) CxInvalidContinuationEntry.

(** The loop of [ContinuationLedger::validate_for]. *)
Fixpoint entries_validate (mission : Mission) (now : DateTime) (index : nat) (prior_mission_revision : Z)
    (entries : list ContinuationEntry) : result ContextError unit :=
  match entries with
  | [] => mret tt
  | entry :: rest =>
      reject_if (negb (en_sequence entry =? Z.of_nat index + 1)
        || (en_mission_revision entry <? prior_mission_revision)) CxInvalidContinuationLedger;;
      entry_validate_for entry mission now;;
      entries_validate mission now (S index) (en_mission_revision entry) rest
  end.

Definition ledger_validate_for (self : ContinuationLedger) (workspace : ContextWorkspace) (mission : option Mission)
    (now : DateTime) : result ContextError unit :=
  reject_if (trim_is_empty (lg_id self)
    || negb (bool_decide (lg_tenant_id self = ws_tenant_id workspace))
    || negb (bool_decide (lg_project_id self = ws_project_id workspace))
    || negb (bool_decide (lg_mission_id self = ws_mission_id workspace))
    || negb (bool_decide (lg_workspace_id self = ws_id workspace))
    || negb (lg_generation self =? ws_generation workspace)
    || (lg_revision self =? 0)
    || negb (lg_revision self =? Z.of_nat (length (lg_entries self)) + 1)
    || (lg_created_at self <? ws_created_at workspace)
    || (now <? lg_created_at self)
    || (lg_updated_at self <? lg_created_at self)
    || (now <? lg_updated_at self)) CxInvalidContinuationLedger;;
  match mission with
  | Some mission =>
      reject_if (negb (bool_decide (ms_id mission = lg_mission_id self))
        || negb (bool_decide (ms_project_id mission = lg_project_id self))
        || negb (bool_decide (ms_tenant_id mission = lg_tenant_id self))) CxInvalidContinuationLedger;;
      entries_validate mission now 0 0 (lg_entries self)
  | None => reject_if (negb (Nat.eqb (length (lg_entries self)) 0)) CxInvalidContinuationLedger
  end.

Definition ledger_follows (self previous : ContinuationLedger) : result ContextError bool :=
  mret (bool_decide (lg_id self = lg_id previous)
    && bool_decide (lg_tenant_id self = lg_tenant_id previous)
    && bool_decide (lg_project_id self = lg_project_id previous)
    && bool_decide (lg_mission_id self = lg_mission_id previous)
    && bool_decide (lg_workspace_id self = lg_workspace_id previous)
    && (lg_generation self =? lg_generation previous)
    && (lg_created_at self =? lg_created_at previous)
    && bool_decide (checked_add u64_max (lg_revision previous) 1 = Some (lg_revision self))
    && Nat.eqb (length (lg_entries self)) (length (lg_entries previous) + 1)
    && bool_decide (lg_entries previous `prefix_of` lg_entries self)
    && (lg_updated_at previous <=? lg_updated_at self)).

Definition ledger_create (id : Id) (workspace : ContextWorkspace) (now : DateTime)
    : result ContextError ContinuationLedger :=
  let value := mkLedger id (ws_tenant_id workspace) (ws_project_id workspace) (ws_mission_id workspace)
    (ws_id workspace) (ws_generation workspace) [] 1 now now in
  ledger_validate_for value workspace None now;;
  mret value.

(** The entry is pushed before the revision is checked; a failing validation
    puts the ledger back. *)
Definition ledger_append (input : ContinuationEntryInput) (workspace : ContextWorkspace) (mission : Mission)
    (now : DateTime) : SR ContinuationLedger ContextError ContinuationEntry :=
  previous ← get;
  reject (now <? lg_updated_at previous) CxInvalidContinuationLedger;;
  sequence ← lift (ok_or (len ← try_from_usize u64_max (length (lg_entries previous)); checked_add u64_max len 1)
    CxRevisionOverflow);
  let entry := {|
    en_sequence := sequence; en_mission_revision := ms_revision mission; en_kind := ei_kind input;
    en_subject_id := trim (ei_subject_id input); en_payload_ref := ei_payload_ref input;
    en_payload_digest := ei_payload_digest input; en_evidence_ids := ei_evidence_ids input; en_recorded_at := now;
  |} in
  lift (entry_validate_for entry mission now);;
  modify (fun self => self <| lg_entries ::= fun l => l ++ [entry] |>);;
  next_revision ← lift (ok_or (checked_add u64_max (lg_revision previous) 1) CxRevisionOverflow);
  modify (fun self => self <| lg_revision := next_revision |> <| lg_updated_at := now |>);;
  self ← get;
  follows ← lift (ledger_follows self previous);
  if negb (is_ok (ledger_validate_for self workspace (Some mission) now)) || negb follows
  then put previous;; fail CxInvalidContinuationLedger
  else mret entry.

(** ** The block captured from the Mission *)
Section capture.
Context `{Chrono} `{Sha256} `{SerdeScope} `{ContextSerde} `{TruthSerde} `{FoundationSerde}.

(** [value.as_ref().map(digest_json).transpose()?] *)
Definition digest_option {A} (encode : A -> option string) (value : option A) : result ContextError (option string) :=
  match value with
  | Some value => digest ← context_digest_json (encode value); mret (Some digest)
  | None => mret None
  end.

(** [collect::<Result<Vec<_>, _>>()] *)
Fixpoint collect {A B} (f : A -> result ContextError B) (l : list A) : result ContextError (list B) :=
  match l with
  | [] => mret []
  | x :: rest => y ← f x; ys ← collect f rest; mret (y :: ys)
  end.

Definition truth_invariant (fact : TruthFact) : result ContextError ContextTruthInvariant :=
  fact_digest ← map_err (fun _ => CxContextInvariantMismatch) (fact_digest fact);
  chain ← digest_option json_revision_link (fa_revision_link fact);
  mret (mkTruthInvariant (fa_id fact) (fa_version fact) (fa_status fact) (fa_market fact) (fa_language fact)
    fact_digest chain).

(** The loop over the sorted facts. *)
Fixpoint truth_invariants (mission : Mission) (now : DateTime) (seen : gset Id) (facts : list TruthFact)
    : result ContextError (list ContextTruthInvariant) :=
  match facts with
  | [] => mret []
  | fact :: rest =>
      map_err (fun _ => CxContextInvariantMismatch) (fact_validate fact now);;
      reject_if (negb (bool_decide (fa_tenant_id fact = ms_tenant_id mission))
        || negb (bool_decide (fa_project_id fact = ms_project_id mission))
        || bool_decide (fa_id fact ∈ seen)) CxContextInvariantMismatch;;
      value ← truth_invariant fact;
      values ← truth_invariants mission now ({[fa_id fact]} ∪ seen) rest;
      mret (value :: values)
  end.

Definition task_invariant (task : Task) : ContextTaskInvariant :=
  mkTaskInvariant (tk_id task) (tk_status task) (tk_capability task).
Definition task_invariant_is_open (task : ContextTaskInvariant) : bool :=
  negb (bool_decide (ti_status task ∈ [TCompleted; TCancelled])).

Definition evidence_invariant (value : Evidence) : result ContextError ContextEvidenceInvariant :=
  source_digest ← context_digest_json
    (json_evidence_source (ev_source_uri value, ev_observed_at value, ev_confidence_bits value));
  mret (mkEvidenceInvariant (ev_id value) (ev_status value) (ev_content_digest value) source_digest).

Definition work_product_invariant (value : WorkProduct) : ContextWorkProductInvariant :=
  mkWorkProductInvariant (wp_id value) (wp_revision value) (wp_status value) (wp_content_digest value)
    (wp_evidence_ids value).

Definition provider_state_uncertain (value : Effect) : bool :=
  bool_decide (ef_status value = EVerificationRequired) && is_none (ef_receipt value).
Definition effect_invariant (value : Effect) : result ContextError ContextEffectInvariant :=
  receipt_digest ← digest_option json_receipt (ef_receipt value);
  verification_digest ← digest_option json_verification (ef_verification value);
  mret {|
    fi_id := ef_id value; fi_status := ef_status value; fi_exact_scope_digest := approval_digest value;
    fi_approval_scope_digest := apr_scope_digest <$> ef_approval value;
    fi_permission_digest := apr_permission_digest <$> ef_approval value;
    fi_receipt_digest := receipt_digest; fi_verification_digest := verification_digest;
    fi_provider_state_uncertain := provider_state_uncertain value;
  |}.
Definition effect_invariant_is_pending (effect : ContextEffectInvariant) : bool :=
  bool_decide (fi_status effect ∈ [EProposed; EApproved; EExecuting; EReceiptRecorded; EVerificationRequired]).

(** [ContextInvariantBlock::capture] *)
Definition capture (mission : Mission) (facts : list TruthFact) (now : DateTime)
    : result ContextError ContextInvariantBlock :=
  truth ← truth_invariants mission now ∅ (sort_by_id fa_id facts);
  let tasks := sort_by_id ti_id (task_invariant <$> ms_tasks mission) in
  evidence ← collect evidence_invariant (ms_evidence mission);
  let evidence := sort_by_id vi_id evidence in
  let work_products := sort_by_id pi_id (work_product_invariant <$> ms_work_products mission) in
  effects ← collect effect_invariant (ms_effects mission);
  let effects := sort_by_id fi_id effects in
  let contract := ms_contract mission in
  goal_digest ← context_digest_json (json_string (oc_goal contract));
  non_goals_digest ← context_digest_json (json_strings (oc_non_goals contract));
  constraints_digest ← context_digest_json (json_constraints (oc_constraints contract));
  stop_conditions_digest ← context_digest_json (json_strings (oc_stop_conditions contract));
  completion_conditions_digest ← context_digest_json (json_strings (oc_completion_conditions contract));
  authority_digest ← context_digest_json (json_contract_authority
    (oc_enabled_capabilities contract, oc_forbidden_capabilities contract, oc_autonomy_by_capability contract,
     oc_approval_policy contract, oc_budget contract, oc_valid_until contract));
  mission_block_digest ← digest_option json_block (ms_block mission);
  outcome_history_digest ← context_digest_json (json_outcomes (ms_outcome_history mission, ms_outcome mission));
  mret {|
    ib_tenant_id := ms_tenant_id mission; ib_project_id := ms_project_id mission; ib_mission_id := ms_id mission;
    ib_mission_revision := ms_revision mission; ib_contract_version := oc_version contract;
    ib_mission_stage := ms_stage mission; ib_goal_digest := goal_digest; ib_non_goals_digest := non_goals_digest;
    ib_constraints_digest := constraints_digest; ib_stop_conditions_digest := stop_conditions_digest;
    ib_completion_conditions_digest := completion_conditions_digest; ib_authority_digest := authority_digest;
    ib_mission_block_digest := mission_block_digest; ib_tasks := tasks; ib_truth_facts := truth;
    ib_evidence := evidence; ib_work_products := work_products; ib_effects := effects;
    ib_open_task_ids := list_to_set (ti_id <$> List.filter task_invariant_is_open tasks);
    ib_pending_effect_ids := list_to_set (fi_id <$> List.filter effect_invariant_is_pending effects);
    ib_uncertain_effect_ids := list_to_set (fi_id <$> List.filter fi_provider_state_uncertain effects);
    ib_outcome_history_digest := outcome_history_digest;
  |}.

Definition assert_exact (self : ContextInvariantBlock) (mission : Mission) (facts : list TruthFact) (now : DateTime)
    : result ContextError unit :=
  captured ← capture mission facts now;
  reject_if (negb (bool_decide (self = captured))) CxContextInvariantMismatch.

Definition invariant_digest (self : ContextInvariantBlock) : result ContextError string :=
  context_digest_json (json_invariant self).
Definition working_set_digest (self : ContextWorkingSet) : result ContextError string :=
  context_digest_json (json_working_set self).
Definition ledger_digest (self : ContinuationLedger) : result ContextError string :=
  context_digest_json (json_ledger self).
Definition compaction_digest (self : ContextCompactionRecord) : result ContextError string :=
  context_digest_json (json_compaction self).
Definition checkpoint_digest (self : ContextCheckpoint) : result ContextError string :=
  context_digest_json (json_context_checkpoint self).

(** [recorded != value.digest()?] as an operand in a chain of [||]: a
    serialisation error surfaces only when every operand before it was false. *)
Definition same_digest (recorded : string) (computed : result ContextError string) (error : ContextError)
    : result ContextError unit :=
  digest ← computed; reject_if (negb (bool_decide (recorded = digest))) error.

(** ** Compaction records *)
Definition next_ordinal (previous : option Z) : Z :=
  match previous with Some ordinal => saturating_add u64_max ordinal 1 | None => 1 end.

Definition compaction_validate_for (self : ContextCompactionRecord) (workspace : ContextWorkspace) (mission : Mission)
    (facts : list TruthFact) (previous : option ContextCompactionRecord) (now : DateTime)
    : result ContextError unit :=
  reject_if (trim_is_empty (cm_id self)
    || negb (bool_decide (cm_tenant_id self = ws_tenant_id workspace))
    || negb (bool_decide (cm_project_id self = ws_project_id workspace))
    || negb (bool_decide (cm_mission_id self = ws_mission_id workspace))
    || negb (bool_decide (cm_workspace_id self = ws_id workspace))
    || negb (cm_generation self =? ws_generation workspace)
    || negb (cm_ordinal self =? next_ordinal (cm_ordinal <$> previous))
    || (cm_source_first_sequence self =? 0)
    || (cm_source_last_sequence self <? cm_source_first_sequence self)
    || is_some_and (fun value =>
         negb (bool_decide (cm_workspace_id value = cm_workspace_id self))
         || negb (cm_generation value =? cm_generation self)
         || (cm_source_first_sequence self <=? cm_source_last_sequence value)
         || (cm_created_at self <? cm_created_at value)) previous
    || negb (is_sha256 (cm_source_trace_digest self))
    || (cm_source_token_count self =? 0)
    || (cm_retained_tail_start self <? cm_source_first_sequence self)
    || (saturating_add u64_max (cm_source_last_sequence self) 1 <? cm_retained_tail_start self)
    || negb (is_safe_storage_ref (cm_summary_ref self))
    || negb (is_sha256 (cm_summary_digest self))
    || (cm_summary_byte_len self =? 0)
    || (MAX_WORKING_BYTES <? cm_summary_byte_len self)
    || (cm_summary_token_count self =? 0)
    || (cm_source_token_count self <=? cm_summary_token_count self)) CxInvalidCompactionRecord;;
  same_digest (cm_invariant_digest self) (invariant_digest (cm_invariant self)) CxInvalidCompactionRecord;;
  reject_if (negb (known_evidence mission (cm_provenance_evidence_ids self))) CxInvalidCompactionRecord;;
  same_digest (cm_provenance_coverage_digest self)
    (context_digest_json (json_id_set (cm_provenance_evidence_ids self))) CxInvalidCompactionRecord;;
  reject_if (negb (is_sha256 (cm_model_digest self))
    || negb (is_sha256 (cm_provider_route_digest self))
    || negb (is_sha256 (cm_config_digest self))
    || (cm_created_at self <? ws_created_at workspace)
    || (now <? cm_created_at self)) CxInvalidCompactionRecord;;
  map_err (fun _ => CxInvalidCompactionRecord) (assert_exact (cm_invariant self) mission facts now).

Definition compaction_create (id : Id) (workspace : ContextWorkspace) (mission : Mission) (facts : list TruthFact)
    (previous : option ContextCompactionRecord) (source_first_sequence source_last_sequence : Z)
    (source_trace_digest : string) (source_token_count retained_tail_start : Z) (summary_ref summary_digest : string)
    (summary_byte_len summary_token_count : Z) (provenance_evidence_ids : gset Id)
    (model_digest provider_route_digest config_digest : string) (now : DateTime)
    : result ContextError ContextCompactionRecord :=
  invariant ← capture mission facts now;
  digest ← invariant_digest invariant;
  coverage ← context_digest_json (json_id_set provenance_evidence_ids);
  let value := {|
    cm_id := id; cm_tenant_id := ws_tenant_id workspace; cm_project_id := ws_project_id workspace;
    cm_mission_id := ws_mission_id workspace; cm_workspace_id := ws_id workspace;
    cm_generation := ws_generation workspace; cm_ordinal := next_ordinal (cm_ordinal <$> previous);
    cm_source_first_sequence := source_first_sequence; cm_source_last_sequence := source_last_sequence;
    cm_source_trace_digest := source_trace_digest; cm_source_token_count := source_token_count;
    cm_retained_tail_start := retained_tail_start; cm_summary_ref := summary_ref;
    cm_summary_digest := summary_digest; cm_summary_byte_len := summary_byte_len;
    cm_summary_token_count := summary_token_count; cm_invariant := invariant; cm_invariant_digest := digest;
    cm_provenance_evidence_ids := provenance_evidence_ids; cm_provenance_coverage_digest := coverage;
    cm_model_digest := model_digest; cm_provider_route_digest := provider_route_digest;
    cm_config_digest := config_digest; cm_created_at := now;
  |} in
  compaction_validate_for value workspace mission facts previous now;;
  mret value.

(** ** Checkpoints *)
Definition checkpoint_validate_for (self : ContextCheckpoint) (workspace : ContextWorkspace) (mission : Mission)
    (facts : list TruthFact) (working_set : ContextWorkingSet) (ledger : ContinuationLedger)
    (compaction : ContextCompactionRecord) (previous : option ContextCheckpoint) (now : DateTime)
    : result ContextError unit :=
  working_set_validate_for working_set workspace now;;
  ledger_validate_for ledger workspace (Some mission) now;;
  reject_if (trim_is_empty (cc_id self)
    || negb (bool_decide (cc_tenant_id self = ws_tenant_id workspace))
    || negb (bool_decide (cc_project_id self = ws_project_id workspace))
    || negb (bool_decide (cc_mission_id self = ws_mission_id workspace))
    || negb (bool_decide (cc_workspace_id self = ws_id workspace))
    || negb (cc_generation self =? ws_generation workspace)
    || negb (cc_ordinal self =? next_ordinal (cc_ordinal <$> previous))
    || negb (bool_decide (cc_previous_checkpoint_id self = cc_id <$> previous))
    || is_some_and (fun value =>
         negb (bool_decide (cc_workspace_id value = cc_workspace_id self))
         || negb (cc_generation value =? cc_generation self)
         || (cc_created_at self <? cc_created_at value)) previous
    || negb (cc_mission_revision self =? ms_revision mission)
    || negb (bool_decide (cc_working_set_id self = wk_id working_set))
    || negb (cc_working_set_revision self =? wk_revision working_set)) CxInvalidContextCheckpoint;;
  same_digest (cc_working_set_digest self) (working_set_digest working_set) CxInvalidContextCheckpoint;;
  reject_if (negb (bool_decide (cc_continuation_ledger_id self = lg_id ledger))
    || negb (cc_continuation_ledger_revision self =? lg_revision ledger)) CxInvalidContextCheckpoint;;
  same_digest (cc_continuation_ledger_digest self) (ledger_digest ledger) CxInvalidContextCheckpoint;;
  reject_if (negb (bool_decide (cc_compaction_record_id self = cm_id compaction))
    || negb (cc_compaction_ordinal self =? cm_ordinal compaction)) CxInvalidContextCheckpoint;;
  same_digest (cc_compaction_digest self) (compaction_digest compaction) CxInvalidContextCheckpoint;;
  reject_if (negb (bool_decide (cc_invariant self = cm_invariant compaction))) CxInvalidContextCheckpoint;;
  same_digest (cc_invariant_digest self) (invariant_digest (cc_invariant self)) CxInvalidContextCheckpoint;;
  reject_if (negb (is_sha256 (cc_worker_graph_digest self))
    || negb (is_sha256 (cc_resume_cursor_digest self))
    || (cc_trace_tail_sequence self <? cm_retained_tail_start compaction)
    || (cc_created_at self <? cm_created_at compaction)
    || (now <? cc_created_at self)) CxInvalidContextCheckpoint;;
  map_err (fun _ => CxInvalidContextCheckpoint) (assert_exact (cc_invariant self) mission facts now).

Definition checkpoint_create (id : Id) (workspace : ContextWorkspace) (mission : Mission) (facts : list TruthFact)
    (working_set : ContextWorkingSet) (ledger : ContinuationLedger) (compaction : ContextCompactionRecord)
    (previous : option ContextCheckpoint) (worker_graph_digest resume_cursor_digest : string)
    (trace_tail_sequence : Z) (now : DateTime) : result ContextError ContextCheckpoint :=
  invariant ← capture mission facts now;
  set_digest ← working_set_digest working_set;
  entries_digest ← ledger_digest ledger;
  record_digest ← compaction_digest compaction;
  digest ← invariant_digest invariant;
  let value := {|
    cc_id := id; cc_tenant_id := ws_tenant_id workspace; cc_project_id := ws_project_id workspace;
    cc_mission_id := ws_mission_id workspace; cc_workspace_id := ws_id workspace;
    cc_generation := ws_generation workspace; cc_ordinal := next_ordinal (cc_ordinal <$> previous);
    cc_previous_checkpoint_id := cc_id <$> previous; cc_mission_revision := ms_revision mission;
    cc_working_set_id := wk_id working_set; cc_working_set_revision := wk_revision working_set;
    cc_working_set_digest := set_digest; cc_continuation_ledger_id := lg_id ledger;
    cc_continuation_ledger_revision := lg_revision ledger; cc_continuation_ledger_digest := entries_digest;
    cc_compaction_record_id := cm_id compaction; cc_compaction_ordinal := cm_ordinal compaction;
    cc_compaction_digest := record_digest; cc_invariant := invariant; cc_invariant_digest := digest;
    cc_worker_graph_digest := worker_graph_digest; cc_resume_cursor_digest := resume_cursor_digest;
    cc_trace_tail_sequence := trace_tail_sequence; cc_created_at := now;
  |} in
  checkpoint_validate_for value workspace mission facts working_set ledger compaction previous now;;
  mret value.

Definition foundation_validate_for (self : ContextFoundationSnapshot) (mission : Mission)
    (previous_compaction : option ContextCompactionRecord) (previous_checkpoint : option ContextCheckpoint)
    (now : DateTime) : result ContextError unit :=
  reject_if (fs_sync_version self =? 0) CxInvalidContextCheckpoint;;
  workspace_validate_for (fs_workspace self) mission now;;
  compaction_validate_for (fs_compaction self) (fs_workspace self) mission (fs_truth_facts self) previous_compaction now;;
  checkpoint_validate_for (fs_checkpoint self) (fs_workspace self) mission (fs_truth_facts self) (fs_working_set self)
    (fs_continuation_ledger self) (fs_compaction self) previous_checkpoint now.
End capture.
