(* ===== verification/Recovery.v ===== *)
(** * Runtime recovery and process claims

    Models [domain-kernel/src/runtime_recovery.rs] (the attempts to bring a
    detached worker's runtime back, with their retry ledger) and
    [runtime_process.rs] (the claim on the operating system process of one
    attempt and the evidence of its cleanup). *)
From S2P Require Import Prelude Text Money Contract MissionTypes WorkProduct Effect Checkpoint Terminal Truth RuntimeTurn Context Worker Foundation.

(** ** Data *)
Definition MAX_PROCESS_ATTEMPTS : Z := 16.
Definition MAX_RUNTIME_IDENTIFIER_BYTES : Z := 1024.
Definition MAX_CLEANUP_ATTEMPTS : nat := 16.
Definition RUNTIME_LAUNCH_TOKEN_BYTES : Z := 64.

Inductive RuntimeResumeStrategy : Type := StartNew | ResumeExisting.
#[export] Instance RuntimeResumeStrategy_eq_dec : EqDecision RuntimeResumeStrategy.
Proof. solve_decision. Defined.

Inductive RuntimeRecoveryStatus : Type := RrPrepared | RrSpawned | RrHealthy | RrThreadBound | RrAttached | RrFailed.
#[export] Instance RuntimeRecoveryStatus_eq_dec : EqDecision RuntimeRecoveryStatus.
Proof. solve_decision. Defined.
(** [RuntimeRecoveryStatus::is_terminal] *)
Definition recovery_is_terminal (self : RuntimeRecoveryStatus) : bool := bool_decide (self ∈ [RrAttached; RrFailed]).

Inductive RuntimeRecoveryFailureClass : Type := RfCoordinatorRestart | RfSpawn | RfHealth | RfThreadStart | RfThreadResume.
#[export] Instance RuntimeRecoveryFailureClass_eq_dec : EqDecision RuntimeRecoveryFailureClass.
Proof. solve_decision. Defined.

Record RuntimeRecoveryFailure : Type := mkRecoveryFailure {
  rf_process_attempt : Z; (* u32 *)
  rf_class : RuntimeRecoveryFailureClass;
  rf_evidence_digest : string;
  rf_observed_at : DateTime;
}.
#[export] Instance RuntimeRecoveryFailure_eq_dec : EqDecision RuntimeRecoveryFailure.
Proof. solve_decision. Defined.

Record RuntimeRecoveryAttempt : Type := mkRecovery {
  ra_id : Id;
  ra_tenant_id : Id;
  ra_project_id : Id;
  ra_mission_id : Id;
  ra_workspace_id : Id;
  ra_worker_id : Id;
  ra_worker_generation : Z; (* u64 *)
  ra_source_attachment_epoch : Z; (* u64 *)
  ra_target_attachment_epoch : Z; (* u64 *)
  ra_source_mapping_digest : string;
  ra_checkpoint_id : Id;
  ra_checkpoint_digest : string;
  ra_runtime_config_digest : string;
  ra_initial_strategy : RuntimeResumeStrategy;
  ra_requested_thread_id_digest : option string;
  ra_max_process_attempts : Z; (* u32 *)
  ra_process_attempt : Z; (* u32 *)
  ra_health_digest : option string;
  ra_runtime_instance_digest : option string;
  ra_runtime_thread_id : option string;
  ra_runtime_mapping_digest : option string;
  ra_failures : list RuntimeRecoveryFailure;
  ra_status : RuntimeRecoveryStatus;
  ra_revision : Z; (* u64 *)
  ra_created_at : DateTime;
  ra_updated_at : DateTime;
}.
#[export] Instance RuntimeRecoveryAttempt_eta : Eta RuntimeRecoveryAttempt := fun r =>
  mkRecovery (ra_id r) (ra_tenant_id r) (ra_project_id r) (ra_mission_id r) (ra_workspace_id r) (ra_worker_id r)
    (ra_worker_generation r) (ra_source_attachment_epoch r) (ra_target_attachment_epoch r)
    (ra_source_mapping_digest r) (ra_checkpoint_id r) (ra_checkpoint_digest r) (ra_runtime_config_digest r)
    (ra_initial_strategy r) (ra_requested_thread_id_digest r) (ra_max_process_attempts r) (ra_process_attempt r)
    (ra_health_digest r) (ra_runtime_instance_digest r) (ra_runtime_thread_id r) (ra_runtime_mapping_digest r)
    (ra_failures r) (ra_status r) (ra_revision r) (ra_created_at r) (ra_updated_at r).

Inductive RuntimeProcessClaimStatus : Type := RpPrepared | RpSpawned | RpTerminated | RpExited | RpBlocked.
#[export] Instance RuntimeProcessClaimStatus_eq_dec : EqDecision RuntimeProcessClaimStatus.
Proof. solve_decision. Defined.
(** [RuntimeProcessClaimStatus::is_terminal] *)
Definition process_is_terminal (self : RuntimeProcessClaimStatus) : bool := bool_decide (self ∈ [RpTerminated; RpExited]).

Inductive RuntimeProcessCleanupDisposition : Type :=
| CdTerminated | CdAlreadyExited | CdInspectionBlocked | CdTerminationFailed.
#[export] Instance RuntimeProcessCleanupDisposition_eq_dec : EqDecision RuntimeProcessCleanupDisposition.
Proof. solve_decision. Defined.
Definition resulting_status (self : RuntimeProcessCleanupDisposition) : RuntimeProcessClaimStatus :=
  match self with
  | CdTerminated => RpTerminated
  | CdAlreadyExited => RpExited
  | CdInspectionBlocked | CdTerminationFailed => RpBlocked
  end.

Record RuntimeProcessIdentity : Type := mkProcessIdentity {
  pd_process_id : Z; (* u32 *)
  pd_started_at_epoch_seconds : Z; (* u64 *)
  pd_executable_path_digest : string;
  pd_runtime_instance_digest : string;
}.
#[export] Instance RuntimeProcessIdentity_eq_dec : EqDecision RuntimeProcessIdentity.
Proof. solve_decision. Defined.

Record RuntimeProcessCleanupEvidence : Type := mkCleanup {
  cl_sequence : Z; (* u32 *)
  cl_disposition : RuntimeProcessCleanupDisposition;
  cl_evidence_digest : string;
  cl_observed_at : DateTime;
}.
#[export] Instance RuntimeProcessCleanupEvidence_eq_dec : EqDecision RuntimeProcessCleanupEvidence.
Proof. solve_decision. Defined.

Record RuntimeProcessClaim : Type := mkProcessClaim {
  pc_tenant_id : Id;
  pc_project_id : Id;
  pc_mission_id : Id;
  pc_recovery_id : Id;
  pc_workspace_id : Id;
  pc_worker_id : Id;
  pc_worker_generation : Z; (* u64 *)
  pc_process_attempt : Z; (* u32 *)
  pc_runtime_config_digest : string;
  pc_program_sha256 : string;
  pc_launch_token : string;
  pc_launch_token_digest : string;
  pc_launch_executable_path : string;
  pc_launch_executable_path_digest : string;
  pc_identity : option RuntimeProcessIdentity;
  pc_cleanup_attempts : list RuntimeProcessCleanupEvidence;
  pc_status : RuntimeProcessClaimStatus;
  pc_revision : Z; (* u64 *)
  pc_created_at : DateTime;
  pc_updated_at : DateTime;
}.
#[export] Instance RuntimeProcessClaim_eta : Eta RuntimeProcessClaim := fun p =>
  mkProcessClaim (pc_tenant_id p) (pc_project_id p) (pc_mission_id p) (pc_recovery_id p) (pc_workspace_id p)
    (pc_worker_id p) (pc_worker_generation p) (pc_process_attempt p) (pc_runtime_config_digest p)
    (pc_program_sha256 p) (pc_launch_token p) (pc_launch_token_digest p) (pc_launch_executable_path p)
    (pc_launch_executable_path_digest p) (pc_identity p) (pc_cleanup_attempts p) (pc_status p) (pc_revision p)
    (pc_created_at p) (pc_updated_at p).

Definition is_runtime_identifier (value : string) : bool :=
  negb (String.eqb value "")
  && (str_len value <=? MAX_RUNTIME_IDENTIFIER_BYTES)
  && all_bytes (fun b => negb (is_ascii_control b)) value.

Abbreviation recovery_op := (SR RuntimeRecoveryAttempt ContextError) (only parsing).
Abbreviation process_op := (SR RuntimeProcessClaim ContextError) (only parsing).
Abbreviation sha_option o := (is_some_and is_sha256 o) (only parsing).

(** ** Recovery attempts *)
Definition lifecycle_fields_match (self : RuntimeRecoveryAttempt) : bool :=
  match ra_status self with
  | RrPrepared | RrFailed =>
      is_none (ra_health_digest self) && is_none (ra_runtime_instance_digest self)
      && is_none (ra_runtime_thread_id self) && is_none (ra_runtime_mapping_digest self)
  | RrSpawned =>
      is_none (ra_health_digest self) && sha_option (ra_runtime_instance_digest self)
      && is_none (ra_runtime_thread_id self) && is_none (ra_runtime_mapping_digest self)
  | RrHealthy =>
      sha_option (ra_health_digest self) && sha_option (ra_runtime_instance_digest self)
      && is_none (ra_runtime_thread_id self) && is_none (ra_runtime_mapping_digest self)
  | RrThreadBound | RrAttached =>
      sha_option (ra_health_digest self) && sha_option (ra_runtime_instance_digest self)
      && is_some_and is_runtime_identifier (ra_runtime_thread_id self) && sha_option (ra_runtime_mapping_digest self)
  end.

Definition requested_thread_matches (self : RuntimeRecoveryAttempt) : bool :=
  match ra_initial_strategy self with
  | StartNew => is_none (ra_requested_thread_id_digest self)
  | ResumeExisting => sha_option (ra_requested_thread_id_digest self)
  end.

Fixpoint failure_sequence_matches (self : RuntimeRecoveryAttempt) (index : nat)
    (failures : list RuntimeRecoveryFailure) : bool :=
  match failures with
  | [] => true
  | failure :: rest =>
      (rf_process_attempt failure =? Z.of_nat index + 1)
      && is_sha256 (rf_evidence_digest failure)
      && (ra_created_at self <=? rf_observed_at failure)
      && (rf_observed_at failure <=? ra_updated_at self)
      && failure_sequence_matches self (S index) rest
  end.

Definition process_attempt_matches (self : RuntimeRecoveryAttempt) : bool :=
  if bool_decide (ra_status self = RrFailed)
  then (ra_process_attempt self =? ra_max_process_attempts self)
       && (Z.of_nat (length (ra_failures self)) =? ra_max_process_attempts self)
  else ra_process_attempt self =? Z.of_nat (length (ra_failures self)) + 1.

(** [RuntimeRecoveryAttempt::validate_record] *)
Definition recovery_validate_record (self : RuntimeRecoveryAttempt) : result ContextError unit :=
  target_epoch ← ok_or (checked_add u64_max (ra_source_attachment_epoch self) 1) CxInvalidRuntimeRecovery;
  reject_if (trim_is_empty (ra_id self)
    || trim_is_empty (ra_tenant_id self)
    || trim_is_empty (ra_project_id self)
    || trim_is_empty (ra_mission_id self)
    || trim_is_empty (ra_workspace_id self)
    || trim_is_empty (ra_worker_id self)
    || (ra_worker_generation self =? 0)
    || (ra_source_attachment_epoch self =? 0)
    || negb (ra_target_attachment_epoch self =? target_epoch)
    || negb (is_sha256 (ra_source_mapping_digest self))
    || trim_is_empty (ra_checkpoint_id self)
    || negb (is_sha256 (ra_checkpoint_digest self))
    || negb (is_sha256 (ra_runtime_config_digest self))
    || negb (requested_thread_matches self)
    || negb ((1 <=? ra_max_process_attempts self) && (ra_max_process_attempts self <=? MAX_PROCESS_ATTEMPTS))
    || (ra_process_attempt self =? 0)
    || negb (process_attempt_matches self)
    || negb (failure_sequence_matches self 0 (ra_failures self))
    || negb (lifecycle_fields_match self)
    || (ra_revision self =? 0)
    || (ra_updated_at self <? ra_created_at self)) CxInvalidRuntimeRecovery.

Definition handle_state_matches (self : RuntimeRecoveryAttempt) (handle : WorkerHandle) : bool :=
  match ra_status self with
  | RrAttached =>
      bool_decide (wh_status handle = WhAttached)
      && (wh_attachment_epoch handle =? ra_target_attachment_epoch self)
      && bool_decide (wh_runtime_mapping_digest handle = ra_runtime_mapping_digest self)
  | _ =>
      bool_decide (wh_status handle = WhDetached)
      && (wh_attachment_epoch handle =? ra_source_attachment_epoch self)
      && is_none (wh_runtime_mapping_digest handle)
  end.

Section recovery.
Context `{Sha256} `{ContextSerde} `{FoundationSerde}.

(** [digest(value.as_bytes())] *)
Definition text_digest (value : string) : string := sha256_hex value.

(** [RuntimeRecoveryAttempt::validate_for] *)
Definition recovery_validate_for (self : RuntimeRecoveryAttempt) (handle : WorkerHandle) (checkpoint : ContextCheckpoint)
    (now : DateTime) : result ContextError unit :=
  recovery_validate_record self;;
  reject_if (negb (bool_decide (ra_tenant_id self = wh_tenant_id handle))
    || negb (bool_decide (ra_project_id self = wh_project_id handle))
    || negb (bool_decide (ra_mission_id self = wh_mission_id handle))
    || negb (bool_decide (ra_workspace_id self = wh_workspace_id handle))
    || negb (bool_decide (ra_worker_id self = wh_worker_id handle))
    || negb (ra_worker_generation self =? wh_generation handle)
    || negb (bool_decide (ra_checkpoint_id self = cc_id checkpoint))) CxInvalidRuntimeRecovery;;
  same_digest (ra_checkpoint_digest self) (checkpoint_digest checkpoint) CxInvalidRuntimeRecovery;;
  reject_if (negb (bool_decide (cc_tenant_id checkpoint = ra_tenant_id self))
    || negb (bool_decide (cc_project_id checkpoint = ra_project_id self))
    || negb (bool_decide (cc_mission_id checkpoint = ra_mission_id self))
    || negb (bool_decide (cc_workspace_id checkpoint = ra_workspace_id self))
    || negb (cc_generation checkpoint =? ra_worker_generation self)
    || negb (handle_state_matches self handle)
    || (now <? ra_updated_at self)) CxInvalidRuntimeRecovery.

Definition requested_thread_digest (strategy : RuntimeResumeStrategy) (thread : option string)
    : result ContextError (option string) :=
  match strategy, thread with
  | StartNew, None => mret None
  | ResumeExisting, Some thread_id =>
      if is_runtime_identifier thread_id then mret (Some (text_digest thread_id)) else Err CxInvalidRuntimeRecovery
  | _, _ => Err CxInvalidRuntimeRecovery
  end.

(** [RuntimeRecoveryAttempt::prepare] *)
Definition recovery_prepare (id : Id) (attached detached : WorkerHandle) (checkpoint : ContextCheckpoint)
    (runtime_config_digest : string) (initial_strategy : RuntimeResumeStrategy) (requested_thread_id : option string)
    (max_process_attempts : Z) (now : DateTime) : result ContextError RuntimeRecoveryAttempt :=
  reject_if (negb (bool_decide (wh_status attached = WhAttached))
    || negb (bool_decide (wh_status detached = WhDetached))) CxInvalidRuntimeRecovery;;
  follows ← handle_follows detached attached;
  reject_if (negb follows) CxInvalidRuntimeRecovery;;
  source_mapping_digest ← ok_or (wh_runtime_mapping_digest attached) CxInvalidRuntimeRecovery;
  target_attachment_epoch ← ok_or (checked_add u64_max (wh_attachment_epoch attached) 1) CxRevisionOverflow;
  requested ← requested_thread_digest initial_strategy requested_thread_id;
  digest ← checkpoint_digest checkpoint;
  let value := {|
    ra_id := id; ra_tenant_id := wh_tenant_id detached; ra_project_id := wh_project_id detached;
    ra_mission_id := wh_mission_id detached; ra_workspace_id := wh_workspace_id detached;
    ra_worker_id := wh_worker_id detached; ra_worker_generation := wh_generation detached;
    ra_source_attachment_epoch := wh_attachment_epoch attached; ra_target_attachment_epoch := target_attachment_epoch;
    ra_source_mapping_digest := source_mapping_digest; ra_checkpoint_id := cc_id checkpoint;
    ra_checkpoint_digest := digest; ra_runtime_config_digest := runtime_config_digest;
    ra_initial_strategy := initial_strategy; ra_requested_thread_id_digest := requested;
    ra_max_process_attempts := max_process_attempts; ra_process_attempt := 1; ra_health_digest := None;
    ra_runtime_instance_digest := None; ra_runtime_thread_id := None; ra_runtime_mapping_digest := None;
    ra_failures := []; ra_status := RrPrepared; ra_revision := 1; ra_created_at := now; ra_updated_at := now;
  |} in
  recovery_validate_for value detached checkpoint now;;
  mret value.

(** [RuntimeRecoveryAttempt::touch] *)
Definition recovery_touch (now : DateTime) : recovery_op unit :=
  self ← get;
  revision ← lift (ok_or (checked_add u64_max (ra_revision self) 1) CxRevisionOverflow);
  modify (fun self => self <| ra_revision := revision |> <| ra_updated_at := now |>).

Definition recovery_mark_spawned (runtime_instance_digest : string) (now : DateTime) : recovery_op unit :=
  self ← get;
  reject (negb (bool_decide (ra_status self = RrPrepared))
    || negb (is_sha256 runtime_instance_digest)
    || (now <? ra_updated_at self)) CxInvalidRuntimeRecovery;;
  on_clone (
    modify (fun self => self <| ra_runtime_instance_digest := Some runtime_instance_digest |> <| ra_status := RrSpawned |>);;
    recovery_touch now).

Definition confirm_health (health_digest : string) (now : DateTime) : recovery_op unit :=
  self ← get;
  reject (negb (bool_decide (ra_status self = RrSpawned))
    || negb (is_sha256 health_digest)
    || (now <? ra_updated_at self)) CxInvalidRuntimeRecovery;;
  on_clone (
    modify (fun self => self <| ra_health_digest := Some health_digest |> <| ra_status := RrHealthy |>);;
    recovery_touch now).

Definition bind_thread (runtime_instance_digest runtime_thread_id runtime_mapping_digest : string) (now : DateTime)
    : recovery_op unit :=
  self ← get;
  reject (negb (bool_decide (ra_status self = RrHealthy))
    || negb (bool_decide (ra_runtime_instance_digest self = Some runtime_instance_digest))
    || negb (is_runtime_identifier runtime_thread_id)
    || negb (is_sha256 runtime_mapping_digest)
    || (now <? ra_updated_at self)) CxInvalidRuntimeRecovery;;
  on_clone (
    modify (fun self => self <| ra_runtime_thread_id := Some runtime_thread_id |>
      <| ra_runtime_mapping_digest := Some runtime_mapping_digest |> <| ra_status := RrThreadBound |>);;
    recovery_touch now).

Definition mark_attached (handle : WorkerHandle) (now : DateTime) : recovery_op unit :=
  self ← get;
  reject (negb (bool_decide (ra_status self = RrThreadBound))
    || negb (bool_decide (wh_status handle = WhAttached))
    || negb (wh_attachment_epoch handle =? ra_target_attachment_epoch self)
    || negb (bool_decide (wh_runtime_mapping_digest handle = ra_runtime_mapping_digest self))
    || (now <? ra_updated_at self)) CxInvalidRuntimeRecovery;;
  on_clone (
    modify (fun self => self <| ra_status := RrAttached |>);;
    recovery_touch now).

(** The early return on an overflowing attempt number would keep what was
    written before it. *)
Definition record_process_failure (class : RuntimeRecoveryFailureClass) (evidence_digest : string) (now : DateTime)
    : recovery_op unit :=
  previous ← get;
  reject (recovery_is_terminal (ra_status previous)
    || negb (is_sha256 evidence_digest)
    || (now <? ra_updated_at previous)
    || (ra_max_process_attempts previous <=? Z.of_nat (length (ra_failures previous)))) CxInvalidRuntimeRecovery;;
  let failure := mkRecoveryFailure (ra_process_attempt previous) class evidence_digest now in
  modify (fun self => self <| ra_failures ::= fun l => l ++ [failure] |> <| ra_health_digest := None |>
    <| ra_runtime_instance_digest := None |> <| ra_runtime_thread_id := None |> <| ra_runtime_mapping_digest := None |>);;
  (if ra_process_attempt previous <? ra_max_process_attempts previous
   then attempt ← lift (ok_or (checked_add u32_max (ra_process_attempt previous) 1) CxRevisionOverflow);
        modify (fun self => self <| ra_process_attempt := attempt |> <| ra_status := RrPrepared |>)
   else modify (fun self => self <| ra_status := RrFailed |>));;
  self ← get;
  match run (recovery_touch now) self with
  | (Ok _, self) => put self
  | (Err error, _) => put previous;; fail error
  | (Panic, _) => lift Panic
  end.

Definition recovery_follows (self previous : RuntimeRecoveryAttempt) : result ContextError bool :=
  let immutable :=
    bool_decide (ra_id self = ra_id previous)
    && bool_decide (ra_tenant_id self = ra_tenant_id previous)
    && bool_decide (ra_project_id self = ra_project_id previous)
    && bool_decide (ra_mission_id self = ra_mission_id previous)
    && bool_decide (ra_workspace_id self = ra_workspace_id previous)
    && bool_decide (ra_worker_id self = ra_worker_id previous)
    && (ra_worker_generation self =? ra_worker_generation previous)
    && (ra_source_attachment_epoch self =? ra_source_attachment_epoch previous)
    && (ra_target_attachment_epoch self =? ra_target_attachment_epoch previous)
    && bool_decide (ra_source_mapping_digest self = ra_source_mapping_digest previous)
    && bool_decide (ra_checkpoint_id self = ra_checkpoint_id previous)
    && bool_decide (ra_checkpoint_digest self = ra_checkpoint_digest previous)
    && bool_decide (ra_runtime_config_digest self = ra_runtime_config_digest previous)
    && bool_decide (ra_initial_strategy self = ra_initial_strategy previous)
    && bool_decide (ra_requested_thread_id_digest self = ra_requested_thread_id_digest previous)
    && (ra_max_process_attempts self =? ra_max_process_attempts previous)
    && (ra_created_at self =? ra_created_at previous) in
  let same_attempt := (ra_process_attempt self =? ra_process_attempt previous)
    && bool_decide (ra_failures self = ra_failures previous) in
  let spawned := bool_decide (ra_status previous = RrPrepared) && bool_decide (ra_status self = RrSpawned)
    && same_attempt && is_none (ra_health_digest self) && is_some (ra_runtime_instance_digest self)
    && is_none (ra_runtime_thread_id self) && is_none (ra_runtime_mapping_digest self) in
  let health := bool_decide (ra_status previous = RrSpawned) && bool_decide (ra_status self = RrHealthy)
    && same_attempt && is_some (ra_health_digest self) && is_some (ra_runtime_instance_digest self)
    && is_none (ra_runtime_thread_id self) && is_none (ra_runtime_mapping_digest self) in
  let bound := bool_decide (ra_status previous = RrHealthy) && bool_decide (ra_status self = RrThreadBound)
    && same_attempt && bool_decide (ra_health_digest self = ra_health_digest previous)
    && bool_decide (ra_runtime_instance_digest self = ra_runtime_instance_digest previous)
    && is_some (ra_runtime_thread_id self) && is_some (ra_runtime_mapping_digest self) in
  let attached := bool_decide (ra_status previous = RrThreadBound) && bool_decide (ra_status self = RrAttached)
    && same_attempt && bool_decide (ra_health_digest self = ra_health_digest previous)
    && bool_decide (ra_runtime_instance_digest self = ra_runtime_instance_digest previous)
    && bool_decide (ra_runtime_thread_id self = ra_runtime_thread_id previous)
    && bool_decide (ra_runtime_mapping_digest self = ra_runtime_mapping_digest previous) in
  let failed_process := negb (recovery_is_terminal (ra_status previous))
    && bool_decide (ra_status self ∈ [RrPrepared; RrFailed])
    && Nat.eqb (length (ra_failures self)) (length (ra_failures previous) + 1)
    && bool_decide (ra_failures previous `prefix_of` ra_failures self)
    && is_some_and (fun failure => rf_process_attempt failure =? ra_process_attempt previous) (last (ra_failures self))
    && is_none (ra_health_digest self) && is_none (ra_runtime_instance_digest self)
    && is_none (ra_runtime_thread_id self) && is_none (ra_runtime_mapping_digest self)
    && (if bool_decide (ra_status self = RrPrepared)
        then bool_decide (checked_add u32_max (ra_process_attempt previous) 1 = Some (ra_process_attempt self))
        else (ra_process_attempt self =? ra_process_attempt previous)
             && (ra_process_attempt self =? ra_max_process_attempts self)) in
  mret (immutable
    && (spawned || health || bound || attached || failed_process)
    && bool_decide (checked_add u64_max (ra_revision previous) 1 = Some (ra_revision self))
    && (ra_updated_at previous <=? ra_updated_at self)).

(** ** Launch paths

    [std::path::Path] on Unix: the components of an absolute path are its
    segments without empty ones and without [.]; the file name of the parent
    is the last but one, unless that is [..]. *)
Fixpoint split_path (current s : string) : list string :=
  match s with
  | EmptyString => [current]
  | String c r => if byte c =? 47 then current :: split_path "" r else split_path (String.append current (String c "")) r
  end.
Definition path_components (path : string) : list string :=
  List.filter (fun part => negb (String.eqb part "" || String.eqb part ".")) (split_path "" path).
Definition path_is_absolute (path : string) : bool := String.prefix "/" path.
Definition parent_file_name (path : string) : option string :=
  match rev (path_components path) with
  | _ :: name :: _ => if String.eqb name ".." then None else Some name
  | _ => None
  end.

Definition is_launch_token (value : string) : bool :=
  (str_len value =? RUNTIME_LAUNCH_TOKEN_BYTES) && all_bytes is_ascii_hexdigit value.

Definition is_runtime_launch_path (path path_digest launch_token : string) : bool :=
  path_is_absolute path
  && (str_len path <=? 32 * 1024)
  && all_bytes (fun b => negb (b =? 0)) path
  && is_sha256 path_digest
  && String.eqb path_digest (text_digest path)
  && bool_decide (parent_file_name path = Some (text_digest launch_token)).

(** ** Process claims *)
Definition identity_validate (self : RuntimeProcessIdentity) : result ContextError unit :=
  reject_if ((pd_process_id self =? 0)
    || (pd_started_at_epoch_seconds self =? 0)
    || negb (is_sha256 (pd_executable_path_digest self))
    || negb (is_sha256 (pd_runtime_instance_digest self))) CxInvalidRuntimeRecovery.

Definition identity_matches (self : RuntimeProcessClaim) : bool :=
  match pc_status self with
  | RpPrepared => is_none (pc_identity self)
  | RpSpawned => is_some (pc_identity self)
  | RpTerminated | RpExited | RpBlocked => true
  end.

Fixpoint cleanup_sequence_matches (self : RuntimeProcessClaim) (index : nat)
    (attempts : list RuntimeProcessCleanupEvidence) : bool :=
  match attempts with
  | [] => true
  | evidence :: rest =>
      (cl_sequence evidence =? Z.of_nat index + 1)
      && is_sha256 (cl_evidence_digest evidence)
      && (pc_created_at self <=? cl_observed_at evidence)
      && (cl_observed_at evidence <=? pc_updated_at self)
      && cleanup_sequence_matches self (S index) rest
  end.

(** [RuntimeProcessClaim::validate_record] *)
Definition process_validate_record (self : RuntimeProcessClaim) : result ContextError unit :=
  reject_if (trim_is_empty (pc_tenant_id self)
    || trim_is_empty (pc_project_id self)
    || trim_is_empty (pc_mission_id self)
    || trim_is_empty (pc_recovery_id self)
    || trim_is_empty (pc_workspace_id self)
    || trim_is_empty (pc_worker_id self)
    || (pc_worker_generation self =? 0)
    || (pc_process_attempt self =? 0)
    || negb (is_sha256 (pc_runtime_config_digest self))
    || negb (is_sha256 (pc_program_sha256 self))
    || negb (is_launch_token (pc_launch_token self))
    || negb (String.eqb (pc_launch_token_digest self) (text_digest (pc_launch_token self)))
    || negb (is_runtime_launch_path (pc_launch_executable_path self) (pc_launch_executable_path_digest self)
         (pc_launch_token self))
    || is_some_and (fun identity => negb (is_ok (identity_validate identity))) (pc_identity self)
    || negb (identity_matches self)
    || Nat.ltb MAX_CLEANUP_ATTEMPTS (length (pc_cleanup_attempts self))
    || negb (cleanup_sequence_matches self 0 (pc_cleanup_attempts self))
    || negb (is_none_or (fun evidence => bool_decide (resulting_status (cl_disposition evidence) = pc_status self))
         (last (pc_cleanup_attempts self)))
    || (pc_revision self =? 0)
    || (pc_updated_at self <? pc_created_at self)) CxInvalidRuntimeRecovery.

(** [RuntimeProcessClaim::prepare] *)
Definition process_prepare (recovery : RuntimeRecoveryAttempt) (program_sha256 launch_token launch_executable_path
    launch_executable_path_digest : string) (now : DateTime) : result ContextError RuntimeProcessClaim :=
  recovery_validate_record recovery;;
  reject_if (negb (bool_decide (ra_status recovery = RrPrepared))
    || negb (is_sha256 program_sha256)
    || negb (is_launch_token launch_token)
    || negb (is_runtime_launch_path launch_executable_path launch_executable_path_digest launch_token)
    || (now <? ra_updated_at recovery)) CxInvalidRuntimeRecovery;;
  let value := {|
    pc_tenant_id := ra_tenant_id recovery; pc_project_id := ra_project_id recovery;
    pc_mission_id := ra_mission_id recovery; pc_recovery_id := ra_id recovery;
    pc_workspace_id := ra_workspace_id recovery; pc_worker_id := ra_worker_id recovery;
    pc_worker_generation := ra_worker_generation recovery; pc_process_attempt := ra_process_attempt recovery;
    pc_runtime_config_digest := ra_runtime_config_digest recovery; pc_program_sha256 := program_sha256;
    pc_launch_token := launch_token; pc_launch_token_digest := text_digest launch_token;
    pc_launch_executable_path := launch_executable_path;
    pc_launch_executable_path_digest := launch_executable_path_digest; pc_identity := None;
    pc_cleanup_attempts := []; pc_status := RpPrepared; pc_revision := 1; pc_created_at := now; pc_updated_at := now;
  |} in
  process_validate_record value;;
  mret value.

(** [RuntimeProcessClaim::touch] *)
Definition process_touch (now : DateTime) : process_op unit :=
  self ← get;
  revision ← lift (ok_or (checked_add u64_max (pc_revision self) 1) CxRevisionOverflow);
  modify (fun self => self <| pc_revision := revision |> <| pc_updated_at := now |>);;
  self ← get;
  lift (process_validate_record self).

Definition process_mark_spawned (identity : RuntimeProcessIdentity) (now : DateTime) : process_op unit :=
  lift (identity_validate identity);;
  self ← get;
  reject (negb (bool_decide (pc_status self = RpPrepared)) || (now <? pc_updated_at self)) CxInvalidRuntimeRecovery;;
  on_clone (
    modify (fun self => self <| pc_identity := Some identity |> <| pc_status := RpSpawned |>);;
    process_touch now).

Definition record_cleanup (disposition : RuntimeProcessCleanupDisposition) (evidence_digest : string) (now : DateTime)
    : process_op unit :=
  self ← get;
  reject (process_is_terminal (pc_status self)
    || negb (is_sha256 evidence_digest)
    || (now <? pc_updated_at self)
    || Nat.leb MAX_CLEANUP_ATTEMPTS (length (pc_cleanup_attempts self))) CxInvalidRuntimeRecovery;;
  sequence ← lift (ok_or (len ← try_from_usize u32_max (length (pc_cleanup_attempts self)); checked_add u32_max len 1)
    CxRevisionOverflow);
  on_clone (
    modify (fun self => self
      <| pc_cleanup_attempts ::= fun l => l ++ [mkCleanup sequence disposition evidence_digest now] |>
      <| pc_status := resulting_status disposition |>);;
    process_touch now).

Definition process_follows (self previous : RuntimeProcessClaim) : result ContextError bool :=
  process_validate_record self;;
  process_validate_record previous;;
  let immutable :=
    bool_decide (pc_tenant_id self = pc_tenant_id previous)
    && bool_decide (pc_project_id self = pc_project_id previous)
    && bool_decide (pc_mission_id self = pc_mission_id previous)
    && bool_decide (pc_recovery_id self = pc_recovery_id previous)
    && bool_decide (pc_workspace_id self = pc_workspace_id previous)
    && bool_decide (pc_worker_id self = pc_worker_id previous)
    && (pc_worker_generation self =? pc_worker_generation previous)
    && (pc_process_attempt self =? pc_process_attempt previous)
    && bool_decide (pc_runtime_config_digest self = pc_runtime_config_digest previous)
    && bool_decide (pc_program_sha256 self = pc_program_sha256 previous)
    && bool_decide (pc_launch_token self = pc_launch_token previous)
    && bool_decide (pc_launch_token_digest self = pc_launch_token_digest previous)
    && bool_decide (pc_launch_executable_path self = pc_launch_executable_path previous)
    && bool_decide (pc_launch_executable_path_digest self = pc_launch_executable_path_digest previous)
    && (pc_created_at self =? pc_created_at previous) in
  let spawned := bool_decide (pc_status previous = RpPrepared) && bool_decide (pc_status self = RpSpawned)
    && is_none (pc_identity previous) && is_some (pc_identity self)
    && bool_decide (pc_cleanup_attempts self = pc_cleanup_attempts previous) in
  let cleaned := negb (process_is_terminal (pc_status previous))
    && Nat.eqb (length (pc_cleanup_attempts self)) (length (pc_cleanup_attempts previous) + 1)
    && bool_decide (take (length (pc_cleanup_attempts previous)) (pc_cleanup_attempts self) = pc_cleanup_attempts previous)
    && bool_decide (pc_identity self = pc_identity previous)
    && bool_decide (pc_status self ∈ [RpTerminated; RpExited; RpBlocked]) in
  mret (immutable && (spawned || cleaned)
    && bool_decide (checked_add u64_max (pc_revision previous) 1 = Some (pc_revision self))
    && (pc_updated_at previous <=? pc_updated_at self)).
End recovery.
