(* ===== verification/FoundationFixture.v ===== *)
(** * A concrete checkpoint and recovery, for evaluating the model

    The working set, ledger, compaction record and checkpoint of the
    demonstration worker, and the recovery and process claim of its runtime. *)
From S2P Require Import Prelude Text Money Contract MissionTypes WorkProduct Effect Checkpoint Terminal Mission MissionMachine MissionFixture.
From S2P Require Import Truth RuntimeTurn Context Worker WorkerSteps WorkerFixture Foundation Recovery.
Import Prelude.Fixture Demo Crew.

Module Resume.
#[export] Instance foundation_serde : FoundationSerde := {|
  json_string := fun _ => Some "string"; json_strings := fun _ => Some "strings"; json_id_set := fun _ => Some "ids";
  json_revision_link := fun _ => Some "link"; json_evidence_source := fun _ => Some "source";
  json_receipt := fun _ => Some "receipt"; json_verification := fun _ => Some "verification";
  json_contract_authority := fun _ => Some "authority"; json_block := fun _ => Some "block";
  json_outcomes := fun _ => Some "outcomes"; json_invariant := fun _ => Some "invariant";
  json_working_set := fun _ => Some "set"; json_ledger := fun _ => Some "ledger";
  json_compaction := fun _ => Some "compaction"; json_context_checkpoint := fun _ => Some "checkpoint" |}.

Definition item (key : string) (bytes : Z) : ContextWorkingItem :=
  mkWorkingItem key WkToolResult ("cas://" ++ key) zeros64 bytes Public zeros64 (Some (now + 100)) now.
Definition blank_set : ContextWorkingSet := mkWorkingSet "" "" "" "" "" 0 ∅ 0 0 0.
Definition working_set : ContextWorkingSet := or_else (working_set_create "set" workspace now) blank_set.
Definition kept : gmap string ContextWorkingItem := {["a" := item "a" 10; "b" := item "b" 20]}.

Definition ledger_started : ContinuationLedger :=
  or_else (ledger_create "ledger" workspace now) (mkLedger "" "" "" "" "" 0 [] 0 0 0).
Definition note (kind : ContinuationEntryKind) (at_ : DateTime) : ContinuationEntryInput * ContextWorkspace * Mission * DateTime :=
  (mkEntryInput kind "subject" "cas://note" zeros64 ∅, workspace, gathered, at_).
Definition ledger : ContinuationLedger :=
  (run (ledger_append (mkEntryInput CnBlocker "subject" "cas://note" zeros64 ∅) workspace gathered (now + 1)) ledger_started).2.

Definition attached : WorkerHandle := handle.
Definition detached : WorkerHandle := (run (detach 1 (now + 4)) attached).2.
Definition launch_path : string := "/opt/runtime/" ++ zeros64 ++ "/codex".
Definition process_identity : RuntimeProcessIdentity := mkProcessIdentity 42 1700000000 zeros64 zeros64.

Example resume_set_up :
  exists record c r p,
    compaction_create "compaction" workspace gathered [] None 1 10 zeros64 500 8 "cas://summary" zeros64 64 100 ∅
      zeros64 zeros64 zeros64 (now + 2) = Ok record /\
    checkpoint_create "checkpoint" workspace gathered [] working_set ledger record None zeros64 zeros64 9 (now + 3) = Ok c /\
    recovery_prepare "recovery" attached detached c zeros64 ResumeExisting (Some "thread-1") 2 (now + 5) = Ok r /\
    process_prepare r zeros64 zeros64 launch_path zeros64 (now + 6) = Ok p /\
    compaction_validate_for record workspace gathered [] None (now + 2) = Ok tt /\
    checkpoint_validate_for c workspace gathered [] working_set ledger record None (now + 4) = Ok tt /\
    (let r2 := (run (record_process_failure RfHealth zeros64 (now + 7)) (run (recovery_mark_spawned zeros64 (now + 6)) r).2).2 in
     ra_status r2 = RrPrepared /\ ra_updated_at r2 = now + 7) /\
    (length (lg_entries ledger), size (wk_items (run (replace_items kept workspace (now + 1)) working_set).2)) = (1%nat, 2%nat).
Proof. do 4 eexists. do 4 (split; [vm_compute; reflexivity|]). by vm_compute. Qed.
End Resume.
