(* ===== verification/FoundationSafety.v ===== *)
(** * What checkpoints, ledgers and working sets guarantee

    The block a compaction or a checkpoint carries lists every open task and
    every unsettled effect of the Mission and does not depend on the order the
    facts came in; a checkpoint validates again only against the state it was
    taken from; ledgers only grow and working sets stay bounded. *)
From S2P Require Import Mission MissionMachine MissionFixture WorkerFixture Recovery FoundationFixture.
From S2P Require Import Prelude Text Money Contract MissionTypes WorkProduct Effect Checkpoint Terminal Truth RuntimeTurn Context Worker Foundation.

(** ** Sorting by identifier *)
Section sorting.
Context {A : Type} (id_of : A -> Id).

Lemma insert_by_id_perm x l : insert_by_id id_of x l ≡ₚ x :: l.
Proof.
  induction l as [|y l IH]; cbn; [done|]. case_bool_decide; [done|]. rewrite IH. constructor.
Qed.
Lemma sort_by_id_perm l : sort_by_id id_of l ≡ₚ l.
Proof. induction l as [|x l IH]; cbn; [done|]. rewrite insert_by_id_perm. by constructor. Qed.

Lemma insert_commute x y l :
  id_of x <> id_of y -> insert_by_id id_of x (insert_by_id id_of y l) = insert_by_id id_of y (insert_by_id id_of x l).
Proof.
  intros Hne. assert (forall a b : string, String.le a b -> String.le b a -> a = b) as Hanti by (intros; by apply (anti_symm String.le)).
  assert (forall a b : string, String.le a b \/ String.le b a) as Htot by (intros; apply (total String.le)).
  assert (forall a b c : string, String.le a b -> String.le b c -> String.le a c) as Htr by (intros a b c; apply transitivity).
  induction l as [|z l IH]; cbn [insert_by_id]; repeat case_bool_decide; cbn [insert_by_id]; repeat case_bool_decide;
    try done; try (by f_equal); try (exfalso; naive_solver).
Qed.

(** The result does not depend on the order of values with different identifiers. *)
Lemma sort_by_id_unique l l' : l ≡ₚ l' -> NoDup (id_of <$> l) -> sort_by_id id_of l = sort_by_id id_of l'.
Proof.
  induction 1 as [|x l l' Hp IH|x y l|l l1 l' Hp1 IH1 Hp2 IH2]; intros Hnd; [done|..].
  - cbn in Hnd. apply NoDup_cons in Hnd as [_ Hnd]. unfold sort_by_id in *; cbn [foldr]. by rewrite IH.
  - cbn in *. apply NoDup_cons in Hnd as [Hx _]. apply insert_commute. set_solver.
  - rewrite IH1 by done. apply IH2. by rewrite <-Hp1.
Qed.
End sorting.

Section foundation.
Context `{!Chrono} `{!Sha256} `{!SerdeScope} `{!ContextSerde} `{!TruthSerde} `{!FoundationSerde}.

(** ** Capture *)
Lemma collect_Ok {A B} (f : A -> result ContextError B) l ys :
  collect f l = Ok ys <-> Forall2 (fun x y => f x = Ok y) l ys.
Proof.
  revert ys; induction l as [|x l IH]; intros ys; cbn.
  - split; [intros [= <-]; constructor|by inversion 1].
  - rewrite bind_Ok. setoid_rewrite bind_Ok. setoid_rewrite IH. split.
    + intros (y & Hy & rest & Hl & [= <-]). by constructor.
    + inversion 1; subst. eauto 10.
Qed.

Lemma truth_invariants_ids mission now seen l ys :
  truth_invariants mission now seen l = Ok ys ->
  NoDup (fa_id <$> l) /\ (forall f, f ∈ l -> fa_id f ∉ seen) /\
  Forall2 (fun f y => truth_invariant f = Ok y) l ys.
Proof.
  revert seen ys; induction l as [|f l IH]; intros seen ys; cbn [truth_invariants].
  - intros [= <-]. split_and!; [constructor|intros f Hf; by apply not_elem_of_nil in Hf|constructor].
  - intros Ht. inv_run. split_guards. edestruct IH as (Hnd & Hse & Hall); [done|]. split_and!.
    + cbn. apply NoDup_cons. split; [|done]. intros (g & Hg & Hin)%list_elem_of_fmap. apply (Hse g Hin). set_solver.
    + intros g [->|Hg]%elem_of_cons; [done|]. specialize (Hse g Hg). set_solver.
    + by constructor.
Qed.

(** What a captured block says of its Mission. *)
Record captured (m : Mission) (facts : list TruthFact) (b : ContextInvariantBlock) : Prop := {
  cap_revision : ib_mission_revision b = ms_revision m;
  cap_identity : ib_mission_id b = ms_id m /\ ib_project_id b = ms_project_id m /\ ib_tenant_id b = ms_tenant_id m;
  cap_contract : ib_contract_version b = oc_version (ms_contract m);
  cap_stage : ib_mission_stage b = ms_stage m;
  cap_tasks : ib_tasks b ≡ₚ (task_invariant <$> ms_tasks m);
  cap_work_products : ib_work_products b ≡ₚ (work_product_invariant <$> ms_work_products m);
  cap_effects : exists l, ib_effects b ≡ₚ l /\ Forall2 (fun e y => effect_invariant e = Ok y) (ms_effects m) l;
  cap_truth : exists l, l ≡ₚ facts /\ Forall2 (fun f y => truth_invariant f = Ok y) l (ib_truth_facts b);
  cap_facts_distinct : NoDup (fa_id <$> facts);
  cap_open : ib_open_task_ids b = list_to_set (ti_id <$> List.filter task_invariant_is_open (ib_tasks b));
  cap_pending : ib_pending_effect_ids b = list_to_set (fi_id <$> List.filter effect_invariant_is_pending (ib_effects b));
  cap_uncertain : ib_uncertain_effect_ids b = list_to_set (fi_id <$> List.filter fi_provider_state_uncertain (ib_effects b));
}.
Lemma capture_captured m facts now b : capture m facts now = Ok b -> captured m facts b.
Proof.
  unfold capture. intros Hc. inv_run.
  match goal with Hx : truth_invariants _ _ _ _ = _ |- _ => apply truth_invariants_ids in Hx as (Hnd & _ & Hall) end.
  split; cbn; try done.
  - apply sort_by_id_perm.
  - apply sort_by_id_perm.
  - eexists. split; [apply sort_by_id_perm|]. by apply collect_Ok.
  - eexists. split; [apply sort_by_id_perm|done].
  - by rewrite <-(sort_by_id_perm fa_id facts).
Qed.

Lemma assert_exact_Ok b m facts now : assert_exact b m facts now = Ok tt <-> capture m facts now = Ok b.
Proof.
  unfold assert_exact. rewrite bind_Ok. setoid_rewrite reject_if_Ok. split.
  - intros (c & Hc & Hb). split_guards. by subst.
  - intros Hc. exists b. split; [done|]. by rewrite bool_decide_eq_true_2.
Qed.

(** An identifier is in a filtered set exactly when a matching value has it. *)
Lemma elem_of_filtered {A} (f : A -> bool) (id_of : A -> Id) l i :
  i ∈ (list_to_set (id_of <$> List.filter f l) : gset Id) <-> exists x, x ∈ l /\ f x = true /\ id_of x = i.
Proof.
  rewrite elem_of_list_to_set, list_elem_of_fmap. split.
  - intros (x & -> & Hx). rewrite list_elem_of_In, filter_In, <-list_elem_of_In in Hx. naive_solver.
  - intros (x & Hx & Hf & <-). exists x. split; [done|]. rewrite list_elem_of_In, filter_In, <-list_elem_of_In. done.
Qed.

Definition effect_is_unsettled (e : Effect) : bool :=
  bool_decide (ef_status e ∈ [EProposed; EApproved; EExecuting; EReceiptRecorded; EVerificationRequired]).

Lemma effect_invariant_fields e y :
  effect_invariant e = Ok y ->
  fi_id y = ef_id e /\ fi_status y = ef_status e /\ fi_exact_scope_digest y = approval_digest e /\
  fi_approval_scope_digest y = (apr_scope_digest <$> ef_approval e) /\
  fi_provider_state_uncertain y = provider_state_uncertain e.
Proof. unfold effect_invariant. intros He. by inv_run. Qed.

(** Values on the two sides of a [Forall2] correspond. *)
Lemma Forall2_elem_l {A B} (P : A -> B -> Prop) l k x : Forall2 P l k -> x ∈ l -> exists y, y ∈ k /\ P x y.
Proof.
  intros Hall (i & Hi)%list_elem_of_lookup. destruct (Forall2_lookup_l _ _ _ _ _ Hall Hi) as (y & Hy & HP).
  exists y. split; [by eapply list_elem_of_lookup_2|done].
Qed.
Lemma Forall2_elem_r {A B} (P : A -> B -> Prop) l k y : Forall2 P l k -> y ∈ k -> exists x, x ∈ l /\ P x y.
Proof.
  intros Hall (i & Hi)%list_elem_of_lookup. destruct (Forall2_lookup_r _ _ _ _ _ Hall Hi) as (x & Hx & HP).
  exists x. split; [by eapply list_elem_of_lookup_2|done].
Qed.

Lemma captured_effect_sets m facts b (g : ContextEffectInvariant -> bool) (h : Effect -> bool) i :
  captured m facts b -> (forall e y, effect_invariant e = Ok y -> g y = h e) ->
  i ∈ (list_to_set (fi_id <$> List.filter g (ib_effects b)) : gset Id) <->
  exists e, e ∈ ms_effects m /\ h e = true /\ ef_id e = i.
Proof.
  intros Hc Hgh. rewrite elem_of_filtered. destruct (cap_effects _ _ _ Hc) as (l & Hp & Hall). setoid_rewrite Hp. split.
  - intros (y & Hy & Hg & <-). destruct (Forall2_elem_r _ _ _ _ Hall Hy) as (e & He & Hey).
    exists e. rewrite <-(Hgh _ _ Hey). split_and!; [done..|]. symmetry. by apply effect_invariant_fields.
  - intros (e & He & Hh & <-). destruct (Forall2_elem_l _ _ _ _ Hall He) as (y & Hy & Hey).
    exists y. rewrite (Hgh _ _ Hey). split_and!; [done..|]. by apply effect_invariant_fields.
Qed.

(** C29: Compaction loses nothing that is unfinished. In a compaction record
    that validates, the open tasks are exactly the Mission's tasks that are
    neither completed nor cancelled, the pending effects exactly those
    proposed, approved, executing, awaiting or requiring verification, and the
    uncertain ones exactly those that require verification without a receipt;
    and neither the record nor the block depends on the order in which the
    facts are handed in. *)
Theorem compaction_keeps_what_is_unfinished record workspace m facts facts' previous now :
  compaction_validate_for record workspace m facts previous now = Ok tt -> facts ≡ₚ facts' ->
  (forall i, i ∈ ib_open_task_ids (cm_invariant record) <->
     exists t, t ∈ ms_tasks m /\ (tk_status t ∉ [TCompleted; TCancelled]) /\ tk_id t = i) /\
  (forall i, i ∈ ib_pending_effect_ids (cm_invariant record) <->
     exists e, e ∈ ms_effects m /\ effect_is_unsettled e = true /\ ef_id e = i) /\
  (forall i, i ∈ ib_uncertain_effect_ids (cm_invariant record) <->
     exists e, e ∈ ms_effects m /\ (ef_status e = EVerificationRequired /\ ef_receipt e = None) /\ ef_id e = i) /\
  compaction_validate_for record workspace m facts' previous now = Ok tt.
Proof.
  intros Hv Hp. assert (assert_exact (cm_invariant record) m facts now = Ok tt) as Hex.
  { unfold compaction_validate_for in Hv. by inv_run. }
  apply assert_exact_Ok in Hex as Hcap. pose proof (capture_captured _ _ _ _ Hcap) as Hc. split_and!.
  - intros i. rewrite (cap_open _ _ _ Hc), elem_of_filtered. setoid_rewrite (cap_tasks _ _ _ Hc). split.
    + intros (y & (t & -> & Ht)%list_elem_of_fmap & Ho & <-). exists t. split_and!; [done| |done].
      unfold task_invariant_is_open in Ho. by split_guards.
    + intros (t & Ht & Ho & <-). exists (task_invariant t). split_and!; [by apply list_elem_of_fmap_2| |done].
      unfold task_invariant_is_open; cbn. by rewrite bool_decide_eq_false_2.
  - intros i. rewrite (cap_pending _ _ _ Hc). apply (captured_effect_sets m facts); [done|].
    intros e y (_ & Hs & _)%effect_invariant_fields. unfold effect_invariant_is_pending, effect_is_unsettled. by rewrite Hs.
  - intros i. rewrite (cap_uncertain _ _ _ Hc), (captured_effect_sets m facts _ _ provider_state_uncertain); [|done|].
    + unfold provider_state_uncertain. setoid_rewrite andb_true_iff. setoid_rewrite bool_decide_eq_true.
      split; intros (e & He & [? Hr] & <-); exists e; (split_and!; [done..| |done]); by destruct (ef_receipt e).
    + intros e y Hy. by apply effect_invariant_fields in Hy as (_ & _ & _ & _ & ->).
  - assert (capture m facts' now = capture m facts now) as Heq.
    { unfold capture. rewrite (sort_by_id_unique fa_id facts facts' Hp); [done|]. apply (cap_facts_distinct _ _ _ Hc). }
    unfold compaction_validate_for, assert_exact in Hv |- *. by rewrite Heq.
Qed.

(** ** Checkpoints *)
Lemma checkpoint_validates_capture c workspace m facts set ledger record previous now :
  checkpoint_validate_for c workspace m facts set ledger record previous now = Ok tt -> capture m facts now = Ok (cc_invariant c).
Proof. unfold checkpoint_validate_for. intros Hv. inv_run. by apply assert_exact_Ok. Qed.

Lemma captured_effect m facts b e :
  captured m facts b -> e ∈ ms_effects m -> exists y, y ∈ ib_effects b /\ effect_invariant e = Ok y.
Proof.
  intros Hc He. destruct (cap_effects _ _ _ Hc) as (l & Hp & Hall). setoid_rewrite Hp. by apply (Forall2_elem_l _ _ _ _ Hall).
Qed.
Lemma captured_effect_of m facts b y :
  captured m facts b -> y ∈ ib_effects b -> exists e, e ∈ ms_effects m /\ effect_invariant e = Ok y.
Proof.
  intros Hc Hy. destruct (cap_effects _ _ _ Hc) as (l & Hp & Hall). rewrite Hp in Hy. by apply (Forall2_elem_r _ _ _ _ Hall).
Qed.

(** Work resumes only where it stopped. When a checkpoint taken from one
    Mission state validates against another one, at any later or earlier
    time, with any facts and whatever predecessor, the two agree on Mission,
    revision, contract version and stage; their tasks and work products are
    the same up to order in everything the block records; every effect of the
    one has in the other an effect with its identifier, status, exact scope
    digest and approval; and the facts have the same identifiers, versions
    and digests up to order. *)
Theorem checkpoint_resumes_only_unchanged_state id workspace m facts set ledger record previous graph cursor tail now c
    workspace' m' facts' set' ledger' record' previous' now' :
  checkpoint_create id workspace m facts set ledger record previous graph cursor tail now = Ok c ->
  checkpoint_validate_for c workspace' m' facts' set' ledger' record' previous' now' = Ok tt ->
  (ms_id m' = ms_id m /\ ms_revision m' = ms_revision m /\ oc_version (ms_contract m') = oc_version (ms_contract m) /\
   ms_stage m' = ms_stage m) /\
  (task_invariant <$> ms_tasks m') ≡ₚ (task_invariant <$> ms_tasks m) /\
  (work_product_invariant <$> ms_work_products m') ≡ₚ (work_product_invariant <$> ms_work_products m) /\
  (forall e, e ∈ ms_effects m -> exists e', e' ∈ ms_effects m' /\ ef_id e' = ef_id e /\ ef_status e' = ef_status e /\
     approval_digest e' = approval_digest e /\
     (apr_scope_digest <$> ef_approval e') = (apr_scope_digest <$> ef_approval e)) /\
  (exists l l' k, l ≡ₚ facts /\ l' ≡ₚ facts' /\ Forall2 (fun f y => truth_invariant f = Ok y) l k /\
     Forall2 (fun f y => truth_invariant f = Ok y) l' k).
Proof.
  intros Hc Hv. assert (capture m facts now = Ok (cc_invariant c)) as Hc1.
  { unfold checkpoint_create in Hc. inv_run. by eapply checkpoint_validates_capture. }
  apply checkpoint_validates_capture in Hv as Hc2. apply capture_captured in Hc1 as C1, Hc2 as C2.
  split_and!.
  - destruct (cap_identity _ _ _ C1), (cap_identity _ _ _ C2). congruence.
  - rewrite <-(cap_revision _ _ _ C1). symmetry. by apply (cap_revision _ _ _ C2).
  - rewrite <-(cap_contract _ _ _ C1). symmetry. by apply (cap_contract _ _ _ C2).
  - rewrite <-(cap_stage _ _ _ C1). symmetry. by apply (cap_stage _ _ _ C2).
  - by rewrite <-(cap_tasks _ _ _ C1), (cap_tasks _ _ _ C2).
  - by rewrite <-(cap_work_products _ _ _ C1), (cap_work_products _ _ _ C2).
  - intros e He. destruct (captured_effect _ _ _ _ C1 He) as (y & Hy & Hey).
    destruct (captured_effect_of _ _ _ _ C2 Hy) as (e' & He' & Hey'). exists e'.
    apply effect_invariant_fields in Hey as (? & ? & ? & ? & _), Hey' as (? & ? & ? & ? & _). split_and!; congruence.
  - destruct (cap_truth _ _ _ C1) as (l & ? & ?), (cap_truth _ _ _ C2) as (l' & ? & ?). exists l, l', (ib_truth_facts (cc_invariant c)). done.
Qed.
End foundation.

(** ** Ledgers *)
Definition LedgerCall : Type := ContinuationEntryInput * ContextWorkspace * Mission * DateTime.
Definition ledger_call (c : LedgerCall) : SR ContinuationLedger ContextError ContinuationEntry :=
  let '(input, workspace, mission, now) := c in ledger_append input workspace mission now.
Fixpoint ledger_run (cs : list LedgerCall) (l : ContinuationLedger) : ContinuationLedger :=
  match cs with [] => l | c :: cs => ledger_run cs (run (ledger_call c) l).2 end.

Lemma entries_validate_revisions m now k prior l :
  entries_validate m now k prior l = Ok tt ->
  (forall x, x ∈ l -> prior <= en_mission_revision x) /\
  (forall i x, l !! i = Some x -> en_sequence x = Z.of_nat (k + i) + 1) /\
  (forall i j x y, (i <= j)%nat -> l !! i = Some x -> l !! j = Some y -> en_mission_revision x <= en_mission_revision y).
Proof.
  revert k prior; induction l as [|e l IH]; intros k prior; cbn [entries_validate].
  - intros _. split_and!; [intros x Hx; by apply not_elem_of_nil in Hx|done|done].
  - intros Hv. inv_run. split_guards. edestruct IH as (Hlo & Hsq & Hmono); [done|]. split_and!.
    + intros x [->|Hx]%elem_of_cons; [lia|]. specialize (Hlo x Hx). lia.
    + intros [|i] x Hi; cbn in Hi; [simplify_eq; lia|]. specialize (Hsq i x Hi). lia.
    + intros [|i] [|j] x y Hij Hi Hj; cbn in *; simplify_eq; [lia| |lia|by eapply (Hmono i j); [lia|..]].
      apply Hlo. by eapply list_elem_of_lookup_2.
Qed.

(** What a successful append leaves. *)
Lemma ledger_append_Ok input workspace m now l e l' :
  run (ledger_append input workspace m now) l = (Ok e, l') ->
  lg_entries l' = lg_entries l ++ [e] /\ ledger_follows l' l = Ok true /\
  ledger_validate_for l' workspace (Some m) now = Ok tt /\ en_mission_revision e = ms_revision m.
Proof.
  unfold ledger_append. intros Hr. inv_run. case_match eqn:Hg; inv_run. apply orb_false_iff in Hg as [Hok Hf].
  apply negb_false_iff in Hf, Hok. subst. split_and!; [done|done| |done].
  by destruct (ledger_validate_for _ _ _ _) as [[]| |].
Qed.

Lemma ledger_follows_total l k : exists b, ledger_follows l k = Ok b.
Proof. by eexists. Qed.

(** With room for the revision, an append that fails changes nothing. *)
Lemma ledger_append_fails input workspace m now l :
  lg_revision l < u64_max -> is_ok (run (ledger_append input workspace m now) l).1 = false ->
  (run (ledger_append input workspace m now) l).2 = l.
Proof.
  intros Hrev. unfold ledger_append. rewrite run_get_bind, run_reject_bind. case_match; [done|].
  assert (forall A B (r : result ContextError A) (k : A -> SR ContinuationLedger ContextError B) s,
    (forall a, r = Ok a -> is_ok (run (k a) s).1 = false -> (run (k a) s).2 = s) ->
    is_ok (run (lift r ≫= k) s).1 = false -> (run (lift r ≫= k) s).2 = s) as Hlift.
  { intros A B r k s Hk. unfold mbind, SR_mbind; cbn. destruct r; [by apply Hk|done..]. }
  apply Hlift. intros seq _. apply Hlift. intros [] _. rewrite run_modify_bind.
  assert (ok_or (checked_add u64_max (lg_revision l) 1) CxRevisionOverflow = Ok (lg_revision l + 1)) as ->
    by (apply ok_or_Ok, checked_add_Some; lia).
  rewrite (run_known_bind (lift _) _ _ (lg_revision l + 1) _ eq_refl), run_modify_bind, run_get_bind.
  match goal with |- context [run (lift (ledger_follows ?a ?b) ≫= ?k) ?s] =>
    destruct (ledger_follows_total a b) as [f Hf]; rewrite (run_known_bind (lift _) k s f s) by (by apply run_lift_Ok) end.
  by case_match.
Qed.

(** The revision counts the entries, and grows by at most one per call. *)
Lemma ledger_call_revision c k :
  lg_revision k = Z.of_nat (length (lg_entries k)) + 1 -> lg_revision k < u64_max ->
  lg_revision (run (ledger_call c) k).2 = Z.of_nat (length (lg_entries (run (ledger_call c) k).2)) + 1 /\
  lg_revision (run (ledger_call c) k).2 <= lg_revision k + 1.
Proof.
  intros Hk Hb. destruct c as [[[input ws] m] t]. cbn [ledger_call].
  pose proof (ledger_append_fails input ws m t k Hb) as Hfl.
  destruct (run (ledger_append input ws m t) k) as [[e| |] k'] eqn:Hr; cbn [fst snd is_ok] in *; [|rewrite Hfl by done; lia..].
  apply ledger_append_Ok in Hr as (He & Hf & _ & _). unfold ledger_follows in Hf. injection Hf as Hf. split_guards.
  match goal with Hx : checked_add _ _ _ = Some _ |- _ => apply checked_add_Some in Hx as [Hx ?] end.
  rewrite He, length_app; cbn. lia.
Qed.
Lemma ledger_run_revision cs k :
  lg_revision k = Z.of_nat (length (lg_entries k)) + 1 -> lg_revision k + Z.of_nat (length cs) <= u64_max ->
  lg_revision (ledger_run cs k) = Z.of_nat (length (lg_entries (ledger_run cs k))) + 1 /\
  lg_revision (ledger_run cs k) <= lg_revision k + Z.of_nat (length cs).
Proof.
  revert k; induction cs as [|c cs IH]; intros k Hk Hb; cbn [ledger_run length] in *; [lia|].
  destruct (ledger_call_revision c k Hk) as [H1 H2]; [lia|]. destruct (IH (run (ledger_call c) k).2 H1); lia.
Qed.

(** Continuation notes are only ever added. From a new ledger, after fewer
    than 2^64 - 2 calls in any workspace and Mission state, the next append
    either fails and changes nothing, or adds exactly one entry at the end: it
    has the next number and the Mission's revision, no entry before it is from
    a later revision, and the append check of ledgers accepts the result. *)
Theorem ledger_is_append_only id workspace now l0 cs c :
  ledger_create id workspace now = Ok l0 -> Z.of_nat (length cs) + 1 < u64_max ->
  let l := ledger_run cs l0 in
  lg_revision l = Z.of_nat (length (lg_entries l)) + 1 /\
  match run (ledger_call c) l with
  | (Ok e, l') => lg_entries l' = lg_entries l ++ [e] /\ en_sequence e = Z.of_nat (length (lg_entries l)) + 1 /\
      en_mission_revision e = ms_revision c.1.2 /\
      (forall x, x ∈ lg_entries l -> en_mission_revision x <= en_mission_revision e) /\ ledger_follows l' l = Ok true
  | (_, l') => l' = l
  end.
Proof.
  intros Hc Hlen l.
  destruct (ledger_run_revision cs l0) as [Hrev Hle]; [unfold ledger_create in Hc; by inv_run|unfold ledger_create in Hc; inv_run; cbn in *; lia|].
  fold l in Hrev, Hle. assert (lg_revision l < u64_max) as Hmax by (unfold ledger_create in Hc; inv_run; cbn in *; lia).
  split; [done|]. destruct c as [[[input ws] m] t]. cbn [ledger_call fst snd].
  pose proof (ledger_append_fails input ws m t l Hmax) as Hfl.
  destruct (run (ledger_append input ws m t) l) as [[e| |] l'] eqn:Hr; [|by apply Hfl..].
  apply ledger_append_Ok in Hr as (He & Hf & Hv & Hm). unfold ledger_validate_for in Hv. inv_run.
  match goal with Hx : entries_validate _ _ _ _ _ = _ |- _ => apply entries_validate_revisions in Hx as (_ & Hsq & Hmono) end.
  assert (lg_entries l' !! length (lg_entries l) = Some e) as Hlast by (rewrite He, lookup_app_r, Nat.sub_diag; done).
  split_and!; [done|by rewrite (Hsq _ _ Hlast)|done| |done].
  intros x (i & Hi)%list_elem_of_lookup. apply (Hmono i (length (lg_entries l)) x e); [|by rewrite He, lookup_app_l; [|eapply lookup_lt_Some]|done].
  apply lookup_lt_Some in Hi. lia.
Qed.

(** ** Working sets *)
Fixpoint working_set_run (workspace : ContextWorkspace) (cs : list (gmap string ContextWorkingItem * DateTime))
    (s : ContextWorkingSet) : ContextWorkingSet :=
  match cs with
  | [] => s
  | (items, now) :: cs => working_set_run workspace cs (run (replace_items items workspace now) s).2
  end.

Definition working_set_inv (workspace : ContextWorkspace) (s : ContextWorkingSet) : Prop :=
  working_set_validate_for s workspace (wk_updated_at s) = Ok tt /\
  forall k item, wk_items s !! k = Some item -> item_availability_at item (wk_updated_at s) = ItAvailable.

Lemma replace_items_inv workspace items now s :
  working_set_inv workspace s -> working_set_inv workspace (run (replace_items items workspace now) s).2.
Proof.
  intros Hinv. assert (Atomic (replace_items items workspace now)) as Hat by (unfold replace_items; apply _).
  destruct (atomic_cases (replace_items items workspace now) s) as [[u Hr]|[_ ->]]; [|done].
  revert Hr. generalize (run (replace_items items workspace now) s).2. intros t Hr. unfold replace_items in Hr. inv_run.
  split_guards. split.
  - cbn. by destruct (working_set_validate_for _ workspace now) as [[]| |].
  - cbn. intros k item Hk. match goal with Hx : map_any _ _ = false |- _ => rewrite map_any_false in Hx; specialize (Hx k item Hk) end.
    by split_guards.
Qed.
Lemma working_set_run_inv workspace cs s : working_set_inv workspace s -> working_set_inv workspace (working_set_run workspace cs s).
Proof. revert s; induction cs as [|[items now] cs IH]; intros s Hs; [done|]. cbn. by apply IH, replace_items_inv. Qed.

(** A working set stays small and admissible: after any replacements it has at
    most 512 references of at most 64 MiB in all, each filed under its own key,
    no more sensitive than the workspace's data policy admits, and none that had
    expired when it was put in. *)
Theorem working_set_stays_bounded id workspace now s0 cs :
  working_set_create id workspace now = Ok s0 ->
  let s := working_set_run workspace cs s0 in
  (size (wk_items s) <= 512)%nat /\
  (exists total, total_bytes 0 (btree_values (wk_items s)) = Ok total /\ total <= 67108864) /\
  (forall k item, wk_items s !! k = Some item ->
     wi_key item = k /\ item_availability_at item (wk_updated_at s) = ItAvailable /\
     (data_class_rank (wi_classification item) <= data_class_rank (maximum_class (ws_data_policy workspace)))%nat).
Proof.
  intros Hc s. assert (working_set_inv workspace s) as [Hv Hav].
  { apply working_set_run_inv. unfold working_set_create in Hc. inv_run. split; [done|]. intros k item Hk. cbn in Hk.
    by rewrite lookup_empty in Hk. }
  unfold working_set_validate_for in Hv. inv_run. split_guards. split_and!.
  - match goal with Hx : Nat.ltb MAX_WORKING_ITEMS _ = false |- _ => apply Nat.ltb_ge in Hx; exact Hx end.
  - eexists. split; [done|]. match goal with Hx : (MAX_WORKING_BYTES <? _) = false |- _ => apply Z.ltb_ge in Hx; exact Hx end.
  - intros k item Hk. match goal with Hx : for_each _ _ = _ |- _ => rewrite for_pairs_Ok in Hx; specialize (Hx k item Hk) end.
    cbn in *. inv_run. split_guards. unfold item_validate_for in *. inv_run. split_guards. split_and!; [done|by eapply Hav|].
    match goal with Hx : Nat.ltb _ (data_class_rank (wi_classification item)) = false |- _ => by apply Nat.ltb_ge in Hx end.
Qed.

(** ** The properties at the demonstration worker *)
Import Prelude.Fixture Demo Crew Resume.

Lemma compaction_keeps_what_is_unfinished_witness :
  exists record, compaction_validate_for record workspace gathered [] None (now + 2) = Ok tt /\
    (forall i, i ∈ ib_open_task_ids (cm_invariant record) <->
       exists t, t ∈ ms_tasks gathered /\ (tk_status t ∉ [TCompleted; TCancelled]) /\ tk_id t = i).
Proof.
  destruct resume_set_up as (record & c & r & p & _ & _ & _ & _ & Hv & _). exists record. split; [exact Hv|].
  exact (proj1 (compaction_keeps_what_is_unfinished record workspace gathered [] [] None (now + 2) Hv (Permutation_refl _))).
Defined.

Lemma checkpoint_resumes_only_unchanged_state_witness :
  exists record c, checkpoint_validate_for c workspace gathered [] working_set ledger record None (now + 4) = Ok tt /\
    (task_invariant <$> ms_tasks gathered) ≡ₚ (task_invariant <$> ms_tasks gathered).
Proof.
  destruct resume_set_up as (record & c & r & p & _ & Hc & _ & _ & _ & Hv & _). exists record, c. split; [exact Hv|].
  exact (proj1 (proj2 (checkpoint_resumes_only_unchanged_state "checkpoint" workspace gathered [] working_set ledger
    record None zeros64 zeros64 9 (now + 3) c workspace gathered [] working_set ledger record None (now + 4) Hc Hv))).
Defined.

Lemma ledger_is_append_only_witness :
  exists e, (run (ledger_call (note CnNextAction (now + 2))) (ledger_run [note CnBlocker (now + 1)] ledger_started)).1 = Ok e /\
    en_sequence e = 2.
Proof.
  assert (ledger_create "ledger" workspace now = Ok ledger_started) as Hl by by vm_compute.
  assert (Z.of_nat (length [note CnBlocker (now + 1)]) + 1 < u64_max) as Hn by done.
  assert (is_ok (run (ledger_call (note CnNextAction (now + 2))) (ledger_run [note CnBlocker (now + 1)] ledger_started)).1 = true)
    as Hok by by vm_compute.
  assert (Z.of_nat (length (lg_entries (ledger_run [note CnBlocker (now + 1)] ledger_started))) + 1 = 2) as Hlen by by vm_compute.
  pose proof (ledger_is_append_only "ledger" workspace now ledger_started [note CnBlocker (now + 1)] (note CnNextAction (now + 2)) Hl Hn) as Hm.
  cbv zeta in Hm. apply proj2 in Hm. revert Hok Hm Hlen.
  generalize (ledger_run [note CnBlocker (now + 1)] ledger_started). intros l.
  destruct (run (ledger_call (note CnNextAction (now + 2))) l) as [[e| |] l']; intros Hok Hm Hlen; [|discriminate Hok..].
  exists e. split; [reflexivity|]. rewrite <-Hlen. exact (proj1 (proj2 Hm)).
Defined.
