(* ===== verification/RecoverySafety.v ===== *)
(** * What runtime recovery guarantees

    The record of a recovery stays valid and its append check accepts every
    step, the retries come to an end, a recovery that goes well reattaches the
    worker under the next epoch, and process claims end with evidence. *)
From S2P Require Import Mission MissionMachine MissionFixture WorkerFixture FoundationFixture.
From S2P Require Import Prelude Text Money Contract MissionTypes WorkProduct Effect Checkpoint Terminal Truth RuntimeTurn Context Worker WorkerSteps Foundation Recovery.

Inductive RecoveryCall : Type :=
| RecSpawned (instance : string) (now : DateTime)
| RecHealthy (health : string) (now : DateTime)
| RecBound (instance thread mapping : string) (now : DateTime)
| RecAttached (handle : WorkerHandle) (now : DateTime)
| RecFailed (class : RuntimeRecoveryFailureClass) (evidence : string) (now : DateTime).

Definition recovery_call (c : RecoveryCall) : SR RuntimeRecoveryAttempt ContextError unit :=
  match c with
  | RecSpawned instance now => recovery_mark_spawned instance now
  | RecHealthy health now => confirm_health health now
  | RecBound instance thread mapping now => bind_thread instance thread mapping now
  | RecAttached handle now => mark_attached handle now
  | RecFailed class evidence now => record_process_failure class evidence now
  end.
Fixpoint recovery_run (cs : list RecoveryCall) (r : RuntimeRecoveryAttempt) : RuntimeRecoveryAttempt :=
  match cs with [] => r | c :: cs => recovery_run cs (run (recovery_call c) r).2 end.

Definition touched (now : DateTime) (r : RuntimeRecoveryAttempt) : RuntimeRecoveryAttempt :=
  r <| ra_revision := ra_revision r + 1 |> <| ra_updated_at := now |>.
Lemma recovery_touch_Ok now r u r' :
  run (recovery_touch now) r = (Ok u, r') <-> r' = touched now r /\ ra_revision r < u64_max.
Proof.
  unfold recovery_touch. split.
  - intros Hr. inv_run. added. split; [done|lia].
  - intros (-> & Hrev). destruct u. unfold mbind, SR_mbind; cbn. unfold checked_add. by rewrite (proj2 (Z.leb_le _ _)) by lia.
Qed.

(** The record after a failed attempt. *)
Definition failed_attempt (class : RuntimeRecoveryFailureClass) (evidence : string) (now : DateTime)
    (r : RuntimeRecoveryAttempt) : RuntimeRecoveryAttempt :=
  let r1 := r <| ra_failures ::= fun l => l ++ [mkRecoveryFailure (ra_process_attempt r) class evidence now] |>
    <| ra_health_digest := None |> <| ra_runtime_instance_digest := None |> <| ra_runtime_thread_id := None |>
    <| ra_runtime_mapping_digest := None |> in
  if ra_process_attempt r <? ra_max_process_attempts r
  then r1 <| ra_process_attempt := ra_process_attempt r + 1 |> <| ra_status := RrPrepared |>
  else r1 <| ra_status := RrFailed |>.

Inductive recovery_step (r : RuntimeRecoveryAttempt) : RecoveryCall -> RuntimeRecoveryAttempt -> Prop :=
| rec_spawned instance now : ra_status r = RrPrepared -> is_sha256 instance = true -> ra_updated_at r <= now ->
    ra_revision r < u64_max ->
    recovery_step r (RecSpawned instance now)
      (touched now (r <| ra_runtime_instance_digest := Some instance |> <| ra_status := RrSpawned |>))
| rec_healthy health now : ra_status r = RrSpawned -> is_sha256 health = true -> ra_updated_at r <= now ->
    ra_revision r < u64_max ->
    recovery_step r (RecHealthy health now)
      (touched now (r <| ra_health_digest := Some health |> <| ra_status := RrHealthy |>))
| rec_bound instance thread mapping now : ra_status r = RrHealthy -> ra_runtime_instance_digest r = Some instance ->
    is_runtime_identifier thread = true -> is_sha256 mapping = true -> ra_updated_at r <= now -> ra_revision r < u64_max ->
    recovery_step r (RecBound instance thread mapping now)
      (touched now (r <| ra_runtime_thread_id := Some thread |> <| ra_runtime_mapping_digest := Some mapping |>
        <| ra_status := RrThreadBound |>))
| rec_attached handle now : ra_status r = RrThreadBound -> wh_status handle = WhAttached ->
    wh_attachment_epoch handle = ra_target_attachment_epoch r ->
    wh_runtime_mapping_digest handle = ra_runtime_mapping_digest r -> ra_updated_at r <= now -> ra_revision r < u64_max ->
    recovery_step r (RecAttached handle now) (touched now (r <| ra_status := RrAttached |>))
| rec_failed class evidence now : recovery_is_terminal (ra_status r) = false -> is_sha256 evidence = true ->
    ra_updated_at r <= now -> Z.of_nat (length (ra_failures r)) < ra_max_process_attempts r -> ra_revision r < u64_max ->
    (ra_process_attempt r < ra_max_process_attempts r -> ra_process_attempt r < u32_max) ->
    recovery_step r (RecFailed class evidence now) (touched now (failed_attempt class evidence now r)).

Lemma touch_or_restore now previous r s u r' :
  run match run (recovery_touch now) r with
      | (Ok _, self) => put self
      | (Err error, _) => put previous;; fail error
      | (Panic, _) => lift Panic
      end s = (Ok u, r') ->
  run (recovery_touch now) r = (Ok u, r').
Proof. destruct u. destruct (run (recovery_touch now) r) as [[[]|e|] r2]; cbn; intros [= ->]; done. Qed.

Lemma failure_call_step class evidence now r u r' :
  run (record_process_failure class evidence now) r = (Ok u, r') -> recovery_step r (RecFailed class evidence now) r'.
Proof.
  unfold record_process_failure. intros Hr. rewrite run_get_bind, run_reject_bind in Hr. case_match eqn:Hg; [done|].
  rewrite run_modify_bind in Hr. split_guards.
  assert (exists r1, failed_attempt class evidence now r = r1 /\ (ra_process_attempt r < ra_max_process_attempts r -> ra_process_attempt r < u32_max) /\
    ra_revision r1 = ra_revision r /\
    run (recovery_touch now) r1 = (Ok u, r')) as (r1 & <- & Hu & Hrv & Ht).
  { unfold failed_attempt. destruct (Z.ltb_spec (ra_process_attempt r) (ra_max_process_attempts r)).
    - apply run_bind_Ok in Hr as ([] & s1 & Hm1 & Hr). rewrite run_get_bind in Hr. inv_ok. added. eexists. split; [done|]. split; [lia|]. split; [done|].
      by apply touch_or_restore in Hr.
    - rewrite run_modify_bind, run_get_bind in Hr. eexists. split; [done|]. split; [lia|]. split; [done|].
      by apply touch_or_restore in Hr. }
  apply recovery_touch_Ok in Ht as [-> ?]. constructor; try done; lia.
Qed.

Lemma recovery_call_step c r u r' : run (recovery_call c) r = (Ok u, r') -> recovery_step r c r'.
Proof.
  destruct c; cbn [recovery_call]; [..|apply failure_call_step];
    unfold recovery_mark_spawned, confirm_health, bind_thread, mark_attached; intros Hr; inv_run; split_guards;
    match goal with Hx : run (recovery_touch _) _ = _ |- _ => apply recovery_touch_Ok in Hx as [-> ?] end;
    constructor; done || (cbn in *; lia).
Qed.

(** The record of a recovery: the parts of [validate_record] that calls can
    change, with the clock and counters of the source. *)
Definition recovery_inv (r : RuntimeRecoveryAttempt) : Prop :=
  recovery_validate_record r = Ok tt /\ 0 < ra_revision r.

Lemma failure_sequence_snoc r r' k l f :
  failure_sequence_matches r k l = true -> ra_created_at r' = ra_created_at r -> ra_updated_at r <= ra_updated_at r' ->
  rf_process_attempt f = Z.of_nat (k + length l) + 1 -> is_sha256 (rf_evidence_digest f) = true ->
  ra_created_at r' <= rf_observed_at f <= ra_updated_at r' -> failure_sequence_matches r' k (l ++ [f]) = true.
Proof.
  intros Hl Hc Hu Hp Hd Ho. revert k Hl Hp; induction l as [|g l IH]; intros k Hl Hp;
    cbn [failure_sequence_matches app length] in *.
  - rewrite !andb_true_iff. split_and!; done || lia.
  - split_guards. rewrite !andb_true_iff. split_and!; try done; try lia. apply IH; done || lia.
Qed.
Lemma failure_sequence_mono r r' k l :
  failure_sequence_matches r k l = true -> ra_created_at r' = ra_created_at r -> ra_updated_at r <= ra_updated_at r' ->
  failure_sequence_matches r' k l = true.
Proof.
  intros Hl Hc Hu. revert k Hl; induction l as [|g l IH]; intros k Hl;
    cbn [failure_sequence_matches] in *; [done|].
  split_guards. rewrite !andb_true_iff. split_and!; try done; try lia. by apply IH.
Qed.

(** The identity and limits of a recovery, which no call changes. *)
Definition recovery_scope (r : RuntimeRecoveryAttempt) :=
  (ra_id r, ra_tenant_id r, ra_project_id r, ra_mission_id r, ra_workspace_id r, ra_worker_id r, ra_worker_generation r,
   ra_source_attachment_epoch r, ra_target_attachment_epoch r,
   (ra_source_mapping_digest r, ra_checkpoint_id r, ra_checkpoint_digest r, ra_runtime_config_digest r,
    ra_initial_strategy r, ra_requested_thread_id_digest r, ra_max_process_attempts r, ra_created_at r)).

Lemma recovery_step_scope r c r' : recovery_step r c r' -> recovery_scope r' = recovery_scope r.
Proof. destruct 1; try done. unfold failed_attempt. by case_match. Qed.

(** Valid fields, a valid ledger and valid counters make a valid record. *)
Lemma recovery_validate_intro r r' :
  recovery_validate_record r = Ok tt -> recovery_scope r' = recovery_scope r -> 0 < ra_revision r' ->
  0 < ra_process_attempt r' -> ra_created_at r' <= ra_updated_at r' -> process_attempt_matches r' = true ->
  failure_sequence_matches r' 0 (ra_failures r') = true -> lifecycle_fields_match r' = true ->
  recovery_validate_record r' = Ok tt.
Proof.
  intros Hv Hs Hr Hp Ht Hpa Hf Hl. unfold recovery_scope in Hs. injection Hs; intros.
  unfold recovery_validate_record in *. inv_run. rewrite bind_Ok. match goal with Hx : checked_add _ _ _ = Some ?e |- _ => exists e; split; [apply ok_or_Ok; congruence|] end.
  apply reject_if_Ok. rewrite Hpa, Hf, Hl. split_guards.
  assert (requested_thread_matches r' = requested_thread_matches r) as ->.
  { unfold requested_thread_matches. by repeat match goal with Hx : ?f r' = ?f r |- context [?f r'] => rewrite Hx end. }
  repeat match goal with Hx : ?f r' = ?f r |- context [?f r'] => rewrite Hx end.
  repeat (apply orb_false_iff; split); first [assumption|reflexivity|apply negb_false_iff; assumption|lia|idtac].
Qed.

(** What a valid record says of its counters and fields. *)
Lemma recovery_valid_facts r :
  recovery_validate_record r = Ok tt ->
  1 <= ra_max_process_attempts r <= 16 /\ process_attempt_matches r = true /\
  failure_sequence_matches r 0 (ra_failures r) = true /\ lifecycle_fields_match r = true /\
  ra_created_at r <= ra_updated_at r /\ ra_target_attachment_epoch r = ra_source_attachment_epoch r + 1 /\
  ra_process_attempt r <> 0.
Proof.
  unfold recovery_validate_record. intros Hv. inv_run. added. split_guards. unfold MAX_PROCESS_ATTEMPTS in *.
  split_and!; done || lia.
Qed.
Lemma running_attempt r :
  recovery_validate_record r = Ok tt -> ra_status r <> RrFailed ->
  ra_process_attempt r = Z.of_nat (length (ra_failures r)) + 1.
Proof.
  intros (_ & Hp & _)%recovery_valid_facts Hs. unfold process_attempt_matches in Hp.
  rewrite bool_decide_eq_false_2 in Hp by done. lia.
Qed.

Ltac recovery_fields Hl Hs :=
  unfold lifecycle_fields_match in *; rewrite Hs in Hl; cbn; split_guards;
  repeat match goal with
  | Hx : is_none ?o = true |- _ => destruct o; [done|clear Hx]
  | Hx : is_sha256 ?x = true |- context [is_sha256 ?x] => rewrite Hx
  | Hx : is_runtime_identifier ?x = true |- context [is_runtime_identifier ?x] => rewrite Hx
  | Hx : is_some_and _ ?o = true |- context [is_some_and _ ?o] => rewrite Hx
  end; try done.

Lemma recovery_step_inv r c r' : recovery_step r c r' -> recovery_inv r -> recovery_inv r'.
Proof.
  intros Hs [Hv Hr]. pose proof (recovery_step_scope _ _ _ Hs) as Hsc.
  pose proof (recovery_valid_facts r Hv) as (Hmax & Hpa & Hfs & Hl & Ht & _ & _).
  assert (ra_status r <> RrFailed -> ra_process_attempt r = Z.of_nat (length (ra_failures r)) + 1) as Hat by (by apply running_attempt).
  split; [|destruct Hs; cbn; unfold failed_attempt; repeat case_match; cbn; lia].
  destruct Hs as [i now Hst|h now Hst|i th mp now Hst|h now Hst|class ev now Hst Hev Hn Hlen]; cbn [touched] in *.
  1-4: specialize (Hat ltac:(congruence)); apply (recovery_validate_intro r); try done; cbn;
    [lia|lia|lia|unfold process_attempt_matches; rewrite bool_decide_eq_false_2 by (cbn; congruence); cbn; lia
    |eapply failure_sequence_mono; [exact Hfs|done|cbn; lia]|recovery_fields Hl Hst].
  assert (ra_status r <> RrFailed) as Hnf by (intros Hx; rewrite Hx in Hst; done). specialize (Hat Hnf).
  unfold failed_attempt in *. destruct (Z.ltb_spec (ra_process_attempt r) (ra_max_process_attempts r));
    (apply (recovery_validate_intro r); try done; cbn; [lia|lia|lia| |]).
  - unfold process_attempt_matches. rewrite bool_decide_eq_false_2 by done. cbn. rewrite length_app; cbn.
    apply Z.eqb_eq. clear -Hat. lia.
  - eapply failure_sequence_snoc; [exact Hfs|done|cbn; lia|cbn; lia|done|cbn; lia].
  - unfold process_attempt_matches. rewrite bool_decide_eq_true_2 by done. cbn. rewrite length_app; cbn.
    rewrite andb_true_iff, !Z.eqb_eq. clear -Hat Hlen H1. lia.
  - eapply failure_sequence_snoc; [exact Hfs|done|cbn; lia|cbn; lia|done|cbn; lia].
Qed.

(** On a valid record the attempt number cannot overflow, so a failing call
    changes nothing. *)
Lemma failure_call_fails class evidence now r :
  recovery_validate_record r = Ok tt -> is_ok (run (record_process_failure class evidence now) r).1 = false ->
  (run (record_process_failure class evidence now) r).2 = r.
Proof.
  intros Hv. pose proof (recovery_valid_facts r Hv) as (Hmax & _). unfold record_process_failure.
  rewrite run_get_bind, run_reject_bind. case_match; [done|]. rewrite run_modify_bind.
  assert (forall (s t : RuntimeRecoveryAttempt), is_ok (run (S:=RuntimeRecoveryAttempt) match run (recovery_touch now) s with
      | (Ok _, self) => put self
      | (Err error, _) => put r;; fail error
      | (Panic, _) => lift Panic
      end t).1 = false -> (run (S:=RuntimeRecoveryAttempt) match run (recovery_touch now) s with
      | (Ok _, self) => put self
      | (Err error, _) => put r;; fail error
      | (Panic, _) => lift Panic
      end t).2 = r) as Hback.
  { intros s t. unfold recovery_touch, mbind, SR_mbind; cbn. unfold checked_add.
    by destruct (ra_revision s + 1 <=? u64_max). }
  destruct (Z.ltb_spec (ra_process_attempt r) (ra_max_process_attempts r)).
  - rewrite run_bind_assoc. assert (ok_or (checked_add u32_max (ra_process_attempt r) 1) CxRevisionOverflow
      = Ok (ra_process_attempt r + 1)) as -> by (apply ok_or_Ok, checked_add_Some; unfold u32_max; lia).
    rewrite (run_known_bind (lift _) _ _ (ra_process_attempt r + 1) _ eq_refl), run_modify_bind, run_get_bind. apply Hback.
  - rewrite run_modify_bind, run_get_bind. apply Hback.
Qed.
Lemma recovery_call_fails c r :
  recovery_validate_record r = Ok tt -> is_ok (run (recovery_call c) r).1 = false -> (run (recovery_call c) r).2 = r.
Proof.
  intros Hv. destruct c; cbn [recovery_call]; [..|by apply failure_call_fails];
    unfold recovery_mark_spawned, confirm_health, bind_thread, mark_attached; apply (atomic (S:=RuntimeRecoveryAttempt)).
Qed.
Lemma recovery_call_moves c r :
  recovery_inv r -> (is_ok (run (recovery_call c) r).1 = false /\ (run (recovery_call c) r).2 = r) \/
    (is_ok (run (recovery_call c) r).1 = true /\ recovery_step r c (run (recovery_call c) r).2).
Proof.
  intros [Hv _]. destruct (run (recovery_call c) r) as [[u| |] r'] eqn:Hr.
  - right. split; [done|]. by eapply recovery_call_step.
  - left. split; [done|]. pose proof (recovery_call_fails c r Hv) as Hf. rewrite Hr in Hf. by apply Hf.
  - left. split; [done|]. pose proof (recovery_call_fails c r Hv) as Hf. rewrite Hr in Hf. by apply Hf.
Qed.
Lemma recovery_run_inv cs r : recovery_inv r -> recovery_inv (recovery_run cs r) /\ recovery_scope (recovery_run cs r) = recovery_scope r.
Proof.
  revert r; induction cs as [|c cs IH]; intros r Hr; [done|]. cbn [recovery_run].
  destruct (recovery_call_moves c r Hr) as [[_ ->]|[_ Hs]]; [by apply IH|].
  destruct (IH _ (recovery_step_inv _ _ _ Hs Hr)) as [? Hsc]. split; [done|]. rewrite Hsc. by eapply recovery_step_scope.
Qed.

Lemma some_when {A} (p : A -> bool) o : is_some_and p o = true -> is_some o = true.
Proof. by destruct o. Qed.
(** Every step passes the append check. *)
Lemma recovery_step_follows r c r' :
  recovery_step r c r' -> recovery_inv r -> recovery_follows r' r = Ok true.
Proof.
  intros Hs [Hv _]. pose proof (recovery_step_scope _ _ _ Hs) as Hsc. unfold recovery_scope in Hsc. injection Hsc; intros.
  pose proof (recovery_valid_facts r Hv) as (Hmax & Hpa & _ & Hl & _).
  assert (ra_revision r' = ra_revision r + 1 /\ ra_revision r < u64_max /\ ra_updated_at r <= ra_updated_at r') as (Hr & Hrm & Hu).
  { destruct Hs; unfold failed_attempt; repeat case_match; cbn; lia. }
  unfold recovery_follows. rewrite (bool_decide_eq_true_2 (checked_add u64_max (ra_revision r) 1 = _)) by (rewrite checked_add_Some; lia).
  rewrite (proj2 (Z.leb_le _ _) Hu).
  repeat match goal with Hx : ?f r' = ?f r |- context [?f r'] => rewrite Hx end.
  rewrite !Z.eqb_refl, !(bool_decide_eq_true_2 (?[x] = ?x)) by done. cbn [andb]. rewrite !andb_true_r.
  clear Hsc. unfold mret, result_mret. f_equal. rewrite !orb_true_iff, !andb_true_iff, !bool_decide_eq_true.
  destruct Hs as [i now Hst|h now Hst|i th mp now Hst|h now Hst|class ev now Hst Hev Hn Hlen];
    [unfold lifecycle_fields_match in Hl; rewrite Hst in Hl; split_guards..|].
  - do 4 left. cbn. split_and!; done || apply Z.eqb_refl.
  - do 3 left; right. cbn. split_and!; done || by apply Z.eqb_refl || by (eapply some_when).
  - do 2 left; right. cbn. split_and!; done || apply Z.eqb_refl.
  - left; right. cbn. split_and!; done || apply Z.eqb_refl.
  - right. assert (ra_status r <> RrFailed) as Hnf by (intros Hx; rewrite Hx in Hst; done).
    pose proof (running_attempt r Hv Hnf) as Hat. unfold failed_attempt.
    destruct (Z.ltb_spec (ra_process_attempt r) (ra_max_process_attempts r)) as [Hlt|Hge]; cbn;
      rewrite length_app, last_snoc; cbn; (split_and!; try done; try apply Z.eqb_refl).
    1,6: by rewrite Hst.
    1,5: set_solver.
    1,4: apply Nat.eqb_refl.
    1,3: by apply prefix_app_r.
    + rewrite bool_decide_eq_true_2 by done. apply bool_decide_eq_true_2, checked_add_Some. unfold u32_max. lia.
    + rewrite bool_decide_eq_false_2 by done. rewrite Z.eqb_refl. apply Z.eqb_eq. clear -Hat Hlen Hge. lia.
Qed.

(** A failure with evidence is accepted while the recovery runs. *)
Lemma failure_recorded class evidence now r :
  recovery_inv r -> 1 <= ra_process_attempt r <= ra_max_process_attempts r -> ra_revision r < u64_max ->
  recovery_is_terminal (ra_status r) = false -> is_sha256 evidence = true -> ra_updated_at r <= now ->
  is_ok (run (record_process_failure class evidence now) r).1 = true.
Proof.
  intros [Hv _] Hp Hrev Ht Hev Hn. pose proof (recovery_valid_facts r Hv) as (Hmax & _).
  assert (ra_status r <> RrFailed) as Hnf by (intros Hx; rewrite Hx in Ht; done).
  pose proof (running_attempt r Hv Hnf) as Hat. unfold record_process_failure.
  rewrite run_get_bind, run_reject_bind. rewrite Ht, Hev. cbn [negb orb].
  rewrite (proj2 (Z.ltb_ge _ _)), (proj2 (Z.leb_gt _ _)) by lia. cbn [orb]. rewrite run_modify_bind.
  assert (forall s (t : RuntimeRecoveryAttempt), ra_revision s = ra_revision r -> is_ok (run (S:=RuntimeRecoveryAttempt)
      match run (recovery_touch now) s with
      | (Ok _, self) => put self
      | (Err error, _) => put r;; fail error
      | (Panic, _) => lift Panic
      end t).1 = true) as Hput.
  { intros s t Hs. assert (run (recovery_touch now) s = (Ok tt, touched now s)) as ->; [|done].
    apply recovery_touch_Ok. split; [done|]. by rewrite Hs. }
  destruct (Z.ltb_spec (ra_process_attempt r) (ra_max_process_attempts r)).
  - rewrite run_bind_assoc. assert (ok_or (checked_add u32_max (ra_process_attempt r) 1) CxRevisionOverflow
      = Ok (ra_process_attempt r + 1)) as -> by (apply ok_or_Ok, checked_add_Some; unfold u32_max; lia).
    rewrite (run_known_bind (lift _) _ _ (ra_process_attempt r + 1) _ eq_refl), run_modify_bind, run_get_bind. by apply Hput.
  - rewrite run_modify_bind, run_get_bind. by apply Hput.
Qed.

(** ** The retry budget *)

(** What is left to do: every call that succeeds lowers it. *)
Definition recovery_left (r : RuntimeRecoveryAttempt) : Z :=
  match ra_status r with
  | RrPrepared => 4 * (ra_max_process_attempts r - ra_process_attempt r) + 4
  | RrSpawned => 4 * (ra_max_process_attempts r - ra_process_attempt r) + 3
  | RrHealthy => 4 * (ra_max_process_attempts r - ra_process_attempt r) + 2
  | RrThreadBound => 4 * (ra_max_process_attempts r - ra_process_attempt r) + 1
  | RrAttached | RrFailed => 0
  end.
Definition count_recovered (ok : bool) : Z := if ok then 1 else 0.
Fixpoint recovery_successes (cs : list RecoveryCall) (r : RuntimeRecoveryAttempt) : Z :=
  match cs with
  | [] => 0
  | c :: cs => count_recovered (is_ok (run (recovery_call c) r).1) + recovery_successes cs (run (recovery_call c) r).2
  end.

Lemma attempt_within r : recovery_inv r -> 1 <= ra_process_attempt r <= ra_max_process_attempts r ->
  0 <= recovery_left r <= 4 * ra_max_process_attempts r.
Proof. intros _ Hp. unfold recovery_left. case_match; lia. Qed.

Definition recovery_bounded (r : RuntimeRecoveryAttempt) : Prop :=
  recovery_inv r /\ 1 <= ra_process_attempt r <= ra_max_process_attempts r.

Lemma recovery_step_left r c r' :
  recovery_step r c r' -> recovery_bounded r ->
  recovery_bounded r' /\ recovery_left r' + 1 <= recovery_left r /\ ra_revision r' = ra_revision r + 1.
Proof.
  intros Hs [Hi Hp]. split; [split; [by eapply recovery_step_inv|]|].
  - destruct Hs; cbn; try done. unfold failed_attempt. destruct (Z.ltb_spec (ra_process_attempt r) (ra_max_process_attempts r)); cbn; lia.
  - destruct Hs as [i now Hst|h now Hst|i th mp now Hst|h now Hst|class ev now Hst Hev Hn Hlen]; unfold recovery_left;
      [rewrite Hst; cbn; lia..|].
    unfold failed_attempt. destruct (Z.ltb_spec (ra_process_attempt r) (ra_max_process_attempts r)); cbn;
      (split; [|lia]); destruct (ra_status r); try done; lia.
Qed.

Lemma recovery_run_left cs r :
  recovery_bounded r ->
  recovery_bounded (recovery_run cs r) /\
  recovery_successes cs r + recovery_left (recovery_run cs r) <= recovery_left r /\
  ra_revision (recovery_run cs r) = ra_revision r + recovery_successes cs r.
Proof.
  revert r; induction cs as [|c cs IH]; intros r Hr; cbn [recovery_run recovery_successes]; [split; [done|lia]|].
  destruct (recovery_call_moves c r (proj1 Hr)) as [[-> ->]|[-> Hs]]; [apply (IH r Hr)|].
  destruct (recovery_step_left _ _ _ Hs Hr) as (Hr' & Hl & Hrev). destruct (IH _ Hr') as (? & ? & ?).
  split; [done|]. unfold count_recovered. lia.
Qed.

(** Calls that bring a prepared attempt to the point where a thread is bound. *)
Definition binding_calls (instance health thread mapping : string) (now : DateTime) : list RecoveryCall :=
  [RecSpawned instance now; RecHealthy health now; RecBound instance thread mapping now].
Definition bound_attempt (instance health thread mapping : string) (now : DateTime) (r : RuntimeRecoveryAttempt)
    : RuntimeRecoveryAttempt :=
  r <| ra_runtime_instance_digest := Some instance |> <| ra_health_digest := Some health |>
    <| ra_runtime_thread_id := Some thread |> <| ra_runtime_mapping_digest := Some mapping |>
    <| ra_status := RrThreadBound |> <| ra_revision := ra_revision r + 3 |> <| ra_updated_at := now |>.

Lemma guarded_touch (g : RuntimeRecoveryAttempt -> bool) e f now r :
  g r = false -> ra_revision (f r) < u64_max ->
  run (self ← get; reject (g self) e;; on_clone (modify f;; recovery_touch now)) r = (Ok tt, touched now (f r)).
Proof.
  intros Hg Hr. rewrite run_get_bind, run_reject_bind, Hg.
  assert (run (modify f;; recovery_touch now) r = (Ok tt, touched now (f r))) as Hm.
  { rewrite run_modify_bind. by apply recovery_touch_Ok. }
  unfold on_clone. cbn [run]. by rewrite Hm.
Qed.
(** A step other than a failure is what its call does. *)
Lemma recovery_step_run r c r' :
  recovery_step r c r' -> (forall class evidence now, c <> RecFailed class evidence now) ->
  run (recovery_call c) r = (Ok tt, r').
Proof.
  intros Hs Hc. destruct Hs; cbn [recovery_call]; [..|by edestruct Hc];
    unfold recovery_mark_spawned, confirm_health, bind_thread, mark_attached; (rewrite guarded_touch; [done| |done]).
  all: repeat (apply orb_false_iff; split); first [apply Z.ltb_ge; lia|apply negb_false_iff].
  all: first [done|by apply bool_decide_eq_true_2|by apply Z.eqb_eq].
Qed.

Lemma binding_calls_succeed instance health thread mapping now r :
  ra_status r = RrPrepared -> is_sha256 instance = true -> is_sha256 health = true ->
  is_runtime_identifier thread = true -> is_sha256 mapping = true -> ra_updated_at r <= now -> ra_revision r + 3 <= u64_max ->
  recovery_run (binding_calls instance health thread mapping now) r = bound_attempt instance health thread mapping now r.
Proof.
  intros Hs Hi Hh Ht Hm Hn Hr. cbn [recovery_run binding_calls].
  rewrite (recovery_step_run _ _ _ (rec_spawned r instance now Hs Hi Hn ltac:(lia))) by done. cbn [snd].
  erewrite (recovery_step_run _ (RecHealthy health now)) by (done || (apply rec_healthy; cbn; done || lia)). cbn [snd].
  erewrite (recovery_step_run _ (RecBound instance thread mapping now)) by (done || (apply rec_bound; cbn; done || lia)).
  unfold bound_attempt, touched. destruct r; cbn. f_equal. lia.
Qed.

Section prepared.
Context `{Sha256} `{ContextSerde} `{FoundationSerde}.

Lemma recovery_prepared id attached detached checkpoint config strategy thread limit now r :
  recovery_prepare id attached detached checkpoint config strategy thread limit now = Ok r ->
  recovery_bounded r /\ ra_status r = RrPrepared /\ ra_revision r = 1 /\ ra_max_process_attempts r = limit.
Proof.
  unfold recovery_prepare. intros Hp. inv_run.
  match goal with Hx : recovery_validate_for ?v _ _ _ = _ |- _ => assert (recovery_validate_record v = Ok tt) as Hv
    by (unfold recovery_validate_for in Hx; inv_run; match goal with Hy : recovery_validate_record _ = Ok ?u |- _ => by destruct u end) end.
  pose proof (recovery_valid_facts _ Hv) as (Hmax & _). split; [|done]. split; [split; [done|]|]; cbn in *; lia.
Qed.

(** [RuntimeRecoveryAttempt]: after any sequence of calls on a prepared
    recovery, the record still validates, its identity, epochs, checkpoint and
    limits are the prepared ones, the running attempt is one more than the
    failures in the ledger and stays within the limit of at most 16 attempts;
    a call that fails changes nothing, and a call that succeeds produces a
    record that [follows] accepts after the one before it. *)
Theorem recovery_ledger_is_exact id attached detached checkpoint config strategy thread limit now r0 cs :
  recovery_prepare id attached detached checkpoint config strategy thread limit now = Ok r0 ->
  let r := recovery_run cs r0 in
  recovery_validate_record r = Ok tt /\ recovery_scope r = recovery_scope r0 /\
  ra_process_attempt r <= limit <= 16 /\
  Z.of_nat (length (ra_failures r)) = ra_process_attempt r - (if bool_decide (ra_status r = RrFailed) then 0 else 1) /\
  forall c, let out := run (recovery_call c) r in
    (is_ok out.1 = false /\ out.2 = r) \/ (is_ok out.1 = true /\ recovery_follows out.2 r = Ok true).
Proof.
  intros Hp. destruct (recovery_prepared _ _ _ _ _ _ _ _ _ _ Hp) as (Hb & _ & _ & Hlim).
  destruct (recovery_run_left cs r0 Hb) as ((Hi & Ha) & _). destruct (recovery_run_inv cs r0 (proj1 Hb)) as [_ Hsc].
  pose proof (recovery_valid_facts _ (proj1 Hi)) as (Hmax & Hpa & _).
  assert (ra_max_process_attempts (recovery_run cs r0) = limit) as <-.
  { rewrite <- Hlim. by injection Hsc. }
  cbn zeta. split; [apply Hi|]. split; [done|]. split; [lia|]. split.
  - unfold process_attempt_matches in Hpa. case_bool_decide; lia.
  - intros c. destruct (recovery_call_moves c _ Hi) as [?|[Hok Hs]]; [by left|right]. split; [done|].
    by eapply recovery_step_follows.
Qed.

(** C28: The retries of a runtime recovery come to an end: however calls are
    made, at most four times the limit of attempts succeed, and when as many
    have, the recovery is attached or failed; before that it never gets stuck,
    since a process failure with evidence can always be recorded, without an
    overflow of its revision or attempt number. *)
Theorem recovery_comes_to_an_end id attached detached checkpoint config strategy thread limit now r0 cs :
  recovery_prepare id attached detached checkpoint config strategy thread limit now = Ok r0 ->
  let r := recovery_run cs r0 in
  recovery_successes cs r0 <= 4 * limit /\
  (recovery_successes cs r0 = 4 * limit -> recovery_is_terminal (ra_status r) = true) /\
  (recovery_is_terminal (ra_status r) = true -> forall c, is_ok (run (recovery_call c) r).1 = false) /\
  (recovery_is_terminal (ra_status r) = false -> forall class evidence now',
    is_sha256 evidence = true -> ra_updated_at r <= now' ->
    is_ok (run (recovery_call (RecFailed class evidence now')) r).1 = true).
Proof.
  intros Hp. destruct (recovery_prepared _ _ _ _ _ _ _ _ _ _ Hp) as (Hb & Hst & Hrev & Hlim).
  destruct (recovery_run_left cs r0 Hb) as (Hb' & Hleft & Hrev').
  pose proof (attempt_within _ (proj1 Hb) (proj2 Hb)) as H0l. pose proof (attempt_within _ (proj1 Hb') (proj2 Hb')) as H1l.
  cbn zeta. split; [lia|]. split; [|split].
  - intros Hs. assert (recovery_left (recovery_run cs r0) = 0) as Hz by lia. destruct Hb' as [_ Ha].
    unfold recovery_left in Hz. destruct (ra_status (recovery_run cs r0)); try done; lia.
  - intros Ht c. destruct (recovery_call_moves c _ (proj1 Hb')) as [[? _]|[_ Hs]]; [done|].
    destruct Hs as [? ? Hx|? ? Hx|? ? ? ? Hx|? ? Hx|? ? ? Hx]; by rewrite Hx in Ht.
  - intros Ht class ev now' Hev Hnow. apply failure_recorded; try done; [apply Hb'|apply Hb'|].
    pose proof (recovery_valid_facts _ (proj1 (proj1 Hb))) as (? & _). unfold u64_max. lia.
Qed.

Lemma recovery_prepared_for id attached detached checkpoint config strategy thread limit now r :
  recovery_prepare id attached detached checkpoint config strategy thread limit now = Ok r ->
  recovery_validate_for r detached checkpoint now = Ok tt /\ ra_updated_at r = now /\
  ra_source_attachment_epoch r = wh_attachment_epoch attached.
Proof. unfold recovery_prepare. intros Hp. inv_run. split; [done|]. done. Qed.

(** Which record belongs to which handle depends only on their identities and
    on the state both are in. *)
Lemma recovery_validate_for_intro r r' h h' checkpoint now now' :
  recovery_validate_for r h checkpoint now = Ok tt -> recovery_scope r' = recovery_scope r ->
  recovery_validate_record r' = Ok tt -> handle_state_matches r' h' = true -> ra_updated_at r' <= now' ->
  (wh_tenant_id h', wh_project_id h', wh_mission_id h', wh_workspace_id h', wh_worker_id h', wh_generation h')
  = (wh_tenant_id h, wh_project_id h, wh_mission_id h, wh_workspace_id h, wh_worker_id h, wh_generation h) ->
  recovery_validate_for r' h' checkpoint now' = Ok tt.
Proof.
  intros Hv Hs Hr Hh Hn Hw. unfold recovery_scope in Hs. injection Hs; intros. injection Hw; intros.
  unfold recovery_validate_for, same_digest in *. inv_run. split_guards.
  rewrite bind_Ok. exists tt. split; [done|]. rewrite bind_Ok. exists tt. split.
  { apply reject_if_Ok. repeat (apply orb_false_iff; split); apply negb_false_iff;
      first [congruence|apply bool_decide_eq_true_2; congruence]. }
  rewrite bind_Ok. exists tt. split.
  { rewrite bind_Ok. eexists. split; [eassumption|]. apply reject_if_Ok, negb_false_iff, bool_decide_eq_true_2. congruence. }
  apply reject_if_Ok. repeat (apply orb_false_iff; split); first [lia|apply negb_false_iff];
    first [congruence|apply bool_decide_eq_true_2; congruence].
Qed.

Lemma reattach_run epoch mapping now h :
  wh_status h = WhDetached -> wh_attachment_epoch h = epoch -> is_sha256 mapping = true -> wh_updated_at h <= now ->
  epoch < u64_max -> wh_revision h < u64_max ->
  run (reattach epoch mapping now) h = (Ok tt, h <| wh_attachment_epoch := epoch + 1 |> <| wh_status := WhAttached |>
    <| wh_runtime_mapping_digest := Some mapping |> <| wh_revision := wh_revision h + 1 |> <| wh_updated_at := now |>).
Proof.
  intros Hs He Hm Hn Hme Hr. unfold reattach. rewrite run_get_bind, run_reject_bind.
  rewrite Hs, He, Z.eqb_refl, Hm, (proj2 (Z.ltb_ge _ _)) by done. rewrite bool_decide_eq_true_2 by done. cbn [negb orb].
  apply run_on_clone_Ok. unfold checked_add. rewrite (proj2 (Z.leb_le _ _)) by lia. cbn.
  unfold mbind, SR_mbind, handle_touch; cbn. unfold checked_add. by rewrite (proj2 (Z.leb_le _ _)) by lia.
Qed.

(** C27: A recovery that goes well brings the worker back. From any prepared
    attempt, after however many failed ones, the steps spawn, health check and
    thread binding succeed, the detached handle reattaches with the mapping
    they produced, and the recovery is marked attached: the handle is then
    attached under the epoch after the lost one, the record validates for it
    and the same checkpoint, and whoever still holds the lost epoch is not
    authorized to execute. *)
Theorem recovery_reattaches_the_worker id attached detached checkpoint config strategy thread limit now r0 cs
    instance health thread' mapping now' :
  recovery_prepare id attached detached checkpoint config strategy thread limit now = Ok r0 ->
  let r := recovery_run cs r0 in
  ra_status r = RrPrepared -> wh_revision detached < u64_max ->
  is_sha256 instance = true -> is_sha256 health = true -> is_runtime_identifier thread' = true -> is_sha256 mapping = true ->
  ra_updated_at r <= now' -> wh_updated_at detached <= now' ->
  exists h r',
    run (reattach (wh_attachment_epoch attached) mapping now') detached = (Ok tt, h) /\
    run (mark_attached h now') (recovery_run (binding_calls instance health thread' mapping now') r) = (Ok tt, r') /\
    wh_status h = WhAttached /\ wh_attachment_epoch h = wh_attachment_epoch attached + 1 /\
    ra_status r' = RrAttached /\ ra_failures r' = ra_failures r /\
    recovery_validate_for r' h checkpoint now' = Ok tt /\
    forall capsule, execution_authorized h capsule (wh_attachment_epoch attached) = false.
Proof.
  intros Hp r Hst Hwr Hi Hh Ht Hm Hn Hnd.
  destruct (recovery_prepared _ _ _ _ _ _ _ _ _ _ Hp) as (Hb & _ & Hrev & Hlim).
  destruct (recovery_prepared_for _ _ _ _ _ _ _ _ _ _ Hp) as (Hv & Hup & Hse).
  destruct (recovery_run_left cs r0 Hb) as (Hb' & Hl & Hrev'). fold r in Hb', Hl, Hrev'.
  destruct (recovery_run_inv cs r0 (proj1 Hb)) as [_ Hsc]. fold r in Hsc.
  pose proof (attempt_within _ (proj1 Hb) (proj2 Hb)) as H0l. pose proof (attempt_within _ (proj1 Hb') (proj2 Hb')) as H1l.
  pose proof (recovery_valid_facts _ (proj1 (proj1 Hb))) as (Hmax & _ & _ & _ & _ & Hte & _).
  assert (ra_revision r <= 65) as Hr65 by lia.
  assert (wh_status detached = WhDetached /\ wh_attachment_epoch detached = wh_attachment_epoch attached /\
    wh_attachment_epoch attached < u64_max) as (Hds & Hde & Hem).
  { clear -Hp. unfold recovery_prepare in Hp. inv_run. added. split_guards. unfold recovery_validate_for in *. inv_run.
    split_guards. unfold handle_state_matches in *. cbn in *. split_guards. split; [done|]. lia. }
  pose proof (reattach_run _ mapping now' detached Hds Hde Hm Hnd Hem Hwr) as Hrun.
  set (h := _ <| wh_updated_at := now' |>) in Hrun.
  set (r1 := recovery_run (binding_calls instance health thread' mapping now') r).
  assert (r1 = bound_attempt instance health thread' mapping now' r) as Hr1.
  { apply binding_calls_succeed; done || (unfold u64_max; lia). }
  assert (ra_target_attachment_epoch r = wh_attachment_epoch attached + 1) as Hte' by (injection Hsc; intros; lia).
  assert (recovery_step r1 (RecAttached h now') (touched now' (r1 <| ra_status := RrAttached |>))) as Hstep.
  { rewrite Hr1. apply rec_attached; try done; cbn; unfold u64_max; lia. }
  destruct (recovery_run_inv (binding_calls instance health thread' mapping now') r (proj1 Hb')) as [Hi1 Hs1]. fold r1 in Hi1, Hs1.
  exists h, (touched now' (r1 <| ra_status := RrAttached |>)). split; [done|]. split; [by apply (recovery_step_run _ (RecAttached h now'))|].
  do 3 (split; [done|]). split; [by rewrite Hr1|]. split.
  - apply (recovery_validate_for_intro r0 _ detached _ _ now); [done| | | |done|done].
    + by rewrite <-Hsc, <-Hs1.
    + by eapply recovery_step_inv.
    + rewrite Hr1. unfold handle_state_matches; cbn. rewrite !bool_decide_eq_true_2 by done. rewrite Hte'.
      by rewrite Z.eqb_refl.
  - intros capsule. unfold execution_authorized; cbn. rewrite (proj2 (Z.eqb_neq _ _)) by lia. by rewrite andb_false_r.
Qed.
End prepared.

(** ** The properties at the demonstration worker *)
Import Prelude.Fixture Demo Crew Resume.
Definition first_fails : list RecoveryCall := [RecSpawned zeros64 (now + 6); RecFailed RfHealth zeros64 (now + 7)].

Lemma recovery_ledger_is_exact_witness :
  exists c r0, recovery_prepare "recovery" attached detached c zeros64 ResumeExisting (Some "thread-1") 2 (now + 5) = Ok r0 /\
    recovery_validate_record (recovery_run first_fails r0) = Ok tt.
Proof.
  destruct resume_set_up as (_ & c & r0 & _ & _ & _ & Hr & _). exists c, r0. split; [exact Hr|].
  exact (proj1 (recovery_ledger_is_exact _ _ _ _ _ _ _ _ _ r0 first_fails Hr)).
Defined.
Lemma recovery_comes_to_an_end_witness :
  exists c r0, recovery_prepare "recovery" attached detached c zeros64 ResumeExisting (Some "thread-1") 2 (now + 5) = Ok r0 /\
    recovery_successes first_fails r0 <= 8.
Proof.
  destruct resume_set_up as (_ & c & r0 & _ & _ & _ & Hr & _). exists c, r0. split; [exact Hr|].
  exact (proj1 (recovery_comes_to_an_end _ _ _ _ _ _ _ _ _ r0 first_fails Hr)).
Defined.

Lemma recovery_reattaches_the_worker_witness :
  exists c r0 h r', recovery_prepare "recovery" attached detached c zeros64 ResumeExisting (Some "thread-1") 2 (now + 5) = Ok r0 /\
    run (reattach 1 zeros64 (now + 8)) detached = (Ok tt, h) /\
    run (mark_attached h (now + 8)) (recovery_run (binding_calls zeros64 zeros64 "thread-2" zeros64 (now + 8))
      (recovery_run first_fails r0)) = (Ok tt, r') /\ wh_attachment_epoch h = 2.
Proof.
  assert (wh_revision detached < u64_max /\ wh_updated_at detached <= now + 8 /\ wh_attachment_epoch attached = 1) as (Hw & Hd & He)
    by (by vm_compute).
  assert (is_sha256 zeros64 = true /\ is_runtime_identifier "thread-2" = true) as (Hz & Hth)
    by (split; vm_compute; reflexivity).
  destruct resume_set_up as (_ & c & r0 & _ & _ & _ & Hr & _ & _ & _ & (Hs & Hu) & _).
  assert (ra_updated_at (recovery_run first_fails r0) <= now + 8) as Hn 
    by (change (recovery_run first_fails r0) with (run (record_process_failure RfHealth zeros64 (now + 7)) (run (recovery_mark_spawned zeros64 (now + 6)) r0).2).2; rewrite Hu; clear; lia).
  destruct (recovery_reattaches_the_worker "recovery" attached detached c zeros64 ResumeExisting (Some "thread-1") 2 (now + 5) r0
    first_fails zeros64 zeros64 "thread-2" zeros64 (now + 8) Hr Hs Hw Hz Hz Hth Hz Hn Hd) as (h & r' & Hh & Hm & _ & Hep & _).
  exists c, r0, h, r'. rewrite He in Hh, Hep. split; [exact Hr|]. split; [exact Hh|]. split; [exact Hm|]. exact Hep.
Defined.
