(* ===== verification/ProcessSafety.v ===== *)
(** * What process claims guarantee

    The claim on the operating system process of one recovery attempt stays
    valid, its cleanup evidence is numbered and only grows, and once the
    process is known to be gone the claim is final. *)
From S2P Require Import Mission MissionMachine MissionFixture WorkerFixture FoundationFixture.
From S2P Require Import Prelude Text Money Contract MissionTypes WorkProduct Effect Checkpoint Terminal Truth RuntimeTurn Context Worker WorkerSteps Foundation Recovery.

Inductive ProcessCall : Type :=
| ProcSpawned (identity : RuntimeProcessIdentity) (now : DateTime)
| ProcCleanup (disposition : RuntimeProcessCleanupDisposition) (evidence : string) (now : DateTime).

(** What a call may not change. *)
Definition process_scope (p : RuntimeProcessClaim) :=
  (pc_tenant_id p, pc_project_id p, pc_mission_id p, pc_recovery_id p, pc_workspace_id p, pc_worker_id p,
   pc_worker_generation p, pc_process_attempt p,
   (pc_runtime_config_digest p, pc_program_sha256 p, pc_launch_token p, pc_launch_token_digest p,
    pc_launch_executable_path p, pc_launch_executable_path_digest p, pc_created_at p)).

Section process.
Context `{!Sha256}.

Definition process_call (c : ProcessCall) : SR RuntimeProcessClaim ContextError unit :=
  match c with
  | ProcSpawned identity now => process_mark_spawned identity now
  | ProcCleanup disposition evidence now => record_cleanup disposition evidence now
  end.
Fixpoint process_run (cs : list ProcessCall) (p : RuntimeProcessClaim) : RuntimeProcessClaim :=
  match cs with [] => p | c :: cs => process_run cs (run (process_call c) p).2 end.

Definition process_touched (now : DateTime) (p : RuntimeProcessClaim) : RuntimeProcessClaim :=
  p <| pc_revision := pc_revision p + 1 |> <| pc_updated_at := now |>.
Definition next_evidence disposition evidence now (p : RuntimeProcessClaim) : RuntimeProcessCleanupEvidence :=
  mkCleanup (Z.of_nat (length (pc_cleanup_attempts p)) + 1) disposition evidence now.

Inductive process_step (p : RuntimeProcessClaim) : ProcessCall -> RuntimeProcessClaim -> Prop :=
| proc_spawned identity now : pc_status p = RpPrepared -> identity_validate identity = Ok tt -> pc_updated_at p <= now ->
    pc_revision p < u64_max ->
    process_step p (ProcSpawned identity now)
      (process_touched now (p <| pc_identity := Some identity |> <| pc_status := RpSpawned |>))
| proc_cleanup disposition evidence now : process_is_terminal (pc_status p) = false -> is_sha256 evidence = true ->
    pc_updated_at p <= now -> (length (pc_cleanup_attempts p) < 16)%nat -> pc_revision p < u64_max ->
    process_step p (ProcCleanup disposition evidence now)
      (process_touched now (p <| pc_cleanup_attempts ::= fun l => l ++ [next_evidence disposition evidence now p] |>
        <| pc_status := resulting_status disposition |>)).

Lemma process_touch_Ok now p u p' :
  run (process_touch now) p = (Ok u, p') ->
  p' = process_touched now p /\ pc_revision p < u64_max /\ process_validate_record p' = Ok tt.
Proof. unfold process_touch. intros Hr. inv_run. added. split; [done|]. split; [lia|done]. Qed.

Lemma process_call_step c p u p' :
  run (process_call c) p = (Ok u, p') -> process_step p c p' /\ process_validate_record p' = Ok tt.
Proof.
  destruct c; cbn [process_call]; unfold process_mark_spawned, record_cleanup; intros Hr; inv_run; split_guards;
    match goal with Hx : run (process_touch _) _ = _ |- _ => apply process_touch_Ok in Hx as (-> & ? & ?) end; (split; [|done]).
  - constructor; done || lia.
  - match goal with Hx : mbind _ _ = Some _ |- _ => apply bind_Some in Hx as (len & Hlen & Hx); unfold try_from_usize in Hlen;
      case_match; simplify_eq; apply checked_add_Some in Hx as [-> ?] end.
    match goal with Hx : Nat.leb MAX_CLEANUP_ATTEMPTS _ = false |- _ => apply Nat.leb_gt in Hx end.
    apply proc_cleanup; done || lia.
Qed.

Lemma process_call_moves c p :
  (is_ok (run (process_call c) p).1 = false /\ (run (process_call c) p).2 = p) \/
  (is_ok (run (process_call c) p).1 = true /\ process_step p c (run (process_call c) p).2 /\
   process_validate_record (run (process_call c) p).2 = Ok tt).
Proof.
  assert (Atomic (process_call c)) as Ha by (destruct c; cbn [process_call]; unfold process_mark_spawned, record_cleanup; apply _).
  specialize (Ha p). destruct (run (process_call c) p) as [[u| |] p'] eqn:Hr; [right|left; by split; [|apply Ha]..].
  split; [done|]. by eapply process_call_step.
Qed.

Lemma process_step_scope p c p' : process_step p c p' -> process_scope p' = process_scope p.
Proof. by destruct 1. Qed.
Lemma process_step_final p c p' : process_step p c p' -> process_is_terminal (pc_status p) = false.
Proof. destruct 1 as [? ? Hs|]; [by rewrite Hs|done]. Qed.

(** What a call that succeeds does to identity and evidence. *)
Lemma process_step_ledger p c p' :
  process_step p c p' -> process_validate_record p = Ok tt ->
  pc_cleanup_attempts p `prefix_of` pc_cleanup_attempts p' /\
  (forall identity, pc_identity p = Some identity -> pc_identity p' = Some identity).
Proof.
  destruct 1 as [identity now Hs|]; intros Hv; cbn; [|split; [by apply prefix_app_r|done]].
  split; [done|]. unfold process_validate_record in Hv. inv_run. split_guards.
  match goal with Hx : identity_matches _ = true |- _ => unfold identity_matches in Hx; rewrite Hs in Hx end.
  by destruct (pc_identity p).
Qed.

Lemma process_step_follows p c p' :
  process_step p c p' -> process_validate_record p = Ok tt -> process_validate_record p' = Ok tt ->
  process_follows p' p = Ok true.
Proof.
  intros Hs Hv Hv'. pose proof (process_step_scope _ _ _ Hs) as Hsc. unfold process_scope in Hsc. injection Hsc; intros.
  unfold process_follows. rewrite Hv, Hv'. cbn [mbind result_mbind].
  assert (checked_add u64_max (pc_revision p) 1 = Some (pc_revision p') /\ pc_updated_at p <= pc_updated_at p') as (Hr & Hu).
  { destruct Hs; cbn; (split; [apply checked_add_Some; lia|lia]). }
  rewrite (bool_decide_eq_true_2 _ Hr), (proj2 (Z.leb_le _ _) Hu).
  repeat match goal with Hx : ?f p' = ?f p |- context [?f p'] => rewrite Hx end.
  rewrite !Z.eqb_refl, !(bool_decide_eq_true_2 (?[x] = ?x)) by done. cbn [andb]. rewrite !andb_true_r.
  unfold mret, result_mret. f_equal. rewrite !orb_true_iff, !andb_true_iff, !bool_decide_eq_true. clear Hsc.
  destruct Hs as [identity now Hst|d ev now Hst].
  - left. cbn. split_and!; try done. unfold process_validate_record in Hv. inv_run. split_guards.
    match goal with Hx : identity_matches _ = true |- _ => unfold identity_matches in Hx; by rewrite Hst in Hx end.
  - right. cbn. rewrite length_app, take_app_length. rewrite Hst. split_and!; try done; [apply Nat.eqb_refl|].
    destruct d; set_solver.
Qed.

(** ** Evidence of a process that is gone is accepted *)
Lemma cleanup_sequence_snoc p p' k l e :
  cleanup_sequence_matches p k l = true -> pc_created_at p' = pc_created_at p -> pc_updated_at p <= pc_updated_at p' ->
  cl_sequence e = Z.of_nat (k + length l) + 1 -> is_sha256 (cl_evidence_digest e) = true ->
  pc_created_at p' <= cl_observed_at e <= pc_updated_at p' -> cleanup_sequence_matches p' k (l ++ [e]) = true.
Proof.
  intros Hl Hc Hu Hp Hd Ho. revert k Hl Hp; induction l as [|g l IH]; intros k Hl Hp;
    cbn [cleanup_sequence_matches app length] in *.
  - rewrite !andb_true_iff. split_and!; done || lia.
  - split_guards. rewrite !andb_true_iff. split_and!; try done; try lia. apply IH; done || lia.
Qed.

Lemma cleanup_step_valid p d ev now p' :
  process_step p (ProcCleanup d ev now) p' -> process_validate_record p = Ok tt -> 0 < pc_revision p ->
  process_validate_record p' = Ok tt.
Proof.
  intros Hs Hv Hr. inversion Hs as [|? ? ? Ht Hev Hn Hlen Hrev]; subst. unfold process_validate_record in *. inv_run.
  apply reject_if_Ok. split_guards. cbn. repeat (apply orb_false_iff; split); try done; try (apply negb_false_iff).
  all: try done.
  - by destruct d.
  - change (Nat.ltb MAX_CLEANUP_ATTEMPTS (length (pc_cleanup_attempts p ++ [next_evidence d ev now p])) = false).
    apply Nat.ltb_ge. rewrite length_app. cbn. unfold MAX_CLEANUP_ATTEMPTS. lia.
  - eapply cleanup_sequence_snoc; [done|done|done|done|done|cbn; lia].
  - rewrite last_snoc. cbn. by apply bool_decide_eq_true_2.
  - apply Z.eqb_neq. lia.
  - lia.
Qed.

Lemma cleanup_step_run p d ev now p' :
  process_step p (ProcCleanup d ev now) p' -> process_validate_record p = Ok tt -> 0 < pc_revision p ->
  run (record_cleanup d ev now) p = (Ok tt, p').
Proof.
  intros Hs Hv Hr. pose proof (cleanup_step_valid _ _ _ _ _ Hs Hv Hr) as Hv'.
  inversion Hs as [|? ? ? Ht Hev Hn Hlen Hrev]; subst. unfold record_cleanup. rewrite run_get_bind, run_reject_bind, Ht, Hev.
  rewrite (proj2 (Z.ltb_ge _ _)), (proj2 (Nat.leb_gt _ _)) by (done || (unfold MAX_CLEANUP_ATTEMPTS; lia)). cbn [negb orb].
  assert (ok_or (len ← try_from_usize u32_max (length (pc_cleanup_attempts p)); checked_add u32_max len 1) CxRevisionOverflow
    = Ok (Z.of_nat (length (pc_cleanup_attempts p)) + 1)) as ->.
  { apply ok_or_Ok. unfold try_from_usize. rewrite (proj2 (Z.leb_le _ _)) by (unfold u32_max; lia). cbn.
    apply checked_add_Some. unfold u32_max. lia. }
  rewrite (run_known_bind (lift _) _ _ (Z.of_nat (length (pc_cleanup_attempts p)) + 1) _ eq_refl).
  apply run_on_clone_Ok. rewrite run_modify_bind. unfold process_touch. rewrite run_get_bind.
  assert (checked_add u64_max (pc_revision p) 1 = Some (pc_revision p + 1)) as Hadd by (apply checked_add_Some; lia).
  rewrite (run_known_bind (lift _) _ _ (pc_revision p + 1) _) by (cbn; by rewrite Hadd).
  rewrite run_modify_bind, run_get_bind. unfold lift; cbn [run]. f_equal. exact Hv'.
Qed.

(** ** Reachable claims *)
Definition process_inv (p : RuntimeProcessClaim) : Prop :=
  process_validate_record p = Ok tt /\
  0 < pc_revision p <= Z.of_nat (length (pc_cleanup_attempts p)) + (if bool_decide (pc_status p = RpPrepared) then 1 else 2).
Lemma process_step_inv p c p' :
  process_step p c p' -> process_inv p -> process_validate_record p' = Ok tt -> process_inv p'.
Proof.
  intros Hs [Hv Hr] Hv'. split; [done|]. destruct Hs as [identity now Hst|d ev now]; cbn.
  - rewrite Hst, bool_decide_eq_true_2 in Hr by done. rewrite bool_decide_eq_false_2 by done. lia.
  - rewrite length_app; cbn. rewrite (bool_decide_eq_false_2 (resulting_status d = RpPrepared)) by (by destruct d).
    case_bool_decide; lia.
Qed.
Lemma process_run_inv cs p : process_inv p -> process_inv (process_run cs p) /\ process_scope (process_run cs p) = process_scope p.
Proof.
  revert p; induction cs as [|c cs IH]; intros p Hp; [done|]. cbn [process_run].
  destruct (process_call_moves c p) as [[_ ->]|(_ & Hs & Hv)]; [by apply IH|].
  destruct (IH _ (process_step_inv _ _ _ Hs Hp Hv)) as [? Hsc]. split; [done|]. rewrite Hsc. by eapply process_step_scope.
Qed.
Lemma process_valid_length p : process_validate_record p = Ok tt -> (length (pc_cleanup_attempts p) <= 16)%nat.
Proof.
  unfold process_validate_record. intros Hv. inv_run. split_guards.
  match goal with Hx : Nat.ltb MAX_CLEANUP_ATTEMPTS _ = false |- _ => by apply Nat.ltb_ge in Hx end.
Qed.

(** [RuntimeProcessClaim]: after any calls on a claim prepared for a
    recovery attempt, the claim validates, still names that recovery, attempt
    and launch, and holds at most 16 pieces of cleanup evidence; a call that
    fails changes nothing, one that succeeds passes the append check [follows],
    keeps the evidence before it and a recorded process identity; a terminated
    or exited claim is final; and while it is not final and fewer than 16
    cleanups were tried, evidence that the process was terminated is accepted
    and makes it final. *)
Theorem process_claims_end_with_evidence recovery program token path path_digest now p0 cs :
  process_prepare recovery program token path path_digest now = Ok p0 ->
  let p := process_run cs p0 in
  process_validate_record p = Ok tt /\ process_scope p = process_scope p0 /\
  pc_recovery_id p = ra_id recovery /\ pc_process_attempt p = ra_process_attempt recovery /\
  (length (pc_cleanup_attempts p) <= 16)%nat /\
  (forall c, let out := run (process_call c) p in
     (is_ok out.1 = false /\ out.2 = p) \/
     (is_ok out.1 = true /\ process_is_terminal (pc_status p) = false /\ process_follows out.2 p = Ok true /\
      pc_cleanup_attempts p `prefix_of` pc_cleanup_attempts out.2 /\
      (forall identity, pc_identity p = Some identity -> pc_identity out.2 = Some identity))) /\
  (forall evidence now', process_is_terminal (pc_status p) = false -> (length (pc_cleanup_attempts p) < 16)%nat ->
     is_sha256 evidence = true -> pc_updated_at p <= now' ->
     exists p', run (record_cleanup CdTerminated evidence now') p = (Ok tt, p') /\ pc_status p' = RpTerminated).
Proof.
  intros Hp p. assert (process_inv p0 /\ pc_recovery_id p0 = ra_id recovery /\ pc_process_attempt p0 = ra_process_attempt recovery)
    as (Hi0 & Hrec & Hatt).
  { unfold process_prepare in Hp. inv_run. split; [|done]. split; [done|]. cbn. rewrite bool_decide_eq_true_2 by done. lia. }
  destruct (process_run_inv cs p0 Hi0) as [Hi Hsc]. fold p in Hi, Hsc. pose proof (process_valid_length p (proj1 Hi)) as Hlen.
  split; [apply Hi|]. split; [done|]. split; [injection Hsc; congruence|]. split; [injection Hsc; congruence|]. split; [done|]. split.
  - intros c out. destruct (process_call_moves c p) as [?|(Hok & Hs & Hv)]; [by left|right]. split; [done|].
    split; [by eapply process_step_final|]. split; [eapply process_step_follows; [done|apply Hi|done]|].
    eapply process_step_ledger; [done|apply Hi].
  - intros ev now' Ht Hl Hev Hn. destruct Hi as [Hv Hr].
    assert (pc_revision p < u64_max) as Hm by (unfold u64_max; case_bool_decide; lia).
    eexists. split; [eapply cleanup_step_run; [by apply proc_cleanup|done|lia]|done].
Qed.
End process.

(** ** The property at the demonstration worker *)
Import Prelude.Fixture Demo Crew Resume.
Definition blocked_once : list ProcessCall :=
  [ProcSpawned process_identity (now + 7); ProcCleanup CdInspectionBlocked zeros64 (now + 8)].
Lemma process_claims_end_with_evidence_witness :
  exists r p0, process_prepare r zeros64 zeros64 launch_path zeros64 (now + 6) = Ok p0 /\
    process_validate_record (process_run blocked_once p0) = Ok tt.
Proof.
  destruct resume_set_up as (_ & c & r & p0 & _ & _ & _ & Hp & _). exists r, p0. split; [exact Hp|].
  exact (proj1 (process_claims_end_with_evidence r zeros64 zeros64 launch_path zeros64 (now + 6) p0 blocked_once Hp)).
Defined.
