(* ===== verification/Identity.v ===== *)
(** * People, partners, identity links and consent

    Models [domain-kernel/src/identity.rs]: the records of people, companies
    and partners, the decisions that link external identities to them, and the
    consent records an external effect's consent requirement is checked
    against. The requirement itself ([ConsentRequirement], [ConsentPurpose],
    [ContactChannel]) is in Effect, which carries it. *)
From S2P Require Import Prelude Text Money Contract MissionTypes Effect.

#[export] Instance ConsentPurpose_eq_dec : EqDecision ConsentPurpose.
Proof. solve_decision. Defined.
#[export] Instance ContactChannel_eq_dec : EqDecision ContactChannel.
Proof. solve_decision. Defined.

(** ** Data *)
Inductive IdentityError : Type :=
| IeInvalidPerson | IeInvalidCompany | IeInvalidPartner | IeInvalidIdentityLink | IeInsufficientConfirmationEvidence
| IeInvalidIdentityLinkDecision | IeInvalidIdentityLinkTransition | IeIdentityLinkTimestampRegression
| IeInvalidConsentRecord | IeConsentNotActive | IeRevisionOverflow.

Record ContactPoint : Type := mkContactPoint {
  co_channel : ContactChannel;
  co_encrypted_value_ref : string;
  co_value_digest : string;
  co_verified_at : option DateTime;
}.

Record Person : Type := mkPerson {
  pe_id : Id;
  pe_tenant_id : Id;
  pe_project_id : Id;
  pe_display_name : string;
  pe_company_id : option Id;
  pe_contacts : list ContactPoint;
  pe_revision : Z; (* u64 *)
}.

Record Company : Type := mkCompany {
  cy_id : Id;
  cy_tenant_id : Id;
  cy_project_id : Id;
  cy_legal_name : string;
  cy_market : string;
  cy_revision : Z; (* u64 *)
}.

Inductive PartnerSupplyClass : Type := OfficialAuthorizedNetwork | HartevoOptIn | TenantPrivate | PublicCandidate.
#[export] Instance PartnerSupplyClass_eq_dec : EqDecision PartnerSupplyClass.
Proof. solve_decision. Defined.
Inductive ContactPermission : Type :=
| PermResearchOnly | NetworkAuthorized | ExplicitOptIn | TenantOwnedRelationship | PermWithdrawn.
#[export] Instance ContactPermission_eq_dec : EqDecision ContactPermission.
Proof. solve_decision. Defined.

Record Partner : Type := mkPartner {
  pa_id : Id;
  pa_tenant_id : Id;
  pa_project_id : Id;
  pa_person_id : option Id;
  pa_company_id : option Id;
  pa_display_name : string;
  pa_supply_class : PartnerSupplyClass;
  pa_contact_permission : ContactPermission;
  pa_permission_evidence_digest : option string;
  pa_revision : Z; (* u64 *)
}.
#[export] Instance Partner_eta : Eta Partner := fun p =>
  mkPartner (pa_id p) (pa_tenant_id p) (pa_project_id p) (pa_person_id p) (pa_company_id p) (pa_display_name p)
    (pa_supply_class p) (pa_contact_permission p) (pa_permission_evidence_digest p) (pa_revision p).
#[export] Instance Partner_eq_dec : EqDecision Partner.
Proof. solve_decision. Defined.

(** The part of [creator_hiring.rs] the snapshot of a creator refers to. *)
Inductive CreatorCandidateStatus : Type :=
| CcResearchOnly | CcContactable | CcInvitationPrepared | CcInvited | CcApplied | CcAwarded | CcNotSelected | CcWithdrawn.
Record CreatorCandidate : Type := mkCandidate {
  cd_creator_id : Id;
  cd_partner_id : Id;
  cd_person_id : option Id;
  cd_supply_class : PartnerSupplyClass;
  cd_contact_permission : ContactPermission;
  cd_permission_evidence_digest : option string;
  cd_identity_evidence_digest : string;
  cd_fit_evidence_digest : string;
  cd_status : CreatorCandidateStatus;
  cd_added_at : DateTime;
}.

Record CreatorIdentitySnapshot : Type := mkCreatorSnapshot {
  ct_partner : Partner; ct_person : option Person; ct_company : option Company }.
Record ConversationIdentitySnapshot : Type := mkConversationSnapshot {
  cv_person : Person; cv_company : option Company }.

Inductive IdentitySubject : Type := SubPerson (id : Id) | SubCompany (id : Id) | SubPartner (id : Id).
#[export] Instance IdentitySubject_eq_dec : EqDecision IdentitySubject.
Proof. solve_decision. Defined.

Record ExternalIdentity : Type := mkExternalIdentity {
  xi_provider : string;
  xi_account_id : Id;
  xi_external_subject_digest : string;
  xi_encrypted_subject_ref : string;
  xi_evidence_digest : string;
}.
#[export] Instance ExternalIdentity_eq_dec : EqDecision ExternalIdentity.
Proof. solve_decision. Defined.
(** The derived [Ord], field by field. *)
Definition then_compare (first second : comparison) : comparison := match first with Eq => second | _ => first end.
Definition external_identity_compare (a b : ExternalIdentity) : comparison :=
  then_compare (String.compare (xi_provider a) (xi_provider b))
  (then_compare (String.compare (xi_account_id a) (xi_account_id b))
  (then_compare (String.compare (xi_external_subject_digest a) (xi_external_subject_digest b))
  (then_compare (String.compare (xi_encrypted_subject_ref a) (xi_encrypted_subject_ref b))
  (String.compare (xi_evidence_digest a) (xi_evidence_digest b))))).
(** A [BTreeSet] of external identities is the list of its elements in
    increasing order; collecting inserts one after the other. *)
Fixpoint insert_identity (x : ExternalIdentity) (l : list ExternalIdentity) : list ExternalIdentity :=
  match l with
  | [] => [x]
  | y :: rest =>
      match external_identity_compare x y with Eq => l | Lt => x :: l | Gt => y :: insert_identity x rest end
  end.
Definition collect_identities (l : list ExternalIdentity) : list ExternalIdentity := foldl (fun set x => insert_identity x set) [] l.

Inductive IdentityLinkStatus : Type := LkProposed | LkConfirmed | LkConflicted | LkRejected.
#[export] Instance IdentityLinkStatus_eq_dec : EqDecision IdentityLinkStatus.
Proof. solve_decision. Defined.

Record IdentityLinkDecision : Type := mkLinkDecision {
  ld_from : IdentityLinkStatus;
  ld_to : IdentityLinkStatus;
  ld_decided_by : Id;
  ld_evidence_digest : string;
  ld_decided_at : DateTime;
}.
#[export] Instance IdentityLinkDecision_eq_dec : EqDecision IdentityLinkDecision.
Proof. solve_decision. Defined.

Record IdentityLink : Type := mkIdentityLink {
  il_id : Id;
  il_tenant_id : Id;
  il_project_id : Id;
  il_subject : IdentitySubject;
  il_identities : list ExternalIdentity; (* BTreeSet *)
  il_confidence : Decimal;
  il_status : IdentityLinkStatus;
  il_decisions : list IdentityLinkDecision;
  il_revision : Z; (* u64 *)
}.
#[export] Instance IdentityLink_eta : Eta IdentityLink := fun l =>
  mkIdentityLink (il_id l) (il_tenant_id l) (il_project_id l) (il_subject l) (il_identities l) (il_confidence l)
    (il_status l) (il_decisions l) (il_revision l).

Inductive LegalBasis : Type := LbExplicitConsent | LbContract | LbLegitimateInterest | LbLegalObligation | LbNotRequired.
#[export] Instance LegalBasis_eq_dec : EqDecision LegalBasis.
Proof. solve_decision. Defined.
Inductive ConsentStatus : Type := CnGranted | CnDenied | CnWithdrawn | CnExpired.
#[export] Instance ConsentStatus_eq_dec : EqDecision ConsentStatus.
Proof. solve_decision. Defined.

Record ConsentRecord : Type := mkConsent {
  cs_id : Id;
  cs_tenant_id : Id;
  cs_project_id : Id;
  cs_person_id : Id;
  cs_purpose : ConsentPurpose;
  cs_channel : ContactChannel;
  cs_market : string;
  cs_legal_basis : LegalBasis;
  cs_status : ConsentStatus;
  cs_source : string;
  cs_evidence_digest : string;
  cs_granted_at : option DateTime;
  cs_valid_until : option DateTime;
  cs_withdrawn_at : option DateTime;
  cs_revision : Z; (* u64 *)
}.
#[export] Instance ConsentRecord_eta : Eta ConsentRecord := fun c =>
  mkConsent (cs_id c) (cs_tenant_id c) (cs_project_id c) (cs_person_id c) (cs_purpose c) (cs_channel c) (cs_market c)
    (cs_legal_basis c) (cs_status c) (cs_source c) (cs_evidence_digest c) (cs_granted_at c) (cs_valid_until c)
    (cs_withdrawn_at c) (cs_revision c).
#[export] Instance ConsentRecord_eq_dec : EqDecision ConsentRecord.
Proof. solve_decision. Defined.

(** [str::eq_ignore_ascii_case] *)
Definition to_ascii_lower (c : Ascii.ascii) : Ascii.ascii :=
  if (65 <=? byte c) && (byte c <=? 90) then Ascii.ascii_of_N (Z.to_N (byte c + 32)) else c.
Fixpoint eq_ignore_ascii_case (a b : string) : bool :=
  match a, b with
  | EmptyString, EmptyString => true
  | String x a, String y b => bool_decide (to_ascii_lower x = to_ascii_lower y) && eq_ignore_ascii_case a b
  | _, _ => false
  end.

(** Numeric order of decimals: [m1 / 10^s1 < m2 / 10^s2]. *)
Definition dec_ltb (a b : Decimal) : bool := dec_mantissa a * 10 ^ dec_scale b <? dec_mantissa b * 10 ^ dec_scale a.
Definition dec_eqb (a b : Decimal) : bool := dec_mantissa a * 10 ^ dec_scale b =? dec_mantissa b * 10 ^ dec_scale a.
Definition dec_zero : Decimal := mkDecimal 0 0.
Definition dec_one : Decimal := mkDecimal 1 0.
(** [Decimal::new(9, 1)] *)
Definition confirmation_confidence : Decimal := mkDecimal 9 1.

(** ** People and companies *)
(** [ContactPoint::is_invalid] *)
Definition contact_is_invalid (self : ContactPoint) : bool :=
  (negb (String.prefix "ciphertext://" (co_encrypted_value_ref self))
   && negb (String.prefix "secret://" (co_encrypted_value_ref self)))
  || negb (is_sha256 (co_value_digest self)).

Definition person_validate (self : Person) : result IdentityError unit :=
  let contact_digests : gset string := list_to_set (co_value_digest <$> pe_contacts self) in
  reject_if (trim_is_empty (pe_id self)
    || trim_is_empty (pe_tenant_id self)
    || trim_is_empty (pe_project_id self)
    || trim_is_empty (pe_display_name self)
    || (pe_revision self =? 0)
    || existsb contact_is_invalid (pe_contacts self)
    || negb (Nat.eqb (size contact_digests) (length (pe_contacts self)))) IeInvalidPerson.

Definition person_create (id tenant_id project_id : Id) (display_name : string) (company_id : option Id)
    (contacts : list ContactPoint) : result IdentityError Person :=
  let person := mkPerson id tenant_id project_id (trim display_name) company_id contacts 1 in
  person_validate person;;
  mret person.

Definition company_validate (self : Company) : result IdentityError unit :=
  reject_if (trim_is_empty (cy_id self)
    || trim_is_empty (cy_tenant_id self)
    || trim_is_empty (cy_project_id self)
    || trim_is_empty (cy_legal_name self)
    || trim_is_empty (cy_market self)
    || (cy_revision self =? 0)) IeInvalidCompany.

Definition company_create (id tenant_id project_id : Id) (legal_name market : string) : result IdentityError Company :=
  let company := mkCompany id tenant_id project_id (trim legal_name) (trim market) 1 in
  company_validate company;;
  mret company.

(** The check of an optional company both snapshots make. *)
Definition company_in_scope (company : option Company) (tenant_id project_id : Id) : result IdentityError unit :=
  match company with
  | Some company =>
      company_validate company;;
      reject_if (negb (bool_decide (cy_tenant_id company = tenant_id))
        || negb (bool_decide (cy_project_id company = project_id))) IeInvalidCompany
  | None => mret tt
  end.

(** [ConversationIdentitySnapshot::validate_for] *)
Definition conversation_snapshot_validate_for (self : ConversationIdentitySnapshot) (tenant_id project_id person_id : Id)
    (company_id : option Id) : result IdentityError unit :=
  person_validate (cv_person self);;
  reject_if (negb (bool_decide (pe_tenant_id (cv_person self) = tenant_id))
    || negb (bool_decide (pe_project_id (cv_person self) = project_id))
    || negb (bool_decide (pe_id (cv_person self) = person_id))
    || negb (bool_decide (pe_company_id (cv_person self) = company_id))
    || negb (bool_decide (cy_id <$> cv_company self = company_id))) IeInvalidPerson;;
  company_in_scope (cv_company self) tenant_id project_id.

(** ** Partners *)
Definition partner_permission_shape_valid (self : Partner) : bool :=
  let evidence_is_valid := is_some_and is_sha256 (pa_permission_evidence_digest self) in
  if bool_decide (pa_contact_permission self = PermWithdrawn)
  then negb (bool_decide (pa_supply_class self = PublicCandidate)) && evidence_is_valid
  else match pa_supply_class self with
       | PublicCandidate =>
           bool_decide (pa_contact_permission self = PermResearchOnly) && is_none (pa_permission_evidence_digest self)
       | OfficialAuthorizedNetwork => bool_decide (pa_contact_permission self = NetworkAuthorized) && evidence_is_valid
       | HartevoOptIn => bool_decide (pa_contact_permission self = ExplicitOptIn) && evidence_is_valid
       | TenantPrivate => bool_decide (pa_contact_permission self = TenantOwnedRelationship) && evidence_is_valid
       end.

Definition partner_validate (self : Partner) : result IdentityError unit :=
  reject_if (trim_is_empty (pa_id self)
    || trim_is_empty (pa_tenant_id self)
    || trim_is_empty (pa_project_id self)
    || trim_is_empty (pa_display_name self)
    || (pa_revision self =? 0)) IeInvalidPartner;;
  reject_if (negb (partner_permission_shape_valid self)) IeInvalidPartner.

Definition partner_create (id tenant_id project_id : Id) (person_id company_id : option Id) (display_name : string)
    (supply_class : PartnerSupplyClass) (contact_permission : ContactPermission)
    (permission_evidence_digest : option string) : result IdentityError Partner :=
  let partner := mkPartner id tenant_id project_id person_id company_id (trim display_name) supply_class
    contact_permission permission_evidence_digest 1 in
  partner_validate partner;;
  mret partner.

Definition can_contact (self : Partner) : bool :=
  match pa_supply_class self with
  | PublicCandidate => false
  | OfficialAuthorizedNetwork =>
      bool_decide (pa_contact_permission self = NetworkAuthorized) && is_some_and is_sha256 (pa_permission_evidence_digest self)
  | HartevoOptIn =>
      bool_decide (pa_contact_permission self = ExplicitOptIn) && is_some_and is_sha256 (pa_permission_evidence_digest self)
  | TenantPrivate =>
      bool_decide (pa_contact_permission self = TenantOwnedRelationship)
      && is_some_and is_sha256 (pa_permission_evidence_digest self)
  end.

Definition withdraw_contact_permission (evidence_digest : string) : SR Partner IdentityError unit :=
  self ← get;
  reject (negb (can_contact self) || negb (is_sha256 evidence_digest)) IeInvalidPartner;;
  next_revision ← lift (ok_or (checked_add u64_max (pa_revision self) 1) IeRevisionOverflow);
  let next := self <| pa_contact_permission := PermWithdrawn |>
    <| pa_permission_evidence_digest := Some evidence_digest |> <| pa_revision := next_revision |> in
  lift (partner_validate next);;
  put next.

Definition partner_follows (self previous : Partner) : result IdentityError bool :=
  partner_validate self;;
  partner_validate previous;;
  let immutable_scope_matches :=
    bool_decide (pa_id self = pa_id previous)
    && bool_decide (pa_tenant_id self = pa_tenant_id previous)
    && bool_decide (pa_project_id self = pa_project_id previous)
    && bool_decide (pa_person_id self = pa_person_id previous)
    && bool_decide (pa_company_id self = pa_company_id previous)
    && bool_decide (pa_display_name self = pa_display_name previous)
    && bool_decide (pa_supply_class self = pa_supply_class previous)
    && bool_decide (checked_add u64_max (pa_revision previous) 1 = Some (pa_revision self)) in
  if negb immutable_scope_matches then mret false else
  match pa_permission_evidence_digest self with
  | None => mret false
  | Some evidence_digest =>
      let '(outcome, candidate) := run (withdraw_contact_permission evidence_digest) previous in
      mret (is_ok outcome && bool_decide (candidate = self))
  end.

(** [CreatorIdentitySnapshot::validate_for_candidate] *)
Definition validate_for_candidate (self : CreatorIdentitySnapshot) (tenant_id project_id : Id)
    (candidate : CreatorCandidate) : result IdentityError unit :=
  let partner := ct_partner self in
  partner_validate partner;;
  reject_if (negb (bool_decide (pa_tenant_id partner = tenant_id))
    || negb (bool_decide (pa_project_id partner = project_id))
    || negb (bool_decide (pa_id partner = cd_partner_id candidate))
    || negb (bool_decide (pa_person_id partner = cd_person_id candidate))
    || negb (bool_decide (pa_supply_class partner = cd_supply_class candidate))
    || (negb (bool_decide (pa_contact_permission partner = PermWithdrawn))
        && (negb (bool_decide (pa_contact_permission partner = cd_contact_permission candidate))
            || negb (bool_decide (pa_permission_evidence_digest partner = cd_permission_evidence_digest candidate))))
    || negb (bool_decide (pa_person_id partner = pe_id <$> ct_person self))) IeInvalidPartner;;
  match ct_person self with
  | Some person =>
      person_validate person;;
      reject_if (negb (bool_decide (pe_tenant_id person = tenant_id))
        || negb (bool_decide (pe_project_id person = project_id))) IeInvalidPerson
  | None => mret tt
  end;;
  let person_company_id := person ← ct_person self; pe_company_id person in
  reject_if (is_some (pa_company_id partner) && is_some person_company_id
    && negb (bool_decide (pa_company_id partner = person_company_id))) IeInvalidPartner;;
  let expected_company_id := match pa_company_id partner with Some id => Some id | None => person_company_id end in
  reject_if (negb (bool_decide (expected_company_id = cy_id <$> ct_company self))) IeInvalidPartner;;
  company_in_scope (ct_company self) tenant_id project_id.

(** ** Identity links *)
Definition invalid_external_identity (identity : ExternalIdentity) : bool :=
  trim_is_empty (xi_provider identity)
  || trim_is_empty (xi_account_id identity)
  || negb (is_sha256 (xi_external_subject_digest identity))
  || trim_is_empty (xi_encrypted_subject_ref identity)
  || negb (is_sha256 (xi_evidence_digest identity)).

Definition identity_link_transition_allowed (from to : IdentityLinkStatus) : bool :=
  match from, to with
  | LkProposed, (LkConfirmed | LkConflicted | LkRejected)
  | LkConfirmed, LkConflicted
  | LkConflicted, (LkConfirmed | LkRejected) => true
  | _, _ => false
  end.

Definition subject_is_valid (self : IdentitySubject) : bool :=
  match self with SubPerson id | SubCompany id | SubPartner id => negb (trim_is_empty id) end.

(** The loop over the decisions in [IdentityLink::validate]: the status and
    the time the next decision has to start from. *)
Fixpoint decisions_validate (confidence : Decimal) (expected_status : IdentityLinkStatus)
    (previous_decided_at : option DateTime) (decisions : list IdentityLinkDecision)
    : result IdentityError IdentityLinkStatus :=
  match decisions with
  | [] => mret expected_status
  | decision :: rest =>
      reject_if (negb (bool_decide (ld_from decision = expected_status))
        || negb (identity_link_transition_allowed (ld_from decision) (ld_to decision))
        || trim_is_empty (ld_decided_by decision)
        || negb (is_sha256 (ld_evidence_digest decision))
        || is_some_and (fun previous => ld_decided_at decision <? previous) previous_decided_at
        || (bool_decide (ld_to decision = LkConfirmed) && dec_ltb confidence confirmation_confidence))
        IeInvalidIdentityLink;;
      decisions_validate confidence (ld_to decision) (Some (ld_decided_at decision)) rest
  end.

Definition link_validate (self : IdentityLink) : result IdentityError unit :=
  reject_if (trim_is_empty (il_id self)
    || trim_is_empty (il_tenant_id self)
    || trim_is_empty (il_project_id self)
    || negb (subject_is_valid (il_subject self))
    || bool_decide (il_identities self = [])
    || dec_ltb (il_confidence self) dec_zero
    || dec_ltb dec_one (il_confidence self)
    || existsb invalid_external_identity (il_identities self)
    || (il_revision self =? 0)) IeInvalidIdentityLink;;
  expected_revision ← ok_or (count ← try_from_usize u64_max (length (il_decisions self)); checked_add u64_max count 1)
    IeRevisionOverflow;
  reject_if (negb (il_revision self =? expected_revision)) IeInvalidIdentityLink;;
  expected_status ← decisions_validate (il_confidence self) LkProposed None (il_decisions self);
  reject_if (negb (bool_decide (expected_status = il_status self))) IeInvalidIdentityLink.

Definition link_propose (id tenant_id project_id : Id) (subject : IdentitySubject) (identities : list ExternalIdentity)
    (confidence : Decimal) : result IdentityError IdentityLink :=
  let identities := collect_identities identities in
  reject_if (trim_is_empty id
    || trim_is_empty tenant_id
    || trim_is_empty project_id
    || bool_decide (identities = [])
    || dec_ltb confidence dec_zero
    || dec_ltb dec_one confidence
    || existsb invalid_external_identity identities) IeInvalidIdentityLink;;
  mret (mkIdentityLink id tenant_id project_id subject identities confidence LkProposed [] 1).

Abbreviation link_op := (SR IdentityLink IdentityError) (only parsing).

Definition link_decide (to : IdentityLinkStatus) (actor : Id) (evidence_digest : string) (now : DateTime) : link_op unit :=
  self ← get;
  lift (link_validate self);;
  reject (trim_is_empty actor || negb (is_sha256 evidence_digest)) IeInvalidIdentityLinkDecision;;
  reject (negb (identity_link_transition_allowed (il_status self) to)) IeInvalidIdentityLinkTransition;;
  reject (is_some_and (fun decision => now <? ld_decided_at decision) (last (il_decisions self)))
    IeIdentityLinkTimestampRegression;;
  next_revision ← lift (ok_or (checked_add u64_max (il_revision self) 1) IeRevisionOverflow);
  let next := self
    <| il_decisions ::= fun l => l ++ [mkLinkDecision (il_status self) to actor evidence_digest now] |>
    <| il_status := to |> <| il_revision := next_revision |> in
  lift (link_validate next);;
  put next.

Definition link_confirm (actor : Id) (evidence_digest : string) (now : DateTime) : link_op unit :=
  self ← get;
  reject (dec_ltb (il_confidence self) confirmation_confidence) IeInsufficientConfirmationEvidence;;
  link_decide LkConfirmed actor evidence_digest now.
Definition mark_conflicted (actor : Id) (evidence_digest : string) (now : DateTime) : link_op unit :=
  link_decide LkConflicted actor evidence_digest now.
Definition link_reject (actor : Id) (evidence_digest : string) (now : DateTime) : link_op unit :=
  link_decide LkRejected actor evidence_digest now.

Definition link_follows (self previous : IdentityLink) : result IdentityError bool :=
  link_validate self;;
  link_validate previous;;
  let immutable_scope_matches :=
    bool_decide (il_id self = il_id previous)
    && bool_decide (il_tenant_id self = il_tenant_id previous)
    && bool_decide (il_project_id self = il_project_id previous)
    && bool_decide (il_subject self = il_subject previous)
    && bool_decide (il_identities self = il_identities previous)
    && dec_eqb (il_confidence self) (il_confidence previous) in
  let history_is_one_append :=
    Nat.eqb (length (il_decisions self)) (length (il_decisions previous) + 1)
    && bool_decide (il_decisions previous `prefix_of` il_decisions self) in
  mret (immutable_scope_matches
    && bool_decide (checked_add u64_max (il_revision previous) 1 = Some (il_revision self))
    && history_is_one_append).

Definition last_confirmation (self : IdentityLink) : option IdentityLinkDecision :=
  List.find (fun decision => bool_decide (ld_to decision = LkConfirmed)) (rev (il_decisions self)).

Definition confirms_external_identity (self : IdentityLink) (provider account_id : string) : bool :=
  bool_decide (il_status self = LkConfirmed)
  && existsb (fun identity => bool_decide (xi_provider identity = provider) && bool_decide (xi_account_id identity = account_id))
       (il_identities self).

(** ** Consent *)
Definition consent_grant (id tenant_id project_id person_id : Id) (purpose : ConsentPurpose) (channel : ContactChannel)
    (market : string) (legal_basis : LegalBasis) (source evidence_digest : string) (granted_at : DateTime)
    (valid_until : option DateTime) : result IdentityError ConsentRecord :=
  let market := trim market in
  let source := trim source in
  reject_if (trim_is_empty id
    || trim_is_empty tenant_id
    || trim_is_empty project_id
    || trim_is_empty person_id
    || String.eqb market ""
    || String.eqb source ""
    || negb (is_sha256 evidence_digest)
    || is_some_and (fun until => until <=? granted_at) valid_until) IeInvalidConsentRecord;;
  mret (mkConsent id tenant_id project_id person_id purpose channel market legal_basis CnGranted source evidence_digest
    (Some granted_at) valid_until None 1).

Definition permits (self : ConsentRecord) (person_id : Id) (purpose : ConsentPurpose) (channel : ContactChannel)
    (market : string) (now : DateTime) : bool :=
  bool_decide (cs_person_id self = person_id)
  && bool_decide (cs_purpose self = purpose)
  && bool_decide (cs_channel self = channel)
  && eq_ignore_ascii_case (cs_market self) market
  && bool_decide (cs_status self = CnGranted)
  && is_some_and (fun granted => granted <=? now) (cs_granted_at self)
  && is_none_or (fun until => now <? until) (cs_valid_until self)
  && is_none (cs_withdrawn_at self).

Definition permits_requirement (self : ConsentRecord) (requirement : ConsentRequirement) (now : DateTime) : bool :=
  permits self (cr_person_id requirement) (cr_purpose requirement) (cr_channel requirement) (cr_market requirement) now.

(** [a.zip(b).is_some_and(f)] *)
Definition both_and {A B} (f : A -> B -> bool) (a : option A) (b : option B) : bool :=
  match a, b with Some a, Some b => f a b | _, _ => false end.

Definition consent_state_shape_is_valid (self : ConsentRecord) : bool :=
  match cs_status self with
  | CnGranted => is_some (cs_granted_at self) && is_none (cs_withdrawn_at self)
  | CnWithdrawn =>
      both_and (fun granted withdrawn => granted <=? withdrawn) (cs_granted_at self) (cs_withdrawn_at self)
      && (2 <=? cs_revision self)
  | CnExpired =>
      is_some (cs_granted_at self) && is_some (cs_valid_until self) && is_none (cs_withdrawn_at self)
      && (2 <=? cs_revision self)
  | CnDenied => is_none (cs_granted_at self) && is_none (cs_valid_until self) && is_none (cs_withdrawn_at self)
  end.

Definition consent_validate (self : ConsentRecord) : result IdentityError unit :=
  reject_if (trim_is_empty (cs_id self)
    || trim_is_empty (cs_tenant_id self)
    || trim_is_empty (cs_project_id self)
    || trim_is_empty (cs_person_id self)
    || trim_is_empty (cs_market self)
    || trim_is_empty (cs_source self)
    || negb (is_sha256 (cs_evidence_digest self))
    || (cs_revision self =? 0)
    || both_and (fun granted until => until <=? granted) (cs_granted_at self) (cs_valid_until self))
    IeInvalidConsentRecord;;
  if consent_state_shape_is_valid self then mret tt else Err IeInvalidConsentRecord.

Definition consent_is_initial_snapshot (self : ConsentRecord) : result IdentityError bool :=
  consent_validate self;;
  mret (bool_decide (cs_status self = CnGranted)
    && is_some (cs_granted_at self)
    && is_none (cs_withdrawn_at self)
    && (cs_revision self =? 1)).

Definition withdraw (now : DateTime) : SR ConsentRecord IdentityError unit :=
  self ← get;
  lift (consent_validate self);;
  reject (negb (bool_decide (cs_status self = CnGranted))) IeConsentNotActive;;
  reject (is_none_or (fun granted_at => now <? granted_at) (cs_granted_at self)) IeInvalidConsentRecord;;
  next_revision ← lift (ok_or (checked_add u64_max (cs_revision self) 1) IeRevisionOverflow);
  let next := self <| cs_status := CnWithdrawn |> <| cs_withdrawn_at := Some now |> <| cs_revision := next_revision |> in
  lift (consent_validate next);;
  put next.

Definition consent_expire (now : DateTime) : SR ConsentRecord IdentityError unit :=
  self ← get;
  lift (consent_validate self);;
  reject (negb (bool_decide (cs_status self = CnGranted))) IeConsentNotActive;;
  reject (is_none_or (fun valid_until => now <? valid_until) (cs_valid_until self)) IeInvalidConsentRecord;;
  next_revision ← lift (ok_or (checked_add u64_max (cs_revision self) 1) IeRevisionOverflow);
  let next := self <| cs_status := CnExpired |> <| cs_revision := next_revision |> in
  lift (consent_validate next);;
  put next.

Definition consent_follows (self previous : ConsentRecord) : result IdentityError bool :=
  consent_validate self;;
  consent_validate previous;;
  let immutable_scope_matches :=
    bool_decide (cs_id self = cs_id previous)
    && bool_decide (cs_tenant_id self = cs_tenant_id previous)
    && bool_decide (cs_project_id self = cs_project_id previous)
    && bool_decide (cs_person_id self = cs_person_id previous)
    && bool_decide (cs_purpose self = cs_purpose previous)
    && bool_decide (cs_channel self = cs_channel previous)
    && bool_decide (cs_market self = cs_market previous)
    && bool_decide (cs_legal_basis self = cs_legal_basis previous)
    && bool_decide (cs_source self = cs_source previous)
    && bool_decide (cs_evidence_digest self = cs_evidence_digest previous)
    && bool_decide (cs_granted_at self = cs_granted_at previous)
    && bool_decide (cs_valid_until self = cs_valid_until previous)
    && bool_decide (checked_add u64_max (cs_revision previous) 1 = Some (cs_revision self)) in
  if negb immutable_scope_matches then mret false else
  match cs_status self with
  | CnWithdrawn =>
      match cs_withdrawn_at self with
      | None => mret false
      | Some withdrawn_at =>
          let '(outcome, candidate) := run (withdraw withdrawn_at) previous in
          mret (is_ok outcome && bool_decide (candidate = self))
      end
  | CnExpired =>
      match cs_valid_until self with
      | None => mret false
      | Some valid_until =>
          let '(outcome, candidate) := run (consent_expire valid_until) previous in
          mret (is_ok outcome && bool_decide (candidate = self))
      end
  | CnGranted | CnDenied => mret false
  end.
