(* ===== verification/IdentitySafety.v ===== *)
(** * What partners, identity links and consent guarantee

    A consent record permits exactly the scope it was granted for, until it
    ends, and never again after it was withdrawn or expired; a partner whose
    permission was withdrawn stays out of reach; an identity counts as
    confirmed only on a decision with evidence; and the append checks of the
    three records accept exactly what the calls produce. *)
From S2P Require Import Prelude Text Money Contract MissionTypes Effect Identity.

(** Replaying a call on the previous revision and comparing the result. *)
Lemma replayed {E S} `{EqDecision S} (out : result E unit * S) (s : S) :
  (let '(outcome, candidate) := out in mret (M:=result E) (is_ok outcome && bool_decide (candidate = s))) = Ok true ->
  out = (Ok tt, s).
Proof. destruct out as [[[]| |] c]; intros [= Ho]; try done. apply bool_decide_eq_true in Ho. by subst. Qed.

(** ** Consent *)
Inductive ConsentCall : Type := ConsentWithdraw (now : DateTime) | ConsentExpire (now : DateTime).
Definition consent_call (c : ConsentCall) : SR ConsentRecord IdentityError unit :=
  match c with ConsentWithdraw now => withdraw now | ConsentExpire now => consent_expire now end.
Fixpoint consent_run (cs : list ConsentCall) (r : ConsentRecord) : ConsentRecord :=
  match cs with [] => r | c :: cs => consent_run cs (run (consent_call c) r).2 end.

Definition ended (status : ConsentStatus) (withdrawn_at : option DateTime) (r : ConsentRecord) : ConsentRecord :=
  r <| cs_status := status |> <| cs_withdrawn_at := withdrawn_at |> <| cs_revision := cs_revision r + 1 |>.

Lemma withdraw_Ok now r u r' :
  run (withdraw now) r = (Ok u, r') ->
  consent_validate r = Ok tt /\ consent_validate r' = Ok tt /\ cs_status r = CnGranted /\ cs_revision r < u64_max /\
  r' = ended CnWithdrawn (Some now) r.
Proof.
  unfold withdraw. intros Hr. inv_run. split_guards.
  match goal with Hx : checked_add _ _ _ = Some _ |- _ => apply checked_add_Some in Hx as [-> ?] end.
  split_and!; try done. lia.
Qed.
Lemma consent_expire_Ok now r u r' :
  run (consent_expire now) r = (Ok u, r') ->
  consent_validate r = Ok tt /\ consent_validate r' = Ok tt /\ cs_status r = CnGranted /\ cs_revision r < u64_max /\
  (exists until, cs_valid_until r = Some until /\ until <= now) /\
  r' = r <| cs_status := CnExpired |> <| cs_revision := cs_revision r + 1 |>.
Proof.
  unfold consent_expire. intros Hr. inv_run. split_guards.
  match goal with Hx : checked_add _ _ _ = Some _ |- _ => apply checked_add_Some in Hx as [-> ?] end.
  split_and!; try done; [lia|].
  destruct (cs_valid_until r) as [until|]; [|done]. exists until. split; [done|]. cbn in *. lia.
Qed.

(** Expiry leaves the same record whenever it is noticed. *)
Lemma consent_expire_at_end now r u r' until :
  run (consent_expire now) r = (Ok u, r') -> cs_valid_until r = Some until ->
  run (consent_expire until) r = (Ok tt, r').
Proof.
  intros Hr Hu. pose proof (consent_expire_Ok _ _ _ _ Hr) as (Hv & Hv' & Hs & Hrev & _ & ->).
  unfold consent_expire. rewrite run_get_bind. rewrite (run_known_bind (lift _) _ _ tt _) by (cbn; by rewrite Hv).
  rewrite run_reject_bind, Hs, bool_decide_eq_true_2 by done. cbn [negb]. rewrite run_reject_bind, Hu. cbn [is_none_or].
  rewrite Z.ltb_irrefl. assert (checked_add u64_max (cs_revision r) 1 = Some (cs_revision r + 1)) as Ha
    by (apply checked_add_Some; lia).
  rewrite (run_known_bind (lift _) _ _ (cs_revision r + 1) _) by (cbn; by rewrite Ha).
  rewrite (run_known_bind (lift _) _ _ tt _) by (unfold lift; cbn [run]; f_equal; exact Hv'). done.
Qed.

(** What no call changes. *)
Definition consent_scope (r : ConsentRecord) :=
  (cs_id r, cs_tenant_id r, cs_project_id r, cs_person_id r, cs_purpose r, cs_channel r, cs_market r,
   (cs_legal_basis r, cs_source r, cs_evidence_digest r, cs_granted_at r, cs_valid_until r)).
Lemma consent_call_scope c r r' :
  run (consent_call c) r = (Ok tt, r') ->
  consent_validate r = Ok tt /\ consent_validate r' = Ok tt /\ consent_scope r' = consent_scope r /\
  checked_add u64_max (cs_revision r) 1 = Some (cs_revision r').
Proof.
  destruct c; cbn [consent_call]; [intros (? & ? & _ & ? & ->)%withdraw_Ok|intros (? & ? & _ & ? & _ & ->)%consent_expire_Ok];
    (split; [done|]); (split; [done|]); (split; [done|]); apply checked_add_Some; cbn; lia.
Qed.

(** The append check of consent records, which decides what storage and
    synchronisation accept as the next revision, accepts exactly the records
    that a withdrawal or an expiry of the previous revision produces. *)
Theorem consent_follows_exactly_the_calls r' r :
  consent_follows r' r = Ok true <-> exists c, run (consent_call c) r = (Ok tt, r').
Proof.
  split.
  - unfold consent_follows. intros Hf. inv_run. case_match; [done|].
    destruct (cs_status r'); [done|done|..].
    + destruct (cs_withdrawn_at r') as [t|]; [|done]. exists (ConsentWithdraw t). cbn [consent_call]. by apply replayed.
    + destruct (cs_valid_until r') as [t|]; [|done]. exists (ConsentExpire t). cbn [consent_call]. by apply replayed.
  - intros [c Hr]. destruct (consent_call_scope _ _ _ Hr) as (Hv & Hv' & Hsc & Hrev). injection Hsc; intros.
    unfold consent_follows. rewrite Hv, Hv', !bool_decide_eq_true_2 by congruence. cbn [mbind result_mbind andb negb].
    destruct c; cbn [consent_call] in Hr.
    + pose proof (withdraw_Ok _ _ _ _ Hr) as (_ & _ & _ & _ & He).
      replace (cs_status r') with CnWithdrawn by (by rewrite He). replace (cs_withdrawn_at r') with (Some now) by (by rewrite He).
      by rewrite Hr, bool_decide_eq_true_2.
    + pose proof (consent_expire_Ok _ _ _ _ Hr) as (_ & _ & _ & _ & (until & Hu & _) & He).
      replace (cs_status r') with CnExpired by (by rewrite He). replace (cs_valid_until r') with (Some until) by (by rewrite He).
      by rewrite (consent_expire_at_end _ _ _ _ _ Hr Hu), bool_decide_eq_true_2.
Qed.

Lemma consent_call_moves c r :
  (is_ok (run (consent_call c) r).1 = false /\ (run (consent_call c) r).2 = r) \/
  (is_ok (run (consent_call c) r).1 = true /\ cs_status r = CnGranted /\ cs_status (run (consent_call c) r).2 <> CnGranted).
Proof.
  assert (Atomic (consent_call c)) as Ha by (destruct c; cbn [consent_call]; unfold withdraw, consent_expire; apply _).
  specialize (Ha r). destruct (run (consent_call c) r) as [[u| |] r'] eqn:Hr; [right|left; by split; [|apply Ha]..].
  split; [done|]. destruct c; cbn [consent_call] in Hr.
  - apply withdraw_Ok in Hr as (_ & _ & ? & _ & ->). done.
  - apply consent_expire_Ok in Hr as (_ & _ & ? & _ & _ & ->). done.
Qed.
Lemma ended_for_good cs r : cs_status r <> CnGranted -> consent_run cs r = r.
Proof.
  intros Hr. induction cs as [|c cs IH]; [done|]. cbn [consent_run].
  destruct (consent_call_moves c r) as [[_ ->]|(_ & Hs & _)]; done.
Qed.
Lemma granted_is_unchanged cs r : cs_status (consent_run cs r) = CnGranted -> consent_run cs r = r.
Proof.
  revert r; induction cs as [|c cs IH]; intros r Hr; [done|]. cbn [consent_run] in *.
  destruct (consent_call_moves c r) as [[_ Hs]|(_ & _ & Hs)]; [rewrite Hs in *; by apply IH|].
  by rewrite ended_for_good in Hr.
Qed.

(** What a grant leaves. *)
Lemma consent_granted id tenant project person purpose channel market basis source evidence granted until r :
  consent_grant id tenant project person purpose channel market basis source evidence granted until = Ok r ->
  consent_validate r = Ok tt /\ cs_status r = CnGranted /\ cs_granted_at r = Some granted /\ cs_valid_until r = until /\
  cs_withdrawn_at r = None /\ cs_revision r = 1 /\ cs_person_id r = person /\ cs_purpose r = purpose /\
  cs_channel r = channel /\ cs_market r = trim market.
Proof.
  unfold consent_grant. intros Hg. inv_run. split_guards. split; [|done].
  unfold consent_validate. rewrite bind_Ok. exists tt. split; [|done]. apply reject_if_Ok.
  cbn [cs_id cs_tenant_id cs_project_id cs_person_id cs_market cs_source cs_evidence_digest cs_revision cs_granted_at cs_valid_until].
  rewrite !trim_blank. repeat (apply orb_false_iff; split); try done.
  by apply negb_false_iff.
Qed.

(** A withdrawal of a valid grant succeeds. *)
Lemma withdraw_succeeds now r granted :
  consent_validate r = Ok tt -> cs_status r = CnGranted -> cs_granted_at r = Some granted -> granted <= now ->
  0 < cs_revision r < u64_max -> run (withdraw now) r = (Ok tt, ended CnWithdrawn (Some now) r).
Proof.
  intros Hv Hs Hg Hn Hrev. assert (consent_validate (ended CnWithdrawn (Some now) r) = Ok tt) as Hv'.
  { unfold consent_validate in *. inv_run. split_guards. rewrite bind_Ok. exists tt. split.
    - apply reject_if_Ok. cbn. repeat (apply orb_false_iff; split); try done; [by apply negb_false_iff|lia].
    - unfold consent_state_shape_is_valid; cbn. rewrite Hg. cbn. rewrite (proj2 (Z.leb_le _ _) Hn), (proj2 (Z.leb_le _ _)) by lia. done. }
  unfold withdraw. rewrite run_get_bind. rewrite (run_known_bind (lift _) _ _ tt _) by (cbn; by rewrite Hv).
  rewrite run_reject_bind, Hs, bool_decide_eq_true_2 by done. cbn [negb]. rewrite run_reject_bind, Hg. cbn [is_none_or].
  rewrite (proj2 (Z.ltb_ge _ _)) by lia. assert (checked_add u64_max (cs_revision r) 1 = Some (cs_revision r + 1)) as Ha
    by (apply checked_add_Some; lia).
  rewrite (run_known_bind (lift _) _ _ (cs_revision r + 1) _) by (cbn; by rewrite Ha).
  rewrite (run_known_bind (lift _) _ _ tt _) by (unfold lift; cbn [run]; f_equal; exact Hv'). done.
Qed.

(** C31: Consent is never wider or longer than what was granted. After any
    calls on a granted record, it permits a requirement at a time exactly when
    no call has ended it, person, purpose and channel are the granted ones, the
    market is the same up to letter case, and the time is within the granted
    period; while it has not ended, the person can withdraw it at any time
    after the grant, and after that nothing is ever permitted again. *)
Theorem consent_permits_exactly_its_grant id tenant project person purpose channel market basis source evidence granted until r0 cs :
  consent_grant id tenant project person purpose channel market basis source evidence granted until = Ok r0 ->
  let r := consent_run cs r0 in
  (forall req now, permits_requirement r req now = true <->
     r = r0 /\ cr_person_id req = person /\ cr_purpose req = purpose /\ cr_channel req = channel /\
     eq_ignore_ascii_case (trim market) (cr_market req) = true /\ granted <= now /\
     match until with Some until => now < until | None => True end) /\
  (r = r0 -> forall at_, granted <= at_ -> exists r', run (withdraw at_) r = (Ok tt, r') /\
     forall more req now, permits_requirement (consent_run more r') req now = false).
Proof.
  intros Hg r. destruct (consent_granted _ _ _ _ _ _ _ _ _ _ _ _ _ Hg)
    as (Hv & Hs & Hga & Hu & Hw & Hrev & <- & <- & <- & Hm). split.
  - intros req now. unfold permits_requirement, permits. rewrite !andb_true_iff, !bool_decide_eq_true. split.
    + intros (((((((H1 & H2) & H3) & H4) & H5) & H6) & H7) & H8). apply granted_is_unchanged in H5. fold r in H5.
      rewrite H5 in *. rewrite Hga in H6. rewrite Hm in H4. rewrite Hu in H7. cbn in H6.
      split_and!; try done; [lia|]. destruct until; [cbn in H7; lia|done].
    + intros (-> & H1 & H2 & H3 & H4 & H5 & H6). rewrite Hm, Hga, Hu, Hw. cbn.
      split_and!; try done; [lia|]. destruct until; cbn; [lia|done].
  - intros -> at_ Ha. eexists. split; [apply (withdraw_succeeds _ _ granted); try done; rewrite Hrev; done|].
    intros more req now. rewrite ended_for_good by done. unfold permits_requirement, permits; cbn.
    by rewrite !andb_false_r.
Qed.

(** ** Partners *)
Fixpoint partner_run (evidence : list string) (p : Partner) : Partner :=
  match evidence with [] => p | e :: rest => partner_run rest (run (withdraw_contact_permission e) p).2 end.

Lemma partner_withdraw_Ok e p u p' :
  run (withdraw_contact_permission e) p = (Ok u, p') ->
  can_contact p = true /\ partner_validate p' = Ok tt /\ pa_revision p < u64_max /\
  p' = p <| pa_contact_permission := PermWithdrawn |> <| pa_permission_evidence_digest := Some e |>
         <| pa_revision := pa_revision p + 1 |>.
Proof.
  unfold withdraw_contact_permission. intros Hr. inv_run. split_guards.
  match goal with Hx : checked_add _ _ _ = Some _ |- _ => apply checked_add_Some in Hx as [-> ?] end.
  split_and!; try done. lia.
Qed.
Lemma partner_call_moves e p :
  (is_ok (run (withdraw_contact_permission e) p).1 = false /\ (run (withdraw_contact_permission e) p).2 = p) \/
  (is_ok (run (withdraw_contact_permission e) p).1 = true /\ can_contact p = true /\
   can_contact (run (withdraw_contact_permission e) p).2 = false /\
   partner_validate (run (withdraw_contact_permission e) p).2 = Ok tt).
Proof.
  assert (Atomic (withdraw_contact_permission e)) as Ha by (unfold withdraw_contact_permission; apply _).
  specialize (Ha p). destruct (run (withdraw_contact_permission e) p) as [[u| |] p'] eqn:Hr; [right|left; by split; [|apply Ha]..].
  apply partner_withdraw_Ok in Hr as (Hc & Hv & _ & ->). split_and!; try done.
  unfold can_contact; cbn. by destruct (pa_supply_class p).
Qed.

(** A partner's withdrawal is honoured for good. After any sequence of
    calls on a created partner, the record is valid; it may be contacted
    exactly when it is not a public candidate and its permission is not
    withdrawn, and then the record is the created one; a partner that may not be
    contacted never may be again; and the append check accepts as the next
    revision exactly what a withdrawal produces. *)
Theorem partner_withdrawal_is_final id tenant project person company name class permission evidence p0 es :
  partner_create id tenant project person company name class permission evidence = Ok p0 ->
  let p := partner_run es p0 in
  partner_validate p = Ok tt /\
  (can_contact p = true <-> pa_supply_class p <> PublicCandidate /\ pa_contact_permission p <> PermWithdrawn) /\
  (can_contact p = true -> p = p0) /\
  (forall more, can_contact p = false -> partner_run more p = p) /\
  (forall p', partner_follows p' p = Ok true <-> exists e, run (withdraw_contact_permission e) p = (Ok tt, p')).
Proof.
  intros Hc p. assert (partner_validate p0 = Ok tt) as Hv0.
  { unfold partner_create in Hc. inv_run. match goal with Hx : _ = Ok ?u |- _ => by destruct u end. }
  assert (forall es q, can_contact q = false -> partner_run es q = q) as Hstay.
  { clear. intros es q Hq. induction es as [|e es IH]; [done|]. cbn [partner_run].
    destruct (partner_call_moves e q) as [[_ ->]|(_ & Hx & _)]; [done|congruence]. }
  assert (partner_validate p = Ok tt /\ (can_contact p = true -> p = p0)) as [Hv Hsame].
  { subst p. clear -Hv0 Hstay. induction es as [|e es IH] in p0, Hv0 |- *; [done|]. cbn [partner_run].
    destruct (partner_call_moves e p0) as [[_ ->]|(_ & _ & Hx & Hv)]; [by apply IH|]. rewrite Hstay by done.
    split; [done|congruence]. }
  split; [done|]. split; [|split; [done|split; [intros more; apply Hstay|]]].
  - unfold partner_validate in Hv. inv_run. split_guards. unfold partner_permission_shape_valid, can_contact in *.
    destruct (pa_contact_permission p), (pa_supply_class p); cbn in *; naive_solver.
  - intros p'. split.
    + unfold partner_follows. intros Hf. inv_run. case_match; [done|]. destruct (pa_permission_evidence_digest p') as [e|]; [|done].
      exists e. by apply replayed.
    + intros [e Hr]. pose proof (partner_withdraw_Ok _ _ _ _ Hr) as (_ & Hv' & Hm & He). unfold partner_follows.
      assert (pa_id p' = pa_id p /\ pa_tenant_id p' = pa_tenant_id p /\ pa_project_id p' = pa_project_id p /\
        pa_person_id p' = pa_person_id p /\ pa_company_id p' = pa_company_id p /\ pa_display_name p' = pa_display_name p /\
        pa_supply_class p' = pa_supply_class p /\ pa_permission_evidence_digest p' = Some e /\
        checked_add u64_max (pa_revision p) 1 = Some (pa_revision p')) as (? & ? & ? & ? & ? & ? & ? & He' & Hrev).
      { subst p'. repeat (split; [reflexivity|]). apply checked_add_Some; cbn; lia. }
      rewrite Hv, Hv', He', !bool_decide_eq_true_2 by done. cbn [mbind result_mbind andb negb].
      by rewrite Hr, bool_decide_eq_true_2.
Qed.

(** A creator's snapshot cannot widen contact: when it validates for a
    candidate and its partner may be contacted, the candidate has the
    partner's supply class, permission and evidence. *)
Theorem creator_snapshot_keeps_permission snapshot tenant project candidate :
  validate_for_candidate snapshot tenant project candidate = Ok tt -> can_contact (ct_partner snapshot) = true ->
  cd_supply_class candidate = pa_supply_class (ct_partner snapshot) /\
  cd_contact_permission candidate = pa_contact_permission (ct_partner snapshot) /\
  cd_permission_evidence_digest candidate = pa_permission_evidence_digest (ct_partner snapshot).
Proof.
  unfold validate_for_candidate. intros Hv Hc. inv_run. split_guards.
  assert (pa_contact_permission (ct_partner snapshot) <> PermWithdrawn) as Hn.
  { intros Hx. unfold can_contact in Hc. rewrite Hx in Hc. by destruct (pa_supply_class (ct_partner snapshot)). }
  match goal with Hx : negb (bool_decide (_ = PermWithdrawn)) && _ = false |- _ =>
    rewrite bool_decide_eq_false_2 in Hx by done; cbn [negb andb] in Hx end. split_guards. done.
Qed.

(** ** Identity links *)
Inductive LinkCall : Type :=
| LinkConfirm (actor : Id) (evidence : string) (now : DateTime)
| LinkConflict (actor : Id) (evidence : string) (now : DateTime)
| LinkReject (actor : Id) (evidence : string) (now : DateTime).
Definition link_call (c : LinkCall) : SR IdentityLink IdentityError unit :=
  match c with
  | LinkConfirm actor evidence now => link_confirm actor evidence now
  | LinkConflict actor evidence now => mark_conflicted actor evidence now
  | LinkReject actor evidence now => link_reject actor evidence now
  end.
Fixpoint link_run (cs : list LinkCall) (l : IdentityLink) : IdentityLink :=
  match cs with [] => l | c :: cs => link_run cs (run (link_call c) l).2 end.

(** What a call asks for. *)
Definition asked (c : LinkCall) : IdentityLinkStatus * Id * string * DateTime :=
  match c with
  | LinkConfirm actor evidence now => (LkConfirmed, actor, evidence, now)
  | LinkConflict actor evidence now => (LkConflicted, actor, evidence, now)
  | LinkReject actor evidence now => (LkRejected, actor, evidence, now)
  end.
Definition decided (to : IdentityLinkStatus) (actor : Id) (evidence : string) (now : DateTime) (l : IdentityLink) : IdentityLink :=
  l <| il_decisions ::= fun ds => ds ++ [mkLinkDecision (il_status l) to actor evidence now] |>
    <| il_status := to |> <| il_revision := il_revision l + 1 |>.

(** The loop over the decisions, split at the last one. *)
Definition decision_rejected (confidence : Decimal) (status : IdentityLinkStatus) (previous : option DateTime)
    (d : IdentityLinkDecision) : bool :=
  negb (bool_decide (ld_from d = status)) || negb (identity_link_transition_allowed (ld_from d) (ld_to d))
  || trim_is_empty (ld_decided_by d) || negb (is_sha256 (ld_evidence_digest d))
  || is_some_and (fun previous => ld_decided_at d <? previous) previous
  || (bool_decide (ld_to d = LkConfirmed) && dec_ltb confidence confirmation_confidence).
Definition last_time (previous : option DateTime) (ds : list IdentityLinkDecision) : option DateTime :=
  match last ds with Some d => Some (ld_decided_at d) | None => previous end.
Lemma last_time_cons previous d ds : last_time previous (d :: ds) = last_time (Some (ld_decided_at d)) ds.
Proof. unfold last_time. destruct ds as [|e ds]; [done|]. change (last (d :: e :: ds)) with (last (e :: ds)). by destruct (last (e :: ds)) eqn:He; [|apply last_None in He]. Qed.

Lemma decisions_validate_snoc confidence status previous ds d x :
  decisions_validate confidence status previous (ds ++ [d]) = Ok x <->
  exists st, decisions_validate confidence status previous ds = Ok st /\
    decision_rejected confidence st (last_time previous ds) d = false /\ x = ld_to d.
Proof.
  revert status previous; induction ds as [|e ds IH]; intros status previous; cbn [app decisions_validate].
  - rewrite bind_Ok. setoid_rewrite reject_if_Ok. unfold last_time; cbn. split.
    + intros (? & Hg & [= <-]). exists status. split; [done|]. split; [|done]. exact Hg.
    + intros (st & [= <-] & Hg & ->). exists tt. split; [|done]. exact Hg.
  - rewrite last_time_cons. setoid_rewrite bind_Ok. setoid_rewrite IH. naive_solver.
Qed.

Lemma link_decide_Ok to actor evidence now l u l' :
  run (link_decide to actor evidence now) l = (Ok u, l') ->
  link_validate l = Ok tt /\ link_validate l' = Ok tt /\ il_revision l < u64_max /\ l' = decided to actor evidence now l.
Proof.
  unfold link_decide. intros Hr. inv_run. split_guards.
  match goal with Hx : checked_add _ _ _ = Some _ |- _ => apply checked_add_Some in Hx as [-> ?] end.
  split_and!; try done. lia.
Qed.
Lemma link_call_Ok c l u l' :
  run (link_call c) l = (Ok u, l') ->
  link_validate l = Ok tt /\ link_validate l' = Ok tt /\ il_revision l < u64_max /\
  let '(to, actor, evidence, now) := asked c in l' = decided to actor evidence now l.
Proof.
  destruct c; cbn [link_call asked]; unfold link_confirm, mark_conflicted, link_reject; [|by apply link_decide_Ok..].
  intros Hr. rewrite run_get_bind, run_reject_bind in Hr. case_match; [done|]. by apply link_decide_Ok in Hr.
Qed.

(** What validation says of the decisions. *)
Lemma link_valid_facts l :
  link_validate l = Ok tt ->
  il_revision l = Z.of_nat (length (il_decisions l)) + 1 /\
  decisions_validate (il_confidence l) LkProposed None (il_decisions l) = Ok (il_status l).
Proof.
  unfold link_validate. intros Hv. inv_run. split_guards. subst.
  match goal with Hx : mbind _ _ = Some _ |- _ => apply bind_Some in Hx as (n & Hn & Hx); unfold try_from_usize in Hn;
    case_match; simplify_eq; apply checked_add_Some in Hx as [-> ?] end.
  split; [lia|done].
Qed.

(** Decimals that are numerically equal compare alike. *)
Lemma dec_ltb_eq a b c :
  0 <= dec_scale a -> 0 <= dec_scale b -> 0 <= dec_scale c -> dec_eqb a b = true ->
  dec_ltb a c = dec_ltb b c /\ dec_ltb c a = dec_ltb c b.
Proof.
  unfold dec_eqb, dec_ltb. intros Ha Hb Hc He%Z.eqb_eq.
  pose proof (Z.pow_pos_nonneg 10 (dec_scale a) ltac:(lia) Ha) as HA. pose proof (Z.pow_pos_nonneg 10 (dec_scale b) ltac:(lia) Hb) as HB.
  pose proof (Z.pow_pos_nonneg 10 (dec_scale c) ltac:(lia) Hc) as HC.
  revert He HA HB HC. generalize (10 ^ dec_scale a), (10 ^ dec_scale b), (10 ^ dec_scale c). intros A B C He HA HB HC.
  generalize dependent (dec_mantissa a). generalize dependent (dec_mantissa b). generalize (dec_mantissa c). intros mc mb ma He.
  split; apply eq_bool_prop_intro; rewrite !Is_true_true, !Z.ltb_lt.
  - rewrite (Z.mul_lt_mono_pos_r B (ma * C) (mc * A) HB), (Z.mul_lt_mono_pos_r A (mb * C) (mc * B) HA).
    replace (ma * C * B) with (mb * C * A) by nia. replace (mc * A * B) with (mc * B * A) by ring. done.
  - rewrite (Z.mul_lt_mono_pos_r B (mc * A) (ma * C) HB), (Z.mul_lt_mono_pos_r A (mc * B) (mb * C) HA).
    replace (ma * C * B) with (mb * C * A) by nia. replace (mc * A * B) with (mc * B * A) by ring. done.
Qed.
Lemma link_validate_confidence l c :
  0 <= dec_scale (il_confidence l) -> 0 <= dec_scale c -> dec_eqb (il_confidence l) c = true ->
  link_validate (l <| il_confidence := c |>) = link_validate l.
Proof.
  intros Hl Hc He. assert (forall d, 0 <= dec_scale d -> dec_ltb c d = dec_ltb (il_confidence l) d /\ dec_ltb d c = dec_ltb d (il_confidence l)) as Hd.
  { intros d Hd. destruct (dec_ltb_eq _ _ d Hl Hc Hd He). done. }
  assert (forall ds st prev, decisions_validate c st prev ds = decisions_validate (il_confidence l) st prev ds) as Hds.
  { induction ds as [|d ds IH]; intros st prev; cbn [decisions_validate]; [done|].
    by rewrite (proj1 (Hd confirmation_confidence ltac:(done))), IH. }
  destruct l as [a b d s i k st ds n]. unfold link_validate. cbn in Hd, Hds |- *.
  rewrite Hds, (proj1 (Hd dec_zero ltac:(done))), (proj2 (Hd dec_one ltac:(done))). done.
Qed.

(** A decision whose result is valid succeeds. *)
Lemma link_decide_succeeds to actor evidence now l :
  link_validate l = Ok tt -> link_validate (decided to actor evidence now l) = Ok tt -> il_revision l < u64_max ->
  run (link_decide to actor evidence now) l = (Ok tt, decided to actor evidence now l).
Proof.
  intros Hv Hv' Hrev. pose proof (link_valid_facts _ Hv) as (_ & Hd). pose proof (link_valid_facts _ Hv') as (_ & Hd').
  cbn in Hd'. apply decisions_validate_snoc in Hd' as (st & Hst & Hg & _). rewrite Hd in Hst. injection Hst as <-.
  unfold decision_rejected in Hg. cbn [ld_from ld_to ld_decided_by ld_evidence_digest ld_decided_at] in Hg. split_guards.
  unfold link_decide. rewrite run_get_bind. rewrite (run_known_bind (lift _) _ _ tt _) by (cbn; by rewrite Hv).
  repeat match goal with Hx : ?b = _ |- context [?b] => rewrite Hx end. cbn [negb orb].
  rewrite !run_reject_bind. cbn [negb].
  assert (is_some_and (fun decision => now <? ld_decided_at decision) (last (il_decisions l)) = false) as ->.
  { match goal with Hx : is_some_and _ (last_time _ _) = false |- _ => unfold last_time in Hx; revert Hx end.
    clear. destruct (last (il_decisions l)); done. }
  assert (checked_add u64_max (il_revision l) 1 = Some (il_revision l + 1)) as Ha by (apply checked_add_Some; lia).
  rewrite (run_known_bind (lift _) _ _ (il_revision l + 1) _) by (cbn; by rewrite Ha).
  rewrite (run_known_bind (lift _) _ _ tt _) by (unfold lift; cbn [run]; f_equal; exact Hv'). done.
Qed.

(** The append check of identity links accepts exactly what the decisions
    produce: a record follows another one precisely when a confirmation, a
    conflict or a rejection of the previous one succeeds and leaves it, up to
    the representation of the confidence, which the check compares by value. *)
Theorem link_follows_exactly_the_calls l' l :
  0 <= dec_scale (il_confidence l') -> 0 <= dec_scale (il_confidence l) ->
  link_follows l' l = Ok true <->
  dec_eqb (il_confidence l') (il_confidence l) = true /\
  exists c, run (link_call c) l = (Ok tt, l' <| il_confidence := il_confidence l |>).
Proof.
  intros Hs' Hs. split.
  - unfold link_follows. intros Hf. inv_run. match goal with Hx : true = _ |- _ => symmetry in Hx end. split_guards. split; [done|].
    match goal with Hx : _ `prefix_of` _ |- _ => destruct Hx as [k Hk] end.
    match goal with Hx : (_ =? _)%nat = true |- _ => apply Nat.eqb_eq in Hx; rewrite Hk, length_app in Hx end.
    destruct k as [|d [|]]; cbn [length] in *; [lia| |lia].
    assert (link_validate (l' <| il_confidence := il_confidence l |>) = Ok tt) as Hv' by (by rewrite link_validate_confidence).
    match goal with Hx : link_validate l = _, Hy : checked_add _ _ _ = Some _ |- _ =>
      pose proof (link_valid_facts _ Hx) as (_ & Hd); rename Hx into Hv; apply checked_add_Some in Hy as [Hrev Hle] end.
    pose proof (link_valid_facts _ Hv') as (_ & Hd'). cbn in Hd'. rewrite Hk in Hd'.
    apply decisions_validate_snoc in Hd' as (st & Hst & Hg & Hto). rewrite Hd in Hst. injection Hst as <-.
    unfold decision_rejected in Hg. split_guards. destruct d as [from to actor ev t];
      cbn [ld_from ld_to ld_decided_by ld_evidence_digest ld_decided_at] in *; subst from.
    assert (l' <| il_confidence := il_confidence l |> = decided to actor ev t l) as He.
    { destruct l, l'; cbn in *; subst. done. }
    rewrite He in Hv' |- *. pose proof (link_decide_succeeds _ _ _ _ _ Hv Hv' ltac:(lia)) as Hrun.
    destruct to; [by destruct (il_status l)|exists (LinkConfirm actor ev t)|exists (LinkConflict actor ev t); exact Hrun
      |exists (LinkReject actor ev t); exact Hrun].
    cbn [link_call]. unfold link_confirm. rewrite run_get_bind, run_reject_bind.
    match goal with Hx : bool_decide (LkConfirmed = LkConfirmed) && ?b = false |- _ =>
      rewrite bool_decide_eq_true_2 in Hx by done; cbn in Hx; rewrite Hx; exact Hrun end.
  - intros (He & c & Hr). apply link_call_Ok in Hr as (Hv & Hv' & Hrev & Hl). rewrite link_validate_confidence in Hv' by done.
    destruct (asked c) as [[[to actor] ev] t]. unfold link_follows. rewrite Hv, Hv'. cbn [mbind result_mbind]. rewrite He.
    destruct l', l; cbn in *. injection Hl; intros; subst. rewrite !bool_decide_eq_true_2; try done.
    + rewrite length_app. cbn. by rewrite Nat.eqb_refl.
    + by apply prefix_app_r.
    + apply checked_add_Some. lia.
Qed.

Lemma link_call_moves c l :
  (is_ok (run (link_call c) l).1 = false /\ (run (link_call c) l).2 = l) \/
  (is_ok (run (link_call c) l).1 = true /\ link_validate l = Ok tt /\ link_validate (run (link_call c) l).2 = Ok tt).
Proof.
  assert (Atomic (link_call c)) as Ha
    by (destruct c; cbn [link_call]; unfold link_confirm, mark_conflicted, link_reject, link_decide; apply _).
  specialize (Ha l). destruct (run (link_call c) l) as [[u| |] l'] eqn:Hr; [right|left; by split; [|apply Ha]..].
  apply link_call_Ok in Hr as (Hv & Hv' & _ & _). done.
Qed.
Lemma link_run_valid cs l : link_run cs l = l \/ link_validate (link_run cs l) = Ok tt.
Proof.
  revert l; induction cs as [|c cs IH]; intros l; [by left|]. cbn [link_run].
  destruct (link_call_moves c l) as [[_ Heq]|(_ & _ & Hv)]; [rewrite Heq; apply IH|].
  destruct (IH (run (link_call c) l).2) as [->|Hx]; by right.
Qed.
Lemma rejected_for_good cs l : il_status l = LkRejected -> link_run cs l = l.
Proof.
  intros Hs. induction cs as [|c cs IH]; [done|]. cbn [link_run].
  destruct (link_call_moves c l) as [[_ ->]|(_ & Hv & Hv')]; [done|].
  destruct (run (link_call c) l) as [[u| |] l'] eqn:Hr; cbn [snd] in *.
  - apply link_call_Ok in Hr as (_ & _ & _ & Hl). destruct (asked c) as [[[to actor] ev] t]. subst l'.
    pose proof (link_valid_facts _ Hv) as (_ & Hd). pose proof (link_valid_facts _ Hv') as (_ & Hd'). cbn in Hd'.
    apply decisions_validate_snoc in Hd' as (st & Hst & Hg & _). rewrite Hd in Hst. injection Hst as <-.
    unfold decision_rejected in Hg. cbn in Hg. rewrite Hs in Hg. split_guards. by destruct to.
  - pose proof (link_call_moves c l) as Hm. rewrite Hr in Hm. cbn in Hm. destruct Hm as [[_ ->]|[? _]]; done.
  - pose proof (link_call_moves c l) as Hm. rewrite Hr in Hm. cbn in Hm. destruct Hm as [[_ ->]|[? _]]; done.
Qed.

(** An external identity counts as confirmed only on a decision. After
    any calls on a proposed link, if it confirms an account of a provider then
    its last decision is a confirmation, made by a named actor on evidence, at
    a confidence of at least 0.9, and is the one reported as the last
    confirmation; and a rejected link stays rejected. *)
Theorem identity_is_confirmed_on_evidence id tenant project subject identities confidence l0 cs :
  link_propose id tenant project subject identities confidence = Ok l0 ->
  let l := link_run cs l0 in
  (forall provider account, confirms_external_identity l provider account = true ->
     exists d, last (il_decisions l) = Some d /\ ld_to d = LkConfirmed /\ last_confirmation l = Some d /\
       trim_is_empty (ld_decided_by d) = false /\ is_sha256 (ld_evidence_digest d) = true /\
       9 * 10 ^ dec_scale (il_confidence l) <= 10 * dec_mantissa (il_confidence l)) /\
  (il_status l = LkRejected -> forall more, link_run more l = l).
Proof.
  intros Hp l. split; [|intros Hs more; by apply rejected_for_good]. intros provider account Hc.
  unfold confirms_external_identity in Hc. split_guards.
  assert (link_validate l = Ok tt) as Hv.
  { destruct (link_run_valid cs l0) as [Hx|Hx]; [|done]. fold l in Hx. rewrite Hx in *. unfold link_propose in Hp. by inv_run. }
  pose proof (link_valid_facts _ Hv) as (_ & Hd).
  destruct (il_decisions l) as [|d ds _] eqn:Hds using rev_ind; [by injection Hd; intros; congruence|].
  apply decisions_validate_snoc in Hd as (st & _ & Hg & Hto). unfold decision_rejected in Hg. split_guards.
  exists d. rewrite last_snoc. assert (ld_to d = LkConfirmed) as Hdc by congruence. split; [done|]. split; [done|].
  split; [|split; [done|split; [done|]]].
  - unfold last_confirmation. rewrite Hds, rev_app_distr. cbn. by rewrite bool_decide_eq_true_2.
  - match goal with Hx : bool_decide _ && _ = false |- _ => rewrite bool_decide_eq_true_2 in Hx by done; cbn [andb] in Hx;
      unfold dec_ltb in Hx; apply Z.ltb_ge in Hx; cbn in Hx end. lia.
Qed.

(** A link whose subject is blank is accepted by [propose], but no decision on
    it ever succeeds: [decide] validates the subject first. *)
Theorem blank_subject_is_never_decided id tenant project subject identities confidence l0 cs :
  link_propose id tenant project subject identities confidence = Ok l0 -> subject_is_valid subject = false ->
  link_run cs l0 = l0.
Proof.
  intros Hp Hs. assert (link_validate l0 <> Ok tt) as Hn.
  { unfold link_propose in Hp. inv_run. unfold link_validate. intros Hv. inv_run. split_guards. cbn in *. congruence. }
  induction cs as [|c cs IH]; [done|]. cbn [link_run]. destruct (link_call_moves c l0) as [[_ ->]|(_ & Hv & _)]; done.
Qed.

(** ** Concrete records *)
Module IdentityDemo.
Import Prelude.Fixture.
Definition granted : result IdentityError ConsentRecord :=
  consent_grant "consent" "tenant" "project" "person" EmailMarketing ChEmail " EU " LbExplicitConsent "form" zeros64 100 (Some 200).
Definition requirement : ConsentRequirement := mkConsentRequirement "person" EmailMarketing ChEmail "eu".
Definition partner : result IdentityError Partner :=
  partner_create "partner" "tenant" "project" None None "Studio" HartevoOptIn ExplicitOptIn (Some zeros64).
Definition account : ExternalIdentity := mkExternalIdentity "shop" "account" zeros64 "ciphertext://account" zeros64.
Lemma consent_permits_exactly_its_grant_witness :
  exists r0, granted = Ok r0 /\ permits_requirement r0 requirement 150 = true /\
    permits_requirement (consent_run [ConsentExpire 120; ConsentWithdraw 130] r0) requirement 150 = false.
Proof.
  eexists. split; [reflexivity|]. split.
  - apply (proj1 (consent_permits_exactly_its_grant "consent" "tenant" "project" "person" EmailMarketing ChEmail " EU "
      LbExplicitConsent "form" zeros64 100 (Some 200) _ [] eq_refl)). by vm_compute.
  - by vm_compute.
Defined.
Lemma partner_withdrawal_is_final_witness :
  exists p0, partner = Ok p0 /\ can_contact p0 = true /\ can_contact (partner_run [zeros64] p0) = false /\
    partner_run ["again"] (partner_run [zeros64] p0) = partner_run [zeros64] p0.
Proof.
  eexists. split; [reflexivity|]. split; [by vm_compute|]. split; [by vm_compute|].
  apply (proj1 (proj2 (proj2 (proj2 (partner_withdrawal_is_final "partner" "tenant" "project" None None "Studio" HartevoOptIn
    ExplicitOptIn (Some zeros64) _ [zeros64] eq_refl))))). by vm_compute.
Defined.
Definition proposed_link : IdentityLink :=
  mkIdentityLink "link" "tenant" "project" (SubPerson "person") [account] (mkDecimal 95 2) LkProposed [] 1.
Definition confirming : LinkCall := LinkConfirm "actor" zeros64 5.
Definition confirmed_link : IdentityLink := (run (link_call confirming) proposed_link).2.
Lemma link_follows_exactly_the_calls_witness : link_follows confirmed_link proposed_link = Ok true.
Proof.
  assert (run (link_call confirming) proposed_link = (Ok tt, confirmed_link <| il_confidence := il_confidence proposed_link |>))
    as Hr by (vm_compute; reflexivity).
  assert (dec_eqb (il_confidence confirmed_link) (il_confidence proposed_link) = true) as He by (vm_compute; reflexivity).
  assert (0 <= dec_scale (il_confidence confirmed_link)) as H1 by (vm_compute; discriminate).
  assert (0 <= dec_scale (il_confidence proposed_link)) as H2 by (vm_compute; discriminate).
  exact (proj2 (link_follows_exactly_the_calls confirmed_link proposed_link H1 H2) (conj He (ex_intro _ confirming Hr))).
Defined.
Lemma identity_is_confirmed_on_evidence_witness :
  confirms_external_identity (link_run [confirming] proposed_link) "shop" "account" = true /\
  exists d, last_confirmation (link_run [confirming] proposed_link) = Some d /\ ld_to d = LkConfirmed.
Proof.
  assert (link_propose "link" "tenant" "project" (SubPerson "person") [account] (mkDecimal 95 2) = Ok proposed_link) as Hp
    by (vm_compute; reflexivity).
  assert (confirms_external_identity (link_run [confirming] proposed_link) "shop" "account" = true) as Hc by (vm_compute; reflexivity).
  split; [exact Hc|].
  destruct (proj1 (identity_is_confirmed_on_evidence _ _ _ _ _ _ proposed_link [confirming] Hp) "shop" "account" Hc)
    as (d & _ & Hd & Hl & _).
  exists d. split; [exact Hl|exact Hd].
Defined.
End IdentityDemo.
