(* ===== verification/Keys.v ===== *)
(** * Project keys and devices

    Models [domain-kernel/src/key_management.rs]: the keyring of a project
    with its wrapped-key envelopes, the public keys of devices, the handoff of
    a key to a device and the attachment that ends it. A [Vec<u8>] is the
    string of its bytes. *)
From S2P Require Import Prelude Text.

Definition MAX_WORKER_KEY_TTL_SECONDS : Z := 15 * 60.
Definition MAX_DEVICE_HANDOFF_TTL_SECONDS : Z := 24 * 60 * 60.

(** ** Data *)
Inductive KeyManagementError : Type :=
| KeInvalidKeyring | KeInvalidEnvelope | KeEnvelopeScopeMismatch | KeNoActiveRecoveryPath | KeRecipientNotAllowed
| KeRemoteExecutionNotAllowed | KeInvalidWorkerEnvelope | KeDuplicateOrRotationRequired | KeRecipientNotFound
| KeRotationRequired | KeRevisionOverflow | KeInvalidDeviceAttachment | KeInvalidDeviceAttachmentTransition
| KeInvalidDevicePublicKeyRegistration | KeInvalidDevicePublicKeyTransition | KeInvalidDeviceHandoff
| KeInvalidDeviceHandoffRevocation | KeInvalidDeviceHandoffClaim | KeInvalidDeviceHandoffConsumption
| KeInvalidProjectKeyringBootstrap | KeCanonicalSerialization.

Inductive ProjectEncryptionMode : Type := PersonalE2ee | TeamEnvelope.
#[export] Instance ProjectEncryptionMode_eq_dec : EqDecision ProjectEncryptionMode.
Proof. solve_decision. Defined.
Inductive KeyRecipient : Type := KrDevice (id : Id) | KrMember (id : Id) | KrWorker (id : Id) | KrRecovery (id : string).
#[export] Instance KeyRecipient_eq_dec : EqDecision KeyRecipient.
Proof. solve_decision. Defined.
Inductive KeyWrapAlgorithm : Type := Aes256GcmV1.
#[export] Instance KeyWrapAlgorithm_eq_dec : EqDecision KeyWrapAlgorithm.
Proof. solve_decision. Defined.

Record WrappedKeyCiphertext : Type := mkWrappedKey {
  wc_algorithm : KeyWrapAlgorithm;
  wc_nonce : string;
  wc_ciphertext : string;
  wc_aad_digest : string;
}.
#[export] Instance WrappedKeyCiphertext_eq_dec : EqDecision WrappedKeyCiphertext.
Proof. solve_decision. Defined.

Record KeyEnvelope : Type := mkEnvelope {
  ke_id : Id;
  ke_tenant_id : Id;
  ke_project_id : Id;
  ke_key_version : Z; (* u64 *)
  ke_recipient : KeyRecipient;
  ke_wrapping_key_reference_digest : string;
  ke_sealed_key : WrappedKeyCiphertext;
  ke_created_at : DateTime;
  ke_expires_at : option DateTime;
  ke_revoked_at : option DateTime;
}.
#[export] Instance KeyEnvelope_eta : Eta KeyEnvelope := fun e =>
  mkEnvelope (ke_id e) (ke_tenant_id e) (ke_project_id e) (ke_key_version e) (ke_recipient e)
    (ke_wrapping_key_reference_digest e) (ke_sealed_key e) (ke_created_at e) (ke_expires_at e) (ke_revoked_at e).
#[export] Instance KeyEnvelope_eq_dec : EqDecision KeyEnvelope.
Proof. solve_decision. Defined.

Record ProjectKeyring : Type := mkKeyring {
  pk_tenant_id : Id;
  pk_project_id : Id;
  pk_mode : ProjectEncryptionMode;
  pk_active_key_version : Z; (* u64 *)
  pk_remote_execution_opt_in : bool;
  pk_rotation_required : bool;
  pk_envelopes : list KeyEnvelope;
  pk_revision : Z; (* u64 *)
  pk_created_at : DateTime;
  pk_updated_at : DateTime;
}.
#[export] Instance ProjectKeyring_eta : Eta ProjectKeyring := fun k =>
  mkKeyring (pk_tenant_id k) (pk_project_id k) (pk_mode k) (pk_active_key_version k) (pk_remote_execution_opt_in k)
    (pk_rotation_required k) (pk_envelopes k) (pk_revision k) (pk_created_at k) (pk_updated_at k).

Inductive DeviceKeyAgreementAlgorithm : Type := X25519HkdfSha256Aes256GcmV1.
#[export] Instance DeviceKeyAgreementAlgorithm_eq_dec : EqDecision DeviceKeyAgreementAlgorithm.
Proof. solve_decision. Defined.

Record DevicePublicKeyRegistration : Type := mkRegistration {
  dk_tenant_id : Id;
  dk_project_id : Id;
  dk_device_id : Id;
  dk_algorithm : DeviceKeyAgreementAlgorithm;
  dk_public_key : string;
  dk_public_key_digest : string;
  dk_authorized_by : Id;
  dk_authorization_evidence_digest : string;
  dk_idempotency_key_digest : string;
  dk_revision : Z; (* u64 *)
  dk_registered_at : DateTime;
  dk_updated_at : DateTime;
  dk_revoked_at : option DateTime;
}.
#[export] Instance DevicePublicKeyRegistration_eta : Eta DevicePublicKeyRegistration := fun d =>
  mkRegistration (dk_tenant_id d) (dk_project_id d) (dk_device_id d) (dk_algorithm d) (dk_public_key d)
    (dk_public_key_digest d) (dk_authorized_by d) (dk_authorization_evidence_digest d) (dk_idempotency_key_digest d)
    (dk_revision d) (dk_registered_at d) (dk_updated_at d) (dk_revoked_at d).

Record DeviceHandoffContext : Type := mkHandoffContext {
  hc_tenant_id : Id;
  hc_project_id : Id;
  hc_grant_id : Id;
  hc_project_mode : ProjectEncryptionMode;
  hc_source_recipient : KeyRecipient;
  hc_source_envelope_digest : string;
  hc_source_keyring_manifest_digest : string;
  hc_target_device_id : Id;
  hc_target_public_key_digest : string;
  hc_key_version : Z; (* u64 *)
  hc_expected_keyring_revision : Z; (* u64 *)
  hc_expires_at : DateTime;
}.
Record DeviceHandoffCiphertext : Type := mkHandoffCiphertext {
  hx_algorithm : DeviceKeyAgreementAlgorithm;
  hx_sender_ephemeral_public_key : string;
  hx_nonce : string;
  hx_ciphertext : string;
  hx_aad_digest : string;
  hx_content_digest : string;
}.
Record DeviceHandoffGrant : Type := mkHandoffGrant {
  hg_context : DeviceHandoffContext;
  hg_ciphertext : DeviceHandoffCiphertext;
  hg_authorized_by : Id;
  hg_authorization_evidence_digest : string;
  hg_idempotency_key_digest : string;
  hg_intent_digest : string;
  hg_created_at : DateTime;
}.
Record DeviceHandoffRevocation : Type := mkHandoffRevocation {
  hr_tenant_id : Id;
  hr_project_id : Id;
  hr_grant_id : Id;
  hr_revoked_by : Id;
  hr_authorization_evidence_digest : string;
  hr_idempotency_key_digest : string;
  hr_revoked_at : DateTime;
}.
Record DeviceHandoffClaim : Type := mkHandoffClaim {
  hm_claim_id : Id;
  hm_tenant_id : Id;
  hm_project_id : Id;
  hm_grant_id : Id;
  hm_target_device_id : Id;
  hm_target_public_key_digest : string;
  hm_idempotency_key_digest : string;
  hm_claimed_at : DateTime;
}.
Record DeviceHandoffConsumption : Type := mkHandoffConsumption {
  hs_claim_id : Id;
  hs_receipt_id : Id;
  hs_tenant_id : Id;
  hs_project_id : Id;
  hs_grant_id : Id;
  hs_target_device_id : Id;
  hs_target_public_key_digest : string;
  hs_key_version : Z; (* u64 *)
  hs_attachment_id : Id;
  hs_result_keyring_revision : Z; (* u64 *)
  hs_receipt_digest : string;
  hs_consumed_at : DateTime;
}.

Record ProjectKeyringBootstrap : Type := mkBootstrap {
  bs_tenant_id : Id;
  bs_project_id : Id;
  bs_keyring : ProjectKeyring;
  bs_previous_keyring_revision : option Z; (* u64 *)
  bs_manifest_digest : string;
  bs_published_by : KeyRecipient;
  bs_authorizing_envelope_digest : string;
  bs_authorization_evidence_digest : string;
  bs_idempotency_key_digest : string;
  bs_published_at : DateTime;
}.

Inductive DeviceAttachmentMethod : Type := AuthorizedRecipient | PublicKeyHandoff | RecoveryKit.
#[export] Instance DeviceAttachmentMethod_eq_dec : EqDecision DeviceAttachmentMethod.
Proof. solve_decision. Defined.
Inductive DeviceAttachmentStatus : Type := DaPrepared | DaApplied | DaConflict.
#[export] Instance DeviceAttachmentStatus_eq_dec : EqDecision DeviceAttachmentStatus.
Proof. solve_decision. Defined.

Record DeviceAttachment : Type := mkAttachment {
  da_id : Id;
  da_tenant_id : Id;
  da_project_id : Id;
  da_project_mode : ProjectEncryptionMode;
  da_method : DeviceAttachmentMethod;
  da_source_recipient : KeyRecipient;
  da_device_id : Id;
  da_key_version : Z; (* u64 *)
  da_expected_keyring_revision : Z; (* u64 *)
  da_envelope : KeyEnvelope;
  da_authorized_by : Id;
  da_authorization_evidence_digest : string;
  da_idempotency_key_digest : string;
  da_intent_digest : string;
  da_status : DeviceAttachmentStatus;
  da_result_keyring_revision : option Z; (* u64 *)
  da_error_code : option string;
  da_revision : Z; (* u64 *)
  da_created_at : DateTime;
  da_updated_at : DateTime;
}.
#[export] Instance DeviceAttachment_eta : Eta DeviceAttachment := fun a =>
  mkAttachment (da_id a) (da_tenant_id a) (da_project_id a) (da_project_mode a) (da_method a) (da_source_recipient a)
    (da_device_id a) (da_key_version a) (da_expected_keyring_revision a) (da_envelope a) (da_authorized_by a)
    (da_authorization_evidence_digest a) (da_idempotency_key_digest a) (da_intent_digest a) (da_status a)
    (da_result_keyring_revision a) (da_error_code a) (da_revision a) (da_created_at a) (da_updated_at a).
#[export] Instance DeviceAttachment_eq_dec : EqDecision DeviceAttachment.
Proof. solve_decision. Defined.

(** [serde_json::to_vec] of the hashed records; [None] stands for its error. *)
Class KeySerde := {
  json_envelope : KeyEnvelope -> option string;
  json_keyring : ProjectKeyring -> option string;
  json_handoff_context : DeviceHandoffContext -> option string;
  json_handoff_grant : DeviceHandoffGrant -> option string;
  json_handoff_revocation : DeviceHandoffRevocation -> option string;
  json_handoff_claim : DeviceHandoffClaim -> option string;
  json_handoff_consumption : DeviceHandoffConsumption -> option string;
  json_bootstrap : ProjectKeyringBootstrap -> option string;
}.

(** ** Recipients and envelopes *)
Definition stable_scope (self : KeyRecipient) : string :=
  match self with
  | KrDevice id => "device:" ++ id
  | KrMember id => "member:" ++ id
  | KrWorker id => "worker:" ++ id
  | KrRecovery id => "recovery:" ++ id
  end.
Definition is_worker (self : KeyRecipient) : bool := match self with KrWorker _ => true | _ => false end.
Definition is_long_lived (self : KeyRecipient) : bool := negb (is_worker self).
Definition is_device (self : KeyRecipient) : bool := match self with KrDevice _ => true | _ => false end.
Definition is_recovery (self : KeyRecipient) : bool := match self with KrRecovery _ => true | _ => false end.
Definition is_device_or_member (self : KeyRecipient) : bool :=
  match self with KrDevice _ | KrMember _ => true | _ => false end.
Definition is_member_or_worker (self : KeyRecipient) : bool :=
  match self with KrMember _ | KrWorker _ => true | _ => false end.
(** The recipients that may publish or hand over keys in each mode. *)
Definition source_valid (mode : ProjectEncryptionMode) (source : KeyRecipient) : bool :=
  match mode, source with
  | PersonalE2ee, KrDevice _ => true
  | TeamEnvelope, (KrDevice _ | KrMember _) => true
  | _, _ => false
  end.

Definition wrapped_key_validate (self : WrappedKeyCiphertext) : bool :=
  (str_len (wc_nonce self) =? 12) && (16 <=? str_len (wc_ciphertext self)) && is_sha256 (wc_aad_digest self).

Definition envelope_validate (self : KeyEnvelope) : result KeyManagementError unit :=
  reject_if (trim_is_empty (ke_id self)
    || trim_is_empty (ke_tenant_id self)
    || trim_is_empty (ke_project_id self)
    || (ke_key_version self =? 0)
    || negb (is_sha256 (ke_wrapping_key_reference_digest self))
    || negb (wrapped_key_validate (ke_sealed_key self))
    || is_some_and (fun expires => expires <=? ke_created_at self) (ke_expires_at self)
    || is_some_and (fun revoked => revoked <? ke_created_at self) (ke_revoked_at self)
    || (is_worker (ke_recipient self) && is_none (ke_expires_at self))) KeInvalidEnvelope.

Definition is_available (self : KeyEnvelope) (now : DateTime) : bool :=
  is_none (ke_revoked_at self)
  && (ke_created_at self <=? now)
  && is_none_or (fun expires => now <? expires) (ke_expires_at self).

(** ** Keyrings *)
Definition available (predicate : KeyRecipient -> bool) (envelopes : list KeyEnvelope) (key_version : Z)
    (now : DateTime) : bool :=
  existsb (fun envelope => (ke_key_version envelope =? key_version) && is_available envelope now
    && predicate (ke_recipient envelope)) envelopes.

Definition required_recipient_set_is_available (mode : ProjectEncryptionMode) (envelopes : list KeyEnvelope)
    (key_version : Z) (now : DateTime) : bool :=
  match mode with
  | PersonalE2ee => available is_device envelopes key_version now && available is_recovery envelopes key_version now
  | TeamEnvelope => available is_device_or_member envelopes key_version now
  end.

(** The loop of [ProjectKeyring::validate] over the envelopes, with the
    identifiers and the versions of recipients seen so far. *)
Fixpoint envelopes_validate (self : ProjectKeyring) (ids : list Id) (recipient_versions : list (Z * KeyRecipient))
    (envelopes : list KeyEnvelope) : result KeyManagementError unit :=
  match envelopes with
  | [] => mret tt
  | envelope :: rest =>
      envelope_validate envelope;;
      reject_if (negb (bool_decide (ke_tenant_id envelope = pk_tenant_id self))
        || negb (bool_decide (ke_project_id envelope = pk_project_id self))
        || bool_decide (ke_id envelope ∈ ids)
        || bool_decide ((ke_key_version envelope, ke_recipient envelope) ∈ recipient_versions)
        || (bool_decide (pk_mode self = PersonalE2ee) && is_member_or_worker (ke_recipient envelope)))
        KeEnvelopeScopeMismatch;;
      envelopes_validate self (ke_id envelope :: ids)
        ((ke_key_version envelope, ke_recipient envelope) :: recipient_versions) rest
  end.

Definition keyring_validate (self : ProjectKeyring) : result KeyManagementError unit :=
  reject_if (trim_is_empty (pk_tenant_id self)
    || trim_is_empty (pk_project_id self)
    || (pk_active_key_version self =? 0)
    || (pk_revision self =? 0)
    || (pk_updated_at self <? pk_created_at self)
    || (bool_decide (pk_mode self = PersonalE2ee) && pk_remote_execution_opt_in self)) KeInvalidKeyring;;
  envelopes_validate self [] [] (pk_envelopes self);;
  reject_if (negb (pk_rotation_required self)
    && negb (required_recipient_set_is_available (pk_mode self) (pk_envelopes self) (pk_active_key_version self)
         (pk_updated_at self))) KeNoActiveRecoveryPath.

Definition initialize (tenant_id project_id : Id) (mode : ProjectEncryptionMode) (envelopes : list KeyEnvelope)
    (now : DateTime) : result KeyManagementError ProjectKeyring :=
  let keyring := mkKeyring tenant_id project_id mode 1 false false envelopes 1 now now in
  keyring_validate keyring;;
  mret keyring.

Definition is_workspace_ready_at (self : ProjectKeyring) (now : DateTime) : result KeyManagementError bool :=
  keyring_validate self;;
  mret (negb (pk_rotation_required self)
    && (pk_updated_at self <=? now)
    && required_recipient_set_is_available (pk_mode self) (pk_envelopes self) (pk_active_key_version self) now).

(** Whether an envelope of the next keyring is the old one, at most revoked
    with this update. *)
Definition envelope_kept (self : ProjectKeyring) (old : KeyEnvelope) : bool :=
  match List.find (fun candidate => bool_decide (ke_id candidate = ke_id old)) (pk_envelopes self) with
  | None => false
  | Some new =>
      let expected := old <| ke_revoked_at := ke_revoked_at new |> in
      negb (negb (bool_decide (expected = new))
        || (is_some (ke_revoked_at old) && negb (bool_decide (ke_revoked_at new = ke_revoked_at old)))
        || (is_none (ke_revoked_at old)
            && is_some_and (fun revoked => negb (revoked =? pk_updated_at self)) (ke_revoked_at new)))
  end.

Definition keyring_follows (self previous : ProjectKeyring) : result KeyManagementError bool :=
  keyring_validate self;;
  keyring_validate previous;;
  if negb (bool_decide (pk_tenant_id self = pk_tenant_id previous))
     || negb (bool_decide (pk_project_id self = pk_project_id previous))
     || negb (bool_decide (pk_mode self = pk_mode previous))
     || negb (pk_created_at self =? pk_created_at previous)
     || negb (pk_revision self =? saturating_add u64_max (pk_revision previous) 1)
     || (pk_updated_at self <? pk_updated_at previous)
     || (pk_active_key_version self <? pk_active_key_version previous)
     || (saturating_add u64_max (pk_active_key_version previous) 1 <? pk_active_key_version self)
  then mret false
  else mret (forallb (envelope_kept self) (pk_envelopes previous)).

Definition require_scope_and_active_version (self : ProjectKeyring) (envelope : KeyEnvelope)
    : result KeyManagementError unit :=
  reject_if (negb (bool_decide (ke_tenant_id envelope = pk_tenant_id self))
    || negb (bool_decide (ke_project_id envelope = pk_project_id self))
    || negb (ke_key_version envelope =? pk_active_key_version self)) KeEnvelopeScopeMismatch.

Definition validate_recipient_for_mode (self : ProjectKeyring) (recipient : KeyRecipient)
    : result KeyManagementError unit :=
  reject_if (bool_decide (pk_mode self = PersonalE2ee) && is_member_or_worker recipient) KeRecipientNotAllowed.

Definition keyring_next_revision (self : ProjectKeyring) : result KeyManagementError Z :=
  ok_or (checked_add u64_max (pk_revision self) 1) KeRevisionOverflow.

Abbreviation keyring_op := (SR ProjectKeyring KeyManagementError) (only parsing).

(** [envelope.revoked_at = Some(now)] for the matching envelopes. *)
Definition revoke_where (matches : KeyEnvelope -> bool) (now : DateTime) (envelopes : list KeyEnvelope)
    : list KeyEnvelope :=
  (fun envelope => if matches envelope then envelope <| ke_revoked_at := Some now |> else envelope) <$> envelopes.
Definition unrevoked_worker (envelope : KeyEnvelope) : bool :=
  is_worker (ke_recipient envelope) && is_none (ke_revoked_at envelope).
Definition unrevoked_of (recipient : KeyRecipient) (envelope : KeyEnvelope) : bool :=
  bool_decide (ke_recipient envelope = recipient) && is_none (ke_revoked_at envelope).

Definition set_remote_execution_opt_in (enabled : bool) (now : DateTime) : keyring_op unit :=
  self ← get;
  reject (negb (bool_decide (pk_mode self = TeamEnvelope))) KeRemoteExecutionNotAllowed;;
  if Bool.eqb (pk_remote_execution_opt_in self) enabled then mret tt else
  next_revision ← lift (keyring_next_revision self);
  modify (fun self => self <| pk_remote_execution_opt_in := enabled |>
    <| pk_envelopes ::= fun l => if enabled then l else revoke_where unrevoked_worker now l |>
    <| pk_revision := next_revision |> <| pk_updated_at := now |>).

Definition revoke_recipient (recipient : KeyRecipient) (now : DateTime) : keyring_op unit :=
  self ← get;
  reject (negb (existsb (unrevoked_of recipient) (pk_envelopes self))) KeRecipientNotFound;;
  next_revision ← lift (keyring_next_revision self);
  modify (fun self => self <| pk_envelopes ::= revoke_where (unrevoked_of recipient) now |>
    <| pk_rotation_required := if is_long_lived recipient then true else pk_rotation_required self |>
    <| pk_revision := next_revision |> <| pk_updated_at := now |>).

(** The loop over the new envelopes; [forbidden] is the recipient that is
    being revoked, if any. *)
Fixpoint new_envelopes_validate (self : ProjectKeyring) (new_version : Z) (forbidden : option KeyRecipient)
    (recipients : list KeyRecipient) (envelopes : list KeyEnvelope) : result KeyManagementError unit :=
  match envelopes with
  | [] => mret tt
  | envelope :: rest =>
      envelope_validate envelope;;
      reject_if (negb (bool_decide (ke_tenant_id envelope = pk_tenant_id self))
        || negb (bool_decide (ke_project_id envelope = pk_project_id self))
        || negb (ke_key_version envelope =? new_version)
        || bool_decide (Some (ke_recipient envelope) = forbidden)
        || is_worker (ke_recipient envelope)
        || bool_decide (ke_recipient envelope ∈ recipients)) KeEnvelopeScopeMismatch;;
      validate_recipient_for_mode self (ke_recipient envelope);;
      new_envelopes_validate self new_version forbidden (ke_recipient envelope :: recipients) rest
  end.

Definition keyring_rotate (new_envelopes : list KeyEnvelope) (now : DateTime) : keyring_op Z :=
  self ← get;
  new_version ← lift (ok_or (checked_add u64_max (pk_active_key_version self) 1) KeRevisionOverflow);
  reject (Nat.eqb (length new_envelopes) 0) KeNoActiveRecoveryPath;;
  lift (new_envelopes_validate self new_version None [] new_envelopes);;
  reject (negb (required_recipient_set_is_available (pk_mode self) new_envelopes new_version now)) KeNoActiveRecoveryPath;;
  next_revision ← lift (keyring_next_revision self);
  modify (fun self => self <| pk_envelopes ::= fun l => revoke_where unrevoked_worker now l ++ new_envelopes |>
    <| pk_active_key_version := new_version |> <| pk_rotation_required := false |>
    <| pk_revision := next_revision |> <| pk_updated_at := now |>);;
  mret new_version.

Definition revoke_and_rotate (revoked_recipient : KeyRecipient) (new_envelopes : list KeyEnvelope) (now : DateTime)
    : keyring_op Z :=
  self ← get;
  reject (negb (is_long_lived revoked_recipient)) KeRecipientNotAllowed;;
  reject (negb (existsb (unrevoked_of revoked_recipient) (pk_envelopes self))) KeRecipientNotFound;;
  new_version ← lift (ok_or (checked_add u64_max (pk_active_key_version self) 1) KeRevisionOverflow);
  lift (new_envelopes_validate self new_version (Some revoked_recipient) [] new_envelopes);;
  reject (negb (required_recipient_set_is_available (pk_mode self) new_envelopes new_version now)) KeNoActiveRecoveryPath;;
  next_revision ← lift (keyring_next_revision self);
  modify (fun self => self
    <| pk_envelopes ::= fun l =>
         revoke_where unrevoked_worker now (revoke_where (unrevoked_of revoked_recipient) now l) ++ new_envelopes |>
    <| pk_active_key_version := new_version |> <| pk_rotation_required := false |>
    <| pk_revision := next_revision |> <| pk_updated_at := now |>);;
  mret new_version.

(** The envelope lookup both accessors end with. *)
Definition find_available (self : ProjectKeyring) (recipient : KeyRecipient) (key_version : Z) (now : DateTime)
    : result KeyManagementError KeyEnvelope :=
  ok_or (List.find (fun envelope => (ke_key_version envelope =? key_version)
      && bool_decide (ke_recipient envelope = recipient) && is_available envelope now) (pk_envelopes self))
    KeRecipientNotFound.

Definition active_envelope_for (self : ProjectKeyring) (recipient : KeyRecipient) (now : DateTime)
    : result KeyManagementError KeyEnvelope :=
  reject_if (pk_rotation_required self) KeRotationRequired;;
  reject_if (is_worker recipient && negb (pk_remote_execution_opt_in self)) KeRemoteExecutionNotAllowed;;
  find_available self recipient (pk_active_key_version self) now.

Definition available_envelope_for_version (self : ProjectKeyring) (recipient : KeyRecipient) (key_version : Z)
    (now : DateTime) : result KeyManagementError KeyEnvelope :=
  reject_if (key_version =? 0) KeEnvelopeScopeMismatch;;
  reject_if (is_worker recipient
    && (negb (key_version =? pk_active_key_version self) || negb (pk_remote_execution_opt_in self)))
    KeRemoteExecutionNotAllowed;;
  find_available self recipient key_version now.

Section keys.
Context `{!Chrono} `{!Sha256} `{!KeySerde}.

(** [canonical_digest] *)
Definition key_digest (json : option string) : result KeyManagementError string :=
  match json with Some bytes => mret (sha256_hex bytes) | None => Err KeCanonicalSerialization end.
Definition envelope_canonical_digest (self : KeyEnvelope) : result KeyManagementError string := key_digest (json_envelope self).
Definition keyring_canonical_digest (self : ProjectKeyring) : result KeyManagementError string :=
  keyring_validate self;; key_digest (json_keyring self).

(** [at.checked_add_signed(Duration::seconds(n)).ok_or(RevisionOverflow)] *)
Definition key_deadline (at_ : DateTime) (seconds : Z) : result KeyManagementError DateTime :=
  duration ← expect (duration_seconds seconds);
  ok_or (checked_add_signed at_ duration) KeRevisionOverflow.

Definition validate_worker_envelope (self : ProjectKeyring) (envelope : KeyEnvelope) (now : DateTime)
    : result KeyManagementError unit :=
  if negb (is_worker (ke_recipient envelope)) then mret tt else
  max_expiry ← key_deadline (ke_created_at envelope) MAX_WORKER_KEY_TTL_SECONDS;
  reject_if (negb (bool_decide (pk_mode self = TeamEnvelope))
    || negb (pk_remote_execution_opt_in self)
    || (now <? ke_created_at envelope)
    || is_none_or (fun expires => (expires <=? now) || (max_expiry <? expires)) (ke_expires_at envelope))
    KeInvalidWorkerEnvelope.

Definition add_envelope (envelope : KeyEnvelope) (now : DateTime) : keyring_op unit :=
  lift (envelope_validate envelope);;
  self ← get;
  lift (require_scope_and_active_version self envelope);;
  reject (pk_rotation_required self
    || existsb (fun stored => bool_decide (ke_id stored = ke_id envelope)
         || ((ke_key_version stored =? ke_key_version envelope)
             && bool_decide (ke_recipient stored = ke_recipient envelope))) (pk_envelopes self))
    KeDuplicateOrRotationRequired;;
  lift (validate_recipient_for_mode self (ke_recipient envelope));;
  lift (validate_worker_envelope self envelope now);;
  next_revision ← lift (keyring_next_revision self);
  modify (fun self => self <| pk_envelopes ::= fun l => l ++ [envelope] |> <| pk_revision := next_revision |>
    <| pk_updated_at := now |>).

(** ** Device public keys *)
Definition registration_validate (self : DevicePublicKeyRegistration) : result KeyManagementError unit :=
  reject_if (trim_is_empty (dk_tenant_id self)
    || trim_is_empty (dk_project_id self)
    || trim_is_empty (dk_device_id self)
    || negb (str_len (dk_public_key self) =? 32)
    || all_bytes (fun b => b =? 0) (dk_public_key self)
    || negb (bool_decide (dk_public_key_digest self = sha256_hex (dk_public_key self)))
    || trim_is_empty (dk_authorized_by self)
    || negb (is_sha256 (dk_authorization_evidence_digest self))
    || negb (is_sha256 (dk_idempotency_key_digest self))
    || (dk_revision self =? 0)
    || (dk_updated_at self <? dk_registered_at self)
    || is_some_and (fun revoked => negb (revoked =? dk_updated_at self)) (dk_revoked_at self))
    KeInvalidDevicePublicKeyRegistration.

Definition register_device_key (tenant_id project_id device_id : Id) (public_key : string) (authorized_by : Id)
    (authorization_evidence_digest idempotency_key_digest : string) (now : DateTime)
    : result KeyManagementError DevicePublicKeyRegistration :=
  let registration := mkRegistration tenant_id project_id device_id X25519HkdfSha256Aes256GcmV1 public_key
    (sha256_hex public_key) authorized_by authorization_evidence_digest idempotency_key_digest 1 now now None in
  registration_validate registration;;
  mret registration.

Definition registration_rotate (self : DevicePublicKeyRegistration) (expected_revision : Z) (public_key : string)
    (authorized_by : Id) (authorization_evidence_digest idempotency_key_digest : string) (now : DateTime)
    : result KeyManagementError DevicePublicKeyRegistration :=
  reject_if (negb (dk_revision self =? expected_revision)
    || is_some (dk_revoked_at self)
    || (now <? dk_updated_at self)
    || bool_decide (public_key = dk_public_key self)) KeInvalidDevicePublicKeyTransition;;
  revision ← ok_or (checked_add u64_max (dk_revision self) 1) KeRevisionOverflow;
  let next := self <| dk_public_key_digest := sha256_hex public_key |> <| dk_public_key := public_key |>
    <| dk_authorized_by := authorized_by |> <| dk_authorization_evidence_digest := authorization_evidence_digest |>
    <| dk_idempotency_key_digest := idempotency_key_digest |> <| dk_revision := revision |> <| dk_updated_at := now |> in
  registration_validate next;;
  mret next.

Definition registration_revoke (self : DevicePublicKeyRegistration) (expected_revision : Z)
    (authorized_by : Id) (authorization_evidence_digest idempotency_key_digest : string) (now : DateTime)
    : result KeyManagementError DevicePublicKeyRegistration :=
  reject_if (negb (dk_revision self =? expected_revision)
    || is_some (dk_revoked_at self)
    || (now <? dk_updated_at self)) KeInvalidDevicePublicKeyTransition;;
  revision ← ok_or (checked_add u64_max (dk_revision self) 1) KeRevisionOverflow;
  let next := self <| dk_authorized_by := authorized_by |>
    <| dk_authorization_evidence_digest := authorization_evidence_digest |>
    <| dk_idempotency_key_digest := idempotency_key_digest |> <| dk_revision := revision |> <| dk_updated_at := now |>
    <| dk_revoked_at := Some now |> in
  registration_validate next;;
  mret next.

Definition registration_follows (self previous : DevicePublicKeyRegistration) : result KeyManagementError bool :=
  registration_validate self;;
  registration_validate previous;;
  let same_scope :=
    bool_decide (dk_tenant_id self = dk_tenant_id previous)
    && bool_decide (dk_project_id self = dk_project_id previous)
    && bool_decide (dk_device_id self = dk_device_id previous)
    && bool_decide (dk_algorithm self = dk_algorithm previous)
    && (dk_registered_at self =? dk_registered_at previous) in
  let valid_change :=
    if is_some (dk_revoked_at self)
    then bool_decide (dk_public_key self = dk_public_key previous) && is_none (dk_revoked_at previous)
    else negb (bool_decide (dk_public_key self = dk_public_key previous)) && is_none (dk_revoked_at previous) in
  mret (same_scope && valid_change
    && (dk_revision self =? saturating_add u64_max (dk_revision previous) 1)
    && (dk_updated_at previous <=? dk_updated_at self)).

Definition registration_is_active (self : DevicePublicKeyRegistration) (now : DateTime) : bool :=
  (dk_registered_at self <=? now) && (dk_updated_at self <=? now) && is_none (dk_revoked_at self).

(** ** Handoff *)
Definition is_same_device (source : KeyRecipient) (device_id : Id) : bool :=
  match source with KrDevice source => bool_decide (source = device_id) | _ => false end.

Definition handoff_context_validate (self : DeviceHandoffContext) : result KeyManagementError unit :=
  reject_if (trim_is_empty (hc_tenant_id self)
    || trim_is_empty (hc_project_id self)
    || trim_is_empty (hc_grant_id self)
    || trim_is_empty (hc_target_device_id self)
    || negb (source_valid (hc_project_mode self) (hc_source_recipient self))
    || is_same_device (hc_source_recipient self) (hc_target_device_id self)
    || negb (is_sha256 (hc_source_envelope_digest self))
    || negb (is_sha256 (hc_source_keyring_manifest_digest self))
    || negb (is_sha256 (hc_target_public_key_digest self))
    || (hc_key_version self =? 0)
    || (hc_expected_keyring_revision self =? 0)) KeInvalidDeviceHandoff.
Definition handoff_context_digest (self : DeviceHandoffContext) : result KeyManagementError string :=
  handoff_context_validate self;; key_digest (json_handoff_context self).

Definition handoff_ciphertext_validate (self : DeviceHandoffCiphertext) : bool :=
  (str_len (hx_sender_ephemeral_public_key self) =? 32)
  && negb (all_bytes (fun b => b =? 0) (hx_sender_ephemeral_public_key self))
  && (str_len (hx_nonce self) =? 12)
  && (str_len (hx_ciphertext self) =? 48)
  && is_sha256 (hx_aad_digest self)
  && bool_decide (hx_content_digest self = sha256_hex (hx_ciphertext self)).

Definition grant_validate (self : DeviceHandoffGrant) : result KeyManagementError unit :=
  let context := hg_context self in
  let ciphertext := hg_ciphertext self in
  handoff_context_validate context;;
  max_expiry ← key_deadline (hg_created_at self) MAX_DEVICE_HANDOFF_TTL_SECONDS;
  reject_if (negb (handoff_ciphertext_validate ciphertext)
    || negb (bool_decide (hx_algorithm ciphertext = X25519HkdfSha256Aes256GcmV1))) KeInvalidDeviceHandoff;;
  digest ← handoff_context_digest context;
  reject_if (negb (bool_decide (hx_aad_digest ciphertext = digest))
    || negb (bool_decide (hg_intent_digest self = hx_aad_digest ciphertext))
    || trim_is_empty (hg_authorized_by self)
    || negb (is_sha256 (hg_authorization_evidence_digest self))
    || negb (is_sha256 (hg_idempotency_key_digest self))
    || (hc_expires_at context <=? hg_created_at self)
    || (max_expiry <? hc_expires_at context)) KeInvalidDeviceHandoff.

Definition grant_prepare (context : DeviceHandoffContext) (ciphertext : DeviceHandoffCiphertext) (authorized_by : Id)
    (authorization_evidence_digest idempotency_key_digest : string) (created_at : DateTime)
    : result KeyManagementError DeviceHandoffGrant :=
  intent_digest ← handoff_context_digest context;
  let grant := mkHandoffGrant context ciphertext authorized_by authorization_evidence_digest idempotency_key_digest
    intent_digest created_at in
  grant_validate grant;;
  mret grant.

Definition grant_is_unexpired (self : DeviceHandoffGrant) (now : DateTime) : bool :=
  (hg_created_at self <=? now) && (now <? hc_expires_at (hg_context self)).
Definition grant_request_digest (self : DeviceHandoffGrant) : result KeyManagementError string :=
  grant_validate self;; key_digest (json_handoff_grant self).

Definition revocation_validate_against (self : DeviceHandoffRevocation) (grant : DeviceHandoffGrant)
    : result KeyManagementError unit :=
  grant_validate grant;;
  reject_if (negb (bool_decide (hr_tenant_id self = hc_tenant_id (hg_context grant)))
    || negb (bool_decide (hr_project_id self = hc_project_id (hg_context grant)))
    || negb (bool_decide (hr_grant_id self = hc_grant_id (hg_context grant)))
    || trim_is_empty (hr_revoked_by self)
    || negb (is_sha256 (hr_authorization_evidence_digest self))
    || negb (is_sha256 (hr_idempotency_key_digest self))
    || (hr_revoked_at self <? hg_created_at grant)) KeInvalidDeviceHandoffRevocation.
Definition revocation_request_digest (self : DeviceHandoffRevocation) : result KeyManagementError string :=
  key_digest (json_handoff_revocation self).

Definition claim_validate_against (self : DeviceHandoffClaim) (grant : DeviceHandoffGrant)
    : result KeyManagementError unit :=
  grant_validate grant;;
  reject_if (trim_is_empty (hm_claim_id self)
    || negb (bool_decide (hm_tenant_id self = hc_tenant_id (hg_context grant)))
    || negb (bool_decide (hm_project_id self = hc_project_id (hg_context grant)))
    || negb (bool_decide (hm_grant_id self = hc_grant_id (hg_context grant)))
    || negb (bool_decide (hm_target_device_id self = hc_target_device_id (hg_context grant)))
    || negb (bool_decide (hm_target_public_key_digest self = hc_target_public_key_digest (hg_context grant)))
    || negb (is_sha256 (hm_idempotency_key_digest self))
    || negb (grant_is_unexpired grant (hm_claimed_at self))) KeInvalidDeviceHandoffClaim.

Definition claim_issue (grant : DeviceHandoffGrant) (claim_id : Id) (idempotency_key_digest : string)
    (claimed_at : DateTime) : result KeyManagementError DeviceHandoffClaim :=
  let context := hg_context grant in
  let claim := mkHandoffClaim claim_id (hc_tenant_id context) (hc_project_id context) (hc_grant_id context)
    (hc_target_device_id context) (hc_target_public_key_digest context) idempotency_key_digest claimed_at in
  claim_validate_against claim grant;;
  mret claim.
Definition claim_request_digest (self : DeviceHandoffClaim) : result KeyManagementError string :=
  key_digest (json_handoff_claim self).

Definition consumption_validate_against (self : DeviceHandoffConsumption) (grant : DeviceHandoffGrant)
    (claim : DeviceHandoffClaim) : result KeyManagementError unit :=
  let context := hg_context grant in
  grant_validate grant;;
  claim_validate_against claim grant;;
  finalize_deadline ← key_deadline (hm_claimed_at claim) MAX_DEVICE_HANDOFF_TTL_SECONDS;
  reject_if (negb (bool_decide (hs_claim_id self = hm_claim_id claim))
    || trim_is_empty (hs_receipt_id self)
    || negb (bool_decide (hs_tenant_id self = hc_tenant_id context))
    || negb (bool_decide (hs_project_id self = hc_project_id context))
    || negb (bool_decide (hs_grant_id self = hc_grant_id context))
    || negb (bool_decide (hs_target_device_id self = hc_target_device_id context))
    || negb (bool_decide (hs_target_public_key_digest self = hc_target_public_key_digest context))
    || negb (hs_key_version self =? hc_key_version context)
    || trim_is_empty (hs_attachment_id self)) KeInvalidDeviceHandoffConsumption;;
  next_revision ← ok_or (checked_add u64_max (hc_expected_keyring_revision context) 1) KeRevisionOverflow;
  reject_if (negb (hs_result_keyring_revision self =? next_revision)
    || negb (is_sha256 (hs_receipt_digest self))
    || (hs_consumed_at self <? hm_claimed_at claim)
    || (finalize_deadline <? hs_consumed_at self)) KeInvalidDeviceHandoffConsumption.

Definition consumption_issue (grant : DeviceHandoffGrant) (claim : DeviceHandoffClaim) (receipt_id attachment_id : Id)
    (result_keyring_revision : Z) (receipt_digest : string) (consumed_at : DateTime)
    : result KeyManagementError DeviceHandoffConsumption :=
  let context := hg_context grant in
  let consumption := mkHandoffConsumption (hm_claim_id claim) receipt_id (hc_tenant_id context) (hc_project_id context)
    (hc_grant_id context) (hc_target_device_id context) (hc_target_public_key_digest context) (hc_key_version context)
    attachment_id result_keyring_revision receipt_digest consumed_at in
  consumption_validate_against consumption grant claim;;
  mret consumption.
Definition consumption_request_digest (self : DeviceHandoffConsumption) : result KeyManagementError string :=
  key_digest (json_handoff_consumption self).

(** ** Bootstrap *)
Definition bootstrap_validate (self : ProjectKeyringBootstrap) : result KeyManagementError unit :=
  let keyring := bs_keyring self in
  keyring_validate keyring;;
  reject_if (negb (bool_decide (bs_tenant_id self = pk_tenant_id keyring))
    || negb (bool_decide (bs_project_id self = pk_project_id keyring))
    || negb (source_valid (pk_mode keyring) (bs_published_by self))) KeInvalidProjectKeyringBootstrap;;
  digest ← keyring_canonical_digest keyring;
  reject_if (negb (bool_decide (bs_manifest_digest self = digest))
    || negb (is_sha256 (bs_authorizing_envelope_digest self))
    || negb (is_sha256 (bs_authorization_evidence_digest self))
    || negb (is_sha256 (bs_idempotency_key_digest self))
    || (bs_published_at self <? pk_updated_at keyring)
    || match bs_previous_keyring_revision self with
       | None => negb (pk_revision keyring =? 1)
       | Some previous => negb (bool_decide (checked_add u64_max previous 1 = Some (pk_revision keyring)))
       end) KeInvalidProjectKeyringBootstrap;;
  if is_none (bs_previous_keyring_revision self)
  then envelope ← map_err (fun _ => KeInvalidProjectKeyringBootstrap)
         (available_envelope_for_version keyring (bs_published_by self) (pk_active_key_version keyring) (bs_published_at self));
       digest ← envelope_canonical_digest envelope;
       reject_if (negb (bool_decide (digest = bs_authorizing_envelope_digest self))) KeInvalidProjectKeyringBootstrap
  else mret tt.

Definition bootstrap_prepare (keyring : ProjectKeyring) (previous_keyring_revision : option Z) (published_by : KeyRecipient)
    (authorizing_envelope_digest authorization_evidence_digest idempotency_key_digest : string) (published_at : DateTime)
    : result KeyManagementError ProjectKeyringBootstrap :=
  manifest_digest ← keyring_canonical_digest keyring;
  let bootstrap := mkBootstrap (pk_tenant_id keyring) (pk_project_id keyring) keyring previous_keyring_revision
    manifest_digest published_by authorizing_envelope_digest authorization_evidence_digest idempotency_key_digest
    published_at in
  bootstrap_validate bootstrap;;
  mret bootstrap.
Definition bootstrap_request_digest (self : ProjectKeyringBootstrap) : result KeyManagementError string :=
  bootstrap_validate self;; key_digest (json_bootstrap self).
End keys.

(** ** Attachments *)
Definition method_valid (method : DeviceAttachmentMethod) (source : KeyRecipient) (mode : ProjectEncryptionMode) : bool :=
  match method, source, mode with
  | (AuthorizedRecipient | PublicKeyHandoff), (KrDevice _ | KrMember _), _ => true
  | RecoveryKit, KrRecovery _, PersonalE2ee => true
  | _, _, _ => false
  end.

Definition attachment_status_valid (self : DeviceAttachment) : bool :=
  match da_status self with
  | DaPrepared => (da_revision self =? 1) && is_none (da_result_keyring_revision self) && is_none (da_error_code self)
  | DaApplied =>
      (da_revision self =? 2)
      && bool_decide (da_result_keyring_revision self = checked_add u64_max (da_expected_keyring_revision self) 1)
      && is_none (da_error_code self)
  | DaConflict =>
      (da_revision self =? 2) && is_none (da_result_keyring_revision self)
      && is_some_and (fun code => negb (trim_is_empty code)) (da_error_code self)
  end.

Definition attachment_validate (self : DeviceAttachment) : result KeyManagementError unit :=
  let envelope := da_envelope self in
  envelope_validate envelope;;
  reject_if (trim_is_empty (da_id self)
    || trim_is_empty (da_tenant_id self)
    || trim_is_empty (da_project_id self)
    || trim_is_empty (da_device_id self)
    || (da_key_version self =? 0)
    || (da_expected_keyring_revision self =? 0)
    || negb (method_valid (da_method self) (da_source_recipient self) (da_project_mode self))
    || is_same_device (da_source_recipient self) (da_device_id self)
    || negb (bool_decide (ke_tenant_id envelope = da_tenant_id self))
    || negb (bool_decide (ke_project_id envelope = da_project_id self))
    || negb (ke_key_version envelope =? da_key_version self)
    || negb (bool_decide (ke_recipient envelope = KrDevice (da_device_id self)))
    || is_some (ke_expires_at envelope)
    || is_some (ke_revoked_at envelope)
    || negb (ke_created_at envelope =? da_created_at self)
    || trim_is_empty (da_authorized_by self)
    || negb (is_sha256 (da_authorization_evidence_digest self))
    || negb (is_sha256 (da_idempotency_key_digest self))
    || negb (is_sha256 (da_intent_digest self))
    || negb (attachment_status_valid self)
    || (da_updated_at self <? da_created_at self)) KeInvalidDeviceAttachment.

Definition attachment_prepare (id tenant_id project_id : Id) (project_mode : ProjectEncryptionMode)
    (method : DeviceAttachmentMethod) (source_recipient : KeyRecipient) (device_id : Id)
    (key_version expected_keyring_revision : Z) (envelope : KeyEnvelope) (authorized_by : Id)
    (authorization_evidence_digest idempotency_key_digest intent_digest : string) (now : DateTime)
    : result KeyManagementError DeviceAttachment :=
  let attachment := mkAttachment id tenant_id project_id project_mode method source_recipient device_id key_version
    expected_keyring_revision envelope authorized_by authorization_evidence_digest idempotency_key_digest intent_digest
    DaPrepared None None 1 now now in
  attachment_validate attachment;;
  mret attachment.

Definition mark_applied (self : DeviceAttachment) (expected_revision result_keyring_revision : Z) (now : DateTime)
    : result KeyManagementError DeviceAttachment :=
  reject_if (negb (bool_decide (da_status self = DaPrepared))
    || negb (da_revision self =? expected_revision)) KeInvalidDeviceAttachmentTransition;;
  next_keyring_revision ← ok_or (checked_add u64_max (da_expected_keyring_revision self) 1) KeRevisionOverflow;
  reject_if (negb (result_keyring_revision =? next_keyring_revision)
    || (now <? da_updated_at self)) KeInvalidDeviceAttachmentTransition;;
  revision ← ok_or (checked_add u64_max (da_revision self) 1) KeRevisionOverflow;
  let next := self <| da_status := DaApplied |> <| da_result_keyring_revision := Some result_keyring_revision |>
    <| da_revision := revision |> <| da_updated_at := now |> in
  attachment_validate next;;
  mret next.

Definition mark_conflict (self : DeviceAttachment) (expected_revision : Z) (error_code : string) (now : DateTime)
    : result KeyManagementError DeviceAttachment :=
  reject_if (negb (bool_decide (da_status self = DaPrepared))
    || negb (da_revision self =? expected_revision)
    || trim_is_empty error_code
    || (now <? da_updated_at self)) KeInvalidDeviceAttachmentTransition;;
  revision ← ok_or (checked_add u64_max (da_revision self) 1) KeRevisionOverflow;
  let next := self <| da_status := DaConflict |> <| da_error_code := Some error_code |>
    <| da_revision := revision |> <| da_updated_at := now |> in
  attachment_validate next;;
  mret next.

Definition attachment_follows (self previous : DeviceAttachment) : result KeyManagementError bool :=
  attachment_validate self;;
  attachment_validate previous;;
  let expected := previous <| da_status := da_status self |>
    <| da_result_keyring_revision := da_result_keyring_revision self |> <| da_error_code := da_error_code self |>
    <| da_revision := da_revision self |> <| da_updated_at := da_updated_at self |> in
  mret (bool_decide (expected = self)
    && bool_decide (da_status previous = DaPrepared)
    && (da_revision self =? saturating_add u64_max (da_revision previous) 1)
    && (da_updated_at previous <=? da_updated_at self)).
