(* ===== verification/KeysSafety.v ===== *)
(** * What project keys guarantee

    Worker keys are short-lived and need the team's opt-in; a revoked recipient
    is locked out of every version of the key; a successful call leaves a
    keyring that storage accepts as the next revision; and the append checks of
    device keys and attachments accept exactly what the calls produce. *)
From S2P Require Import Prelude Text Keys.

Inductive KeyringCall : Type :=
| KcAdd (envelope : KeyEnvelope) (now : DateTime)
| KcOptIn (enabled : bool) (now : DateTime)
| KcRevoke (recipient : KeyRecipient) (now : DateTime)
| KcRotate (envelopes : list KeyEnvelope) (now : DateTime)
| KcRevokeRotate (recipient : KeyRecipient) (envelopes : list KeyEnvelope) (now : DateTime).
Definition call_time (c : KeyringCall) : DateTime :=
  match c with
  | KcAdd _ now | KcOptIn _ now | KcRevoke _ now | KcRotate _ now | KcRevokeRotate _ _ now => now
  end.
(** The envelopes a call brings in. *)
Definition call_envelopes (c : KeyringCall) : list KeyEnvelope :=
  match c with KcAdd e _ => [e] | KcRotate es _ | KcRevokeRotate _ es _ => es | _ => [] end.

Section calls.
Context `{!Chrono}.

Definition keyring_call (c : KeyringCall) : SR ProjectKeyring KeyManagementError unit :=
  match c with
  | KcAdd envelope now => add_envelope envelope now
  | KcOptIn enabled now => set_remote_execution_opt_in enabled now
  | KcRevoke recipient now => revoke_recipient recipient now
  | KcRotate envelopes now => keyring_rotate envelopes now;; mret tt
  | KcRevokeRotate recipient envelopes now => revoke_and_rotate recipient envelopes now;; mret tt
  end.
Fixpoint keyring_run (cs : list KeyringCall) (k : ProjectKeyring) : ProjectKeyring :=
  match cs with [] => k | c :: cs => keyring_run cs (run (keyring_call c) k).2 end.
End calls.

(** ** What a successful call does *)

(** The envelopes a call revokes. *)
Definition call_revokes (c : KeyringCall) (e : KeyEnvelope) : bool :=
  match c with
  | KcAdd _ _ => false
  | KcOptIn enabled _ => negb enabled && unrevoked_worker e
  | KcRevoke r _ => unrevoked_of r e
  | KcRotate _ _ => unrevoked_worker e
  | KcRevokeRotate r _ _ => unrevoked_of r e || unrevoked_worker e
  end.
Definition call_version (c : KeyringCall) (k : ProjectKeyring) : Z :=
  match c with KcRotate _ _ | KcRevokeRotate _ _ _ => pk_active_key_version k + 1 | _ => pk_active_key_version k end.
Definition call_opt_in (c : KeyringCall) (k : ProjectKeyring) : bool :=
  match c with KcOptIn enabled _ => enabled | _ => pk_remote_execution_opt_in k end.
Definition call_rotation (c : KeyringCall) (k : ProjectKeyring) : bool :=
  match c with
  | KcRotate _ _ | KcRevokeRotate _ _ _ => false
  | KcRevoke r _ => is_long_lived r || pk_rotation_required k
  | _ => pk_rotation_required k
  end.
Definition called (c : KeyringCall) (k : ProjectKeyring) : ProjectKeyring :=
  mkKeyring (pk_tenant_id k) (pk_project_id k) (pk_mode k) (call_version c k) (call_opt_in c k) (call_rotation c k)
    (revoke_where (call_revokes c) (call_time c) (pk_envelopes k) ++ call_envelopes c) (pk_revision k + 1)
    (pk_created_at k) (call_time c).

Lemma revoke_where_none m now l : (forall e, m e = false) -> revoke_where m now l = l.
Proof. intros Hm. unfold revoke_where. induction l as [|e l IH]; [done|]. rewrite fmap_cons, Hm. by f_equal. Qed.
Lemma revoke_where_ext m m' now l : (forall e, m e = m' e) -> revoke_where m now l = revoke_where m' now l.
Proof. intros Hm. unfold revoke_where. apply list_fmap_ext. intros. by rewrite Hm. Qed.
Lemma revoke_where_twice r now l :
  revoke_where unrevoked_worker now (revoke_where (unrevoked_of r) now l)
  = revoke_where (fun e => unrevoked_of r e || unrevoked_worker e) now l.
Proof.
  unfold revoke_where. rewrite <-list_fmap_compose. apply list_fmap_ext. intros i e _. cbn.
  destruct (unrevoked_of r e) eqn:Hr; cbn; [|done]. unfold unrevoked_worker; cbn. by rewrite andb_false_r.
Qed.

(** What the checks of the loop over new envelopes ensure. *)
Definition admissible (k : ProjectKeyring) (version : Z) (e : KeyEnvelope) : Prop :=
  envelope_validate e = Ok tt /\ ke_tenant_id e = pk_tenant_id k /\ ke_project_id e = pk_project_id k /\
  ke_key_version e = version /\ (pk_mode k = PersonalE2ee -> is_member_or_worker (ke_recipient e) = false).
Lemma new_envelopes_Ok k version forbidden recipients es :
  new_envelopes_validate k version forbidden recipients es = Ok tt ->
  (forall e, e ∈ es -> admissible k version e /\ is_worker (ke_recipient e) = false /\ Some (ke_recipient e) <> forbidden /\
     (ke_recipient e ∉ recipients)) /\
  NoDup (ke_recipient <$> es).
Proof.
  revert recipients; induction es as [|e es IH]; intros recipients Hv; cbn [new_envelopes_validate] in Hv.
  - split; [intros e He; by apply not_elem_of_nil in He|constructor].
  - inv_run. unfold validate_recipient_for_mode in *. inv_run. split_guards.
    match goal with Hx : new_envelopes_validate _ _ _ _ es = _ |- _ => apply IH in Hx as [Hes Hnd] end.
    match goal with Hx : bool_decide _ && is_member_or_worker _ = false |- _ => apply andb_false_iff in Hx; rename Hx into Hm end.
    split.
    + intros x [->|Hx]%elem_of_cons.
      * split; [|done]. unfold admissible. split_and!; try done; [lia|]. intros Hp. destruct Hm as [Hm|Hm]; [|done].
        by rewrite bool_decide_eq_true_2 in Hm.
      * destruct (Hes x Hx) as (? & ? & ? & Hn). split_and!; try done. set_solver.
    + cbn. constructor; [|done]. intros (x & Heq & Hx)%list_elem_of_fmap. destruct (Hes x Hx) as (_ & _ & _ & Hn).
      rewrite Heq in Hn. set_solver.
Qed.

Section steps.
Context `{!Chrono} `{!ChronoLaws}.

(** What a worker envelope had to satisfy when it was added. *)
Definition short_lived (e : KeyEnvelope) : Prop :=
  exists expires, ke_expires_at e = Some expires /\ expires <= ke_created_at e + 900 * nanos_per_second.
Lemma worker_envelope_Ok k e now :
  validate_worker_envelope k e now = Ok tt -> is_worker (ke_recipient e) = true ->
  pk_mode k = TeamEnvelope /\ pk_remote_execution_opt_in k = true /\ ke_created_at e <= now /\ short_lived e.
Proof.
  unfold validate_worker_envelope, key_deadline. intros Hv Hw. rewrite Hw in Hv. cbn [negb] in Hv. inv_run. split_guards.
  match goal with Hx : duration_seconds _ = Some _ |- _ => apply duration_seconds_exact in Hx; subst end.
  match goal with Hx : checked_add_signed _ _ = Some _ |- _ => apply add_signed_exact in Hx; subst end.
  split_and!; try done; try lia. unfold short_lived. destruct (ke_expires_at e) as [x|]; [|done]. exists x. split; [done|].
  cbn in *. split_guards. unfold MAX_WORKER_KEY_TTL_SECONDS in *. lia.
Qed.

(** What a successful call, other than setting the opt-in to what it is,
    requires and leaves. *)
Record keyring_step (k : ProjectKeyring) (c : KeyringCall) (k' : ProjectKeyring) : Prop := {
  step_state : k' = called c k;
  step_revision : pk_revision k < u64_max;
  step_version : call_version c k <> pk_active_key_version k -> pk_active_key_version k < u64_max;
  step_new e : e ∈ call_envelopes c -> admissible k (call_version c k) e;
  step_recipients : NoDup (ke_recipient <$> call_envelopes c);
  step_workers e : e ∈ call_envelopes c -> is_worker (ke_recipient e) = true ->
    pk_mode k = TeamEnvelope /\ pk_remote_execution_opt_in k = true /\ ke_created_at e <= call_time c /\ short_lived e /\
    call_version c k = pk_active_key_version k;
  step_opt_in : call_opt_in c k = pk_remote_execution_opt_in k \/ pk_mode k = TeamEnvelope;
  step_fresh e : e ∈ call_envelopes c -> call_version c k = pk_active_key_version k ->
    forall x, x ∈ pk_envelopes k -> ke_id x <> ke_id e /\ (ke_key_version x, ke_recipient x) <> (ke_key_version e, ke_recipient e);
  step_rotated : call_version c k <> pk_active_key_version k ->
    required_recipient_set_is_available (pk_mode k) (call_envelopes c) (call_version c k) (call_time c) = true;
}.

Lemma add_step e now k u k' : run (add_envelope e now) k = (Ok u, k') -> keyring_step k (KcAdd e now) k'.
Proof.
  unfold add_envelope, require_scope_and_active_version, validate_recipient_for_mode, keyring_next_revision.
  intros Hr. inv_run. split_guards. known_revision.
  match goal with Hx : bool_decide _ && is_member_or_worker _ = false |- _ => apply andb_false_iff in Hx; rename Hx into Hm end.
  match goal with Hx : existsb _ _ = false |- _ => rewrite existsb_false in Hx; rename Hx into Hf end.
  assert (admissible k (pk_active_key_version k) e) as Ha.
  { unfold admissible. split_and!; try done; [lia|]. intros Hp. destruct Hm as [Hm|Hm]; [by rewrite bool_decide_eq_true_2 in Hm|done]. }
  split; cbn [call_envelopes call_version call_time call_opt_in]; try done.
  - unfold called; cbn. by rewrite revoke_where_none.
  - lia.
  - intros x ->%list_elem_of_singleton. exact Ha.
  - apply NoDup_singleton.
  - intros x ->%list_elem_of_singleton Hw. by destruct (worker_envelope_Ok k e now) as (? & ? & ? & ?).
  - by left.
  - intros x ->%list_elem_of_singleton _ y Hy. specialize (Hf y Hy). split_guards. split; [done|]. intros [= Hv Hrc].
    match goal with Hx : (_ =? _) && _ = false |- _ => rewrite Hv, Z.eqb_refl, bool_decide_eq_true_2 in Hx by done; done end.
Qed.

Lemma no_envelopes_step k c k' :
  k' = called c k -> pk_revision k < u64_max -> call_envelopes c = [] -> call_version c k = pk_active_key_version k ->
  (call_opt_in c k = pk_remote_execution_opt_in k \/ pk_mode k = TeamEnvelope) -> keyring_step k c k'.
Proof.
  intros -> Hr He Hv Ho. split; try done; rewrite ?He; try (by intros x Hx%not_elem_of_nil); by constructor.
Qed.
Lemma opt_in_step enabled now k u k' :
  run (set_remote_execution_opt_in enabled now) k = (Ok u, k') -> k' = k \/ keyring_step k (KcOptIn enabled now) k'.
Proof.
  unfold set_remote_execution_opt_in, keyring_next_revision. intros Hr. rewrite run_get_bind, run_reject_bind in Hr.
  case_match eqn:Hm; [done|]. split_guards. destruct (Bool.eqb _ enabled); [left; by inv_run|right]. inv_run. known_revision.
  apply no_envelopes_step; try done; [|lia|by right]. unfold called; cbn. rewrite app_nil_r. destruct enabled; [by rewrite revoke_where_none|done].
Qed.
Lemma revoke_step r now k u k' : run (revoke_recipient r now) k = (Ok u, k') -> keyring_step k (KcRevoke r now) k'.
Proof.
  unfold revoke_recipient, keyring_next_revision. intros Hr. inv_run. known_revision.
  apply no_envelopes_step; try done; [|lia|by left]. unfold called; cbn. rewrite app_nil_r. by destruct (is_long_lived r).
Qed.

Lemma rotation_step c es forbidden now k k' :
  call_envelopes c = es -> call_time c = now -> call_version c k = pk_active_key_version k + 1 ->
  call_opt_in c k = pk_remote_execution_opt_in k -> pk_active_key_version k + 1 <= u64_max -> pk_revision k < u64_max ->
  new_envelopes_validate k (pk_active_key_version k + 1) forbidden [] es = Ok tt ->
  required_recipient_set_is_available (pk_mode k) es (pk_active_key_version k + 1) now = true ->
  k' = called c k -> keyring_step k c k'.
Proof.
  intros He Ht Hv Ho Hm Hr Hn Hq ->. apply new_envelopes_Ok in Hn as [Hn Hnd]. split; rewrite ?He, ?Hv, ?Ht; try done.
  - lia.
  - intros e Hin. by apply Hn.
  - intros e Hin Hw. destruct (Hn e Hin) as (_ & Hx & _). congruence.
  - by left.
  - intros e _ Hx. lia.
Qed.
Lemma rotate_step es now k u k' :
  run (keyring_rotate es now;; mret tt) k = (Ok u, k') -> keyring_step k (KcRotate es now) k'.
Proof.
  unfold keyring_rotate, keyring_next_revision. intros Hr. inv_run. known_revision. split_guards.
  eapply (rotation_step (KcRotate es now)); try done; lia.
Qed.
Lemma revoke_rotate_step r es now k u k' :
  run (revoke_and_rotate r es now;; mret tt) k = (Ok u, k') -> keyring_step k (KcRevokeRotate r es now) k'.
Proof.
  unfold revoke_and_rotate, keyring_next_revision. intros Hr. inv_run. known_revision. split_guards.
  eapply (rotation_step (KcRevokeRotate r es now)); try done; try lia. unfold called; cbn. by rewrite revoke_where_twice.
Qed.

Lemma keyring_call_step c k u k' : run (keyring_call c) k = (Ok u, k') -> k' = k \/ keyring_step k c k'.
Proof.
  destruct c; cbn [keyring_call]; [| |..].
  - right. by eapply add_step.
  - apply opt_in_step.
  - right. by eapply revoke_step.
  - right. by eapply rotate_step.
  - right. by eapply revoke_rotate_step.
Qed.
Lemma keyring_call_refused c k : is_ok (run (keyring_call c) k).1 = false -> (run (keyring_call c) k).2 = k.
Proof.
  assert (Atomic (keyring_call c)) as Ha by (destruct c; cbn [keyring_call];
    unfold add_envelope, set_remote_execution_opt_in, revoke_recipient;
    try apply bind_mret_atomic; unfold keyring_rotate, revoke_and_rotate; apply _).
  apply Ha.
Qed.
Lemma keyring_call_moves c k :
  (run (keyring_call c) k).2 = k \/ keyring_step k c (run (keyring_call c) k).2.
Proof.
  destruct (is_ok (run (keyring_call c) k).1) eqn:Ho; [|left; by apply keyring_call_refused].
  destruct (run (keyring_call c) k) as [[u| |] k'] eqn:Hr; [|done..]. by eapply keyring_call_step.
Qed.
End steps.

(** ** Revocation *)

(** A recipient with no envelope that is not revoked. *)
Definition locked_out (r : KeyRecipient) (k : ProjectKeyring) : Prop :=
  forall e, e ∈ pk_envelopes k -> ke_recipient e = r -> ke_revoked_at e <> None.

Lemma elem_of_revoked m now l e :
  e ∈ revoke_where m now l <->
  exists x, x ∈ l /\ e = if m x then x <| ke_revoked_at := Some now |> else x.
Proof. unfold revoke_where. rewrite list_elem_of_fmap. naive_solver. Qed.
Lemma find_available_Ok k r v t e :
  find_available k r v t = Ok e ->
  e ∈ pk_envelopes k /\ ke_key_version e = v /\ ke_recipient e = r /\ is_available e t = true.
Proof.
  unfold find_available. rewrite ok_or_Ok. intros [Hin Hg]%List.find_some. apply list_elem_of_In in Hin. split_guards.
  split_and!; done || lia.
Qed.
Lemma locked_out_fails r k :
  locked_out r k -> forall v t, is_ok (available_envelope_for_version k r v t) = false /\ is_ok (active_envelope_for k r t) = false.
Proof.
  intros Hl v t. assert (forall w, is_ok (find_available k r w t) = false) as Hf.
  { intros w. destruct (find_available k r w t) as [e| |] eqn:He; try done.
    apply find_available_Ok in He as (Hin & _ & Hr & Ha). unfold is_available in Ha. split_guards.
    specialize (Hl e Hin Hr). by destruct (ke_revoked_at e). }
  unfold available_envelope_for_version, active_envelope_for, reject_if. split; repeat case_match; cbn; done || apply Hf.
Qed.

Section guarantees.
Context `{!Chrono} `{!ChronoLaws}.

Lemma step_locked_out r k c k' :
  keyring_step k c k' -> locked_out r k -> (forall e, e ∈ call_envelopes c -> ke_recipient e <> r) -> locked_out r k'.
Proof.
  intros Hs Hl Hn. rewrite (step_state _ _ _ Hs). intros e [(x & Hx & ->)%elem_of_revoked|He]%elem_of_app Hr; cbn in *.
  - destruct (call_revokes c x); [done|]. by apply Hl.
  - by destruct (Hn e He).
Qed.
Lemma run_locked_out r cs k :
  locked_out r k -> (forall c e, c ∈ cs -> e ∈ call_envelopes c -> ke_recipient e <> r) -> locked_out r (keyring_run cs k).
Proof.
  revert k; induction cs as [|c cs IH]; intros k Hl Hn; [done|]. cbn [keyring_run].
  apply IH; [|intros; eapply Hn; [by apply list_elem_of_further|done]].
  destruct (keyring_call_moves c k) as [->|Hs]; [done|]. eapply step_locked_out; [done..|].
  intros e He. eapply Hn; [apply list_elem_of_here|done].
Qed.

Definition revocation_of (r : KeyRecipient) (c : KeyringCall) : Prop :=
  match c with KcRevoke r' _ | KcRevokeRotate r' _ _ => r' = r | _ => False end.
Lemma revocation_locks_out r c k k' :
  revocation_of r c -> run (keyring_call c) k = (Ok tt, k') -> locked_out r k'.
Proof.
  intros Hc Hr. assert (forall e, e ∈ call_envelopes c -> ke_recipient e <> r) as Hn.
  { destruct c as [| |? ?| |r' es now]; try done; cbn in Hc; subst; [by intros e He%not_elem_of_nil|].
    cbn [keyring_call] in Hr. unfold revoke_and_rotate in Hr. inv_run.
    match goal with Hx : new_envelopes_validate _ _ _ _ _ = _ |- _ => apply new_envelopes_Ok in Hx as [Hnew _] end.
    intros e He Heq. destruct (Hnew e He) as (_ & _ & Hnf & _). congruence. }
  assert (forall x, ke_recipient x = r -> ke_revoked_at x = None -> call_revokes c x = true) as Hrev.
  { intros x Hx Hx'. destruct c; try done; cbn in Hc |- *; subst; unfold unrevoked_of; by rewrite bool_decide_eq_true_2, Hx'. }
  assert (k' = called c k) as ->.
  { destruct c; try done; cbn [keyring_call] in Hr; [apply revoke_step in Hr|apply revoke_rotate_step in Hr]; apply Hr. }
  intros e [(x & Hx & ->)%elem_of_revoked|He]%elem_of_app He'; [|by destruct (Hn e He)].
  destruct (call_revokes c x) eqn:Hcx; [done|]. intros Hno. by rewrite (Hrev x He' Hno) in Hcx.
Qed.

(** Whether one of the calls of a run is a rotation that succeeds. *)
Definition is_rotation (c : KeyringCall) : bool :=
  match c with KcRotate _ _ | KcRevokeRotate _ _ _ => true | _ => false end.
Fixpoint rotated (cs : list KeyringCall) (k : ProjectKeyring) : bool :=
  match cs with
  | [] => false
  | c :: cs => is_rotation c && is_ok (run (keyring_call c) k).1 || rotated cs (run (keyring_call c) k).2
  end.
Lemma run_rotation_required cs k :
  pk_rotation_required k = true -> rotated cs k = false ->
  pk_rotation_required (keyring_run cs k) = true /\ pk_active_key_version (keyring_run cs k) = pk_active_key_version k.
Proof.
  revert k; induction cs as [|c cs IH]; intros k Hk Hr; [done|]. cbn [keyring_run rotated] in *.
  apply orb_false_iff in Hr as [Hc Hr].
  assert (pk_rotation_required (run (keyring_call c) k).2 = true /\
    pk_active_key_version (run (keyring_call c) k).2 = pk_active_key_version k) as [Hk' Hv'].
  { destruct (is_ok (run (keyring_call c) k).1) eqn:Ho; [|by rewrite keyring_call_refused].
    destruct (keyring_call_moves c k) as [->|Hs]; [done|]. rewrite (step_state _ _ _ Hs).
    destruct c; cbn in *; rewrite ?Hk, ?orb_true_r; done. }
  destruct (IH _ Hk' Hr) as [? ->]. done.
Qed.

(** C32: A revoked recipient is locked out of the project's keys. Once a
    revocation of a device, member, worker or recovery kit succeeds, with or
    without a rotation, no later state finds an envelope for it, neither the
    active one nor one of any version at any time, as long as no call brings in
    a new envelope for it. Revoking a long-lived recipient either rotates to
    the next version in the same call, or blocks the active key for every
    recipient in every later state until a rotation succeeds, whatever other
    calls are made and whichever rotations are refused. *)
Theorem revoked_recipient_is_locked_out r c k k' cs :
  revocation_of r c -> run (keyring_call c) k = (Ok tt, k') ->
  let q := keyring_run cs k' in
  ((forall c' e, c' ∈ cs -> e ∈ call_envelopes c' -> ke_recipient e <> r) -> forall v t,
     is_ok (available_envelope_for_version q r v t) = false /\ is_ok (active_envelope_for q r t) = false) /\
  (is_long_lived r = true ->
     match c with
     | KcRevokeRotate _ _ _ => pk_active_key_version k' = pk_active_key_version k + 1
     | _ => rotated cs k' = false -> pk_active_key_version q = pk_active_key_version k /\
              forall x t, active_envelope_for q x t = Err KeRotationRequired
     end).
Proof.
  intros Hc Hr q. pose proof (revocation_locks_out _ _ _ _ Hc Hr) as Hl. split.
  - intros Hn v t. apply locked_out_fails. by apply run_locked_out.
  - intros Hlong. destruct c as [| |r' now| |r' es now]; try done; cbn in Hc; subst r'; cbn [keyring_call] in Hr.
    + apply revoke_step in Hr as [-> _ _ _ _ _ _ _ _]. intros Hrot.
      destruct (run_rotation_required cs (called (KcRevoke r now) k)) as [Hq Hv]; [cbn; by rewrite Hlong|done|].
      split; [exact Hv|]. intros x t. unfold active_envelope_for. fold q in Hq. by rewrite Hq.
    + by apply revoke_rotate_step in Hr as [-> _ _ _ _ _ _ _ _].
Qed.

(** ** Worker keys *)
Definition worker_keys_inv (k : ProjectKeyring) : Prop :=
  forall e, e ∈ pk_envelopes k -> is_worker (ke_recipient e) = true ->
    short_lived e /\ pk_mode k = TeamEnvelope /\
    (pk_remote_execution_opt_in k = false \/ ke_key_version e <> pk_active_key_version k -> ke_revoked_at e <> None).
Lemma step_worker_keys k c k' : keyring_step k c k' -> worker_keys_inv k -> worker_keys_inv k'.
Proof.
  intros Hs Hi. pose proof (step_state _ _ _ Hs) as ->. intros e [(x & Hx & ->)%elem_of_revoked|He]%elem_of_app Hw.
  - assert (is_worker (ke_recipient x) = true) as Hw' by (by destruct (call_revokes c x)).
    destruct (Hi x Hx Hw') as (Hsl & Hm & Hno). split; [by destruct (call_revokes c x)|]. split; [done|].
    destruct (call_revokes c x) eqn:Hcx; [done|]. cbn [called pk_remote_execution_opt_in pk_active_key_version]. intros Hor Hnone.
    assert (unrevoked_worker x = true) as Hux by (unfold unrevoked_worker; by rewrite Hw', Hnone).
    destruct c as [| [|] now| | |]; cbn in Hor, Hcx; rewrite ?Hux, ?orb_true_r in Hcx; try done; try (by apply Hno).
    apply Hno; [|done]. right. by destruct Hor.
  - destruct (step_workers _ _ _ Hs e He Hw) as (Hm & Ho & _ & Hsl & Hv). split; [done|]. split; [done|].
    pose proof (step_new _ _ _ Hs e He) as (_ & _ & _ & Hve & _). cbn [called pk_remote_execution_opt_in pk_active_key_version].
    intros [Hor|Hor]; [|congruence]. destruct c; cbn in *; try congruence. by apply not_elem_of_nil in He.
Qed.
Lemma run_worker_keys cs k : worker_keys_inv k -> worker_keys_inv (keyring_run cs k).
Proof.
  revert k; induction cs as [|c cs IH]; intros k Hk; [done|]. cbn [keyring_run]. apply IH.
  destruct (keyring_call_moves c k) as [->|Hs]; [done|]. by eapply step_worker_keys.
Qed.

(** C33: A worker never holds a project key for long or without the team's
    consent. From a keyring that starts without worker envelopes, after any
    calls, a worker envelope that can be opened at some time belongs to a team
    project with remote execution switched on, is of the active version, is not
    revoked, and expires at most fifteen minutes after it was created; so
    switching remote execution off, or rotating the key, takes every worker's
    access away. *)
Theorem worker_keys_are_short_lived tenant project mode envelopes now k0 cs :
  initialize tenant project mode envelopes now = Ok k0 ->
  (forall e, e ∈ envelopes -> is_worker (ke_recipient e) = false) ->
  let k := keyring_run cs k0 in
  (forall w v t e, available_envelope_for_version k (KrWorker w) v t = Ok e \/ active_envelope_for k (KrWorker w) t = Ok e ->
     pk_mode k = TeamEnvelope /\ pk_remote_execution_opt_in k = true /\ ke_key_version e = pk_active_key_version k /\
     ke_recipient e = KrWorker w /\
     exists expires, ke_expires_at e = Some expires /\ ke_created_at e <= t < expires /\
       expires <= ke_created_at e + 900 * nanos_per_second) /\
  (forall e t, e ∈ pk_envelopes k -> is_worker (ke_recipient e) = true -> is_available e t = true ->
     pk_remote_execution_opt_in k = true /\ ke_key_version e = pk_active_key_version k).
Proof.
  intros Hk Hno k. assert (worker_keys_inv k) as Hi.
  { apply run_worker_keys. unfold initialize in Hk. inv_run. intros e He Hw. cbn in He. by rewrite Hno in Hw. }
  assert (forall e t, e ∈ pk_envelopes k -> is_worker (ke_recipient e) = true -> is_available e t = true ->
    pk_remote_execution_opt_in k = true /\ ke_key_version e = pk_active_key_version k) as Hopen.
  { intros e t He Hw Ha. destruct (Hi e He Hw) as (_ & _ & Hx). unfold is_available in Ha. split_guards.
    destruct (pk_remote_execution_opt_in k); [split; [done|]|destruct Hx; [by left|by destruct (ke_revoked_at e)]].
    destruct (decide (ke_key_version e = pk_active_key_version k)); [done|]. destruct Hx; [by right|]. by destruct (ke_revoked_at e). }
  split; [|exact Hopen]. intros w v t e Hor.
  assert (exists v', find_available k (KrWorker w) v' t = Ok e) as (v' & Hf).
  { unfold available_envelope_for_version, active_envelope_for in Hor. destruct Hor as [Hx|Hx]; inv_run; eauto. }
  apply find_available_Ok in Hf as (Hin & _ & Hr & Ha). assert (is_worker (ke_recipient e) = true) as Hw by (by rewrite Hr).
  destruct (Hopen e t Hin Hw Ha) as [Ho Hv]. destruct (Hi e Hin Hw) as ((x & Hx & Hle) & Hm & _).
  unfold is_available in Ha. rewrite Hx in Ha. cbn in Ha. split_guards. split_and!; try done. exists x. split; [done|]. lia.
Qed.
End guarantees.

(** ** The append check *)

(** What the loop of [validate] over the envelopes ensures. *)
Definition version_of (e : KeyEnvelope) : Z * KeyRecipient := (ke_key_version e, ke_recipient e).
Definition belongs (k : ProjectKeyring) (e : KeyEnvelope) : Prop :=
  envelope_validate e = Ok tt /\ ke_tenant_id e = pk_tenant_id k /\ ke_project_id e = pk_project_id k /\
  (pk_mode k = PersonalE2ee -> is_member_or_worker (ke_recipient e) = false).
Lemma envelopes_validate_Ok k ids versions l :
  envelopes_validate k ids versions l = Ok tt <->
  (forall e, e ∈ l -> belongs k e) /\ NoDup (ke_id <$> l) /\ NoDup (version_of <$> l) /\
  (forall e, e ∈ l -> (ke_id e ∉ ids) /\ (version_of e ∉ versions)).
Proof.
  revert ids versions; induction l as [|e l IH]; intros ids versions; cbn [envelopes_validate].
  { split; [intros _|done]. split_and!; first [by intros e He%not_elem_of_nil|constructor]. }
  rewrite !bind_Ok. setoid_rewrite bind_Ok. setoid_rewrite IH. rewrite !fmap_cons, !NoDup_cons.
  setoid_rewrite elem_of_cons. split.
  - intros ([] & Hv & [] & Hg & Hall & Hn1 & Hn2 & Hd). apply reject_if_Ok in Hg. split_guards.
    match goal with Hx : bool_decide _ && is_member_or_worker _ = false |- _ => apply andb_false_iff in Hx; rename Hx into Hm end.
    split_and!; try done.
    + intros x [->|Hx]; [|by apply Hall]. unfold belongs. split_and!; try done. intros Hp.
      destruct Hm as [Hm|Hm]; [by rewrite bool_decide_eq_true_2 in Hm|done].
    + intros (x & Heq & Hx)%list_elem_of_fmap. destruct (Hd x Hx) as [Hi _]. apply Hi. by left.
    + intros (x & Heq & Hx)%list_elem_of_fmap. destruct (Hd x Hx) as [_ Hi]. apply Hi. by left.
    + intros x [->|Hx]; [done|]. destruct (Hd x Hx) as [Hi Hj]. split; intros ?; [apply Hi|apply Hj]; by right.
  - intros (Hall & (Hi & Hn1) & (Hj & Hn2) & Hd). destruct (Hall e (or_introl eq_refl)) as (Hv & Ht & Hp & Hm).
    destruct (Hd e (or_introl eq_refl)) as [Hi' Hj']. exists tt. split; [done|]. exists tt. split.
    + apply reject_if_Ok. rewrite (bool_decide_eq_true_2 _ Ht), (bool_decide_eq_true_2 _ Hp), (bool_decide_eq_false_2 _ Hi'), (bool_decide_eq_false_2 _ Hj'). cbn.
      destruct (bool_decide (pk_mode k = PersonalE2ee)) eqn:Hb; [|done]. apply bool_decide_eq_true in Hb. by rewrite Hm.
    + split_and!; try done; [intros x Hx; apply Hall; by right|]. intros x Hx. destruct (Hd x (or_intror Hx)) as [? ?]. split.
      * intros [Heq|?]; [|done]. apply Hi. apply list_elem_of_fmap. eauto.
      * intros [Heq|?]; [|done]. apply Hj. apply list_elem_of_fmap. eauto.
Qed.

Lemma keyring_validate_Ok k :
  keyring_validate k = Ok tt <->
  (trim_is_empty (pk_tenant_id k) = false /\ trim_is_empty (pk_project_id k) = false /\ pk_active_key_version k <> 0 /\
   pk_revision k <> 0 /\ pk_created_at k <= pk_updated_at k /\
   (pk_mode k = PersonalE2ee -> pk_remote_execution_opt_in k = false)) /\
  envelopes_validate k [] [] (pk_envelopes k) = Ok tt /\
  (pk_rotation_required k = false ->
   required_recipient_set_is_available (pk_mode k) (pk_envelopes k) (pk_active_key_version k) (pk_updated_at k) = true).
Proof.
  unfold keyring_validate. rewrite !bind_Ok. setoid_rewrite bind_Ok. split.
  - intros ([] & Hg & [] & He & Hr). apply reject_if_Ok in Hg, Hr. split_guards.
    match goal with Hx : bool_decide _ && pk_remote_execution_opt_in k = false |- _ => apply andb_false_iff in Hx; rename Hx into Hm end.
    split_and!; try done; try lia.
    + intros Hp. destruct Hm as [Hm|Hm]; [by rewrite bool_decide_eq_true_2 in Hm|done].
    + intros Hx. rewrite Hx in Hr. cbn in Hr. by apply negb_false_iff in Hr.
  - intros ((H1 & H2 & H3 & H4 & H5 & H6) & He & Hr). exists tt. split.
    + apply reject_if_Ok. rewrite H1, H2, (proj2 (Z.eqb_neq _ _) H3), (proj2 (Z.eqb_neq _ _) H4), (proj2 (Z.ltb_ge _ _) H5). cbn.
      destruct (bool_decide (pk_mode k = PersonalE2ee)) eqn:Hb; [|done]. apply bool_decide_eq_true in Hb. by rewrite H6.
    + exists tt. split; [done|]. apply reject_if_Ok. destruct (pk_rotation_required k); [done|]. by rewrite Hr.
Qed.

Lemma revoked_projection {A} (f : KeyEnvelope -> A) m now l :
  (forall e, f (e <| ke_revoked_at := Some now |>) = f e) -> f <$> revoke_where m now l = f <$> l.
Proof.
  intros Hf. unfold revoke_where. rewrite <-list_fmap_compose. apply list_fmap_ext. intros i e _. cbn.
  destruct (m e); [apply Hf|done].
Qed.
Lemma revoked_belongs k e now : belongs k e -> ke_created_at e <= now -> belongs k (e <| ke_revoked_at := Some now |>).
Proof.
  intros (Hv & Ht & Hp & Hm) Hn. unfold belongs. split_and!; try done. unfold envelope_validate in *.
  apply reject_if_Ok in Hv. apply reject_if_Ok. split_guards. cbn.
  repeat (apply orb_false_iff; split); done || (apply negb_false_iff; done) || lia.
Qed.

(** Revoking only workers and adding envelopes keeps the required recipients
    within reach. *)
Lemma available_kept predicate m now l new v t :
  (forall e, m e = true -> predicate (ke_recipient e) = false) -> available predicate l v t = true ->
  available predicate (revoke_where m now l ++ new) v t = true.
Proof.
  unfold available. rewrite !existsb_elem_of. intros Hm (e & He & Hg). exists e. split; [|done]. apply elem_of_app. left.
  apply elem_of_revoked. exists e. split; [done|]. split_guards. destruct (m e) eqn:Hme; [|done]. by rewrite (Hm e Hme) in Hg.
Qed.
Lemma available_appended predicate l new v t : available predicate new v t = true -> available predicate (l ++ new) v t = true.
Proof. unfold available. rewrite existsb_app. intros ->. apply orb_true_r. Qed.
Lemma required_kept mode m now l new v t :
  (forall e, m e = true -> is_worker (ke_recipient e) = true) -> required_recipient_set_is_available mode l v t = true ->
  required_recipient_set_is_available mode (revoke_where m now l ++ new) v t = true.
Proof.
  intros Hm Hr. assert (forall predicate : KeyRecipient -> bool, (forall w, predicate (KrWorker w) = false) ->
    available predicate l v t = true -> available predicate (revoke_where m now l ++ new) v t = true) as Hk.
  { intros predicate Hp. apply available_kept. intros e He. apply Hm in He. by destruct (ke_recipient e). }
  destruct mode; cbn in *; split_guards; rewrite ?Hk by done; done.
Qed.
Lemma required_appended mode l new v t :
  required_recipient_set_is_available mode new v t = true -> required_recipient_set_is_available mode (l ++ new) v t = true.
Proof. destruct mode; cbn; intros Hr; split_guards; rewrite ?available_appended by done; done. Qed.

(** Envelope versions do not run ahead of the active one. *)
Definition versions_within (k : ProjectKeyring) : Prop := forall e, e ∈ pk_envelopes k -> ke_key_version e <= pk_active_key_version k.
Definition fresh_ids (c : KeyringCall) (k : ProjectKeyring) : Prop :=
  NoDup (ke_id <$> call_envelopes c) /\ forall e x, e ∈ call_envelopes c -> x ∈ pk_envelopes k -> ke_id x <> ke_id e.
(** The clock is not behind anything the keyring records, and the keyring is
    ready or waits for its rotation. *)
Definition call_in_order (c : KeyringCall) (k : ProjectKeyring) : Prop :=
  pk_updated_at k <= call_time c /\ (forall e, e ∈ pk_envelopes k -> ke_created_at e <= call_time c) /\
  (pk_rotation_required k = true \/ is_workspace_ready_at k (call_time c) = Ok true).

Section append.
Context `{!Chrono} `{!ChronoLaws}.

Lemma step_envelopes_valid k c k' :
  keyring_step k c k' -> envelopes_validate k [] [] (pk_envelopes k) = Ok tt -> versions_within k -> fresh_ids c k ->
  (forall e, e ∈ pk_envelopes k -> ke_created_at e <= call_time c) ->
  envelopes_validate k' [] [] (pk_envelopes k') = Ok tt /\ versions_within k'.
Proof.
  intros Hs Hv Hw [Hnd Hf] Hc. pose proof (step_state _ _ _ Hs) as ->. apply envelopes_validate_Ok in Hv as (Hb & Hi & Hj & _).
  assert (forall e x, e ∈ call_envelopes c -> x ∈ pk_envelopes k -> version_of x <> version_of e) as Hver.
  { intros e x He Hx. pose proof (step_new _ _ _ Hs e He) as (_ & _ & _ & Hve & _).
    destruct (decide (call_version c k = pk_active_key_version k)) as [Heq|Hne]; [by apply (step_fresh _ _ _ Hs e He Heq)|].
    intros [= Hx1 _]. specialize (Hw x Hx). destruct c; cbn in *; lia. }
  split; [apply envelopes_validate_Ok|].
  - cbn [called pk_envelopes]. rewrite !fmap_app, !(revoked_projection _ (call_revokes c)) by done. split_and!.
    + intros e [(x & Hx & ->)%elem_of_revoked|He]%elem_of_app.
      * destruct (call_revokes c x); [apply revoked_belongs|]; naive_solver.
      * pose proof (step_new _ _ _ Hs e He) as (? & ? & ? & _ & ?). done.
    + apply NoDup_app. split_and!; [done| |done]. intros i (x & -> & Hx)%list_elem_of_fmap (e & Heq & He)%list_elem_of_fmap.
      by apply (Hf e x).
    + apply NoDup_app. split_and!; [done| |].
      * intros i (x & -> & Hx)%list_elem_of_fmap (e & Heq & He)%list_elem_of_fmap. by apply (Hver e x).
      * pose proof (step_recipients _ _ _ Hs) as Hr. unfold version_of. eapply (NoDup_fmap_1 snd). by rewrite <-list_fmap_compose.
    + intros e _. split; apply not_elem_of_nil.
  - intros e [(x & Hx & ->)%elem_of_revoked|He]%elem_of_app; cbn [called pk_active_key_version].
    + replace (ke_key_version (if call_revokes c x then x <| ke_revoked_at := Some (call_time c) |> else x)) with (ke_key_version x)
        by (by destruct (call_revokes c x)). specialize (Hw x Hx). destruct c; cbn; lia.
    + pose proof (step_new _ _ _ Hs e He) as (_ & _ & _ & -> & _). lia.
Qed.

Lemma step_ready k c k' :
  keyring_step k c k' -> call_in_order c k -> pk_rotation_required k' = false ->
  required_recipient_set_is_available (pk_mode k') (pk_envelopes k') (pk_active_key_version k') (pk_updated_at k') = true.
Proof.
  intros Hs (_ & _ & Hr) Hrot. pose proof (step_state _ _ _ Hs) as ->. cbn [called pk_mode pk_envelopes pk_active_key_version pk_updated_at pk_rotation_required] in *.
  destruct (decide (call_version c k = pk_active_key_version k)) as [Heq|Hne].
  - assert (pk_rotation_required k = false /\ forall e, call_revokes c e = true -> is_worker (ke_recipient e) = true) as [Hno Hw].
    { destruct c as [| |r now| |]; cbn in Heq, Hrot; try lia; cbn [call_revokes].
      - done.
      - split; [done|]. intros e He. unfold unrevoked_worker in He. by split_guards.
      - apply orb_false_iff in Hrot as [Hl Hrot]. split; [done|]. intros e He. unfold unrevoked_of, is_long_lived in *. split_guards. by subst. }
    rewrite Heq. apply required_kept; [done|]. destruct Hr as [Hr|Hr]; [congruence|]. unfold is_workspace_ready_at in Hr. inv_run.
    match goal with Hx : true = _ |- _ => symmetry in Hx end. by split_guards.
  - apply required_appended, (step_rotated _ _ _ Hs Hne).
Qed.

Lemma find_by_id l (e : KeyEnvelope) :
  NoDup (ke_id <$> l) -> e ∈ l -> List.find (fun candidate => bool_decide (ke_id candidate = ke_id e)) l = Some e.
Proof.
  induction l as [|x l IH]; intros Hn He; [by apply not_elem_of_nil in He|]. rewrite fmap_cons in Hn. apply NoDup_cons in Hn as [Hx Hn].
  cbn. apply elem_of_cons in He as [->|He]; [by rewrite bool_decide_eq_true_2|].
  rewrite bool_decide_eq_false_2; [by apply IH|]. intros Heq. apply Hx. apply list_elem_of_fmap. by exists e.
Qed.

Lemma step_envelopes_kept k c k' e :
  keyring_step k c k' -> NoDup (ke_id <$> pk_envelopes k') -> e ∈ pk_envelopes k -> envelope_kept k' e = true.
Proof.
  intros Hs Hn He. pose proof (step_state _ _ _ Hs) as ->. unfold envelope_kept.
  assert (call_revokes c e = true -> ke_revoked_at e = None) as Hm.
  { intros Hc. destruct (ke_revoked_at e) eqn:He'; [exfalso|done].
    destruct c; cbn in Hc; unfold unrevoked_of, unrevoked_worker in Hc; rewrite ?He' in Hc; cbn in Hc;
      by rewrite ?andb_false_r in Hc. }
  set (new := if call_revokes c e then e <| ke_revoked_at := Some (call_time c) |> else e).
  assert (ke_id new = ke_id e) as Hid by (unfold new; by destruct (call_revokes c e)).
  rewrite <-Hid, (find_by_id _ new Hn) by (apply elem_of_app; left; apply elem_of_revoked; by exists e).
  unfold new. destruct (call_revokes c e); cbn.
  - rewrite (Hm eq_refl), bool_decide_eq_true_2 by done. cbn. by rewrite Z.eqb_refl.
  - rewrite bool_decide_eq_true_2 by (by destruct e). rewrite bool_decide_eq_true_2 by done. by destruct (ke_revoked_at e).
Qed.

(** C34: The keyring a call leaves is what storage and other devices accept.
    Take a valid keyring in which no envelope is of a later version than the
    active one, the clock not behind what it records, identifiers of new
    envelopes that are not in use, and the workspace ready or waiting for a
    rotation. A call that succeeds leaves the keyring as it was or leaves a
    valid one, again without envelopes of a later version, that passes the
    append check: scope and history are kept, the key version moves by at most
    one, and stored envelopes change only by being revoked at the time of the
    call. Validity does not imply the condition on versions, and
    [early_version_breaks_rotation] shows that it is needed. *)
Theorem keyring_calls_pass_the_append_check c k k' :
  keyring_validate k = Ok tt -> 0 < pk_revision k -> 0 <= pk_active_key_version k <= u64_max ->
  (forall e, e ∈ pk_envelopes k -> ke_key_version e <= pk_active_key_version k) ->
  fresh_ids c k -> call_in_order c k -> run (keyring_call c) k = (Ok tt, k') ->
  k' = k \/ (keyring_validate k' = Ok tt /\ keyring_follows k' k = Ok true /\
    forall e, e ∈ pk_envelopes k' -> ke_key_version e <= pk_active_key_version k').
Proof.
  intros Hv Hr Ha Hw Hf Ho [->|Hs]%keyring_call_step; [by left|right].
  pose proof (step_revision _ _ _ Hs) as Hrm. pose proof (step_version _ _ _ Hs) as Hvm.
  pose proof (proj1 (keyring_validate_Ok k) Hv) as ((H1 & H2 & H3 & H4 & H5 & H6) & He & _). pose proof Ho as (Hu & Hc & _).
  destruct (step_envelopes_valid _ _ _ Hs He Hw Hf Hc) as [He' Hw']. pose proof (step_ready _ _ _ Hs Ho) as Hrd.
  pose proof (step_state _ _ _ Hs) as Hk.
  assert (pk_active_key_version k <= pk_active_key_version k' <= saturating_add u64_max (pk_active_key_version k) 1) as Hav.
  { rewrite Hk. cbn [called pk_active_key_version]. unfold saturating_add. destruct c; cbn [call_version] in *; lia. }
  assert (keyring_validate k' = Ok tt) as Hv'.
  { apply keyring_validate_Ok. split; [|done]. rewrite Hk. cbn [called pk_tenant_id pk_project_id pk_revision pk_created_at pk_updated_at pk_mode pk_remote_execution_opt_in].
    split_and!; try done; try lia; [rewrite Hk in Hav; cbn [called pk_active_key_version] in *; lia|].
    intros Hp. destruct (step_opt_in _ _ _ Hs) as [->|Hx]; [by apply H6|congruence]. }
  split; [done|]. split; [|done]. unfold keyring_follows. rewrite Hv, Hv'. cbn [mbind result_mbind].
  rewrite (proj2 (Z.ltb_ge _ _) (proj1 Hav)), (proj2 (Z.ltb_ge _ _) (proj2 Hav)).
  assert (forallb (envelope_kept k') (pk_envelopes k) = true) as ->.
  { apply forallb_elem_of. intros e Hin. eapply step_envelopes_kept; [done| |done]. by apply envelopes_validate_Ok in He' as (_ & ? & _). }
  rewrite Hk. cbn [called pk_tenant_id pk_project_id pk_revision pk_created_at pk_updated_at pk_mode].
  rewrite !bool_decide_eq_true_2 by done. rewrite Z.eqb_refl, (proj2 (Z.ltb_ge _ _) Hu).
  assert (saturating_add u64_max (pk_revision k) 1 = pk_revision k + 1) as -> by (unfold saturating_add; lia). by rewrite Z.eqb_refl.
Qed.
End append.

(** ** Concrete keyrings *)
Module KeyringDemo.
Import Prelude.Fixture.
Definition sealed : WrappedKeyCiphertext := mkWrappedKey Aes256GcmV1 "nonce-12byte" "ciphertext-16byte" zeros64.
Definition envelope (id : Id) (version : Z) (recipient : KeyRecipient) (created : DateTime) (expires : option DateTime) : KeyEnvelope :=
  mkEnvelope id "tenant" "project" version recipient zeros64 sealed created expires None.
Definition device : KeyEnvelope := envelope "e1" 1 (KrDevice "laptop") 100 None.
Definition member : KeyEnvelope := envelope "e2" 1 (KrMember "owner") 100 None.
Definition worker (seconds : Z) : KeyEnvelope :=
  envelope "e3" 1 (KrWorker "worker") 110 (Some (110 + seconds * nanos_per_second)).
Definition team : ProjectKeyring := mkKeyring "tenant" "project" TeamEnvelope 1 false false [device; member] 1 100 100.
Definition rotation : list KeyEnvelope := [envelope "e4" 2 (KrMember "owner") 130 None].

Lemma team_initialized : initialize "tenant" "project" TeamEnvelope [device; member] 100 = Ok team.
Proof. vm_compute. reflexivity. Qed.
Definition opted_in : ProjectKeyring := keyring_run [KcOptIn true 105; KcAdd (worker 900) 110] team.

Lemma opted_in_all (P : KeyEnvelope -> Prop) :
  P device -> P member -> P (worker 900) -> forall e, e ∈ pk_envelopes opted_in -> P e.
Proof.
  intros H1 H2 H3. apply Forall_forall. assert (pk_envelopes opted_in = [device; member; worker 900]) as -> by (vm_compute; reflexivity).
  repeat constructor; assumption.
Qed.

Lemma revoked_recipient_is_locked_out_witness :
  let c := KcRevokeRotate (KrDevice "laptop") rotation 130 in
  run (keyring_call c) opted_in = (Ok tt, (run (keyring_call c) opted_in).2) /\
  is_ok (active_envelope_for opted_in (KrDevice "laptop") 120) = true /\
  is_ok (active_envelope_for (keyring_run [KcOptIn false 140] (run (keyring_call c) opted_in).2) (KrDevice "laptop") 150) = false.
Proof.
  intros c. assert (run (keyring_call c) opted_in = (Ok tt, (run (keyring_call c) opted_in).2)) as Hr by (vm_compute; reflexivity).
  assert (forall c' e, c' ∈ [KcOptIn false 140] -> e ∈ call_envelopes c' -> ke_recipient e <> KrDevice "laptop") as Hn.
  { intros c' e ->%list_elem_of_singleton He. apply not_elem_of_nil in He. destruct He. }
  split; [exact Hr|]. split; [vm_compute; reflexivity|].
  exact (proj2 (proj1 (revoked_recipient_is_locked_out (KrDevice "laptop") c opted_in _ [KcOptIn false 140] eq_refl Hr) Hn 1 150)).
Defined.

(** After a revocation without rotation, an opt-in and a refused rotation
    leave the active key blocked; a rotation that succeeds opens it again. *)
Example blocked_until_rotation :
  let revoked := (run (keyring_call (KcRevoke (KrDevice "laptop") 115)) team).2 in
  let waiting := [KcOptIn true 120; KcRotate [] 125] in
  rotated waiting revoked = false /\
  active_envelope_for (keyring_run waiting revoked) (KrMember "owner") 126 = Err KeRotationRequired /\
  is_ok (active_envelope_for (keyring_run (waiting ++ [KcRotate rotation 130]) revoked) (KrMember "owner") 140) = true.
Proof. repeat split; vm_compute; reflexivity. Qed.

Lemma worker_keys_are_short_lived_witness :
  available_envelope_for_version opted_in (KrWorker "worker") 1 200 = Ok (worker 900) /\
  pk_remote_execution_opt_in opted_in = true.
Proof.
  assert (available_envelope_for_version opted_in (KrWorker "worker") 1 200 = Ok (worker 900)) as Hw by (vm_compute; reflexivity).
  assert (forall e, e ∈ [device; member] -> is_worker (ke_recipient e) = false) as Hn.
  { apply Forall_forall. repeat constructor. }
  split; [exact Hw|].
  destruct (proj1 (worker_keys_are_short_lived _ _ _ _ _ team [KcOptIn true 105; KcAdd (worker 900) 110] team_initialized Hn)
    "worker" 1 200 (worker 900) (or_introl Hw)) as (_ & Ho & _).
  exact Ho.
Defined.

Lemma keyring_calls_pass_the_append_check_witness :
  keyring_follows (run (keyring_call (KcRotate rotation 130)) opted_in).2 opted_in = Ok true.
Proof.
  set (c := KcRotate rotation 130).
  assert (keyring_validate opted_in = Ok tt) as Hv by (vm_compute; reflexivity).
  assert (run (keyring_call c) opted_in = (Ok tt, (run (keyring_call c) opted_in).2)) as Hr by (vm_compute; reflexivity).
  assert (is_workspace_ready_at opted_in 130 = Ok true) as Hw by (vm_compute; reflexivity).
  assert (pk_revision (run (keyring_call c) opted_in).2 <> pk_revision opted_in) as Hd by (vm_compute; discriminate).
  assert (versions_within opted_in) as Hvw by (unfold versions_within; apply opted_in_all; vm_compute; discriminate).
  assert (fresh_ids c opted_in) as Hf.
  { split; [apply NoDup_singleton|]. intros e x ->%list_elem_of_singleton. revert x. apply opted_in_all; vm_compute; discriminate. }
  assert (call_in_order c opted_in) as Ho.
  { split; [vm_compute; discriminate|]. split; [apply opted_in_all; vm_compute; discriminate|right; exact Hw]. }
  assert (0 < pk_revision opted_in) as H0 by (vm_compute; reflexivity).
  assert (0 <= pk_active_key_version opted_in <= u64_max) as H1 by (split; vm_compute; discriminate).
  destruct (keyring_calls_pass_the_append_check c opted_in _ Hv H0 H1 Hvw Hf Ho Hr) as [Heq|(_ & Hx & _)]; [|exact Hx].
  destruct (Hd (f_equal pk_revision Heq)).
Defined.

(** The limits on worker keys are enforced where an envelope is added, not
    where a keyring is initialised: a worker envelope of a year is accepted
    there and opens once remote execution is switched on. *)
Theorem initial_worker_key_is_not_short_lived :
  let year := worker (365 * 86400) in
  exists k0, initialize "tenant" "project" TeamEnvelope [device; year] 110 = Ok k0 /\
    active_envelope_for (keyring_run [KcOptIn true 120] k0) (KrWorker "worker") (110 + 364 * 86400 * nanos_per_second) = Ok year.
Proof. eexists. split; [vm_compute; reflexivity|]. vm_compute. reflexivity. Qed.

(** Neither [initialize] nor [validate] refuses an envelope of a version that
    is not active yet: such a keyring is valid and ready, and a rotation to
    that version succeeds and leaves a keyring that does not validate. *)
Theorem early_version_breaks_rotation :
  let early := envelope "e5" 2 (KrMember "owner") 100 None in
  exists k, initialize "tenant" "project" TeamEnvelope [device; member; early] 100 = Ok k /\
    keyring_validate k = Ok tt /\ is_workspace_ready_at k 130 = Ok true /\
    (run (keyring_call (KcRotate rotation 130)) k).1 = Ok tt /\
    is_ok (keyring_validate (run (keyring_call (KcRotate rotation 130)) k).2) = false.
Proof. eexists. split; [vm_compute; reflexivity|]. repeat split; vm_compute; reflexivity. Qed.

(** A rotation does not compare the identifiers of its envelopes with those
    stored, so one that reuses an identifier succeeds and leaves a keyring that
    does not validate. *)
Theorem rotation_with_a_used_identifier_is_accepted :
  let c := KcRotate [envelope "e1" 2 (KrMember "owner") 130 None] 130 in
  keyring_validate team = Ok tt /\ (run (keyring_call c) team).1 = Ok tt /\
  keyring_validate (run (keyring_call c) team).2 = Err KeEnvelopeScopeMismatch.
Proof. repeat split; vm_compute; reflexivity. Qed.
End KeyringDemo.
