(* ===== verification/DeviceSafety.v ===== *)
(** * Device keys, handoffs and attachments

    What storage accepts as the next record of a device's public key or of an
    attachment is what a call of the kernel produces; a handoff is consumed by
    the device it was made for, within its window. Models nothing of its own:
    the operations are in [Keys]. *)
From S2P Require Import Prelude Text Keys.

(** ** Public keys of devices *)
Record Authorization : Type := mkAuthorization {
  au_by : Id;
  au_evidence : string;
  au_idempotency : string;
}.
Inductive RegistrationCall : Type :=
| RcRotate (expected_revision : Z) (public_key : string) (authorization : Authorization) (now : DateTime)
| RcRevoke (expected_revision : Z) (authorization : Authorization) (now : DateTime).

Section registrations.
Context `{!Sha256}.

Definition registration_call (c : RegistrationCall) (d : DevicePublicKeyRegistration)
    : result KeyManagementError DevicePublicKeyRegistration :=
  match c with
  | RcRotate expected key a now => registration_rotate d expected key (au_by a) (au_evidence a) (au_idempotency a) now
  | RcRevoke expected a now => registration_revoke d expected (au_by a) (au_evidence a) (au_idempotency a) now
  end.

Lemma registration_digest d : registration_validate d = Ok tt -> dk_public_key_digest d = sha256_hex (dk_public_key d).
Proof. unfold registration_validate. rewrite reject_if_Ok. intros Hv. by split_guards. Qed.
Lemma registration_revoked_when_updated d t :
  registration_validate d = Ok tt -> dk_revoked_at d = Some t -> t = dk_updated_at d.
Proof. unfold registration_validate. rewrite reject_if_Ok. intros Hv Hr. rewrite Hr in Hv. cbn in Hv. split_guards. lia. Qed.

Lemma registration_call_follows c d d' :
  registration_validate d = Ok tt -> registration_call c d = Ok d' -> registration_follows d' d = Ok true.
Proof.
  intros Hv Hc. unfold registration_follows.
  assert (registration_validate d' = Ok tt) as Hv'.
  { destruct c; cbn [registration_call] in Hc; unfold registration_rotate, registration_revoke in Hc; by inv_run. }
  rewrite Hv, Hv'. cbn [mbind result_mbind].
  destruct c as [expected key a now|expected a now]; cbn [registration_call] in Hc;
    unfold registration_rotate, registration_revoke in Hc; inv_run; split_guards; known_revision;
    destruct (dk_revoked_at d) eqn:Hr; try done; cbn; rewrite ?Hr; rewrite !bool_decide_eq_true_2, Z.eqb_refl by done;
    rewrite ?bool_decide_eq_false_2 by done; cbn; do 2 f_equal; unfold saturating_add; lia.
Qed.

Ltac clear_validated := repeat match goal with Hx : registration_validate _ = _ |- _ => clear Hx end.
Lemma followed_registration d d' :
  dk_revision d < u64_max -> registration_follows d' d = Ok true ->
  exists c, registration_call c d = Ok d'.
Proof.
  intros Hmax Hf. unfold registration_follows in Hf. inv_run.
  match goal with Hx : true = _ |- _ => symmetry in Hx end. split_guards.
  set (a := mkAuthorization (dk_authorized_by d') (dk_authorization_evidence_digest d') (dk_idempotency_key_digest d')).
  pose proof (registration_digest d' ltac:(done)) as Hd'. pose proof (registration_digest d ltac:(done)) as Hd.
  assert (dk_revision d' = dk_revision d + 1) as Hrev by (unfold saturating_add in *; lia).
  assert (checked_add u64_max (dk_revision d) 1 = Some (dk_revision d')) as Hadd by (apply checked_add_Some; lia).
  assert (dk_revoked_at d = None) as Hno by (destruct (dk_revoked_at d'); cbn [is_some] in *; split_guards; by destruct (dk_revoked_at d)).
  destruct (dk_revoked_at d') as [t|] eqn:Ht; cbn [is_some] in *; split_guards.
  - exists (RcRevoke (dk_revision d) a (dk_updated_at d')). cbn [registration_call]. unfold registration_revoke.
    rewrite bind_Ok. exists tt. split.
    { rewrite reject_if_Ok, Z.eqb_refl, Hno, (proj2 (Z.ltb_ge _ _)) by lia. reflexivity. }
    rewrite bind_Ok. exists (dk_revision d'). split; [by apply ok_or_Ok|]. cbv zeta.
    match goal with |- (registration_validate ?n;; _) = _ => assert (n = d') as -> end.
    { pose proof (registration_revoked_when_updated d' t ltac:(done) Ht). clear Hadd Hmax. clear_validated.
      destruct d, d'; cbn in *; simplify_eq. repeat f_equal; done || lia. }
    rewrite bind_Ok. by exists tt.
  - exists (RcRotate (dk_revision d) (dk_public_key d') a (dk_updated_at d')). cbn [registration_call]. unfold registration_rotate.
    rewrite bind_Ok. exists tt. split.
    { rewrite reject_if_Ok, Z.eqb_refl, Hno, (proj2 (Z.ltb_ge _ _)), bool_decide_eq_false_2 by done || lia. reflexivity. }
    rewrite bind_Ok. exists (dk_revision d'). split; [by apply ok_or_Ok|]. cbv zeta.
    match goal with |- (registration_validate ?n;; _) = _ => assert (n = d') as -> end.
    { clear Hadd Hmax. clear_validated. destruct d, d'; cbn in *; simplify_eq. repeat f_equal; done || lia. }
    rewrite bind_Ok. by exists tt.
Qed.

(** The append check of device keys accepts exactly what a rotation or a
    revocation of a valid registration produces. *)
Theorem registration_follows_exactly_the_calls d d' :
  registration_validate d = Ok tt -> dk_revision d < u64_max ->
  registration_follows d' d = Ok true <-> exists c, registration_call c d = Ok d'.
Proof.
  intros Hv Hmax. split; [by apply followed_registration|]. intros (c & Hc). by eapply registration_call_follows.
Qed.

(** A device key that was revoked is never active again: no call on it
    succeeds, and the append check accepts no successor. *)
Theorem revoked_device_key_is_final d t :
  dk_revoked_at d = Some t ->
  (forall now, registration_is_active d now = false) /\ (forall c d', registration_call c d <> Ok d') /\
  (forall d', registration_follows d' d <> Ok true).
Proof.
  intros Hr. split_and!.
  - intros now. unfold registration_is_active. rewrite Hr. cbn. apply andb_false_r.
  - intros c d' Hc. destruct c; cbn [registration_call] in Hc; unfold registration_rotate, registration_revoke in Hc;
      inv_run; split_guards; by rewrite Hr in *.
  - intros d' Hf. unfold registration_follows in Hf. rewrite Hr in Hf. cbn [is_none] in Hf. inv_run.
    match goal with Hx : true = _ |- _ => symmetry in Hx end. split_guards. by case_match; split_guards.
Qed.
End registrations.

(** ** Attachments *)
Inductive AttachmentCall : Type :=
| AcApplied (expected_revision result_keyring_revision : Z) (now : DateTime)
| AcConflict (expected_revision : Z) (error_code : string) (now : DateTime).
Definition attachment_call (c : AttachmentCall) (a : DeviceAttachment) : result KeyManagementError DeviceAttachment :=
  match c with
  | AcApplied expected keyring now => mark_applied a expected keyring now
  | AcConflict expected code now => mark_conflict a expected code now
  end.

Lemma attachment_status d : attachment_validate d = Ok tt -> attachment_status_valid d = true.
Proof. unfold attachment_validate. intros Hv. inv_run. by split_guards. Qed.
Lemma prepared_attachment d :
  attachment_validate d = Ok tt -> da_status d = DaPrepared ->
  da_revision d = 1 /\ da_result_keyring_revision d = None /\ da_error_code d = None.
Proof.
  intros Hv%attachment_status Hp. unfold attachment_status_valid in Hv. rewrite Hp in Hv. split_guards.
  destruct (da_result_keyring_revision d), (da_error_code d); try done. split_and!; done || lia.
Qed.
Lemma attachment_call_follows c d d' :
  attachment_validate d = Ok tt -> attachment_call c d = Ok d' -> attachment_follows d' d = Ok true.
Proof.
  intros Hv Hc. unfold attachment_follows.
  assert (attachment_validate d' = Ok tt) as Hv'.
  { destruct c; cbn [attachment_call] in Hc; unfold mark_applied, mark_conflict in Hc; by inv_run. }
  rewrite Hv, Hv'. cbn [mbind result_mbind].
  assert (da_status d = DaPrepared) as Hp.
  { destruct c; cbn [attachment_call] in Hc; unfold mark_applied, mark_conflict in Hc; inv_run; by split_guards. }
  pose proof (prepared_attachment d Hv Hp) as (H1 & H2 & H3).
  destruct c as [expected keyring now|expected code now]; cbn [attachment_call] in Hc; unfold mark_applied, mark_conflict in Hc;
    inv_run; split_guards; known_revision.
  all: rewrite bool_decide_eq_true_2 by (by destruct d); cbn; rewrite bool_decide_eq_true_2, H1 by done; cbn; f_equal.
  all: change (1 + 1 =? saturating_add u64_max 1 1) with true; cbn; lia.
Qed.

Lemma followed_attachment d d' :
  da_expected_keyring_revision d < u64_max -> attachment_follows d' d = Ok true -> exists c, attachment_call c d = Ok d'.
Proof.
  intros Hmax Hf. unfold attachment_follows in Hf. inv_run. match goal with Hx : true = _ |- _ => symmetry in Hx end.
  split_guards. match goal with Hx : _ = d' |- _ => rename Hx into Heq end. assert (da_status d = DaPrepared) as Hp by done.
  pose proof (prepared_attachment d ltac:(done) Hp) as (H1 & H2 & H3). pose proof (attachment_status d' ltac:(done)) as Hs.
  assert (da_revision d' = 2) as Hrev by (rewrite H1 in *; unfold saturating_add, u64_max in *; lia).
  assert (da_expected_keyring_revision d' = da_expected_keyring_revision d) as Hexp by (symmetry; exact (f_equal da_expected_keyring_revision Heq)).
  assert (checked_add u64_max (da_revision d) 1 = Some 2) as Hadd by (rewrite H1; reflexivity).
  unfold attachment_status_valid in Hs. rewrite Hrev, Hexp in Hs.
  destruct (da_status d') eqn:Hd; cbn [Z.eqb Pos.eqb andb] in Hs; [done|..]; split_guards.
  - exists (AcApplied 1 (da_expected_keyring_revision d + 1) (da_updated_at d')). cbn [attachment_call]. unfold mark_applied.
    assert (checked_add u64_max (da_expected_keyring_revision d) 1 = Some (da_expected_keyring_revision d + 1)) as Hk
      by (apply checked_add_Some; lia).
    rewrite bind_Ok. exists tt. split; [rewrite reject_if_Ok, Hp, H1; reflexivity|].
    rewrite bind_Ok. eexists. split; [apply ok_or_Ok, Hk|].
    rewrite bind_Ok. exists tt. split; [rewrite reject_if_Ok, Z.eqb_refl, (proj2 (Z.ltb_ge _ _)) by lia; reflexivity|].
    rewrite bind_Ok. exists 2. split; [by apply ok_or_Ok|]. cbv zeta.
    match goal with |- (attachment_validate ?n;; _) = _ => assert (n = d') as -> end.
    { etransitivity; [|exact Heq]. assert (da_error_code d' = None) as -> by (by destruct (da_error_code d')).
      assert (da_result_keyring_revision d' = Some (da_expected_keyring_revision d + 1)) as -> by congruence.
      rewrite ?Hd, ?Hrev. clear - H3. destruct d; cbn in *. by subst. }
    rewrite bind_Ok. by exists tt.
  - destruct (da_error_code d') as [code|] eqn:Hcode; [|done]. cbn [is_some_and] in *. split_guards.
    exists (AcConflict 1 code (da_updated_at d')). cbn [attachment_call]. unfold mark_conflict.
    rewrite bind_Ok. exists tt. split.
    { rewrite reject_if_Ok, Hp, H1, (proj2 (Z.ltb_ge _ _)) by lia. cbn. apply orb_false_iff. by split. }
    rewrite bind_Ok. exists 2. split; [by apply ok_or_Ok|]. cbv zeta.
    match goal with |- (attachment_validate ?n;; _) = _ => assert (n = d') as -> end.
    { etransitivity; [|exact Heq]. assert (da_result_keyring_revision d' = None) as -> by (by destruct (da_result_keyring_revision d')).
      rewrite ?Hd, ?Hrev, ?Hcode. clear - H2. destruct d; cbn in *. by subst. }
    rewrite bind_Ok. by exists tt.
Qed.

(** Storage accepts as the next record of a device attachment exactly what
    the kernel produces: from a valid attachment whose keyring revision has a
    successor, the append check holds exactly when marking it applied or in
    conflict succeeds and yields that record. In particular an attachment is
    decided once, and what was authorised stays as it was prepared. *)
Theorem attachment_follows_exactly_the_calls d d' :
  attachment_validate d = Ok tt -> da_expected_keyring_revision d < u64_max ->
  (attachment_follows d' d = Ok true <-> exists c, attachment_call c d = Ok d') /\
  (attachment_follows d' d = Ok true -> forall c d'', attachment_call c d' <> Ok d'').
Proof.
  intros Hv Hmax. split; [split; [by apply followed_attachment|]|].
  - intros (c & Hc). by eapply attachment_call_follows.
  - intros Hf c d'' Hc. assert (da_status d' = DaPrepared) as Hp.
    { destruct c; cbn [attachment_call] in Hc; unfold mark_applied, mark_conflict in Hc; inv_run; by split_guards. }
    unfold attachment_follows in Hf. inv_run. match goal with Hx : true = _ |- _ => symmetry in Hx end. split_guards.
    pose proof (prepared_attachment d' ltac:(done) Hp) as (H1 & _). pose proof (prepared_attachment d Hv ltac:(done)) as (H1' & _).
    match goal with Hx : (da_revision d' =? _) = true |- _ => rewrite H1, H1' in Hx; by vm_compute in Hx end.
Qed.

(** ** Handoffs *)
Section handoffs.
Context `{!Chrono} `{!ChronoLaws} `{!Sha256} `{!KeySerde}.

Lemma key_deadline_exact t seconds u : key_deadline t seconds = Ok u -> u = t + seconds * nanos_per_second.
Proof.
  unfold key_deadline. intros Hk. inv_run.
  match goal with Hx : duration_seconds _ = Some _ |- _ => apply duration_seconds_exact in Hx; subst end.
  by match goal with Hx : checked_add_signed _ _ = Some _ |- _ => apply add_signed_exact in Hx end.
Qed.
Lemma grant_window g :
  grant_validate g = Ok tt ->
  hg_created_at g < hc_expires_at (hg_context g) <= hg_created_at g + 86400 * nanos_per_second /\
  is_same_device (hc_source_recipient (hg_context g)) (hc_target_device_id (hg_context g)) = false /\
  exists bytes, json_handoff_context (hg_context g) = Some bytes /\ hx_aad_digest (hg_ciphertext g) = sha256_hex bytes.
Proof.
  unfold grant_validate, handoff_context_digest, handoff_context_validate, key_digest, MAX_DEVICE_HANDOFF_TTL_SECONDS. intros Hv. inv_run.
  split_guards. match goal with Hx : key_deadline _ _ = Ok _ |- _ => apply key_deadline_exact in Hx; subst end.
  split; [lia|]. split; [done|]. destruct (json_handoff_context _) as [bytes|]; [|done].
  exists bytes. split; [done|]. match goal with Hx : mret _ = Ok _ |- _ => by injection Hx end.
Qed.

(** A handoff reaches the device it was made for, in time. A consumption that
    validates against a grant and a claim was claimed while the grant was open,
    at most a day after it was made, and consumed at most a day after the claim;
    grant, claim and consumption name the same tenant, project, grant, device
    and public key, the key version is the granted one and the keyring moves by
    one revision; the device that hands the key over is not the one receiving
    it; and two grants whose ciphertexts carry the same associated data were
    made for contexts that serialise alike, or SHA-256 collides. *)
Theorem handoff_reaches_its_device_in_time g c s g' :
  consumption_validate_against s g c = Ok tt ->
  (hg_created_at g <= hm_claimed_at c < hc_expires_at (hg_context g) /\
   hc_expires_at (hg_context g) <= hg_created_at g + 86400 * nanos_per_second /\
   hm_claimed_at c <= hs_consumed_at s <= hm_claimed_at c + 86400 * nanos_per_second) /\
  (hs_tenant_id s, hs_project_id s, hs_grant_id s, hs_target_device_id s, hs_target_public_key_digest s)
    = (hm_tenant_id c, hm_project_id c, hm_grant_id c, hm_target_device_id c, hm_target_public_key_digest c) /\
  hs_claim_id s = hm_claim_id c /\ hs_key_version s = hc_key_version (hg_context g) /\
  hs_result_keyring_revision s = hc_expected_keyring_revision (hg_context g) + 1 /\
  hc_source_recipient (hg_context g) <> KrDevice (hs_target_device_id s) /\
  (grant_validate g' = Ok tt -> hx_aad_digest (hg_ciphertext g') = hx_aad_digest (hg_ciphertext g) ->
   json_handoff_context (hg_context g') = json_handoff_context (hg_context g) \/
   exists x y, x <> y /\ sha256_hex x = sha256_hex y).
Proof.
  unfold consumption_validate_against, claim_validate_against, grant_is_unexpired, MAX_DEVICE_HANDOFF_TTL_SECONDS. intros Hv. inv_run.
  split_guards. known_revision. match goal with Hx : key_deadline _ _ = Ok _ |- _ => apply key_deadline_exact in Hx; subst end.
  destruct (grant_window g ltac:(done)) as (Hw & Hd & bytes & Hb & Ha). split_and!; try done; try lia; try congruence.
  - intros Hs. rewrite Hs in Hd. cbn in Hd. apply bool_decide_eq_false in Hd. congruence.
  - intros Hg' Heq. destruct (grant_window g' Hg') as (_ & _ & bytes' & Hb' & Ha').
    destruct (decide (bytes' = bytes)) as [->|Hne]; [left; congruence|right]. exists bytes', bytes. split; [done|congruence].
Qed.
End handoffs.

(** ** A concrete attachment *)
Module DeviceDemo.
Import Prelude.Fixture.
Definition sealed : WrappedKeyCiphertext := mkWrappedKey Aes256GcmV1 "nonce-12byte" "ciphertext-16byte" zeros64.
Definition phone_envelope : KeyEnvelope :=
  mkEnvelope "e5" "tenant" "project" 1 (KrDevice "phone") zeros64 sealed 200 None None.
Definition prepared : DeviceAttachment :=
  mkAttachment "attachment" "tenant" "project" PersonalE2ee PublicKeyHandoff (KrDevice "laptop") "phone" 1 3 phone_envelope
    "owner" zeros64 zeros64 zeros64 DaPrepared None None 1 200 200.
Definition applied : DeviceAttachment :=
  prepared <| da_status := DaApplied |> <| da_result_keyring_revision := Some 4 |> <| da_revision := 2 |> <| da_updated_at := 210 |>.
Lemma attachment_follows_exactly_the_calls_witness :
  attachment_follows applied prepared = Ok true /\ forall c d, attachment_call c applied <> Ok d.
Proof.
  assert (attachment_validate prepared = Ok tt) as Hv by (vm_compute; reflexivity).
  assert (da_expected_keyring_revision prepared < u64_max) as Hm by (vm_compute; reflexivity).
  assert (attachment_call (AcApplied 1 4 210) prepared = Ok applied) as Hc by (vm_compute; reflexivity).
  destruct (attachment_follows_exactly_the_calls prepared applied Hv Hm) as [Hiff Hfinal].
  pose proof (proj2 Hiff (ex_intro _ (AcApplied 1 4 210) Hc)) as Hf. split; [exact Hf|exact (Hfinal Hf)].
Defined.

#[export] Instance serde : KeySerde :=
  {| json_envelope e := Some (ke_id e); json_keyring k := Some (pk_project_id k); json_handoff_context c := Some (hc_grant_id c);
     json_handoff_grant g := Some (hg_intent_digest g); json_handoff_revocation r := Some (hr_grant_id r);
     json_handoff_claim c := Some (hm_claim_id c); json_handoff_consumption c := Some (hs_claim_id c);
     json_bootstrap b := Some (bs_manifest_digest b) |}.
Definition bytes16 : string := "0123456789abcdef".
Definition bytes48 : string := bytes16 ++ bytes16 ++ bytes16.
Definition grant : DeviceHandoffGrant :=
  mkHandoffGrant (mkHandoffContext "tenant" "project" "grant" PersonalE2ee (KrDevice "laptop") zeros64 zeros64 "phone" zeros64 1 3
      (200 + 86400 * nanos_per_second))
    (mkHandoffCiphertext X25519HkdfSha256Aes256GcmV1 (bytes16 ++ bytes16) "nonce-12byte" bytes48 zeros64 zeros64)
    "owner" zeros64 zeros64 zeros64 200.
Definition claimed : DeviceHandoffClaim := mkHandoffClaim "claim" "tenant" "project" "grant" "phone" zeros64 zeros64 250.
Definition consumed : DeviceHandoffConsumption :=
  mkHandoffConsumption "claim" "receipt" "tenant" "project" "grant" "phone" zeros64 1 "attachment" 4 zeros64 300.
Lemma handoff_reaches_its_device_in_time_witness :
  claim_issue grant "claim" zeros64 250 = Ok claimed /\
  consumption_issue grant claimed "receipt" "attachment" 4 zeros64 300 = Ok consumed /\
  hs_consumed_at consumed <= hm_claimed_at claimed + 86400 * nanos_per_second.
Proof.
  split; [vm_compute; reflexivity|]. split; [vm_compute; reflexivity|].
  assert (consumption_validate_against consumed grant claimed = Ok tt) as Hv by (vm_compute; reflexivity).
  exact (proj2 (proj2 (proj2 (proj1 (handoff_reaches_its_device_in_time grant claimed consumed grant Hv))))).
Defined.
End DeviceDemo.
