(* ===== verification/Conversation.v ===== *)
(** * Conversations with people

    Models the conversation part of [domain-kernel/src/relationship.rs]: the
    messages exchanged over one provider account, who controls the replies
    (the agent, a human, or nobody), the automatic replies prepared as effects
    and their delivery, and the checks on a conversation received from another
    device. *)
From S2P Require Import Prelude Text Money Contract MissionTypes WorkProduct Effect Checkpoint Terminal Connection Identity.

(** ** Data *)
Inductive RelationshipError : Type :=
| ReInvalidConversation | ReInvalidConversationSnapshot | ReInvalidConversationMessage
| ReWebhookScopeOrSignatureInvalid | ReWebhookReplayConflict | ReDuplicateMessageId | ReAutomaticReplyNotAllowed
| ReConsentDoesNotAuthorizeReply | ReControlLeaseLost | ReExplicitResumeRequired
| ReInvalidConversationStateTransition | ReInvalidCampaign | ReCampaignNotActive | ReCampaignRecipientNotFound
| ReCampaignRecipientSuppressedOrUnconsented | ReCampaignFrequencyCapReached | ReCampaignAuthorizationStale
| ReInvalidOpportunity | ReOpportunityStageTransitionNotAllowed | ReDuplicateBuyingCommitteeMember
| ReRevisionOverflow | ReTimestampRegression.

Inductive MessagingGateway : Type := Gmail | Outlook | Resend | Chatwoot | Social | Slack | Teams | Feishu.
#[export] Instance MessagingGateway_eq_dec : EqDecision MessagingGateway.
Proof. solve_decision. Defined.
Inductive ConversationState : Type := CvOpen | CvWaitingHuman | CvResolved | CvClosed | CvDeadLetter.
#[export] Instance ConversationState_eq_dec : EqDecision ConversationState.
Proof. solve_decision. Defined.
Inductive ConversationControl : Type :=
| CtAgent (generation : Z) (resumed_at : DateTime)
| CtHuman (generation : Z) (actor_id : Id) (acquired_at : DateTime)
| CtPaused (generation : Z) (reason_digest : string) (paused_at : DateTime).
#[export] Instance ConversationControl_eq_dec : EqDecision ConversationControl.
Proof. solve_decision. Defined.
Inductive ConversationContentRisk : Type := CrSafe | CrPromptInjectionSuspected | CrMaliciousAttachment | CrUnknown.
#[export] Instance ConversationContentRisk_eq_dec : EqDecision ConversationContentRisk.
Proof. solve_decision. Defined.
Inductive MessageDirection : Type := Inbound | Outbound.
#[export] Instance MessageDirection_eq_dec : EqDecision MessageDirection.
Proof. solve_decision. Defined.
Inductive MessageDelivery : Type :=
| MdReceived
| MdDraft
| MdEffectPrepared (effect_id : Id)
| MdSent (effect_id receipt_id : Id)
| MdFailed (effect_id : Id)
| MdUncertain (effect_id : Id) (receipt_id : option Id)
| MdReconciledNotSent (effect_id : Id)
| MdReconciliationDeadLetter (effect_id : Id)
| MdCancelledByHandoff (effect_id : Id).
#[export] Instance MessageDelivery_eq_dec : EqDecision MessageDelivery.
Proof. solve_decision. Defined.

#[export] Instance Decimal_eq_dec : EqDecision Decimal.
Proof. solve_decision. Defined.
Record ConversationMessage : Type := mkMessage {
  cm_id : Id;
  cm_direction : MessageDirection;
  cm_provider_event_digest : option string;
  cm_content_digest : string;
  cm_effect_scope_digest : option string;
  cm_authorization_evidence_digest : option string;
  cm_attachment_digests : gset string;
  cm_risk : ConversationContentRisk;
  cm_classification_confidence : option Decimal;
  cm_delivery : MessageDelivery;
  cm_control_generation : Z; (* u64 *)
  cm_occurred_at : DateTime;
  cm_received_at : DateTime;
  cm_delivered_at : option DateTime;
}.
#[export] Instance ConversationMessage_eta : Eta ConversationMessage := fun m =>
  mkMessage (cm_id m) (cm_direction m) (cm_provider_event_digest m) (cm_content_digest m) (cm_effect_scope_digest m)
    (cm_authorization_evidence_digest m) (cm_attachment_digests m) (cm_risk m) (cm_classification_confidence m)
    (cm_delivery m) (cm_control_generation m) (cm_occurred_at m) (cm_received_at m) (cm_delivered_at m).
#[export] Instance ConversationMessage_eq_dec : EqDecision ConversationMessage.
Proof. solve_decision. Defined.

Record WebhookAttestation : Type := mkAttestation {
  wa_signature_verified : bool;
  wa_route_digest : string;
  wa_provider : string;
  wa_connection_id : Id;
  wa_account_id : Id;
  wa_received_at : DateTime;
}.
Record InboundMessageInput : Type := mkInbound {
  ib_id : Id;
  ib_provider_event_digest : string;
  ib_content_digest : string;
  ib_attachment_digests : gset string;
  ib_risk : ConversationContentRisk;
  ib_classification_confidence : Decimal;
  ib_occurred_at : DateTime;
}.
Inductive InboundIngest : Type := IgInserted | IgDuplicate.
Inductive AutomatedReplyAuthorization : Type :=
| RaConsent (consent : ConsentRecord)
| RaNotRequired (evidence_digest : string).
Record PreparedAutomaticReply : Type := mkPreparedReply {
  pp_message_id : Id;
  pp_effect_id : Id;
  pp_control_generation : Z;
  pp_scope_digest : string;
}.

Record Conversation : Type := mkConversation {
  cv_id : Id;
  cv_tenant_id : Id;
  cv_project_id : Id;
  cv_mission_id : option Id;
  cv_person_id : Id;
  cv_company_id : option Id;
  cv_gateway : MessagingGateway;
  cv_provider : string;
  cv_connection_id : Id;
  cv_account_id : Id;
  cv_route_digest : string;
  cv_contact_channel : ContactChannel;
  cv_market : string;
  cv_state : ConversationState;
  cv_control : ConversationControl;
  cv_messages : list ConversationMessage;
  cv_last_resume_evidence_digest : option string;
  cv_last_state_evidence_digest : option string;
  cv_revision : Z; (* u64 *)
  cv_created_at : DateTime;
  cv_updated_at : DateTime;
}.
#[export] Instance Conversation_eta : Eta Conversation := fun c =>
  mkConversation (cv_id c) (cv_tenant_id c) (cv_project_id c) (cv_mission_id c) (cv_person_id c) (cv_company_id c)
    (cv_gateway c) (cv_provider c) (cv_connection_id c) (cv_account_id c) (cv_route_digest c) (cv_contact_channel c)
    (cv_market c) (cv_state c) (cv_control c) (cv_messages c) (cv_last_resume_evidence_digest c)
    (cv_last_state_evidence_digest c) (cv_revision c) (cv_created_at c) (cv_updated_at c).
#[export] Instance Conversation_eq_dec : EqDecision Conversation.
Proof. solve_decision. Defined.

(** The fields of the JSON objects under the scope digests; their text, which
    [serde_json::Value::to_string] writes and cannot fail, is a parameter. *)
Record ReplyScope : Type := mkReplyScope {
  rs_conversation_id : Id;
  rs_person_id : Id;
  rs_provider : string;
  rs_connection_id : Id;
  rs_account_id : Id;
  rs_message_id : Id;
  rs_content_digest : string;
  rs_effect_id : Id;
  rs_control_generation : Z;
  rs_authorization_evidence_digest : string;
}.
Class ConversationSerde := json_reply_scope : ReplyScope -> string.

(** [Decimal::new(9, 1)] *)
Definition automatic_reply_confidence : Decimal := mkDecimal 9 1.

Definition supports_provider (self : MessagingGateway) (provider : string) : bool :=
  match self with
  | Gmail => bool_decide (provider = "gmail")
  | Outlook => bool_decide (provider = "outlook")
  | Resend => bool_decide (provider = "resend")
  | Chatwoot => bool_decide (provider = "chatwoot")
  | Social => bool_decide (provider ∈ ["meta"; "tiktok"; "x"; "linkedin"; "reddit"; "youtube"])
  | Slack => bool_decide (provider = "slack")
  | Teams => bool_decide (provider = "teams")
  | Feishu => bool_decide (provider = "feishu")
  end.

(** [ConversationControl::generation] *)
Definition generation (self : ConversationControl) : Z :=
  match self with CtAgent g _ | CtHuman g _ _ | CtPaused g _ _ => g end.
Definition is_agent (self : ConversationControl) : bool := match self with CtAgent _ _ => true | _ => false end.
Definition is_human (self : ConversationControl) : bool := match self with CtHuman _ _ _ => true | _ => false end.

Definition message_effect_id (delivery : MessageDelivery) : option Id :=
  match delivery with
  | MdEffectPrepared e | MdSent e _ | MdFailed e | MdUncertain e _ | MdReconciledNotSent e
  | MdReconciliationDeadLetter e | MdCancelledByHandoff e => Some e
  | MdReceived | MdDraft => None
  end.
Definition is_prepared (delivery : MessageDelivery) : bool := match delivery with MdEffectPrepared _ => true | _ => false end.
Definition is_uncertain (delivery : MessageDelivery) : bool := match delivery with MdUncertain _ _ => true | _ => false end.
Definition is_dead_letter (delivery : MessageDelivery) : bool :=
  match delivery with MdReconciliationDeadLetter _ => true | _ => false end.
Definition direction_matches (direction : MessageDirection) (delivery : MessageDelivery) : bool :=
  match direction, delivery with
  | Inbound, MdReceived => true
  | Inbound, _ | Outbound, MdReceived => false
  | Outbound, _ => true
  end.
Definition outbound_provider_acceptance (delivery : MessageDelivery) : bool :=
  match delivery with MdSent _ _ | MdUncertain _ (Some _) => true | _ => false end.

Definition next_generation (current : Z) : result RelationshipError Z :=
  ok_or (checked_add u64_max current 1) ReRevisionOverflow.
(** [next_revision] of the module, shared by its aggregates. *)
Definition relationship_next_revision (current : Z) : result RelationshipError Z :=
  ok_or (checked_add u64_max current 1) ReRevisionOverflow.
Definition prepare_aggregate_revision (current : Z) (updated_at now : DateTime) : result RelationshipError Z :=
  reject_if (now <? updated_at) ReTimestampRegression;;
  relationship_next_revision current.

(** A digest that is present has the shape of one. *)
Definition not_sha256 (digest : option string) : bool := is_some_and (fun digest => negb (is_sha256 digest)) digest.

Section conversations.
Context `{!Chrono} `{!Sha256} `{!ConversationSerde}.

(** [DateTime::checked_sub_signed]: [None] on overflow, as for the addition of
    the opposite duration; [-] on instants panics there. *)
Definition checked_sub_signed (t : DateTime) (d : Duration) : option DateTime := checked_add_signed t (- d).
Definition seven_days : Z := 7 * 86400.

Definition conversation_message_validate (self : ConversationMessage) : result RelationshipError unit :=
  reject_if (trim_is_empty (cm_id self)
    || negb (is_sha256 (cm_content_digest self))
    || not_sha256 (cm_provider_event_digest self)
    || set_any (fun digest => negb (is_sha256 digest)) (cm_attachment_digests self)
    || not_sha256 (cm_effect_scope_digest self)
    || not_sha256 (cm_authorization_evidence_digest self)
    || (cm_control_generation self =? 0)) ReInvalidConversationMessage;;
  week ← expect (duration_seconds seven_days);
  earliest ← expect (checked_sub_signed (cm_occurred_at self) week);
  reject_if ((cm_received_at self <? earliest)
    || is_some_and (fun delivered => negb (bool_decide (cm_direction self = Outbound)) || (delivered <? cm_occurred_at self))
         (cm_delivered_at self)
    || is_some_and (fun confidence => dec_ltb confidence dec_zero || dec_ltb dec_one confidence)
         (cm_classification_confidence self)
    || is_some_and trim_is_empty (message_effect_id (cm_delivery self))
    || negb (direction_matches (cm_direction self) (cm_delivery self))
    || (bool_decide (cm_direction self = Inbound) && is_none (cm_provider_event_digest self))
    || (bool_decide (cm_direction self = Inbound) && is_some (cm_effect_scope_digest self))
    || (bool_decide (cm_direction self = Inbound) && is_some (cm_authorization_evidence_digest self))
    || (is_some (message_effect_id (cm_delivery self)) && is_none (cm_effect_scope_digest self))
    || (bool_decide (cm_delivery self = MdDraft)
        && (is_some (cm_effect_scope_digest self) || is_some (cm_authorization_evidence_digest self)))
    || (bool_decide (cm_direction self = Outbound)
        && (negb (Bool.eqb (outbound_provider_acceptance (cm_delivery self)) (is_some (cm_delivered_at self)))
            || negb (Bool.eqb (outbound_provider_acceptance (cm_delivery self)) (is_some (cm_provider_event_digest self))))))
    ReInvalidConversationMessage.

(** [any(|message| message.validate().is_err() || message.control_generation > generation)] *)
Fixpoint any_message_invalid (current : Z) (messages : list ConversationMessage) : result RelationshipError bool :=
  match messages with
  | [] => mret false
  | message :: rest =>
      match conversation_message_validate message with
      | Panic => Panic
      | Err _ => mret true
      | Ok _ => if current <? cm_control_generation message then mret true else any_message_invalid current rest
      end
  end.

(** [filter_map(|message| message.provider_event_digest)] *)
Definition provider_events (messages : list ConversationMessage) : list string :=
  omap cm_provider_event_digest messages.
Definition conversation_validate (self : Conversation) : result RelationshipError unit :=
  let messages := cv_messages self in
  reject_if (trim_is_empty (cv_id self)
    || trim_is_empty (cv_tenant_id self)
    || trim_is_empty (cv_project_id self)
    || trim_is_empty (cv_person_id self)
    || trim_is_empty (cv_provider self)
    || trim_is_empty (cv_connection_id self)
    || trim_is_empty (cv_account_id self)
    || negb (supports_provider (cv_gateway self) (cv_provider self))
    || negb (is_sha256 (cv_route_digest self))
    || bool_decide (cv_market self = "")
    || (generation (cv_control self) =? 0)
    || (cv_revision self =? 0)
    || (cv_updated_at self <? cv_created_at self)
    || not_sha256 (cv_last_resume_evidence_digest self)
    || not_sha256 (cv_last_state_evidence_digest self)) ReInvalidConversation;;
  invalid ← any_message_invalid (generation (cv_control self)) messages;
  reject_if (invalid
    || negb (Nat.eqb (size (list_to_set (C := gset string) (cm_id <$> messages))) (length messages))
    || negb (Nat.eqb (size (list_to_set (C := gset string) (provider_events messages))) (length (provider_events messages)))
    || (negb (bool_decide (cv_state self = CvDeadLetter))
        && existsb (fun message => is_some (message_effect_id (cm_delivery message))
             && is_none (cm_authorization_evidence_digest message)) messages)
    || (negb (is_agent (cv_control self)) && existsb (fun message => is_prepared (cm_delivery message)) messages))
    ReInvalidConversation.

Definition conversation_open (id tenant_id project_id : Id) (mission_id : option Id) (person_id : Id) (company_id : option Id)
    (gateway : MessagingGateway) (provider : string) (connection_id account_id : Id) (route_digest : string)
    (contact_channel : ContactChannel) (market : string) (now : DateTime) : result RelationshipError Conversation :=
  let conversation := mkConversation id tenant_id project_id mission_id person_id company_id gateway (trim provider)
    connection_id account_id route_digest contact_channel (trim market) CvOpen (CtAgent 1 now) [] None None 1 now now in
  conversation_validate conversation;;
  mret conversation.

(** [canonical_digest] of the reply scope *)
Definition conversation_effect_scope_digest (conversation : Conversation) (message_id : Id) (content_digest : string)
    (effect_id : Id) (generation : Z) (authorization_evidence_digest : string) : string :=
  sha256_hex (json_reply_scope (mkReplyScope (cv_id conversation) (cv_person_id conversation) (cv_provider conversation)
    (cv_connection_id conversation) (cv_account_id conversation) message_id content_digest effect_id generation
    authorization_evidence_digest)).

(** ** Operations *)
Abbreviation conversation_op := (SR Conversation RelationshipError) (only parsing).

Definition conversation_prepare_bump (self : Conversation) (now : DateTime) : result RelationshipError Z :=
  prepare_aggregate_revision (cv_revision self) (cv_updated_at self) now.
Definition conversation_commit_bump (next_revision : Z) (now : DateTime) (self : Conversation) : Conversation :=
  self <| cv_revision := next_revision |> <| cv_updated_at := now |>.

(** An inbound message an automatic reply may not answer. *)
Definition unsafe_to_answer (message : ConversationMessage) : bool :=
  negb (bool_decide (cm_risk message = CrSafe))
  || is_none_or (fun confidence => dec_ltb confidence automatic_reply_confidence) (cm_classification_confidence message).

Definition has_provider_event (digest : string) (message : ConversationMessage) : bool :=
  bool_decide (cm_provider_event_digest message = Some digest).

Definition inbound_message (self : Conversation) (input : InboundMessageInput) (attestation : WebhookAttestation)
    : ConversationMessage :=
  mkMessage (ib_id input) Inbound (Some (ib_provider_event_digest input)) (ib_content_digest input) None None
    (ib_attachment_digests input) (ib_risk input) (Some (ib_classification_confidence input)) MdReceived
    (generation (cv_control self)) (ib_occurred_at input) (wa_received_at attestation) None.
Definition ingest_inbound (input : InboundMessageInput) (attestation : WebhookAttestation)
    : conversation_op InboundIngest :=
  self ← get;
  reject (bool_decide (cv_state self ∈ [CvResolved; CvClosed; CvDeadLetter])) ReInvalidConversationStateTransition;;
  reject (negb (wa_signature_verified attestation)
    || negb (bool_decide (wa_route_digest attestation = cv_route_digest self))
    || negb (bool_decide (wa_provider attestation = cv_provider self))
    || negb (bool_decide (wa_connection_id attestation = cv_connection_id self))
    || negb (bool_decide (wa_account_id attestation = cv_account_id self))) ReWebhookScopeOrSignatureInvalid;;
  match List.find (has_provider_event (ib_provider_event_digest input)) (cv_messages self) with
  | Some existing =>
      reject (negb (bool_decide (cm_content_digest existing = ib_content_digest input)
        && bool_decide (cm_attachment_digests existing = ib_attachment_digests input))) ReWebhookReplayConflict;;
      mret IgDuplicate
  | None =>
      let message := inbound_message self input attestation in
      lift (conversation_message_validate message);;
      reject (existsb (fun stored => bool_decide (cm_id stored = cm_id message)) (cv_messages self)) ReDuplicateMessageId;;
      next_revision ← lift (conversation_prepare_bump self (wa_received_at attestation));
      modify (fun self => conversation_commit_bump next_revision (wa_received_at attestation)
        (self <| cv_state := if unsafe_to_answer message then CvWaitingHuman else cv_state self |>
              <| cv_messages ::= fun l => l ++ [message] |>));;
      mret IgInserted
  end.

Definition require_agent_generation (self : Conversation) (expected_generation : Z) : result RelationshipError unit :=
  match cv_control self with
  | CtAgent generation _ => reject_if (negb (generation =? expected_generation)) ReControlLeaseLost
  | _ => Err ReControlLeaseLost
  end.

Definition latest_inbound (messages : list ConversationMessage) : option ConversationMessage :=
  List.find (fun message => bool_decide (cm_direction message = Inbound)) (rev messages).

(** The evidence that a reply is authorised. *)
Definition reply_authorization_digest (self : Conversation) (authorization : AutomatedReplyAuthorization) (now : DateTime)
    : result RelationshipError string :=
  match authorization with
  | RaConsent consent =>
      reject_if (negb (bool_decide (cs_tenant_id consent = cv_tenant_id self))
        || negb (bool_decide (cs_project_id consent = cv_project_id self))
        || negb (permits consent (cv_person_id self) AutomatedReply (cv_contact_channel self) (cv_market self) now))
        ReConsentDoesNotAuthorizeReply;;
      mret (cs_evidence_digest consent)
  | RaNotRequired evidence_digest =>
      reject_if (negb (is_sha256 evidence_digest)) ReConsentDoesNotAuthorizeReply;;
      mret evidence_digest
  end.

Definition reply_message (message_id : Id) (content_digest scope_digest authorization_digest : string) (effect_id : Id)
    (expected_generation : Z) (now : DateTime) : ConversationMessage :=
  mkMessage message_id Outbound None content_digest (Some scope_digest) (Some authorization_digest) ∅ CrSafe None
    (MdEffectPrepared effect_id) expected_generation now now None.
Definition prepare_automatic_reply (message_id : Id) (content_digest : string) (effect_id : Id) (expected_generation : Z)
    (authorization : AutomatedReplyAuthorization) (now : DateTime) : conversation_op PreparedAutomaticReply :=
  self ← get;
  lift (require_agent_generation self expected_generation);;
  reject (negb (bool_decide (cv_state self = CvOpen))
    || existsb (fun message => is_uncertain (cm_delivery message) || is_dead_letter (cm_delivery message))
         (cv_messages self)) ReAutomaticReplyNotAllowed;;
  inbound ← lift (ok_or (latest_inbound (cv_messages self)) ReAutomaticReplyNotAllowed);
  reject (unsafe_to_answer inbound) ReAutomaticReplyNotAllowed;;
  authorization_digest ← lift (reply_authorization_digest self authorization now);
  reject (negb (is_sha256 content_digest)
    || trim_is_empty effect_id
    || existsb (fun message => bool_decide (cm_id message = message_id)) (cv_messages self)) ReInvalidConversationMessage;;
  let scope_digest := conversation_effect_scope_digest self message_id content_digest effect_id expected_generation
    authorization_digest in
  next_revision ← lift (conversation_prepare_bump self now);
  modify (fun self => conversation_commit_bump next_revision now
    (self <| cv_messages ::= fun l => l ++ [reply_message message_id content_digest scope_digest authorization_digest
       effect_id expected_generation now] |>));;
  mret (mkPreparedReply message_id effect_id expected_generation scope_digest).

(** Handing over cancels every reply that was prepared and not yet sent. *)
Definition cancel_prepared (message : ConversationMessage) : ConversationMessage :=
  match cm_delivery message with
  | MdEffectPrepared effect_id => message <| cm_delivery := MdCancelledByHandoff effect_id |>
  | _ => message
  end.

Definition take_human_control (expected_generation : Z) (actor_id : Id) (now : DateTime) : conversation_op Z :=
  self ← get;
  reject (trim_is_empty actor_id
    || negb (generation (cv_control self) =? expected_generation)
    || is_human (cv_control self)
    || bool_decide (cv_state self ∈ [CvClosed; CvDeadLetter])) ReControlLeaseLost;;
  next ← lift (next_generation expected_generation);
  next_revision ← lift (conversation_prepare_bump self now);
  modify (fun self => conversation_commit_bump next_revision now
    (self <| cv_messages ::= fmap cancel_prepared |> <| cv_control := CtHuman next actor_id now |>
          <| cv_state := CvWaitingHuman |> <| cv_last_state_evidence_digest := None |>));;
  mret next.

Definition pause_agent (expected_generation : Z) (reason_digest : string) (now : DateTime) : conversation_op Z :=
  self ← get;
  reject (negb (generation (cv_control self) =? expected_generation)
    || negb (is_agent (cv_control self))
    || bool_decide (cv_state self ∈ [CvResolved; CvClosed; CvDeadLetter])
    || negb (is_sha256 reason_digest)) ReInvalidConversationStateTransition;;
  next ← lift (next_generation expected_generation);
  next_revision ← lift (conversation_prepare_bump self now);
  modify (fun self => conversation_commit_bump next_revision now
    (self <| cv_messages ::= fmap cancel_prepared |> <| cv_control := CtPaused next reason_digest now |>
          <| cv_state := CvWaitingHuman |> <| cv_last_state_evidence_digest := Some reason_digest |>));;
  mret next.

Definition resume_agent (expected_generation : Z) (resume_evidence_digest : string) (now : DateTime) : conversation_op Z :=
  self ← get;
  reject (negb (generation (cv_control self) =? expected_generation)
    || is_agent (cv_control self)
    || bool_decide (cv_state self ∈ [CvResolved; CvClosed; CvDeadLetter])
    || negb (is_sha256 resume_evidence_digest)) ReExplicitResumeRequired;;
  next ← lift (next_generation expected_generation);
  next_revision ← lift (conversation_prepare_bump self now);
  modify (fun self => conversation_commit_bump next_revision now
    (self <| cv_control := CtAgent next now |> <| cv_state := CvOpen |>
          <| cv_last_resume_evidence_digest := Some resume_evidence_digest |> <| cv_last_state_evidence_digest := None |>));;
  mret next.

(** What [resolve], [close] and [mark_dead_letter] do after their guards. *)
Definition end_conversation (state : ConversationState) (evidence_digest : string) (now : DateTime) : conversation_op unit :=
  self ← get;
  next ← lift (next_generation (generation (cv_control self)));
  next_revision ← lift (conversation_prepare_bump self now);
  modify (fun self => conversation_commit_bump next_revision now
    (self <| cv_control := CtPaused next evidence_digest now |> <| cv_state := state |>
          <| cv_last_state_evidence_digest := Some evidence_digest |>)).

Definition conversation_resolve (evidence_digest : string) (now : DateTime) : conversation_op unit :=
  self ← get;
  reject (negb (bool_decide (cv_state self ∈ [CvOpen; CvWaitingHuman]))
    || negb (is_sha256 evidence_digest)
    || existsb (fun message => is_prepared (cm_delivery message) || is_uncertain (cm_delivery message)
         || is_dead_letter (cm_delivery message)) (cv_messages self)) ReInvalidConversationStateTransition;;
  end_conversation CvResolved evidence_digest now.

Definition conversation_close (evidence_digest : string) (now : DateTime) : conversation_op unit :=
  self ← get;
  reject (negb (bool_decide (cv_state self = CvResolved)) || negb (is_sha256 evidence_digest))
    ReInvalidConversationStateTransition;;
  end_conversation CvClosed evidence_digest now.

Definition mark_dead_letter (evidence_digest : string) (now : DateTime) : conversation_op unit :=
  self ← get;
  reject (bool_decide (cv_state self ∈ [CvClosed; CvDeadLetter])
    || negb (is_sha256 evidence_digest)
    || existsb (fun message => is_prepared (cm_delivery message)) (cv_messages self)) ReInvalidConversationStateTransition;;
  end_conversation CvDeadLetter evidence_digest now.

(** ** Delivery of prepared replies *)
Definition prepares (effect_id : Id) (message : ConversationMessage) : bool :=
  match cm_delivery message with MdEffectPrepared pending => bool_decide (pending = effect_id) | _ => false end.
Definition uncertain_of (effect_id : Id) (message : ConversationMessage) : bool :=
  match cm_delivery message with MdUncertain pending _ => bool_decide (pending = effect_id) | _ => false end.

Definition authorizes_agent_effect (self : Conversation) (effect_id : Id) (generation : Z) : bool :=
  bool_decide (cv_state self = CvOpen)
  && match cv_control self with CtAgent active_generation _ => active_generation =? generation | _ => false end
  && existsb (fun message => (cm_control_generation message =? generation) && prepares effect_id message) (cv_messages self).

Definition authorizes_agent_effect_scope (self : Conversation) (effect_id : Id) (generation : Z) (scope_digest : string) : bool :=
  is_sha256 scope_digest
  && authorizes_agent_effect self effect_id generation
  && existsb (fun message => (cm_control_generation message =? generation)
       && bool_decide (cm_effect_scope_digest message = Some scope_digest)
       && is_some (cm_authorization_evidence_digest message)
       && prepares effect_id message) (cv_messages self).

Definition records_sent_agent_effect_scope (self : Conversation) (effect_id : Id) (generation : Z) (scope_digest : string)
    (receipt_id : Id) : bool :=
  is_sha256 scope_digest
  && existsb (fun message => (cm_control_generation message =? generation)
       && bool_decide (cm_effect_scope_digest message = Some scope_digest)
       && is_some (cm_authorization_evidence_digest message)
       && bool_decide (cm_delivery message = MdSent effect_id receipt_id)
       && is_some (cm_provider_event_digest message)
       && is_some (cm_delivered_at message)) (cv_messages self).

(** [iter().position(..)], with the element found. *)
Definition message_position (f : ConversationMessage -> bool) (messages : list ConversationMessage)
    : option (nat * ConversationMessage) :=
  list_find (fun message => f message = true) messages.
Definition prepared_message_index (self : Conversation) (effect_id : Id) : result RelationshipError nat :=
  found ← ok_or (message_position (prepares effect_id) (cv_messages self)) ReAutomaticReplyNotAllowed;
  mret found.1.
Definition reconciliation_message_index (self : Conversation) (effect_id : Id) (original_generation : Z)
    : result RelationshipError (nat * ConversationMessage) :=
  ok_or (message_position (fun message => (cm_control_generation message =? original_generation)
    && uncertain_of effect_id message) (cv_messages self)) ReAutomaticReplyNotAllowed.

(** What is written to the message at an index. *)
Definition deliver (delivery : MessageDelivery) (provider_event_digest : option string) (delivered_at : option DateTime)
    (message : ConversationMessage) : ConversationMessage :=
  message <| cm_delivery := delivery |> <| cm_provider_event_digest := provider_event_digest |>
    <| cm_delivered_at := delivered_at |>.
Definition update_message (index : nat) (f : ConversationMessage -> ConversationMessage) (self : Conversation) : Conversation :=
  self <| cv_messages ::= alter f index |>.

Definition record_agent_reply (effect_id receipt_id : Id) (provider_event_digest : string) (generation : Z)
    (receipt_accepted_at projected_at : DateTime) : conversation_op unit :=
  self ← get;
  reject (negb (authorizes_agent_effect self effect_id generation) || trim_is_empty receipt_id) ReControlLeaseLost;;
  reject (negb (is_sha256 provider_event_digest)) ReInvalidConversationMessage;;
  reject (existsb (has_provider_event provider_event_digest) (cv_messages self)) ReWebhookReplayConflict;;
  message_index ← lift (prepared_message_index self effect_id);
  reject (projected_at <? receipt_accepted_at) ReInvalidConversationMessage;;
  next_revision ← lift (conversation_prepare_bump self projected_at);
  modify (fun self => conversation_commit_bump next_revision projected_at (update_message message_index
    (deliver (MdSent effect_id receipt_id) (Some provider_event_digest) (Some receipt_accepted_at)) self)).

Definition mark_agent_reply_failed (effect_id : Id) (generation : Z) (failed_at : DateTime) : conversation_op unit :=
  self ← get;
  reject (negb (authorizes_agent_effect self effect_id generation)) ReControlLeaseLost;;
  message_index ← lift (prepared_message_index self effect_id);
  next_revision ← lift (conversation_prepare_bump self failed_at);
  modify (fun self => conversation_commit_bump next_revision failed_at
    (update_message message_index (fun message => message <| cm_delivery := MdFailed effect_id |>) self)).

Definition mark_agent_reply_uncertain (effect_id : Id) (generation : Z) (receipt_id provider_event_digest : option string)
    (observed_at : DateTime) : conversation_op unit :=
  self ← get;
  reject (negb (authorizes_agent_effect self effect_id generation)
    || negb (Bool.eqb (is_some receipt_id) (is_some provider_event_digest))
    || not_sha256 provider_event_digest) ReControlLeaseLost;;
  reject (is_some_and (fun digest => existsb (has_provider_event digest) (cv_messages self)) provider_event_digest)
    ReWebhookReplayConflict;;
  message_index ← lift (prepared_message_index self effect_id);
  next_revision ← lift (conversation_prepare_bump self observed_at);
  modify (fun self => conversation_commit_bump next_revision observed_at (update_message message_index
    (deliver (MdUncertain effect_id receipt_id) provider_event_digest
       (if is_some receipt_id then Some observed_at else None)) self)).

(** Some other message than the one at the index carries the event. *)
Definition event_elsewhere (index : nat) (digest : string) (messages : list ConversationMessage) : bool :=
  existsb (has_provider_event digest) (take index messages) || existsb (has_provider_event digest) (drop (S index) messages).

Definition prepare_reconciled_receipt_projection (self : Conversation) (effect_id receipt_id : Id)
    (provider_event_digest : string) (original_generation : Z) (accepted_at reconciled_at : DateTime)
    : result RelationshipError (nat * Z) :=
  found ← reconciliation_message_index self effect_id original_generation;
  let '(message_index, message) := found in
  match cm_delivery message with
  | MdUncertain _ previous_receipt =>
      reject_if (trim_is_empty receipt_id
        || negb (is_sha256 provider_event_digest)
        || (accepted_at <? cm_occurred_at message)
        || (reconciled_at <? accepted_at)
        || is_some_and (fun previous => negb (bool_decide (previous = receipt_id))) previous_receipt
        || is_some_and (fun previous => negb (bool_decide (previous = provider_event_digest))) (cm_provider_event_digest message)
        || is_some_and (fun previous => negb (previous =? accepted_at)) (cm_delivered_at message)
        || event_elsewhere message_index provider_event_digest (cv_messages self)) ReInvalidConversationMessage;;
      next_revision ← conversation_prepare_bump self reconciled_at;
      mret (message_index, next_revision)
  | _ => Err ReAutomaticReplyNotAllowed
  end.

Definition record_reconciled_agent_reply (effect_id receipt_id : Id) (provider_event_digest : string)
    (original_generation : Z) (accepted_at reconciled_at : DateTime) : conversation_op unit :=
  self ← get;
  projection ← lift (prepare_reconciled_receipt_projection self effect_id receipt_id provider_event_digest
    original_generation accepted_at reconciled_at);
  modify (fun self => conversation_commit_bump projection.2 reconciled_at (update_message projection.1
    (deliver (MdSent effect_id receipt_id) (Some provider_event_digest) (Some accepted_at)) self)).

Definition record_reconciled_agent_reply_uncertain_receipt (effect_id receipt_id : Id) (provider_event_digest : string)
    (original_generation : Z) (accepted_at reconciled_at : DateTime) : conversation_op unit :=
  self ← get;
  projection ← lift (prepare_reconciled_receipt_projection self effect_id receipt_id provider_event_digest
    original_generation accepted_at reconciled_at);
  modify (fun self => conversation_commit_bump projection.2 reconciled_at (update_message projection.1
    (deliver (MdUncertain effect_id (Some receipt_id)) (Some provider_event_digest) (Some accepted_at)) self)).

Definition mark_agent_reply_reconciliation_terminal (effect_id : Id) (original_generation : Z) (delivery : MessageDelivery)
    (reconciled_at : DateTime) : conversation_op unit :=
  self ← get;
  found ← lift (reconciliation_message_index self effect_id original_generation);
  let '(message_index, message) := found in
  reject (negb (is_uncertain (cm_delivery message))
    || is_some (cm_provider_event_digest message)
    || is_some (cm_delivered_at message)) ReInvalidConversationMessage;;
  next_revision ← lift (conversation_prepare_bump self reconciled_at);
  modify (fun self => conversation_commit_bump next_revision reconciled_at
    (update_message message_index (fun message => message <| cm_delivery := delivery |>) self)).
Definition mark_agent_reply_reconciled_not_sent (effect_id : Id) (original_generation : Z) (reconciled_at : DateTime)
    : conversation_op unit :=
  mark_agent_reply_reconciliation_terminal effect_id original_generation (MdReconciledNotSent effect_id) reconciled_at.
Definition mark_agent_reply_reconciled_failed (effect_id : Id) (original_generation : Z) (reconciled_at : DateTime)
    : conversation_op unit :=
  mark_agent_reply_reconciliation_terminal effect_id original_generation (MdFailed effect_id) reconciled_at.
Definition mark_agent_reply_reconciliation_dead_letter (effect_id : Id) (original_generation : Z) (reconciled_at : DateTime)
    : conversation_op unit :=
  mark_agent_reply_reconciliation_terminal effect_id original_generation (MdReconciliationDeadLetter effect_id) reconciled_at.

(** ** The append check *)

(** [==] on messages and conversations: confidences are compared as numbers. *)
Definition option_dec_eqb (a b : option Decimal) : bool :=
  match a, b with Some a, Some b => dec_eqb a b | None, None => true | _, _ => false end.
Definition message_eqb (a b : ConversationMessage) : bool :=
  option_dec_eqb (cm_classification_confidence a) (cm_classification_confidence b)
  && bool_decide (a <| cm_classification_confidence := None |> = b <| cm_classification_confidence := None |>).
Fixpoint messages_eqb (a b : list ConversationMessage) : bool :=
  match a, b with
  | [], [] => true
  | x :: a, y :: b => message_eqb x y && messages_eqb a b
  | _, _ => false
  end.
Definition conversation_eqb (a b : Conversation) : bool :=
  messages_eqb (cv_messages a) (cv_messages b) && bool_decide (a <| cv_messages := [] |> = b <| cv_messages := [] |>).

Definition transition_matches (previous expected : Conversation) (transition : conversation_op unit) : result RelationshipError bool :=
  match run transition previous with
  | (Ok _, candidate) => mret (conversation_eqb candidate expected)
  | (Err _, _) => mret false
  | (Panic, _) => Panic
  end.

Definition appended_message (previous expected : Conversation) : option ConversationMessage :=
  if Nat.eqb (length (cv_messages expected)) (length (cv_messages previous) + 1)
     && messages_eqb (take (length (cv_messages previous)) (cv_messages expected)) (cv_messages previous)
  then last (cv_messages expected) else None.

Definition changed_messages (previous expected : list ConversationMessage) : list (ConversationMessage * ConversationMessage) :=
  List.filter (fun change => negb (message_eqb change.1 change.2)) (zip previous expected).
Definition changed_message (previous expected : Conversation) : option ConversationMessage :=
  if negb (Nat.eqb (length (cv_messages previous)) (length (cv_messages expected))) then None else
  match changed_messages (cv_messages previous) (cv_messages expected) with [change] => Some change.2 | _ => None end.

Definition replays_inbound (previous expected : Conversation) : result RelationshipError bool :=
  match appended_message previous expected with
  | None => mret false
  | Some message =>
      if negb (bool_decide (cm_direction message = Inbound)) then mret false else
      transition_matches previous expected (
        digest ← lift (ok_or (cm_provider_event_digest message) ReInvalidConversationSnapshot);
        confidence ← lift (ok_or (cm_classification_confidence message) ReInvalidConversationSnapshot);
        candidate ← get;
        ingest_inbound (mkInbound (cm_id message) digest (cm_content_digest message) (cm_attachment_digests message)
            (cm_risk message) confidence (cm_occurred_at message))
          (mkAttestation true (cv_route_digest candidate) (cv_provider candidate) (cv_connection_id candidate)
            (cv_account_id candidate) (cm_received_at message));;
        mret tt)
  end.

Definition replays_prepared_reply (previous expected : Conversation) : result RelationshipError bool :=
  match appended_message previous expected with
  | None => mret false
  | Some message =>
      match cm_delivery message, cm_authorization_evidence_digest message with
      | MdEffectPrepared effect_id, Some authorization_digest =>
          transition_matches previous expected (
            prepare_automatic_reply (cm_id message) (cm_content_digest message) effect_id (cm_control_generation message)
              (RaNotRequired authorization_digest) (cm_occurred_at message);; mret tt)
      | _, _ => mret false
      end
  end.

Definition replay_sent_delivery (previous_message next_message : ConversationMessage) (effect_id receipt_id : Id)
    (projected_at : DateTime) : conversation_op unit :=
  provider_event_digest ← lift (ok_or (cm_provider_event_digest next_message) ReInvalidConversationSnapshot);
  delivered_at ← lift (ok_or (cm_delivered_at next_message) ReInvalidConversationSnapshot);
  if is_uncertain (cm_delivery previous_message)
  then record_reconciled_agent_reply effect_id receipt_id provider_event_digest (cm_control_generation next_message)
         delivered_at projected_at
  else record_agent_reply effect_id receipt_id provider_event_digest (cm_control_generation next_message)
         delivered_at projected_at.
Definition replay_failed_delivery (previous_message : ConversationMessage) (effect_id : Id) (generation : Z)
    (reconciled_at : DateTime) : conversation_op unit :=
  if is_uncertain (cm_delivery previous_message)
  then mark_agent_reply_reconciled_failed effect_id generation reconciled_at
  else mark_agent_reply_failed effect_id generation reconciled_at.
Definition replay_uncertain_delivery (previous_message next_message : ConversationMessage) (effect_id : Id)
    (receipt_id : option Id) (reconciled_at : DateTime) : conversation_op unit :=
  match receipt_id with
  | Some receipt =>
      if is_uncertain (cm_delivery previous_message)
      then digest ← lift (ok_or (cm_provider_event_digest next_message) ReInvalidConversationSnapshot);
           delivered_at ← lift (ok_or (cm_delivered_at next_message) ReInvalidConversationSnapshot);
           record_reconciled_agent_reply_uncertain_receipt effect_id receipt digest (cm_control_generation next_message)
             delivered_at reconciled_at
      else mark_agent_reply_uncertain effect_id (cm_control_generation next_message) receipt_id
             (cm_provider_event_digest next_message) (default reconciled_at (cm_delivered_at next_message))
  | None =>
      mark_agent_reply_uncertain effect_id (cm_control_generation next_message) None
        (cm_provider_event_digest next_message) (default reconciled_at (cm_delivered_at next_message))
  end.

Definition replay_delivery (previous_message next_message : ConversationMessage) (updated_at : DateTime) : conversation_op unit :=
  match cm_delivery next_message with
  | MdSent effect_id receipt_id => replay_sent_delivery previous_message next_message effect_id receipt_id updated_at
  | MdFailed effect_id => replay_failed_delivery previous_message effect_id (cm_control_generation next_message) updated_at
  | MdUncertain effect_id receipt_id => replay_uncertain_delivery previous_message next_message effect_id receipt_id updated_at
  | MdReconciledNotSent effect_id =>
      mark_agent_reply_reconciled_not_sent effect_id (cm_control_generation next_message) updated_at
  | MdReconciliationDeadLetter effect_id =>
      mark_agent_reply_reconciliation_dead_letter effect_id (cm_control_generation next_message) updated_at
  | _ => fail ReInvalidConversationSnapshot
  end.
Definition replays_delivery_transition (previous expected : Conversation) : result RelationshipError bool :=
  match changed_message previous expected with
  | None => mret false
  | Some next_message =>
      match List.find (fun message => bool_decide (cm_id message = cm_id next_message)) (cv_messages previous) with
      | None => mret false
      | Some previous_message =>
          transition_matches previous expected (replay_delivery previous_message next_message (cv_updated_at expected))
      end
  end.

Definition replays_control_transition (previous expected : Conversation) : result RelationshipError bool :=
  let current := generation (cv_control previous) in
  match cv_control expected with
  | CtHuman _ actor_id acquired_at =>
      transition_matches previous expected (take_human_control current actor_id acquired_at;; mret tt)
  | CtAgent _ resumed_at =>
      match cv_last_resume_evidence_digest expected with
      | None => mret false
      | Some evidence => transition_matches previous expected (resume_agent current evidence resumed_at;; mret tt)
      end
  | CtPaused _ reason_digest paused_at =>
      transition_matches previous expected
        match cv_state expected with
        | CvWaitingHuman => pause_agent current reason_digest paused_at;; mret tt
        | CvResolved => conversation_resolve reason_digest paused_at
        | CvClosed => conversation_close reason_digest paused_at
        | CvDeadLetter => mark_dead_letter reason_digest paused_at
        | CvOpen => fail ReInvalidConversationStateTransition
        end
  end.

Definition conversation_scope_is_immutable (previous next : Conversation) : bool :=
  bool_decide (cv_id previous = cv_id next)
  && bool_decide (cv_tenant_id previous = cv_tenant_id next)
  && bool_decide (cv_project_id previous = cv_project_id next)
  && bool_decide (cv_mission_id previous = cv_mission_id next)
  && bool_decide (cv_person_id previous = cv_person_id next)
  && bool_decide (cv_company_id previous = cv_company_id next)
  && bool_decide (cv_gateway previous = cv_gateway next)
  && bool_decide (cv_provider previous = cv_provider next)
  && bool_decide (cv_connection_id previous = cv_connection_id next)
  && bool_decide (cv_account_id previous = cv_account_id next)
  && bool_decide (cv_route_digest previous = cv_route_digest next)
  && bool_decide (cv_contact_channel previous = cv_contact_channel next)
  && bool_decide (cv_market previous = cv_market next)
  && (cv_created_at previous =? cv_created_at next).

Definition conversation_follows_command (self previous : Conversation) : result RelationshipError bool :=
  conversation_validate previous;;
  conversation_validate self;;
  if negb (bool_decide (checked_add u64_max (cv_revision previous) 1 = Some (cv_revision self)))
     || negb (conversation_scope_is_immutable previous self)
  then mret false else
  inbound ← replays_inbound previous self;
  if inbound : bool then mret true else
  reply ← replays_prepared_reply previous self;
  if reply : bool then mret true else
  delivery ← replays_delivery_transition previous self;
  if delivery : bool then mret true else
  replays_control_transition previous self.

Definition conversation_is_initial_snapshot (self : Conversation) : result RelationshipError bool :=
  conversation_validate self;;
  mret ((cv_revision self =? 1)
    && bool_decide (cv_state self = CvOpen)
    && match cv_control self with
       | CtAgent generation resumed_at => (generation =? 1) && (resumed_at =? cv_created_at self)
       | _ => false
       end
    && Nat.eqb (length (cv_messages self)) 0
    && is_none (cv_last_resume_evidence_digest self)
    && is_none (cv_last_state_evidence_digest self)
    && (cv_updated_at self =? cv_created_at self)).

(** ** Snapshots from another device *)
Definition provider_receipt_event_digest (receipt : Receipt) : string :=
  sha256_hex (rc_provider receipt ++ ":" ++ rc_external_id receipt ++ ":" ++ rc_response_digest receipt).

(** The receipt is the one the message says was accepted. *)
Definition receipt_matches (message : ConversationMessage) (effect : Effect) (receipt_id : Id) (receipt : Receipt) : bool :=
  bool_decide (rc_id receipt = receipt_id)
  && bool_decide (rc_provider receipt = es_provider (ef_spec effect))
  && bool_decide (cm_provider_event_digest message = Some (provider_receipt_event_digest receipt))
  && bool_decide (cm_delivered_at message = Some (rc_accepted_at receipt)).
Definition uncertain_receipt_matches (message : ConversationMessage) (effect : Effect) (receipt_id : option Id) : bool :=
  match receipt_id, ef_receipt effect with
  | None, None => is_none (cm_provider_event_digest message) && is_none (cm_delivered_at message)
  | Some expected_id, Some receipt => receipt_matches message effect expected_id receipt
  | _, _ => false
  end.
Definition independently_confirms (receipt_id : Id) (verification : Verification) : bool :=
  match vf_status verification with VConfirmed => true | _ => false end
  && vf_independent verification
  && bool_decide (vf_receipt_id verification = receipt_id).

Definition delivery_matches_effect (message : ConversationMessage) (effect : Effect) : bool :=
  let is_effect id := bool_decide (id = ef_id effect) in
  let nothing_delivered := is_none (cm_provider_event_digest message) && is_none (cm_delivered_at message) in
  match cm_delivery message with
  | MdEffectPrepared effect_id => is_effect effect_id
  | MdSent effect_id receipt_id =>
      is_effect effect_id
      && bool_decide (ef_status effect = EVerified)
      && is_some_and (receipt_matches message effect receipt_id) (ef_receipt effect)
      && is_some_and (independently_confirms receipt_id) (ef_verification effect)
  | MdFailed effect_id => is_effect effect_id && bool_decide (ef_status effect = EFailed) && is_none (ef_receipt effect)
  | MdUncertain effect_id receipt_id =>
      is_effect effect_id
      && bool_decide (ef_status effect ∈ [EVerificationRequired; EVerified; EReconciled; EDeadLetter; EFailed])
      && uncertain_receipt_matches message effect receipt_id
  | MdReconciledNotSent effect_id =>
      is_effect effect_id && bool_decide (ef_status effect = EReconciled) && is_none (ef_receipt effect) && nothing_delivered
  | MdReconciliationDeadLetter effect_id =>
      is_effect effect_id && bool_decide (ef_status effect = EDeadLetter) && is_none (ef_receipt effect) && nothing_delivered
  | MdCancelledByHandoff effect_id => is_effect effect_id && bool_decide (ef_status effect = ECancelled)
  | MdReceived | MdDraft => false
  end.

Definition consent_authorized_at (record : ConsentRecord) (requirement : ConsentRequirement) (at_ : DateTime) : bool :=
  negb (trim_is_empty (cs_tenant_id record))
  && negb (trim_is_empty (cs_project_id record))
  && bool_decide (cs_person_id record = cr_person_id requirement)
  && bool_decide (cs_purpose record = cr_purpose requirement)
  && bool_decide (cs_channel record = cr_channel requirement)
  && eq_ignore_ascii_case (cs_market record) (cr_market requirement)
  && is_sha256 (cs_evidence_digest record)
  && is_some_and (fun granted => granted <=? at_) (cs_granted_at record)
  && is_none_or (fun until => at_ <? until) (cs_valid_until record)
  && is_none_or (fun withdrawn => at_ <? withdrawn) (cs_withdrawn_at record)
  && bool_decide (cs_status record ∈ [CnGranted; CnWithdrawn]).

Definition validate_conversation_effect_scope (conversation : Conversation) (message : ConversationMessage) (effect : Effect)
    : result RelationshipError unit :=
  let spec := ef_spec effect in
  guard ← ok_or (es_conversation_guard spec) ReInvalidConversationSnapshot;
  authorization_digest ← ok_or (cm_authorization_evidence_digest message) ReInvalidConversationSnapshot;
  let expected_scope := conversation_effect_scope_digest conversation (cm_id message) (cm_content_digest message)
    (ef_id effect) (cm_control_generation message) authorization_digest in
  reject_if (negb (bool_decide (ef_tenant_id effect = cv_tenant_id conversation))
    || negb (bool_decide (ef_project_id effect = cv_project_id conversation))
    || negb (bool_decide (Some (ef_mission_id effect) = cv_mission_id conversation))
    || negb (bool_decide (es_capability spec = "conversation.reply"))
    || negb (bool_decide (es_provider spec = cv_provider conversation))
    || negb (bool_decide (es_connection_id spec = Some (cv_connection_id conversation)))
    || negb (bool_decide (es_account_id spec = Some (cv_account_id conversation)))
    || negb (bool_decide (es_target_resource spec = ("conversation://" ++ cv_id conversation)%string))
    || negb (bool_decide (es_audience_digest spec = Some (sha256_hex (cv_person_id conversation))))
    || negb (bool_decide (es_payload_digest spec = cm_content_digest message))
    || negb (amount_minor (es_amount spec) =? 0)
    || (es_expires_at spec <=? cm_occurred_at message)
    || negb (bool_decide (cg_conversation_id guard = cv_id conversation))
    || negb (cg_control_generation guard =? cm_control_generation message)
    || negb (bool_decide (cg_scope_digest guard = expected_scope))
    || negb (bool_decide (cm_effect_scope_digest message = Some expected_scope))) ReInvalidConversationSnapshot.

Definition validate_conversation_effect_authorization (conversation : Conversation) (message : ConversationMessage)
    (effect : Effect) (consents : list ConsentRecord) : result RelationshipError (option Id) :=
  let spec := ef_spec effect in
  match es_consent spec with
  | CNotRequired =>
      reject_if (negb (is_none (es_consent_record_id spec) && is_none (es_consent_requirement spec)))
        ReInvalidConversationSnapshot;;
      mret None
  | CConfirmed =>
      record_id ← ok_or (es_consent_record_id spec) ReInvalidConversationSnapshot;
      requirement ← ok_or (es_consent_requirement spec) ReInvalidConversationSnapshot;
      record ← ok_or (List.find (fun record => bool_decide (cs_id record = record_id)) consents) ReInvalidConversationSnapshot;
      reject_if (negb (bool_decide (cr_person_id requirement = cv_person_id conversation))
        || negb (bool_decide (cr_purpose requirement = AutomatedReply))
        || negb (bool_decide (cr_channel requirement = cv_contact_channel conversation))
        || negb (eq_ignore_ascii_case (cr_market requirement) (cv_market conversation))
        || negb (bool_decide (cm_authorization_evidence_digest message = Some (cs_evidence_digest record)))
        || negb (consent_authorized_at record requirement (cm_occurred_at message))) ReInvalidConversationSnapshot;;
      mret (Some record_id)
  | _ => Err ReInvalidConversationSnapshot
  end.

Definition effect_of (mission : Mission) (effect_id : Id) : option Effect :=
  List.find (fun effect => bool_decide (ef_id effect = effect_id)) (ms_effects mission).
Definition validate_conversation_message_effect (conversation : Conversation) (message : ConversationMessage)
    (mission : Mission) (consents : list ConsentRecord) : result RelationshipError (option Id) :=
  if bool_decide (cm_direction message = Inbound) || bool_decide (cm_delivery message = MdDraft) then mret None else
  effect_id ← ok_or (message_effect_id (cm_delivery message)) ReInvalidConversationSnapshot;
  effect ← ok_or (effect_of mission effect_id) ReInvalidConversationSnapshot;
  validate_conversation_effect_scope conversation message effect;;
  consent_id ← validate_conversation_effect_authorization conversation message effect consents;
  reject_if (negb (delivery_matches_effect message effect)) ReInvalidConversationSnapshot;;
  mret consent_id.

(** The loop over the consents: every one is in scope and listed once. *)
Fixpoint consents_in_scope (self : Conversation) (ids : gset string) (consents : list ConsentRecord)
    : result RelationshipError (gset string) :=
  match consents with
  | [] => mret ids
  | consent :: rest =>
      reject_if (negb (bool_decide (cs_tenant_id consent = cv_tenant_id self))
        || negb (bool_decide (cs_project_id consent = cv_project_id self))
        || negb (bool_decide (cs_person_id consent = cv_person_id self))
        || contains ids (cs_id consent)) ReInvalidConversationSnapshot;;
      consents_in_scope self ({[cs_id consent]} ∪ ids) rest
  end.
(** The loop over the messages: effects, scopes and referenced consents. *)
Fixpoint snapshot_messages (self : Conversation) (connection : ConnectionSnapshot) (mission : Mission)
    (consents : list ConsentRecord) (referenced : gset string) (messages : list ConversationMessage)
    : result RelationshipError (gset string) :=
  match messages with
  | [] => mret referenced
  | message :: rest =>
      match message_effect_id (cm_delivery message) with
      | None => mret tt
      | Some effect_id =>
          effect ← ok_or (effect_of mission effect_id) ReInvalidConversationSnapshot;
          reject_if (negb (bool_decide (es_required_scopes (ef_spec effect) ⊆ sn_required_scopes connection)))
            ReInvalidConversationSnapshot
      end;;
      consent_id ← validate_conversation_message_effect self message mission consents;
      snapshot_messages self connection mission consents
        (match consent_id with Some id => {[id]} ∪ referenced | None => referenced end) rest
  end.

Definition conversation_validate_snapshot (self : Conversation) (identity : ConversationIdentitySnapshot)
    (connection : ConnectionSnapshot) (mission : Mission) (consents : list ConsentRecord) (now : DateTime)
    : result RelationshipError unit :=
  conversation_validate self;;
  map_err (fun _ => ReInvalidConversationSnapshot) (conversation_snapshot_validate_for identity (cv_tenant_id self)
    (cv_project_id self) (cv_person_id self) (cv_company_id self));;
  map_err (fun _ => ReInvalidConversationSnapshot) (restore connection);;
  mission_id ← ok_or (cv_mission_id self) ReInvalidConversationSnapshot;
  reject_if (negb (bool_decide (ms_tenant_id mission = cv_tenant_id self))
    || negb (bool_decide (ms_project_id mission = cv_project_id self))
    || negb (bool_decide (ms_id mission = mission_id))
    || negb (bool_decide (sn_tenant_id connection = cv_tenant_id self))
    || negb (bool_decide (sn_project_id connection = cv_project_id self))
    || negb (bool_decide (sn_id connection = cv_connection_id self))
    || negb (bool_decide (sn_provider connection = cv_provider self))
    || negb (bool_decide (sn_account_id connection = cv_account_id self))
    || (now <? cv_created_at self)
    || (now <? cv_updated_at self)
    || bool_decide (cv_provider self = "legacy_unresolved")) ReInvalidConversationSnapshot;;
  consent_ids ← consents_in_scope self ∅ consents;
  referenced_consents ← snapshot_messages self connection mission consents ∅ (cv_messages self);
  reject_if (negb (bool_decide (referenced_consents = consent_ids))) ReInvalidConversationSnapshot.

Definition conversation_consent_ids (conversation : Conversation) (mission : Mission) : gset string :=
  list_to_set (omap (fun message =>
    effect_id ← message_effect_id (cm_delivery message);
    effect ← effect_of mission effect_id;
    es_consent_record_id (ef_spec effect)) (cv_messages conversation)).
Definition conversation_follows (self previous : Conversation) (identity : ConversationIdentitySnapshot)
    (connection : ConnectionSnapshot) (mission : Mission) (consents : list ConsentRecord) (now : DateTime)
    : result RelationshipError bool :=
  let previous_consent_ids := conversation_consent_ids previous mission in
  let previous_consents := List.filter (fun consent => contains previous_consent_ids (cs_id consent)) consents in
  conversation_validate_snapshot previous identity connection mission previous_consents now;;
  conversation_validate_snapshot self identity connection mission consents now;;
  conversation_follows_command self previous.
End conversations.
