(* ===== verification/ConversationSafety.v ===== *)
(** * What conversations guarantee

    When a human takes over, a prepared reply of the agent can no longer be
    sent; a reply that may be sent answers a message that was judged safe; the
    append check accepts exactly what the calls produce; and a snapshot counts a
    message as sent only when its effect was independently verified. *)
From S2P Require Import Prelude Text Money Contract MissionTypes WorkProduct Effect Checkpoint Terminal Connection Identity.
From S2P Require Import Conversation.

Inductive ConversationCall : Type :=
| VcInbound (input : InboundMessageInput) (attestation : WebhookAttestation)
| VcReply (message_id : Id) (content_digest : string) (effect_id : Id) (generation : Z)
    (authorization : AutomatedReplyAuthorization) (now : DateTime)
| VcTakeHuman (generation : Z) (actor : Id) (now : DateTime)
| VcPause (generation : Z) (reason : string) (now : DateTime)
| VcResume (generation : Z) (evidence : string) (now : DateTime)
| VcResolve (evidence : string) (now : DateTime)
| VcClose (evidence : string) (now : DateTime)
| VcDeadLetter (evidence : string) (now : DateTime)
| VcSent (effect_id receipt_id : Id) (event : string) (generation : Z) (accepted_at now : DateTime)
| VcFailed (effect_id : Id) (generation : Z) (now : DateTime)
| VcUncertain (effect_id : Id) (generation : Z) (receipt_id event : option string) (now : DateTime)
| VcReconciledSent (effect_id receipt_id : Id) (event : string) (generation : Z) (accepted_at now : DateTime)
| VcReconciledUncertain (effect_id receipt_id : Id) (event : string) (generation : Z) (accepted_at now : DateTime)
| VcNotSent (effect_id : Id) (generation : Z) (now : DateTime)
| VcReconciledFailed (effect_id : Id) (generation : Z) (now : DateTime)
| VcReconciliationDeadLetter (effect_id : Id) (generation : Z) (now : DateTime).

Lemma prepare_bump_Ok c now r :
  conversation_prepare_bump c now = Ok r -> r = cv_revision c + 1 /\ cv_updated_at c <= now /\ cv_revision c < u64_max.
Proof.
  unfold conversation_prepare_bump, prepare_aggregate_revision, relationship_next_revision. intros Hb. inv_run. split_guards.
  known_revision. lia.
Qed.
Lemma next_generation_Ok g n : next_generation g = Ok n -> n = g + 1.
Proof. unfold next_generation. intros Hn. inv_run. by known_revision. Qed.
Ltac bumped :=
  repeat match goal with
  | Hx : conversation_prepare_bump _ _ = Ok _ |- _ => apply prepare_bump_Ok in Hx as (-> & ? & ?)
  | Hx : next_generation _ = Ok _ |- _ => apply next_generation_Ok in Hx as ->
  end.


Section calls.
Context `{!Chrono} `{!Sha256} `{!ConversationSerde}.

Definition conversation_call (k : ConversationCall) : SR Conversation RelationshipError unit :=
  match k with
  | VcInbound input attestation => ingest_inbound input attestation;; mret tt
  | VcReply message content effect generation authorization now =>
      prepare_automatic_reply message content effect generation authorization now;; mret tt
  | VcTakeHuman generation actor now => take_human_control generation actor now;; mret tt
  | VcPause generation reason now => pause_agent generation reason now;; mret tt
  | VcResume generation evidence now => resume_agent generation evidence now;; mret tt
  | VcResolve evidence now => conversation_resolve evidence now
  | VcClose evidence now => conversation_close evidence now
  | VcDeadLetter evidence now => mark_dead_letter evidence now
  | VcSent effect receipt event generation accepted now => record_agent_reply effect receipt event generation accepted now
  | VcFailed effect generation now => mark_agent_reply_failed effect generation now
  | VcUncertain effect generation receipt event now => mark_agent_reply_uncertain effect generation receipt event now
  | VcReconciledSent effect receipt event generation accepted now =>
      record_reconciled_agent_reply effect receipt event generation accepted now
  | VcReconciledUncertain effect receipt event generation accepted now =>
      record_reconciled_agent_reply_uncertain_receipt effect receipt event generation accepted now
  | VcNotSent effect generation now => mark_agent_reply_reconciled_not_sent effect generation now
  | VcReconciledFailed effect generation now => mark_agent_reply_reconciled_failed effect generation now
  | VcReconciliationDeadLetter effect generation now => mark_agent_reply_reconciliation_dead_letter effect generation now
  end.
Fixpoint conversation_run (ks : list ConversationCall) (c : Conversation) : Conversation :=
  match ks with [] => c | k :: ks => conversation_run ks (run (conversation_call k) c).2 end.

(** ** What a successful call does *)
Definition any_prepared (c : Conversation) : bool := existsb (fun m => is_prepared (cm_delivery m)) (cv_messages c).

(** A prepared reply carries the digest of exactly what it was prepared for. *)
Definition bound_to (c : Conversation) (m : ConversationMessage) : Prop :=
  exists effect authorization, cm_delivery m = MdEffectPrepared effect /\
    cm_authorization_evidence_digest m = Some authorization /\
    cm_effect_scope_digest m = Some (conversation_effect_scope_digest c (cm_id m) (cm_content_digest m) effect
      (cm_control_generation m) authorization).

(** The change before the revision is stamped. *)
Inductive conversation_change (c : Conversation) : Conversation -> Prop :=
| ChangeInbound m :
    cm_direction m = Inbound -> cm_delivery m = MdReceived -> cm_control_generation m = generation (cv_control c) ->
    conversation_change c (c <| cv_state := if unsafe_to_answer m then CvWaitingHuman else cv_state c |>
      <| cv_messages ::= fun l => l ++ [m] |>)
| ChangeReply m g t inbound :
    cv_control c = CtAgent g t -> cv_state c = CvOpen -> latest_inbound (cv_messages c) = Some inbound ->
    unsafe_to_answer inbound = false -> cm_direction m = Outbound -> bound_to c m ->
    cm_control_generation m = g ->
    conversation_change c (c <| cv_messages ::= fun l => l ++ [m] |>)
| ChangeDelivery i m delivery event at_ :
    cv_messages c !! i = Some m -> is_prepared (cm_delivery m) || is_uncertain (cm_delivery m) = true ->
    is_prepared delivery = false ->
    conversation_change c (c <| cv_messages ::= alter (deliver delivery event at_) i |>)
| ChangeHandover control state evidence :
    is_agent control = false -> generation control = generation (cv_control c) + 1 ->
    conversation_change c (c <| cv_messages ::= fmap cancel_prepared |> <| cv_control := control |> <| cv_state := state |>
      <| cv_last_state_evidence_digest := evidence |>)
| ChangeEnd control state evidence :
    any_prepared c = false \/ cv_state c = CvResolved -> is_agent control = false ->
    generation control = generation (cv_control c) + 1 ->
    conversation_change c (c <| cv_control := control |> <| cv_state := state |> <| cv_last_state_evidence_digest := evidence |>)
| ChangeResume now evidence :
    is_agent (cv_control c) = false ->
    conversation_change c (c <| cv_control := CtAgent (generation (cv_control c) + 1) now |> <| cv_state := CvOpen |>
      <| cv_last_resume_evidence_digest := Some evidence |> <| cv_last_state_evidence_digest := None |>).

Definition conversation_step (c c' : Conversation) : Prop :=
  exists d now, conversation_change c d /\ c' = conversation_commit_bump (cv_revision c + 1) now d /\
    cv_updated_at c <= now /\ cv_revision c < u64_max.

Lemma stamped_step c d now : conversation_change c d -> cv_updated_at c <= now -> cv_revision c < u64_max ->
  conversation_step c (conversation_commit_bump (cv_revision c + 1) now d).
Proof. intros. exists d, now. done. Qed.
Lemma inbound_step input attestation c u c' :
  run (ingest_inbound input attestation;; mret tt) c = (Ok u, c') -> c' = c \/ conversation_step c c'.
Proof.
  unfold ingest_inbound. intros Hr. inv_run. case_match; inv_run; [by left|right]. bumped.
  apply stamped_step; [|done..]. by apply (ChangeInbound c (inbound_message c input attestation)).
Qed.
Lemma reply_step message content effect g authorization now c u c' :
  run (prepare_automatic_reply message content effect g authorization now;; mret tt) c = (Ok u, c') -> conversation_step c c'.
Proof.
  unfold prepare_automatic_reply, require_agent_generation. intros Hr. inv_run. bumped. destruct (cv_control c) eqn:Hc; try done.
  inv_run. split_guards. eapply stamped_step; [|done..]. eapply ChangeReply; try done; [|cbn; lia].
  eexists effect, _. done.
Qed.
Lemma message_position_Some f ms i m : message_position f ms = Some (i, m) -> ms !! i = Some m /\ f m = true.
Proof. intros (? & ? & _)%list_find_Some. done. Qed.
Lemma prepared_index_Ok c effect i :
  prepared_message_index c effect = Ok i -> exists m, cv_messages c !! i = Some m /\ cm_delivery m = MdEffectPrepared effect.
Proof.
  unfold prepared_message_index. intros Hi. inv_run.
  match goal with Hx : message_position _ _ = Some ?p |- _ => destruct p as [j m]; apply message_position_Some in Hx as [Hm Hp] end.
  exists m. split; [done|]. unfold prepares in Hp. destruct (cm_delivery m); try done. by split_guards; subst.
Qed.
Lemma reconciliation_index_Ok c effect g i m :
  reconciliation_message_index c effect g = Ok (i, m) ->
  cv_messages c !! i = Some m /\ cm_control_generation m = g /\ exists r, cm_delivery m = MdUncertain effect r.
Proof.
  unfold reconciliation_message_index. rewrite ok_or_Ok. intros [Hm Hp]%message_position_Some. split_guards. split; [done|]. split; [lia|].
  unfold uncertain_of in *. destruct (cm_delivery m) eqn:Hd; try done. split_guards. subst. eauto.
Qed.
Lemma alter_delivery i m delivery (ms : list ConversationMessage) :
  ms !! i = Some m ->
  alter (fun message => message <| cm_delivery := delivery |>) i ms
  = alter (deliver delivery (cm_provider_event_digest m) (cm_delivered_at m)) i ms.
Proof.
  intros Hm. apply list_eq. intros j. destruct (decide (i = j)) as [->|Hne].
  - rewrite !list_lookup_alter_eq, Hm. cbn. by destruct m.
  - by rewrite !list_lookup_alter_ne.
Qed.
Lemma update_delivery c i m delivery :
  cv_messages c !! i = Some m ->
  update_message i (fun message => message <| cm_delivery := delivery |>) c
  = update_message i (deliver delivery (cm_provider_event_digest m) (cm_delivered_at m)) c.
Proof. intros Hm. unfold update_message. destruct c; cbn in *. f_equal. by apply alter_delivery. Qed.
Lemma delivery_step c i m delivery event at_ now :
  cv_messages c !! i = Some m -> is_prepared (cm_delivery m) || is_uncertain (cm_delivery m) = true ->
  is_prepared delivery = false -> cv_updated_at c <= now -> cv_revision c < u64_max ->
  conversation_step c (conversation_commit_bump (cv_revision c + 1) now (update_message i (deliver delivery event at_) c)).
Proof. intros. apply stamped_step; [|done..]. by eapply ChangeDelivery. Qed.
Lemma sent_step effect receipt event g accepted now c u c' :
  run (record_agent_reply effect receipt event g accepted now) c = (Ok u, c') -> conversation_step c c'.
Proof.
  unfold record_agent_reply. intros Hr. inv_run. bumped.
  match goal with Hx : prepared_message_index _ _ = _ |- _ => apply prepared_index_Ok in Hx as (m & Hm & Hd) end.
  eapply delivery_step; [done|by rewrite Hd|done..].
Qed.
Lemma failed_step effect g now c u c' :
  run (mark_agent_reply_failed effect g now) c = (Ok u, c') -> conversation_step c c'.
Proof.
  unfold mark_agent_reply_failed. intros Hr. inv_run. bumped.
  match goal with Hx : prepared_message_index _ _ = _ |- _ => apply prepared_index_Ok in Hx as (m & Hm & Hd) end.
  rewrite (update_delivery _ _ m) by done.
  eapply delivery_step; [done|by rewrite Hd|done..].
Qed.
Lemma uncertain_step effect g receipt event now c u c' :
  run (mark_agent_reply_uncertain effect g receipt event now) c = (Ok u, c') -> conversation_step c c'.
Proof.
  unfold mark_agent_reply_uncertain. intros Hr. inv_run. bumped.
  match goal with Hx : prepared_message_index _ _ = _ |- _ => apply prepared_index_Ok in Hx as (m & Hm & Hd) end.
  eapply delivery_step; [done|by rewrite Hd|done..].
Qed.
Lemma projection_Ok c effect receipt event g accepted now i r :
  prepare_reconciled_receipt_projection c effect receipt event g accepted now = Ok (i, r) ->
  exists m previous, cv_messages c !! i = Some m /\ cm_control_generation m = g /\ cm_delivery m = MdUncertain effect previous /\
    r = cv_revision c + 1 /\ cv_updated_at c <= now /\ cv_revision c < u64_max.
Proof.
  unfold prepare_reconciled_receipt_projection. intros Hp. inv_run.
  match goal with Hx : reconciliation_message_index _ _ _ = Ok ?p |- _ =>
    destruct p as [j m]; apply reconciliation_index_Ok in Hx as (Hm & Hg & previous & Hd) end.
  rewrite Hd in Hp. inv_run. bumped. by exists m, previous.
Qed.
Lemma projected_step effect receipt event g accepted now delivery c p :
  is_prepared delivery = false -> prepare_reconciled_receipt_projection c effect receipt event g accepted now = Ok p ->
  conversation_step c (conversation_commit_bump p.2 now (update_message p.1 (deliver delivery (Some event) (Some accepted)) c)).
Proof.
  destruct p as [i r]. intros Hn (m & previous & Hm & _ & Hd & -> & ? & ?)%projection_Ok.
  eapply delivery_step; [done|by rewrite Hd|done..].
Qed.
Lemma terminal_step effect g delivery now c u c' :
  is_prepared delivery = false -> run (mark_agent_reply_reconciliation_terminal effect g delivery now) c = (Ok u, c') ->
  conversation_step c c'.
Proof.
  unfold mark_agent_reply_reconciliation_terminal. intros Hnp Hr. inv_run.
  match goal with Hx : reconciliation_message_index _ _ _ = Ok (_, ?x) |- _ =>
    rename x into m; apply reconciliation_index_Ok in Hx as (Hm & Hg & previous & Hd) end.
  bumped. rewrite (update_delivery _ _ m) by done.
  eapply delivery_step; [done|by rewrite Hd|done..].
Qed.
Lemma handover_step c control state evidence now :
  is_agent control = false -> generation control = generation (cv_control c) + 1 -> cv_updated_at c <= now ->
  cv_revision c < u64_max ->
  conversation_step c (conversation_commit_bump (cv_revision c + 1) now (c <| cv_messages ::= fmap cancel_prepared |>
    <| cv_control := control |> <| cv_state := state |> <| cv_last_state_evidence_digest := evidence |>)).
Proof. intros. apply stamped_step; [|done..]. by apply ChangeHandover. Qed.
Lemma end_step state evidence now c u c' :
  any_prepared c = false \/ cv_state c = CvResolved -> run (end_conversation state evidence now) c = (Ok u, c') ->
  conversation_step c c' /\ is_agent (cv_control c') = false.
Proof.
  unfold end_conversation. intros Hp Hr. inv_run. bumped. split; [|done]. apply stamped_step; [|done..]. by apply ChangeEnd.
Qed.

Lemma take_human_step g actor now c u c' :
  run (take_human_control g actor now;; mret tt) c = (Ok u, c') -> conversation_step c c' /\ is_agent (cv_control c') = false.
Proof.
  unfold take_human_control. intros Hr. inv_run. bumped. split_guards. split; [|done]. apply handover_step; try done. cbn. lia.
Qed.
Lemma pause_step g reason now c u c' :
  run (pause_agent g reason now;; mret tt) c = (Ok u, c') -> conversation_step c c' /\ is_agent (cv_control c') = false.
Proof.
  unfold pause_agent. intros Hr. inv_run. bumped. split_guards. split; [|done]. apply handover_step; try done. cbn. lia.
Qed.
Lemma resume_step g evidence now c u c' : run (resume_agent g evidence now;; mret tt) c = (Ok u, c') -> conversation_step c c'.
Proof.
  unfold resume_agent. intros Hr. inv_run. bumped. split_guards. replace g with (generation (cv_control c)) by lia.
  apply stamped_step; [|done..]. by apply ChangeResume.
Qed.

(** The calls that take the conversation away from the agent. *)
Definition handover (k : ConversationCall) : bool :=
  match k with VcTakeHuman _ _ _ | VcPause _ _ _ | VcResolve _ _ | VcClose _ _ | VcDeadLetter _ _ => true | _ => false end.
Lemma handover_call_step k c c' :
  handover k = true -> run (conversation_call k) c = (Ok tt, c') -> conversation_step c c' /\ is_agent (cv_control c') = false.
Proof.
  intros Hk Hr. destruct k; try done; cbn [conversation_call] in Hr.
  - by apply take_human_step in Hr.
  - by apply pause_step in Hr.
  - unfold conversation_resolve in Hr. inv_run. split_guards. eapply end_step; [left|done]. unfold any_prepared.
    match goal with Hx : existsb _ _ = false |- _ => rewrite existsb_false in Hx; apply existsb_false; intros m Hm; specialize (Hx m Hm) end.
    by split_guards.
  - unfold conversation_close in Hr. inv_run. split_guards. eapply end_step; [right|]; done.
  - unfold mark_dead_letter in Hr. inv_run. split_guards. eapply end_step; [left|]; done.
Qed.

Lemma conversation_call_step k c c' :
  run (conversation_call k) c = (Ok tt, c') -> c' = c \/ conversation_step c c'.
Proof.
  intros Hr. destruct (handover k) eqn:Hk; [right; by apply (handover_call_step k)|].
  destruct k; try done; cbn [conversation_call] in Hr; [by eapply inbound_step|right..].
  - by eapply reply_step.
  - by eapply resume_step.
  - by eapply sent_step.
  - by eapply failed_step.
  - by eapply uncertain_step.
  - unfold record_reconciled_agent_reply in Hr. inv_run. by eapply projected_step.
  - unfold record_reconciled_agent_reply_uncertain_receipt in Hr. inv_run. by eapply projected_step.
  - by refine (terminal_step _ _ _ _ _ _ _ _ Hr).
  - by refine (terminal_step _ _ _ _ _ _ _ _ Hr).
  - by refine (terminal_step _ _ _ _ _ _ _ _ Hr).
Qed.

Lemma conversation_call_atomic k : Atomic (conversation_call k).
Proof.
  destruct k; cbn [conversation_call]; try apply bind_mret_atomic;
    unfold ingest_inbound, prepare_automatic_reply, take_human_control, pause_agent, resume_agent, conversation_resolve,
      conversation_close, mark_dead_letter, end_conversation, record_agent_reply, mark_agent_reply_failed,
      mark_agent_reply_uncertain, record_reconciled_agent_reply, record_reconciled_agent_reply_uncertain_receipt,
      mark_agent_reply_reconciled_not_sent, mark_agent_reply_reconciled_failed, mark_agent_reply_reconciliation_dead_letter,
      mark_agent_reply_reconciliation_terminal;
    repeat (apply bind_atomic; [apply _|intros]); repeat case_match; apply _.
Qed.
Lemma conversation_call_moves k c :
  (run (conversation_call k) c).2 = c \/ conversation_step c (run (conversation_call k) c).2.
Proof.
  destruct (run (conversation_call k) c) as [[[]| |] c'] eqn:Hr; [by apply (conversation_call_step k)|left..].
  all: pose proof (conversation_call_atomic k c) as Ha; rewrite Hr in Ha; by apply Ha.
Qed.
End calls.

(** ** Control *)
Definition ended (state : ConversationState) : bool :=
  match state with CvResolved | CvClosed | CvDeadLetter => true | _ => false end.
(** The latest inbound message may be answered automatically. *)
Definition answers_safe (ms : list ConversationMessage) : bool :=
  is_some_and (fun m => negb (unsafe_to_answer m)) (latest_inbound ms).
Section control.
Context `{!Chrono} `{!Sha256} `{!ConversationSerde}.

Record conversation_inv (c : Conversation) : Prop := {
  inv_ended : ended (cv_state c) = true -> is_agent (cv_control c) = false;
  inv_prepared : is_agent (cv_control c) = false -> any_prepared c = false;
  inv_generation m : m ∈ cv_messages c -> is_prepared (cm_delivery m) = true ->
    cm_control_generation m = generation (cv_control c);
  inv_bound m : m ∈ cv_messages c -> is_prepared (cm_delivery m) = true -> bound_to c m;
  inv_safe : cv_state c = CvOpen -> any_prepared c = true -> answers_safe (cv_messages c) = true;
}.

Lemma latest_inbound_snoc ms m :
  latest_inbound (ms ++ [m]) = if bool_decide (cm_direction m = Inbound) then Some m else latest_inbound ms.
Proof. unfold latest_inbound. rewrite rev_app_distr. done. Qed.
Lemma find_key {A B} (key : A -> B) (p q : B -> bool) l :
  is_some_and (fun x => q (key x)) (List.find (fun x => p (key x)) l) = is_some_and q (List.find p (key <$> l)).
Proof. induction l as [|x l IH]; [done|]. cbn. by destruct (p (key x)). Qed.
Lemma answers_safe_key ms ms' :
  (fun m => (cm_direction m, unsafe_to_answer m)) <$> ms = (fun m => (cm_direction m, unsafe_to_answer m)) <$> ms' ->
  answers_safe ms = answers_safe ms'.
Proof.
  intros Hk. set (key := fun m => (cm_direction m, unsafe_to_answer m)) in Hk.
  assert (forall l, answers_safe l
    = is_some_and (fun k => negb k.2) (List.find (fun k => bool_decide (k.1 = Inbound)) (rev (key <$> l)))) as Hf.
  { intros l. replace (rev (key <$> l)) with (key <$> rev l) by exact (map_rev key l).
    exact (find_key key (fun k => bool_decide (k.1 = Inbound)) (fun k => negb k.2) (rev l)). }
  by rewrite !Hf, Hk.
Qed.
Arguments any_prepared : simpl never.
Lemma any_prepared_false c : any_prepared c = false <-> forall m, m ∈ cv_messages c -> is_prepared (cm_delivery m) = false.
Proof. unfold any_prepared. apply existsb_false. Qed.
Lemma any_prepared_true c : any_prepared c = true <-> exists m, m ∈ cv_messages c /\ is_prepared (cm_delivery m) = true.
Proof. unfold any_prepared. apply existsb_elem_of. Qed.
Lemma cancelled_not_prepared m : is_prepared (cm_delivery (cancel_prepared m)) = false.
Proof. unfold cancel_prepared. by destruct (cm_delivery m) eqn:Hd; cbn; rewrite ?Hd. Qed.

Lemma change_inv c d : conversation_inv c -> conversation_change c d -> conversation_inv d.
Proof.
  intros [He Hp Hg Hb Hs] Hc. destruct Hc as [m Hd Hr Hm|m g t inbound Hct Hst Hl Hu Hd Hr Hm|i m delivery event at_ Hi Hm Hn
    |control state evidence Ha Hgen|control state evidence Hor Ha Hgen|now evidence Ha].
  - assert (any_prepared (c <| cv_state := if unsafe_to_answer m then CvWaitingHuman else cv_state c |>
      <| cv_messages ::= fun l => l ++ [m] |>) = any_prepared c) as Hsame.
    { unfold any_prepared; cbn. rewrite existsb_app; cbn. rewrite Hr; cbn. by rewrite orb_false_r. }
    split; rewrite ?Hsame; cbn.
    + cbn. destruct (unsafe_to_answer m); [done|]. exact He.
    + exact Hp.
    + intros x [Hx| ->%list_elem_of_singleton]%elem_of_app Hxp; [by apply Hg|]. by rewrite Hr in Hxp.
    + intros x [Hx| ->%list_elem_of_singleton]%elem_of_app Hxp; [by apply (Hb x)|]. by rewrite Hr in Hxp.
    + intros Hopen _. unfold answers_safe. rewrite latest_inbound_snoc, bool_decide_eq_true_2 by done. cbn.
      by destruct (unsafe_to_answer m).
  - split; cbn.
    + by rewrite Hst.
    + by rewrite Hct.
    + intros x [Hx| ->%list_elem_of_singleton]%elem_of_app Hxp; [by apply Hg|]. by rewrite Hct.
    + intros x [Hx| ->%list_elem_of_singleton]%elem_of_app Hxp; [by apply (Hb x)|exact Hr].
    + intros _ _. unfold answers_safe. rewrite latest_inbound_snoc, bool_decide_eq_false_2, Hl by (by rewrite Hd). cbn. by rewrite Hu.
  - assert (forall x, x ∈ alter (deliver delivery event at_) i (cv_messages c) -> is_prepared (cm_delivery x) = true ->
      x ∈ cv_messages c) as Hin.
    { intros x [Hx|(y & Hy & ->)]%elem_of_alter Hxp; [done|]. cbn in Hxp. congruence. }
    split; cbn.
    + exact He.
    + intros Ha. apply any_prepared_false. cbn. intros x Hx. destruct (is_prepared (cm_delivery x)) eqn:Hxp; [|done].
      specialize (Hp Ha). rewrite any_prepared_false in Hp. rewrite <-Hxp. apply Hp. by apply Hin.
    + intros x Hx Hxp. apply Hg; [by apply Hin|done].
    + intros x Hx Hxp. apply (Hb x); [by apply Hin|done].
    + intros Hopen (x & Hx & Hxp)%any_prepared_true. cbn in Hx. rewrite <-(answers_safe_key (cv_messages c)).
      * apply Hs; [done|]. apply any_prepared_true. exists x. split; [by apply Hin|done].
      * symmetry. by apply alter_key.
  - assert (any_prepared (c <| cv_messages ::= fmap cancel_prepared |> <| cv_control := control |> <| cv_state := state |>
      <| cv_last_state_evidence_digest := evidence |>) = false) as Hno.
    { apply any_prepared_false. cbn. intros x (y & -> & _)%list_elem_of_fmap. apply cancelled_not_prepared. }
    split; rewrite ?Hno; cbn; try done.
    all: intros x (y & -> & _)%list_elem_of_fmap Hx; by rewrite cancelled_not_prepared in Hx.
  - assert (any_prepared c = false) as Hno. { destruct Hor as [?|Hst]; [done|]. apply Hp, He. by rewrite Hst. }
    split; cbn; try done.
    + intros x Hx Hxp. rewrite any_prepared_false in Hno. by rewrite Hno in Hxp.
    + intros _ Hx. change (any_prepared c = true) in Hx. congruence.
  - specialize (Hp Ha). split; cbn; try done.
    + intros x Hx Hxp. rewrite any_prepared_false in Hp. by rewrite Hp in Hxp.
    + intros _ Hx. change (any_prepared c = true) in Hx. congruence.
Qed.

Lemma conversation_step_inv c c' : conversation_step c c' -> conversation_inv c -> conversation_inv c'.
Proof.
  intros (d & now & Hd & -> & _) Hc. destruct (change_inv _ _ Hc Hd) as [He Hp Hg Hb Hs]. by split.
Qed.
Lemma conversation_run_inv ks c : conversation_inv c -> conversation_inv (conversation_run ks c).
Proof.
  revert c; induction ks as [|k ks IH]; intros c Hc; [done|]. cbn [conversation_run]. apply IH.
  destruct (conversation_call_moves k c) as [->|Hs]; [done|]. by eapply conversation_step_inv.
Qed.
Lemma opened_inv id tenant project mission person company gateway provider connection account route channel market now c :
  conversation_open id tenant project mission person company gateway provider connection account route channel market now = Ok c ->
  conversation_inv c.
Proof. unfold conversation_open. intros Hc. inv_run. split; cbn; try done; by intros m Hm%not_elem_of_nil. Qed.

Lemma step_generation c c' : conversation_step c c' -> generation (cv_control c) <= generation (cv_control c').
Proof. intros (d & now & Hd & -> & _). destruct Hd; cbn; lia. Qed.
Lemma run_generation ks c : generation (cv_control c) <= generation (cv_control (conversation_run ks c)).
Proof.
  revert c; induction ks as [|k ks IH]; intros c; [done|]. cbn [conversation_run]. etransitivity; [|apply IH].
  destruct (conversation_call_moves k c) as [->|Hs]; [done|]. by apply step_generation.
Qed.
Lemma handover_generation k c c' :
  handover k = true -> run (conversation_call k) c = (Ok tt, c') -> generation (cv_control c) < generation (cv_control c').
Proof.
  intros Hk Hr. destruct k; try done; cbn [conversation_call] in Hr;
    unfold take_human_control, pause_agent, conversation_resolve, conversation_close, mark_dead_letter, end_conversation in Hr;
    inv_run; bumped; split_guards; cbn; lia.
Qed.

Definition is_resume (k : ConversationCall) : bool := match k with VcResume _ _ _ => true | _ => false end.
Lemma call_keeps_control k c c' :
  handover k = false -> is_resume k = false -> run (conversation_call k) c = (Ok tt, c') -> cv_control c' = cv_control c.
Proof.
  intros Hh Hr Hc. destruct k; try done; cbn [conversation_call] in Hc;
    unfold ingest_inbound, prepare_automatic_reply, record_agent_reply, mark_agent_reply_failed, mark_agent_reply_uncertain,
      record_reconciled_agent_reply, record_reconciled_agent_reply_uncertain_receipt, mark_agent_reply_reconciled_not_sent,
      mark_agent_reply_reconciled_failed, mark_agent_reply_reconciliation_dead_letter,
      mark_agent_reply_reconciliation_terminal in Hc; inv_run; try done.
  by case_match; inv_run.
Qed.
Lemma run_stays_away ks c :
  (forall k, k ∈ ks -> is_resume k = false) -> is_agent (cv_control c) = false ->
  is_agent (cv_control (conversation_run ks c)) = false.
Proof.
  revert c; induction ks as [|k ks IH]; intros c Hk Ha; [done|]. cbn [conversation_run].
  apply IH; [intros; apply Hk; by apply list_elem_of_further|].
  destruct (run (conversation_call k) c) as [[[]| |] c'] eqn:Hr; cbn [snd].
  2,3: pose proof (conversation_call_atomic k c) as Hat; rewrite Hr in Hat; assert (c' = c) as -> by (by apply Hat); done.
  destruct (handover k) eqn:Hh; [by apply (handover_call_step k c)|]. by rewrite (call_keeps_control k c c' Hh (Hk k (list_elem_of_here _ _)) Hr).
Qed.

(** The calls that act for the agent in a generation. *)
Definition acts_in (g : Z) (k : ConversationCall) : Prop :=
  match k with VcReply _ _ _ g' _ _ | VcSent _ _ _ g' _ _ | VcFailed _ g' _ | VcUncertain _ g' _ _ _ => g' = g | _ => False end.
Lemma authorized_generation c effect g :
  authorizes_agent_effect c effect g = true -> cv_state c = CvOpen /\ exists t, cv_control c = CtAgent g t.
Proof.
  unfold authorizes_agent_effect. intros Ha. split_guards. split; [done|]. destruct (cv_control c) as [g' t| |]; try done.
  exists t. f_equal. lia.
Qed.
Lemma unheld_generation_is_refused c g k :
  (forall t, cv_control c <> CtAgent g t) -> acts_in g k -> is_ok (run (conversation_call k) c).1 = false.
Proof.
  intros Hn Hk. destruct (run (conversation_call k) c) as [[[]| |] c'] eqn:Hr; try done. exfalso.
  destruct k; try done; cbn in Hk; subst; cbn [conversation_call] in Hr;
    unfold prepare_automatic_reply, require_agent_generation, record_agent_reply, mark_agent_reply_failed,
      mark_agent_reply_uncertain in Hr; inv_run; split_guards;
    try match goal with Hx : authorizes_agent_effect _ _ _ = true |- _ =>
      apply authorized_generation in Hx as [_ (t & Ht)]; by apply (Hn t) end.
  destruct (cv_control c) as [g' t| |]; try done. inv_run. split_guards. apply (Hn t). f_equal. lia.
Qed.

(** A reply of a generation up to [g] is as it was in [c], unless it was
    uncertain there; none is prepared. *)
Record settled_since (g : Z) (c q : Conversation) : Prop := {
  ss_generation : g < generation (cv_control q);
  ss_replies i m' : cv_messages q !! i = Some m' -> cm_direction m' = Outbound -> cm_control_generation m' <= g ->
    is_prepared (cm_delivery m') = false /\
    exists m, cv_messages c !! i = Some m /\ (m' = m \/ is_uncertain (cm_delivery m) = true);
}.
Lemma settled_since_refl g c :
  g < generation (cv_control c) -> (forall m, m ∈ cv_messages c -> is_prepared (cm_delivery m) = false) -> settled_since g c c.
Proof.
  intros Hg Hp. split; [done|]. intros i m Hm _ _. split; [apply Hp; by eapply list_elem_of_lookup_2|]. exists m. auto.
Qed.
Lemma settled_appended g c q q' m :
  settled_since g c q -> g < generation (cv_control q') -> cv_messages q' = cv_messages q ++ [m] ->
  cm_direction m = Inbound \/ g < cm_control_generation m -> settled_since g c q'.
Proof.
  intros [_ Hs] Hg Hm Hnew. split; [done|]. intros i m' Hi Ho Hle. rewrite Hm in Hi.
  apply lookup_app_Some in Hi as [Hi|[_ Hi]]; [by apply Hs|].
  apply list_elem_of_lookup_2, list_elem_of_singleton in Hi as ->. destruct Hnew; [congruence|lia].
Qed.
Lemma settled_step g c q q' : conversation_step q q' -> settled_since g c q -> settled_since g c q'.
Proof.
  intros Hstep Hs. pose proof (step_generation q q' Hstep) as Hg. destruct Hstep as (d & now & Hd & -> & _).
  pose proof (ss_generation _ _ _ Hs) as Hgq. pose proof (ss_replies _ _ _ Hs) as Hr. destruct Hd.
  - eapply settled_appended; [done|cbn in *; lia|done|by left].
  - eapply settled_appended; [done|cbn in *; lia|done|right].
    match goal with Hc : cv_control q = _ |- _ => rewrite Hc in Hgq end. cbn in Hgq. lia.
  - split; [cbn in *; lia|]. intros j m' Hj Ho Hle. cbn in Hj. destruct (decide (i = j)) as [<-|Hne].
    + rewrite list_lookup_alter_eq in Hj. apply fmap_Some in Hj as (x & Hx & ->).
      assert (x = m) as -> by congruence. destruct (Hr i m Hx Ho Hle) as (Hp & m0 & Hm0 & Hor). split; [done|].
      exists m0. split; [done|]. right. destruct Hor as [<-|?]; [|done].
      match goal with Hu : _ || _ = true |- _ => by rewrite Hp in Hu end.
    + rewrite list_lookup_alter_ne in Hj by done. by apply Hr.
  - split; [cbn in *; lia|]. intros j m' Hj. cbn in Hj. rewrite list_lookup_fmap in Hj.
    apply fmap_Some in Hj as (x & Hx & ->). intros Ho Hle.
    assert (cancel_prepared x = x) as Heq.
    { unfold cancel_prepared in *. destruct (cm_delivery x) eqn:Hdx; try done. cbn in Ho, Hle.
      destruct (Hr j x Hx Ho Hle) as [Hp _]. by rewrite Hdx in Hp. }
    rewrite Heq in *. by apply Hr.
  - split; [cbn in *; lia|]. by apply Hr.
  - split; [cbn in *; lia|]. by apply Hr.
Qed.
Lemma settled_run g c ks q : settled_since g c q -> settled_since g c (conversation_run ks q).
Proof.
  revert q; induction ks as [|k ks IH]; intros q Hq; [done|]. cbn [conversation_run]. apply IH.
  destruct (conversation_call_moves k q) as [->|Hs]; [done|]. by eapply settled_step.
Qed.

(** C35: Handing a conversation over stops the agent. From an opened
    conversation, after any calls, once a human takes over or the conversation
    is paused, resolved, closed or dead-lettered: no prepared reply is left; the
    generations the agent held until then are never honoured again, whatever
    happens later: no effect is authorised under them, and the calls with which
    the agent prepares a reply, records it as sent or failed, or leaves it
    uncertain fail; in every later state a reply of those generations is
    exactly as the handover left it, unless the handover left it uncertain, in
    which case its outcome may still be reconciled (even as sent); and until
    somebody resumes the agent no effect is authorised and no reply is prepared
    in any generation. *)
Theorem handover_stops_the_agent id tenant project mission person company gateway provider connection account route channel
    market now c0 before k c' ks :
  conversation_open id tenant project mission person company gateway provider connection account route channel market now = Ok c0 ->
  let c := conversation_run before c0 in
  handover k = true -> run (conversation_call k) c = (Ok tt, c') ->
  let q := conversation_run ks c' in
  (forall m, m ∈ cv_messages c' -> is_prepared (cm_delivery m) = false) /\
  (forall g, g <= generation (cv_control c) ->
     (forall effect, authorizes_agent_effect q effect g = false) /\
     (forall k', acts_in g k' -> is_ok (run (conversation_call k') q).1 = false)) /\
  (forall i m', cv_messages q !! i = Some m' -> cm_direction m' = Outbound ->
     cm_control_generation m' <= generation (cv_control c) ->
     exists m, cv_messages c' !! i = Some m /\ (m' = m \/ is_uncertain (cm_delivery m) = true)) /\
  ((forall k', k' ∈ ks -> is_resume k' = false) ->
     forall g, (forall effect, authorizes_agent_effect q effect g = false) /\
       (forall k', acts_in g k' -> is_ok (run (conversation_call k') q).1 = false)).
Proof.
  intros Ho c Hk Hr q. destruct (handover_call_step k c c' Hk Hr) as [Hs Ha].
  assert (conversation_inv c') as Hi by (eapply conversation_step_inv; [done|]; by eapply conversation_run_inv, opened_inv).
  assert (forall g, (forall t, cv_control q <> CtAgent g t) ->
    (forall effect, authorizes_agent_effect q effect g = false) /\
    (forall k', acts_in g k' -> is_ok (run (conversation_call k') q).1 = false)) as Hstop.
  { intros g Hn. split; [|intros k'; by apply unheld_generation_is_refused]. intros effect.
    destruct (authorizes_agent_effect q effect g) eqn:Hau; [|done]. apply authorized_generation in Hau as [_ (t & Ht)]. by destruct (Hn t). }
  assert (forall m, m ∈ cv_messages c' -> is_prepared (cm_delivery m) = false) as Hp by (apply any_prepared_false; by apply Hi).
  pose proof (handover_generation k c c' Hk Hr) as Hg. split_and!; [done|..].
  - intros g Hgg. apply Hstop. intros t Ht. pose proof (run_generation ks c') as Hq.
    fold q in Hq. rewrite Ht in Hq. cbn in Hq. lia.
  - intros i m' Hm Hout Hle. by apply (settled_run _ _ ks _ (settled_since_refl _ _ Hg Hp)).
  - intros Hks g. apply Hstop. intros t Ht. pose proof (run_stays_away ks c' Hks Ha) as Hq. fold q in Hq. by rewrite Ht in Hq.
Qed.

(** C36: A reply the agent may send answers a message judged safe. Whenever an
    opened conversation, after any calls, authorises an effect in a generation:
    it is open and the agent holds that generation; the latest inbound message
    was classified as safe with a confidence of at least 0.9; and the message
    prepared for the effect carries authorisation evidence and the digest that
    binds it to this conversation, person, account, content, effect,
    generation and evidence. *)
Theorem authorised_reply_answers_a_safe_message id tenant project mission person company gateway provider connection account
    route channel market now c0 ks effect g :
  conversation_open id tenant project mission person company gateway provider connection account route channel market now = Ok c0 ->
  let c := conversation_run ks c0 in
  authorizes_agent_effect c effect g = true ->
  cv_state c = CvOpen /\ (exists t, cv_control c = CtAgent g t) /\
  (exists inbound confidence, latest_inbound (cv_messages c) = Some inbound /\ cm_risk inbound = CrSafe /\
     cm_classification_confidence inbound = Some confidence /\ 9 * 10 ^ dec_scale confidence <= 10 * dec_mantissa confidence) /\
  (exists m authorization, m ∈ cv_messages c /\ cm_delivery m = MdEffectPrepared effect /\ cm_control_generation m = g /\
     cm_authorization_evidence_digest m = Some authorization /\
     cm_effect_scope_digest m = Some (conversation_effect_scope_digest c (cm_id m) (cm_content_digest m) effect g authorization)).
Proof.
  intros Ho c Ha. assert (conversation_inv c) as Hi by (by eapply conversation_run_inv, opened_inv).
  destruct (authorized_generation c effect g Ha) as [Hopen Hct]. split; [done|]. split; [done|].
  unfold authorizes_agent_effect in Ha. split_guards.
  match goal with Hx : existsb _ _ = true |- _ => apply existsb_elem_of in Hx as (m & Hm & Hg) end. split_guards.
  unfold prepares in *. destruct (cm_delivery m) as [| |pending| | | | | |] eqn:Hd; try done. split_guards. subst pending.
  assert (is_prepared (cm_delivery m) = true) as Hp by (by rewrite Hd). split.
  - pose proof (inv_safe _ Hi Hopen) as Hs. rewrite any_prepared_true in Hs. specialize (Hs (ex_intro _ m (conj Hm Hp))).
    unfold answers_safe in Hs. destruct (latest_inbound (cv_messages c)) as [x|]; [|done]. cbn in Hs. unfold unsafe_to_answer in Hs.
    split_guards. destruct (cm_classification_confidence x) as [q|] eqn:Hq; [|done]. cbn in *. exists x, q. split_and!; try done.
    unfold dec_ltb in *. cbn in *. lia.
  - destruct (inv_bound _ Hi m Hm Hp) as (e & au & He & Hau & Hsc). rewrite Hd in He. injection He as <-.
    exists m, au. split_and!; try done; [lia|]. by replace g with (cm_control_generation m) by lia.
Qed.
End control.

(** ** The append check *)
Lemma dec_eqb_refl d : dec_eqb d d = true.
Proof. unfold dec_eqb. apply Z.eqb_refl. Qed.
Lemma message_eqb_refl m : message_eqb m m = true.
Proof.
  unfold message_eqb. rewrite bool_decide_eq_true_2 by done. destruct (cm_classification_confidence m); cbn; rewrite ?dec_eqb_refl; done.
Qed.
Lemma messages_eqb_refl ms : messages_eqb ms ms = true.
Proof. induction ms as [|m ms IH]; [done|]. cbn. by rewrite message_eqb_refl. Qed.
Lemma conversation_eqb_refl c : conversation_eqb c c = true.
Proof. unfold conversation_eqb. by rewrite messages_eqb_refl, bool_decide_eq_true_2. Qed.

Lemma no_changes ms : changed_messages ms ms = [].
Proof. unfold changed_messages. induction ms as [|m ms IH]; [done|]. cbn. by rewrite message_eqb_refl. Qed.
Lemma one_change ms i m f :
  ms !! i = Some m -> message_eqb m (f m) = false -> changed_messages ms (alter f i ms) = [(m, f m)].
Proof.
  revert i; induction ms as [|x ms IH]; intros i Hi Hne; [done|]. destruct i as [|i]; cbn in Hi |- *.
  - injection Hi as ->. unfold changed_messages; cbn. rewrite Hne; cbn. f_equal. apply no_changes.
  - unfold changed_messages; cbn. rewrite message_eqb_refl; cbn. by apply IH.
Qed.

Section append.
Context `{!Chrono} `{!Sha256} `{!ConversationSerde}.

Lemma transition_matches_run previous expected op :
  run op previous = (Ok tt, expected) -> transition_matches previous expected op = Ok true.
Proof. intros Hr. unfold transition_matches. by rewrite Hr, conversation_eqb_refl. Qed.
Lemma transition_matches_Ok previous expected op :
  transition_matches previous expected op = Ok true ->
  exists c, run op previous = (Ok tt, c) /\ conversation_eqb c expected = true.
Proof.
  unfold transition_matches. intros Hm. destruct (run op previous) as [[[]| |] c] eqn:Hr; try done. exists c. split; [done|].
  by injection Hm.
Qed.

Definition conversation_produces (previous expected : Conversation) : Prop :=
  exists k c, run (conversation_call k) previous = (Ok tt, c) /\ conversation_eqb c expected = true.
Lemma replay_produces k previous expected :
  transition_matches previous expected (conversation_call k) = Ok true -> conversation_produces previous expected.
Proof. intros (c & Hr & He)%transition_matches_Ok. by exists k, c. Qed.

Lemma run_ok_or_bind {A B} (o : option A) e (f : A -> SR Conversation RelationshipError B) c b c' :
  run (lift (ok_or o e) ≫= f) c = (Ok b, c') -> exists a, o = Some a /\ run (f a) c = (Ok b, c').
Proof. intros (a & s1 & Ha & Hf)%run_bind_Ok. apply run_lift_Ok in Ha as [Ha ->]. apply ok_or_Ok in Ha. eauto. Qed.

Lemma inbound_produces previous expected : replays_inbound previous expected = Ok true -> conversation_produces previous expected.
Proof.
  unfold replays_inbound. intros Hr. destruct (appended_message previous expected) as [m|]; [|done].
  destruct (bool_decide (cm_direction m = Inbound)); [|done]. apply transition_matches_Ok in Hr as (c & Hr & He).
  apply run_ok_or_bind in Hr as (event & _ & Hr). apply run_ok_or_bind in Hr as (confidence & _ & Hr). rewrite run_get_bind in Hr.
  eexists (VcInbound _ _), c. split; [exact Hr|done].
Qed.
Lemma reply_produces previous expected : replays_prepared_reply previous expected = Ok true -> conversation_produces previous expected.
Proof.
  unfold replays_prepared_reply. intros Hr. destruct (appended_message previous expected) as [m|]; [|done].
  destruct (cm_delivery m); try done. destruct (cm_authorization_evidence_digest m); [|done].
  by apply (replay_produces (VcReply _ _ _ _ _ _)) in Hr.
Qed.
Lemma delivery_produces previous expected : replays_delivery_transition previous expected = Ok true -> conversation_produces previous expected.
Proof.
  unfold replays_delivery_transition. intros Hr. destruct (changed_message previous expected) as [m'|]; [|done].
  destruct (List.find _ _) as [m|]; [|done]. apply transition_matches_Ok in Hr as (c & Hr & He).
  unfold replay_delivery in Hr. destruct (cm_delivery m') as [| | |effect receipt|effect|effect receipt|effect|effect|]; try done.
  - unfold replay_sent_delivery in Hr. apply run_ok_or_bind in Hr as (event & _ & Hr). apply run_ok_or_bind in Hr as (at_ & _ & Hr).
    destruct (is_uncertain (cm_delivery m)); [by eexists (VcReconciledSent _ _ _ _ _ _), c|by eexists (VcSent _ _ _ _ _ _), c].
  - unfold replay_failed_delivery in Hr.
    destruct (is_uncertain (cm_delivery m)); [by eexists (VcReconciledFailed _ _ _), c|by eexists (VcFailed _ _ _), c].
  - unfold replay_uncertain_delivery in Hr. destruct receipt as [receipt|]; [destruct (is_uncertain (cm_delivery m))|].
    + apply run_ok_or_bind in Hr as (event & _ & Hr). apply run_ok_or_bind in Hr as (at_ & _ & Hr).
      by eexists (VcReconciledUncertain _ _ _ _ _ _), c.
    + by eexists (VcUncertain _ _ _ _ _), c.
    + by eexists (VcUncertain _ _ _ _ _), c.
  - by eexists (VcNotSent _ _ _), c.
  - by eexists (VcReconciliationDeadLetter _ _ _), c.
Qed.
Lemma control_produces previous expected : replays_control_transition previous expected = Ok true -> conversation_produces previous expected.
Proof.
  unfold replays_control_transition. intros Hr. destruct (cv_control expected) as [g t|g actor t|g reason t].
  - destruct (cv_last_resume_evidence_digest expected); [|done]. by apply (replay_produces (VcResume _ _ _)) in Hr.
  - by apply (replay_produces (VcTakeHuman _ _ _)) in Hr.
  - apply transition_matches_Ok in Hr as (c & Hr & He). destruct (cv_state expected).
    + done.
    + by eexists (VcPause _ _ _), c.
    + by eexists (VcResolve _ _), c.
    + by eexists (VcClose _ _), c.
    + by eexists (VcDeadLetter _ _), c.
Qed.
Lemma followed_is_produced previous expected :
  conversation_follows_command expected previous = Ok true -> conversation_produces previous expected.
Proof.
  unfold conversation_follows_command. intros Hf. inv_run. case_match; [done|]. inv_run.
  repeat match goal with Hx : (if ?b then _ else _) = _ |- _ => destruct b; inv_run end;
    eauto using inbound_produces, reply_produces, delivery_produces, control_produces.
Qed.

(** Calls on a valid conversation are recognised. *)
Lemma valid_ids c : conversation_validate c = Ok tt -> NoDup (cm_id <$> cv_messages c).
Proof.
  unfold conversation_validate. intros Hv. inv_run. split_guards. apply distinct_list. rewrite length_fmap.
  by apply Nat.eqb_eq.
Qed.
Lemma any_message_valid g ms m : any_message_invalid g ms = Ok false -> m ∈ ms -> conversation_message_validate m = Ok tt.
Proof.
  induction ms as [|x ms IH]; intros Ha Hm; [by apply not_elem_of_nil in Hm|]. cbn in Ha.
  destruct (conversation_message_validate x) as [[]| |] eqn:Hx; try done. destruct (_ <? _); [done|].
  apply elem_of_cons in Hm as [->|Hm]; [done|by apply IH].
Qed.
Lemma valid_message c m : conversation_validate c = Ok tt -> m ∈ cv_messages c -> conversation_message_validate m = Ok tt.
Proof.
  unfold conversation_validate. intros Hv Hm. inv_run. split_guards. subst. by eapply any_message_valid.
Qed.

Lemma appended_snoc c c' m : cv_messages c' = cv_messages c ++ [m] -> appended_message c c' = Some m.
Proof.
  intros Hm. unfold appended_message. rewrite Hm, length_app, Nat.eqb_refl. cbn [andb length].
  by rewrite take_app_length, messages_eqb_refl, last_snoc.
Qed.
Lemma same_length_not_appended c c' : length (cv_messages c') = length (cv_messages c) -> appended_message c c' = None.
Proof.
  intros Hl. unfold appended_message. rewrite Hl. destruct (Nat.eqb_spec (length (cv_messages c)) (length (cv_messages c) + 1)); [lia|done].
Qed.
Lemma changed_altered c c' i m f :
  cv_messages c' = alter f i (cv_messages c) -> cv_messages c !! i = Some m -> message_eqb m (f m) = false ->
  changed_message c c' = Some (f m).
Proof.
  intros Hm Hi Hne. unfold changed_message. rewrite Hm, length_alter, Nat.eqb_refl. cbn [negb]. by rewrite (one_change _ _ m).
Qed.
Lemma found_by_id c i m : NoDup (cm_id <$> cv_messages c) -> cv_messages c !! i = Some m ->
  List.find (fun message => bool_decide (cm_id message = cm_id m)) (cv_messages c) = Some m.
Proof.
  intros Hn Hi. assert (m ∈ cv_messages c) as Hm by (by eapply list_elem_of_lookup_2). clear Hi.
  induction (cv_messages c) as [|x ms IH]; [by apply not_elem_of_nil in Hm|]. rewrite fmap_cons in Hn. apply NoDup_cons in Hn as [Hx Hn].
  cbn. apply elem_of_cons in Hm as [->|Hm]; [by rewrite bool_decide_eq_true_2|].
  rewrite bool_decide_eq_false_2; [by apply IH|]. intros Heq. apply Hx. apply list_elem_of_fmap. by exists m.
Qed.

Lemma step_follows_scope c c' :
  conversation_step c c' -> conversation_scope_is_immutable c c' = true /\
  checked_add u64_max (cv_revision c) 1 = Some (cv_revision c').
Proof.
  intros (d & now & Hd & -> & _ & Hmax). split; [|apply checked_add_Some; destruct Hd; cbn; lia].
  unfold conversation_scope_is_immutable. destruct Hd; cbn; by rewrite !bool_decide_eq_true_2, Z.eqb_refl.
Qed.
Lemma follows_intro c c' :
  conversation_validate c = Ok tt -> conversation_validate c' = Ok tt -> conversation_step c c' ->
  replays_inbound c c' = Ok true \/
  (replays_inbound c c' = Ok false /\ (replays_prepared_reply c c' = Ok true \/
   (replays_prepared_reply c c' = Ok false /\ (replays_delivery_transition c c' = Ok true \/
    (replays_delivery_transition c c' = Ok false /\ replays_control_transition c c' = Ok true))))) ->
  conversation_follows_command c' c = Ok true.
Proof.
  intros Hv Hv' Hs Hr. destruct (step_follows_scope c c' Hs) as [Hi Hrev]. unfold conversation_follows_command.
  rewrite Hv, Hv'. cbn [mbind result_mbind]. rewrite Hi, Hrev, bool_decide_eq_true_2 by done. cbn [negb orb].
  destruct Hr as [->|[-> [->|[-> [->|[-> Hc]]]]]]; done.
Qed.
Lemma in_place_follows c c' :
  conversation_validate c = Ok tt -> conversation_validate c' = Ok tt -> conversation_step c c' ->
  length (cv_messages c') = length (cv_messages c) ->
  replays_delivery_transition c c' = Ok true \/
  (replays_delivery_transition c c' = Ok false /\ replays_control_transition c c' = Ok true) ->
  conversation_follows_command c' c = Ok true.
Proof.
  intros Hv Hv' Hs Hl Hr. apply follows_intro; [done..|].
  unfold replays_inbound, replays_prepared_reply. rewrite same_length_not_appended by done. auto.
Qed.

Lemma inbound_follows input attestation c c' :
  conversation_validate c = Ok tt -> conversation_validate c' = Ok tt ->
  run (conversation_call (VcInbound input attestation)) c = (Ok tt, c') -> c' = c \/ conversation_follows_command c' c = Ok true.
Proof.
  intros Hv Hv' Hr. destruct (conversation_call_step _ c c' Hr) as [->|Hs]; [by left|right].
  apply follows_intro; [done..|left]. pose proof Hr as Hr'. cbn [conversation_call] in Hr'. unfold ingest_inbound in Hr'.
  inv_run. case_match; inv_run.
  { exfalso. destruct Hs as (d & now & Hd & Heq & _). apply (f_equal cv_revision) in Heq. destruct Hd; cbn in Heq; lia. }
  unfold replays_inbound. erewrite appended_snoc by done. cbn [inbound_message cm_direction]. rewrite bool_decide_eq_true_2 by done.
  cbn [negb]. apply transition_matches_run. split_guards.
  erewrite run_known_bind by done. erewrite run_known_bind by done. rewrite run_get_bind.
  assert (mkAttestation true (cv_route_digest c) (cv_provider c) (cv_connection_id c) (cv_account_id c) (wa_received_at attestation)
    = attestation) as Hat by (destruct attestation; cbn in *; congruence).
  cbn [inbound_message cm_received_at cm_id cm_content_digest cm_attachment_digests cm_risk cm_occurred_at]. rewrite Hat.
  destruct input. exact Hr.
Qed.
Lemma same_authorization message content effect g au au' now c a :
  reply_authorization_digest c au now = Ok a -> reply_authorization_digest c au' now = Ok a ->
  run (prepare_automatic_reply message content effect g au now) c = run (prepare_automatic_reply message content effect g au' now) c.
Proof.
  intros Ha Ha'. unfold prepare_automatic_reply. rewrite !run_get_bind. unfold mbind, SR_mbind, reject, lift; cbn.
  by rewrite Ha, Ha'.
Qed.
Lemma reply_follows message content effect g authorization now c c' :
  conversation_validate c = Ok tt -> conversation_validate c' = Ok tt ->
  run (conversation_call (VcReply message content effect g authorization now)) c = (Ok tt, c') ->
  conversation_follows_command c' c = Ok true.
Proof.
  intros Hv Hv' Hr. pose proof (reply_step _ _ _ _ _ _ _ _ _ Hr) as Hs. cbn [conversation_call] in Hr. pose proof Hr as Hr0.
  apply follows_intro; [done..|]. unfold replays_inbound, replays_prepared_reply.
  revert Hr0. unfold prepare_automatic_reply in Hr. inv_run. intros Hr0.
  erewrite appended_snoc by done. cbn [reply_message cm_direction cm_delivery cm_authorization_evidence_digest].
  rewrite bool_decide_eq_false_2 by done. right. split; [done|left]. apply transition_matches_run.
  match goal with Hx : reply_authorization_digest _ _ _ = Ok ?a |- _ => rename Hx into Ha; set (digest := a) in * end.
  assert (is_sha256 digest = true) as Hd.
  { pose proof (valid_message _ _ Hv' (proj2 (elem_of_app _ _ _) (or_intror (list_elem_of_here _ _)))) as Hm.
    unfold conversation_message_validate in Hm. inv_run. split_guards. cbn in *. by destruct (is_sha256 digest). }
  cbn [reply_message cm_id cm_content_digest cm_control_generation cm_occurred_at].
  rewrite run_bind_Ok in Hr0 |- *. destruct Hr0 as (x & s1 & Hx & Hrest). exists x, s1. split; [|done].
  rewrite <-Hx. symmetry. apply (same_authorization _ _ _ _ _ _ _ _ digest); [done|]. cbn. by rewrite Hd.
Qed.

Lemma changed_delivery m delivery event at_ : cm_delivery m <> delivery -> message_eqb m (deliver delivery event at_ m) = false.
Proof.
  intros Hne. unfold message_eqb. rewrite (bool_decide_eq_false_2 (m <| cm_classification_confidence := None |> = _)); [apply andb_false_r|].
  intros Heq. apply Hne. exact (f_equal cm_delivery Heq).
Qed.
Lemma same_message m delivery event at_ : message_eqb m (deliver delivery event at_ m) = true -> deliver delivery event at_ m = m.
Proof.
  unfold message_eqb. intros Hm. split_guards. match goal with Hx : _ = _ |- _ => rename Hx into Heq end.
  destruct m. cbn in *. by injection Heq as -> -> ->.
Qed.
Lemma delivered_follows c c' i m delivery event at_ :
  conversation_validate c = Ok tt -> conversation_validate c' = Ok tt -> conversation_step c c' ->
  cv_messages c !! i = Some m -> cv_messages c' = alter (deliver delivery event at_) i (cv_messages c) ->
  message_eqb m (deliver delivery event at_ m) = false ->
  run (replay_delivery m (deliver delivery event at_ m) (cv_updated_at c')) c = (Ok tt, c') ->
  conversation_follows_command c' c = Ok true.
Proof.
  intros Hv Hv' Hs Hi Hm Hne Hr. apply in_place_follows; [done..|by rewrite Hm, length_alter|left].
  unfold replays_delivery_transition. rewrite (changed_altered c c' i m _ Hm Hi Hne).
  change (cm_id (deliver delivery event at_ m)) with (cm_id m). rewrite (found_by_id c i m (valid_ids c Hv) Hi).
  by apply transition_matches_run.
Qed.

Lemma prepared_message c effect g i :
  conversation_inv c -> authorizes_agent_effect c effect g = true -> prepared_message_index c effect = Ok i ->
  exists m, cv_messages c !! i = Some m /\ cm_delivery m = MdEffectPrepared effect /\ cm_control_generation m = g.
Proof.
  intros Hi [_ (t & Ht)]%authorized_generation (m & Hm & Hd)%prepared_index_Ok. exists m. split; [done|]. split; [done|].
  rewrite (inv_generation c Hi m); [by rewrite Ht| |by rewrite Hd]. by eapply list_elem_of_lookup_2.
Qed.
Lemma deliver_delivery delivery event at_ m : cm_delivery (deliver delivery event at_ m) = delivery.
Proof. done. Qed.
Lemma deliver_event delivery event at_ m : cm_provider_event_digest (deliver delivery event at_ m) = event.
Proof. done. Qed.
Lemma deliver_at delivery event at_ m : cm_delivered_at (deliver delivery event at_ m) = at_.
Proof. done. Qed.
Lemma deliver_generation delivery event at_ m : cm_control_generation (deliver delivery event at_ m) = cm_control_generation m.
Proof. done. Qed.
Ltac delivered m delivery event at_ :=
  eapply (delivered_follows _ _ _ m delivery event at_); [done..|apply changed_delivery; congruence|];
  unfold replay_delivery; rewrite deliver_delivery; cbv iota beta;
  unfold replay_sent_delivery, replay_failed_delivery, replay_uncertain_delivery;
  rewrite ?deliver_event, ?deliver_at, ?deliver_generation.
Lemma sent_follows effect receipt event g accepted now c c' :
  conversation_inv c -> conversation_validate c = Ok tt -> conversation_validate c' = Ok tt ->
  run (conversation_call (VcSent effect receipt event g accepted now)) c = (Ok tt, c') -> conversation_follows_command c' c = Ok true.
Proof.
  intros Hi Hv Hv' Hr. cbn [conversation_call] in Hr. pose proof (sent_step _ _ _ _ _ _ _ _ _ Hr) as Hs. pose proof Hr as Hr0.
  revert Hr0. unfold record_agent_reply in Hr. inv_run. intros Hr0. split_guards.
  edestruct prepared_message as (m & Hm & Hd & Hg); [done..|].
  delivered m (MdSent effect receipt) (Some event) (Some accepted). 
  do 2 (erewrite run_known_bind by done). rewrite Hd. cbn [is_uncertain]. rewrite Hg. exact Hr0.
Qed.
Lemma failed_follows effect g now c c' :
  conversation_inv c -> conversation_validate c = Ok tt -> conversation_validate c' = Ok tt ->
  run (conversation_call (VcFailed effect g now)) c = (Ok tt, c') -> conversation_follows_command c' c = Ok true.
Proof.
  intros Hi Hv Hv' Hr. cbn [conversation_call] in Hr. pose proof (failed_step _ _ _ _ _ _ Hr) as Hs. pose proof Hr as Hr0.
  revert Hr0. unfold mark_agent_reply_failed in Hr. inv_run. intros Hr0. split_guards.
  edestruct prepared_message as (m & Hm & Hd & Hg); [done..|]. rewrite (update_delivery _ _ m) in * by done.
  delivered m (MdFailed effect) (cm_provider_event_digest m) (cm_delivered_at m).
  rewrite Hd. cbn [is_uncertain]. rewrite Hg. exact Hr0.
Qed.
Lemma uncertain_follows effect g receipt event now c c' :
  conversation_inv c -> conversation_validate c = Ok tt -> conversation_validate c' = Ok tt ->
  run (conversation_call (VcUncertain effect g receipt event now)) c = (Ok tt, c') -> conversation_follows_command c' c = Ok true.
Proof.
  intros Hi Hv Hv' Hr. cbn [conversation_call] in Hr. pose proof (uncertain_step _ _ _ _ _ _ _ _ Hr) as Hs. pose proof Hr as Hr0.
  revert Hr0. unfold mark_agent_reply_uncertain in Hr. inv_run. intros Hr0. split_guards.
  edestruct prepared_message as (m & Hm & Hd & Hg); [done..|].
  delivered m (MdUncertain effect receipt) event (if is_some receipt then Some now else None).
  rewrite Hd, Hg. cbn [is_uncertain]. destruct receipt; exact Hr0.
Qed.
Lemma reconciled_sent_follows effect receipt event g accepted now c c' :
  conversation_validate c = Ok tt -> conversation_validate c' = Ok tt ->
  run (conversation_call (VcReconciledSent effect receipt event g accepted now)) c = (Ok tt, c') ->
  conversation_follows_command c' c = Ok true.
Proof.
  intros Hv Hv' Hr. cbn [conversation_call] in Hr. pose proof Hr as Hr0. revert Hr0. unfold record_reconciled_agent_reply in Hr.
  inv_run. intros Hr0. match goal with Hx : prepare_reconciled_receipt_projection _ _ _ _ _ _ _ = Ok ?p |- _ =>
    pose proof (projected_step _ _ _ _ _ _ (MdSent effect receipt) _ _ eq_refl Hx) as Hs;
    destruct p as [i r]; apply projection_Ok in Hx as (m & previous & Hm & Hg & Hd & _); cbn [fst snd] in * end.
  delivered m (MdSent effect receipt) (Some event) (Some accepted).
  do 2 (erewrite run_known_bind by done). rewrite Hd. cbn [is_uncertain]. rewrite Hg. exact Hr0.
Qed.
Lemma reconciled_uncertain_follows effect receipt event g accepted now c c' :
  conversation_validate c = Ok tt -> conversation_validate c' = Ok tt ->
  run (conversation_call (VcReconciledUncertain effect receipt event g accepted now)) c = (Ok tt, c') ->
  cv_messages c' = cv_messages c \/ conversation_follows_command c' c = Ok true.
Proof.
  intros Hv Hv' Hr. cbn [conversation_call] in Hr. pose proof Hr as Hr0. revert Hr0.
  unfold record_reconciled_agent_reply_uncertain_receipt in Hr.
  inv_run. intros Hr0. match goal with Hx : prepare_reconciled_receipt_projection _ _ _ _ _ _ _ = Ok ?p |- _ =>
    pose proof (projected_step _ _ _ _ _ _ (MdUncertain effect (Some receipt)) _ _ eq_refl Hx) as Hs;
    destruct p as [i r]; apply projection_Ok in Hx as (m & previous & Hm & Hg & Hd & _); cbn [fst snd] in * end.
  destruct (message_eqb m (deliver (MdUncertain effect (Some receipt)) (Some event) (Some accepted) m)) eqn:Heq.
  - left. apply same_message in Heq. cbn. apply list_eq. intros j. destruct (decide (i = j)) as [<-|Hne].
    + rewrite list_lookup_alter_eq, Hm. cbn. by f_equal.
    + by rewrite list_lookup_alter_ne.
  - right. eapply (delivered_follows _ _ _ m); [done..|]. unfold replay_delivery. rewrite deliver_delivery. cbv iota beta.
    unfold replay_uncertain_delivery. rewrite deliver_event, deliver_at, deliver_generation, Hd, Hg. cbn [is_uncertain].
    do 2 (erewrite run_known_bind by done). exact Hr0.
Qed.
Lemma terminal_follows k effect g delivery now c c' :
  conversation_validate c = Ok tt -> conversation_validate c' = Ok tt ->
  conversation_call k = mark_agent_reply_reconciliation_terminal effect g delivery now ->
  delivery ∈ [MdReconciledNotSent effect; MdFailed effect; MdReconciliationDeadLetter effect] ->
  run (conversation_call k) c = (Ok tt, c') -> conversation_follows_command c' c = Ok true.
Proof.
  intros Hv Hv' -> Hin Hr. assert (is_prepared delivery = false) as Hn.
  { by apply elem_of_cons in Hin as [->|[->|[->|[]%not_elem_of_nil]%elem_of_cons]%elem_of_cons]. }
  pose proof (terminal_step _ _ _ _ _ _ _ Hn Hr) as Hs. pose proof Hr as Hr0. revert Hr0.
  unfold mark_agent_reply_reconciliation_terminal in Hr. inv_run. intros Hr0.
  match goal with Hx : reconciliation_message_index _ _ _ = Ok (_, ?x) |- _ =>
    rename x into m; apply reconciliation_index_Ok in Hx as (Hm & Hg & previous & Hd) end.
  rewrite (update_delivery _ _ m) in * by done.
  eapply (delivered_follows _ _ _ m delivery); [done..| |].
  { apply changed_delivery. rewrite Hd. intros <-. by apply elem_of_cons in Hin as [?|[?|[?|[]%not_elem_of_nil]%elem_of_cons]%elem_of_cons]. }
  unfold replay_delivery. rewrite deliver_delivery, deliver_generation, Hg.
  apply elem_of_cons in Hin as [->|[->|[->|[]%not_elem_of_nil]%elem_of_cons]%elem_of_cons]; cbv iota beta;
    unfold replay_failed_delivery; rewrite ?Hd; exact Hr0.
Qed.

Lemma cancelled_change ms change :
  change ∈ changed_messages ms (cancel_prepared <$> ms) -> exists effect, cm_delivery change.2 = MdCancelledByHandoff effect.
Proof.
  unfold changed_messages. intros Hin. apply list_elem_of_In, List.filter_In in Hin as [Hin Hne]. apply list_elem_of_In in Hin.
  assert (change.2 = cancel_prepared change.1) as Hc.
  { clear Hne. induction ms as [|m ms IH]; [by apply not_elem_of_nil in Hin|]. cbn in Hin. by apply elem_of_cons in Hin as [->|Hin]; [|apply IH]. }
  rewrite Hc in Hne |- *. unfold cancel_prepared in *.
  destruct (cm_delivery change.1) eqn:Hd; try (by rewrite message_eqb_refl in Hne). by eexists.
Qed.
Lemma not_a_delivery c c' :
  cv_messages c' = cv_messages c \/ cv_messages c' = cancel_prepared <$> cv_messages c ->
  replays_delivery_transition c c' = Ok false.
Proof.
  intros Hm. unfold replays_delivery_transition, changed_message.
  destruct (negb _); [done|]. destruct Hm as [Hm|Hm]; rewrite Hm; [by rewrite no_changes|].
  destruct (changed_messages _ _) as [|change [|]] eqn:Hch; try done.
  destruct (cancelled_change (cv_messages c) change) as (effect & He); [rewrite Hch; apply list_elem_of_here|].
  destruct (List.find _ _); [|done]. unfold replay_delivery. by rewrite He.
Qed.
(** What a control call leaves, as the replay reads it back. *)
Definition control_left (k : ConversationCall) (c c' : Conversation) : Prop :=
  match k with
  | VcTakeHuman g actor now => generation (cv_control c) = g /\ cv_control c' = CtHuman (g + 1) actor now
  | VcPause g reason now => generation (cv_control c) = g /\ cv_control c' = CtPaused (g + 1) reason now /\ cv_state c' = CvWaitingHuman
  | VcResume g evidence now =>
      generation (cv_control c) = g /\ cv_control c' = CtAgent (g + 1) now /\ cv_last_resume_evidence_digest c' = Some evidence
  | VcResolve evidence now =>
      cv_control c' = CtPaused (generation (cv_control c) + 1) evidence now /\ cv_state c' = CvResolved
  | VcClose evidence now =>
      cv_control c' = CtPaused (generation (cv_control c) + 1) evidence now /\ cv_state c' = CvClosed
  | VcDeadLetter evidence now =>
      cv_control c' = CtPaused (generation (cv_control c) + 1) evidence now /\ cv_state c' = CvDeadLetter
  | _ => False
  end.
Lemma control_call_leaves k c c' :
  handover k || is_resume k = true -> run (conversation_call k) c = (Ok tt, c') ->
  control_left k c c' /\ (cv_messages c' = cv_messages c \/ cv_messages c' = cancel_prepared <$> cv_messages c).
Proof.
  intros Hk Hr. destruct k; try done; cbn [conversation_call] in Hr;
    unfold take_human_control, pause_agent, resume_agent, conversation_resolve, conversation_close, mark_dead_letter,
      end_conversation in Hr; inv_run; bumped; split_guards; cbn [control_left]; split_and!; auto; lia.
Qed.
Lemma control_replayed k c c' :
  control_left k c c' -> run (conversation_call k) c = (Ok tt, c') -> replays_control_transition c c' = Ok true.
Proof.
  intros Hl Hr. unfold replays_control_transition. destruct k; try done; cbn [control_left] in Hl; destruct_and! Hl;
    repeat match goal with Hx : cv_control c' = _ |- _ => rewrite Hx | Hx : cv_state c' = _ |- _ => rewrite Hx
      | Hx : cv_last_resume_evidence_digest c' = _ |- _ => rewrite Hx | Hx : generation (cv_control c) = _ |- _ => rewrite Hx end;
    by apply transition_matches_run.
Qed.
Lemma control_follows k c c' :
  conversation_validate c = Ok tt -> conversation_validate c' = Ok tt -> handover k || is_resume k = true ->
  run (conversation_call k) c = (Ok tt, c') -> conversation_follows_command c' c = Ok true.
Proof.
  intros Hv Hv' Hk Hr. destruct (control_call_leaves k c c' Hk Hr) as [Hl Hm].
  assert (conversation_step c c') as Hs.
  { apply orb_true_iff in Hk as [Hk|Hk]; [by apply (handover_call_step k)|]. destruct k; try done. by eapply resume_step. }
  apply in_place_follows; [done..| |right; split; [by apply not_a_delivery|by eapply control_replayed]].
  destruct Hm as [->| ->]; [done|]. by rewrite length_fmap.
Qed.

(** C37: Storage accepts exactly what the calls produce. For a valid conversation
    reached by calls from an opened one, the append check accepts a next record
    only if some call succeeds on it and yields that record (confidences
    compared as numbers); and it accepts the valid record that any successful
    call leaves, the two calls apart that leave the messages as they were: the
    repeated delivery of a webhook, which changes nothing, and a reconciliation
    that confirms the receipt already stored. *)
Theorem conversation_follows_exactly_the_calls id tenant project mission person company gateway provider connection account route
    channel market now c0 ks c' :
  conversation_open id tenant project mission person company gateway provider connection account route channel market now = Ok c0 ->
  let c := conversation_run ks c0 in
  conversation_validate c = Ok tt -> conversation_validate c' = Ok tt ->
  (conversation_follows_command c' c = Ok true ->
     exists k d, run (conversation_call k) c = (Ok tt, d) /\ conversation_eqb d c' = true) /\
  (forall k, run (conversation_call k) c = (Ok tt, c') ->
     c' = c \/ (exists effect receipt event g accepted at_, k = VcReconciledUncertain effect receipt event g accepted at_ /\
       cv_messages c' = cv_messages c) \/
     conversation_follows_command c' c = Ok true).
Proof.
  intros Ho c Hv Hv'. assert (conversation_inv c) as Hi by (by eapply conversation_run_inv, opened_inv).
  split; [by intros Hf%followed_is_produced|]. intros k Hr. destruct (handover k || is_resume k) eqn:Hk.
  { right; right. by eapply control_follows. }
  destruct k as [| | | | | | | | | | | |effect receipt event g accepted at_| | |]; try done.
  - destruct (inbound_follows _ _ c c' Hv Hv' Hr) as [->|Hf]; auto.
  - right; right. by eapply reply_follows.
  - right; right. by eapply sent_follows.
  - right; right. by eapply failed_follows.
  - right; right. by eapply uncertain_follows.
  - right; right. by eapply reconciled_sent_follows.
  - destruct (reconciled_uncertain_follows _ _ _ _ _ _ c c' Hv Hv' Hr) as [Hm|Hf]; [|auto].
    right; left. by exists effect, receipt, event, g, accepted, at_.
  - right; right. refine (terminal_follows (VcNotSent _ _ _) _ _ (MdReconciledNotSent _) _ _ _ Hv Hv' eq_refl _ Hr). set_solver.
  - right; right. refine (terminal_follows (VcReconciledFailed _ _ _) _ _ (MdFailed _) _ _ _ Hv Hv' eq_refl _ Hr). set_solver.
  - right; right. refine (terminal_follows (VcReconciliationDeadLetter _ _ _) _ _ (MdReconciliationDeadLetter _) _ _ _ Hv Hv' eq_refl _ Hr). set_solver.
Qed.

(** ** Snapshots *)
Lemma snapshot_message_Ok c connection mission consents referenced ms result m :
  snapshot_messages c connection mission consents referenced ms = Ok result -> m ∈ ms ->
  exists consent, validate_conversation_message_effect c m mission consents = Ok consent.
Proof.
  revert referenced; induction ms as [|x ms IH]; intros referenced Hs Hm; [by apply not_elem_of_nil in Hm|].
  cbn [snapshot_messages] in Hs. rewrite bind_Ok in Hs. destruct Hs as ([] & _ & Hs). rewrite bind_Ok in Hs.
  destruct Hs as (consent & Hc & Hs). apply elem_of_cons in Hm as [->|Hm]; [by exists consent|]. by eapply IH.
Qed.

Lemma effect_is_outbound m effect :
  conversation_message_validate m = Ok tt -> message_effect_id (cm_delivery m) = Some effect -> cm_direction m = Outbound.
Proof.
  unfold conversation_message_validate. intros Hv He. inv_run. split_guards. by destruct (cm_direction m), (cm_delivery m).
Qed.

(** A message counts as sent only on independent confirmation. In a snapshot
    accepted from another device, a message marked as sent belongs to an effect
    of the Mission that is verified, with a receipt of this provider whose
    digest and acceptance time the message carries, independently confirmed; and
    the effect's guard names this conversation, the message's generation and the
    digest of its scope. *)
Theorem sent_messages_are_verified c identity connection mission consents now m effect_id receipt_id :
  conversation_validate_snapshot c identity connection mission consents now = Ok tt -> m ∈ cv_messages c ->
  cm_delivery m = MdSent effect_id receipt_id ->
  exists effect receipt verification guard authorization,
    effect ∈ ms_effects mission /\ ef_id effect = effect_id /\ ef_status effect = EVerified /\
    ef_receipt effect = Some receipt /\ rc_id receipt = receipt_id /\ rc_provider receipt = cv_provider c /\
    cm_provider_event_digest m = Some (provider_receipt_event_digest receipt) /\
    cm_delivered_at m = Some (rc_accepted_at receipt) /\
    ef_verification effect = Some verification /\ vf_status verification = VConfirmed /\ vf_independent verification = true /\
    vf_receipt_id verification = receipt_id /\
    es_conversation_guard (ef_spec effect) = Some guard /\ cg_conversation_id guard = cv_id c /\
    cg_control_generation guard = cm_control_generation m /\ es_payload_digest (ef_spec effect) = cm_content_digest m /\
    cm_authorization_evidence_digest m = Some authorization /\
    cg_scope_digest guard = conversation_effect_scope_digest c (cm_id m) (cm_content_digest m) effect_id
      (cm_control_generation m) authorization.
Proof.
  unfold conversation_validate_snapshot. intros Hv Hm Hd. inv_run.
  match goal with Hx : snapshot_messages _ _ _ _ _ _ = Ok _ |- _ => destruct (snapshot_message_Ok _ _ _ _ _ _ _ m Hx Hm) as (consent & Hc) end.
  assert (cm_direction m = Outbound) as Hout by (eapply effect_is_outbound; [by eapply valid_message|by rewrite Hd]).
  unfold validate_conversation_message_effect in Hc. rewrite Hd, Hout in Hc. cbn [message_effect_id] in Hc.
  rewrite !bool_decide_eq_false_2 in Hc by done. cbn [orb] in Hc. clear - Hc Hd. inv_run.
  unfold validate_conversation_effect_scope in *. inv_run. split_guards.
  match goal with Hx : effect_of _ _ = Some ?e |- _ => rename e into effect; unfold effect_of in Hx; apply List.find_some in Hx as [Hin Hid] end.
  apply list_elem_of_In in Hin. split_guards.
  match goal with Hx : delivery_matches_effect _ _ = true |- _ => unfold delivery_matches_effect in Hx; rewrite Hd in Hx end. split_guards.
  destruct (ef_receipt effect) as [receipt|] eqn:Hrc; [|done]. destruct (ef_verification effect) as [verification|] eqn:Hvf; [|done].
  cbn [is_some_and] in *. unfold receipt_matches, independently_confirms in *. split_guards.
  destruct (vf_status verification) eqn:Hst; try done.
  eexists effect, receipt, verification, _, _. split_and!; try done; try congruence; try lia.
Qed.
End append.

(** ** A concrete conversation *)
Module ConversationDemo.
Import Prelude.Fixture.
#[export] Instance serde : ConversationSerde := fun scope => rs_message_id scope.
Definition ones64 : string := "1111111111111111111111111111111111111111111111111111111111111111".
Definition opened : Conversation :=
  mkConversation "conversation" "tenant" "project" (Some "mission") "person" None Gmail "gmail" "connection" "account" zeros64
    ChEmail "EU" CvOpen (CtAgent 1 100) [] None None 1 100 100.
Lemma opened_ok :
  conversation_open "conversation" "tenant" "project" (Some "mission") "person" None Gmail " gmail" "connection" "account" zeros64
    ChEmail "EU " 100 = Ok opened.
Proof. vm_compute. reflexivity. Qed.
Definition attestation (at_ : DateTime) : WebhookAttestation := mkAttestation true zeros64 "gmail" "connection" "account" at_.
Definition hello : ConversationCall :=
  VcInbound (mkInbound "in-1" zeros64 zeros64 ∅ CrSafe (mkDecimal 95 2) 105) (attestation 110).
Definition answer : ConversationCall := VcReply "out-1" zeros64 "effect" 1 (RaNotRequired zeros64) 120.
Definition answered : Conversation := conversation_run [hello; answer] opened.
Definition takeover : ConversationCall := VcTakeHuman 1 "owner" 130.

Lemma handover_stops_the_agent_witness :
  authorizes_agent_effect answered "effect" 1 = true /\
  authorizes_agent_effect (conversation_run [VcResume 2 zeros64 140] (run (conversation_call takeover) answered).2) "effect" 1 = false.
Proof.
  assert (run (conversation_call takeover) answered = (Ok tt, (run (conversation_call takeover) answered).2)) as Hr by (vm_compute; reflexivity).
  assert (1 <= generation (cv_control answered)) as Hg by (vm_compute; discriminate).
  split; [vm_compute; reflexivity|].
  exact (proj1 (proj1 (proj2 (handover_stops_the_agent _ _ _ _ _ _ _ _ _ _ _ _ _ _ opened [hello; answer] takeover _
    [VcResume 2 zeros64 140] opened_ok eq_refl Hr)) 1 Hg) "effect").
Defined.
(** A reply the agent left uncertain may be reconciled as sent after the
    handover, under the generation in which it was prepared. *)
Example uncertain_reply_is_reconciled_after_handover :
  let c := conversation_run [VcUncertain "effect" 1 None None 125; takeover] answered in
  let k := VcReconciledSent "effect" "receipt" ones64 1 130 140 in
  is_agent (cv_control c) = false /\ (run (conversation_call k) c).1 = Ok tt /\
  last (cm_delivery <$> cv_messages (run (conversation_call k) c).2) = Some (MdSent "effect" "receipt").
Proof. repeat split; vm_compute; reflexivity. Qed.

Lemma authorised_reply_answers_a_safe_message_witness :
  authorizes_agent_effect answered "effect" 1 = true /\
  exists inbound, latest_inbound (cv_messages answered) = Some inbound /\ cm_risk inbound = CrSafe.
Proof.
  assert (authorizes_agent_effect answered "effect" 1 = true) as Ha by (vm_compute; reflexivity). split; [exact Ha|].
  destruct (authorised_reply_answers_a_safe_message _ _ _ _ _ _ _ _ _ _ _ _ _ _ opened [hello; answer] "effect" 1 opened_ok Ha)
    as (_ & _ & (inbound & confidence & Hl & Hr & _) & _).
  exists inbound. split; [exact Hl|exact Hr].
Defined.
Definition sent : ConversationCall := VcSent "effect" "receipt" ones64 1 125 130.
Lemma conversation_follows_exactly_the_calls_witness :
  conversation_follows_command (run (conversation_call sent) answered).2 answered = Ok true.
Proof.
  assert (conversation_validate answered = Ok tt) as Hv by (vm_compute; reflexivity).
  assert (conversation_validate (run (conversation_call sent) answered).2 = Ok tt) as Hv' by (vm_compute; reflexivity).
  assert (run (conversation_call sent) answered = (Ok tt, (run (conversation_call sent) answered).2)) as Hr by (vm_compute; reflexivity).
  assert (cv_revision (run (conversation_call sent) answered).2 <> cv_revision answered) as Hne by (vm_compute; discriminate).
  destruct (proj2 (conversation_follows_exactly_the_calls _ _ _ _ _ _ _ _ _ _ _ _ _ _ opened [hello; answer] _ opened_ok Hv Hv') sent Hr)
    as [Heq|[(? & ? & ? & ? & ? & ? & Hk & _)|Hf]].
  - destruct (Hne (f_equal cv_revision Heq)).
  - discriminate Hk.
  - exact Hf.
Defined.

(** [record_agent_reply] does not compare the acceptance time of the receipt
    with the time the reply was prepared, so a receipt dated earlier is stored
    and leaves a conversation that does not validate. *)
Theorem early_receipt_breaks_the_conversation :
  let k := VcSent "effect" "receipt" ones64 1 119 130 in
  conversation_validate answered = Ok tt /\ (run (conversation_call k) answered).1 = Ok tt /\
  conversation_validate (run (conversation_call k) answered).2 = Err ReInvalidConversation.
Proof. repeat split; vm_compute; reflexivity. Qed.
(** [prepare_automatic_reply] does not check that the message identifier is
    not blank, which [validate] requires. *)
Theorem blank_reply_breaks_the_conversation :
  let k := VcReply " " zeros64 "effect-2" 1 (RaNotRequired zeros64) 130 in
  (run (conversation_call k) answered).1 = Ok tt /\
  conversation_validate (run (conversation_call k) answered).2 = Err ReInvalidConversation.
Proof. split; vm_compute; reflexivity. Qed.
(** A reconciliation that confirms the receipt already stored succeeds with a
    new revision, which the append check rejects. *)
Theorem repeated_reconciliation_is_not_stored :
  let c := conversation_run [VcUncertain "effect" 1 (Some "receipt") (Some ones64) 130] answered in
  let k := VcReconciledUncertain "effect" "receipt" ones64 1 130 140 in
  (run (conversation_call k) c).1 = Ok tt /\ cv_revision (run (conversation_call k) c).2 = cv_revision c + 1 /\
  conversation_follows_command (run (conversation_call k) c).2 c = Ok false.
Proof. repeat split; vm_compute; reflexivity. Qed.
End ConversationDemo.
