(* ===== verification/Campaign.v ===== *)
(** * Campaigns

    Models the campaign part of [domain-kernel/src/relationship.rs]: messages
    sent to recipients under consent and a frequency cap. A send is authorised
    first and recorded with its receipt later. *)
From S2P Require Import Prelude Text Money Contract MissionTypes WorkProduct Effect Checkpoint Terminal Connection Identity.
From S2P Require Import Conversation.

Definition SEND_AUTHORIZATION_TTL_MINUTES : Z := 10.

(** ** Data *)
Inductive CampaignStatus : Type := CpDraft | CpActive | CpPaused | CpCompleted | CpCancelled.
#[export] Instance CampaignStatus_eq_dec : EqDecision CampaignStatus.
Proof. solve_decision. Defined.
Inductive SuppressionReason : Type := SrUnsubscribe | SrComplaint | SrHardBounce | SrConsentWithdrawn | SrUserPaused.
#[export] Instance SuppressionReason_eq_dec : EqDecision SuppressionReason.
Proof. solve_decision. Defined.
Inductive CampaignRecipientState : Type :=
| RsActive
| RsSuppressed (reason : SuppressionReason) (evidence_digest : string) (suppressed_at : DateTime).
#[export] Instance CampaignRecipientState_eq_dec : EqDecision CampaignRecipientState.
Proof. solve_decision. Defined.

Record CampaignRecipient : Type := mkRecipient {
  rp_person_id : Id;
  rp_consent_record_id : Id;
  rp_state : CampaignRecipientState;
  rp_sent_at : list DateTime;
  rp_receipt_ids : list Id;
  rp_revision : Z; (* u64 *)
}.
#[export] Instance CampaignRecipient_eta : Eta CampaignRecipient := fun r =>
  mkRecipient (rp_person_id r) (rp_consent_record_id r) (rp_state r) (rp_sent_at r) (rp_receipt_ids r) (rp_revision r).
#[export] Instance CampaignRecipient_eq_dec : EqDecision CampaignRecipient.
Proof. solve_decision. Defined.

Record CampaignSendAuthorization : Type := mkSendAuthorization {
  sa_campaign_id : Id;
  sa_person_id : Id;
  sa_consent_record_id : Id;
  sa_consent_revision : Z; (* u64 *)
  sa_policy_version : Z; (* u64 *)
  sa_recipient_revision : Z; (* u64 *)
  sa_scope_digest : string;
  sa_prepared_at : DateTime;
  sa_valid_until : DateTime;
}.

Record Campaign : Type := mkCampaign {
  ca_id : Id;
  ca_tenant_id : Id;
  ca_project_id : Id;
  ca_mission_id : Id;
  ca_channel : ContactChannel;
  ca_purpose : ConsentPurpose;
  ca_market : string;
  ca_frequency_window_seconds : Z; (* i64 *)
  ca_max_messages_per_window : Z; (* u32 *)
  ca_status : CampaignStatus;
  ca_policy_version : Z; (* u64 *)
  ca_recipients : list CampaignRecipient;
  ca_revision : Z; (* u64 *)
  ca_created_at : DateTime;
  ca_updated_at : DateTime;
}.
#[export] Instance Campaign_eta : Eta Campaign := fun c =>
  mkCampaign (ca_id c) (ca_tenant_id c) (ca_project_id c) (ca_mission_id c) (ca_channel c) (ca_purpose c) (ca_market c)
    (ca_frequency_window_seconds c) (ca_max_messages_per_window c) (ca_status c) (ca_policy_version c) (ca_recipients c)
    (ca_revision c) (ca_created_at c) (ca_updated_at c).
#[export] Instance Campaign_eq_dec : EqDecision Campaign.
Proof. solve_decision. Defined.

(** The JSON object under the scope digest of an authorisation. *)
Record SendScope : Type := mkSendScope {
  ss_campaign_id : Id;
  ss_person_id : Id;
  ss_consent_record_id : Id;
  ss_consent_revision : Z;
  ss_policy_version : Z;
  ss_recipient_revision : Z;
  ss_channel : ContactChannel;
  ss_purpose : ConsentPurpose;
  ss_market : string;
  ss_frequency_window_seconds : Z;
  ss_max_messages_per_window : Z;
  ss_recent_messages : nat;
  ss_prepared_at : DateTime;
  ss_valid_until : DateTime;
}.
Class CampaignSerde := json_send_scope : SendScope -> string.

(** ** Validation *)
Definition invalid_campaign_recipient (recipient : CampaignRecipient) : bool :=
  trim_is_empty (rp_person_id recipient)
  || trim_is_empty (rp_consent_record_id recipient)
  || (rp_revision recipient =? 0)
  || negb (Nat.eqb (length (rp_sent_at recipient)) (length (rp_receipt_ids recipient)))
  || existsb trim_is_empty (rp_receipt_ids recipient)
  || match rp_state recipient with RsSuppressed _ evidence_digest _ => negb (is_sha256 evidence_digest) | RsActive => false end.

(** [windows(2).any(|window| window[0] > window[1])] *)
Fixpoint any_descent (times : list DateTime) : bool :=
  match times with
  | a :: (b :: _) as rest => (b <? a) || any_descent rest
  | _ => false
  end.
Definition recipient_outside_times (self : Campaign) (recipient : CampaignRecipient) : bool :=
  existsb (fun sent_at => (sent_at <? ca_created_at self) || (ca_updated_at self <? sent_at)) (rp_sent_at recipient)
  || any_descent (rp_sent_at recipient)
  || match rp_state recipient with
     | RsSuppressed _ _ suppressed_at => (suppressed_at <? ca_created_at self) || (ca_updated_at self <? suppressed_at)
     | RsActive => false
     end.
Definition all_receipts (self : Campaign) : list Id := concat (rp_receipt_ids <$> ca_recipients self).

Definition campaign_validate (self : Campaign) : result RelationshipError unit :=
  let people := rp_person_id <$> ca_recipients self in
  reject_if (trim_is_empty (ca_id self)
    || trim_is_empty (ca_tenant_id self)
    || trim_is_empty (ca_project_id self)
    || trim_is_empty (ca_mission_id self)
    || bool_decide (ca_market self = "")
    || (ca_frequency_window_seconds self <=? 0)
    || (ca_max_messages_per_window self =? 0)
    || (ca_policy_version self =? 0)
    || (ca_revision self =? 0)
    || (ca_updated_at self <? ca_created_at self)
    || Nat.eqb (length (ca_recipients self)) 0
    || negb (Nat.eqb (size (list_to_set (C := gset string) people)) (length (ca_recipients self)))
    || negb (Nat.eqb (size (list_to_set (C := gset string) (all_receipts self))) (length (all_receipts self)))
    || existsb invalid_campaign_recipient (ca_recipients self)
    || existsb (recipient_outside_times self) (ca_recipients self)) ReInvalidCampaign.

Section campaigns.
Context `{!Chrono} `{!Sha256} `{!CampaignSerde}.

Definition campaign_create (id tenant_id project_id mission_id : Id) (channel : ContactChannel) (purpose : ConsentPurpose)
    (market : string) (frequency_window : Duration) (max_messages_per_window : Z) (recipients : list (Id * Id))
    (now : DateTime) : result RelationshipError Campaign :=
  let recipients := (fun recipient => mkRecipient recipient.1 recipient.2 RsActive [] [] 1) <$> recipients in
  let campaign := mkCampaign id tenant_id project_id mission_id channel purpose (trim market) (num_seconds frequency_window)
    max_messages_per_window CpDraft 1 recipients 1 now now in
  campaign_validate campaign;;
  mret campaign.

Definition campaign_is_initial_snapshot (self : Campaign) : result RelationshipError bool :=
  campaign_validate self;;
  mret (bool_decide (ca_status self = CpDraft)
    && (ca_policy_version self =? 1)
    && (ca_revision self =? 1)
    && (ca_created_at self =? ca_updated_at self)
    && forallb (fun recipient => match rp_state recipient with RsActive => true | _ => false end
         && Nat.eqb (length (rp_sent_at recipient)) 0
         && Nat.eqb (length (rp_receipt_ids recipient)) 0
         && (rp_revision recipient =? 1)) (ca_recipients self)).

(** ** Operations *)
Abbreviation campaign_op := (SR Campaign RelationshipError) (only parsing).

Definition campaign_prepare_bump (self : Campaign) (now : DateTime) : result RelationshipError Z :=
  prepare_aggregate_revision (ca_revision self) (ca_updated_at self) now.
Definition campaign_commit_bump (next_revision : Z) (now : DateTime) (self : Campaign) : Campaign :=
  self <| ca_revision := next_revision |> <| ca_updated_at := now |>.

Definition transition_control (status : CampaignStatus) (now : DateTime) : campaign_op unit :=
  self ← get;
  next_policy_version ← lift (relationship_next_revision (ca_policy_version self));
  next_revision ← lift (campaign_prepare_bump self now);
  modify (fun self => campaign_commit_bump next_revision now
    (self <| ca_status := status |> <| ca_policy_version := next_policy_version |>)).

Definition activate (now : DateTime) : campaign_op unit :=
  self ← get;
  reject (negb (bool_decide (ca_status self ∈ [CpDraft; CpPaused]))) ReCampaignNotActive;;
  transition_control CpActive now.
Definition campaign_pause (now : DateTime) : campaign_op unit :=
  self ← get;
  reject (negb (bool_decide (ca_status self = CpActive))) ReCampaignNotActive;;
  transition_control CpPaused now.
Definition campaign_complete (now : DateTime) : campaign_op unit :=
  self ← get;
  reject (negb (bool_decide (ca_status self ∈ [CpActive; CpPaused]))) ReCampaignNotActive;;
  transition_control CpCompleted now.
Definition campaign_cancel (now : DateTime) : campaign_op unit :=
  self ← get;
  reject (negb (bool_decide (ca_status self ∈ [CpDraft; CpActive; CpPaused]))) ReCampaignNotActive;;
  transition_control CpCancelled now.

Definition campaign_send_digest (campaign : Campaign) (recipient : CampaignRecipient) (consent : ConsentRecord)
    (prepared_at valid_until : DateTime) (recent_messages : nat) : string :=
  sha256_hex (json_send_scope (mkSendScope (ca_id campaign) (rp_person_id recipient) (cs_id consent) (cs_revision consent)
    (ca_policy_version campaign) (rp_revision recipient) (ca_channel campaign) (ca_purpose campaign) (ca_market campaign)
    (ca_frequency_window_seconds campaign) (ca_max_messages_per_window campaign) recent_messages prepared_at valid_until)).

(** The messages sent in the window that ends at an instant. *)
Definition recent (window_start now : DateTime) (sent_at : list DateTime) : nat :=
  length (List.filter (fun sent_at => (window_start <? sent_at) && (sent_at <=? now)) sent_at).
Definition window_start (self : Campaign) (now : DateTime) : result RelationshipError DateTime :=
  window ← expect (duration_seconds (ca_frequency_window_seconds self));
  ok_or (checked_sub_signed now window) ReRevisionOverflow.
Definition recipient_is_active (state : CampaignRecipientState) : bool := match state with RsActive => true | _ => false end.

Definition authorize_send (self : Campaign) (person_id : Id) (consent : ConsentRecord) (now : DateTime)
    : result RelationshipError CampaignSendAuthorization :=
  reject_if (negb (bool_decide (ca_status self = CpActive))) ReCampaignNotActive;;
  reject_if (now <? ca_updated_at self) ReTimestampRegression;;
  recipient ← ok_or (List.find (fun recipient => bool_decide (rp_person_id recipient = person_id)) (ca_recipients self))
    ReCampaignRecipientNotFound;
  reject_if (negb (recipient_is_active (rp_state recipient))
    || negb (bool_decide (rp_consent_record_id recipient = cs_id consent))
    || negb (bool_decide (cs_tenant_id consent = ca_tenant_id self))
    || negb (bool_decide (cs_project_id consent = ca_project_id self))
    || negb (permits consent person_id (ca_purpose self) (ca_channel self) (ca_market self) now))
    ReCampaignRecipientSuppressedOrUnconsented;;
  start ← window_start self now;
  let recent_messages := recent start now (rp_sent_at recipient) in
  reject_if (ca_max_messages_per_window self <=? Z.of_nat recent_messages) ReCampaignFrequencyCapReached;;
  ttl ← expect (duration_seconds (60 * SEND_AUTHORIZATION_TTL_MINUTES));
  valid_until ← ok_or (checked_add_signed now ttl) ReRevisionOverflow;
  mret (mkSendAuthorization (ca_id self) person_id (cs_id consent) (cs_revision consent) (ca_policy_version self)
    (rp_revision recipient) (campaign_send_digest self recipient consent now valid_until recent_messages) now valid_until).

Definition recipient_position (person_id : Id) (recipients : list CampaignRecipient) : option (nat * CampaignRecipient) :=
  list_find (fun recipient => rp_person_id recipient = person_id) recipients.
Definition record_sent (receipt_id : Id) (next_revision : Z) (now : DateTime) (recipient : CampaignRecipient) : CampaignRecipient :=
  recipient <| rp_sent_at ::= fun l => l ++ [now] |> <| rp_receipt_ids ::= fun l => l ++ [receipt_id] |>
    <| rp_revision := next_revision |>.

Definition record_send (authorization : CampaignSendAuthorization) (consent : ConsentRecord) (receipt_id : Id) (now : DateTime)
    : campaign_op unit :=
  self ← get;
  reject (negb (bool_decide (ca_status self = CpActive))
    || negb (bool_decide (sa_campaign_id authorization = ca_id self))
    || negb (sa_policy_version authorization =? ca_policy_version self)
    || negb (bool_decide (sa_consent_record_id authorization = cs_id consent))
    || negb (sa_consent_revision authorization =? cs_revision consent)
    || (now <? sa_prepared_at authorization)
    || (sa_valid_until authorization <=? now)
    || trim_is_empty receipt_id
    || existsb (fun recipient => bool_decide (receipt_id ∈ rp_receipt_ids recipient)) (ca_recipients self))
    ReCampaignAuthorizationStale;;
  found ← lift (ok_or (recipient_position (sa_person_id authorization) (ca_recipients self)) ReCampaignRecipientNotFound);
  let recipient := found.2 in
  reject (negb (rp_revision recipient =? sa_recipient_revision authorization)
    || negb (recipient_is_active (rp_state recipient))
    || negb (permits consent (rp_person_id recipient) (ca_purpose self) (ca_channel self) (ca_market self) now))
    ReCampaignAuthorizationStale;;
  start ← lift (window_start self (sa_prepared_at authorization));
  let recent_messages := recent start (sa_prepared_at authorization) (rp_sent_at recipient) in
  reject (negb (bool_decide (campaign_send_digest self recipient consent (sa_prepared_at authorization)
      (sa_valid_until authorization) recent_messages = sa_scope_digest authorization))) ReCampaignAuthorizationStale;;
  next_recipient_revision ← lift (relationship_next_revision (rp_revision recipient));
  next_campaign_revision ← lift (campaign_prepare_bump self now);
  modify (fun self => campaign_commit_bump next_campaign_revision now
    (self <| ca_recipients ::= alter (record_sent receipt_id next_recipient_revision now) found.1 |>)).

Definition suppress (reason : SuppressionReason) (evidence_digest : string) (next_revision : Z) (now : DateTime)
    (recipient : CampaignRecipient) : CampaignRecipient :=
  recipient <| rp_state := RsSuppressed reason evidence_digest now |> <| rp_revision := next_revision |>.
Definition suppress_recipient (person_id : Id) (reason : SuppressionReason) (evidence_digest : string) (now : DateTime)
    : campaign_op unit :=
  self ← get;
  reject (negb (is_sha256 evidence_digest)) ReInvalidCampaign;;
  found ← lift (ok_or (recipient_position person_id (ca_recipients self)) ReCampaignRecipientNotFound);
  let recipient := found.2 in
  reject (negb (recipient_is_active (rp_state recipient))) ReCampaignRecipientSuppressedOrUnconsented;;
  next_recipient_revision ← lift (relationship_next_revision (rp_revision recipient));
  next_campaign_revision ← lift (campaign_prepare_bump self now);
  modify (fun self => campaign_commit_bump next_campaign_revision now
    (self <| ca_recipients ::= alter (suppress reason evidence_digest next_recipient_revision now) found.1 |>)).

(** ** The append check *)
Definition campaign_transition_matches (previous expected : Campaign) (transition : campaign_op unit) : result RelationshipError bool :=
  match run transition previous with
  | (Ok _, candidate) => mret (bool_decide (candidate = expected))
  | (Err _, _) => mret false
  | (Panic, _) => Panic
  end.

(** [after.starts_with(before)] with one element more *)
Definition one_appended {A} `{EqDecision A} (before after : list A) : bool :=
  Nat.eqb (length after) (length before + 1) && bool_decide (take (length before) after = before).
Definition campaign_send_append_matches (previous expected : Campaign) (before after : CampaignRecipient) : bool :=
  bool_decide (ca_status previous = CpActive)
  && bool_decide (ca_status expected = ca_status previous)
  && (ca_policy_version expected =? ca_policy_version previous)
  && bool_decide (rp_person_id before = rp_person_id after)
  && bool_decide (rp_consent_record_id before = rp_consent_record_id after)
  && bool_decide (rp_state before = rp_state after)
  && bool_decide (checked_add u64_max (rp_revision before) 1 = Some (rp_revision after))
  && one_appended (rp_sent_at before) (rp_sent_at after)
  && bool_decide (last (rp_sent_at after) = Some (ca_updated_at expected))
  && one_appended (rp_receipt_ids before) (rp_receipt_ids after).

Definition campaign_scope_is_immutable (self previous : Campaign) : bool :=
  bool_decide (ca_id self = ca_id previous)
  && bool_decide (ca_tenant_id self = ca_tenant_id previous)
  && bool_decide (ca_project_id self = ca_project_id previous)
  && bool_decide (ca_mission_id self = ca_mission_id previous)
  && bool_decide (ca_channel self = ca_channel previous)
  && bool_decide (ca_purpose self = ca_purpose previous)
  && bool_decide (ca_market self = ca_market previous)
  && (ca_frequency_window_seconds self =? ca_frequency_window_seconds previous)
  && (ca_max_messages_per_window self =? ca_max_messages_per_window previous)
  && (ca_created_at self =? ca_created_at previous).

Definition control_transition (self previous : Campaign) : result RelationshipError bool :=
  match ca_status self with
  | CpActive => campaign_transition_matches previous self (activate (ca_updated_at self))
  | CpPaused => campaign_transition_matches previous self (campaign_pause (ca_updated_at self))
  | CpCompleted => campaign_transition_matches previous self (campaign_complete (ca_updated_at self))
  | CpCancelled => campaign_transition_matches previous self (campaign_cancel (ca_updated_at self))
  | CpDraft => mret false
  end.
Definition changed_recipients (previous self : list CampaignRecipient) : list (CampaignRecipient * CampaignRecipient) :=
  List.filter (fun change => negb (bool_decide (change.1 = change.2))) (zip previous self).

Definition campaign_follows_command (self previous : Campaign) : result RelationshipError bool :=
  campaign_validate self;;
  campaign_validate previous;;
  if negb (campaign_scope_is_immutable self previous)
     || negb (bool_decide (checked_add u64_max (ca_revision previous) 1 = Some (ca_revision self)))
     || (ca_updated_at self <? ca_updated_at previous)
  then mret false else
  controlled ← control_transition self previous;
  if controlled : bool then mret true else
  if negb (Nat.eqb (length (ca_recipients previous)) (length (ca_recipients self))) then mret false else
  match changed_recipients (ca_recipients previous) (ca_recipients self) with
  | [(before, after)] =>
      suppressed ← match rp_state after with
        | RsSuppressed reason evidence_digest suppressed_at =>
            campaign_transition_matches previous self
              (suppress_recipient (rp_person_id after) reason evidence_digest suppressed_at)
        | RsActive => mret false
        end;
      if suppressed : bool then mret true else mret (campaign_send_append_matches previous self before after)
  | _ => mret false
  end.
End campaigns.
