(* ===== verification/CampaignSafety.v ===== *)
(** * What campaigns guarantee

    No recipient gets more messages in any window than the campaign allows,
    however authorisations and sends interleave; an authorisation is used at
    most once, under consent in force, and lapses when the campaign is
    controlled or the recipient suppressed; a suppressed recipient gets nothing
    more. *)
From S2P Require Import Prelude Text Money Contract MissionTypes WorkProduct Effect Checkpoint Terminal Connection Identity.
From S2P Require Import Conversation Campaign.

Inductive CampaignCall : Type :=
| CcActivate (now : DateTime)
| CcPause (now : DateTime)
| CcComplete (now : DateTime)
| CcCancel (now : DateTime)
| CcAuthorize (person : Id) (consent : ConsentRecord) (now : DateTime)
| CcRecord (issued : nat) (consent : ConsentRecord) (receipt : Id) (now : DateTime)
| CcSuppress (person : Id) (reason : SuppressionReason) (evidence : string) (now : DateTime).

(** A campaign with the authorisations it has issued, the latest first. *)
Definition world : Type := Campaign * list CampaignSendAuthorization.

Lemma campaign_bump_Ok c now r :
  campaign_prepare_bump c now = Ok r -> r = ca_revision c + 1 /\ ca_updated_at c <= now.
Proof.
  unfold campaign_prepare_bump, prepare_aggregate_revision, relationship_next_revision. intros Hb. inv_run. split_guards.
  known_revision. lia.
Qed.
Lemma relationship_next_Ok r n : relationship_next_revision r = Ok n -> n = r + 1.
Proof. unfold relationship_next_revision. intros Hn. inv_run. by known_revision. Qed.
Lemma recipient_position_Some p l i r : recipient_position p l = Some (i, r) -> l !! i = Some r /\ rp_person_id r = p.
Proof. intros (? & ? & _)%list_find_Some. done. Qed.

(** The position of a recipient, and the revisions of a change. *)
Ltac at_recipient i r Hi Hp :=
  match goal with Hx : recipient_position _ _ = Some ?p |- _ =>
    destruct p as [i r]; apply recipient_position_Some in Hx as [Hi Hp]; cbn [fst snd] in * end.
Ltac campaign_bumped :=
  repeat match goal with
  | Hx : relationship_next_revision _ = Ok _ |- _ => apply relationship_next_Ok in Hx as ->
  | Hx : campaign_prepare_bump _ _ = Ok _ |- _ => apply campaign_bump_Ok in Hx as [-> ?]
  end.
Section calls.
Context `{!Chrono} `{!ChronoLaws} `{!Sha256} `{!CampaignSerde}.

(** A send is recorded with an authorisation that was issued. *)
Definition campaign_step (k : CampaignCall) (w : world) : world :=
  let on_campaign (op : SR Campaign RelationshipError unit) := ((run op w.1).2, w.2) in
  match k with
  | CcActivate now => on_campaign (activate now)
  | CcPause now => on_campaign (campaign_pause now)
  | CcComplete now => on_campaign (campaign_complete now)
  | CcCancel now => on_campaign (campaign_cancel now)
  | CcAuthorize person consent now =>
      match authorize_send w.1 person consent now with Ok a => (w.1, a :: w.2) | _ => w end
  | CcRecord issued consent receipt now =>
      match w.2 !! issued with Some a => on_campaign (record_send a consent receipt now) | None => w end
  | CcSuppress person reason evidence now => on_campaign (suppress_recipient person reason evidence now)
  end.
Fixpoint campaign_run (ks : list CampaignCall) (w : world) : world :=
  match ks with [] => w | k :: ks => campaign_run ks (campaign_step k w) end.

(** ** What a call does *)
Inductive campaign_change (w : world) : world -> Prop :=
| CampaignControl status now :
    ca_updated_at w.1 <= now ->
    campaign_change w (campaign_commit_bump (ca_revision w.1 + 1) now
      (w.1 <| ca_status := status |> <| ca_policy_version := ca_policy_version w.1 + 1 |>), w.2)
| CampaignIssue person consent now a :
    authorize_send w.1 person consent now = Ok a -> campaign_change w (w.1, a :: w.2)
| CampaignSend a i r consent receipt now :
    a ∈ w.2 -> ca_recipients w.1 !! i = Some r -> ca_status w.1 = CpActive -> rp_person_id r = sa_person_id a ->
    rp_revision r = sa_recipient_revision a -> sa_policy_version a = ca_policy_version w.1 -> recipient_is_active (rp_state r) = true ->
    permits consent (rp_person_id r) (ca_purpose w.1) (ca_channel w.1) (ca_market w.1) now = true ->
    sa_prepared_at a <= now < sa_valid_until a -> ca_updated_at w.1 <= now ->
    campaign_change w (campaign_commit_bump (ca_revision w.1 + 1) now
      (w.1 <| ca_recipients ::= alter (record_sent receipt (rp_revision r + 1) now) i |>), w.2)
| CampaignSuppress i r reason evidence now :
    ca_recipients w.1 !! i = Some r -> recipient_is_active (rp_state r) = true -> ca_updated_at w.1 <= now ->
    campaign_change w (campaign_commit_bump (ca_revision w.1 + 1) now
      (w.1 <| ca_recipients ::= alter (suppress reason evidence (rp_revision r + 1) now) i |>), w.2).

Lemma control_change status now c issued u c' :
  run (transition_control status now) c = (Ok u, c') -> campaign_change (c, issued) (c', issued).
Proof.
  unfold transition_control. intros Hr. inv_run.
  campaign_bumped.
  by apply (CampaignControl (c, issued)).
Qed.
Lemma send_change a consent receipt now c issued u c' :
  a ∈ issued -> run (record_send a consent receipt now) c = (Ok u, c') -> campaign_change (c, issued) (c', issued).
Proof.
  unfold record_send. intros Hin Hr. inv_run. split_guards.
  campaign_bumped. at_recipient i r Hi Hp.
  eapply (CampaignSend (c, issued) a i r consent receipt now); try done; cbn; lia || done.
Qed.
Lemma suppress_change person reason evidence now c issued u c' :
  run (suppress_recipient person reason evidence now) c = (Ok u, c') -> campaign_change (c, issued) (c', issued).
Proof.
  unfold suppress_recipient. intros Hr. inv_run. split_guards.
  campaign_bumped. at_recipient i r Hi Hp.
  by eapply (CampaignSuppress (c, issued) i r).
Qed.
Lemma campaign_step_change k w : campaign_step k w = w \/ campaign_change w (campaign_step k w).
Proof.
  destruct w as [c issued].
  assert (forall op : SR Campaign RelationshipError unit, Atomic op ->
    (forall c', run op c = (Ok tt, c') -> campaign_change (c, issued) (c', issued)) ->
    ((run op c).2, issued) = (c, issued) \/ campaign_change (c, issued) ((run op c).2, issued)) as Hop.
  { intros op Ha Hc. specialize (Ha c). destruct (run op c) as [[[]| |] c'] eqn:Hr; cbn [snd] in *; [right; by apply Hc|left..];
      f_equal; by apply Ha. }
  destruct k; cbn [campaign_step fst snd].
  - apply Hop; [unfold activate, transition_control; apply _|]. intros c' Hr. unfold activate in Hr. inv_run. by eapply control_change.
  - apply Hop; [unfold campaign_pause, transition_control; apply _|]. intros c' Hr. unfold campaign_pause in Hr. inv_run. by eapply control_change.
  - apply Hop; [unfold campaign_complete, transition_control; apply _|]. intros c' Hr. unfold campaign_complete in Hr. inv_run. by eapply control_change.
  - apply Hop; [unfold campaign_cancel, transition_control; apply _|]. intros c' Hr. unfold campaign_cancel in Hr. inv_run. by eapply control_change.
  - destruct (authorize_send c person consent now) as [a| |] eqn:Ha; [right|by left..]. by eapply (CampaignIssue (c, issued)).
  - destruct (issued !! issued0) as [a|] eqn:Hi; [|by left]. apply Hop; [unfold record_send; apply _|]. intros c'.
    apply send_change. by eapply list_elem_of_lookup_2.
  - apply Hop; [unfold suppress_recipient; apply _|]. intros c'. apply suppress_change.
Qed.
End calls.


(** ** The frequency cap *)
Lemma recent_app a t l l' : recent a t (l ++ l') = (recent a t l + recent a t l')%nat.
Proof. unfold recent. by rewrite List.filter_app, length_app. Qed.
Lemma recent_mono a t a' t' l :
  (forall s, s ∈ l -> a < s <= t -> a' < s <= t') -> (recent a t l <= recent a' t' l)%nat.
Proof.
  intros Hs. unfold recent. induction l as [|s l IH]; [done|]. cbn.
  assert ((a <? s) && (s <=? t) = true -> (a' <? s) && (s <=? t') = true) as Hi.
  { intros Hx. specialize (Hs s (list_elem_of_here _ _)). lia. }
  assert (forall x, x ∈ l -> a < x <= t -> a' < x <= t') as Hl by (intros; apply Hs; [by apply list_elem_of_further|done]).
  specialize (IH Hl). destruct ((a <? s) && (s <=? t)); [rewrite Hi by done; cbn; lia|]. destruct (_ && _); cbn; lia.
Qed.
Lemma recent_none a t l : (forall s, s ∈ l -> ~ (a < s <= t)) -> recent a t l = O.
Proof.
  intros Hs. unfold recent. induction l as [|s l IH]; [done|]. cbn.
  replace ((a <? s) && (s <=? t)) with false by (specialize (Hs s (list_elem_of_here _ _)); lia).
  apply IH. intros x Hx. apply Hs. by apply list_elem_of_further.
Qed.
Lemma recent_one a t s : (recent a t [s] <= 1)%nat.
Proof. unfold recent. cbn. destruct (_ && _); cbn; lia. Qed.

(** One more message, at an instant not before the others, that is allowed
    when it was authorised. *)
Lemma cap_after_send W mx l p now t :
  0 <= W -> (forall s, s ∈ l -> s <= p) -> p <= now -> Z.of_nat (recent (p - W) p l) < mx ->
  Z.of_nat (recent (t - W) t l) <= mx -> Z.of_nat (recent (t - W) t (l ++ [now])) <= mx.
Proof.
  intros HW Hl Hp Hlt Hold. rewrite recent_app. destruct (Z.le_gt_cases now t) as [Ht|Ht].
  - pose proof (recent_one (t - W) t now) as H1.
    enough (recent (t - W) t l <= recent (p - W) p l)%nat by lia. apply recent_mono. intros s Hs ?. specialize (Hl s Hs). lia.
  - rewrite (recent_none _ _ [now]); [lia|]. intros s ->%list_elem_of_singleton. lia.
Qed.

Section guarantees.
Context `{!Chrono} `{!ChronoLaws} `{!Sha256} `{!CampaignSerde}.

Record campaign_inv (fw mx : Z) (w : world) : Prop := {
  inv_scope : ca_frequency_window_seconds w.1 = fw /\ ca_max_messages_per_window w.1 = mx;
  inv_people : NoDup (rp_person_id <$> ca_recipients w.1);
  inv_times r s : r ∈ ca_recipients w.1 -> s ∈ rp_sent_at r -> s <= ca_updated_at w.1;
  inv_cap r t : r ∈ ca_recipients w.1 -> Z.of_nat (recent (t - fw * nanos_per_second) t (rp_sent_at r)) <= mx;
  inv_lapse a : a ∈ w.2 -> sa_policy_version a <= ca_policy_version w.1 /\
    sa_valid_until a = sa_prepared_at a + 600 * nanos_per_second;
  inv_issued a r : a ∈ w.2 -> r ∈ ca_recipients w.1 -> rp_person_id r = sa_person_id a ->
    sa_recipient_revision a <= rp_revision r /\
    (sa_recipient_revision a = rp_revision r ->
       (forall s, s ∈ rp_sent_at r -> s <= sa_prepared_at a) /\
       Z.of_nat (recent (sa_prepared_at a - fw * nanos_per_second) (sa_prepared_at a) (rp_sent_at r)) < mx);
}.

Lemma window_start_exact c now start :
  window_start c now = Ok start -> start = now - ca_frequency_window_seconds c * nanos_per_second.
Proof.
  unfold window_start, checked_sub_signed. intros Hw. inv_run.
  match goal with Hx : duration_seconds _ = Some _ |- _ => apply duration_seconds_exact in Hx; subst end.
  match goal with Hx : checked_add_signed _ _ = Some _ |- _ => apply add_signed_exact in Hx; subst end. lia.
Qed.
Lemma authorized_send c person consent now a :
  authorize_send c person consent now = Ok a ->
  exists r, r ∈ ca_recipients c /\ rp_person_id r = person /\ sa_person_id a = person /\ sa_recipient_revision a = rp_revision r /\
    sa_prepared_at a = now /\ ca_updated_at c <= now /\ sa_policy_version a = ca_policy_version c /\
    sa_valid_until a = now + 600 * nanos_per_second /\
    Z.of_nat (recent (now - ca_frequency_window_seconds c * nanos_per_second) now (rp_sent_at r)) < ca_max_messages_per_window c.
Proof.
  unfold authorize_send. intros Ha. inv_run. split_guards.
  match goal with Hx : List.find _ _ = Some ?x |- _ => rename x into r; apply List.find_some in Hx as [Hin Hp]; apply list_elem_of_In in Hin end.
  match goal with Hx : window_start _ _ = Ok _ |- _ => apply window_start_exact in Hx; subst end.
  match goal with Hx : duration_seconds _ = Some _ |- _ => apply duration_seconds_exact in Hx; subst end.
  match goal with Hx : checked_add_signed _ _ = Some _ |- _ => apply add_signed_exact in Hx; subst end.
  split_guards. exists r. cbn. unfold SEND_AUTHORIZATION_TTL_MINUTES. split_and!; done || lia.
Qed.
Lemma same_person w fw mx r r' : campaign_inv fw mx w -> r ∈ ca_recipients w.1 -> r' ∈ ca_recipients w.1 ->
  rp_person_id r = rp_person_id r' -> r = r'.
Proof. intros Hi. eapply nodup_key. by apply (inv_people _ _ _ Hi). Qed.

Lemma campaign_change_inv fw mx w w' :
  0 <= fw -> campaign_inv fw mx w -> campaign_change w w' -> campaign_inv fw mx w'.
Proof.
  intros Hfw Hi Hc. pose proof Hi as [[Hsf Hsm] Hp Ht Hcap Hla His]. destruct Hc as [status now Hn|person consent now a Ha
    |a i r consent receipt now Hain Hir Hst Hrp Hrev Hpol Hact Hper Hwin Hn|i r reason evidence now Hir Hact Hn].
  - split; cbn; try done.
    + intros r s Hr Hs. specialize (Ht r s Hr Hs). lia.
    + intros a Ha. destruct (Hla a Ha). lia.
  - split; cbn; try done.
    { intros a' [->|Ha']%elem_of_cons; [|by apply Hla].
      destruct (authorized_send _ _ _ _ _ Ha) as (r & _ & _ & _ & _ & Hpre & _ & Hpol & Hva & _). lia. }
    intros a' r' [->|Ha']%elem_of_cons Hr' Hrp; [|by apply His].
    destruct (authorized_send _ _ _ _ _ Ha) as (r & Hr & Hpr & Hpa & Hrv & Hpre & Hup & _ & _ & Hlt).
    assert (r' = r) as -> by (eapply same_person; [done..|congruence]). rewrite Hrv, Hpre. split; [lia|]. intros _. split.
    + intros s Hs. specialize (Ht r s Hr Hs). lia.
    + by rewrite Hsf, Hsm in Hlt.
  - assert (r ∈ ca_recipients w.1) as Hr by (by eapply list_elem_of_lookup_2).
    destruct (His a r Hain Hr Hrp) as [_ Hok]. destruct (Hok (eq_sym Hrev)) as [Hle Hlt].
    split; cbn; [done|by rewrite alter_key|..].
    + intros r' s [Hr'|(y & Hy & ->)]%elem_of_alter Hs; [specialize (Ht r' s Hr' Hs); lia|]. cbn in Hs.
      apply elem_of_app in Hs as [Hs| ->%list_elem_of_singleton]; [|lia]. rewrite Hir in Hy. injection Hy as <-. specialize (Ht r s Hr Hs). lia.
    + intros r' t [Hr'|(y & Hy & ->)]%elem_of_alter; [by apply Hcap|]. rewrite Hir in Hy. injection Hy as <-. cbn.
      eapply cap_after_send; [unfold nanos_per_second; lia|exact Hle|lia|exact Hlt|by apply Hcap].
    + exact Hla.
    + intros a' r' Ha' [Hr'|(y & Hy & ->)]%elem_of_alter Hpr; [by apply His|]. rewrite Hir in Hy. injection Hy as <-. cbn in *.
      destruct (His a' r Ha' Hr Hpr) as [Hlea _]. split; [lia|]. lia.
  - assert (r ∈ ca_recipients w.1) as Hr by (by eapply list_elem_of_lookup_2).
    split; cbn; [done|by rewrite alter_key|..].
    + intros r' s [Hr'|(y & Hy & ->)]%elem_of_alter Hs; [specialize (Ht r' s Hr' Hs); lia|]. cbn in Hs.
      rewrite Hir in Hy. injection Hy as <-. specialize (Ht r s Hr Hs). lia.
    + intros r' t [Hr'|(y & Hy & ->)]%elem_of_alter; [by apply Hcap|]. rewrite Hir in Hy. injection Hy as <-. cbn. by apply Hcap.
    + exact Hla.
    + intros a' r' Ha' [Hr'|(y & Hy & ->)]%elem_of_alter Hpr; [by apply His|]. rewrite Hir in Hy. injection Hy as <-. cbn in *.
      destruct (His a' r Ha' Hr Hpr) as [Hlea _]. split; [lia|]. lia.
Qed.

Lemma campaign_run_inv fw mx ks w : 0 <= fw -> campaign_inv fw mx w -> campaign_inv fw mx (campaign_run ks w).
Proof.
  intros Hfw. revert w; induction ks as [|k ks IH]; intros w Hw; [done|]. cbn [campaign_run]. apply IH.
  destruct (campaign_step_change k w) as [->|Hc]; [done|]. by eapply campaign_change_inv.
Qed.
Lemma created_campaign_inv id tenant project mission channel purpose market window mx people now c0 :
  campaign_create id tenant project mission channel purpose market window mx people now = Ok c0 -> 0 <= mx ->
  0 < ca_frequency_window_seconds c0 /\ campaign_inv (ca_frequency_window_seconds c0) mx (c0, []).
Proof.
  unfold campaign_create. intros Hc Hmx. inv_run. unfold campaign_validate in *. inv_run. split_guards. cbn in *. split; [lia|].
  assert (forall r, r ∈ (fun recipient => mkRecipient recipient.1 recipient.2 RsActive [] [] 1) <$> people -> rp_sent_at r = []) as Hno.
  { intros r (x & -> & _)%list_elem_of_fmap. done. }
  split; cbn; try done.
  - apply distinct_list. rewrite length_fmap. by apply Nat.eqb_eq.
  - intros r s Hr Hs. rewrite (Hno r Hr) in Hs. by apply not_elem_of_nil in Hs.
  - intros r t Hr. by rewrite (Hno r Hr).
  - intros a Ha. by apply not_elem_of_nil in Ha.
  - intros a r Ha. by apply not_elem_of_nil in Ha.
Qed.

(** C38: The frequency cap holds at every instant. From a created campaign,
    after any interleaving of authorisations, sends recorded with issued
    authorisations, suppressions and control calls, no recipient has more
    messages than the cap in any window of the campaign's length, wherever the
    window ends. The cap is checked when a send is authorised and not again when
    it is recorded up to ten minutes later. *)
Theorem frequency_cap_holds id tenant project mission channel purpose market window mx people now c0 ks r t :
  campaign_create id tenant project mission channel purpose market window mx people now = Ok c0 -> 0 <= mx ->
  let c := (campaign_run ks (c0, [])).1 in
  r ∈ ca_recipients c ->
  Z.of_nat (recent (t - ca_frequency_window_seconds c * nanos_per_second) t (rp_sent_at r)) <= mx /\
  ca_max_messages_per_window c = mx.
Proof.
  intros Hc Hmx c Hr. destruct (created_campaign_inv _ _ _ _ _ _ _ _ _ _ _ _ Hc Hmx) as [Hfw Hi].
  pose proof (campaign_run_inv _ _ ks _ (Z.lt_le_incl _ _ Hfw) Hi) as [[Hsf Hsm] _ _ Hcap _ _]. fold c in Hsf, Hsm, Hcap.
  rewrite Hsf. by split; [apply Hcap|].
Qed.

(** ** Authorisations *)
Lemma change_recipient w w' i r :
  campaign_change w w' -> ca_recipients w.1 !! i = Some r ->
  exists r', ca_recipients w'.1 !! i = Some r' /\ rp_person_id r' = rp_person_id r /\ rp_revision r <= rp_revision r' /\
    (recipient_is_active (rp_state r) = false -> r' = r).
Proof.
  intros Hc Hr. destruct Hc as [status now Hn|person consent now a Ha
    |a j x consent receipt now Hain Hjx Hst Hrp Hrev Hpol Hact Hper Hwin Hn|j x reason evidence now Hjx Hact Hn]; cbn.
  1,2: by exists r; split_and!; try lia.
  all: destruct (decide (j = i)) as [->|Hne];
    [rewrite list_lookup_alter_eq, Hr; cbn; eexists; split; [done|]; rewrite Hr in Hjx; injection Hjx as ->; cbn;
     split_and!; [done|lia|congruence]
    |rewrite list_lookup_alter_ne by done; exists r; split_and!; done || lia].
Qed.
Lemma change_policy w w' : campaign_change w w' -> ca_policy_version w.1 <= ca_policy_version w'.1.
Proof. intros Hc. destruct Hc; cbn; lia. Qed.
Lemma run_recipient ks w i r :
  ca_recipients w.1 !! i = Some r ->
  exists r', ca_recipients (campaign_run ks w).1 !! i = Some r' /\ rp_person_id r' = rp_person_id r /\
    rp_revision r <= rp_revision r' /\ (recipient_is_active (rp_state r) = false -> r' = r).
Proof.
  revert w r; induction ks as [|k ks IH]; intros w r Hr; cbn [campaign_run]; [exists r; split_and!; done || lia|].
  destruct (campaign_step_change k w) as [->|Hc]; [by apply IH|].
  destruct (change_recipient _ _ _ _ Hc Hr) as (x & Hx & Hpx & Hvx & Hsx).
  destruct (IH _ x Hx) as (y & Hy & Hpy & Hvy & Hsy). exists y. split_and!; [done|congruence|lia|].
  intros Ha. rewrite (Hsx Ha) in Hsy. by apply Hsy.
Qed.
Lemma run_policy ks w : ca_policy_version w.1 <= ca_policy_version (campaign_run ks w).1.
Proof.
  revert w; induction ks as [|k ks IH]; intros w; [done|]. cbn [campaign_run]. etransitivity; [|apply IH].
  destruct (campaign_step_change k w) as [->|Hc]; [done|]. by apply change_policy.
Qed.
Lemma run_issued ks w a : a ∈ w.2 -> a ∈ (campaign_run ks w).2.
Proof.
  revert w; induction ks as [|k ks IH]; intros w Ha; [done|]. cbn [campaign_run]. apply IH.
  destruct (campaign_step_change k w) as [->|Hc]; [done|]. destruct Hc; cbn; try done. by apply list_elem_of_further.
Qed.

(** An authorisation that no longer matches its recipient or the policy. *)
Definition lapsed (a : CampaignSendAuthorization) (c : Campaign) : Prop :=
  sa_policy_version a <> ca_policy_version c \/
  exists i r, ca_recipients c !! i = Some r /\ rp_person_id r = sa_person_id a /\
    (rp_revision r <> sa_recipient_revision a \/ recipient_is_active (rp_state r) = false).
Lemma lapsed_is_refused fw mx w a consent receipt now :
  campaign_inv fw mx w -> lapsed a w.1 -> is_ok (run (record_send a consent receipt now) w.1).1 = false.
Proof.
  intros Hi Hl. destruct (run (record_send a consent receipt now) w.1) as [[[]| |] c'] eqn:Hr; try done. exfalso.
  unfold record_send in Hr. inv_run. split_guards. destruct Hl as [Hl|(i & r & Hir & Hp & Hl)]; [lia|].
  at_recipient j x Hj Hpj.
  assert (x = r) as ->.
  { eapply same_person; [done|by eapply list_elem_of_lookup_2..|congruence]. }
  destruct Hl as [Hl|Hl]; [lia|congruence].
Qed.

Lemma lapsed_for_good a w ks :
  sa_policy_version a < ca_policy_version w.1 \/
  (exists i r, ca_recipients w.1 !! i = Some r /\ rp_person_id r = sa_person_id a /\
     (sa_recipient_revision a < rp_revision r \/ recipient_is_active (rp_state r) = false)) ->
  lapsed a (campaign_run ks w).1.
Proof.
  intros [Hp|(i & r & Hr & Hp & Hl)].
  - left. pose proof (run_policy ks w). lia.
  - right. destruct (run_recipient ks w i r Hr) as (r' & Hr' & Hp' & Hv & Hs). exists i, r'. split_and!; [done|congruence|].
    destruct Hl as [Hl|Hl]; [left; lia|right]. by rewrite (Hs Hl).
Qed.

(** C39: A campaign message is sent under consent in force and an authorisation
    is used once. When a send is recorded with an issued authorisation, the
    campaign is active, the recipient is not suppressed, the consent presented
    permits this person, purpose, channel and market at that instant, the
    authorisation is less than ten minutes old and the recipient has got nothing
    since it was issued; and whatever calls follow, the same authorisation is
    never accepted again. *)
Theorem sends_are_consented_and_single_use id tenant project mission channel purpose market window mx people now0 c0 ks i a
    consent receipt now c' more :
  campaign_create id tenant project mission channel purpose market window mx people now0 = Ok c0 -> 0 <= mx ->
  let w := campaign_run ks (c0, []) in
  w.2 !! i = Some a -> run (record_send a consent receipt now) w.1 = (Ok tt, c') ->
  (exists r, r ∈ ca_recipients w.1 /\ rp_person_id r = sa_person_id a /\ ca_status w.1 = CpActive /\ rp_state r = RsActive /\
     permits consent (rp_person_id r) (ca_purpose w.1) (ca_channel w.1) (ca_market w.1) now = true /\
     sa_prepared_at a <= now < sa_prepared_at a + 600 * nanos_per_second /\
     (forall s, s ∈ rp_sent_at r -> s <= sa_prepared_at a)) /\
  (forall consent' receipt' now', is_ok (run (record_send a consent' receipt' now') (campaign_run more (c', w.2)).1).1 = false).
Proof.
  intros Hc Hmx w Ha Hr. destruct (created_campaign_inv _ _ _ _ _ _ _ _ _ _ _ _ Hc Hmx) as [Hfw Hi0].
  assert (0 <= ca_frequency_window_seconds c0) as Hfw' by lia. pose proof (campaign_run_inv _ _ ks _ Hfw' Hi0) as Hi. fold w in Hi.
  assert (a ∈ w.2) as Hin by (by eapply list_elem_of_lookup_2). clear Ha.
  pose proof (send_change a consent receipt now w.1 w.2 tt c' Hin Hr) as Hch. rewrite <-surjective_pairing in Hch.
  pose proof (campaign_change_inv _ _ _ _ Hfw' Hi Hch) as Hi'.
  unfold record_send in Hr. inv_run. split_guards.
  at_recipient j r Hj Hp.
  assert (r ∈ ca_recipients w.1) as Hrin by (by eapply list_elem_of_lookup_2).
  destruct (inv_issued _ _ _ Hi a r Hin Hrin Hp) as [_ Hok]. destruct Hok as [Hle _]; [lia|]. destruct (inv_lapse _ _ _ Hi a Hin) as [_ Hva].
  campaign_bumped.
  split.
  - exists r. split_and!; try done; try lia. by destruct (rp_state r).
  - intros consent' receipt' now'. eapply lapsed_is_refused; [by apply campaign_run_inv|]. apply lapsed_for_good. right.
    cbn. eexists j, _. rewrite list_lookup_alter_eq, Hj. cbn. split_and!; [done|done|left; cbn; lia].
Qed.

(** Pausing, resuming, completing or cancelling a campaign recalls every
    authorisation issued before, and suppressing a recipient recalls those for
    that person and leaves the recipient's record as it is for good. *)
Definition controls (k : CampaignCall) : bool :=
  match k with CcActivate _ | CcPause _ | CcComplete _ | CcCancel _ => true | _ => false end.
Lemma control_step_policy k w :
  controls k = true -> campaign_step k w <> w -> ca_policy_version w.1 < ca_policy_version (campaign_step k w).1.
Proof.
  intros Hk Hne. destruct w as [c issued].
  assert (forall status now c', run (transition_control status now) c = (Ok tt, c') -> ca_policy_version c < ca_policy_version c') as Ht.
  { intros status now c' Hr. unfold transition_control in Hr. inv_run.
    campaign_bumped. cbn. lia. }
  assert (forall op : SR Campaign RelationshipError unit, Atomic op -> ((run op c).2, issued) <> (c, issued) ->
    exists c', run op c = (Ok tt, c')) as Hop.
  { intros op Hat Hd. specialize (Hat c). destruct (run op c) as [[[]| |] c'] eqn:Hr; [by exists c'|destruct Hd..]; cbn [snd] in *;
      f_equal; by apply Hat. }
  destruct k; try done; cbn [campaign_step fst snd] in *; apply Hop in Hne as (c' & Hr);
    try (unfold activate, campaign_pause, campaign_complete, campaign_cancel, transition_control; apply _); rewrite Hr; cbn [snd].
  all: unfold activate, campaign_pause, campaign_complete, campaign_cancel in Hr; inv_run; by eapply Ht.
Qed.
Theorem control_recalls_authorizations id tenant project mission channel purpose market window mx people now0 c0 ks k a more
    consent receipt now :
  campaign_create id tenant project mission channel purpose market window mx people now0 = Ok c0 -> 0 <= mx ->
  let w := campaign_run ks (c0, []) in
  a ∈ w.2 -> controls k = true -> campaign_step k w <> w ->
  is_ok (run (record_send a consent receipt now) (campaign_run more (campaign_step k w)).1).1 = false.
Proof.
  intros Hc Hmx w Ha Hk Hne. destruct (created_campaign_inv _ _ _ _ _ _ _ _ _ _ _ _ Hc Hmx) as [Hfw Hi0].
  assert (0 <= ca_frequency_window_seconds c0) as Hfw' by lia. pose proof (campaign_run_inv _ _ ks _ Hfw' Hi0) as Hi. fold w in Hi.
  eapply lapsed_is_refused.
  - apply campaign_run_inv; [exact Hfw'|]. destruct (campaign_step_change k w) as [->|Hch]; [done|]. by eapply campaign_change_inv.
  - apply lapsed_for_good. left. destruct (inv_lapse _ _ _ Hi a Ha) as [Hle _]. pose proof (control_step_policy k w Hk Hne). lia.
Qed.
Theorem suppressed_recipient_gets_nothing_more w person reason evidence now c' more :
  run (suppress_recipient person reason evidence now) w.1 = (Ok tt, c') ->
  exists i r, ca_recipients c' !! i = Some r /\ rp_person_id r = person /\ rp_state r = RsSuppressed reason evidence now /\
    ca_recipients (campaign_run more (c', w.2)).1 !! i = Some r.
Proof.
  intros Hr. unfold suppress_recipient in Hr. inv_run.
  at_recipient i r Hi Hp.
  eexists i, _. split_and!; [cbn; by rewrite list_lookup_alter_eq, Hi|done|done|].
  match goal with |- ca_recipients (campaign_run _ ?q).1 !! _ = Some ?x =>
    destruct (run_recipient more q i x) as (r' & Hr' & _ & _ & Hs); [cbn; by rewrite list_lookup_alter_eq, Hi|] end.
  by rewrite Hr', (Hs eq_refl).
Qed.
End guarantees.

Module CampaignDemo.
Import Prelude.Fixture.
#[export] Instance serde : CampaignSerde := fun scope => ss_person_id scope.
Definition drafted : Campaign :=
  mkCampaign "campaign" "tenant" "project" "mission" ChEmail EmailMarketing "EU" 3600 1 CpDraft 1
    [mkRecipient "ann" "consent" RsActive [] [] 1] 1 100 100.
Lemma drafted_ok :
  campaign_create "campaign" "tenant" "project" "mission" ChEmail EmailMarketing " EU" (3600 * nanos_per_second) 1 [("ann", "consent")] 100
    = Ok drafted.
Proof. vm_compute. reflexivity. Qed.
Definition consent : ConsentRecord :=
  mkConsent "consent" "tenant" "project" "ann" EmailMarketing ChEmail "eu" LbExplicitConsent CnGranted "form" zeros64 (Some 90) None None 1.
Definition prepared : world := campaign_run [CcActivate 110; CcAuthorize "ann" consent 120] (drafted, []).
Definition send : CampaignCall := CcRecord 0 consent "receipt" 130.
Definition issued : CampaignSendAuthorization :=
  mkSendAuthorization "campaign" "ann" "consent" 1 2 1 zeros64 120 (120 + 600 * nanos_per_second).
Definition sent : Campaign := (run (record_send issued consent "receipt" 130) prepared.1).2.
Definition ann : CampaignRecipient := mkRecipient "ann" "consent" RsActive [130] ["receipt"] 2.

Lemma frequency_cap_holds_witness :
  ca_recipients (campaign_step send prepared).1 = [ann] /\
  recent (130 - 3600 * nanos_per_second) 130 (rp_sent_at ann) = 1%nat /\
  Z.of_nat (recent (130 - 3600 * nanos_per_second) 130 (rp_sent_at ann)) <= 1.
Proof.
  split; [vm_compute; reflexivity|]. split; [vm_compute; reflexivity|].
  assert (ann ∈ ca_recipients (campaign_run [CcActivate 110; CcAuthorize "ann" consent 120; send] (drafted, [])).1) as Hin.
  { replace (ca_recipients _) with [ann] by (vm_compute; reflexivity). apply list_elem_of_here. }
  exact (proj1 (frequency_cap_holds _ _ _ _ _ _ _ _ _ _ _ drafted [CcActivate 110; CcAuthorize "ann" consent 120; send] ann 130
    drafted_ok ltac:(discriminate) Hin)).
Defined.
Lemma sends_are_consented_and_single_use_witness :
  run (record_send issued consent "receipt" 130) prepared.1 = (Ok tt, sent) /\
  is_ok (run (record_send issued consent "again" 140) (campaign_run [] (sent, prepared.2)).1).1 = false.
Proof.
  assert (prepared.2 !! 0%nat = Some issued) as Hi by (vm_compute; reflexivity).
  assert (run (record_send issued consent "receipt" 130) prepared.1 = (Ok tt, sent)) as Hr by (vm_compute; reflexivity).
  split; [exact Hr|].
  exact (proj2 (sends_are_consented_and_single_use _ _ _ _ _ _ _ _ _ _ _ drafted [CcActivate 110; CcAuthorize "ann" consent 120] 0 issued
    consent "receipt" 130 sent [] drafted_ok ltac:(discriminate) Hi Hr) consent "again" 140).
Defined.

(** The append check compares the recipient's state before and after a send but
    does not ask that it be active, and it does not look at the cap: a snapshot
    in which a suppressed recipient has got a message is accepted, though no
    call produces it. *)
Definition suppressed : Campaign :=
  (run (suppress_recipient "ann" SrUnsubscribe zeros64 140) (campaign_step send prepared).1).2.
Definition sent_to_suppressed : Campaign :=
  campaign_commit_bump (ca_revision suppressed + 1) 150
    (suppressed <| ca_recipients ::= alter (record_sent "unwanted" 4 150) 0%nat |>).
Theorem append_check_accepts_a_send_to_a_suppressed_recipient :
  campaign_validate suppressed = Ok tt /\
  (rp_state <$> ca_recipients suppressed) = [RsSuppressed SrUnsubscribe zeros64 140] /\
  (rp_receipt_ids <$> ca_recipients sent_to_suppressed) = [["receipt"; "unwanted"]] /\
  campaign_follows_command sent_to_suppressed suppressed = Ok true /\
  (forall k issued, (campaign_step k (suppressed, issued)).1 <> sent_to_suppressed).
Proof.
  do 4 (split; [vm_compute; reflexivity|]). intros k l Heq.
  pose proof (run_recipient [k] (suppressed, l) 0
    (mkRecipient "ann" "consent" (RsSuppressed SrUnsubscribe zeros64 140) [130] ["receipt"] 3)) as Hk.
  destruct Hk as (r & Hr & _ & _ & Hs); [vm_compute; reflexivity|]. cbn [campaign_run] in Hr.
  specialize (Hs ltac:(vm_compute; reflexivity)). rewrite Hs, Heq in Hr. vm_compute in Hr. discriminate Hr.
Qed.
End CampaignDemo.
