(* ===== verification/Opportunity.v ===== *)
(** * Sales opportunities

    Models the opportunity part of [domain-kernel/src/relationship.rs]: the
    stages of a sale with the evidence of each step, the forecast and the buying
    committee. The check on an appended record accepts exactly what the calls
    produce, and an opportunity reaches its end in at most five steps. *)
From S2P Require Import Prelude Text Money Contract MissionTypes WorkProduct Effect Checkpoint Terminal Connection Identity.
From S2P Require Import Conversation.

(** ** Data *)
Inductive BuyingCommitteeRole : Type :=
| BrChampion | BrEconomicBuyer | BrTechnicalBuyer | BrSecurityReviewer | BrProcurement | BrEndUser.
#[export] Instance BuyingCommitteeRole_eq_dec : EqDecision BuyingCommitteeRole.
Proof. solve_decision. Defined.
#[export] Instance BuyingCommitteeRole_countable : Countable BuyingCommitteeRole.
Proof.
  refine (inj_countable'
    (fun r => match r with BrChampion => 0%nat | BrEconomicBuyer => 1%nat | BrTechnicalBuyer => 2%nat
       | BrSecurityReviewer => 3%nat | BrProcurement => 4%nat | BrEndUser => 5%nat end)
    (fun n => match n with 0%nat => BrChampion | 1%nat => BrEconomicBuyer | 2%nat => BrTechnicalBuyer
       | 3%nat => BrSecurityReviewer | 4%nat => BrProcurement | _ => BrEndUser end) _).
  by intros [].
Defined.

Record BuyingCommitteeMember : Type := mkMember {
  bm_person_id : Id;
  bm_role : BuyingCommitteeRole;
  bm_evidence_digest : string;
}.
#[export] Instance BuyingCommitteeMember_eq_dec : EqDecision BuyingCommitteeMember.
Proof. solve_decision. Defined.
#[export] Instance BuyingCommitteeMember_countable : Countable BuyingCommitteeMember.
Proof.
  refine (inj_countable' (fun m => (bm_person_id m, bm_role m, bm_evidence_digest m))
    (fun t => mkMember t.1.1 t.1.2 t.2) _). by intros [].
Defined.

Inductive OpportunityStage : Type :=
| OsQualified | OsDiscovery | OsEvaluation | OsSecurityReview | OsProcurement | OsClosedWon | OsClosedLost.
#[export] Instance OpportunityStage_eq_dec : EqDecision OpportunityStage.
Proof. solve_decision. Defined.
Record StageTransition : Type := mkStageTransition {
  st_from : OpportunityStage;
  st_to : OpportunityStage;
  st_evidence_digest : string;
  st_transitioned_at : DateTime;
}.
#[export] Instance StageTransition_eq_dec : EqDecision StageTransition.
Proof. solve_decision. Defined.

Record Opportunity : Type := mkOpportunity {
  op_id : Id;
  op_tenant_id : Id;
  op_project_id : Id;
  op_company_id : Id;
  op_buying_committee : gset BuyingCommitteeMember;
  op_stage : OpportunityStage;
  op_forecast_amount : option Money;
  op_forecast_evidence_digest : option string;
  op_evidence_gap_digests : gset string;
  op_objection_digests : gset string;
  op_deadline : option DateTime;
  op_stage_history : list StageTransition;
  op_revision : Z; (* u64 *)
  op_created_at : DateTime;
  op_updated_at : DateTime;
}.
#[export] Instance Opportunity_eta : Eta Opportunity := fun o =>
  mkOpportunity (op_id o) (op_tenant_id o) (op_project_id o) (op_company_id o) (op_buying_committee o) (op_stage o)
    (op_forecast_amount o) (op_forecast_evidence_digest o) (op_evidence_gap_digests o) (op_objection_digests o) (op_deadline o)
    (op_stage_history o) (op_revision o) (op_created_at o) (op_updated_at o).
#[export] Instance Opportunity_eq_dec : EqDecision Opportunity.
Proof. solve_decision. Defined.

(** ** Validation *)
Definition transition_not_allowed (from to : OpportunityStage) : bool :=
  match from, to with
  | (OsClosedWon | OsClosedLost), _ => true
  | OsQualified, (OsDiscovery | OsEvaluation | OsClosedWon | OsClosedLost)
  | OsDiscovery, (OsEvaluation | OsSecurityReview | OsClosedWon | OsClosedLost)
  | OsEvaluation, (OsSecurityReview | OsProcurement | OsClosedWon | OsClosedLost)
  | OsSecurityReview, (OsProcurement | OsClosedWon | OsClosedLost)
  | OsProcurement, (OsClosedWon | OsClosedLost) => false
  | _, _ => true
  end.

(** The stage the history ends in, when each transition starts where the one
    before ended and their times do not go back or past the last update. *)
Fixpoint history_stage (updated_at : DateTime) (stage : OpportunityStage) (observed_at : DateTime)
    (history : list StageTransition) : option OpportunityStage :=
  match history with
  | [] => Some stage
  | transition :: history =>
      if negb (bool_decide (st_from transition = stage))
         || (st_transitioned_at transition <? observed_at)
         || (updated_at <? st_transitioned_at transition)
      then None
      else history_stage updated_at (st_to transition) (st_transitioned_at transition) history
  end.
Definition opportunity_stage_history_is_consistent (opportunity : Opportunity) : bool :=
  bool_decide (history_stage (op_updated_at opportunity) OsQualified (op_created_at opportunity) (op_stage_history opportunity)
    = Some (op_stage opportunity)).

Definition member_is_invalid (member : BuyingCommitteeMember) : bool :=
  trim_is_empty (bm_person_id member) || negb (is_sha256 (bm_evidence_digest member)).
Definition stage_transition_is_invalid (transition : StageTransition) : bool :=
  negb (is_sha256 (st_evidence_digest transition))
  || bool_decide (st_from transition = st_to transition)
  || transition_not_allowed (st_from transition) (st_to transition).

Definition opportunity_validate (self : Opportunity) : result RelationshipError unit :=
  reject_if (trim_is_empty (op_id self)
    || trim_is_empty (op_tenant_id self)
    || trim_is_empty (op_project_id self)
    || trim_is_empty (op_company_id self)
    || bool_decide (op_buying_committee self = ∅)
    || bool_decide (set_Exists (fun member => member_is_invalid member = true) (op_buying_committee self))
    || not_sha256 (op_forecast_evidence_digest self)
    || is_some_and (fun amount => amount_minor amount <? 0) (op_forecast_amount self)
    || negb (Bool.eqb (is_some (op_forecast_amount self)) (is_some (op_forecast_evidence_digest self)))
    || (set_any (fun digest => negb (is_sha256 digest)) (op_evidence_gap_digests self)
        || set_any (fun digest => negb (is_sha256 digest)) (op_objection_digests self))
    || existsb stage_transition_is_invalid (op_stage_history self)
    || negb (opportunity_stage_history_is_consistent self)
    || (op_revision self =? 0)
    || (op_updated_at self <? op_created_at self)) ReInvalidOpportunity.

Definition opportunity_create (id tenant_id project_id company_id : Id) (buying_committee : list BuyingCommitteeMember)
    (now : DateTime) : result RelationshipError Opportunity :=
  let opportunity := mkOpportunity id tenant_id project_id company_id (list_to_set buying_committee) OsQualified None None ∅ ∅
    None [] 1 now now in
  opportunity_validate opportunity;;
  mret opportunity.

Definition opportunity_is_initial_snapshot (self : Opportunity) : result RelationshipError bool :=
  opportunity_validate self;;
  mret (bool_decide (op_stage self = OsQualified)
    && is_none (op_forecast_amount self)
    && is_none (op_forecast_evidence_digest self)
    && bool_decide (op_evidence_gap_digests self = ∅)
    && bool_decide (op_objection_digests self = ∅)
    && is_none (op_deadline self)
    && Nat.eqb (length (op_stage_history self)) 0
    && (op_revision self =? 1)
    && (op_created_at self =? op_updated_at self)).

(** ** Operations *)
Abbreviation opportunity_op := (SR Opportunity RelationshipError) (only parsing).

Definition opportunity_prepare_bump (self : Opportunity) (now : DateTime) : result RelationshipError Z :=
  prepare_aggregate_revision (op_revision self) (op_updated_at self) now.
Definition opportunity_commit_bump (next_revision : Z) (now : DateTime) (self : Opportunity) : Opportunity :=
  self <| op_revision := next_revision |> <| op_updated_at := now |>.

Definition set_forecast (amount : Money) (evidence_digest : string) (now : DateTime) : opportunity_op unit :=
  self ← get;
  reject ((amount_minor amount <? 0) || negb (is_sha256 evidence_digest)) ReInvalidOpportunity;;
  next_revision ← lift (opportunity_prepare_bump self now);
  modify (fun self => opportunity_commit_bump next_revision now
    (self <| op_forecast_amount := Some amount |> <| op_forecast_evidence_digest := Some evidence_digest |>)).

Definition advance_stage (next : OpportunityStage) (evidence_digest : string) (now : DateTime) : opportunity_op unit :=
  self ← get;
  reject (negb (is_sha256 evidence_digest) || transition_not_allowed (op_stage self) next)
    ReOpportunityStageTransitionNotAllowed;;
  next_revision ← lift (opportunity_prepare_bump self now);
  modify (fun self => opportunity_commit_bump next_revision now
    (self <| op_stage_history ::= fun l => l ++ [mkStageTransition (op_stage self) next evidence_digest now] |>
      <| op_stage := next |>)).

Definition add_buying_committee_member (member : BuyingCommitteeMember) (now : DateTime) : opportunity_op unit :=
  self ← get;
  reject (trim_is_empty (bm_person_id member)
    || negb (is_sha256 (bm_evidence_digest member))
    || bool_decide (set_Exists (fun stored => bm_person_id stored = bm_person_id member /\ bm_role stored = bm_role member)
         (op_buying_committee self)))
    ReDuplicateBuyingCommitteeMember;;
  next_revision ← lift (opportunity_prepare_bump self now);
  modify (fun self => opportunity_commit_bump next_revision now (self <| op_buying_committee ::= fun s => {[member]} ∪ s |>)).

(** ** The append check *)

(** A copy of the previous record that accepts the call and becomes the other. *)
Definition opportunity_replays (previous self : Opportunity) (call : opportunity_op unit) : bool :=
  match run call previous with (Ok _, candidate) => bool_decide (candidate = self) | _ => false end.
Definition opportunity_scope_is_immutable (self previous : Opportunity) : bool :=
  bool_decide (op_id self = op_id previous)
  && bool_decide (op_tenant_id self = op_tenant_id previous)
  && bool_decide (op_project_id self = op_project_id previous)
  && bool_decide (op_company_id self = op_company_id previous)
  && (op_created_at self =? op_created_at previous).
Definition replays_forecast (self previous : Opportunity) : bool :=
  match op_forecast_amount self, op_forecast_evidence_digest self with
  | Some amount, Some evidence_digest =>
      opportunity_replays previous self (set_forecast amount evidence_digest (op_updated_at self))
  | _, _ => false
  end.
Definition replays_stage (self previous : Opportunity) : bool :=
  let before := op_stage_history previous in
  Nat.eqb (length (op_stage_history self)) (length before + 1)
  && bool_decide (take (length before) (op_stage_history self) = before)
  && match last (op_stage_history self) with
     | Some transition => opportunity_replays previous self
         (advance_stage (st_to transition) (st_evidence_digest transition) (st_transitioned_at transition))
     | None => false
     end.
Definition replays_member (self previous : Opportunity) : bool :=
  match elements (op_buying_committee self ∖ op_buying_committee previous) with
  | [member] => bool_decide (op_buying_committee previous ⊆ op_buying_committee self)
      && opportunity_replays previous self (add_buying_committee_member member (op_updated_at self))
  | _ => false
  end.

Definition opportunity_follows_command (self previous : Opportunity) : result RelationshipError bool :=
  opportunity_validate self;;
  opportunity_validate previous;;
  if negb (opportunity_scope_is_immutable self previous)
     || negb (bool_decide (checked_add u64_max (op_revision previous) 1 = Some (op_revision self)))
     || (op_updated_at self <? op_updated_at previous)
  then mret false else
  mret (if replays_forecast self previous then true else
        if replays_stage self previous then true else replays_member self previous).

(** ** What the calls do *)
Inductive OpportunityCall : Type :=
| OcForecast (amount : Money) (evidence : string) (now : DateTime)
| OcAdvance (next : OpportunityStage) (evidence : string) (now : DateTime)
| OcMember (member : BuyingCommitteeMember) (now : DateTime).
Definition opportunity_call (k : OpportunityCall) : opportunity_op unit :=
  match k with
  | OcForecast amount evidence now => set_forecast amount evidence now
  | OcAdvance next evidence now => advance_stage next evidence now
  | OcMember member now => add_buying_committee_member member now
  end.
Fixpoint opportunity_run (ks : list OpportunityCall) (o : Opportunity) : Opportunity :=
  match ks with [] => o | k :: ks => opportunity_run ks (run (opportunity_call k) o).2 end.

Lemma opportunity_bump_Ok o now r :
  opportunity_prepare_bump o now = Ok r -> r = op_revision o + 1 /\ op_updated_at o <= now /\
    checked_add u64_max (op_revision o) 1 = Some r.
Proof.
  unfold opportunity_prepare_bump, prepare_aggregate_revision, relationship_next_revision. intros Hb. inv_run. split_guards.
  match goal with Hx : checked_add _ _ _ = Some _ |- _ => pose proof Hx end. known_revision. split_and!; [done|lia|done].
Qed.
Lemma opportunity_call_frame k o o' :
  run (opportunity_call k) o = (Ok tt, o') ->
  checked_add u64_max (op_revision o) 1 = Some (op_revision o') /\ op_updated_at o <= op_updated_at o' /\
  opportunity_scope_is_immutable o' o = true.
Proof.
  intros Hr. destruct k; cbn [opportunity_call] in Hr; unfold set_forecast, advance_stage, add_buying_committee_member in Hr; inv_run;
    match goal with Hx : opportunity_prepare_bump _ _ = Ok _ |- _ => apply opportunity_bump_Ok in Hx as (-> & ? & ?) end;
    cbn; (split_and!; [done|done|]); unfold opportunity_scope_is_immutable; cbn; by rewrite !bool_decide_eq_true_2, Z.eqb_refl by done.
Qed.

(** ** Valid opportunities *)
Record opportunity_ok (o : Opportunity) : Prop := {
  ok_names : trim_is_empty (op_id o) || trim_is_empty (op_tenant_id o) || trim_is_empty (op_project_id o)
    || trim_is_empty (op_company_id o) = false;
  ok_committee : op_buying_committee o <> ∅;
  ok_members m : m ∈ op_buying_committee o -> member_is_invalid m = false;
  ok_forecast : match op_forecast_amount o, op_forecast_evidence_digest o with
    | Some amount, Some digest => 0 <= amount_minor amount /\ is_sha256 digest = true
    | None, None => True
    | _, _ => False
    end;
  ok_digests : set_any (fun digest => negb (is_sha256 digest)) (op_evidence_gap_digests o)
    || set_any (fun digest => negb (is_sha256 digest)) (op_objection_digests o) = false;
  ok_history t : t ∈ op_stage_history o -> stage_transition_is_invalid t = false;
  ok_stage : history_stage (op_updated_at o) OsQualified (op_created_at o) (op_stage_history o) = Some (op_stage o);
  ok_revision : 0 < op_revision o;
  ok_times : op_created_at o <= op_updated_at o;
}.
Lemma opportunity_validate_iff o : 0 <= op_revision o -> opportunity_validate o = Ok tt <-> opportunity_ok o.
Proof.
  intros Hu. unfold opportunity_validate. rewrite reject_if_Ok. split.
  - intros Hv. unfold opportunity_stage_history_is_consistent, not_sha256 in Hv. split_guards. split; try done; try lia.
    + by rewrite !orb_false_iff.
    + intros m Hm. apply not_true_is_false. intros Hx. by match goal with Hs : ~ set_Exists _ _ |- _ => apply Hs; exists m end.
    + destruct (op_forecast_amount o), (op_forecast_evidence_digest o); cbn in *; split_guards; try done. split; [lia|done].
    + rewrite orb_false_iff. done.
    + by apply existsb_false.
  - intros [Hn Hc Hm Hf Hd Hh Hs Hr Ht]. rewrite !orb_false_iff in Hn. rewrite !orb_false_iff.
    unfold opportunity_stage_history_is_consistent. rewrite (bool_decide_eq_true_2 (history_stage _ _ _ _ = _)) by done.
    repeat match goal with |- _ /\ _ => split end; try apply bool_decide_eq_false_2; try done; try tauto; try lia.
    + intros (m & Hin & Hx). by rewrite Hm in Hx.
    + unfold not_sha256. destruct (op_forecast_amount o), (op_forecast_evidence_digest o); try done. cbn. by destruct Hf as [_ ->].
    + destruct (op_forecast_amount o), (op_forecast_evidence_digest o); try done. cbn. lia.
    + by destruct (op_forecast_amount o), (op_forecast_evidence_digest o).
    + apply orb_false_iff in Hd. tauto.
    + apply orb_false_iff in Hd. tauto.
    + by apply existsb_false.
Qed.

Lemma history_later u u' stage t h s :
  u <= u' -> history_stage u stage t h = Some s -> history_stage u' stage t h = Some s.
Proof.
  intros Hu. revert stage t; induction h as [|x h IH]; intros stage t; cbn; [done|].
  destruct (_ || _) eqn:Hg; [done|]. split_guards. intros Hs. replace (_ || _) with false; [by apply IH|].
  symmetry. rewrite !orb_false_iff, negb_false_iff, bool_decide_eq_true. split_and!; done || lia.
Qed.
Lemma history_append u stage t h s next evidence now :
  t <= u -> u <= now -> history_stage u stage t h = Some s ->
  history_stage now stage t (h ++ [mkStageTransition s next evidence now]) = Some next.
Proof.
  intros Ht Hu. revert stage t Ht; induction h as [|x h IH]; intros stage t Ht; cbn.
  - intros [= ->]. by rewrite bool_decide_eq_true_2, (proj2 (Z.ltb_ge _ _)), Z.ltb_irrefl by (done || lia).
  - destruct (_ || _) eqn:Hg; [done|]. split_guards. intros Hs. replace (_ || _) with false; [apply IH; [lia|done]|].
    symmetry. rewrite !orb_false_iff, negb_false_iff, bool_decide_eq_true. split_and!; done || lia.
Qed.
Lemma allowed_moves from to : transition_not_allowed from to = false -> from <> to.
Proof. by destruct from, to. Qed.

Lemma opportunity_call_ok k o o' :
  run (opportunity_call k) o = (Ok tt, o') -> opportunity_ok o -> opportunity_ok o'.
Proof.
  intros Hr Ho. destruct k; cbn [opportunity_call] in Hr; unfold set_forecast, advance_stage, add_buying_committee_member in Hr; inv_run; split_guards;
    match goal with Hx : opportunity_prepare_bump _ _ = Ok _ |- _ => apply opportunity_bump_Ok in Hx as (-> & Hle & Hrev) end;
    known_revision; destruct Ho as [Hn Hc Hm Hf Hd Hh Hs Hv Ht]; split; cbn; try done; try lia.
  - split; [lia|done].
  - by eapply history_later.
  - intros t [Hin| ->%list_elem_of_singleton]%elem_of_app; [by apply Hh|]. unfold stage_transition_is_invalid; cbn.
    rewrite bool_decide_eq_false_2 by (by apply allowed_moves). apply orb_false_iff; split; [|done]. rewrite orb_false_iff, negb_false_iff. done.
  - by eapply history_append.
  - set_solver.
  - intros m [->%elem_of_singleton|Hin]%elem_of_union; [|by apply Hm]. unfold member_is_invalid.
    rewrite orb_false_iff, negb_false_iff. done.
  - by eapply history_later.
Qed.

(** ** The append check and the calls *)
Lemma replays_call o o' k : opportunity_replays o o' (opportunity_call k) = true -> run (opportunity_call k) o = (Ok tt, o').
Proof.
  unfold opportunity_replays. destruct (run _ o) as [[[]| |] c]; try done. intros Hb%bool_decide_eq_true. by subst.
Qed.
Lemma call_replays o o' k : run (opportunity_call k) o = (Ok tt, o') -> opportunity_replays o o' (opportunity_call k) = true.
Proof. unfold opportunity_replays. intros ->. by apply bool_decide_eq_true. Qed.

Lemma replayed_forecast o o' amount evidence now :
  run (opportunity_call (OcForecast amount evidence now)) o = (Ok tt, o') -> replays_forecast o' o = true.
Proof.
  intros Hr. pose proof (call_replays _ _ _ Hr) as Hc. cbn [opportunity_call] in Hr, Hc. unfold set_forecast in Hr. inv_run.
  unfold replays_forecast. cbn. exact Hc.
Qed.
Lemma replayed_stage o o' next evidence now :
  run (opportunity_call (OcAdvance next evidence now)) o = (Ok tt, o') -> replays_stage o' o = true.
Proof.
  intros Hr. pose proof (call_replays _ _ _ Hr) as Hc. cbn [opportunity_call] in Hr, Hc. unfold advance_stage in Hr. inv_run.
  unfold replays_stage. cbn. rewrite length_app, take_app_length, last_snoc, Nat.eqb_refl, bool_decide_eq_true_2 by done. exact Hc.
Qed.
Lemma replayed_member o o' member now :
  run (opportunity_call (OcMember member now)) o = (Ok tt, o') -> replays_member o' o = true.
Proof.
  intros Hr. pose proof (call_replays _ _ _ Hr) as Hc. cbn [opportunity_call] in Hr, Hc. unfold add_buying_committee_member in Hr.
  inv_run. split_guards. unfold replays_member. cbn.
  assert (({[member]} ∪ op_buying_committee o) ∖ op_buying_committee o = {[member]}) as ->.
  { assert (member ∉ op_buying_committee o); [|set_solver]. intros Hin.
    match goal with Hx : ~ set_Exists _ _ |- _ => apply Hx end. by exists member. }
  rewrite elements_singleton, bool_decide_eq_true_2 by set_solver. exact Hc.
Qed.

(** Storage accepts as the next record of an opportunity exactly what the
    kernel produces: from a valid opportunity, the append check holds exactly
    when setting the forecast, advancing the stage or adding a committee member
    succeeds and yields that record. In particular every successful call leaves
    a valid opportunity. *)
Theorem opportunity_follows_exactly_the_calls o o' :
  0 <= op_revision o -> opportunity_validate o = Ok tt ->
  (opportunity_follows_command o' o = Ok true <-> exists k, run (opportunity_call k) o = (Ok tt, o')).
Proof.
  intros Hu Hv. split.
  - unfold opportunity_follows_command. intros Hf. inv_run. destruct (_ || _); [done|]. injection Hf as Hf.
    destruct (replays_forecast o' o) eqn:Hfc; [|destruct (replays_stage o' o) eqn:Hst].
    + unfold replays_forecast in Hfc. destruct (op_forecast_amount o') as [a|], (op_forecast_evidence_digest o') as [e|]; try done.
      eexists (OcForecast _ _ _). by apply replays_call.
    + unfold replays_stage in Hst. split_guards. destruct (last _); [|done]. eexists (OcAdvance _ _ _). by apply replays_call.
    + unfold replays_member in *. destruct (elements _) as [|m [|]]; try done. split_guards. eexists (OcMember _ _). by apply replays_call.
  - intros (k & Hr). destruct (opportunity_call_frame _ _ _ Hr) as (Hrev & Hle & Hsc). unfold opportunity_follows_command.
    assert (opportunity_ok o') as Ho by (eapply opportunity_call_ok; [done|]; by apply opportunity_validate_iff).
    rewrite (proj2 (opportunity_validate_iff o' (Z.lt_le_incl _ _ (ok_revision _ Ho))) Ho).
    rewrite Hv. cbn. rewrite Hsc, bool_decide_eq_true_2, (proj2 (Z.ltb_ge _ _)) by (done || lia). cbn. do 2 f_equal.
    destruct k.
    + by rewrite (replayed_forecast _ _ _ _ _ Hr).
    + rewrite (replayed_stage _ _ _ _ _ Hr). by destruct (replays_forecast o' o).
    + rewrite (replayed_member _ _ _ _ Hr). by destruct (replays_forecast o' o), (replays_stage o' o).
Qed.

(** ** Stages only advance *)
Definition stage_rank (stage : OpportunityStage) : nat :=
  match stage with
  | OsQualified => 0 | OsDiscovery => 1 | OsEvaluation => 2 | OsSecurityReview => 3 | OsProcurement => 4
  | OsClosedWon | OsClosedLost => 5
  end.
Lemma allowed_advances from to : transition_not_allowed from to = false -> (stage_rank from < stage_rank to)%nat.
Proof. destruct from, to; cbn; done || lia. Qed.
Lemma history_rank u stage t h s :
  (forall x, x ∈ h -> stage_transition_is_invalid x = false) -> history_stage u stage t h = Some s ->
  (stage_rank stage + length h <= stage_rank s)%nat.
Proof.
  revert stage t; induction h as [|x h IH]; intros stage t Hx; cbn; [intros [= ->]; lia|].
  destruct (_ || _) eqn:Hg; [done|]. split_guards. intros Hs. pose proof (Hx x (list_elem_of_here _ _)) as Hi.
  unfold stage_transition_is_invalid in Hi. split_guards.
  match goal with Ha : transition_not_allowed _ _ = false |- _ => apply allowed_advances in Ha end.
  specialize (IH _ _ (fun y Hy => Hx y (list_elem_of_further _ _ _ Hy)) Hs). subst stage. lia.
Qed.
Lemma opportunity_run_ok ks o : opportunity_ok o -> opportunity_ok (opportunity_run ks o).
Proof.
  revert o; induction ks as [|k ks IH]; intros o Ho; [done|]. cbn. apply IH.
  assert (Atomic (opportunity_call k)) as Ha
    by (destruct k; cbn [opportunity_call]; unfold set_forecast, advance_stage, add_buying_committee_member; apply _).
  specialize (Ha o). destruct (run (opportunity_call k) o) as [[[]| |] o'] eqn:Hr; cbn in *; [by eapply opportunity_call_ok|..].
  all: by rewrite Ha.
Qed.

(** C40: A sale comes to an end. From a created opportunity, whatever calls
    follow, the opportunity is valid, at most five of the calls have advanced
    the stage, each to a later one, and once it is closed as won or lost no call
    changes the stage again. *)
Theorem sale_comes_to_an_end id tenant project company committee now o0 ks :
  opportunity_create id tenant project company committee now = Ok o0 ->
  let o := opportunity_run ks o0 in
  opportunity_validate o = Ok tt /\
  (length (op_stage_history o) <= stage_rank (op_stage o) <= 5)%nat /\
  (forall next evidence t o', run (advance_stage next evidence t) o = (Ok tt, o') ->
     (stage_rank (op_stage o) < stage_rank (op_stage o'))%nat /\ op_stage o' = next) /\
  (op_stage o = OsClosedWon \/ op_stage o = OsClosedLost ->
     forall more, op_stage (opportunity_run more o) = op_stage o).
Proof.
  intros Hc o. assert (opportunity_ok o) as Ho.
  { apply opportunity_run_ok. unfold opportunity_create in Hc. inv_run. by apply opportunity_validate_iff. }
  assert (forall c next evidence t o', run (advance_stage next evidence t) c = (Ok tt, o') ->
     (stage_rank (op_stage c) < stage_rank (op_stage o'))%nat /\ op_stage o' = next) as Hadv.
  { intros c next evidence t o' Hr. unfold advance_stage in Hr. inv_run. split_guards. cbn. split; [by apply allowed_advances|done]. }
  split; [apply opportunity_validate_iff; [apply Z.lt_le_incl, Ho|done]|]. split; [|split; [apply Hadv|]].
  - pose proof (history_rank _ _ _ _ _ (ok_history _ Ho) (ok_stage _ Ho)). cbn in *. split; [lia|]. destruct (op_stage o); cbn; lia.
  - clearbody o. clear - Hadv. intros Hcl more. revert o Hcl; induction more as [|k more IH]; intros o Hcl; [done|]. cbn.
    assert (op_stage (run (opportunity_call k) o).2 = op_stage o) as Hk.
    { assert (Atomic (opportunity_call k)) as Ha
        by (destruct k; cbn [opportunity_call]; unfold set_forecast, advance_stage, add_buying_committee_member; apply _).
      specialize (Ha o). destruct (run (opportunity_call k) o) as [[[]| |] o'] eqn:Hr; cbn in *; [|by rewrite Ha..].
      destruct k; cbn [opportunity_call] in Hr.
      - unfold set_forecast in Hr. by inv_run.
      - apply Hadv in Hr as [Hlt _]. exfalso. destruct Hcl as [Hcl|Hcl]; rewrite Hcl in Hlt; destruct (op_stage o'); cbn in Hlt; lia.
      - unfold add_buying_committee_member in Hr. by inv_run. }
    rewrite IH; [exact Hk|]. by rewrite Hk.
Qed.

Module OpportunityDemo.
Import Prelude.Fixture.
Definition buyer : BuyingCommitteeMember := mkMember "ann" BrEconomicBuyer zeros64.
Definition opened : Opportunity :=
  mkOpportunity "opportunity" "tenant" "project" "company" {[buyer]} OsQualified None None ∅ ∅ None [] 1 100 100.
Lemma opened_opportunity_ok : opportunity_create "opportunity" "tenant" "project" "company" [buyer] 100 = Ok opened.
Proof. vm_compute. reflexivity. Qed.
Definition won : Opportunity := (run (advance_stage OsClosedWon zeros64 120) opened).2.
Lemma opportunity_follows_exactly_the_calls_witness : opportunity_follows_command won opened = Ok true.
Proof.
  assert (opportunity_validate opened = Ok tt) as Hv by (vm_compute; reflexivity).
  assert (run (opportunity_call (OcAdvance OsClosedWon zeros64 120)) opened = (Ok tt, won)) as Hr by (vm_compute; reflexivity).
  exact (proj2 (opportunity_follows_exactly_the_calls opened won ltac:(discriminate) Hv) (ex_intro _ (OcAdvance OsClosedWon zeros64 120) Hr)).
Defined.
Lemma sale_comes_to_an_end_witness :
  op_stage (opportunity_run [OcForecast (mkMoney 100 "EUR") zeros64 130; OcAdvance OsDiscovery zeros64 140]
    (opportunity_run [OcAdvance OsClosedWon zeros64 120] opened)) = OsClosedWon.
Proof.
  assert (op_stage (opportunity_run [OcAdvance OsClosedWon zeros64 120] opened) = OsClosedWon) as Hs by (vm_compute; reflexivity).
  rewrite <-Hs at 2.
  exact (proj2 (proj2 (proj2 (sale_comes_to_an_end _ _ _ _ _ _ _ [OcAdvance OsClosedWon zeros64 120] opened_opportunity_ok)))
    (or_introl Hs) [OcForecast (mkMoney 100 "EUR") zeros64 130; OcAdvance OsDiscovery zeros64 140]).
Defined.
End OpportunityDemo.
