(* ===== verification/CreatorHiring.v ===== *)
(** * Hiring a creator

    Models [domain-kernel/src/creator_hiring.rs]: a task offered to creators,
    the candidates and their permission to be contacted, the public listing and
    the invitations with the proofs of what a provider did, the applications
    and the award, and the check on an awarded hiring received from another
    device. The operations write before [touch] can refuse the time or the
    revision, and so do the definitions. *)
From S2P Require Import Prelude Text Money Contract MissionTypes WorkProduct Effect Checkpoint Terminal Connection Identity.
From S2P Require Import Conversation.

(** ** Data *)
Inductive CreatorHiringStatus : Type := HsDraft | HsRecruiting | HsSelectionPending | HsAwarded | HsCancelled.
#[export] Instance CreatorHiringStatus_eq_dec : EqDecision CreatorHiringStatus.
Proof. solve_decision. Defined.
#[export] Instance VerificationStatus_eq_dec : EqDecision VerificationStatus.
Proof. solve_decision. Defined.
#[export] Instance CreatorCandidateStatus_eq_dec : EqDecision CreatorCandidateStatus.
Proof. solve_decision. Defined.
#[export] Instance CreatorCandidate_eta : Eta CreatorCandidate := fun c =>
  mkCandidate (cd_creator_id c) (cd_partner_id c) (cd_person_id c) (cd_supply_class c) (cd_contact_permission c)
    (cd_permission_evidence_digest c) (cd_identity_evidence_digest c) (cd_fit_evidence_digest c) (cd_status c) (cd_added_at c).
#[export] Instance CreatorCandidate_eq_dec : EqDecision CreatorCandidate.
Proof. solve_decision. Defined.

Inductive CreatorHiringError : Type :=
| HeInvalidHiringContract
| HeInvalidTransition (from : CreatorHiringStatus) (action : string)
| HeInvalidCandidate | HeContactNotPermitted | HeInvalidInvitation | HeExternalProofMismatch | HeInvalidApplication
| HeUnverifiedApplicationOrigin | HeApplicationWindowClosed | HeInvalidAward | HeRevisionOverflow | HeInvalidTimestamp
| HeInvalidSnapshot.

Record CreatorHiringSpec : Type := mkHiringSpec {
  hp_id : Id;
  hp_tenant_id : Id;
  hp_project_id : Id;
  hp_mission_id : Id;
  hp_title : string;
  hp_brief_digest : string;
  hp_bounty : Money;
  hp_market : string;
  hp_application_deadline : DateTime;
  hp_due_at : DateTime;
}.

Record CreatorExternalProof : Type := mkProof {
  xp_effect_id : Id;
  xp_receipt_id : Id;
  xp_verification_id : Id;
  xp_provider : string;
  xp_connection_id : Id;
  xp_account_id : Id;
  xp_scope_digest : string;
  xp_provider_receipt_digest : string;
  xp_verification_evidence_digest : string;
  xp_occurred_at : DateTime;
  xp_verified_at : DateTime;
}.
#[export] Instance CreatorExternalProof_eq_dec : EqDecision CreatorExternalProof.
Proof. solve_decision. Defined.
Record CreatorListingPublication : Type := mkListing { lp_proof : CreatorExternalProof }.
#[export] Instance CreatorListingPublication_eq_dec : EqDecision CreatorListingPublication.
Proof. solve_decision. Defined.
Record CreatorInvitation : Type := mkInvitation {
  iv_creator_id : Id;
  iv_effect_id : Id;
  iv_scope_digest : string;
  iv_prepared_at : DateTime;
  iv_proof : option CreatorExternalProof;
}.
#[export] Instance CreatorInvitation_eta : Eta CreatorInvitation := fun i =>
  mkInvitation (iv_creator_id i) (iv_effect_id i) (iv_scope_digest i) (iv_prepared_at i) (iv_proof i).
#[export] Instance CreatorInvitation_eq_dec : EqDecision CreatorInvitation.
Proof. solve_decision. Defined.

Inductive CreatorApplicationOrigin : Type :=
| VerifiedInvitation (effect_id : Id)
| VerifiedListing (effect_id : Id).
#[export] Instance CreatorApplicationOrigin_eq_dec : EqDecision CreatorApplicationOrigin.
Proof. solve_decision. Defined.
Inductive CreatorApplicationStatus : Type := ApActive | ApWithdrawn | ApAwarded | ApNotSelected.
#[export] Instance CreatorApplicationStatus_eq_dec : EqDecision CreatorApplicationStatus.
Proof. solve_decision. Defined.

Record CreatorApplicationInput : Type := mkApplicationInput {
  ai_id : Id;
  ai_creator_id : Id;
  ai_partner_id : Id;
  ai_origin : CreatorApplicationOrigin;
  ai_offer_digest : string;
  ai_proposed_amount : Money;
  ai_proposal_digest : string;
  ai_rights_acknowledgement_digest : string;
  ai_submitted_at : DateTime;
}.
Record CreatorApplication : Type := mkApplication {
  an_id : Id;
  an_creator_id : Id;
  an_partner_id : Id;
  an_origin : CreatorApplicationOrigin;
  an_offer_digest : string;
  an_proposed_amount : Money;
  an_proposal_digest : string;
  an_rights_acknowledgement_digest : string;
  an_submitted_at : DateTime;
  an_status : CreatorApplicationStatus;
}.
#[export] Instance CreatorApplication_eta : Eta CreatorApplication := fun a =>
  mkApplication (an_id a) (an_creator_id a) (an_partner_id a) (an_origin a) (an_offer_digest a) (an_proposed_amount a)
    (an_proposal_digest a) (an_rights_acknowledgement_digest a) (an_submitted_at a) (an_status a).
#[export] Instance CreatorApplication_eq_dec : EqDecision CreatorApplication.
Proof. solve_decision. Defined.

Record CreatorHiringAward : Type := mkAward {
  aw_hiring_id : Id;
  aw_tenant_id : Id;
  aw_project_id : Id;
  aw_mission_id : Id;
  aw_creator_id : Id;
  aw_partner_id : Id;
  aw_application_id : Id;
  aw_offer_digest : string;
  aw_bounty : Money;
  aw_selected_by : Id;
  aw_selection_evidence_digest : string;
  aw_selected_at : DateTime;
}.
#[export] Instance CreatorHiringAward_eq_dec : EqDecision CreatorHiringAward.
Proof. solve_decision. Defined.

Record CreatorHiring : Type := mkHiring {
  hi_id : Id;
  hi_tenant_id : Id;
  hi_project_id : Id;
  hi_mission_id : Id;
  hi_title : string;
  hi_brief_digest : string;
  hi_bounty : Money;
  hi_market : string;
  hi_application_deadline : DateTime;
  hi_due_at : DateTime;
  hi_status : CreatorHiringStatus;
  hi_candidates : list CreatorCandidate;
  hi_listing : option CreatorListingPublication;
  hi_invitations : list CreatorInvitation;
  hi_applications : list CreatorApplication;
  hi_award : option CreatorHiringAward;
  hi_state_revision : Z; (* u64 *)
  hi_created_at : DateTime;
  hi_updated_at : DateTime;
}.
#[export] Instance CreatorHiring_eta : Eta CreatorHiring := fun h =>
  mkHiring (hi_id h) (hi_tenant_id h) (hi_project_id h) (hi_mission_id h) (hi_title h) (hi_brief_digest h) (hi_bounty h)
    (hi_market h) (hi_application_deadline h) (hi_due_at h) (hi_status h) (hi_candidates h) (hi_listing h) (hi_invitations h)
    (hi_applications h) (hi_award h) (hi_state_revision h) (hi_created_at h) (hi_updated_at h).
#[export] Instance CreatorHiring_eq_dec : EqDecision CreatorHiring.
Proof. solve_decision. Defined.

Definition validates_task_scope (self : CreatorHiringAward) (tenant_id project_id mission_id creator_id : Id) (bounty : Money)
    (now : DateTime) : bool :=
  negb (trim_is_empty (aw_hiring_id self))
  && bool_decide (aw_tenant_id self = tenant_id)
  && bool_decide (aw_project_id self = project_id)
  && bool_decide (aw_mission_id self = mission_id)
  && bool_decide (aw_creator_id self = creator_id)
  && bool_decide (aw_bounty self = bounty)
  && negb (trim_is_empty (aw_selected_by self))
  && is_sha256 (aw_offer_digest self)
  && is_sha256 (aw_selection_evidence_digest self)
  && (aw_selected_at self <=? now).

(** [CreatorExternalProof::is_valid] *)
Definition proof_is_valid (self : CreatorExternalProof) (now : DateTime) : bool :=
  negb (trim_is_empty (xp_effect_id self))
  && negb (trim_is_empty (xp_receipt_id self))
  && negb (trim_is_empty (xp_verification_id self))
  && negb (trim_is_empty (xp_provider self))
  && negb (trim_is_empty (xp_connection_id self))
  && negb (trim_is_empty (xp_account_id self))
  && is_sha256 (xp_scope_digest self)
  && is_sha256 (xp_provider_receipt_digest self)
  && is_sha256 (xp_verification_evidence_digest self)
  && (xp_occurred_at self <=? xp_verified_at self)
  && (xp_verified_at self <=? now).

(** [usize::to_le_bytes] on a 64-bit target, and the length-prefixed field of
    this module. *)
Definition to_le_bytes (n : Z) : string :=
  String (be_byte n 0) (String (be_byte n 1) (String (be_byte n 2) (String (be_byte n 3)
  (String (be_byte n 4) (String (be_byte n 5) (String (be_byte n 6) (String (be_byte n 7) ""))))))).
Definition le_hash_field (value : string) : string := String.append (to_le_bytes (str_len value)) value.
Definition le_hash_fields (fields : list string) : string :=
  foldr (fun f rest => String.append (le_hash_field f) rest) "" fields.

Section hiring.
Context `{!Chrono} `{!Sha256}.

Definition scoped_digest (kind : string) (values : list string) : string := sha256_hex (le_hash_fields (kind :: values)).

Definition offer_digest (self : CreatorHiring) : string :=
  sha256_hex (le_hash_fields
    [hi_id self; hi_tenant_id self; hi_project_id self; hi_mission_id self; hi_title self; hi_brief_digest self;
     currency (hi_bounty self); hi_market self; pretty (amount_minor (hi_bounty self));
     to_rfc3339 (hi_application_deadline self); to_rfc3339 (hi_due_at self)]).
Definition listing_scope_digest (self : CreatorHiring) : string :=
  scoped_digest "creator_listing" [hi_id self; offer_digest self].
Definition invitation_scope_digest (self : CreatorHiring) (creator_id : Id) : string :=
  scoped_digest "creator_invitation" [hi_id self; creator_id; offer_digest self].

Definition hiring_create (spec : CreatorHiringSpec) (now : DateTime) : result CreatorHiringError CreatorHiring :=
  reject_if (trim_is_empty (hp_id spec)
    || trim_is_empty (hp_tenant_id spec)
    || trim_is_empty (hp_project_id spec)
    || trim_is_empty (hp_mission_id spec)
    || trim_is_empty (hp_title spec)
    || negb (is_sha256 (hp_brief_digest spec))
    || (amount_minor (hp_bounty spec) <=? 0)
    || trim_is_empty (hp_market spec)
    || (hp_application_deadline spec <=? now)
    || (hp_due_at spec <=? hp_application_deadline spec)) HeInvalidHiringContract;;
  mret (mkHiring (hp_id spec) (hp_tenant_id spec) (hp_project_id spec) (hp_mission_id spec) (trim (hp_title spec))
    (hp_brief_digest spec) (hp_bounty spec) (trim (hp_market spec)) (hp_application_deadline spec) (hp_due_at spec) HsDraft
    [] None [] [] None 1 now now).

(** ** Operations *)
Abbreviation hiring_op := (SR CreatorHiring CreatorHiringError) (only parsing).

Definition hiring_require_status (self : CreatorHiring) (allowed : list CreatorHiringStatus) (action : string)
    : result CreatorHiringError unit :=
  reject_if (negb (bool_decide (hi_status self ∈ allowed))) (HeInvalidTransition (hi_status self) action).
Definition hiring_touch (now : DateTime) : hiring_op unit :=
  self ← get;
  reject (now <? hi_updated_at self) HeInvalidTimestamp;;
  revision ← lift (ok_or (checked_add u64_max (hi_state_revision self) 1) HeRevisionOverflow);
  modify (fun self => self <| hi_state_revision := revision |> <| hi_updated_at := now |>).

Definition hiring_open (now : DateTime) : hiring_op unit :=
  self ← get;
  lift (hiring_require_status self [HsDraft] "open");;
  reject (hi_application_deadline self <=? now) HeApplicationWindowClosed;;
  modify (fun self => self <| hi_status := HsRecruiting |>);;
  hiring_touch now.

Definition shortlist (partner : Partner) (creator_id : Id) (identity_evidence_digest fit_evidence_digest : string)
    (now : DateTime) : hiring_op unit :=
  self ← get;
  lift (hiring_require_status self [HsDraft; HsRecruiting] "shortlist");;
  reject (negb (bool_decide (pa_tenant_id partner = hi_tenant_id self))
    || negb (bool_decide (pa_project_id partner = hi_project_id self))
    || trim_is_empty creator_id
    || negb (is_sha256 identity_evidence_digest)
    || negb (is_sha256 fit_evidence_digest)
    || existsb (fun candidate => bool_decide (cd_creator_id candidate = creator_id)
         || bool_decide (cd_partner_id candidate = pa_id partner)) (hi_candidates self)) HeInvalidCandidate;;
  let status := if can_contact partner then CcContactable else CcResearchOnly in
  modify (fun self => self <| hi_candidates ::= fun l => l ++ [mkCandidate creator_id (pa_id partner) (pa_person_id partner)
    (pa_supply_class partner) (pa_contact_permission partner) (pa_permission_evidence_digest partner)
    identity_evidence_digest fit_evidence_digest status now] |>);;
  hiring_touch now.

Definition record_verified_listing (proof : CreatorExternalProof) (now : DateTime) : hiring_op unit :=
  self ← get;
  lift (hiring_require_status self [HsRecruiting] "record_verified_listing");;
  reject (is_some (hi_listing self)
    || negb (bool_decide (xp_scope_digest proof = listing_scope_digest self))
    || negb (proof_is_valid proof now)) HeExternalProofMismatch;;
  modify (fun self => self <| hi_listing := Some (mkListing proof) |>);;
  hiring_touch now.

(** [candidate_mut]: the first candidate with the creator's identifier. *)
Definition candidate_mut (self : CreatorHiring) (creator_id : Id) : result CreatorHiringError (nat * CreatorCandidate) :=
  ok_or (list_find (fun candidate => cd_creator_id candidate = creator_id) (hi_candidates self)) HeInvalidCandidate.
Definition set_candidate_status (index : nat) (status : CreatorCandidateStatus) (self : CreatorHiring) : CreatorHiring :=
  self <| hi_candidates ::= alter (fun candidate => candidate <| cd_status := status |>) index |>.

Definition prepare_invitation (creator_id effect_id : Id) (scope_digest : string) (now : DateTime) : hiring_op unit :=
  self ← get;
  lift (hiring_require_status self [HsRecruiting] "prepare_invitation");;
  let expected_scope := invitation_scope_digest self creator_id in
  reject (trim_is_empty effect_id
    || negb (bool_decide (scope_digest = expected_scope))
    || existsb (fun invitation => bool_decide (iv_creator_id invitation = creator_id)
         || bool_decide (iv_effect_id invitation = effect_id)) (hi_invitations self)) HeInvalidInvitation;;
  candidate ← lift (candidate_mut self creator_id);
  reject (negb (bool_decide (cd_status candidate.2 = CcContactable))) HeContactNotPermitted;;
  modify (set_candidate_status candidate.1 CcInvitationPrepared);;
  modify (fun self => self <| hi_invitations ::= fun l => l ++ [mkInvitation creator_id effect_id scope_digest now None] |>);;
  hiring_touch now.

Definition record_verified_invitation (creator_id : Id) (proof : CreatorExternalProof) (now : DateTime) : hiring_op unit :=
  self ← get;
  lift (hiring_require_status self [HsRecruiting] "record_verified_invitation");;
  found ← lift (ok_or (list_find (fun invitation => iv_creator_id invitation = creator_id) (hi_invitations self))
    HeInvalidInvitation);
  let invitation := found.2 in
  reject (is_some (iv_proof invitation)
    || negb (bool_decide (xp_effect_id proof = iv_effect_id invitation))
    || negb (bool_decide (xp_scope_digest proof = iv_scope_digest invitation))
    || negb (bool_decide (xp_scope_digest proof = invitation_scope_digest self creator_id))
    || negb (proof_is_valid proof now)) HeExternalProofMismatch;;
  modify (fun self => self <| hi_invitations ::= alter (fun invitation => invitation <| iv_proof := Some proof |>) found.1 |>);;
  candidate ← lift (candidate_mut self creator_id);
  modify (set_candidate_status candidate.1 CcInvited);;
  hiring_touch now.

Definition can_self_apply (supply_class : PartnerSupplyClass) : bool :=
  bool_decide (supply_class = HartevoOptIn) || bool_decide (supply_class = OfficialAuthorizedNetwork).
Definition validate_application_origin (self : CreatorHiring) (candidate : CreatorCandidate)
    (origin : CreatorApplicationOrigin) : result CreatorHiringError unit :=
  match origin with
  | VerifiedInvitation effect_id =>
      reject_if (negb (existsb (fun invitation => bool_decide (iv_creator_id invitation = cd_creator_id candidate)
          && bool_decide (iv_effect_id invitation = effect_id)
          && is_some (iv_proof invitation)) (hi_invitations self))) HeUnverifiedApplicationOrigin
  | VerifiedListing effect_id =>
      reject_if (negb (is_some_and (fun listing => bool_decide (xp_effect_id (lp_proof listing) = effect_id)) (hi_listing self)
        && can_self_apply (cd_supply_class candidate))) HeUnverifiedApplicationOrigin
  end.

Definition apply_ (input : CreatorApplicationInput) (now : DateTime) : hiring_op unit :=
  self ← get;
  lift (hiring_require_status self [HsRecruiting; HsSelectionPending] "apply");;
  reject ((hi_application_deadline self <? now)
    || (now <? ai_submitted_at input)
    || (hi_application_deadline self <? ai_submitted_at input)) HeApplicationWindowClosed;;
  reject (trim_is_empty (ai_id input)
    || negb (bool_decide (ai_offer_digest input = offer_digest self))
    || negb (bool_decide (ai_proposed_amount input = hi_bounty self))
    || negb (is_sha256 (ai_proposal_digest input))
    || negb (is_sha256 (ai_rights_acknowledgement_digest input))
    || existsb (fun application => bool_decide (an_id application = ai_id input)
         || (bool_decide (an_creator_id application = ai_creator_id input)
             && bool_decide (an_status application = ApActive))) (hi_applications self)) HeInvalidApplication;;
  candidate ← lift (ok_or (list_find (fun candidate => cd_creator_id candidate = ai_creator_id input
    /\ cd_partner_id candidate = ai_partner_id input) (hi_candidates self)) HeInvalidCandidate);
  lift (validate_application_origin self candidate.2 (ai_origin input));;
  modify (set_candidate_status candidate.1 CcApplied);;
  modify (fun self => self <| hi_applications ::= fun l => l ++ [mkApplication (ai_id input) (ai_creator_id input)
    (ai_partner_id input) (ai_origin input) (ai_offer_digest input) (ai_proposed_amount input) (ai_proposal_digest input)
    (ai_rights_acknowledgement_digest input) (ai_submitted_at input) ApActive] |>
    <| hi_status := HsSelectionPending |>);;
  hiring_touch now.

Definition set_application_status (status : CreatorApplicationStatus) (application : CreatorApplication) : CreatorApplication :=
  application <| an_status := status |>.
Definition application_is_active (application : CreatorApplication) : bool := bool_decide (an_status application = ApActive).

Definition withdraw_application (application_id : Id) (now : DateTime) : hiring_op unit :=
  self ← get;
  lift (hiring_require_status self [HsRecruiting; HsSelectionPending] "withdraw_application");;
  found ← lift (ok_or (list_find (fun application => an_id application = application_id) (hi_applications self))
    HeInvalidApplication);
  reject (negb (application_is_active found.2)) HeInvalidApplication;;
  modify (fun self => self <| hi_applications ::= alter (set_application_status ApWithdrawn) found.1 |>);;
  candidate ← lift (candidate_mut self (an_creator_id found.2));
  modify (set_candidate_status candidate.1 CcWithdrawn);;
  modify (fun self => if existsb application_is_active (hi_applications self) then self
    else self <| hi_status := HsRecruiting |>);;
  hiring_touch now.

Definition settle_application (application_id : Id) (application : CreatorApplication) : CreatorApplication :=
  if bool_decide (an_id application = application_id) then set_application_status ApAwarded application
  else if application_is_active application then set_application_status ApNotSelected application
  else application.
Definition settle_candidate (creator_id : Id) (candidate : CreatorCandidate) : CreatorCandidate :=
  if bool_decide (cd_creator_id candidate = creator_id) then candidate <| cd_status := CcAwarded |>
  else if bool_decide (cd_status candidate = CcApplied) then candidate <| cd_status := CcNotSelected |>
  else candidate.

(** [award]; the name of a field of the record too. *)
Definition hiring_award (application_id selected_by : Id) (selection_evidence_digest : string) (now : DateTime)
    : hiring_op CreatorHiringAward :=
  self ← get;
  lift (hiring_require_status self [HsSelectionPending] "award");;
  reject (is_some (hi_award self) || trim_is_empty selected_by || negb (is_sha256 selection_evidence_digest)) HeInvalidAward;;
  found ← lift (ok_or (list_find (fun application => an_id application = application_id
    /\ an_status application = ApActive) (hi_applications self)) HeInvalidApplication);
  let selected := found.2 in
  let award := mkAward (hi_id self) (hi_tenant_id self) (hi_project_id self) (hi_mission_id self) (an_creator_id selected)
    (an_partner_id selected) (an_id selected) (an_offer_digest selected) (an_proposed_amount selected) selected_by
    selection_evidence_digest now in
  modify (fun self => self <| hi_applications ::= fmap (settle_application application_id) |>
    <| hi_candidates ::= fmap (settle_candidate (an_creator_id selected)) |>
    <| hi_award := Some award |> <| hi_status := HsAwarded |>);;
  hiring_touch now;;
  mret award.

Definition hiring_cancel (now : DateTime) : hiring_op unit :=
  self ← get;
  lift (hiring_require_status self [HsDraft; HsRecruiting; HsSelectionPending] "cancel");;
  modify (fun self => self <| hi_status := HsCancelled |>);;
  hiring_touch now.

(** ** An awarded hiring from another device *)
Definition validate_awarded_hiring_contract (hiring : CreatorHiring) (mission : Mission) (now : DateTime)
    : result CreatorHiringError unit :=
  reject_if (trim_is_empty (hi_id hiring)
    || trim_is_empty (hi_tenant_id hiring)
    || trim_is_empty (hi_project_id hiring)
    || trim_is_empty (hi_mission_id hiring)
    || trim_is_empty (hi_title hiring)
    || negb (is_sha256 (hi_brief_digest hiring))
    || negb (is_positive (hi_bounty hiring))
    || trim_is_empty (hi_market hiring)
    || (hi_application_deadline hiring <=? hi_created_at hiring)
    || (hi_due_at hiring <=? hi_application_deadline hiring)
    || (hi_updated_at hiring <? hi_created_at hiring)
    || (now <? hi_updated_at hiring)
    || (hi_state_revision hiring <? 2)
    || negb (bool_decide (hi_status hiring = HsAwarded))
    || negb (bool_decide (ms_tenant_id mission = hi_tenant_id hiring))
    || negb (bool_decide (ms_project_id mission = hi_project_id hiring))
    || negb (bool_decide (ms_id mission = hi_mission_id hiring))) HeInvalidSnapshot.

Definition valid_non_public_permission (candidate : CreatorCandidate) (expected : ContactPermission) : bool :=
  let evidence_valid := is_some_and is_sha256 (cd_permission_evidence_digest candidate) in
  (bool_decide (cd_contact_permission candidate = expected) && evidence_valid)
  || (bool_decide (cd_contact_permission candidate = PermWithdrawn)
      && evidence_valid
      && negb (bool_decide (cd_status candidate = CcInvitationPrepared))).
Definition permission_shape_valid (candidate : CreatorCandidate) : bool :=
  match cd_supply_class candidate with
  | PublicCandidate => bool_decide (cd_contact_permission candidate = PermResearchOnly)
      && is_none (cd_permission_evidence_digest candidate)
      && bool_decide (cd_status candidate = CcResearchOnly)
  | OfficialAuthorizedNetwork => valid_non_public_permission candidate NetworkAuthorized
  | HartevoOptIn => valid_non_public_permission candidate ExplicitOptIn
  | TenantPrivate => valid_non_public_permission candidate TenantOwnedRelationship
  end.
(** The loop with the identifiers seen so far. *)
Fixpoint candidates_validate (hiring : CreatorHiring) (creator_ids partner_ids : gset string)
    (candidates : list CreatorCandidate) : result CreatorHiringError unit :=
  match candidates with
  | [] => mret tt
  | candidate :: rest =>
      reject_if (trim_is_empty (cd_creator_id candidate)
        || trim_is_empty (cd_partner_id candidate)
        || contains creator_ids (cd_creator_id candidate)
        || contains partner_ids (cd_partner_id candidate)
        || negb (is_sha256 (cd_identity_evidence_digest candidate))
        || negb (is_sha256 (cd_fit_evidence_digest candidate))
        || (cd_added_at candidate <? hi_created_at hiring)
        || (hi_updated_at hiring <? cd_added_at candidate)
        || negb (permission_shape_valid candidate)) HeInvalidSnapshot;;
      candidates_validate hiring ({[cd_creator_id candidate]} ∪ creator_ids) ({[cd_partner_id candidate]} ∪ partner_ids) rest
  end.
Definition validate_hiring_candidates (hiring : CreatorHiring) : result CreatorHiringError unit :=
  candidates_validate hiring ∅ ∅ (hi_candidates hiring).

Section snapshots.
Context `{!SerdeScope}.

Definition effect_by_id (mission : Mission) (id : Id) : option Effect :=
  List.find (fun effect => bool_decide (ef_id effect = id)) (ms_effects mission).
Definition validate_external_receipt_and_verification (proof : CreatorExternalProof) (effect : Effect)
    : result CreatorHiringError unit :=
  receipt ← ok_or (ef_receipt effect) HeExternalProofMismatch;
  verification ← ok_or (ef_verification effect) HeExternalProofMismatch;
  reject_if (negb (bool_decide (rc_id receipt = xp_receipt_id proof))
    || negb (bool_decide (rc_provider receipt = es_provider (ef_spec effect)))
    || negb (bool_decide (rc_provider receipt = xp_provider proof))
    || negb (bool_decide (rc_request_digest receipt = approval_digest effect))
    || negb (rc_accepted_at receipt =? xp_occurred_at proof)
    || negb (bool_decide (provider_receipt_event_digest receipt = xp_provider_receipt_digest proof))
    || negb (bool_decide (vf_id verification = xp_verification_id proof))
    || negb (bool_decide (vf_status verification = VConfirmed))
    || negb (vf_independent verification)
    || negb (bool_decide (vf_receipt_id verification = rc_id receipt))
    || negb (vf_observed_at verification =? xp_verified_at proof)
    || (vf_observed_at verification <? rc_accepted_at receipt)
    || negb (bool_decide (vf_evidence_digest verification = xp_verification_evidence_digest proof))) HeExternalProofMismatch.

Definition validate_external_proof_against_effect (proof : CreatorExternalProof) (mission : Mission)
    (expected_capability : string) (expected_class : EffectClass) (expected_scope : string) (now : DateTime)
    : result CreatorHiringError unit :=
  effect ← ok_or (effect_by_id mission (xp_effect_id proof)) HeExternalProofMismatch;
  let spec := ef_spec effect in
  reject_if (negb (proof_is_valid proof now)
    || negb (bool_decide (ef_tenant_id effect = ms_tenant_id mission))
    || negb (bool_decide (ef_project_id effect = ms_project_id mission))
    || negb (bool_decide (ef_mission_id effect = ms_id mission))
    || negb (bool_decide (ef_status effect = EVerified))
    || negb (bool_decide (es_capability spec = expected_capability))
    || negb (bool_decide (es_effect_class spec = expected_class))
    || negb (bool_decide (es_payload_digest spec = expected_scope))
    || negb (bool_decide (es_connection_id spec = Some (xp_connection_id proof)))
    || negb (bool_decide (es_account_id spec = Some (xp_account_id proof)))) HeExternalProofMismatch;;
  validate_external_receipt_and_verification proof effect.

Definition validate_invitation_effect (hiring : CreatorHiring) (candidate : CreatorCandidate) (invitation : CreatorInvitation)
    (mission : Mission) : result CreatorHiringError unit :=
  effect ← ok_or (effect_by_id mission (iv_effect_id invitation)) HeExternalProofMismatch;
  let spec := ef_spec effect in
  guard ← ok_or (es_creator_contact_guard spec) HeExternalProofMismatch;
  reject_if (negb (bool_decide (es_capability spec = "partner.engage"))
    || negb (bool_decide (es_effect_class spec = Outreach))
    || negb (bool_decide (es_payload_digest spec = iv_scope_digest invitation))
    || negb (bool_decide (kg_hiring_id guard = hi_id hiring))
    || negb (bool_decide (kg_creator_id guard = cd_creator_id candidate))
    || negb (bool_decide (kg_partner_id guard = cd_partner_id candidate))
    || negb (bool_decide (kg_scope_digest guard = iv_scope_digest invitation))
    || negb (bool_decide (cd_permission_evidence_digest candidate = Some (kg_permission_evidence_digest guard))))
    HeExternalProofMismatch.

Definition candidate_of (hiring : CreatorHiring) (creator_id : Id) : option CreatorCandidate :=
  List.find (fun candidate => bool_decide (cd_creator_id candidate = creator_id)) (hi_candidates hiring).
Fixpoint invitations_validate (hiring : CreatorHiring) (mission : Mission) (now : DateTime)
    (invited_creators invitation_effects : gset string) (invitations : list CreatorInvitation) : result CreatorHiringError unit :=
  match invitations with
  | [] => mret tt
  | invitation :: rest =>
      candidate ← ok_or (candidate_of hiring (iv_creator_id invitation)) HeInvalidSnapshot;
      let expected_scope := invitation_scope_digest hiring (iv_creator_id invitation) in
      reject_if (trim_is_empty (iv_creator_id invitation)
        || trim_is_empty (iv_effect_id invitation)
        || negb (bool_decide (iv_scope_digest invitation = expected_scope))
        || (iv_prepared_at invitation <? cd_added_at candidate)
        || (hi_updated_at hiring <? iv_prepared_at invitation)
        || contains invited_creators (iv_creator_id invitation)
        || contains invitation_effects (iv_effect_id invitation)
        || bool_decide (cd_supply_class candidate = PublicCandidate)) HeInvalidSnapshot;;
      validate_invitation_effect hiring candidate invitation mission;;
      match iv_proof invitation with
      | Some proof => validate_external_proof_against_effect proof mission "partner.engage" Outreach expected_scope now
      | None => mret tt
      end;;
      invitations_validate hiring mission now ({[iv_creator_id invitation]} ∪ invited_creators)
        ({[iv_effect_id invitation]} ∪ invitation_effects) rest
  end.
Definition validate_hiring_external_paths (hiring : CreatorHiring) (mission : Mission) (now : DateTime)
    : result CreatorHiringError unit :=
  match hi_listing hiring with
  | Some listing => validate_external_proof_against_effect (lp_proof listing) mission "creator.task.publish" ExternalWrite
      (listing_scope_digest hiring) now
  | None => mret tt
  end;;
  invitations_validate hiring mission now ∅ ∅ (hi_invitations hiring).
End snapshots.

Definition valid_application_origin (hiring : CreatorHiring) (candidate : CreatorCandidate) (application : CreatorApplication)
    : bool :=
  match an_origin application with
  | VerifiedInvitation effect_id => existsb (fun invitation => bool_decide (iv_creator_id invitation = an_creator_id application)
      && bool_decide (iv_effect_id invitation = effect_id)
      && is_some (iv_proof invitation)) (hi_invitations hiring)
  | VerifiedListing effect_id => is_some_and (fun listing => bool_decide (xp_effect_id (lp_proof listing) = effect_id)
      && can_self_apply (cd_supply_class candidate)) (hi_listing hiring)
  end.
Fixpoint applications_validate (hiring : CreatorHiring) (application_ids : gset string) (applications : list CreatorApplication)
    : result CreatorHiringError unit :=
  match applications with
  | [] => mret tt
  | application :: rest =>
      candidate ← ok_or (List.find (fun candidate => bool_decide (cd_creator_id candidate = an_creator_id application)
        && bool_decide (cd_partner_id candidate = an_partner_id application)) (hi_candidates hiring)) HeInvalidSnapshot;
      reject_if (trim_is_empty (an_id application)
        || contains application_ids (an_id application)
        || negb (bool_decide (an_offer_digest application = offer_digest hiring))
        || negb (bool_decide (an_proposed_amount application = hi_bounty hiring))
        || negb (is_sha256 (an_proposal_digest application))
        || negb (is_sha256 (an_rights_acknowledgement_digest application))
        || (an_submitted_at application <? cd_added_at candidate)
        || (hi_application_deadline hiring <? an_submitted_at application)
        || (hi_updated_at hiring <? an_submitted_at application)
        || bool_decide (an_status application = ApActive)
        || negb (valid_application_origin hiring candidate application)) HeInvalidSnapshot;;
      applications_validate hiring ({[an_id application]} ∪ application_ids) rest
  end.
Definition awarded_applications (hiring : CreatorHiring) : list CreatorApplication :=
  List.filter (fun application => bool_decide (an_status application = ApAwarded)) (hi_applications hiring).
Definition validate_hiring_applications_and_award (hiring : CreatorHiring) (now : DateTime) : result CreatorHiringError unit :=
  applications_validate hiring ∅ (hi_applications hiring);;
  award ← ok_or (hi_award hiring) HeInvalidSnapshot;
  match awarded_applications hiring with
  | [selected] =>
      selected_candidate ← ok_or (candidate_of hiring (an_creator_id selected)) HeInvalidSnapshot;
      reject_if (negb (validates_task_scope award (hi_tenant_id hiring) (hi_project_id hiring) (hi_mission_id hiring)
          (an_creator_id selected) (hi_bounty hiring) now)
        || negb (bool_decide (aw_hiring_id award = hi_id hiring))
        || negb (bool_decide (aw_partner_id award = an_partner_id selected))
        || negb (bool_decide (aw_application_id award = an_id selected))
        || negb (bool_decide (aw_offer_digest award = offer_digest hiring))
        || negb (bool_decide (aw_offer_digest award = an_offer_digest selected))
        || (aw_selected_at award <? an_submitted_at selected)
        || (hi_updated_at hiring <? aw_selected_at award)
        || negb (bool_decide (cd_status selected_candidate = CcAwarded))
        || existsb (fun candidate => negb (bool_decide (cd_creator_id candidate = an_creator_id selected))
             && bool_decide (cd_status candidate = CcAwarded)) (hi_candidates hiring)) HeInvalidSnapshot
  | _ => Err HeInvalidSnapshot
  end.

Definition validate_awarded_snapshot `{!SerdeScope} (self : CreatorHiring) (mission : Mission) (now : DateTime)
    : result CreatorHiringError unit :=
  validate_awarded_hiring_contract self mission now;;
  validate_hiring_candidates self;;
  validate_hiring_external_paths self mission now;;
  validate_hiring_applications_and_award self now.
End hiring.
