(* ===== verification/HiringSafety.v ===== *)
(** * What hiring guarantees

    An award goes to one applicant who was reached over a verified invitation or
    listing and accepted the offer as it stands, and it is final; nobody is
    invited without permission; and a hiring built by successful calls passes
    the check that other devices make. *)
From S2P Require Import Prelude Text Money Contract MissionTypes WorkProduct Effect Checkpoint Terminal Connection Identity.
From S2P Require Import Conversation CreatorHiring Mission MissionMachine MissionFixture.

Inductive HiringCall : Type :=
| HcOpen
| HcShortlist (partner : Partner) (creator : Id) (identity_evidence fit_evidence : string)
| HcListing (proof : CreatorExternalProof)
| HcPrepare (creator effect : Id) (scope : string)
| HcInvited (creator : Id) (proof : CreatorExternalProof)
| HcApply (input : CreatorApplicationInput)
| HcWithdraw (application : Id)
| HcAward (application selected_by : Id) (evidence : string)
| HcCancel.

Section calls.
Context `{!Chrono} `{!Sha256}.

Definition hiring_call (k : HiringCall) (now : DateTime) : SR CreatorHiring CreatorHiringError unit :=
  match k with
  | HcOpen => hiring_open now
  | HcShortlist partner creator identity fit => shortlist partner creator identity fit now
  | HcListing proof => record_verified_listing proof now
  | HcPrepare creator effect scope => prepare_invitation creator effect scope now
  | HcInvited creator proof => record_verified_invitation creator proof now
  | HcApply input => apply_ input now
  | HcWithdraw application => withdraw_application application now
  | HcAward application selected_by evidence => hiring_award application selected_by evidence now;; mret tt
  | HcCancel => hiring_cancel now
  end.

(** ** What a call changes, before the revision and the time *)
Definition shortlisted (partner : Partner) (creator : Id) (identity fit : string) (now : DateTime) : CreatorCandidate :=
  mkCandidate creator (pa_id partner) (pa_person_id partner) (pa_supply_class partner) (pa_contact_permission partner)
    (pa_permission_evidence_digest partner) identity fit (if can_contact partner then CcContactable else CcResearchOnly) now.
Definition applied (input : CreatorApplicationInput) : CreatorApplication :=
  mkApplication (ai_id input) (ai_creator_id input) (ai_partner_id input) (ai_origin input) (ai_offer_digest input)
    (ai_proposed_amount input) (ai_proposal_digest input) (ai_rights_acknowledgement_digest input) (ai_submitted_at input) ApActive.
Definition award_for (h : CreatorHiring) (a : CreatorApplication) (by_ : Id) (evidence : string) (now : DateTime) : CreatorHiringAward :=
  mkAward (hi_id h) (hi_tenant_id h) (hi_project_id h) (hi_mission_id h) (an_creator_id a) (an_partner_id a) (an_id a)
    (an_offer_digest a) (an_proposed_amount a) by_ evidence now.

Inductive hiring_change (h : CreatorHiring) (now : DateTime) : CreatorHiring -> Prop :=
| HgStatus s : hi_status h <> HsAwarded -> s <> HsAwarded -> hiring_change h now (h <| hi_status := s |>)
| HgShortlist partner creator identity fit :
    hi_status h <> HsAwarded ->
    (forall c, c ∈ hi_candidates h -> cd_creator_id c <> creator /\ cd_partner_id c <> pa_id partner) ->
    trim_is_empty creator = false -> is_sha256 identity = true -> is_sha256 fit = true ->
    hiring_change h now (h <| hi_candidates ::= fun l => l ++ [shortlisted partner creator identity fit now] |>)
| HgListing proof :
    hi_status h <> HsAwarded -> hi_listing h = None ->
    xp_scope_digest proof = listing_scope_digest h -> proof_is_valid proof now = true ->
    hiring_change h now (h <| hi_listing := Some (mkListing proof) |>)
| HgPrepare i c effect :
    hi_status h <> HsAwarded -> hi_candidates h !! i = Some c -> cd_status c = CcContactable ->
    trim_is_empty effect = false -> (forall v, v ∈ hi_invitations h -> iv_creator_id v <> cd_creator_id c /\ iv_effect_id v <> effect) ->
    hiring_change h now (set_candidate_status i CcInvitationPrepared h <| hi_invitations ::= fun l =>
      l ++ [mkInvitation (cd_creator_id c) effect (invitation_scope_digest h (cd_creator_id c)) now None] |>)
| HgInvited i c j v proof :
    hi_status h <> HsAwarded -> hi_candidates h !! i = Some c -> hi_invitations h !! j = Some v ->
    cd_creator_id c = iv_creator_id v -> iv_proof v = None -> xp_effect_id proof = iv_effect_id v ->
    xp_scope_digest proof = invitation_scope_digest h (iv_creator_id v) -> proof_is_valid proof now = true ->
    hiring_change h now (set_candidate_status i CcInvited
      (h <| hi_invitations ::= alter (fun v => v <| iv_proof := Some proof |>) j |>))
| HgApply i c input :
    hi_status h <> HsAwarded -> hi_candidates h !! i = Some c ->
    cd_creator_id c = ai_creator_id input -> cd_partner_id c = ai_partner_id input ->
    valid_application_origin h c (applied input) = true ->
    ai_submitted_at input <= now -> ai_submitted_at input <= hi_application_deadline h ->
    trim_is_empty (ai_id input) = false -> ai_offer_digest input = offer_digest h -> ai_proposed_amount input = hi_bounty h ->
    is_sha256 (ai_proposal_digest input) = true -> is_sha256 (ai_rights_acknowledgement_digest input) = true ->
    (forall a, a ∈ hi_applications h -> an_id a <> ai_id input) ->
    hiring_change h now (set_candidate_status i CcApplied h <| hi_applications ::= fun l => l ++ [applied input] |>
      <| hi_status := HsSelectionPending |>)
| HgWithdraw i c j a s :
    hi_status h <> HsAwarded -> s <> HsAwarded -> hi_candidates h !! i = Some c -> hi_applications h !! j = Some a ->
    cd_creator_id c = an_creator_id a -> an_status a = ApActive ->
    hiring_change h now (set_candidate_status i CcWithdrawn
      (h <| hi_applications ::= alter (set_application_status ApWithdrawn) j |>) <| hi_status := s |>)
| HgAward a by_ evidence :
    hi_status h = HsSelectionPending -> a ∈ hi_applications h -> an_status a = ApActive ->
    trim_is_empty by_ = false -> is_sha256 evidence = true ->
    hiring_change h now (h <| hi_applications ::= fmap (settle_application (an_id a)) |>
      <| hi_candidates ::= fmap (settle_candidate (an_creator_id a)) |>
      <| hi_award := Some (award_for h a by_ evidence now) |> <| hi_status := HsAwarded |>).

Definition touched (now : DateTime) (h : CreatorHiring) : CreatorHiring :=
  h <| hi_state_revision := hi_state_revision h + 1 |> <| hi_updated_at := now |>.
(** A call that succeeds makes its change and stamps it; one that fails changes
    nothing, or leaves the change without its stamp. *)
Definition hiring_outcome {A} (h : CreatorHiring) (now : DateTime) (p : result CreatorHiringError A * CreatorHiring) : Prop :=
  match p.1 with
  | Ok _ => exists d, hiring_change h now d /\ p.2 = touched now d /\ hi_updated_at h <= now
  | _ => p.2 = h \/ hiring_change h now p.2
  end.

(** The next guard of a call; when it fails, nothing has changed yet. *)
Ltac next_guard name :=
  apply walk_pair; [apply _|intros r Hr; destruct r; [done|by left..]|intros name ?; inv_run; split_guards].
Ltac next_stamp name :=
  apply walk_pair; [apply _|intros r Hr; destruct r; [done|by right..]|intros name ?; inv_run; split_guards].
Lemma touch_outcome h now d :
  hiring_change h now d -> hi_updated_at d = hi_updated_at h -> hiring_outcome h now (run (hiring_touch now) d).
Proof.
  intros Hc Hu. unfold hiring_touch. next_stamp self. next_stamp u. next_stamp r.
  known_revision. exists d. split_and!; [done|done|lia].
Qed.
Lemma then_outcome {A B} h now (m : SR CreatorHiring CreatorHiringError A) (b : B) s :
  hiring_outcome h now (run m s) -> hiring_outcome h now (run (m;; mret b) s).
Proof. intros Hm. unfold mbind, SR_mbind; cbn. by destruct (run m s) as [[a| |] s']. Qed.
(** The states a call is allowed in, when they do not include the last one. *)
Lemma allowed_states h (l : list CreatorHiringStatus) action u :
  hiring_require_status h l action = Ok u -> hi_status h ∈ l /\ (bool_decide (HsAwarded ∈ l) = false -> hi_status h <> HsAwarded).
Proof.
  unfold hiring_require_status. intros Hr. inv_run. split_guards. split; [done|]. intros Hb%bool_decide_eq_false Heq. congruence.
Qed.
Ltac in_state Hin Hna :=
  match goal with Hx : hiring_require_status _ _ _ = Ok _ |- _ =>
    apply allowed_states in Hx as [Hin Hna]; try specialize (Hna eq_refl) end.

(** Every candidate an invitation or an application names is on the list. *)
Definition people_known (h : CreatorHiring) : Prop :=
  (forall v, v ∈ hi_invitations h -> exists c, c ∈ hi_candidates h /\ cd_creator_id c = iv_creator_id v) /\
  (forall a, a ∈ hi_applications h -> exists c, c ∈ hi_candidates h /\ cd_creator_id c = an_creator_id a).
Lemma candidate_mut_known h creator :
  (exists c, c ∈ hi_candidates h /\ cd_creator_id c = creator) ->
  exists i c, candidate_mut h creator = Ok (i, c) /\ hi_candidates h !! i = Some c /\ cd_creator_id c = creator.
Proof.
  intros (c & Hc & Hid). unfold candidate_mut.
  destruct (list_find_elem_of (fun c => cd_creator_id c = creator) _ c Hc Hid) as [[i x] Hx]. rewrite Hx.
  apply list_find_Some in Hx as (Hi & Hp & _). by exists i, x.
Qed.

Lemma shortlist_outcome h now partner creator identity fit : hiring_outcome h now (run (shortlist partner creator identity fit now) h).
Proof.
  unfold shortlist. next_guard self. next_guard u. in_state Hin Hna. next_guard u.
  rewrite run_modify_bind. apply touch_outcome; [|done]. apply (HgShortlist _ _ partner creator identity fit); try done.
  intros c Hc. match goal with Hx : existsb _ _ = false |- _ => rewrite existsb_false in Hx; specialize (Hx c Hc); cbn in Hx end. by split_guards.
Qed.
Lemma open_outcome h now : hiring_outcome h now (run (hiring_open now) h).
Proof.
  unfold hiring_open. next_guard self. next_guard u. in_state Hin Hna. next_guard u.
  rewrite run_modify_bind. apply touch_outcome; [|done]. by apply HgStatus.
Qed.
Lemma cancel_outcome h now : hiring_outcome h now (run (hiring_cancel now) h).
Proof.
  unfold hiring_cancel. next_guard self. next_guard u. in_state Hin Hna.
  rewrite run_modify_bind. apply touch_outcome; [|done]. by apply HgStatus.
Qed.
Lemma listing_outcome h now proof : hiring_outcome h now (run (record_verified_listing proof now) h).
Proof.
  unfold record_verified_listing. next_guard self. next_guard u. in_state Hin Hna. next_guard u.
  rewrite run_modify_bind. apply touch_outcome; [|done]. apply HgListing; try done. by destruct (hi_listing h).
Qed.

Ltac found_at Hx i x Hi Hp := destruct Hx as [i x]; cbn [fst snd] in *;
  match goal with Hf : list_find _ _ = Some (i, x) |- _ => apply list_find_Some in Hf as (Hi & Hp & _) end.

Lemma prepare_outcome h now creator effect scope : hiring_outcome h now (run (prepare_invitation creator effect scope now) h).
Proof.
  unfold prepare_invitation. next_guard self. next_guard u. in_state Hin Hna. next_guard u. next_guard found.
  unfold candidate_mut in *. inv_run. found_at found i c Hi Hp. next_guard u. rewrite !run_modify_bind. subst.
  apply touch_outcome; [|done]. apply HgPrepare; try done. intros v Hv.
  match goal with Hx : existsb _ _ = false |- _ => pose proof (none_matches _ _ v Hx Hv) as Hf; cbn in Hf end. by split_guards.
Qed.
Lemma invited_outcome h now creator proof : people_known h ->
  hiring_outcome h now (run (record_verified_invitation creator proof now) h).
Proof.
  intros [Hk _]. unfold record_verified_invitation. next_guard self. next_guard u. in_state Hin Hna. next_guard found.
  found_at found j v Hj Hv. next_guard u. rewrite run_modify_bind. subst.
  destruct (candidate_mut_known h (iv_creator_id v)) as (i & c & Hc & Hi & Hid); [apply Hk; by eapply list_elem_of_lookup_2|].
  rewrite Hc. erewrite (run_known_bind (lift (Ok (i, c)))) by reflexivity. cbn [fst snd]. rewrite run_modify_bind.
  apply touch_outcome; [|done]. eapply HgInvited; try done. by destruct (iv_proof v).
Qed.
Lemma apply_outcome h now input : hiring_outcome h now (run (apply_ input now) h).
Proof.
  unfold apply_. next_guard self. next_guard u. in_state Hin Hna. next_guard u. next_guard u. next_guard found.
  found_at found i c Hi Hp. next_guard u. rewrite !run_modify_bind. apply touch_outcome; [|done].
  match goal with Ho : validate_application_origin _ _ _ = Ok _ |- _ => rename Ho into Horigin end. destruct Hp as [Hc Hpa].
  eapply HgApply; try done; try lia.
  - unfold valid_application_origin, validate_application_origin in *. cbn. destruct (ai_origin input); inv_run; split_guards.
    + by rewrite <-Hc.
    + destruct (hi_listing h) as [l|]; cbn in *; [|done]. by apply andb_true_iff.
  - intros a Ha. match goal with Hx : existsb _ _ = false |- _ => pose proof (none_matches _ _ a Hx Ha) as Hf; cbn in Hf end. by split_guards.
Qed.
Lemma withdraw_outcome h now application : people_known h ->
  hiring_outcome h now (run (withdraw_application application now) h).
Proof.
  intros [_ Hk]. unfold withdraw_application. next_guard self. next_guard u. in_state Hin Hna. next_guard found.
  found_at found j a Hj Ha. next_guard u. rewrite run_modify_bind.
  destruct (candidate_mut_known h (an_creator_id a)) as (i & c & Hc & Hi & Hid); [apply Hk; by eapply list_elem_of_lookup_2|].
  rewrite Hc. erewrite (run_known_bind (lift (Ok (i, c)))) by reflexivity. cbn [fst snd]. rewrite !run_modify_bind.
  unfold application_is_active in *. split_guards.
  match goal with |- hiring_outcome _ _ (run _ (if ?b then ?d else ?e)) =>
    replace (if b then d else e) with (d <| hi_status := if b then hi_status h else HsRecruiting |>) by (by destruct b) end.
  apply touch_outcome; [|done]. eapply HgWithdraw; try done. by case_match.
Qed.
Lemma award_outcome h now application by_ evidence : hiring_outcome h now (run (hiring_award application by_ evidence now;; mret tt) h).
Proof.
  apply then_outcome. unfold hiring_award. next_guard self. next_guard u. in_state Hin Hna. next_guard u. next_guard found.
  found_at found i a Hi Hp. rewrite run_modify_bind. apply then_outcome, touch_outcome; [|done]. destruct Hp as [<- Ha].
  apply (HgAward _ _ a); try done; [by apply list_elem_of_singleton in Hin|by eapply list_elem_of_lookup_2].
Qed.
Lemma hiring_call_outcome k now h : people_known h -> hiring_outcome h now (run (hiring_call k now) h).
Proof.
  intros Hk. destruct k; cbn [hiring_call].
  - apply open_outcome.
  - apply shortlist_outcome.
  - apply listing_outcome.
  - apply prepare_outcome.
  - by apply invited_outcome.
  - apply apply_outcome.
  - by apply withdraw_outcome.
  - apply award_outcome.
  - apply cancel_outcome.
Qed.
End calls.


(** ** The invariant *)
Definition may_be_contacted (c : CreatorCandidate) : bool :=
  let evidence := is_some_and is_sha256 (cd_permission_evidence_digest c) in
  match cd_supply_class c with
  | PublicCandidate => false
  | OfficialAuthorizedNetwork => bool_decide (cd_contact_permission c = NetworkAuthorized) && evidence
  | HartevoOptIn => bool_decide (cd_contact_permission c = ExplicitOptIn) && evidence
  | TenantPrivate => bool_decide (cd_contact_permission c = TenantOwnedRelationship) && evidence
  end.
Section guarantees.
Context `{!Chrono} `{!Sha256}.

Definition application_ok (h : CreatorHiring) (a : CreatorApplication) : Prop :=
  an_offer_digest a = offer_digest h /\ an_proposed_amount a = hi_bounty h /\ an_submitted_at a <= hi_application_deadline h /\
  trim_is_empty (an_id a) = false /\ is_sha256 (an_proposal_digest a) = true /\ is_sha256 (an_rights_acknowledgement_digest a) = true /\
  exists c, c ∈ hi_candidates h /\ cd_creator_id c = an_creator_id a /\ cd_partner_id c = an_partner_id a /\
    valid_application_origin h c a = true.
Record award_settled (h : CreatorHiring) (a : CreatorApplication) (w : CreatorHiringAward) : Prop := {
  as_award : hi_award h = Some w;
  as_winner : a ∈ hi_applications h;
  as_terms : w = award_for h a (aw_selected_by w) (aw_selection_evidence_digest w) (aw_selected_at w);
  as_selected : trim_is_empty (aw_selected_by w) = false /\ is_sha256 (aw_selection_evidence_digest w) = true;
  as_status : an_status a = ApAwarded;
  as_others a' : a' ∈ hi_applications h -> an_status a' <> ApActive /\ (an_status a' = ApAwarded -> a' = a);
  as_candidates c : c ∈ hi_candidates h -> cd_status c = CcAwarded <-> cd_creator_id c = an_creator_id a;
}.
Record hiring_inv (h : CreatorHiring) : Prop := {
  hv_creators : NoDup (cd_creator_id <$> hi_candidates h);
  hv_partners : NoDup (cd_partner_id <$> hi_candidates h);
  hv_public c : c ∈ hi_candidates h -> cd_supply_class c = PublicCandidate -> cd_status c = CcResearchOnly;
  hv_contact c : c ∈ hi_candidates h -> cd_status c = CcContactable \/ cd_status c = CcInvitationPrepared -> may_be_contacted c = true;
  hv_invitation v : v ∈ hi_invitations h -> iv_scope_digest v = invitation_scope_digest h (iv_creator_id v) /\
    (exists c, c ∈ hi_candidates h /\ cd_creator_id c = iv_creator_id v /\ may_be_contacted c = true) /\
    (forall p, iv_proof v = Some p -> xp_effect_id p = iv_effect_id v /\ xp_scope_digest p = iv_scope_digest v /\
       exists t, proof_is_valid p t = true);
  hv_listing l : hi_listing h = Some l -> xp_scope_digest (lp_proof l) = listing_scope_digest h /\
    exists t, proof_is_valid (lp_proof l) t = true;
  hv_ids : NoDup (an_id <$> hi_applications h);
  hv_application a : a ∈ hi_applications h -> application_ok h a;
  hv_open : hi_status h <> HsAwarded -> hi_award h = None /\ (forall a, a ∈ hi_applications h -> an_status a <> ApAwarded) /\
    (forall c, c ∈ hi_candidates h -> cd_status c <> CcAwarded);
  hv_award : hi_status h = HsAwarded -> exists a w, award_settled h a w;
}.
Lemma hiring_inv_known h : hiring_inv h -> people_known h.
Proof.
  intros Hi. split.
  - intros v Hv. destruct (hv_invitation _ Hi v Hv) as (_ & (c & Hc & He & _) & _). by exists c.
  - intros a Ha. destruct (hv_application _ Hi a Ha) as (_ & _ & _ & _ & _ & _ & c & Hc & He & _). by exists c.
Qed.
Lemma origin_not_public h c a : hiring_inv h -> c ∈ hi_candidates h -> cd_creator_id c = an_creator_id a ->
  valid_application_origin h c a = true -> cd_supply_class c <> PublicCandidate.
Proof.
  intros Hi Hc He Ho Hp. unfold valid_application_origin in Ho. destruct (an_origin a).
  - apply existsb_elem_of in Ho as (v & Hv & Hx). split_guards.
    destruct (hv_invitation _ Hi v Hv) as (_ & (c' & Hc' & He' & Hm) & _).
    assert (c' = c) as -> by (eapply nodup_key; [apply (hv_creators _ Hi)|done..|congruence]).
    unfold may_be_contacted in Hm. by rewrite Hp in Hm.
  - destruct (hi_listing h); [|done]. cbn in Ho. split_guards. unfold can_self_apply in *. rewrite Hp in *. done.
Qed.

(** A candidate but for its status. *)
Definition identity_of (c : CreatorCandidate) : CreatorCandidate := c <| cd_status := CcResearchOnly |>.
Definition people_kept (h h' : CreatorHiring) : Prop :=
  forall c, c ∈ hi_candidates h -> exists c', c' ∈ hi_candidates h' /\ identity_of c' = identity_of c.
Lemma people_kept_same h h' : hi_candidates h' = hi_candidates h -> people_kept h h'.
Proof. intros Heq c Hc. exists c. by rewrite Heq. Qed.
Lemma people_kept_keys h h' : (identity_of <$> hi_candidates h') = identity_of <$> hi_candidates h -> people_kept h h'.
Proof.
  intros Heq c Hc. assert (identity_of c ∈ identity_of <$> hi_candidates h') as Hin by (rewrite Heq; apply list_elem_of_fmap; by exists c).
  apply list_elem_of_fmap in Hin as (c' & He & Hc'). by exists c'.
Qed.
Lemma origin_kept h h' c c' a a' : identity_of c' = identity_of c -> an_origin a' = an_origin a -> an_creator_id a' = an_creator_id a ->
  (forall v, v ∈ hi_invitations h -> exists v', v' ∈ hi_invitations h' /\ iv_creator_id v' = iv_creator_id v /\
     iv_effect_id v' = iv_effect_id v /\ (is_some (iv_proof v) = true -> is_some (iv_proof v') = true)) ->
  (forall l, hi_listing h = Some l -> hi_listing h' = Some l) ->
  valid_application_origin h c a = true -> valid_application_origin h' c' a' = true.
Proof.
  intros Hc Ho Ha Hv Hl. unfold valid_application_origin. rewrite Ho. destruct (an_origin a).
  - rewrite !existsb_elem_of. intros (v & Hin & Hx). split_guards. destruct (Hv v Hin) as (v' & Hin' & Hcr & Hef & Hpr).
    exists v'. split; [done|]. rewrite Hcr, Hef, Hpr, Ha, !bool_decide_eq_true_2 by done. done.
  - destruct (hi_listing h) as [l|]; [|done]. rewrite (Hl l eq_refl). cbn.
    by replace (cd_supply_class c') with (cd_supply_class c) by (injection Hc; done).
Qed.

Definition same_offer (h h' : CreatorHiring) : Prop :=
  offer_digest h' = offer_digest h /\ hi_bounty h' = hi_bounty h /\ hi_application_deadline h' = hi_application_deadline h.
Definition invitations_kept (h h' : CreatorHiring) : Prop :=
  (forall v, v ∈ hi_invitations h -> exists v', v' ∈ hi_invitations h' /\ iv_creator_id v' = iv_creator_id v /\
     iv_effect_id v' = iv_effect_id v /\ (is_some (iv_proof v) = true -> is_some (iv_proof v') = true)) /\
  (forall l, hi_listing h = Some l -> hi_listing h' = Some l).
Lemma application_kept h h' a a' :
  same_offer h h' -> people_kept h h' -> invitations_kept h h' -> set_application_status ApActive a' = set_application_status ApActive a ->
  application_ok h a -> application_ok h' a'.
Proof.
  intros (Ho & Hb & Hd) Hp [Hv Hl] Ha (H1 & H2 & H3 & H4 & H5 & H6 & c & Hc & H7 & H8 & H9). destruct (Hp c Hc) as (c' & Hc' & Hid).
  destruct a, a'; cbn in *. injection Ha as -> -> -> -> -> -> -> -> ->. rewrite <-Ho in H1. rewrite <-Hb in H2. rewrite <-Hd in H3.
  split_and!; try done. exists c'. split_and!; [done|rewrite <-H7; injection Hid; done|rewrite <-H8; injection Hid; done|].
  by eapply origin_kept.
Qed.
Lemma same_invitations h h' : hi_invitations h' = hi_invitations h -> hi_listing h' = hi_listing h -> invitations_kept h h'.
Proof. intros Hv Hl. split; [intros v Hin; exists v; by rewrite Hv|intros l; by rewrite Hl]. Qed.

(** The other conditions, when the change only touches the applications and the
    statuses. *)
Lemma invitation_kept h h' v : people_kept h h' -> invitation_scope_digest h' (iv_creator_id v) = invitation_scope_digest h (iv_creator_id v) ->
  (exists c, c ∈ hi_candidates h /\ cd_creator_id c = iv_creator_id v /\ may_be_contacted c = true) ->
  exists c, c ∈ hi_candidates h' /\ cd_creator_id c = iv_creator_id v /\ may_be_contacted c = true.
Proof.
  intros Hp Hs (c & Hc & He & Hm). destruct (Hp c Hc) as (c' & Hc' & Hid). exists c'. split_and!; [done|rewrite <-He; injection Hid; done|].
  rewrite <-Hm. destruct c, c'; cbn in *. by injection Hid as -> -> -> -> -> -> -> -> ->.
Qed.
Lemma status_keys i s (l : list CreatorCandidate) :
  (identity_of <$> alter (fun c => c <| cd_status := s |>) i l) = identity_of <$> l.
Proof. by apply alter_key. Qed.
Lemma settled_keys creator (l : list CreatorCandidate) : (identity_of <$> (settle_candidate creator <$> l)) = identity_of <$> l.
Proof. rewrite <-list_fmap_compose. apply list_fmap_ext. intros i c _. unfold settle_candidate. cbn. by repeat case_match. Qed.
Lemma keys_of {B} (f : CreatorCandidate -> B) (l l' : list CreatorCandidate) : (forall c, f (identity_of c) = f c) ->
  (identity_of <$> l') = identity_of <$> l -> (f <$> l') = f <$> l.
Proof.
  intros Hf Hk. transitivity (f <$> (identity_of <$> l')); [rewrite <-list_fmap_compose; apply list_fmap_ext; intros; cbn; by rewrite Hf|].
  rewrite Hk, <-list_fmap_compose. apply list_fmap_ext. intros. cbn. by rewrite Hf.
Qed.

Lemma status_change_inv h s : hiring_inv h -> hi_status h <> HsAwarded -> s <> HsAwarded -> hiring_inv (h <| hi_status := s |>).
Proof. intros Hi Hn Hs. split; try apply Hi; cbn; [by intros _; apply (hv_open _ Hi)|done]. Qed.
Lemma shortlist_change_inv h now partner creator identity fit :
  hiring_inv h -> hi_status h <> HsAwarded ->
  (forall c, c ∈ hi_candidates h -> cd_creator_id c <> creator /\ cd_partner_id c <> pa_id partner) ->
  hiring_inv (h <| hi_candidates ::= fun l => l ++ [shortlisted partner creator identity fit now] |>).
Proof.
  intros Hi Hn Hnew. set (h' := h <| hi_candidates ::= _ |>).
  assert (people_kept h h') as Hp by (intros c Hc; exists c; split; [apply elem_of_app; by left|done]).
  assert (forall c, c ∈ hi_candidates h' -> c ∈ hi_candidates h \/ c = shortlisted partner creator identity fit now) as Hc.
  { intros c [Hc|Hc%list_elem_of_singleton]%elem_of_app; auto. }
  split; try apply Hi.
  - cbn. rewrite fmap_app. apply nodup_snoc; [apply Hi|]. intros (c & He & Hin)%list_elem_of_fmap. by destruct (Hnew c Hin).
  - cbn. rewrite fmap_app. apply nodup_snoc; [apply Hi|]. intros (c & He & Hin)%list_elem_of_fmap. by destruct (Hnew c Hin).
  - intros c [Hin| ->]%Hc; [by apply Hi|]. cbn. unfold can_contact. by intros ->.
  - intros c [Hin| ->]%Hc; [by apply Hi|]. cbn. intros [Hs|Hs]; destruct (can_contact partner) eqn:Hcc; done.
  - intros v Hv. destruct (hv_invitation _ Hi v Hv) as (H1 & H2 & H3). split_and!; [done| |done]. by eapply invitation_kept.
  - intros a Ha. apply (application_kept h _ a); [done|exact Hp|by apply same_invitations|done|by apply (hv_application _ Hi)].
  - intros _. destruct (hv_open _ Hi Hn) as (H1 & H2 & H3). split_and!; [done|done|]. intros c [Hin| ->]%Hc; [by apply H3|].
    cbn. by destruct (can_contact partner).
  - intros Hs. done.
Qed.
Lemma listing_change_inv h now proof : hiring_inv h -> hi_status h <> HsAwarded -> hi_listing h = None ->
  xp_scope_digest proof = listing_scope_digest h -> proof_is_valid proof now = true ->
  hiring_inv (h <| hi_listing := Some (mkListing proof) |>).
Proof.
  intros Hi Hn Hl Hs Hv. split; try apply Hi.
  - cbn. intros l [= <-]. split; [done|by exists now].
  - intros a Ha. apply (application_kept h _ a); [done|by apply people_kept_same| |done|by apply (hv_application _ Hi)].
    split; [intros v Hin; by exists v|]. by rewrite Hl.
  - done.
Qed.

(** The conditions on candidates after one of them got another status. *)
Lemma set_status_candidates h h' i c s :
  hiring_inv h -> hi_candidates h' = alter (fun c => c <| cd_status := s |>) i (hi_candidates h) -> hi_candidates h !! i = Some c ->
  cd_supply_class c <> PublicCandidate -> (s = CcContactable \/ s = CcInvitationPrepared -> may_be_contacted c = true) ->
  NoDup (cd_creator_id <$> hi_candidates h') /\ NoDup (cd_partner_id <$> hi_candidates h') /\ people_kept h h' /\
  (forall x, x ∈ hi_candidates h' -> x ∈ hi_candidates h \/ x = c <| cd_status := s |>) /\
  (forall x, x ∈ hi_candidates h' -> cd_supply_class x = PublicCandidate -> cd_status x = CcResearchOnly) /\
  (forall x, x ∈ hi_candidates h' -> cd_status x = CcContactable \/ cd_status x = CcInvitationPrepared -> may_be_contacted x = true).
Proof.
  intros Hi Heq Hc Hp Hm. pose proof (status_keys i s (hi_candidates h)) as Hk. rewrite <-Heq in Hk.
  assert (forall x, x ∈ hi_candidates h' -> x ∈ hi_candidates h \/ x = c <| cd_status := s |>) as Hx.
  { intros x Hx. rewrite Heq in Hx. apply elem_of_alter in Hx as [Hx|(y & Hy & ->)]; [by left|right]. by rewrite Hc in Hy; injection Hy as <-. }
  split_and!.
  - rewrite (keys_of cd_creator_id _ _ (fun _ => eq_refl) Hk). apply Hi.
  - rewrite (keys_of cd_partner_id _ _ (fun _ => eq_refl) Hk). apply Hi.
  - by apply people_kept_keys.
  - exact Hx.
  - intros x [Hin| ->]%Hx; [by apply Hi|]. cbn. done.
  - intros x [Hin| ->]%Hx; [by apply Hi|]. cbn. intros Hs. by rewrite <-(Hm Hs).
Qed.
Lemma prepare_change_inv h now i c effect :
  hiring_inv h -> hi_status h <> HsAwarded -> hi_candidates h !! i = Some c -> cd_status c = CcContactable ->
  hiring_inv (set_candidate_status i CcInvitationPrepared h <| hi_invitations ::= fun l =>
    l ++ [mkInvitation (cd_creator_id c) effect (invitation_scope_digest h (cd_creator_id c)) now None] |>).
Proof.
  intros Hi Hn Hc Hs. match goal with |- hiring_inv ?x => set (h' := x) end. assert (c ∈ hi_candidates h) as Hin by (by eapply list_elem_of_lookup_2).
  assert (may_be_contacted c = true) as Hm by (apply (hv_contact _ Hi c Hin); by left).
  assert (cd_supply_class c <> PublicCandidate) as Hp by (intros Hp; unfold may_be_contacted in Hm; by rewrite Hp in Hm).
  destruct (set_status_candidates h h' i c CcInvitationPrepared Hi eq_refl Hc Hp (fun _ => Hm)) as (H1 & H2 & Hk & Hx & H3 & H4).
  split; try done; try apply Hi.
  - intros v [Hv|Hv%list_elem_of_singleton]%elem_of_app.
    + destruct (hv_invitation _ Hi v Hv) as (Hv1 & Hv2 & Hv3). split_and!; [done| |done]. by eapply invitation_kept.
    + subst v. cbn. split_and!; [done| |done]. destruct (Hk c Hin) as (c' & Hc' & Hid). exists c'. split; [done|].
      destruct c, c'; cbn in *. injection Hid as -> -> -> -> -> -> -> -> ->. done.
  - intros a Ha. apply (application_kept h _ a); [done|exact Hk| |done|by apply (hv_application _ Hi)]. split; [|done].
    intros v Hv. exists v. split; [apply elem_of_app; by left|done].
  - intros _. destruct (hv_open _ Hi Hn) as (Ho1 & Ho2 & Ho3). split_and!; [done|done|]. intros x [Hin'| ->]%Hx; [by apply Ho3|done].
Qed.
Lemma invited_change_inv h now i c j v proof :
  hiring_inv h -> hi_status h <> HsAwarded -> hi_candidates h !! i = Some c -> hi_invitations h !! j = Some v ->
  cd_creator_id c = iv_creator_id v -> xp_effect_id proof = iv_effect_id v ->
  xp_scope_digest proof = invitation_scope_digest h (iv_creator_id v) -> proof_is_valid proof now = true ->
  hiring_inv (set_candidate_status i CcInvited (h <| hi_invitations ::= alter (fun v => v <| iv_proof := Some proof |>) j |>)).
Proof.
  intros Hi Hn Hc Hj Hcv He Hs Hv. match goal with |- hiring_inv ?x => set (h' := x) end. assert (c ∈ hi_candidates h) as Hin by (by eapply list_elem_of_lookup_2).
  assert (v ∈ hi_invitations h) as Hvin by (by eapply list_elem_of_lookup_2).
  destruct (hv_invitation _ Hi v Hvin) as (Hv1 & (c0 & Hc0 & Hcv0 & Hm) & _).
  assert (c0 = c) as -> by (eapply nodup_key; [apply (hv_creators _ Hi)|done..|congruence]).
  assert (cd_supply_class c <> PublicCandidate) as Hp by (intros Hp; unfold may_be_contacted in Hm; by rewrite Hp in Hm).
  destruct (set_status_candidates h h' i c CcInvited Hi eq_refl Hc Hp (fun _ => Hm)) as (H1 & H2 & Hk & Hx & H3 & H4).
  split; try done; try apply Hi.
  - intros x [Hxin|(y & Hy & ->)]%elem_of_alter.
    + destruct (hv_invitation _ Hi x Hxin) as (Hx1 & Hx2 & Hx3). split_and!; [done| |done]. by eapply invitation_kept.
    + rewrite Hj in Hy. injection Hy as <-. cbn. split_and!; [done| |].
      * apply (invitation_kept h h' v); [exact Hk|done|]. by exists c.
      * intros p [= <-]. split_and!; [done|congruence|by exists now].
  - intros a Ha. apply (application_kept h _ a); [done|exact Hk| |done|by apply (hv_application _ Hi)]. split; [|done].
    intros x Hxin. apply list_elem_of_lookup in Hxin as (k & Hkx). destruct (decide (j = k)) as [->|Hne].
    + rewrite Hj in Hkx. injection Hkx as <-. exists (v <| iv_proof := Some proof |>). split; [|done].
      apply list_elem_of_lookup. exists k. cbn. by rewrite list_lookup_alter_eq, Hj.
    + exists x. split; [|done]. apply list_elem_of_lookup. exists k. cbn. by rewrite list_lookup_alter_ne.
  - intros _. destruct (hv_open _ Hi Hn) as (Ho1 & Ho2 & Ho3). split_and!; [done|done|]. intros x [Hin'| ->]%Hx; [by apply Ho3|done].
Qed.

Lemma apply_change_inv h now i c input :
  hiring_inv h -> hi_status h <> HsAwarded -> hi_candidates h !! i = Some c ->
  cd_creator_id c = ai_creator_id input -> cd_partner_id c = ai_partner_id input ->
  valid_application_origin h c (applied input) = true ->
  ai_submitted_at input <= now -> ai_submitted_at input <= hi_application_deadline h ->
  trim_is_empty (ai_id input) = false -> ai_offer_digest input = offer_digest h -> ai_proposed_amount input = hi_bounty h ->
  is_sha256 (ai_proposal_digest input) = true -> is_sha256 (ai_rights_acknowledgement_digest input) = true ->
  (forall a, a ∈ hi_applications h -> an_id a <> ai_id input) ->
  hiring_inv (set_candidate_status i CcApplied h <| hi_applications ::= fun l => l ++ [applied input] |>
    <| hi_status := HsSelectionPending |>).
Proof.
  intros Hi Hn Hc Hcr Hpa Ho Ht Hd Hid Hof Ham Hpr Hri Hnew. match goal with |- hiring_inv ?x => set (h' := x) end.
  assert (c ∈ hi_candidates h) as Hin by (by eapply list_elem_of_lookup_2).
  pose proof (origin_not_public h c (applied input) Hi Hin Hcr Ho) as Hp.
  destruct (set_status_candidates h h' i c CcApplied Hi eq_refl Hc Hp) as (H1 & H2 & Hk & Hx & H3 & H4); [by intros [|]|].
  split; try done; try apply Hi.
  - intros v Hv. destruct (hv_invitation _ Hi v Hv) as (Hv1 & Hv2 & Hv3). split_and!; [done| |done]. by apply (invitation_kept h h' v).
  - cbn. rewrite fmap_app. apply nodup_snoc; [apply Hi|]. intros (a & He & Ha)%list_elem_of_fmap. by apply (Hnew a Ha).
  - intros a [Ha|Ha%list_elem_of_singleton]%elem_of_app.
    + apply (application_kept h _ a); [done|exact Hk|by apply same_invitations|done|by apply (hv_application _ Hi)].
    + subst a. apply (application_kept h _ (applied input)); [done|exact Hk|by apply same_invitations|done|].
      split_and!; try done. by exists c.
  - intros _. destruct (hv_open _ Hi Hn) as (Ho1 & Ho2 & Ho3). split_and!; [done| |].
    + intros a [Ha|Ha%list_elem_of_singleton]%elem_of_app; [by apply Ho2|by subst a].
    + intros x [Hin'| ->]%Hx; [by apply Ho3|done].
Qed.
Lemma withdraw_change_inv h i c j a s :
  hiring_inv h -> hi_status h <> HsAwarded -> s <> HsAwarded -> hi_candidates h !! i = Some c -> hi_applications h !! j = Some a ->
  cd_creator_id c = an_creator_id a ->
  hiring_inv (set_candidate_status i CcWithdrawn
    (h <| hi_applications ::= alter (set_application_status ApWithdrawn) j |>) <| hi_status := s |>).
Proof.
  intros Hi Hn Hs Hc Hj Hca. match goal with |- hiring_inv ?x => set (h' := x) end.
  assert (c ∈ hi_candidates h) as Hin by (by eapply list_elem_of_lookup_2).
  assert (a ∈ hi_applications h) as Hain by (by eapply list_elem_of_lookup_2).
  assert (cd_supply_class c <> PublicCandidate) as Hp.
  { destruct (hv_application _ Hi a Hain) as (_ & _ & _ & _ & _ & _ & c0 & Hc0 & Hcr & _ & Ho).
    assert (c0 = c) as -> by (eapply nodup_key; [apply (hv_creators _ Hi)|done..|congruence]). by apply (origin_not_public h c a). }
  destruct (set_status_candidates h h' i c CcWithdrawn Hi eq_refl Hc Hp) as (H1 & H2 & Hk & Hx & H3 & H4); [by intros [|]|].
  split; try done; try apply Hi.
  - intros v Hv. destruct (hv_invitation _ Hi v Hv) as (Hv1 & Hv2 & Hv3). split_and!; [done| |done]. by apply (invitation_kept h h' v).
  - cbn. rewrite alter_key by done. apply Hi.
  - intros x [Hxin|(y & Hy & ->)]%elem_of_alter.
    + apply (application_kept h _ x); [done|exact Hk|by apply same_invitations|done|by apply (hv_application _ Hi)].
    + apply (application_kept h _ y); [done|exact Hk|by apply same_invitations|done|].
      apply (hv_application _ Hi). by eapply list_elem_of_lookup_2.
  - intros _. destruct (hv_open _ Hi Hn) as (Ho1 & Ho2 & Ho3). split_and!; [done| |].
    + intros x [Hxin|(y & Hy & ->)]%elem_of_alter; [by apply Ho2|done].
    + intros x [Hin'| ->]%Hx; [by apply Ho3|done].
Qed.
Lemma settle_status id a : set_application_status ApActive (settle_application id a) = set_application_status ApActive a.
Proof. unfold settle_application. by repeat case_match. Qed.
Lemma award_change_inv h now a by_ evidence :
  hiring_inv h -> hi_status h = HsSelectionPending -> a ∈ hi_applications h -> an_status a = ApActive ->
  trim_is_empty by_ = false -> is_sha256 evidence = true ->
  hiring_inv (h <| hi_applications ::= fmap (settle_application (an_id a)) |>
    <| hi_candidates ::= fmap (settle_candidate (an_creator_id a)) |>
    <| hi_award := Some (award_for h a by_ evidence now) |> <| hi_status := HsAwarded |>).
Proof.
  intros Hi Hst Ha Hact Hby Hev. match goal with |- hiring_inv ?x => set (h' := x) end.
  assert (hi_status h <> HsAwarded) as Hn by congruence. destruct (hv_open _ Hi Hn) as (Ho1 & Ho2 & Ho3).
  pose proof (settled_keys (an_creator_id a) (hi_candidates h)) as Hk. change (_ <$> hi_candidates h) with (hi_candidates h') in Hk at 1.
  assert (people_kept h h') as Hp by (by apply people_kept_keys).
  assert (forall x, x ∈ hi_candidates h -> cd_creator_id x = an_creator_id a -> cd_supply_class x <> PublicCandidate) as Hpub.
  { intros x Hx He. destruct (hv_application _ Hi a Ha) as (_ & _ & _ & _ & _ & _ & c & Hc & Hcr & _ & Ho).
    assert (c = x) as -> by (eapply nodup_key; [apply (hv_creators _ Hi)|done..|congruence]). by apply (origin_not_public h x a). }
  split; try done; try apply Hi.
  - rewrite (keys_of cd_creator_id _ _ (fun _ => eq_refl) Hk). apply Hi.
  - rewrite (keys_of cd_partner_id _ _ (fun _ => eq_refl) Hk). apply Hi.
  - intros x (c & -> & Hc)%list_elem_of_fmap. unfold settle_candidate. case_bool_decide as Hcr; cbn.
    + intros Hps. by destruct (Hpub c Hc Hcr).
    + case_bool_decide as Hs; cbn; intros Hps; [|by apply Hi]. pose proof (hv_public _ Hi c Hc Hps). congruence.
  - intros x (c & -> & Hc)%list_elem_of_fmap. unfold settle_candidate. repeat case_bool_decide; cbn; [by intros [|]..|by apply Hi].
  - intros v Hv. destruct (hv_invitation _ Hi v Hv) as (Hv1 & Hv2 & Hv3). split_and!; [done| |done]. by apply (invitation_kept h h' v).
  - cbn. rewrite <-list_fmap_compose. rewrite (list_fmap_ext _ an_id); [apply Hi|]. intros i x _. cbn.
    unfold settle_application. by repeat case_match.
  - intros x (y & -> & Hy)%list_elem_of_fmap.
    apply (application_kept h _ y); [done|exact Hp|by apply same_invitations|apply settle_status|by apply (hv_application _ Hi)].
  - intros _. exists (set_application_status ApAwarded a), (award_for h a by_ evidence now). split; try done.
    + apply list_elem_of_fmap. exists a. split; [|done]. unfold settle_application. by rewrite bool_decide_eq_true_2.
    + intros x (y & -> & Hy)%list_elem_of_fmap. unfold settle_application, application_is_active. case_bool_decide as Hid; cbn.
      * split; [done|]. intros _. f_equal. eapply nodup_key; [apply (hv_ids _ Hi)|done..].
      * case_bool_decide as Hs; cbn; [done|]. split; [done|]. intros Haw. by destruct (Ho2 y Hy).
    + intros x (c & -> & Hc)%list_elem_of_fmap. unfold settle_candidate. cbn. case_bool_decide as Hcr; cbn; [done|].
      pose proof (Ho3 c Hc). case_bool_decide; cbn; split; done.
Qed.
Lemma hiring_change_inv h now d : hiring_inv h -> hiring_change h now d -> hiring_inv d.
Proof.
  intros Hi Hc. destruct Hc.
  - by apply status_change_inv.
  - by apply shortlist_change_inv.
  - by eapply listing_change_inv.
  - by apply prepare_change_inv.
  - by eapply invited_change_inv.
  - by eapply apply_change_inv.
  - by eapply withdraw_change_inv.
  - by apply award_change_inv.
Qed.
Lemma touched_inv h now : hiring_inv h -> hiring_inv (touched now h).
Proof. intros []. split; try done. intros Hs. destruct (hv_award0 Hs) as (a & w & []). exists a, w. by split. Qed.

(** ** Any calls *)
Fixpoint hiring_run (ks : list (HiringCall * DateTime)) (h : CreatorHiring) : CreatorHiring :=
  match ks with [] => h | (k, now) :: ks => hiring_run ks (run (hiring_call k now) h).2 end.
Lemma hiring_call_inv k now h : hiring_inv h -> hiring_inv (run (hiring_call k now) h).2.
Proof.
  intros Hi. pose proof (hiring_call_outcome k now h (hiring_inv_known h Hi)) as Ho. unfold hiring_outcome in Ho.
  destruct (run (hiring_call k now) h) as [[[]| |] h']; cbn in *.
  - destruct Ho as (d & Hc & -> & _). by eapply touched_inv, hiring_change_inv.
  - destruct Ho as [->|Hc]; [done|by eapply hiring_change_inv].
  - destruct Ho as [->|Hc]; [done|by eapply hiring_change_inv].
Qed.
Lemma hiring_run_inv ks h : hiring_inv h -> hiring_inv (hiring_run ks h).
Proof. revert h; induction ks as [|[k now] ks IH]; intros h Hi; [done|]. cbn. by apply IH, hiring_call_inv. Qed.
Lemma created_hiring_inv spec now h : hiring_create spec now = Ok h -> hiring_inv h.
Proof.
  unfold hiring_create. intros Hc. inv_run. split; cbn; try done; try (intros ? Hx; by apply not_elem_of_nil in Hx); try apply NoDup_nil_2.
  intros _. split_and!; [done|intros ? Hx; by apply not_elem_of_nil in Hx..].
Qed.
Lemma awarded_is_final k now h : hi_status h = HsAwarded -> hiring_inv h -> (run (hiring_call k now) h).2 = h.
Proof.
  intros Hs Hi. pose proof (hiring_call_outcome k now h (hiring_inv_known h Hi)) as Ho. unfold hiring_outcome in Ho.
  assert (forall d, ~ hiring_change h now d) as Hno by (intros d Hd; destruct Hd; congruence).
  destruct (run (hiring_call k now) h) as [[[]| |] h']; cbn in *.
  - destruct Ho as (d & Hc & _). by destruct (Hno d).
  - destruct Ho as [->|Hc]; [done|by destruct (Hno h')].
  - destruct Ho as [->|Hc]; [done|by destruct (Hno h')].
Qed.
Lemma awarded_stays ks h : hi_status h = HsAwarded -> hiring_inv h -> hiring_run ks h = h.
Proof.
  intros Hs Hi. induction ks as [|[k now] ks IH]; [done|]. cbn. by rewrite awarded_is_final.
Qed.

(** An award is earned and final. From a created hiring, after any calls,
    failing ones included: when an award is stored, exactly one application
    holds it; that application accepted the offer as it stands (its digest and
    the bounty), came in before the deadline, and reached the hiring over an
    invitation or a listing whose publication was verified; no other
    application is left active; and no later call changes anything. *)
Theorem award_is_earned_and_final spec now0 h0 ks more w :
  hiring_create spec now0 = Ok h0 ->
  let h := hiring_run ks h0 in
  hi_award h = Some w ->
  exists a, award_settled h a w /\ aw_offer_digest w = offer_digest h /\ aw_bounty w = hi_bounty h /\
    an_submitted_at a <= hi_application_deadline h /\
    (exists c, c ∈ hi_candidates h /\ cd_creator_id c = an_creator_id a /\ valid_application_origin h c a = true /\
       cd_supply_class c <> PublicCandidate) /\
    hiring_run more h = h.
Proof.
  intros Hc h Hw. assert (hiring_inv h) as Hi by (by eapply hiring_run_inv, created_hiring_inv).
  assert (hi_status h = HsAwarded) as Hs.
  { destruct (decide (hi_status h = HsAwarded)) as [|Hn]; [done|]. destruct (hv_open _ Hi Hn) as [Hno _]. congruence. }
  destruct (hv_award _ Hi Hs) as (a & w' & Haw). assert (w' = w) as -> by (pose proof (as_award _ _ _ Haw); congruence).
  pose proof (hv_application _ Hi a (as_winner _ _ _ Haw)) as (Hd & Hb & Ht & _ & _ & _ & c & Hcin & Hcr & _ & Ho).
  exists a. rewrite (as_terms _ _ _ Haw). cbn. split_and!; [by rewrite <-(as_terms _ _ _ Haw)|done|done|done| |by apply awarded_stays].
  exists c. split_and!; try done. by eapply origin_not_public.
Qed.

(** Nobody is invited without permission: whoever holds an invitation was
    shortlisted from a partner that could be contacted, and an invitation or a
    listing counts as delivered only with a valid proof of its own scope. *)
Theorem invitations_have_permission spec now0 h0 ks v :
  hiring_create spec now0 = Ok h0 ->
  let h := hiring_run ks h0 in
  v ∈ hi_invitations h ->
  (exists c, c ∈ hi_candidates h /\ cd_creator_id c = iv_creator_id v /\ may_be_contacted c = true) /\
  (forall p, iv_proof v = Some p -> xp_effect_id p = iv_effect_id v /\
     xp_scope_digest p = invitation_scope_digest h (iv_creator_id v) /\ exists t, proof_is_valid p t = true).
Proof.
  intros Hc h Hv. assert (hiring_inv h) as Hi by (by eapply hiring_run_inv, created_hiring_inv).
  destruct (hv_invitation _ Hi v Hv) as (H1 & H2 & H3). split; [done|]. intros p Hp. rewrite <-H1. by apply H3.
Qed.

(** ** Successful calls, and the check on an awarded hiring *)
Inductive hiring_built : CreatorHiring -> Prop :=
| BuiltCreated spec now h : hiring_create spec now = Ok h -> hiring_built h
| BuiltCall k now h h' : hiring_built h -> run (hiring_call k now) h = (Ok tt, h') -> hiring_built h'.

Record hiring_timed (h : CreatorHiring) : Prop := {
  ht_names : trim_is_empty (hi_id h) || trim_is_empty (hi_tenant_id h) || trim_is_empty (hi_project_id h)
    || trim_is_empty (hi_mission_id h) || trim_is_empty (hi_title h) || negb (is_sha256 (hi_brief_digest h))
    || negb (is_positive (hi_bounty h)) || trim_is_empty (hi_market h) = false;
  ht_deadlines : hi_created_at h < hi_application_deadline h < hi_due_at h;
  ht_times : hi_created_at h <= hi_updated_at h;
  ht_revision : 1 <= hi_state_revision h /\ (hi_status h <> HsDraft -> 2 <= hi_state_revision h);
  ht_candidate c : c ∈ hi_candidates h -> trim_is_empty (cd_creator_id c) = false /\ is_sha256 (cd_identity_evidence_digest c) = true /\
    is_sha256 (cd_fit_evidence_digest c) = true /\ hi_created_at h <= cd_added_at c <= hi_updated_at h;
  ht_application a : a ∈ hi_applications h -> an_submitted_at a <= hi_updated_at h;
  ht_award w a : hi_award h = Some w -> a ∈ hi_applications h -> an_submitted_at a <= aw_selected_at w <= hi_updated_at h;
}.
Definition same_contract (h h' : CreatorHiring) : Prop :=
  hi_id h' = hi_id h /\ hi_tenant_id h' = hi_tenant_id h /\ hi_project_id h' = hi_project_id h /\ hi_mission_id h' = hi_mission_id h /\
  hi_title h' = hi_title h /\ hi_brief_digest h' = hi_brief_digest h /\ hi_bounty h' = hi_bounty h /\ hi_market h' = hi_market h /\
  hi_application_deadline h' = hi_application_deadline h /\ hi_due_at h' = hi_due_at h /\ hi_created_at h' = hi_created_at h.
Lemma timed_change h now d :
  hiring_timed h -> hi_updated_at h <= now -> same_contract h d ->
  hi_state_revision d = hi_state_revision h ->
  (forall c, c ∈ hi_candidates d -> (exists c0, c0 ∈ hi_candidates h /\ identity_of c = identity_of c0) \/
     (trim_is_empty (cd_creator_id c) = false /\ is_sha256 (cd_identity_evidence_digest c) = true /\
      is_sha256 (cd_fit_evidence_digest c) = true /\ cd_added_at c = now)) ->
  (forall a, a ∈ hi_applications d -> (exists a0, a0 ∈ hi_applications h /\ an_submitted_at a = an_submitted_at a0) \/ an_submitted_at a <= now) ->
  (hi_award d = None \/ exists w, hi_award d = Some w /\ aw_selected_at w = now) ->
  hiring_timed (touched now d).
Proof.
  intros Ht Hn (E1 & E2 & E3 & E4 & E5 & E6 & E7 & E8 & E9 & E10 & E11) Hrev Hc Ha Hw.
  destruct Ht as [Hnm Hdl Htm [Hr _] Hca Hap _].
  assert (forall a, a ∈ hi_applications d -> an_submitted_at a <= now) as Hsub.
  { intros a [(a0 & Ha0 & ->)|Hs]%Ha; [|done]. specialize (Hap a0 Ha0). lia. }
  split; cbn; rewrite ?E1, ?E2, ?E3, ?E4, ?E5, ?E6, ?E7, ?E8, ?E9, ?E10, ?E11; try done; try lia.
  - intros c [(c0 & Hc0 & Hid)|(H1 & H2 & H3 & H4)]%Hc; [|split_and!; try done; lia].
    destruct (Hca c0 Hc0) as (H1 & H2 & H3 & H4). destruct c, c0; cbn in *. injection Hid as -> -> -> -> -> -> -> -> ->. split_and!; try done; lia.
  - intros w a Hwd Hin. specialize (Hsub a Hin). destruct Hw as [Hw|(w' & Hw & Hsel)]; [congruence|]. rewrite Hwd in Hw. injection Hw as ->. lia.
Qed.

Lemma created_hiring_timed spec now h : hiring_create spec now = Ok h -> hiring_timed h.
Proof.
  unfold hiring_create. intros Hc. inv_run. split_guards. split; cbn; try done; try lia;
    try (intros ? Hx; by apply not_elem_of_nil in Hx).
  rewrite !orb_false_iff, !negb_false_iff. split_and!; try done; try (by apply trim_not_blank). unfold is_positive. lia.
Qed.
Ltac kept_candidate := intros ? ?; left; eexists; split; [eassumption|reflexivity].
Lemma hiring_change_timed h now d :
  hiring_inv h -> hiring_timed h -> hi_updated_at h <= now -> hiring_change h now d -> hiring_timed (touched now d).
Proof.
  intros Hi Ht Hn Hc.
  assert (forall i s c, c ∈ alter (fun c => c <| cd_status := s |>) i (hi_candidates h) ->
    exists c0, c0 ∈ hi_candidates h /\ identity_of c = identity_of c0) as Halter.
  { intros i s c [Hin|(y & Hy & ->)]%elem_of_alter; [by exists c|]. exists y. split; [by eapply list_elem_of_lookup_2|done]. }
  assert (hi_status h <> HsAwarded -> hi_award h = None) as Hno by (intros; by apply (hv_open _ Hi)).
  destruct Hc; (apply (timed_change h now); [exact Ht|exact Hn|by repeat split|done|..]);
    try (cbn; by left; apply Hno); try (cbn; kept_candidate); 
    try (intros x Hx; left; first [exact (Halter i CcInvitationPrepared x Hx)|exact (Halter i CcInvited x Hx)
      |exact (Halter i CcApplied x Hx)|exact (Halter i CcWithdrawn x Hx)]).
  - intros c [Hin| ->%list_elem_of_singleton]%elem_of_app; [left; by exists c|right]. by split_and!.
  - intros a [Hin| ->%list_elem_of_singleton]%elem_of_app; [left; by exists a|right; cbn; lia].
  - intros x [Hin|(y & Hy & ->)]%elem_of_alter; left; [by exists x|]. exists y. split; [by eapply list_elem_of_lookup_2|done].
  - intros x (y & -> & Hy)%list_elem_of_fmap. left. exists y. split; [done|]. unfold settle_candidate. by repeat case_match.
  - intros x (y & -> & Hy)%list_elem_of_fmap. left. exists y. split; [done|]. unfold settle_application. by repeat case_match.
  - right. eexists. by split.
Qed.
Lemma hiring_built_inv h : hiring_built h -> hiring_inv h /\ hiring_timed h.
Proof.
  induction 1 as [spec now h Hc|k now h h' Hb [Hi Ht] Hr].
  - split; [by eapply created_hiring_inv|by eapply created_hiring_timed].
  - pose proof (hiring_call_outcome k now h (hiring_inv_known h Hi)) as Ho. rewrite Hr in Ho. destruct Ho as (d & Hc & Heq & Hn). cbn in Heq. subst h'.
    split; [by eapply touched_inv, hiring_change_inv|by eapply hiring_change_timed].
Qed.

(** The loops of the check. *)
Lemma candidates_validate_Ok h X Y l :
  NoDup (cd_creator_id <$> l) -> NoDup (cd_partner_id <$> l) ->
  (forall c, c ∈ l -> (cd_creator_id c ∉ X) /\ (cd_partner_id c ∉ Y)) ->
  (forall c, c ∈ l -> trim_is_empty (cd_creator_id c) = false /\ trim_is_empty (cd_partner_id c) = false /\
     is_sha256 (cd_identity_evidence_digest c) = true /\ is_sha256 (cd_fit_evidence_digest c) = true /\
     hi_created_at h <= cd_added_at c <= hi_updated_at h /\ permission_shape_valid c = true) ->
  candidates_validate h X Y l = Ok tt.
Proof.
  revert X Y; induction l as [|c l IH]; intros X Y Hn Hm HX Hok; [done|]. rewrite fmap_cons in Hn, Hm.
  apply NoDup_cons in Hn as [Hn1 Hn2], Hm as [Hm1 Hm2]. cbn [candidates_validate].
  destruct (Hok c (list_elem_of_here _ _)) as (H1 & H2 & H3 & H4 & H5 & H6). destruct (HX c (list_elem_of_here _ _)) as [H7 H8].
  rewrite bind_Ok. exists tt. split.
  - unfold contains. rewrite reject_if_Ok, H1, H2, H3, H4, H6, !bool_decide_eq_false_2 by done. cbn. rewrite !orb_false_r. lia.
  - apply IH; try done.
    + intros x Hx. destruct (HX x (list_elem_of_further _ _ _ Hx)) as [Hx1 Hx2]. split; rewrite not_elem_of_union, not_elem_of_singleton; (split; [|done]).
      * intros Heq. apply Hn1. rewrite <-Heq. by apply list_elem_of_fmap_2.
      * intros Heq. apply Hm1. rewrite <-Heq. by apply list_elem_of_fmap_2.
    + intros x Hx. apply Hok. by apply list_elem_of_further.
Qed.
Lemma applications_validate_Ok h X l :
  hiring_inv h -> NoDup (an_id <$> l) -> (forall a, a ∈ l -> an_id a ∉ X) ->
  (forall a, a ∈ l -> a ∈ hi_applications h /\ an_status a <> ApActive /\ an_submitted_at a <= hi_updated_at h /\
     forall c, c ∈ hi_candidates h -> cd_creator_id c = an_creator_id a -> cd_added_at c <= an_submitted_at a) ->
  applications_validate h X l = Ok tt.
Proof.
  intros Hi. revert X; induction l as [|a l IH]; intros X Hn HX Hok; [done|]. rewrite fmap_cons in Hn. apply NoDup_cons in Hn as [Hn1 Hn2].
  cbn [applications_validate]. destruct (Hok a (list_elem_of_here _ _)) as (Ha & Hact & Hup & Hadd).
  destruct (hv_application _ Hi a Ha) as (H1 & H2 & H3 & H4 & H5 & H6 & c & Hc & Hcr & Hpa & Ho).
  rewrite bind_Ok. exists c. split; [|rewrite bind_Ok; exists tt; split].
  - apply ok_or_Ok, find_unique; [done|by rewrite !bool_decide_eq_true_2|]. intros y Hy Hyc. split_guards.
    eapply nodup_key; [apply (hv_creators _ Hi)|done..|congruence].
  - specialize (Hadd c Hc Hcr). unfold contains.
    rewrite reject_if_Ok, H4, H5, H6, Ho, (bool_decide_eq_true_2 _ H1), (bool_decide_eq_true_2 _ H2), (bool_decide_eq_false_2 _ Hact),
      (bool_decide_eq_false_2 _ (HX a (list_elem_of_here _ _))). cbn. lia.
  - apply IH; [done| |].
    + intros x Hx. rewrite not_elem_of_union, not_elem_of_singleton. split; [|by apply HX, list_elem_of_further].
      intros Heq. apply Hn1. rewrite <-Heq. by apply list_elem_of_fmap_2.
    + intros x Hx. by apply Hok, list_elem_of_further.
Qed.
Lemma shape_accepted h c partner : hiring_inv h -> c ∈ hi_candidates h -> partner_permission_shape_valid partner = true ->
  cd_supply_class c = pa_supply_class partner -> cd_contact_permission c = pa_contact_permission partner ->
  cd_permission_evidence_digest c = pa_permission_evidence_digest partner -> permission_shape_valid c = true.
Proof.
  intros Hi Hc Hs H1 H2 H3. unfold partner_permission_shape_valid in Hs. rewrite <-H1, <-H2, <-H3 in Hs.
  assert (cd_contact_permission c = PermWithdrawn -> cd_status c <> CcInvitationPrepared) as Hw.
  { intros Hw Hp. pose proof (hv_contact _ Hi c Hc (or_intror Hp)) as Hm. unfold may_be_contacted in Hm. rewrite Hw in Hm.
    by destruct (cd_supply_class c). }
  unfold permission_shape_valid, valid_non_public_permission. case_bool_decide as Hp.
  - specialize (Hw Hp). apply andb_true_iff in Hs as [Hn He]. rewrite Hp, He, (bool_decide_eq_false_2 _ Hw).
    destruct (cd_supply_class c); done.
  - destruct (cd_supply_class c) eqn:Hcl; try (rewrite Hs; done). rewrite Hs. cbn. apply bool_decide_eq_true. by apply (hv_public _ Hi).
Qed.

Fixpoint all_succeed (ks : list (HiringCall * DateTime)) (h : CreatorHiring) : bool :=
  match ks with
  | [] => true
  | (k, now) :: ks => is_ok (run (hiring_call k now) h).1 && all_succeed ks (run (hiring_call k now) h).2
  end.
Lemma hiring_run_built ks h : hiring_built h -> all_succeed ks h = true -> hiring_built (hiring_run ks h).
Proof.
  revert h; induction ks as [|[k now] ks IH]; intros h Hb Hok; [done|]. cbn in *. apply andb_true_iff in Hok as [H1 H2]. apply IH; [|done].
  eapply (BuiltCall k now h); [done|]. destruct (run (hiring_call k now) h) as [[[]| |] h']; done.
Qed.
(** Every candidate was shortlisted from a partner that validates, and nobody
    applied before being shortlisted. *)
Definition from_valid_partners (h : CreatorHiring) : Prop :=
  forall c, c ∈ hi_candidates h -> exists partner, partner_validate partner = Ok tt /\ cd_partner_id c = pa_id partner /\
    cd_supply_class c = pa_supply_class partner /\ cd_contact_permission c = pa_contact_permission partner /\
    cd_permission_evidence_digest c = pa_permission_evidence_digest partner.
Definition applied_after_shortlisting (h : CreatorHiring) : Prop :=
  forall a c, a ∈ hi_applications h -> c ∈ hi_candidates h -> cd_creator_id c = an_creator_id a -> cd_added_at c <= an_submitted_at a.

Lemma award_accepted `{!Sha256Laws} h now : hiring_built h -> hi_status h = HsAwarded -> hi_updated_at h <= now -> applied_after_shortlisting h ->
  validate_hiring_applications_and_award h now = Ok tt.
Proof.
  intros Hb Hs Hn Hord. destruct (hiring_built_inv h Hb) as [Hi Ht]. destruct (hv_award _ Hi Hs) as (a & w & Haw).
  pose proof Haw as [Hw Ha Hterms [Hby Hev] Hst Hoth Hcand].
  destruct (hv_application _ Hi a Ha) as (Hd & Hbo & _ & _ & _ & _ & c & Hc & Hcr & Hpa & _).
  destruct (ht_award _ Ht w a Hw Ha) as [Hsel1 Hsel2].
  assert (awarded_applications h = [a]) as Hone.
  { apply (filter_unique an_id); [apply Hi|done|by apply bool_decide_eq_true_2|]. intros y Hy Hya%bool_decide_eq_true. by apply (Hoth y Hy). }
  unfold validate_hiring_applications_and_award. rewrite bind_Ok. exists tt. split.
  { apply applications_validate_Ok; [done|apply Hi|intros x _; apply not_elem_of_empty|]. intros x Hx.
    split_and!; [done|by apply Hoth|by apply (ht_application _ Ht)|intros; by eapply Hord]. }
  rewrite bind_Ok. exists w. split; [by apply ok_or_Ok|]. rewrite Hone, bind_Ok. exists c. split.
  { apply ok_or_Ok, find_unique; [done|by apply bool_decide_eq_true_2|]. intros y Hy Hyc. split_guards.
    eapply nodup_key; [apply (hv_creators _ Hi)|done..|congruence]. }
  rewrite reject_if_Ok. pose proof (ht_names _ Ht) as Hnames. split_guards. 
  assert (validates_task_scope w (hi_tenant_id h) (hi_project_id h) (hi_mission_id h) (an_creator_id a) (hi_bounty h) now = true) as ->.
  { unfold validates_task_scope. rewrite Hterms. unfold award_for.
    cbn [aw_hiring_id aw_tenant_id aw_project_id aw_mission_id aw_creator_id aw_bounty aw_selected_by aw_offer_digest
      aw_selection_evidence_digest aw_selected_at]. rewrite Hbo, !bool_decide_eq_true_2 by done.
    replace (trim_is_empty (hi_id h)) with false by done. rewrite Hby, Hev, Hd.
    assert (is_sha256 (offer_digest h) = true) as -> by apply is_sha256_hex. cbn. lia. }
  rewrite Hterms. cbn. rewrite Hd, !bool_decide_eq_true_2 by (done || by apply (Hcand c Hc)). cbn.
  rewrite (proj2 (Z.ltb_ge _ _)) by lia. rewrite (proj2 (Z.ltb_ge _ _)) by lia. cbn.
  apply existsb_false. intros x Hx. case_bool_decide as Hxc; [done|]. cbn. apply bool_decide_eq_false_2. intros Hxs. by apply Hxc, (Hcand x Hx).
Qed.

(** What the kernel awards, other devices accept. A hiring built by
    successful calls passes the check on an awarded snapshot, when it holds an
    award, its candidates came from valid partners, nobody applied before being
    shortlisted, and the Mission of that scope has the effects its listing and
    invitations name. *)
Theorem awarded_hiring_is_accepted `{!Sha256Laws} `{!SerdeScope} h mission now :
  hiring_built h -> hi_status h = HsAwarded -> from_valid_partners h -> applied_after_shortlisting h ->
  hi_updated_at h <= now -> ms_tenant_id mission = hi_tenant_id h -> ms_project_id mission = hi_project_id h ->
  ms_id mission = hi_mission_id h -> validate_hiring_external_paths h mission now = Ok tt ->
  validate_awarded_snapshot h mission now = Ok tt.
Proof.
  intros Hb Hs Hp Ho Hn Hten Hpro Hmis He. destruct (hiring_built_inv h Hb) as [Hi Ht]. unfold validate_awarded_snapshot.
  rewrite bind_Ok. exists tt. split; [|rewrite bind_Ok; exists tt; split].
  - unfold validate_awarded_hiring_contract. rewrite reject_if_Ok. pose proof (ht_names _ Ht) as Hnames. pose proof (ht_deadlines _ Ht).
    pose proof (ht_times _ Ht). pose proof (proj2 (ht_revision _ Ht) ltac:(congruence)). rewrite Hnames.
    rewrite (bool_decide_eq_true_2 _ Hten), (bool_decide_eq_true_2 _ Hpro), (bool_decide_eq_true_2 _ Hmis), (bool_decide_eq_true_2 _ Hs). cbn. lia.
  - apply candidates_validate_Ok; [apply Hi|apply Hi|intros; split; apply not_elem_of_empty|]. intros c Hc.
    destruct (ht_candidate _ Ht c Hc) as (Hc1 & Hc2 & Hc3 & Hc4). destruct (Hp c Hc) as (partner & Hv & Hid & Hcl & Hpe & Hev).
    unfold partner_validate in Hv. inv_run. split_guards. split_and!; try done; try lia; [by rewrite Hid|]. by eapply shape_accepted.
  - rewrite bind_Ok. exists tt. split; [exact He|]. by apply award_accepted.
Qed.
End guarantees.

(** ** A concrete hiring *)
Module HiringDemo.
Import Prelude.Fixture.
Definition bounty : Money := mkMoney 50000 "USD".
Definition spec : CreatorHiringSpec :=
  mkHiringSpec "hiring" "tenant" "project" "mission" "Launch video" zeros64 bounty "US" 1000 2000.
Definition drafted : CreatorHiring := match hiring_create spec 100 with Ok h => h | _ => mkHiring "" "" "" "" "" "" bounty "" 0 0 HsDraft [] None [] [] None 0 0 0 end.
Definition studio : Partner := mkPartner "partner" "tenant" "project" None None "Studio" HartevoOptIn ExplicitOptIn (Some zeros64) 1.
Definition published : CreatorExternalProof :=
  mkProof "listing-effect" "receipt" "verification" "market" "connection" "account" zeros64 zeros64 zeros64 125 126.
Definition application (submitted : DateTime) : CreatorApplicationInput :=
  mkApplicationInput "application" "creator" "partner" (VerifiedListing "listing-effect") zeros64 bounty zeros64 zeros64 submitted.
Definition calls (submitted : DateTime) : list (HiringCall * DateTime) :=
  [(HcOpen, 110); (HcShortlist studio "creator" zeros64 zeros64, 120); (HcListing published, 130); (HcApply (application submitted), 140);
   (HcAward "application" "owner" zeros64, 150)].
Definition award : CreatorHiringAward :=
  mkAward "hiring" "tenant" "project" "mission" "creator" "partner" "application" zeros64 bounty "owner" zeros64 150.
(** The Mission that published the listing. *)
Definition listing_effect : Effect :=
  mkEffect "tenant" "project" "mission"
    (mkSpec "listing-effect" "owner" "creator.task.publish" "market" (Some "connection") (Some "account") ∅ ExternalWrite "publish the task"
       "tasks" None zeros64 ∅ None "UTC" CNotRequired None None None None "v1" RiskLow "key" (mkMoney 0 "USD") 500)
    EVerified None (Some (mkReceipt "receipt" "market" "task-1" 125 zeros64 zeros64))
    (Some (mkVerification "verification" VConfirmed "readback" true 126 zeros64 "receipt")).
Definition mission : Mission := MissionFixture.Demo.mission <| ms_effects := [listing_effect] |>.

Lemma hiring_drafted_ok : hiring_create spec 100 = Ok drafted.
Proof. vm_compute. reflexivity. Qed.
Lemma award_is_earned_and_final_witness :
  hi_award (hiring_run (calls 135) drafted) = Some award /\
  hiring_run [(HcCancel, 160); (HcWithdraw "application", 170)] (hiring_run (calls 135) drafted) = hiring_run (calls 135) drafted.
Proof.
  assert (hi_award (hiring_run (calls 135) drafted) = Some award) as Hw by (vm_compute; reflexivity). split; [exact Hw|].
  destruct (award_is_earned_and_final spec 100 drafted (calls 135) [(HcCancel, 160); (HcWithdraw "application", 170)] award hiring_drafted_ok Hw)
    as (a & _ & _ & _ & _ & _ & Hf). exact Hf.
Defined.
Lemma built submitted : all_succeed (calls submitted) drafted = true -> hiring_built (hiring_run (calls submitted) drafted).
Proof. apply hiring_run_built. exact (BuiltCreated _ _ _ hiring_drafted_ok). Qed.
Lemma awarded_candidates : hi_candidates (hiring_run (calls 135) drafted) = [shortlisted studio "creator" zeros64 zeros64 120 <| cd_status := CcAwarded |>].
Proof. vm_compute. reflexivity. Qed.
Lemma awarded_hiring_is_accepted_witness :
  validate_awarded_snapshot (hiring_run (calls 135) drafted) mission 200 = Ok tt.
Proof.
  assert (hiring_built (hiring_run (calls 135) drafted)) as Hb by (apply built; vm_compute; reflexivity).
  assert (hi_status (hiring_run (calls 135) drafted) = HsAwarded) as Hs by (vm_compute; reflexivity).
  assert (from_valid_partners (hiring_run (calls 135) drafted)) as Hp.
  { intros c. rewrite awarded_candidates. intros ->%list_elem_of_singleton. exists studio. split; [vm_compute; reflexivity|].
    repeat split. }
  assert (applied_after_shortlisting (hiring_run (calls 135) drafted)) as Ho.
  { intros a c Ha. rewrite awarded_candidates. intros ->%list_elem_of_singleton _. revert a Ha.
    assert (hi_applications (hiring_run (calls 135) drafted) = [applied (application 135) <| an_status := ApAwarded |>]) as -> by (vm_compute; reflexivity).
    intros a ->%list_elem_of_singleton. cbn. lia. }
  assert (hi_updated_at (hiring_run (calls 135) drafted) <= 200) as Hn by (vm_compute; discriminate).
  assert (validate_hiring_external_paths (hiring_run (calls 135) drafted) mission 200 = Ok tt) as He by (vm_compute; reflexivity).
  assert (ms_tenant_id mission = hi_tenant_id (hiring_run (calls 135) drafted)) as H1 by (vm_compute; reflexivity).
  assert (ms_project_id mission = hi_project_id (hiring_run (calls 135) drafted)) as H2 by (vm_compute; reflexivity).
  assert (ms_id mission = hi_mission_id (hiring_run (calls 135) drafted)) as H3 by (vm_compute; reflexivity).
  exact (awarded_hiring_is_accepted (hiring_run (calls 135) drafted) mission 200 Hb Hs Hp Ho Hn H1 H2 H3 He).
Defined.

(** [apply] does not compare the time of an application with the time its
    creator was shortlisted, which the snapshot check does: a hiring may be
    awarded that no other device accepts. *)
Theorem early_application_is_awarded_and_rejected :
  all_succeed (calls 119) drafted = true /\ hi_award (hiring_run (calls 119) drafted) = Some award /\
  validate_hiring_external_paths (hiring_run (calls 119) drafted) mission 200 = Ok tt /\
  validate_awarded_snapshot (hiring_run (calls 119) drafted) mission 200 = Err HeInvalidSnapshot.
Proof. do 3 (split; [vm_compute; reflexivity|]). vm_compute. reflexivity. Qed.

(** [award] stores the award before [touch] refuses a time that lies before the
    last update: the caller gets an error and the hiring is awarded, without a
    new revision. *)
Theorem refused_award_is_kept :
  let before := hiring_run (take 4 (calls 135)) drafted in
  let result := run (hiring_award "application" "owner" zeros64 100) before in
  result.1 = Err HeInvalidTimestamp /\ hi_status result.2 = HsAwarded /\ hi_state_revision result.2 = hi_state_revision before.
Proof. do 2 (split; [vm_compute; reflexivity|]). vm_compute. reflexivity. Qed.
End HiringDemo.
